(* ===== verification/_CoqProject ===== *)
-Q . S2P
Prelude.v
Text.v
HttpxError.v
Json.v
QueryxError.v
SearchxError.v
AnalyticsxError.v
MgmtxError.v
Wire.v
MemdError.v
Codec.v
ExtFrame.v
Requests.v
OpsCore.v
OpsCrud.v
Response.v
Client.v
PendingOp.v
Scram.v
Bootstrap.v
CoreError.v
Vbucket.v
Retry.v
Collections.v
CrudOptions.v
Crud.v
KvClient.v
CrudOps.v
Config.v
Babysitter.v
Endpoints.v
Pool.v
ConfigManager.v
Agent.v
Durations.v
JsonScanner.v
JsonDecoder.v
RowStreamer.v
Http.v
RowReader.v
QueryReader.v
QueryxOptions.v
Query.v
PreparedQuery.v
EnsureIndex.v
CoreQueryOptions.v
Analytics.v
QueryComponent.v
FacadeError.v
SdkOptions.v
SubdocSpecs.v
MutationState.v
KvResults.v
Projection.v
SdkKvClient.v
Collection.v
DataStructures.v
AgentProvider.v
OnDemand.v
BucketSettings.v
Mgmt.v
MgmtUsers.v
MgmtHelpers.v
CoreMgmtOptions.v
MgmtComponent.v
SearchQueries.v
SearchOptions.v
SearchMgmtOptions.v
SearchReader.v
Search.v
SearchComponent.v
Diagnostics.v
SdkSearchQueries.v
SdkSearch.v
SdkQuery.v
SdkMgmt.v
SdkCollections.v
SdkIndexes.v
ConnStr.v
