(* ===== verification/Prelude.v ===== *)
(** * A verification library for the core of the Couchbase Rust SDK

    The program is [sdk/couchbase-core/src], the layer of the SDK that talks to a
    Couchbase cluster.  A key-value operation goes through these parts, from the
    caller to the wire and back:

    - the operation ([crudcomponent.rs]) turns the caller's options into a request
      and the response into a result that names the document;
    - the retry loop ([retry.rs]) runs the operation, maps its error to a reason
      and runs it again when the reason or the request's strategy allows it;
    - the collection resolver ([collectionresolver.rs],
      [collection_resolver_cached.rs]) turns scope and collection names into the
      numeric id that prefixes the key on the wire;
    - the vbucket router ([vbucketmap.rs], [vbucketrouter.rs]) hashes the key to a
      vbucket and picks the server; a not-my-vbucket answer brings a new config;
    - the endpoint manager and the pools ([kvendpointclientmanager.rs],
      [kvclientpool.rs], [kvclient_babysitter.rs]) keep connections to each server
      and hand one out; a new connection logs in first ([kvclient.rs],
      [memdx/op_bootstrap.rs], the SASL operations, [scram/src]);
    - the operation encoders ([memdx/ops_crud.rs], [memdx/ops_core.rs],
      [memdx/ops_util.rs]) build the request packet;
    - the client of the connection ([memdx/client.rs], [memdx/pendingop.rs])
      gives the request an opaque, writes it, routes the response with that opaque
      back to the caller, and handles deadlines, cancellation and closing;
    - the codec ([memdx/codec.rs], [memdx/extframe.rs]) frames packets as bytes;
    - the response decoders ([memdx/response.rs]) turn packets into results or
      errors.

    Beside it, configs arrive by polling, by push and with not-my-vbucket answers
    ([configmanager.rs], [configfetcher.rs]); the newest is parsed
    ([configparser.rs]) into what each component needs ([componentconfigs.rs]) and
    the agent ([agent.rs]) puts it in place.

    The query service is reached over HTTP: the component ([querycomponent.rs]) chooses
    an endpoint of the current config ([httpcomponent.rs]) and runs the query client
    there ([queryx/]), with the same retry loop; the client sends a JSON object, and
    reads the answer while it arrives, row by row ([httpx/decoder.rs],
    [httpx/scanner.rs], [httpx/raw_json_row_streamer.rs], [queryx/query_respreader.rs]).
    The analytics, the search and the management services are reached in the same way
    ([analyticscomponent.rs], [analyticsx/], [searchcomponent.rs], [searchx/],
    [mgmtcomponent.rs], [mgmtx/]).

    An application has one agent for the cluster and one for each bucket, made when it is
    first asked for ([ondemand_agentmanager.rs]).

    The crate [sdk/couchbase] is what an application sees: a collection
    ([collection_crud.rs], [collection_ds.rs]) whose operations wait for the agent of
    the bucket ([clients/agent_provider.rs]) and call it
    ([clients/couchbase_core_kv_client.rs]).  Queries, searches and management go the same
    way, each through a client that turns the options of the application into those of
    the agent and its answer into a result ([clients/], [management/]).

    The crate [sdk/couchbase-connstr] reads the connection string an application
    starts with.

    ** Files

    - [Prelude.v] (this file): results that can be errors or panics ([outcome]),
      machine arithmetic, byte buffers, the tactics and the shared lemmas.
    - [Text.v]: byte strings, splitting, decimal numbers, UTF-8; floating-point numbers.
    - [HttpxError.v]: the error type of the HTTP layer.
    - [Json.v]: JSON values ([serde_json::Value]); what is serialized, as a tree, and when
      fields can be told apart.
    - [QueryxError.v], [SearchxError.v], [AnalyticsxError.v], [MgmtxError.v]: the errors
      of the services, and the names in the messages of the query service.
    - [Wire.v]: the code tables of opcodes, statuses, features and frame codes.
    - [MemdError.v]: the error type of the protocol layer ([memdx/error.rs]).
    - [Codec.v]: packets and their framing; [encode], [decode_frame], [decode].
    - [ExtFrame.v]: framing-extra frames, durability, ULEB128 collection ids.
    - [Requests.v]: request records, sub-document operations, the [Dispatcher]
      interface (a type class) and [run_op], an operation run against it.
    - [OpsCore.v], [OpsCrud.v]: each operation as the dispatch call it makes.
    - [Response.v]: each response type and its decoder.
    - [Client.v]: one connection as a transition system ([step], [run],
      [reachable]) over the tasks that share it: callers that dispatch, receive,
      cancel and drop, the read loop, closing.  A step is what one task does
      between two suspension points or lock releases, so a run is any
      interleaving.
    - [PendingOp.v]: the deadline wrapper as a task polled against [Client.v], the
      [Dispatcher] instance of the client, closing.
    - [Scram.v], [Bootstrap.v]: the SCRAM client, and the handshake of a new
      connection against any server.
    - [CoreError.v]: the agent's error type and the retry request.
    - [Vbucket.v]: vbucket map, router interface and instance, not-my-vbucket loop.
    - [Retry.v]: reasons, strategies, backoff, error map, retry loop.
    - [Collections.v]: the cached collection resolver as a transition system over
      its concurrent callers, and the client of a resolver.
    - [CrudOptions.v]: the options and results of the operations, their setters.
    - [Crud.v]: the layers composed for one operation, the loop over connections
      ([kv_orchestration.rs]), value compression.
    - [KvClient.v]: the client of one connection: its construction and login, and
      each operation with the context its errors get ([kvclient.rs],
      [kvclient_ops.rs]); the interface [KvClientOps] of the layers above.
    - [CrudOps.v]: every operation of [crudcomponent.rs].
    - [Config.v]: the JSON config, its parsing, the network heuristic, the configs
      derived for the components.
    - [Babysitter.v]: the task that keeps one connection alive, as a transition
      system over builders, watchers and callers.
    - [Endpoints.v], [Pool.v]: the endpoint manager proved against an interface of
      pools ([KvClientPool], [KvClientPoolLaws]), the pool that implements it,
      itself on an interface of babysitters.
    - [ConfigManager.v]: choosing, fetching and polling configs, and the manager as
      a transition system over its tasks.
    - [Agent.v]: putting a config in place, and every way one reaches the agent.
    - [Durations.v]: durations as text, both ways ([helpers/durations.rs]).
    - [JsonScanner.v]: the byte-by-byte JSON scanner, proved against a grammar of JSON.
    - [JsonDecoder.v]: values and tokens out of a stream of chunks.
    - [RowStreamer.v]: the attributes and rows of a streamed answer.
    - [Http.v]: requests and responses, the HTTP client as an interface, the choice of
      an endpoint and its credentials, waiting for a resource with its pauses, the reasons
      operations over HTTP are sent again.
    - [QueryReader.v]: the answer of a query as rows, metadata and errors.
    - [QueryxOptions.v], [CoreQueryOptions.v]: the options of the query client and of
      the agent, their setters, and the JSON of a query's options.
    - [Query.v]: the query client: queries, index operations, pings.
    - [PreparedQuery.v]: prepared queries and the cache of plans they share.
    - [EnsureIndex.v]: asking every node for an index.
    - [QueryComponent.v]: the operations of the agent over all of these.
    - [RowReader.v]: readers of streamed answers, whatever their rows and metadata.
    - [Analytics.v]: the analytics service: the options, the client and its answers, the
      operations of the agent.
    - [SearchQueries.v], [SearchOptions.v], [SearchMgmtOptions.v]: queries, facets, sorts,
      options and indexes of the search service, and what they are written as.
    - [SearchReader.v], [Search.v], [SearchComponent.v]: hits, facets and errors of an
      answer; the client and its wait for an index; the operations of the agent.
    - [Diagnostics.v]: reports of connections, pings of every service, waiting until
      services are ready.
    - [FacadeError.v]: the errors of the public crate, every error of the agent as one of
      them, and a call of the agent by a client of the public crate.
    - [SdkOptions.v], [SubdocSpecs.v]: the options of the operations of a collection,
      the specifications of sub-document operations.
    - [MutationState.v]: mutation tokens, the newest of each vbucket, their JSON.
    - [KvResults.v]: transcoding, and the results of the operations.
    - [Projection.v]: documents built of some parts of a document.
    - [SdkKvClient.v]: the operations of a collection as calls of the agent, behind the
      interface [KvAgent].
    - [Collection.v]: the choice of the backend and the public operations.
    - [DataStructures.v]: lists, maps, sets and queues over the interface
      [DocumentOps]; the laws of versions [AtomicVersions] and a store that has them.
    - [AgentProvider.v]: waiting for an agent, as a transition system.
    - [OnDemand.v]: the agents of buckets, made on demand by concurrent callers, as a
      transition system.
    - [BucketSettings.v]: the settings of a bucket, their form and their document.
    - [Mgmt.v], [MgmtUsers.v]: the client of the management service: buckets, scopes and
      collections; users, groups and roles.
    - [MgmtHelpers.v]: polls of every node for a change.
    - [CoreMgmtOptions.v], [MgmtComponent.v]: the management operations of the agent.
    - [SdkSearchQueries.v], [SdkSearch.v]: searches of the public crate: what they are made
      of and what that becomes at the agent; the call, its rows, facets and metadata.
    - [SdkQuery.v]: queries of the public crate.
    - [SdkMgmt.v], [SdkCollections.v], [SdkIndexes.v]: management in the public crate:
      buckets and users; scopes and collections; indexes of both services.
    - [ConnStr.v]: connection strings, with the documented behaviour of regular
      expressions they rely on.

    ** What the theorems show

    - Codec: requests read back from the wire exactly, with whatever follows them;
      decoding does not depend on how the stream is cut; what every malformed
      frame does; which sizes are refused.  The code tables are lossless on input.
    - Encoders and operations: every operation, through all its layers, sends
      packets that carry exactly what its options ask for (refinement of
      [crud_intent]) and are encodable; sub-document bodies lose nothing.
    - Decoders: success is only reported on a success status; no input makes a
      decoder panic without overflow checks; sub-document results come back at
      their positions; the outcome of an operation names its document.
    - Client: responses go to the request with their opaque, at most one message
      per request, no waiting request is forgotten, delivery never blocks,
      cancellation is exclusive, a deadline is honoured without the server, closing
      answers everything; a request and its response end to end.
    - Login: SCRAM succeeds against a server that knows the password; nothing that
      needs a login is sent before one was accepted; a client that was made is
      logged in; no clear password without TLS unless asked for; the one step of
      the handshake that has no deadline.
    - Routing and retries: keys go to the server the map names; a not-my-vbucket
      answer of any operation reaches the config handler; the retry loop returns
      the last outcome with its history and does not resend a non-idempotent
      request whose connection was lost; backoff stays in its range; the error map
      with the highest revision is kept.
    - Connections: a caller can always get a client once one can be built; a lost
      client is replaced; the pool hands clients out in turn; the endpoint manager
      refines a map from endpoint to target.
    - Configs: parsed configs are well formed and their keys reach the node the map
      names; the manager keeps the newest config it saw; a config that is let
      through alone is applied; polling is fair and spaced; a new config takes
      effect, and no key is without a connection while it is put in place.
    - All layers together: a request sent to the wrong node or with a stale
      collection id is sent again with the new config or a fresh id; compression
      is transparent.
    - Collections: ids come from the server and are cached, one request per
      collection.
    - Streamed answers: the decoder reads exactly the values of the JSON grammar and
      does not depend on how the text is cut into chunks; the streamer hands out
      every row once and in order and the attributes of both sides; every call
      returns; a query's reader gives rows, then metadata or the error the server
      reported, and names the error the server marks as not worth a retry.
    - Queries: what a request carries; no name breaks out of a statement; a plan is
      only run for the statement it was made for, also with other calls at work;
      calls go to known endpoints with their credentials; which errors lead to a
      second attempt; a wait for an index ends when every node agrees.
    - Public operations: the entries of a lookup are at the positions of their
      specifications; an expiry is sent as the server reads it; the two ways to build a
      projection agree; a mutation state keeps the newest token of each vbucket; popping
      from a queue and removing from a set are atomic under other clients; who can wait
      for an agent for ever.
    - Agents of buckets: one per bucket, whoever asks; which callers can never have one.
    - Management: settings of a bucket survive a server that keeps them; roles with the same
      text are the same; a call succeeds only with the status it expects, and is not sent
      again once it was answered; a wait ends when every node has the change.
    - Analytics: an answer is read whole, in order and however it is cut; what an error names;
      the two reasons an analytics operation is sent again.
    - Search: the document of a query determines the query; hits, metadata and facets are
      read whole; the kinds of errors; what ends a wait; the three reasons to send again.
    - Diagnostics: a wait ends with every service that is asked for ready, or with an
      error; a ping reports just the services that are asked for.
    - Queries, searches and management of an application: which requests are refused, and
      that a refused one does not reach the agent; what each option becomes; the query of
      an application is determined by the document that is sent; the settings of a bucket
      are read as they were given, through every layer, and so are those of users and
      collections, as far as the numbers go.
    - Durations and connection strings read back as they were printed; what a
      connection string resolves to, and what is refused.
    - Some theorems state a behaviour the code does not intend: a long framing
      extra that does not read back, a preserve-expiry flag that cannot be turned
      off, a key-exists answer reported as a CAS mismatch, a dropped caller that
      closes the connection, callers of the resolver that wait for ever, a
      poisoned resolver, a router that misses the first server, an error map lost
      in a race, a request that is sent again after a failed flush, a SCRAM user
      name that is not escaped, a client that closed itself and stays in its pool,
      a config overtaken by an older one, a pool that panics once its endpoint is
      removed, an automatic network choice that never finds an alternate
      network, server messages that make the query client panic, a missing index
      that is never retried, a broken answer taken for a complete one, durations that
      overflow, an option of a connection string taken for its scheme, an agent that is
      announced before a caller listens, a durability that is not sent, flags that are
      lost, projections that overwrite each other, a bucket whose agent is never made after
      one failure, a uuid that is ignored, names that reach into other paths, a source
      of an index under a name the server does not know, a refresh that is never sent, a
      wait that does not wait, a timeout and an option that nothing reads, settings that
      panic when they are written back.

    ** Conventions, bounds and fuel

    Bytes are [Z] in a [list], machine integers [Z] with their wrap-around written
    out; operations that can overflow take the build [Profile] (overflow checks or
    not) and the theorems hold for both unless they say otherwise.  Lengths
    ([usize]) are assumed not to overflow.  Buffers passed as [&mut] are passed
    and returned; [HashMap]s are [gmap]s, and where the code iterates over one the
    order is a parameter.  Loops over input bytes take the number
    of bytes as fuel, which every round decreases; [make_uleb128_32_loop] takes
    five rounds, enough for 32 bits, and its theorem shows it terminates.  The
    retry loop takes the number of attempts as fuel and its theorem says when it
    has finished; the connection loop takes the number of clients tried.  A call
    of the upper layers ([action], [io]) may also not return.  The loops of the decoder
    and the streamer take the bytes that are left; the rows of an answer are read with
    [row_fuel], one round per byte.  The wait for an index and the watch of indexes
    take the number of polls.

    Parameters stand for code outside the repository: the snappy codec, the CRC
    of a key, [f32::powf], [f64::powi], the JSON parser, hash functions, base64, the
    random nonce of SCRAM, [reqwest], the [regex] and [url] crates, the DNS resolver,
    fresh identifiers and random choices.  Socket outcomes, packets
    of the peer and answers of the server are inputs of events.  Where a theorem relies
    on the behaviour of such code it is a named hypothesis ([regex_finds],
    [form_reads], a random choice in its range).

    ** Not modelled

    Sockets and TLS: pure I/O.  The construction of the agent and its first config:
    the wiring of the components that are modelled.  Formatting ([Display]) where nothing
    reads it.  The generated gRPC bindings, which nothing uses: the second back end of
    every client is [unimplemented!()], and the choice of a back end is all that is modelled
    of it ([ClientBackend]).  What passes calls on to the components that are modelled: the
    operations of the agent ([agent_ops.rs]), and the clusters, buckets and scopes of the
    public crate with the options they are made with. *)

From Stdlib Require Export ZArith Lia.
From stdpp Require Export base tactics list gmap strings pretty numbers.

#[global] Open Scope Z_scope.

(** ** Rust computations

    A Rust function that can return [Result<A, E>] and can also panic is an
    [outcome E A].  [Err] is the value a caller sees through [?]; [Panic] is an
    unwinding panic (slice index out of range, failed [expect], arithmetic
    overflow in a build with overflow checks). *)

Inductive outcome (E A : Type) : Type :=
| Ok (a : A)
| Err (e : E)
| Panic.
Arguments Ok {E A} a.
Arguments Err {E A} e.
Arguments Panic {E A}.

#[global] Instance outcome_ret {E} : MRet (outcome E) := λ A a, Ok a.
#[global] Instance outcome_bind {E} : MBind (outcome E) := λ A B f m,
  match m with Ok a => f a | Err e => Err e | Panic => Panic end.
#[global] Instance outcome_fmap {E} : FMap (outcome E) := λ A B f m,
  match m with Ok a => Ok (f a) | Err e => Err e | Panic => Panic end.

(** [is_ok m]: the call returned normally with a value. *)
Definition is_ok {E A} (m : outcome E A) : bool :=
  match m with Ok _ => true | _ => false end.

(** [Option::ok_or_else] / [if let Some(x) = o { .. } else { return Err(e) }]. *)
Definition ok_or {E A} (o : option A) (e : E) : outcome E A :=
  match o with Some a => Ok a | None => Err e end.

(** [Option::expect] / [Option::unwrap]. *)
Definition expect {E A} (o : option A) : outcome E A :=
  match o with Some a => Ok a | None => Panic end.

(** [Option::unwrap_or_default] at an integer type. *)
Definition unwrap_or_default (o : option Z) : Z := default 0 o.

(** ** Build profile

    Integer overflow panics in a build with overflow checks (the default of
    [cargo build]) and wraps around in one without them (the default of
    [cargo build --release]).  Definitions that contain an arithmetic operation
    that can overflow take the profile as an argument, and theorems quantify
    over it. *)
Class Profile := overflow_checks : bool.

Section Arith.
Context {P : Profile} {E : Type}.

(** [a + b], [a - b], [a * b] on an unsigned type of [w] bits. *)
Definition add_w (w a b : Z) : outcome E Z :=
  if a + b <? 2 ^ w then Ok (a + b)
  else if overflow_checks then Panic else Ok ((a + b) mod 2 ^ w).

Definition sub_w (w a b : Z) : outcome E Z :=
  if b <=? a then Ok (a - b)
  else if overflow_checks then Panic else Ok ((a - b) mod 2 ^ w).

Definition mul_w (w a b : Z) : outcome E Z :=
  if a * b <? 2 ^ w then Ok (a * b)
  else if overflow_checks then Panic else Ok ((a * b) mod 2 ^ w).

End Arith.

(** [x as uN]: truncating cast to an unsigned type of [w] bits. *)
Definition cast_u (w x : Z) : Z := x mod 2 ^ w.

(** Range of an unsigned [w]-bit integer. *)
Definition fits (w x : Z) : Prop := 0 <= x < 2 ^ w.

#[global] Instance fits_dec w x : Decision (fits w x).
Proof. unfold fits. apply _. Defined.

(** ** Record update

    [r <| p := v |>] is [r] with its field [p] set to [v], for a record type that says how it is
    put together from its fields. *)

Class Settable (R : Type) : Type := rebuild : R → R.
Class Setter {R A : Type} (p : R → A) : Type := set_field : A → R → R.
#[global] Arguments set_field {R A} p {_} v r.

Ltac build_setter p :=
  match type of p with
  | ?R → ?A =>
      let i := constr:(_ : Settable R) in
      let e := eval cbv delta [rebuild] in (i : R → R) in
      let e := eval hnf in e in
      match eval pattern p in e with
      | ?f _ => exact (λ v : A, f (λ _ : R, v))
      end
  end.
#[global] Hint Extern 1 (Setter ?p) => build_setter p : typeclass_instances.

Notation "r <| p := v |>" := (set_field p v r) (at level 1, left associativity, p at level 9, v at level 200).

(** ** Bytes *)

Definition byte_ok (b : Z) : Prop := 0 <= b < 256.
Abbreviation bytes := (list Z) (only parsing).
Abbreviation bytes_ok := (Forall byte_ok).

#[global] Instance byte_ok_dec b : Decision (byte_ok b).
Proof. unfold byte_ok. apply _. Defined.

(** [slice.len()] as a [usize]. *)
Definition blen {A} (l : list A) : Z := Z.of_nat (length l).

(** The length of an optional slice, 0 when absent. *)
Definition olen {A} (o : option (list A)) : Z :=
  match o with Some l => blen l | None => 0 end.

(** [uN::to_be_bytes] of the low [n] bytes of [x], and [uN::from_be_bytes]. *)
Fixpoint be_bytes (n : nat) (x : Z) : list Z :=
  match n with
  | O => []
  | S n' => (x / 256 ^ Z.of_nat n') mod 256 :: be_bytes n' x
  end.

Definition from_be (l : list Z) : Z := foldl (λ acc b, acc * 256 + b) 0 l.

(** Reading from the front of a buffer ([Buf::get_u8], [get_u16], [get_u32],
    [get_u64]): panics when fewer than [n] bytes remain. *)
Definition get_be {E} (n : nat) (buf : list Z) : outcome E (Z * list Z) :=
  if (n <=? length buf)%nat then Ok (from_be (take n buf), drop n buf) else Panic.

(** [BytesMut::split_to(n)]: panics when fewer than [n] bytes remain. *)
Definition split_to {E} (n : Z) (buf : list Z) : outcome E (list Z * list Z) :=
  if n <=? blen buf then Ok (take (Z.to_nat n) buf, drop (Z.to_nat n) buf)
  else Panic.

(** [&l[i..j]]: panics unless [i <= j <= l.len()]. *)
Definition slice {E} (i j : Z) (l : list Z) : outcome E (list Z) :=
  if (0 <=? i) && (i <=? j) && (j <=? blen l)
  then Ok (take (Z.to_nat (j - i)) (drop (Z.to_nat i) l)) else Panic.

(** [l[i]]: panics out of range. *)
Definition index {E} (l : list Z) (i : Z) : outcome E Z :=
  match l !! Z.to_nat i with Some b => Ok b | None => Panic end.

(** [l[i] = v]: panics out of range. *)
Definition store {E} (i v : Z) (l : list Z) : outcome E (list Z) :=
  if i <? blen l then Ok (<[Z.to_nat i := v]> l) else Panic.

(** [l[i..i + src.len()].copy_from_slice(src)]: panics out of range. *)
Definition copy_into {E} (i : Z) (src l : list Z) : outcome E (list Z) :=
  if i + blen src <=? blen l
  then Ok (take (Z.to_nat i) l ++ src ++ drop (Z.to_nat (i + blen src)) l)
  else Panic.

(** The bytes of a Rust string, and decimal rendering in [format!]. *)
Definition str_bytes (s : string) : list Z :=
  map (λ a, Z.of_nat (Ascii.nat_of_ascii a)) (String.list_ascii_of_string s).

Definition show (z : Z) : string := pretty z.

(** ** Automation

    [case_outcome] splits the first scrutinee of a bind or a test in the
    hypotheses; [byte_simp] rewrites with the list-length and big-endian
    lemmas collected in the [bytes] database. *)

Ltac simpl_outcome :=
  cbv [mret mbind fmap outcome_ret outcome_bind outcome_fmap ok_or expect] in *.

Ltac case_test :=
  match goal with
  | H : context [if decide ?c then _ else _] |- _ => destruct (decide c)
  | |- context [if decide ?c then _ else _] => destruct (decide c)
  | H : context [if ?c then _ else _] |- _ =>
      match type of c with bool => destruct c eqn:? end
  | |- context [if ?c then _ else _] =>
      match type of c with bool => destruct c eqn:? end
  end.

(** Boolean tests of the source as facts for [lia]. *)
Ltac prop_tests :=
  repeat match goal with
  | H : (_ && _) = true |- _ => apply andb_true_iff in H; destruct H
  | H : (_ && _) = false |- _ => apply andb_false_iff in H
  | H : (_ || _) = true |- _ => apply orb_true_iff in H
  | H : (_ || _) = false |- _ => apply orb_false_iff in H; destruct H
  | H : negb _ = true |- _ => apply negb_true_iff in H
  | H : negb _ = false |- _ => apply negb_false_iff in H
  | H : (_ <? _) = true |- _ => apply Z.ltb_lt in H
  | H : (_ <? _) = false |- _ => apply Z.ltb_ge in H
  | H : (_ <=? _) = true |- _ => apply Z.leb_le in H
  | H : (_ <=? _) = false |- _ => apply Z.leb_gt in H
  | H : (_ =? _) = true |- _ => apply Z.eqb_eq in H
  | H : (_ =? _) = false |- _ => apply Z.eqb_neq in H
  end.

(** A closed arithmetic or equational goal, by evaluation. *)
Ltac evaluate := repeat split; vm_compute; first [reflexivity | discriminate].

(** Rewriting a test whose value [lia] knows. *)
Ltac test_true b := let H := fresh in assert (b = true) as H by lia; rewrite H; clear H.
Ltac test_false b := let H := fresh in assert (b = false) as H by lia; rewrite H; clear H.

(** ** Generic lemmas *)

Create HintDb bytes.

Lemma pow256_pos n : 0 < 256 ^ Z.of_nat n.
Proof. apply Z.pow_pos_nonneg; lia. Qed.

Lemma pow256_S n : 256 ^ Z.of_nat (S n) = 256 * 256 ^ Z.of_nat n.
Proof. rewrite Nat2Z.inj_succ, Z.pow_succ_r by lia. done. Qed.

Lemma blen_nonneg {A} (l : list A) : 0 <= blen l.
Proof. unfold blen. lia. Qed.

Lemma olen_nonneg {A} (o : option (list A)) : 0 <= olen o.
Proof. destruct o; simpl; unfold blen; lia. Qed.

Lemma blen_app {A} (l k : list A) : blen (l ++ k) = blen l + blen k.
Proof. unfold blen. rewrite length_app. lia. Qed.

Lemma blen_cons {A} (x : A) l : blen (x :: l) = 1 + blen l.
Proof. unfold blen. simpl. lia. Qed.

Lemma blen_nil {A} : blen (@nil A) = 0.
Proof. done. Qed.

Lemma blen_zero {A} (l : list A) : blen l = 0 → l = [].
Proof. unfold blen. destruct l; simpl; [done | lia]. Qed.

Lemma blen_drop {A} n (l : list A) :
  0 <= n <= blen l → blen (drop (Z.to_nat n) l) = blen l - n.
Proof. unfold blen. rewrite length_drop. lia. Qed.

Lemma blen_take {A} n (l : list A) :
  0 <= n <= blen l → blen (take (Z.to_nat n) l) = n.
Proof. unfold blen. rewrite length_take. lia. Qed.

Lemma length_be_bytes n x : length (be_bytes n x) = n.
Proof. induction n as [|n IH]; simpl; [done | by rewrite IH]. Qed.

Lemma blen_be_bytes n x : blen (be_bytes n x) = Z.of_nat n.
Proof. unfold blen. by rewrite length_be_bytes. Qed.

Lemma be_bytes_ok n x : bytes_ok (be_bytes n x).
Proof.
  induction n as [|n IH]; simpl; constructor; [|done].
  apply Z.mod_pos_bound. lia.
Qed.

Lemma foldl_be_shift l acc :
  foldl (λ a b, a * 256 + b) acc l = acc * 256 ^ blen l + from_be l.
Proof.
  revert acc. induction l as [|b l IH]; intros acc; unfold from_be; simpl.
  - rewrite blen_nil. lia.
  - rewrite IH, (IH (0 * 256 + b)). unfold blen. simpl length.
    rewrite pow256_S. lia.
Qed.

Lemma from_be_cons b l : from_be (b :: l) = b * 256 ^ blen l + from_be l.
Proof. unfold from_be at 1. simpl. rewrite foldl_be_shift. lia. Qed.

Lemma from_be_nil : from_be [] = 0.
Proof. done. Qed.

Lemma from_be_app l k : from_be (l ++ k) = from_be l * 256 ^ blen k + from_be k.
Proof.
  induction l as [|b l IH]; simpl; [rewrite from_be_nil; lia|].
  rewrite !from_be_cons, IH, blen_app, Z.pow_add_r by apply blen_nonneg. lia.
Qed.

Lemma from_be_bound l : bytes_ok l → 0 <= from_be l < 256 ^ blen l.
Proof.
  induction 1 as [|b l Hb Hl IH]; [unfold from_be, blen; simpl; lia|].
  rewrite from_be_cons. unfold blen in *. simpl length. rewrite pow256_S.
  unfold byte_ok in Hb. nia.
Qed.

Lemma from_be_bytes n x : from_be (be_bytes n x) = x mod 256 ^ Z.of_nat n.
Proof.
  induction n as [|n IH]; [simpl; rewrite Z.mod_1_r; done|].
  change (be_bytes (S n) x)
    with ((x / 256 ^ Z.of_nat n) mod 256 :: be_bytes n x).
  rewrite from_be_cons, IH, blen_be_bytes, pow256_S.
  pose proof (pow256_pos n). rewrite (Z.mul_comm 256).
  rewrite Z.rem_mul_r by lia. lia.
Qed.

Lemma from_be_bytes_id n x :
  0 <= x < 256 ^ Z.of_nat n → from_be (be_bytes n x) = x.
Proof. intros H. rewrite from_be_bytes. by apply Z.mod_small. Qed.

Lemma be_bytes_add_mul n x k : be_bytes n (x + k * 256 ^ Z.of_nat n) = be_bytes n x.
Proof.
  revert k. induction n as [|n IH]; intros k; [done|]. simpl be_bytes.
  rewrite pow256_S. pose proof (pow256_pos n). f_equal.
  - replace (x + k * (256 * 256 ^ Z.of_nat n))
      with (x + (k * 256) * 256 ^ Z.of_nat n) by lia.
    rewrite Z.div_add by lia. rewrite Z.mod_add; lia.
  - replace (x + k * (256 * 256 ^ Z.of_nat n))
      with (x + (k * 256) * 256 ^ Z.of_nat n) by lia. apply IH.
Qed.

Lemma be_bytes_from_be l : bytes_ok l → be_bytes (length l) (from_be l) = l.
Proof.
  induction 1 as [|b l Hb Hl IH]; [done|]. simpl be_bytes.
  rewrite from_be_cons. pose proof (from_be_bound l Hl) as Hr.
  pose proof (pow256_pos (length l)). unfold blen in *. unfold byte_ok in Hb. f_equal.
  - rewrite Z.add_comm, Z.div_add, Z.div_small, Z.mod_small by lia. lia.
  - rewrite Z.add_comm, be_bytes_add_mul. exact IH.
Qed.

Lemma take_app_blen {A} (l k : list A) : take (Z.to_nat (blen l)) (l ++ k) = l.
Proof. unfold blen. rewrite Nat2Z.id. apply take_app_length. Qed.

Lemma drop_app_blen {A} (l k : list A) : drop (Z.to_nat (blen l)) (l ++ k) = k.
Proof. unfold blen. rewrite Nat2Z.id. apply drop_app_length. Qed.

Lemma split_to_app {E} (l k : list Z) :
  split_to (E:=E) (blen l) (l ++ k) = Ok (l, k).
Proof.
  unfold split_to. rewrite blen_app. pose proof (blen_nonneg k).
  test_true (blen l <=? blen l + blen k). by rewrite take_app_blen, drop_app_blen.
Qed.

Lemma split_to_panic {E} n (l : list Z) : blen l < n → split_to (E:=E) n l = Panic.
Proof. intros H. unfold split_to. by test_false (n <=? blen l). Qed.

Lemma get_be_app {E} n (l k : list Z) :
  length l = n → get_be (E:=E) n (l ++ k) = Ok (from_be l, k).
Proof.
  intros <-. unfold get_be. rewrite length_app.
  assert ((length l <=? length l + length k)%nat = true) as -> by (apply Nat.leb_le; lia).
  by rewrite take_app_length, drop_app_length.
Qed.

Lemma get_be_bytes {E} n x (k : list Z) :
  get_be (E:=E) n (be_bytes n x ++ k) = Ok (x mod 256 ^ Z.of_nat n, k).
Proof. rewrite get_be_app by apply length_be_bytes. by rewrite from_be_bytes. Qed.

#[export] Hint Rewrite @blen_app @blen_cons @blen_nil blen_be_bytes length_be_bytes : bytes.
#[export] Hint Resolve blen_nonneg olen_nonneg be_bytes_ok : bytes.

(** An optional slice as the codec writes it: nothing for [None]. *)
Definition obytes (o : option (list Z)) : list Z := default [] o.

Lemma blen_obytes o : blen (obytes o) = olen o.
Proof. by destruct o. Qed.

#[export] Hint Rewrite blen_obytes : bytes.

Ltac byte_simp := autorewrite with bytes in *.

(** Bit-field composition as arithmetic. *)
Lemma testbit_above x n i : 0 <= n <= i → 0 <= x < 2 ^ n → Z.testbit x i = false.
Proof.
  intros Hi Hx. destruct (decide (x = 0)) as [->|]; [apply Z.bits_0|].
  apply Z.bits_above_log2; [lia|].
  assert (Z.log2 x < n) by (apply Z.log2_lt_pow2; lia). lia.
Qed.

Lemma lor_shiftl_add hi lo n :
  0 <= n → 0 <= lo < 2 ^ n → Z.lor (Z.shiftl hi n) lo = hi * 2 ^ n + lo.
Proof.
  intros Hn Hlo. rewrite <-Z.shiftl_mul_pow2 by done. symmetry.
  rewrite Z.add_nocarry_lor; [done|].
  apply Z.bits_inj'. intros i Hi. rewrite Z.land_spec, Z.shiftl_spec, Z.bits_0 by done.
  destruct (decide (i < n)).
  - by rewrite Z.testbit_neg_r by lia.
  - rewrite (testbit_above lo n) by lia. apply andb_false_r.
Qed.

(** A decidable fact about every integer of a small range, by evaluation. *)
Lemma for_range (lo n : Z) (Q : Z → Prop) :
  Forall Q (seqZ lo n) → ∀ x, lo <= x < lo + n → Q x.
Proof. intros H x Hx. apply list.Forall_forall with (x := x) in H; [done|]. apply elem_of_seqZ. lia. Qed.

(** Computations that do not panic. *)
Lemma no_panic_bind {E A B} (m : outcome E A) (k : A → outcome E B) :
  m ≠ Panic → (∀ a, m = Ok a → k a ≠ Panic) → m ≫= k ≠ Panic.
Proof. destruct m; simpl; naive_solver. Qed.

Lemma bind_ok_inv {E A B} (m : outcome E A) (k : A → outcome E B) b :
  m ≫= k = Ok b → ∃ a, m = Ok a ∧ k a = Ok b.
Proof. destruct m; simpl; naive_solver. Qed.
