(* ===== verification/Text.v ===== *)
(** * Text and numbers: the parts of Rust's [str], slice and [f64] API the components share

    Text is a list of bytes.  [parse_uint] is [str::parse] for the unsigned
    integer types, [decimal] their [Display]; [split_on] is [split] on one byte. *)

From S2P Require Import Prelude.
From Stdlib Require Import SpecFloat.

Abbreviation DOT := 46 (only parsing).
Abbreviation COLON := 58 (only parsing).
Abbreviation BACKTICK := 96 (only parsing).
Abbreviation BLANK := 32 (only parsing).

(** [s.starts_with(pre)]. *)
Definition starts_with (pre l : list Z) : bool := bool_decide (take (length pre) l = pre).

(** [s.split(|b| b == c)]: never empty. *)
Fixpoint split_on (c : Z) (l : list Z) : list (list Z) :=
  match l with
  | [] => [[]]
  | b :: l =>
      if b =? c then [] :: split_on c l
      else match split_on c l with
           | piece :: pieces => (b :: piece) :: pieces
           | [] => [[b]]
           end
  end.

Definition is_digit (b : Z) : bool := (48 <=? b) && (b <=? 57).

(** The loop of [u16::from_str] and the like: each step is checked. *)
Fixpoint parse_digits (w acc : Z) (l : list Z) : option Z :=
  match l with
  | [] => Some acc
  | b :: l =>
      if is_digit b then
        let acc := acc * 10 + (b - 48) in
        if acc <? 2 ^ w then parse_digits w acc l else None
      else None
  end.

(** [text.parse::<uN>()]: a sign [+] is accepted, no digits are not. *)
Definition parse_uint (w : Z) (l : list Z) : option Z :=
  match l with
  | [] => None
  | [b] => if is_digit b then parse_digits w 0 [b] else None
  | b :: rest => if b =? 43 then parse_digits w 0 rest else parse_digits w 0 l
  end.

Fixpoint digits (fuel : nat) (n : Z) : list Z :=
  match fuel with
  | O => []
  | S fuel => if n <? 10 then [48 + n] else digits fuel (n / 10) ++ [48 + n mod 10]
  end.

(** [n.to_string()] of an unsigned integer. *)
Definition decimal (n : Z) : list Z := digits (S (Z.to_nat (Z.log2 n))) n.

(** Bytes as a [string]. *)
Definition bytes_string (l : list Z) : string :=
  fold_right (λ b s, String (Ascii.ascii_of_N (Z.to_N b)) s) "" l.

(** ** Lemmas *)

Lemma starts_with_app pre l : starts_with pre (pre ++ l) = true.
Proof. unfold starts_with. rewrite take_app_length. by apply bool_decide_true. Qed.

Lemma starts_with_inv pre l : starts_with pre l = true → l = pre ++ drop (length pre) l.
Proof.
  unfold starts_with. intros Ht%bool_decide_eq_true. rewrite <-(take_drop (length pre) l) at 1.
  by rewrite Ht.
Qed.

Lemma split_on_none c l : c ∉ l → split_on c l = [l].
Proof.
  induction l as [|b l IH]; intros Hc; [done|]. apply not_elem_of_cons in Hc as [Hb Hl]. simpl.
  rewrite IH by done. by destruct (Z.eqb_spec b c).
Qed.

Lemma split_on_app c l k : c ∉ l → split_on c (l ++ c :: k) = l :: split_on c k.
Proof.
  induction l as [|b l IH]; intros Hc; simpl.
  - by rewrite Z.eqb_refl.
  - apply not_elem_of_cons in Hc as [Hb Hl]. rewrite IH by done. by destruct (Z.eqb_spec b c).
Qed.

(** The pieces of a split joined again, and none of them holds the separator. *)
Fixpoint join_with (c : Z) (ls : list (list Z)) : list Z :=
  match ls with
  | [] => []
  | [l] => l
  | l :: ls => l ++ c :: join_with c ls
  end.

Lemma split_on_nonempty c l : split_on c l ≠ [].
Proof. destruct l as [|b l]; simpl; repeat case_match; done. Qed.

Lemma join_split c l : join_with c (split_on c l) = l.
Proof.
  induction l as [|b l IH]; [done|]. simpl.
  pose proof (split_on_nonempty c l) as Hne.
  destruct (Z.eqb_spec b c) as [->|Hb]; destruct (split_on c l) as [|p ps]; try done; simpl in *.
  - by f_equal.
  - destruct ps; simpl in *; by f_equal.
Qed.

Lemma split_join c ls :
  ls ≠ [] → Forall (λ l, c ∉ l) ls → split_on c (join_with c ls) = ls.
Proof.
  intros Hne. induction 1 as [|l ls Hl Hls IH]; [done|]. destruct ls as [|k ls].
  - by apply split_on_none.
  - change (join_with c (l :: k :: ls)) with (l ++ c :: join_with c (k :: ls)).
    rewrite split_on_app by done. by rewrite IH.
Qed.

Definition digits_value (l : list Z) (acc : Z) : Z := foldl (λ acc b, acc * 10 + (b - 48)) acc l.

Lemma digits_value_ge l acc : Forall (λ b, is_digit b = true) l → 0 <= acc → acc <= digits_value l acc.
Proof.
  intros Hl. revert acc. induction Hl as [|b l Hb Hl IH]; intros acc Ha; simpl; [lia|].
  unfold is_digit in Hb. specialize (IH (acc * 10 + (b - 48))). lia.
Qed.

Lemma parse_digits_ok w l acc :
  Forall (λ b, is_digit b = true) l → 0 <= acc → digits_value l acc < 2 ^ w →
  parse_digits w acc l = Some (digits_value l acc).
Proof.
  intros Hl. revert acc. induction Hl as [|b l Hb Hl IH]; intros acc Ha Hw; simpl in *; [done|].
  rewrite Hb. unfold is_digit in Hb.
  pose proof (digits_value_ge l (acc * 10 + (b - 48)) Hl ltac:(lia)).
  test_true (acc * 10 + (b - 48) <? 2 ^ w). apply IH; [lia|done].
Qed.

(** What is parsed fits its type. *)
Lemma parse_digits_fits w l acc n : fits w acc → parse_digits w acc l = Some n → fits w n.
Proof.
  revert acc. induction l as [|b l IH]; intros acc Ha; simpl; [by intros [= <-]|].
  unfold is_digit. intros Hp. repeat case_test; try done. eapply IH; [|done]. unfold fits in *. lia.
Qed.

Lemma parse_uint_fits w l n : 0 <= w → parse_uint w l = Some n → fits w n.
Proof.
  intros Hw Hp. assert (fits w 0) by (unfold fits; lia). unfold parse_uint in Hp.
  repeat case_match; try done; by eapply parse_digits_fits.
Qed.

Lemma digits_digit fuel n : 0 <= n → Forall (λ b, is_digit b = true) (digits fuel n).
Proof.
  revert n. induction fuel as [|fuel IH]; intros n Hn; simpl; [done|].
  unfold is_digit. case_test; [constructor; [lia|done]|].
  apply Forall_app. split; [apply IH; by apply Z.div_pos|].
  constructor; [|done]. pose proof (Z.mod_pos_bound n 10). lia.
Qed.

Lemma digits_value_app l k acc : digits_value (l ++ k) acc = digits_value k (digits_value l acc).
Proof. apply foldl_app. Qed.

Lemma digits_value_digits fuel n : 0 <= n < 10 ^ Z.of_nat fuel → digits_value (digits fuel n) 0 = n.
Proof.
  revert n. induction fuel as [|fuel IH]; intros n Hn; simpl in *; [change (10 ^ 0) with 1 in Hn; lia|].
  case_test; [unfold digits_value; simpl; lia|]. rewrite digits_value_app.
  rewrite Nat2Z.inj_succ, Z.pow_succ_r in Hn by lia.
  rewrite IH; [|split; [by apply Z.div_pos; lia|apply Z.div_lt_upper_bound; lia]].
  unfold digits_value. simpl. pose proof (Z.div_mod n 10). lia.
Qed.

Lemma digits_nonempty fuel n : digits (S fuel) n ≠ [].
Proof. simpl. case_match; [done|]. by destruct (digits fuel (n / 10)). Qed.

Lemma decimal_digits n : 0 <= n → Forall (λ b, is_digit b = true) (decimal n).
Proof. apply digits_digit. Qed.

(** Printing and parsing an unsigned integer. *)
Lemma parse_decimal w n : 0 <= w → fits w n → parse_uint w (decimal n) = Some n.
Proof.
  intros Hw [Hn Hlt]. pose proof (decimal_digits n Hn) as Hd.
  assert (digits_value (decimal n) 0 = n) as Hv.
  { apply digits_value_digits. split; [done|].
    destruct (decide (n = 0)) as [->|]; [apply Z.pow_pos_nonneg; lia|].
    eapply Z.lt_le_trans; [apply Z.log2_spec; lia|].
    rewrite Nat2Z.inj_succ, Z2Nat.id by apply Z.log2_nonneg.
    apply Z.pow_le_mono_l. lia. }
  assert (parse_digits w 0 (decimal n) = Some n) as Hp.
  { rewrite <-Hv at 2. apply parse_digits_ok; [done|lia|]. by rewrite Hv. }
  pose proof (digits_nonempty (Z.to_nat (Z.log2 n)) n) as Hne. fold (decimal n) in Hne.
  destruct (decimal n) as [|b l] eqn:He; [done|]. apply list.Forall_cons in Hd as [Hb _].
  unfold parse_uint. rewrite Hb. destruct l; [done|]. unfold is_digit in Hb.
  test_false (b =? 43). done.
Qed.

(** ** Characters of a string *)

(** [str::contains] with a character. *)
Fixpoint str_contains (c : Ascii.ascii) (s : string) : bool :=
  match s with
  | EmptyString => false
  | String a s => bool_decide (a = c) || str_contains c s
  end.

Lemma str_contains_app c s t : str_contains c (s +:+ t) = str_contains c s || str_contains c t.
Proof. induction s as [|a s IH]; simpl; [done|]. change (String.append s t) with (s +:+ t) in *. by rewrite IH, orb_assoc. Qed.

(** Text whose tail has no separator splits at the last one in one way. *)
Lemma last_separator_inj c a b s t :
  str_contains c s = false → str_contains c t = false →
  a +:+ String c s = b +:+ String c t → a = b ∧ s = t.
Proof.
  intros Hs Ht. revert b. induction a as [|x a IH]; intros [|y b]; simpl; intros H; injection H.
  - done.
  - intros -> _. rewrite str_contains_app in Hs. simpl in Hs.
    rewrite bool_decide_true, orb_true_r in Hs by done. done.
  - intros <- _. rewrite str_contains_app in Ht. simpl in Ht.
    rewrite bool_decide_true, orb_true_r in Ht by done. done.
  - intros Hab ->. by destruct (IH b Hab) as [-> ->].
Qed.

Definition decimal_char (c : Ascii.ascii) : bool :=
  (48 <=? Z.of_nat (Ascii.nat_of_ascii c)) && (Z.of_nat (Ascii.nat_of_ascii c) <=? 57).

Lemma pretty_N_go_contains c x s :
  decimal_char c = false → str_contains c (pretty_N_go x s) = str_contains c s.
Proof.
  intros Hc. revert s. induction (N.lt_wf_0 x) as [x _ IH]; intros s.
  destruct (decide (x = 0)%N) as [->|Hx]; [done|]. rewrite pretty_N_go_step by lia.
  rewrite IH by (apply N.div_lt; lia). simpl.
  rewrite bool_decide_false; [done|]. intros <-. revert Hc. unfold pretty_N_char.
  repeat case_match; done.
Qed.

(** Decimal text of a natural number has only digits. *)
Lemma show_contains c z : 0 <= z → decimal_char c = false → str_contains c (show z) = false.
Proof.
  intros Hz Hc. unfold show, pretty, pretty_Z. destruct z as [|p|p]; [|..|lia].
  - simpl. rewrite orb_false_r. apply bool_decide_false. by intros <-.
  - unfold pretty, pretty_positive, pretty, pretty_N. rewrite decide_False by done.
    by rewrite pretty_N_go_contains.
Qed.

(** [names.join(",")]. *)
Fixpoint join_commas (l : list string) : string :=
  match l with
  | [] => ""
  | [x] => x
  | x :: l => x +:+ "," +:+ join_commas l
  end.

Lemma app_cons a s x : String a s +:+ x = String a (s +:+ x).
Proof. done. Qed.

Lemma string_app_assoc (a b c : string) : (a +:+ b) +:+ c = a +:+ (b +:+ c).
Proof. induction a as [|x a IH]; [done|]. rewrite !app_cons. by rewrite IH. Qed.

(** Text whose head has no separator splits at the first one in one way. *)
Lemma first_separator_inj c a b s t :
  str_contains c a = false → str_contains c b = false →
  a +:+ String c s = b +:+ String c t → a = b ∧ s = t.
Proof.
  revert b. induction a as [|x a IH]; intros [|y b]; simpl; intros Ha Hb H; injection H.
  - done.
  - intros _ <-. by rewrite bool_decide_true in Hb.
  - intros _ ->. by rewrite bool_decide_true in Ha.
  - intros Hab ->. apply orb_false_iff in Ha as [_ Ha], Hb as [_ Hb]. by destruct (IH b Ha Hb Hab) as [-> ->].
Qed.

Lemma no_separator c a b s : str_contains c a = false → a = b +:+ String c s → False.
Proof. intros Ha ->. rewrite str_contains_app in Ha. simpl in Ha. by rewrite bool_decide_true, orb_true_r in Ha. Qed.

(** * Double-precision numbers

    [f64] is IEEE 754 binary64 as the Standard Library's [spec_float].  The lemmas say
    when arithmetic on whole numbers is exact. *)

Definition f64_of_Z (x : Z) : spec_float := binary_normalize 53 1024 x 0 false.
Definition f64_div (x y : spec_float) : spec_float := SFdiv 53 1024 x y.
Definition f64_mul (x y : spec_float) : spec_float := SFmul 53 1024 x y.

(** [x as uN]: truncation, saturating, 0 for NaN. *)
Definition f64_as_uint (w : Z) (x : spec_float) : Z :=
  match x with
  | S754_zero _ | S754_nan | S754_finite true _ _ | S754_infinity true => 0
  | S754_infinity false => 2 ^ w - 1
  | S754_finite false m e =>
      Z.min (2 ^ w - 1) (if 0 <=? e then Zpos m * 2 ^ e else Zpos m / 2 ^ (- e))
  end.

(** ** Exact arithmetic *)

Lemma digits2_log2 m : 0 < m → Zdigits2 m = Z.log2 m + 1.
Proof.
  intros Hm. destruct m as [|p|p]; [lia| |lia]. cbn [Zdigits2]. clear Hm.
  induction p as [p IH|p IH|]; cbn [digits2_pos]; [..|done];
    rewrite Pos2Z.inj_succ, IH.
  - change (Zpos p~1) with (2 * Zpos p + 1). rewrite Z.log2_succ_double by lia. lia.
  - change (Zpos p~0) with (2 * Zpos p). rewrite Z.log2_double by lia. lia.
Qed.

Lemma iter_pos_nat {A} (f : A → A) p x : iter_pos f p x = Nat.iter (Pos.to_nat p) f x.
Proof.
  revert x. induction p as [p IH|p IH|]; intros x; cbn [iter_pos].
  - rewrite !IH, Pos2Nat.inj_xI. replace (S (2 * Pos.to_nat p)) with (Pos.to_nat p + (Pos.to_nat p + 1))%nat by lia.
    by rewrite !Nat.iter_add.
  - rewrite !IH, Pos2Nat.inj_xO. replace (2 * Pos.to_nat p)%nat with (Pos.to_nat p + Pos.to_nat p)%nat by lia.
    by rewrite Nat.iter_add.
  - done.
Qed.

Lemma shr_1_even m : 0 < m → shr_1 (Build_shr_record (2 * m) false false) = Build_shr_record m false false.
Proof. intros Hm. by destruct m as [|p|p]. Qed.

Lemma shr_exact m e n :
  0 < m → 0 <= n →
  shr (Build_shr_record (m * 2 ^ n) false false) e n = (Build_shr_record m false false, e + n).
Proof.
  intros Hm Hn. destruct n as [|p|p]; [|clear Hn|lia].
  { cbn [shr]. by rewrite Z.mul_1_r, Z.add_0_r. }
  unfold shr. f_equal. rewrite iter_pos_nat. rewrite <- (positive_nat_Z p).
  induction (Pos.to_nat p) as [|k IH]; [by rewrite Z.mul_1_r|].
  rewrite Nat.iter_succ_r.
  rewrite Nat2Z.inj_succ, Z.pow_succ_r by lia.
  replace (m * (2 * 2 ^ Z.of_nat k)) with (2 * (m * 2 ^ Z.of_nat k)) by lia.
  rewrite shr_1_even; [apply IH|]. apply Z.mul_pos_pos; [done|]. apply Z.pow_pos_nonneg; lia.
Qed.

(** A mantissa of at most 53 digits, up to trailing zeros, is not rounded. *)
Lemma round_exact m k e :
  0 < m < 2 ^ 53 → 0 <= k → -1074 <= e + k → e + k <= 971 →
  let n := Z.max 0 (Z.log2 m + 1 + k - 53) in
  -1074 <= e → 
  binary_round_aux 53 1024 false (m * 2 ^ k) e loc_Exact
  = S754_finite false (Z.to_pos (m * 2 ^ (k - n))) (e + n).
Proof.
  intros Hm Hk He1 He2 n He.
  assert (Z.log2 m <= 52) as Hlog by (assert (Z.log2 m < 53) by (apply Z.log2_lt_pow2; lia); lia).
  pose proof (Z.log2_nonneg m) as Hl0.
  assert (0 <= n <= k) as Hn by lia.
  assert (0 < m * 2 ^ (k - n)) as Hpos by (apply Z.mul_pos_pos; [lia|apply Z.pow_pos_nonneg; lia]).
  assert (m * 2 ^ k = m * 2 ^ (k - n) * 2 ^ n) as Hsplit
    by (rewrite <- Z.mul_assoc, <- Z.pow_add_r by lia; do 2 f_equal; lia).
  unfold binary_round_aux.
  assert (shr_fexp 53 1024 (m * 2 ^ k) e loc_Exact
    = (Build_shr_record (m * 2 ^ (k - n)) false false, e + n)) as ->.
  { unfold shr_fexp. cbn [shr_record_of_loc].
    rewrite digits2_log2 by (apply Z.mul_pos_pos; [lia|apply Z.pow_pos_nonneg; lia]).
    rewrite Z.log2_mul_pow2 by lia. unfold fexp, emin.
    assert (n = 0 ∧ Z.log2 m + 1 + k - 53 <= 0 ∨ 0 < n ∧ n = Z.log2 m + 1 + k - 53) as [[Hn0 Hle]|[Hn0 Heq]] by lia.
    - assert (∃ x, Z.max (k + Z.log2 m + 1 + e - 53) (3 - 1024 - 53) - e = - x ∧ 0 <= x) as (x & -> & Hx)
        by (eexists (- _); split; [symmetry; apply Z.opp_involutive|lia]).
      rewrite Hn0, Z.sub_0_r, Z.add_0_r. destruct x; [done|done|lia].
    - replace (Z.max (k + Z.log2 m + 1 + e - 53) (3 - 1024 - 53) - e) with n by lia.
      rewrite Hsplit. by apply shr_exact; lia. }
  cbn [shr_m loc_of_shr_record round_nearest_even].
  assert (shr_fexp 53 1024 (m * 2 ^ (k - n)) (e + n) loc_Exact
    = (Build_shr_record (m * 2 ^ (k - n)) false false, e + n)) as ->.
  { unfold shr_fexp. cbn [shr_record_of_loc]. rewrite digits2_log2 by done.
    rewrite Z.log2_mul_pow2 by lia. unfold fexp, emin.
    assert (∃ x, Z.max (k - n + Z.log2 m + 1 + (e + n) - 53) (3 - 1024 - 53) - (e + n) = - x ∧ 0 <= x)
      as (x & -> & Hx) by (eexists (- _); split; [symmetry; apply Z.opp_involutive|lia]).
    destruct x; [done|done|lia]. }
  cbn [shr_m]. destruct (m * 2 ^ (k - n)) as [|p|p]; [lia| |lia].
  cbn [Z.to_pos]. by test_true (e + n <=? 1024 - 53).
Qed.

Lemma iter_xO p k : Zpos (Pos.iter xO p k) = Zpos p * 2 ^ Zpos k.
Proof.
  induction k as [|k IH] using Pos.peano_ind; [cbn; lia|].
  rewrite Pos.iter_succ, Pos2Z.inj_succ. rewrite Z.pow_succ_r by apply Pos2Z.is_nonneg.
  change (Zpos (Pos.iter xO p k)~0) with (2 * Zpos (Pos.iter xO p k)). rewrite IH. lia.
Qed.

(** The whole numbers below [2 ^ 53] are represented exactly. *)
Lemma f64_of_Z_shape a :
  0 < a < 2 ^ 53 →
  f64_of_Z a = S754_finite false (Z.to_pos (a * 2 ^ (52 - Z.log2 a))) (Z.log2 a - 52).
Proof.
  intros Ha. assert (0 <= Z.log2 a <= 52) as Hl.
  { split; [apply Z.log2_nonneg|]. assert (Z.log2 a < 53) by (apply Z.log2_lt_pow2; lia). lia. }
  unfold f64_of_Z, binary_normalize. destruct a as [|p|p]; [lia| |lia]. unfold binary_round.
  change (Zpos (digits2_pos p)) with (Zdigits2 (Zpos p)). rewrite digits2_log2 by lia.
  unfold fexp at 1, emin.
  replace (Z.max (Z.log2 (Zpos p) + 1 + 0 - 53) (3 - 1024 - 53)) with (Z.log2 (Zpos p) - 52) by lia.
  set (s := 52 - Z.log2 (Zpos p)).
  assert (shl_align p 0 (Z.log2 (Zpos p) - 52) = (Z.to_pos (Zpos p * 2 ^ s), - s)) as ->.
  { unfold shl_align. replace (Z.log2 (Zpos p) - 52 - 0) with (- s) by lia.
    destruct s as [|k|k] eqn:Hs; [by rewrite Z.mul_1_r| |lia]. cbn [Z.opp]. f_equal; [|lia].
    apply Pos2Z.inj. rewrite iter_xO, Z2Pos.id; [done|]. apply Z.mul_pos_pos; [lia|apply Z.pow_pos_nonneg; lia]. }
  cbv iota beta. rewrite Z2Pos.id by (apply Z.mul_pos_pos; [lia|apply Z.pow_pos_nonneg; lia]).
  rewrite round_exact by lia. f_equal; [f_equal|lia].
  replace (Z.max 0 (Z.log2 (Zpos p) + 1 + s - 53)) with 0 by lia. by rewrite Z.sub_0_r.
Qed.

(** Their products, too. *)
Lemma f64_mul_exact a b :
  0 < a → 0 < b → a * b < 2 ^ 53 →
  ∃ k, 0 <= k ∧ f64_mul (f64_of_Z a) (f64_of_Z b) = S754_finite false (Z.to_pos (a * b * 2 ^ k)) (- k).
Proof.
  intros Ha Hb Hab.
  assert (a < 2 ^ 53 ∧ b < 2 ^ 53) as [Ha' Hb'] by nia.
  rewrite !f64_of_Z_shape by lia. unfold f64_mul, SFmul. cbn [xorb].
  assert (0 <= Z.log2 a <= 52 ∧ 0 <= Z.log2 b <= 52) as [Hla Hlb].
  { assert (Z.log2 a < 53 ∧ Z.log2 b < 53) as [? ?] by (split; apply Z.log2_lt_pow2; lia).
    pose proof (Z.log2_nonneg a). pose proof (Z.log2_nonneg b). lia. }
  set (i := 52 - Z.log2 a). set (j := 52 - Z.log2 b).
  rewrite Pos2Z.inj_mul, !Z2Pos.id by (apply Z.mul_pos_pos; [lia|apply Z.pow_pos_nonneg; lia]).
  replace (a * 2 ^ i * (b * 2 ^ j)) with (a * b * 2 ^ (i + j)) by (rewrite Z.pow_add_r by lia; lia).
  replace (Z.log2 a - 52 + (Z.log2 b - 52)) with (- (i + j)) by lia.
  rewrite round_exact by nia.
  set (n := Z.max 0 (Z.log2 (a * b) + 1 + (i + j) - 53)).
  assert (Z.log2 (a * b) <= 52) by (assert (Z.log2 (a * b) < 53) by (apply Z.log2_lt_pow2; nia); lia).
  exists (i + j - n). split; [lia|]. f_equal. lia.
Qed.

Lemma f64_mul_as_uint w a b :
  0 < a → 0 < b → a * b < 2 ^ 53 → 53 <= w →
  f64_as_uint w (f64_mul (f64_of_Z a) (f64_of_Z b)) = a * b.
Proof.
  intros Ha Hb Hab Hw. destruct (f64_mul_exact a b Ha Hb Hab) as (k & Hk & ->). cbn [f64_as_uint].
  assert (0 < 2 ^ k) by (apply Z.pow_pos_nonneg; lia).
  assert (2 ^ 53 <= 2 ^ w) by (apply Z.pow_le_mono_r; lia).
  rewrite Z2Pos.id by nia. destruct (0 <=? - k) eqn:Hk0.
  - assert (k = 0) as -> by lia. change (2 ^ - 0) with 1. change (2 ^ 0) with 1. lia.
  - rewrite Z.opp_involutive, Z.div_mul by lia. lia.
Qed.

(** A number that is smaller by its exponent. *)
Lemma f64_mul_below_max a b :
  0 < a → 0 < b → a * b < 2 ^ 53 → SFltb (f64_of_Z (2 ^ 64 - 1)) (f64_mul (f64_of_Z a) (f64_of_Z b)) = false.
Proof.
  intros Ha Hb Hab. destruct (f64_mul_exact a b Ha Hb Hab) as (k & Hk & ->).
  change (f64_of_Z (2 ^ 64 - 1)) with (S754_finite false 4503599627370496 12).
  unfold SFltb, SFcompare. assert (12 ?= - k = Gt) as -> by (apply Z.compare_gt_iff; lia). done.
Qed.
