(* ===== verification/HttpxError.v ===== *)
(** * Errors of the HTTP layer ([httpx/error.rs])

    The one error type of the HTTP client and of the streaming JSON decoder, which the
    errors of the services wrap. *)

From S2P Require Import Prelude.

Module HttpxErrorKind.
Inductive HttpxErrorKind : Type :=
| Connection (msg : string)
| Decoding (msg : string)
| Message (msg : string)
| SendRequest (msg : string).
End HttpxErrorKind.
Abbreviation HttpxErrorKind := HttpxErrorKind.HttpxErrorKind.

Record HttpxError : Type := mkHttpxError { httpx_kind : HttpxErrorKind }.

#[global] Instance httpx_error_kind_eq_dec : EqDecision HttpxErrorKind.
Proof. solve_decision. Defined.
#[global] Instance httpx_error_eq_dec : EqDecision HttpxError.
Proof. solve_decision. Defined.

Definition httpx_message_error (msg : string) : HttpxError := mkHttpxError (HttpxErrorKind.Message msg).
Definition httpx_connection_error (msg : string) : HttpxError := mkHttpxError (HttpxErrorKind.Connection msg).
Definition httpx_decoding_error (msg : string) : HttpxError := mkHttpxError (HttpxErrorKind.Decoding msg).
Definition httpx_request_error (msg : string) : HttpxError := mkHttpxError (HttpxErrorKind.SendRequest msg).

Definition is_connection_error (e : HttpxError) : bool :=
  match httpx_kind e with HttpxErrorKind.Connection _ => true | _ => false end.

Definition is_decoding_error (e : HttpxError) : bool :=
  match httpx_kind e with HttpxErrorKind.Decoding _ => true | _ => false end.

(** [Display] of an error. *)
Definition httpx_error_display (e : HttpxError) : string :=
  match httpx_kind e with
  | HttpxErrorKind.Connection msg => "connection error " +:+ msg
  | HttpxErrorKind.Decoding msg => "decoding error: " +:+ msg
  | HttpxErrorKind.Message msg => msg
  | HttpxErrorKind.SendRequest msg => "send request failed error: " +:+ msg
  end.

(** The methods of [http::Method] the SDK uses. *)
Inductive Method : Type := GET | POST | PUT | DELETE | PATCH.
