(* ===== verification/Json.v ===== *)
(** * JSON values ([serde_json::Value]) and what is serialized ([serde::Serialize]) *)

From S2P Require Import Prelude.

(** * JSON documents as values ([serde_json::Value])

    A JSON document the way [serde_json] holds it: numbers are unsigned, negative or
    floating point, and an object is a [BTreeMap], a list of entries in the order of their
    keys.  [map_insert] and [map_get] are the operations of the map. *)

Module Json.

(** [serde_json::Number]; a floating-point number by its bits. *)
Inductive Number : Type :=
| PosInt (n : Z)
| NegInt (n : Z)
| Float (bits : Z).

Inductive Value : Type :=
| Null
| Bool (b : bool)
| Number_ (n : Number)
| String_ (s : string)
| Array (l : list Value)
| Object (m : list (string * Value)).

(** [Number::from] of an integer. *)
Definition number_from (n : Z) : Value := Number_ (if 0 <=? n then PosInt n else NegInt n).

(** [Map::get] and [Map::insert]. *)
Fixpoint map_get {A} (k : string) (m : list (string * A)) : option A :=
  match m with
  | [] => None
  | (k', v) :: m => if bool_decide (k = k') then Some v else map_get k m
  end.

Fixpoint map_insert {A} (k : string) (v : A) (m : list (string * A)) : list (string * A) :=
  match m with
  | [] => [(k, v)]
  | (k', v') :: m' =>
      match String.compare k k' with
      | Lt => (k, v) :: m
      | Eq => (k, v) :: m'
      | Gt => (k', v') :: map_insert k v m'
      end
  end.

(** [value.get(key)] for a string: only objects have entries. *)
Definition value_get (key : string) (v : Value) : option Value :=
  match v with Object m => map_get key m | _ => None end.

(** The document at the end of a path of keys. *)
Fixpoint value_resolve (keys : list string) (v : Value) : option Value :=
  match keys with
  | [] => Some v
  | k :: keys => next ← value_get k v; value_resolve keys next
  end.

End Json.
Abbreviation Value := Json.Value.

(** ** Lemmas *)

Lemma string_compare_eq k k' : String.compare k k' = Eq → k = k'.
Proof. apply String.compare_eq_iff. Qed.

Lemma string_compare_refl k : String.compare k k = Eq.
Proof.
  pose proof (String.compare_antisym k k) as Hk. by destruct (String.compare k k).
Qed.

Section Maps.
Context {A : Type}.
Implicit Types (m : list (string * A)) (v : A).

Lemma map_get_insert k v m : Json.map_get k (Json.map_insert k v m) = Some v.
Proof.
  induction m as [|[k' v'] m IH]; cbn [Json.map_insert]; [cbn; by rewrite bool_decide_true|].
  destruct (String.compare k k') eqn:Hk; cbn [Json.map_get]; try by rewrite bool_decide_true.
  rewrite bool_decide_false; [done|]. intros ->. by rewrite string_compare_refl in Hk.
Qed.

Lemma map_get_insert_ne j k v m : j ≠ k → Json.map_get j (Json.map_insert k v m) = Json.map_get j m.
Proof.
  intros Hj. induction m as [|[k' v'] m IH]; cbn [Json.map_insert]; [cbn; by rewrite bool_decide_false|].
  destruct (String.compare k k') eqn:Hk; cbn [Json.map_get].
  - apply string_compare_eq in Hk as <-. by rewrite bool_decide_false.
  - by rewrite bool_decide_false.
  - by rewrite IH.
Qed.

Lemma map_get_none_in k m : Json.map_get k m = None → k ∉ m.*1.
Proof.
  induction m as [|[k' v'] m IH]; cbn; [intros _; apply not_elem_of_nil|].
  case_bool_decide as Hk; [done|]. intros Hm. apply not_elem_of_cons. by split; [|apply IH].
Qed.

End Maps.

Lemma resolve_app keys keys' v :
  Json.value_resolve (keys ++ keys') v = Json.value_resolve keys v ≫= Json.value_resolve keys'.
Proof.
  revert v. induction keys as [|k keys IH]; intros v; [done|]. cbn.
  destruct (Json.value_get k v) as [next|]; cbn; [apply IH|done].
Qed.

(** * What is serialized ([serde::Serialize])

    The calls a [Serialize] implementation makes, as a tree: the text of a request is
    [serde_json::to_vec] of it, a parameter of the files that send it.  Floating-point numbers are
    their bits; the entries of a map are in the order they are written, with duplicates. *)

Inductive Serialized (V : Type) : Type :=
| SerNull
| SerBool (b : bool)
| SerInt (n : Z)
| SerF32 (bits : Z)
| SerF64 (bits : Z)
| SerString (s : string)
| SerSeq (l : list (Serialized V))
| SerMap (entries : list (string * Serialized V))
| SerValue (v : V).
#[global] Arguments SerNull {V}.
#[global] Arguments SerBool {V}.
#[global] Arguments SerInt {V}.
#[global] Arguments SerF32 {V}.
#[global] Arguments SerF64 {V}.
#[global] Arguments SerString {V}.
#[global] Arguments SerSeq {V}.
#[global] Arguments SerMap {V}.
#[global] Arguments SerValue {V}.

Definition SerEntries (V : Type) : Type := list (string * Serialized V).

Section Entries.
Context {V A : Type}.
Implicit Types (es : SerEntries V) (f : A → Serialized V).

(** A field, and one with [skip_serializing_if = "Option::is_none"]. *)
Definition ser_entry (k : string) (v : Serialized V) : SerEntries V := [(k, v)].
Definition opt_entry (k : string) (f : A → Serialized V) (o : option A) : SerEntries V :=
  match o with Some x => [(k, f x)] | None => [] end.

Definition ser_strings (l : list string) : Serialized V := SerSeq (map SerString l).

(** A [HashMap], in some order. *)
Definition ser_map (f : A → Serialized V) (m : gmap string A) : Serialized V :=
  SerMap ((λ '(k, x), (k, f x)) <$> map_to_list m).

(** ** Lookup *)

Fixpoint ser_get (k : string) (es : SerEntries V) : option (Serialized V) :=
  match es with
  | [] => None
  | (k', v) :: es => if String.eqb k k' then Some v else ser_get k es
  end.

Lemma absent_nil k : ser_get k [] = None.
Proof. done. Qed.

Lemma absent_entry k k' v es : String.eqb k k' = false → ser_get k es = None → ser_get k (ser_entry k' v ++ es) = None.
Proof. intros Hk He. cbn. by rewrite Hk. Qed.

Lemma absent_opt k k' f o es : String.eqb k k' = false → ser_get k es = None → ser_get k (opt_entry k' f o ++ es) = None.
Proof. intros Hk He. destruct o; cbn; [by rewrite Hk|done]. Qed.

Lemma absent_last_entry k k' v : String.eqb k k' = false → ser_get k (ser_entry k' v) = None.
Proof. intros Hk. cbn. by rewrite Hk. Qed.

Lemma absent_last_opt k k' f o : String.eqb k k' = false → ser_get k (opt_entry k' f o) = None.
Proof. intros Hk. destruct o; cbn; [by rewrite Hk|done]. Qed.

(** Fields with the same names are the same when they are written the same. *)
Lemma opt_entry_inj k f o1 o2 es1 es2 :
  ser_get k es1 = None → ser_get k es2 = None →
  opt_entry k f o1 ++ es1 = opt_entry k f o2 ++ es2 → f <$> o1 = f <$> o2 ∧ es1 = es2.
Proof.
  intros H1 H2. destruct o1 as [x|], o2 as [y|]; cbn.
  - intros [= -> ->]. done.
  - intros <-. cbn in H2. by rewrite String.eqb_refl in H2.
  - intros ->. cbn in H1. by rewrite String.eqb_refl in H1.
  - done.
Qed.

Lemma last_opt_entry_inj k f o1 o2 : opt_entry k f o1 = opt_entry k f o2 → f <$> o1 = f <$> o2.
Proof. destruct o1, o2; cbn; try done. by intros [= ->]. Qed.

Lemma entry_inj k v1 v2 es1 es2 : ser_entry k v1 ++ es1 = ser_entry k v2 ++ es2 → v1 = v2 ∧ es1 = es2.
Proof. by intros [= -> ->]. Qed.

Lemma last_entry_inj k v1 v2 : ser_entry k v1 = ser_entry k v2 → v1 = v2.
Proof. by intros [= ->]. Qed.
End Entries.

#[export] Instance ser_bool_inj V : Inj (=) (=) (@SerBool V).
Proof. by intros ?? [= ->]. Qed.
#[export] Instance ser_int_inj V : Inj (=) (=) (@SerInt V).
Proof. by intros ?? [= ->]. Qed.
#[export] Instance ser_f32_inj V : Inj (=) (=) (@SerF32 V).
Proof. by intros ?? [= ->]. Qed.
#[export] Instance ser_f64_inj V : Inj (=) (=) (@SerF64 V).
Proof. by intros ?? [= ->]. Qed.
#[export] Instance ser_string_inj V : Inj (=) (=) (@SerString V).
Proof. by intros ?? [= ->]. Qed.
#[export] Instance ser_strings_inj V : Inj (=) (=) (@ser_strings V).
Proof. intros l1 l2 [= Hl]. by apply (inj (fmap SerString)) in Hl. Qed.

Create HintDb ser.
#[export] Hint Resolve absent_nil absent_entry absent_opt absent_last_entry absent_last_opt : ser.

(** One field off both sides of an equation between entries. *)
Ltac peel H :=
  first
    [ apply last_entry_inj in H
    | apply last_opt_entry_inj in H
    | apply entry_inj in H as [? H]
    | apply opt_entry_inj in H as [? H]; [|by auto 20 with ser|by auto 20 with ser] ].
