(* ===== verification/QueryxError.v ===== *)
(** * Errors of the query service ([queryx/error.rs])

    The errors of the query client, and how the names of the resource an error is
    about are read out of the message of the server: the message is split at
    whitespace and the first word that looks like a path is taken apart.

    The module [Queryx] keeps the names of the source apart from those of the other
    error types.  Messages, and the names found in them, are bytes; a
    [serde_json::Value] is a parameter [V]. *)

From S2P Require Import Prelude Text HttpxError.

(** ** Splitting at whitespace

    [str::split_whitespace] splits at [char::is_whitespace]; in UTF-8 these
    characters take one, two or three bytes. *)

(** The bytes of the whitespace character the text begins with: 0 when there is none. *)
Definition whitespace_len (l : list Z) : nat :=
  match l with
  | c :: l =>
      if ((9 <=? c) && (c <=? 13)) || (c =? 32) then 1
      else match l with
           | c2 :: l =>
               if (c =? 194) && ((c2 =? 133) || (c2 =? 160)) then 2
               else match l with
                    | c3 :: _ =>
                        if ((c =? 225) && (c2 =? 154) && (c3 =? 128))
                           || ((c =? 226) && (c2 =? 128)
                               && (((128 <=? c3) && (c3 <=? 138)) || (c3 =? 168) || (c3 =? 169) || (c3 =? 175)))
                           || ((c =? 226) && (c2 =? 129) && (c3 =? 159))
                           || ((c =? 227) && (c2 =? 128) && (c3 =? 128))
                        then 3
                        else 0
                    | [] => 0
                    end
           | [] => 0
           end
  | [] => 0
  end.

(** [word] is what was read of the current word, [skip] how many bytes of a whitespace
    character are left. *)
Fixpoint words_from (skip : nat) (word l : list Z) : list (list Z) :=
  let flush rest := match word with [] => rest | _ => word :: rest end in
  match l with
  | [] => flush []
  | c :: l' =>
      match skip with
      | S skip => words_from skip word l'
      | O =>
          match whitespace_len l with
          | O => words_from 0 (word ++ [c]) l'
          | S k => flush (words_from k [] l')
          end
      end
  end.

(** [s.split_whitespace()]. *)
Definition split_whitespace (l : list Z) : list (list Z) := words_from 0 [] l.

(** [s.contains(c)] for an ASCII character. *)
Definition contains_byte (c : Z) (l : list Z) : bool := existsb (Z.eqb c) l.

(** ** The errors *)

Module QueryServerErrorKind.
Inductive QueryServerErrorKind : Type :=
| ParsingFailure
| Internal
| AuthenticationFailure
| CasMismatch
| DocNotFound
| DocExists
| PlanningFailure
| IndexFailure
| PreparedStatementFailure
| DMLFailure
| Timeout
| IndexExists
| IndexNotFound
| WriteInReadOnlyMode
| ScopeNotFound
| CollectionNotFound
| InvalidArgument (argument reason : string)
| BuildAlreadyInProgress
| Unknown.
End QueryServerErrorKind.
Abbreviation QueryServerErrorKind := QueryServerErrorKind.QueryServerErrorKind.

#[global] Instance query_server_error_kind_eq_dec : EqDecision QueryServerErrorKind.
Proof. solve_decision. Defined.

Module Queryx.
Section Errors.
Context {V : Type}.

Record ErrorDesc : Type := mkErrorDesc {
  desc_kind : QueryServerErrorKind;
  desc_code : Z;
  desc_message : list Z;
  desc_retry : bool;
  desc_reason : gmap string V;
}.

Record ServerError : Type := mkServerError {
  se_kind : QueryServerErrorKind;
  se_endpoint : string;
  se_status_code : Z;
  se_code : Z;
  se_msg : list Z;
  se_statement : option string;
  se_client_context_id : option string;
  se_all_error_descs : list ErrorDesc;
}.

Definition server_error_new (kind : QueryServerErrorKind) (endpoint : string) (status_code code : Z)
    (msg : list Z) : ServerError :=
  mkServerError kind endpoint status_code code msg None None [].

Definition with_statement (statement : string) (e : ServerError) : ServerError :=
  mkServerError (se_kind e) (se_endpoint e) (se_status_code e) (se_code e) (se_msg e)
    (Some statement) (se_client_context_id e) (se_all_error_descs e).

Definition with_client_context_id (client_context_id : string) (e : ServerError) : ServerError :=
  mkServerError (se_kind e) (se_endpoint e) (se_status_code e) (se_code e) (se_msg e)
    (se_statement e) (Some client_context_id) (se_all_error_descs e).

Definition with_error_descs (error_descs : list ErrorDesc) (e : ServerError) : ServerError :=
  mkServerError (se_kind e) (se_endpoint e) (se_status_code e) (se_code e) (se_msg e)
    (se_statement e) (se_client_context_id e) error_descs.

Record ResourceError : Type := mkResourceError {
  cause : ServerError;
  res_bucket_name : option (list Z);
  res_scope_name : option (list Z);
  res_collection_name : option (list Z);
  res_index_name : option (list Z);
}.

Definition unnamed (cause : ServerError) : ResourceError := mkResourceError cause None None None None.

Inductive ErrorKind : Type :=
| Server (e : ServerError)
| Http (error : HttpxError) (endpoint : string) (statement client_context_id : option string)
| Resource (e : ResourceError)
| Message (msg : string) (endpoint statement client_context_id : option string)
| InvalidArgument (msg : string) (arg : option string)
| Encoding (msg : string).

Record Error : Type := mkError { kind : ErrorKind }.

Definition new_server_error (e : ServerError) : Error := mkError (Server e).
Definition new_resource_error (e : ResourceError) : Error := mkError (Resource e).
Definition new_message_error (msg : string) (endpoint statement client_context_id : option string) : Error :=
  mkError (Message msg endpoint statement client_context_id).
Definition new_encoding_error (msg : string) : Error := mkError (Encoding msg).
Definition new_invalid_argument_error (msg : string) (arg : option string) : Error :=
  mkError (InvalidArgument msg arg).
Definition new_http_error (error : HttpxError) (endpoint : string)
    (statement client_context_id : option string) : Error :=
  mkError (Http error endpoint statement client_context_id).

(** *** The names in a message *)

(** The word after the first word [index]; a message that ends there panics. *)
Fixpoint index_after (fields : list (list Z)) : outcome Error (option (list Z)) :=
  match fields with
  | [] => Ok None
  | field :: fields =>
      if bool_decide (field = str_bytes "index") then
        name ← expect (head fields);
        Ok (Some name)
      else index_after fields
  end.

Definition parse_index_not_found_or_exists (cause : ServerError) : outcome Error ResourceError :=
  name ← index_after (split_whitespace (se_msg cause));
  Ok (mkResourceError cause None None None name).

(** [fields.find(..)] and then [p.split(':').nth(1)]. *)
Definition path_word (is_path : list Z → bool) (msg : list Z) : option (list Z) :=
  '(_, p) ← list_find (λ f, is_path f = true) (split_whitespace msg);
  split_on COLON p !! 1%nat.

(** [fields[0..fields.len() - n].join(".")] with the [n] fields that follow.  With fewer
    than [n] fields the subtraction overflows, or the range it gives is out of bounds. *)
Definition split_last_fields (n : nat) (fields : list (list Z)) : outcome Error (list Z * list (list Z)) :=
  if (length fields <? n)%nat then Panic
  else Ok (join_with DOT (take (length fields - n) fields), drop (length fields - n) fields).

Definition parse_resource_not_found (cause : ServerError) : outcome Error ResourceError :=
  match path_word (λ f, contains_byte DOT f && contains_byte COLON f) (se_msg cause) with
  | Some trimmed_path =>
      let fields := split_on DOT trimmed_path in
      if bool_decide (se_kind cause = QueryServerErrorKind.ScopeNotFound) then
        '(bucket_name, names) ← split_last_fields 1 fields;
        Ok (mkResourceError cause (Some bucket_name) (names !! 0%nat) None None)
      else if bool_decide (se_kind cause = QueryServerErrorKind.CollectionNotFound) then
        '(bucket_name, names) ← split_last_fields 2 fields;
        Ok (mkResourceError cause (Some bucket_name) (names !! 0%nat) (names !! 1%nat) None)
      else Ok (unnamed cause)
  | None => Ok (unnamed cause)
  end.

(** The second and third of at least three fields. *)
Definition scope_and_collection (fields : list (list Z)) : option (list Z) * option (list Z) :=
  if (3 <=? length fields)%nat then (fields !! 1%nat, fields !! 2%nat) else (None, None).

Definition parse_auth_failure (cause : ServerError) : outcome Error ResourceError :=
  match path_word (contains_byte COLON) (se_msg cause) with
  | Some trimmed_path =>
      if contains_byte BACKTICK trimmed_path then
        let fields := split_on BACKTICK trimmed_path in
        bucket_name ← expect (fields !! 1%nat);
        scope_and_col ← expect (fields !! 2%nat);
        let '(scope_name, collection_name) :=
          match scope_and_col with
          | [] => (None, None)
          | _ => scope_and_collection (split_on DOT scope_and_col)
          end in
        Ok (mkResourceError cause (Some bucket_name) scope_name collection_name None)
      else
        let fields := split_on DOT trimmed_path in
        bucket_name ← expect (fields !! 0%nat);
        let '(scope_name, collection_name) := scope_and_collection fields in
        Ok (mkResourceError cause (Some bucket_name) scope_name collection_name None)
  | None => Ok (unnamed cause)
  end.

Definition resource_error_new (cause : ServerError) : outcome Error ResourceError :=
  match se_kind cause with
  | QueryServerErrorKind.CollectionNotFound => parse_resource_not_found cause
  | QueryServerErrorKind.ScopeNotFound => parse_resource_not_found cause
  | QueryServerErrorKind.AuthenticationFailure => parse_auth_failure cause
  | QueryServerErrorKind.IndexNotFound => parse_index_not_found_or_exists cause
  | QueryServerErrorKind.IndexExists => parse_index_not_found_or_exists cause
  | _ => Ok (unnamed cause)
  end.

(** *** Predicates *)

Definition server_kind (e : Error) : option QueryServerErrorKind :=
  match kind e with Server s => Some (se_kind s) | _ => None end.

(** The kind of a server error, whether or not its resource was read. *)
Definition server_or_resource_kind (e : Error) : option QueryServerErrorKind :=
  match kind e with Server s => Some (se_kind s) | Resource r => Some (se_kind (cause r)) | _ => None end.

Definition is_parsing_failure (e : Error) : bool := bool_decide (server_kind e = Some QueryServerErrorKind.ParsingFailure).
Definition is_internal (e : Error) : bool := bool_decide (server_kind e = Some QueryServerErrorKind.Internal).
Definition is_authentication_failure (e : Error) : bool :=
  bool_decide (server_kind e = Some QueryServerErrorKind.AuthenticationFailure).
Definition is_cas_mismatch (e : Error) : bool := bool_decide (server_kind e = Some QueryServerErrorKind.CasMismatch).
Definition is_doc_not_found (e : Error) : bool := bool_decide (server_kind e = Some QueryServerErrorKind.DocNotFound).
Definition is_doc_exists (e : Error) : bool := bool_decide (server_kind e = Some QueryServerErrorKind.DocExists).
Definition is_planning_failure (e : Error) : bool :=
  bool_decide (server_kind e = Some QueryServerErrorKind.PlanningFailure).
Definition is_index_failure (e : Error) : bool := bool_decide (server_kind e = Some QueryServerErrorKind.IndexFailure).
Definition is_prepared_statement_failure (e : Error) : bool :=
  bool_decide (server_kind e = Some QueryServerErrorKind.PreparedStatementFailure).
Definition is_dml_failure (e : Error) : bool := bool_decide (server_kind e = Some QueryServerErrorKind.DMLFailure).
Definition is_server_timeout (e : Error) : bool := bool_decide (server_kind e = Some QueryServerErrorKind.Timeout).
Definition is_write_in_read_only_mode (e : Error) : bool :=
  bool_decide (server_kind e = Some QueryServerErrorKind.WriteInReadOnlyMode).
Definition is_invalid_argument (e : Error) : bool :=
  match server_kind e with Some (QueryServerErrorKind.InvalidArgument _ _) => true | _ => false end.
Definition is_build_already_in_progress (e : Error) : bool :=
  bool_decide (server_kind e = Some QueryServerErrorKind.BuildAlreadyInProgress).
Definition is_scope_not_found (e : Error) : bool :=
  bool_decide (server_or_resource_kind e = Some QueryServerErrorKind.ScopeNotFound).
Definition is_collection_not_found (e : Error) : bool :=
  bool_decide (server_or_resource_kind e = Some QueryServerErrorKind.CollectionNotFound).
Definition is_index_not_found (e : Error) : bool :=
  bool_decide (server_or_resource_kind e = Some QueryServerErrorKind.IndexNotFound).
Definition is_index_exists (e : Error) : bool :=
  bool_decide (server_or_resource_kind e = Some QueryServerErrorKind.IndexExists).

End Errors.
#[global] Arguments ErrorDesc : clear implicits.
#[global] Arguments ServerError : clear implicits.
#[global] Arguments ResourceError : clear implicits.
#[global] Arguments ErrorKind : clear implicits.
#[global] Arguments Error : clear implicits.
End Queryx.

(** ** Words of a message *)

(** Printable ASCII without the blank. *)
Definition plain (w : list Z) : Prop := w ≠ [] ∧ Forall (λ b, 33 <= b <= 126) w.

#[global] Instance plain_dec w : Decision (plain w).
Proof. unfold plain. apply _. Defined.

Lemma whitespace_len_plain c l : 33 <= c <= 126 → whitespace_len (c :: l) = 0%nat.
Proof.
  intros Hc. unfold whitespace_len. test_false (((9 <=? c) && (c <=? 13)) || (c =? 32)).
  destruct l as [|c2 [|c3 l]]; [done|..].
  - by test_false (c =? 194).
  - test_false (c =? 194). cbn [andb]. test_false (c =? 225). test_false (c =? 226). by test_false (c =? 227).
Qed.

Lemma words_from_word w word l :
  Forall (λ b, 33 <= b <= 126) w → words_from 0 word (w ++ l) = words_from 0 (word ++ w) l.
Proof.
  intros Hw. revert word. induction Hw as [|b w Hb Hw IH]; intros word; [by rewrite app_nil_r|].
  cbn [app words_from]. rewrite whitespace_len_plain by done. rewrite IH. by rewrite <- app_assoc.
Qed.

Lemma words_from_blank word l :
  words_from 0 word (BLANK :: l)
  = match word with [] => split_whitespace l | _ => word :: split_whitespace l end.
Proof. done. Qed.

(** Words with single blanks between them. *)
Definition sentence (ws : list (list Z)) : list Z := join_with BLANK ws.

Lemma split_sentence ws : Forall plain ws → split_whitespace (sentence ws) = ws.
Proof.
  unfold sentence. induction 1 as [|w ws [Hne Hw] Hws IH]; [done|]. unfold split_whitespace.
  destruct ws as [|w2 ws].
  - cbn [join_with]. rewrite <- (app_nil_r w), words_from_word by done. rewrite app_nil_r. by destruct w.
  - change (join_with BLANK (w :: w2 :: ws)) with (w ++ BLANK :: join_with BLANK (w2 :: ws)).
    rewrite words_from_word by done. cbn [app]. rewrite words_from_blank. rewrite IH. by destruct w.
Qed.

Lemma contains_byte_true c l : contains_byte c l = true ↔ c ∈ l.
Proof.
  unfold contains_byte. rewrite existsb_exists. split.
  - intros (x & Hx & ->%Z.eqb_eq). by apply list_elem_of_In.
  - intros Hc. exists c. rewrite Z.eqb_refl. by rewrite list_elem_of_In in Hc.
Qed.

Lemma contains_byte_false c l : contains_byte c l = false ↔ c ∉ l.
Proof. rewrite <- contains_byte_true. by destruct (contains_byte c l). Qed.

(** The pieces of a split: as many as there are separators, and one. *)
Lemma length_split_on c l : length (split_on c l) = S (length (filter (λ b, b = c) l)).
Proof.
  induction l as [|b l IH]; [done|]. cbn [split_on]. rewrite filter_cons.
  destruct (Z.eqb_spec b c) as [->|Hb].
  - rewrite decide_True by done. cbn [length]. by rewrite IH.
  - rewrite decide_False by done. pose proof (split_on_nonempty c l) as Hne.
    destruct (split_on c l) as [|p ps]; [done|]. exact IH.
Qed.

Lemma filter_eq_nil_iff (c : Z) (l : list Z) : filter (λ b, b = c) l = [] ↔ c ∉ l.
Proof.
  split.
  - intros Hf Hc. assert (c ∈ filter (λ b, b = c) l) as H by (by apply list_elem_of_filter).
    rewrite Hf in H. by apply not_elem_of_nil in H.
  - intros Hc. induction l as [|b l IH]; [done|]. apply not_elem_of_cons in Hc as [Hb Hl].
    rewrite filter_cons_False by done. by apply IH.
Qed.

Section PathFacts.
Context {V : Type}.
Implicit Types (e : Queryx.ServerError V).

(** The word a name is read from is the first one that looks like a path. *)
Lemma path_word_sentence is_path before p after :
  Forall plain (before ++ p :: after) → Forall (λ w, is_path w = false) before → is_path p = true →
  Queryx.path_word is_path (sentence (before ++ p :: after)) = split_on COLON p !! 1%nat.
Proof.
  intros Hpl Hb Hp. unfold Queryx.path_word. rewrite split_sentence by done.
  assert (list_find (λ w, is_path w = true) (before ++ p :: after) = Some (length before, p)) as ->; [|done].
  apply list_find_Some. split_and!; [by apply list_lookup_middle|done|].
  intros j w Hj Hlt. rewrite lookup_app_l in Hj by done.
  by rewrite (proj1 (list.Forall_forall _ _) Hb w) by (by eapply list_elem_of_lookup_2).
Qed.

Lemma path_word_colon is_path before ns rest after :
  COLON ∉ ns → COLON ∉ rest →
  Forall plain (before ++ (ns ++ COLON :: rest) :: after) → Forall (λ w, is_path w = false) before →
  is_path (ns ++ COLON :: rest) = true →
  Queryx.path_word is_path (sentence (before ++ (ns ++ COLON :: rest) :: after)) = Some rest.
Proof.
  intros Hns Hr Hpl Hb Hp. rewrite path_word_sentence by done. rewrite split_on_app by done.
  by rewrite split_on_none.
Qed.
End PathFacts.

Lemma split_on_sep c l k : split_on c (l ++ c :: k) = split_on c l ++ split_on c k.
Proof.
  induction l as [|b l IH]; [cbn; by rewrite Z.eqb_refl|]. cbn [app split_on]. rewrite IH.
  pose proof (split_on_nonempty c l) as Hne. destruct (b =? c); [done|]. by destruct (split_on c l).
Qed.

Lemma split_last_fields_names {V} l names :
  Forall (λ n, DOT ∉ n) names →
  Queryx.split_last_fields (V:=V) (length names) (split_on DOT l ++ names) = Ok (l, names).
Proof.
  intros _. unfold Queryx.split_last_fields. rewrite length_app.
  assert (length (split_on DOT l) + length names - length names = length (split_on DOT l))%nat as -> by lia.
  destruct (Nat.ltb_spec (length (split_on DOT l) + length names) (length names)); [lia|].
  by rewrite take_app_length, drop_app_length, join_split.
Qed.

(** The words of a message around the one word that matters. *)
Section Messages.
Context {V : Type} (endpoint : string) (status code : Z) (statement ctx : option string)
  (descs : list (Queryx.ErrorDesc V)).

(** A server error with the message [ws]. *)
Definition said (k : QueryServerErrorKind) (ws : list (list Z)) : Queryx.ServerError V :=
  Queryx.mkServerError k endpoint status code (sentence ws) statement ctx descs.

(** A name of a bucket, scope or collection in a message. *)
Definition name_ok (n : list Z) : Prop := plain n ∧ COLON ∉ n ∧ BACKTICK ∉ n.

Lemma plain_app w v : plain w → Forall (λ b, 33 <= b <= 126) v → plain (w ++ v).
Proof. intros [Hw1 Hw2] Hv. split; [by destruct w|]. by apply Forall_app. Qed.

Lemma plain_mid w c v : Forall (λ b, 33 <= b <= 126) w → 33 <= c <= 126 → Forall (λ b, 33 <= b <= 126) v → plain (w ++ c :: v).
Proof. intros Hw Hc Hv. split; [by destruct w|]. apply Forall_app; split; [done|]. by constructor. Qed.

Lemma path_in_message is_path before after ns rest :
  Forall plain (before ++ after) → Forall (λ w, COLON ∉ w) before →
  Forall (λ b, 33 <= b <= 126) ns → COLON ∉ ns → Forall (λ b, 33 <= b <= 126) rest → COLON ∉ rest →
  (∀ w, COLON ∉ w → is_path w = false) → is_path (ns ++ COLON :: rest) = true →
  Queryx.path_word is_path (sentence (before ++ [ns ++ COLON :: rest] ++ after)) = Some rest.
Proof.
  intros [Hb Ha]%Forall_app Hc Hns Hnc Hr Hrc Hpath Hp. apply path_word_colon; [done..| | |done].
  - apply Forall_app; split; [done|]. constructor; [by apply plain_mid|done].
  - apply list.Forall_impl with (1:=Hc). intros w. apply Hpath.
Qed.

Lemma index_in_message before name after :
  Forall plain (before ++ after) → plain name → str_bytes "index" ∉ before →
  Queryx.index_after (V:=V) (split_whitespace (sentence (before ++ [str_bytes "index"; name] ++ after)))
  = Ok (Some name).
Proof.
  intros [Hb Ha]%Forall_app Hn Hi. rewrite split_sentence.
  - clear Hb. induction before as [|w before IH]; [done|]. apply not_elem_of_cons in Hi as [Hw Hi].
    cbn [app Queryx.index_after]. rewrite bool_decide_false by done. by apply IH.
  - apply Forall_app; split; [done|]. constructor; [by apply (bool_decide_unpack _)|]. by constructor.
Qed.

Ltac plain_text :=
  repeat first [rewrite Forall_app | rewrite list.Forall_cons]; rewrite ?list.Forall_nil; intuition lia.

Ltac not_in :=
  repeat first [rewrite not_elem_of_app | rewrite not_elem_of_cons]; split_and?;
  first [done | by apply not_elem_of_nil].

(** The names of the resource an error is about are read from the message of the
    server, whatever else it says: bucket, scope and collection from the path
    [namespace:bucket.scope.collection] (a bucket name may contain dots), from the
    quoted form of permission errors, and the name of an index from the word after
    [index]. *)
Lemma resource_names_read before after ns bucket scope coll name :
  Forall plain (before ++ after) → Forall (λ w, COLON ∉ w) before → str_bytes "index" ∉ before →
  Forall (λ b, 33 <= b <= 126) ns → COLON ∉ ns →
  Forall name_ok [bucket; scope; coll] → DOT ∉ scope → DOT ∉ coll → plain name →
  let message p := before ++ p ++ after in
  let path l := ns ++ COLON :: l in
  let quoted := BACKTICK :: bucket ++ [BACKTICK] in
  let found e b s c i := (Queryx.resource_error_new e = Ok (Queryx.mkResourceError e b s c i)) in
  found (said QueryServerErrorKind.CollectionNotFound
           (message [path (bucket ++ DOT :: scope ++ DOT :: coll)])) (Some bucket) (Some scope) (Some coll) None
  ∧ found (said QueryServerErrorKind.ScopeNotFound (message [path (bucket ++ DOT :: scope)]))
      (Some bucket) (Some scope) None None
  ∧ found (said QueryServerErrorKind.AuthenticationFailure
             (message [path (quoted ++ DOT :: scope ++ DOT :: coll)])) (Some bucket) (Some scope) (Some coll) None
  ∧ found (said QueryServerErrorKind.AuthenticationFailure (message [path quoted])) (Some bucket) None None None
  ∧ found (said QueryServerErrorKind.IndexNotFound (message [str_bytes "index"; name])) None None None (Some name)
  ∧ found (said QueryServerErrorKind.IndexExists (message [str_bytes "index"; name])) None None None (Some name).
Proof.
  intros Hpl Hb Hi Hns Hnc Hnames Hsd Hcd Hname message path quoted found.
  rewrite !list.Forall_cons in Hnames.
  destruct Hnames as (([_ Hbu] & Hbc & Hbt) & ([_ Hsc] & Hscc & Hst) & ([_ Hco] & Hcoc & Hct) & _).
  assert (∀ l, contains_byte COLON (ns ++ COLON :: l) = true) as Hcolon.
  { intros l. apply contains_byte_true. set_solver. }
  assert (∀ w, COLON ∉ w → contains_byte COLON w = false) as Hno by (intros w; apply contains_byte_false).
  assert (∀ w, COLON ∉ w → contains_byte DOT w && contains_byte COLON w = false) as Hno2.
  { intros w Hw. by rewrite Hno, andb_false_r. }
  assert (∀ l k, contains_byte DOT (ns ++ COLON :: l ++ DOT :: k) = true) as Hdot.
  { intros l k. apply contains_byte_true. set_solver. }
  unfold found, message, path, quoted, Queryx.resource_error_new, Queryx.parse_resource_not_found,
    Queryx.parse_auth_failure, Queryx.parse_index_not_found_or_exists.
  cbn [said Queryx.se_kind Queryx.se_msg].
  split_and!.
  - rewrite path_in_message by (first [done | by rewrite Hcolon, Hdot | plain_text | not_in]).
    rewrite !split_on_sep, (split_on_none DOT scope), (split_on_none DOT coll) by done.
    rewrite bool_decide_false, bool_decide_true by done.
    by rewrite (split_last_fields_names bucket [scope; coll]) by (by repeat constructor).
  - rewrite path_in_message by (first [done | by rewrite Hcolon, Hdot | plain_text | not_in]).
    rewrite split_on_sep, (split_on_none DOT scope) by done. rewrite bool_decide_true by done.
    by rewrite (split_last_fields_names bucket [scope]) by (by repeat constructor).
  - rewrite path_in_message by (first [done | by rewrite Hcolon | plain_text | not_in]).
    assert (contains_byte BACKTICK ((BACKTICK :: bucket ++ [BACKTICK]) ++ DOT :: scope ++ DOT :: coll) = true) as ->
      by (apply contains_byte_true; set_solver).
    assert (split_on BACKTICK ((BACKTICK :: bucket ++ [BACKTICK]) ++ DOT :: scope ++ DOT :: coll)
            = [[]; bucket; DOT :: scope ++ DOT :: coll]) as ->.
    { cbn [app split_on]. rewrite Z.eqb_refl. rewrite <- app_assoc. cbn [app]. rewrite split_on_app by done.
      rewrite split_on_none; [done|]. not_in. }
    cbn [lookup list_lookup expect]. unfold mbind, outcome_bind. 
    assert (split_on DOT (DOT :: scope ++ DOT :: coll) = [[]; scope; coll]) as ->; [|done].
    cbn [split_on]. rewrite Z.eqb_refl, split_on_app, split_on_none by done. done.
  - rewrite path_in_message by (first [done | by rewrite Hcolon | plain_text | not_in]).
    assert (contains_byte BACKTICK (BACKTICK :: bucket ++ [BACKTICK]) = true) as ->
      by (apply contains_byte_true; set_solver).
    assert (split_on BACKTICK (BACKTICK :: bucket ++ [BACKTICK]) = [[]; bucket; []]) as ->; [|done].
    cbn [split_on]. rewrite Z.eqb_refl. by rewrite split_on_app.
  - by rewrite index_in_message.
  - by rewrite index_in_message.
Qed.
End Messages.

(** ** Messages that panic *)

Section Panics.
Context {V : Type}.
Implicit Types (e : Queryx.ServerError V).

Lemma index_after_cases fields :
  Queryx.index_after (V:=V) fields = Panic ↔ ∃ ws, fields = ws ++ [str_bytes "index"] ∧ str_bytes "index" ∉ ws.
Proof.
  induction fields as [|w fields IH]; [split; [done|by intros ([|] & ? & _)]|]. cbn [Queryx.index_after].
  destruct (decide (w = str_bytes "index")) as [->|Hw].
  - rewrite bool_decide_true by done. split.
    + destruct fields as [|x fields]; [|done]. intros _. exists []. split; [done|apply not_elem_of_nil].
    + intros ([|x ws] & Heq & Hi); simplify_eq/=; [done|]. apply not_elem_of_cons in Hi. naive_solver.
  - rewrite bool_decide_false by done. rewrite IH. split.
    + intros (ws & -> & Hi). exists (w :: ws). split; [done|]. by apply not_elem_of_cons.
    + intros ([|x ws] & Heq & Hi); simplify_eq/=. apply not_elem_of_cons in Hi. naive_solver.
Qed.

Lemma index_after_no_error fields x : Queryx.index_after (V:=V) fields ≠ Err x.
Proof. induction fields as [|w fields IH]; [done|]. cbn [Queryx.index_after]. case_match; [by destruct fields|done]. Qed.

Lemma split_last_fields_cases n fields :
  Queryx.split_last_fields (V:=V) n fields
  = if (length fields <? n)%nat then Panic
    else Ok (join_with DOT (take (length fields - n) fields), drop (length fields - n) fields).
Proof. done. Qed.

Lemma split_dot_short p : (length (split_on DOT p) <? 2)%nat = true ↔ DOT ∉ p.
Proof.
  rewrite length_split_on, <- filter_eq_nil_iff. rewrite Nat.ltb_lt.
  destruct (filter _ p); cbn; split; first [done | lia].
Qed.

(** [m] panics exactly when [P] holds, and otherwise returns an error about [e]. *)
Definition panics_iff e (m : outcome (Queryx.Error V) (Queryx.ResourceError V)) (P : Prop) : Prop :=
  (m = Panic ↔ P) ∧ (m ≠ Panic → ∃ r, m = Ok r ∧ Queryx.cause r = e).

#[local] Instance panics_iff_proper e m : Proper (iff ==> iff) (panics_iff e m).
Proof. intros P Q HPQ. unfold panics_iff. by rewrite HPQ. Qed.

Lemma returns_named e b s c i (P : Prop) :
  ¬ P → panics_iff e (Ok (Queryx.mkResourceError e b s c i)) P.
Proof. intros HP. split; [naive_solver|]. intros _. by eexists. Qed.

Lemma panics_now e (P : Prop) : P → panics_iff e Panic P.
Proof. intros HP. split; [naive_solver|done]. Qed.

Lemma collection_panics e :
  Queryx.se_kind e = QueryServerErrorKind.CollectionNotFound →
  panics_iff e (Queryx.parse_resource_not_found e)
    (∃ p, Queryx.path_word (λ f, contains_byte DOT f && contains_byte COLON f) (Queryx.se_msg e) = Some p
          ∧ DOT ∉ p).
Proof.
  intros Hk. unfold Queryx.parse_resource_not_found. rewrite Hk.
  destruct (Queryx.path_word _ _) as [p|]; [|apply returns_named; by intros (? & ? & _)].
  rewrite bool_decide_false, bool_decide_true, split_last_fields_cases by done.
  destruct (_ <? 2)%nat eqn:Hlt.
  - apply panics_now. exists p. by rewrite <- split_dot_short.
  - apply returns_named. intros (? & [= <-] & Hp%split_dot_short). congruence.
Qed.

Lemma scope_panics e :
  Queryx.se_kind e = QueryServerErrorKind.ScopeNotFound →
  panics_iff e (Queryx.parse_resource_not_found e) False.
Proof.
  intros Hk. unfold Queryx.parse_resource_not_found. rewrite Hk.
  destruct (Queryx.path_word _ _) as [p|]; [|apply returns_named; tauto].
  rewrite bool_decide_true, split_last_fields_cases by done. rewrite length_split_on.
  apply returns_named; tauto.
Qed.

Lemma auth_panics e :
  panics_iff e (Queryx.parse_auth_failure e)
    (∃ p, Queryx.path_word (contains_byte COLON) (Queryx.se_msg e) = Some p
          ∧ length (filter (λ b, b = BACKTICK) p) = 1%nat).
Proof.
  unfold Queryx.parse_auth_failure.
  destruct (Queryx.path_word _ _) as [p|]; [|apply returns_named; by intros (? & ? & _)].
  pose proof (length_split_on BACKTICK p) as Hl. pose proof (filter_eq_nil_iff BACKTICK p) as Hnil.
  destruct (contains_byte BACKTICK p) eqn:Hb.
  - apply contains_byte_true in Hb. destruct (split_on BACKTICK p) as [|x [|y [|z rest]]]; try done.
    + cbn in Hl. destruct (filter _ p) eqn:Hf; [|done]. naive_solver.
    + apply panics_now. exists p. cbn in Hl. split; [done|lia].
    + cbn in Hl. cbn [lookup list_lookup expect]. unfold mbind, outcome_bind.
      destruct (match z with [] => _ | _ => _ end) as [sc co]. apply returns_named. intros (? & [= <-] & ?). lia.
  - apply contains_byte_false, Hnil in Hb. rewrite Hb in Hl.
    pose proof (split_on_nonempty DOT p). destruct (split_on DOT p) as [|x rest]; [done|].
    cbn [lookup list_lookup expect]. unfold mbind, outcome_bind.
    destruct (Queryx.scope_and_collection (x :: rest)) as [sc co].
    apply returns_named. intros (? & [= <-] & Hx). by rewrite Hb in Hx.
Qed.

Lemma index_panics e :
  panics_iff e (Queryx.parse_index_not_found_or_exists e)
    (∃ ws, split_whitespace (Queryx.se_msg e) = ws ++ [str_bytes "index"] ∧ str_bytes "index" ∉ ws).
Proof.
  unfold Queryx.parse_index_not_found_or_exists. rewrite <- index_after_cases.
  pose proof (index_after_no_error (split_whitespace (Queryx.se_msg e))) as Hx.
  destruct (Queryx.index_after _) as [n|x|]; [by apply returns_named|by destruct (Hx x)|by apply panics_now].
Qed.

(** The one way the names of a resource are not read is a panic, and these are the
    messages that cause it: a collection error whose first word with a dot and a colon
    has no dot after the colon (a host and port, say), a permission error with a
    single backquote in the path, and an index error that ends with the word [index].
    For every other message an error with the server's own error as its cause is
    returned. *)
Lemma resource_error_panics e :
  (Queryx.resource_error_new e = Panic ↔
   match Queryx.se_kind e with
   | QueryServerErrorKind.CollectionNotFound =>
       ∃ p, Queryx.path_word (λ f, contains_byte DOT f && contains_byte COLON f) (Queryx.se_msg e) = Some p
            ∧ DOT ∉ p
   | QueryServerErrorKind.AuthenticationFailure =>
       ∃ p, Queryx.path_word (contains_byte COLON) (Queryx.se_msg e) = Some p
            ∧ length (filter (λ b, b = BACKTICK) p) = 1%nat
   | QueryServerErrorKind.IndexNotFound | QueryServerErrorKind.IndexExists =>
       ∃ ws, split_whitespace (Queryx.se_msg e) = ws ++ [str_bytes "index"] ∧ str_bytes "index" ∉ ws
   | _ => False
   end)
  ∧ (Queryx.resource_error_new e ≠ Panic → ∃ r, Queryx.resource_error_new e = Ok r ∧ Queryx.cause r = e).
Proof.
  unfold Queryx.resource_error_new. destruct (Queryx.se_kind e) eqn:Hk;
    first [apply returns_named; tauto | apply auth_panics | apply index_panics
          | by apply scope_panics | by apply collection_panics].
Qed.
End Panics.

(** ** Witnesses and examples *)

Lemma resource_names_read_example :
  Queryx.resource_error_new (said (V:=unit) "" 404 12003 None None [] QueryServerErrorKind.CollectionNotFound
     ([str_bytes "not"; str_bytes "found"] ++ [str_bytes "default:travel.v2.inventory.hotels"] ++ [str_bytes "here"]))
  = Ok (Queryx.mkResourceError (said "" 404 12003 None None [] QueryServerErrorKind.CollectionNotFound
     ([str_bytes "not"; str_bytes "found"] ++ [str_bytes "default:travel.v2.inventory.hotels"] ++ [str_bytes "here"]))
     (Some (str_bytes "travel.v2")) (Some (str_bytes "inventory")) (Some (str_bytes "hotels")) None).
Proof.
  apply (resource_names_read (V:=unit) "" 404 12003 None None [] [str_bytes "not"; str_bytes "found"] [str_bytes "here"]
    (str_bytes "default") (str_bytes "travel.v2") (str_bytes "inventory") (str_bytes "hotels") (str_bytes "idx"));
    apply (bool_decide_unpack _); vm_compute; exact I.
Defined.

(** A message of the server with the address of a node in it, one that ends too early,
    and an odd quote. *)
Example resource_messages_panic :
  let msg k s := Queryx.resource_error_new (V:=unit)
                   (Queryx.mkServerError k "" 404 0 (str_bytes s) None None []) in
  msg QueryServerErrorKind.CollectionNotFound "Keyspace not found on node1.example.com:8093" = Panic
  ∧ msg QueryServerErrorKind.IndexNotFound "cannot find the index" = Panic
  ∧ msg QueryServerErrorKind.AuthenticationFailure "no access to default:`b" = Panic.
Proof. vm_compute. repeat split. Qed.
