(* ===== verification/SearchxError.v ===== *)
(** * Errors of the search service ([searchx/error.rs])

    The module [Searchx] keeps the names of the source apart from those of the other error
    types. *)

From S2P Require Import Prelude HttpxError.

Module Searchx.

Inductive ServerErrorKind : Type :=
| Internal
| AuthenticationFailure
| IndexExists
| IndexNotFound
| UnknownIndexType
| SourceTypeIncorrect
| SourceNotFound
| NoIndexPartitionsPlanned
| NoIndexPartitionsFound
| UnsupportedFeature_
| RateLimitedFailure
| Unknown.

Record ServerError : Type := mkServerError {
  se_kind : ServerErrorKind;
  se_index_name : string;
  se_error_text : string;
  se_endpoint : string;
  se_status_code : Z;
}.

Definition server_error_new (kind : ServerErrorKind) (index_name error_text endpoint : string)
    (status_code : Z) : ServerError :=
  mkServerError kind index_name error_text endpoint status_code.

Inductive ErrorKind : Type :=
| Server (e : ServerError)
| Http (error : HttpxError) (endpoint : string)
| Message (msg : string) (endpoint : option string)
| InvalidArgument (msg : string) (arg : option string)
| Encoding (msg : string)
| UnsupportedFeature (feature : string).

Record Error : Type := mkError { kind : ErrorKind }.

Definition new_server_error (e : ServerError) : Error := mkError (Server e).
Definition new_message_error (msg : string) (endpoint : option string) : Error := mkError (Message msg endpoint).
Definition new_encoding_error (msg : string) : Error := mkError (Encoding msg).
Definition new_invalid_argument_error (msg : string) (arg : option string) : Error :=
  mkError (InvalidArgument msg arg).
Definition new_http_error (error : HttpxError) (endpoint : string) : Error := mkError (Http error endpoint).
Definition new_unsupported_feature_error (feature : string) : Error := mkError (UnsupportedFeature feature).

End Searchx.

#[global] Instance search_server_error_kind_eq_dec : EqDecision Searchx.ServerErrorKind.
Proof. solve_decision. Defined.
