(* ===== verification/AnalyticsxError.v ===== *)
(** * Errors of the analytics service ([analyticsx/error.rs])

    The module [Analyticsx] keeps the names of the source apart from those of the other
    error types.  Messages of the server are bytes. *)

From S2P Require Import Prelude HttpxError.

Module Analyticsx.

Inductive ServerErrorKind : Type :=
| CompilationFailure
| Internal
| AuthenticationFailure
| ParsingFailure
| ScanWaitTimeout
| InvalidArgument_ (argument reason : string)
| TemporaryFailure
| JobQueueFull
| IndexNotFound
| IndexExists
| DatasetNotFound
| DatasetExists
| DataverseNotFound
| DataverseExists
| LinkNotFound
| LinkExists
| Unknown.

Record ErrorDesc : Type := mkErrorDesc {
  desc_kind : ServerErrorKind;
  desc_code : Z;
  desc_message : list Z;
}.

Record ServerError : Type := mkServerError {
  se_kind : ServerErrorKind;
  se_endpoint : string;
  se_status_code : Z;
  se_code : Z;
  se_msg : list Z;
  se_statement : option string;
  se_client_context_id : option string;
  se_all_error_descs : list ErrorDesc;
}.

#[export] Instance server_error_settable : Settable ServerError := λ r,
  mkServerError (se_kind r) (se_endpoint r) (se_status_code r) (se_code r) (se_msg r) (se_statement r)
    (se_client_context_id r) (se_all_error_descs r).

Definition server_error_new (kind : ServerErrorKind) (endpoint : string) (status_code code : Z)
    (msg : list Z) : ServerError :=
  mkServerError kind endpoint status_code code msg None None [].

Definition with_statement (statement : string) (e : ServerError) : ServerError :=
  e <| se_statement := Some statement |>.
Definition with_client_context_id (client_context_id : string) (e : ServerError) : ServerError :=
  e <| se_client_context_id := Some client_context_id |>.
Definition with_error_descs (error_descs : list ErrorDesc) (e : ServerError) : ServerError :=
  e <| se_all_error_descs := error_descs |>.

Inductive ErrorKind : Type :=
| Server (e : ServerError)
| Http (error : HttpxError) (endpoint : string) (statement client_context_id : option string)
| Message (msg : string) (endpoint statement client_context_id : option string)
| InvalidArgument (msg : string) (arg : option string)
| Encoding (msg : string).

Record Error : Type := mkError { kind : ErrorKind }.

Definition new_server_error (e : ServerError) : Error := mkError (Server e).
Definition new_message_error (msg : string) (endpoint statement client_context_id : option string) : Error :=
  mkError (Message msg endpoint statement client_context_id).
Definition new_encoding_error (msg : string) : Error := mkError (Encoding msg).
Definition new_invalid_argument_error (msg : string) (arg : option string) : Error :=
  mkError (InvalidArgument msg arg).
Definition new_http_error (error : HttpxError) (endpoint : string)
    (statement client_context_id : option string) : Error :=
  mkError (Http error endpoint statement client_context_id).

End Analyticsx.

#[global] Instance analytics_server_error_kind_eq_dec : EqDecision Analyticsx.ServerErrorKind.
Proof. solve_decision. Defined.
