(* ===== verification/MgmtxError.v ===== *)
(** * Errors of the management service ([mgmtx/error.rs])

    The module [Mgmtx] keeps the names of the source apart from those of the other error
    types.  Bodies of responses are bytes. *)

From S2P Require Import Prelude HttpxError.

Module Mgmtx.

Inductive ServerErrorKind : Type :=
| AccessDenied
| UnsupportedFeature (feature : string)
| ScopeExists
| ScopeNotFound
| CollectionExists
| CollectionNotFound
| BucketExists
| BucketNotFound
| FlushDisabled
| ServerInvalidArg (arg reason : string)
| SampleAlreadyLoaded
| InvalidSampleBucket
| BucketUuidMismatch
| UserNotFound
| GroupNotFound
| OperationDelayed
| Unknown.

Record ServerError : Type := mkServerError {
  se_status_code : Z;
  se_url : string;
  se_body : list Z;
  se_method : Method;
  se_path : string;
  se_kind : ServerErrorKind;
}.

Definition server_error_new (status_code : Z) (url : string) (method : Method) (path : string) (body : list Z)
    (kind : ServerErrorKind) : ServerError :=
  mkServerError status_code url body method path kind.

Record ResourceError : Type := mkResourceError {
  cause : ServerError;
  res_scope_name : string;
  res_collection_name : string;
  res_bucket_name : string;
}.

Definition resource_error_new (cause : ServerError) (bucket_name scope_name collection_name : string)
    : ResourceError :=
  mkResourceError cause scope_name collection_name bucket_name.

Inductive ErrorKind : Type :=
| Server (e : ServerError)
| Resource (e : ResourceError)
| InvalidArgument (msg : string) (arg : option string)
| Message (msg : string)
| Http (e : HttpxError).

Record Error : Type := mkError { kind : ErrorKind }.

Definition new_message_error (msg : string) : Error := mkError (Message msg).
Definition new_invalid_argument_error (msg : string) (arg : option string) : Error :=
  mkError (InvalidArgument msg arg).

(** [From<ServerError> for Error], [From<ResourceError>], [From<httpx::error::Error>]. *)
Definition mgmt_error_from_server (value : ServerError) : Error := mkError (Server value).
Definition mgmt_error_from_resource (value : ResourceError) : Error := mkError (Resource value).
Definition error_from_httpx (value : HttpxError) : Error := mkError (Http value).

End Mgmtx.

#[global] Instance mgmt_server_error_kind_eq_dec : EqDecision Mgmtx.ServerErrorKind.
Proof. solve_decision. Defined.
