(* ===== verification/Wire.v ===== *)
(** * Protocol enumerations of the memcached binary protocol

    The code tables of [memdx/opcode.rs], [memdx/status.rs],
    [memdx/hello_feature.rs], [memdx/ext_frame_code.rs],
    [memdx/durability_level.rs] and [memdx/datatype.rs]: each Rust enum is an
    [Inductive] in a module of its name, each [From] implementation a function.
    The theorems state in which direction each table is lossless. *)

From S2P Require Import Prelude.

(** ** Operation codes ([opcode.rs]) *)

Module OpCode.
Inductive OpCode : Type :=
| Get
| Set_
| Add
| Replace
| Delete
| Increment
| Decrement
| Noop
| Touch
| GAT
| Append
| Prepend
| Hello
| GetClusterConfig
| GetCollectionId
| SubDocGet
| SubDocExists
| SubDocDictAdd
| SubDocDictSet
| SubDocDelete
| SubDocReplace
| SubDocArrayPushLast
| SubDocArrayPushFirst
| SubDocArrayInsert
| SubDocArrayAddUnique
| SubDocCounter
| SubDocMultiLookup
| SubDocMultiMutation
| SubDocGetCount
| SubDocReplaceBodyWithXattr
| GetErrorMap
| SelectBucket
| GetLocked
| UnlockKey
| GetMeta
| SASLAuth
| SASLListMechs
| SASLStep
| Unknown (code : Z).
End OpCode.
Abbreviation OpCode := OpCode.OpCode.

Definition u8_from_opcode (value : OpCode) : Z :=
  match value with
  | OpCode.Get => 0x00
  | OpCode.Set_ => 0x01
  | OpCode.Add => 0x02
  | OpCode.Replace => 0x03
  | OpCode.Delete => 0x04
  | OpCode.Increment => 0x05
  | OpCode.Decrement => 0x06
  | OpCode.Noop => 0x0a
  | OpCode.Append => 0x0e
  | OpCode.Prepend => 0x0f
  | OpCode.Touch => 0x1c
  | OpCode.GAT => 0x1d
  | OpCode.Hello => 0x1f
  | OpCode.SASLListMechs => 0x20
  | OpCode.SASLAuth => 0x21
  | OpCode.SASLStep => 0x22
  | OpCode.SelectBucket => 0x89
  | OpCode.GetLocked => 0x94
  | OpCode.UnlockKey => 0x95
  | OpCode.GetMeta => 0xa0
  | OpCode.GetClusterConfig => 0xb5
  | OpCode.GetCollectionId => 0xbb
  | OpCode.SubDocGet => 0xc5
  | OpCode.SubDocExists => 0xc6
  | OpCode.SubDocDictAdd => 0xc7
  | OpCode.SubDocDictSet => 0xc8
  | OpCode.SubDocDelete => 0xc9
  | OpCode.SubDocReplace => 0xca
  | OpCode.SubDocArrayPushLast => 0xcb
  | OpCode.SubDocArrayPushFirst => 0xcc
  | OpCode.SubDocArrayInsert => 0xcd
  | OpCode.SubDocArrayAddUnique => 0xce
  | OpCode.SubDocCounter => 0xcf
  | OpCode.SubDocMultiLookup => 0xd0
  | OpCode.SubDocMultiMutation => 0xd1
  | OpCode.SubDocGetCount => 0xd2
  | OpCode.SubDocReplaceBodyWithXattr => 0xd3
  | OpCode.GetErrorMap => 0xfe
  | OpCode.Unknown code => code
  end.

Definition opcode_of_u8 (value : Z) : OpCode :=
  match value with
  | 0x00 => OpCode.Get
  | 0x01 => OpCode.Set_
  | 0x02 => OpCode.Add
  | 0x03 => OpCode.Replace
  | 0x04 => OpCode.Delete
  | 0x05 => OpCode.Increment
  | 0x06 => OpCode.Decrement
  | 0x0a => OpCode.Noop
  | 0x0e => OpCode.Append
  | 0x0f => OpCode.Prepend
  | 0x1c => OpCode.Touch
  | 0x1d => OpCode.GAT
  | 0x1f => OpCode.Hello
  | 0x20 => OpCode.SASLListMechs
  | 0x21 => OpCode.SASLAuth
  | 0x22 => OpCode.SASLStep
  | 0x89 => OpCode.SelectBucket
  | 0x94 => OpCode.GetLocked
  | 0x95 => OpCode.UnlockKey
  | 0xb5 => OpCode.GetClusterConfig
  | 0xbb => OpCode.GetCollectionId
  | 0xc5 => OpCode.SubDocGet
  | 0xc6 => OpCode.SubDocExists
  | 0xc7 => OpCode.SubDocDictAdd
  | 0xc8 => OpCode.SubDocDictSet
  | 0xc9 => OpCode.SubDocDelete
  | 0xca => OpCode.SubDocReplace
  | 0xcb => OpCode.SubDocArrayPushLast
  | 0xcc => OpCode.SubDocArrayPushFirst
  | 0xcd => OpCode.SubDocArrayInsert
  | 0xce => OpCode.SubDocArrayAddUnique
  | 0xcf => OpCode.SubDocCounter
  | 0xd0 => OpCode.SubDocMultiLookup
  | 0xd1 => OpCode.SubDocMultiMutation
  | 0xd2 => OpCode.SubDocGetCount
  | 0xd3 => OpCode.SubDocReplaceBodyWithXattr
  | 0xfe => OpCode.GetErrorMap
  | _ => OpCode.Unknown value
  end.

(** [TryFrom<u8> for OpCode]: the Rust function returns a [Result] and never an
    error. *)
Definition opcode_try_from_u8 {E} (value : Z) : outcome E OpCode :=
  Ok (opcode_of_u8 value).

(** ** Response statuses ([status.rs]) *)

Module Status.
Inductive Status : Type :=
| Success
| KeyNotFound
| KeyExists
| TooBig
| InvalidArgs
| NotStored
| BadDelta
| NotMyVbucket
| NoBucket
| Locked
| OpaqueNoMatch
| WouldThrottle
| ConfigOnly
| NotLocked
| AuthStale
| AuthError
| AuthContinue
| RangeError
| AccessError
| NotInitialized
| RateLimitedNetworkIngress
| RateLimitedNetworkEgress
| RateLimitedMaxConnections
| RateLimitedMaxCommands
| RateLimitedScopeSizeLimitExceeded
| CommandUnknown
| OutOfMemory
| NotSupported
| InternalError
| Busy
| TmpFail
| CollectionUnknown
| ScopeUnknown
| DurabilityInvalidLevel
| DurabilityImpossible
| SyncWriteInProgress
| SyncWriteAmbiguous
| SyncWriteRecommitInProgress
| RangeScanCancelled
| RangeScanMore
| RangeScanComplete
| RangeScanVBUUIDNotEqual
| SubDocPathNotFound
| SubDocPathMismatch
| SubDocPathInvalid
| SubDocPathTooBig
| SubDocDocTooDeep
| SubDocCantInsert
| SubDocNotJSON
| SubDocBadRange
| SubDocBadDelta
| SubDocPathExists
| SubDocValueTooDeep
| SubDocInvalidCombo
| SubDocMultiPathFailure
| SubDocSuccessDeleted
| SubDocXattrInvalidFlagCombo
| SubDocXattrInvalidKeyCombo
| SubDocXattrUnknownMacro
| SubDocXattrUnknownVAttr
| SubDocXattrCannotModifyVAttr
| SubDocMultiPathFailureDeleted
| SubDocInvalidXattrOrder
| SubDocXattrUnknownVattrMacro
| SubDocCanOnlyReviveDeletedDocuments
| SubDocDeletedDocumentCantHaveValue
| Unknown (code : Z).
End Status.
Abbreviation Status := Status.Status.

Definition u16_from_status (value : Status) : Z :=
  match value with
  | Status.Success => 0x00
  | Status.KeyNotFound => 0x01
  | Status.KeyExists => 0x02
  | Status.TooBig => 0x03
  | Status.InvalidArgs => 0x04
  | Status.NotStored => 0x05
  | Status.BadDelta => 0x06
  | Status.NotMyVbucket => 0x07
  | Status.NoBucket => 0x08
  | Status.Locked => 0x09
  | Status.OpaqueNoMatch => 0x0b
  | Status.WouldThrottle => 0x0c
  | Status.ConfigOnly => 0x0d
  | Status.NotLocked => 0x0e
  | Status.AuthStale => 0x1f
  | Status.AuthError => 0x20
  | Status.AuthContinue => 0x21
  | Status.RangeError => 0x22
  | Status.AccessError => 0x24
  | Status.NotInitialized => 0x25
  | Status.RateLimitedNetworkIngress => 0x30
  | Status.RateLimitedNetworkEgress => 0x31
  | Status.RateLimitedMaxConnections => 0x32
  | Status.RateLimitedMaxCommands => 0x33
  | Status.RateLimitedScopeSizeLimitExceeded => 0x34
  | Status.CommandUnknown => 0x81
  | Status.OutOfMemory => 0x82
  | Status.NotSupported => 0x83
  | Status.InternalError => 0x84
  | Status.Busy => 0x85
  | Status.TmpFail => 0x86
  | Status.CollectionUnknown => 0x88
  | Status.ScopeUnknown => 0x8c
  | Status.DurabilityInvalidLevel => 0xa0
  | Status.DurabilityImpossible => 0xa1
  | Status.SyncWriteInProgress => 0xa2
  | Status.SyncWriteAmbiguous => 0xa3
  | Status.SyncWriteRecommitInProgress => 0xa4
  | Status.RangeScanCancelled => 0xa5
  | Status.RangeScanMore => 0xa6
  | Status.RangeScanComplete => 0xa7
  | Status.RangeScanVBUUIDNotEqual => 0xa8
  | Status.SubDocPathNotFound => 0xc0
  | Status.SubDocPathMismatch => 0xc1
  | Status.SubDocPathInvalid => 0xc2
  | Status.SubDocPathTooBig => 0xc3
  | Status.SubDocDocTooDeep => 0xc4
  | Status.SubDocCantInsert => 0xc5
  | Status.SubDocNotJSON => 0xc6
  | Status.SubDocBadRange => 0xc7
  | Status.SubDocBadDelta => 0xc8
  | Status.SubDocPathExists => 0xc9
  | Status.SubDocValueTooDeep => 0xca
  | Status.SubDocInvalidCombo => 0xcb
  | Status.SubDocMultiPathFailure => 0xcc
  | Status.SubDocSuccessDeleted => 0xcd
  | Status.SubDocXattrInvalidFlagCombo => 0xce
  | Status.SubDocXattrInvalidKeyCombo => 0xcf
  | Status.SubDocXattrUnknownMacro => 0xd0
  | Status.SubDocXattrUnknownVAttr => 0xd1
  | Status.SubDocXattrCannotModifyVAttr => 0xd2
  | Status.SubDocMultiPathFailureDeleted => 0xd3
  | Status.SubDocInvalidXattrOrder => 0xd4
  | Status.SubDocXattrUnknownVattrMacro => 0xd5
  | Status.SubDocCanOnlyReviveDeletedDocuments => 0xd6
  | Status.SubDocDeletedDocumentCantHaveValue => 0xd7
  | Status.Unknown code => code
  end.

Definition status_from_u16 (value : Z) : Status :=
  match value with
  | 0x00 => Status.Success
  | 0x01 => Status.KeyNotFound
  | 0x02 => Status.KeyExists
  | 0x03 => Status.TooBig
  | 0x04 => Status.InvalidArgs
  | 0x05 => Status.NotStored
  | 0x06 => Status.BadDelta
  | 0x07 => Status.NotMyVbucket
  | 0x08 => Status.NoBucket
  | 0x09 => Status.Locked
  | 0x0b => Status.OpaqueNoMatch
  | 0x0c => Status.WouldThrottle
  | 0x0d => Status.ConfigOnly
  | 0x0e => Status.NotLocked
  | 0x1f => Status.AuthStale
  | 0x20 => Status.AuthError
  | 0x21 => Status.AuthContinue
  | 0x22 => Status.RangeError
  | 0x24 => Status.AccessError
  | 0x25 => Status.NotInitialized
  | 0x30 => Status.RateLimitedNetworkIngress
  | 0x31 => Status.RateLimitedNetworkEgress
  | 0x32 => Status.RateLimitedMaxConnections
  | 0x33 => Status.RateLimitedMaxCommands
  | 0x34 => Status.RateLimitedScopeSizeLimitExceeded
  | 0x81 => Status.CommandUnknown
  | 0x82 => Status.OutOfMemory
  | 0x83 => Status.NotSupported
  | 0x84 => Status.InternalError
  | 0x85 => Status.Busy
  | 0x86 => Status.TmpFail
  | 0x88 => Status.CollectionUnknown
  | 0x8c => Status.ScopeUnknown
  | 0xa0 => Status.DurabilityInvalidLevel
  | 0xa1 => Status.DurabilityImpossible
  | 0xa2 => Status.SyncWriteInProgress
  | 0xa3 => Status.SyncWriteAmbiguous
  | 0xa4 => Status.SyncWriteRecommitInProgress
  | 0xa5 => Status.RangeScanCancelled
  | 0xa6 => Status.RangeScanMore
  | 0xa7 => Status.RangeScanComplete
  | 0xa8 => Status.RangeScanVBUUIDNotEqual
  | 0xc0 => Status.SubDocPathNotFound
  | 0xc1 => Status.SubDocPathMismatch
  | 0xc2 => Status.SubDocPathInvalid
  | 0xc3 => Status.SubDocPathTooBig
  | 0xc4 => Status.SubDocDocTooDeep
  | 0xc5 => Status.SubDocCantInsert
  | 0xc6 => Status.SubDocNotJSON
  | 0xc7 => Status.SubDocBadRange
  | 0xc8 => Status.SubDocBadDelta
  | 0xc9 => Status.SubDocPathExists
  | 0xca => Status.SubDocValueTooDeep
  | 0xcb => Status.SubDocInvalidCombo
  | 0xcc => Status.SubDocMultiPathFailure
  | 0xcd => Status.SubDocSuccessDeleted
  | 0xce => Status.SubDocXattrInvalidFlagCombo
  | 0xcf => Status.SubDocXattrInvalidKeyCombo
  | 0xd0 => Status.SubDocXattrUnknownMacro
  | 0xd1 => Status.SubDocXattrUnknownVAttr
  | 0xd2 => Status.SubDocXattrCannotModifyVAttr
  | 0xd3 => Status.SubDocMultiPathFailureDeleted
  | 0xd4 => Status.SubDocInvalidXattrOrder
  | 0xd5 => Status.SubDocXattrUnknownVattrMacro
  | 0xd6 => Status.SubDocCanOnlyReviveDeletedDocuments
  | 0xd7 => Status.SubDocDeletedDocumentCantHaveValue
  | _ => Status.Unknown value
  end.

(** ** HELLO features ([hello_feature.rs]) *)

Module HelloFeature.
Inductive HelloFeature : Type :=
| DataType
| Tls
| TCPNoDelay
| SeqNo
| TCPDelay
| Xattr
| Xerror
| SelectBucket
| Snappy
| SnappyEverywhere
| Json
| Duplex
| ClusterMapNotif
| UnorderedExec
| Durations
| AltRequests
| SyncReplication
| Collections
| PreserveExpiry
| PointInTimeRecovery
| CreateAsDeleted
| ReplaceBodyWithXattr
| ClusterMapKnownVersion
| DedupeNotMyVbucketClustermap
| ClusterMapChangeNotificationBrief
| Unknown (code : Z).
End HelloFeature.
Abbreviation HelloFeature := HelloFeature.HelloFeature.

Definition u16_from_hello_feature (value : HelloFeature) : Z :=
  match value with
  | HelloFeature.DataType => 0x01
  | HelloFeature.Tls => 0x02
  | HelloFeature.TCPNoDelay => 0x03
  | HelloFeature.SeqNo => 0x04
  | HelloFeature.TCPDelay => 0x05
  | HelloFeature.Xattr => 0x06
  | HelloFeature.Xerror => 0x07
  | HelloFeature.SelectBucket => 0x08
  | HelloFeature.Snappy => 0x0a
  | HelloFeature.Json => 0x0b
  | HelloFeature.Duplex => 0x0c
  | HelloFeature.ClusterMapNotif => 0x0d
  | HelloFeature.UnorderedExec => 0x0e
  | HelloFeature.Durations => 0x0f
  | HelloFeature.AltRequests => 0x10
  | HelloFeature.SyncReplication => 0x11
  | HelloFeature.Collections => 0x12
  | HelloFeature.SnappyEverywhere => 0x13
  | HelloFeature.PreserveExpiry => 0x14
  | HelloFeature.PointInTimeRecovery => 0x16
  | HelloFeature.CreateAsDeleted => 0x17
  | HelloFeature.ReplaceBodyWithXattr => 0x19
  | HelloFeature.ClusterMapKnownVersion => 0x1d
  | HelloFeature.DedupeNotMyVbucketClustermap => 0x1e
  | HelloFeature.ClusterMapChangeNotificationBrief => 0x1f
  | HelloFeature.Unknown code => code
  end.

Definition hello_feature_from_u16 (value : Z) : HelloFeature :=
  match value with
  | 0x01 => HelloFeature.DataType
  | 0x02 => HelloFeature.Tls
  | 0x03 => HelloFeature.TCPNoDelay
  | 0x04 => HelloFeature.SeqNo
  | 0x05 => HelloFeature.TCPDelay
  | 0x06 => HelloFeature.Xattr
  | 0x07 => HelloFeature.Xerror
  | 0x08 => HelloFeature.SelectBucket
  | 0x0a => HelloFeature.Snappy
  | 0x0b => HelloFeature.Json
  | 0x0c => HelloFeature.Duplex
  | 0x0d => HelloFeature.ClusterMapNotif
  | 0x0e => HelloFeature.UnorderedExec
  | 0x0f => HelloFeature.Durations
  | 0x10 => HelloFeature.AltRequests
  | 0x11 => HelloFeature.SyncReplication
  | 0x12 => HelloFeature.Collections
  | 0x13 => HelloFeature.SnappyEverywhere
  | 0x14 => HelloFeature.PreserveExpiry
  | 0x16 => HelloFeature.PointInTimeRecovery
  | 0x17 => HelloFeature.CreateAsDeleted
  | 0x19 => HelloFeature.ReplaceBodyWithXattr
  | 0x1d => HelloFeature.ClusterMapKnownVersion
  | 0x1e => HelloFeature.DedupeNotMyVbucketClustermap
  | 0x1f => HelloFeature.ClusterMapChangeNotificationBrief
  | _ => HelloFeature.Unknown value
  end.

(** ** Framing-extra codes ([ext_frame_code.rs]) *)

Module ExtReqFrameCode.
Inductive ExtReqFrameCode : Type :=
| Barrier
| Durability
| StreamID
| OtelContext
| OnBehalfOf
| PreserveTTL
| ExtraPerm
| Unknown (code : Z).
End ExtReqFrameCode.
Abbreviation ExtReqFrameCode := ExtReqFrameCode.ExtReqFrameCode.

Definition u16_from_ext_req_frame_code (value : ExtReqFrameCode) : Z :=
  match value with
  | ExtReqFrameCode.Barrier => 0x00
  | ExtReqFrameCode.Durability => 0x01
  | ExtReqFrameCode.StreamID => 0x02
  | ExtReqFrameCode.OtelContext => 0x03
  | ExtReqFrameCode.OnBehalfOf => 0x04
  | ExtReqFrameCode.PreserveTTL => 0x05
  | ExtReqFrameCode.ExtraPerm => 0x06
  | ExtReqFrameCode.Unknown code => code
  end.

Module ExtResFrameCode.
Inductive ExtResFrameCode : Type :=
| ServerDuration
| ReadUnits
| WriteUnits
| ThrottleDuration
| Unknown (code : Z).
End ExtResFrameCode.
Abbreviation ExtResFrameCode := ExtResFrameCode.ExtResFrameCode.

Definition u16_from_ext_res_frame_code (value : ExtResFrameCode) : Z :=
  match value with
  | ExtResFrameCode.ServerDuration => 0x00
  | ExtResFrameCode.ReadUnits => 0x01
  | ExtResFrameCode.WriteUnits => 0x02
  | ExtResFrameCode.ThrottleDuration => 0x03
  | ExtResFrameCode.Unknown code => code
  end.

Definition ext_res_frame_code_from_u16 (value : Z) : ExtResFrameCode :=
  match value with
  | 0x00 => ExtResFrameCode.ServerDuration
  | 0x01 => ExtResFrameCode.ReadUnits
  | 0x02 => ExtResFrameCode.WriteUnits
  | 0x03 => ExtResFrameCode.ThrottleDuration
  | _ => ExtResFrameCode.Unknown value
  end.

(** ** Durability levels ([durability_level.rs]) *)

Module InnerDurabilityLevel.
Inductive InnerDurabilityLevel : Type :=
| Majority
| MajorityAndPersistActive
| PersistToMajority
| Other (val : Z).
End InnerDurabilityLevel.

(** [struct DurabilityLevel(InnerDurabilityLevel)]. *)
Abbreviation DurabilityLevel := InnerDurabilityLevel.InnerDurabilityLevel.

Definition u8_from_durability_level (value : DurabilityLevel) : Z :=
  match value with
  | InnerDurabilityLevel.Majority => 1
  | InnerDurabilityLevel.MajorityAndPersistActive => 2
  | InnerDurabilityLevel.PersistToMajority => 3
  | _ => 0
  end.

Definition durability_level_from_u8 (data : Z) : DurabilityLevel :=
  match data with
  | 1 => InnerDurabilityLevel.Majority
  | 2 => InnerDurabilityLevel.MajorityAndPersistActive
  | 3 => InnerDurabilityLevel.PersistToMajority
  | _ => InnerDurabilityLevel.Other data
  end.

(** A [std::time::Duration], in nanoseconds; [as_millis] and [from_millis], [as_secs] and [from_secs]. *)
Abbreviation Duration := Z (only parsing).
Definition as_millis (d : Duration) : Z := d / 1000000.
Definition from_millis (ms : Z) : Duration := ms * 1000000.
Definition as_secs (d : Duration) : Z := d / 1000000000.
Definition from_secs (secs : Z) : Duration := secs * 1000000000.
Definition from_micros (us : Z) : Duration := us * 1000.

Record DurabilityLevelSettings : Type := {
  durability_level : DurabilityLevel;
  timeout : option Duration;
}.

Definition durability_settings_new (level : DurabilityLevel) : DurabilityLevelSettings :=
  {| durability_level := level; timeout := None |}.

Definition durability_settings_new_with_timeout (level : DurabilityLevel) (t : Duration)
  : DurabilityLevelSettings :=
  {| durability_level := level; timeout := Some t |}.

(** ** Datatype flags ([datatype.rs]) *)

Module DataTypeFlag.
Inductive DataTypeFlag : Type :=
| None_
| Json
| Compressed
| Xattrs.
End DataTypeFlag.
Abbreviation DataTypeFlag := DataTypeFlag.DataTypeFlag.

Definition u8_from_datatype_flag (value : DataTypeFlag) : Z :=
  match value with
  | DataTypeFlag.None_ => 0
  | DataTypeFlag.Json => 1
  | DataTypeFlag.Compressed => 2
  | DataTypeFlag.Xattrs => 4
  end.

(** ** Decidable equality (the derived [PartialEq]) *)

#[global] Instance opcode_eq_dec : EqDecision OpCode.
Proof. solve_decision. Defined.
#[global] Instance status_eq_dec : EqDecision Status.
Proof. solve_decision. Defined.
#[global] Instance hello_feature_eq_dec : EqDecision HelloFeature.
Proof. solve_decision. Defined.
#[global] Instance ext_req_frame_code_eq_dec : EqDecision ExtReqFrameCode.
Proof. solve_decision. Defined.
#[global] Instance ext_res_frame_code_eq_dec : EqDecision ExtResFrameCode.
Proof. solve_decision. Defined.
#[global] Instance durability_level_eq_dec : EqDecision DurabilityLevel.
Proof. solve_decision. Defined.
#[global] Instance datatype_flag_eq_dec : EqDecision DataTypeFlag.
Proof. solve_decision. Defined.

(** ** Round trips *)

(** Splits a [Z] scrutinised by a code table down to its literal patterns. *)
Ltac split_code v :=
  let p := fresh "p" in
  destruct v as [|p|p]; try reflexivity;
  repeat (destruct p as [p|p|]; try reflexivity).

Lemma opcode_wire_roundtrip v : u8_from_opcode (opcode_of_u8 v) = v.
Proof. split_code v. Qed.

Lemma status_wire_roundtrip v : u16_from_status (status_from_u16 v) = v.
Proof. split_code v. Qed.

Lemma hello_wire_roundtrip v : u16_from_hello_feature (hello_feature_from_u16 v) = v.
Proof. split_code v. Qed.

Lemma ext_res_wire_roundtrip v :
  u16_from_ext_res_frame_code (ext_res_frame_code_from_u16 v) = v.
Proof. split_code v. Qed.

(** A value of an open enum is canonical when its [Unknown] case is only used
    for a code the table does not name. *)
Definition canonical_opcode (o : OpCode) : Prop :=
  match o with OpCode.Unknown c => opcode_of_u8 c = OpCode.Unknown c | _ => True end.
Definition canonical_status (s : Status) : Prop :=
  match s with Status.Unknown c => status_from_u16 c = Status.Unknown c | _ => True end.
Definition canonical_hello (f : HelloFeature) : Prop :=
  match f with
  | HelloFeature.Unknown c => hello_feature_from_u16 c = HelloFeature.Unknown c
  | _ => True
  end.

Lemma status_enum_roundtrip s :
  canonical_status s → status_from_u16 (u16_from_status s) = s.
Proof. destruct s; simpl; auto. Qed.

Lemma hello_enum_roundtrip f :
  canonical_hello f → hello_feature_from_u16 (u16_from_hello_feature f) = f.
Proof. destruct f; simpl; auto. Qed.

Lemma opcode_enum_roundtrip o :
  canonical_opcode o → o ≠ OpCode.GetMeta → opcode_of_u8 (u8_from_opcode o) = o.
Proof. destruct o; simpl; congruence. Qed.

(** The wire tables of opcodes, statuses and HELLO features lose nothing on
    the way in: converting any code to its enum and back gives the code.  On the
    way out an enum value survives exactly when it is canonical, and, for
    opcodes, is not [GetMeta], whose code [0xa0] has no row in the table that
    reads opcodes. *)
Lemma code_tables_roundtrip :
  (∀ v, u8_from_opcode (opcode_of_u8 v) = v)
  ∧ (∀ v, u16_from_status (status_from_u16 v) = v)
  ∧ (∀ v, u16_from_hello_feature (hello_feature_from_u16 v) = v)
  ∧ (∀ s, status_from_u16 (u16_from_status s) = s ↔ canonical_status s)
  ∧ (∀ f, hello_feature_from_u16 (u16_from_hello_feature f) = f ↔ canonical_hello f)
  ∧ (∀ o, opcode_of_u8 (u8_from_opcode o) = o
          ↔ canonical_opcode o ∧ o ≠ OpCode.GetMeta).
Proof.
  split_and!; auto using opcode_wire_roundtrip, status_wire_roundtrip, hello_wire_roundtrip.
  - intros s. split; [|apply status_enum_roundtrip]. by destruct s.
  - intros f. split; [|apply hello_enum_roundtrip]. by destruct f.
  - intros o. split; [|intros []; by apply opcode_enum_roundtrip].
    by destruct o.
Qed.
