(* ===== verification/MemdError.v ===== *)
(** * Errors of the memcached protocol layer ([memdx/error.rs])

    The error value every memdx function returns, its constructors and the
    queries the routing and retry layers make of it. *)

From S2P Require Import Prelude Wire.

Module CancellationErrorKind.
Inductive CancellationErrorKind : Type :=
| Timeout
| RequestCancelled
| ClosedInFlight.
End CancellationErrorKind.
Abbreviation CancellationErrorKind := CancellationErrorKind.CancellationErrorKind.

Module SubdocErrorKind.
Inductive SubdocErrorKind : Type :=
| PathNotFound
| PathMismatch
| PathInvalid
| PathTooBig
| DocTooDeep
| CantInsert
| NotJSON
| BadRange
| BadDelta
| PathExists
| ValueTooDeep
| InvalidCombo
| XattrInvalidFlagCombo
| XattrInvalidKeyCombo
| XattrUnknownMacro
| XattrUnknownVAttr
| XattrCannotModifyVAttr
| InvalidXattrOrder
| XattrUnknownVattrMacro
| CanOnlyReviveDeletedDocuments
| DeletedDocumentCantHaveValue
| UnknownStatus (status : Status).
End SubdocErrorKind.
Abbreviation SubdocErrorKind := SubdocErrorKind.SubdocErrorKind.

Record SubdocError : Type := {
  sde_kind : SubdocErrorKind;
  sde_op_index : option Z;
}.

Module ServerErrorKind.
Inductive ServerErrorKind : Type :=
| KeyNotFound
| KeyExists
| TooBig
| NotStored
| BadDelta
| NotMyVbucket
| NoBucket
| Locked
| NotLocked
| Auth (msg : string)
| RangeError
| Access
| RateLimitedNetworkIngress
| RateLimitedNetworkEgress
| RateLimitedMaxConnections
| RateLimitedMaxCommands
| RateLimitedScopeSizeLimitExceeded
| UnknownCommand
| NotSupported
| InternalError
| Busy
| TmpFail
| UnknownCollectionID
| UnknownScopeName
| UnknownCollectionName
| DurabilityInvalid
| DurabilityImpossible
| SyncWriteInProgress
| SyncWriteAmbiguous
| SyncWriteRecommitInProgress
| RangeScanCancelled
| RangeScanVBUUIDNotEqual
| InvalidArgs
| AuthStale
| ConfigNotSet
| UnknownBucketName
| CasMismatch
| Subdoc (error : SubdocError)
| UnknownStatus (status : Status).
End ServerErrorKind.
Abbreviation ServerErrorKind := ServerErrorKind.ServerErrorKind.

Record ServerError : Type := {
  se_kind : ServerErrorKind;
  se_config : option (list Z);
  se_context : option (list Z);
  se_op_code : OpCode;
  se_status : Status;
  se_opaque : Z;
}.

Record ResourceError : Type := {
  re_cause : ServerError;
  re_scope_name : string;
  re_collection_name : string;
}.

Module ErrorKind.
Inductive ErrorKind : Type :=
| Server (e : ServerError)
| Resource (e : ResourceError)
| Dispatch (opaque : Z) (op_code : OpCode)
| Close (msg : string)
| Protocol (msg : string)
| Cancelled (kind : CancellationErrorKind)
| ConnectionFailed (msg : string)
| Io
| InvalidArgument (msg : string) (arg : option string)
| Decompression
| Message (msg : string).
End ErrorKind.
Abbreviation ErrorKind := ErrorKind.ErrorKind.

(** [Box<dyn StdError>]: the sources the memdx code attaches. *)
Inductive Source : Type :=
| SrcServer (e : ServerError)
| SrcMemdx (kind : ErrorKind) (source : option Source)
| SrcForeign (what : string).

Record Error : Type := {
  err_kind : ErrorKind;
  err_source : option Source;
}.

(** ** Constructors *)

Definition error_of (kind : ErrorKind) : Error := {| err_kind := kind; err_source := None |}.

Definition new_protocol_error (msg : string) : Error := error_of (ErrorKind.Protocol msg).
Definition new_decompression_error : Error := error_of ErrorKind.Decompression.
Definition new_message_error (msg : string) : Error := error_of (ErrorKind.Message msg).
Definition new_cancelled_error (k : CancellationErrorKind) : Error :=
  error_of (ErrorKind.Cancelled k).
Definition new_invalid_argument_error (msg : string) (arg : option string) : Error :=
  error_of (ErrorKind.InvalidArgument msg arg).

Definition source_of (e : Error) : Source := SrcMemdx (err_kind e) (err_source e).

Definition new_dispatch_error (opaque : Z) (op_code : OpCode) (source : Error) : Error :=
  {| err_kind := ErrorKind.Dispatch opaque op_code; err_source := Some (source_of source) |}.
Definition new_close_error (msg : string) (source : Error) : Error :=
  {| err_kind := ErrorKind.Close msg; err_source := Some (source_of source) |}.

(** [Error::with]: replaces the source. *)
Definition error_with (e : Error) (s : Source) : Error :=
  {| err_kind := err_kind e; err_source := Some s |}.

(** [From<ServerError> for Error], [From<ResourceError>], [From<io::Error>]. *)
Definition error_from_server (e : ServerError) : Error := error_of (ErrorKind.Server e).
Definition error_from_resource (e : ResourceError) : Error := error_of (ErrorKind.Resource e).
Definition error_from_io (what : string) : Error :=
  {| err_kind := ErrorKind.Io; err_source := Some (SrcForeign what) |}.

Definition server_error_new (kind : ServerErrorKind) (op_code : OpCode) (status : Status)
    (opaque : Z) : ServerError :=
  {| se_kind := kind; se_config := None; se_context := None;
     se_op_code := op_code; se_status := status; se_opaque := opaque |}.

Definition server_error_with_context (e : ServerError) (context : list Z) : ServerError :=
  {| se_kind := se_kind e; se_config := se_config e; se_context := Some context;
     se_op_code := se_op_code e; se_status := se_status e; se_opaque := se_opaque e |}.

Definition server_error_with_config (e : ServerError) (config : list Z) : ServerError :=
  {| se_kind := se_kind e; se_config := Some config; se_context := se_context e;
     se_op_code := se_op_code e; se_status := se_status e; se_opaque := se_opaque e |}.

Definition resource_error_new (cause : ServerError) (scope_name collection_name : string)
  : ResourceError :=
  {| re_cause := cause; re_scope_name := scope_name; re_collection_name := collection_name |}.

Definition subdoc_error_new (kind : SubdocErrorKind) (op_index : option Z) : SubdocError :=
  {| sde_kind := kind; sde_op_index := op_index |}.

(** ** Decidable equality (the derived [PartialEq]) *)

#[global] Instance cancellation_error_kind_eq_dec : EqDecision CancellationErrorKind.
Proof. solve_decision. Defined.
#[global] Instance subdoc_error_kind_eq_dec : EqDecision SubdocErrorKind.
Proof. solve_decision. Defined.
#[global] Instance subdoc_error_eq_dec : EqDecision SubdocError.
Proof. solve_decision. Defined.
#[global] Instance server_error_kind_eq_dec : EqDecision ServerErrorKind.
Proof. solve_decision. Defined.

(** ** Queries *)

Definition has_server_config (e : Error) : option (list Z) :=
  match err_kind e with ErrorKind.Server s => se_config s | _ => None end.

Definition has_server_error_context (e : Error) : option (list Z) :=
  match err_kind e with
  | ErrorKind.Server s => se_context s
  | ErrorKind.Resource r => se_context (re_cause r)
  | _ => None
  end.

Definition has_opaque (e : Error) : option Z :=
  match err_kind e with
  | ErrorKind.Server s => Some (se_opaque s)
  | ErrorKind.Resource r => Some (se_opaque (re_cause r))
  | ErrorKind.Dispatch opaque _ => Some opaque
  | _ => None
  end.

Definition is_cancellation_error (e : Error) : bool :=
  match err_kind e with ErrorKind.Cancelled _ => true | _ => false end.

Definition is_dispatch_error (e : Error) : bool :=
  match err_kind e with ErrorKind.Dispatch _ _ => true | _ => false end.

Definition is_server_error_kind (e : Error) (kind : ServerErrorKind) : bool :=
  match err_kind e with
  | ErrorKind.Server s => bool_decide (se_kind s = kind)
  | ErrorKind.Resource r => bool_decide (se_kind (re_cause r) = kind)
  | _ => false
  end.
