(* ===== verification/Codec.v ===== *)
(** * The packet codec ([memdx/magic.rs], [memdx/packet.rs], [memdx/codec.rs])

    Requests are written to, and responses read from, a byte buffer in the
    24-byte-header framing of the memcached binary protocol.  [encode] and
    [decode] are state passing on the buffer ([&mut BytesMut]): they return the
    buffer they leave behind together with their result, also on an error. *)

From S2P Require Import Prelude Wire MemdError.

(** ** Magic bytes ([magic.rs]) *)

Module Magic.
Inductive Magic : Type :=
| Req
| Res
| ReqExt
| ResExt
| ServerReq
| ServerRes.
End Magic.
Abbreviation Magic := Magic.Magic.

#[global] Instance magic_eq_dec : EqDecision Magic.
Proof. solve_decision. Defined.

Definition is_request (m : Magic) : bool :=
  match m with Magic.Req | Magic.ReqExt => true | _ => false end.
Definition is_response (m : Magic) : bool :=
  match m with Magic.Res | Magic.ResExt => true | _ => false end.
Definition is_extended (m : Magic) : bool :=
  match m with Magic.ReqExt | Magic.ResExt => true | _ => false end.

Definition u8_from_magic (value : Magic) : Z :=
  match value with
  | Magic.Req => 0x80
  | Magic.Res => 0x81
  | Magic.ReqExt => 0x08
  | Magic.ResExt => 0x18
  | Magic.ServerReq => 0x82
  | Magic.ServerRes => 0x83
  end.

Definition magic_try_from_u8 (value : Z) : outcome Error Magic :=
  match value with
  | 0x80 => Ok Magic.Req
  | 0x81 => Ok Magic.Res
  | 0x08 => Ok Magic.ReqExt
  | 0x18 => Ok Magic.ResExt
  | 0x82 => Ok Magic.ServerReq
  | 0x83 => Ok Magic.ServerRes
  | _ => Err (new_message_error ("unknown magic " +:+ show value))
  end.

(** ** Packets ([packet.rs]) *)

Record ResponsePacket : Type := {
  rs_magic : Magic;
  rs_op_code : OpCode;
  rs_datatype : Z;
  rs_status : Status;
  rs_opaque : Z;
  rs_vbucket_id : option Z;
  rs_cas : option Z;
  rs_extras : option (list Z);
  rs_key : option (list Z);
  rs_value : option (list Z);
  rs_framing_extras : option (list Z);
}.

Record RequestPacket : Type := {
  rq_magic : Magic;
  rq_op_code : OpCode;
  rq_datatype : Z;
  rq_vbucket_id : option Z;
  rq_cas : option Z;
  rq_extras : option (list Z);
  rq_key : option (list Z);
  rq_value : option (list Z);
  rq_framing_extras : option (list Z);
  rq_opaque : option Z;
}.

(** [packet.opaque = Some(opaque)] in [Client::dispatch]. *)
Definition rq_set_opaque (p : RequestPacket) (opaque : Z) : RequestPacket :=
  {| rq_magic := rq_magic p; rq_op_code := rq_op_code p; rq_datatype := rq_datatype p;
     rq_vbucket_id := rq_vbucket_id p; rq_cas := rq_cas p; rq_extras := rq_extras p;
     rq_key := rq_key p; rq_value := rq_value p;
     rq_framing_extras := rq_framing_extras p; rq_opaque := Some opaque |}.

(** ** Encoding *)

Definition HEADER_SIZE : Z := 24.

Definition key_too_large : Error :=
  new_invalid_argument_error "key size too large" (Some "key").
Definition frame_extras_too_large : Error :=
  new_invalid_argument_error "frame extras too large" (Some "frame extras").

(** [Encoder::encode].  The magic and opcode bytes are written before the sizes
    are checked, so they stay in [dst] when a check fails. *)
Definition encode (item : RequestPacket) (dst : list Z) : list Z * outcome Error unit :=
  let key_size := olen (rq_key item) in
  let extras_size := olen (rq_extras item) in
  let framing_extras_size := olen (rq_framing_extras item) in
  let body_size := olen (rq_value item) in
  let total_body_size := key_size + extras_size + framing_extras_size + body_size in
  let dst := dst ++ be_bytes 1 (u8_from_magic (rq_magic item)) in
  let dst := dst ++ be_bytes 1 (u8_from_opcode (rq_op_code item)) in
  let finish (dst : list Z) :=
    dst ++ be_bytes 1 (cast_u 8 extras_size)
        ++ be_bytes 1 (rq_datatype item)
        ++ be_bytes 2 (unwrap_or_default (rq_vbucket_id item))
        ++ be_bytes 4 (cast_u 32 total_body_size)
        ++ be_bytes 4 (unwrap_or_default (rq_opaque item))
        ++ be_bytes 8 (unwrap_or_default (rq_cas item))
        ++ obytes (rq_framing_extras item)
        ++ obytes (rq_extras item)
        ++ obytes (rq_key item)
        ++ obytes (rq_value item) in
  match rq_framing_extras item with
  | Some _ =>
      if 255 <? key_size then (dst, Err key_too_large)
      else if 255 <? framing_extras_size then (dst, Err frame_extras_too_large)
      else (finish (dst ++ be_bytes 1 (cast_u 8 framing_extras_size)
                        ++ be_bytes 1 (cast_u 8 key_size)), Ok tt)
  | None =>
      if 65535 <? key_size then (dst, Err key_too_large)
      else (finish (dst ++ be_bytes 2 (cast_u 16 key_size)), Ok tt)
  end.

(** ** Decoding *)

Section Decode.
Context {P : Profile}.

(** [Decoder::decode] after [split_to]: one whole frame. *)
Definition decode_frame (frame : list Z) : outcome Error ResponsePacket :=
  '(b, s) ← get_be 1 frame;
  magic ← magic_try_from_u8 b;
  let flexible := is_extended magic in
  '(b, s) ← get_be 1 s;
  opcode ← opcode_try_from_u8 b;
  '(flexible_extras_len, s) ← (if flexible then get_be 1 s else Ok (0, s));
  '(key_len, s) ← (if flexible then get_be 1 s else get_be 2 s);
  '(extras_len, s) ← get_be 1 s;
  '(datatype, s) ← get_be 1 s;
  '(status, s) ← get_be 2 s;
  '(total_body_len, s) ← get_be 4 s;
  '(opaque, s) ← get_be 4 s;
  '(cas, s) ← get_be 8 s;
  body_len ← sub_w 64 total_body_len key_len;
  body_len ← sub_w 64 body_len extras_len;
  body_len ← sub_w 64 body_len flexible_extras_len;
  '(framing_extras, s) ←
    (if 0 <? flexible_extras_len
     then '(x, s) ← split_to flexible_extras_len s; Ok (Some x, s) else Ok (None, s));
  '(extras, s) ←
    (if 0 <? extras_len
     then '(x, s) ← split_to extras_len s; Ok (Some x, s) else Ok (None, s));
  '(key, s) ←
    (if 0 <? key_len
     then '(x, s) ← split_to key_len s; Ok (Some x, s) else Ok (None, s));
  let value := if 0 <? body_len then Some s else None in
  Ok {| rs_magic := magic; rs_op_code := opcode; rs_datatype := datatype;
        rs_status := status_from_u16 status; rs_opaque := opaque;
        rs_vbucket_id := None; rs_cas := Some cas; rs_extras := extras;
        rs_key := key; rs_value := value; rs_framing_extras := framing_extras |}.

(** [Decoder::decode]: [Ok None] asks for more input.  [buf.reserve] changes no
    content.  The frame is split off before it is parsed, so it is consumed
    also when parsing fails. *)
Definition decode (buf : list Z) : list Z * outcome Error (option ResponsePacket) :=
  let buf_len := blen buf in
  if buf_len <? HEADER_SIZE then (buf, Ok None)
  else
    let total_body_len := from_be (take 4 (drop 8 buf)) in
    if buf_len <? HEADER_SIZE + total_body_len then (buf, Ok None)
    else
      let n := Z.to_nat (HEADER_SIZE + total_body_len) in
      (drop n buf, Some <$> decode_frame (take n buf)).

End Decode.

(** ** Frame layout

    The specification both directions are compared with: a frame is its 24-byte
    header followed by framing extras, extras, key and value, with the lengths
    of the header as given. *)
Definition frame_bytes (magic opcode : Z) (flexible : bool) (datatype w opaque cas : Z)
    (framing extras key value : list Z) : list Z :=
  be_bytes 1 magic ++ be_bytes 1 opcode
  ++ (if flexible then be_bytes 1 (blen framing) ++ be_bytes 1 (blen key)
      else be_bytes 2 (blen key))
  ++ be_bytes 1 (blen extras) ++ be_bytes 1 datatype ++ be_bytes 2 w
  ++ be_bytes 4 (blen key + blen extras + blen framing + blen value)
  ++ be_bytes 4 opaque ++ be_bytes 8 cas
  ++ framing ++ extras ++ key ++ value.

(** An absent part and an empty one look the same on the wire. *)
Definition non_empty (l : list Z) : option (list Z) :=
  match l with [] => None | _ => Some l end.

(** A request the codec can carry without loss: every integer field in the range
    of its Rust type, framing extras exactly on the extended magics, extras
    that fit the one-byte length, a body that fits the four-byte length. *)
Record packet_ok (item : RequestPacket) : Prop := {
  ok_opcode : fits 8 (u8_from_opcode (rq_op_code item));
  ok_datatype : fits 8 (rq_datatype item);
  ok_vbucket : fits 16 (unwrap_or_default (rq_vbucket_id item));
  ok_opaque : fits 32 (unwrap_or_default (rq_opaque item));
  ok_cas : fits 64 (unwrap_or_default (rq_cas item));
  ok_flexible :
    is_extended (rq_magic item) = bool_decide (is_Some (rq_framing_extras item));
  ok_extras : olen (rq_extras item) <= 255;
  ok_total : olen (rq_key item) + olen (rq_extras item)
             + olen (rq_framing_extras item) + olen (rq_value item) < 2 ^ 32;
}.

(** What the peer's decoder makes of a request: the vbucket id sits in the
    status field, and empty parts are absent. *)
Definition received (item : RequestPacket) : ResponsePacket :=
  {| rs_magic := rq_magic item;
     rs_op_code := opcode_of_u8 (u8_from_opcode (rq_op_code item));
     rs_datatype := rq_datatype item;
     rs_status := status_from_u16 (unwrap_or_default (rq_vbucket_id item));
     rs_opaque := unwrap_or_default (rq_opaque item);
     rs_vbucket_id := None;
     rs_cas := Some (unwrap_or_default (rq_cas item));
     rs_extras := non_empty (obytes (rq_extras item));
     rs_key := non_empty (obytes (rq_key item));
     rs_value := non_empty (obytes (rq_value item));
     rs_framing_extras := non_empty (obytes (rq_framing_extras item)) |}.

Lemma magic_roundtrip m : magic_try_from_u8 (u8_from_magic m) = Ok m.
Proof. by destruct m. Qed.

Lemma magic_try_from_total v : magic_try_from_u8 v ≠ Panic.
Proof. unfold magic_try_from_u8. by repeat case_match. Qed.

Lemma u8_from_magic_fits m : fits 8 (u8_from_magic m).
Proof. unfold fits. destruct m; simpl; lia. Qed.

Lemma fits_mod (n : nat) w x : 2 ^ w = 256 ^ Z.of_nat n → fits w x → x mod 256 ^ Z.of_nat n = x.
Proof. intros Hw [? ?]. rewrite Hw in *. apply Z.mod_small. lia. Qed.

Lemma blen_frame_bytes m op fl dt w oq cas f e k v :
  (fl = false → f = []) →
  blen (frame_bytes m op fl dt w oq cas f e k v)
  = HEADER_SIZE + (blen k + blen e + blen f + blen v).
Proof.
  intros Hf. unfold frame_bytes, HEADER_SIZE. destruct fl; byte_simp; [lia|].
  rewrite Hf by done. byte_simp. lia.
Qed.

(** A length-prefixed part is split off whole, and is absent when empty. *)
Lemma split_part {E B} (l s : list Z) (k : option (list Z) * list Z → outcome E B) :
  ((if 0 <? blen l
    then '(x, s) ← split_to (blen l) (l ++ s); Ok (Some x, s) else Ok (None, l ++ s))
   ≫= k) = k (non_empty l, s).
Proof.
  rewrite split_to_app. destruct l as [|b l]; [done|].
  rewrite blen_cons. pose proof (blen_nonneg l).
  by test_true (0 <? 1 + blen l).
Qed.

Lemma bind_ok {E A B} (a : A) (k : A → outcome E B) : (Ok a ≫= k) = k a.
Proof. done. Qed.

Lemma sub_w_ok {P : Profile} {E} w a b : b <= a → sub_w (E:=E) w a b = Ok (a - b).
Proof. intros H. unfold sub_w. by test_true (b <=? a). Qed.

Lemma sub_w_total {P : Profile} {E} w a b :
  sub_w (E:=E) w a b = Panic ∨ ∃ r, sub_w (E:=E) w a b = Ok r.
Proof. unfold sub_w. repeat case_test; eauto. Qed.

Section DecodeLemmas.
Context {P : Profile}.

Lemma decode_frame_bytes m op dt w oq cas f e k v :
  fits 8 op → fits 8 dt → fits 16 w → fits 32 oq → fits 64 cas →
  (is_extended m = false → f = []) →
  blen f <= 255 → blen e <= 255 →
  blen k <= (if is_extended m then 255 else 65535) →
  blen k + blen e + blen f + blen v < 2 ^ 32 →
  decode_frame (frame_bytes (u8_from_magic m) op (is_extended m) dt w oq cas f e k v)
  = Ok {| rs_magic := m; rs_op_code := opcode_of_u8 op; rs_datatype := dt;
          rs_status := status_from_u16 w; rs_opaque := oq; rs_vbucket_id := None;
          rs_cas := Some cas; rs_extras := non_empty e; rs_key := non_empty k;
          rs_value := non_empty v; rs_framing_extras := non_empty f |}.
Proof.
  intros Hop Hdt Hw Hoq Hcas Hf Hfl Hel Hkl Ht.
  pose proof (blen_nonneg k); pose proof (blen_nonneg e);
    pose proof (blen_nonneg f); pose proof (blen_nonneg v).
  unfold decode_frame, frame_bytes.
  rewrite get_be_bytes, bind_ok, (fits_mod 1 8) by auto using u8_from_magic_fits.
  rewrite magic_roundtrip, bind_ok, get_be_bytes, bind_ok, (fits_mod 1 8) by done.
  unfold opcode_try_from_u8. rewrite bind_ok.
  assert (∀ s, ('(fl, s0) ← (if is_extended m then get_be (E:=Error) 1
      ((if is_extended m then be_bytes 1 (blen f) ++ be_bytes 1 (blen k)
        else be_bytes 2 (blen k)) ++ s)
      else Ok (0, (if is_extended m then be_bytes 1 (blen f) ++ be_bytes 1 (blen k)
        else be_bytes 2 (blen k)) ++ s));
      '(kl, s0) ← (if is_extended m then get_be 1 s0 else get_be 2 s0);
      Ok (fl, kl, s0)) = Ok (blen f, blen k, s)) as Hlens.
  { intros s. destruct (is_extended m).
    - rewrite <-app_assoc. simpl_outcome. rewrite !get_be_bytes.
      by rewrite !(fits_mod 1 8) by (unfold fits; lia).
    - rewrite Hf by done. simpl_outcome. rewrite get_be_bytes.
      by rewrite (fits_mod 2 16) by (unfold fits; lia). }
  match goal with |- context [(if is_extended m then be_bytes 1 (blen f) ++ _ else _) ++ ?s] =>
    specialize (Hlens s); set (rest := s) in * end.
  destruct (if is_extended m then get_be 1 _ else _) as [[fl s1]| |]; simpl in Hlens |- *;
    [|done..].
  destruct (if is_extended m then get_be 1 s1 else _) as [[kl s2]| |]; simpl in Hlens |- *;
    [|done..].
  simplify_eq. subst rest.
  rewrite get_be_bytes, bind_ok, (fits_mod 1 8) by (done || unfold fits; lia).
  rewrite get_be_bytes, bind_ok, (fits_mod 1 8) by done.
  rewrite get_be_bytes, bind_ok, (fits_mod 2 16) by done.
  rewrite get_be_bytes, bind_ok, (fits_mod 4 32) by (done || unfold fits; lia).
  rewrite get_be_bytes, bind_ok, (fits_mod 4 32) by done.
  rewrite get_be_bytes, bind_ok, (fits_mod 8 64) by done.
  rewrite !sub_w_ok, !bind_ok by lia. rewrite !sub_w_ok, !bind_ok by lia.
  rewrite !sub_w_ok, !bind_ok by lia.
  rewrite !split_part. do 2 f_equal. destruct v as [|b v]; simpl.
  - byte_simp. by test_false (0 <? blen k + blen e + blen f + 0 - blen k - blen e - blen f).
  - byte_simp. pose proof (blen_nonneg v).
    by test_true (0 <? blen k + blen e + blen f + (1 + blen v) - blen k - blen e - blen f).
Qed.

End DecodeLemmas.

(** Where [encode] succeeds it appends one frame of the layout. *)
Definition encoded_frame (item : RequestPacket) : list Z :=
  frame_bytes (u8_from_magic (rq_magic item)) (u8_from_opcode (rq_op_code item))
    (bool_decide (is_Some (rq_framing_extras item)))
    (rq_datatype item) (unwrap_or_default (rq_vbucket_id item))
    (unwrap_or_default (rq_opaque item)) (unwrap_or_default (rq_cas item))
    (obytes (rq_framing_extras item)) (obytes (rq_extras item))
    (obytes (rq_key item)) (obytes (rq_value item)).

(** The sizes [encode] checks. *)
Definition encodable (item : RequestPacket) : bool :=
  match rq_framing_extras item with
  | Some f => (olen (rq_key item) <=? 255) && (blen f <=? 255)
  | None => olen (rq_key item) <=? 65535
  end.

Lemma encode_frame item dst :
  packet_ok item → encodable item = true →
  encode item dst = (dst ++ encoded_frame item, Ok tt).
Proof.
  intros Hok He. destruct Hok as [_ _ _ _ _ _ Hex Ht].
  unfold encode, encodable, encoded_frame, frame_bytes in *.
  pose proof (olen_nonneg (rq_key item)). pose proof (olen_nonneg (rq_extras item)).
  pose proof (olen_nonneg (rq_framing_extras item)). pose proof (olen_nonneg (rq_value item)).
  rewrite !blen_obytes. unfold cast_u.
  destruct (rq_framing_extras item) as [f|] eqn:Hf; simpl in *; prop_tests.
  - test_false (255 <? olen (rq_key item)). test_false (255 <? blen f).
    rewrite !(Z.mod_small (olen _)), (Z.mod_small (blen f)), (Z.mod_small (_ + _)) by lia.
    by rewrite <-!app_assoc.
  - test_false (65535 <? olen (rq_key item)).
    rewrite !(Z.mod_small (olen _)), (Z.mod_small (_ + _)) by lia.
    by rewrite <-!app_assoc.
Qed.

Lemma encode_error item dst :
  encodable item = false →
  ∃ e, encode item dst
       = (dst ++ be_bytes 1 (u8_from_magic (rq_magic item))
              ++ be_bytes 1 (u8_from_opcode (rq_op_code item)), Err e)
       ∧ (e = key_too_large ∨ e = frame_extras_too_large).
Proof.
  unfold encodable, encode. intros He. rewrite <-!app_assoc.
  destruct (rq_framing_extras item) as [f|]; simpl.
  - destruct (255 <? olen (rq_key item)) eqn:Hk; [eauto|].
    destruct (255 <? blen f) eqn:Hfr; [eauto|]. exfalso. lia.
  - destruct (65535 <? olen (rq_key item)) eqn:Hk; [eauto|]. exfalso. lia.
Qed.

Lemma encode_ok_encodable item dst dst' :
  encode item dst = (dst', Ok tt) → encodable item = true.
Proof.
  intros H. destruct (encodable item) eqn:He; [done|].
  destruct (encode_error item dst He) as (e & Heq & _). congruence.
Qed.

Lemma encoded_frame_blen item :
  blen (encoded_frame item)
  = HEADER_SIZE + (olen (rq_key item) + olen (rq_extras item)
                   + olen (rq_framing_extras item) + olen (rq_value item)).
Proof.
  unfold encoded_frame. rewrite blen_frame_bytes, !blen_obytes; [done|].
  intros Hb. apply bool_decide_eq_false in Hb.
  destruct (rq_framing_extras item); [|done]. destruct Hb. eauto.
Qed.

Section DecodeTheorems.
Context {P : Profile}.

Lemma decode_split frame rest :
  HEADER_SIZE <= blen frame →
  from_be (take 4 (drop 8 frame)) = blen frame - HEADER_SIZE →
  decode (frame ++ rest) = (rest, Some <$> decode_frame frame).
Proof.
  intros Hl Ht. unfold decode, HEADER_SIZE in *. byte_simp.
  pose proof (blen_nonneg rest). test_false (blen frame + blen rest <? 24).
  assert (24 ≤ length frame)%nat by (unfold blen in *; lia).
  rewrite drop_app_le, take_app_le by (rewrite ?length_drop; lia). rewrite Ht.
  test_false (blen frame + blen rest <? 24 + (blen frame - 24)).
  replace (24 + (blen frame - 24)) with (blen frame) by lia.
  by rewrite take_app_blen, drop_app_blen.
Qed.

Lemma frame_bytes_total m op fl dt w oq cas f e k v :
  blen k + blen e + blen f + blen v < 2 ^ 32 →
  from_be (take 4 (drop 8 (frame_bytes m op fl dt w oq cas f e k v)))
  = blen k + blen e + blen f + blen v.
Proof.
  intros Ht. pose proof (blen_nonneg k); pose proof (blen_nonneg e);
    pose proof (blen_nonneg f); pose proof (blen_nonneg v).
  transitivity (from_be (be_bytes 4 (blen k + blen e + blen f + blen v)));
    [|apply from_be_bytes_id; simpl; lia].
  unfold frame_bytes. by destruct fl.
Qed.

Lemma decode_encoded item rest :
  packet_ok item → encodable item = true →
  decode (encoded_frame item ++ rest) = (rest, Ok (Some (received item))).
Proof.
  intros Hok He. pose proof (encoded_frame_blen item) as Hlen. destruct Hok.
  pose proof (olen_nonneg (rq_key item)). pose proof (olen_nonneg (rq_extras item)).
  pose proof (olen_nonneg (rq_framing_extras item)). pose proof (olen_nonneg (rq_value item)).
  rewrite decode_split.
  - unfold encoded_frame. rewrite <-ok_flexible0, decode_frame_bytes; auto;
      rewrite ?blen_obytes; auto.
    + intros Hfl. rewrite ok_flexible0 in Hfl. apply bool_decide_eq_false in Hfl.
      destruct (rq_framing_extras item); [|done]. destruct Hfl; eauto.
    + unfold encodable in He. destruct (rq_framing_extras item); simpl in *; lia.
    + unfold encodable in He. rewrite ok_flexible0.
      destruct (rq_framing_extras item); simpl in *; lia.
  - unfold HEADER_SIZE in *. lia.
  - rewrite Hlen. unfold encoded_frame.
    rewrite frame_bytes_total; rewrite !blen_obytes; lia.
Qed.

(** Every decoded packet has a CAS, present on the wire or zero. *)
Lemma decode_frame_cas frame p : decode_frame frame = Ok p → is_Some (rs_cas p).
Proof.
  unfold decode_frame. intros H.
  repeat (apply bind_ok_inv in H as (? & _ & H);
          repeat match goal with x : (_ * _)%type |- _ => destruct x end).
  simplify_eq. simpl. eauto.
Qed.


(** Reading [decode]'s length test off the buffer. *)
Definition frame_length (buf : list Z) : option Z :=
  if blen buf <? HEADER_SIZE then None
  else Some (HEADER_SIZE + from_be (take 4 (drop 8 buf))).

Lemma frame_length_app buf more n :
  frame_length buf = Some n → frame_length (buf ++ more) = Some n.
Proof.
  unfold frame_length, HEADER_SIZE. intros H. case_test; simplify_eq.
  byte_simp. prop_tests. pose proof (blen_nonneg more).
  test_false (blen buf + blen more <? 24). do 3 f_equal.
  unfold blen in *. rewrite drop_app_le, take_app_le by (rewrite ?length_drop; lia). done.
Qed.

Lemma decode_unfold buf :
  decode buf =
    match frame_length buf with
    | Some n => if blen buf <? n then (buf, Ok None)
                else (drop (Z.to_nat n) buf, Some <$> decode_frame (take (Z.to_nat n) buf))
    | None => (buf, Ok None)
    end.
Proof. unfold decode, frame_length. by destruct (blen buf <? HEADER_SIZE). Qed.

Lemma fmap_some_not_none {E A} (m : outcome E A) : Some <$> m ≠ Ok None.
Proof. by destruct m. Qed.

(** [decode] is incremental: it asks for more input ([Ok None]) exactly when
    the buffer does not yet hold the header or the frame the header announces,
    it then leaves the buffer alone, and any other result (a packet or an error)
    does not depend on the bytes after the frame, which stay in the buffer.  So
    the packets read from a connection do not depend on how the transport cuts
    the byte stream. *)
Lemma decode_streaming buf :
  (∀ buf', decode buf = (buf', Ok None) →
     buf' = buf ∧ match frame_length buf with Some n => blen buf < n | None => True end)
  ∧ (∀ n, frame_length buf = Some n → n <= blen buf → snd (decode buf) ≠ Ok None)
  ∧ (∀ buf' r more, decode buf = (buf', r) → r ≠ Ok None →
       decode (buf ++ more) = (buf' ++ more, r)).
Proof.
  rewrite decode_unfold. split_and!.
  - intros buf' H. destruct (frame_length buf) as [n|]; [|naive_solver].
    case_test; prop_tests; [naive_solver|]. injection H as _ H.
    by apply fmap_some_not_none in H.
  - intros n -> Hn. test_false (blen buf <? n). apply fmap_some_not_none.
  - intros buf' r more H Hr. destruct (frame_length buf) as [n|] eqn:Hn; [|naive_solver].
    rewrite decode_unfold, (frame_length_app _ more n Hn).
    case_test; [naive_solver|]. simplify_eq. prop_tests.
    byte_simp. pose proof (blen_nonneg more). test_false (blen buf + blen more <? n).
    unfold blen in *. by rewrite drop_app_le, take_app_le by lia.
Qed.

(** The big-endian field of [n] bytes at offset [i]. *)
Definition field (i n : nat) (frame : list Z) : Z := from_be (take n (drop i frame)).

Definition key_length (flexible : bool) (frame : list Z) : Z :=
  if flexible then field 3 1 frame else field 2 2 frame.
Definition framing_length (flexible : bool) (frame : list Z) : Z :=
  if flexible then field 2 1 frame else 0.

Lemma get_field {E} i n frame :
  (i + n ≤ length frame)%nat →
  get_be (E:=E) n (drop i frame) = Ok (field i n frame, drop (i + n) frame).
Proof.
  intros H. unfold get_be, field. rewrite length_drop, drop_drop.
  by replace (n <=? length frame - i)%nat with true by (symmetry; apply Nat.leb_le; lia).
Qed.

Lemma field_bound i n frame :
  bytes_ok frame → (i + n ≤ length frame)%nat →
  0 <= field i n frame < 256 ^ Z.of_nat n.
Proof.
  intros Hb Hl. unfold field.
  assert (blen (take n (drop i frame)) = Z.of_nat n) as <-
    by (unfold blen; rewrite length_take, length_drop; lia).
  apply from_be_bound. by apply Forall_take, Forall_drop.
Qed.

(** The three optional parts of a body, in the order the decoder takes them. *)
Lemma take_part {E B} n (s : list Z) (k : option (list Z) * list Z → outcome E B) :
  0 <= n →
  ((if 0 <? n then '(x, s) ← split_to n s; Ok (Some x, s) else Ok (None, s)) ≫= k)
  = if n <=? blen s then k (non_empty (take (Z.to_nat n) s), drop (Z.to_nat n) s)
    else Panic.
Proof.
  intros Hn. unfold split_to. pose proof (blen_nonneg s).
  destruct (0 <? n) eqn:H0; prop_tests.
  - case_test; [|done]. prop_tests. simpl_outcome. f_equal.
    destruct s as [|b s]; [unfold blen in *; simpl in *; lia|].
    by destruct (Z.to_nat n) eqn:?; [lia|].
  - replace n with 0 by lia. test_true (0 <=? blen s). done.
Qed.

(** The header test of [decode_frame]: what a complete frame announces. *)
Definition parts_fit (flexible : bool) (frame : list Z) : bool :=
  framing_length flexible frame + field 4 1 frame + key_length flexible frame
  <=? field 8 4 frame.

Lemma decode_header m frame :
  (24 ≤ length frame)%nat →
  magic_try_from_u8 (field 0 1 frame) = Ok m →
  decode_frame frame =
  (body_len ← sub_w 64 (field 8 4 frame) (key_length (is_extended m) frame);
   body_len ← sub_w 64 body_len (field 4 1 frame);
   body_len ← sub_w 64 body_len (framing_length (is_extended m) frame);
   let f := framing_length (is_extended m) frame in
   let e := field 4 1 frame in
   let k := key_length (is_extended m) frame in
   let s := drop 24 frame in
   '(framing_extras, s) ←
     (if 0 <? f then '(x, s) ← split_to f s; Ok (Some x, s) else Ok (None, s));
   '(extras, s) ←
     (if 0 <? e then '(x, s) ← split_to e s; Ok (Some x, s) else Ok (None, s));
   '(key, s) ←
     (if 0 <? k then '(x, s) ← split_to k s; Ok (Some x, s) else Ok (None, s));
   Ok {| rs_magic := m; rs_op_code := opcode_of_u8 (field 1 1 frame);
         rs_datatype := field 5 1 frame; rs_status := status_from_u16 (field 6 2 frame);
         rs_opaque := field 12 4 frame; rs_vbucket_id := None;
         rs_cas := Some (field 16 8 frame); rs_extras := extras; rs_key := key;
         rs_value := if 0 <? body_len then Some s else None;
         rs_framing_extras := framing_extras |}).
Proof.
  intros Hl Hm. unfold decode_frame, key_length, framing_length.
  rewrite <-(drop_0 frame) at 1. rewrite get_field, bind_ok, Hm, bind_ok by lia.
  rewrite get_field, bind_ok by lia. unfold opcode_try_from_u8. rewrite bind_ok.
  destruct (is_extended m); simpl Nat.add; repeat (rewrite get_field, bind_ok by lia);
    rewrite ?bind_ok; repeat (rewrite get_field, bind_ok by lia); done.
Qed.

Lemma obytes_non_empty l : obytes (non_empty l) = l.
Proof. by destruct l. Qed.

Lemma olen_non_empty l : olen (non_empty l) = blen l.
Proof. by destruct l. Qed.

(** The decoder's three splits, then its packet. *)
Definition take_parts {B} (f e k : Z) (s : list Z)
    (ret : option (list Z) → option (list Z) → option (list Z) → list Z → outcome Error B)
    : outcome Error B :=
  '(framing_extras, s) ←
    (if 0 <? f then '(x, s) ← split_to f s; Ok (Some x, s) else Ok (None, s));
  '(extras, s) ←
    (if 0 <? e then '(x, s) ← split_to e s; Ok (Some x, s) else Ok (None, s));
  '(key, s) ←
    (if 0 <? k then '(x, s) ← split_to k s; Ok (Some x, s) else Ok (None, s));
  ret framing_extras extras key s.

Lemma take_parts_panic {B} f e k s (ret : _ → _ → _ → _ → outcome Error B) :
  0 <= f → 0 <= e → 0 <= k → blen s < f + e + k → take_parts f e k s ret = Panic.
Proof.
  intros. unfold take_parts. rewrite take_part by done. case_test; [|done].
  rewrite take_part by done. case_test; [|done]. rewrite take_part by done.
  case_test; [|done]. exfalso. prop_tests. unfold blen in *.
  rewrite !length_drop in *. lia.
Qed.

Lemma take_parts_ok {B} f e k (s : list Z) (ret : _ → _ → _ → _ → outcome Error B) :
  0 <= f → 0 <= e → 0 <= k → f + e + k <= blen s →
  ∃ a b c d, s = a ++ b ++ c ++ d ∧ blen a = f ∧ blen b = e ∧ blen c = k
    ∧ take_parts f e k s ret = ret (non_empty a) (non_empty b) (non_empty c) d.
Proof.
  intros. exists (take (Z.to_nat f) s), (take (Z.to_nat e) (drop (Z.to_nat f) s)),
    (take (Z.to_nat k) (drop (Z.to_nat e) (drop (Z.to_nat f) s))),
    (drop (Z.to_nat k) (drop (Z.to_nat e) (drop (Z.to_nat f) s))).
  unfold take_parts. rewrite take_part by done.
  test_true (f <=? blen s). rewrite take_part by done. rewrite (blen_drop f) by lia.
  test_true (e <=? blen s - f). rewrite take_part by done.
  rewrite (blen_drop e); rewrite (blen_drop f); [|lia..].
  test_true (k <=? blen s - f - e). rewrite !take_drop.
  rewrite (blen_take f), (blen_take e), (blen_take k);
    rewrite ?(blen_drop e); rewrite ?(blen_drop f); done || lia.
Qed.

(** What the decoder does with each complete frame, in builds with and
    without overflow checks: an unknown magic is an error; a header whose part
    lengths exceed the body it announces makes the decoder panic (there is no
    check before the subtraction); every other frame decodes to a packet whose
    parts, in wire order, are exactly the body and have the announced lengths. *)
Lemma decode_frame_cases frame :
  bytes_ok frame → frame_length frame = Some (blen frame) →
  match magic_try_from_u8 (field 0 1 frame) with
  | Panic => False
  | Err e => decode_frame frame = Err e
  | Ok m =>
      if parts_fit (is_extended m) frame then
        ∃ p, decode_frame frame = Ok p
          ∧ obytes (rs_framing_extras p) ++ obytes (rs_extras p)
            ++ obytes (rs_key p) ++ obytes (rs_value p) = drop 24 frame
          ∧ olen (rs_framing_extras p) = framing_length (is_extended m) frame
          ∧ olen (rs_extras p) = field 4 1 frame
          ∧ olen (rs_key p) = key_length (is_extended m) frame
      else decode_frame frame = Panic
  end.
Proof.
  intros Hb Hlen. unfold frame_length, HEADER_SIZE in Hlen. case_test; [done|].
  injection Hlen as Htot. prop_tests. fold (field 8 4 frame) in Htot.
  assert (24 ≤ length frame)%nat as Hl by (unfold blen in *; lia).
  destruct (magic_try_from_u8 (field 0 1 frame)) as [m|e|] eqn:Hm.
  - rewrite (decode_header m) by done.
    pose proof (field_bound 2 1 frame Hb ltac:(lia)). pose proof (field_bound 3 1 frame Hb ltac:(lia)).
    pose proof (field_bound 2 2 frame Hb ltac:(lia)). pose proof (field_bound 4 1 frame Hb ltac:(lia)).
    assert (0 <= framing_length (is_extended m) frame) as Hf
      by (unfold framing_length; case_test; lia).
    assert (0 <= key_length (is_extended m) frame) as Hk
      by (unfold key_length; case_test; lia).
    assert (blen (drop 24 frame) = field 8 4 frame) as Hs
      by (unfold blen in *; rewrite length_drop; lia).
    unfold parts_fit. case_test; prop_tests.
    + rewrite sub_w_ok, bind_ok by lia. rewrite sub_w_ok, bind_ok by lia.
      rewrite sub_w_ok, bind_ok by lia. cbv zeta.
      edestruct (take_parts_ok (B:=ResponsePacket)) as (a & b & c & d & Hd & Ha & Hb' & Hc & Heq);
        [..|unfold take_parts in Heq; rewrite Heq; clear Heq]; [lia..|].
      eexists. split; [done|]. simpl. rewrite !obytes_non_empty, !olen_non_empty.
      split_and!; try done. rewrite Hd. do 3 f_equal.
      rewrite Hd in Hs. byte_simp. case_test; prop_tests; [done|].
      symmetry. apply blen_zero. pose proof (blen_nonneg d). lia.
    + assert (∀ r, take_parts (B:=ResponsePacket) (framing_length (is_extended m) frame)
        (field 4 1 frame) (key_length (is_extended m) frame) (drop 24 frame) r = Panic) as HP
        by (intros; apply take_parts_panic; lia).
      unfold take_parts in HP. cbv zeta.
      repeat match goal with |- (sub_w 64 ?a ?b ≫= _) = _ =>
        destruct (sub_w_total (E:=Error) 64 a b) as [->|[? ->]]; [done | rewrite bind_ok] end.
      apply HP.
  - unfold decode_frame. rewrite <-(drop_0 frame). rewrite get_field, bind_ok by lia.
    by rewrite Hm.
  - by apply magic_try_from_total in Hm.
Qed.

End DecodeTheorems.

(** The encoder's checks, on every request whose fields are in range: it
    succeeds exactly on the sizes its header can express, appending one frame;
    otherwise it reports which part is too large, and the two bytes already
    written stay in the buffer behind the requests before it. *)
Lemma encode_cases item dst :
  packet_ok item →
  if encodable item
  then encode item dst = (dst ++ encoded_frame item, Ok tt)
  else ∃ e, encode item dst
         = (dst ++ be_bytes 1 (u8_from_magic (rq_magic item))
                ++ be_bytes 1 (u8_from_opcode (rq_op_code item)), Err e)
       ∧ (e = key_too_large ∨ e = frame_extras_too_large).
Proof.
  intros Hok. destruct (encodable item) eqn:He;
    [by apply encode_frame | by apply encode_error].
Qed.

(** ** Witnesses *)

(** A SET of [{}] under key [k] of the default collection, with a
    preserve-expiry frame. *)
Definition sample_set : RequestPacket :=
  {| rq_magic := Magic.ReqExt; rq_op_code := OpCode.Set_; rq_datatype := 1;
     rq_vbucket_id := Some 0x0203; rq_cas := None;
     rq_extras := Some [0; 0; 0; 0; 0; 0; 0; 0]; rq_key := Some [0; 107];
     rq_value := Some [123; 125]; rq_framing_extras := Some [0x50];
     rq_opaque := Some 7 |}.

Lemma sample_set_ok : packet_ok sample_set.
Proof. constructor; vm_compute; done. Qed.


Lemma encode_cases_example :
  encode sample_set [] = ([] ++ encoded_frame sample_set, Ok tt).
Proof. apply (encode_cases sample_set [] sample_set_ok). Defined.

(** A GET response header that announces a 3-byte body and a 4-byte key. *)
Definition malformed_frame : list Z :=
  [0x81; 0; 0; 4; 0; 0; 0; 0; 0; 0; 0; 3; 0; 0; 0; 1; 0; 0; 0; 0; 0; 0; 0; 0; 97; 98; 99].

Lemma decode_frame_cases_example : decode_frame (P:=false) malformed_frame = Panic.
Proof.
  apply (decode_frame_cases (P:=false) malformed_frame);
    [apply (bool_decide_unpack _); vm_compute; done | vm_compute; done].
Defined.
