(* ===== verification/ExtFrame.v ===== *)
(** * Framing extras ([memdx/extframe.rs])

    The typed, length-prefixed frames of the flexible framing extras, the
    durability and server-duration payloads they carry, and the ULEB128 form of
    a collection id that prefixes a key. *)

From Stdlib Require Import Floats.SpecFloat.
From S2P Require Import Prelude Wire MemdError.

(** ** Single-precision floats

    IEEE 754 binary32 as the Standard Library's [spec_float].  [f32::powf] has
    an unspecified precision, so the power function is a parameter of its
    caller; the conversion, division, rounding and cast around it are exact. *)
Module F32.
Definition prec : Z := 24.
Definition emax : Z := 128.
(** [x as f32] of an unsigned integer. *)
Definition of_Z (x : Z) : spec_float := binary_normalize prec emax x 0 false.
Definition div (x y : spec_float) : spec_float := SFdiv prec emax x y.
(** The literal [1.74], the nearest [f32]. *)
Definition lit_1_74 : spec_float := S754_finite false 14596178 (-23).
(** [x.round() as u64]: round half away from zero, then a saturating cast. *)
Definition round_as_u64 (x : spec_float) : Z :=
  match x with
  | S754_zero _ | S754_nan | S754_finite true _ _ | S754_infinity true => 0
  | S754_infinity false => 2 ^ 64 - 1
  | S754_finite false m e =>
      Z.min (2 ^ 64 - 1)
        (if 0 <=? e then Zpos m * 2 ^ e else (Zpos m + 2 ^ (- e - 1)) / 2 ^ (- e))
  end.
End F32.

(** ** Decoding frames *)

Definition unexpected_eof : Error := new_protocol_error "unexpected eof decoding ext frame".

Section Decode.
Context {P : Profile}.

Definition decode_ext_frame (buf : list Z) : outcome Error (ExtResFrameCode * list Z * Z) :=
  match buf with
  | [] => Err (new_protocol_error "empty value buffer when decoding ext frame")
  | frame_header :: _ =>
      let u_frame_code := Z.shiftr (Z.land frame_header 0xF0) 4 in
      let frame_len := Z.land frame_header 0x0F in
      let buf_pos := 1 in
      '(u_frame_code, buf_pos) ←
        (if u_frame_code =? 15 then
           if blen buf <? buf_pos + 1 then Err unexpected_eof
           else frame_code_ext ← index buf buf_pos;
                u_frame_code ← add_w 8 15 frame_code_ext;
                Ok (u_frame_code, buf_pos + 1)
         else Ok (u_frame_code, buf_pos));
      '(frame_len, buf_pos) ←
        (if frame_len =? 15 then
           if blen buf <? buf_pos + 1 then Err unexpected_eof
           else frame_len_ext ← index buf buf_pos;
                frame_len ← add_w 8 15 frame_len_ext;
                Ok (frame_len, buf_pos + 1)
         else Ok (frame_len, buf_pos));
      if blen buf <? buf_pos + frame_len then Err unexpected_eof
      else frame_body ← slice buf_pos (buf_pos + frame_len) buf;
           Ok (ext_res_frame_code_from_u16 u_frame_code, frame_body, buf_pos + frame_len)
  end.

(** [iter_ext_frames]: the callback [cb] is run on its state [st].  As in the
    source, one call visits the first frame only. *)
Definition iter_ext_frames {S} (buf : list Z) (cb : S → ExtResFrameCode → list Z → S) (st : S)
    : outcome Error (S * list Z) :=
  if negb (blen buf =? 0) then
    '(frame_code, frame_body, buf_pos) ← decode_ext_frame buf;
    rest ← slice buf_pos (blen buf) buf;
    Ok (cb st frame_code frame_body, rest)
  else Ok (st, buf).

(** [decode_server_duration_ext_frame]; [powf] stands for [f32::powf]. *)
Definition decode_server_duration_ext_frame (powf : spec_float → spec_float → spec_float)
    (data : list Z) : outcome Error Duration :=
  match data with
  | [d0; d1] =>
      let dura_enc := Z.lor (Z.shiftl d0 8) d1 in
      let dura_micros :=
        F32.round_as_u64 (F32.div (powf (F32.of_Z dura_enc) F32.lit_1_74) (F32.of_Z 2)) in
      Ok (from_micros dura_micros)
  | _ => Err (new_protocol_error "invalid server duration ext frame length")
  end.

Definition decode_res_ext_frames (powf : spec_float → spec_float → spec_float)
    (buf : list Z) : outcome Error (option Duration) :=
  '(server_duration_data, _) ←
    iter_ext_frames buf
      (λ st code data,
         if bool_decide (code = ExtResFrameCode.ServerDuration)
         then Some (decode_server_duration_ext_frame powf data) else st) None;
  match server_duration_data with
  | Some data => d ← data; Ok (Some d)
  | None => Ok None
  end.

End Decode.

(** ** Encoding frames *)

Definition ext_frame_overflow : Error :=
  new_invalid_argument_error "buffer overflow" (Some "ext frame").
Definition ext_frame_code_too_large : Error :=
  new_invalid_argument_error "ext frame code too large to encode" (Some "ext frame").
Definition ext_frame_len_too_large : Error :=
  new_invalid_argument_error "ext frame len too large to encode" (Some "ext frame").

(** [buf[i] |= v] and [buf[i..i + src.len()].copy_from_slice(src)] at an offset
    the code has checked. *)
Definition or_at (i v : Z) (buf : list Z) : list Z :=
  alter (λ b, Z.lor b v) (Z.to_nat i) buf.
Definition overwrite (i : Z) (src buf : list Z) : list Z :=
  take (Z.to_nat i) buf ++ src ++ drop (Z.to_nat (i + blen src)) buf.

(** [append_ext_frame] on its two [&mut] arguments, the buffer and the offset. *)
Definition append_ext_frame (frame_code : ExtReqFrameCode) (frame_body buf : list Z)
    (offset : Z) : (list Z * Z) * outcome Error unit :=
  let frame_len := blen frame_body in
  if blen buf <=? offset then ((buf, offset), Err ext_frame_overflow)
  else
    let buf := <[Z.to_nat offset := 0]> buf in
    let hdr_byte_ptr := offset in
    let offset := offset + 1 in
    let u_frame_code := u16_from_ext_req_frame_code frame_code in
    let put_body (buf : list Z) (offset : Z) :=
      if 0 <? frame_len then
        if blen buf <? offset + frame_len then ((buf, offset), Err ext_frame_overflow)
        else ((overwrite offset frame_body buf, offset + frame_len), Ok tt)
      else ((buf, offset), Ok tt) in
    let put_len (buf : list Z) (offset : Z) :=
      if frame_len <? 15 then
        put_body (or_at hdr_byte_ptr (Z.land (cast_u 8 frame_len) 0xF) buf) offset
      else if 15 <=? frame_len - 15 then ((buf, offset), Err ext_frame_len_too_large)
      else
        let buf := or_at hdr_byte_ptr 0x0F buf in
        if blen buf <? offset + 2 then ((buf, offset), Err ext_frame_overflow)
        else put_body (overwrite offset (be_bytes 2 (cast_u 16 (frame_len - 15))) buf)
               (offset + 2) in
    if u_frame_code <? 15 then
      put_len (or_at hdr_byte_ptr (cast_u 8 (Z.shiftl (Z.land u_frame_code 0x0f) 4)) buf) offset
    else if 15 <=? u_frame_code - 15 then ((buf, offset), Err ext_frame_code_too_large)
    else
      let buf := or_at hdr_byte_ptr 0xF0 buf in
      if blen buf <? offset + 2 then ((buf, offset), Err ext_frame_overflow)
      else put_len (overwrite offset (be_bytes 2 u_frame_code) buf) (offset + 2).

(** ** Collection ids

    The [loop] of [make_uleb128_32] on [cid], the buffer and [count].  A [u32]
    has five groups of seven bits, so five iterations are enough
    ([make_uleb128_32_spec]); running out of fuel is made a panic. *)
Fixpoint make_uleb128_32_loop (fuel : nat) (cid : Z) (buf : list Z) (count : Z)
    : outcome Error (Z * list Z) :=
  match fuel with
  | O => Panic
  | S fuel =>
      let c := Z.land cid 0x7f in
      let cid := Z.shiftr cid 7 in
      let c := if negb (cid =? 0) then Z.lor c 0x80 else c in
      buf ← store count c buf;
      let count := count + 1 in
      if Z.land c 0x80 =? 0 then Ok (count, buf)
      else make_uleb128_32_loop fuel cid buf count
  end.

Definition make_uleb128_32 (collection_id : Z) (buf : list Z) : outcome Error (Z * list Z) :=
  make_uleb128_32_loop 5 collection_id buf 0.

(** ** Durability *)

Definition durability_timeout_too_large : Error :=
  new_invalid_argument_error
    "cannot encode durability timeout greater than 65535 milliseconds"
    (Some "durability_level_timeout").

Definition encode_durability_ext_frame (level : DurabilityLevel) (timeout : option Duration)
    : outcome Error (list Z) :=
  match timeout with
  | None => Ok [u8_from_durability_level level]
  | Some timeout =>
      let timeout_millis := as_millis timeout in
      if 65535 <? timeout_millis then Err durability_timeout_too_large
      else
        let timeout_millis := if timeout_millis =? 0 then 1 else timeout_millis in
        Ok [u8_from_durability_level level; cast_u 8 (Z.shiftr timeout_millis 8);
            cast_u 8 timeout_millis]
  end.

Definition decode_durability_level_ext_frame (data : list Z)
    : outcome Error DurabilityLevelSettings :=
  match data with
  | [l] => Ok (durability_settings_new (durability_level_from_u8 l))
  | [l; hi; lo] =>
      Ok (durability_settings_new_with_timeout (durability_level_from_u8 l)
            (from_millis (Z.lor (Z.shiftl hi 8) lo)))
  | _ => Err (new_message_error "invalid durability ext frame length")
  end.

(** ** Lemmas on buffer updates *)

Lemma overwrite_app (a src old rest : list Z) :
  length old = length src →
  overwrite (blen a) src (a ++ old ++ rest) = a ++ src ++ rest.
Proof.
  intros Hl. unfold overwrite. rewrite take_app_blen. do 2 f_equal.
  replace (blen a + blen src) with (blen (a ++ old)) by (byte_simp; unfold blen; lia).
  by rewrite app_assoc, drop_app_blen.
Qed.

Lemma or_at_app (a : list Z) b v rest :
  or_at (blen a) v (a ++ b :: rest) = a ++ Z.lor b v :: rest.
Proof.
  unfold or_at, blen. rewrite Nat2Z.id. rewrite alter_app_r_alt by lia.
  by rewrite Nat.sub_diag.
Qed.

Lemma insert_app_blen (a : list Z) b v rest :
  <[Z.to_nat (blen a) := v]> (a ++ b :: rest) = a ++ v :: rest.
Proof.
  unfold blen. rewrite Nat2Z.id. rewrite insert_app_r_alt by lia.
  by rewrite Nat.sub_diag.
Qed.

(** A frame header: code in the high nibble, length in the low one. *)
Lemma frame_header_nibbles c n :
  0 <= c < 16 → 0 <= n < 16 →
  let h := Z.lor (Z.lor 0 (cast_u 8 (Z.shiftl (Z.land c 0x0f) 4))) (Z.land (cast_u 8 n) 0xF) in
  h = c * 16 + n ∧ Z.shiftr (Z.land h 0xF0) 4 = c ∧ Z.land h 0x0F = n.
Proof.
  intros Hc Hn. pattern n. revert n Hn. apply (for_range 0 16). pattern c. revert c Hc.
  apply (for_range 0 16). cbv zeta. apply (bool_decide_unpack _). vm_compute. done.
Qed.

(** A buffer with room for [n] more bytes at [offset], split there. *)
Lemma buffer_room (buf : list Z) offset n :
  0 <= offset → 0 <= n → offset + n <= blen buf →
  ∃ a old rest, buf = a ++ old ++ rest ∧ blen a = offset ∧ blen old = n.
Proof.
  intros. exists (take (Z.to_nat offset) buf), (take (Z.to_nat n) (drop (Z.to_nat offset) buf)),
    (drop (Z.to_nat n) (drop (Z.to_nat offset) buf)).
  rewrite !take_drop. split_and!; [done|..]; apply blen_take; rewrite ?blen_drop; lia.
Qed.

(** The short form of a frame, which every frame the client sends should have. *)
Definition short_frame (code : Z) (body : list Z) : list Z := code * 16 + blen body :: body.

Lemma append_short_frame code body buf offset :
  0 <= u16_from_ext_req_frame_code code < 15 → blen body < 15 →
  0 <= offset → offset + 1 + blen body <= blen buf →
  append_ext_frame code body buf offset
  = ((overwrite offset (short_frame (u16_from_ext_req_frame_code code) body) buf,
      offset + 1 + blen body), Ok tt).
Proof.
  intros Hc Hb Ho Hroom. pose proof (blen_nonneg body).
  destruct (buffer_room buf offset (1 + blen body)) as (a & old & rest & -> & <- & Hold); [lia..|].
  rewrite overwrite_app by (unfold short_frame, blen in *; simpl; lia).
  destruct old as [|o old]; [rewrite blen_nil in Hold; lia|]. rewrite blen_cons in Hold.
  unfold append_ext_frame. byte_simp. pose proof (blen_nonneg rest).
  test_false (blen a + (1 + blen old + blen rest) <=? blen a).
  rewrite <-app_comm_cons, insert_app_blen.
  set (c := u16_from_ext_req_frame_code code) in *.
  test_true (c <? 15). test_true (blen body <? 15). rewrite !or_at_app.
  destruct (frame_header_nibbles c (blen body)) as (-> & _); [lia..|].
  case_test; prop_tests.
  - byte_simp. test_false (blen a + (1 + (blen old + blen rest)) <? blen a + 1 + blen body).
    change (a ++ c * 16 + blen body :: old ++ rest)
      with (a ++ [c * 16 + blen body] ++ old ++ rest).
    rewrite app_assoc. replace (blen a + 1) with (blen (a ++ [c * 16 + blen body]))
      by (byte_simp; lia).
    rewrite overwrite_app by (unfold blen in *; lia). byte_simp. rewrite <-app_assoc.
    unfold short_frame. simpl. by do 2 f_equal.
  - assert (body = []) as -> by (apply blen_zero; lia).
    assert (old = []) as -> by (apply blen_zero; lia).
    unfold short_frame. byte_simp. simpl. do 2 f_equal; lia.
Qed.

Section FrameTheorems.
Context {P : Profile}.

Lemma slice_mid {E} (a b c : list Z) i j :
  i = blen a → j = blen a + blen b → slice (E:=E) i j (a ++ b ++ c) = Ok b.
Proof.
  intros -> ->. unfold slice. byte_simp.
  pose proof (blen_nonneg a); pose proof (blen_nonneg b); pose proof (blen_nonneg c).
  test_true (0 <=? blen a). test_true (blen a <=? blen a + blen b).
  test_true (blen a + blen b <=? blen a + (blen b + blen c)). simpl. f_equal.
  rewrite drop_app_blen. replace (blen a + blen b - blen a) with (blen b) by lia.
  apply take_app_blen.
Qed.

Lemma decode_short_frame c body rest :
  0 <= c < 15 → blen body < 15 →
  decode_ext_frame (short_frame c body ++ rest)
  = Ok (ext_res_frame_code_from_u16 c, body, 1 + blen body).
Proof.
  intros Hc Hb. pose proof (blen_nonneg body). pose proof (blen_nonneg rest).
  unfold decode_ext_frame, short_frame. simpl app.
  destruct (frame_header_nibbles c (blen body)) as (Hh & Hcode & Hlen); [lia..|].
  rewrite Hh in Hcode, Hlen. rewrite Hcode, Hlen.
  test_false (c =? 15). simpl_outcome. test_false (blen body =? 15). byte_simp.
  test_false (1 + (blen body + blen rest) <? 1 + blen body).
  change (c * 16 + blen body :: body ++ rest) with ([c * 16 + blen body] ++ body ++ rest).
  by rewrite slice_mid.
Qed.

(** A framing-extra frame with a code and a body of less than fifteen (every
    frame the client sends today except a long on-behalf-of name) is written at
    the offset, moves the offset past it, leaves the rest of the buffer alone,
    and reads back as the same code and body, whatever follows it. *)
Lemma ext_frame_roundtrip code body buf offset rest :
  0 <= u16_from_ext_req_frame_code code < 15 → blen body < 15 →
  0 <= offset → offset + 1 + blen body <= blen buf →
  ∃ buf' offset', append_ext_frame code body buf offset = ((buf', offset'), Ok tt)
    ∧ offset' = offset + 1 + blen body ∧ blen buf' = blen buf
    ∧ take (Z.to_nat offset) buf' = take (Z.to_nat offset) buf
    ∧ drop (Z.to_nat offset') buf' = drop (Z.to_nat offset') buf
    ∧ decode_ext_frame (drop (Z.to_nat offset) (take (Z.to_nat offset') buf') ++ rest)
      = Ok (ext_res_frame_code_from_u16 (u16_from_ext_req_frame_code code), body,
            1 + blen body).
Proof.
  intros Hc Hb Ho Hroom. pose proof (blen_nonneg body).
  do 2 eexists. split; [by apply append_short_frame|]. split; [done|].
  destruct (buffer_room buf offset (1 + blen body)) as (a & old & post & -> & <- & Hold); [lia..|].
  rewrite overwrite_app by (unfold short_frame, blen in *; simpl; lia).
  set (f := short_frame _ _). assert (blen f = 1 + blen body) as Hf
    by (unfold f, short_frame; byte_simp; lia).
  replace (blen a + 1 + blen body) with (blen (a ++ f)) by (byte_simp; lia).
  split; [byte_simp; lia|]. split; [by rewrite !take_app_blen|]. split.
  - rewrite app_assoc, drop_app_blen. replace (blen (a ++ f)) with (blen (a ++ old))
      by (byte_simp; lia). by rewrite app_assoc, drop_app_blen.
  - rewrite app_assoc, take_app_blen, drop_app_blen. by apply decode_short_frame.
Qed.

(** The last step of [decode_ext_frame], once the position and length are known. *)
Lemma decode_frame_tail buf (c : ExtResFrameCode) pos len :
  1 <= pos <= 3 → 0 <= len →
  match (if blen buf <? pos + len then Err unexpected_eof
         else frame_body ← slice pos (pos + len) buf; Ok (c, frame_body, pos + len)) with
  | Ok (_, body, n) =>
      1 + blen body <= n <= 3 + blen body ∧ n <= blen buf
      ∧ body = drop (Z.to_nat (n - blen body)) (take (Z.to_nat n) buf)
  | Err e => ∃ msg, err_kind e = ErrorKind.Protocol msg
  | Panic => False
  end.
Proof.
  intros Hp Hl. case_test; [by eexists|]. prop_tests. unfold slice.
  test_true (0 <=? pos). test_true (pos <=? pos + len). test_true (pos + len <=? blen buf).
  simpl. assert (blen (take (Z.to_nat (pos + len - pos)) (drop (Z.to_nat pos) buf)) = len) as ->.
  { rewrite blen_take; [lia|]. rewrite blen_drop; lia. }
  split_and!; try lia. rewrite take_drop_commute. repeat f_equal; lia.
Qed.

(** One extension byte: the sum, or the overflow panic with its cause. *)
Lemma ext_byte buf pos :
  bytes_ok buf → 1 <= pos <= 2 → pos + 1 <= blen buf →
  match (x ← index buf pos; n ← add_w (E:=Error) 8 15 x; Ok (n, pos + 1)) with
  | Ok (n, q) => 0 <= n ∧ q = pos + 1
  | Err _ => False
  | Panic => overflow_checks = true ∧ Exists (λ b, 241 <= b) (take 3 buf)
  end.
Proof.
  intros Hb Hp Hl. unfold index.
  destruct (lookup_lt_is_Some_2 buf (Z.to_nat pos)) as [x Hx]; [unfold blen in *; lia|].
  rewrite Hx. pose proof (Forall_lookup_1 _ _ _ _ Hb Hx) as Hbx. unfold byte_ok in Hbx.
  simpl. unfold add_w. case_test; [simpl; lia|]. case_test; simpl.
  - split; [done|]. apply list.Exists_exists. exists x. prop_tests. split; [|lia].
    apply list_elem_of_lookup. exists (Z.to_nat pos). rewrite lookup_take_Some. split; [done | lia].
  - split; [|done]. apply Z.mod_pos_bound. lia.
Qed.

Lemma nibble_nonneg h m : 0 <= m → 0 <= Z.land h m.
Proof. intros. rewrite Z.land_nonneg. by right. Qed.

(** What [decode_ext_frame] can return, case by case. *)
Lemma decode_ext_frame_cases buf :
  bytes_ok buf →
  match decode_ext_frame buf with
  | Ok (_, body, n) =>
      1 + blen body <= n <= 3 + blen body ∧ n <= blen buf
      ∧ body = drop (Z.to_nat (n - blen body)) (take (Z.to_nat n) buf)
  | Err e => ∃ msg, err_kind e = ErrorKind.Protocol msg
  | Panic => overflow_checks = true ∧ Exists (λ b, 241 <= b) (take 3 buf)
  end.
Proof.
  intros Hb. destruct buf as [|h t]; [by eexists|]. unfold decode_ext_frame.
  set (buf := h :: t) in *. cbv zeta.
  assert (∀ pos (c : ExtResFrameCode), 1 <= pos <= 2 → match ('(frame_len, buf_pos) ←
      (if Z.land h 15 =? 15 then
         if blen buf <? pos + 1 then Err unexpected_eof
         else x ← index buf pos; n ← add_w 8 15 x; Ok (n, pos + 1)
       else Ok (Z.land h 15, pos));
      if blen buf <? buf_pos + frame_len then Err unexpected_eof
      else frame_body ← slice buf_pos (buf_pos + frame_len) buf;
           Ok (c, frame_body, buf_pos + frame_len)) with
    | Ok (_, body, n) => 1 + blen body <= n <= 3 + blen body ∧ n <= blen buf
      ∧ body = drop (Z.to_nat (n - blen body)) (take (Z.to_nat n) buf)
    | Err e => ∃ msg, err_kind e = ErrorKind.Protocol msg
    | Panic => overflow_checks = true ∧ Exists (λ b, 241 <= b) (take 3 buf)
    end) as Hlen.
  { intros pos c Hp. case_test.
    - case_test; [by eexists|]. prop_tests. pose proof (ext_byte buf pos Hb Hp ltac:(lia)) as H.
      destruct (x ← index buf pos; _) as [[n q]|e|]; [|done..]. destruct H as [Hn ->].
      simpl. pose proof (decode_frame_tail buf c (pos + 1) n ltac:(lia) Hn). by case_match.
    - simpl. pose proof (nibble_nonneg h 15 ltac:(lia)).
      pose proof (decode_frame_tail buf c pos (Z.land h 15) ltac:(lia) ltac:(lia)).
      by case_match. }
  destruct (Z.shiftr _ 4 =? 15); [|apply Hlen; lia].
  destruct (blen buf <? 1 + 1) eqn:H2; [by eexists|]. prop_tests.
  pose proof (ext_byte buf 1 Hb ltac:(lia) ltac:(lia)) as H.
  destruct (x ← index buf 1; _) as [[n q]|e|]; [|done..].
  destruct H as [Hn ->]. apply Hlen. lia.
Qed.

(** The decoder of one frame never reads outside its buffer: it answers with
    an error, or with a body that is exactly the bytes between the frame header
    and the end of the frame.  The one panic left is the eight-bit addition of
    an extension byte of 241 or more, in a build with overflow checks. *)
Lemma decode_ext_frame_bounds buf :
  bytes_ok buf →
  match decode_ext_frame buf with
  | Ok (_, body, n) =>
      1 + blen body <= n <= 3 + blen body ∧ n <= blen buf
      ∧ body = drop (Z.to_nat (n - blen body)) (take (Z.to_nat n) buf)
  | Err e => ∃ msg, err_kind e = ErrorKind.Protocol msg
  | Panic => overflow_checks = true ∧ Exists (λ b, 241 <= b) (take 3 buf)
  end.
Proof. apply decode_ext_frame_cases. Qed.

End FrameTheorems.

(** ** ULEB128

    The reference: seven bits per byte, least significant first, the high bit
    set on all but the last byte. *)
Fixpoint uleb128 (fuel : nat) (cid : Z) : list Z :=
  match fuel with
  | O => []
  | S fuel => if cid <? 128 then [cid] else cid mod 128 + 128 :: uleb128 fuel (cid / 128)
  end.

(** A server's reading of the prefix: up to the first byte without a high bit. *)
Fixpoint read_uleb128 (l : list Z) : option (Z * list Z) :=
  match l with
  | [] => None
  | b :: l =>
      if b <? 128 then Some (b, l)
      else '(v, rest) ← read_uleb128 l; Some (b - 128 + 128 * v, rest)
  end.

Lemma continuation_bit c :
  0 <= c < 128 → Z.lor c 0x80 = c + 128 ∧ Z.land c 0x80 = 0 ∧ Z.land (c + 128) 0x80 = 128.
Proof. revert c. apply (for_range 0 128). apply (bool_decide_unpack _). vm_compute. done. Qed.

Lemma uleb128_length fuel cid :
  0 <= cid < 128 ^ Z.of_nat fuel → (0 < fuel)%nat → (1 ≤ length (uleb128 fuel cid) ≤ fuel)%nat.
Proof.
  revert cid. induction fuel as [|fuel IH]; intros cid Hc Hf; [lia|]. simpl.
  case_test; [simpl; lia|]. prop_tests. simpl.
  rewrite Nat2Z.inj_succ, Z.pow_succ_r in Hc by lia.
  destruct fuel as [|fuel]; [simpl in *; lia|].
  pose proof (Z.div_pos cid 128 ltac:(lia) ltac:(lia)).
  pose proof (Z.div_lt_upper_bound cid 128 _ ltac:(lia) (proj2 Hc)).
  specialize (IH (cid / 128) ltac:(lia) ltac:(lia)). lia.
Qed.

Lemma read_uleb128_app fuel cid rest :
  0 <= cid < 128 ^ Z.of_nat fuel → (0 < fuel)%nat →
  read_uleb128 (uleb128 fuel cid ++ rest) = Some (cid, rest).
Proof.
  revert cid. induction fuel as [|fuel IH]; intros cid Hc Hf; [lia|]. simpl.
  case_test; prop_tests; simpl; [by test_true (cid <? 128)|].
  rewrite Nat2Z.inj_succ, Z.pow_succ_r in Hc by lia.
  destruct fuel as [|fuel]; [simpl in *; lia|].
  pose proof (Z.mod_pos_bound cid 128 ltac:(lia)).
  pose proof (Z.div_pos cid 128 ltac:(lia) ltac:(lia)).
  pose proof (Z.div_lt_upper_bound cid 128 _ ltac:(lia) (proj2 Hc)).
  test_false (cid mod 128 + 128 <? 128). rewrite IH by lia. simpl.
  do 2 f_equal. pose proof (Z.div_mod cid 128). lia.
Qed.

Lemma store_app (a : list Z) b v rest :
  store (E:=Error) (blen a) v (a ++ b :: rest) = Ok (a ++ v :: rest).
Proof.
  unfold store. byte_simp. pose proof (blen_nonneg rest).
  test_true (blen a <? blen a + (1 + blen rest)). by rewrite insert_app_blen.
Qed.

Lemma make_uleb128_32_loop_spec fuel cid a buf :
  0 <= cid < 128 ^ Z.of_nat fuel → (0 < fuel ≤ length buf)%nat →
  make_uleb128_32_loop fuel cid (a ++ buf) (blen a)
  = Ok (blen a + blen (uleb128 fuel cid),
        a ++ uleb128 fuel cid ++ drop (length (uleb128 fuel cid)) buf).
Proof.
  revert cid a buf. induction fuel as [|fuel IH]; intros cid a buf Hc Hf; [lia|].
  destruct buf as [|o buf]; [simpl in *; lia|]. simpl. rewrite store_app. simpl_outcome.
  change 127 with (Z.ones 7).
  rewrite (Z.land_ones cid 7), (Z.shiftr_div_pow2 cid 7) by lia. change (2 ^ 7) with 128.
  pose proof (Z.mod_pos_bound cid 128 ltac:(lia)) as Hm.
  destruct (continuation_bit (cid mod 128) Hm) as (Hor & Hl0 & Hl1).
  destruct (cid <? 128) eqn:H128; prop_tests.
  - rewrite (Z.div_small cid), (Z.mod_small cid) in * by lia. simpl. rewrite Hl0. simpl.
    byte_simp. by rewrite drop_0.
  - rewrite Nat2Z.inj_succ, Z.pow_succ_r in Hc by lia.
    destruct fuel as [|fuel]; [simpl in *; lia|].
    pose proof (Z.div_pos cid 128 ltac:(lia) ltac:(lia)).
    pose proof (Z.div_lt_upper_bound cid 128 _ ltac:(lia) (proj2 Hc)).
    pose proof (Z.div_le_lower_bound cid 128 1 ltac:(lia) ltac:(lia)).
    test_false (cid / 128 =? 0). simpl negb. cbv iota. rewrite Hor, Hl1. simpl Z.eqb. cbv iota.
    replace (blen a + 1) with (blen (a ++ [cid mod 128 + 128])) by (byte_simp; lia).
    rewrite cons_middle, app_assoc. simpl in Hf. rewrite IH by (simpl; lia).
    byte_simp. rewrite <-!app_assoc. simpl. do 2 f_equal. lia.
Qed.

(** [make_uleb128_32] on any [u32] and any buffer of at least five bytes
    terminates without a panic, writes between one and five bytes at the front
    of the buffer and nothing else, and the bytes are the ULEB128 form of the id:
    a reader that gets them in front of any key recovers the id and the key. *)
Lemma make_uleb128_32_spec cid buf key :
  fits 32 cid → 5 <= blen buf →
  ∃ count buf', make_uleb128_32 cid buf = Ok (count, buf')
    ∧ 1 <= count <= 5 ∧ blen buf' = blen buf
    ∧ drop (Z.to_nat count) buf' = drop (Z.to_nat count) buf
    ∧ read_uleb128 (take (Z.to_nat count) buf' ++ key) = Some (cid, key).
Proof.
  intros [Hc0 Hc1] Hb. assert (0 <= cid < 128 ^ Z.of_nat 5) as Hc by (simpl in *; lia).
  unfold make_uleb128_32.
  pose proof (make_uleb128_32_loop_spec 5 cid [] buf Hc ltac:(unfold blen in *; lia)) as H.
  rewrite !app_nil_l in H. change (blen []) with 0 in H. rewrite H.
  pose proof (uleb128_length 5 cid Hc ltac:(lia)) as Hl.
  set (u := uleb128 5 cid) in *. do 2 eexists. split; [done|]. rewrite Z.add_0_l.
  split_and!; try (unfold blen; lia).
  - byte_simp. unfold blen in *. rewrite length_drop. lia.
  - rewrite drop_app_blen. unfold blen. by rewrite Nat2Z.id.
  - rewrite take_app_blen. apply read_uleb128_app; [done | lia].
Qed.

(** ** Durability *)

Definition canonical_durability (l : DurabilityLevel) : bool :=
  match l with InnerDurabilityLevel.Other _ => false | _ => true end.

Lemma durability_level_roundtrip l :
  canonical_durability l = true →
  durability_level_from_u8 (u8_from_durability_level l) = l.
Proof. by destruct l. Qed.

(** Durability requirements survive the wire: a named level without timeout
    is one byte and reads back; with a timeout of at most 65535 milliseconds it
    is three bytes and reads back with the timeout cut to whole milliseconds and
    raised to at least one; a longer timeout is refused. *)
Lemma durability_frame_roundtrip level timeout :
  canonical_durability level = true → (∀ t, timeout = Some t → 0 <= t) →
  match encode_durability_ext_frame level timeout with
  | Ok data =>
      blen data <= 3 ∧ bytes_ok data
      ∧ decode_durability_level_ext_frame data
        = Ok {| durability_level := level;
                timeout := (λ t, from_millis (Z.max 1 (as_millis t))) <$> timeout |}
  | Err e => e = durability_timeout_too_large ∧ ∃ t, timeout = Some t ∧ 65535 < as_millis t
  | Panic => False
  end.
Proof.
  intros Hl Ht.
  assert (byte_ok (u8_from_durability_level level)) as Hb
    by (unfold byte_ok; destruct level; simpl; lia).
  destruct timeout as [t|]; simpl.
  - specialize (Ht t eq_refl). assert (0 <= as_millis t) by (apply Z.div_pos; lia).
    case_test; prop_tests; [eauto|].
    set (ms := if as_millis t =? 0 then 1 else as_millis t).
    assert (ms = Z.max 1 (as_millis t)) as Hms by (unfold ms; case_test; lia).
    unfold cast_u. rewrite Z.shiftr_div_pow2 by lia. split; [done|]. split.
    + rewrite !list.Forall_cons. split_and!; try done; apply Z.mod_pos_bound; lia.
    + unfold decode_durability_level_ext_frame. rewrite durability_level_roundtrip by done.
      rewrite lor_shiftl_add by (try apply Z.mod_pos_bound; lia).
      unfold durability_settings_new_with_timeout. do 4 f_equal. rewrite <-Hms.
      rewrite (Z.mod_small (ms / 2 ^ 8))
        by (split; [apply Z.div_pos | apply Z.div_lt_upper_bound]; lia).
      rewrite Z.mul_comm, <-Z.div_mod by lia. done.
  - rewrite durability_level_roundtrip by done. split_and!; [done| |done]. by constructor.
Qed.

(** ** The extended length form *)

(** What [append_ext_frame] writes for a body of 15 to 29 bytes. *)
Definition long_frame (code : Z) (body : list Z) : list Z :=
  code * 16 + 15 :: 0 :: blen body - 15 :: body.

Lemma frame_header_long c :
  0 <= c < 16 →
  let h := Z.lor (Z.lor 0 (cast_u 8 (Z.shiftl (Z.land c 0x0f) 4))) 0x0F in
  h = c * 16 + 15 ∧ Z.shiftr (Z.land h 0xF0) 4 = c ∧ Z.land h 0x0F = 15.
Proof.
  revert c. apply (for_range 0 16). cbv zeta. apply (bool_decide_unpack _). vm_compute. done.
Qed.

Lemma append_long_frame code body buf offset :
  0 <= u16_from_ext_req_frame_code code < 15 → 15 <= blen body < 30 →
  0 <= offset → offset + 3 + blen body <= blen buf →
  append_ext_frame code body buf offset
  = ((overwrite offset (long_frame (u16_from_ext_req_frame_code code) body) buf,
      offset + 3 + blen body), Ok tt).
Proof.
  intros Hc Hb Ho Hroom.
  destruct (buffer_room buf offset (3 + blen body)) as (a & old & rest & -> & <- & Hold); [lia..|].
  rewrite overwrite_app by (unfold long_frame, blen in *; simpl; lia).
  destruct old as [|o [|o1 [|o2 old]]]; rewrite ?blen_cons, ?blen_nil in Hold; try lia.
  unfold append_ext_frame. byte_simp. pose proof (blen_nonneg rest).
  test_false (blen a + (1 + (1 + (1 + blen old)) + blen rest) <=? blen a).
  rewrite <-!app_comm_cons, insert_app_blen.
  set (c := u16_from_ext_req_frame_code code) in *.
  test_true (c <? 15). test_false (blen body <? 15). test_false (15 <=? blen body - 15).
  rewrite !or_at_app. destruct (frame_header_long c) as (-> & _); [lia|]. byte_simp.
  test_false (blen a + (1 + (1 + (1 + (blen old + blen rest)))) <? blen a + 1 + 2).
  test_true (0 <? blen body).
  rewrite (cons_middle (c * 16 + 15)), app_assoc.
  replace (blen a + 1) with (blen (a ++ [c * 16 + 15])) by (byte_simp; lia).
  change (o1 :: o2 :: old ++ rest) with ([o1; o2] ++ old ++ rest).
  rewrite overwrite_app by done.
  case_test; [exfalso; prop_tests; byte_simp; lia|].
  rewrite (app_assoc (a ++ _) (be_bytes 2 _)).
  replace (blen (a ++ [c * 16 + 15]) + 2)
    with (blen ((a ++ [c * 16 + 15]) ++ be_bytes 2 (cast_u 16 (blen body - 15))))
    by (byte_simp; lia).
  rewrite overwrite_app by (unfold blen in *; lia). rewrite <-!app_assoc. byte_simp.
  replace (blen a + (1 + 0 + Z.of_nat 2) + blen body) with (blen a + 3 + blen body) by lia.
  do 3 f_equal. unfold long_frame, cast_u. simpl.
  rewrite (Z.mod_small (blen body - 15)), Z.div_small, Z.div_1_r, (Z.mod_small (blen body - 15))
    by (simpl; lia). done.
Qed.

(** A frame body of 15 to 29 bytes (an on-behalf-of user name of that length)
    is written with a two-byte length extension but read back with a one-byte
    extension: the decoder of the same file returns 15 bytes that start with the
    length byte, not the body, whatever follows the frame. *)
Lemma ext_frame_long_body_mismatch {P : Profile} code body buf offset rest :
  0 <= u16_from_ext_req_frame_code code < 15 → 15 <= blen body < 30 →
  0 <= offset → offset + 3 + blen body <= blen buf →
  ∃ buf' offset', append_ext_frame code body buf offset = ((buf', offset'), Ok tt)
    ∧ decode_ext_frame (drop (Z.to_nat offset) (take (Z.to_nat offset') buf') ++ rest)
      = Ok (ext_res_frame_code_from_u16 (u16_from_ext_req_frame_code code),
            blen body - 15 :: take 14 body, 17).
Proof.
  intros Hc Hb Ho Hroom. do 2 eexists. split; [by apply append_long_frame|].
  destruct (buffer_room buf offset (3 + blen body)) as (a & old & post & -> & <- & Hold); [lia..|].
  rewrite overwrite_app by (unfold long_frame, blen in *; simpl; lia).
  set (c := u16_from_ext_req_frame_code code) in *.
  replace (blen a + 3 + blen body) with (blen (a ++ long_frame c body))
    by (unfold long_frame; byte_simp; lia).
  rewrite app_assoc, take_app_blen, drop_app_blen.
  unfold decode_ext_frame, long_frame. rewrite <-!app_comm_cons.
  destruct (frame_header_long c) as (Hh & Hcode & Hlen); [lia|].
  rewrite Hh in Hcode, Hlen. rewrite Hcode, Hlen. test_false (c =? 15). simpl_outcome.
  byte_simp. pose proof (blen_nonneg rest). simpl Z.eqb. cbv iota.
  test_false (1 + (1 + (1 + (blen body + blen rest))) <? 1 + 1). unfold index, add_w. simpl.
  case_test; [exfalso; prop_tests; byte_simp; lia|].
  rewrite <-(take_drop 14 body) at 2. rewrite <-app_assoc.
  change (c * 16 + 15 :: 0 :: ?x :: ?l) with ([c * 16 + 15; 0] ++ (x :: l)).
  rewrite app_comm_cons.
  rewrite slice_mid; [done|..]; byte_simp; unfold blen in *; rewrite ?length_take; lia.
Qed.

(** ** Witnesses *)

Lemma ext_frame_roundtrip_example :
  ∃ buf' offset', append_ext_frame ExtReqFrameCode.Durability [1; 0; 100] (replicate 8 0) 2
      = ((buf', offset'), Ok tt)
    ∧ offset' = 2 + 1 + 3 ∧ blen buf' = 8
    ∧ take 2 buf' = [0; 0] ∧ drop (Z.to_nat offset') buf' = drop (Z.to_nat offset') (replicate 8 0)
    ∧ decode_ext_frame (P:=true) (drop 2 (take (Z.to_nat offset') buf') ++ [77])
      = Ok (ExtResFrameCode.ReadUnits, [1; 0; 100], 1 + 3).
Proof.
  apply (ext_frame_roundtrip (P:=true) ExtReqFrameCode.Durability [1; 0; 100]
           (replicate 8 0) 2 [77]); vm_compute; done.
Defined.

Lemma decode_ext_frame_bounds_example :
  decode_ext_frame (P:=true) [0xF0; 241] = Panic ∧ (@overflow_checks true) = true.
Proof.
  split; [done|].
  apply (decode_ext_frame_bounds (P:=true) [0xF0; 241]).
  apply (bool_decide_unpack _). vm_compute. done.
Defined.

Lemma make_uleb128_32_spec_example :
  ∃ count buf', make_uleb128_32 300 [0; 0; 0; 0; 0] = Ok (count, buf')
    ∧ 1 <= count <= 5 ∧ blen buf' = blen [0; 0; 0; 0; 0]
    ∧ drop (Z.to_nat count) buf' = drop (Z.to_nat count) [0; 0; 0; 0; 0]
    ∧ read_uleb128 (take (Z.to_nat count) buf' ++ [107]) = Some (300, [107]).
Proof. apply make_uleb128_32_spec; vm_compute; done. Defined.

Lemma durability_frame_roundtrip_example :
  3 <= 3 ∧ bytes_ok [1; 0x27; 0x10]
  ∧ decode_durability_level_ext_frame [1; 0x27; 0x10]
    = Ok {| durability_level := InnerDurabilityLevel.Majority;
            timeout := Some (from_millis 10000) |}.
Proof.
  apply (durability_frame_roundtrip InnerDurabilityLevel.Majority (Some (from_millis 10000)));
    [done | by intros t [= <-]].
Defined.

Example ext_frame_long_body_example :
  ∃ buf' offset',
    append_ext_frame ExtReqFrameCode.OnBehalfOf (str_bytes "cbas-monitor-user") (replicate 30 0) 0
      = ((buf', offset'), Ok tt)
    ∧ decode_ext_frame (P:=true) (drop 0 (take (Z.to_nat offset') buf') ++ [])
      = Ok (ExtResFrameCode.Unknown 4, 2 :: str_bytes "cbas-monitor-u", 17).
Proof.
  apply (ext_frame_long_body_mismatch (P:=true) ExtReqFrameCode.OnBehalfOf
           (str_bytes "cbas-monitor-user") (replicate 30 0) 0 []); vm_compute; done.
Defined.
