(* ===== verification/Requests.v ===== *)
(** * Requests and the dispatch interface ([memdx/request.rs], [memdx/subdoc.rs],
    [memdx/auth_mechanism.rs], [memdx/dispatcher.rs])

    One record per request struct, in a module of its name so that its fields
    keep their source names; the sub-document operations and their reordering;
    and the [Dispatcher] trait as a type class, against which the operations
    are defined. *)

From S2P Require Import Prelude Wire MemdError Codec.

(** ** Authentication mechanisms *)

Module AuthMechanism.
Inductive AuthMechanism : Type :=
| Plain
| ScramSha1
| ScramSha256
| ScramSha512
| OAuthBearer.
End AuthMechanism.
Abbreviation AuthMechanism := AuthMechanism.AuthMechanism.

#[global] Instance auth_mechanism_eq_dec : EqDecision AuthMechanism.
Proof. solve_decision. Defined.

Definition auth_mechanism_name (value : AuthMechanism) : string :=
  match value with
  | AuthMechanism.Plain => "PLAIN"
  | AuthMechanism.ScramSha1 => "SCRAM-SHA1"
  | AuthMechanism.ScramSha256 => "SCRAM-SHA256"
  | AuthMechanism.ScramSha512 => "SCRAM-SHA512"
  | AuthMechanism.OAuthBearer => "OAUTHBEARER"
  end.

(** [From<AuthMechanism> for Vec<u8>]. *)
Definition bytes_from_auth_mechanism (value : AuthMechanism) : list Z :=
  str_bytes (auth_mechanism_name value).

Definition auth_mechanism_try_from (value : string) : outcome Error AuthMechanism :=
  if bool_decide (value = "PLAIN") then Ok AuthMechanism.Plain
  else if bool_decide (value = "SCRAM-SHA1") then Ok AuthMechanism.ScramSha1
  else if bool_decide (value = "SCRAM-SHA256") then Ok AuthMechanism.ScramSha256
  else if bool_decide (value = "SCRAM-SHA512") then Ok AuthMechanism.ScramSha512
  else if bool_decide (value = "OAUTHBEARER") then Ok AuthMechanism.OAuthBearer
  else Err (new_protocol_error ("unsupported auth mechanism " +:+ value)).

(** ** Sub-document operations ([subdoc.rs]) *)

(** The [bitflags!] types are their bits. *)
Abbreviation SubdocOpFlag := Z (only parsing).
Abbreviation SubdocDocFlag := Z (only parsing).
Definition MKDIR_P : SubdocOpFlag := 0x01.
Definition XATTR_PATH : SubdocOpFlag := 0x04.
Definition EXPAND_MACROS : SubdocOpFlag := 0x10.
Definition MkDoc : SubdocDocFlag := 0x01.
Definition AddDoc : SubdocDocFlag := 0x02.
Definition AccessDeleted : SubdocDocFlag := 0x04.
(** [Flags::contains] and [Flags::is_empty]. *)
Definition flags_contains (bits other : Z) : bool := Z.land bits other =? other.
Definition flags_is_empty (bits : Z) : bool := bits =? 0.

Module LookupInOpType.
Inductive LookupInOpType : Type := Get | Exists_ | GetCount | GetDoc.
End LookupInOpType.
Abbreviation LookupInOpType := LookupInOpType.LookupInOpType.

Definition opcode_from_lookup_in_op_type (op_type : LookupInOpType) : OpCode :=
  match op_type with
  | LookupInOpType.Get => OpCode.SubDocGet
  | LookupInOpType.Exists_ => OpCode.SubDocExists
  | LookupInOpType.GetCount => OpCode.SubDocGetCount
  | LookupInOpType.GetDoc => OpCode.Get
  end.

Module MutateInOpType.
Inductive MutateInOpType : Type :=
| DictAdd
| DictSet
| Delete
| Replace
| ArrayPushLast
| ArrayPushFirst
| ArrayInsert
| ArrayAddUnique
| Counter
| SetDoc
| AddDoc
| DeleteDoc
| ReplaceBodyWithXattr.
End MutateInOpType.
Abbreviation MutateInOpType := MutateInOpType.MutateInOpType.

Definition opcode_from_mutate_in_op_type (op_type : MutateInOpType) : OpCode :=
  match op_type with
  | MutateInOpType.DictAdd => OpCode.SubDocDictAdd
  | MutateInOpType.DictSet => OpCode.SubDocDictSet
  | MutateInOpType.Delete => OpCode.SubDocDelete
  | MutateInOpType.Replace => OpCode.SubDocReplace
  | MutateInOpType.ArrayPushLast => OpCode.SubDocArrayPushLast
  | MutateInOpType.ArrayPushFirst => OpCode.SubDocArrayPushFirst
  | MutateInOpType.ArrayInsert => OpCode.SubDocArrayInsert
  | MutateInOpType.ArrayAddUnique => OpCode.SubDocArrayAddUnique
  | MutateInOpType.Counter => OpCode.SubDocCounter
  | MutateInOpType.SetDoc => OpCode.Set_
  | MutateInOpType.AddDoc => OpCode.Add
  | MutateInOpType.DeleteDoc => OpCode.Delete
  | MutateInOpType.ReplaceBodyWithXattr => OpCode.SubDocReplaceBodyWithXattr
  end.

Module LookupInOp.
Record LookupInOp : Type := mk {
  op : LookupInOpType;
  flags : SubdocOpFlag;
  path : list Z;
}.
End LookupInOp.
Abbreviation LookupInOp := LookupInOp.LookupInOp.

Module MutateInOp.
Record MutateInOp : Type := mk {
  op : MutateInOpType;
  flags : SubdocOpFlag;
  path : list Z;
  value : list Z;
}.
End MutateInOp.
Abbreviation MutateInOp := MutateInOp.MutateInOp.

(** [trait SubdocOp]. *)
Class SubdocOp (T : Type) := is_xattr_op : T → bool.
#[global] Instance lookup_in_op_subdoc : SubdocOp LookupInOp := λ o,
  flags_contains (LookupInOp.flags o) XATTR_PATH.
#[global] Instance mutate_in_op_subdoc : SubdocOp MutateInOp := λ o,
  flags_contains (MutateInOp.flags o) XATTR_PATH.

(** [for (i, op) in ops.iter().enumerate() { if keep(op) { push both } }]. *)
Fixpoint push_ops {T} (keep : T → bool) (i : nat) (ops : list T) (acc : list T * list nat)
    : list T * list nat :=
  match ops with
  | [] => acc
  | op :: ops =>
      push_ops keep (S i) ops
        (if keep op then (fst acc ++ [op], snd acc ++ [i]) else acc)
  end.

Definition reorder_subdoc_ops {T} `{SubdocOp T} (ops : list T) : list T * list nat :=
  push_ops (λ op, negb (is_xattr_op op)) 0 ops (push_ops is_xattr_op 0 ops ([], [])).

Module SubdocRequestInfo.
Record SubdocRequestInfo : Type := mk {
  flags : SubdocDocFlag;
  op_count : Z;
}.
End SubdocRequestInfo.
Abbreviation SubdocRequestInfo := SubdocRequestInfo.SubdocRequestInfo.

Module SubDocResult.
Record SubDocResult : Type := mk {
  err : option Error;
  value : option (list Z);
}.
End SubDocResult.
Abbreviation SubDocResult := SubDocResult.SubDocResult.

(** ** Request structs ([request.rs]) *)

Module HelloRequest.
Record HelloRequest : Type := mk {
  client_name : list Z;
  requested_features : list HelloFeature;
}.
End HelloRequest.
Abbreviation HelloRequest := HelloRequest.HelloRequest.

Module GetErrorMapRequest.
Record GetErrorMapRequest : Type := mk {
  version : Z;
}.
End GetErrorMapRequest.
Abbreviation GetErrorMapRequest := GetErrorMapRequest.GetErrorMapRequest.

Module SelectBucketRequest.
Record SelectBucketRequest : Type := mk {
  bucket_name : string;
}.
End SelectBucketRequest.
Abbreviation SelectBucketRequest := SelectBucketRequest.SelectBucketRequest.

Module GetClusterConfigKnownVersion.
Record GetClusterConfigKnownVersion : Type := mk {
  rev_epoch : Z;
  rev_id : Z;
}.
End GetClusterConfigKnownVersion.
Abbreviation GetClusterConfigKnownVersion := GetClusterConfigKnownVersion.GetClusterConfigKnownVersion.

Module GetClusterConfigRequest.
Record GetClusterConfigRequest : Type := mk {
  known_version : option GetClusterConfigKnownVersion;
}.
End GetClusterConfigRequest.
Abbreviation GetClusterConfigRequest := GetClusterConfigRequest.GetClusterConfigRequest.

Module GetCollectionIdRequest.
Record GetCollectionIdRequest : Type := mk {
  scope_name : string;
  collection_name : string;
}.
End GetCollectionIdRequest.
Abbreviation GetCollectionIdRequest := GetCollectionIdRequest.GetCollectionIdRequest.

Module SASLAuthRequest.
Record SASLAuthRequest : Type := mk {
  auth_mechanism : AuthMechanism;
  payload : list Z;
}.
End SASLAuthRequest.
Abbreviation SASLAuthRequest := SASLAuthRequest.SASLAuthRequest.

Module SASLStepRequest.
Record SASLStepRequest : Type := mk {
  auth_mechanism : AuthMechanism;
  payload : list Z;
}.
End SASLStepRequest.
Abbreviation SASLStepRequest := SASLStepRequest.SASLStepRequest.

Module SASLListMechsRequest.
Record SASLListMechsRequest : Type := mk { }.
End SASLListMechsRequest.
Abbreviation SASLListMechsRequest := SASLListMechsRequest.SASLListMechsRequest.

Module SetRequest.
Record SetRequest : Type := mk {
  collection_id : Z;
  key : list Z;
  vbucket_id : Z;
  flags : Z;
  value : list Z;
  datatype : Z;
  expiry : option Z;
  preserve_expiry : option bool;
  cas : option Z;
  on_behalf_of : option string;
  durability_level : option DurabilityLevel;
  durability_level_timeout : option Duration;
}.
End SetRequest.
Abbreviation SetRequest := SetRequest.SetRequest.

Module GetRequest.
Record GetRequest : Type := mk {
  collection_id : Z;
  key : list Z;
  vbucket_id : Z;
  on_behalf_of : option string;
}.
End GetRequest.
Abbreviation GetRequest := GetRequest.GetRequest.

Module GetMetaRequest.
Record GetMetaRequest : Type := mk {
  collection_id : Z;
  key : list Z;
  vbucket_id : Z;
  on_behalf_of : option string;
}.
End GetMetaRequest.
Abbreviation GetMetaRequest := GetMetaRequest.GetMetaRequest.

Module DeleteRequest.
Record DeleteRequest : Type := mk {
  collection_id : Z;
  key : list Z;
  vbucket_id : Z;
  cas : option Z;
  on_behalf_of : option string;
  durability_level : option DurabilityLevel;
  durability_level_timeout : option Duration;
}.
End DeleteRequest.
Abbreviation DeleteRequest := DeleteRequest.DeleteRequest.

Module GetAndLockRequest.
Record GetAndLockRequest : Type := mk {
  collection_id : Z;
  key : list Z;
  vbucket_id : Z;
  lock_time : Z;
  on_behalf_of : option string;
}.
End GetAndLockRequest.
Abbreviation GetAndLockRequest := GetAndLockRequest.GetAndLockRequest.

Module GetAndTouchRequest.
Record GetAndTouchRequest : Type := mk {
  collection_id : Z;
  key : list Z;
  vbucket_id : Z;
  expiry : Z;
  on_behalf_of : option string;
}.
End GetAndTouchRequest.
Abbreviation GetAndTouchRequest := GetAndTouchRequest.GetAndTouchRequest.

Module UnlockRequest.
Record UnlockRequest : Type := mk {
  collection_id : Z;
  key : list Z;
  vbucket_id : Z;
  cas : Z;
  on_behalf_of : option string;
}.
End UnlockRequest.
Abbreviation UnlockRequest := UnlockRequest.UnlockRequest.

Module TouchRequest.
Record TouchRequest : Type := mk {
  collection_id : Z;
  key : list Z;
  vbucket_id : Z;
  expiry : Z;
  on_behalf_of : option string;
}.
End TouchRequest.
Abbreviation TouchRequest := TouchRequest.TouchRequest.

Module AddRequest.
Record AddRequest : Type := mk {
  collection_id : Z;
  key : list Z;
  vbucket_id : Z;
  flags : Z;
  value : list Z;
  datatype : Z;
  expiry : option Z;
  on_behalf_of : option string;
  durability_level : option DurabilityLevel;
  durability_level_timeout : option Duration;
}.
End AddRequest.
Abbreviation AddRequest := AddRequest.AddRequest.

Module ReplaceRequest.
Record ReplaceRequest : Type := mk {
  collection_id : Z;
  key : list Z;
  vbucket_id : Z;
  flags : Z;
  value : list Z;
  datatype : Z;
  expiry : option Z;
  preserve_expiry : option bool;
  cas : option Z;
  on_behalf_of : option string;
  durability_level : option DurabilityLevel;
  durability_level_timeout : option Duration;
}.
End ReplaceRequest.
Abbreviation ReplaceRequest := ReplaceRequest.ReplaceRequest.

Module AppendRequest.
Record AppendRequest : Type := mk {
  collection_id : Z;
  key : list Z;
  vbucket_id : Z;
  value : list Z;
  datatype : Z;
  cas : option Z;
  on_behalf_of : option string;
  durability_level : option DurabilityLevel;
  durability_level_timeout : option Duration;
}.
End AppendRequest.
Abbreviation AppendRequest := AppendRequest.AppendRequest.

Module PrependRequest.
Record PrependRequest : Type := mk {
  collection_id : Z;
  key : list Z;
  vbucket_id : Z;
  value : list Z;
  datatype : Z;
  cas : option Z;
  on_behalf_of : option string;
  durability_level : option DurabilityLevel;
  durability_level_timeout : option Duration;
}.
End PrependRequest.
Abbreviation PrependRequest := PrependRequest.PrependRequest.

Module IncrementRequest.
Record IncrementRequest : Type := mk {
  collection_id : Z;
  key : list Z;
  vbucket_id : Z;
  initial : option Z;
  delta : Z;
  expiry : option Z;
  on_behalf_of : option string;
  durability_level : option DurabilityLevel;
  durability_level_timeout : option Duration;
}.
End IncrementRequest.
Abbreviation IncrementRequest := IncrementRequest.IncrementRequest.

Module DecrementRequest.
Record DecrementRequest : Type := mk {
  collection_id : Z;
  key : list Z;
  vbucket_id : Z;
  initial : option Z;
  delta : Z;
  expiry : option Z;
  on_behalf_of : option string;
  durability_level : option DurabilityLevel;
  durability_level_timeout : option Duration;
}.
End DecrementRequest.
Abbreviation DecrementRequest := DecrementRequest.DecrementRequest.

Module LookupInRequest.
Record LookupInRequest : Type := mk {
  collection_id : Z;
  key : list Z;
  vbucket_id : Z;
  flags : SubdocDocFlag;
  ops : list LookupInOp;
  on_behalf_of : option string;
}.
End LookupInRequest.
Abbreviation LookupInRequest := LookupInRequest.LookupInRequest.

Module MutateInRequest.
Record MutateInRequest : Type := mk {
  collection_id : Z;
  key : list Z;
  vbucket_id : Z;
  flags : SubdocDocFlag;
  ops : list MutateInOp;
  expiry : option Z;
  preserve_expiry : option bool;
  cas : option Z;
  on_behalf_of : option string;
  durability_level : option DurabilityLevel;
  durability_level_timeout : option Duration;
}.
End MutateInRequest.
Abbreviation MutateInRequest := MutateInRequest.MutateInRequest.

Module PingRequest.
Record PingRequest : Type := mk {
  on_behalf_of : option string;
}.
End PingRequest.
Abbreviation PingRequest := PingRequest.PingRequest.

(** ** Dispatching ([dispatcher.rs], [client.rs]) *)

(** What the response decoder needs to know of the request. *)
Module ResponseContext.
Record ResponseContext : Type := mk {
  cas : option Z;
  subdoc_info : option SubdocRequestInfo;
  scope_name : option string;
  collection_name : option string;
}.
End ResponseContext.
Abbreviation ResponseContext := ResponseContext.ResponseContext.

(** The arguments of one [dispatch] call. *)
Record DispatchCall : Type := {
  dc_packet : RequestPacket;
  dc_is_persistent : bool;
  dc_response_context : option ResponseContext;
}.

(** [trait Dispatcher]: a state [S], and the pending operation [H] a successful
    dispatch returns. *)
Class Dispatcher (S H : Type) :=
  dispatch : DispatchCall → S → S * outcome Error H.

(** The shape of every operation: build the call, return its error with [?], or
    make the call. *)
Definition run_op {S H} `{Dispatcher S H} (call : outcome Error DispatchCall) (st : S)
    : S * outcome Error H :=
  match call with
  | Ok c => dispatch c st
  | Err e => (st, Err e)
  | Panic => (st, Panic)
  end.

(** ** Reordering *)

Section Reorder.
Context {T : Type}.

(** Operations paired with their positions. *)
Definition indexed (i : nat) (ops : list T) : list (T * nat) := zip ops (seq i (length ops)).

Lemma push_ops_filter (keep : T → bool) i ops acc :
  push_ops keep i ops acc
  = (fst acc ++ (fst <$> filter (λ p, keep (fst p) = true) (indexed i ops)),
     snd acc ++ (snd <$> filter (λ p, keep (fst p) = true) (indexed i ops))).
Proof.
  revert i acc. induction ops as [|op ops IH]; intros i acc.
  - unfold indexed. simpl. destruct acc. by rewrite !app_nil_r.
  - change (indexed i (op :: ops)) with ((op, i) :: indexed (S i) ops).
    simpl push_ops. rewrite IH. destruct (keep op) eqn:Hk.
    + rewrite filter_cons_True by done. simpl. by rewrite <-!app_assoc.
    + rewrite filter_cons_False by (simpl; congruence). done.
Qed.

Lemma filter_indexed (keep : T → bool) i ops :
  fst <$> filter (λ p, keep (fst p) = true) (indexed i ops)
  = filter (λ o, keep o = true) ops.
Proof.
  revert i. induction ops as [|op ops IH]; intros i; [done|].
  change (indexed i (op :: ops)) with ((op, i) :: indexed (S i) ops).
  destruct (keep op) eqn:Hk.
  - rewrite !filter_cons_True by done. simpl. by rewrite IH.
  - rewrite !filter_cons_False by (simpl; congruence). apply IH.
Qed.

Lemma indexed_lookup i ops p : p ∈ indexed i ops → (i ≤ snd p)%nat ∧ ops !! (snd p - i)%nat = Some (fst p).
Proof.
  intros [j Hj]%list_elem_of_lookup. unfold indexed in Hj.
  rewrite lookup_zip_with in Hj. simplify_option_eq.
  match goal with H : seq _ _ !! _ = Some _ |- _ => apply lookup_seq in H as [-> ?] end.
  simpl. split; [lia|]. by replace (i + j - i)%nat with j by lia.
Qed.

Lemma filter_split_perm (keep : T → bool) (l : list (T * nat)) :
  filter (λ p, keep (fst p) = true) l ++ filter (λ p, negb (keep (fst p)) = true) l ≡ₚ l.
Proof.
  induction l as [|x l IH]; [done|]. destruct (keep (fst x)) eqn:Hx.
  - rewrite filter_cons_True, filter_cons_False by (rewrite ?Hx; done).
    simpl. by constructor.
  - rewrite filter_cons_False, (filter_cons_True _ x) by (rewrite ?Hx; done).
    rewrite <-Permutation_middle. by constructor.
Qed.

Context `{SubdocOp T}.

(** Sub-document operations are sent extended attributes first, and nothing is
    lost: the operations sent are the xattr operations followed by the others,
    each group in the caller's order; the index list says where each one came
    from, and is a permutation of the positions, so that results can be put
    back in the caller's order. *)
Lemma reorder_subdoc_ops_spec (ops : list T) :
  let '(ordered, idx) := reorder_subdoc_ops ops in
  ordered = filter (λ o, is_xattr_op o = true) ops
            ++ filter (λ o, is_xattr_op o = false) ops
  ∧ idx ≡ₚ seq 0 (length ops)
  ∧ (∀ j i, idx !! j = Some i → ordered !! j = ops !! i).
Proof.
  unfold reorder_subdoc_ops. rewrite !push_ops_filter. simpl.
  rewrite <-!fmap_app.
  set (l := filter _ _ ++ filter _ _).
  assert (l ≡ₚ indexed 0 ops) as Hp by apply filter_split_perm.
  split_and!.
  - unfold l. rewrite fmap_app, filter_indexed.
    rewrite (filter_indexed (λ o, negb (is_xattr_op o))). f_equal. apply list_filter_iff. intros x.
    by destruct (is_xattr_op x).
  - rewrite Hp. unfold indexed. rewrite snd_zip; [done|]. by rewrite length_seq.
  - intros j i Hi. rewrite !list_lookup_fmap in Hi. rewrite list_lookup_fmap.
    destruct (l !! j) as [p|] eqn:Hl; [|done]. simpl in *. simplify_eq.
    apply list_elem_of_lookup_2 in Hl. rewrite Hp in Hl.
    apply indexed_lookup in Hl as [_ Hl]. by rewrite Nat.sub_0_r in Hl.
Qed.

End Reorder.
