(* ===== verification/OpsCore.v ===== *)
(** * Bootstrap, authentication and utility operations ([memdx/ops_core.rs],
    [memdx/ops_util.rs])

    Each operation builds one request packet and dispatches it; the functions
    here return the arguments of that [dispatch] call. *)

From S2P Require Import Prelude Wire MemdError Codec Requests.

(** A call without response context, as all of these but one make. *)
Definition plain_call (p : RequestPacket) : DispatchCall :=
  {| dc_packet := p; dc_is_persistent := false; dc_response_context := None |}.

Module OpsCore.

(** ** Errors *)

Definition decode_error_context (resp : ResponsePacket) (kind : ServerErrorKind) : ServerError :=
  let base_cause :=
    server_error_new kind (rs_op_code resp) (rs_status resp) (rs_opaque resp) in
  match rs_value resp with
  | Some value =>
      if bool_decide (rs_status resp = Status.NotMyVbucket)
      then server_error_with_config base_cause value
      else server_error_with_context base_cause value
  | None => base_cause
  end.

Definition decode_error (resp : ResponsePacket) : Error :=
  let status := rs_status resp in
  let finish base_error_kind :=
    error_from_server (decode_error_context resp base_error_kind) in
  if bool_decide (status = Status.NotMyVbucket) then finish ServerErrorKind.NotMyVbucket
  else if bool_decide (status = Status.TmpFail) then finish ServerErrorKind.TmpFail
  else if bool_decide (status = Status.NoBucket) then finish ServerErrorKind.NoBucket
  else if bool_decide (status = Status.AuthStale) then finish ServerErrorKind.AuthStale
  else if bool_decide (status = Status.InvalidArgs) then
    error_with
      (new_invalid_argument_error
         "the server rejected the request because one or more arguments were invalid" None)
      (SrcServer (decode_error_context resp ServerErrorKind.InvalidArgs))
  else finish (ServerErrorKind.UnknownStatus status).

(** ** Bootstrap *)

Definition hello (request : HelloRequest) : DispatchCall :=
  let features :=
    foldl (λ acc feature, acc ++ be_bytes 2 (u16_from_hello_feature feature)) []
      (HelloRequest.requested_features request) in
  plain_call {|
    rq_magic := Magic.Req; rq_op_code := OpCode.Hello; rq_datatype := 0;
    rq_vbucket_id := None; rq_cas := None; rq_extras := None; rq_key := None;
    rq_value := Some features; rq_framing_extras := None; rq_opaque := None |}.

Definition get_error_map (request : GetErrorMapRequest) : DispatchCall :=
  let version := be_bytes 2 (GetErrorMapRequest.version request) in
  plain_call {|
    rq_magic := Magic.Req; rq_op_code := OpCode.GetErrorMap; rq_datatype := 0;
    rq_vbucket_id := None; rq_cas := None; rq_extras := None; rq_key := None;
    rq_value := Some version; rq_framing_extras := None; rq_opaque := None |}.

Definition select_bucket (request : SelectBucketRequest) : DispatchCall :=
  let key := str_bytes (SelectBucketRequest.bucket_name request) in
  plain_call {|
    rq_magic := Magic.Req; rq_op_code := OpCode.SelectBucket; rq_datatype := 0;
    rq_vbucket_id := None; rq_cas := None; rq_extras := None; rq_key := Some key;
    rq_value := None; rq_framing_extras := None; rq_opaque := None |}.

(** [rev_epoch as u64]: the two's complement of an [i64]. *)
Definition get_cluster_config (request : GetClusterConfigRequest) : DispatchCall :=
  let extras :=
    (λ known_version,
       be_bytes 8 (cast_u 64 (GetClusterConfigKnownVersion.rev_epoch known_version))
       ++ be_bytes 8 (cast_u 64 (GetClusterConfigKnownVersion.rev_id known_version)))
    <$> GetClusterConfigRequest.known_version request in
  plain_call {|
    rq_magic := Magic.Req; rq_op_code := OpCode.GetClusterConfig; rq_datatype := 0;
    rq_vbucket_id := None; rq_cas := None; rq_extras := extras; rq_key := None;
    rq_value := None; rq_framing_extras := None; rq_opaque := None |}.

(** ** SASL *)

Definition sasl_auth (request : SASLAuthRequest) : DispatchCall :=
  let value := SASLAuthRequest.payload request in
  let key := bytes_from_auth_mechanism (SASLAuthRequest.auth_mechanism request) in
  plain_call {|
    rq_magic := Magic.Req; rq_op_code := OpCode.SASLAuth; rq_datatype := 0;
    rq_vbucket_id := None; rq_cas := None; rq_extras := None; rq_key := Some key;
    rq_value := Some value; rq_framing_extras := None; rq_opaque := None |}.

Definition sasl_list_mechs (_request : SASLListMechsRequest) : DispatchCall :=
  plain_call {|
    rq_magic := Magic.Req; rq_op_code := OpCode.SASLListMechs; rq_datatype := 0;
    rq_vbucket_id := None; rq_cas := None; rq_extras := None; rq_key := None;
    rq_value := None; rq_framing_extras := None; rq_opaque := None |}.

Definition sasl_step (request : SASLStepRequest) : DispatchCall :=
  let value := SASLStepRequest.payload request in
  let key := bytes_from_auth_mechanism (SASLStepRequest.auth_mechanism request) in
  plain_call {|
    rq_magic := Magic.Req; rq_op_code := OpCode.SASLStep; rq_datatype := 0;
    rq_vbucket_id := None; rq_cas := None; rq_extras := None; rq_key := Some key;
    rq_value := Some value; rq_framing_extras := None; rq_opaque := None |}.

End OpsCore.

Module OpsUtil.

Definition get_collection_id (request : GetCollectionIdRequest) : DispatchCall :=
  let full_name :=
    GetCollectionIdRequest.scope_name request +:+ "."
    +:+ GetCollectionIdRequest.collection_name request in
  {| dc_packet := {|
       rq_magic := Magic.Req; rq_op_code := OpCode.GetCollectionId; rq_datatype := 0;
       rq_vbucket_id := None; rq_cas := None; rq_extras := None; rq_key := None;
       rq_value := Some (str_bytes full_name); rq_framing_extras := None;
       rq_opaque := None |};
     dc_is_persistent := false;
     dc_response_context := Some (ResponseContext.mk None None
       (Some (GetCollectionIdRequest.scope_name request))
       (Some (GetCollectionIdRequest.collection_name request))) |}.

Definition ping (_request : PingRequest) : DispatchCall :=
  plain_call {|
    rq_magic := Magic.Req; rq_op_code := OpCode.Noop; rq_datatype := 0;
    rq_vbucket_id := None; rq_cas := None; rq_extras := None; rq_key := None;
    rq_value := None; rq_framing_extras := None; rq_opaque := None |}.

End OpsUtil.

(** ** Lemmas *)

(** The error keeps the packet's identity whatever its status. *)
Lemma decode_error_context_fields resp kind :
  let e := OpsCore.decode_error_context resp kind in
  se_kind e = kind ∧ se_op_code e = rs_op_code resp ∧ se_status e = rs_status resp
  ∧ se_opaque e = rs_opaque resp.
Proof.
  unfold OpsCore.decode_error_context. destruct (rs_value resp); [|done]. by case_bool_decide.
Qed.

(** A not-my-vbucket response becomes the error the router reacts to, and the
    cluster config the server sent with it is kept in the error, where
    [has_server_config] finds it; with every other status the value is error
    context and no config is reported. *)
Lemma decode_error_config resp :
  has_server_config (OpsCore.decode_error resp)
  = (if bool_decide (rs_status resp = Status.NotMyVbucket) then rs_value resp else None)
  ∧ is_server_error_kind (OpsCore.decode_error resp) ServerErrorKind.NotMyVbucket
    = bool_decide (rs_status resp = Status.NotMyVbucket).
Proof.
  unfold OpsCore.decode_error, OpsCore.decode_error_context, has_server_config,
    is_server_error_kind.
  destruct (rs_value resp); repeat case_bool_decide; simplify_eq/=;
    rewrite ?bool_decide_true by done; try done; by rewrite bool_decide_false.
Qed.
