(* ===== verification/OpsCrud.v ===== *)
(** * Key-value operations ([memdx/ops_crud.rs])

    The encoders of the sixteen document operations: framing extras, key with
    collection prefix, operation extras, value.  As in the source every encoder
    works on fixed-size local buffers (128 bytes of framing extras, 251 of key);
    [Panic] is an index outside one of them. *)

From S2P Require Import Prelude Wire MemdError Codec ExtFrame Requests OpsCore.

Module OpsCrud.

Record OpsCrud : Type := mk {
  collections_enabled : bool;
  durability_enabled : bool;
  preserve_expiry_enabled : bool;
  ext_frames_enabled : bool;
}.

Definition MAX_KEY_SIZE : Z := 250.
Definition MAX_KEY_SIZE_USING_COLLECTIONS : Z := 246.

Definition expiry_and_preserve_expiry : Error :=
  new_invalid_argument_error "cannot specify expiry and preserve expiry together" None.

(** ** Shared encoders *)

(** [for (i, k) in key.iter().enumerate() { buf[i + encoded_size] = *k; }]. *)
Fixpoint store_key (i : Z) (key buf : list Z) : outcome Error (list Z) :=
  match key with
  | [] => Ok buf
  | k :: key => buf ← store i k buf; store_key (i + 1) key buf
  end.

Definition encode_collection_and_key (self : OpsCrud) (collection_id : Z) (key buf : list Z)
    : outcome Error (list Z) :=
  let key_len := blen key in
  if negb (collections_enabled self) then
    if MAX_KEY_SIZE <? key_len then
      Err (new_invalid_argument_error
             ("key too long, " +:+ show MAX_KEY_SIZE +:+ " bytes max but is "
              +:+ show key_len +:+ " bytes") (Some "key"))
    else if negb (collection_id =? 0) then
      Err (new_invalid_argument_error "collections not enabled" (Some "collection_id"))
    else Ok key
  else
    let max_key_size :=
      if collection_id =? 0 then MAX_KEY_SIZE else MAX_KEY_SIZE_USING_COLLECTIONS in
    '(encoded_size, buf) ← make_uleb128_32 collection_id buf;
    if max_key_size <? key_len then
      Err (new_invalid_argument_error
             ("key too long, " +:+ show max_key_size +:+ " bytes max but is "
              +:+ show key_len +:+ " bytes including collection prefix") (Some "key"))
    else
      buf ← store_key encoded_size key buf;
      slice 0 (blen key + encoded_size) buf.

(** [append_ext_frame(..)?] on the local buffer, which is dropped on an error. *)
Definition append_frame (code : ExtReqFrameCode) (body : list Z) (st : list Z * Z)
    : outcome Error (list Z * Z) :=
  let '(st', r) := append_ext_frame code body (fst st) (snd st) in
  _ ← r; Ok st'.

Definition encode_req_ext_frames (self : OpsCrud) (durability_level : option DurabilityLevel)
    (durability_timeout : option Duration) (preserve_expiry : option bool)
    (on_behalf_of : option string) (buf : list Z) : outcome Error (Magic * Z * list Z) :=
  st ← match on_behalf_of with
       | Some obo => append_frame ExtReqFrameCode.OnBehalfOf (str_bytes obo) (buf, 0)
       | None => Ok (buf, 0)
       end;
  st ← match durability_level with
       | Some dura =>
           if negb (durability_enabled self) then
             Err (new_invalid_argument_error
                    "cannot use synchronous durability when its not enabled"
                    (Some "durability_level"))
           else
             dura_buf ← encode_durability_ext_frame dura durability_timeout;
             append_frame ExtReqFrameCode.Durability dura_buf st
       | None =>
           if bool_decide (is_Some durability_timeout) then
             Err (new_invalid_argument_error
                    "cannot encode durability timeout without durability level"
                    (Some "durability_timeout"))
           else Ok st
       end;
  st ← (if bool_decide (is_Some preserve_expiry) then
          if negb (preserve_expiry_enabled self) then
            Err (new_invalid_argument_error "cannot use preserve expiry when its not enabled"
                   (Some "preserve_expiry"))
          else append_frame ExtReqFrameCode.PreserveTTL [] st
        else Ok st);
  let '(buf, offset) := st in
  if 0 <? offset then
    if negb (ext_frames_enabled self) then
      Err (new_invalid_argument_error "cannot use framing extras when its not enabled"
             (Some "ext_frames_enabled"))
    else Ok (Magic.ReqExt, offset, buf)
  else Ok (Magic.Req, offset, buf).

(** [if used > 0 { Some(&ext_frame_buf[..used]) } else { None }]. *)
Definition framing_slice (used : Z) (ext_frame_buf : list Z) : outcome Error (option (list Z)) :=
  if 0 <? used then x ← slice 0 used ext_frame_buf; Ok (Some x) else Ok None.

(** [encode_counter_values]: the twenty bytes of [buf]. *)
Definition encode_counter_values (delta : Z) (initial expiry : option Z) : list Z :=
  be_bytes 8 delta
  ++ match initial with
     | Some initial => be_bytes 8 initial ++ be_bytes 4 (unwrap_or_default expiry)
     | None => be_bytes 8 0 ++ be_bytes 4 0xFFFFFFFF
     end.

(** ** Operations *)

Definition set (self : OpsCrud) (request : SetRequest) : outcome Error DispatchCall :=
  '(magic, used, ext_frame_buf) ←
    encode_req_ext_frames self (SetRequest.durability_level request)
      (SetRequest.durability_level_timeout request)
      (SetRequest.preserve_expiry request) (SetRequest.on_behalf_of request)
      (replicate 128 0);
  framing_extras ← framing_slice used ext_frame_buf;
  key ← encode_collection_and_key self (SetRequest.collection_id request)
          (SetRequest.key request) (replicate 251 0);
  let extra_buf :=
    be_bytes 4 (SetRequest.flags request)
    ++ be_bytes 4 (unwrap_or_default (SetRequest.expiry request)) in
  Ok (plain_call {|
        rq_magic := magic; rq_op_code := OpCode.Set_; rq_datatype := SetRequest.datatype request;
        rq_vbucket_id := Some (SetRequest.vbucket_id request); rq_cas := SetRequest.cas request;
        rq_extras := Some extra_buf; rq_key := Some key; rq_value := Some (SetRequest.value request);
        rq_framing_extras := framing_extras; rq_opaque := None |}).

Definition get (self : OpsCrud) (request : GetRequest) : outcome Error DispatchCall :=
  '(magic, used, ext_frame_buf) ←
    encode_req_ext_frames self None None None (GetRequest.on_behalf_of request)
      (replicate 128 0);
  key ← encode_collection_and_key self (GetRequest.collection_id request)
          (GetRequest.key request) (replicate 251 0);
  framing_extras ← framing_slice used ext_frame_buf;
  Ok (plain_call {|
        rq_magic := magic; rq_op_code := OpCode.Get; rq_datatype := 0;
        rq_vbucket_id := Some (GetRequest.vbucket_id request); rq_cas := None;
        rq_extras := None; rq_key := Some key; rq_value := None;
        rq_framing_extras := framing_extras; rq_opaque := None |}).

Definition get_meta (self : OpsCrud) (request : GetMetaRequest) : outcome Error DispatchCall :=
  '(magic, used, ext_frame_buf) ←
    encode_req_ext_frames self None None None (GetMetaRequest.on_behalf_of request)
      (replicate 128 0);
  key ← encode_collection_and_key self (GetMetaRequest.collection_id request)
          (GetMetaRequest.key request) (replicate 251 0);
  framing_extras ← framing_slice used ext_frame_buf;
  let extras := [2] in
  Ok (plain_call {|
        rq_magic := magic; rq_op_code := OpCode.GetMeta; rq_datatype := 0;
        rq_vbucket_id := Some (GetMetaRequest.vbucket_id request); rq_cas := None;
        rq_extras := Some extras; rq_key := Some key; rq_value := None;
        rq_framing_extras := framing_extras; rq_opaque := None |}).

Definition delete (self : OpsCrud) (request : DeleteRequest) : outcome Error DispatchCall :=
  '(magic, used, ext_frame_buf) ←
    encode_req_ext_frames self (DeleteRequest.durability_level request)
      (DeleteRequest.durability_level_timeout request)
      None (DeleteRequest.on_behalf_of request)
      (replicate 128 0);
  framing_extras ← framing_slice used ext_frame_buf;
  key ← encode_collection_and_key self (DeleteRequest.collection_id request)
          (DeleteRequest.key request) (replicate 251 0);
  Ok (plain_call {|
        rq_magic := magic; rq_op_code := OpCode.Delete; rq_datatype := 0;
        rq_vbucket_id := Some (DeleteRequest.vbucket_id request); rq_cas := DeleteRequest.cas request;
        rq_extras := None; rq_key := Some key; rq_value := None;
        rq_framing_extras := framing_extras; rq_opaque := None |}).

Definition get_and_lock (self : OpsCrud) (request : GetAndLockRequest) : outcome Error DispatchCall :=
  '(magic, used, ext_frame_buf) ←
    encode_req_ext_frames self None None None (GetAndLockRequest.on_behalf_of request)
      (replicate 128 0);
  key ← encode_collection_and_key self (GetAndLockRequest.collection_id request)
          (GetAndLockRequest.key request) (replicate 251 0);
  framing_extras ← framing_slice used ext_frame_buf;
  let extra_buf := be_bytes 4 (GetAndLockRequest.lock_time request) in
  Ok (plain_call {|
        rq_magic := magic; rq_op_code := OpCode.GetLocked; rq_datatype := 0;
        rq_vbucket_id := Some (GetAndLockRequest.vbucket_id request); rq_cas := None;
        rq_extras := Some extra_buf; rq_key := Some key; rq_value := None;
        rq_framing_extras := framing_extras; rq_opaque := None |}).

Definition get_and_touch (self : OpsCrud) (request : GetAndTouchRequest) : outcome Error DispatchCall :=
  '(magic, used, ext_frame_buf) ←
    encode_req_ext_frames self None None None (GetAndTouchRequest.on_behalf_of request)
      (replicate 128 0);
  key ← encode_collection_and_key self (GetAndTouchRequest.collection_id request)
          (GetAndTouchRequest.key request) (replicate 251 0);
  framing_extras ← framing_slice used ext_frame_buf;
  let extra_buf := be_bytes 4 (GetAndTouchRequest.expiry request) in
  Ok (plain_call {|
        rq_magic := magic; rq_op_code := OpCode.GAT; rq_datatype := 0;
        rq_vbucket_id := Some (GetAndTouchRequest.vbucket_id request); rq_cas := None;
        rq_extras := Some extra_buf; rq_key := Some key; rq_value := None;
        rq_framing_extras := framing_extras; rq_opaque := None |}).

Definition unlock (self : OpsCrud) (request : UnlockRequest) : outcome Error DispatchCall :=
  '(magic, used, ext_frame_buf) ←
    encode_req_ext_frames self None None None (UnlockRequest.on_behalf_of request)
      (replicate 128 0);
  key ← encode_collection_and_key self (UnlockRequest.collection_id request)
          (UnlockRequest.key request) (replicate 251 0);
  framing_extras ← framing_slice used ext_frame_buf;
  Ok (plain_call {|
        rq_magic := magic; rq_op_code := OpCode.UnlockKey; rq_datatype := 0;
        rq_vbucket_id := Some (UnlockRequest.vbucket_id request); rq_cas := Some (UnlockRequest.cas request);
        rq_extras := None; rq_key := Some key; rq_value := None;
        rq_framing_extras := framing_extras; rq_opaque := None |}).

Definition touch (self : OpsCrud) (request : TouchRequest) : outcome Error DispatchCall :=
  '(magic, used, ext_frame_buf) ←
    encode_req_ext_frames self None None None (TouchRequest.on_behalf_of request)
      (replicate 128 0);
  key ← encode_collection_and_key self (TouchRequest.collection_id request)
          (TouchRequest.key request) (replicate 251 0);
  framing_extras ← framing_slice used ext_frame_buf;
  let extra_buf := be_bytes 4 (TouchRequest.expiry request) in
  Ok (plain_call {|
        rq_magic := magic; rq_op_code := OpCode.Touch; rq_datatype := 0;
        rq_vbucket_id := Some (TouchRequest.vbucket_id request); rq_cas := None;
        rq_extras := Some extra_buf; rq_key := Some key; rq_value := None;
        rq_framing_extras := framing_extras; rq_opaque := None |}).

Definition add (self : OpsCrud) (request : AddRequest) : outcome Error DispatchCall :=
  '(magic, used, ext_frame_buf) ←
    encode_req_ext_frames self (AddRequest.durability_level request)
      (AddRequest.durability_level_timeout request)
      None (AddRequest.on_behalf_of request)
      (replicate 128 0);
  framing_extras ← framing_slice used ext_frame_buf;
  key ← encode_collection_and_key self (AddRequest.collection_id request)
          (AddRequest.key request) (replicate 251 0);
  let extra_buf :=
    be_bytes 4 (AddRequest.flags request)
    ++ be_bytes 4 (unwrap_or_default (AddRequest.expiry request)) in
  Ok (plain_call {|
        rq_magic := magic; rq_op_code := OpCode.Add; rq_datatype := AddRequest.datatype request;
        rq_vbucket_id := Some (AddRequest.vbucket_id request); rq_cas := None;
        rq_extras := Some extra_buf; rq_key := Some key; rq_value := Some (AddRequest.value request);
        rq_framing_extras := framing_extras; rq_opaque := None |}).

Definition replace (self : OpsCrud) (request : ReplaceRequest) : outcome Error DispatchCall :=
  if bool_decide (is_Some (ReplaceRequest.expiry request))
     && bool_decide (is_Some (ReplaceRequest.preserve_expiry request))
  then Err expiry_and_preserve_expiry
  else
  '(magic, used, ext_frame_buf) ←
    encode_req_ext_frames self (ReplaceRequest.durability_level request)
      (ReplaceRequest.durability_level_timeout request)
      (ReplaceRequest.preserve_expiry request) (ReplaceRequest.on_behalf_of request)
      (replicate 128 0);
  framing_extras ← framing_slice used ext_frame_buf;
  key ← encode_collection_and_key self (ReplaceRequest.collection_id request)
          (ReplaceRequest.key request) (replicate 251 0);
  let extra_buf :=
    be_bytes 4 (ReplaceRequest.flags request)
    ++ be_bytes 4 (unwrap_or_default (ReplaceRequest.expiry request)) in
  Ok (plain_call {|
        rq_magic := magic; rq_op_code := OpCode.Replace; rq_datatype := ReplaceRequest.datatype request;
        rq_vbucket_id := Some (ReplaceRequest.vbucket_id request); rq_cas := ReplaceRequest.cas request;
        rq_extras := Some extra_buf; rq_key := Some key; rq_value := Some (ReplaceRequest.value request);
        rq_framing_extras := framing_extras; rq_opaque := None |}).

Definition append (self : OpsCrud) (request : AppendRequest) : outcome Error DispatchCall :=
  '(magic, used, ext_frame_buf) ←
    encode_req_ext_frames self (AppendRequest.durability_level request)
      (AppendRequest.durability_level_timeout request)
      None (AppendRequest.on_behalf_of request)
      (replicate 128 0);
  framing_extras ← framing_slice used ext_frame_buf;
  key ← encode_collection_and_key self (AppendRequest.collection_id request)
          (AppendRequest.key request) (replicate 251 0);
  Ok {| dc_packet := {|
        rq_magic := magic; rq_op_code := OpCode.Append; rq_datatype := AppendRequest.datatype request;
        rq_vbucket_id := Some (AppendRequest.vbucket_id request); rq_cas := AppendRequest.cas request;
        rq_extras := None; rq_key := Some key; rq_value := Some (AppendRequest.value request);
        rq_framing_extras := framing_extras; rq_opaque := None |};
      dc_is_persistent := false;
      dc_response_context := Some (ResponseContext.mk (AppendRequest.cas request) None None None) |}.

Definition prepend (self : OpsCrud) (request : PrependRequest) : outcome Error DispatchCall :=
  '(magic, used, ext_frame_buf) ←
    encode_req_ext_frames self (PrependRequest.durability_level request)
      (PrependRequest.durability_level_timeout request)
      None (PrependRequest.on_behalf_of request)
      (replicate 128 0);
  framing_extras ← framing_slice used ext_frame_buf;
  key ← encode_collection_and_key self (PrependRequest.collection_id request)
          (PrependRequest.key request) (replicate 251 0);
  Ok {| dc_packet := {|
        rq_magic := magic; rq_op_code := OpCode.Prepend; rq_datatype := PrependRequest.datatype request;
        rq_vbucket_id := Some (PrependRequest.vbucket_id request); rq_cas := PrependRequest.cas request;
        rq_extras := None; rq_key := Some key; rq_value := Some (PrependRequest.value request);
        rq_framing_extras := framing_extras; rq_opaque := None |};
      dc_is_persistent := false;
      dc_response_context := Some (ResponseContext.mk (PrependRequest.cas request) None None None) |}.

Definition increment (self : OpsCrud) (request : IncrementRequest) : outcome Error DispatchCall :=
  '(magic, used, ext_frame_buf) ←
    encode_req_ext_frames self (IncrementRequest.durability_level request)
      (IncrementRequest.durability_level_timeout request)
      None (IncrementRequest.on_behalf_of request)
      (replicate 128 0);
  framing_extras ← framing_slice used ext_frame_buf;
  key ← encode_collection_and_key self (IncrementRequest.collection_id request)
          (IncrementRequest.key request) (replicate 251 0);
  let extra_buf := encode_counter_values (IncrementRequest.delta request) (IncrementRequest.initial request)
                     (IncrementRequest.expiry request) in
  Ok (plain_call {|
        rq_magic := magic; rq_op_code := OpCode.Increment; rq_datatype := 0;
        rq_vbucket_id := Some (IncrementRequest.vbucket_id request); rq_cas := None;
        rq_extras := Some extra_buf; rq_key := Some key; rq_value := None;
        rq_framing_extras := framing_extras; rq_opaque := None |}).

Definition decrement (self : OpsCrud) (request : DecrementRequest) : outcome Error DispatchCall :=
  '(magic, used, ext_frame_buf) ←
    encode_req_ext_frames self (DecrementRequest.durability_level request)
      (DecrementRequest.durability_level_timeout request)
      None (DecrementRequest.on_behalf_of request)
      (replicate 128 0);
  framing_extras ← framing_slice used ext_frame_buf;
  key ← encode_collection_and_key self (DecrementRequest.collection_id request)
          (DecrementRequest.key request) (replicate 251 0);
  let extra_buf := encode_counter_values (DecrementRequest.delta request) (DecrementRequest.initial request)
                     (DecrementRequest.expiry request) in
  Ok (plain_call {|
        rq_magic := magic; rq_op_code := OpCode.Decrement; rq_datatype := 0;
        rq_vbucket_id := Some (DecrementRequest.vbucket_id request); rq_cas := None;
        rq_extras := Some extra_buf; rq_key := Some key; rq_value := None;
        rq_framing_extras := framing_extras; rq_opaque := None |}).

(** *** Sub-document operations

    The value is written into a buffer of the computed size, operation by
    operation, at a moving position. *)
Fixpoint lookup_in_write (ops : list LookupInOp) (value_buf : list Z) (value_iter : Z)
    : outcome Error (list Z) :=
  match ops with
  | [] => Ok value_buf
  | op :: ops =>
      let path_bytes := LookupInOp.path op in
      let path_bytes_len := blen path_bytes in
      value_buf ← store value_iter
        (u8_from_opcode (opcode_from_lookup_in_op_type (LookupInOp.op op))) value_buf;
      value_buf ← store (value_iter + 1) (LookupInOp.flags op) value_buf;
      value_buf ← copy_into (value_iter + 2) (be_bytes 2 (cast_u 16 path_bytes_len)) value_buf;
      value_buf ← copy_into (value_iter + 4) path_bytes value_buf;
      lookup_in_write ops value_buf (value_iter + (4 + path_bytes_len))
  end.

Definition lookup_in (self : OpsCrud) (request : LookupInRequest) : outcome Error DispatchCall :=
  '(magic, used, ext_frame_buf) ←
    encode_req_ext_frames self None None None (LookupInRequest.on_behalf_of request)
      (replicate 128 0);
  framing_extras ← framing_slice used ext_frame_buf;
  key ← encode_collection_and_key self (LookupInRequest.collection_id request)
          (LookupInRequest.key request) (replicate 251 0);
  let ops := LookupInRequest.ops request in
  let len_ops := blen ops in
  let path_bytes_total := foldl (λ t op, t + blen (LookupInOp.path op)) 0 ops in
  value_buf ← lookup_in_write ops
    (replicate (Z.to_nat (len_ops * 4 + path_bytes_total)) 0) 0;
  let extra_buf :=
    if negb (flags_is_empty (LookupInRequest.flags request))
    then [LookupInRequest.flags request] else [] in
  let packet := {|
    rq_magic := magic; rq_op_code := OpCode.SubDocMultiLookup; rq_datatype := 0;
    rq_vbucket_id := Some (LookupInRequest.vbucket_id request); rq_cas := None;
    rq_extras := Some extra_buf; rq_key := Some key; rq_value := Some value_buf;
    rq_framing_extras := framing_extras; rq_opaque := None |} in
  Ok {| dc_packet := packet; dc_is_persistent := false;
        dc_response_context := Some (ResponseContext.mk (rq_cas packet)
          (Some (SubdocRequestInfo.mk (LookupInRequest.flags request)
                   (cast_u 8 (blen ops)))) None None) |}.

Fixpoint mutate_in_write (ops : list MutateInOp) (value_buf : list Z) (value_iter : Z)
    : outcome Error (list Z) :=
  match ops with
  | [] => Ok value_buf
  | op :: ops =>
      let path_bytes := MutateInOp.path op in
      let path_bytes_len := blen path_bytes in
      let value_bytes_len := blen (MutateInOp.value op) in
      value_buf ← store value_iter
        (u8_from_opcode (opcode_from_mutate_in_op_type (MutateInOp.op op))) value_buf;
      value_buf ← store (value_iter + 1) (MutateInOp.flags op) value_buf;
      value_buf ← copy_into (value_iter + 2) (be_bytes 2 (cast_u 16 path_bytes_len)) value_buf;
      value_buf ← copy_into (value_iter + 4) (be_bytes 4 (cast_u 32 value_bytes_len)) value_buf;
      value_buf ← copy_into (value_iter + 8) path_bytes value_buf;
      value_buf ← copy_into (value_iter + 8 + path_bytes_len) (MutateInOp.value op) value_buf;
      mutate_in_write ops value_buf (value_iter + (8 + path_bytes_len + value_bytes_len))
  end.

Definition mutate_in (self : OpsCrud) (request : MutateInRequest) : outcome Error DispatchCall :=
  if bool_decide (is_Some (MutateInRequest.expiry request))
     && bool_decide (is_Some (MutateInRequest.preserve_expiry request))
  then Err expiry_and_preserve_expiry
  else
  '(magic, used, ext_frame_buf) ←
    encode_req_ext_frames self (MutateInRequest.durability_level request)
      (MutateInRequest.durability_level_timeout request)
      (MutateInRequest.preserve_expiry request) (MutateInRequest.on_behalf_of request)
      (replicate 128 0);
  framing_extras ← framing_slice used ext_frame_buf;
  key ← encode_collection_and_key self (MutateInRequest.collection_id request)
          (MutateInRequest.key request) (replicate 251 0);
  let ops := MutateInRequest.ops request in
  let len_ops := blen ops in
  let path_bytes_total := foldl (λ t op, t + blen (MutateInOp.path op)) 0 ops in
  let value_bytes_total := foldl (λ t op, t + blen (MutateInOp.value op)) 0 ops in
  value_buf ← mutate_in_write ops
    (replicate (Z.to_nat (len_ops * 8 + path_bytes_total + value_bytes_total)) 0) 0;
  let extra_buf :=
    be_bytes 4 (unwrap_or_default (MutateInRequest.expiry request))
    ++ (if flags_is_empty (MutateInRequest.flags request) then []
        else [MutateInRequest.flags request]) in
  Ok {| dc_packet := {|
          rq_magic := magic; rq_op_code := OpCode.SubDocMultiMutation; rq_datatype := 0;
          rq_vbucket_id := Some (MutateInRequest.vbucket_id request);
          rq_cas := MutateInRequest.cas request; rq_extras := Some extra_buf;
          rq_key := Some key; rq_value := Some value_buf;
          rq_framing_extras := framing_extras; rq_opaque := None |};
        dc_is_persistent := false;
        dc_response_context := Some (ResponseContext.mk (MutateInRequest.cas request)
          (Some (SubdocRequestInfo.mk (MutateInRequest.flags request)
                   (cast_u 8 (blen ops)))) None None) |}.

(** ** Response statuses *)

(** [ServerError::new(..)] with the response value as context. *)
Definition status_error (resp : ResponsePacket) (kind : ServerErrorKind) : Error :=
  let err := server_error_new kind (rs_op_code resp) (rs_status resp) (rs_opaque resp) in
  error_from_server
    match rs_value resp with
    | Some value => server_error_with_context err value
    | None => err
    end.

Definition decode_common_status (resp : ResponsePacket) : outcome Error unit :=
  match rs_status resp with
  | Status.CollectionUnknown => Err (status_error resp ServerErrorKind.UnknownCollectionID)
  | Status.AccessError => Err (status_error resp ServerErrorKind.Access)
  | Status.NoBucket => Err (status_error resp ServerErrorKind.NoBucket)
  | Status.RateLimitedMaxCommands =>
      Err (status_error resp ServerErrorKind.RateLimitedMaxCommands)
  | Status.RateLimitedMaxConnections =>
      Err (status_error resp ServerErrorKind.RateLimitedMaxConnections)
  | Status.RateLimitedNetworkEgress =>
      Err (status_error resp ServerErrorKind.RateLimitedNetworkEgress)
  | Status.RateLimitedNetworkIngress =>
      Err (status_error resp ServerErrorKind.RateLimitedNetworkIngress)
  | Status.RateLimitedScopeSizeLimitExceeded =>
      Err (status_error resp ServerErrorKind.RateLimitedScopeSizeLimitExceeded)
  | _ => Ok tt
  end.

Definition decode_common_mutation_status (resp : ResponsePacket) : outcome Error unit :=
  match rs_status resp with
  | Status.DurabilityInvalidLevel => Err (status_error resp ServerErrorKind.DurabilityInvalid)
  | Status.SyncWriteAmbiguous => Err (status_error resp ServerErrorKind.SyncWriteAmbiguous)
  | Status.SyncWriteInProgress => Err (status_error resp ServerErrorKind.SyncWriteInProgress)
  | Status.SyncWriteRecommitInProgress =>
      Err (status_error resp ServerErrorKind.SyncWriteRecommitInProgress)
  | Status.DurabilityImpossible => Err (status_error resp ServerErrorKind.DurabilityImpossible)
  | _ => decode_common_status resp
  end.

Definition decode_common_mutation_error (resp : ResponsePacket) : Error :=
  match decode_common_mutation_status resp with
  | Err e => e
  | _ => OpsCore.decode_error resp
  end.

Definition decode_common_error (resp : ResponsePacket) : Error :=
  match decode_common_status resp with
  | Err e => e
  | _ => OpsCore.decode_error resp
  end.

End OpsCrud.
Abbreviation OpsCrud := OpsCrud.OpsCrud.

Import OpsCrud.

(** ** Framing extras *)

(** An error the caller can act on, as opposed to a panic. *)
Definition invalid_argument (e : Error) : Prop :=
  ∃ msg arg, err_kind e = ErrorKind.InvalidArgument msg arg.

#[local] Hint Extern 1 (invalid_argument _) => (by do 2 eexists) : core.

(** The bytes of one frame, short or with a length extension. *)
Definition ext_frame_bytes (code : ExtReqFrameCode) (body : list Z) : list Z :=
  if blen body <? 15 then short_frame (u16_from_ext_req_frame_code code) body
  else long_frame (u16_from_ext_req_frame_code code) body.

Lemma blen_ext_frame_bytes code body :
  1 + blen body <= blen (ext_frame_bytes code body) <= 3 + blen body.
Proof.
  unfold ext_frame_bytes, short_frame, long_frame. case_test; rewrite !blen_cons; lia.
Qed.

(** A zeroed buffer filled up to an offset. *)
Definition filled (n : Z) (pre : list Z) : list Z := pre ++ replicate (Z.to_nat (n - blen pre)) 0.

Lemma blen_filled n pre : blen pre <= n → blen (filled n pre) = n.
Proof. intros. unfold filled. rewrite blen_app. unfold blen at 2. rewrite length_replicate. lia. Qed.

Lemma overwrite_filled n pre x :
  blen pre + blen x <= n → overwrite (blen pre) x (filled n pre) = filled n (pre ++ x).
Proof.
  intros H. pose proof (blen_nonneg pre). pose proof (blen_nonneg x). unfold filled.
  replace (Z.to_nat (n - blen pre))
    with (length x + Z.to_nat (n - blen (pre ++ x)))%nat by (byte_simp; unfold blen in *; lia).
  rewrite replicate_add, overwrite_app by (by rewrite length_replicate). by rewrite app_assoc.
Qed.

Lemma append_frame_filled code body n pre :
  0 <= u16_from_ext_req_frame_code code < 15 → blen pre + 3 + blen body <= n →
  append_frame code body (filled n pre, blen pre)
  = if blen body <? 30
    then Ok (filled n (pre ++ ext_frame_bytes code body),
             blen (pre ++ ext_frame_bytes code body))
    else Err ext_frame_len_too_large.
Proof.
  intros Hc Hroom. pose proof (blen_nonneg pre). pose proof (blen_nonneg body).
  unfold append_frame, ext_frame_bytes. simpl fst. simpl snd.
  assert (blen (filled n pre) = n) as Hn by (apply blen_filled; lia).
  destruct (blen body <? 15) eqn:H15; prop_tests.
  - test_true (blen body <? 30). rewrite append_short_frame by lia. simpl.
    rewrite overwrite_filled by (unfold short_frame; byte_simp; lia).
    do 2 f_equal. unfold short_frame. byte_simp. lia.
  - destruct (blen body <? 30) eqn:H30; prop_tests.
    + rewrite append_long_frame by lia. simpl.
      rewrite overwrite_filled by (unfold long_frame; byte_simp; lia).
      do 2 f_equal. unfold long_frame. byte_simp. lia.
    + unfold append_ext_frame. rewrite Hn.
      test_false (n <=? blen pre). test_true (u16_from_ext_req_frame_code code <? 15).
      test_false (blen body <? 15). test_true (15 <=? blen body - 15). done.
Qed.

(** The frames of a request, in the order they are sent. *)
Definition req_frames (durability_level : option DurabilityLevel)
    (durability_timeout : option Duration) (preserve_expiry : option bool)
    (on_behalf_of : option string) : list Z :=
  match on_behalf_of with
  | Some obo => ext_frame_bytes ExtReqFrameCode.OnBehalfOf (str_bytes obo)
  | None => []
  end
  ++ match durability_level with
     | Some dura =>
         match encode_durability_ext_frame dura durability_timeout with
         | Ok d => ext_frame_bytes ExtReqFrameCode.Durability d
         | _ => []
         end
     | None => []
     end
  ++ match preserve_expiry with
     | Some _ => ext_frame_bytes ExtReqFrameCode.PreserveTTL []
     | None => []
     end.

Lemma durability_frame_size dura t :
  match encode_durability_ext_frame dura t with
  | Ok d => blen d <= 3
  | Err e => invalid_argument e
  | Panic => False
  end.
Proof. unfold encode_durability_ext_frame. repeat case_match; simplify_eq; auto; done. Qed.

Lemma filled_nil n : filled n [] = replicate (Z.to_nat n) 0.
Proof. unfold filled. rewrite blen_nil, Z.sub_0_r. done. Qed.

Lemma obo_frame_size obo :
  match (match obo with
         | Some obo => append_frame ExtReqFrameCode.OnBehalfOf (str_bytes obo) (replicate 128 0, 0)
         | None => Ok (replicate 128 0, 0)
         end) with
  | Ok st => ∃ pre, pre = match obo with
      | Some obo => ext_frame_bytes ExtReqFrameCode.OnBehalfOf (str_bytes obo)
      | None => [] end ∧ st = (filled 128 pre, blen pre) ∧ blen pre <= 32
  | Err e => invalid_argument e
  | Panic => False
  end.
Proof.
  destruct obo as [obo|]; [|exists []; done].
  change (replicate 128 0, 0) with (filled 128 [], blen (@nil Z)).
  destruct (decide (blen (str_bytes obo) <= 125)) as [Hl|Hl].
  - rewrite append_frame_filled by (rewrite ?blen_nil; simpl; lia).
    case_test; prop_tests; [|auto].
    eexists. split_and!; [done..|]. pose proof (blen_ext_frame_bytes ExtReqFrameCode.OnBehalfOf
      (str_bytes obo)). lia.
  - unfold append_frame, append_ext_frame. simpl fst. simpl snd.
    test_false (blen (str_bytes obo) <? 15). test_true (15 <=? blen (str_bytes obo) - 15).
    simpl. auto.
Qed.

(** Everything [encode_req_ext_frames] does on the operations' 128-byte buffer. *)
Lemma encode_req_ext_frames_spec self dl dt pe obo :
  match encode_req_ext_frames self dl dt pe obo (replicate 128 0) with
  | Ok (magic, used, buf) =>
      let frames := req_frames dl dt pe obo in
      used = blen frames ∧ buf = filled 128 frames ∧ used <= 39
      ∧ magic = (if 0 <? used then Magic.ReqExt else Magic.Req)
  | Err e => invalid_argument e
  | Panic => False
  end.
Proof.
  unfold encode_req_ext_frames, req_frames.
  pose proof (obo_frame_size obo) as Hobo.
  destruct (match obo with Some _ => _ | None => _ end) as [st|e|]; [|done..].
  destruct Hobo as (pre & Hpre & -> & Hlen). rewrite <-Hpre. clear Hpre. simpl.
  match goal with |- context [?m ≫= _] => assert (match m with
    | Ok st => ∃ d, d = match dl with Some dura =>
        match encode_durability_ext_frame dura dt with
        | Ok d => ext_frame_bytes ExtReqFrameCode.Durability d | _ => [] end | None => [] end
        ∧ st = (filled 128 (pre ++ d), blen (pre ++ d)) ∧ blen d <= 6
    | Err e => invalid_argument e | Panic => False end) as Hd; [|destruct m as [st|e|]; [|done..]] end.
  { destruct dl as [dura|].
    - case_test; [auto|]. pose proof (durability_frame_size dura dt) as Hs.
      destruct (encode_durability_ext_frame dura dt) as [d|e|]; [|done..]. simpl.
      rewrite append_frame_filled by (simpl; lia). test_true (blen d <? 30).
      eexists. split_and!; [done..|].
      pose proof (blen_ext_frame_bytes ExtReqFrameCode.Durability d). lia.
    - case_bool_decide; [auto|]. exists []. by rewrite app_nil_r. }
  destruct Hd as (d & Hd & -> & Hdl). rewrite <-Hd. clear Hd. simpl.
  assert (blen (pre ++ d) <= 38) as Hpd by (byte_simp; lia).
  rewrite (app_assoc pre). set (q := pre ++ d) in *. clearbody q. clear pre Hlen d Hdl.
  destruct pe as [b|]; simpl.
  - destruct (preserve_expiry_enabled self); [|simpl; auto]. simpl negb. cbv iota.
    rewrite append_frame_filled by (rewrite ?blen_nil; simpl; lia).
    pose proof (blen_nonneg q). unfold ext_frame_bytes, short_frame. simpl. byte_simp.
    test_true (0 <? blen q + (1 + 0)). destruct (ext_frames_enabled self); [|simpl; auto].
    split_and!; try done; [lia|]. by test_true (0 <? blen q + (1 + 0)).
  - rewrite app_nil_r. pose proof (blen_nonneg q).
    destruct (0 <? blen q) eqn:Hq; [|rewrite ?Hq; split_and!; try done; lia].
    destruct (ext_frames_enabled self); [|simpl; auto].
    simpl. rewrite ?Hq. split_and!; try done; lia.
Qed.

(** ** Keys *)

Lemma store_key_app a key old rest :
  length old = length key →
  store_key (blen a) key (a ++ old ++ rest) = Ok (a ++ key ++ rest).
Proof.
  revert a old. induction key as [|k key IH]; intros a old Hl; destruct old as [|o old]; try done.
  simpl. rewrite store_app. simpl.
  replace (blen a + 1) with (blen (a ++ [k])) by (byte_simp; lia).
  change (k :: old ++ rest) with ([k] ++ old ++ rest).
  rewrite app_assoc, IH by (simpl in Hl; lia). by rewrite <-app_assoc.
Qed.

Lemma slice_prefix {E} (a b : list Z) : slice (E:=E) 0 (blen a) (a ++ b) = Ok a.
Proof. by apply (slice_mid [] a b). Qed.

(** The ULEB128 prefix in the operations' zeroed key buffer. *)
Lemma make_uleb128_32_zeros cid :
  fits 32 cid →
  ∃ u, make_uleb128_32 cid (replicate 251 0) = Ok (blen u, filled 251 u)
    ∧ 1 <= blen u <= (if cid =? 0 then 1 else 5)
    ∧ ∀ key, read_uleb128 (u ++ key) = Some (cid, key).
Proof.
  intros [Hc0 Hc1]. assert (0 <= cid < 128 ^ Z.of_nat 5) as Hc by (simpl in *; lia).
  exists (uleb128 5 cid). unfold make_uleb128_32.
  pose proof (make_uleb128_32_loop_spec 5 cid [] (replicate 251 0) Hc ltac:(simpl; lia)) as H.
  pose proof (uleb128_length 5 cid Hc ltac:(lia)) as Hl.
  rewrite !app_nil_l in H. change (blen []) with 0 in H. rewrite Z.add_0_l in H. rewrite H.
  rewrite drop_replicate. split_and!.
  - unfold filled, blen. do 4 f_equal. lia.
  - unfold blen. lia.
  - case_test; prop_tests; [by subst | unfold blen; lia].
  - intros key. apply read_uleb128_app; [done | lia].
Qed.

(** The key of a request: with collections enabled it is the ULEB128 collection
    id followed by the document key, so a server reads back both; without them
    it is the bare key and only the default collection is allowed.  It is never
    longer than the 251 bytes of the buffer, and an over-long key or a
    collection on a connection without collections is refused, never a panic. *)
Lemma encode_collection_and_key_spec self cid key :
  fits 32 cid →
  match encode_collection_and_key self cid key (replicate 251 0) with
  | Ok k =>
      blen k <= 251
      ∧ (if collections_enabled self then read_uleb128 k = Some (cid, key)
         else k = key ∧ cid = 0)
  | Err e =>
      invalid_argument e
      ∧ (MAX_KEY_SIZE_USING_COLLECTIONS < blen key
         ∨ collections_enabled self = false ∧ cid ≠ 0)
  | Panic => False
  end.
Proof.
  intros Hcid. unfold encode_collection_and_key, MAX_KEY_SIZE, MAX_KEY_SIZE_USING_COLLECTIONS.
  destruct (collections_enabled self); simpl negb; cbv iota.
  - destruct (make_uleb128_32_zeros cid Hcid) as (u & -> & Hu & Hread). rewrite bind_ok.
    set (max := if cid =? 0 then 250 else 246).
    assert (blen u + max <= 251 ∧ 246 <= max) as [Hmax ?] by (unfold max; case_test; prop_tests; lia).
    destruct (max <? blen key) eqn:Hk; prop_tests; [split; [auto|left; lia]|].
    pose proof (blen_nonneg u). pose proof (blen_nonneg key).
    unfold filled. replace (Z.to_nat (251 - blen u))
      with (length key + Z.to_nat (251 - blen u - blen key))%nat by (unfold blen in *; lia).
    rewrite replicate_add, store_key_app, bind_ok by (by rewrite length_replicate).
    rewrite app_assoc. replace (blen key + blen u) with (blen (u ++ key)) by (byte_simp; lia).
    rewrite slice_prefix. split; [byte_simp; lia | apply Hread].
  - case_test; prop_tests; [split; [auto | left; lia]|].
    case_test; prop_tests; [split; [auto | by right]|]. split; [lia | done].
Qed.

(** ** Sub-document bodies *)

Definition lookup_spec_bytes (op : LookupInOp) : list Z :=
  [u8_from_opcode (opcode_from_lookup_in_op_type (LookupInOp.op op)); LookupInOp.flags op]
  ++ be_bytes 2 (blen (LookupInOp.path op)) ++ LookupInOp.path op.

Definition mutate_spec_bytes (op : MutateInOp) : list Z :=
  [u8_from_opcode (opcode_from_mutate_in_op_type (MutateInOp.op op)); MutateInOp.flags op]
  ++ be_bytes 2 (blen (MutateInOp.path op)) ++ be_bytes 4 (blen (MutateInOp.value op))
  ++ MutateInOp.path op ++ MutateInOp.value op.

Lemma be_bytes_cast n w x : 2 ^ w = 256 ^ Z.of_nat n → be_bytes n (cast_u w x) = be_bytes n x.
Proof.
  intros Hw. unfold cast_u. rewrite Hw. pose proof (pow256_pos n).
  rewrite (Z.div_mod x (256 ^ Z.of_nat n)) at 2 by lia.
  rewrite Z.add_comm, Z.mul_comm, be_bytes_add_mul. done.
Qed.

Lemma copy_into_app {E} a src old rest :
  length old = length src →
  copy_into (E:=E) (blen a) src (a ++ old ++ rest) = Ok (a ++ src ++ rest).
Proof.
  intros Hl. pose proof (blen_nonneg rest). unfold copy_into. byte_simp.
  assert (blen old = blen src) by (unfold blen; lia).
  test_true (blen a + blen src <=? blen a + (blen old + blen rest)).
  by rewrite <-(overwrite_app a src old rest).
Qed.

(** Writing into the zeroed tail of a buffer. *)
Lemma store_filled n pre v :
  blen pre < n → store (E:=Error) (blen pre) v (filled n pre) = Ok (filled n (pre ++ [v])).
Proof.
  intros H. pose proof (blen_nonneg pre). unfold filled.
  replace (Z.to_nat (n - blen pre)) with (S (Z.to_nat (n - blen (pre ++ [v]))))
    by (byte_simp; lia).
  simpl replicate. rewrite store_app. by rewrite <-app_assoc.
Qed.

Lemma copy_into_filled n pre src :
  blen pre + blen src <= n →
  copy_into (E:=Error) (blen pre) src (filled n pre) = Ok (filled n (pre ++ src)).
Proof.
  intros H. pose proof (blen_nonneg pre). pose proof (blen_nonneg src). unfold filled.
  replace (Z.to_nat (n - blen pre)) with (length src + Z.to_nat (n - blen (pre ++ src)))%nat
    by (byte_simp; unfold blen in *; lia).
  rewrite replicate_add, copy_into_app by (by rewrite length_replicate). by rewrite <-app_assoc.
Qed.

Lemma filled_full pre : filled (blen pre) pre = pre.
Proof. unfold filled. rewrite Z.sub_diag. apply app_nil_r. Qed.

Definition lookup_body (ops : list LookupInOp) : list Z := concat (lookup_spec_bytes <$> ops).
Definition mutate_body (ops : list MutateInOp) : list Z := concat (mutate_spec_bytes <$> ops).

Lemma lookup_body_cons op ops :
  lookup_body (op :: ops) = lookup_spec_bytes op ++ lookup_body ops.
Proof. done. Qed.

Lemma mutate_body_cons op ops :
  mutate_body (op :: ops) = mutate_spec_bytes op ++ mutate_body ops.
Proof. done. Qed.

Lemma blen_lookup_spec op : blen (lookup_spec_bytes op) = 4 + blen (LookupInOp.path op).
Proof. unfold lookup_spec_bytes. byte_simp. lia. Qed.

Lemma blen_mutate_spec op :
  blen (mutate_spec_bytes op) = 8 + blen (MutateInOp.path op) + blen (MutateInOp.value op).
Proof. unfold mutate_spec_bytes. byte_simp. lia. Qed.

Lemma lookup_in_write_spec n ops pre :
  blen pre + blen (lookup_body ops) <= n →
  lookup_in_write ops (filled n pre) (blen pre) = Ok (filled n (pre ++ lookup_body ops)).
Proof.
  revert pre. induction ops as [|op ops IH]; intros pre Hn; [by rewrite app_nil_r|].
  rewrite lookup_body_cons in *. rewrite blen_app, blen_lookup_spec in Hn.
  pose proof (blen_nonneg (LookupInOp.path op)).
  pose proof (blen_nonneg (lookup_body ops)).
  cbn [lookup_in_write]. rewrite (be_bytes_cast 2 16) by done.
  set (c := u8_from_opcode _). rewrite store_filled, bind_ok by lia.
  replace (blen pre + 1) with (blen (pre ++ [c])) by (byte_simp; lia).
  rewrite store_filled, bind_ok by (byte_simp; lia).
  replace (blen pre + 2) with (blen ((pre ++ [c]) ++ [LookupInOp.flags op])) by (byte_simp; lia).
  rewrite copy_into_filled, bind_ok by (byte_simp; lia).
  match goal with |- context [filled n ?q] =>
    replace (blen pre + 4) with (blen q) by (byte_simp; lia) end.
  rewrite copy_into_filled, bind_ok by (byte_simp; lia).
  match goal with |- context [filled n ?q] => assert (q = pre ++ lookup_spec_bytes op) as -> by
    (unfold lookup_spec_bytes; by rewrite <-!app_assoc) end.
  replace (blen pre + (4 + blen (LookupInOp.path op))) with (blen (pre ++ lookup_spec_bytes op))
    by (rewrite blen_app, blen_lookup_spec; lia).
  rewrite IH by (rewrite blen_app, blen_lookup_spec; lia). by rewrite <-app_assoc.
Qed.

Lemma mutate_in_write_spec n ops pre :
  blen pre + blen (mutate_body ops) <= n →
  mutate_in_write ops (filled n pre) (blen pre) = Ok (filled n (pre ++ mutate_body ops)).
Proof.
  revert pre. induction ops as [|op ops IH]; intros pre Hn; [by rewrite app_nil_r|].
  rewrite mutate_body_cons in *. rewrite blen_app, blen_mutate_spec in Hn.
  pose proof (blen_nonneg (MutateInOp.path op)). pose proof (blen_nonneg (MutateInOp.value op)).
  pose proof (blen_nonneg (mutate_body ops)).
  cbn [mutate_in_write]. rewrite (be_bytes_cast 2 16), (be_bytes_cast 4 32) by done.
  set (c := u8_from_opcode _). rewrite store_filled, bind_ok by lia.
  replace (blen pre + 1) with (blen (pre ++ [c])) by (byte_simp; lia).
  rewrite store_filled, bind_ok by (byte_simp; lia).
  replace (blen pre + 2) with (blen ((pre ++ [c]) ++ [MutateInOp.flags op])) by (byte_simp; lia).
  rewrite copy_into_filled, bind_ok by (byte_simp; lia).
  match goal with |- context [filled n ?q] =>
    replace (blen pre + 4) with (blen q) by (byte_simp; lia) end.
  rewrite copy_into_filled, bind_ok by (byte_simp; lia).
  match goal with |- context [copy_into (blen pre + 8) _ (filled n ?q)] =>
    replace (blen pre + 8) with (blen q) by (byte_simp; lia) end.
  rewrite copy_into_filled, bind_ok by (byte_simp; lia).
  match goal with |- context [copy_into ?i _ (filled n ?q)] =>
    replace i with (blen q) by (byte_simp; lia) end.
  rewrite copy_into_filled, bind_ok by (byte_simp; lia).
  match goal with |- context [filled n ?q] => assert (q = pre ++ mutate_spec_bytes op) as -> by
    (unfold mutate_spec_bytes; by rewrite <-!app_assoc) end.
  replace (blen pre + _) with (blen (pre ++ mutate_spec_bytes op))
    by (rewrite blen_app, blen_mutate_spec; lia).
  rewrite IH by (rewrite blen_app, blen_mutate_spec; lia). by rewrite <-app_assoc.
Qed.

(** ** Every operation *)

Module CrudRequest.
Inductive CrudRequest : Type :=
| Set_ (r : SetRequest)
| Get (r : GetRequest)
| GetMeta (r : GetMetaRequest)
| Delete (r : DeleteRequest)
| GetAndLock (r : GetAndLockRequest)
| GetAndTouch (r : GetAndTouchRequest)
| Unlock (r : UnlockRequest)
| Touch (r : TouchRequest)
| Add (r : AddRequest)
| Replace (r : ReplaceRequest)
| Append (r : AppendRequest)
| Prepend (r : PrependRequest)
| Increment (r : IncrementRequest)
| Decrement (r : DecrementRequest)
| LookupIn (r : LookupInRequest)
| MutateIn (r : MutateInRequest).
End CrudRequest.
Abbreviation CrudRequest := CrudRequest.CrudRequest.

Import CrudRequest.

Definition crud_call (self : OpsCrud) (r : CrudRequest) : outcome Error DispatchCall :=
  match r with
  | Set_ r => set self r
  | Get r => get self r
  | GetMeta r => get_meta self r
  | Delete r => delete self r
  | GetAndLock r => get_and_lock self r
  | GetAndTouch r => get_and_touch self r
  | Unlock r => unlock self r
  | Touch r => touch self r
  | Add r => add self r
  | Replace r => replace self r
  | Append r => append self r
  | Prepend r => prepend self r
  | Increment r => increment self r
  | Decrement r => decrement self r
  | LookupIn r => lookup_in self r
  | MutateIn r => mutate_in self r
  end.

(** What a request asks for, read off its fields: the abstract request the packet
    has to carry. *)
Record Intent : Type := {
  i_opcode : OpCode;
  i_collection_id : Z;
  i_key : list Z;
  i_vbucket_id : Z;
  i_datatype : Z;
  i_cas : option Z;
  i_extras : list Z;
  i_value : option (list Z);
  i_frames : list Z;
}.

Definition crud_intent (r : CrudRequest) : Intent :=
  match r with
  | Set_ (SetRequest.mk cid key vb fl v dt ex pe cas obo dl dtm) =>
      Build_Intent OpCode.Set_ cid key vb dt cas
        (be_bytes 4 fl ++ be_bytes 4 (unwrap_or_default ex)) (Some v) (req_frames dl dtm pe obo)
  | Get (GetRequest.mk cid key vb obo) =>
      Build_Intent OpCode.Get cid key vb 0 None [] None (req_frames None None None obo)
  | GetMeta (GetMetaRequest.mk cid key vb obo) =>
      Build_Intent OpCode.GetMeta cid key vb 0 None [2] None (req_frames None None None obo)
  | Delete (DeleteRequest.mk cid key vb cas obo dl dtm) =>
      Build_Intent OpCode.Delete cid key vb 0 cas [] None (req_frames dl dtm None obo)
  | GetAndLock (GetAndLockRequest.mk cid key vb lt obo) =>
      Build_Intent OpCode.GetLocked cid key vb 0 None (be_bytes 4 lt) None
        (req_frames None None None obo)
  | GetAndTouch (GetAndTouchRequest.mk cid key vb ex obo) =>
      Build_Intent OpCode.GAT cid key vb 0 None (be_bytes 4 ex) None
        (req_frames None None None obo)
  | Unlock (UnlockRequest.mk cid key vb cas obo) =>
      Build_Intent OpCode.UnlockKey cid key vb 0 (Some cas) [] None
        (req_frames None None None obo)
  | Touch (TouchRequest.mk cid key vb ex obo) =>
      Build_Intent OpCode.Touch cid key vb 0 None (be_bytes 4 ex) None
        (req_frames None None None obo)
  | Add (AddRequest.mk cid key vb fl v dt ex obo dl dtm) =>
      Build_Intent OpCode.Add cid key vb dt None
        (be_bytes 4 fl ++ be_bytes 4 (unwrap_or_default ex)) (Some v) (req_frames dl dtm None obo)
  | Replace (ReplaceRequest.mk cid key vb fl v dt ex pe cas obo dl dtm) =>
      Build_Intent OpCode.Replace cid key vb dt cas
        (be_bytes 4 fl ++ be_bytes 4 (unwrap_or_default ex)) (Some v) (req_frames dl dtm pe obo)
  | Append (AppendRequest.mk cid key vb v dt cas obo dl dtm) =>
      Build_Intent OpCode.Append cid key vb dt cas [] (Some v) (req_frames dl dtm None obo)
  | Prepend (PrependRequest.mk cid key vb v dt cas obo dl dtm) =>
      Build_Intent OpCode.Prepend cid key vb dt cas [] (Some v) (req_frames dl dtm None obo)
  | Increment (IncrementRequest.mk cid key vb ini delta ex obo dl dtm) =>
      Build_Intent OpCode.Increment cid key vb 0 None (encode_counter_values delta ini ex) None
        (req_frames dl dtm None obo)
  | Decrement (DecrementRequest.mk cid key vb ini delta ex obo dl dtm) =>
      Build_Intent OpCode.Decrement cid key vb 0 None (encode_counter_values delta ini ex) None
        (req_frames dl dtm None obo)
  | LookupIn (LookupInRequest.mk cid key vb fl ops obo) =>
      Build_Intent OpCode.SubDocMultiLookup cid key vb 0 None
        (if flags_is_empty fl then [] else [fl]) (Some (lookup_body ops))
        (req_frames None None None obo)
  | MutateIn (MutateInRequest.mk cid key vb fl ops ex pe cas obo dl dtm) =>
      Build_Intent OpCode.SubDocMultiMutation cid key vb 0 cas
        (be_bytes 4 (unwrap_or_default ex) ++ (if flags_is_empty fl then [] else [fl]))
        (Some (mutate_body ops)) (req_frames dl dtm pe obo)
  end.

(** The ranges of the Rust types, and a value that leaves room for the rest of
    the packet in a 32-bit body length. *)
Record intent_ok (i : Intent) : Prop := {
  iok_cid : fits 32 (i_collection_id i);
  iok_vb : fits 16 (i_vbucket_id i);
  iok_datatype : fits 8 (i_datatype i);
  iok_cas : fits 64 (unwrap_or_default (i_cas i));
  iok_value : olen (i_value i) < 2 ^ 31;
}.

(** The packet carries the intent. *)
Record carries (self : OpsCrud) (i : Intent) (call : DispatchCall) : Prop := {
  c_opcode : rq_op_code (dc_packet call) = i_opcode i;
  c_vbucket : rq_vbucket_id (dc_packet call) = Some (i_vbucket_id i);
  c_datatype : rq_datatype (dc_packet call) = i_datatype i;
  c_cas : rq_cas (dc_packet call) = i_cas i;
  c_extras : obytes (rq_extras (dc_packet call)) = i_extras i;
  c_value : rq_value (dc_packet call) = i_value i;
  c_frames : rq_framing_extras (dc_packet call) = non_empty (i_frames i);
  c_magic : rq_magic (dc_packet call)
            = (if bool_decide (i_frames i = []) then Magic.Req else Magic.ReqExt);
  c_key : blen (obytes (rq_key (dc_packet call))) <= 251
    ∧ if collections_enabled self
      then read_uleb128 (obytes (rq_key (dc_packet call))) = Some (i_collection_id i, i_key i)
      else obytes (rq_key (dc_packet call)) = i_key i ∧ i_collection_id i = 0;
  c_frames_size : blen (i_frames i) <= 39;
  c_persistent : dc_is_persistent call = false;
}.

Definition returns {A} (Q : A → Prop) (m : outcome Error A) : Prop :=
  match m with Ok a => Q a | Err e => invalid_argument e | Panic => False end.

Lemma returns_bind {A B} (Q : A → Prop) (R : B → Prop) m (k : A → outcome Error B) :
  returns Q m → (∀ a, Q a → returns R (k a)) → returns R (m ≫= k).
Proof. destruct m; simpl; auto. Qed.

Definition key_carries (self : OpsCrud) (cid : Z) (key k : list Z) : Prop :=
  blen k <= 251 ∧ if collections_enabled self then read_uleb128 k = Some (cid, key)
                  else k = key ∧ cid = 0.

Lemma key_returns self cid key :
  fits 32 cid →
  returns (key_carries self cid key) (encode_collection_and_key self cid key (replicate 251 0)).
Proof.
  intros H. pose proof (encode_collection_and_key_spec self cid key H) as Hs.
  unfold returns, key_carries. by destruct (encode_collection_and_key _ _ _ _) as [|?|];
    [|destruct Hs|].
Qed.

Definition frames_encoded (frames : list Z) (x : Magic * Z * list Z) : Prop :=
  let '(m, used, buf) := x in
  framing_slice used buf = Ok (non_empty frames) ∧ blen frames <= 39
  ∧ m = (if bool_decide (frames = []) then Magic.Req else Magic.ReqExt).

Lemma frames_returns self dl dt pe obo :
  returns (frames_encoded (req_frames dl dt pe obo))
    (encode_req_ext_frames self dl dt pe obo (replicate 128 0)).
Proof.
  pose proof (encode_req_ext_frames_spec self dl dt pe obo) as H. unfold returns.
  destruct (encode_req_ext_frames _ _ _ _ _ _) as [[[m used] buf]|e|]; [|done..].
  destruct H as (-> & -> & Hl & ->). unfold frames_encoded, framing_slice, filled.
  destruct (req_frames dl dt pe obo) as [|b l]; [done|].
  pose proof (blen_nonneg l). rewrite slice_prefix. byte_simp.
  test_true (0 <? 1 + blen l). done.
Qed.

(** An operation: frames, then key and framing slice in either order. *)
Lemma op_returns self dl dt pe obo cid key Q
    (k : Magic → option (list Z) → list Z → outcome Error DispatchCall) :
  fits 32 cid →
  (∀ m ky, blen (req_frames dl dt pe obo) <= 39 →
     m = (if bool_decide (req_frames dl dt pe obo = []) then Magic.Req else Magic.ReqExt) →
     key_carries self cid key ky →
     returns Q (k m (non_empty (req_frames dl dt pe obo)) ky)) →
  returns Q ('(m, used, buf) ← encode_req_ext_frames self dl dt pe obo (replicate 128 0);
             fr ← framing_slice used buf;
             ky ← encode_collection_and_key self cid key (replicate 251 0);
             k m fr ky)
  ∧ returns Q ('(m, used, buf) ← encode_req_ext_frames self dl dt pe obo (replicate 128 0);
               ky ← encode_collection_and_key self cid key (replicate 251 0);
               fr ← framing_slice used buf;
               k m fr ky).
Proof.
  intros Hc Hk. split.
  - eapply returns_bind; [apply frames_returns|]. intros [[m used] buf] (Hf & Hl & Hm).
    rewrite Hf, bind_ok. eapply returns_bind; [by apply key_returns|]. eauto.
  - eapply returns_bind; [apply frames_returns|]. intros [[m used] buf] (Hf & Hl & Hm).
    eapply returns_bind; [by apply key_returns|]. intros ky Hky. rewrite Hf, bind_ok. eauto.
Qed.

Lemma lookup_total ops : ∀ acc,
  foldl (λ t op, t + blen (LookupInOp.path op)) acc ops + blen ops * 4
  = acc + blen (lookup_body ops).
Proof.
  induction ops as [|op ops IH]; intros acc; [byte_simp; simpl; byte_simp; lia|].
  simpl foldl. rewrite lookup_body_cons, !blen_app, blen_lookup_spec, blen_cons.
  specialize (IH (acc + blen (LookupInOp.path op))). lia.
Qed.

Lemma mutate_total ops : ∀ a b,
  foldl (λ t op, t + blen (MutateInOp.path op)) a ops
  + foldl (λ t op, t + blen (MutateInOp.value op)) b ops + blen ops * 8
  = a + b + blen (mutate_body ops).
Proof.
  induction ops as [|op ops IH]; intros a b; [byte_simp; simpl; byte_simp; lia|].
  simpl foldl. rewrite mutate_body_cons, !blen_app, blen_mutate_spec, blen_cons.
  specialize (IH (a + blen (MutateInOp.path op)) (b + blen (MutateInOp.value op))). lia.
Qed.

Lemma lookup_in_body ops :
  lookup_in_write ops (replicate (Z.to_nat (blen ops * 4
    + foldl (λ t op, t + blen (LookupInOp.path op)) 0 ops)) 0) 0 = Ok (lookup_body ops).
Proof.
  pose proof (lookup_total ops 0). replace (blen ops * 4 + _) with (blen (lookup_body ops)) by lia.
  rewrite <-filled_nil. change 0 with (blen (@nil Z)) at 1.
  rewrite lookup_in_write_spec by (rewrite blen_nil; lia). by rewrite app_nil_l, filled_full.
Qed.

Lemma mutate_in_body ops :
  mutate_in_write ops (replicate (Z.to_nat (blen ops * 8
    + foldl (λ t op, t + blen (MutateInOp.path op)) 0 ops
    + foldl (λ t op, t + blen (MutateInOp.value op)) 0 ops)) 0) 0 = Ok (mutate_body ops).
Proof.
  pose proof (mutate_total ops 0 0).
  replace (blen ops * 8 + _ + _) with (blen (mutate_body ops)) by lia.
  rewrite <-filled_nil. change 0 with (blen (@nil Z)) at 1.
  rewrite mutate_in_write_spec by (rewrite blen_nil; lia). by rewrite app_nil_l, filled_full.
Qed.

(** One operation of [crud_call_carries]: its encoders, then field by field. *)
Ltac crud_op unfold_op :=
  unfold_op; cbv zeta;
  try match goal with |- returns _ (if ?g then _ else _) => destruct g; [by do 2 eexists|] end;
  eapply op_returns; [done|]; intros m ky Hsize Hmagic Hkey;
  rewrite ?lookup_in_body, ?mutate_in_body, ?bind_ok;
  constructor; try done.

Lemma crud_call_carries self r :
  fits 32 (i_collection_id (crud_intent r)) →
  returns (carries self (crud_intent r)) (crud_call self r).
Proof.
  intros Hc. destruct r as [[]|[]|[]|[]|[]|[]|[]|[]|[]|[]|[]|[]|[]|[]|[]|[]];
    cbn [crud_call crud_intent i_collection_id] in *.
  - crud_op ltac:(unfold set).
  - crud_op ltac:(unfold get).
  - crud_op ltac:(unfold get_meta).
  - crud_op ltac:(unfold delete).
  - crud_op ltac:(unfold get_and_lock).
  - crud_op ltac:(unfold get_and_touch).
  - crud_op ltac:(unfold unlock).
  - crud_op ltac:(unfold touch).
  - crud_op ltac:(unfold add).
  - crud_op ltac:(unfold replace).
  - crud_op ltac:(unfold append).
  - crud_op ltac:(unfold prepend).
  - crud_op ltac:(unfold increment).
  - crud_op ltac:(unfold decrement).
  - crud_op ltac:(unfold lookup_in). simpl. by destruct (flags_is_empty flags).
  - crud_op ltac:(unfold mutate_in).
Qed.

Lemma crud_extras_size r : blen (i_extras (crud_intent r)) <= 20.
Proof.
  destruct r as [[]|[]|[]|[]|[]|[]|[]|[]|[]|[]|[]|[]|[]|[]|[]|[]];
    cbn [crud_intent i_extras]; unfold encode_counter_values;
    repeat case_match; byte_simp; lia.
Qed.

Lemma crud_opcode_fits r : fits 8 (u8_from_opcode (i_opcode (crud_intent r))).
Proof. destruct r as [[]|[]|[]|[]|[]|[]|[]|[]|[]|[]|[]|[]|[]|[]|[]|[]]; done. Qed.

Lemma carries_packet_ok self r call opaque :
  carries self (crud_intent r) call → intent_ok (crud_intent r) → fits 32 opaque →
  packet_ok (rq_set_opaque (dc_packet call) opaque)
  ∧ encodable (rq_set_opaque (dc_packet call) opaque) = true.
Proof.
  intros Hc Hi Ho. destruct Hc, Hi. destruct c_key0 as [Hk _].
  pose proof (crud_extras_size r) as Hx. rewrite <-c_extras0, blen_obytes in Hx.
  rewrite blen_obytes in Hk. rewrite <-c_value0 in iok_value0.
  assert (olen (rq_framing_extras (dc_packet call)) <= 39) as Hf
    by (rewrite c_frames0, olen_non_empty; done).
  split.
  - constructor; simpl; rewrite ?c_opcode0, ?c_datatype0, ?c_vbucket0, ?c_cas0; auto;
      try apply crud_opcode_fits; try lia.
    rewrite c_magic0, c_frames0. by destruct (i_frames (crud_intent r)).
  - unfold encodable. simpl. rewrite c_frames0 in Hf |- *.
    destruct (non_empty _); simpl in *; lia.
Qed.

(** Every key-value request with fields in the range of their types either is
    refused with an invalid-argument error or becomes a dispatch of one packet
    that carries exactly what was asked: opcode, vbucket, CAS, datatype, extras,
    value, framing extras, and a key from which the server recovers collection
    id and document key.  No encoder panics: the fixed buffers are large enough. *)
Lemma crud_requests_carry self r :
  intent_ok (crud_intent r) →
  match crud_call self r with
  | Ok call => carries self (crud_intent r) call
  | Err e => invalid_argument e
  | Panic => False
  end.
Proof. intros []. by apply crud_call_carries. Qed.

(** End to end: whatever key-value request the client accepts, under whatever
    opaque it is given, the codec accepts its packet, and the peer's decoder
    reads from the wire exactly that packet and leaves the bytes after it. *)
Lemma crud_requests_on_the_wire {P : Profile} self r call opaque dst rest :
  intent_ok (crud_intent r) → fits 32 opaque → crud_call self r = Ok call →
  let p := rq_set_opaque (dc_packet call) opaque in
  ∃ frame, encode p dst = (dst ++ frame, Ok tt)
    ∧ decode (frame ++ rest) = (rest, Ok (Some (received p))).
Proof.
  intros Hi Ho Hcall p. pose proof (crud_call_carries self r (iok_cid _ Hi)) as Hc.
  rewrite Hcall in Hc. destruct (carries_packet_ok _ _ _ _ Hc Hi Ho) as [Hok He].
  exists (encoded_frame p). split; [by apply encode_frame | by apply decode_encoded].
Qed.

(** ** Reading sub-document bodies back *)

Definition take_n (n : Z) (l : list Z) : option (list Z * list Z) :=
  if n <=? blen l then Some (take (Z.to_nat n) l, drop (Z.to_nat n) l) else None.

(** A server's reading of a multi-lookup body: opcode, flags, 16-bit path length,
    path. *)
Fixpoint read_lookup_specs (fuel : nat) (l : list Z) : option (list (Z * Z * list Z)) :=
  match fuel, l with
  | _, [] => Some []
  | S fuel, opcode :: flags :: l =>
      '(n, l) ← take_n 2 l;
      '(path, l) ← take_n (from_be n) l;
      specs ← read_lookup_specs fuel l;
      Some ((opcode, flags, path) :: specs)
  | _, _ => None
  end.

(** And of a multi-mutation body, with a 32-bit value length. *)
Fixpoint read_mutate_specs (fuel : nat) (l : list Z) : option (list (Z * Z * list Z * list Z)) :=
  match fuel, l with
  | _, [] => Some []
  | S fuel, opcode :: flags :: l =>
      '(n, l) ← take_n 2 l;
      '(m, l) ← take_n 4 l;
      '(path, l) ← take_n (from_be n) l;
      '(value, l) ← take_n (from_be m) l;
      specs ← read_mutate_specs fuel l;
      Some ((opcode, flags, path, value) :: specs)
  | _, _ => None
  end.

Lemma take_n_app n l rest : n = blen l → take_n n (l ++ rest) = Some (l, rest).
Proof.
  intros ->. unfold take_n. byte_simp. pose proof (blen_nonneg rest).
  test_true (blen l <=? blen l + blen rest). by rewrite take_app_blen, drop_app_blen.
Qed.

Lemma read_lookup_body ops fuel :
  Forall (λ op, blen (LookupInOp.path op) < 2 ^ 16) ops → (length ops ≤ fuel)%nat →
  read_lookup_specs fuel (lookup_body ops)
  = Some ((λ op, (u8_from_opcode (opcode_from_lookup_in_op_type (LookupInOp.op op)),
                  LookupInOp.flags op, LookupInOp.path op)) <$> ops).
Proof.
  intros H. revert fuel. induction H as [|op ops Hop H IH]; intros fuel Hf;
    [by destruct fuel|]. destruct fuel as [|fuel]; [simpl in Hf; lia|].
  pose proof (blen_nonneg (LookupInOp.path op)).
  rewrite lookup_body_cons. unfold lookup_spec_bytes. rewrite <-!app_assoc.
  cbn [app read_lookup_specs]. rewrite take_n_app by (by rewrite blen_be_bytes).
  cbn [mbind option_bind].
  rewrite take_n_app by (rewrite from_be_bytes_id; simpl; lia). cbn [mbind option_bind].
  by rewrite IH by (simpl in Hf; lia).
Qed.

Lemma read_mutate_body ops fuel :
  Forall (λ op, blen (MutateInOp.path op) < 2 ^ 16 ∧ blen (MutateInOp.value op) < 2 ^ 32) ops →
  (length ops ≤ fuel)%nat →
  read_mutate_specs fuel (mutate_body ops)
  = Some ((λ op, (u8_from_opcode (opcode_from_mutate_in_op_type (MutateInOp.op op)),
                  MutateInOp.flags op, MutateInOp.path op, MutateInOp.value op)) <$> ops).
Proof.
  intros H. revert fuel. induction H as [|op ops [Hop Hv] H IH]; intros fuel Hf;
    [by destruct fuel|]. destruct fuel as [|fuel]; [simpl in Hf; lia|].
  pose proof (blen_nonneg (MutateInOp.path op)). pose proof (blen_nonneg (MutateInOp.value op)).
  rewrite mutate_body_cons. unfold mutate_spec_bytes. rewrite <-!app_assoc.
  cbn [app read_mutate_specs].
  rewrite take_n_app by (by rewrite blen_be_bytes). cbn [mbind option_bind].
  rewrite take_n_app by (by rewrite blen_be_bytes). cbn [mbind option_bind].
  rewrite take_n_app by (rewrite from_be_bytes_id; simpl; lia). cbn [mbind option_bind].
  rewrite take_n_app by (rewrite from_be_bytes_id; simpl; lia). cbn [mbind option_bind].
  by rewrite IH by (simpl in Hf; lia).
Qed.

Lemma mutate_in_body_read self request call :
  fits 32 (MutateInRequest.collection_id request) →
  Forall (λ op, blen (MutateInOp.path op) < 2 ^ 16 ∧ blen (MutateInOp.value op) < 2 ^ 32)
    (MutateInRequest.ops request) →
  mutate_in self request = Ok call →
  read_mutate_specs (length (MutateInRequest.ops request)) (obytes (rq_value (dc_packet call)))
  = Some ((λ op, (u8_from_opcode (opcode_from_mutate_in_op_type (MutateInOp.op op)),
                  MutateInOp.flags op, MutateInOp.path op, MutateInOp.value op))
          <$> MutateInRequest.ops request).
Proof.
  intros Hc Hops Hcall. destruct request as [cid key vb fl ops ex pe cas obo dl dt].
  pose proof (crud_call_carries self (MutateIn (MutateInRequest.mk cid key vb fl ops ex pe cas
    obo dl dt)) Hc) as H. cbn [crud_call] in H. rewrite Hcall in H.
  rewrite (c_value _ _ _ H). by apply read_mutate_body.
Qed.

Lemma lookup_in_body_read self request call :
  fits 32 (LookupInRequest.collection_id request) →
  Forall (λ op, blen (LookupInOp.path op) < 2 ^ 16) (LookupInRequest.ops request) →
  lookup_in self request = Ok call →
  read_lookup_specs (length (LookupInRequest.ops request)) (obytes (rq_value (dc_packet call)))
  = Some ((λ op, (u8_from_opcode (opcode_from_lookup_in_op_type (LookupInOp.op op)),
                  LookupInOp.flags op, LookupInOp.path op)) <$> LookupInRequest.ops request).
Proof.
  intros Hc Hops Hcall. destruct request as [cid key vb fl ops obo].
  pose proof (crud_call_carries self (LookupIn (LookupInRequest.mk cid key vb fl ops obo)) Hc)
    as H. cbn [crud_call] in H. rewrite Hcall in H.
  rewrite (c_value _ _ _ H). by apply read_lookup_body.
Qed.

(** The body a multi-mutation or multi-lookup sends reads back as the operations
    of the request, in order, each with its opcode, flags, path and (for a
    mutation) value, for every list of operations whose paths and values fit
    their length fields. *)
Lemma subdoc_bodies_roundtrip self :
  (∀ request call,
     fits 32 (MutateInRequest.collection_id request) →
     Forall (λ op, blen (MutateInOp.path op) < 2 ^ 16 ∧ blen (MutateInOp.value op) < 2 ^ 32)
       (MutateInRequest.ops request) →
     mutate_in self request = Ok call →
     read_mutate_specs (length (MutateInRequest.ops request)) (obytes (rq_value (dc_packet call)))
     = Some ((λ op, (u8_from_opcode (opcode_from_mutate_in_op_type (MutateInOp.op op)),
                     MutateInOp.flags op, MutateInOp.path op, MutateInOp.value op))
             <$> MutateInRequest.ops request))
  ∧ (∀ request call,
     fits 32 (LookupInRequest.collection_id request) →
     Forall (λ op, blen (LookupInOp.path op) < 2 ^ 16) (LookupInRequest.ops request) →
     lookup_in self request = Ok call →
     read_lookup_specs (length (LookupInRequest.ops request)) (obytes (rq_value (dc_packet call)))
     = Some ((λ op, (u8_from_opcode (opcode_from_lookup_in_op_type (LookupInOp.op op)),
                     LookupInOp.flags op, LookupInOp.path op)) <$> LookupInRequest.ops request)).
Proof. split; intros; [by apply (mutate_in_body_read self) | by apply (lookup_in_body_read self)]. Qed.

(** [preserve_expiry] is sent whenever the option is present: asking not to
    preserve the expiry, [Some(false)], produces the same framing extras as
    [Some(true)], for every operation that takes the option. *)
Lemma preserve_expiry_ignores_value self dl dt obo buf :
  encode_req_ext_frames self dl dt (Some false) obo buf
  = encode_req_ext_frames self dl dt (Some true) obo buf
  ∧ (preserve_expiry_enabled self = true → ext_frames_enabled self = true →
     set self (SetRequest.mk 0 [] 0 0 [] 0 None (Some false) None None None None)
     = Ok (plain_call {|
         rq_magic := Magic.ReqExt; rq_op_code := OpCode.Set_; rq_datatype := 0;
         rq_vbucket_id := Some 0; rq_cas := None; rq_extras := Some (be_bytes 8 0);
         rq_key := Some (if collections_enabled self then [0] else []); rq_value := Some [];
         rq_framing_extras := Some [0x50]; rq_opaque := None |})).
Proof.
  split; [done|]. destruct self as [[] ? ? ?]; simpl; intros -> ->; reflexivity.
Qed.

(** ** Witnesses *)

Definition sample_ops : OpsCrud := OpsCrud.mk true true true true.

(** A durable upsert of [{}] in collection 300, on behalf of a user. *)
Definition sample_set_request : SetRequest :=
  SetRequest.mk 300 [107; 49] 17 0x02000006 [123; 125] 1 (Some 60) None (Some 99)
    (Some "joe") (Some InnerDurabilityLevel.Majority) (Some (from_millis 2500)).

Definition sample_set_call : DispatchCall :=
  {| dc_packet := {|
       rq_magic := Magic.ReqExt; rq_op_code := OpCode.Set_; rq_datatype := 1;
       rq_vbucket_id := Some 17; rq_cas := Some 99;
       rq_extras := Some [2; 0; 0; 6; 0; 0; 0; 60]; rq_key := Some [172; 2; 107; 49];
       rq_value := Some [123; 125];
       rq_framing_extras := Some [0x43; 106; 111; 101; 0x13; 1; 9; 196];
       rq_opaque := None |};
     dc_is_persistent := false; dc_response_context := None |}.

Lemma sample_intent_ok : intent_ok (crud_intent (Set_ sample_set_request)).
Proof. constructor; vm_compute; done. Qed.

Lemma crud_requests_carry_example :
  carries sample_ops (crud_intent (Set_ sample_set_request)) sample_set_call.
Proof. exact (crud_requests_carry sample_ops (Set_ sample_set_request) sample_intent_ok). Defined.

Lemma crud_requests_on_the_wire_example :
  ∃ frame, encode (rq_set_opaque (dc_packet sample_set_call) 5) [] = ([] ++ frame, Ok tt)
    ∧ decode (P:=true) (frame ++ [1])
      = ([1], Ok (Some (received (rq_set_opaque (dc_packet sample_set_call) 5)))).
Proof.
  apply (crud_requests_on_the_wire (P:=true) sample_ops (Set_ sample_set_request) sample_set_call);
    [apply sample_intent_ok | vm_compute; done | vm_compute; done].
Defined.

Definition sample_mutate_in : MutateInRequest :=
  MutateInRequest.mk 0 [107] 3 0
    [MutateInOp.mk MutateInOpType.DictSet 0 [97] [49];
     MutateInOp.mk MutateInOpType.Delete XATTR_PATH [98] []]
    None None None None None None.

Definition sample_lookup_in : LookupInRequest :=
  LookupInRequest.mk 0 [107] 3 AccessDeleted
    [LookupInOp.mk LookupInOpType.Get 0 [97]; LookupInOp.mk LookupInOpType.GetDoc 0 []] None.

Lemma subdoc_bodies_roundtrip_example :
  (∃ call, mutate_in sample_ops sample_mutate_in = Ok call
    ∧ read_mutate_specs 2 (obytes (rq_value (dc_packet call)))
      = Some [(0xc8, 0, [97], [49]); (0xc9, 4, [98], [])])
  ∧ (∃ call, lookup_in sample_ops sample_lookup_in = Ok call
    ∧ read_lookup_specs 2 (obytes (rq_value (dc_packet call)))
      = Some [(0xc5, 0, [97]); (0, 0, [])]).
Proof.
  split; eexists; (split; [vm_compute; done|]).
  - apply (proj1 (subdoc_bodies_roundtrip sample_ops) sample_mutate_in);
      [vm_compute; done | by repeat constructor | vm_compute; done].
  - apply (proj2 (subdoc_bodies_roundtrip sample_ops) sample_lookup_in);
      [vm_compute; done | by repeat constructor | vm_compute; done].
Defined.

Example preserve_expiry_example :
  set sample_ops (SetRequest.mk 0 [] 0 0 [] 0 None (Some false) None None None None)
  = Ok (plain_call {|
      rq_magic := Magic.ReqExt; rq_op_code := OpCode.Set_; rq_datatype := 0;
      rq_vbucket_id := Some 0; rq_cas := None; rq_extras := Some (be_bytes 8 0);
      rq_key := Some [0]; rq_value := Some [];
      rq_framing_extras := Some [0x50]; rq_opaque := None |}).
Proof. apply (preserve_expiry_ignores_value sample_ops None None None []); done. Defined.
