(* ===== verification/Response.v ===== *)
(** * Response decoding ([memdx/client_response.rs], [memdx/response.rs])

    One record per response type and its [TryFromClientResponse::try_from].  The
    decoders read server-supplied bytes: every length check of the source is
    here, and [Panic] marks a failed [expect] or an arithmetic overflow. *)

From Stdlib Require Import Floats.SpecFloat.
From S2P Require Import Prelude Wire MemdError Codec ExtFrame Requests OpsCore OpsCrud.

Module ClientResponse.
Record ClientResponse : Type := mk {
  packet : ResponsePacket;
  response_context : option ResponseContext;
}.
End ClientResponse.
Abbreviation ClientResponse := ClientResponse.ClientResponse.

(** ** Reading a byte cursor

    [Cursor::read_u8], [read_u16], [read_u32], [read_u64] and [read_exact]: an
    [io::Error] when too few bytes remain. *)
Definition unexpected_end : Error := error_from_io "failed to fill whole buffer".

Definition read_be (n : nat) (l : list Z) : outcome Error (Z * list Z) :=
  if (n <=? length l)%nat then Ok (from_be (take n l), drop n l) else Err unexpected_end.

Definition read_exact (n : Z) (l : list Z) : outcome Error (list Z * list Z) :=
  if n <=? blen l then Ok (take (Z.to_nat n) l, drop (Z.to_nat n) l) else Err unexpected_end.

(** [String::from_utf8] succeeds: well-formed UTF-8. *)
Fixpoint utf8_valid_fuel (fuel : nat) (l : list Z) : bool :=
  let cont b := (0x80 <=? b) && (b <=? 0xBF) in
  match fuel with
  | O => bool_decide (l = [])
  | S fuel =>
      match l with
      | [] => true
      | b :: l =>
          if b <=? 0x7F then utf8_valid_fuel fuel l
          else if (0xC2 <=? b) && (b <=? 0xDF) then
            match l with b1 :: l => cont b1 && utf8_valid_fuel fuel l | _ => false end
          else if (0xE0 <=? b) && (b <=? 0xEF) then
            match l with
            | b1 :: b2 :: l =>
                (if b =? 0xE0 then (0xA0 <=? b1) && (b1 <=? 0xBF)
                 else if b =? 0xED then (0x80 <=? b1) && (b1 <=? 0x9F) else cont b1)
                && cont b2 && utf8_valid_fuel fuel l
            | _ => false
            end
          else if (0xF0 <=? b) && (b <=? 0xF4) then
            match l with
            | b1 :: b2 :: b3 :: l =>
                (if b =? 0xF0 then (0x90 <=? b1) && (b1 <=? 0xBF)
                 else if b =? 0xF4 then (0x80 <=? b1) && (b1 <=? 0x8F) else cont b1)
                && cont b2 && cont b3 && utf8_valid_fuel fuel l
            | _ => false
            end
          else false
      end
  end.

Definition utf8_valid (l : list Z) : bool := utf8_valid_fuel (length l) l.

(** The string of these bytes, and [str::split(' ')]. *)
Definition string_of_bytes (l : list Z) : string :=
  String.string_of_list_ascii (map (λ b, Ascii.ascii_of_nat (Z.to_nat b)) l).

Fixpoint split_space (l : list Z) : list (list Z) :=
  match l with
  | [] => [[]]
  | b :: l =>
      if b =? 32 then [] :: split_space l
      else match split_space l with
           | item :: items => (b :: item) :: items
           | [] => [[b]]
           end
  end.

(** [ServerError::new(kind, packet.op_code, packet.status, packet.opaque).into()]. *)
Definition server_error (packet : ResponsePacket) (kind : ServerErrorKind) : Error :=
  error_from_server
    (server_error_new kind (rs_op_code packet) (rs_status packet) (rs_opaque packet)).

(** ** Bootstrap responses *)

Record HelloResponse : Type := { enabled_features : list HelloFeature }.

(** [while let Ok(code) = cursor.read_u16()]. *)
Fixpoint read_features (fuel : nat) (l : list Z) : list HelloFeature :=
  match fuel, read_be 2 l with
  | S fuel, Ok (code, l) => hello_feature_from_u16 code :: read_features fuel l
  | _, _ => []
  end.

Definition hello_try_from (resp : ClientResponse) : outcome Error HelloResponse :=
  let packet := ClientResponse.packet resp in
  if negb (bool_decide (rs_status packet = Status.Success)) then
    Err (OpsCore.decode_error packet)
  else
    features ←
      match rs_value packet with
      | Some value =>
          if negb (blen value mod 2 =? 0) then
            Err (new_protocol_error "invalid hello features length")
          else Ok (read_features (length value) value)
      | None => Ok []
      end;
    Ok {| enabled_features := features |}.

Record GetErrorMapResponse : Type := { gem_error_map : list Z }.

Definition get_error_map_try_from (resp : ClientResponse) : outcome Error GetErrorMapResponse :=
  let packet := ClientResponse.packet resp in
  if negb (bool_decide (rs_status packet = Status.Success)) then
    Err (OpsCore.decode_error packet)
  else Ok {| gem_error_map := obytes (rs_value packet) |}.

Definition select_bucket_try_from (resp : ClientResponse) : outcome Error unit :=
  let packet := ClientResponse.packet resp in
  let status := rs_status packet in
  if negb (bool_decide (status = Status.Success)) then
    if bool_decide (status = Status.AccessError) || bool_decide (status = Status.KeyNotFound)
    then Err (server_error packet ServerErrorKind.UnknownBucketName)
    else Err (OpsCore.decode_error packet)
  else Ok tt.

Record SASLResponse : Type := { needs_more_steps : bool; payload : list Z }.

Definition sasl_auth_try_from (resp : ClientResponse) : outcome Error SASLResponse :=
  let packet := ClientResponse.packet resp in
  let status := rs_status packet in
  if bool_decide (status = Status.AuthContinue) then
    Ok {| needs_more_steps := true; payload := obytes (rs_value packet) |}
  else if negb (bool_decide (status = Status.Success)) then Err (OpsCore.decode_error packet)
  else Ok {| needs_more_steps := false; payload := obytes (rs_value packet) |}.

Definition sasl_step_try_from (resp : ClientResponse) : outcome Error SASLResponse :=
  let packet := ClientResponse.packet resp in
  if negb (bool_decide (rs_status packet = Status.Success)) then
    Err (OpsCore.decode_error packet)
  else Ok {| needs_more_steps := false; payload := obytes (rs_value packet) |}.

(** [for item in split { list.push(AuthMechanism::try_from(item)?) }]. *)
Fixpoint parse_mechs (items : list (list Z)) : outcome Error (list AuthMechanism) :=
  match items with
  | [] => Ok []
  | item :: items =>
      m ← auth_mechanism_try_from (string_of_bytes item);
      ms ← parse_mechs items;
      Ok (m :: ms)
  end.

Definition sasl_list_mechs_try_from (resp : ClientResponse)
    : outcome Error (list AuthMechanism) :=
  let packet := ClientResponse.packet resp in
  let status := rs_status packet in
  if negb (bool_decide (status = Status.Success)) then
    if bool_decide (status = Status.KeyNotFound)
    then Err (server_error packet ServerErrorKind.ConfigNotSet)
    else Err (OpsCore.decode_error packet)
  else
    let value := obytes (rs_value packet) in
    if utf8_valid value then parse_mechs (split_space value)
    else Err (error_with (new_protocol_error "failed to parse authentication mechanism list")
                (SrcForeign "FromUtf8Error")).

Definition get_cluster_config_try_from (resp : ClientResponse) : outcome Error (list Z) :=
  let packet := ClientResponse.packet resp in
  if negb (bool_decide (rs_status packet = Status.Success)) then
    Err (OpsCore.decode_error packet)
  else Ok (obytes (rs_value packet)).

Definition ping_try_from (resp : ClientResponse) : outcome Error unit :=
  let packet := ClientResponse.packet resp in
  if negb (bool_decide (rs_status packet = Status.Success)) then
    Err (OpsCore.decode_error packet)
  else Ok tt.

Record GetCollectionIdResponse : Type := { gci_manifest_rev : Z; gci_collection_id : Z }.

Definition get_collection_id_try_from (resp : ClientResponse)
    : outcome Error GetCollectionIdResponse :=
  context ← expect (ClientResponse.response_context resp);
  scope_name ← expect (ResponseContext.scope_name context);
  collection_name ← expect (ResponseContext.collection_name context);
  let packet := ClientResponse.packet resp in
  let status := rs_status packet in
  let resource kind :=
    error_from_resource
      (resource_error_new
         (server_error_new kind (rs_op_code packet) (rs_status packet) (rs_opaque packet))
         scope_name collection_name) in
  if bool_decide (status = Status.ScopeUnknown) then
    Err (resource ServerErrorKind.UnknownScopeName)
  else if bool_decide (status = Status.CollectionUnknown) then
    Err (resource ServerErrorKind.UnknownCollectionName)
  else if negb (bool_decide (status = Status.Success)) then Err (OpsCore.decode_error packet)
  else
    extras ←
      match rs_extras packet with
      | Some extras =>
          if negb (blen extras =? 12) then Err (new_protocol_error "invalid extras length")
          else Ok extras
      | None => Err (new_protocol_error "no extras in response")
      end;
    '(manifest_rev, extras) ← read_be 8 extras;
    '(collection_id, _) ← read_be 4 extras;
    Ok {| gci_manifest_rev := manifest_rev; gci_collection_id := collection_id |}.

(** ** Document responses *)

Record MutationToken : Type := { vbuuid : Z; seqno : Z }.

Definition mutation_token_try_from (value : list Z) : outcome Error MutationToken :=
  if negb (blen value =? 16) then Err (new_protocol_error "bad extras length")
  else Ok {| vbuuid := from_be (take 8 value); seqno := from_be (drop 8 value) |}.

Definition parse_flags (extras : option (list Z)) : outcome Error Z :=
  match extras with
  | Some extras =>
      if negb (blen extras =? 4) then Err (new_protocol_error "bad extras length reading flags")
      else Ok (from_be extras)
  | None => Err (new_protocol_error "no extras in response")
  end.

(** [SetResponse], [DeleteResponse], [AddResponse], [ReplaceResponse],
    [AppendResponse] and [PrependResponse] have the same fields. *)
Record MutationResponse : Type := {
  mr_cas : Z;
  mr_mutation_token : option MutationToken;
  mr_server_duration : option Duration;
}.

(** [GetResponse], [GetAndLockResponse] and [GetAndTouchResponse]. *)
Record GetResponse : Type := {
  gr_cas : Z;
  gr_flags : Z;
  gr_value : list Z;
  gr_datatype : Z;
  gr_server_duration : option Duration;
}.

Record GetMetaResponse : Type := {
  gm_cas : Z;
  gm_flags : Z;
  gm_value : list Z;
  gm_datatype : Z;
  gm_server_duration : option Duration;
  gm_expiry : Z;
  gm_seq_no : Z;
  gm_deleted : bool;
}.

Record UnlockResponse : Type := { ul_server_duration : option Duration }.

Record TouchResponse : Type := { th_cas : Z; th_server_duration : option Duration }.

(** [IncrementResponse] and [DecrementResponse]. *)
Record CounterResponse : Type := {
  cr_cas : Z;
  cr_value : Z;
  cr_mutation_token : option MutationToken;
  cr_server_duration : option Duration;
}.

Section Crud.
Context {P : Profile} (powf : spec_float → spec_float → spec_float).

(** [if let Some(extras) = &packet.extras { Some(MutationToken::try_from(..)?) }]. *)
Definition mutation_token_of (packet : ResponsePacket) : outcome Error (option MutationToken) :=
  match rs_extras packet with
  | Some extras => t ← mutation_token_try_from extras; Ok (Some t)
  | None => Ok None
  end.

(** [if let Some(f) = &packet.framing_extras { decode_res_ext_frames(f)? }]. *)
Definition server_duration_of (packet : ResponsePacket) : outcome Error (option Duration) :=
  match rs_framing_extras packet with
  | Some f => decode_res_ext_frames powf f
  | None => Ok None
  end.

(** The tail of the mutation decoders, after the status has been checked. *)
Definition mutation_response (packet : ResponsePacket) : outcome Error MutationResponse :=
  mutation_token ← mutation_token_of packet;
  server_duration ← server_duration_of packet;
  Ok {| mr_cas := unwrap_or_default (rs_cas packet);
        mr_mutation_token := mutation_token; mr_server_duration := server_duration |}.

Definition set_try_from (resp : ClientResponse) : outcome Error MutationResponse :=
  let packet := ClientResponse.packet resp in
  let status := rs_status packet in
  if bool_decide (status = Status.TooBig) then Err (server_error packet ServerErrorKind.TooBig)
  else if bool_decide (status = Status.Locked) then
    Err (server_error packet ServerErrorKind.Locked)
  else if bool_decide (status = Status.KeyExists) then
    Err (server_error packet ServerErrorKind.CasMismatch)
  else if bool_decide (status = Status.Success) then mutation_response packet
  else Err (OpsCrud.decode_common_mutation_error packet).

Definition delete_try_from (resp : ClientResponse) : outcome Error MutationResponse :=
  let packet := ClientResponse.packet resp in
  let status := rs_status packet in
  if bool_decide (status = Status.KeyNotFound) then
    Err (server_error packet ServerErrorKind.KeyNotFound)
  else if bool_decide (status = Status.Locked) then
    Err (server_error packet ServerErrorKind.Locked)
  else if bool_decide (status = Status.KeyExists) then
    Err (server_error packet ServerErrorKind.CasMismatch)
  else if bool_decide (status = Status.Success) then mutation_response packet
  else Err (OpsCrud.decode_common_mutation_error packet).

Definition add_try_from (resp : ClientResponse) : outcome Error MutationResponse :=
  let packet := ClientResponse.packet resp in
  let status := rs_status packet in
  if bool_decide (status = Status.TooBig) then Err (server_error packet ServerErrorKind.TooBig)
  else if bool_decide (status = Status.Locked) then
    Err (server_error packet ServerErrorKind.Locked)
  else if bool_decide (status = Status.KeyExists) then
    Err (server_error packet ServerErrorKind.KeyExists)
  else if bool_decide (status = Status.Success) then mutation_response packet
  else Err (OpsCrud.decode_common_mutation_error packet).

Definition replace_try_from (resp : ClientResponse) : outcome Error MutationResponse :=
  let packet := ClientResponse.packet resp in
  let status := rs_status packet in
  if bool_decide (status = Status.TooBig) then Err (server_error packet ServerErrorKind.TooBig)
  else if bool_decide (status = Status.KeyNotFound) then
    Err (server_error packet ServerErrorKind.KeyNotFound)
  else if bool_decide (status = Status.Locked) then
    Err (server_error packet ServerErrorKind.Locked)
  else if bool_decide (status = Status.KeyExists) then
    Err (server_error packet ServerErrorKind.CasMismatch)
  else if bool_decide (status = Status.Success) then mutation_response packet
  else Err (OpsCrud.decode_common_mutation_error packet).

Definition append_try_from (resp : ClientResponse) : outcome Error MutationResponse :=
  context ← expect (ClientResponse.response_context resp);
  let cas := ResponseContext.cas context in
  let packet := ClientResponse.packet resp in
  let status := rs_status packet in
  if bool_decide (status = Status.TooBig) then Err (server_error packet ServerErrorKind.TooBig)
  else if bool_decide (status = Status.NotStored) then
    Err (server_error packet ServerErrorKind.NotStored)
  else if bool_decide (status = Status.Locked) then
    Err (server_error packet ServerErrorKind.Locked)
  else if bool_decide (status = Status.KeyExists) && bool_decide (is_Some cas) then
    Err (server_error packet ServerErrorKind.CasMismatch)
  else if bool_decide (status = Status.Success) then mutation_response packet
  else Err (OpsCrud.decode_common_mutation_error packet).

Definition prepend_try_from (resp : ClientResponse) : outcome Error MutationResponse :=
  context ← expect (ClientResponse.response_context resp);
  let cas := ResponseContext.cas context in
  let packet := ClientResponse.packet resp in
  let status := rs_status packet in
  if bool_decide (status = Status.TooBig) then Err (server_error packet ServerErrorKind.TooBig)
  else if bool_decide (status = Status.NotStored) then
    Err (server_error packet ServerErrorKind.NotStored)
  else if bool_decide (status = Status.Locked) then
    Err (server_error packet ServerErrorKind.Locked)
  else if bool_decide (status = Status.KeyExists) && bool_decide (is_Some cas) then
    Err (server_error packet ServerErrorKind.CasMismatch)
  else if bool_decide (status = Status.Success) then mutation_response packet
  else Err (OpsCrud.decode_common_mutation_error packet).

(** The tail of the three decoders that return a document. *)
Definition get_response (packet : ResponsePacket) : outcome Error GetResponse :=
  flags ← parse_flags (rs_extras packet);
  server_duration ← server_duration_of packet;
  Ok {| gr_cas := unwrap_or_default (rs_cas packet); gr_flags := flags;
        gr_value := obytes (rs_value packet); gr_datatype := rs_datatype packet;
        gr_server_duration := server_duration |}.

Definition get_try_from (resp : ClientResponse) : outcome Error GetResponse :=
  let packet := ClientResponse.packet resp in
  let status := rs_status packet in
  if bool_decide (status = Status.KeyNotFound) then
    Err (server_error packet ServerErrorKind.KeyNotFound)
  else if negb (bool_decide (status = Status.Success)) then
    Err (OpsCrud.decode_common_error packet)
  else get_response packet.

Definition get_and_lock_try_from (resp : ClientResponse) : outcome Error GetResponse :=
  let packet := ClientResponse.packet resp in
  let status := rs_status packet in
  if bool_decide (status = Status.KeyNotFound) then
    Err (server_error packet ServerErrorKind.KeyNotFound)
  else if bool_decide (status = Status.Locked) then
    Err (server_error packet ServerErrorKind.Locked)
  else if negb (bool_decide (status = Status.Success)) then
    Err (OpsCrud.decode_common_error packet)
  else get_response packet.

Definition get_and_touch_try_from (resp : ClientResponse) : outcome Error GetResponse :=
  let packet := ClientResponse.packet resp in
  let status := rs_status packet in
  if bool_decide (status = Status.KeyNotFound) then
    Err (server_error packet ServerErrorKind.KeyNotFound)
  else if bool_decide (status = Status.Locked) then
    Err (server_error packet ServerErrorKind.Locked)
  else if negb (bool_decide (status = Status.Success)) then
    Err (OpsCrud.decode_common_error packet)
  else get_response packet.

Definition get_meta_try_from (resp : ClientResponse) : outcome Error GetMetaResponse :=
  let packet := ClientResponse.packet resp in
  let status := rs_status packet in
  if bool_decide (status = Status.KeyNotFound) then
    Err (server_error packet ServerErrorKind.KeyNotFound)
  else if negb (bool_decide (status = Status.Success)) then
    Err (OpsCrud.decode_common_error packet)
  else
    server_duration ← server_duration_of packet;
    let value := obytes (rs_value packet) in
    match rs_extras packet with
    | Some extras =>
        if negb (blen extras =? 21) then Err (new_protocol_error "bad extras length")
        else
          '(deleted, extras) ← read_be 4 extras;
          '(flags, extras) ← read_be 4 extras;
          '(expiry, extras) ← read_be 4 extras;
          '(seq_no, extras) ← read_be 8 extras;
          '(datatype, _) ← read_be 1 extras;
          Ok {| gm_cas := unwrap_or_default (rs_cas packet); gm_flags := flags;
                gm_value := value; gm_datatype := datatype;
                gm_server_duration := server_duration; gm_expiry := expiry;
                gm_seq_no := seq_no; gm_deleted := negb (deleted =? 0) |}
    | None => Err (new_protocol_error "no extras in response")
    end.

Definition unlock_try_from (resp : ClientResponse) : outcome Error UnlockResponse :=
  let packet := ClientResponse.packet resp in
  let status := rs_status packet in
  if bool_decide (status = Status.KeyNotFound) then
    Err (server_error packet ServerErrorKind.KeyNotFound)
  else if bool_decide (status = Status.Locked) then
    Err (server_error packet ServerErrorKind.CasMismatch)
  else if bool_decide (status = Status.NotLocked) then
    Err (server_error packet ServerErrorKind.NotLocked)
  else if negb (bool_decide (status = Status.Success)) then
    Err (OpsCrud.decode_common_error packet)
  else
    server_duration ← server_duration_of packet;
    Ok {| ul_server_duration := server_duration |}.

Definition touch_try_from (resp : ClientResponse) : outcome Error TouchResponse :=
  let packet := ClientResponse.packet resp in
  let status := rs_status packet in
  if bool_decide (status = Status.KeyNotFound) then
    Err (server_error packet ServerErrorKind.KeyNotFound)
  else if bool_decide (status = Status.Locked) then
    Err (server_error packet ServerErrorKind.Locked)
  else if negb (bool_decide (status = Status.Success)) then
    Err (OpsCrud.decode_common_error packet)
  else if negb (olen (rs_extras packet) =? 0) then Err (new_protocol_error "bad extras length")
  else
    server_duration ← server_duration_of packet;
    Ok {| th_cas := unwrap_or_default (rs_cas packet); th_server_duration := server_duration |}.

(** The value and the tail of the two counter decoders. *)
Definition counter_response (packet : ResponsePacket) : outcome Error CounterResponse :=
  value ←
    match rs_value packet with
    | Some val =>
        if negb (blen val =? 8) then
          Err (new_protocol_error "bad counter value length in response")
        else Ok (from_be val)
    | None => Ok 0
    end;
  mutation_token ← mutation_token_of packet;
  server_duration ← server_duration_of packet;
  Ok {| cr_cas := unwrap_or_default (rs_cas packet); cr_value := value;
        cr_mutation_token := mutation_token; cr_server_duration := server_duration |}.

Definition increment_try_from (resp : ClientResponse) : outcome Error CounterResponse :=
  let packet := ClientResponse.packet resp in
  let status := rs_status packet in
  if bool_decide (status = Status.KeyNotFound) then
    Err (server_error packet ServerErrorKind.KeyNotFound)
  else if bool_decide (status = Status.Locked) then
    Err (server_error packet ServerErrorKind.Locked)
  else if bool_decide (status = Status.BadDelta) then
    Err (server_error packet ServerErrorKind.BadDelta)
  else if bool_decide (status = Status.Success) then counter_response packet
  else Err (OpsCrud.decode_common_mutation_error packet).

Definition decrement_try_from (resp : ClientResponse) : outcome Error CounterResponse :=
  let packet := ClientResponse.packet resp in
  let status := rs_status packet in
  if bool_decide (status = Status.KeyNotFound) then
    Err (server_error packet ServerErrorKind.KeyNotFound)
  else if bool_decide (status = Status.Locked) then
    Err (server_error packet ServerErrorKind.Locked)
  else if bool_decide (status = Status.BadDelta) then
    Err (server_error packet ServerErrorKind.BadDelta)
  else if bool_decide (status = Status.Success) then counter_response packet
  else Err (OpsCrud.decode_common_mutation_error packet).

End Crud.

(** ** Sub-document responses *)

Record LookupInResponse : Type := {
  li_cas : Z;
  li_ops : list SubDocResult;
  li_doc_is_deleted : bool;
  li_server_duration : option Duration;
}.

Record MutateInResponse : Type := {
  mi_cas : Z;
  mi_ops : list SubDocResult;
  mi_doc_is_deleted : bool;
  mi_mutation_token : option MutationToken;
  mi_server_duration : option Duration;
}.

Definition subdoc_server_error (packet : ResponsePacket) (kind : SubdocErrorKind)
    (op_index : option Z) : Error :=
  server_error packet (ServerErrorKind.Subdoc (subdoc_error_new kind op_index)).

Definition lookup_err_kind (res_status : Status) : option SubdocErrorKind :=
  match res_status with
  | Status.Success => None
  | Status.SubDocDocTooDeep => Some SubdocErrorKind.DocTooDeep
  | Status.SubDocNotJSON => Some SubdocErrorKind.NotJSON
  | Status.SubDocPathNotFound => Some SubdocErrorKind.PathNotFound
  | Status.SubDocPathMismatch => Some SubdocErrorKind.PathMismatch
  | Status.SubDocPathInvalid => Some SubdocErrorKind.PathInvalid
  | Status.SubDocPathTooBig => Some SubdocErrorKind.PathTooBig
  | Status.SubDocXattrUnknownVAttr => Some SubdocErrorKind.XattrUnknownVAttr
  | _ => Some (SubdocErrorKind.UnknownStatus res_status)
  end.

Definition mutate_err_kind (res_status : Status) : SubdocErrorKind :=
  match res_status with
  | Status.SubDocDocTooDeep => SubdocErrorKind.DocTooDeep
  | Status.SubDocNotJSON => SubdocErrorKind.NotJSON
  | Status.SubDocPathNotFound => SubdocErrorKind.PathNotFound
  | Status.SubDocPathMismatch => SubdocErrorKind.PathMismatch
  | Status.SubDocPathInvalid => SubdocErrorKind.PathInvalid
  | Status.SubDocPathTooBig => SubdocErrorKind.PathTooBig
  | Status.SubDocPathExists => SubdocErrorKind.PathExists
  | Status.SubDocCantInsert => SubdocErrorKind.CantInsert
  | Status.SubDocBadRange => SubdocErrorKind.BadRange
  | Status.SubDocBadDelta => SubdocErrorKind.BadDelta
  | Status.SubDocValueTooDeep => SubdocErrorKind.ValueTooDeep
  | _ => SubdocErrorKind.UnknownStatus res_status
  end.

Definition bad_value_length : Error := new_protocol_error "bad value length".

Section Subdoc.
Context {P : Profile} (powf : spec_float → spec_float → spec_float).

(** The [while] loop of [LookupInResponse::try_from] on the cursor, the results
    and the [u8] op index.  An iteration consumes at least six bytes, so the
    value's length is enough fuel; running out of it is made a panic. *)
Fixpoint lookup_results (fuel : nat) (packet : ResponsePacket) (cursor : list Z)
    (results : list SubDocResult) (op_index : Z) : outcome Error (list SubDocResult) :=
  match cursor, fuel with
  | [], _ => Ok results
  | _, O => Panic
  | _, S fuel =>
      if blen cursor <? 6 then Err bad_value_length
      else
        '(res_status, cursor) ← read_be 2 cursor;
        let res_status := status_from_u16 res_status in
        '(res_value_len, cursor) ← read_be 4 cursor;
        if blen cursor <? res_value_len then Err bad_value_length
        else
          '(value, cursor) ←
            (if 0 <? res_value_len
             then '(tmp_val, cursor) ← read_exact res_value_len cursor;
                  Ok (Some tmp_val, cursor)
             else Ok (None, cursor));
          let err :=
            (λ kind, subdoc_server_error packet kind (Some op_index))
            <$> lookup_err_kind res_status in
          let results := results ++ [SubDocResult.mk err value] in
          op_index ← add_w 8 op_index 1;
          lookup_results fuel packet cursor results op_index
  end.

Definition lookup_in_try_from (resp : ClientResponse) : outcome Error LookupInResponse :=
  context ← expect (ClientResponse.response_context resp);
  subdoc_info ← expect (ResponseContext.subdoc_info context);
  let packet := ClientResponse.packet resp in
  let cas := rs_cas packet in
  let status := rs_status packet in
  if bool_decide (status = Status.KeyNotFound) then
    Err (server_error packet ServerErrorKind.KeyNotFound)
  else if bool_decide (status = Status.Locked) then
    Err (server_error packet ServerErrorKind.Locked)
  else if bool_decide (status = Status.SubDocInvalidCombo) then
    Err (subdoc_server_error packet SubdocErrorKind.InvalidCombo None)
  else if bool_decide (status = Status.SubDocInvalidXattrOrder) then
    Err (subdoc_server_error packet SubdocErrorKind.InvalidXattrOrder None)
  else if bool_decide (status = Status.SubDocXattrInvalidKeyCombo) then
    Err (subdoc_server_error packet SubdocErrorKind.XattrInvalidKeyCombo None)
  else if bool_decide (status = Status.SubDocXattrInvalidFlagCombo) then
    Err (subdoc_server_error packet SubdocErrorKind.XattrInvalidFlagCombo None)
  else
    doc_is_deleted ←
      (if bool_decide (status = Status.SubDocSuccessDeleted)
          || bool_decide (status = Status.SubDocMultiPathFailureDeleted)
       then Ok true
       else if negb (bool_decide (status = Status.Success))
               && negb (bool_decide (status = Status.SubDocMultiPathFailure))
       then Err (OpsCrud.decode_common_error packet)
       else Ok false);
    value ← ok_or (rs_value packet) (new_protocol_error "missing value");
    results ← lookup_results (length value) packet value [] 0;
    server_duration ← server_duration_of powf packet;
    Ok {| li_cas := unwrap_or_default cas; li_ops := results;
          li_doc_is_deleted := doc_is_deleted; li_server_duration := server_duration |}.

(** The status of a failed multi-mutation as an error kind, or [None]. *)
Definition mutate_in_kind (subdoc_info : SubdocRequestInfo) (packet : ResponsePacket)
    : outcome Error (option ServerErrorKind) :=
  let cas := rs_cas packet in
  let status := rs_status packet in
  let subdoc kind := Ok (Some (ServerErrorKind.Subdoc (subdoc_error_new kind None))) in
  if bool_decide (status = Status.KeyNotFound) then Ok (Some ServerErrorKind.KeyNotFound)
  else if bool_decide (status = Status.KeyExists) && bool_decide (is_Some cas) then
    Ok (Some ServerErrorKind.CasMismatch)
  else if bool_decide (status = Status.KeyExists) then Ok (Some ServerErrorKind.KeyExists)
  else if bool_decide (status = Status.Locked) then Ok (Some ServerErrorKind.Locked)
  else if bool_decide (status = Status.TooBig) then Ok (Some ServerErrorKind.TooBig)
  else if bool_decide (status = Status.SubDocInvalidCombo) then
    subdoc SubdocErrorKind.InvalidCombo
  else if bool_decide (status = Status.SubDocInvalidXattrOrder) then
    subdoc SubdocErrorKind.InvalidXattrOrder
  else if bool_decide (status = Status.SubDocXattrInvalidKeyCombo) then
    subdoc SubdocErrorKind.XattrInvalidKeyCombo
  else if bool_decide (status = Status.SubDocXattrInvalidFlagCombo) then
    subdoc SubdocErrorKind.XattrInvalidFlagCombo
  else if bool_decide (status = Status.SubDocXattrUnknownMacro) then
    subdoc SubdocErrorKind.XattrUnknownMacro
  else if bool_decide (status = Status.SubDocXattrUnknownVattrMacro) then
    subdoc SubdocErrorKind.XattrUnknownVattrMacro
  else if bool_decide (status = Status.SubDocXattrCannotModifyVAttr) then
    subdoc SubdocErrorKind.XattrCannotModifyVAttr
  else if bool_decide (status = Status.SubDocCanOnlyReviveDeletedDocuments) then
    subdoc SubdocErrorKind.CanOnlyReviveDeletedDocuments
  else if bool_decide (status = Status.SubDocDeletedDocumentCantHaveValue) then
    subdoc SubdocErrorKind.DeletedDocumentCantHaveValue
  else if bool_decide (status = Status.NotStored) then
    if flags_contains (SubdocRequestInfo.flags subdoc_info) AddDoc
    then Ok (Some ServerErrorKind.KeyExists) else Ok (Some ServerErrorKind.NotStored)
  else if bool_decide (status = Status.SubDocMultiPathFailure) then
    match rs_value packet with
    | Some value =>
        if negb (blen value =? 3) then Err bad_value_length
        else
          '(op_index, cursor) ← read_be 1 value;
          '(res_status, _) ← read_be 2 cursor;
          Ok (Some (ServerErrorKind.Subdoc
                (subdoc_error_new (mutate_err_kind (status_from_u16 res_status))
                   (Some op_index))))
    | None => Err bad_value_length
    end
  else Ok None.

Definition empty_result : SubDocResult := SubDocResult.mk None None.

(** The [while] loop of [MutateInResponse::try_from]; each iteration consumes at
    least seven bytes or returns. *)
Fixpoint mutate_results (fuel : nat) (cursor : list Z) (results : list SubDocResult)
    : outcome Error (list SubDocResult) :=
  match cursor, fuel with
  | [], _ => Ok results
  | _, O => Panic
  | _, S fuel =>
      if blen cursor <? 3 then Err bad_value_length
      else
        '(op_index, cursor) ← read_be 1 cursor;
        let len := cast_u 8 (blen results) in
        let results :=
          if len <? op_index
          then results ++ replicate (Z.to_nat (op_index - len)) empty_result
          else results in
        '(op_status, cursor) ← read_be 2 cursor;
        if bool_decide (status_from_u16 op_status = Status.Success) then
          '(val_length, cursor) ← read_be 4 cursor;
          '(value, cursor) ← read_exact val_length cursor;
          mutate_results fuel cursor (results ++ [SubDocResult.mk None (Some value)])
        else Err (new_protocol_error "subdoc mutatein op illegally provided an error")
  end.

(** [for _ in results.len()..op_count { results.push(empty) }]. *)
Definition pad_results (op_count : Z) (results : list SubDocResult) : list SubDocResult :=
  if blen results <? op_count
  then results ++ replicate (Z.to_nat (op_count - blen results)) empty_result
  else results.

Definition mutate_in_try_from (resp : ClientResponse) : outcome Error MutateInResponse :=
  context ← expect (ClientResponse.response_context resp);
  subdoc_info ← expect (ResponseContext.subdoc_info context);
  let packet := ClientResponse.packet resp in
  let cas := rs_cas packet in
  let status := rs_status packet in
  kind ← mutate_in_kind subdoc_info packet;
  match kind with
  | Some kind => Err (server_error packet kind)
  | None =>
      doc_is_deleted ←
        (if bool_decide (status = Status.SubDocSuccessDeleted) then Ok true
         else if negb (bool_decide (status = Status.Success))
                 && negb (bool_decide (status = Status.SubDocMultiPathFailure))
         then Err (OpsCrud.decode_common_mutation_error packet)
         else Ok false);
      results ←
        match rs_value packet with
        | Some value => mutate_results (length value) value []
        | None => Ok []
        end;
      let results := pad_results (SubdocRequestInfo.op_count subdoc_info) results in
      mutation_token ←
        match rs_extras packet with
        | Some extras => t ← mutation_token_try_from extras; Ok (Some t)
        | None => Ok None
        end;
      server_duration ← server_duration_of powf packet;
      Ok {| mi_cas := unwrap_or_default cas; mi_ops := results;
            mi_mutation_token := mutation_token; mi_doc_is_deleted := doc_is_deleted;
            mi_server_duration := server_duration |}
  end.

End Subdoc.

(** ** All responses

    The decoders as one family, to state what they have in common. *)
Module ResponseType.
Inductive ResponseType : Type :=
| Hello | GetErrorMap | SelectBucket | SASLAuth | SASLStep | SASLListMechs
| GetClusterConfig | Ping | GetCollectionId | Set_ | Get | GetMeta | Delete | GetAndLock
| GetAndTouch | Unlock | Touch | Add | Replace | Append | Prepend | Increment | Decrement
| LookupIn | MutateIn.
End ResponseType.
Abbreviation ResponseType := ResponseType.ResponseType.

Definition ignore {A} (m : outcome Error A) : outcome Error unit :=
  match m with Ok _ => Ok tt | Err e => Err e | Panic => Panic end.

Definition decode_response {P : Profile} (powf : spec_float → spec_float → spec_float)
    (t : ResponseType) (resp : ClientResponse) : outcome Error unit :=
  match t with
  | ResponseType.Hello => ignore (hello_try_from resp)
  | ResponseType.GetErrorMap => ignore (get_error_map_try_from resp)
  | ResponseType.SelectBucket => select_bucket_try_from resp
  | ResponseType.SASLAuth => ignore (sasl_auth_try_from resp)
  | ResponseType.SASLStep => ignore (sasl_step_try_from resp)
  | ResponseType.SASLListMechs => ignore (sasl_list_mechs_try_from resp)
  | ResponseType.GetClusterConfig => ignore (get_cluster_config_try_from resp)
  | ResponseType.Ping => ping_try_from resp
  | ResponseType.GetCollectionId => ignore (get_collection_id_try_from resp)
  | ResponseType.Set_ => ignore (set_try_from powf resp)
  | ResponseType.Get => ignore (get_try_from powf resp)
  | ResponseType.GetMeta => ignore (get_meta_try_from powf resp)
  | ResponseType.Delete => ignore (delete_try_from powf resp)
  | ResponseType.GetAndLock => ignore (get_and_lock_try_from powf resp)
  | ResponseType.GetAndTouch => ignore (get_and_touch_try_from powf resp)
  | ResponseType.Unlock => ignore (unlock_try_from powf resp)
  | ResponseType.Touch => ignore (touch_try_from powf resp)
  | ResponseType.Add => ignore (add_try_from powf resp)
  | ResponseType.Replace => ignore (replace_try_from powf resp)
  | ResponseType.Append => ignore (append_try_from powf resp)
  | ResponseType.Prepend => ignore (prepend_try_from powf resp)
  | ResponseType.Increment => ignore (increment_try_from powf resp)
  | ResponseType.Decrement => ignore (decrement_try_from powf resp)
  | ResponseType.LookupIn => ignore (lookup_in_try_from powf resp)
  | ResponseType.MutateIn => ignore (mutate_in_try_from powf resp)
  end.

(** The statuses each decoder may report as success. *)
Definition success_status (t : ResponseType) (s : Status) : bool :=
  match t, s with
  | _, Status.Success => true
  | ResponseType.SASLAuth, Status.AuthContinue => true
  | ResponseType.LookupIn,
    (Status.SubDocMultiPathFailure | Status.SubDocSuccessDeleted
     | Status.SubDocMultiPathFailureDeleted) => true
  | ResponseType.MutateIn, Status.SubDocSuccessDeleted => true
  | _, _ => false
  end.

(** The response context each decoder [expect]s. *)
Definition has_context (t : ResponseType) (resp : ClientResponse) : bool :=
  match t, ClientResponse.response_context resp with
  | (ResponseType.Append | ResponseType.Prepend), None => false
  | (ResponseType.LookupIn | ResponseType.MutateIn), c =>
      bool_decide (is_Some (c ≫= ResponseContext.subdoc_info))
  | ResponseType.GetCollectionId, c =>
      bool_decide (is_Some (c ≫= ResponseContext.scope_name))
      && bool_decide (is_Some (c ≫= ResponseContext.collection_name))
  | _, _ => true
  end.

(** Unfolds one decoder, and splits the status test at the head of it. *)
Ltac unfold_decoder :=
  unfold decode_response, hello_try_from, get_error_map_try_from, select_bucket_try_from,
    sasl_auth_try_from, sasl_step_try_from, sasl_list_mechs_try_from,
    get_cluster_config_try_from, ping_try_from, get_collection_id_try_from, set_try_from,
    get_try_from, get_meta_try_from, delete_try_from, get_and_lock_try_from,
    get_and_touch_try_from, unlock_try_from, touch_try_from, add_try_from, replace_try_from,
    append_try_from, prepend_try_from, increment_try_from, decrement_try_from,
    lookup_in_try_from, mutate_in_try_from;
  cbv zeta.

(** Splits the response context of a decoder that needs one. *)
Ltac open_context ctx Hc :=
  try match goal with |- context [expect ctx] =>
    destruct ctx as [[? [?|] [?|] [?|]]|]; try discriminate Hc
  end.

Ltac status_test :=
  match goal with
  | |- context [if ?c then _ else _] =>
      match c with context [bool_decide (rs_status ?p = ?s)] =>
        let H := fresh "Hs" in
        destruct (bool_decide_reflect (rs_status p = s)) as [H|H]; [rewrite ?H|]
      end
  end.

Lemma ignore_bind {A B} (m : outcome Error A) (k : A → outcome Error B) :
  ignore (m ≫= k) = m ≫= (λ a, ignore (k a)).
Proof. by destruct m. Qed.

(** Evaluates the tests of a known status. *)
Ltac decide_statuses :=
  repeat match goal with
  | |- context [bool_decide (?a = ?b :> Status)] =>
      first [rewrite (bool_decide_false (a = b)) by done
            |rewrite (bool_decide_true (a = b)) by done]
  end.

(** A partial failure is always reported through the error kind. *)
Lemma mutate_in_kind_partial info packet :
  rs_status packet = Status.SubDocMultiPathFailure → mutate_in_kind info packet ≠ Ok None.
Proof.
  intros Hs. unfold mutate_in_kind. rewrite Hs. cbv zeta. decide_statuses. cbn [andb].
  destruct (rs_value packet) as [v|]; [|done].
  case_test; [done|]. destruct (read_be 1 v) as [[? ?]| |]; simpl; [|done..].
  by destruct (read_be 2 _) as [[? ?]| |].
Qed.

Lemma common_errors_nmvb packet :
  rs_status packet = Status.NotMyVbucket →
  OpsCrud.decode_common_error packet = OpsCore.decode_error packet
  ∧ OpsCrud.decode_common_mutation_error packet = OpsCore.decode_error packet.
Proof.
  intros Hs. unfold OpsCrud.decode_common_error, OpsCrud.decode_common_mutation_error,
    OpsCrud.decode_common_mutation_status, OpsCrud.decode_common_status. by rewrite Hs.
Qed.

Lemma mutate_in_kind_nmvb info packet :
  rs_status packet = Status.NotMyVbucket → mutate_in_kind info packet = Ok None.
Proof. intros Hs. unfold mutate_in_kind. rewrite Hs. cbv zeta. by decide_statuses. Qed.

Lemma decode_error_nmvb packet :
  rs_status packet = Status.NotMyVbucket →
  is_server_error_kind (OpsCore.decode_error packet) ServerErrorKind.NotMyVbucket = true
  ∧ has_server_config (OpsCore.decode_error packet) = rs_value packet.
Proof.
  intros Hs. unfold OpsCore.decode_error, OpsCore.decode_error_context. rewrite Hs.
  decide_statuses. by destruct (rs_value packet).
Qed.

(** *** Absence of panics *)

Lemma read_be_no_panic n l : read_be n l ≠ Panic.
Proof. unfold read_be. by case_test. Qed.

Lemma read_be_length n l v l' : read_be n l = Ok (v, l') → (length l = n + length l')%nat.
Proof.
  unfold read_be. intros H. case_test; [|done]. simplify_eq. rewrite length_drop.
  match goal with H : (_ <=? _)%nat = true |- _ => apply Nat.leb_le in H end. lia.
Qed.

Lemma read_exact_no_panic n l : read_exact n l ≠ Panic.
Proof. unfold read_exact. by case_test. Qed.

Lemma read_exact_length n l v l' : read_exact n l = Ok (v, l') → (length l' ≤ length l)%nat.
Proof. unfold read_exact. intros H. case_test; [|done]. simplify_eq. rewrite length_drop. lia. Qed.

Section NoPanic.
Context {P : Profile} (powf : spec_float → spec_float → spec_float).
Context (Hprofile : overflow_checks = false).

Lemma add_w_no_panic {E} w a b : add_w (E:=E) w a b ≠ Panic.
Proof. unfold add_w. rewrite Hprofile. by case_test. Qed.

Lemma lookup_results_no_panic fuel packet cursor results op_index :
  (length cursor ≤ fuel)%nat → lookup_results fuel packet cursor results op_index ≠ Panic.
Proof.
  revert cursor results op_index. induction fuel as [|fuel IH];
    intros [|c cursor] results op_index Hf; try done; [simpl in Hf; lia|].
  cbn [lookup_results]. set (l := c :: cursor) in *. case_test; [done|].
  apply no_panic_bind; [apply read_be_no_panic|]. intros [st l1] H1%read_be_length.
  apply no_panic_bind; [apply read_be_no_panic|]. intros [n l2] H2%read_be_length.
  destruct (blen l2 <? n); [done|]. apply no_panic_bind.
  - case_test; [|done]. apply no_panic_bind; [apply read_exact_no_panic|]. by intros [].
  - intros [v l3] H3. apply no_panic_bind; [apply add_w_no_panic|]. intros i _. apply IH.
    assert (length l3 ≤ length l2)%nat; [|lia]. case_test; [|naive_solver].
    destruct (read_exact n l2) as [[x y]| |] eqn:Hx; simplify_eq/=.
    by apply read_exact_length in Hx.
Qed.

Lemma mutate_results_no_panic fuel cursor results :
  (length cursor ≤ fuel)%nat → mutate_results fuel cursor results ≠ Panic.
Proof.
  revert cursor results. induction fuel as [|fuel IH];
    intros [|c cursor] results Hf; try done; [simpl in Hf; lia|].
  cbn [mutate_results]. set (l := c :: cursor) in *. case_test; [done|].
  apply no_panic_bind; [apply read_be_no_panic|]. intros [i l1] H1%read_be_length.
  apply no_panic_bind; [apply read_be_no_panic|]. intros [st l2] H2%read_be_length.
  case_bool_decide; [|done].
  apply no_panic_bind; [apply read_be_no_panic|]. intros [n l3] H3%read_be_length.
  apply no_panic_bind; [apply read_exact_no_panic|]. intros [v l4] H4%read_exact_length.
  apply IH. lia.
Qed.

Lemma server_duration_no_panic packet :
  bytes_ok (obytes (rs_framing_extras packet)) → server_duration_of powf packet ≠ Panic.
Proof.
  intros Hb. unfold server_duration_of, decode_res_ext_frames.
  destruct (rs_framing_extras packet) as [f|]; [|done]. simpl in Hb.
  apply no_panic_bind.
  - unfold iter_ext_frames. case_test; [|done].
    pose proof (decode_ext_frame_cases f Hb) as H.
    destruct (decode_ext_frame f) as [[[c b] n]|e|]; [|done|destruct H; congruence].
    simpl. destruct H as (Hn & Hle & _). pose proof (blen_nonneg b). unfold slice.
    test_true (0 <=? n). test_true (n <=? blen f). test_true (blen f <=? blen f). done.
  - intros [[d|] rest] Hit; [|done]. apply no_panic_bind; [|done].
    unfold iter_ext_frames in Hit. case_test; [|done].
    destruct (decode_ext_frame f) as [[[c b] n]|e|]; simpl in Hit; [|done..].
    destruct (slice n (blen f) f); simpl in Hit; [|done..]. simplify_eq.
    case_bool_decide; [|done]. simplify_eq. unfold decode_server_duration_ext_frame.
    by repeat case_match.
Qed.

Lemma mutation_token_no_panic packet : mutation_token_of packet ≠ Panic.
Proof.
  unfold mutation_token_of, mutation_token_try_from. destruct (rs_extras packet); [|done].
  by destruct (negb _).
Qed.

Lemma ignore_no_panic {A} (m : outcome Error A) : m ≠ Panic → ignore m ≠ Panic.
Proof. by destruct m. Qed.

Lemma parse_mechs_no_panic items : parse_mechs items ≠ Panic.
Proof.
  induction items as [|i items IH]; [done|]. simpl. apply no_panic_bind.
  - unfold auth_mechanism_try_from. by repeat case_bool_decide.
  - intros m _. apply no_panic_bind; [done|]. done.
Qed.

Lemma mutate_in_kind_no_panic info packet : mutate_in_kind info packet ≠ Panic.
Proof.
  unfold mutate_in_kind. cbv zeta. repeat (case_match; try done).
  all: apply no_panic_bind; [apply read_be_no_panic|]; intros [i c] _;
    apply no_panic_bind; [apply read_be_no_panic|]; by intros [? ?].
Qed.

(** Follows a decoder through its binds and tests to calls known not to panic. *)
Ltac no_panic :=
  repeat first
    [ done
    | apply read_be_no_panic | apply mutation_token_no_panic | apply parse_mechs_no_panic
    | apply mutate_in_kind_no_panic
    | apply server_duration_no_panic; done
    | apply lookup_results_no_panic; done | apply mutate_results_no_panic; done
    | apply ignore_no_panic
    | apply no_panic_bind; [|intros ? _]
    | progress cbv beta zeta
    | case_match ].

Lemma decode_response_no_panic t resp :
  has_context t resp = true →
  bytes_ok (obytes (rs_framing_extras (ClientResponse.packet resp))) →
  decode_response powf t resp ≠ Panic.
Proof.
  destruct resp as [packet ctx]. simpl ClientResponse.packet. intros Hc Hb.
  destruct t; unfold_decoder; simpl ClientResponse.packet in *;
    unfold has_context in Hc; simpl ClientResponse.response_context in *;
    open_context ctx Hc;
    cbn [expect ResponseContext.subdoc_info ResponseContext.scope_name
         ResponseContext.collection_name]; rewrite ?bind_ok; cbv beta;
    clear Hc;
    unfold get_response, mutation_response, counter_response, parse_flags,
      mutation_token_try_from, ok_or; no_panic.
Qed.

End NoPanic.

Section Family.
Context {P : Profile} (powf : spec_float → spec_float → spec_float).

(** An operation is reported as successful only when the server said so: every
    response decoder that returns a value did so on a success status (for SASL
    also "continue", for sub-document operations also the deleted-document and
    partial-failure statuses the source lists). *)
Lemma success_only_on_success_status t resp :
  decode_response powf t resp = Ok tt →
  success_status t (rs_status (ClientResponse.packet resp)) = true.
Proof.
  destruct resp as [packet ctx]. destruct t; unfold_decoder; simpl ClientResponse.packet;
    simpl ClientResponse.response_context; rewrite ?ignore_bind.
  all: repeat match goal with
    | |- (expect ?o ≫= _) = _ → _ =>
        destruct o; cbn [expect]; [rewrite bind_ok; cbv beta; rewrite ?ignore_bind | done]
    end.
  all: repeat (status_test; cbn [negb andb orb ignore]; [done || idtac|]); try done.
  - by destruct (bool_decide (is_Some _)).
  - by destruct (bool_decide (is_Some _)).
  - pose proof (mutate_in_kind_partial s packet ltac:(done)).
    by destruct (mutate_in_kind s packet) as [[|]| |].
  - by destruct (mutate_in_kind s packet) as [[|]| |].
Qed.

(** In a build without overflow checks no response can make a decoder panic,
    whatever bytes the server sent, as long as the response context is the one
    the operation attached to its request. *)
Lemma responses_do_not_panic t resp :
  overflow_checks = false → has_context t resp = true →
  bytes_ok (obytes (rs_framing_extras (ClientResponse.packet resp))) →
  decode_response powf t resp ≠ Panic.
Proof. intros. by apply decode_response_no_panic. Qed.

(** Whatever the operation, a not-my-vbucket response is reported as the
    not-my-vbucket error and brings along the cluster config of its body: the
    routing layer can always update its vbucket map from the error. *)
Lemma decode_response_nmvb t resp :
  has_context t resp = true →
  rs_status (ClientResponse.packet resp) = Status.NotMyVbucket →
  ∃ e, decode_response powf t resp = Err e
    ∧ is_server_error_kind e ServerErrorKind.NotMyVbucket = true
    ∧ has_server_config e = rs_value (ClientResponse.packet resp).
Proof.
  destruct resp as [packet ctx]. simpl ClientResponse.packet. intros Hc Hs.
  exists (OpsCore.decode_error packet). split; [|by apply decode_error_nmvb].
  destruct (common_errors_nmvb packet Hs) as [Hce Hcm].
  destruct t; unfold_decoder; simpl ClientResponse.packet in *;
    unfold has_context in Hc; simpl ClientResponse.response_context in *;
    open_context ctx Hc;
    cbn [expect ResponseContext.subdoc_info ResponseContext.scope_name
         ResponseContext.collection_name]; rewrite ?bind_ok, ?Hs; cbv beta;
    decide_statuses; rewrite ?Hce, ?Hcm; try reflexivity;
    simpl; by rewrite mutate_in_kind_nmvb.
Qed.

End Family.

(** ** Sub-document results *)

(** What a server sends for a multi-lookup: per operation a status, a length and
    the value. *)
Definition lookup_result_bytes (r : Z * list Z) : list Z :=
  be_bytes 2 (fst r) ++ be_bytes 4 (blen (snd r)) ++ snd r.

Definition lookup_wire (rs : list (Z * list Z)) : list Z := concat (lookup_result_bytes <$> rs).

(** The result the caller should see for operation [i]. *)
Definition lookup_result (packet : ResponsePacket) (i : nat) (r : Z * list Z) : SubDocResult :=
  SubDocResult.mk
    ((λ kind, subdoc_server_error packet kind (Some (Z.of_nat i)))
     <$> lookup_err_kind (status_from_u16 (fst r)))
    (non_empty (snd r)).

Lemma read_be_app n x rest :
  0 <= x < 256 ^ Z.of_nat n → read_be n (be_bytes n x ++ rest) = Ok (x, rest).
Proof.
  intros Hx. unfold read_be. rewrite length_app, length_be_bytes.
  replace (n <=? n + length rest)%nat with true by (symmetry; apply Nat.leb_le; lia).
  rewrite take_app_le, take_ge, drop_app_le, drop_ge, from_be_bytes_id
    by (rewrite ?length_be_bytes; lia || done). done.
Qed.

Lemma read_exact_app l rest : read_exact (blen l) (l ++ rest) = Ok (l, rest).
Proof.
  unfold read_exact. rewrite blen_app. pose proof (blen_nonneg rest).
  test_true (blen l <=? blen l + blen rest). by rewrite take_app_blen, drop_app_blen.
Qed.

Section SubdocRoundtrip.
Context {P : Profile}.

Lemma lookup_results_wire packet rs fuel acc i :
  Forall (λ r, fits 16 (fst r) ∧ blen (snd r) < 2 ^ 32) rs →
  (length rs ≤ fuel)%nat → Z.of_nat i + blen rs < 256 →
  lookup_results fuel packet (lookup_wire rs) acc (Z.of_nat i)
  = Ok (acc ++ imap (λ j, lookup_result packet (i + j)%nat) rs).
Proof.
  intros H. revert fuel acc i. induction H as [|[st v] rs [Hst Hv] H IH]; intros fuel acc i Hf Hi.
  - unfold lookup_wire. simpl. rewrite app_nil_r. by destruct fuel.
  - destruct fuel as [|fuel]; [simpl in Hf; lia|]. simpl fst in *. simpl snd in *.
    change (lookup_wire ((st, v) :: rs))
      with (lookup_result_bytes (st, v) ++ lookup_wire rs).
    unfold lookup_result_bytes. simpl fst. simpl snd. rewrite <-!app_assoc.
    set (l := be_bytes 2 st ++ _).
    assert (∃ b t, l = b :: t) as (b & t & Hl) by (by do 2 eexists).
    assert (lookup_results (S fuel) packet l acc (Z.of_nat i)
            = lookup_results (S fuel) packet (b :: t) acc (Z.of_nat i)) as -> by (by rewrite Hl).
    cbn [lookup_results]. rewrite <-Hl. unfold l. clear l b t Hl.
    pose proof (blen_nonneg v). pose proof (blen_nonneg (lookup_wire rs)).
    case_test; [exfalso; prop_tests; byte_simp; lia|].
    rewrite read_be_app, bind_ok by done. rewrite read_be_app, bind_ok by (simpl; lia).
    rewrite blen_app. test_false (blen v + blen (lookup_wire rs) <? blen v).
    rewrite blen_cons in Hi. pose proof (blen_nonneg rs). unfold add_w.
    assert (∀ k : option (list Z) * list Z → outcome Error (list SubDocResult),
      ((if 0 <? blen v then '(tmp, c) ← read_exact (blen v) (v ++ lookup_wire rs); Ok (Some tmp, c)
        else Ok (None, v ++ lookup_wire rs)) ≫= k) = k (non_empty v, lookup_wire rs)) as ->.
    { intros k. destruct v as [|b v]; [done|]. rewrite read_exact_app. pose proof (blen_nonneg v).
      rewrite blen_cons. by test_true (0 <? 1 + blen v). }
    test_true (Z.of_nat i + 1 <? 2 ^ 8). rewrite bind_ok.
    replace (Z.of_nat i + 1) with (Z.of_nat (S i)) by lia.
    rewrite IH by (simpl in Hf; lia). rewrite <-app_assoc. simpl. do 3 f_equal.
    + unfold lookup_result. simpl. by rewrite Nat.add_0_r.
    + apply imap_ext. intros j r _. simpl. f_equal. lia.
Qed.

(** The results of a multi-lookup come back as the server sent them: one result
    per operation, in order, with its value (absent when empty) and, for a
    failed path, the sub-document error with the index of its operation.  It
    holds for up to 255 operations, the range of the one-byte index. *)
Lemma lookup_in_results_roundtrip packet rs :
  Forall (λ r, fits 16 (fst r) ∧ blen (snd r) < 2 ^ 32) rs → blen rs <= 255 →
  lookup_results (length (lookup_wire rs)) packet (lookup_wire rs) [] 0
  = Ok (imap (lookup_result packet) rs).
Proof.
  intros H Hl. apply (lookup_results_wire packet rs _ [] 0%nat); [done| |simpl; lia].
  clear H Hl. induction rs as [|[st v] rs IH]; [simpl; lia|].
  change (lookup_wire ((st, v) :: rs)) with (lookup_result_bytes (st, v) ++ lookup_wire rs).
  unfold lookup_result_bytes. rewrite !length_app, !length_be_bytes. simpl. lia.
Qed.

End SubdocRoundtrip.

(** What a server sends for a multi-mutation: only the operations that have a
    value, each with its index. *)
Definition mutate_result_bytes (r : nat * list Z) : list Z :=
  be_bytes 1 (Z.of_nat (fst r)) ++ be_bytes 2 0 ++ be_bytes 4 (blen (snd r)) ++ snd r.

Definition mutate_wire (rs : list (nat * list Z)) : list Z := concat (mutate_result_bytes <$> rs).

(** The results after position [n], once the gaps before each index are filled. *)
Fixpoint filled_results (n : nat) (rs : list (nat * list Z)) : list SubDocResult :=
  match rs with
  | [] => []
  | (i, v) :: rs =>
      replicate (i - n) empty_result ++ SubDocResult.mk None (Some v) :: filled_results (S i) rs
  end.

(** Indices in increasing order from [n], below [m]. *)
Fixpoint indices_ok (n m : nat) (rs : list (nat * list Z)) : bool :=
  match rs with
  | [] => true
  | (i, v) :: rs =>
      (n <=? i)%nat && (i <? m)%nat && (blen v <? 2 ^ 32) && indices_ok (S i) m rs
  end.

Lemma mutate_results_wire rs fuel acc m :
  indices_ok (length acc) m rs = true → (m ≤ 255)%nat → (length rs ≤ fuel)%nat →
  mutate_results fuel (mutate_wire rs) acc = Ok (acc ++ filled_results (length acc) rs).
Proof.
  intros H Hm. revert fuel acc H. induction rs as [|[i v] rs IH]; intros fuel acc H Hf.
  - simpl. rewrite app_nil_r. by destruct fuel.
  - destruct fuel as [|fuel]; [simpl in Hf; lia|]. cbn [indices_ok] in H.
    apply andb_true_iff in H as [H Hrs]. prop_tests.
    match goal with H : (_ <=? _)%nat = true |- _ => apply Nat.leb_le in H end.
    match goal with H : (_ <? _)%nat = true |- _ => apply Nat.ltb_lt in H end.
    change (mutate_wire ((i, v) :: rs)) with (mutate_result_bytes (i, v) ++ mutate_wire rs).
    unfold mutate_result_bytes. simpl fst. simpl snd. rewrite <-!app_assoc.
    set (l := be_bytes 1 _ ++ _).
    assert (∃ b t, l = b :: t) as (b & t & Hl) by (by do 2 eexists).
    assert (mutate_results (S fuel) l acc = mutate_results (S fuel) (b :: t) acc) as ->
      by (by rewrite Hl).
    cbn [mutate_results]. rewrite <-Hl. unfold l. clear l b t Hl.
    pose proof (blen_nonneg v). pose proof (blen_nonneg (mutate_wire rs)).
    case_test; [exfalso; prop_tests; byte_simp; lia|].
    rewrite read_be_app, bind_ok by (simpl; lia). cbv zeta.
    rewrite read_be_app, bind_ok by (simpl; lia).
    rewrite bool_decide_true by done. rewrite read_be_app, bind_ok by (simpl; lia).
    rewrite read_exact_app, bind_ok. unfold cast_u, blen at 1 2.
    rewrite (Z.mod_small (Z.of_nat (length acc))) by lia.
    assert ((if Z.of_nat (length acc) <? Z.of_nat i
             then acc ++ replicate (Z.to_nat (Z.of_nat i - Z.of_nat (length acc))) empty_result
             else acc) = acc ++ replicate (i - length acc) empty_result) as ->.
    { case_test; prop_tests; [do 2 f_equal; lia|].
      replace (i - length acc)%nat with 0%nat by lia. by rewrite app_nil_r. }
    rewrite IH.
    + rewrite <-!app_assoc. simpl. rewrite !length_app, length_replicate. simpl.
      do 5 f_equal. lia.
    + rewrite !length_app, length_replicate. simpl.
      by replace (length acc + (i - length acc) + 1)%nat with (S i) by lia.
    + simpl in Hf. lia.
Qed.

Lemma indices_ok_cons i v rs n m :
  indices_ok n m ((i, v) :: rs) = true →
  (n ≤ i < m)%nat ∧ blen v < 2 ^ 32 ∧ indices_ok (S i) m rs = true.
Proof.
  cbn [indices_ok]. rewrite !andb_true_iff, Nat.leb_le, Nat.ltb_lt, Z.ltb_lt. tauto.
Qed.

Abbreviation result_map rs := (list_to_map rs : gmap nat (list Z)).

Lemma result_map_below rs n m j :
  indices_ok n m rs = true → (j < n)%nat → result_map rs !! j = None.
Proof.
  revert n. induction rs as [|[i v] rs IH]; intros n H Hj; [done|].
  apply indices_ok_cons in H as (Hi & _ & H). simpl.
  rewrite lookup_insert_ne by lia. apply (IH (S i)); [done | lia].
Qed.

Lemma result_map_above rs n m j :
  indices_ok n m rs = true → (n + length (filled_results n rs) ≤ j)%nat →
  result_map rs !! j = None.
Proof.
  revert n. induction rs as [|[i v] rs IH]; intros n H Hj; [done|].
  apply indices_ok_cons in H as (Hi & _ & H). simpl in *.
  rewrite length_app, length_replicate in Hj. simpl in Hj.
  rewrite lookup_insert_ne by lia. apply (IH (S i)); [done | lia].
Qed.

Lemma filled_results_length rs n m :
  indices_ok n m rs = true → (n ≤ m)%nat → (n + length (filled_results n rs) ≤ m)%nat.
Proof.
  revert n. induction rs as [|[i v] rs IH]; intros n H Hn; [simpl; lia|].
  apply indices_ok_cons in H as (Hi & _ & H). simpl.
  rewrite length_app, length_replicate. simpl. specialize (IH (S i) H). lia.
Qed.

Definition result_at (rs : list (nat * list Z)) (j : nat) : SubDocResult :=
  match result_map rs !! j with
  | Some v => SubDocResult.mk None (Some v)
  | None => empty_result
  end.

Lemma filled_results_lookup rs n m j :
  indices_ok n m rs = true → (j < length (filled_results n rs))%nat →
  filled_results n rs !! j = Some (result_at rs (n + j)).
Proof.
  revert n j. induction rs as [|[i v] rs IH]; intros n j H Hj; [simpl in Hj; lia|].
  apply indices_ok_cons in H as (Hi & _ & H). simpl in *.
  rewrite length_app, length_replicate in Hj. simpl in Hj. unfold result_at. simpl.
  destruct (decide (j < i - n)%nat) as [Hlt|Hge].
  - rewrite lookup_app_l by (rewrite length_replicate; lia).
    rewrite lookup_replicate_2 by lia. rewrite lookup_insert_ne by lia.
    by rewrite (result_map_below rs (S i) m) by (done || lia).
  - rewrite lookup_app_r by (rewrite length_replicate; lia). rewrite length_replicate.
    destruct (decide (j = i - n)%nat) as [->|Hne].
    + rewrite Nat.sub_diag. simpl. replace (n + (i - n))%nat with i by lia.
      by rewrite lookup_insert_eq.
    + destruct (j - (i - n))%nat as [|j'] eqn:Hj'; [lia|]. simpl.
      rewrite lookup_insert_ne by lia. rewrite (IH (S i)) by (done || lia).
      unfold result_at. by replace (S i + j')%nat with (n + j)%nat by lia.
Qed.

(** The results of a multi-mutation of [n] operations: the server sends values
    for some of them, in index order; the client returns exactly [n] results,
    the value at each index the server named and an empty result everywhere
    else. *)
Lemma mutate_in_results_roundtrip rs (n : nat) :
  indices_ok 0 n rs = true → (n ≤ 255)%nat →
  ∃ results, mutate_results (length (mutate_wire rs)) (mutate_wire rs) [] = Ok results
    ∧ length (pad_results (Z.of_nat n) results) = n
    ∧ ∀ j, (j < n)%nat → pad_results (Z.of_nat n) results !! j = Some (result_at rs j).
Proof.
  intros H Hn. exists (filled_results 0 rs).
  pose proof (filled_results_length rs 0 n H ltac:(lia)) as Hl.
  assert (pad_results (Z.of_nat n) (filled_results 0 rs)
          = filled_results 0 rs ++ replicate (n - length (filled_results 0 rs)) empty_result) as Hp.
  { unfold pad_results, blen. case_test; prop_tests; [do 2 f_equal; lia|].
    replace (n - length (filled_results 0 rs))%nat with 0%nat by lia. by rewrite app_nil_r. }
  rewrite Hp. split_and!.
  - apply (mutate_results_wire rs _ [] n); [done..|]. clear. induction rs as [|[i v] rs IH]; [simpl; lia|].
    change (mutate_wire ((i, v) :: rs)) with (mutate_result_bytes (i, v) ++ mutate_wire rs).
    unfold mutate_result_bytes. rewrite !length_app, !length_be_bytes. simpl. lia.
  - rewrite length_app, length_replicate. lia.
  - intros j Hj. destruct (decide (j < length (filled_results 0 rs))%nat) as [Hlt|Hge].
    + rewrite lookup_app_l by done. by apply (filled_results_lookup rs 0 n).
    + rewrite lookup_app_r by lia. rewrite lookup_replicate_2 by lia.
      unfold result_at. by rewrite (result_map_above rs 0 n) by (done || lia).
Qed.

(** On every packet the codec decodes (which always has a CAS field), a
    multi-mutation answered with key-exists is reported as a CAS mismatch, also
    when the request carried no CAS and asked for the document to be added. *)
Lemma mutate_in_key_exists_is_cas_mismatch {P : Profile} powf frame rest packet ctx info :
  decode frame = (rest, Ok (Some packet)) → rs_status packet = Status.KeyExists →
  ResponseContext.subdoc_info ctx = Some info →
  mutate_in_try_from powf (ClientResponse.mk packet (Some ctx))
  = Err (server_error packet ServerErrorKind.CasMismatch).
Proof.
  intros Hd Hs Hi. assert (is_Some (rs_cas packet)) as Hcas.
  { unfold decode in Hd. repeat case_test; simplify_eq.
    destruct (decode_frame _) as [p| |] eqn:Hf; simplify_eq/=. by apply decode_frame_cas in Hf. }
  unfold mutate_in_try_from. simpl. rewrite Hi. simpl. unfold mutate_in_kind. rewrite Hs.
  cbv zeta. decide_statuses. rewrite (bool_decide_true (is_Some _)) by done. done.
Qed.

(** ** Witnesses *)

(** [f32::powf] replaced by its first argument. *)
Definition sample_powf (x _ : spec_float) : spec_float := x.

Definition sample_packet (status : Status) (extras value framing : option (list Z))
    : ResponsePacket :=
  {| rs_magic := Magic.Res; rs_op_code := OpCode.Get; rs_datatype := 1; rs_status := status;
     rs_opaque := 7; rs_vbucket_id := None; rs_cas := Some 99; rs_extras := extras;
     rs_key := None; rs_value := value; rs_framing_extras := framing |}.

Lemma success_only_on_success_status_example :
  decode_response (P:=true) sample_powf ResponseType.Get
    (ClientResponse.mk (sample_packet Status.Success (Some [0; 0; 0; 1]) None None) None) = Ok tt
  ∧ success_status ResponseType.Get Status.Success = true.
Proof.
  split; [done|].
  apply (success_only_on_success_status (P:=true) sample_powf ResponseType.Get
    (ClientResponse.mk (sample_packet Status.Success (Some [0; 0; 0; 1]) None None) None)).
  vm_compute. done.
Defined.

Lemma responses_do_not_panic_example :
  decode_response (P:=false) sample_powf ResponseType.Get
    (ClientResponse.mk (sample_packet Status.Success (Some [0; 0; 0; 1]) None
                          (Some [0xF0; 255; 1])) None) ≠ Panic.
Proof.
  apply (responses_do_not_panic (P:=false)); [done..|].
  apply (bool_decide_unpack _). vm_compute. done.
Defined.

Lemma lookup_in_results_roundtrip_example :
  lookup_results (P:=true) 15 (sample_packet Status.SubDocMultiPathFailure None None None)
    (lookup_wire [(0, [49; 50; 51]); (0xc0, [])]) [] 0
  = Ok (imap (lookup_result (sample_packet Status.SubDocMultiPathFailure None None None))
          [(0, [49; 50; 51]); (0xc0, [])]).
Proof.
  apply (lookup_in_results_roundtrip (P:=true)
    (sample_packet Status.SubDocMultiPathFailure None None None)
    [(0, [49; 50; 51]); (0xc0, [])]); [by repeat constructor | done].
Defined.

Lemma mutate_in_results_roundtrip_example :
  ∃ results, mutate_results 16 (mutate_wire [(1%nat, [49]); (3%nat, [50])]) [] = Ok results
    ∧ length (pad_results 5 results) = 5%nat
    ∧ ∀ j, (j < 5)%nat →
        pad_results 5 results !! j = Some (result_at [(1%nat, [49]); (3%nat, [50])] j).
Proof. apply (mutate_in_results_roundtrip [(1%nat, [49]); (3%nat, [50])] 5); [done | lia]. Defined.

(** A key-exists response to a multi-mutation. *)
Definition key_exists_frame : list Z :=
  [0x81; 0xd1; 0; 0; 0; 0; 0; 2; 0; 0; 0; 0; 0; 0; 0; 1; 0; 0; 0; 0; 0; 0; 0; 0].

Lemma mutate_in_key_exists_is_cas_mismatch_example :
  ∃ packet, decode (P:=true) key_exists_frame = ([], Ok (Some packet))
    ∧ mutate_in_try_from (P:=true) sample_powf
        (ClientResponse.mk packet
           (Some (ResponseContext.mk None (Some (SubdocRequestInfo.mk AddDoc 1)) None None)))
      = Err (server_error packet ServerErrorKind.CasMismatch).
Proof.
  eexists. split; [vm_compute; done|].
  eapply (mutate_in_key_exists_is_cas_mismatch (P:=true) sample_powf key_exists_frame []);
    [vm_compute; done..|]. done.
Defined.
