(* ===== verification/Client.v ===== *)
(** * The connection client ([memdx/client.rs], [memdx/pendingop.rs])

    One client multiplexes requests over one connection: [dispatch] registers a
    response channel under a fresh opaque and writes the packet; the read loop
    looks up the opaque of each response and sends it to the channel; callers
    receive from, cancel or drop their pending operation; closing drains the map.

    These run as concurrent tasks.  The model is a transition system whose steps
    are the pieces between suspension points ([.await]) and lock releases, so a
    run is any interleaving of the tasks.  [step] is executable: it takes the
    event that is scheduled and returns the next state and what the task that
    made the step observes, or [None] when that task has to wait.

    Outside the model, as inputs of events: the outcome of the socket writes, the
    packets the peer sends, and the snappy decoder. *)

From S2P Require Import Prelude Wire MemdError Codec Requests Response.

(** ** Data *)

(** A channel of capacity one ([mpsc::channel(1)]), by its number. *)
Abbreviation chan := nat (only parsing).
Definition message : Type := ClientResponse + Error.

(** [ch_queue] holds the message not yet received and [ch_alive] says that the
    receiver exists.  The other fields are history: the opaque and context the
    channel was registered with, and every message ever sent to it. *)
Record Channel : Type := mkChannel {
  ch_queue : list message;
  ch_alive : bool;
  ch_opaque : Z;
  ch_persistent : bool;
  ch_context : option ResponseContext;
  ch_sent : list message;
}.

Record SenderContext : Type := mkSender {
  sc_sender : chan;
  sc_is_persistent : bool;
  sc_context : option ResponseContext;
}.

(** [ClientPendingOp]; its receiver is the channel it is filed under. *)
Record PendingOp : Type := mkPending {
  po_opaque : Z;
  po_is_persistent : bool;
  po_completed : bool;
}.

(** Where the read loop is: waiting for a packet, suspended in [sender.send(..)]
    (and whether a failure of that send ends the loop), or finished. *)
Inductive ReadLoop : Type :=
| RlIdle
| RlSending (c : chan) (m : message) (fatal : bool)
| RlClosed.

(** [closed] is set first; the writer is closed and the map drained later. *)
Inductive CloseState : Type := Open | Closing | Closed.

Record Client : Type := mkClient {
  current_opaque : Z;
  opaque_map : gmap Z SenderContext;
  channels : gmap nat Channel;
  next_channel : chan;
  dispatching : gmap nat (RequestPacket * bool);
  pending : gmap nat PendingOp;
  written : list Z;
  read_loop : ReadLoop;
  draining : list (list chan);
  closed : CloseState;
  unsolicited : list ResponsePacket;
  orphans : list ResponsePacket;
}.

(** [Client::new]. *)
Definition client_new : Client :=
  {| current_opaque := 1; opaque_map := ∅; channels := ∅; next_channel := 0%nat;
     dispatching := ∅; pending := ∅; written := []; read_loop := RlIdle; draining := [];
     closed := Open; unsolicited := []; orphans := [] |}.

Definition set_map (m : gmap Z SenderContext) (s : Client) : Client :=
  mkClient (current_opaque s) m (channels s) (next_channel s) (dispatching s) (pending s)
    (written s) (read_loop s) (draining s) (closed s) (unsolicited s) (orphans s).
Definition set_channels (x : gmap nat Channel) (s : Client) : Client :=
  mkClient (current_opaque s) (opaque_map s) x (next_channel s) (dispatching s) (pending s)
    (written s) (read_loop s) (draining s) (closed s) (unsolicited s) (orphans s).
Definition set_dispatching (x : gmap nat (RequestPacket * bool)) (s : Client) : Client :=
  mkClient (current_opaque s) (opaque_map s) (channels s) (next_channel s) x (pending s)
    (written s) (read_loop s) (draining s) (closed s) (unsolicited s) (orphans s).
Definition set_pending (x : gmap nat PendingOp) (s : Client) : Client :=
  mkClient (current_opaque s) (opaque_map s) (channels s) (next_channel s) (dispatching s) x
    (written s) (read_loop s) (draining s) (closed s) (unsolicited s) (orphans s).
Definition set_written (x : list Z) (s : Client) : Client :=
  mkClient (current_opaque s) (opaque_map s) (channels s) (next_channel s) (dispatching s)
    (pending s) x (read_loop s) (draining s) (closed s) (unsolicited s) (orphans s).
Definition set_read_loop (x : ReadLoop) (s : Client) : Client :=
  mkClient (current_opaque s) (opaque_map s) (channels s) (next_channel s) (dispatching s)
    (pending s) (written s) x (draining s) (closed s) (unsolicited s) (orphans s).
Definition set_draining (x : list (list chan)) (s : Client) : Client :=
  mkClient (current_opaque s) (opaque_map s) (channels s) (next_channel s) (dispatching s)
    (pending s) (written s) (read_loop s) x (closed s) (unsolicited s) (orphans s).
Definition set_closed (x : CloseState) (s : Client) : Client :=
  mkClient (current_opaque s) (opaque_map s) (channels s) (next_channel s) (dispatching s)
    (pending s) (written s) (read_loop s) (draining s) x (unsolicited s) (orphans s).
Definition add_unsolicited (p : ResponsePacket) (s : Client) : Client :=
  mkClient (current_opaque s) (opaque_map s) (channels s) (next_channel s) (dispatching s)
    (pending s) (written s) (read_loop s) (draining s) (closed s) (unsolicited s ++ [p]) (orphans s).
Definition add_orphan (p : ResponsePacket) (s : Client) : Client :=
  mkClient (current_opaque s) (opaque_map s) (channels s) (next_channel s) (dispatching s)
    (pending s) (written s) (read_loop s) (draining s) (closed s) (unsolicited s) (orphans s ++ [p]).

(** ** Channels

    [Sender::send]: an error when the receiver is gone, otherwise the message is
    queued once there is room; [None] while the channel is full. *)
Definition chan_send (c : chan) (m : message) (s : Client) : option (Client * bool) :=
  match channels s !! c with
  | Some ch =>
      if negb (ch_alive ch) then Some (s, false)
      else if bool_decide (ch_queue ch = []) then
        Some (set_channels (<[c := mkChannel [m] true (ch_opaque ch) (ch_persistent ch)
                (ch_context ch) (ch_sent ch ++ [m])]> (channels s)) s, true)
      else None
  | None => Some (s, false)
  end.

(** The channel still has a sender: in the map, in the hands of the read loop, or
    in a drain in progress.  When it has none, [Receiver::recv] returns [None]. *)
Definition has_sender (c : chan) (s : Client) : bool :=
  bool_decide (map_Exists (λ _ ctx, sc_sender ctx = c) (opaque_map s))
  || match read_loop s with RlSending c' _ _ => bool_decide (c' = c) | _ => false end
  || bool_decide (Exists (λ task, c ∈ task) (draining s)).

(** ** Dispatching *)

(** [Client::register_handler] with the channel creation before it:
    [fetch_add] wraps around at [2 ^ 32]. *)
Definition register_handler (is_persistent : bool) (context : option ResponseContext)
    (s : Client) : Client * (Z * chan) :=
  let c := next_channel s in
  let opaque := current_opaque s in
  (mkClient (cast_u 32 (opaque + 1))
     (<[opaque := mkSender c is_persistent context]> (opaque_map s))
     (<[c := mkChannel [] true opaque is_persistent context []]> (channels s))
     (S c) (dispatching s) (pending s) (written s) (read_loop s) (draining s) (closed s)
     (unsolicited s) (orphans s), (opaque, c)).

(** What the socket does with a [writer.send(packet)]: the sink is not ready, or
    it is and the flush fails or succeeds. *)
Inductive IoResult : Type :=
| IoOk
| IoNotReady (what : string)
| IoFlushFailed (what : string).

(** [FramedWrite::send]: ready, encode, flush. *)
Definition writer_send (p : RequestPacket) (io : IoResult) (s : Client)
    : Client * outcome Error unit :=
  match io with
  | IoNotReady what => (s, Err (error_from_io what))
  | _ =>
      let '(w, r) := encode p (written s) in
      let s := set_written w s in
      match r, io with
      | Ok _, IoFlushFailed what => (s, Err (error_from_io what))
      | r, _ => (s, r)
      end
  end.

(** What the task that makes a step observes. *)
Inductive Output : Type :=
| OutNone
| OutPending (c : chan)
| OutError (e : Error)
| OutMessage (m : message)
| OutBool (b : bool)
| OutStuck
| OutPanic.

Definition dispatch_begin (call : DispatchCall) (s : Client) : Client * Output :=
  let '(s, (opaque, c)) :=
    register_handler (dc_is_persistent call) (dc_response_context call) s in
  (set_dispatching
     (<[c := (rq_set_opaque (dc_packet call) opaque, dc_is_persistent call)]> (dispatching s)) s,
   OutNone).

(** The receiver of a failed dispatch is dropped with the error. *)
Definition drop_receiver (c : chan) (s : Client) : Client :=
  match channels s !! c with
  | Some ch =>
      set_channels (<[c := mkChannel [] false (ch_opaque ch) (ch_persistent ch)
        (ch_context ch) (ch_sent ch)]> (channels s)) s
  | None => s
  end.

Definition dispatch_write (c : chan) (io : IoResult) (s : Client) : option (Client * Output) :=
  '(packet, is_persistent) ← dispatching s !! c;
  let opaque := unwrap_or_default (rq_opaque packet) in
  let s := set_dispatching (base.delete c (dispatching s)) s in
  let '(s, r) := writer_send packet io s in
  match r with
  | Ok _ =>
      Some (set_pending (<[c := mkPending opaque is_persistent false]> (pending s)) s,
            OutPending c)
  | Err e =>
      let s := set_map (base.delete opaque (opaque_map s)) s in
      Some (drop_receiver c s, OutError (new_dispatch_error opaque (rq_op_code packet) e))
  | Panic => Some (s, OutPanic)
  end.

(** The caller drops the [dispatch] future while it waits for the writer or for
    the flush (a deadline has passed): the handler stays registered, and the
    packet stays in the write buffer if it was already encoded. *)
Definition dispatch_abort (c : chan) (encoded : bool) (s : Client) : option (Client * Output) :=
  '(packet, _) ← dispatching s !! c;
  let s := drop_receiver c (set_dispatching (base.delete c (dispatching s)) s) in
  if encoded then
    match encode packet (written s) with
    | (w, Ok _) => Some (set_written w s, OutNone)
    | _ => None
    end
  else Some (s, OutNone).

(** ** Closing *)

(** [drain_opaque_map]: the map is emptied under the lock; the senders are then
    notified one after the other. *)
Definition drain_begin (s : Client) : Client :=
  set_draining (draining s ++ [sc_sender <$> (map_to_list (opaque_map s)).*2]) (set_map ∅ s).

Definition closed_in_flight : message :=
  inr (new_cancelled_error CancellationErrorKind.ClosedInFlight).

(** One [sender.send(..).await.unwrap_or_default()] of the [i]-th drain. *)
Definition drain_step (i : nat) (s : Client) : option (Client * Output) :=
  match draining s !! i with
  | Some (c :: task) =>
      '(s, _) ← chan_send c closed_in_flight s;
      Some (set_draining (<[i := task]> (draining s)) s, OutNone)
  | _ => None
  end.

(** [on_read_loop_close]. *)
Definition on_read_loop_close (s : Client) : Client := drain_begin (set_read_loop RlClosed s).

(** [Client::close] up to its wait for the writer: the first call goes on, any
    other returns. *)
Definition close (s : Client) : Client * Output :=
  match closed s with
  | Open => (set_closed Closing s, OutNone)
  | _ => (s, OutNone)
  end.

(** The rest of it; [io] is the outcome of [writer.close()]. *)
Definition close_finish (io : option string) (s : Client) : option (Client * Output) :=
  match closed s with
  | Closing =>
      Some (drain_begin (set_closed Closed s),
            match io with
            | Some what => OutError (new_close_error what (error_from_io what))
            | None => OutNone
            end)
  | _ => None
  end.

(** ** The read loop *)

Section ReadLoop.
(** [snap::raw::Decoder::decompress_vec]. *)
Context (decompress_vec : list Z → option (list Z)) (disable_decompression : bool)
  (has_orphan_handler : bool).

Definition with_value (p : ResponsePacket) (datatype : Z) (v : list Z) : ResponsePacket :=
  {| rs_magic := rs_magic p; rs_op_code := rs_op_code p; rs_datatype := datatype;
     rs_status := rs_status p; rs_opaque := rs_opaque p; rs_vbucket_id := rs_vbucket_id p;
     rs_cas := rs_cas p; rs_extras := rs_extras p; rs_key := rs_key p; rs_value := Some v;
     rs_framing_extras := rs_framing_extras p |}.

(** The value of a packet after decompression, or [None] when it is corrupt. *)
Definition decompress (packet : ResponsePacket) : option ResponsePacket :=
  match rs_value packet with
  | Some value =>
      if negb disable_decompression
         && negb (Z.land (rs_datatype packet) (u8_from_datatype_flag DataTypeFlag.Compressed) =? 0)
      then
        new_value ← decompress_vec value;
        Some (with_value packet
                (Z.ldiff (rs_datatype packet) (u8_from_datatype_flag DataTypeFlag.Compressed))
                new_value)
      else Some packet
  | None => Some packet
  end.

(** One [Ok(packet)] from the stream, up to the suspension in [sender.send]. *)
Definition on_packet (packet : ResponsePacket) (s : Client) : option (Client * Output) :=
  match read_loop s with
  | RlIdle =>
      if bool_decide (rs_magic packet = Magic.ServerReq) then
        Some (add_unsolicited packet s, OutNone)
      else
        let opaque := rs_opaque packet in
        match opaque_map s !! opaque with
        | Some context =>
            let s := set_map (base.delete opaque (opaque_map s)) s in
            match decompress packet with
            | None =>
                Some (set_read_loop
                        (RlSending (sc_sender context)
                           (inr (error_with new_decompression_error (SrcForeign "snap"))) false) s,
                      OutNone)
            | Some packet =>
                let s :=
                  if sc_is_persistent context
                  then set_map (<[opaque := context]> (opaque_map s)) s else s in
                Some (set_read_loop
                        (RlSending (sc_sender context)
                           (inl (ClientResponse.mk packet (sc_context context))) true) s,
                      OutNone)
            end
        | None => Some (if has_orphan_handler then add_orphan packet s else s, OutNone)
        end
  | _ => None
  end.

(** The send the read loop is suspended in completes. *)
Definition on_sent (s : Client) : option (Client * Output) :=
  match read_loop s with
  | RlSending c m fatal =>
      '(s, ok) ← chan_send c m s;
      Some (if ok || negb fatal then set_read_loop RlIdle s else on_read_loop_close s, OutNone)
  | _ => None
  end.

(** The close token is cancelled, the stream ends, or a frame cannot be read. *)
Definition on_stream_end (s : Client) : option (Client * Output) :=
  match read_loop s with
  | RlIdle => Some (on_read_loop_close s, OutNone)
  | _ => None
  end.

(** ** Pending operations ([pendingop.rs]) *)

(** [ClientPendingOp::recv]. *)
Definition recv (c : chan) (s : Client) : option (Client * Output) :=
  op ← pending s !! c;
  ch ← channels s !! c;
  match ch_queue ch with
  | m :: queue =>
      let s := set_channels (<[c := mkChannel queue (ch_alive ch) (ch_opaque ch)
                 (ch_persistent ch) (ch_context ch) (ch_sent ch)]> (channels s)) s in
      let s :=
        if negb (po_is_persistent op)
        then set_pending (<[c := mkPending (po_opaque op) (po_is_persistent op) true]> (pending s)) s
        else s in
      Some (s, OutMessage m)
  | [] =>
      if has_sender c s then None
      else Some (s, OutMessage (inr (new_cancelled_error CancellationErrorKind.RequestCancelled)))
  end.

(** [cancel_op]: the entry under the operation's opaque, removed from the map. *)
Definition cancel_op (op : PendingOp) (s : Client) : Client * option SenderContext :=
  if po_completed op then (s, None)
  else (set_map (base.delete (po_opaque op) (opaque_map s)) s, opaque_map s !! po_opaque op).

(** [ClientPendingOp::cancel].  Only the caller can make room in its channel, so
    when a persistent operation has an unread response the send never completes. *)
Definition cancel (c : chan) (e : CancellationErrorKind) (s : Client) : option (Client * Output) :=
  op ← pending s !! c;
  match cancel_op op s with
  | (s, Some context) =>
      match chan_send (sc_sender context) (inr (new_cancelled_error e)) s with
      | Some (s, true) => Some (s, OutBool true)
      | Some (s, false) => Some (s, OutPanic)
      | None => Some (s, OutStuck)
      end
  | (s, None) => Some (s, OutBool false)
  end.

(** [Drop for ClientPendingOp]: the receiver goes with it. *)
Definition drop_op (c : chan) (s : Client) : option (Client * Output) :=
  op ← pending s !! c;
  let '(s, _) := cancel_op op s in
  Some (drop_receiver c (set_pending (base.delete c (pending s)) s), OutNone).

(** ** Steps *)

Inductive Event : Type :=
| EvDispatch (call : DispatchCall)
| EvWrite (c : chan) (io : IoResult)
| EvAbort (c : chan) (encoded : bool)
| EvPacket (p : ResponsePacket)
| EvSent
| EvStreamEnd
| EvDrain (i : nat)
| EvClose
| EvCloseFinish (io : option string)
| EvRecv (c : chan)
| EvCancel (c : chan) (e : CancellationErrorKind)
| EvDrop (c : chan).

Definition step (ev : Event) (s : Client) : option (Client * Output) :=
  match ev with
  | EvDispatch call => Some (dispatch_begin call s)
  | EvWrite c io => dispatch_write c io s
  | EvAbort c encoded => dispatch_abort c encoded s
  | EvPacket p => on_packet p s
  | EvSent => on_sent s
  | EvStreamEnd => on_stream_end s
  | EvDrain i => drain_step i s
  | EvClose => Some (close s)
  | EvCloseFinish io => close_finish io s
  | EvRecv c => recv c s
  | EvCancel c e => cancel c e s
  | EvDrop c => drop_op c s
  end.

(** A run: the state and outputs after a schedule of events. *)
Fixpoint run (evs : list Event) (s : Client) : option (Client * list Output) :=
  match evs with
  | [] => Some (s, [])
  | ev :: evs =>
      '(s, o) ← step ev s;
      '(s, os) ← run evs s;
      Some (s, o :: os)
  end.

Inductive reachable : Client → Prop :=
| reachable_new : reachable client_new
| reachable_step s ev s' o : reachable s → step ev s = Some (s', o) → reachable s'.

End ReadLoop.

(** ** The invariant

    A non-persistent channel is sent at most one message.  The argument counts
    the right to send: it is created by the registration, moves from the map to
    the read loop, to a drain or to the task making a step, and is used up by
    the send.  [tokens] lists the rights in the hands of the current step. *)

Definition count (c : chan) (l : list chan) : nat := length (filter (λ x, x = c) l).

Definition in_map (m : gmap Z SenderContext) (c : chan) (ch : Channel) : nat :=
  match m !! ch_opaque ch with
  | Some ctx => if decide (sc_sender ctx = c) then 1 else 0
  | None => 0
  end.

Definition in_read_loop (rl : ReadLoop) (c : chan) : nat :=
  match rl with RlSending c' _ _ => if decide (c' = c) then 1 else 0 | _ => 0 end.

(** A response may only go to the channel registered under its opaque, with the
    context registered there. *)
Definition message_ok (ch : Channel) (m : message) : Prop :=
  match m with
  | inl resp =>
      rs_opaque (ClientResponse.packet resp) = ch_opaque ch
      ∧ ClientResponse.response_context resp = ch_context ch
  | inr _ => True
  end.

Record invariant (tokens : list chan) (m : gmap Z SenderContext) (chs : gmap nat Channel)
    (next : chan) (rl : ReadLoop) (dr : list (list chan)) : Prop := {
  inv_channels : ∀ c ch, chs !! c = Some ch → (c < next)%nat;
  inv_tokens : ∀ c, c ∈ tokens → is_Some (chs !! c);
  inv_map : ∀ o ctx, m !! o = Some ctx →
    ∃ ch, chs !! sc_sender ctx = Some ch ∧ ch_opaque ch = o
      ∧ ch_persistent ch = sc_is_persistent ctx ∧ ch_context ch = sc_context ctx;
  inv_read_loop : ∀ c msg f, rl = RlSending c msg f →
    ∃ ch, chs !! c = Some ch ∧ message_ok ch msg;
  inv_draining : ∀ c, c ∈ concat dr → is_Some (chs !! c);
  inv_budget : ∀ c ch, chs !! c = Some ch → ch_persistent ch = false →
    (count c tokens + in_map m c ch + in_read_loop rl c + count c (concat dr)
     + length (ch_sent ch) ≤ 1)%nat;
  inv_sent : ∀ c ch, chs !! c = Some ch → Forall (message_ok ch) (ch_sent ch);
  inv_queue : ∀ c ch, chs !! c = Some ch → ch_queue ch `suffix_of` ch_sent ch;
}.

Definition Inv (tokens : list chan) (s : Client) : Prop :=
  invariant tokens (opaque_map s) (channels s) (next_channel s) (read_loop s) (draining s).

Lemma count_cons c x l : count c (x :: l) = ((if decide (x = c) then 1 else 0) + count c l)%nat.
Proof.
  unfold count. destruct (decide (x = c)).
  - by rewrite filter_cons_True.
  - by rewrite filter_cons_False.
Qed.

Lemma count_app c l k : count c (l ++ k) = (count c l + count c k)%nat.
Proof. unfold count. by rewrite list.filter_app, length_app. Qed.

Lemma count_notin c l : c ∉ l → count c l = 0%nat.
Proof.
  induction l as [|x l IH]; intros H; [done|]. rewrite count_cons.
  apply not_elem_of_cons in H as [H1 H2]. rewrite decide_False by done. simpl. auto.
Qed.

(** *** Moving the right to send *)

Lemma inv_weaken c tokens s : Inv (c :: tokens) s → Inv tokens s.
Proof.
  intros []. constructor; eauto.
  - intros x Hx. apply inv_tokens0. by right.
  - intros x ch Hch Hp. specialize (inv_budget0 x ch Hch Hp). rewrite count_cons in inv_budget0.
    lia.
Qed.

Lemma in_map_delete m o c ch : (in_map (base.delete o m) c ch ≤ in_map m c ch)%nat.
Proof.
  unfold in_map. destruct (decide (ch_opaque ch = o)) as [<-|Hne].
  - rewrite lookup_delete_eq. lia.
  - by rewrite lookup_delete_ne.
Qed.

Lemma inv_delete o tokens s : Inv tokens s → Inv tokens (set_map (base.delete o (opaque_map s)) s).
Proof.
  intros []. constructor; simpl; eauto.
  - intros o' ctx [_ H]%lookup_delete_Some. eauto.
  - intros c ch Hch Hp. specialize (inv_budget0 c ch Hch Hp).
    pose proof (in_map_delete (opaque_map s) o c ch). lia.
Qed.

Lemma inv_take o ctx tokens s :
  Inv tokens s → opaque_map s !! o = Some ctx →
  Inv (sc_sender ctx :: tokens) (set_map (base.delete o (opaque_map s)) s).
Proof.
  intros Hinv Ho. pose proof (inv_delete o tokens s Hinv) as Hd. destruct Hd, Hinv.
  destruct (inv_map1 o ctx Ho) as (ch0 & Hch0 & Hop & _). simpl in *. constructor; simpl; eauto.
  - intros c [->|Hc]%elem_of_cons; eauto.
  - intros c ch Hch Hp. rewrite count_cons. case_decide as Hc.
    + subst c. rewrite Hch0 in Hch. simplify_eq.
      specialize (inv_budget1 _ ch Hch0 Hp). unfold in_map in *.
      rewrite lookup_delete_eq. rewrite Ho, decide_True in inv_budget1 by done. lia.
    + specialize (inv_budget0 c ch Hch Hp). lia.
Qed.

Lemma in_map_same_opaque m c ch ch' :
  ch_opaque ch' = ch_opaque ch → in_map m c ch' = in_map m c ch.
Proof. unfold in_map. by intros ->. Qed.

(** Replacing a channel's queue and receiver, keeping its history. *)
Lemma inv_alter c ch ch' tokens s :
  Inv tokens s → channels s !! c = Some ch →
  ch_opaque ch' = ch_opaque ch → ch_persistent ch' = ch_persistent ch →
  ch_context ch' = ch_context ch → ch_sent ch' = ch_sent ch →
  ch_queue ch' `suffix_of` ch_sent ch →
  Inv tokens (set_channels (<[c := ch']> (channels s)) s).
Proof.
  intros [] Hc Ho Hp Hx Hs Hq. constructor; simpl.
  - intros c' k [[<- _]|[_ H]]%lookup_insert_Some; eauto.
  - intros c' H. destruct (decide (c = c')) as [<-|]; [rewrite lookup_insert_eq; eauto|].
    rewrite lookup_insert_ne by done. eauto.
  - intros o ctx H. destruct (inv_map0 o ctx H) as (k & Hk & ?).
    destruct (decide (c = sc_sender ctx)) as [->|].
    + rewrite lookup_insert_eq. simplify_eq. exists ch'. rewrite Ho, Hp, Hx. done.
    + rewrite lookup_insert_ne by done. eauto.
  - intros c' msg f H. destruct (inv_read_loop0 c' msg f H) as (k & Hk & Hm).
    destruct (decide (c = c')) as [<-|]; [|rewrite lookup_insert_ne by done; eauto].
    rewrite lookup_insert_eq. simplify_eq. exists ch'. split; [done|].
    unfold message_ok. by rewrite Ho, Hx.
  - intros c' H. destruct (decide (c = c')) as [<-|]; [rewrite lookup_insert_eq; eauto|].
    rewrite lookup_insert_ne by done. eauto.
  - intros c' k [[<- <-]|[_ H]]%lookup_insert_Some Hk; [|eauto].
    rewrite Hs, (in_map_same_opaque _ _ ch ch' Ho). apply inv_budget0; [done | congruence].
  - intros c' k [[<- <-]|[_ H]]%lookup_insert_Some; [|eauto]. rewrite Hs.
    specialize (inv_sent0 c ch Hc). eapply list.Forall_impl; [done|]. intros msg.
    unfold message_ok. by rewrite Ho, Hx.
  - intros c' k [[<- <-]|[_ H]]%lookup_insert_Some; [|eauto]. by rewrite Hs.
Qed.

Lemma inv_drop_receiver c tokens s : Inv tokens s → Inv tokens (drop_receiver c s).
Proof.
  intros H. unfold drop_receiver. destruct (channels s !! c) as [ch|] eqn:Hc.
  - apply (inv_alter c ch); [done..|]. apply suffix_nil.
  - exact H.
Qed.

(** Sending uses up a right. *)
Lemma inv_send c msg tokens s s' ok :
  Inv (c :: tokens) s → (∀ ch, channels s !! c = Some ch → message_ok ch msg) →
  chan_send c msg s = Some (s', ok) → Inv tokens s'.
Proof.
  intros Hinv Hm Hs. unfold chan_send in Hs.
  destruct (channels s !! c) as [ch|] eqn:Hc; [|simplify_eq; by eapply inv_weaken].
  destruct (ch_alive ch); simpl in Hs; [|simplify_eq; by eapply inv_weaken].
  case_bool_decide as Hq; [|done]. simplify_eq.
  set (ch' := mkChannel _ _ _ _ _ _). specialize (Hm ch eq_refl).
  destruct Hinv. constructor; simpl.
  - intros c' k [[<- _]|[_ H]]%lookup_insert_Some; eauto.
  - intros c' H. destruct (decide (c = c')) as [<-|]; [rewrite lookup_insert_eq; eauto|].
    rewrite lookup_insert_ne by done. apply inv_tokens0. by right.
  - intros o ctx H. destruct (inv_map0 o ctx H) as (k & Hk & ?).
    destruct (decide (c = sc_sender ctx)) as [->|].
    + rewrite lookup_insert_eq. simplify_eq. exists ch'. done.
    + rewrite lookup_insert_ne by done. eauto.
  - intros c' m' f H. destruct (inv_read_loop0 c' m' f H) as (k & Hk & Hm').
    destruct (decide (c = c')) as [<-|]; [|rewrite lookup_insert_ne by done; eauto].
    rewrite lookup_insert_eq. simplify_eq. by exists ch'.
  - intros c' H. destruct (decide (c = c')) as [<-|]; [rewrite lookup_insert_eq; eauto|].
    rewrite lookup_insert_ne by done. eauto.
  - intros c' k [[<- <-]|[Hne H]]%lookup_insert_Some Hk.
    + specialize (inv_budget0 c ch Hc Hk). rewrite count_cons, decide_True in inv_budget0 by done.
      rewrite (in_map_same_opaque _ _ ch ch') by done. simpl. rewrite length_app. simpl. lia.
    + specialize (inv_budget0 c' k H Hk). rewrite count_cons in inv_budget0. lia.
  - intros c' k [[<- <-]|[_ H]]%lookup_insert_Some; [|eauto]. simpl.
    apply list.Forall_app. split; [by apply (inv_sent0 c ch)|]. by constructor.
  - intros c' k [[<- <-]|[_ H]]%lookup_insert_Some; [|eauto]. simpl. by exists (ch_sent ch).
Qed.

(** A non-persistent channel always has room for the holder of a right. *)
Lemma send_not_blocked c ch msg tokens s :
  Inv (c :: tokens) s → channels s !! c = Some ch → ch_persistent ch = false →
  ∃ s', chan_send c msg s = Some (s', ch_alive ch).
Proof.
  intros [] Hc Hp. unfold chan_send. rewrite Hc. destruct (ch_alive ch); [|by eexists]. simpl.
  specialize (inv_budget0 c ch Hc Hp). rewrite count_cons, decide_True in inv_budget0 by done.
  destruct (inv_queue0 c ch Hc) as [l Hl]. destruct (ch_sent ch); [|simpl in *; lia].
  symmetry in Hl. apply app_eq_nil in Hl as [_ ->]. by eexists.
Qed.

Lemma inv_set_read_loop c msg f tokens s :
  Inv (c :: tokens) s → (∀ c' m' f', read_loop s ≠ RlSending c' m' f') →
  (∀ ch, channels s !! c = Some ch → message_ok ch msg) →
  Inv tokens (set_read_loop (RlSending c msg f) s).
Proof.
  intros [] Hrl Hm. constructor; simpl; eauto.
  - intros x Hx. apply inv_tokens0. by right.
  - intros c' m' f' [= <- <- <-]. destruct (inv_tokens0 c) as [ch Hch]; [by left|]. eauto.
  - intros x ch Hch Hp. specialize (inv_budget0 x ch Hch Hp). rewrite count_cons in inv_budget0.
    unfold in_read_loop in *. destruct (read_loop s); [|naive_solver|]; lia.
Qed.

(** A persistent channel is not limited to one message. *)
Lemma inv_send_persistent c ch msg f tokens s :
  Inv tokens s → channels s !! c = Some ch → ch_persistent ch = true →
  (∀ c' m' f', read_loop s ≠ RlSending c' m' f') →
  (∀ k, channels s !! c = Some k → message_ok k msg) →
  Inv tokens (set_read_loop (RlSending c msg f) s).
Proof.
  intros [] Hc Hp Hrl Hm. constructor; simpl; eauto.
  - intros c' m' f' [= <- <- <-]. eauto.
  - intros x k Hk Hx. specialize (inv_budget0 x k Hk Hx).
    rewrite decide_False by (intros ->; congruence). lia.
Qed.

Lemma inv_end_read_loop c msg f x tokens s :
  Inv tokens s → read_loop s = RlSending c msg f → (x = RlIdle ∨ x = RlClosed) →
  Inv (c :: tokens) (set_read_loop x s).
Proof.
  intros [] Hrl Hx. constructor; simpl; eauto.
  - intros y [->|Hy]%elem_of_cons; [|eauto].
    destruct (inv_read_loop0 _ _ _ Hrl) as (ch & Hch & _). eauto.
  - destruct Hx; naive_solver.
  - intros y ch Hch Hp. specialize (inv_budget0 y ch Hch Hp). rewrite Hrl in inv_budget0.
    rewrite count_cons. simpl in inv_budget0. destruct Hx as [-> | ->]; simpl; lia.
Qed.

Lemma inv_idle_closed tokens s :
  Inv tokens s → (∀ c m f, read_loop s ≠ RlSending c m f) → Inv tokens (set_read_loop RlClosed s).
Proof.
  intros [] Hrl. constructor; simpl; eauto; [done|]. intros c ch Hch Hp.
  specialize (inv_budget0 c ch Hch Hp). lia.
Qed.

(** *** Draining *)

Definition senders (m : gmap Z SenderContext) : list chan :=
  sc_sender <$> (map_to_list m).*2.

Lemma senders_insert o ctx m :
  m !! o = None → senders (<[o := ctx]> m) ≡ₚ sc_sender ctx :: senders m.
Proof. intros H. unfold senders. by rewrite (map_to_list_insert m o ctx H). Qed.

Lemma count_perm c l k : l ≡ₚ k → count c l = count c k.
Proof. intros H. unfold count. by rewrite H. Qed.

Lemma senders_elem c m : c ∈ senders m → ∃ o ctx, m !! o = Some ctx ∧ sc_sender ctx = c.
Proof.
  unfold senders. intros (ctx & -> & ([o x] & -> & H)%list_elem_of_fmap)%list_elem_of_fmap.
  apply elem_of_map_to_list in H. eauto.
Qed.

Lemma senders_count c o m :
  (∀ o' ctx, m !! o' = Some ctx → sc_sender ctx = c → o' = o) →
  count c (senders m)
  = match m !! o with Some ctx => if decide (sc_sender ctx = c) then 1%nat else 0%nat | None => 0%nat end.
Proof.
  induction m as [|k x m Hk IH] using map_ind; intros H; [by rewrite lookup_empty|].
  rewrite (count_perm _ _ _ (senders_insert k x m Hk)), count_cons.
  destruct (decide (k = o)) as [->|Hne].
  - rewrite lookup_insert_eq. rewrite count_notin; [lia|].
    intros (o' & ctx & Ho & Hc)%senders_elem. assert (o' = o) as ->; [|congruence].
    apply (H o' ctx); [|done]. rewrite lookup_insert_ne; [done | congruence].
  - rewrite lookup_insert_ne by done. case_decide as Hx.
    + destruct Hne. apply (H k x); [by rewrite lookup_insert_eq | done].
    + apply IH. intros o' ctx Ho Hc. apply (H o' ctx); [|done].
      rewrite lookup_insert_ne; [done | congruence].
Qed.

Lemma inv_drain_begin tokens s : Inv tokens s → Inv tokens (drain_begin s).
Proof.
  intros []. unfold drain_begin. fold (senders (opaque_map s)). constructor; simpl; eauto.
  - intros o ctx H. by rewrite lookup_empty in H.
  - intros c. rewrite concat_app, elem_of_app. simpl. rewrite app_nil_r.
    intros [H|(o & ctx & H & <-)%senders_elem]; [eauto|].
    destruct (inv_map0 o ctx H) as (ch & ? & _). eauto.
  - intros c ch Hch Hp. specialize (inv_budget0 c ch Hch Hp).
    rewrite concat_app, count_app. simpl. rewrite app_nil_r.
    rewrite (senders_count c (ch_opaque ch)).
    + unfold in_map in *. rewrite lookup_empty. lia.
    + intros o' ctx H Hc. destruct (inv_map0 o' ctx H) as (ch' & Hch' & Ho & _). congruence.
Qed.

Lemma inv_pop i c task tokens s :
  Inv tokens s → draining s !! i = Some (c :: task) →
  Inv (c :: tokens) (set_draining (<[i := task]> (draining s)) s).
Proof.
  intros [] Hi. assert (concat (draining s) ≡ₚ c :: concat (<[i := task]> (draining s))) as Hperm.
  { clear -Hi. revert i Hi. induction (draining s) as [|t dr IH]; intros i Hi; [done|].
    destruct i as [|i]; simpl in *; [by simplify_eq|]. rewrite (IH i Hi).
    by rewrite Permutation_middle. }
  constructor; simpl; eauto.
  - intros x [->|Hx]%elem_of_cons; [|eauto]. apply inv_draining0. rewrite Hperm. by left.
  - intros x Hx. apply inv_draining0. rewrite Hperm. by right.
  - intros x ch Hch Hp. specialize (inv_budget0 x ch Hch Hp).
    rewrite (count_perm x _ _ Hperm), count_cons in inv_budget0. rewrite count_cons. lia.
Qed.

(** A send only touches the channels. *)
Lemma chan_send_draining c m x s s' ok :
  chan_send c m s = Some (s', ok) →
  chan_send c m (set_draining x s) = Some (set_draining x s', ok) ∧ draining s' = draining s.
Proof. unfold chan_send. simpl. intros H. repeat case_match; simplify_eq; done. Qed.

Lemma chan_send_read_loop c m x s s' ok :
  chan_send c m s = Some (s', ok) →
  chan_send c m (set_read_loop x s) = Some (set_read_loop x s', ok).
Proof. unfold chan_send. simpl. intros H. repeat case_match; simplify_eq; done. Qed.

Lemma inv_register p x s : Inv [] s → Inv [] (fst (register_handler p x s)).
Proof.
  intros []. assert (channels s !! next_channel s = None) as Hfresh.
  { destruct (channels s !! next_channel s) eqn:H; [|done]. apply inv_channels0 in H. lia. }
  assert (∀ c ch, channels s !! c = Some ch → c ≠ next_channel s) as Hne.
  { intros c ch H ->. by rewrite Hfresh in H. }
  assert (∀ c, is_Some (channels s !! c) → is_Some (<[next_channel s
    := mkChannel [] true (current_opaque s) p x []]> (channels s) !! c)) as Hsome.
  { intros c [ch H]. rewrite lookup_insert_ne; [eauto|]. intros <-. by rewrite Hfresh in H. }
  constructor; simpl; eauto.
  - intros c ch [[<- _]|[_ H]]%lookup_insert_Some; [lia|]. specialize (inv_channels0 c ch H). lia.
  - intros o ctx [[<- <-]|[_ H]]%lookup_insert_Some.
    + simpl. rewrite lookup_insert_eq. eexists. split; [done|]. done.
    + destruct (inv_map0 o ctx H) as (ch & Hch & ?). exists ch.
      rewrite lookup_insert_ne; [done|]. intros Heq. rewrite <-Heq in Hch. by rewrite Hfresh in Hch.
  - intros c m f H. destruct (inv_read_loop0 c m f H) as (ch & Hch & Hm). exists ch.
    rewrite lookup_insert_ne; [done|]. intros <-. by rewrite Hfresh in Hch.
  - intros c ch [[<- <-]|[Hc H]]%lookup_insert_Some Hp.
    + assert (in_read_loop (read_loop s) (next_channel s) = 0%nat) as ->.
      { unfold in_read_loop. destruct (read_loop s) as [|c' m f|]; [done| |done].
        destruct (inv_read_loop0 _ _ _ eq_refl) as (k & Hk & _). by rewrite decide_False by eauto. }
      rewrite (count_notin (next_channel s) (concat (draining s))).
      * unfold in_map. simpl. rewrite lookup_insert_eq, decide_True by done. simpl. lia.
      * intros [k Hk]%inv_draining0. by rewrite Hfresh in Hk.
    + specialize (inv_budget0 c ch H Hp). unfold in_map in *. simpl.
      destruct (decide (ch_opaque ch = current_opaque s)) as [->|Ho].
      * rewrite lookup_insert_eq. rewrite decide_False by (simpl; congruence). lia.
      * rewrite lookup_insert_ne by congruence. lia.
  - intros c ch [[<- <-]|[_ H]]%lookup_insert_Some; [constructor | eauto].
  - intros c ch [[<- <-]|[_ H]]%lookup_insert_Some; [apply suffix_nil | eauto].
Qed.

Lemma inv_new : Inv [] client_new.
Proof.
  constructor; simpl; intros *; rewrite ?lookup_empty; try done; by intros ?%elem_of_nil.
Qed.

Lemma writer_send_inv p io s s' r tokens :
  writer_send p io s = (s', r) → Inv tokens s → Inv tokens s' ∧ opaque_map s' = opaque_map s.
Proof.
  unfold writer_send. intros H Hinv. destruct io; try (by simplify_eq);
    destruct (encode p (written s)) as [w q]; destruct q; simplify_eq; by split.
Qed.

Lemma writer_send_no_panic p io s s' r : writer_send p io s = (s', r) → r ≠ Panic.
Proof.
  unfold writer_send. intros H. destruct io; try (by simplify_eq);
    destruct (encode p (written s)) as [w q] eqn:He; unfold encode in He;
    destruct q; simplify_eq; try done; repeat case_match; simplify_eq.
Qed.

Section Preservation.
Context (decompress_vec : list Z → option (list Z)) (disable_decompression has_orphan_handler : bool).
Abbreviation step := (step decompress_vec disable_decompression has_orphan_handler).
Abbreviation reachable := (reachable decompress_vec disable_decompression has_orphan_handler).

Lemma decompress_opaque p p' :
  decompress decompress_vec disable_decompression p = Some p' → rs_opaque p' = rs_opaque p.
Proof.
  unfold decompress. intros H. repeat case_match; simplify_eq; try done.
  destruct (decompress_vec _); simplify_eq/=. done.
Qed.

Lemma inv_on_packet p s s' o :
  Inv [] s → on_packet decompress_vec disable_decompression has_orphan_handler p s = Some (s', o) →
  Inv [] s'.
Proof.
  intros Hinv H. unfold on_packet in H. destruct (read_loop s) eqn:Hrl; [|done..].
  case_bool_decide; [simplify_eq; exact Hinv|].
  destruct (opaque_map s !! rs_opaque p) as [ctx|] eqn:Hctx;
    [|simplify_eq; by destruct has_orphan_handler].
  pose proof (inv_take _ _ _ _ Hinv Hctx) as Ht.
  destruct (inv_map _ _ _ _ _ _ Hinv _ _ Hctx) as (ch & Hch & Ho & Hp & Hx).
  destruct (decompress _ _ p) as [p'|] eqn:Hd; simplify_eq.
  - apply decompress_opaque in Hd.
    assert (∀ k, channels s !! sc_sender ctx = Some k →
              message_ok k (inl (ClientResponse.mk p' (sc_context ctx)))) as Hm.
    { intros k Hk. simplify_eq. simpl. by rewrite Hd. }
    destruct (sc_is_persistent ctx) eqn:Hper.
    + simpl. rewrite insert_delete_id by done.
      apply (inv_send_persistent (sc_sender ctx) ch _ true [] s); auto; congruence.
    + apply (inv_set_read_loop _ _ _ [] (set_map _ s)); [done| |done]. simpl. congruence.
  - apply (inv_set_read_loop _ _ _ [] (set_map _ s)); [done| |done]. simpl. congruence.
Qed.

Lemma inv_on_sent s s' o : Inv [] s → on_sent s = Some (s', o) → Inv [] s'.
Proof.
  intros Hinv H. unfold on_sent in H. destruct (read_loop s) as [|c m f|] eqn:Hrl; [done| |done].
  destruct (chan_send c m s) as [[s1 ok]|] eqn:Hs; simplify_eq/=.
  destruct (inv_read_loop _ _ _ _ _ _ Hinv _ _ _ Hrl) as (ch & Hch & Hm).
  assert (∀ x, x = RlIdle ∨ x = RlClosed → Inv [] (set_read_loop x s1)) as H.
  { intros x Hx. apply (inv_send c m [] (set_read_loop x s) _ ok).
    - by apply (inv_end_read_loop c m f).
    - intros k Hk. simpl in Hk. by simplify_eq.
    - by apply chan_send_read_loop. }
  destruct (ok || negb f); [apply H; by left|]. apply inv_drain_begin, H. by right.
Qed.

Lemma inv_drain_step i s s' o : Inv [] s → drain_step i s = Some (s', o) → Inv [] s'.
Proof.
  intros Hinv H. unfold drain_step in H.
  destruct (draining s !! i) as [[|c task]|] eqn:Hi; [done| |done].
  destruct (chan_send c closed_in_flight s) as [[s1 ok]|] eqn:Hs; simplify_eq/=.
  destruct (chan_send_draining _ _ (<[i := task]> (draining s)) _ _ _ Hs) as [Hs' Hdr].
  rewrite Hdr. apply (inv_send c closed_in_flight [] _ _ _ (inv_pop i c task [] s Hinv Hi)
    ltac:(done) Hs').
Qed.

Lemma inv_cancel_op op s s' x :
  Inv [] s → cancel_op op s = (s', x) →
  Inv (match x with Some ctx => [sc_sender ctx] | None => [] end) s'.
Proof.
  intros Hinv H. unfold cancel_op in H. destruct (po_completed op); [by simplify_eq|].
  simplify_eq. destruct (opaque_map s !! po_opaque op) eqn:Ho.
  - by apply inv_take.
  - by apply inv_delete.
Qed.

Lemma inv_cancel c e s s' o : Inv [] s → cancel c e s = Some (s', o) → Inv [] s'.
Proof.
  intros Hinv H. unfold cancel in H. destruct (pending s !! c) as [op|]; [|done]. simpl in H.
  destruct (cancel_op op s) as [s1 x] eqn:Hc. apply inv_cancel_op in Hc; [|done].
  destruct x as [ctx|]; [|by simplify_eq].
  destruct (chan_send (sc_sender ctx) _ s1) as [[s2 ok]|] eqn:Hs.
  - apply inv_send with (tokens := []) in Hs; [|done..]. destruct ok; by simplify_eq.
  - simplify_eq. by apply inv_weaken in Hc.
Qed.

Lemma inv_drop_op c s s' o : Inv [] s → drop_op c s = Some (s', o) → Inv [] s'.
Proof.
  intros Hinv H. unfold drop_op in H. destruct (pending s !! c) as [op|]; [|done]. simpl in H.
  destruct (cancel_op op s) as [s1 x] eqn:Hc. apply inv_cancel_op in Hc; [|done]. simplify_eq.
  apply inv_drop_receiver. destruct x; [by apply inv_weaken in Hc | done].
Qed.

Lemma inv_recv c s s' o : Inv [] s → recv c s = Some (s', o) → Inv [] s'.
Proof.
  intros Hinv H. unfold recv in H. destruct (pending s !! c) as [op|]; [|done]. simpl in H.
  destruct (channels s !! c) as [ch|] eqn:Hc; [|done]. simpl in H.
  destruct (ch_queue ch) as [|m q] eqn:Hq; [destruct (has_sender c s); by simplify_eq|].
  assert (Inv [] (set_channels (<[c := mkChannel q (ch_alive ch) (ch_opaque ch)
    (ch_persistent ch) (ch_context ch) (ch_sent ch)]> (channels s)) s)) as H1.
  { apply (inv_alter c ch); [done..|]. simpl.
    pose proof (inv_queue _ _ _ _ _ _ Hinv c ch Hc) as Hsf. rewrite Hq in Hsf.
    by eapply suffix_cons_l. }
  destruct (po_is_persistent op); by simplify_eq.
Qed.

Lemma inv_dispatch_write c io s s' o :
  Inv [] s → dispatch_write c io s = Some (s', o) → Inv [] s'.
Proof.
  intros Hinv H. unfold dispatch_write in H.
  destruct (dispatching s !! c) as [[p per]|]; [|done]. simpl in H.
  destruct (writer_send p io _) as [s1 r] eqn:Hw.
  apply (writer_send_inv _ _ _ _ _ []) in Hw as [H1 _]; [|exact Hinv].
  destruct r; simplify_eq; try exact H1. by apply inv_drop_receiver, inv_delete.
Qed.

Lemma inv_step ev s s' o : Inv [] s → step ev s = Some (s', o) → Inv [] s'.
Proof.
  intros Hinv H. destruct ev as [call|c io|c enc|p| | |i| |io|c|c e|c]; cbn [Client.step] in H.
  - unfold dispatch_begin in H. pose proof (inv_register (dc_is_persistent call)
      (dc_response_context call) s Hinv) as Hr.
    destruct (register_handler _ _ s) as [s1 [oq c]]. simplify_eq. exact Hr.
  - by apply inv_dispatch_write in H.
  - unfold dispatch_abort in H. destruct (dispatching s !! c) as [[p per]|]; [|done]. simpl in H.
    assert (Inv [] (drop_receiver c (set_dispatching (base.delete c (dispatching s)) s))) as H1
      by (by apply inv_drop_receiver).
    destruct enc; [|by simplify_eq]. destruct (encode p _) as [w []]; by simplify_eq.
  - by apply inv_on_packet in H.
  - by apply inv_on_sent in H.
  - unfold on_stream_end in H. destruct (read_loop s) eqn:Hrl; simplify_eq.
    apply inv_drain_begin, inv_idle_closed; [done|]. congruence.
  - by apply inv_drain_step in H.
  - simplify_eq. unfold close in *. by destruct (closed s); simplify_eq.
  - unfold close_finish in H. destruct (closed s); simplify_eq. by apply inv_drain_begin.
  - by apply inv_recv in H.
  - by apply inv_cancel in H.
  - by apply inv_drop_op in H.
Qed.

Lemma reachable_inv s : reachable s → Inv [] s.
Proof. induction 1; [apply inv_new | by eapply inv_step]. Qed.

(** *** Handles

    What never changes in a channel, and its receiver. *)
Definition static (ch : Channel) : Z * bool * option ResponseContext * bool :=
  (ch_opaque ch, ch_persistent ch, ch_context ch, ch_alive ch).

Definition statics (s : Client) : gmap nat (Z * bool * option ResponseContext * bool) :=
  static <$> channels s.

(** The opaque of the [c]-th registration. *)
Definition nth_opaque (c : chan) : Z := cast_u 32 (1 + Z.of_nat c).

Record handles_ok (pend : gmap nat PendingOp) (disp : gmap nat (RequestPacket * bool))
    (st : gmap nat (Z * bool * option ResponseContext * bool)) (next : chan) (cur : Z) : Prop := {
  h_pending : ∀ c op, pend !! c = Some op →
    ∃ x, st !! c = Some (po_opaque op, po_is_persistent op, x, true);
  h_dispatching : ∀ c p per, disp !! c = Some (p, per) →
    ∃ o x, rq_opaque p = Some o ∧ st !! c = Some (o, per, x, true);
  h_disjoint : ∀ c, is_Some (disp !! c) → pend !! c = None;
  h_opaques : ∀ c o per x a, st !! c = Some (o, per, x, a) → o = nth_opaque c ∧ (c < next)%nat;
  h_current : cur = nth_opaque next;
}.

Definition Handles (s : Client) : Prop :=
  handles_ok (pending s) (dispatching s) (statics s) (next_channel s) (current_opaque s).

Lemma statics_lookup s c ch : channels s !! c = Some ch → statics s !! c = Some (static ch).
Proof. intros H. unfold statics. by rewrite lookup_fmap, H. Qed.

Lemma statics_insert s c ch ch' :
  channels s !! c = Some ch → static ch' = static ch →
  statics (set_channels (<[c := ch']> (channels s)) s) = statics s.
Proof.
  intros Hc Hs. unfold statics. simpl. rewrite fmap_insert, Hs.
  apply insert_id. by rewrite lookup_fmap, Hc.
Qed.

Lemma chan_send_frame c m s s' ok :
  chan_send c m s = Some (s', ok) →
  statics s' = statics s ∧ pending s' = pending s ∧ dispatching s' = dispatching s
  ∧ next_channel s' = next_channel s ∧ current_opaque s' = current_opaque s.
Proof.
  unfold chan_send. intros H. destruct (channels s !! c) as [ch|] eqn:Hc; [|by simplify_eq].
  destruct (ch_alive ch) eqn:Ha; simpl in H; [|by simplify_eq].
  case_bool_decide; simplify_eq. split_and!; try done.
  apply (statics_insert s c ch); [done|]. unfold static. by rewrite Ha.
Qed.

Lemma drop_receiver_statics c s c' :
  c ≠ c' → statics (drop_receiver c s) !! c' = statics s !! c'.
Proof.
  intros Hne. unfold drop_receiver, statics. destruct (channels s !! c); [|done]. simpl.
  by rewrite !lookup_fmap, lookup_insert_ne.
Qed.

Lemma handles_drop c s :
  Handles s → Handles (drop_receiver c
    (set_dispatching (base.delete c (dispatching s)) (set_pending (base.delete c (pending s)) s))).
Proof.
  intros []. set (s1 := set_dispatching _ _). unfold Handles.
  assert (pending (drop_receiver c s1) = base.delete c (pending s)
    ∧ dispatching (drop_receiver c s1) = base.delete c (dispatching s)
    ∧ next_channel (drop_receiver c s1) = next_channel s
    ∧ current_opaque (drop_receiver c s1) = current_opaque s) as (-> & -> & -> & ->)
    by (unfold drop_receiver; by destruct (channels s1 !! c)).
  assert (∀ c', c ≠ c' → statics (drop_receiver c s1) !! c' = statics s !! c') as Hst
    by (intros; by rewrite drop_receiver_statics).
  constructor; [..|done].
  - intros c' op [Hne H]%lookup_delete_Some. rewrite Hst by done. eauto.
  - intros c' p per [Hne H]%lookup_delete_Some. rewrite Hst by done. eauto.
  - intros c' [x [Hne H]%lookup_delete_Some]. rewrite lookup_delete_ne by done. eauto.
  - intros c' o per x a H. destruct (decide (c = c')) as [<-|Hne];
      [|rewrite Hst in H by done; eauto].
    unfold drop_receiver, statics in H. simpl in H.
    destruct (channels s !! c) as [ch|] eqn:Hc; simpl in H.
    + rewrite lookup_fmap, lookup_insert_eq in H. unfold static in H. simplify_eq/=.
      eapply h_opaques0. by rewrite (statics_lookup _ _ _ Hc).
    + by rewrite lookup_fmap, Hc in H.
Qed.

Lemma handles_register call s :
  Handles s → Handles (fst (dispatch_begin call s)).
Proof.
  intros []. unfold Handles, dispatch_begin, statics. simpl. rewrite fmap_insert.
  fold (statics s).
  assert (∀ c y, statics s !! c = Some y → c ≠ next_channel s) as Hne.
  { intros c [[[o per] x] a] H ->. apply h_opaques0 in H. lia. }
  constructor; simpl.
  - intros c op H. destruct (h_pending0 c op H) as [x Hx]. exists x.
    rewrite lookup_insert_ne; [done|]. intros <-. by apply Hne in Hx.
  - intros c p per [[<- [= <- <-]]|[Hc H]]%lookup_insert_Some.
    + rewrite lookup_insert_eq. by do 2 eexists.
    + rewrite lookup_insert_ne by done. eauto.
  - intros c [y [[<- _]|[Hc H]]%lookup_insert_Some]; [|eauto].
    destruct (pending s !! next_channel s) as [op|] eqn:Hp; [|done].
    destruct (h_pending0 _ _ Hp) as [x Hx]. by apply Hne in Hx.
  - intros c o per x a [[<- [= <- _ _ _]]|[Hc H]]%lookup_insert_Some; [by split; [|lia]|].
    apply h_opaques0 in H as [-> ?]. split; [done | lia].
  - rewrite h_current0. unfold nth_opaque, cast_u. rewrite Zplus_mod_idemp_l. f_equal. lia.
Qed.

Lemma handles_send c m s s' ok : chan_send c m s = Some (s', ok) → Handles s → Handles s'.
Proof.
  intros (Hst & Hp & Hd & Hn & Hc)%chan_send_frame H. unfold Handles.
  by rewrite Hst, Hp, Hd, Hn, Hc.
Qed.

Lemma handles_cancel_op op s s' x : cancel_op op s = (s', x) → Handles s → Handles s'.
Proof. unfold cancel_op. intros H Hh. destruct (po_completed op); simplify_eq; exact Hh. Qed.

(** Dropping the receiver of a channel that is only dispatching, or only pending. *)
Lemma handles_drop_dispatching c s :
  Handles s → is_Some (dispatching s !! c) →
  Handles (drop_receiver c (set_dispatching (base.delete c (dispatching s)) s)).
Proof.
  intros H Hd. pose proof (handles_drop c s H) as Hdrop.
  rewrite (delete_id (pending s)) in Hdrop by (by apply (h_disjoint _ _ _ _ _ H)). by destruct s.
Qed.

Lemma handles_drop_pending c s :
  Handles s → is_Some (pending s !! c) →
  Handles (drop_receiver c (set_pending (base.delete c (pending s)) s)).
Proof.
  intros H [op Hp]. pose proof (handles_drop c s H) as Hdrop.
  rewrite (delete_id (dispatching s)) in Hdrop; [by destruct s|].
  destruct (dispatching s !! c) eqn:Hd; [|done].
  by rewrite (h_disjoint _ _ _ _ _ H) in Hp by eauto.
Qed.

Lemma handles_write c io s s' o :
  Handles s → dispatch_write c io s = Some (s', o) → Handles s'.
Proof.
  intros H Hw. unfold dispatch_write in Hw.
  destruct (dispatching s !! c) as [[p per]|] eqn:Hd; [|done]. simpl in Hw.
  destruct (writer_send p io _) as [s1 r] eqn:Hs.
  assert (∃ w, s1 = set_written w (set_dispatching (base.delete c (dispatching s)) s)) as [w ->].
  { unfold writer_send in Hs. destruct io; [..|simplify_eq; by exists (written s); destruct s|];
      destruct (encode p _) as [w q]; destruct q; simplify_eq; by exists w. }
  destruct (h_dispatching _ _ _ _ _ H _ _ _ Hd) as (oq & x & Hoq & Hx). rewrite Hoq in Hw.
  destruct r; simplify_eq.
  - destruct H. constructor; simpl; eauto.
    + intros c' op [[<- <-]|[Hne Hp]]%lookup_insert_Some; [simpl; eauto | eauto].
    + intros c' p' per' [Hne Hp]%lookup_delete_Some. eauto.
    + intros c' [y [Hne Hp]%lookup_delete_Some]. rewrite lookup_insert_ne by done. eauto.
  - pose proof (handles_drop_dispatching c s H ltac:(eauto)) as H1.
    unfold drop_receiver in *. simpl in *. by destruct (channels s !! c).
  - by apply writer_send_no_panic in Hs.
Qed.

Lemma handles_recv c s s' o : Handles s → recv c s = Some (s', o) → Handles s'.
Proof.
  intros H Hr. unfold recv in Hr. destruct (pending s !! c) as [op|] eqn:Hp; [|done].
  simpl in Hr. destruct (channels s !! c) as [ch|] eqn:Hc; [|done]. simpl in Hr.
  destruct (ch_queue ch) as [|m q]; [destruct (has_sender c s); by simplify_eq|].
  set (ch' := mkChannel q _ _ _ _ _) in Hr.
  assert (Handles (set_channels (<[c := ch']> (channels s)) s)) as H1.
  { unfold Handles. by rewrite (statics_insert s c ch ch'). }
  destruct (po_is_persistent op) eqn:Hper; simplify_eq/=; [done|].
  destruct H1. constructor; simpl in *; eauto.
  - intros c' op' [[<- <-]|[Hne Hp']]%lookup_insert_Some; [|eauto]. simpl.
    destruct (h_pending0 c op Hp) as [x Hx]. rewrite Hper in Hx. eauto.
  - intros c' Hd. specialize (h_disjoint0 c' Hd). rewrite lookup_insert_ne; [done|].
    intros <-. congruence.
Qed.

Lemma handles_step ev s s' o : Handles s → step ev s = Some (s', o) → Handles s'.
Proof.
  intros Hh H. destruct ev as [call|c io|c enc|p| | |i| |io|c|c e|c]; cbn [Client.step] in H.
  - pose proof (handles_register call s Hh). by destruct (dispatch_begin call s); simplify_eq.
  - by apply handles_write in H.
  - unfold dispatch_abort in H. destruct (dispatching s !! c) as [[p per]|] eqn:Hd; [|done].
    simpl in H. pose proof (handles_drop_dispatching c s Hh ltac:(eauto)) as H1.
    destruct enc; [|by simplify_eq]. destruct (encode p _) as [w []]; by simplify_eq.
  - unfold on_packet in H. repeat case_match; simplify_eq; exact Hh.
  - unfold on_sent in H. destruct (read_loop s) as [|c m f|]; [done| |done].
    destruct (chan_send c m s) as [[s1 ok]|] eqn:Hs; simplify_eq/=.
    apply handles_send in Hs; [|done]. destruct (ok || negb f); exact Hs.
  - unfold on_stream_end in H. destruct (read_loop s); simplify_eq. exact Hh.
  - unfold drain_step in H. repeat case_match; try done.
    destruct (chan_send _ _ s) as [[s1 ok]|] eqn:Hs; simplify_eq/=.
    by apply handles_send in Hs.
  - simplify_eq. unfold close in *. destruct (closed s); simplify_eq; exact Hh.
  - unfold close_finish in H. destruct (closed s); simplify_eq. exact Hh.
  - by apply handles_recv in H.
  - unfold cancel in H. destruct (pending s !! c) as [op|]; [|done]. simpl in H.
    destruct (cancel_op op s) as [s1 x] eqn:Hc. apply handles_cancel_op in Hc; [|done].
    destruct x as [ctx|]; [|by simplify_eq].
    destruct (chan_send _ _ s1) as [[s2 ok]|] eqn:Hs; [|by simplify_eq].
    apply handles_send in Hs; [|done]. destruct ok; by simplify_eq.
  - unfold drop_op in H. destruct (pending s !! c) as [op|] eqn:Hp; [|done]. simpl in H.
    destruct (cancel_op op s) as [s1 x] eqn:Hc. simplify_eq.
    assert (Handles s1 ∧ pending s1 = pending s) as [H1 Hpe].
    { unfold cancel_op in Hc. destruct (po_completed op); by simplify_eq. }
    apply handles_drop_pending; [done|]. rewrite Hpe. eauto.
Qed.

Lemma handles_new : Handles client_new.
Proof.
  constructor; simpl; intros *; unfold statics; rewrite ?fmap_empty, ?lookup_empty; try done.
Qed.

Lemma reachable_handles s : reachable s → Handles s.
Proof. induction 1; [apply handles_new | by eapply handles_step]. Qed.

(** *** No operation is lost

    As long as opaques have not wrapped around, an operation that waits for its
    answer is in the map, in the hands of the read loop or of a drain, or has the
    answer in its queue. *)
Definition rights (tokens : list chan) (s : Client) (c : chan) (ch : Channel) : nat :=
  count c tokens + in_map (opaque_map s) c ch + in_read_loop (read_loop s) c
  + count c (concat (draining s)).

Definition waiting (s : Client) (c : chan) : Prop :=
  (∃ op, pending s !! c = Some op ∧ po_completed op = false ∧ po_is_persistent op = false)
  ∨ (∃ p, dispatching s !! c = Some (p, false)).

Definition NoLost (tokens : list chan) (s : Client) : Prop :=
  ∀ c ch, waiting s c → channels s !! c = Some ch →
    (1 ≤ rights tokens s c ch + length (ch_queue ch))%nat.

(** No opaque has been used twice. *)
Definition no_wrap (s : Client) : Prop := Z.of_nat (next_channel s) <= 2 ^ 32.

Lemma rights_take o ctx tokens s c ch :
  opaque_map s !! o = Some ctx → (sc_sender ctx = c → ch_opaque ch = o) →
  rights (sc_sender ctx :: tokens) (set_map (base.delete o (opaque_map s)) s) c ch
  = rights tokens s c ch.
Proof.
  intros Ho Hc. unfold rights, in_map. simpl. rewrite count_cons.
  destruct (decide (ch_opaque ch = o)) as [->|Hne].
  - rewrite lookup_delete_eq, Ho. case_decide; lia.
  - rewrite lookup_delete_ne by congruence. rewrite decide_False by auto. lia.
Qed.

Lemma rights_set_read_loop c msg f tokens s c' ch :
  (∀ c' m' f', read_loop s ≠ RlSending c' m' f') →
  rights tokens (set_read_loop (RlSending c msg f) s) c' ch = rights (c :: tokens) s c' ch.
Proof.
  intros H. unfold rights. simpl. rewrite count_cons.
  destruct (read_loop s); [|naive_solver|]; simpl; lia.
Qed.

Lemma rights_end_read_loop c msg f x tokens s c' ch :
  read_loop s = RlSending c msg f → (x = RlIdle ∨ x = RlClosed) →
  rights (c :: tokens) (set_read_loop x s) c' ch = rights tokens s c' ch.
Proof.
  intros H Hx. unfold rights. rewrite H. simpl. rewrite count_cons.
  destruct Hx as [-> | ->]; simpl; lia.
Qed.

Lemma rights_drain_begin tokens s c ch :
  Inv tokens s → channels s !! c = Some ch →
  rights tokens (drain_begin s) c ch = rights tokens s c ch.
Proof.
  intros [] Hc. unfold rights, drain_begin. simpl. fold (senders (opaque_map s)).
  rewrite concat_app, count_app. simpl. rewrite app_nil_r.
  rewrite (senders_count c (ch_opaque ch)).
  - unfold in_map. rewrite lookup_empty. lia.
  - intros o' ctx H Hs. destruct (inv_map0 o' ctx H) as (ch' & Hch' & Ho & _). congruence.
Qed.

Lemma rights_pop i c task tokens s c' ch :
  draining s !! i = Some (c :: task) →
  rights (c :: tokens) (set_draining (<[i := task]> (draining s)) s) c' ch
  = rights tokens s c' ch.
Proof.
  intros Hi. unfold rights. simpl. rewrite (count_perm c' (concat (draining s))
    (c :: concat (<[i := task]> (draining s)))).
  - rewrite !count_cons. lia.
  - clear -Hi. revert i Hi. induction (draining s) as [|t dr IH]; intros i Hi; [done|].
    destruct i as [|i]; simpl in *; [by simplify_eq|]. rewrite (IH i Hi).
    by rewrite Permutation_middle.
Qed.

Lemma waiting_alive s c ch :
  Handles s → waiting s c → channels s !! c = Some ch → ch_alive ch = true.
Proof.
  intros [] Hw Hc. apply statics_lookup in Hc.
  destruct Hw as [(op & Hp & _)|[p Hp]].
  - destruct (h_pending0 c op Hp) as [x Hx]. rewrite Hc in Hx. unfold static in Hx. congruence.
  - destruct (h_dispatching0 c p false Hp) as (o & x & _ & Hx). rewrite Hc in Hx.
    unfold static in Hx. congruence.
Qed.

Lemma nolost_send c m tokens s s' ok :
  Handles s → NoLost (c :: tokens) s → chan_send c m s = Some (s', ok) → NoLost tokens s'.
Proof.
  intros Hh Hn Hs c' ch' Hw Hc'.
  pose proof (chan_send_frame _ _ _ _ _ Hs) as (_ & Hp & Hd & _).
  assert (waiting s c') as Hw' by (unfold waiting in *; by rewrite Hp, Hd in Hw).
  unfold chan_send in Hs. destruct (channels s !! c) as [ch|] eqn:Hc.
  - destruct (ch_alive ch) eqn:Ha; simpl in Hs.
    + case_bool_decide; [|done]. simplify_eq. simpl in Hc'.
      apply lookup_insert_Some in Hc' as [[<- <-]|[Hne Hc']]; [simpl; lia|].
      specialize (Hn c' ch' Hw' Hc'). unfold rights in *. simpl.
      rewrite count_cons, decide_False in Hn by congruence. lia.
    + simplify_eq. destruct (decide (c = c')) as [<-|Hne].
      * pose proof (waiting_alive _ _ _ Hh Hw' Hc'). congruence.
      * specialize (Hn c' ch' Hw' Hc'). unfold rights in *.
        rewrite count_cons, decide_False in Hn by congruence. lia.
  - simplify_eq. specialize (Hn c' ch' Hw' Hc'). unfold rights in *.
    rewrite count_cons, decide_False in Hn by congruence. lia.
Qed.

Lemma nth_opaque_inj c1 c2 :
  Z.of_nat c1 < 2 ^ 32 → Z.of_nat c2 < 2 ^ 32 → nth_opaque c1 = nth_opaque c2 → c1 = c2.
Proof.
  unfold nth_opaque, cast_u. intros H1 H2 H.
  destruct (decide (1 + Z.of_nat c1 = 2 ^ 32)) as [E1|N1];
    destruct (decide (1 + Z.of_nat c2 = 2 ^ 32)) as [E2|N2]; [lia|..].
  - rewrite E1, Z_mod_same_full, Z.mod_small in H by lia. lia.
  - rewrite E2, Z_mod_same_full, Z.mod_small in H by lia. lia.
  - rewrite !Z.mod_small in H by lia. lia.
Qed.

Lemma channel_opaque s c ch :
  Handles s → channels s !! c = Some ch → ch_opaque ch = nth_opaque c ∧ (c < next_channel s)%nat.
Proof. intros [] H%statics_lookup. by apply h_opaques0 in H. Qed.

(** Without wrap-around an opaque identifies its channel. *)
Lemma map_sender s o ctx c ch :
  Inv [] s → Handles s → no_wrap s → opaque_map s !! o = Some ctx →
  channels s !! c = Some ch → ch_opaque ch = o → sc_sender ctx = c.
Proof.
  intros Hinv Hh Hw Ho Hc <-. destruct (inv_map _ _ _ _ _ _ Hinv _ _ Ho) as (k & Hk & Hok & _).
  destruct (channel_opaque _ _ _ Hh Hc) as [E1 L1]. destruct (channel_opaque _ _ _ Hh Hk) as [E2 L2].
  apply nth_opaque_inj; unfold no_wrap in Hw; [lia..|]. congruence.
Qed.

(** A step that leaves the waiting operations and their channels alone. *)
Lemma nolost_frame tokens tokens' s s' :
  NoLost tokens s → (∀ c, waiting s' c → waiting s c) →
  (∀ c ch, waiting s' c → channels s' !! c = Some ch → channels s !! c = Some ch) →
  (∀ c ch, waiting s' c → channels s' !! c = Some ch →
     rights tokens' s' c ch = rights tokens s c ch) →
  NoLost tokens' s'.
Proof.
  intros Hn Hw Hc Hr c ch Hwc Hch. rewrite Hr by done. apply Hn; eauto.
Qed.

Lemma nolost_take o ctx s :
  Inv [] s → NoLost [] s → opaque_map s !! o = Some ctx →
  NoLost [sc_sender ctx] (set_map (base.delete o (opaque_map s)) s).
Proof.
  intros Hinv Hn Ho. eapply nolost_frame; eauto. intros c ch _ Hch. apply rights_take; [done|].
  intros <-. destruct (inv_map _ _ _ _ _ _ Hinv _ _ Ho) as (k & Hk & Hok & _). simpl in Hch.
  congruence.
Qed.

Lemma nolost_dispatch call s :
  Inv [] s → Handles s → no_wrap (fst (dispatch_begin call s)) → NoLost [] s →
  NoLost [] (fst (dispatch_begin call s)).
Proof.
  intros Hinv Hh Hw Hn c ch Hwait Hc. unfold no_wrap in Hw. simpl in *.
  apply lookup_insert_Some in Hc as [[<- <-]|[Hne Hc]].
  - unfold rights, in_map. simpl. rewrite lookup_insert_eq, decide_True by done. simpl. lia.
  - assert (waiting s c) as Hws.
    { destruct Hwait as [Hp|[p Hp]]; [by left|]. simpl in Hp.
      rewrite lookup_insert_ne in Hp by done. right; eauto. }
    specialize (Hn c ch Hws Hc). unfold rights, in_map in *. simpl.
    destruct (channel_opaque _ _ _ Hh Hc) as [Ho Hlt].
    rewrite lookup_insert_ne; [done|]. rewrite Ho, (h_current _ _ _ _ _ Hh).
    intros H. apply nth_opaque_inj in H; lia.
Qed.

Lemma nolost_drop c m s :
  Inv [] s → Handles s → no_wrap s → NoLost [] s → is_Some (channels s !! c) →
  (m = opaque_map s ∨ m = base.delete (nth_opaque c) (opaque_map s)) →
  NoLost [] (drop_receiver c (set_map m
    (set_dispatching (base.delete c (dispatching s)) (set_pending (base.delete c (pending s)) s)))).
Proof.
  intros Hinv Hh Hw Hn [k Hk] Hm. unfold drop_receiver. simpl. rewrite Hk.
  eapply nolost_frame; [done|..].
  - intros c' [(op & Hp & ?)|[p Hp]]; simpl in Hp; apply lookup_delete_Some in Hp as [Hne Hp];
      [left | right]; eauto.
  - intros c' ch Hwc Hc. simpl in Hc. rewrite lookup_insert_ne in Hc; [done|]. intros <-.
    by destruct Hwc as [(op & Hp & ?)|[p Hp]]; simpl in Hp; rewrite lookup_delete_eq in Hp.
  - intros c' ch Hwc Hc. simpl in Hc.
    assert (c ≠ c') as Hne.
    { intros <-. by destruct Hwc as [(op & Hp & ?)|[p Hp]]; simpl in Hp;
        rewrite lookup_delete_eq in Hp. }
    rewrite lookup_insert_ne in Hc by done. unfold rights, in_map. simpl.
    destruct (channel_opaque _ _ _ Hh Hc) as [Ho Hlt].
    destruct (channel_opaque _ _ _ Hh Hk) as [Ho' Hlt']. unfold no_wrap in Hw.
    destruct Hm as [-> | ->]; [done|]. rewrite lookup_delete_ne; [done|].
    rewrite Ho. intros H. apply nth_opaque_inj in H; lia.
Qed.

Lemma nolost_write c io s s' o :
  Inv [] s → Handles s → no_wrap s → NoLost [] s →
  dispatch_write c io s = Some (s', o) → NoLost [] s'.
Proof.
  intros Hinv Hh Hwrap Hn H. unfold dispatch_write in H.
  destruct (dispatching s !! c) as [[p per]|] eqn:Hd; [|done]. simpl in H.
  destruct (writer_send p io _) as [s1 r] eqn:Hs.
  assert (∃ w, s1 = set_written w (set_dispatching (base.delete c (dispatching s)) s)) as [w ->].
  { unfold writer_send in Hs. destruct io; [..|simplify_eq; by exists (written s); destruct s|];
      destruct (encode p _) as [w q]; destruct q; simplify_eq; by exists w. }
  destruct (h_dispatching _ _ _ _ _ Hh _ _ _ Hd) as (oq & x & Hoq & Hx). rewrite Hoq in H.
  destruct (h_opaques _ _ _ _ _ Hh _ _ _ _ _ Hx) as [-> Hlt].
  assert (is_Some (channels s !! c)) as Hc.
  { unfold statics in Hx. rewrite lookup_fmap in Hx. destruct (channels s !! c); eauto. done. }
  destruct r; simplify_eq.
  - eapply nolost_frame; [exact Hn|..]; [|done..].
    intros c' [(op & Hp & Hcm & Hpe)|[q Hp]]; simpl in Hp.
    + apply lookup_insert_Some in Hp as [[<- <-]|[Hne Hp]]; [|left; eauto].
      simpl in *. subst per. right. eauto.
    + apply lookup_delete_Some in Hp as [_ Hp]. right; eauto.
  - pose proof (nolost_drop c _ s Hinv Hh Hwrap Hn Hc (or_intror eq_refl)) as H1.
    rewrite (delete_id (pending s)) in H1 by (apply (h_disjoint _ _ _ _ _ Hh); eauto).
    unfold drop_receiver in *. simpl in *. by destruct (channels s !! c).
  - by apply writer_send_no_panic in Hs.
Qed.

Lemma nolost_on_packet p s s' o :
  Inv [] s → NoLost [] s →
  on_packet decompress_vec disable_decompression has_orphan_handler p s = Some (s', o) →
  NoLost [] s'.
Proof.
  intros Hinv Hn H. unfold on_packet in H. destruct (read_loop s) eqn:Hrl; [|done..].
  case_bool_decide; [simplify_eq; exact Hn|].
  destruct (opaque_map s !! rs_opaque p) as [ctx|] eqn:Hctx;
    [|simplify_eq; by destruct has_orphan_handler].
  pose proof (nolost_take _ _ _ Hinv Hn Hctx) as Ht.
  destruct (decompress _ _ p) as [p'|] eqn:Hd; simplify_eq.
  - destruct (sc_is_persistent ctx) eqn:Hper.
    + simpl. rewrite insert_delete_id by done. intros c ch Hw Hc. specialize (Hn c ch Hw Hc).
      unfold rights in *. simpl. rewrite Hrl in Hn. simpl in Hn. lia.
    + eapply nolost_frame; [exact Ht|done..|]. intros c ch _ _.
      apply rights_set_read_loop. simpl. congruence.
  - eapply nolost_frame; [exact Ht|done..|]. intros c ch _ _.
    apply rights_set_read_loop. simpl. congruence.
Qed.

Lemma nolost_drain_begin s : Inv [] s → NoLost [] s → NoLost [] (drain_begin s).
Proof.
  intros Hinv Hn. eapply nolost_frame; [exact Hn|done..|]. intros c ch _ Hc.
  by apply rights_drain_begin.
Qed.

Lemma nolost_on_sent s s' o :
  Inv [] s → Handles s → NoLost [] s → on_sent s = Some (s', o) → NoLost [] s'.
Proof.
  intros Hinv Hh Hn H. pose proof (inv_on_sent s s' o Hinv H) as Hinv'. unfold on_sent in H.
  destruct (read_loop s) as [|c m f|] eqn:Hrl; [done| |done].
  destruct (chan_send c m s) as [[s1 ok]|] eqn:Hs; simplify_eq/=.
  destruct (inv_read_loop _ _ _ _ _ _ Hinv _ _ _ Hrl) as (ch & Hch & Hm).
  assert (∀ x, x = RlIdle ∨ x = RlClosed →
    Inv [] (set_read_loop x s1) ∧ NoLost [] (set_read_loop x s1)) as H.
  { intros x Hx. pose proof (chan_send_read_loop c m x s s1 ok Hs) as Hs'. split.
    - apply (inv_send c m [] (set_read_loop x s) _ ok); [|by intros; simplify_eq/=|done].
      by apply (inv_end_read_loop c m f).
    - eapply nolost_send; [|..|exact Hs']; [exact Hh|].
      eapply nolost_frame; [exact Hn|done..|]. intros c' ch' _ _.
      by apply (rights_end_read_loop c m f). }
  destruct (ok || negb f); [apply H; by left|].
  destruct (H RlClosed) as [H1 H2]; [by right|]. by apply nolost_drain_begin.
Qed.

Lemma nolost_drain_step i s s' o :
  Handles s → NoLost [] s → drain_step i s = Some (s', o) → NoLost [] s'.
Proof.
  intros Hh Hn H. unfold drain_step in H.
  destruct (draining s !! i) as [[|c task]|] eqn:Hi; [done| |done].
  destruct (chan_send c closed_in_flight s) as [[s1 ok]|] eqn:Hs; simplify_eq/=.
  destruct (chan_send_draining _ _ (<[i := task]> (draining s)) _ _ _ Hs) as [Hs' Hdr].
  rewrite Hdr. eapply nolost_send; [|..|exact Hs']; [exact Hh|].
  eapply nolost_frame; [exact Hn|done..|]. intros c' ch' _ _. by apply rights_pop.
Qed.

Lemma nolost_recv c s s' o : Handles s → NoLost [] s → recv c s = Some (s', o) → NoLost [] s'.
Proof.
  intros Hh Hn Hr. unfold recv in Hr. destruct (pending s !! c) as [op|] eqn:Hp; [|done].
  simpl in Hr. destruct (channels s !! c) as [ch|] eqn:Hc; [|done]. simpl in Hr.
  destruct (ch_queue ch) as [|m q]; [destruct (has_sender c s); by simplify_eq|].
  set (ch' := mkChannel q _ _ _ _ _) in Hr.
  assert (∀ c', waiting s' c' → waiting s c' ∧ c ≠ c') as Hw.
  { assert (dispatching s !! c = None) as Hdn.
    { destruct (dispatching s !! c) eqn:Hd; [|done].
      by rewrite (h_disjoint _ _ _ _ _ Hh) in Hp by eauto. }
    intros c' Hw. destruct (po_is_persistent op) eqn:Hper; simplify_eq/=.
    - split; [exact Hw|]. intros <-. destruct Hw as [(op' & Hp' & _ & ?)|[p Hp']]; simpl in Hp';
        congruence.
    - destruct Hw as [(op' & Hp' & Hcm & ?)|[p Hp']]; simpl in Hp'.
      + apply lookup_insert_Some in Hp' as [[<- <-]|[Hne Hp']]; [done|].
        split; [left; eauto | done].
      + split; [right; eauto|]. congruence. }
  eapply nolost_frame; [exact Hn|..].
  - intros c' Hw'. by apply Hw.
  - intros c' k [_ Hne]%Hw Hk. destruct (po_is_persistent op); simplify_eq/=;
      by rewrite lookup_insert_ne in Hk.
  - intros c' k _ _. destruct (po_is_persistent op); by simplify_eq/=.
Qed.

Lemma nolost_cancel c e s s' o :
  Inv [] s → Handles s → no_wrap s → NoLost [] s → cancel c e s = Some (s', o) → NoLost [] s'.
Proof.
  intros Hinv Hh Hwrap Hn H. unfold cancel in H.
  destruct (pending s !! c) as [op|] eqn:Hp; [|done]. simpl in H.
  destruct (h_pending _ _ _ _ _ Hh _ _ Hp) as [x Hx].
  unfold statics in Hx. rewrite lookup_fmap in Hx.
  destruct (channels s !! c) as [ch|] eqn:Hc; [|done]. simpl in Hx. unfold static in Hx.
  injection Hx as Hop Hper _ Hal. unfold cancel_op in H.
  destruct (po_completed op) eqn:Hcm; [by simplify_eq|].
  destruct (opaque_map s !! po_opaque op) as [ctx|] eqn:Ho.
  - pose proof (nolost_take _ _ _ Hinv Hn Ho) as Ht. pose proof (inv_take _ _ _ _ Hinv Ho) as Hi.
    destruct (inv_map _ _ _ _ _ _ Hinv _ _ Ho) as (k & Hk & Hok & Hpk & _).
    destruct (chan_send _ _ _) as [[s2 ok]|] eqn:Hs.
    + apply nolost_send with (tokens := []) in Hs; [|exact Hh|done]. destruct ok; by simplify_eq.
    + simplify_eq. intros c' ch' Hw Hc'. specialize (Ht c' ch' Hw Hc').
      destruct (decide (sc_sender ctx = c')) as [<-|Hne].
      * simpl in Hc'. destruct (ch_persistent ch') eqn:Hpp.
        -- exfalso. destruct Hw as [(op' & Hp' & _ & Hn')|[q Hq]].
           ++ destruct (h_pending _ _ _ _ _ Hh _ _ Hp') as [y Hy].
              rewrite (statics_lookup _ _ _ Hc') in Hy. unfold static in Hy. congruence.
           ++ destruct (h_dispatching _ _ _ _ _ Hh _ _ _ Hq) as (y & z & _ & Hy).
              rewrite (statics_lookup _ _ _ Hc') in Hy. unfold static in Hy. congruence.
        -- destruct (send_not_blocked _ ch' (inr (new_cancelled_error e)) _ _ Hi Hc' Hpp)
             as [s3 Hs3]. congruence.
      * unfold rights in *. rewrite count_cons, decide_False in Ht by done. lia.
  - simplify_eq. rewrite (delete_id (opaque_map s)) by done. by destruct s.
Qed.

Lemma drop_receiver_next c s : next_channel (drop_receiver c s) = next_channel s.
Proof. unfold drop_receiver. by destruct (channels s !! c). Qed.

Lemma next_channel_mono ev s s' o :
  step ev s = Some (s', o) → (next_channel s ≤ next_channel s')%nat.
Proof.
  intros H. destruct ev as [call|c io|c enc|p| | |i| |io|c|c e|c]; cbn [Client.step] in H.
  - unfold dispatch_begin in H. simpl in H. simplify_eq. simpl. lia.
  - unfold dispatch_write, writer_send in H. destruct (dispatching s !! c) as [[p per]|]; [|done].
    simpl in H. repeat case_match; simplify_eq; rewrite ?drop_receiver_next; done.
  - unfold dispatch_abort in H. destruct (dispatching s !! c) as [[p per]|]; [|done].
    simpl in H. repeat case_match; simplify_eq; simpl; by rewrite ?drop_receiver_next.
  - unfold on_packet in H. repeat case_match; simplify_eq; done.
  - unfold on_sent in H. destruct (read_loop s) as [|c m f|]; [done| |done].
    destruct (chan_send c m s) as [[s1 ok]|] eqn:Hs; simplify_eq/=.
    apply chan_send_frame in Hs as (_ & _ & _ & Hn & _).
    destruct (ok || negb f); simpl; by rewrite Hn.
  - unfold on_stream_end in H. by destruct (read_loop s); simplify_eq.
  - unfold drain_step in H. repeat case_match; try done.
    destruct (chan_send _ _ s) as [[s1 ok]|] eqn:Hs; simplify_eq/=.
    apply chan_send_frame in Hs as (_ & _ & _ & Hn & _). by rewrite Hn.
  - unfold close in H. by destruct (closed s); simplify_eq.
  - unfold close_finish in H. by destruct (closed s); simplify_eq.
  - unfold recv in H. destruct (pending s !! c) as [op|]; [|done]. simpl in H.
    destruct (channels s !! c) as [ch|]; [|done]. simpl in H. repeat case_match; by simplify_eq.
  - unfold cancel, cancel_op in H. destruct (pending s !! c) as [op|]; [|done]. simpl in H.
    destruct (po_completed op); [by simplify_eq|].
    destruct (opaque_map s !! _) as [ctx|]; [|by simplify_eq].
    destruct (chan_send _ _ _) as [[s1 ok]|] eqn:Hs; [|by simplify_eq].
    apply chan_send_frame in Hs as (_ & _ & _ & Hn & _). simpl in Hn.
    destruct ok; simplify_eq; by rewrite Hn.
  - unfold drop_op, cancel_op in H. destruct (pending s !! c) as [op|]; [|done]. simpl in H.
    destruct (po_completed op); simplify_eq; by rewrite drop_receiver_next.
Qed.

Lemma nolost_step ev s s' o :
  Inv [] s → Handles s → no_wrap s' → NoLost [] s → step ev s = Some (s', o) → NoLost [] s'.
Proof.
  intros Hinv Hh Hw' Hn H.
  assert (no_wrap s) as Hw by (apply next_channel_mono in H; unfold no_wrap in *; lia).
  destruct ev as [call|c io|c enc|p| | |i| |io|c|c e|c]; cbn [Client.step] in H.
  - pose proof (nolost_dispatch call s Hinv Hh). destruct (dispatch_begin call s). simplify_eq. auto.
  - by apply nolost_write in H.
  - unfold dispatch_abort in H. destruct (dispatching s !! c) as [[p per]|] eqn:Hd; [|done].
    simpl in H. destruct (h_dispatching _ _ _ _ _ Hh _ _ _ Hd) as (oq & x & _ & Hx).
    assert (is_Some (channels s !! c)) as Hc.
    { unfold statics in Hx. rewrite lookup_fmap in Hx. by destruct (channels s !! c). }
    pose proof (nolost_drop c _ s Hinv Hh Hw Hn Hc (or_introl eq_refl)) as H1.
    rewrite (delete_id (pending s)) in H1 by (apply (h_disjoint _ _ _ _ _ Hh); eauto).
    assert (NoLost [] (drop_receiver c (set_dispatching (base.delete c (dispatching s)) s))) as H2
      by (unfold drop_receiver in *; simpl in *; by destruct (channels s !! c)).
    destruct enc; [|by simplify_eq]. destruct (encode p _) as [w []]; by simplify_eq.
  - by apply nolost_on_packet in H.
  - by apply nolost_on_sent in H.
  - unfold on_stream_end in H. destruct (read_loop s) eqn:Hrl; simplify_eq.
    apply nolost_drain_begin; [apply inv_idle_closed; [done | congruence]|].
    eapply nolost_frame; [exact Hn|done..|]. intros c ch _ _. unfold rights. by rewrite Hrl.
  - by apply nolost_drain_step in H.
  - unfold close in H. destruct (closed s); simplify_eq; exact Hn.
  - unfold close_finish in H. destruct (closed s); simplify_eq. by apply nolost_drain_begin.
  - by apply nolost_recv in H.
  - by apply nolost_cancel in H.
  - unfold drop_op in H. destruct (pending s !! c) as [op|] eqn:Hp; [|done]. simpl in H.
    destruct (h_pending _ _ _ _ _ Hh _ _ Hp) as [x Hx].
    destruct (h_opaques _ _ _ _ _ Hh _ _ _ _ _ Hx) as [Hop _].
    assert (is_Some (channels s !! c)) as Hc.
    { unfold statics in Hx. rewrite lookup_fmap in Hx. by destruct (channels s !! c). }
    assert (dispatching s !! c = None) as Hdn.
    { destruct (dispatching s !! c) eqn:Hd; [|done].
      by rewrite (h_disjoint _ _ _ _ _ Hh) in Hp by eauto. }
    unfold cancel_op in H. rewrite Hop in H. destruct (po_completed op); simplify_eq.
    + pose proof (nolost_drop c _ s Hinv Hh Hw Hn Hc (or_introl eq_refl)) as H1.
      rewrite (delete_id (dispatching s)) in H1 by done.
      unfold drop_receiver in *; simpl in *; by destruct (channels s !! c).
    + pose proof (nolost_drop c _ s Hinv Hh Hw Hn Hc (or_intror eq_refl)) as H1.
      rewrite (delete_id (dispatching s)) in H1 by done.
      unfold drop_receiver in *; simpl in *; by destruct (channels s !! c).
Qed.

Lemma reachable_nolost s : reachable s → no_wrap s → NoLost [] s.
Proof.
  induction 1 as [|s ev s' o Hr IH Hs]; intros Hw.
  - intros c ch [(op & Hp & _)|[p Hp]] _; simpl in Hp; by rewrite lookup_empty in Hp.
  - apply (nolost_step ev s s' o); auto using reachable_inv, reachable_handles.
    apply IH. apply next_channel_mono in Hs. unfold no_wrap in *. lia.
Qed.

Lemma rights_has_sender s c ch :
  (1 ≤ in_map (opaque_map s) c ch + in_read_loop (read_loop s) c
       + count c (concat (draining s)) + 0)%nat → has_sender c s = true.
Proof.
  intros H. unfold has_sender. rewrite !orb_true_iff, !bool_decide_eq_true.
  destruct (in_map (opaque_map s) c ch) eqn:Hm.
  - destruct (in_read_loop (read_loop s) c) eqn:Hr.
    + right. destruct (decide (c ∈ concat (draining s))) as [Hc|Hc];
        [|rewrite count_notin in H by done; simpl in H; lia].
      apply list_elem_of_In, in_concat in Hc as (l & H1 & H2).
      apply list.Exists_exists. exists l. by rewrite !list_elem_of_In.
    + left. right. unfold in_read_loop in Hr. destruct (read_loop s); try done.
      case_decide; [|done]. by apply bool_decide_eq_true.
  - left. left. unfold in_map in Hm. destruct (opaque_map s !! _) as [ctx|] eqn:Ho; [|done].
    case_decide; [|done]. by exists (ch_opaque ch), ctx.
Qed.

Lemma reachable_run evs s s' os :
  reachable s → run decompress_vec disable_decompression has_orphan_handler evs s = Some (s', os) →
  reachable s'.
Proof.
  revert s os. induction evs as [|ev evs IH]; intros s os Hr H; simpl in H; [by simplify_eq|].
  destruct (step ev s) as [[s1 o]|] eqn:Hs; simplify_eq/=.
  destruct (run _ _ _ evs s1) as [[s2 os2]|] eqn:Hrun; simplify_eq/=. eauto using reachable_step.
Qed.

(** The next opaque is not in use. *)
Lemma current_opaque_free s :
  reachable s → Z.of_nat (next_channel s) < 2 ^ 32 → opaque_map s !! current_opaque s = None.
Proof.
  intros Hr Hw. pose proof (reachable_inv s Hr) as Hinv. pose proof (reachable_handles s Hr) as Hh.
  destruct (opaque_map s !! current_opaque s) as [ctx|] eqn:Ho; [|done].
  destruct (inv_map _ _ _ _ _ _ Hinv _ _ Ho) as (ch & Hch & Hoq & _).
  destruct (channel_opaque _ _ _ Hh Hch) as [E L]. rewrite (h_current _ _ _ _ _ Hh) in Hoq.
  rewrite E in Hoq. apply nth_opaque_inj in Hoq; lia.
Qed.

(** ** Theorems *)

(** C1. In every run of the client, under any interleaving of callers, read loop and
    closing: a response is only ever sent to the channel registered under its
    opaque, with the context registered there, and a non-persistent operation is
    sent at most one message, be it its response, an error or a cancellation. *)
Theorem responses_routed_at_most_once s c ch :
  reachable s → channels s !! c = Some ch →
  Forall (message_ok ch) (ch_sent ch)
  ∧ (ch_persistent ch = false → (length (ch_sent ch) ≤ 1)%nat).
Proof.
  intros H Hc. apply reachable_inv in H as []. split; [eauto|].
  intros Hp. specialize (inv_budget0 c ch Hc Hp). lia.
Qed.

(** C2. What [recv] returns to the caller of a pending operation: a response it
    returns has the opaque of the request; and, while opaques have not wrapped
    around, a non-persistent operation that has not been answered yet is never
    told that its request was dropped: it gets a message that was sent to it, or
    it keeps waiting for a sender that still exists. *)
Theorem recv_returns_own_answer s c op :
  reachable s → pending s !! c = Some op →
  (∀ s' resp, recv c s = Some (s', OutMessage (inl resp)) →
     rs_opaque (ClientResponse.packet resp) = po_opaque op)
  ∧ (no_wrap s → po_is_persistent op = false → po_completed op = false →
     match recv c s with
     | Some (s', OutMessage m) => ∃ ch, channels s !! c = Some ch ∧ m ∈ ch_sent ch
     | Some _ => False
     | None => has_sender c s = true
     end).
Proof.
  intros Hr Hp. pose proof (reachable_inv s Hr) as Hinv. pose proof (reachable_handles s Hr) as Hh.
  destruct (h_pending _ _ _ _ _ Hh _ _ Hp) as [x Hx]. unfold statics in Hx.
  rewrite lookup_fmap in Hx. destruct (channels s !! c) as [ch|] eqn:Hc; [|done].
  simpl in Hx. unfold static in Hx. injection Hx as Hop Hper _ Ha.
  destruct (inv_queue _ _ _ _ _ _ Hinv c ch Hc) as [l Hl].
  unfold recv. rewrite Hp. simpl. rewrite Hc. simpl. split.
  - intros s' resp H. pose proof (inv_sent _ _ _ _ _ _ Hinv c ch Hc) as Hs.
    destruct (ch_queue ch) as [|m q]; [destruct (has_sender c s); simplify_eq|]. simplify_eq/=.
    rewrite Hl, list.Forall_app, list.Forall_cons in Hs. destruct Hs as (_ & [Ho _] & _). congruence.
  - intros Hw Hnp Hcm. destruct (ch_queue ch) as [|m q] eqn:Hq.
    + assert (has_sender c s = true) as ->; [|done].
      pose proof (reachable_nolost s Hr Hw c ch ltac:(left; eauto) Hc) as Hn.
      rewrite Hq in Hn. unfold rights, count in Hn. simpl in Hn. fold (count c (concat (draining s))) in Hn.
      by apply rights_has_sender with ch.
    + exists ch. split; [done|]. rewrite Hl. apply elem_of_app. right. by left.
Qed.

(** Delivering to a non-persistent operation never makes the read loop or a
    closing client wait for the caller: the channel has room, or the receiver is
    gone and the send fails at once. *)
Lemma delivery_never_blocks s c ch :
  reachable s → channels s !! c = Some ch → ch_persistent ch = false →
  (∀ m f, read_loop s = RlSending c m f → is_Some (on_sent s))
  ∧ (∀ i task, draining s !! i = Some (c :: task) → is_Some (drain_step i s)).
Proof.
  intros Hr Hc Hp. pose proof (reachable_inv s Hr) as Hinv. split.
  - intros m f Hrl.
    destruct (send_not_blocked c ch m [] (set_read_loop RlIdle s)) as [s' Hs]; [|done..|].
    { apply (inv_end_read_loop c m f); auto. }
    apply (chan_send_read_loop _ _ (read_loop s)) in Hs. unfold on_sent. rewrite Hrl.
    assert (set_read_loop (RlSending c m f) (set_read_loop RlIdle s) = s) as Heq
      by (rewrite <-Hrl; by destruct s).
    rewrite Hrl in Hs. rewrite Heq in Hs. rewrite Hs. simpl. eauto.
  - intros i task Hi. unfold drain_step. rewrite Hi.
    destruct (send_not_blocked c ch closed_in_flight [] _ (inv_pop i c task [] s Hinv Hi))
      as [s' Hs]; [done..|].
    destruct (chan_send_draining _ _ (draining s) _ _ _ Hs) as [Hs' _].
    assert (set_draining (draining s) (set_draining (<[i := task]> (draining s)) s) = s) as Heq
      by (by destruct s).
    rewrite Heq in Hs'. rewrite Hs'. simpl. eauto.
Qed.

(** Opaques identify requests until [2 ^ 32] of them have been sent: a new
    request never takes over the entry of one in flight, and no two channels
    share an opaque. *)
Lemma opaques_unique s :
  reachable s → Z.of_nat (next_channel s) < 2 ^ 32 →
  opaque_map s !! current_opaque s = None
  ∧ (∀ c1 c2 ch1 ch2, channels s !! c1 = Some ch1 → channels s !! c2 = Some ch2 →
       ch_opaque ch1 = ch_opaque ch2 → c1 = c2).
Proof.
  intros Hr Hw. split; [by apply current_opaque_free|]. pose proof (reachable_handles s Hr) as Hh.
  intros c1 c2 ch1 ch2 H1 H2 Heq. destruct (channel_opaque _ _ _ Hh H1).
  destruct (channel_opaque _ _ _ Hh H2). apply nth_opaque_inj; [lia..|congruence].
Qed.

(** Cancelling is exclusive: when [cancel] of a non-persistent operation
    answers [true], the cancellation error is the only message the operation
    has ever been sent and is what the next [recv] returns, and, with
    [responses_routed_at_most_once], no response follows. *)
Lemma cancel_true_is_final s c op e s' :
  reachable s → no_wrap s → pending s !! c = Some op → po_is_persistent op = false →
  cancel c e s = Some (s', OutBool true) →
  ∃ ch, channels s' !! c = Some ch
    ∧ ch_sent ch = [inr (new_cancelled_error e)] ∧ ch_queue ch = [inr (new_cancelled_error e)]
    ∧ ∃ s'', recv c s' = Some (s'', OutMessage (inr (new_cancelled_error e))).
Proof.
  intros Hr Hw Hp Hnp H. pose proof (reachable_inv s Hr) as Hinv.
  pose proof (reachable_handles s Hr) as Hh.
  destruct (h_pending _ _ _ _ _ Hh _ _ Hp) as [x Hx]. unfold statics in Hx.
  rewrite lookup_fmap in Hx. destruct (channels s !! c) as [ch|] eqn:Hc; [|done].
  simpl in Hx. unfold static in Hx. injection Hx as Hop Hper _ Ha.
  unfold cancel in H. rewrite Hp in H. simpl in H. unfold cancel_op in H.
  destruct (po_completed op); [done|].
  destruct (opaque_map s !! po_opaque op) as [ctx|] eqn:Ho; [|done].
  assert (sc_sender ctx = c) as Hctx by (by apply (map_sender s (po_opaque op) ctx c ch)).
  rewrite Hctx in H.
  pose proof (inv_budget _ _ _ _ _ _ Hinv c ch Hc ltac:(congruence)) as Hb.
  assert (ch_sent ch = []) as Hsent.
  { unfold in_map in Hb. rewrite Hop, Ho, decide_True in Hb by done.
    destruct (ch_sent ch); [done|]. simpl in Hb. lia. }
  unfold chan_send in H. simpl in H. rewrite Hc, Ha, Hsent in H. simpl in H.
  case_bool_decide; [|done]. simplify_eq. simpl. rewrite lookup_insert_eq.
  eexists. split_and!; [done..|]. unfold recv. simpl. rewrite Hp. simpl.
  rewrite lookup_insert_eq. simpl. rewrite Hnp. by eexists.
Qed.

End Preservation.

(** ** A concrete run

    Two reads share the connection; the first has been answered. *)

Definition sample_call (persistent : bool) : DispatchCall :=
  {| dc_packet := {| rq_magic := Magic.Req; rq_op_code := OpCode.Get; rq_datatype := 0;
       rq_vbucket_id := Some 7; rq_cas := None; rq_extras := None; rq_key := Some [107];
       rq_value := None; rq_framing_extras := None; rq_opaque := None |};
     dc_is_persistent := persistent; dc_response_context := None |}.

Definition sample_response (opaque : Z) : ResponsePacket :=
  {| rs_magic := Magic.Res; rs_op_code := OpCode.Get; rs_datatype := 0;
     rs_status := Status.Success; rs_opaque := opaque; rs_vbucket_id := None;
     rs_cas := Some 99; rs_extras := Some [0; 0; 0; 0]; rs_key := None; rs_value := Some [118];
     rs_framing_extras := None |}.

Definition sample_events : list Event :=
  [EvDispatch (sample_call false); EvWrite 0 IoOk; EvDispatch (sample_call false);
   EvWrite 1 IoOk; EvPacket (sample_response 1)].

Abbreviation sample_run := (run (λ _, None) false true).
Abbreviation sample_reachable := (reachable (λ _, None) false true).

Definition sample_after (evs : list Event) : Client :=
  match sample_run (sample_events ++ evs) client_new with
  | Some (s, _) => s
  | None => client_new
  end.

Lemma sample_after_reachable evs : sample_reachable (sample_after evs).
Proof.
  unfold sample_after. destruct (run _ _ _ _ client_new) as [[s os]|] eqn:H;
    [|apply reachable_new]. eapply reachable_run; [apply reachable_new|done].
Qed.

Lemma responses_routed_at_most_once_witness :
  let ch := mkChannel [inl (ClientResponse.mk (sample_response 1) None)] true 1 false None
              [inl (ClientResponse.mk (sample_response 1) None)] in
  channels (sample_after [EvSent]) !! 0%nat = Some ch
  ∧ Forall (message_ok ch) (ch_sent ch) ∧ (length (ch_sent ch) ≤ 1)%nat.
Proof.
  intros ch. assert (channels (sample_after [EvSent]) !! 0%nat = Some ch) as H
    by (vm_compute; reflexivity).
  destruct (responses_routed_at_most_once _ _ _ _ _ _ (sample_after_reachable [EvSent]) H) as [H1 H2].
  auto.
Defined.

Lemma recv_returns_own_answer_witness :
  ∃ op s' resp, pending (sample_after [EvSent]) !! 0%nat = Some op
    ∧ recv 0 (sample_after [EvSent]) = Some (s', OutMessage (inl resp))
    ∧ rs_opaque (ClientResponse.packet resp) = po_opaque op
    ∧ (∃ ch, channels (sample_after [EvSent]) !! 0%nat = Some ch ∧ inl resp ∈ ch_sent ch).
Proof.
  set (op := mkPending 1 false false).
  assert (pending (sample_after [EvSent]) !! 0%nat = Some op) as Hp by (vm_compute; reflexivity).
  destruct (recv_returns_own_answer _ _ _ _ _ _ (sample_after_reachable [EvSent]) Hp) as [H1 H2].
  set (resp := ClientResponse.mk (sample_response 1) None).
  assert (∃ s', recv 0 (sample_after [EvSent]) = Some (s', OutMessage (inl resp))) as [s' Hr]
    by (vm_compute; eexists; reflexivity).
  exists op, s', resp. split_and!; [done..|by apply (H1 s')|].
  specialize (H2 ltac:(vm_compute; discriminate) eq_refl eq_refl). by rewrite Hr in H2.
Defined.

Lemma delivery_never_blocks_example :
  ∃ m, read_loop (sample_after []) = RlSending 0 m true ∧ is_Some (on_sent (sample_after [])).
Proof.
  set (ch := mkChannel [] true 1 false None []).
  assert (channels (sample_after []) !! 0%nat = Some ch) as H by (vm_compute; reflexivity).
  set (m := inl (ClientResponse.mk (sample_response 1) None) : message).
  assert (read_loop (sample_after []) = RlSending 0 m true) as Hrl by (vm_compute; reflexivity).
  exists m. split; [done|].
  exact (proj1 (delivery_never_blocks _ _ _ _ _ _ (sample_after_reachable []) H eq_refl) m true Hrl).
Defined.

Lemma opaques_unique_example :
  opaque_map (sample_after []) !! 3 = None ∧ current_opaque (sample_after []) = 3.
Proof.
  assert (current_opaque (sample_after []) = 3) as H by (vm_compute; reflexivity).
  split; [|done]. rewrite <-H.
  apply (opaques_unique _ _ _ _ (sample_after_reachable [])). vm_compute. reflexivity.
Defined.

Lemma cancel_true_is_final_example :
  ∃ s' ch, cancel 1 CancellationErrorKind.Timeout (sample_after []) = Some (s', OutBool true)
    ∧ channels s' !! 1%nat = Some ch
    ∧ ch_queue ch = [inr (new_cancelled_error CancellationErrorKind.Timeout)].
Proof.
  set (op := mkPending 2 false false).
  assert (pending (sample_after []) !! 1%nat = Some op) as Hp by (vm_compute; reflexivity).
  destruct (cancel 1 CancellationErrorKind.Timeout (sample_after [])) as [[s' o]|] eqn:Hc;
    [|vm_compute in Hc; discriminate].
  assert (o = OutBool true) as -> by (vm_compute in Hc; congruence).
  destruct (cancel_true_is_final _ _ _ _ _ _ _ _ (sample_after_reachable [])
    ltac:(vm_compute; discriminate) Hp eq_refl Hc)
    as (ch & H1 & _ & H2 & _). by exists s', ch.
Defined.
