(* ===== verification/PendingOp.v ===== *)
(** * Operations with a deadline, and closing ([memdx/pendingop.rs])

    [run_op_future_with_deadline] dispatches a request, waits for its response
    until a deadline, then cancels it.  Here it is a task polled against the
    client of [Client.v]; the theorems say that a task whose deadline has passed
    no longer depends on the server, and that a client whose stream has ended
    answers every operation in flight. *)

From S2P Require Import Prelude Wire MemdError Codec Requests Response Client.

(** ** The task *)

(** Where the task is: awaiting the dispatch, [op.recv()] under the deadline, the
    last [op.recv()] without it, or done. *)
Inductive OpTask (T : Type) : Type :=
| OtDispatch (c : chan)
| OtRecv (c : chan)
| OtRecvFinal (c : chan)
| OtDone (r : outcome Error T).
Arguments OtDispatch {T} c.
Arguments OtRecv {T} c.
Arguments OtRecvFinal {T} c.
Arguments OtDone {T} r.

(** What has become of the write when the task is polled: it has completed, or it
    waits for the writer or for the flush. *)
Inductive WriteState : Type :=
| WrDone (io : IoResult)
| WrWaiting (encoded : bool).

Definition timeout_error : Error := new_cancelled_error CancellationErrorKind.Timeout.

Section Task.
(** [T::try_from], the conversion of the response type. *)
Context {T : Type} (try_from : ClientResponse → outcome Error T).

(** [StandardPendingOp::recv], on the message received. *)
Definition standard_recv (m : message) : outcome Error T :=
  match m with
  | inl packet => try_from packet
  | inr e => Err e
  end.

(** The task ends: its pending operation is dropped. *)
Definition finish_op (c : chan) (r : outcome Error T) (s : Client) : option (Client * OpTask T) :=
  '(s, _) ← drop_op c s;
  Some (s, OtDone r).

(** One poll of the task; [timeout_at] polls the future first and only then its
    deadline. *)
Definition run_op_future_with_deadline (expired : bool) (io : WriteState)
    (task : OpTask T) (s : Client) : option (Client * OpTask T) :=
  match task with
  | OtDispatch c =>
      match io with
      | WrDone io =>
          '(s, o) ← dispatch_write c io s;
          match o with
          | OutPending c => Some (s, OtRecv c)
          | OutError e => Some (s, OtDone (Err e))
          | _ => Some (s, OtDone Panic)
          end
      | WrWaiting encoded =>
          if expired then
            '(s, _) ← dispatch_abort c encoded s;
            Some (s, OtDone (Err timeout_error))
          else None
      end
  | OtRecv c =>
      match recv c s with
      | Some (s, OutMessage m) => finish_op c (standard_recv m) s
      | Some _ => None
      | None =>
          if expired then
            '(s, o) ← cancel c CancellationErrorKind.Timeout s;
            match o with
            | OutBool true => finish_op c (Err timeout_error) s
            | OutBool false => Some (s, OtRecvFinal c)
            | _ => Some (s, OtDone Panic)
            end
          else None
      end
  | OtRecvFinal c =>
      match recv c s with
      | Some (s, OutMessage m) => finish_op c (standard_recv m) s
      | _ => None
      end
  | OtDone _ => None
  end.

End Task.

(** A dispatch that no other task interrupts, for a given outcome of its write:
    the [Dispatcher] the operations of [OpsCore] and [OpsCrud] are run against. *)
#[global] Instance client_dispatcher (io : IoResult) : Dispatcher Client chan := λ call s,
  let '(s, _) := dispatch_begin call s in
  match dispatch_write (pred (next_channel s)) io s with
  | Some (s, OutPending c) => (s, Ok c)
  | Some (s, OutError e) => (s, Err e)
  | Some (s, _) => (s, Panic)
  | None => (s, Panic)
  end.

Lemma drop_receiver_read_loop c s : read_loop (drop_receiver c s) = read_loop s.
Proof. unfold drop_receiver. by case_match. Qed.

(** A send to a channel whose receiver was dropped fails. *)
Lemma chan_send_dropped c m s : chan_send c m (drop_receiver c s) = Some (drop_receiver c s, false).
Proof.
  unfold chan_send, drop_receiver. destruct (channels s !! c) as [k|] eqn:Hk; simpl.
  - by rewrite lookup_insert_eq.
  - by rewrite Hk.
Qed.

Lemma run_app d x h evs1 evs2 s :
  run d x h (evs1 ++ evs2) s
  = '(s1, os1) ← run d x h evs1 s; '(s2, os2) ← run d x h evs2 s1; Some (s2, os1 ++ os2).
Proof.
  revert s. induction evs1 as [|ev evs1 IH]; intros s; simpl.
  - by destruct (run d x h evs2 s) as [[??]|].
  - destruct (step d x h ev s) as [[s1 o]|]; simpl; [|done]. rewrite IH.
    destruct (run d x h evs1 s1) as [[s2 os]|]; simpl; [|done].
    by destruct (run d x h evs2 s2) as [[??]|].
Qed.

(** The events by which a client whose stream ends shuts down: its drain, which is
    the last one in the list, notifies each request of the map. *)
Definition shutdown_schedule (s : Client) : list Event :=
  EvStreamEnd :: replicate (size (opaque_map s)) (EvDrain (length (draining s))).

(** The read loop has ended and no request is left to answer. *)
Definition connection_down (s : Client) : Prop :=
  read_loop s = RlClosed ∧ opaque_map s = ∅.

Section Theorems.
Context (decompress_vec : list Z → option (list Z)) (disable_decompression has_orphan_handler : bool).
Abbreviation reachable := (reachable decompress_vec disable_decompression has_orphan_handler).
Abbreviation run := (run decompress_vec disable_decompression has_orphan_handler).
Abbreviation step := (step decompress_vec disable_decompression has_orphan_handler).

(** What the invariants say of an unanswered, non-persistent pending operation. *)
Lemma pending_channel s c op :
  reachable s → pending s !! c = Some op →
  ∃ ch, channels s !! c = Some ch ∧ ch_opaque ch = po_opaque op
    ∧ ch_persistent ch = po_is_persistent op ∧ ch_alive ch = true.
Proof.
  intros Hr Hp. apply reachable_handles in Hr.
  destruct (h_pending _ _ _ _ _ Hr _ _ Hp) as [x Hx]. unfold statics in Hx.
  rewrite lookup_fmap in Hx. destruct (channels s !! c) as [ch|]; [|done].
  simpl in Hx. unfold static in Hx. injection Hx as ????. by exists ch.
Qed.

(** Once a message has been sent, or is being delivered, the map has no entry. *)
Lemma entry_gone s c ch :
  reachable s → no_wrap s → channels s !! c = Some ch → ch_persistent ch = false →
  (1 ≤ length (ch_sent ch))%nat → opaque_map s !! ch_opaque ch = None.
Proof.
  intros Hr Hw Hc Hp Hs. pose proof (reachable_inv _ _ _ s Hr) as Hinv.
  pose proof (reachable_handles _ _ _ s Hr) as Hh.
  pose proof (inv_budget _ _ _ _ _ _ Hinv c ch Hc Hp) as Hb.
  destruct (opaque_map s !! ch_opaque ch) as [ctx|] eqn:Ho; [|done].
  pose proof (map_sender s _ ctx c ch Hinv Hh Hw Ho Hc eq_refl) as E.
  unfold in_map in Hb. rewrite Ho, decide_True in Hb by done. lia.
Qed.

Section Deadline.
Context {T : Type} (try_from : ClientResponse → outcome Error T).
Abbreviation poll := (run_op_future_with_deadline try_from).

(** The three ways a poll after the deadline ends. *)
Lemma poll_recv_message s c op ch m q expired io :
  pending s !! c = Some op → po_is_persistent op = false → channels s !! c = Some ch →
  ch_queue ch = m :: q →
  ∃ s', poll expired io (OtRecv c) s = Some (s', OtDone (standard_recv try_from m))
    ∧ pending s' !! c = None ∧ opaque_map s' = opaque_map s.
Proof.
  intros Hp Hn Hc Hq. unfold run_op_future_with_deadline, recv. rewrite Hp. simpl.
  rewrite Hc. simpl. rewrite Hq, Hn. simpl. unfold finish_op, drop_op, cancel_op. simpl.
  rewrite lookup_insert_eq. simpl. eexists. split; [done|].
  unfold drop_receiver. simpl. rewrite lookup_insert_eq. simpl.
  by rewrite lookup_delete_eq.
Qed.

Lemma poll_expired_entry s c op ch ctx io :
  pending s !! c = Some op → po_completed op = false → channels s !! c = Some ch →
  ch_alive ch = true → ch_queue ch = [] → has_sender c s = true →
  opaque_map s !! po_opaque op = Some ctx → sc_sender ctx = c →
  ∃ s', poll true io (OtRecv c) s = Some (s', OtDone (Err timeout_error))
    ∧ pending s' !! c = None ∧ opaque_map s' !! po_opaque op = None.
Proof.
  intros Hp Hn Hc Ha Hq Hsend Ho Hctx. unfold run_op_future_with_deadline, recv. rewrite Hp. simpl.
  rewrite Hc. simpl. rewrite Hq, Hsend. simpl. unfold cancel. rewrite Hp. simpl. unfold cancel_op.
  rewrite Hn, Ho, Hctx. unfold chan_send. simpl. rewrite Hc, Ha. simpl.
  rewrite bool_decide_true by done. simpl. unfold finish_op, drop_op. simpl. rewrite Hp. simpl.
  unfold cancel_op. rewrite Hn. simpl. eexists. split; [done|].
  unfold drop_receiver. simpl. rewrite lookup_insert_eq. simpl.
  rewrite !lookup_delete_eq. done.
Qed.

Lemma poll_expired_no_entry s c op ch io :
  pending s !! c = Some op → po_completed op = false → channels s !! c = Some ch →
  ch_queue ch = [] → has_sender c s = true → opaque_map s !! po_opaque op = None →
  poll true io (OtRecv c) s = Some (s, OtRecvFinal c).
Proof.
  intros Hp Hn Hc Hq Hsend Ho. unfold run_op_future_with_deadline, recv. rewrite Hp. simpl.
  rewrite Hc. simpl. rewrite Hq, Hsend. simpl. unfold cancel. rewrite Hp. simpl. unfold cancel_op.
  rewrite Hn, Ho. simpl. rewrite delete_id by done. by destruct s.
Qed.

(** A deadline is honoured: when the deadline of an operation has passed, its
    task ends at the next poll, with the message that was sent to it or with the
    timeout error, its entry and its pending operation gone; or its answer is
    already in the hands of the read loop or of a closing client, and it waits
    for that delivery alone. *)
Lemma deadline_bounds_wait s c op io :
  reachable s → no_wrap s → pending s !! c = Some op →
  po_is_persistent op = false → po_completed op = false →
  ∃ s' task, poll true io (OtRecv c) s = Some (s', task) ∧
    match task with
    | OtDone r =>
        (r = Err timeout_error
         ∨ ∃ ch m, channels s !! c = Some ch ∧ m ∈ ch_sent ch ∧ r = standard_recv try_from m)
        ∧ pending s' !! c = None ∧ opaque_map s' !! po_opaque op = None
    | OtRecvFinal c' =>
        c' = c ∧ s' = s ∧ opaque_map s !! po_opaque op = None
        ∧ ((∃ m f, read_loop s = RlSending c m f) ∨ c ∈ concat (draining s))
    | _ => False
    end.
Proof.
  intros Hr Hw Hp Hn Hcm.
  destruct (pending_channel s c op Hr Hp) as (ch & Hc & Ho & Hper & Ha).
  pose proof (reachable_inv _ _ _ s Hr) as Hinv. pose proof (reachable_handles _ _ _ s Hr) as Hh.
  destruct (inv_queue _ _ _ _ _ _ Hinv c ch Hc) as [l Hl].
  destruct (ch_queue ch) as [|m q] eqn:Hq.
  - pose proof (reachable_nolost _ _ _ s Hr Hw c ch ltac:(left; eauto) Hc) as Hlost.
    rewrite Hq in Hlost. unfold rights in Hlost. simpl in Hlost.
    assert (has_sender c s = true) as Hs by (by apply rights_has_sender with ch).
    destruct (opaque_map s !! po_opaque op) as [ctx|] eqn:Hm.
    + assert (sc_sender ctx = c) by (by apply (map_sender s (po_opaque op) ctx c ch)).
      destruct (poll_expired_entry s c op ch ctx io) as (s' & -> & H1 & H2); [done..|].
      eexists _, _. split; [done|]. simpl. auto.
    + rewrite (poll_expired_no_entry s c op ch io) by done. eexists _, _. split; [done|].
      simpl. split_and!; [done..|]. unfold in_map in Hlost. rewrite Ho, Hm in Hlost.
      unfold in_read_loop in Hlost. destruct (decide (c ∈ concat (draining s))); [by right|].
      rewrite (count_notin c (concat (draining s))) in Hlost by done. left.
      destruct (read_loop s) as [|c' m f|]; simpl in Hlost; try lia.
      case_decide; [|simpl in Hlost; lia]. simplify_eq. eauto.
  - destruct (poll_recv_message s c op ch m q true io) as (s' & -> & H1 & H2); [done..|].
    eexists _, _. split; [done|]. simpl. rewrite H2, <-Ho. split_and!; [|done|].
    + right. exists ch, m. split_and!; [done| |done]. rewrite Hl. apply elem_of_app. right. by left.
    + apply (entry_gone s c); [done..|congruence|]. rewrite Hl, length_app. simpl. lia.
Qed.

End Deadline.

(** ** One request and its response *)

Lemma dispatch_ok call s :
  let item := rq_set_opaque (dc_packet call) (current_opaque s) in
  let c := next_channel s in
  packet_ok item → encodable item = true →
  ∃ s1, @dispatch _ _ (client_dispatcher IoOk) call s = (s1, Ok c)
    ∧ written s1 = written s ++ encoded_frame item
    ∧ opaque_map s1 = <[current_opaque s := mkSender c (dc_is_persistent call)
                          (dc_response_context call)]> (opaque_map s)
    ∧ pending s1 !! c = Some (mkPending (current_opaque s) (dc_is_persistent call) false)
    ∧ channels s1 !! c = Some (mkChannel [] true (current_opaque s) (dc_is_persistent call)
                                 (dc_response_context call) [])
    ∧ read_loop s1 = read_loop s ∧ draining s1 = draining s.
Proof.
  intros item c Hok Henc. unfold dispatch, client_dispatcher. simpl.
  unfold dispatch_write. simpl. rewrite lookup_insert_eq. simpl. unfold writer_send.
  rewrite (encode_frame item) by done. simpl. eexists. split; [done|]. simpl.
  by rewrite !lookup_insert_eq.
Qed.

(** C16. A request and its response, end to end.  Dispatching a packet the codec
    can encode appends exactly its frame to the output and registers the fresh
    opaque; a response with that opaque is decompressed and received by that
    operation, with the response context it was dispatched with, and the map is
    as it was before.  When the packet cannot be written the dispatch error
    names the request, and the map is as before too. *)
Theorem dispatch_roundtrip s call p p' :
  let item := rq_set_opaque (dc_packet call) (current_opaque s) in
  let c := next_channel s in
  reachable s → Z.of_nat (next_channel s) < 2 ^ 32 → read_loop s = RlIdle →
  dc_is_persistent call = false → packet_ok item → encodable item = true →
  rs_magic p ≠ Magic.ServerReq → rs_opaque p = current_opaque s →
  decompress decompress_vec disable_decompression p = Some p' →
  (∃ s1 s2, run_op (H0 := client_dispatcher IoOk) (Ok call) s = (s1, Ok c)
     ∧ written s1 = written s ++ encoded_frame item
     ∧ run [EvPacket p; EvSent; EvRecv c] s1
       = Some (s2, [OutNone; OutNone;
                    OutMessage (inl (ClientResponse.mk p' (dc_response_context call)))])
     ∧ opaque_map s2 = opaque_map s ∧ read_loop s2 = RlIdle)
  ∧ (∀ what, ∃ s1, run_op (H0 := client_dispatcher (IoNotReady what)) (Ok call) s
       = (s1, Err (new_dispatch_error (current_opaque s) (rq_op_code (dc_packet call))
                     (error_from_io what)))
     ∧ opaque_map s1 = opaque_map s).
Proof.
  intros item c Hr Hw Hidle Hper Hok Henc Hmagic Hop Hdec.
  assert (opaque_map s !! current_opaque s = None) as Hfree
    by (by apply (current_opaque_free decompress_vec disable_decompression has_orphan_handler)).
  split.
  - destruct (dispatch_ok call s Hok Henc) as (s1 & Hd & Hwr & Hm & Hp & Hch & Hrl & _).
    simpl. exists s1. eexists. split; [done|]. split; [done|].
    unfold on_packet at 1. rewrite Hrl, Hidle, bool_decide_false by done. rewrite Hop, Hm.
    rewrite lookup_insert_eq, Hdec. simpl. rewrite Hper. simpl.
    unfold on_sent. simpl. unfold chan_send. simpl. fold c in Hch, Hp. fold c. rewrite Hch. simpl.
    unfold recv. simpl. rewrite Hp. simpl. fold c. rewrite lookup_insert_eq. simpl. rewrite Hper. simpl.
    split_and!; [done| |done]. by rewrite delete_insert_id.
  - intros what. simpl. unfold dispatch, client_dispatcher. simpl. unfold dispatch_write. simpl.
    rewrite lookup_insert_eq. simpl. eexists. split; [done|]. simpl.
    unfold drop_receiver. simpl. rewrite lookup_insert_eq. simpl. by rewrite delete_insert_id.
Qed.

(** ** Closing *)

(** One step of a drain whose next channel is open, unanswered and not persistent. *)
Lemma drain_step_sends i c task s ch :
  Inv [] s → draining s !! i = Some (c :: task) → channels s !! c = Some ch →
  ch_persistent ch = false → c ∉ task ∧ ch_queue ch = [] ∧
  ∃ s', drain_step i s = Some (s', OutNone)
    ∧ draining s' = <[i := task]> (draining s)
    ∧ opaque_map s' = opaque_map s ∧ pending s' = pending s ∧ read_loop s' = read_loop s
    ∧ (∀ c', c' ≠ c → channels s' !! c' = channels s !! c')
    ∧ (ch_alive ch = true → ∃ ch', channels s' !! c = Some ch' ∧ ch_queue ch' = [closed_in_flight]).
Proof.
  intros Hinv Hi Hc Hp.
  pose proof (inv_budget _ _ _ _ _ _ (inv_pop i c task [] s Hinv Hi) c ch Hc Hp) as Hb.
  rewrite count_cons, decide_True in Hb by done.
  assert (ch_sent ch = []) as Hsent by (destruct (ch_sent ch); [done|simpl in Hb; lia]).
  destruct (inv_queue _ _ _ _ _ _ Hinv c ch Hc) as [l Hl]. rewrite Hsent in Hl.
  assert (ch_queue ch = []) as Hq by (destruct l; simplify_eq/=; by destruct (ch_queue ch)).
  split; [|split; [done|]].
  - intros Hin. assert (c ∈ concat (draining (set_draining (<[i := task]> (draining s)) s))) as Hcc.
    { simpl. apply list_elem_of_In, in_concat. exists task. rewrite <-!list_elem_of_In. split; [|done].
      apply list_elem_of_lookup. exists i. apply list_lookup_insert_eq. by eapply lookup_lt_Some. }
    simpl in Hcc. apply list_elem_of_split in Hcc as (l1 & l2 & E). simpl in Hb.
    rewrite E, count_app, count_cons, decide_True in Hb by done. lia.
  - unfold drain_step, chan_send. rewrite Hi, Hc. destruct (ch_alive ch) eqn:Ha; simpl.
    + rewrite Hq, bool_decide_true by done. simpl. eexists. split_and!; try done; simpl.
      * intros c' Hne. by rewrite lookup_insert_ne.
      * intros _. rewrite lookup_insert_eq. eauto.
    + eexists. split_and!; done.
Qed.

Lemma in_map_senders m c ch : (1 ≤ in_map m c ch)%nat → c ∈ senders m.
Proof.
  unfold in_map, senders. intros H. destruct (m !! ch_opaque ch) as [ctx|] eqn:Ho; [|lia].
  case_decide as E; [|lia]. subst c. apply list_elem_of_fmap. exists ctx. split; [done|].
  apply list_elem_of_fmap. exists (ch_opaque ch, ctx). split; [done|]. by apply elem_of_map_to_list.
Qed.

(** The whole drain. *)
Lemma drain_all i task s :
  reachable s → draining s !! i = Some task →
  (∀ c ch, c ∈ task → channels s !! c = Some ch → ch_persistent ch = false) →
  ∃ s' os, run (replicate (length task) (EvDrain i)) s = Some (s', os)
    ∧ draining s' = <[i := []]> (draining s)
    ∧ opaque_map s' = opaque_map s ∧ pending s' = pending s ∧ read_loop s' = read_loop s
    ∧ (∀ c', c' ∉ task → channels s' !! c' = channels s !! c')
    ∧ (∀ c ch, c ∈ task → channels s !! c = Some ch → ch_alive ch = true →
         ∃ ch', channels s' !! c = Some ch' ∧ ch_queue ch' = [closed_in_flight]).
Proof.
  revert s. induction task as [|c task IH]; intros s Hr Hi Hnp.
  - exists s, []. split_and!; try done; [by rewrite list_insert_id|].
    intros ? ? H. by apply not_elem_of_nil in H.
  - pose proof (reachable_inv _ _ _ s Hr) as Hinv.
    destruct (inv_draining _ _ _ _ _ _ Hinv c) as [ch Hc].
    { apply list_elem_of_In, in_concat. exists (c :: task). rewrite <-!list_elem_of_In.
      split; [by eapply list_elem_of_lookup_2|by left]. }
    destruct (drain_step_sends i c task s ch Hinv Hi Hc (Hnp c ch ltac:(by left) Hc))
      as (Hnin & Hq & s1 & Hs1 & Hd1 & Hm1 & Hp1 & Hr1 & Hch1 & Hgot).
    assert (reachable s1) as Hreach1 by (apply (reachable_step _ _ _ s (EvDrain i) s1 OutNone); done).
    destruct (IH s1) as (s2 & os & Hrun & Hd2 & Hm2 & Hp2 & Hr2 & Hch2 & Hall); [done|..].
    { rewrite Hd1. apply list_lookup_insert_eq. by eapply lookup_lt_Some. }
    { intros c' ch' Hin Hc'. rewrite Hch1 in Hc' by (intros ->; done). apply (Hnp c'); [by right|done]. }
    exists s2, (OutNone :: os). split_and!; [|..]; try congruence.
    + simpl. rewrite Hs1. simpl. by rewrite Hrun.
    + rewrite Hd2, Hd1. apply list_insert_insert_eq.
    + intros c' Hc'. apply not_elem_of_cons in Hc' as [??]. rewrite Hch2, Hch1 by done. done.
    + intros c' ch' Hin Hc' Ha. apply elem_of_cons in Hin as [->|Hin].
      * rewrite Hc in Hc'. simplify_eq. destruct (Hgot Ha) as (ch1 & ? & ?). exists ch1.
        by rewrite Hch2.
      * apply (Hall c' ch'); [done| |done]. rewrite Hch1; [done|]. by intros ->.
Qed.

Lemma recv_queue s c op ch m q :
  pending s !! c = Some op → channels s !! c = Some ch → ch_queue ch = m :: q →
  ∃ s', recv c s = Some (s', OutMessage m).
Proof. intros Hp Hc Hq. unfold recv. rewrite Hp. simpl. rewrite Hc. simpl. rewrite Hq. eauto. Qed.


(** One caller that gives up takes the connection down.  When a pending
    operation is dropped while the read loop delivers its response, or a dispatch
    is dropped after its packet reached the write buffer and the response
    arrives, the failed send ends the read loop: the map is drained, so every
    other request in flight on the connection is cancelled. *)
Lemma dropped_receiver_closes_connection s c :
  (∀ op m, pending s !! c = Some op → read_loop s = RlSending c m true →
     ∃ s', run [EvDrop c; EvSent] s = Some (s', [OutNone; OutNone])
       ∧ connection_down s')
  ∧ (∀ item ctx w p p',
     reachable s → read_loop s = RlIdle → dispatching s !! c = Some (item, false) →
     encode item (written s) = (w, Ok tt) →
     opaque_map s !! rs_opaque p = Some ctx → sc_sender ctx = c →
     rs_magic p ≠ Magic.ServerReq →
     decompress decompress_vec disable_decompression p = Some p' →
     ∃ s', run [EvAbort c true; EvPacket p; EvSent] s = Some (s', [OutNone; OutNone; OutNone])
       ∧ connection_down s').
Proof.
  split.
  - intros op m Hp Hrl. simpl. unfold drop_op. rewrite Hp. simpl.
    destruct (cancel_op op s) as [s1 x] eqn:Hc.
    assert (read_loop s1 = read_loop s) as Hs1
      by (unfold cancel_op in Hc; destruct (po_completed op); by simplify_eq).
    unfold on_sent. simpl. rewrite drop_receiver_read_loop. simpl. rewrite Hs1, Hrl.
    rewrite (chan_send_dropped c). simpl. eexists. split_and!; done.
  - intros item ctx w p p' Hr Hidle Hd Henc Ho Hctx Hm Hdec.
    simpl. unfold dispatch_abort. rewrite Hd. simpl.
    set (s1 := drop_receiver _ _).
    assert (written s1 = written s ∧ opaque_map s1 = opaque_map s ∧ read_loop s1 = RlIdle)
      as (Hw1 & Hm1 & Hr1) by (unfold s1, drop_receiver; repeat case_match; done).
    rewrite Hw1, Henc. simpl. unfold on_packet at 1. simpl. rewrite Hr1, bool_decide_false by done.
    rewrite Hm1, Ho. rewrite Hdec. simpl. rewrite Hctx.
    set (s2 := set_read_loop _ _).
    assert (chan_send c (inl (ClientResponse.mk p' (sc_context ctx))) s2 = Some (s2, false)) as Hsend.
    { unfold chan_send. assert (channels s2 = channels s1) as -> by (unfold s2; by case_match).
      unfold s1, drop_receiver. simpl. destruct (channels s !! c) as [k|] eqn:Hk; simpl.
      - by rewrite lookup_insert_eq.
      - by rewrite Hk. }
    unfold on_sent. unfold s2 at 1. simpl. rewrite Hsend. simpl. eexists. split_and!; done.
Qed.

End Theorems.

(** ** Witnesses, on the run of [Client.v] *)

Lemma deadline_bounds_wait_example :
  ∃ s' task, run_op_future_with_deadline (λ r, Ok (ClientResponse.packet r)) true
      (WrWaiting false) (OtRecv 1) (sample_after []) = Some (s', task)
    ∧ task = OtDone (Err timeout_error) ∧ pending s' !! 1%nat = None.
Proof.
  set (op := mkPending 2 false false).
  assert (pending (sample_after []) !! 1%nat = Some op) as Hp by (vm_compute; reflexivity).
  destruct (deadline_bounds_wait _ _ _ (λ r, Ok (ClientResponse.packet r)) _ _ _ (WrWaiting false)
    (sample_after_reachable []) ltac:(vm_compute; discriminate) Hp eq_refl eq_refl)
    as (s' & task & H & Ht).
  exists s', task. split; [done|]. destruct task as [| |c|r]; [done..| |].
  - destruct Ht as (_ & _ & Hm & _). vm_compute in Hm. discriminate.
  - destruct Ht as ([-> | (ch & m & Hc & Hin & ->)] & Hp' & _); [done|].
    assert (ch = mkChannel [] true 2 false None []) as -> by (vm_compute in Hc; congruence).
    by apply not_elem_of_nil in Hin.
Defined.

Lemma dispatch_roundtrip_witness :
  ∃ s1 s2, run_op (H0 := client_dispatcher IoOk) (Ok (sample_call false)) client_new = (s1, Ok 0%nat)
    ∧ sample_run [EvPacket (sample_response 1); EvSent; EvRecv 0] s1
      = Some (s2, [OutNone; OutNone;
                   OutMessage (inl (ClientResponse.mk (sample_response 1) None))]).
Proof.
  assert (packet_ok (rq_set_opaque (dc_packet (sample_call false)) 1)) as Hok
    by (split; vm_compute; (try done); intuition discriminate).
  destruct (dispatch_roundtrip (λ _, None) false true client_new (sample_call false)
    (sample_response 1) (sample_response 1)) as [(s1 & s2 & H1 & _ & H2 & _) _];
    [apply reachable_new|done|done|done|exact Hok|done|done|done|done|].
  by exists s1, s2.
Defined.


(** The other operation of the run, in flight under opaque 2, is cancelled. *)
Lemma dropped_receiver_closes_connection_example :
  ∃ s' s'', sample_run [EvDrop 0; EvSent] (sample_after []) = Some (s', [OutNone; OutNone])
    ∧ read_loop s' = RlClosed
    ∧ sample_run [EvDrain 0; EvRecv 1] s' = Some (s'', [OutNone; OutMessage closed_in_flight]).
Proof.
  destruct (dropped_receiver_closes_connection (λ _, None) false true (sample_after []) 0)
    as [Hdrop _].
  assert (pending (sample_after []) !! 0%nat = Some (mkPending 1 false false)) as Hp
    by (vm_compute; reflexivity).
  destruct (Hdrop _ (inl (ClientResponse.mk (sample_response 1) None)) Hp) as (s' & H1 & [H2 _]);
    [vm_compute; reflexivity|].
  assert (∃ s'', sample_run [EvDrop 0; EvSent; EvDrain 0; EvRecv 1] (sample_after [])
    = Some (s'', [OutNone; OutNone; OutNone; OutMessage closed_in_flight])) as [s'' H3]
    by (vm_compute; eexists; reflexivity).
  exists s', s''. split_and!; [done..|].
  change [EvDrop 0; EvSent; EvDrain 0; EvRecv 1] with ([EvDrop 0; EvSent] ++ [EvDrain 0; EvRecv 1]) in H3.
  rewrite run_app, H1 in H3. cbn -[run] in H3.
  destruct (sample_run [EvDrain 0; EvRecv 1] s') as [[s3 os]|]; [|done]. by simplify_eq/=.
Defined.
