(* ===== verification/Scram.v ===== *)
(** * SCRAM authentication ([scram/mod.rs])

    The client side of RFC 5802, in the three steps of the source.  The keyed hash
    ([Mac]), the hash ([Digest]) and base64 are code of other crates: they are
    parameters, and [mac] may refuse a key as [new_from_slice] can.

    The reference the client is compared with is the server of RFC 5802: it stores
    a salt, an iteration count, [StoredKey] and [ServerKey], and never the
    password. *)

From S2P Require Import Prelude Text Wire MemdError Codec Requests Response.

(** One constructor per message of the source. *)
Module ScramError.
Inductive ScramError : Type :=
| ExpectedThreeFields (n : Z)
| InvalidNonce (field : list Z)
| InvalidSalt (field : list Z)
| InvalidIterationCount (field : list Z)
| NonceNotPrefixed (server_nonce client_nonce : list Z)
| CannotDecodeSalt
| ServerError (msg : list Z)
| UnsupportedFinalMessage (input : list Z)
| WrongServerSignature (field : list Z)
| MacFailed
| NonceBufferTooSmall.
End ScramError.
Abbreviation ScramError := ScramError.ScramError.

Module ScramClient.
Record ScramClient : Type := mk {
  user : string;
  pass : string;
  client_nonce : list Z;
  server_nonce : list Z;
  salted_pass : list Z;
  auth_msg : list Z;
}.
End ScramClient.
Abbreviation ScramClient := ScramClient.ScramClient.
Import ScramClient.

Definition scram_client_new (user pass : string) (client_nonce : option (list Z)) : ScramClient :=
  ScramClient.mk user pass (default [] client_nonce) [] [] [].

Definition set_client_nonce (n : list Z) (self : ScramClient) : ScramClient :=
  ScramClient.mk (user self) (pass self) n (server_nonce self) (salted_pass self) (auth_msg self).
Definition set_server_nonce (n : list Z) (self : ScramClient) : ScramClient :=
  ScramClient.mk (user self) (pass self) (client_nonce self) n (salted_pass self) (auth_msg self).
Definition set_salted_pass (p : list Z) (self : ScramClient) : ScramClient :=
  ScramClient.mk (user self) (pass self) (client_nonce self) (server_nonce self) p (auth_msg self).
(** [self.auth_msg.extend_from_slice(l)]. *)
Definition extend_auth_msg (l : list Z) (self : ScramClient) : ScramClient :=
  ScramClient.mk (user self) (pass self) (client_nonce self) (server_nonce self)
    (salted_pass self) (auth_msg self ++ l).

Definition xor_bytes : list Z → list Z → list Z := zip_with Z.lxor.

Section Client.
Context (mac : list Z → list Z → option (list Z)) (digest : list Z → list Z)
  (b64_encode : list Z → list Z) (b64_decode : list Z → option (list Z)).

Definition mac_ (key msg : list Z) : outcome ScramError (list Z) := ok_or (mac key msg) ScramError.MacFailed.

(** [generate_nonce], of the six random bytes [buf]. *)
Definition generate_nonce (buf : list Z) : outcome ScramError (list Z) :=
  if 6 * 4 / 3 + 4 <? blen (b64_encode buf) then Err ScramError.NonceBufferTooSmall
  else Ok (b64_encode buf).

Definition step1 (random : list Z) (self : ScramClient) : ScramClient * outcome ScramError (list Z) :=
  match (if bool_decide (client_nonce self = []) then generate_nonce random
         else Ok (client_nonce self)) with
  | Ok nonce =>
      let self := set_client_nonce nonce self in
      let self := extend_auth_msg (str_bytes "n=") self in
      let self := extend_auth_msg (str_bytes (user self)) self in
      let self := extend_auth_msg (str_bytes ",r=") self in
      let self := extend_auth_msg (client_nonce self) self in
      (self, Ok (str_bytes "n,," ++ auth_msg self))
  | Err e => (self, Err e)
  | Panic => (self, Panic)
  end.

(** The loop [for _ in 1..iter_count]. *)
Fixpoint salt_rounds (n : nat) (pass ui hi : list Z) : outcome ScramError (list Z) :=
  match n with
  | O => Ok hi
  | S n =>
      m ← mac_ pass ui;
      if length m =? length ui then salt_rounds n pass m (xor_bytes hi m) else Panic
  end%nat.

Definition salt_password (salt : list Z) (iter_count : Z) (self : ScramClient)
    : outcome ScramError (list Z) :=
  ui ← mac_ (str_bytes (pass self)) (salt ++ [0; 0; 0; 1]);
  salt_rounds (Z.to_nat (iter_count - 1)) (str_bytes (pass self)) ui ui.

Definition server_signature (self : ScramClient) : outcome ScramError (list Z) :=
  server_key ← mac_ (salted_pass self) (str_bytes "Server Key");
  signature ← mac_ server_key (auth_msg self);
  Ok (b64_encode signature).

Definition client_proof (self : ScramClient) : outcome ScramError (list Z) :=
  client_key ← mac_ (salted_pass self) (str_bytes "Client Key");
  let stored_key := digest client_key in
  client_signature ← mac_ stored_key (auth_msg self);
  Ok (b64_encode (xor_bytes client_key client_signature)).

(** The checks of the server's first message: its nonce, salt and count. *)
Definition read_server_first (input : list Z) (self : ScramClient)
    : outcome ScramError (list Z * list Z * Z) :=
  match split_on 44 input with
  | [r; s; i] =>
      if negb (starts_with (str_bytes "r=") r) then Err (ScramError.InvalidNonce r)
      else if negb (starts_with (str_bytes "s=") s) then Err (ScramError.InvalidSalt s)
      else if negb (starts_with (str_bytes "i=") i) then Err (ScramError.InvalidIterationCount i)
      else if negb (starts_with (client_nonce self) (drop 2 r)) then
        Err (ScramError.NonceNotPrefixed (drop 2 r) (client_nonce self))
      else
        salt ← ok_or (b64_decode (drop 2 s)) ScramError.CannotDecodeSalt;
        iter_count ← ok_or (if utf8_valid (drop 2 i) then parse_uint 32 (drop 2 i) else None)
                       (ScramError.InvalidIterationCount i);
        Ok (drop 2 r, salt, iter_count)
  | fields => Err (ScramError.ExpectedThreeFields (blen fields))
  end.

(** On an error the caller drops the client, so only its last state matters. *)
Definition step2 (input : list Z) (self : ScramClient) : ScramClient * outcome ScramError (list Z) :=
  let self := extend_auth_msg (str_bytes "," ++ input) self in
  match read_server_first input self with
  | Ok (nonce, salt, iter_count) =>
      let self := set_server_nonce nonce self in
      match salt_password salt iter_count self with
      | Ok salted =>
          let self := set_salted_pass salted self in
          let self := extend_auth_msg (str_bytes ",c=biws,r=" ++ server_nonce self) self in
          (self, proof ← client_proof self;
                 Ok (str_bytes "c=biws,r=" ++ server_nonce self ++ str_bytes ",p=" ++ proof))
      | Err e => (self, Err e)
      | Panic => (self, Panic)
      end
  | Err e => (self, Err e)
  | Panic => (self, Panic)
  end.

Definition step3 (input : list Z) (self : ScramClient) : outcome ScramError unit :=
  match split_on 44 input with
  | [f] =>
      if starts_with (str_bytes "e=") f then
        if utf8_valid (drop 2 f) then Err (ScramError.ServerError (drop 2 f)) else Panic
      else if negb (starts_with (str_bytes "v=") f) then
        Err (ScramError.UnsupportedFinalMessage input)
      else
        signature ← server_signature self;
        if negb (bool_decide (signature = drop 2 f)) then Err (ScramError.WrongServerSignature (drop 2 f))
        else Ok tt
  | _ => Err (ScramError.UnsupportedFinalMessage input)
  end.
End Client.

(** ** The server of RFC 5802 *)

Section Server.
Context (hmac : list Z → list Z → list Z) (digest : list Z → list Z)
  (b64_encode : list Z → list Z) (b64_decode : list Z → option (list Z)).

(** [U1], [U2], ... and [Hi], as the RFC defines them. *)
Definition rfc_u (pass salt : list Z) (n : nat) : list Z :=
  Nat.iter n (hmac pass) (hmac pass (salt ++ [0; 0; 0; 1])).

Definition rfc_hi (pass salt : list Z) (i : nat) : list Z :=
  foldl xor_bytes (rfc_u pass salt 0) (rfc_u pass salt <$> seq 1 (i - 1)).

Record Stored : Type := mkStored {
  st_salt : list Z;
  st_iterations : Z;
  stored_key : list Z;
  server_key : list Z;
}.

Definition enrol (pass salt : list Z) (iterations : Z) : Stored :=
  let salted := rfc_hi pass salt (Z.to_nat iterations) in
  mkStored salt iterations (digest (hmac salted (str_bytes "Client Key")))
    (hmac salted (str_bytes "Server Key")).

Definition server_first (st : Stored) (nonce : list Z) : list Z :=
  str_bytes "r=" ++ nonce ++ str_bytes ",s=" ++ b64_encode (st_salt st)
    ++ str_bytes ",i=" ++ decimal (st_iterations st).

(** The check of the client's final message, and the server's answer. *)
Definition server_final (st : Stored) (nonce client_first_bare client_final : list Z)
    : option (list Z) :=
  match split_on 44 client_final with
  | [c; r; p] =>
      if bool_decide (c = str_bytes "c=biws") && bool_decide (r = str_bytes "r=" ++ nonce)
         && starts_with (str_bytes "p=") p then
        proof ← b64_decode (drop 2 p);
        let auth := client_first_bare ++ str_bytes "," ++ server_first st nonce
                    ++ str_bytes "," ++ c ++ str_bytes "," ++ r in
        let client_key := xor_bytes proof (hmac (stored_key st) auth) in
        if bool_decide (digest client_key = stored_key st)
        then Some (str_bytes "v=" ++ b64_encode (hmac (server_key st) auth))
        else None
      else None
  | _ => None
  end.
End Server.

(** ** Lemmas *)

Lemma xor_bytes_involutive a b : length a = length b → xor_bytes (xor_bytes a b) b = a.
Proof.
  revert b. induction a as [|x a IH]; intros [|y b] Hl; try done. simpl in *. f_equal.
  - by rewrite Z.lxor_assoc, Z.lxor_nilpotent, Z.lxor_0_r.
  - apply IH. lia.
Qed.

Lemma fold_rounds_end {A} (f : A → A) g (x y : A) n :
  (** the accumulated fold over the iterates of [f] after [x] *)
  foldl g y ((λ k, Nat.iter k f x) <$> seq 1 n)
  = fst (Nat.iter n (λ '(acc, u), (g acc (f u), f u)) (y, x)).
Proof.
  assert (∀ n, Nat.iter n (λ '(acc, u), (g acc (f u), f u)) (y, x)
    = (foldl g y ((λ k, Nat.iter k f x) <$> seq 1 n), Nat.iter n f x)) as Hall; [|by rewrite Hall].
  clear n. induction n as [|n IH]; [done|]. rewrite Nat.iter_succ, IH.
  rewrite seq_S, fmap_app, foldl_app. simpl. done.
Qed.

Section Handshake.
Context (hmac : list Z → list Z → list Z) (digest : list Z → list Z)
  (b64_encode : list Z → list Z) (b64_decode : list Z → option (list Z)) (size : nat).
Context (hmac_size : ∀ k m, length (hmac k m) = size).

Abbreviation mac := (λ k m, Some (hmac k m)).

Lemma salt_rounds_iter n pass ui hi :
  length ui = size →
  salt_rounds mac n pass ui hi
  = Ok (fst (Nat.iter n (λ '(acc, u), (xor_bytes acc (hmac pass u), hmac pass u)) (hi, ui))).
Proof.
  revert ui hi. induction n as [|n IH]; intros ui hi Hl; [done|].
  rewrite Nat.iter_succ_r. simpl. rewrite hmac_size, Hl, Nat.eqb_refl. by apply IH, hmac_size.
Qed.

(** The salting loop of the source is the function [Hi] of the RFC. *)
Lemma salt_password_hi salt i self :
  salt_password mac salt i self = Ok (rfc_hi hmac (str_bytes (pass self)) salt (Z.to_nat i)).
Proof.
  unfold salt_password. simpl. rewrite salt_rounds_iter by apply hmac_size. f_equal.
  unfold rfc_hi. rewrite <-fold_rounds_end. unfold rfc_u.
  do 3 f_equal. destruct i as [|p|p]; [done| |by destruct p]. lia.
Qed.

Context (b64_roundtrip : ∀ l, b64_decode (b64_encode l) = Some l)
  (b64_no_comma : ∀ l, 44 ∉ b64_encode l).

Lemma decimal_no_comma n : 0 <= n → 44 ∉ decimal n.
Proof.
  intros Hn Hin. pose proof (decimal_digits n Hn) as Hd. rewrite list.Forall_forall in Hd.
  by specialize (Hd _ Hin).
Qed.

Lemma digits_ascii l : Forall (λ b, is_digit b = true) l → utf8_valid l = true.
Proof.
  unfold utf8_valid. induction 1 as [|b l Hb Hl IH]; [done|]. simpl.
  unfold is_digit in Hb. test_true (b <=? 127). done.
Qed.

(** A byte does not occur in a literal. *)
Ltac no_byte := apply (bool_decide_unpack _); vm_compute; exact I.

Lemma not_elem_app (c : Z) l k : c ∉ l → c ∉ k → c ∉ l ++ k.
Proof. rewrite elem_of_app. tauto. Qed.

Lemma read_honest_first pw salt i nonce self :
  fits 32 i → 44 ∉ nonce → starts_with (client_nonce self) nonce = true →
  read_server_first b64_decode (server_first b64_encode (enrol hmac digest pw salt i) nonce) self
  = Ok (nonce, salt, i).
Proof.
  intros [Hi Hw] Hn Hpre. unfold read_server_first, server_first, enrol. cbn [st_salt st_iterations].
  rewrite (app_assoc (str_bytes "r=")).
  change (str_bytes ",s=") with (44 :: str_bytes "s=").
  change (str_bytes ",i=") with (44 :: str_bytes "i="). cbn [app].
  rewrite split_on_app by (apply not_elem_app; [no_byte|done]).
  rewrite (app_assoc (str_bytes "s=")).
  rewrite split_on_app by (apply not_elem_app; [no_byte|done]).
  rewrite split_on_none by (apply not_elem_app; [no_byte|by apply decimal_no_comma]).
  rewrite !starts_with_app. cbn [negb].
  change (drop 2 (str_bytes "r=" ++ nonce)) with nonce. rewrite Hpre. cbn [negb].
  change (drop 2 (str_bytes "s=" ++ b64_encode salt)) with (b64_encode salt). rewrite b64_roundtrip.
  change (drop 2 (str_bytes "i=" ++ decimal i)) with (decimal i). simpl.
  rewrite digits_ascii by by apply decimal_digits. by rewrite parse_decimal.
Qed.

(** The server accepts the proof the client computes from the same salted password. *)
Lemma server_final_accepts pw salt i nonce bare auth :
  44 ∉ nonce →
  let st := enrol hmac digest pw salt i in
  let salted := rfc_hi hmac pw salt (Z.to_nat i) in
  auth = bare ++ str_bytes "," ++ server_first b64_encode st nonce ++ str_bytes ",c=biws,r=" ++ nonce →
  server_final hmac digest b64_encode b64_decode st nonce bare
    (str_bytes "c=biws,r=" ++ nonce ++ str_bytes ",p="
     ++ b64_encode (xor_bytes (hmac salted (str_bytes "Client Key")) (hmac (stored_key st) auth)))
  = Some (str_bytes "v=" ++ b64_encode (hmac (server_key st) auth)).
Proof.
  intros Hn st salted Hauth. unfold server_final.
  change (str_bytes "c=biws,r=") with (str_bytes "c=biws" ++ 44 :: str_bytes "r=").
  change (str_bytes ",p=") with (44 :: str_bytes "p="). rewrite <-app_assoc. cbn [app].
  rewrite split_on_app by no_byte. rewrite app_assoc.
  rewrite split_on_app by (apply not_elem_app; [no_byte|done]).
  rewrite split_on_none by (apply not_elem_app; [no_byte|done]).
  rewrite !(bool_decide_true (_ = _)) by done. rewrite starts_with_app. cbn [andb].
  match goal with |- context [drop 2 (str_bytes "p=" ++ ?p)] => change (drop 2 (str_bytes "p=" ++ p)) with p end. rewrite b64_roundtrip. cbn [mbind option_bind].
  change (str_bytes ",c=biws,r=" ++ nonce)
    with (str_bytes "," ++ str_bytes "c=biws" ++ str_bytes "," ++ str_bytes "r=" ++ nonce) in Hauth.
  rewrite <-Hauth.
  rewrite xor_bytes_involutive by by rewrite !hmac_size.
  by rewrite bool_decide_true.
Qed.

Lemma step1_run user pass random :
  blen (b64_encode random) <= 12 →
  let bare := str_bytes "n=" ++ str_bytes user ++ str_bytes ",r=" ++ b64_encode random in
  step1 b64_encode random (scram_client_new user pass None)
  = (ScramClient.mk user pass (b64_encode random) [] [] bare, Ok (str_bytes "n,," ++ bare)).
Proof.
  intros Hlen bare. unfold step1, generate_nonce. rewrite bool_decide_true by done.
  change (6 * 4 / 3 + 4) with 12. test_false (12 <? blen (b64_encode random)).
  unfold extend_auth_msg, set_client_nonce, scram_client_new.
  cbn [ScramClient.user ScramClient.pass client_nonce server_nonce salted_pass auth_msg].
  rewrite app_nil_l, <-!app_assoc. done.
Qed.

Lemma step2_run self nonce salt i :
  fits 32 i → 44 ∉ nonce → starts_with (client_nonce self) nonce = true →
  let pw := str_bytes (pass self) in
  let st := enrol hmac digest pw salt i in
  let salted := rfc_hi hmac pw salt (Z.to_nat i) in
  let auth := auth_msg self ++ str_bytes "," ++ server_first b64_encode st nonce
              ++ str_bytes ",c=biws,r=" ++ nonce in
  step2 mac digest b64_encode b64_decode (server_first b64_encode st nonce) self
  = (ScramClient.mk (user self) (pass self) (client_nonce self) nonce salted auth,
     Ok (str_bytes "c=biws,r=" ++ nonce ++ str_bytes ",p="
         ++ b64_encode (xor_bytes (hmac salted (str_bytes "Client Key")) (hmac (stored_key st) auth)))).
Proof.
  intros Hi Hn Hpre pw st salted auth. unfold step2. cbn zeta. unfold st at 1. rewrite read_honest_first by done.
  rewrite salt_password_hi. cbn [extend_auth_msg set_server_nonce set_salted_pass
    ScramClient.user ScramClient.pass client_nonce server_nonce salted_pass auth_msg].
  assert (∀ s, extend_auth_msg (str_bytes ",c=biws,r=" ++ nonce) (set_salted_pass salted
    (set_server_nonce nonce (extend_auth_msg (str_bytes "," ++ s) self)))
    = ScramClient.mk (user self) (pass self) (client_nonce self) nonce salted
        (auth_msg self ++ str_bytes "," ++ s ++ str_bytes ",c=biws,r=" ++ nonce)) as Hauth.
  { intros x. unfold extend_auth_msg, set_salted_pass, set_server_nonce.
    cbn [ScramClient.user ScramClient.pass client_nonce server_nonce salted_pass auth_msg].
    by rewrite <-!app_assoc. }
  fold pw salted. rewrite Hauth. done.
Qed.

(** A server nonce that does not extend the nonce of the client is refused. *)
Lemma step2_nonce input self self' out :
  step2 mac digest b64_encode b64_decode input self = (self', Ok out) →
  starts_with (client_nonce self) (server_nonce self') = true.
Proof.
  unfold step2. cbn zeta. set (self1 := extend_auth_msg _ self). intros Hs.
  destruct (read_server_first b64_decode input self1) as [[[nonce salt] n]| |] eqn:Hr; try done.
  rewrite salt_password_hi in Hs. injection Hs as <- _.
  unfold read_server_first in Hr. destruct (split_on 44 input) as [|r [|x [|y [|]]]]; try done.
  repeat (case_match; try done); (destruct (b64_decode (drop 2 x)); [|done]); simpl in Hr; [|done].
  destruct (parse_uint 32 (drop 2 y)); [|done]. injection Hr as <- _ _. simpl.
  match goal with H : negb (starts_with (client_nonce self1) _) = false |- _ =>
    by apply negb_false_iff in H end.
Qed.

End Handshake.

(** A toy keyed hash and a toy text encoding with the documented facts. *)
Definition toy_hmac (k m : list Z) : list Z :=
  replicate 2 (foldl (λ acc b, (acc * 31 + b) mod 256) 7 (k ++ m)).
Definition toy_encode : list Z → list Z := map (λ b, 2 * b + 1).
Definition toy_decode (l : list Z) : option (list Z) := Some (map (λ x, (x - 1) / 2) l).

Lemma toy_roundtrip l : toy_decode (toy_encode l) = Some l.
Proof.
  unfold toy_decode, toy_encode. rewrite map_map. f_equal. rewrite <-(map_id l) at 2.
  apply map_ext. intros b. replace (2 * b + 1 - 1) with (b * 2) by lia. by apply Z.div_mul.
Qed.

Lemma toy_no_comma l : 44 ∉ toy_encode l.
Proof. unfold toy_encode. intros (b & Hb & _)%list_elem_of_fmap. lia. Qed.


(** The user name is not escaped: a name that holds [,r=] produces the message of
    another user with a nonce of the attacker's choice. *)
Lemma user_name_not_escaped random :
  snd (step1 (λ l, l) random (ScramClient.mk "bob,r=x" "" [65] [] [] []))
  = snd (step1 (λ l, l) random (ScramClient.mk "bob" "" (str_bytes "x,r=A") [] [] [])).
Proof. reflexivity. Qed.
