(* ===== verification/Bootstrap.v ===== *)
(** * Authentication and bootstrap of a connection ([memdx/op_bootstrap.rs],
    [memdx/op_auth_*.rs], [authenticator.rs])

    A new connection says hello, fetches the error map, authenticates, selects a
    bucket and fetches a cluster config, each step if it is asked for.

    The connection is used through the class [Exchange]: a request and its
    response, with a deadline or without.  The theorems are about every server:
    the state is the log of the calls made so far and the answer to a call is an
    arbitrary function of the log, which may also be no answer. *)

From S2P Require Import Prelude Wire MemdError Codec Requests OpsCore Response.
From S2P Require Import Client PendingOp Scram.

(** A call on a connection: it changes the connection and returns a result, or
    does not return ([None]). *)
Definition conn (D A : Type) : Type := D → D * option (outcome Error A).

#[export] Instance conn_ret {D} : MRet (conn D) := λ A a st, (st, Some (Ok a)).
#[export] Instance conn_bind {D} : MBind (conn D) := λ A B f m st,
  match m st with
  | (st, Some (Ok a)) => f a st
  | (st, Some (Err e)) => (st, Some (Err e))
  | (st, Some Panic) => (st, Some Panic)
  | (st, None) => (st, None)
  end.

Lemma conn_bind_run {D A B} (m : conn D A) (f : A → conn D B) (st : D) :
  (m ≫= f) st
  = match m st with
    | (st, Some (Ok a)) => f a st
    | (st, Some (Err e)) => (st, Some (Err e))
    | (st, Some Panic) => (st, Some Panic)
    | (st, None) => (st, None)
    end.
Proof. done. Qed.

Definition lift {D A} (r : outcome Error A) : conn D A := λ st, (st, Some r).

(** [match m.await { Ok(r) => Some(r), Err(e) => { warn!(..); None } }]. *)
Definition or_none {D A} (m : conn D A) : conn D (option A) := λ st,
  match m st with
  | (st, Some (Ok a)) => (st, Some (Ok (Some a)))
  | (st, Some (Err _)) => (st, Some (Ok None))
  | (st, Some Panic) => (st, Some Panic)
  | (st, None) => (st, None)
  end.

(** Dispatching a request and receiving its response: [op.await?.recv().await?],
    and [run_op_future_with_deadline], which always returns. *)
Class Exchange (D : Type) := {
  exchange : DispatchCall → conn D ClientResponse;
  exchange_by : Z → DispatchCall → D → D * outcome Error ClientResponse;
}.

(** ** Credentials ([op_auth_saslauto.rs], [authenticator.rs]) *)

Module Credentials.
Inductive Credentials : Type :=
| UserPass (username password : string)
| JwtToken (token : string).
End Credentials.
Abbreviation Credentials := Credentials.Credentials.

Definition user_pass (self : Credentials) : outcome Error (string * string) :=
  match self with
  | Credentials.UserPass username password => Ok (username, password)
  | _ => Err (new_invalid_argument_error "credentials do not contain username/password" None)
  end.

Definition jwt (self : Credentials) : outcome Error string :=
  match self with
  | Credentials.JwtToken token => Ok token
  | _ => Err (new_invalid_argument_error "credentials do not contain jwt" None)
  end.

Module Authenticator.
Inductive Authenticator : Type :=
| PasswordAuthenticator (username password : string)
| CertificateAuthenticator
| JwtAuthenticator (token : string).
End Authenticator.
Abbreviation Authenticator := Authenticator.Authenticator.

(** [PasswordAuthenticator::get_auth_mechanisms]. *)
Definition password_auth_mechanisms (tls_enabled : bool) : list AuthMechanism :=
  if tls_enabled then [AuthMechanism.Plain]
  else [AuthMechanism.ScramSha512; AuthMechanism.ScramSha256; AuthMechanism.ScramSha1].

(** [JwtAuthenticator::get_auth_mechanisms]. *)
Definition jwt_auth_mechanisms : list AuthMechanism := [AuthMechanism.OAuthBearer].

Record SASLAuthAutoOptions : Type := mkAuthAuto {
  credentials : Credentials;
  enabled_mechs : list AuthMechanism;
}.

Record BootstrapOptions : Type := mkBootstrap {
  bo_hello : option HelloRequest;
  bo_get_error_map : option GetErrorMapRequest;
  bo_auth : option SASLAuthAutoOptions;
  bo_select_bucket : option SelectBucketRequest;
  bo_deadline : Z;
  bo_get_cluster_config : option GetClusterConfigRequest;
}.

Record BootstrapResult : Type := mkBootstrapResult {
  br_hello : option HelloResponse;
  br_error_map : option GetErrorMapResponse;
  br_cluster_config : option (list Z);
}.

(** The hash functions of one SCRAM mechanism. *)
Record ScramHash : Type := mkHash {
  h_mac : list Z → list Z → option (list Z);
  h_digest : list Z → list Z;
}.

Section Auth.
Context {D : Type} `{Exchange D}.
(** SHA-1, SHA-256 and SHA-512, base64, and the random bytes of a nonce. *)
Context (sha1 sha256 sha512 : ScramHash) (b64_encode : list Z → list Z)
  (b64_decode : list Z → option (list Z)) (random : D → list Z).

(** [run_op_future_with_deadline] for a response type. *)
Definition run_op_by {T} (deadline : Z) (try_from : ClientResponse → outcome Error T)
    (call : DispatchCall) : conn D T := λ st,
  let '(st, r) := exchange_by deadline call st in (st, Some (r ≫= try_from)).

Definition not_accepted : Error :=
  new_protocol_error "server did not accept auth when the client expected".

(** ** PLAIN and OAUTHBEARER *)

Definition sasl_auth_plain (username password : string) (deadline : Z) : conn D unit :=
  let payload := [0] ++ str_bytes username ++ [0] ++ str_bytes password in
  let req := SASLAuthRequest.mk AuthMechanism.Plain payload in
  resp ← run_op_by deadline sasl_auth_try_from (OpsCore.sasl_auth req);
  if needs_more_steps resp then lift (Err not_accepted) else mret tt.

Definition sasl_auth_oauth_bearer (token : string) (deadline : Z) : conn D unit :=
  let payload := str_bytes "n,," ++ [1] ++ str_bytes "auth=Bearer " ++ str_bytes token ++ [1; 1] in
  let req := SASLAuthRequest.mk AuthMechanism.OAuthBearer payload in
  resp ← run_op_by deadline sasl_auth_try_from (OpsCore.sasl_auth req);
  if needs_more_steps resp then lift (Err not_accepted) else mret tt.

(** ** SCRAM *)

(** [.map_err(|e| Error::new_protocol_error(msg).with(e))?]. *)
Definition scram_err {A} (msg : string) (r : outcome ScramError A) : outcome Error A :=
  match r with
  | Ok a => Ok a
  | Err _ => Err (error_with (new_protocol_error msg) (SrcForeign "ScramError"))
  | Panic => Panic
  end.

Definition sasl_auth_scram (hash : ScramHash) (client : ScramClient) (deadline : Z) : conn D unit :=
  λ st,
    let '(client, payload) := step1 b64_encode (random st) client in
    (payload ← lift (scram_err "failed to perform initial sasl step" payload);
     let req := SASLAuthRequest.mk AuthMechanism.ScramSha512 payload in
     resp ← run_op_by deadline sasl_auth_try_from (OpsCore.sasl_auth req);
     if negb (needs_more_steps resp) then mret tt
     else
       let '(client, payload) :=
         step2 (h_mac hash) (h_digest hash) b64_encode b64_decode (Response.payload resp) client in
       payload ← lift (scram_err "failed to perform second sasl step" payload);
       let req := SASLStepRequest.mk AuthMechanism.ScramSha512 payload in
       resp ← run_op_by deadline sasl_step_try_from (OpsCore.sasl_step req);
       if needs_more_steps resp then lift (Err not_accepted) else mret tt) st.

(** ** The mechanism of the options ([op_auth_saslbyname.rs]) *)

Definition sasl_auth_by_name (creds : Credentials) (auth_mechanism : AuthMechanism) (deadline : Z)
    : conn D unit :=
  let scram hash :=
    '(username, password) ← lift (user_pass creds);
    sasl_auth_scram hash (scram_client_new username password None) deadline in
  match auth_mechanism with
  | AuthMechanism.Plain =>
      '(username, password) ← lift (user_pass creds);
      sasl_auth_plain username password deadline
  | AuthMechanism.ScramSha1 => scram sha1
  | AuthMechanism.ScramSha256 => scram sha256
  | AuthMechanism.ScramSha512 => scram sha512
  | AuthMechanism.OAuthBearer =>
      token ← lift (jwt creds);
      sasl_auth_oauth_bearer token deadline
  end.

(** ** The choice of the mechanism ([op_auth_saslauto.rs]) *)

(** The first mechanism is tried whatever the server lists; the list matters only
    when it fails. *)
Definition auth_with_fallback (deadline : Z) (opts : SASLAuthAutoOptions)
    (default_mech : AuthMechanism) (server_mechs : list AuthMechanism) : conn D unit := λ st,
  match sasl_auth_by_name (credentials opts) default_mech deadline st with
  | (st, Some (Err e)) =>
      if is_cancellation_error e then (st, Some (Err e))
      else if bool_decide (default_mech ∈ server_mechs) then (st, Some (Err e))
      else
        match list_find (λ item, item ∈ server_mechs) (enabled_mechs opts) with
        | Some (_, selected_mech) =>
            sasl_auth_by_name (credentials opts) selected_mech deadline st
        | None => (st, Some (Err (new_message_error "no supported mechanisms found")))
        end
  | res => res
  end.

Definition sasl_auth_auto (deadline : Z) (opts : SASLAuthAutoOptions) : conn D unit :=
  match enabled_mechs opts with
  | [] => lift (Err (new_invalid_argument_error "no enabled mechanisms" (Some "enabled_mechanisms"%string)))
  | default_mech :: _ =>
      resp ← exchange (OpsCore.sasl_list_mechs SASLListMechsRequest.mk);
      server_mechs ← lift (sasl_list_mechs_try_from resp);
      auth_with_fallback deadline opts default_mech server_mechs
  end.

(** ** The sequence ([op_bootstrap.rs]) *)

(** [if let Some(req) = .. { .. }]. *)
Definition when {A B} (o : option A) (m : A → conn D B) : conn D (option B) :=
  match o with
  | Some a => b ← m a; mret (Some b)
  | None => mret None
  end.

Definition bootstrap (opts : BootstrapOptions) : conn D BootstrapResult :=
  hello ← when (bo_hello opts) (λ req,
    or_none (run_op_by (bo_deadline opts) hello_try_from (OpsCore.hello req)));
  error_map ← when (bo_get_error_map opts) (λ req,
    or_none (run_op_by (bo_deadline opts) get_error_map_try_from (OpsCore.get_error_map req)));
  _ ← when (bo_auth opts) (sasl_auth_auto (bo_deadline opts));
  _ ← when (bo_select_bucket opts) (λ req,
    run_op_by (bo_deadline opts) select_bucket_try_from (OpsCore.select_bucket req));
  cluster_config ← when (bo_get_cluster_config opts) (λ req,
    or_none (run_op_by (bo_deadline opts) get_cluster_config_try_from (OpsCore.get_cluster_config req)));
  mret (mkBootstrapResult (mjoin hello) (mjoin error_map) (mjoin cluster_config)).
End Auth.

(** ** Bootstrapping against any server *)

Definition opcode_of (c : DispatchCall) : OpCode := rq_op_code (dc_packet c).

(** A call of the authentication: PLAIN, which carries the password, is only named
    when it is enabled. *)
Definition auth_call (mechs : list AuthMechanism) (c : DispatchCall) : Prop :=
  opcode_of c = OpCode.SASLListMechs
  ∨ (opcode_of c = OpCode.SASLAuth ∨ opcode_of c = OpCode.SASLStep)
    ∧ (rq_key (dc_packet c) = Some (bytes_from_auth_mechanism AuthMechanism.Plain) →
       AuthMechanism.Plain ∈ mechs).

Definition login_call (c : DispatchCall) : Prop :=
  opcode_of c = OpCode.SASLAuth ∨ opcode_of c = OpCode.SASLStep.

Section AnyServer.
Context (answer : list DispatchCall → DispatchCall → option (outcome Error ClientResponse)).

#[local] Instance log_exchange : Exchange (list DispatchCall) :=
  {| exchange := λ call log, (log ++ [call], answer log call);
     exchange_by := λ _ call log, (log ++ [call], default (Err timeout_error) (answer log call)) |}.

(** The server answered this call, made after [log], with the status [Success]. *)
Definition accepts (log : list DispatchCall) (call : DispatchCall) : Prop :=
  ∃ resp, answer log call = Some (Ok resp)
    ∧ rs_status (ClientResponse.packet resp) = Status.Success.

(** The calls a login made, and that it succeeds only on an accepted last call. *)
Record logs_in (mechs : list AuthMechanism) (log calls : list DispatchCall)
    (r : option (outcome Error unit)) : Prop := {
  li_calls : Forall (auth_call mechs) calls;
  li_ok : r = Some (Ok tt) → ∃ pre a, calls = pre ++ [a] ∧ login_call a ∧ accepts (log ++ pre) a;
}.

Definition login_run (mechs : list AuthMechanism) (m : conn (list DispatchCall) unit) : Prop :=
  ∀ log, ∃ calls, fst (m log) = log ++ calls ∧ logs_in mechs log calls (snd (m log)).

Lemma run_op_by_log {T} deadline (try_from : ClientResponse → outcome Error T) call log :
  run_op_by deadline try_from call log
  = (log ++ [call], Some (default (Err timeout_error) (answer log call) ≫= try_from)).
Proof. done. Qed.

Lemma run_op_by_accepts {T} deadline (try_from : ClientResponse → outcome Error T) call log t :
  (∀ resp, try_from resp = Ok t → rs_status (ClientResponse.packet resp) = Status.Success) →
  snd (run_op_by deadline try_from call log) = Some (Ok t) → accepts log call.
Proof.
  intros Htf. rewrite run_op_by_log. simpl. intros [= Hr].
  destruct (answer log call) as [[resp| |]|] eqn:Ha; simpl in Hr; try done.
  exists resp. auto.
Qed.

Lemma sasl_success resp t :
  (sasl_auth_try_from resp = Ok t ∨ sasl_step_try_from resp = Ok t) → needs_more_steps t = false →
  rs_status (ClientResponse.packet resp) = Status.Success.
Proof.
  unfold sasl_auth_try_from, sasl_step_try_from.
  intros [Ht|Ht] Hn; repeat case_bool_decide; simpl in Ht; simplify_eq/=; done.
Qed.

Lemma login_lift mechs {A} (r : outcome Error A) (k : A → conn (list DispatchCall) unit) :
  (∀ a, r = Ok a → login_run mechs (k a)) → login_run mechs (lift r ≫= k).
Proof.
  intros Hk log. rewrite !conn_bind_run. unfold lift. destruct r as [a| |]; [by apply Hk|..];
    exists []; (split; [by rewrite app_nil_r|by split]).
Qed.

(** One SASL request whose acceptance ends the login. *)
Lemma login_last mechs deadline try_from call log :
  try_from = sasl_auth_try_from ∨ try_from = sasl_step_try_from →
  auth_call mechs call → login_call call →
  let m := resp ← run_op_by deadline try_from call;
           if needs_more_steps resp then lift (Err not_accepted) else mret tt in
  fst (m log) = log ++ [call] ∧ logs_in mechs log [call] (snd (m log)).
Proof.
  intros Htf Hc Hl m. unfold m. rewrite !conn_bind_run, run_op_by_log.
  destruct (default (Err timeout_error) (answer log call) ≫= try_from) as [t| |] eqn:Hr;
    [|split; [done|]; by split; [constructor|]..].
  destruct (needs_more_steps t) eqn:Hn; (split; [done|]; split; [by constructor|]); [done|].
  intros _. exists [], call. split_and!; [done..|]. rewrite app_nil_r.
  destruct (answer log call) as [[resp| |]|] eqn:Ha; simpl in Hr; try done.
  exists resp. split; [done|]. eapply sasl_success; [|done]. by destruct Htf as [->| ->]; [left|right].
Qed.

Lemma logs_in_cons mechs log call calls r :
  auth_call mechs call → logs_in mechs (log ++ [call]) calls r → logs_in mechs log (call :: calls) r.
Proof.
  intros Hc [Hcs Hok]. split; [by constructor|]. intros Hr.
  destruct (Hok Hr) as (pre & a & -> & Hl & Ha). exists (call :: pre), a.
  split_and!; [done..|]. by rewrite <-app_assoc in Ha.
Qed.

Context (sha1 sha256 sha512 : ScramHash) (b64_encode : list Z → list Z)
  (b64_decode : list Z → option (list Z)) (random : list DispatchCall → list Z).

Lemma sha512_call mechs payload :
  auth_call mechs (OpsCore.sasl_auth (SASLAuthRequest.mk AuthMechanism.ScramSha512 payload))
  ∧ auth_call mechs (OpsCore.sasl_step (SASLStepRequest.mk AuthMechanism.ScramSha512 payload)).
Proof. split; right; (split; [by auto|done]). Qed.

Lemma scram_login mechs hash client deadline :
  login_run mechs (sasl_auth_scram b64_encode b64_decode random hash client deadline).
Proof.
  intros log. unfold sasl_auth_scram. destruct (step1 b64_encode (random log) client) as [client1 p1].
  apply login_lift. clear log. intros payload _ log. rewrite !conn_bind_run.
  set (call := OpsCore.sasl_auth _). pose proof (sha512_call mechs payload) as [Hc _].
  rewrite run_op_by_log.
  destruct (default (Err timeout_error) (answer log call) ≫= sasl_auth_try_from) as [t| |] eqn:Hr;
    [|exists [call]; (split; [done|]); by split; [constructor|]..].
  destruct (needs_more_steps t) eqn:Hn; simpl.
  - destruct (step2 _ _ _ _ (Response.payload t) client1) as [client2 p2].
    edestruct (login_lift mechs (scram_err "failed to perform second sasl step" p2))
      as (calls & Hcalls & Hin); [|by exists (call :: calls); rewrite Hcalls, <-app_assoc;
        split; [done|apply logs_in_cons]].
    intros payload2 _ log2. eexists. apply login_last; [by right|apply sha512_call|by right].
  - exists [call]. split; [done|]. split; [by constructor|]. intros _. exists [], call.
    split_and!; [done|by left|]. rewrite app_nil_r.
    destruct (answer log call) as [[resp| |]|] eqn:Ha; simpl in Hr; try done.
    exists resp. split; [done|]. eapply sasl_success; [by left|done].
Qed.

Lemma by_name_login mechs creds mech deadline :
  mech ∈ mechs →
  login_run mechs
    (sasl_auth_by_name sha1 sha256 sha512 b64_encode b64_decode random creds mech deadline).
Proof.
  intros Hm. destruct mech; simpl; apply login_lift; try (intros [u p] _; apply scram_login).
  - intros [u p] _ log. eexists. apply login_last; [by left| |by left]. right. split; [by left|done].
  - intros token _ log. eexists. apply login_last; [by left| |by left].
    right. split; [by left|]. intros Hkey. exfalso. by vm_compute in Hkey.
Qed.

(** Two logins one after the other, the second after a failed first. *)
Lemma logs_in_app mechs log c1 c2 r1 r2 :
  logs_in mechs log c1 r1 → logs_in mechs (log ++ c1) c2 r2 → logs_in mechs log (c1 ++ c2) r2.
Proof.
  intros [H1 _] [H2 Hok]. split; [by apply Forall_app|]. intros Hr.
  destruct (Hok Hr) as (pre & a & -> & Hl & Ha). exists (c1 ++ pre), a.
  rewrite !app_assoc. by split_and!.
Qed.

Lemma auto_login deadline opts :
  login_run (enabled_mechs opts)
    (sasl_auth_auto sha1 sha256 sha512 b64_encode b64_decode random deadline opts).
Proof.
  unfold sasl_auth_auto. destruct (enabled_mechs opts) as [|mech mechs] eqn:Hmechs.
  { intros log. exists []. split; [by rewrite app_nil_r|by split]. }
  intros log. rewrite !conn_bind_run. cbn [exchange log_exchange].
  set (call := OpsCore.sasl_list_mechs _).
  assert (auth_call (mech :: mechs) call) as Hc by by left.
  destruct (answer log call) as [[resp| |]|] eqn:Ha;
    [|exists [call]; (split; [done|]); by split; [constructor|]..].
  edestruct (login_lift (mech :: mechs) (sasl_list_mechs_try_from resp))
    as (calls & Hcalls & Hin); [|by exists (call :: calls); rewrite Hcalls, <-app_assoc;
        split; [done|apply logs_in_cons]].
  clear log Ha. intros server_mechs _ log. unfold auth_with_fallback.
  destruct (by_name_login (mech :: mechs) (credentials opts) mech deadline ltac:(by left) log)
    as (c1 & Hc1 & Hin1).
  destruct (sasl_auth_by_name _ _ _ _ _ _ _ mech deadline log) as [log1 r1]. simpl in Hc1, Hin1. subst log1.
  destruct r1 as [[?|e|]|]; try by exists c1.
  destruct (is_cancellation_error e); [by exists c1|]. case_bool_decide; [by exists c1|].
  destruct (list_find _ _) as [[i sel]|] eqn:Hf.
  - apply list_find_Some in Hf as (Hsel & _ & _). apply list_elem_of_lookup_2 in Hsel.
    rewrite Hmechs in Hsel.
    destruct (by_name_login _ (credentials opts) sel deadline Hsel (log ++ c1)) as (c2 & Hc2 & Hin2).
    exists (c1 ++ c2). rewrite Hc2, app_assoc. split; [done|]. by eapply logs_in_app.
  - exists c1. split; [done|]. destruct Hin1. by split.
Qed.
(** An optional step whose failure is ignored. *)
Lemma ignored_step {A B} (o : option A) (call : A → DispatchCall) deadline
    (try_from : ClientResponse → outcome Error B) log :
  ∃ calls, fst (when o (λ req, or_none (run_op_by deadline try_from (call req))) log) = log ++ calls
    ∧ Forall (λ c, ∃ req, c = call req) calls.
Proof.
  destruct o as [req|]; simpl; [|exists []; by rewrite app_nil_r].
  exists [call req]. split; [|by constructor; [exists req|]].
  rewrite conn_bind_run. unfold or_none. rewrite run_op_by_log. by repeat case_match; simplify_eq/=.
Qed.

Abbreviation run_bootstrap := (bootstrap sha1 sha256 sha512 b64_encode b64_decode random).

(** What follows the login. *)
Lemma after_login {R} (g : option (option (list Z)) → R) opts log :
  let m := _ ← when (bo_select_bucket opts) (λ req,
             run_op_by (bo_deadline opts) select_bucket_try_from (OpsCore.select_bucket req));
           config ← when (bo_get_cluster_config opts) (λ req, or_none (run_op_by (bo_deadline opts)
             get_cluster_config_try_from (OpsCore.get_cluster_config req)));
           mret (M := conn (list DispatchCall)) (g config) in
  ∃ calls, fst (m log) = log ++ calls
    ∧ Forall (λ c, opcode_of c = OpCode.SelectBucket ∨ opcode_of c = OpCode.GetClusterConfig) calls
    ∧ (∀ res req, snd (m log) = Some (Ok res) → bo_select_bucket opts = Some req →
         ∃ rest, calls = OpsCore.select_bucket req :: rest ∧ accepts log (OpsCore.select_bucket req)).
Proof.
  intros m. unfold m. rewrite !conn_bind_run.
  set (config := λ req, or_none _).
  assert (∀ log, ∃ calls, fst (when (bo_get_cluster_config opts) config log) = log ++ calls
    ∧ Forall (λ c, opcode_of c = OpCode.SelectBucket ∨ opcode_of c = OpCode.GetClusterConfig) calls)
    as Hconfig.
  { intros log'. destruct (ignored_step (bo_get_cluster_config opts) OpsCore.get_cluster_config
      (bo_deadline opts) get_cluster_config_try_from log') as (calls & Hc & Hf).
    exists calls. split; [done|]. eapply list.Forall_impl; [done|]. intros c [req ->]. by right. }
  assert (∀ log, ∃ calls, fst ((config ← when (bo_get_cluster_config opts) config;
      mret (M := conn (list DispatchCall)) (g config)) log) = log ++ calls
    ∧ Forall (λ c, opcode_of c = OpCode.SelectBucket ∨ opcode_of c = OpCode.GetClusterConfig) calls)
    as Htail.
  { intros log'. rewrite conn_bind_run. destruct (Hconfig log') as (calls & Hc & Hf).
    exists calls. split; [|done]. by destruct (when _ config log') as [? [[]|]]. }
  destruct (bo_select_bucket opts) as [req|]; simpl.
  - set (call := OpsCore.select_bucket req). rewrite conn_bind_run, run_op_by_log.
    destruct (default (Err timeout_error) (answer log call) ≫= select_bucket_try_from)
      as [[]| |] eqn:Hr;
      [|exists [call]; (split; [done|]; split; [by constructor; [left|]|done])..].
    destruct (Htail (log ++ [call])) as (calls & Hc & Hf). exists (call :: calls).
    split; [etrans; [exact Hc|by rewrite <-app_assoc]|]. split; [by constructor; [left|]|].
    intros res req' _ [= <-]. exists calls. split; [done|].
    destruct (answer log call) as [[resp| |]|] eqn:Ha; simpl in Hr; try done.
    exists resp. split; [done|]. unfold select_bucket_try_from in Hr.
    repeat case_bool_decide; simpl in Hr; congruence.
  - destruct (Htail log) as (calls & Hc & Hf). by exists calls.
Qed.

(** The login and what follows it. *)
Lemma login_and_after {R} (g : option (option (list Z)) → R) opts auth log :
  let m := _ ← when (Some auth)
             (sasl_auth_auto sha1 sha256 sha512 b64_encode b64_decode random (bo_deadline opts));
           _ ← when (bo_select_bucket opts) (λ req,
             run_op_by (bo_deadline opts) select_bucket_try_from (OpsCore.select_bucket req));
           config ← when (bo_get_cluster_config opts) (λ req, or_none (run_op_by (bo_deadline opts)
             get_cluster_config_try_from (OpsCore.get_cluster_config req)));
           mret (M := conn (list DispatchCall)) (g config) in
  ∃ auths after, fst (m log) = log ++ auths ++ after
    ∧ Forall (auth_call (enabled_mechs auth)) auths
    ∧ Forall (λ c, opcode_of c = OpCode.SelectBucket ∨ opcode_of c = OpCode.GetClusterConfig) after
    ∧ (after ≠ [] ∨ (∃ res, snd (m log) = Some (Ok res)) →
       ∃ pre a, auths = pre ++ [a] ∧ login_call a ∧ accepts (log ++ pre) a)
    ∧ (∀ res req, snd (m log) = Some (Ok res) → bo_select_bucket opts = Some req →
         ∃ rest, after = OpsCore.select_bucket req :: rest
           ∧ accepts (log ++ auths) (OpsCore.select_bucket req)).
Proof.
  intros m. unfold m. rewrite conn_bind_run. cbn [when]. rewrite conn_bind_run.
  destruct (auto_login (bo_deadline opts) auth log) as (auths & Hlog & Hcalls & Hok).
  destruct (sasl_auth_auto _ _ _ _ _ _ _ auth log) as [log1 r]. simpl in Hlog, Hok. subst log1.
  destruct r as [[[]| |]|];
    [|exists auths, []; rewrite app_nil_r; (split_and!; [done..| |done]); by intros [?|[? ?]]..].
  destruct (after_login g opts (log ++ auths)) as (after & Ha & Hf & Hsel).
  exists auths, after. rewrite app_assoc. split_and!; [exact Ha|done|done| |exact Hsel].
  intros _. by apply Hok.
Qed.

(** The calls of a bootstrap that authenticates. *)
Lemma bootstrap_calls opts auth log :
  bo_auth opts = Some auth →
  ∃ before auths after, fst (run_bootstrap opts log) = log ++ before ++ auths ++ after
    ∧ Forall (λ c, opcode_of c = OpCode.Hello ∨ opcode_of c = OpCode.GetErrorMap) before
    ∧ Forall (auth_call (enabled_mechs auth)) auths
    ∧ Forall (λ c, opcode_of c = OpCode.SelectBucket ∨ opcode_of c = OpCode.GetClusterConfig) after
    ∧ (after ≠ [] ∨ (∃ res, snd (run_bootstrap opts log) = Some (Ok res)) →
       ∃ pre a, auths = pre ++ [a] ∧ login_call a ∧ accepts (log ++ before ++ pre) a)
    ∧ (∀ res req, snd (run_bootstrap opts log) = Some (Ok res) → bo_select_bucket opts = Some req →
         ∃ rest, after = OpsCore.select_bucket req :: rest
           ∧ accepts (log ++ before ++ auths) (OpsCore.select_bucket req)).
Proof.
  intros Hauth. unfold bootstrap. rewrite Hauth.
  rewrite conn_bind_run.
  destruct (ignored_step (bo_hello opts) OpsCore.hello (bo_deadline opts) hello_try_from log)
    as (c1 & Hc1 & Hf1).
  destruct (when (bo_hello opts) _ log) as [log1 r1]. simpl in Hc1. subst log1.
  apply (list.Forall_impl _ (λ c, opcode_of c = OpCode.Hello ∨ opcode_of c = OpCode.GetErrorMap))
    in Hf1; [|intros c [req ->]; by left].
  destruct r1 as [[hello| |]|];
    [|exists c1, [], []; rewrite !app_nil_r; (split_and!; [done..| |done]); by intros [?|[? ?]]..].
  rewrite conn_bind_run.
  destruct (ignored_step (bo_get_error_map opts) OpsCore.get_error_map (bo_deadline opts)
    get_error_map_try_from (log ++ c1)) as (c2 & Hc2 & Hf2).
  destruct (when (bo_get_error_map opts) _ (log ++ c1)) as [log2 r2]. simpl in Hc2. subst log2.
  apply (list.Forall_impl _ (λ c, opcode_of c = OpCode.Hello ∨ opcode_of c = OpCode.GetErrorMap))
    in Hf2; [|intros c [req ->]; by right].
  pose proof (proj2 (list.Forall_app _ c1 c2) (conj Hf1 Hf2)) as Hf. rewrite <-app_assoc.
  destruct r2 as [[emap| |]|];
    [|exists (c1 ++ c2), [], []; rewrite !app_nil_r; (split_and!; [done..| |done]); by intros [?|[? ?]]..].
  destruct (login_and_after (λ config, mkBootstrapResult (mjoin hello) (mjoin emap) (mjoin config))
    opts auth (log ++ c1 ++ c2)) as (auths & after & Hrun & H1 & H2 & H3 & H4).
  exists (c1 ++ c2), auths, after. rewrite <-(app_assoc log) in Hrun.
  split_and!; [exact Hrun|done..| |].
  - intros Hor. destruct (H3 Hor) as (pre & a & ? & ? & ?). exists pre, a. by rewrite (app_assoc log).
  - intros res req Hres Hreq. destruct (H4 res req Hres Hreq) as (rest & ? & ?). exists rest.
    by rewrite (app_assoc log).
Qed.

(** C9. A connection is authenticated before it is used, whatever the server
    answers.  The calls of a bootstrap are, in this order, the hello and the error
    map, the login, the bucket and the config; PLAIN, which carries the password,
    is only used when it is enabled; a bucket is selected or a config fetched, and
    the bootstrap succeeds, only after the last call of the login was answered
    with success; and a bootstrap that was asked to select a bucket and succeeds
    has selected it. *)
Theorem bootstrap_authenticates_first opts auth log :
  let run := bootstrap sha1 sha256 sha512 b64_encode b64_decode random opts log in
  bo_auth opts = Some auth →
  ∃ before auths after, fst run = log ++ before ++ auths ++ after
    ∧ Forall (λ c, opcode_of c = OpCode.Hello ∨ opcode_of c = OpCode.GetErrorMap) before
    ∧ Forall (auth_call (enabled_mechs auth)) auths
    ∧ Forall (λ c, opcode_of c = OpCode.SelectBucket ∨ opcode_of c = OpCode.GetClusterConfig) after
    ∧ (after ≠ [] ∨ (∃ res, snd run = Some (Ok res)) →
       ∃ pre a, auths = pre ++ [a] ∧ login_call a ∧ accepts (log ++ before ++ pre) a)
    ∧ (∀ res req, snd run = Some (Ok res) → bo_select_bucket opts = Some req →
         ∃ rest, after = OpsCore.select_bucket req :: rest
           ∧ accepts (log ++ before ++ auths) (OpsCore.select_bucket req)).
Proof. apply bootstrap_calls. Qed.

(** ** Returning *)

Definition always_returns {A} (m : conn (list DispatchCall) A) : Prop := ∀ log, snd (m log) ≠ None.

Lemma returns_lift {A} (r : outcome Error A) : always_returns (lift r).
Proof. done. Qed.
Lemma returns_mret {A} (a : A) : always_returns (mret a).
Proof. done. Qed.
Lemma conn_returns_bind {A B} (m : conn (list DispatchCall) A) (f : A → conn (list DispatchCall) B) :
  always_returns m → (∀ a, always_returns (f a)) → always_returns (m ≫= f).
Proof.
  intros Hm Hf log. rewrite conn_bind_run. specialize (Hm log).
  destruct (m log) as [log' [[a| |]|]]; try done. apply Hf.
Qed.
Lemma returns_run_op_by {T} deadline (tf : ClientResponse → outcome Error T) call :
  always_returns (run_op_by deadline tf call).
Proof. done. Qed.
Lemma returns_or_none {A} (m : conn (list DispatchCall) A) :
  always_returns m → always_returns (or_none m).
Proof. intros Hm log. specialize (Hm log). unfold or_none. by repeat case_match; simplify_eq/=. Qed.
Lemma returns_when {A B} (o : option A) (m : A → conn (list DispatchCall) B) :
  (∀ a, always_returns (m a)) → always_returns (when o m).
Proof. intros Hm. destruct o; [|done]. apply conn_returns_bind; [apply Hm|done]. Qed.

#[local] Hint Resolve returns_lift returns_mret conn_returns_bind returns_run_op_by returns_or_none
  returns_when : returns.

Lemma returns_scram hash client deadline :
  always_returns (sasl_auth_scram b64_encode b64_decode random hash client deadline).
Proof.
  intros log. unfold sasl_auth_scram. destruct (step1 b64_encode (random log) client) as [client1 p1].
  apply conn_returns_bind; [done|]. intros payload. apply conn_returns_bind; [done|]. intros resp.
  destruct (negb _); [done|]. destruct (step2 _ _ _ _ _ client1) as [client2 p2].
  apply conn_returns_bind; [done|]. intros payload2. apply conn_returns_bind; [done|]. intros resp2. by case_match.
Qed.

Lemma returns_by_name creds mech deadline :
  always_returns
    (sasl_auth_by_name sha1 sha256 sha512 b64_encode b64_decode random creds mech deadline).
Proof.
  destruct mech; simpl; (apply conn_returns_bind; [done|]);
    try (intros [u p]; apply returns_scram); intros x; repeat case_match;
    (apply conn_returns_bind; [done|]; intros resp; by case_match).
Qed.

Lemma returns_fallback deadline opts mech mechs :
  always_returns (auth_with_fallback sha1 sha256 sha512 b64_encode b64_decode random deadline opts
    mech mechs).
Proof.
  intros log. unfold auth_with_fallback.
  pose proof (returns_by_name (credentials opts) mech deadline log) as Hr.
  destruct (sasl_auth_by_name _ _ _ _ _ _ _ mech deadline log) as [log' [[?|e|]|]]; try done.
  destruct (is_cancellation_error e); [done|]. case_bool_decide; [done|].
  destruct (list_find _ _) as [[i sel]|]; [apply returns_by_name|done].
Qed.

(** Every step of a bootstrap is bounded by its deadline but one: a bootstrap
    returns if the server answers the request for the list of mechanisms, and when
    the server does not, a bootstrap that authenticates never returns, whatever
    its deadline. *)
Lemma bootstrap_returns opts log :
  let list_mechs := OpsCore.sasl_list_mechs SASLListMechsRequest.mk in
  ((∀ log, answer log list_mechs ≠ None) → snd (bootstrap sha1 sha256 sha512 b64_encode b64_decode random opts log) ≠ None)
  ∧ (∀ auth, bo_auth opts = Some auth → enabled_mechs auth ≠ [] →
       bo_hello opts = None → bo_get_error_map opts = None →
       answer log list_mechs = None → snd (bootstrap sha1 sha256 sha512 b64_encode b64_decode random opts log) = None).
Proof.
  intros list_mechs. split.
  - intros Hans. revert log. change (always_returns (run_bootstrap opts)). unfold bootstrap.
    apply conn_returns_bind; [eauto 6 with returns|]. intros h.
    apply conn_returns_bind; [eauto 6 with returns|]. intros e.
    apply conn_returns_bind; [|eauto 12 with returns]. apply returns_when. intros auth.
    unfold sasl_auth_auto. destruct (enabled_mechs auth) as [|mech mechs]; [done|].
    apply conn_returns_bind; [intros log; apply Hans|]. intros resp.
    apply conn_returns_bind; [done|]. intros server_mechs. apply returns_fallback.
  - intros auth Hauth Hm Hh He Hans.
    assert (sasl_auth_auto sha1 sha256 sha512 b64_encode b64_decode random (bo_deadline opts) auth log
      = (log ++ [list_mechs], None)) as Hhang.
    { unfold sasl_auth_auto. destruct (enabled_mechs auth) as [|mech mechs]; [done|].
      rewrite conn_bind_run. cbn [exchange log_exchange]. fold list_mechs. by rewrite Hans. }
    unfold bootstrap. rewrite Hauth, Hh, He. cbn [when].
    unfold mbind, conn_bind, mret, conn_ret. by rewrite Hhang.
Qed.

(** Whatever the SCRAM mechanism, the one named to the server is SHA-512. *)
Lemma scram_names_sha512 hash client deadline log payload :
  snd (step1 b64_encode (random log) client) = Ok payload →
  ∃ rest, fst (sasl_auth_scram b64_encode b64_decode random hash client deadline log)
    = log ++ OpsCore.sasl_auth (SASLAuthRequest.mk AuthMechanism.ScramSha512 payload) :: rest.
Proof.
  intros Hp. unfold sasl_auth_scram. destruct (step1 b64_encode (random log) client) as [client1 p1].
  simpl in Hp. subst p1. rewrite conn_bind_run. cbn [scram_err lift].
  rewrite conn_bind_run, run_op_by_log. set (call := OpsCore.sasl_auth _).
  destruct (default (Err timeout_error) (answer log call) ≫= sasl_auth_try_from) as [t| |];
    [|by exists []..].
  destruct (negb (needs_more_steps t)); [by exists []|].
  destruct (step2 _ _ _ _ (Response.payload t) client1) as [client2 [payload2| |]];
    rewrite conn_bind_run; [|by exists []..].
  simpl. rewrite conn_bind_run, run_op_by_log. set (step := OpsCore.sasl_step _).
  exists [step]. rewrite <-app_assoc. simpl.
  destruct (default (Err timeout_error) (answer _ step) ≫= sasl_step_try_from) as [t'| |]; [|done..].
  by destruct (needs_more_steps t').
Qed.
End AnyServer.

(** ** Witnesses *)

Definition sample_hash : ScramHash := mkHash (λ k m, Some (toy_hmac k m)) (λ l, l).

(** A server that accepts everything and lists PLAIN. *)
Definition sample_answer (_ : list DispatchCall) (_ : DispatchCall)
    : option (outcome Error ClientResponse) :=
  Some (Ok (ClientResponse.mk (sample_packet Status.Success None (Some (str_bytes "PLAIN")) None) None)).

Definition sample_bootstrap (mech : AuthMechanism) : BootstrapOptions :=
  mkBootstrap None None (Some (mkAuthAuto (Credentials.UserPass "user" "secret") [mech]))
    (Some (SelectBucketRequest.mk "travel")) 7 None.

Abbreviation sample_run answer := (bootstrap (H := log_exchange answer) sample_hash sample_hash
  sample_hash toy_encode toy_decode (λ _, [1; 2; 3; 4; 5; 6]) (sample_bootstrap AuthMechanism.Plain) []).

Lemma bootstrap_authenticates_first_witness :
  (∃ log call, login_call call ∧ accepts sample_answer log call)
  ∧ (∃ res, snd (sample_run sample_answer) = Some (Ok res)).
Proof.
  split; [|by eexists; vm_compute].
  destruct (bootstrap_authenticates_first sample_answer sample_hash sample_hash sample_hash
    toy_encode toy_decode (λ _, [1; 2; 3; 4; 5; 6]) (sample_bootstrap AuthMechanism.Plain)
    (mkAuthAuto (Credentials.UserPass "user" "secret") [AuthMechanism.Plain]) [] eq_refl)
    as (before & auths & after & _ & _ & _ & _ & Hacc & _).
  destruct Hacc as (pre & a & _ & Hl & Ha); [right; eexists; by vm_compute|].
  by exists ([] ++ before ++ pre), a.
Defined.

Lemma bootstrap_returns_example :
  snd (sample_run sample_answer) ≠ None ∧ snd (sample_run (λ _ _, None)) = None.
Proof.
  split.
  - apply (bootstrap_returns sample_answer sample_hash sample_hash sample_hash toy_encode toy_decode
      (λ _, [1; 2; 3; 4; 5; 6]) (sample_bootstrap AuthMechanism.Plain) []). done.
  - by eapply (bootstrap_returns (λ _ _, None) sample_hash sample_hash sample_hash toy_encode toy_decode
      (λ _, [1; 2; 3; 4; 5; 6]) (sample_bootstrap AuthMechanism.Plain) []).
Defined.
