(* ===== verification/CoreError.v ===== *)
(** * Errors of the agent layer ([error.rs]) and retry requests ([retry.rs])

    Above the connections every failure is an [error::Error]: a memcached error
    with its context, an error of one of the HTTP services, or an error of the
    routing layer, with the retry history of the request attached. *)

From S2P Require Import Prelude Json HttpxError Wire MemdError QueryxError SearchxError AnalyticsxError MgmtxError.

(** ** Retry requests ([retry.rs]) *)

Module RetryReason.
Inductive RetryReason : Type :=
| KvNotMyVbucket
| KvInvalidVbucketMap
| KvTemporaryFailure
| KvCollectionOutdated
| KvErrorMapRetryIndicated
| KvLocked
| KvSyncWriteInProgress
| KvSyncWriteRecommitInProgress
| ServiceNotAvailable
| SocketClosedWhileInFlight
| SocketNotAvailable
| QueryPreparedStatementFailure
| QueryIndexNotFound
| SearchTooManyRequests
| HttpSendRequestFailed
| NotReady.
End RetryReason.
Abbreviation RetryReason := RetryReason.RetryReason.

#[global] Instance retry_reason_eq_dec : EqDecision RetryReason.
Proof. solve_decision. Defined.

Definition all_retry_reasons : list RetryReason :=
  [RetryReason.KvNotMyVbucket; RetryReason.KvInvalidVbucketMap;
   RetryReason.KvTemporaryFailure; RetryReason.KvCollectionOutdated;
   RetryReason.KvErrorMapRetryIndicated; RetryReason.KvLocked;
   RetryReason.KvSyncWriteInProgress; RetryReason.KvSyncWriteRecommitInProgress;
   RetryReason.ServiceNotAvailable; RetryReason.SocketClosedWhileInFlight;
   RetryReason.SocketNotAvailable; RetryReason.QueryPreparedStatementFailure;
   RetryReason.QueryIndexNotFound; RetryReason.SearchTooManyRequests;
   RetryReason.HttpSendRequestFailed; RetryReason.NotReady].

Definition retry_reason_index (r : RetryReason) : nat :=
  default 0%nat (fst <$> list_find (λ x, x = r) all_retry_reasons).

Lemma retry_reason_index_inv r : all_retry_reasons !! retry_reason_index r = Some r.
Proof. by destruct r. Qed.

#[global] Instance retry_reason_countable : Countable RetryReason :=
  inj_countable retry_reason_index (λ n, all_retry_reasons !! n) retry_reason_index_inv.

Record RetryRequest : Type := mkRetryRequest {
  operation : string;
  is_idempotent : bool;
  retry_attempts : Z;
  retry_reasons : gset RetryReason;
  unique_id : option string;
}.

Definition retry_request_new (operation : string) (is_idempotent : bool) : RetryRequest :=
  {| operation := operation; is_idempotent := is_idempotent; retry_attempts := 0;
     retry_reasons := ∅; unique_id := None |}.

(** ** The services of a cluster *)

Module ServiceType.
Inductive ServiceType : Type :=
| Memd
| Mgmt
| Query
| Search
| Eventing
| Analytics
| Other (name : string).
End ServiceType.
Abbreviation ServiceType := ServiceType.ServiceType.

(** ** The agent's error type ([error.rs]) *)

Module Core.

(** [InnerMemdxError]: a memcached error with the context of its operation. *)
Record MemdxError : Type := mkMemdxError {
  source : MemdError.Error;
  dispatched_to : option string;
  dispatched_from : option string;
  doc_id : option (list Z);
  bucket_name : option string;
  scope_name : option string;
  collection_name : option string;
}.

Inductive ErrorKind : Type :=
| Memdx (e : MemdxError)
| Analytics (e : Analyticsx.Error)
| Query (e : Queryx.Error Value)
| Search (e : Searchx.Error)
| Http (e : HttpxError)
| Mgmt (e : Mgmtx.Error)
| VbucketMapOutdated
| InvalidArgument (msg : string) (arg : option string)
| EndpointNotKnown (endpoint : string)
| InvalidVbucket (requested_vb_id num_vbuckets : Z)
| InvalidReplica (requested_replica num_servers : Z)
| NoEndpointsAvailable
| Shutdown
| NoBucket
| IllegalState (msg : string)
| NoVbucketMap
| NoServerAssigned (requested_vb_id : Z)
| CollectionManifestOutdated (manifest_uid server_manifest_uid : Z)
| Message (msg : string)
| ServiceNotAvailable (service : ServiceType)
| FeatureNotAvailable (feature msg : string)
| Compression (msg : string)
| Internal (msg : string).

Record Error : Type := mkError {
  kind : ErrorKind;
  retry_info : option RetryRequest;
}.

Definition new (kind : ErrorKind) : Error := {| kind := kind; retry_info := None |}.

Definition memdx_error_new (source : MemdError.Error) : MemdxError :=
  mkMemdxError source None None None None None None.

Definition new_contextual_memdx_error (e : MemdxError) : Error := new (Memdx e).

Definition new_message_error (msg : string) : Error := new (Message msg).

(** The memcached error behind [MemdxError]'s [Deref]. *)
Definition is_memdx_error (e : Error) : option MemdError.Error :=
  match kind e with Memdx err => Some (source err) | _ => None end.

Definition set_retry_info (e : Error) (info : RetryRequest) : Error :=
  {| kind := kind e; retry_info := Some info |}.

(** [CrudComponent::update_memdx_err]. *)
Definition update_memdx_err (client_bucket : option string) (e : MemdxError) (key : list Z)
    (scope collection : string) : MemdxError :=
  mkMemdxError (source e) (dispatched_to e) (dispatched_from e) (Some key)
    (Some (default ""%string client_bucket)) (Some scope) (Some collection).

End Core.

(** An asynchronous call: it may change the state and returns a result, or does
    not return ([None]). *)
Definition action (S A : Type) : Type := S → S * option (outcome Core.Error A).
