(* ===== verification/Vbucket.v ===== *)
(** * Vbucket map and router ([vbucketmap.rs], [vbucketrouter.rs])

    A key is hashed to a vbucket; the map of the current config says which server
    holds each copy of it.  A not-my-vbucket answer carries a newer config, which
    the routing loop hands to the config handler before it reports the error.

    [crc32fast::hash] and [serde_json::from_str] are parameters. *)

From S2P Require Import Prelude Wire MemdError Codec Requests ExtFrame.
From S2P Require Import OpsCore OpsCrud Response CoreError.
Import Core.

(** ** The map *)

Record VbucketMap : Type := mkVbucketMap {
  entries : list (list Z);
  num_replicas : Z;
}.

Definition vbucket_map_new (entries : list (list Z)) (num_replicas : Z)
    : outcome Core.Error VbucketMap :=
  match entries with
  | [] => Err (new_message_error "vbucket map must have at least a single entry")
  | _ => Ok (mkVbucketMap entries num_replicas)
  end.

Definition is_valid (self : VbucketMap) : bool :=
  match entries self with
  | entry :: _ => negb (bool_decide (entry = []))
  | [] => false
  end.

Definition num_vbuckets (self : VbucketMap) : Z := blen (entries self).

Section Routing.
Context (hash : list Z → Z) {P : Profile}.

(** The remainder panics when the number of vbuckets is a multiple of [2 ^ 16]. *)
Definition vbucket_by_key (self : VbucketMap) (key : list Z) : outcome Core.Error Z :=
  let checksum := hash key in
  let mid_bits := Z.land (cast_u 16 (Z.shiftr checksum 16)) 0x7fff in
  let n := cast_u 16 (blen (entries self)) in
  if n =? 0 then Panic else Ok (mid_bits mod n).

Definition node_by_vbucket (self : VbucketMap) (vb_id vb_server_idx : Z) : outcome Core.Error Z :=
  num_servers ← add_w 32 (cast_u 32 (num_replicas self)) 1;
  if num_servers <? vb_server_idx then Err (new (InvalidReplica vb_server_idx num_servers))
  else
    match entries self !! Z.to_nat vb_id with
    | Some idx =>
        match idx !! Z.to_nat vb_server_idx with
        | Some id => Ok id
        | None => Ok (-1)
        end
    | None => Err (new (InvalidVbucket vb_id (blen (entries self))))
    end.

(** ** The router *)

Record VbucketRoutingInfo : Type := mkRoutingInfo {
  vbucket_info : option VbucketMap;
  server_list : list string;
  bucket_selected : bool;
}.

Definition get_vbucket_info (info : VbucketRoutingInfo) : outcome Core.Error VbucketMap :=
  match vbucket_info info with
  | Some i => Ok i
  | None => Err (new NoVbucketMap)
  end.

Definition server_at (info : VbucketRoutingInfo) (idx : Z) : option string :=
  server_list info !! Z.to_nat idx.

Definition std_dispatch_by_key (info : VbucketRoutingInfo) (key : list Z) (vbucket_server_idx : Z)
    : outcome Core.Error (string * Z) :=
  if negb (bucket_selected info) then Err (new NoBucket)
  else
    vbucket_info ← get_vbucket_info info;
    vb_id ← vbucket_by_key vbucket_info key;
    idx ← node_by_vbucket vbucket_info vb_id vbucket_server_idx;
    match (if 0 <=? idx then server_at info idx else None) with
    | Some server => Ok (server, vb_id)
    | None => Err (new (NoServerAssigned vb_id))
    end.

Definition std_dispatch_to_vbucket (info : VbucketRoutingInfo) (vb_id : Z)
    : outcome Core.Error string :=
  if negb (bucket_selected info) then Err (new NoBucket)
  else
    m ← get_vbucket_info info;
    idx ← node_by_vbucket m vb_id 0;
    match (if 0 <? idx then server_at info idx else None) with
    | Some server => Ok server
    | None => Err (new (NoServerAssigned vb_id))
    end.

End Routing.

(** [trait VbucketRouter], over the state [S] it is part of. *)
Class VbucketRouter (S : Type) := {
  update_vbucket_info : VbucketRoutingInfo → S → S;
  dispatch_by_key : S → list Z → Z → outcome Core.Error (string * Z);
  dispatch_to_vbucket : S → Z → outcome Core.Error string;
}.

(** [StdVbucketRouter]: the state is the swapped pointer. *)
#[global] Instance std_vbucket_router (hash : list Z → Z) (P : Profile)
    : VbucketRouter VbucketRoutingInfo :=
  {| update_vbucket_info := λ info _, info;
     dispatch_by_key := std_dispatch_by_key hash;
     dispatch_to_vbucket := std_dispatch_to_vbucket |}.

(** ** Routing an operation *)

(** [str::replace]: every occurrence from the left, without overlap. *)
Fixpoint str_replace_fuel (fuel : nat) (pat rep l : list Z) : list Z :=
  match fuel, l with
  | S fuel, b :: l' =>
      if bool_decide (take (length pat) l = pat)
      then rep ++ str_replace_fuel fuel pat rep (drop (length pat) l)
      else b :: str_replace_fuel fuel pat rep l'
  | _, _ => l
  end.

Definition str_replace (pat rep l : list Z) : list Z := str_replace_fuel (length l) pat rep l.

Section Orchestrate.
Context {S Resp TerseConfig : Type} `{VbucketRouter S}
  (from_str : list Z → option TerseConfig)
  (not_my_vbucket_config : TerseConfig → string → S → S).

Definition orchestrate_memd_routing (key : list Z) (vb_server_idx : Z)
    (operation : string → Z → action S Resp) : action S Resp := λ st,
  match dispatch_by_key st key vb_server_idx with
  | Err e => (st, Some (Err e))
  | Panic => (st, Some Panic)
  | Ok (endpoint, vb_id) =>
      match operation endpoint vb_id st with
      | (st, Some (Err err)) =>
          match is_memdx_error err with
          | None => (st, Some (Err err))
          | Some memdx_err =>
              if is_server_error_kind memdx_err ServerErrorKind.NotMyVbucket then
                match has_server_config memdx_err with
                | None => (st, Some (Err err))
                | Some config =>
                    if bool_decide (config = []) then (st, Some (Err err))
                    else
                      let value := if utf8_valid config then config else [] in
                      let config := str_replace (str_bytes "$HOST") (str_bytes endpoint) value in
                      match from_str config with
                      | None => (st, Some (Err err))
                      | Some config_json =>
                          (not_my_vbucket_config config_json endpoint st, Some (Err err))
                      end
                end
              else (st, Some (Err err))
          end
      | res => res
      end
  end.

End Orchestrate.

(** ** Theorems *)

(** The vbucket of a key in a map of [n] vbuckets, and the owner of a copy. *)
Definition vbucket_of (hash : list Z → Z) (n : Z) (key : list Z) : Z :=
  (hash key / 2 ^ 16 mod 2 ^ 15) mod n.

Definition owner (info : VbucketRoutingInfo) (m : VbucketMap) (vb copy : Z) : option string :=
  row ← entries m !! Z.to_nat vb;
  node ← row !! Z.to_nat copy;
  if 0 <=? node then server_list info !! Z.to_nat node else None.

Section Theorems.
Context (hash : list Z → Z) {P : Profile} (hash_u32 : ∀ key, fits 32 (hash key)).

Lemma vbucket_by_key_ok m key :
  0 < num_vbuckets m < 2 ^ 16 →
  vbucket_by_key hash m key = Ok (vbucket_of hash (num_vbuckets m) key)
  ∧ 0 <= vbucket_of hash (num_vbuckets m) key < num_vbuckets m.
Proof using hash_u32.
  intros Hn. unfold vbucket_by_key, vbucket_of, cast_u, num_vbuckets in *.
  rewrite (Z.mod_small (blen _)) by lia. test_false (blen (entries m) =? 0).
  pose proof (hash_u32 key) as [Hlo Hhi]. split; [|apply Z.mod_pos_bound; lia].
  rewrite Z.shiftr_div_pow2 by lia. change 0x7fff with (Z.ones 15).
  rewrite Z.land_ones by lia.
  rewrite (Z.mod_small (hash key / 2 ^ 16)); [done|].
  split; [apply Z.div_pos; lia|]. apply Z.div_lt_upper_bound; lia.
Qed.

Lemma node_by_vbucket_cases m vb copy :
  fits 31 (num_replicas m) → 0 <= vb < num_vbuckets m → 0 <= copy →
  node_by_vbucket m vb copy
  = if num_replicas m + 1 <? copy then Err (new (InvalidReplica copy (num_replicas m + 1)))
    else Ok (default (-1) (row ← entries m !! Z.to_nat vb; row !! Z.to_nat copy)).
Proof.
  intros [] Hvb Hc. unfold node_by_vbucket, add_w, cast_u, num_vbuckets in *.
  rewrite (Z.mod_small (num_replicas m)) by lia. test_true (num_replicas m + 1 <? 2 ^ 32). simpl.
  case_match; [done|]. destruct (lookup_lt_is_Some_2 (entries m) (Z.to_nat vb)) as [row Hrow].
  { unfold blen in Hvb. lia. }
  rewrite Hrow. simpl. by destruct (row !! Z.to_nat copy).
Qed.

(** Routing by key, on every branch.  With a bucket selected and a map of 1 to
    65535 vbuckets, a key is always sent to the same vbucket of the map,
    whichever copy is asked for; the request goes to the server the map names for
    that copy, and to no other: without such a server the result is the
    no-server-assigned error with the vbucket, and a copy beyond the replicas is
    refused (the check admits one copy more than the map has).  Nothing
    panics. *)
Lemma dispatch_by_key_spec info m key copy :
  vbucket_info info = Some m → 0 < num_vbuckets m < 2 ^ 16 → fits 31 (num_replicas m) →
  0 <= copy →
  let vb := vbucket_of hash (num_vbuckets m) key in
  0 <= vb < num_vbuckets m ∧
  std_dispatch_by_key hash info key copy
  = if negb (bucket_selected info) then Err (new NoBucket)
    else if num_replicas m + 1 <? copy then Err (new (InvalidReplica copy (num_replicas m + 1)))
    else match owner info m vb copy with
         | Some server => Ok (server, vb)
         | None => Err (new (NoServerAssigned vb))
         end.
Proof using hash_u32.
  intros Hinfo Hn Hr Hc vb. destruct (vbucket_by_key_ok m key Hn) as [Hvb Hlt].
  split; [done|]. unfold std_dispatch_by_key, get_vbucket_info. rewrite Hinfo. simpl.
  destruct (bucket_selected info); [|done]. simpl. rewrite Hvb. simpl.
  rewrite node_by_vbucket_cases by done. case_match; [done|]. simpl.
  unfold owner, server_at. fold vb.
  destruct (entries m !! Z.to_nat vb) as [row|]; [|done]. simpl.
  destruct (row !! Z.to_nat copy) as [node|]; done.
Qed.

(** Routing to a vbucket never reaches the first server of the list: a vbucket
    whose active copy is on server 0 is reported as having no server, although
    [dispatch_by_key] sends its keys there; every other vbucket is routed to its
    owner. *)
Lemma dispatch_to_vbucket_misses_first_server info m vb key :
  vbucket_info info = Some m → bucket_selected info = true →
  0 < num_vbuckets m < 2 ^ 16 → fits 31 (num_replicas m) →
  vb = vbucket_of hash (num_vbuckets m) key →
  match (row ← entries m !! Z.to_nat vb; row !! 0%nat) with
  | Some 0 =>
      std_dispatch_to_vbucket info vb = Err (new (NoServerAssigned vb))
      ∧ (∀ server, server_list info !! 0%nat = Some server →
           std_dispatch_by_key hash info key 0 = Ok (server, vb))
  | _ => std_dispatch_to_vbucket info vb = fst <$> std_dispatch_by_key hash info key 0
  end.
Proof using hash_u32.
  intros Hinfo Hsel Hn Hr ->. set (vb := vbucket_of hash (num_vbuckets m) key).
  destruct (vbucket_by_key_ok m key Hn) as [Hvb Hlt].
  unfold std_dispatch_to_vbucket, std_dispatch_by_key, get_vbucket_info. rewrite Hinfo, Hsel. simpl.
  rewrite Hvb. simpl. fold vb in Hlt |- *. rewrite node_by_vbucket_cases by (done || lia).
  destruct Hr as [Hr1 Hr2]. test_false (num_replicas m + 1 <? 0). simpl.
  change (Z.to_nat 0) with 0%nat.
  destruct (row ← entries m !! Z.to_nat vb; row !! 0%nat) as [[|p|p]|]; simpl; try done.
  - split; [done|]. intros server Hs. unfold server_at. change (Z.to_nat 0) with 0%nat. by rewrite Hs.
  - by destruct (server_at info (Z.pos p)).
Qed.

End Theorems.

(** A not-my-vbucket answer always refreshes the routing: when the server
    answers any operation with that status and a body that, after its [$HOST]
    placeholders are replaced by the endpoint, is a config, the handler gets that
    config with the endpoint it came from, once, after the operation; and the
    caller gets the operation's error, which the retry layer retries. *)
Lemma nmvb_refreshes_routing {S TerseConfig : Type} `{VbucketRouter S} {P : Profile} powf
    (from_str : list Z → option TerseConfig) handler key copy operation (st st' : S)
    endpoint vb t resp config cfg me :
  dispatch_by_key st key copy = Ok (endpoint, vb) →
  has_context t resp = true →
  rs_status (ClientResponse.packet resp) = Status.NotMyVbucket →
  rs_value (ClientResponse.packet resp) = Some config →
  config ≠ [] → utf8_valid config = true →
  from_str (str_replace (str_bytes "$HOST") (str_bytes endpoint) config) = Some cfg →
  decode_response powf t resp = Err (source me) →
  operation endpoint vb st = (st', Some (Err (new_contextual_memdx_error me))) →
  orchestrate_memd_routing (Resp := unit) from_str handler key copy operation st
  = (handler cfg endpoint st', Some (Err (new_contextual_memdx_error me))).
Proof.
  intros Hd Hctx Hst Hv Hne Hutf Hcfg Hdec Hop.
  destruct (decode_response_nmvb powf t resp Hctx Hst) as (e & He & Hk & Hc).
  rewrite Hdec in He. injection He as <-.
  unfold orchestrate_memd_routing. rewrite Hd, Hop. simpl. rewrite Hk, Hc, Hv.
  rewrite bool_decide_false by done. rewrite Hutf, Hcfg. done.
Qed.

(** ** Witnesses

    CRC-32 as [crc32fast] computes it, and the expectations of the unit tests in
    [vbucketmap.rs] and [vbucketrouter.rs]. *)

Definition crc32_bit (crc : Z) : Z :=
  if Z.testbit crc 0 then Z.lxor (Z.shiftr crc 1) 0xEDB88320 else Z.shiftr crc 1.

Definition crc32_ieee (key : list Z) : Z :=
  cast_u 32 (Z.lxor (foldl (λ crc b, Nat.iter 8 crc32_bit (Z.lxor crc b)) 0xFFFFFFFF key) 0xFFFFFFFF).

Lemma crc32_ieee_u32 key : fits 32 (crc32_ieee key).
Proof. unfold fits, crc32_ieee, cast_u. apply Z.mod_pos_bound. lia. Qed.

Definition sample_map (n : nat) : VbucketMap := mkVbucketMap (replicate n []) 1.

Lemma crc32_source_tests :
  vbucket_by_key crc32_ieee (sample_map 1024) [0] = Ok 0x0202
  ∧ vbucket_by_key crc32_ieee (sample_map 1024) [0; 1; 2; 3; 4; 5; 6; 7] = Ok 0x00aa
  ∧ vbucket_by_key crc32_ieee (sample_map 64) (str_bytes "hello") = Ok 0x0010
  ∧ vbucket_by_key crc32_ieee (sample_map 48) [0] = Ok 0x0012
  ∧ vbucket_by_key crc32_ieee (sample_map 13) (str_bytes "hello") = Ok 0x0008.
Proof. vm_compute. done. Qed.

Definition sample_info : VbucketRoutingInfo :=
  mkRoutingInfo (Some (mkVbucketMap [[0; 1]; [1; 0]; [0; 1]; [0; 1]; [1; 0]] 1))
    ["endpoint1"; "endpoint2"]%string true.

Lemma dispatch_by_key_spec_example :
  std_dispatch_by_key crc32_ieee (P := true) sample_info (str_bytes "key1") 0
    = Ok ("endpoint2"%string, 1)
  ∧ std_dispatch_by_key crc32_ieee (P := true) sample_info (str_bytes "key2") 1
    = Ok ("endpoint2"%string, 3).
Proof.
  split.
  - destruct (dispatch_by_key_spec (P := true) crc32_ieee crc32_ieee_u32 sample_info
      (mkVbucketMap [[0; 1]; [1; 0]; [0; 1]; [0; 1]; [1; 0]] 1) (str_bytes "key1") 0)
      as [_ ->]; evaluate.
  - destruct (dispatch_by_key_spec (P := true) crc32_ieee crc32_ieee_u32 sample_info
      (mkVbucketMap [[0; 1]; [1; 0]; [0; 1]; [0; 1]; [1; 0]] 1) (str_bytes "key2") 1)
      as [_ ->]; evaluate.
Defined.

Lemma dispatch_to_vbucket_misses_first_server_example :
  std_dispatch_to_vbucket (P := true) sample_info 3 = Err (new (NoServerAssigned 3))
  ∧ std_dispatch_by_key crc32_ieee (P := true) sample_info (str_bytes "key2") 0
    = Ok ("endpoint1"%string, 3).
Proof.
  destruct (dispatch_to_vbucket_misses_first_server (P := true) crc32_ieee crc32_ieee_u32 sample_info
    (mkVbucketMap [[0; 1]; [1; 0]; [0; 1]; [0; 1]; [1; 0]] 1) 3 (str_bytes "key2")) as [H1 H2];
    [evaluate..|].
  split; [done|]. by apply H2.
Defined.

(** A state that counts the configs handed over, beside the routing info. *)
#[local] Instance sample_router : VbucketRouter (VbucketRoutingInfo * nat) :=
  {| update_vbucket_info := λ info st, (info, snd st);
     dispatch_by_key := λ st, std_dispatch_by_key (P := true) crc32_ieee (fst st);
     dispatch_to_vbucket := λ st, std_dispatch_to_vbucket (P := true) (fst st) |}.

Lemma nmvb_refreshes_routing_example :
  ∃ e, orchestrate_memd_routing (Resp := unit)
         (λ l, if bool_decide (l = str_bytes "endpoint2") then Some tt else None)
         (λ _ _ st, (fst st, S (snd st))) (str_bytes "key1") 0
         (λ _ _ st, (st, Some (Err e))) (sample_info, 0%nat)
       = ((sample_info, 1%nat), Some (Err e)).
Proof.
  set (resp := ClientResponse.mk
    (sample_packet Status.NotMyVbucket None (Some (str_bytes "$HOST")) None) None).
  exists (new_contextual_memdx_error
    (memdx_error_new (OpsCore.decode_error (ClientResponse.packet resp)))).
  apply (nmvb_refreshes_routing (P := true) sample_powf _ (λ _ _ st, (fst st, S (snd st)))
    (str_bytes "key1") 0 _ (sample_info, 0%nat) (sample_info, 0%nat) "endpoint2" 1
    ResponseType.Set_ resp (str_bytes "$HOST") tt);
    evaluate.
Defined.
