(* ===== verification/Retry.v ===== *)
(** * Retries ([retry.rs], [retrybesteffort.rs], [retryfailfast.rs],
    [errmapcomponent.rs])

    An operation that fails is run again when its error maps to a retry reason
    and that reason is always retried or the request's strategy allows it.

    [f64::powi] and the JSON parser of the error map are parameters; sleeping is
    the durations listed in the trace of a run. *)

From Stdlib Require Import SpecFloat.
From S2P Require Import Prelude HttpxError Wire MemdError QueryxError SearchxError AnalyticsxError MgmtxError CoreError.

(** ** Reasons *)

Definition allows_non_idempotent_retry (reason : RetryReason) : bool :=
  match reason with
  | RetryReason.KvInvalidVbucketMap | RetryReason.KvNotMyVbucket
  | RetryReason.KvTemporaryFailure | RetryReason.KvCollectionOutdated
  | RetryReason.KvErrorMapRetryIndicated | RetryReason.KvLocked
  | RetryReason.ServiceNotAvailable | RetryReason.SocketNotAvailable
  | RetryReason.KvSyncWriteInProgress | RetryReason.KvSyncWriteRecommitInProgress
  | RetryReason.QueryPreparedStatementFailure | RetryReason.QueryIndexNotFound
  | RetryReason.SearchTooManyRequests | RetryReason.HttpSendRequestFailed
  | RetryReason.NotReady => true
  | _ => false
  end.

Definition always_retry (reason : RetryReason) : bool :=
  match reason with
  | RetryReason.KvInvalidVbucketMap | RetryReason.KvNotMyVbucket
  | RetryReason.KvCollectionOutdated => true
  | _ => false
  end.

(** ** Strategies *)

(** [trait RetryStrategy]: how long to wait before the next attempt, if any. *)
Class RetryStrategy (T : Type) :=
  retry_after : T → RetryRequest → RetryReason → outcome Core.Error (option Duration).

(** [trait BackoffCalculator]. *)
Class BackoffCalculator (T : Type) := backoff : T → Z → outcome Core.Error Duration.

Inductive FailFastRetryStrategy : Type := FailFast.
#[global] Instance fail_fast_strategy : RetryStrategy FailFastRetryStrategy :=
  λ _ _ _, Ok None.

Record BestEffortRetryStrategy (Calc : Type) : Type := BestEffort { backoff_calc : Calc }.
Arguments BestEffort {Calc} backoff_calc.
Arguments backoff_calc {Calc} b.

#[global] Instance best_effort_strategy {Calc} `{BackoffCalculator Calc}
    : RetryStrategy (BestEffortRetryStrategy Calc) := λ self request reason,
  if is_idempotent request || allows_non_idempotent_retry reason then
    d ← backoff (backoff_calc self) (retry_attempts request); Ok (Some d)
  else Ok None.

(** [x as u128] of an [f64]: truncation, saturating, 0 for NaN. *)
Definition f64_as_u128 (x : spec_float) : Z :=
  match x with
  | S754_zero _ | S754_nan | S754_finite true _ _ | S754_infinity true => 0
  | S754_infinity false => 2 ^ 128 - 1
  | S754_finite false m e =>
      Z.min (2 ^ 128 - 1) (if 0 <=? e then Zpos m * 2 ^ e else Zpos m / 2 ^ (- e))
  end.

(** [x as i32] of a [u32]. *)
Definition as_i32 (x : Z) : Z := if x <? 2 ^ 31 then x else x - 2 ^ 32.

Record ExponentialBackoffCalculator : Type := mkBackoff {
  min : Duration;
  max : Duration;
  backoff_factor : spec_float;
}.

(** The literal [2.0]. *)
Definition f64_two : spec_float := S754_finite false 4503599627370496 (-51).

Definition backoff_default : ExponentialBackoffCalculator :=
  {| min := from_millis 1; max := from_millis 1000; backoff_factor := f64_two |}.

Section Backoff.
Context (powi : spec_float → Z → spec_float).

Definition exponential_backoff (self : ExponentialBackoffCalculator) (retry_attempts : Z)
    : outcome Core.Error Duration :=
  let factor := powi (backoff_factor self) (as_i32 retry_attempts) in
  let factor_u128 := f64_as_u128 factor in
  if as_millis (min self) =? 0 then Panic
  else if (2 ^ 128 - 1) / as_millis (min self) <? factor_u128 then Ok (max self)
  else
    let val := as_millis (min self) * factor_u128 in
    if 2 ^ 64 - 1 <? val then Ok (max self)
    else
      let backoff := from_millis val in
      let backoff := if max self <? backoff then max self else backoff in
      Ok (if backoff <? min self then min self else backoff).

#[global] Instance exponential_calculator : BackoffCalculator ExponentialBackoffCalculator :=
  exponential_backoff.
End Backoff.

Definition controlled_backoff (retry_attempts : Z) : Duration :=
  match retry_attempts with
  | 0 => from_millis 1
  | 1 => from_millis 10
  | 2 => from_millis 50
  | 3 => from_millis 100
  | 4 => from_millis 500
  | _ => from_millis 1000
  end.

(** ** The server's error map ([errmap.rs], [errmapcomponent.rs]) *)

Record ErrMapError : Type := { name : string; description : string; attributes : list string }.
Record ErrMap : Type := { version : Z; revision : Z; errors : gmap Z ErrMapError }.

(** The swapped pointer: [em_ptr] tells apart the values stored over time. *)
Record ErrMapComponent : Type := mkErrMapComponent { em_ptr : nat; err_map : option ErrMap }.

Definition err_map_component_new : ErrMapComponent := mkErrMapComponent 0 None.

(** One round of the loop of [on_err_map]: [current] was loaded, [self] is the
    component when the new map is swapped in.  [true]: the loop goes round again. *)
Definition on_err_map_round (new_err_map : ErrMap) (current self : ErrMapComponent)
    : ErrMapComponent * bool :=
  let stored := mkErrMapComponent (S (em_ptr self)) (Some new_err_map) in
  match err_map current with
  | Some cem =>
      if revision new_err_map <=? revision cem then (self, false)
      else if (em_ptr self =? em_ptr current)%nat then (stored, true)
      else (self, false)
  | None => (stored, false)
  end.

(** [on_err_map] when no other task runs: two rounds are enough, since the second
    one loads the map the first one stored. *)
Definition on_err_map (parse_error_map : list Z → option ErrMap) (bytes : list Z)
    (self : ErrMapComponent) : ErrMapComponent :=
  match parse_error_map bytes with
  | Some new_err_map =>
      let '(self, again) := on_err_map_round new_err_map self self in
      if again then fst (on_err_map_round new_err_map self self) else self
  | None => self
  end.

Definition should_retry (self : ErrMapComponent) (status : Status) : bool :=
  match err_map self with
  | Some m =>
      match errors m !! u16_from_status status with
      | Some err_data =>
          existsb (λ attr, bool_decide (attr = "retry-now"%string)
                           || bool_decide (attr = "retry-later"%string)
                           || bool_decide (attr = "auto-retry"%string)) (attributes err_data)
      | None => false
      end
  | None => false
  end.

(** ** From errors to reasons *)

Section Retries.
Context {P : Profile} (err_map_component : ErrMapComponent).

Definition server_error_to_retry_reason (e : ServerError) : option RetryReason :=
  match se_kind e with
  | ServerErrorKind.NotMyVbucket => Some RetryReason.KvNotMyVbucket
  | ServerErrorKind.TmpFail => Some RetryReason.KvTemporaryFailure
  | ServerErrorKind.UnknownCollectionID => Some RetryReason.KvCollectionOutdated
  | ServerErrorKind.UnknownCollectionName => Some RetryReason.KvCollectionOutdated
  | ServerErrorKind.Locked => Some RetryReason.KvLocked
  | ServerErrorKind.SyncWriteInProgress => Some RetryReason.KvSyncWriteInProgress
  | ServerErrorKind.SyncWriteRecommitInProgress => Some RetryReason.KvSyncWriteRecommitInProgress
  | ServerErrorKind.UnknownStatus status =>
      if should_retry err_map_component status
      then Some RetryReason.KvErrorMapRetryIndicated else None
  | _ => None
  end.

Definition http_retry_reason (e : HttpxError) : option RetryReason :=
  match httpx_kind e with
  | HttpxErrorKind.SendRequest _ => Some RetryReason.HttpSendRequestFailed
  | _ => None
  end.

Definition set_unique_id (id : option string) (r : RetryRequest) : RetryRequest :=
  mkRetryRequest (operation r) (is_idempotent r) (retry_attempts r) (retry_reasons r) id.

Definition error_to_retry_reason (retry_info : RetryRequest) (err : Core.Error)
    : RetryRequest * option RetryReason :=
  match Core.kind err with
  | Core.Memdx e =>
      let err := Core.source e in
      let retry_info := set_unique_id (show <$> has_opaque err) retry_info in
      (retry_info,
       match err_kind err with
       | ErrorKind.Server e => server_error_to_retry_reason e
       | ErrorKind.Resource e => server_error_to_retry_reason (re_cause e)
       | ErrorKind.Cancelled e =>
           if bool_decide (e = CancellationErrorKind.ClosedInFlight)
           then Some RetryReason.SocketClosedWhileInFlight else None
       | ErrorKind.Dispatch _ _ => Some RetryReason.SocketNotAvailable
       | _ => None
       end)
  | Core.NoVbucketMap => (retry_info, Some RetryReason.KvInvalidVbucketMap)
  | Core.ServiceNotAvailable _ => (retry_info, Some RetryReason.ServiceNotAvailable)
  | Core.Query e =>
      (retry_info,
       match Queryx.kind e with
       | Queryx.Server e =>
           match Queryx.se_kind e with
           | QueryServerErrorKind.PreparedStatementFailure => Some RetryReason.QueryPreparedStatementFailure
           | QueryServerErrorKind.IndexNotFound => Some RetryReason.QueryIndexNotFound
           | _ => None
           end
       | Queryx.Http error _ _ _ => http_retry_reason error
       | _ => None
       end)
  | Core.Search e =>
      (retry_info,
       match Searchx.kind e with
       | Searchx.Server e =>
           if Searchx.se_status_code e =? 429 then Some RetryReason.SearchTooManyRequests else None
       | Searchx.Http error _ => http_retry_reason error
       | _ => None
       end)
  | Core.Analytics e =>
      (retry_info,
       match Analyticsx.kind e with Analyticsx.Http error _ _ _ => http_retry_reason error | _ => None end)
  | Core.Mgmt e =>
      (retry_info, match Mgmtx.kind e with Mgmtx.Http error => http_retry_reason error | _ => None end)
  | _ => (retry_info, None)
  end.

(** ** The retry loop *)

Definition add_retry_attempt (self : RetryRequest) (reason : RetryReason)
    : outcome Core.Error RetryRequest :=
  attempts ← add_w 32 (retry_attempts self) 1;
  Ok (mkRetryRequest (operation self) (is_idempotent self) attempts
        ({[ reason ]} ∪ retry_reasons self) (unique_id self)).

Section Loop.
Context {T : Type} `{RetryStrategy T} (strategy : T).

Definition maybe_retry (request : RetryRequest) (reason : RetryReason)
    : outcome Core.Error (RetryRequest * option Duration) :=
  if always_retry reason then
    request ← add_retry_attempt request reason;
    Ok (request, Some (controlled_backoff (retry_attempts request)))
  else
    action ← retry_after strategy request reason;
    match action with
    | Some duration =>
        request ← add_retry_attempt request reason;
        Ok (request, Some duration)
    | None => Ok (request, None)
    end.

(** What the loop does with a failed attempt: go round again after a pause, or
    return an error (or panic). *)
Inductive Decision : Type :=
| Again (request : RetryRequest) (reason : RetryReason) (pause : Duration)
| GiveUp (e : Core.Error)
| Crash.

Definition decide_retry (retry_info : RetryRequest) (err : Core.Error) : Decision :=
  let finish retry_info :=
    GiveUp (if 0 <? retry_attempts retry_info then Core.set_retry_info err retry_info else err) in
  match error_to_retry_reason retry_info err with
  | (retry_info, Some reason) =>
      match maybe_retry retry_info reason with
      | Ok (retry_info, Some duration) => Again retry_info reason duration
      | Ok (retry_info, None) => finish retry_info
      | Err e => GiveUp e
      | Panic => Crash
      end
  | (retry_info, None) => finish retry_info
  end.

(** The loop, with the reasons and pauses of the attempts it repeated; [None]
    when an attempt does not return or [fuel] attempts were not enough. *)
Fixpoint orchestrate_retries {S Resp} (fuel : nat) (retry_info : RetryRequest)
    (operation : action S Resp) (st : S)
    : S * list (RetryReason * Duration) * option (outcome Core.Error Resp) :=
  match fuel with
  | O => (st, [], None)
  | Datatypes.S fuel =>
      match operation st with
      | (st, Some (Err err)) =>
          match decide_retry retry_info err with
          | Again retry_info reason duration =>
              let '(st, trace, res) := orchestrate_retries fuel retry_info operation st in
              (st, (reason, duration) :: trace, res)
          | GiveUp e => (st, [], Some (Err e))
          | Crash => (st, [], Some Panic)
          end
      | (st, res) => (st, [], res)
      end
  end.

End Loop.
End Retries.

(** ** Theorems: backoff *)

Lemma f64_as_u128_nonneg x : 0 <= f64_as_u128 x.
Proof.
  destruct x as [s|s| |[] m e]; try destruct s; simpl; try lia.
  apply Z.min_glb; [lia|]. case_match; [|apply Z.div_pos; [lia|]]; prop_tests.
  - apply Z.mul_nonneg_nonneg; [lia|]. apply Z.pow_nonneg. lia.
  - apply Z.pow_pos_nonneg; lia.
Qed.

(** Exponential backoff, for every growth factor and every number of attempts:
    with a minimum of at least one millisecond and below the maximum, the code
    (with its overflow guards) computes the minimum times the factor's power cut
    to an integer, clamped between minimum and maximum; so the pause never
    leaves that range.  With a minimum below one millisecond it panics. *)
Lemma exponential_backoff_spec powi self n :
  min self <= max self < from_millis (2 ^ 64) → 0 <= min self →
  exponential_backoff powi self n
  = if min self <? from_millis 1 then Panic
    else Ok (Z.min (max self) (Z.max (min self)
           (from_millis (as_millis (min self)
                         * f64_as_u128 (powi (backoff_factor self) (as_i32 n)))))).
Proof.
  intros Hmax Hmin. unfold exponential_backoff. set (f := f64_as_u128 _).
  assert (0 <= f) as Hf by apply f64_as_u128_nonneg.
  assert (as_millis (min self) = 0 ↔ min self < from_millis 1) as Hzero.
  { unfold as_millis, from_millis. split; intros H.
    - pose proof (Z.div_mod (min self) 1000000 ltac:(lia)).
      pose proof (Z.mod_pos_bound (min self) 1000000). lia.
    - apply Z.div_small. lia. }
  destruct (as_millis (min self) =? 0) eqn:E0; prop_tests.
  { apply Hzero in E0. by test_true (min self <? from_millis 1). }
  assert (from_millis 1 <= min self) by lia. test_false (min self <? from_millis 1).
  assert (0 < as_millis (min self)) as Hm
    by (assert (0 <= as_millis (min self)) by (apply Z.div_pos; lia); lia).
  assert (2 ^ 64 <= as_millis (min self) * f →
    Z.min (max self) (Z.max (min self) (from_millis (as_millis (min self) * f))) = max self) as Hbig
    by (unfold from_millis in *; lia).
  destruct (_ <? f) eqn:E1; prop_tests.
  - f_equal. symmetry. apply Hbig.
    pose proof (Z.mul_succ_div_gt (2 ^ 128 - 1) (as_millis (min self)) Hm). nia.
  - destruct (2 ^ 64 - 1 <? _) eqn:E2; prop_tests; [f_equal; symmetry; apply Hbig; lia|].
    f_equal. repeat case_match; prop_tests; lia.
Qed.

Lemma exponential_backoff_spec_example :
  (* [calculator.backoff(3)] and [backoff(7)] of the unit test, with exact powers of two *)
  exponential_backoff (λ _ n, S754_finite false 1 n)
    (mkBackoff (from_millis 10) (from_millis 1000) f64_two) 3 = Ok (from_millis 80)
  ∧ exponential_backoff (λ _ n, S754_finite false 1 n)
    (mkBackoff (from_millis 10) (from_millis 1000) f64_two) 7 = Ok (from_millis 1000).
Proof. split; rewrite exponential_backoff_spec; evaluate. Defined.

(** ** Theorems: the loop *)

Section LoopTheorems.
Context {P : Profile} (em : ErrMapComponent) {T : Type} `{RetryStrategy T} (strategy : T).

(** Strategies decide; they do not fail. *)
Class InfallibleStrategy : Prop :=
  retry_after_no_err : ∀ request reason e, retry_after strategy request reason ≠ Err e.

Context {infallible : InfallibleStrategy}.

Context {S Resp : Type} (op : action S Resp).

(** The state after [n] runs of the operation. *)
Definition after (n : nat) (st : S) : S := Nat.iter n (λ st, fst (op st)) st.

Lemma after_S n st : after (Datatypes.S n) st = after n (fst (op st)).
Proof. unfold after. induction n as [|n IH]; simpl in *; [done | by rewrite IH]. Qed.

(** Looking up the reason touches only the id of the request. *)
Lemma error_to_retry_reason_request req e :
  let r := fst (error_to_retry_reason em req e) in r = set_unique_id (unique_id r) req.
Proof. unfold error_to_retry_reason. destruct req. by destruct (Core.kind e). Qed.

(** A repeated attempt is recorded in the request. *)
Lemma decide_again req e req' reason d :
  retry_attempts req < 2 ^ 32 - 1 → decide_retry em strategy req e = Again req' reason d →
  retry_attempts req' = retry_attempts req + 1 ∧ retry_reasons req' = {[ reason ]} ∪ retry_reasons req
  ∧ is_idempotent req' = is_idempotent req
  ∧ (always_retry reason = true
     ∨ retry_after strategy (set_unique_id (unique_id req') req) reason = Ok (Some d)).
Proof.
  intros Hlt. unfold decide_retry. destruct (error_to_retry_reason em req e) as [r [x|]] eqn:Hr; [|done].
  pose proof (error_to_retry_reason_request req e) as Hid. rewrite Hr in Hid. simpl in Hid.
  assert (retry_attempts r = retry_attempts req ∧ retry_reasons r = retry_reasons req
    ∧ is_idempotent r = is_idempotent req) as (Ha & Hs & Hi) by (rewrite Hid; done).
  unfold maybe_retry, add_retry_attempt, add_w. rewrite Ha. test_true (retry_attempts req + 1 <? 2 ^ 32).
  simpl. destruct (always_retry x) eqn:Hx.
  - intros Heq. simplify_eq/=. rewrite Hs. auto.
  - destruct (retry_after strategy r x) as [[y|]|?|] eqn:Hy; intros Heq; simplify_eq/=.
    rewrite Hs, <-Hid. auto.
Qed.

(** Giving up reports the operation's error, with the history if there is any. *)
Lemma decide_give_up req e e' :
  retry_attempts req < 2 ^ 32 - 1 → decide_retry em strategy req e = GiveUp e' →
  Core.kind e' = Core.kind e
  ∧ (if 0 <? retry_attempts req
     then ∃ id, Core.retry_info e' = Some (set_unique_id id req)
     else e' = e).
Proof.
  intros Hlt. unfold decide_retry. destruct (error_to_retry_reason em req e) as [r x] eqn:Hr.
  pose proof (error_to_retry_reason_request req e) as Hid. rewrite Hr in Hid. simpl in Hid.
  assert (retry_attempts r = retry_attempts req) as Ha by (rewrite Hid; done).
  assert (GiveUp (if 0 <? retry_attempts r then Core.set_retry_info e r else e) = GiveUp e' →
    Core.kind e' = Core.kind e ∧
    (if 0 <? retry_attempts req then ∃ id, Core.retry_info e' = Some (set_unique_id id req)
     else e' = e)) as Hfin.
  { rewrite Ha. intros Heq. injection Heq as <-. destruct (0 <? retry_attempts req); [|done].
    split; [done|]. exists (unique_id r). simpl. by rewrite <-Hid. }
  destruct x as [x|]; [|done]. unfold maybe_retry, add_retry_attempt, add_w. rewrite Ha.
  test_true (retry_attempts req + 1 <? 2 ^ 32). simpl. destruct (always_retry x); [done|].
  destruct (retry_after strategy r x) as [[y|]|e1|] eqn:Hy; try done. simpl.
  by destruct (retry_after_no_err r x e1).
Qed.

(** One round of the loop, as an equation. *)
Lemma orchestrate_S fuel req st :
  orchestrate_retries em strategy (Datatypes.S fuel) req op st
  = match op st with
    | (st, Some (Err err)) =>
        match decide_retry em strategy req err with
        | Again req reason d =>
            let '(st, trace, res) := orchestrate_retries em strategy fuel req op st in
            (st, (reason, d) :: trace, res)
        | GiveUp e => (st, [], Some (Err e))
        | Crash => (st, [], Some Panic)
        end
    | (st, res) => (st, [], res)
    end.
Proof. done. Qed.

(** What a finished or interrupted run says about the operation. *)
Definition run_ok (req : RetryRequest) (st st' : S) (trace : list (RetryReason * Duration))
    (res : option (outcome Core.Error Resp)) : Prop :=
  let n := length trace in
  match res with
  | None => True
  | Some (Ok r) => op (after n st) = (st', Some (Ok r))
  | Some (Err e) =>
      ∃ e0, op (after n st) = (st', Some (Err e0)) ∧ Core.kind e = Core.kind e0
        ∧ (if 0 <? retry_attempts req + Z.of_nat n
           then ∃ info, Core.retry_info e = Some info
             ∧ retry_attempts info = retry_attempts req + Z.of_nat n
             ∧ retry_reasons info = retry_reasons req ∪ list_to_set (fst <$> trace)
           else e = e0)
  | Some Panic => st' = after (Datatypes.S n) st
  end.

Lemma orchestrate_run_ok fuel req st st' trace res :
  0 <= retry_attempts req → retry_attempts req + Z.of_nat fuel < 2 ^ 32 →
  orchestrate_retries em strategy fuel req op st = (st', trace, res) →
  run_ok req st st' trace res ∧ (length trace ≤ fuel)%nat
  ∧ (res = None → length trace = fuel ∨ op (after (length trace) st) = (st', None))
  ∧ ∀ k, (k < length trace)%nat → ∃ e, snd (op (after k st)) = Some (Err e).
Proof using infallible.
  revert req st st' trace res. induction fuel as [|fuel IH]; intros req st st' trace res Hpos Hlt.
  { simpl. intros Heq. simplify_eq. split_and!; simpl; [done|lia|by left|lia]. }
  rewrite orchestrate_S. destruct (op st) as [st1 [[r|e|]|]] eqn:Hop; intros Heq.
  - simplify_eq. split_and!; simpl; [done|lia|done|lia].
  - destruct (decide_retry em strategy req e) as [req' reason d|e'|] eqn:Hd.
    + destruct (orchestrate_retries em strategy fuel req' op st1) as [[st2 tr] rs] eqn:Hrec.
      simplify_eq. destruct (decide_again req e req' reason d) as (Ha & Hs & _); [lia|done|].
      destruct (IH req' st1 st' tr res) as (Hok & Hle & Hnone & Hfail); [lia..|done|].
      assert (fst (op st) = st1) as Hst by (by rewrite Hop).
      split_and!; simpl length; [|lia|rewrite after_S, Hst; intuition auto|].
      * unfold run_ok in *. simpl length. rewrite after_S, Hst. rewrite Nat2Z.inj_succ.
        replace (retry_attempts req + Z.succ (Z.of_nat (length tr)))
          with (retry_attempts req' + Z.of_nat (length tr)) by lia.
        destruct res as [[r|x|]|]; [done| |by rewrite after_S, Hst|done].
        destruct Hok as (e0 & H1 & H2 & H3). exists e0. split_and!; [done..|].
        case_match; [|done]. destruct H3 as (info & ? & ? & Hinfo). exists info.
        split_and!; [done..|]. rewrite Hinfo, Hs. simpl.
        rewrite !(assoc_L (∪)), (comm_L (∪) {[ reason ]}). done.
      * intros [|k] Hk; [exists e; change (after 0 st) with st; by rewrite Hop|].
        rewrite after_S, Hst. apply Hfail. lia.
    + simplify_eq. destruct (decide_give_up req e e') as [Hk Hi]; [lia|done|].
      split_and!; simpl; [|lia|done|lia]. exists e. split_and!; [done..|].
      rewrite Z.add_0_r. case_match; [|done]. destruct Hi as [id Hid].
      eexists. split_and!; [done..|]. simpl. by rewrite (right_id_L ∅ (∪)).
    + simplify_eq. split_and!; simpl; [unfold after; simpl; by rewrite Hop|lia|done|lia].
  - simplify_eq. split_and!; simpl; [unfold after; simpl; by rewrite Hop|lia|done|lia].
  - simplify_eq. split_and!; simpl; [done|lia|by right|lia].
Qed.

(** C34. What the retry loop returns, for any operation and strategy: it runs the
    operation once more than the trace it leaves has entries and returns the
    outcome of the last run, an error with its kind unchanged and, if anything
    was retried, with the number of retries and exactly the set of their reasons
    attached.  It only goes on while attempts fail: as soon as one of the allowed
    attempts succeeds, the loop has returned, unless an attempt before it did
    not return itself. *)
Theorem orchestrate_retries_spec fuel req st :
  retry_attempts req = 0 → retry_reasons req = ∅ → Z.of_nat fuel < 2 ^ 32 →
  let '(st', trace, res) := orchestrate_retries em strategy fuel req op st in
  let n := length trace in
  (∀ r, res = Some (Ok r) → op (after n st) = (st', Some (Ok r)))
  ∧ (∀ e, res = Some (Err e) → ∃ e0, op (after n st) = (st', Some (Err e0))
       ∧ Core.kind e = Core.kind e0
       ∧ if (n =? 0)%nat then e = e0
         else ∃ info, Core.retry_info e = Some info ∧ retry_attempts info = Z.of_nat n
           ∧ retry_reasons info = list_to_set (fst <$> trace))
  ∧ (res = None → n = fuel ∨ op (after n st) = (st', None))
  ∧ (∀ k r, (k < fuel)%nat → (∀ j, (j < k)%nat → snd (op (after j st)) ≠ None) →
       snd (op (after k st)) = Some (Ok r) → res ≠ None).
Proof using infallible.
  intros Ha Hs Hlt. destruct (orchestrate_retries em strategy fuel req op st) as [[st' trace] res] eqn:Hrun.
  destruct (orchestrate_run_ok fuel req st st' trace res) as (Hok & Hle & Hnone & Hfail); [lia..|done|].
  split_and!.
  - intros r ->. done.
  - intros e ->. destruct Hok as (e0 & H1 & H2 & H3). exists e0. split_and!; [done..|].
    rewrite Ha, Z.add_0_l in H3. destruct (length trace =? 0)%nat eqn:E.
    + apply Nat.eqb_eq in E. rewrite E in H3. done.
    + apply Nat.eqb_neq in E. revert H3. test_true (0 <? Z.of_nat (length trace)).
      intros (info & ? & ? & Hr). exists info. split_and!; [done..|].
      rewrite Hr, Hs. by rewrite (left_id_L ∅ (∪)).
  - done.
  - intros k r Hk Hret Hisok ->. assert (¬ (k < length trace)%nat) as Hge
      by (intros Hlt'; destruct (Hfail k Hlt') as [e He]; congruence).
    destruct (Hnone eq_refl) as [Hn|Hn]; [lia|].
    destruct (decide (length trace = k)) as [<-|Hne]; [by rewrite Hn in Hisok|].
    apply (Hret (length trace)); [lia|by rewrite Hn].
Qed.

(** Every retry was either of a reason that is always retried, or allowed by the
    strategy for a request as idempotent as this one. *)
Lemma orchestrate_reasons (Q : bool → RetryReason → Prop) fuel req st st' trace res :
  (∀ i reason, always_retry reason = true → Q i reason) →
  (∀ r reason d, retry_after strategy r reason = Ok (Some d) → Q (is_idempotent r) reason) →
  retry_attempts req + Z.of_nat fuel < 2 ^ 32 →
  orchestrate_retries em strategy fuel req op st = (st', trace, res) →
  Forall (λ p, Q (is_idempotent req) (fst p)) trace.
Proof.
  intros Halways Hstrat. revert req st st' trace res.
  induction fuel as [|fuel IH]; intros req st st' trace res Hlt; [by intros; simplify_eq/=|].
  rewrite orchestrate_S. destruct (op st) as [st1 [[r|e|]|]]; try (intros; by simplify_eq).
  destruct (decide_retry em strategy req e) as [req' reason d|e'|] eqn:Hd; try (intros; by simplify_eq).
  destruct (orchestrate_retries em strategy fuel req' op st1) as [[st2 tr] rs] eqn:Hrec.
  intros Heq. simplify_eq. destruct (decide_again req e req' reason d) as (Ha & _ & Hi & Hwhy); [lia|done|].
  constructor.
  - simpl. destruct Hwhy as [Hal|Hre]; [by apply Halways|]. apply Hstrat in Hre. done.
  - rewrite <-Hi. apply (IH req' st1 st' tr res); [lia|done].
Qed.

End LoopTheorems.

#[global] Instance fail_fast_infallible s : InfallibleStrategy (T := FailFastRetryStrategy) s.
Proof. by intros ???. Qed.

#[global] Instance best_effort_infallible powi s :
  InfallibleStrategy (H := @best_effort_strategy _ (exponential_calculator powi)) s.
Proof.
  intros r x e. unfold retry_after, best_effort_strategy, backoff, exponential_calculator,
    exponential_backoff. repeat case_match; simplify_eq/=; done.
Qed.

(** A request that is not idempotent is never sent twice when the first copy may
    have been executed.  With the best-effort strategy every repeated attempt had
    a reason the code lists as safe for such requests, so never a connection lost
    in flight; with the fail-fast strategy only wrong routing
    and stale collections are repeated, for any request; and an attempt whose
    connection closed in flight ends the loop at once. *)
Lemma non_idempotent_not_resent {P : Profile} {S Resp : Type} em powi calc (op : action S Resp)
    fuel req st :
  retry_attempts req + Z.of_nat fuel < 2 ^ 32 → is_idempotent req = false →
  let best := @orchestrate_retries P em _ (@best_effort_strategy _ (exponential_calculator powi))
                (BestEffort calc) S Resp in
  Forall (λ p, fst p ≠ RetryReason.SocketClosedWhileInFlight
               ∧ allows_non_idempotent_retry (fst p) = true)
    (snd (fst (best fuel req op st)))
  ∧ Forall (λ p, always_retry (fst p) = true)
      (snd (fst (orchestrate_retries em FailFast fuel req op st)))
  ∧ (∀ st' me retry, op st = (st', Some (Err {| Core.kind := Core.Memdx me; Core.retry_info := retry |})) →
       err_kind (Core.source me) = ErrorKind.Cancelled CancellationErrorKind.ClosedInFlight →
       (0 < fuel)%nat →
       ∃ e, best fuel req op st = (st', [], Some (Err e)) ∧ Core.kind e = Core.Memdx me).
Proof.
  intros Hlt Hni best. split_and!.
  - destruct (best fuel req op st) as [[st' trace] res] eqn:Hrun. simpl.
    eapply (orchestrate_reasons em (H := @best_effort_strategy _ (exponential_calculator powi))
      (BestEffort calc) op (λ i reason, i = false →
        reason ≠ RetryReason.SocketClosedWhileInFlight ∧ allows_non_idempotent_retry reason = true))
      in Hrun; [|by intros i []|..|done].
    + eapply list.Forall_impl; [apply Hrun|]. simpl. intros p Hp. by apply Hp.
    + intros r reason d Hre Hi. unfold retry_after, best_effort_strategy in Hre. rewrite Hi in Hre.
      simpl in Hre. by destruct reason.
  - destruct (orchestrate_retries em FailFast fuel req op st) as [[st' trace] res] eqn:Hrun. simpl.
    eapply (orchestrate_reasons em FailFast op (λ _ reason, always_retry reason = true)) in Hrun;
      [done|done|by intros|done].
  - intros st' me retry Hop Hc Hf. destruct fuel as [|fuel]; [lia|]. unfold best.
    rewrite orchestrate_S, Hop. unfold decide_retry, error_to_retry_reason. simpl. rewrite Hc.
    rewrite bool_decide_true by done. unfold maybe_retry. simpl.
    unfold retry_after, best_effort_strategy. simpl. rewrite Hni. simpl.
    eexists. split; [done|]. by case_match.
Qed.

(** ** Witnesses: an operation that is sent to the wrong node twice. *)

Definition nmvb_error : Core.Error :=
  Core.new_contextual_memdx_error (Core.memdx_error_new (error_from_server
    (server_error_new ServerErrorKind.NotMyVbucket OpCode.Set_ Status.NotMyVbucket 7))).

Definition sample_op : action nat Z := λ st,
  (S st, Some (if (st <? 2)%nat then Err nmvb_error else Ok 42)).

Lemma orchestrate_retries_spec_witness :
  ∃ trace, orchestrate_retries (P := true) err_map_component_new FailFast 5
      (retry_request_new "upsert" false) sample_op 0%nat = (3%nat, trace, Some (Ok 42))
    ∧ length trace = 2%nat ∧ sample_op (after sample_op 2 0%nat) = (3%nat, Some (Ok 42)).
Proof.
  pose proof (orchestrate_retries_spec (P := true) err_map_component_new FailFast sample_op 5
    (retry_request_new "upsert" false) 0%nat eq_refl eq_refl ltac:(done)) as Hs.
  destruct (orchestrate_retries _ _ _ _ _ _) as [[st' trace] res] eqn:Hrun.
  assert (st' = 3%nat ∧ length trace = 2%nat ∧ res = Some (Ok 42)) as (-> & Hlen & ->)
    by (vm_compute in Hrun; by simplify_eq).
  exists trace. split_and!; [done..|]. destruct Hs as (Hok & _).
  specialize (Hok 42 eq_refl). by rewrite Hlen in Hok.
Defined.

Definition closed_error : Core.Error :=
  Core.new_contextual_memdx_error (Core.memdx_error_new
    (new_cancelled_error CancellationErrorKind.ClosedInFlight)).

Lemma non_idempotent_not_resent_example :
  ∃ e, @orchestrate_retries true err_map_component_new _
      (@best_effort_strategy _ (exponential_calculator (λ _ n, S754_finite false 1 n)))
      (BestEffort backoff_default) nat Z 5 (retry_request_new "upsert" false)
      (λ st, (S st, Some (Err closed_error))) 0%nat = (1%nat, [], Some (Err e)).
Proof.
  destruct (non_idempotent_not_resent (P := true) (Resp := Z) err_map_component_new
    (λ _ n, S754_finite false 1 n) backoff_default (λ st, (S st, Some (Err closed_error))) 5
    (retry_request_new "upsert" false) 0%nat ltac:(done) eq_refl) as (_ & _ & Hclosed).
  destruct (Hclosed 1%nat _ None eq_refl eq_refl ltac:(lia)) as (e & He & _). by exists e.
Defined.

(** ** Theorems: the error map *)

(** Without interference [on_err_map] keeps the map with the highest revision
    (the older one on a tie), and a body that does not parse changes nothing.
    But when another update was stored between the load and the swap, the new map
    is dropped although it is newer than both. *)
Lemma err_map_keeps_newest parse_error_map bytes new_err_map self :
  parse_error_map bytes = Some new_err_map →
  err_map (on_err_map parse_error_map bytes self)
  = Some (match err_map self with
          | Some cur => if revision new_err_map <=? revision cur then cur else new_err_map
          | None => new_err_map
          end)
  ∧ (∀ current cur other, err_map current = Some cur → err_map self = Some other →
       em_ptr self ≠ em_ptr current →
       revision cur < revision new_err_map → revision other < revision new_err_map →
       on_err_map_round new_err_map current self = (self, false)).
Proof.
  intros Hp. split.
  - unfold on_err_map. rewrite Hp. unfold on_err_map_round. destruct (err_map self) as [cur|] eqn:Hc; [|done].
    destruct (revision new_err_map <=? revision cur) eqn:Hr; [done|].
    rewrite Nat.eqb_refl. simpl. rewrite Z.leb_refl. done.
  - intros current cur other Hcur Hother Hptr Hlt _. unfold on_err_map_round. rewrite Hcur.
    test_false (revision new_err_map <=? revision cur).
    by rewrite (proj2 (Nat.eqb_neq (em_ptr self) (em_ptr current)) Hptr).
Qed.

Lemma err_map_keeps_newest_example :
  let m rev := {| version := 1; revision := rev; errors := ∅ |} in
  err_map (on_err_map (λ _, Some (m 4)) [] (mkErrMapComponent 3 (Some (m 2)))) = Some (m 4)
  ∧ on_err_map_round (m 4) (mkErrMapComponent 3 (Some (m 2))) (mkErrMapComponent 4 (Some (m 3)))
    = (mkErrMapComponent 4 (Some (m 3)), false).
Proof.
  intros m. split.
  - destruct (err_map_keeps_newest (λ _, Some (m 4)) [] (m 4) (mkErrMapComponent 3 (Some (m 2))) eq_refl)
      as [-> _]. reflexivity.
  - apply (proj2 (err_map_keeps_newest (λ _, Some (m 4)) [] (m 4) (mkErrMapComponent 4 (Some (m 3))) eq_refl)
      (mkErrMapComponent 3 (Some (m 2))) (m 2) (m 3)); done.
Defined.
