(* ===== verification/Collections.v ===== *)
(** * Collection ids ([collectionresolver.rs], [collection_resolver_cached.rs])

    The cached resolver asks the server for the id of a collection once, keeps
    it, and lets concurrent callers of the same collection wait for the one
    request in flight.

    The calls run concurrently, so the model is a transition system: a step is
    what one task does between two suspension points, all of it under the lock
    of the slow map where the source holds that lock.  The answers of the
    underlying resolver are inputs of events. *)

From S2P Require Import Prelude Wire MemdError CoreError.

(** ** State *)

Record CollectionCacheEntry : Type := mkEntry {
  collection_id : Z;
  manifest_rev : Z;
  entry_pending : option nat;
}.

(** Where a call of [resolve_collection_id] is.  [TkBeforeWait] has taken the
    [Notify] of the entry and released the lock, but has not called [notified()]
    yet; from then on it is [TkWaiting]. *)
Inductive Task : Type :=
| TkSlow (key : string)
| TkBeforeWait (key : string) (notify : nat)
| TkWaiting (key : string) (notify : nat)
| TkResolving (key : string)
| TkDone (key : string) (r : outcome Core.Error (Z * Z)).

(** [poisoned]: a task panicked while it held the lock of the slow map.
    [answers] is history: what the resolver has answered so far. *)
Record Cached : Type := mkCached {
  fast_cache : gmap string (Z * Z);
  slow_map : gmap string CollectionCacheEntry;
  poisoned : bool;
  next_notify : nat;
  tasks : gmap nat Task;
  answers : list (string * (Z * Z));
}.

Definition cached_new : Cached := mkCached ∅ ∅ false 0 ∅ [].

Definition full_key_path (scope_name collection_name : string) : string :=
  scope_name +:+ "." +:+ collection_name.

Definition set_task (t : nat) (task : Task) (s : Cached) : Cached :=
  mkCached (fast_cache s) (slow_map s) (poisoned s) (next_notify s) (<[t := task]> (tasks s))
    (answers s).

(** ** Steps *)

(** [rebuild_fast_cache_locked]: the resolved entries with a non-zero id. *)
Definition fast_entry (e : CollectionCacheEntry) : option (Z * Z) :=
  if 0 <? collection_id e then Some (collection_id e, manifest_rev e) else None.

Definition rebuild_fast_cache (m : gmap string CollectionCacheEntry) : gmap string (Z * Z) :=
  omap fast_entry m.

(** [Notify::notify_waiters]: wakes the tasks that wait for it now. *)
Definition wake (n : option nat) (task : Task) : Task :=
  match task with
  | TkWaiting key n' => if decide (n = Some n') then TkSlow key else task
  | _ => task
  end.

(** [lock().unwrap()] on a poisoned mutex panics. *)
Definition locked (t : nat) (key : string) (s : Cached) (k : Cached) : Cached :=
  if poisoned s then set_task t (TkDone key Panic) s else k.

(** [expect("slow map was missing collection id entry")], under the lock. *)
Definition missing_entry (t : nat) (key : string) (s : Cached) : Cached :=
  set_task t (TkDone key Panic)
    (mkCached (fast_cache s) (slow_map s) true (next_notify s) (tasks s) (answers s)).

(** What the spawned call of the underlying resolver ends with. *)
Inductive Reply : Type :=
| ReplyOk (collection_id manifest_rev : Z)
| ReplyErr (e : Core.Error)
| ReplyJoinError (msg : string).

Inductive Event : Type :=
| EvCall (t : nat) (scope_name collection_name : string)
| EvSlow (t : nat)
| EvListen (t : nat)
| EvReply (t : nat) (r : Reply)
| EvInvalidate (t : nat) (scope_name collection_name : string)
| EvDrop (t : nat).

(** [resolve_collection_id] up to the slow path. *)
Definition resolve_collection_id (t : nat) (key : string) (s : Cached) : Cached :=
  match fast_cache s !! key with
  | Some (id, rev) => set_task t (TkDone key (Ok (id, rev))) s
  | None => set_task t (TkSlow key) s
  end.

(** One turn of the loop of [resolve_collection_id_slow], up to its wait. *)
Definition resolve_slow (t : nat) (key : string) (s : Cached) : Cached :=
  locked t key s
    match slow_map s !! key with
    | Some entry =>
        match entry_pending entry with
        | Some n => set_task t (TkBeforeWait key n) s
        | None => set_task t (TkDone key (Ok (collection_id entry, manifest_rev entry))) s
        end
    | None =>
        mkCached (fast_cache s) (<[key := mkEntry 0 0 (Some (next_notify s))]> (slow_map s))
          (poisoned s) (S (next_notify s)) (<[t := TkResolving key]> (tasks s)) (answers s)
    end.

(** The rest of it, when the spawned task has ended. *)
Definition resolved (t : nat) (key : string) (r : Reply) (s : Cached) : Cached :=
  match r with
  | ReplyJoinError msg =>
      set_task t (TkDone key (Err (Core.new_message_error
        ("failed to join resolve collection id task: " +:+ msg)))) s
  | ReplyOk id rev =>
      let s := mkCached (fast_cache s) (slow_map s) (poisoned s) (next_notify s) (tasks s)
                 (answers s ++ [(key, (id, rev))]) in
      locked t key s
        match slow_map s !! key with
        | Some entry =>
            let slow_map := <[key := mkEntry id rev None]> (slow_map s) in
            mkCached (rebuild_fast_cache slow_map) slow_map (poisoned s) (next_notify s)
              (<[t := TkDone key (Ok (id, rev))]> (wake (entry_pending entry) <$> tasks s))
              (answers s)
        | None => missing_entry t key s
        end
  | ReplyErr e =>
      locked t key s
        match slow_map s !! key with
        | Some entry =>
            mkCached (fast_cache s) (base.delete key (slow_map s)) (poisoned s) (next_notify s)
              (<[t := TkDone key (Err e)]> (wake (entry_pending entry) <$> tasks s)) (answers s)
        | None => missing_entry t key s
        end
  end.

(** [invalidate_collection_id]; [t] is the task that makes the call. *)
Definition invalidate (t : nat) (key : string) (s : Cached) : Cached :=
  locked t key s
    (let slow_map := base.delete key (slow_map s) in
     mkCached (rebuild_fast_cache slow_map) slow_map (poisoned s) (next_notify s) (tasks s)
       (answers s)).

(** [None]: the task is not at that point.  A dropped call disappears; nothing
    else is undone. *)
Definition step (ev : Event) (s : Cached) : option Cached :=
  match ev with
  | EvCall t scope coll =>
      match tasks s !! t with
      | Some _ => None
      | None => Some (resolve_collection_id t (full_key_path scope coll) s)
      end
  | EvSlow t =>
      match tasks s !! t with Some (TkSlow key) => Some (resolve_slow t key s) | _ => None end
  | EvListen t =>
      match tasks s !! t with
      | Some (TkBeforeWait key n) => Some (set_task t (TkWaiting key n) s)
      | _ => None
      end
  | EvReply t r =>
      match tasks s !! t with Some (TkResolving key) => Some (resolved t key r s) | _ => None end
  | EvInvalidate t scope coll =>
      match tasks s !! t with
      | Some _ => None
      | None => Some (invalidate t (full_key_path scope coll) s)
      end
  | EvDrop t =>
      match tasks s !! t with
      | Some _ =>
          Some (mkCached (fast_cache s) (slow_map s) (poisoned s) (next_notify s)
                  (base.delete t (tasks s)) (answers s))
      | None => None
      end
  end.

Fixpoint run (evs : list Event) (s : Cached) : option Cached :=
  match evs with
  | [] => Some s
  | ev :: evs => s ← step ev s; run evs s
  end.

(** ** The clients of a resolver ([collectionresolver.rs]) *)

(** [trait CollectionResolver], as a client sees one call of it. *)
Class CollectionResolver (S : Type) := {
  cr_resolve : string → string → action S (Z * Z);
  cr_invalidate : string → string → S → S;
}.

Section Orchestrate.
Context {S Resp : Type} `{CollectionResolver S}.

Definition invalidate_collection_id (err : Core.Error) (scope_name collection_name : string)
    (st : S) : S :=
  match Core.is_memdx_error err with
  | Some memdx_err =>
      if is_server_error_kind memdx_err ServerErrorKind.UnknownCollectionID
         || is_server_error_kind memdx_err ServerErrorKind.UnknownCollectionName
      then cr_invalidate scope_name collection_name st else st
  | None => st
  end.

Definition orchestrate_memd_collection_id (scope_name collection_name : string)
    (operation : Z → action S Resp) : action S Resp := λ st,
  if (bool_decide (scope_name = "_default"%string)
      && bool_decide (collection_name = "_default"%string))
     || (bool_decide (scope_name = ""%string) && bool_decide (collection_name = ""%string))
  then operation 0 st
  else
    match cr_resolve scope_name collection_name st with
    | (st, Some (Ok (collection_id, _))) =>
        match operation collection_id st with
        | (st, Some (Err err)) =>
            (invalidate_collection_id err scope_name collection_name st, Some (Err err))
        | res => res
        end
    | (st, Some (Err e)) =>
        (invalidate_collection_id e scope_name collection_name st, Some (Err e))
    | (st, Some Panic) => (st, Some Panic)
    | (st, None) => (st, None)
    end.

End Orchestrate.

(** ** Invariants *)

Lemma run_ind (Q : Cached → Prop) (ok : Event → Prop) evs s s' :
  (∀ ev s s', ok ev → Q s → step ev s = Some s' → Q s') →
  Forall ok evs → Q s → run evs s = Some s' → Q s'.
Proof.
  intros Hstep Hok. revert s. induction Hok as [|ev evs Hev Hevs IH]; intros s Hs Hrun; simpl in Hrun.
  - by simplify_eq.
  - destruct (step ev s) as [s1|] eqn:H1; simplify_eq/=. eauto.
Qed.

(** [locked] and [missing_entry] only end a task with a panic. *)
Lemma locked_cases t key s k (Q : Cached → Prop) :
  (poisoned s = true → Q (set_task t (TkDone key Panic) s)) → (poisoned s = false → Q k) →
  Q (locked t key s k).
Proof. unfold locked. destruct (poisoned s); auto. Qed.

(** What the caches hold was answered by the resolver. *)
Record answered (s : Cached) : Prop := {
  an_fast : ∀ k v, fast_cache s !! k = Some v → (k, v) ∈ answers s;
  an_slow : ∀ k e, slow_map s !! k = Some e →
    match entry_pending e with
    | None => (k, (collection_id e, manifest_rev e)) ∈ answers s
    | Some _ => collection_id e = 0
    end;
  an_done : ∀ t k v, tasks s !! t = Some (TkDone k (Ok v)) → (k, v) ∈ answers s;
}.

Lemma answered_new : answered cached_new.
Proof. by split; intros *; simpl; rewrite lookup_empty. Qed.

Lemma answered_task t task s :
  answered s → (∀ k v, task = TkDone k (Ok v) → (k, v) ∈ answers s) →
  answered (set_task t task s).
Proof.
  intros [] Ht. split; simpl; eauto. intros t' k v [[_ H]|[_ H]]%lookup_insert_Some; eauto.
Qed.

Lemma answered_rebuild m (l : list (string * (Z * Z))) k v :
  (∀ k e, m !! k = Some e → match entry_pending e with
     | None => (k, (collection_id e, manifest_rev e)) ∈ l | Some _ => collection_id e = 0 end) →
  rebuild_fast_cache m !! k = Some v → (k, v) ∈ l.
Proof.
  intros Hm H. unfold rebuild_fast_cache in H. rewrite lookup_omap in H.
  destruct (m !! k) as [e|] eqn:He; [|done]. simpl in H. unfold fast_entry in H.
  case_match; [|done]. prop_tests. simplify_eq. specialize (Hm k e He).
  destruct (entry_pending e); [lia|done].
Qed.

Lemma wake_done n (m : gmap nat Task) t k r :
  (wake n <$> m) !! t = Some (TkDone k r) → m !! t = Some (TkDone k r).
Proof.
  rewrite lookup_fmap. destruct (m !! t) as [[]|]; simpl; try done.
  unfold wake. case_decide; done.
Qed.

Lemma wake_resolving n (m : gmap nat Task) t k :
  (wake n <$> m) !! t = Some (TkResolving k) ↔ m !! t = Some (TkResolving k).
Proof.
  rewrite lookup_fmap. destruct (m !! t) as [[]|]; simpl; try done.
  unfold wake. case_decide; split; done.
Qed.

Lemma answered_resolved t key r s : answered s → answered (resolved t key r s).
Proof.
  intros Ha. pose proof Ha as []. destruct r as [id rev|e|msg]; simpl.
  - assert (∀ x, x ∈ answers s → x ∈ answers s ++ [(key, (id, rev))]) as Hmono
      by (intros; apply elem_of_app; by left).
    assert (∀ k e, slow_map s !! k = Some e → match entry_pending e with
      | None => (k, (collection_id e, manifest_rev e)) ∈ answers s ++ [(key, (id, rev))]
      | Some _ => collection_id e = 0 end) as Hslow.
    { intros k e He. specialize (an_slow0 k e He). destruct (entry_pending e); eauto. }
    apply locked_cases; simpl; intros Hp; [apply answered_task; [split; simpl; eauto|done]|].
    destruct (slow_map s !! key) as [entry|] eqn:He.
    + assert (∀ k e, <[key := mkEntry id rev None]> (slow_map s) !! k = Some e →
        match entry_pending e with
        | None => (k, (collection_id e, manifest_rev e)) ∈ answers s ++ [(key, (id, rev))]
        | Some _ => collection_id e = 0 end) as Hslow'.
      { intros k e [[<- <-]|[_ H]]%lookup_insert_Some; [|by apply Hslow].
        simpl. apply elem_of_app. right. by left. }
      split; simpl; [intros; by eapply answered_rebuild|done|].
      intros t' k v [[_ H]|[_ H%wake_done]]%lookup_insert_Some; [|eauto].
      simplify_eq. apply elem_of_app. right. by left.
    + apply answered_task; [split; simpl; eauto|done].
  - apply locked_cases; intros Hp; [apply answered_task; [done|done]|].
    destruct (slow_map s !! key) as [entry|] eqn:He; [|apply answered_task; [split; simpl; eauto|done]].
    split; simpl; [done|intros k e' [_ H]%lookup_delete_Some; by apply an_slow0|].
    intros t' k v [[_ H]|[_ H%wake_done]]%lookup_insert_Some; [done|eauto].
  - by apply answered_task.
Qed.

Lemma answered_step ev s s' : answered s → step ev s = Some s' → answered s'.
Proof.
  intros Ha. pose proof Ha as []. destruct ev as [t sc co|t|t|t r|t sc co|t]; simpl;
    destruct (tasks s !! t) as [task|] eqn:Ht; try done.
  - intros [= <-]. unfold resolve_collection_id. case_match; [|by apply answered_task].
    case_match; subst. apply answered_task; [done|]. intros ?? [= <- <-]. eauto.
  - destruct task as [key| | | |]; try done. intros [= <-]. unfold resolve_slow.
    apply locked_cases; intros _; [by apply answered_task|].
    destruct (slow_map s !! key) as [e|] eqn:He.
    + pose proof (an_slow0 key e He) as Hs. destruct (entry_pending e); apply answered_task; try done.
      intros ?? [= <- <-]. done.
    + split; simpl; [done| |].
      * intros k e [[<- <-]|[_ H]]%lookup_insert_Some; [done|by apply an_slow0].
      * intros t' k v [[_ H]|[_ H]]%lookup_insert_Some; [done|eauto].
  - destruct task as [|key n| | |]; try done. intros [= <-]. by apply answered_task.
  - destruct task as [| | |key|]; try done. intros [= <-]. by apply answered_resolved.
  - intros [= <-]. unfold invalidate. apply locked_cases; intros _; [by apply answered_task|].
    assert (∀ k e, base.delete (full_key_path sc co) (slow_map s) !! k = Some e →
      match entry_pending e with
      | None => (k, (collection_id e, manifest_rev e)) ∈ answers s | Some _ => collection_id e = 0 end)
      as Hs by (intros k e [_ H]%lookup_delete_Some; by apply an_slow0).
    split; simpl; [intros; by eapply answered_rebuild|done|done].
  - intros [= <-]. split; simpl; [done|done|]. intros t' k v [_ H]%lookup_delete_Some. eauto.
Qed.

Lemma run_answered evs s : run evs cached_new = Some s → answered s.
Proof.
  apply (run_ind answered (λ _, True)); [eauto using answered_step| |apply answered_new].
  by apply list.Forall_forall.
Qed.

(** While no call is dropped or invalidates, there is one request per pending
    entry. *)
Record single_flight (s : Cached) : Prop := {
  sf_poisoned : poisoned s = false;
  sf_entry : ∀ t key, tasks s !! t = Some (TkResolving key) →
    ∃ e n, slow_map s !! key = Some e ∧ entry_pending e = Some n;
  sf_unique : ∀ t1 t2 key, tasks s !! t1 = Some (TkResolving key) →
    tasks s !! t2 = Some (TkResolving key) → t1 = t2;
  sf_no_panic : ∀ t key, tasks s !! t ≠ Some (TkDone key Panic);
}.

Lemma single_flight_task t task s :
  single_flight s → (∀ key, task ≠ TkResolving key) → (∀ key, task ≠ TkDone key Panic) →
  single_flight (set_task t task s).
Proof.
  intros [] H1 H2. split; simpl; [done|..].
  - intros t' key [[_ H]|[_ H]]%lookup_insert_Some; [by destruct (H1 key)|eauto].
  - intros t1 t2 key [[_ H]|[_ H]]%lookup_insert_Some [[_ H']|[_ H']]%lookup_insert_Some;
      try (by destruct (H1 key)); eauto.
  - intros t' key [[_ H]|[_ H]]%lookup_insert_Some; [by destruct (H2 key)|by apply sf_no_panic0 in H].
Qed.

(** The resolving task of [key] ends and the entry of [key] is settled. *)
Lemma single_flight_settle t key r n m s fast ans :
  single_flight s → tasks s !! t = Some (TkResolving key) → r ≠ Panic →
  (∀ k, k ≠ key → m !! k = slow_map s !! k) →
  single_flight (mkCached fast m false (next_notify s)
    (<[t := TkDone key r]> (wake n <$> tasks s)) ans).
Proof.
  intros [] Ht Hr Hm. split; simpl; [done|..].
  - intros t' k [[_ H]|[Hne H%wake_resolving]]%lookup_insert_Some; [done|].
    rewrite Hm; [eauto|]. intros ->. by apply Hne, (sf_unique0 t t' key).
  - intros t1 t2 k [[_ H]|[_ H%wake_resolving]]%lookup_insert_Some
      [[_ H']|[_ H'%wake_resolving]]%lookup_insert_Some; try done; eauto.
  - intros t' k [[_ H]|[_ H%wake_done]]%lookup_insert_Some; [congruence|by apply sf_no_panic0 in H].
Qed.

(** Events that do not abandon a request. *)
Definition undisturbed (ev : Event) : Prop :=
  match ev with
  | EvInvalidate _ _ _ | EvDrop _ | EvReply _ (ReplyJoinError _) => False
  | _ => True
  end.

Lemma single_flight_step ev s s' :
  undisturbed ev → single_flight s → step ev s = Some s' → single_flight s'.
Proof.
  intros Hev Hs. pose proof Hs as []. destruct ev as [t sc co|t|t|t r|t sc co|t]; simpl in *; try done;
    destruct (tasks s !! t) as [task|] eqn:Ht; try done.
  - intros [= <-]. unfold resolve_collection_id. repeat case_match; by apply single_flight_task.
  - destruct task as [key| | | |]; try done. intros [= <-]. unfold resolve_slow, locked.
    rewrite sf_poisoned0. destruct (slow_map s !! key) as [e|] eqn:He;
      [destruct (entry_pending e); by apply single_flight_task|].
    assert (∀ t', tasks s !! t' ≠ Some (TkResolving key)) as Hno
      by (intros t' (e & n & Hk & _)%sf_entry0; congruence).
    split; simpl; [done|..].
    + intros t' k [[_ H]|[_ H]]%lookup_insert_Some; [injection H as <-|].
      * eexists _, _. by rewrite lookup_insert_eq.
      * destruct (sf_entry0 t' k H) as (e & n & Hk & Hn). exists e, n.
        rewrite lookup_insert_ne; [done|]. intros ->. congruence.
    + intros t1 t2 k [[E1 H1]|[_ H1]]%lookup_insert_Some [[E2 H2]|[_ H2]]%lookup_insert_Some;
        [congruence|injection H1 as <-; by apply Hno in H2|injection H2 as <-; by apply Hno in H1|].
      eauto.
    + intros t' k [[_ H]|[_ H]]%lookup_insert_Some; [done|by apply sf_no_panic0 in H].
  - destruct task as [|key n| | |]; try done. intros [= <-]. by apply single_flight_task.
  - destruct task as [| | |key|]; try done. intros [= <-].
    destruct (sf_entry0 t key Ht) as (e & n & He & Hn).
    destruct r as [id rev|err|msg]; simpl; [| |done]; unfold locked; simpl;
      rewrite sf_poisoned0, He; apply (single_flight_settle _ _ _ _ _ s); try done; intros k Hk.
    + by rewrite lookup_insert_ne.
    + by rewrite lookup_delete_ne.
Qed.

Lemma single_flight_new : single_flight cached_new.
Proof. by split; try done; intros *; simpl; rewrite lookup_empty. Qed.

(** ** Theorems *)


(** One request per collection: as long as no call is dropped or invalidates
    the collection and the spawned requests do not panic, at most one task asks
    the server for a collection at any time, whatever the interleaving, and no
    call panics. *)
Lemma one_request_per_collection evs s :
  Forall undisturbed evs → run evs cached_new = Some s →
  (∀ t1 t2 key, tasks s !! t1 = Some (TkResolving key) → tasks s !! t2 = Some (TkResolving key) →
     t1 = t2)
  ∧ (∀ t key, tasks s !! t ≠ Some (TkDone key Panic)).
Proof.
  intros Hok Hrun. assert (single_flight s) as []; [|done].
  eapply (run_ind single_flight undisturbed); eauto using single_flight_step, single_flight_new.
Qed.

(** ** Lost callers *)

(** The [Notify] a task waits for has gone: nobody will signal it again. *)
Record stranded (t : nat) (key : string) (n : nat) (s : Cached) : Prop := {
  st_task : tasks s !! t = Some (TkWaiting key n);
  st_old : (n < next_notify s)%nat;
  st_gone : ∀ k e, slow_map s !! k = Some e → entry_pending e ≠ Some n;
}.

Lemma stranded_task t key n t' task s :
  t' ≠ t → stranded t key n s → stranded t key n (set_task t' task s).
Proof. intros Hne []. split; simpl; [by rewrite lookup_insert_ne|done..]. Qed.

Lemma stranded_settle t key n t' task w fast m p s ans :
  t' ≠ t → stranded t key n s → w ≠ Some n →
  (∀ k e, m !! k = Some e → entry_pending e ≠ Some n) →
  stranded t key n (mkCached fast m p (next_notify s) (<[t' := task]> (wake w <$> tasks s)) ans).
Proof.
  intros Hne [] Hw Hm. split; simpl; [|done..].
  rewrite lookup_insert_ne, lookup_fmap, st_task0 by done. simpl. by rewrite decide_False.
Qed.

Lemma stranded_step t key n ev s s' :
  ev ≠ EvDrop t → stranded t key n s → step ev s = Some s' → stranded t key n s'.
Proof.
  intros Hev Hs. pose proof Hs as [].
  destruct ev as [t' sc co|t'|t'|t' r|t' sc co|t']; simpl;
    (destruct (decide (t' = t)) as [->|Hne]; [by rewrite st_task0 || (by destruct Hev)|]);
    destruct (tasks s !! t') as [task|] eqn:Ht; try done.
  - intros [= <-]. unfold resolve_collection_id. repeat case_match; by apply stranded_task.
  - destruct task as [k| | | |]; try done. intros [= <-]. unfold resolve_slow.
    apply locked_cases; intros _; [by apply stranded_task|].
    destruct (slow_map s !! k) as [e|]; [destruct (entry_pending e); by apply stranded_task|].
    split; simpl; [by rewrite lookup_insert_ne|lia|].
    intros k' e [[_ <-]|[_ H]]%lookup_insert_Some; simpl; [|by eapply st_gone0].
    intros [= Heq]. lia.
  - destruct task as [|k m| | |]; try done. intros [= <-]. by apply stranded_task.
  - destruct task as [| | |k|]; try done. intros [= <-].
    destruct r as [id rev|e|msg]; simpl; [| |by apply stranded_task].
    + apply locked_cases; simpl; intros _; [by apply stranded_task|].
      destruct (slow_map s !! k) as [e|] eqn:He; [|by apply stranded_task].
      apply (stranded_settle _ _ _ _ _ _ _ _ _ s); [done..|by apply (st_gone0 k)|].
      intros k' e' [[_ <-]|[_ H]]%lookup_insert_Some; [done|by eapply st_gone0].
    + apply locked_cases; intros _; [by apply stranded_task|].
      destruct (slow_map s !! k) as [e'|] eqn:He; [|by apply stranded_task].
      apply (stranded_settle _ _ _ _ _ _ _ _ _ s); [done..|by apply (st_gone0 k)|].
      intros k' e'' [_ H]%lookup_delete_Some. by eapply st_gone0.
  - intros [= <-]. unfold invalidate. apply locked_cases; intros _; [by apply stranded_task|].
    split; simpl; [done..|]. intros k e [_ H]%lookup_delete_Some. by eapply st_gone0.
  - intros [= <-]. split; simpl; [by rewrite lookup_delete_ne|done..].
Qed.

(** The request for [key] was abandoned: its entry is pending, nobody asks. *)
Record abandoned (key : string) (s : Cached) : Prop := {
  ab_entry : ∃ n, slow_map s !! key = Some (mkEntry 0 0 (Some n));
  ab_fast : fast_cache s !! key = None;
  ab_tasks : ∀ t, tasks s !! t ≠ Some (TkResolving key);
  ab_done : ∀ t v, tasks s !! t ≠ Some (TkDone key (Ok v));
}.

Lemma abandoned_task key t task s :
  abandoned key s → (∀ v, task ≠ TkDone key (Ok v)) → task ≠ TkResolving key →
  abandoned key (set_task t task s).
Proof.
  intros [] H1 H2. split; simpl; [done..| |].
  - intros t' [[_ H]|[_ H]]%lookup_insert_Some; [done|by apply ab_tasks0 in H].
  - intros t' v [[_ H]|[_ H]]%lookup_insert_Some; [by apply H1 in H|by apply ab_done0 in H].
Qed.

Lemma abandoned_settle key k t r w fast m p s ans :
  abandoned key s → k ≠ key → m !! key = slow_map s !! key → fast !! key = None →
  abandoned key (mkCached fast m p (next_notify s) (<[t := TkDone k r]> (wake w <$> tasks s)) ans).
Proof.
  intros [] Hne Hm Hf. split; simpl; [by rewrite Hm|done|..].
  - intros t' [[_ H]|[_ H%wake_resolving]]%lookup_insert_Some; [done|by apply ab_tasks0 in H].
  - intros t' v [[_ H]|[_ H%wake_done]]%lookup_insert_Some; [congruence|by apply ab_done0 in H].
Qed.

Lemma rebuild_pending m key n :
  m !! key = Some (mkEntry 0 0 n) → rebuild_fast_cache m !! key = None.
Proof. intros H. unfold rebuild_fast_cache. by rewrite lookup_omap, H. Qed.

Definition not_invalidate (ev : Event) : Prop :=
  match ev with EvInvalidate _ _ _ => False | _ => True end.

Lemma abandoned_step key ev s s' :
  not_invalidate ev → abandoned key s → step ev s = Some s' → abandoned key s'.
Proof.
  intros Hev Hs. pose proof Hs as [Hentry ? ? ?]. pose proof Hentry as [n Hn].
  destruct ev as [t sc co|t|t|t r|t sc co|t]; simpl; try done;
    destruct (tasks s !! t) as [task|] eqn:Ht; try done.
  - intros [= <-]. unfold resolve_collection_id.
    destruct (fast_cache s !! full_key_path sc co) as [[id rev]|] eqn:Hf; apply abandoned_task; try done.
    intros v [= Hk _]. congruence.
  - destruct task as [k| | | |]; try done. intros [= <-]. unfold resolve_slow.
    apply locked_cases; intros _; [by apply abandoned_task|].
    destruct (slow_map s !! k) as [e|] eqn:He.
    + destruct (entry_pending e) eqn:Hpe; apply abandoned_task; try done.
      intros v [= -> _]. rewrite Hn in He. simplify_eq.
    + assert (k ≠ key) as Hk by congruence. split; simpl; [|done|..].
      * exists n. by rewrite lookup_insert_ne.
      * intros t' [[_ H]|[_ H]]%lookup_insert_Some; [congruence|by apply ab_tasks0 in H].
      * intros t' v [[_ H]|[_ H]]%lookup_insert_Some; [done|by apply ab_done0 in H].
  - destruct task as [|k m| | |]; try done. intros [= <-]. by apply abandoned_task.
  - destruct task as [| | |k|]; try done. intros [= <-].
    assert (k ≠ key) as Hk by (intros ->; by apply ab_tasks0 in Ht).
    destruct r as [id rev|e|msg]; simpl; [| |by apply abandoned_task].
    + apply locked_cases; simpl; intros _; [by apply abandoned_task|].
      destruct (slow_map s !! k) as [e|] eqn:He; [|by apply abandoned_task].
      apply (abandoned_settle _ _ _ _ _ _ _ _ s); [done..|by rewrite lookup_insert_ne|].
      apply rebuild_pending with (Some n). by rewrite lookup_insert_ne.
    + apply locked_cases; intros _; [by apply abandoned_task|].
      destruct (slow_map s !! k) as [e'|] eqn:He; [|by apply abandoned_task].
      apply (abandoned_settle _ _ _ _ _ _ _ _ s); [done..|by rewrite lookup_delete_ne|done].
  - intros [= <-]. split; simpl; [eauto|done|..].
    + intros t' [_ H]%lookup_delete_Some. by apply ab_tasks0 in H.
    + intros t' v [_ H]%lookup_delete_Some. by apply ab_done0 in H.
Qed.

(** Two callers of one collection: the second has taken the first one's [Notify]
    when the answer arrives, and starts to listen only afterwards. *)
Definition lost_wakeup : list Event :=
  [EvCall 0 "app" "users"; EvSlow 0; EvCall 1 "app" "users"; EvSlow 1;
   EvReply 0 (ReplyOk 8 3); EvListen 1].

(** A caller that is dropped (a deadline passes) while its request is in flight. *)
Definition dropped_request : list Event :=
  [EvCall 0 "app" "users"; EvSlow 0; EvDrop 0].

(** Callers of the cached resolver can wait for ever, in two ways.  The
    [Notify] is signalled between the moment a second caller has read it and the
    moment it listens: that caller then never continues, whatever happens next.
    And when the caller whose request is in flight is dropped, nobody completes
    the entry: until the collection is invalidated no call for it ever returns an
    id. *)
Lemma waiting_caller_can_hang :
  (∃ s, run lost_wakeup cached_new = Some s
     ∧ slow_map s !! "app.users"%string = Some (mkEntry 8 3 None)
     ∧ ∀ evs s', EvDrop 1 ∉ evs → run evs s = Some s' →
         tasks s' !! 1%nat = Some (TkWaiting "app.users" 0))
  ∧ (∃ s, run dropped_request cached_new = Some s
     ∧ ∀ evs s', Forall not_invalidate evs → run evs s = Some s' →
         ∀ t v, tasks s' !! t ≠ Some (TkDone "app.users" (Ok v))).
Proof.
  split.
  - destruct (run lost_wakeup cached_new) as [s|] eqn:Hrun; [|by vm_compute in Hrun].
    exists s. split; [done|]. assert (stranded 1 "app.users" 0 s) as Hs.
    { vm_compute in Hrun. injection Hrun as <-. split; [evaluate|simpl; lia|].
      intros k e. simpl. intros H.
      apply (map_Forall_lookup_1 (λ _ e, entry_pending e ≠ Some 0%nat) _ k e) in H;
        [done|]. apply (bool_decide_unpack _). vm_compute. done. }
    split; [vm_compute in Hrun; injection Hrun as <-; evaluate|].
    intros evs s' Hnin Hr. apply (run_ind (stranded 1 "app.users" 0) (λ ev, ev ≠ EvDrop 1) evs s s')
      in Hr as []; [done|intros; by eapply stranded_step| |done].
    apply list.Forall_forall. intros ev Hin ->. done.
  - destruct (run dropped_request cached_new) as [s|] eqn:Hrun; [|by vm_compute in Hrun].
    exists s. split; [done|]. assert (abandoned "app.users" s) as Hs.
    { vm_compute in Hrun. injection Hrun as <-.
      split; [exists 0%nat; evaluate|evaluate|by intros t; simpl|by intros t; simpl]. }
    intros evs s' Hok Hr. apply (run_ind (abandoned "app.users") not_invalidate evs s s') in Hr as [];
      [done|intros; by eapply abandoned_step|done..].
Qed.

(** Invalidating a collection while its id is being requested breaks the
    resolver: the answer finds no entry, the task panics with the lock of the
    slow map held, and from then on every call that misses the fast cache
    panics, for every collection. *)
Lemma invalidate_while_resolving_poisons s t t' scope coll r :
  let key := full_key_path scope coll in
  poisoned s = false → tasks s !! t = Some (TkResolving key) → tasks s !! t' = None →
  (∀ msg, r ≠ ReplyJoinError msg) →
  ∃ s', run [EvInvalidate t' scope coll; EvReply t r] s = Some s'
    ∧ tasks s' !! t = Some (TkDone key Panic)
    ∧ ∀ evs s'' t'' key' s3, run evs s' = Some s'' → tasks s'' !! t'' = Some (TkSlow key') →
        step (EvSlow t'') s'' = Some s3 → tasks s3 !! t'' = Some (TkDone key' Panic).
Proof.
  intros key Hp Ht Ht' Hr. simpl. rewrite Ht'. simpl.
  assert (∀ evs s1 s2, poisoned s1 = true → run evs s1 = Some s2 → poisoned s2 = true) as Hpois.
  { intros evs s1 s2 H1 H2.
    apply (run_ind (λ s, poisoned s = true) (λ _, True) evs s1 s2) in H2;
      [done| |by apply list.Forall_forall|done].
    clear. intros ev s s' _ Hs Hst. destruct ev; simpl in Hst;
      unfold resolve_collection_id, resolve_slow, resolved, invalidate, locked, missing_entry in Hst;
      simpl in Hst; rewrite ?Hs in Hst; repeat case_match; simplify_eq/=; done. }
  unfold invalidate, locked. rewrite Hp. simpl. rewrite Ht. simpl. unfold resolved, locked.
  fold key. destruct r as [id rev|e|msg]; simpl; [| |by destruct (Hr msg)];
    rewrite lookup_delete_eq; eexists; (split_and!; [done|simpl; by rewrite lookup_insert_eq|]);
    intros evs s'' t'' key' s3 Hrun Hk Hst;
    (assert (poisoned s'' = true) as Hq by (by eapply (Hpois evs); [|exact Hrun]));
    simpl in Hst; rewrite Hk in Hst; unfold resolve_slow, locked in Hst; rewrite Hq in Hst;
    injection Hst as <-; simpl; by rewrite lookup_insert_eq.
Qed.

(** ** Witnesses *)

Definition first_request : list Event := [EvCall 0 "app" "users"; EvSlow 0].

Definition first_state : Cached := default cached_new (run first_request cached_new).


Lemma one_request_per_collection_example :
  ∃ s, run lost_wakeup cached_new = Some s ∧ ∀ t key, tasks s !! t ≠ Some (TkDone key Panic).
Proof.
  destruct (run lost_wakeup cached_new) as [s|] eqn:Hrun; [|by vm_compute in Hrun].
  exists s. split; [done|]. refine (proj2 (one_request_per_collection _ _ _ Hrun)).
  repeat constructor.
Defined.

Lemma invalidate_while_resolving_poisons_example :
  ∃ s', run [EvInvalidate 9 "app" "users"; EvReply 0 (ReplyOk 8 3)] first_state = Some s'
    ∧ tasks s' !! 0%nat = Some (TkDone "app.users" Panic).
Proof.
  destruct (invalidate_while_resolving_poisons first_state 0 9 "app" "users" (ReplyOk 8 3))
    as (s' & Hr & Ht & _); [evaluate..|done|].
  exists s'. split; [exact Hr|exact Ht].
Defined.
