(* ===== verification/CrudOptions.v ===== *)
(** * Options and results of the key-value operations ([options/crud.rs],
    [results/kv.rs], [mutationtoken.rs])

    One record per options struct with its constructor and its setters.  The
    retry strategy is a trait object; its type is the parameter [T] of the
    options, which the setter [retry_strategy] changes. *)

From S2P Require Import Prelude Wire Requests CoreError Retry.

(** The lazily created default strategy. *)
Definition DEFAULT_RETRY_STRATEGY : FailFastRetryStrategy := FailFast.

(** ** Options ([options/crud.rs]) *)

Module GetOptions.
Section Fields.
Context {T : Type}.
Record GetOptions : Type := mk {
  key : list Z;
  scope_name : string;
  collection_name : string;
  retry_strategy : T;
}.
End Fields.
#[global] Arguments GetOptions : clear implicits.
End GetOptions.
Abbreviation GetOptions := GetOptions.GetOptions.

Definition get_options_new (key : list Z) (scope_name : string) (collection_name : string)
    : GetOptions FailFastRetryStrategy :=
  GetOptions.mk key scope_name collection_name DEFAULT_RETRY_STRATEGY.

Definition get_options_retry_strategy {T T' : Type} (retry_strategy : T') (self : GetOptions T)
    : GetOptions T' :=
  GetOptions.mk (GetOptions.key self) (GetOptions.scope_name self)
    (GetOptions.collection_name self) retry_strategy.

Module GetMetaOptions.
Section Fields.
Context {T : Type}.
Record GetMetaOptions : Type := mk {
  key : list Z;
  scope_name : string;
  collection_name : string;
  retry_strategy : T;
}.
End Fields.
#[global] Arguments GetMetaOptions : clear implicits.
End GetMetaOptions.
Abbreviation GetMetaOptions := GetMetaOptions.GetMetaOptions.

Definition get_meta_options_new (key : list Z) (scope_name : string) (collection_name : string)
    : GetMetaOptions FailFastRetryStrategy :=
  GetMetaOptions.mk key scope_name collection_name DEFAULT_RETRY_STRATEGY.

Definition get_meta_options_retry_strategy {T T' : Type} (retry_strategy : T')
    (self : GetMetaOptions T)
    : GetMetaOptions T' :=
  GetMetaOptions.mk (GetMetaOptions.key self) (GetMetaOptions.scope_name self)
    (GetMetaOptions.collection_name self) retry_strategy.

Module UpsertOptions.
Section Fields.
Context {T : Type}.
Record UpsertOptions : Type := mk {
  key : list Z;
  scope_name : string;
  collection_name : string;
  value : list Z;
  flags : Z;
  datatype : DataTypeFlag;
  expiry : option Z;
  preserve_expiry : option bool;
  cas : option Z;
  durability_level : option DurabilityLevel;
  retry_strategy : T;
}.
End Fields.
#[global] Arguments UpsertOptions : clear implicits.
End UpsertOptions.
Abbreviation UpsertOptions := UpsertOptions.UpsertOptions.

Definition upsert_options_new (key : list Z) (scope_name : string) (collection_name : string)
    (value : list Z)
    : UpsertOptions FailFastRetryStrategy :=
  UpsertOptions.mk key scope_name collection_name value 0 DataTypeFlag.None_ None None None None
    DEFAULT_RETRY_STRATEGY.

Definition upsert_options_flags {T : Type} (flags : Z) (self : UpsertOptions T) : UpsertOptions T :=
  UpsertOptions.mk (UpsertOptions.key self) (UpsertOptions.scope_name self)
    (UpsertOptions.collection_name self) (UpsertOptions.value self) flags
    (UpsertOptions.datatype self) (UpsertOptions.expiry self) (UpsertOptions.preserve_expiry self)
    (UpsertOptions.cas self) (UpsertOptions.durability_level self)
    (UpsertOptions.retry_strategy self).

Definition upsert_options_datatype {T : Type} (datatype : DataTypeFlag)
    (self : UpsertOptions T) : UpsertOptions T :=
  UpsertOptions.mk (UpsertOptions.key self) (UpsertOptions.scope_name self)
    (UpsertOptions.collection_name self) (UpsertOptions.value self)
    (UpsertOptions.flags self) datatype (UpsertOptions.expiry self)
    (UpsertOptions.preserve_expiry self) (UpsertOptions.cas self)
    (UpsertOptions.durability_level self) (UpsertOptions.retry_strategy self).

Definition upsert_options_expiry {T : Type} (expiry : option Z)
    (self : UpsertOptions T) : UpsertOptions T :=
  UpsertOptions.mk (UpsertOptions.key self) (UpsertOptions.scope_name self)
    (UpsertOptions.collection_name self) (UpsertOptions.value self) (UpsertOptions.flags self)
    (UpsertOptions.datatype self) expiry (UpsertOptions.preserve_expiry self)
    (UpsertOptions.cas self) (UpsertOptions.durability_level self)
    (UpsertOptions.retry_strategy self).

Definition upsert_options_preserve_expiry {T : Type} (preserve_expiry : option bool)
    (self : UpsertOptions T) : UpsertOptions T :=
  UpsertOptions.mk (UpsertOptions.key self) (UpsertOptions.scope_name self)
    (UpsertOptions.collection_name self) (UpsertOptions.value self) (UpsertOptions.flags self)
    (UpsertOptions.datatype self) (UpsertOptions.expiry self) preserve_expiry
    (UpsertOptions.cas self) (UpsertOptions.durability_level self)
    (UpsertOptions.retry_strategy self).

Definition upsert_options_cas {T : Type} (cas : option Z)
    (self : UpsertOptions T) : UpsertOptions T :=
  UpsertOptions.mk (UpsertOptions.key self) (UpsertOptions.scope_name self)
    (UpsertOptions.collection_name self) (UpsertOptions.value self) (UpsertOptions.flags self)
    (UpsertOptions.datatype self) (UpsertOptions.expiry self)
    (UpsertOptions.preserve_expiry self) cas (UpsertOptions.durability_level self)
    (UpsertOptions.retry_strategy self).

Definition upsert_options_durability_level {T : Type} (durability_level : option DurabilityLevel)
    (self : UpsertOptions T) : UpsertOptions T :=
  UpsertOptions.mk (UpsertOptions.key self) (UpsertOptions.scope_name self)
    (UpsertOptions.collection_name self) (UpsertOptions.value self) (UpsertOptions.flags self)
    (UpsertOptions.datatype self) (UpsertOptions.expiry self) (UpsertOptions.preserve_expiry self)
    (UpsertOptions.cas self) durability_level (UpsertOptions.retry_strategy self).

Definition upsert_options_retry_strategy {T T' : Type} (retry_strategy : T')
    (self : UpsertOptions T)
    : UpsertOptions T' :=
  UpsertOptions.mk (UpsertOptions.key self) (UpsertOptions.scope_name self)
    (UpsertOptions.collection_name self) (UpsertOptions.value self) (UpsertOptions.flags self)
    (UpsertOptions.datatype self) (UpsertOptions.expiry self) (UpsertOptions.preserve_expiry self)
    (UpsertOptions.cas self) (UpsertOptions.durability_level self) retry_strategy.

Module DeleteOptions.
Section Fields.
Context {T : Type}.
Record DeleteOptions : Type := mk {
  key : list Z;
  scope_name : string;
  collection_name : string;
  cas : option Z;
  durability_level : option DurabilityLevel;
  retry_strategy : T;
}.
End Fields.
#[global] Arguments DeleteOptions : clear implicits.
End DeleteOptions.
Abbreviation DeleteOptions := DeleteOptions.DeleteOptions.

Definition delete_options_new (key : list Z) (scope_name : string) (collection_name : string)
    : DeleteOptions FailFastRetryStrategy :=
  DeleteOptions.mk key scope_name collection_name None None DEFAULT_RETRY_STRATEGY.

Definition delete_options_cas {T : Type} (cas : option Z)
    (self : DeleteOptions T) : DeleteOptions T :=
  DeleteOptions.mk (DeleteOptions.key self) (DeleteOptions.scope_name self)
    (DeleteOptions.collection_name self) cas (DeleteOptions.durability_level self)
    (DeleteOptions.retry_strategy self).

Definition delete_options_durability_level {T : Type} (durability_level : option DurabilityLevel)
    (self : DeleteOptions T) : DeleteOptions T :=
  DeleteOptions.mk (DeleteOptions.key self) (DeleteOptions.scope_name self)
    (DeleteOptions.collection_name self) (DeleteOptions.cas self) durability_level
    (DeleteOptions.retry_strategy self).

Definition delete_options_retry_strategy {T T' : Type} (retry_strategy : T')
    (self : DeleteOptions T)
    : DeleteOptions T' :=
  DeleteOptions.mk (DeleteOptions.key self) (DeleteOptions.scope_name self)
    (DeleteOptions.collection_name self) (DeleteOptions.cas self)
    (DeleteOptions.durability_level self) retry_strategy.

Module GetAndLockOptions.
Section Fields.
Context {T : Type}.
Record GetAndLockOptions : Type := mk {
  key : list Z;
  scope_name : string;
  collection_name : string;
  lock_time : Z;
  collection_id : option Z;
  retry_strategy : T;
}.
End Fields.
#[global] Arguments GetAndLockOptions : clear implicits.
End GetAndLockOptions.
Abbreviation GetAndLockOptions := GetAndLockOptions.GetAndLockOptions.

Definition get_and_lock_options_new (key : list Z) (scope_name : string)
    (collection_name : string) (lock_time : Z)
    : GetAndLockOptions FailFastRetryStrategy :=
  GetAndLockOptions.mk key scope_name collection_name lock_time None DEFAULT_RETRY_STRATEGY.

Definition get_and_lock_options_collection_id {T : Type} (collection_id : option Z)
    (self : GetAndLockOptions T) : GetAndLockOptions T :=
  GetAndLockOptions.mk (GetAndLockOptions.key self) (GetAndLockOptions.scope_name self)
    (GetAndLockOptions.collection_name self) (GetAndLockOptions.lock_time self) collection_id
    (GetAndLockOptions.retry_strategy self).

Definition get_and_lock_options_retry_strategy {T T' : Type} (retry_strategy : T')
    (self : GetAndLockOptions T)
    : GetAndLockOptions T' :=
  GetAndLockOptions.mk (GetAndLockOptions.key self) (GetAndLockOptions.scope_name self)
    (GetAndLockOptions.collection_name self) (GetAndLockOptions.lock_time self)
    (GetAndLockOptions.collection_id self) retry_strategy.

Module GetAndTouchOptions.
Section Fields.
Context {T : Type}.
Record GetAndTouchOptions : Type := mk {
  key : list Z;
  scope_name : string;
  collection_name : string;
  expiry : Z;
  retry_strategy : T;
}.
End Fields.
#[global] Arguments GetAndTouchOptions : clear implicits.
End GetAndTouchOptions.
Abbreviation GetAndTouchOptions := GetAndTouchOptions.GetAndTouchOptions.

Definition get_and_touch_options_new (key : list Z) (scope_name : string)
    (collection_name : string) (expiry : Z)
    : GetAndTouchOptions FailFastRetryStrategy :=
  GetAndTouchOptions.mk key scope_name collection_name expiry DEFAULT_RETRY_STRATEGY.

Definition get_and_touch_options_retry_strategy {T T' : Type} (retry_strategy : T')
    (self : GetAndTouchOptions T)
    : GetAndTouchOptions T' :=
  GetAndTouchOptions.mk (GetAndTouchOptions.key self) (GetAndTouchOptions.scope_name self)
    (GetAndTouchOptions.collection_name self) (GetAndTouchOptions.expiry self) retry_strategy.

Module UnlockOptions.
Section Fields.
Context {T : Type}.
Record UnlockOptions : Type := mk {
  key : list Z;
  scope_name : string;
  collection_name : string;
  cas : Z;
  retry_strategy : T;
}.
End Fields.
#[global] Arguments UnlockOptions : clear implicits.
End UnlockOptions.
Abbreviation UnlockOptions := UnlockOptions.UnlockOptions.

Definition unlock_options_new (key : list Z) (scope_name : string) (collection_name : string)
    (cas : Z)
    : UnlockOptions FailFastRetryStrategy :=
  UnlockOptions.mk key scope_name collection_name cas DEFAULT_RETRY_STRATEGY.

Definition unlock_options_retry_strategy {T T' : Type} (retry_strategy : T')
    (self : UnlockOptions T)
    : UnlockOptions T' :=
  UnlockOptions.mk (UnlockOptions.key self) (UnlockOptions.scope_name self)
    (UnlockOptions.collection_name self) (UnlockOptions.cas self) retry_strategy.

Module TouchOptions.
Section Fields.
Context {T : Type}.
Record TouchOptions : Type := mk {
  key : list Z;
  scope_name : string;
  collection_name : string;
  expiry : Z;
  retry_strategy : T;
}.
End Fields.
#[global] Arguments TouchOptions : clear implicits.
End TouchOptions.
Abbreviation TouchOptions := TouchOptions.TouchOptions.

Definition touch_options_new (key : list Z) (scope_name : string) (collection_name : string)
    (expiry : Z)
    : TouchOptions FailFastRetryStrategy :=
  TouchOptions.mk key scope_name collection_name expiry DEFAULT_RETRY_STRATEGY.

Definition touch_options_retry_strategy {T T' : Type} (retry_strategy : T') (self : TouchOptions T)
    : TouchOptions T' :=
  TouchOptions.mk (TouchOptions.key self) (TouchOptions.scope_name self)
    (TouchOptions.collection_name self) (TouchOptions.expiry self) retry_strategy.

Module AddOptions.
Section Fields.
Context {T : Type}.
Record AddOptions : Type := mk {
  key : list Z;
  scope_name : string;
  collection_name : string;
  value : list Z;
  flags : Z;
  datatype : DataTypeFlag;
  expiry : option Z;
  durability_level : option DurabilityLevel;
  retry_strategy : T;
}.
End Fields.
#[global] Arguments AddOptions : clear implicits.
End AddOptions.
Abbreviation AddOptions := AddOptions.AddOptions.

Definition add_options_new (key : list Z) (scope_name : string) (collection_name : string)
    (value : list Z)
    : AddOptions FailFastRetryStrategy :=
  AddOptions.mk key scope_name collection_name value 0 DataTypeFlag.None_ None None
    DEFAULT_RETRY_STRATEGY.

Definition add_options_flags {T : Type} (flags : Z) (self : AddOptions T) : AddOptions T :=
  AddOptions.mk (AddOptions.key self) (AddOptions.scope_name self)
    (AddOptions.collection_name self) (AddOptions.value self) flags (AddOptions.datatype self)
    (AddOptions.expiry self) (AddOptions.durability_level self) (AddOptions.retry_strategy self).

Definition add_options_datatype {T : Type} (datatype : DataTypeFlag)
    (self : AddOptions T) : AddOptions T :=
  AddOptions.mk (AddOptions.key self) (AddOptions.scope_name self)
    (AddOptions.collection_name self) (AddOptions.value self) (AddOptions.flags self) datatype
    (AddOptions.expiry self) (AddOptions.durability_level self) (AddOptions.retry_strategy self).

Definition add_options_expiry {T : Type} (expiry : option Z) (self : AddOptions T) : AddOptions T :=
  AddOptions.mk (AddOptions.key self) (AddOptions.scope_name self)
    (AddOptions.collection_name self) (AddOptions.value self) (AddOptions.flags self)
    (AddOptions.datatype self) expiry (AddOptions.durability_level self)
    (AddOptions.retry_strategy self).

Definition add_options_durability_level {T : Type} (durability_level : option DurabilityLevel)
    (self : AddOptions T) : AddOptions T :=
  AddOptions.mk (AddOptions.key self) (AddOptions.scope_name self)
    (AddOptions.collection_name self) (AddOptions.value self) (AddOptions.flags self)
    (AddOptions.datatype self) (AddOptions.expiry self) durability_level
    (AddOptions.retry_strategy self).

Definition add_options_retry_strategy {T T' : Type} (retry_strategy : T') (self : AddOptions T)
    : AddOptions T' :=
  AddOptions.mk (AddOptions.key self) (AddOptions.scope_name self)
    (AddOptions.collection_name self) (AddOptions.value self) (AddOptions.flags self)
    (AddOptions.datatype self) (AddOptions.expiry self)
    (AddOptions.durability_level self) retry_strategy.

Module ReplaceOptions.
Section Fields.
Context {T : Type}.
Record ReplaceOptions : Type := mk {
  key : list Z;
  scope_name : string;
  collection_name : string;
  value : list Z;
  flags : Z;
  datatype : DataTypeFlag;
  expiry : option Z;
  preserve_expiry : option bool;
  cas : option Z;
  durability_level : option DurabilityLevel;
  retry_strategy : T;
}.
End Fields.
#[global] Arguments ReplaceOptions : clear implicits.
End ReplaceOptions.
Abbreviation ReplaceOptions := ReplaceOptions.ReplaceOptions.

Definition replace_options_new (key : list Z) (scope_name : string) (collection_name : string)
    (value : list Z)
    : ReplaceOptions FailFastRetryStrategy :=
  ReplaceOptions.mk key scope_name collection_name value 0 DataTypeFlag.None_ None None None None
    DEFAULT_RETRY_STRATEGY.

Definition replace_options_flags {T : Type} (flags : Z)
    (self : ReplaceOptions T) : ReplaceOptions T :=
  ReplaceOptions.mk (ReplaceOptions.key self) (ReplaceOptions.scope_name self)
    (ReplaceOptions.collection_name self) (ReplaceOptions.value self) flags
    (ReplaceOptions.datatype self) (ReplaceOptions.expiry self)
    (ReplaceOptions.preserve_expiry self) (ReplaceOptions.cas self)
    (ReplaceOptions.durability_level self) (ReplaceOptions.retry_strategy self).

Definition replace_options_datatype {T : Type} (datatype : DataTypeFlag)
    (self : ReplaceOptions T) : ReplaceOptions T :=
  ReplaceOptions.mk (ReplaceOptions.key self) (ReplaceOptions.scope_name self)
    (ReplaceOptions.collection_name self) (ReplaceOptions.value self)
    (ReplaceOptions.flags self) datatype (ReplaceOptions.expiry self)
    (ReplaceOptions.preserve_expiry self) (ReplaceOptions.cas self)
    (ReplaceOptions.durability_level self) (ReplaceOptions.retry_strategy self).

Definition replace_options_expiry {T : Type} (expiry : option Z)
    (self : ReplaceOptions T) : ReplaceOptions T :=
  ReplaceOptions.mk (ReplaceOptions.key self) (ReplaceOptions.scope_name self)
    (ReplaceOptions.collection_name self) (ReplaceOptions.value self) (ReplaceOptions.flags self)
    (ReplaceOptions.datatype self) expiry (ReplaceOptions.preserve_expiry self)
    (ReplaceOptions.cas self) (ReplaceOptions.durability_level self)
    (ReplaceOptions.retry_strategy self).

Definition replace_options_preserve_expiry {T : Type} (preserve_expiry : option bool)
    (self : ReplaceOptions T) : ReplaceOptions T :=
  ReplaceOptions.mk (ReplaceOptions.key self) (ReplaceOptions.scope_name self)
    (ReplaceOptions.collection_name self) (ReplaceOptions.value self) (ReplaceOptions.flags self)
    (ReplaceOptions.datatype self) (ReplaceOptions.expiry self) preserve_expiry
    (ReplaceOptions.cas self) (ReplaceOptions.durability_level self)
    (ReplaceOptions.retry_strategy self).

Definition replace_options_cas {T : Type} (cas : option Z)
    (self : ReplaceOptions T) : ReplaceOptions T :=
  ReplaceOptions.mk (ReplaceOptions.key self) (ReplaceOptions.scope_name self)
    (ReplaceOptions.collection_name self) (ReplaceOptions.value self) (ReplaceOptions.flags self)
    (ReplaceOptions.datatype self) (ReplaceOptions.expiry self)
    (ReplaceOptions.preserve_expiry self) cas (ReplaceOptions.durability_level self)
    (ReplaceOptions.retry_strategy self).

Definition replace_options_durability_level {T : Type} (durability_level : option DurabilityLevel)
    (self : ReplaceOptions T) : ReplaceOptions T :=
  ReplaceOptions.mk (ReplaceOptions.key self) (ReplaceOptions.scope_name self)
    (ReplaceOptions.collection_name self) (ReplaceOptions.value self) (ReplaceOptions.flags self)
    (ReplaceOptions.datatype self) (ReplaceOptions.expiry self)
    (ReplaceOptions.preserve_expiry self) (ReplaceOptions.cas self) durability_level
    (ReplaceOptions.retry_strategy self).

Definition replace_options_retry_strategy {T T' : Type} (retry_strategy : T')
    (self : ReplaceOptions T)
    : ReplaceOptions T' :=
  ReplaceOptions.mk (ReplaceOptions.key self) (ReplaceOptions.scope_name self)
    (ReplaceOptions.collection_name self) (ReplaceOptions.value self) (ReplaceOptions.flags self)
    (ReplaceOptions.datatype self) (ReplaceOptions.expiry self)
    (ReplaceOptions.preserve_expiry self) (ReplaceOptions.cas self)
    (ReplaceOptions.durability_level self) retry_strategy.

Module AppendOptions.
Section Fields.
Context {T : Type}.
Record AppendOptions : Type := mk {
  key : list Z;
  scope_name : string;
  collection_name : string;
  value : list Z;
  cas : option Z;
  durability_level : option DurabilityLevel;
  retry_strategy : T;
}.
End Fields.
#[global] Arguments AppendOptions : clear implicits.
End AppendOptions.
Abbreviation AppendOptions := AppendOptions.AppendOptions.

Definition append_options_new (key : list Z) (scope_name : string) (collection_name : string)
    (value : list Z)
    : AppendOptions FailFastRetryStrategy :=
  AppendOptions.mk key scope_name collection_name value None None DEFAULT_RETRY_STRATEGY.

Definition append_options_cas {T : Type} (cas : option Z)
    (self : AppendOptions T) : AppendOptions T :=
  AppendOptions.mk (AppendOptions.key self) (AppendOptions.scope_name self)
    (AppendOptions.collection_name self) (AppendOptions.value self) cas
    (AppendOptions.durability_level self) (AppendOptions.retry_strategy self).

Definition append_options_durability_level {T : Type} (durability_level : option DurabilityLevel)
    (self : AppendOptions T) : AppendOptions T :=
  AppendOptions.mk (AppendOptions.key self) (AppendOptions.scope_name self)
    (AppendOptions.collection_name self) (AppendOptions.value self)
    (AppendOptions.cas self) durability_level (AppendOptions.retry_strategy self).

Definition append_options_retry_strategy {T T' : Type} (retry_strategy : T')
    (self : AppendOptions T)
    : AppendOptions T' :=
  AppendOptions.mk (AppendOptions.key self) (AppendOptions.scope_name self)
    (AppendOptions.collection_name self) (AppendOptions.value self) (AppendOptions.cas self)
    (AppendOptions.durability_level self) retry_strategy.

Module PrependOptions.
Section Fields.
Context {T : Type}.
Record PrependOptions : Type := mk {
  key : list Z;
  scope_name : string;
  collection_name : string;
  value : list Z;
  cas : option Z;
  durability_level : option DurabilityLevel;
  retry_strategy : T;
}.
End Fields.
#[global] Arguments PrependOptions : clear implicits.
End PrependOptions.
Abbreviation PrependOptions := PrependOptions.PrependOptions.

Definition prepend_options_new (key : list Z) (scope_name : string) (collection_name : string)
    (value : list Z)
    : PrependOptions FailFastRetryStrategy :=
  PrependOptions.mk key scope_name collection_name value None None DEFAULT_RETRY_STRATEGY.

Definition prepend_options_cas {T : Type} (cas : option Z)
    (self : PrependOptions T) : PrependOptions T :=
  PrependOptions.mk (PrependOptions.key self) (PrependOptions.scope_name self)
    (PrependOptions.collection_name self) (PrependOptions.value self) cas
    (PrependOptions.durability_level self) (PrependOptions.retry_strategy self).

Definition prepend_options_durability_level {T : Type} (durability_level : option DurabilityLevel)
    (self : PrependOptions T) : PrependOptions T :=
  PrependOptions.mk (PrependOptions.key self) (PrependOptions.scope_name self)
    (PrependOptions.collection_name self) (PrependOptions.value self)
    (PrependOptions.cas self) durability_level (PrependOptions.retry_strategy self).

Definition prepend_options_retry_strategy {T T' : Type} (retry_strategy : T')
    (self : PrependOptions T)
    : PrependOptions T' :=
  PrependOptions.mk (PrependOptions.key self) (PrependOptions.scope_name self)
    (PrependOptions.collection_name self) (PrependOptions.value self) (PrependOptions.cas self)
    (PrependOptions.durability_level self) retry_strategy.

Module IncrementOptions.
Section Fields.
Context {T : Type}.
Record IncrementOptions : Type := mk {
  key : list Z;
  scope_name : string;
  collection_name : string;
  initial : option Z;
  delta : Z;
  expiry : option Z;
  durability_level : option DurabilityLevel;
  retry_strategy : T;
}.
End Fields.
#[global] Arguments IncrementOptions : clear implicits.
End IncrementOptions.
Abbreviation IncrementOptions := IncrementOptions.IncrementOptions.

Definition increment_options_new (key : list Z) (delta : Z) (scope_name : string)
    (collection_name : string)
    : IncrementOptions FailFastRetryStrategy :=
  IncrementOptions.mk key scope_name collection_name None delta None None DEFAULT_RETRY_STRATEGY.

Definition increment_options_initial {T : Type} (initial : option Z)
    (self : IncrementOptions T) : IncrementOptions T :=
  IncrementOptions.mk (IncrementOptions.key self) (IncrementOptions.scope_name self)
    (IncrementOptions.collection_name self) initial (IncrementOptions.delta self)
    (IncrementOptions.expiry self) (IncrementOptions.durability_level self)
    (IncrementOptions.retry_strategy self).

Definition increment_options_expiry {T : Type} (expiry : option Z)
    (self : IncrementOptions T) : IncrementOptions T :=
  IncrementOptions.mk (IncrementOptions.key self) (IncrementOptions.scope_name self)
    (IncrementOptions.collection_name self) (IncrementOptions.initial self)
    (IncrementOptions.delta self) expiry (IncrementOptions.durability_level self)
    (IncrementOptions.retry_strategy self).

Definition increment_options_durability_level {T : Type}
    (durability_level : option DurabilityLevel) (self : IncrementOptions T) : IncrementOptions T :=
  IncrementOptions.mk (IncrementOptions.key self) (IncrementOptions.scope_name self)
    (IncrementOptions.collection_name self) (IncrementOptions.initial self)
    (IncrementOptions.delta self) (IncrementOptions.expiry self) durability_level
    (IncrementOptions.retry_strategy self).

Definition increment_options_retry_strategy {T T' : Type} (retry_strategy : T')
    (self : IncrementOptions T)
    : IncrementOptions T' :=
  IncrementOptions.mk (IncrementOptions.key self) (IncrementOptions.scope_name self)
    (IncrementOptions.collection_name self) (IncrementOptions.initial self)
    (IncrementOptions.delta self) (IncrementOptions.expiry self)
    (IncrementOptions.durability_level self) retry_strategy.

Module DecrementOptions.
Section Fields.
Context {T : Type}.
Record DecrementOptions : Type := mk {
  key : list Z;
  scope_name : string;
  collection_name : string;
  initial : option Z;
  delta : Z;
  expiry : option Z;
  durability_level : option DurabilityLevel;
  retry_strategy : T;
}.
End Fields.
#[global] Arguments DecrementOptions : clear implicits.
End DecrementOptions.
Abbreviation DecrementOptions := DecrementOptions.DecrementOptions.

Definition decrement_options_new (key : list Z) (delta : Z) (scope_name : string)
    (collection_name : string)
    : DecrementOptions FailFastRetryStrategy :=
  DecrementOptions.mk key scope_name collection_name None delta None None DEFAULT_RETRY_STRATEGY.

Definition decrement_options_initial {T : Type} (initial : option Z)
    (self : DecrementOptions T) : DecrementOptions T :=
  DecrementOptions.mk (DecrementOptions.key self) (DecrementOptions.scope_name self)
    (DecrementOptions.collection_name self) initial (DecrementOptions.delta self)
    (DecrementOptions.expiry self) (DecrementOptions.durability_level self)
    (DecrementOptions.retry_strategy self).

Definition decrement_options_expiry {T : Type} (expiry : option Z)
    (self : DecrementOptions T) : DecrementOptions T :=
  DecrementOptions.mk (DecrementOptions.key self) (DecrementOptions.scope_name self)
    (DecrementOptions.collection_name self) (DecrementOptions.initial self)
    (DecrementOptions.delta self) expiry (DecrementOptions.durability_level self)
    (DecrementOptions.retry_strategy self).

Definition decrement_options_durability_level {T : Type}
    (durability_level : option DurabilityLevel) (self : DecrementOptions T) : DecrementOptions T :=
  DecrementOptions.mk (DecrementOptions.key self) (DecrementOptions.scope_name self)
    (DecrementOptions.collection_name self) (DecrementOptions.initial self)
    (DecrementOptions.delta self) (DecrementOptions.expiry self) durability_level
    (DecrementOptions.retry_strategy self).

Definition decrement_options_retry_strategy {T T' : Type} (retry_strategy : T')
    (self : DecrementOptions T)
    : DecrementOptions T' :=
  DecrementOptions.mk (DecrementOptions.key self) (DecrementOptions.scope_name self)
    (DecrementOptions.collection_name self) (DecrementOptions.initial self)
    (DecrementOptions.delta self) (DecrementOptions.expiry self)
    (DecrementOptions.durability_level self) retry_strategy.

Module LookupInOptions.
Section Fields.
Context {T : Type}.
Record LookupInOptions : Type := mk {
  key : list Z;
  scope_name : string;
  collection_name : string;
  ops : list LookupInOp;
  flags : SubdocDocFlag;
  retry_strategy : T;
}.
End Fields.
#[global] Arguments LookupInOptions : clear implicits.
End LookupInOptions.
Abbreviation LookupInOptions := LookupInOptions.LookupInOptions.

Definition lookup_in_options_new (key : list Z) (scope_name : string) (collection_name : string)
    (ops : list LookupInOp)
    : LookupInOptions FailFastRetryStrategy :=
  LookupInOptions.mk key scope_name collection_name ops 0 DEFAULT_RETRY_STRATEGY.

Definition lookup_in_options_flags {T : Type} (flags : SubdocDocFlag)
    (self : LookupInOptions T) : LookupInOptions T :=
  LookupInOptions.mk (LookupInOptions.key self) (LookupInOptions.scope_name self)
    (LookupInOptions.collection_name self) (LookupInOptions.ops self) flags
    (LookupInOptions.retry_strategy self).

Definition lookup_in_options_retry_strategy {T T' : Type} (retry_strategy : T')
    (self : LookupInOptions T)
    : LookupInOptions T' :=
  LookupInOptions.mk (LookupInOptions.key self) (LookupInOptions.scope_name self)
    (LookupInOptions.collection_name self) (LookupInOptions.ops self)
    (LookupInOptions.flags self) retry_strategy.

Module MutateInOptions.
Section Fields.
Context {T : Type}.
Record MutateInOptions : Type := mk {
  key : list Z;
  scope_name : string;
  collection_name : string;
  ops : list MutateInOp;
  flags : SubdocDocFlag;
  expiry : option Z;
  preserve_expiry : option bool;
  cas : option Z;
  durability_level : option DurabilityLevel;
  retry_strategy : T;
}.
End Fields.
#[global] Arguments MutateInOptions : clear implicits.
End MutateInOptions.
Abbreviation MutateInOptions := MutateInOptions.MutateInOptions.

Definition mutate_in_options_new (key : list Z) (scope_name : string) (collection_name : string)
    (ops : list MutateInOp)
    : MutateInOptions FailFastRetryStrategy :=
  MutateInOptions.mk key scope_name collection_name ops 0 None None None None
    DEFAULT_RETRY_STRATEGY.

Definition mutate_in_options_flags {T : Type} (flags : SubdocDocFlag)
    (self : MutateInOptions T) : MutateInOptions T :=
  MutateInOptions.mk (MutateInOptions.key self) (MutateInOptions.scope_name self)
    (MutateInOptions.collection_name self) (MutateInOptions.ops self) flags
    (MutateInOptions.expiry self) (MutateInOptions.preserve_expiry self)
    (MutateInOptions.cas self) (MutateInOptions.durability_level self)
    (MutateInOptions.retry_strategy self).

Definition mutate_in_options_expiry {T : Type} (expiry : option Z)
    (self : MutateInOptions T) : MutateInOptions T :=
  MutateInOptions.mk (MutateInOptions.key self) (MutateInOptions.scope_name self)
    (MutateInOptions.collection_name self) (MutateInOptions.ops self)
    (MutateInOptions.flags self) expiry (MutateInOptions.preserve_expiry self)
    (MutateInOptions.cas self) (MutateInOptions.durability_level self)
    (MutateInOptions.retry_strategy self).

Definition mutate_in_options_preserve_expiry {T : Type} (preserve_expiry : option bool)
    (self : MutateInOptions T) : MutateInOptions T :=
  MutateInOptions.mk (MutateInOptions.key self) (MutateInOptions.scope_name self)
    (MutateInOptions.collection_name self) (MutateInOptions.ops self) (MutateInOptions.flags self)
    (MutateInOptions.expiry self) preserve_expiry (MutateInOptions.cas self)
    (MutateInOptions.durability_level self) (MutateInOptions.retry_strategy self).

Definition mutate_in_options_cas {T : Type} (cas : option Z)
    (self : MutateInOptions T) : MutateInOptions T :=
  MutateInOptions.mk (MutateInOptions.key self) (MutateInOptions.scope_name self)
    (MutateInOptions.collection_name self) (MutateInOptions.ops self) (MutateInOptions.flags self)
    (MutateInOptions.expiry self) (MutateInOptions.preserve_expiry self) cas
    (MutateInOptions.durability_level self) (MutateInOptions.retry_strategy self).

Definition mutate_in_options_durability_level {T : Type}
    (durability_level : option DurabilityLevel) (self : MutateInOptions T) : MutateInOptions T :=
  MutateInOptions.mk (MutateInOptions.key self) (MutateInOptions.scope_name self)
    (MutateInOptions.collection_name self) (MutateInOptions.ops self) (MutateInOptions.flags self)
    (MutateInOptions.expiry self) (MutateInOptions.preserve_expiry self)
    (MutateInOptions.cas self) durability_level (MutateInOptions.retry_strategy self).

Definition mutate_in_options_retry_strategy {T T' : Type} (retry_strategy : T')
    (self : MutateInOptions T)
    : MutateInOptions T' :=
  MutateInOptions.mk (MutateInOptions.key self) (MutateInOptions.scope_name self)
    (MutateInOptions.collection_name self) (MutateInOptions.ops self) (MutateInOptions.flags self)
    (MutateInOptions.expiry self) (MutateInOptions.preserve_expiry self)
    (MutateInOptions.cas self) (MutateInOptions.durability_level self) retry_strategy.

Module GetCollectionIdOptions.
Section Fields.
Context {T : Type}.
Record GetCollectionIdOptions : Type := mk {
  scope_name : string;
  collection_name : string;
  retry_strategy : T;
}.
End Fields.
#[global] Arguments GetCollectionIdOptions : clear implicits.
End GetCollectionIdOptions.
Abbreviation GetCollectionIdOptions := GetCollectionIdOptions.GetCollectionIdOptions.

Definition get_collection_id_options_new (scope_name : string) (collection_name : string)
    : GetCollectionIdOptions FailFastRetryStrategy :=
  GetCollectionIdOptions.mk scope_name collection_name DEFAULT_RETRY_STRATEGY.

Definition get_collection_id_options_retry_strategy {T T' : Type} (retry_strategy : T')
    (self : GetCollectionIdOptions T)
    : GetCollectionIdOptions T' :=
  GetCollectionIdOptions.mk (GetCollectionIdOptions.scope_name self)
    (GetCollectionIdOptions.collection_name self) retry_strategy.

(** ** Results ([results/kv.rs], [mutationtoken.rs]) *)

(** [mutationtoken::MutationToken]: the token of a response with the vbucket the
    request was sent to. *)
Module KvMutationToken.
Record KvMutationToken : Type := mk {
  vbid : Z;
  vbuuid : Z;
  seqno : Z;
}.
End KvMutationToken.
Abbreviation KvMutationToken := KvMutationToken.KvMutationToken.

Module GetResult.
Record GetResult : Type := mk {
  value : list Z;
  flags : Z;
  datatype : Z;
  cas : Z;
}.
End GetResult.
Abbreviation GetResult := GetResult.GetResult.

Module GetMetaResult.
Record GetMetaResult : Type := mk {
  cas : Z;
  flags : Z;
  value : list Z;
  datatype : Z;
  server_duration : option Duration;
  expiry : Z;
  seq_no : Z;
  deleted : bool;
}.
End GetMetaResult.
Abbreviation GetMetaResult := GetMetaResult.GetMetaResult.

Module UpsertResult.
Record UpsertResult : Type := mk {
  cas : Z;
  mutation_token : option KvMutationToken;
}.
End UpsertResult.
Abbreviation UpsertResult := UpsertResult.UpsertResult.

Module DeleteResult.
Record DeleteResult : Type := mk {
  cas : Z;
  mutation_token : option KvMutationToken;
}.
End DeleteResult.
Abbreviation DeleteResult := DeleteResult.DeleteResult.

Module GetAndLockResult.
Record GetAndLockResult : Type := mk {
  value : list Z;
  flags : Z;
  datatype : Z;
  cas : Z;
}.
End GetAndLockResult.
Abbreviation GetAndLockResult := GetAndLockResult.GetAndLockResult.

Module GetAndTouchResult.
Record GetAndTouchResult : Type := mk {
  value : list Z;
  flags : Z;
  datatype : Z;
  cas : Z;
}.
End GetAndTouchResult.
Abbreviation GetAndTouchResult := GetAndTouchResult.GetAndTouchResult.

Module UnlockResult.
Record UnlockResult : Type := mk { }.
End UnlockResult.
Abbreviation UnlockResult := UnlockResult.UnlockResult.

Module TouchResult.
Record TouchResult : Type := mk {
  cas : Z;
}.
End TouchResult.
Abbreviation TouchResult := TouchResult.TouchResult.

Module AddResult.
Record AddResult : Type := mk {
  cas : Z;
  mutation_token : option KvMutationToken;
}.
End AddResult.
Abbreviation AddResult := AddResult.AddResult.

Module ReplaceResult.
Record ReplaceResult : Type := mk {
  cas : Z;
  mutation_token : option KvMutationToken;
}.
End ReplaceResult.
Abbreviation ReplaceResult := ReplaceResult.ReplaceResult.

Module AppendResult.
Record AppendResult : Type := mk {
  cas : Z;
  mutation_token : option KvMutationToken;
}.
End AppendResult.
Abbreviation AppendResult := AppendResult.AppendResult.

Module PrependResult.
Record PrependResult : Type := mk {
  cas : Z;
  mutation_token : option KvMutationToken;
}.
End PrependResult.
Abbreviation PrependResult := PrependResult.PrependResult.

Module IncrementResult.
Record IncrementResult : Type := mk {
  cas : Z;
  value : Z;
  mutation_token : option KvMutationToken;
}.
End IncrementResult.
Abbreviation IncrementResult := IncrementResult.IncrementResult.

Module DecrementResult.
Record DecrementResult : Type := mk {
  cas : Z;
  value : Z;
  mutation_token : option KvMutationToken;
}.
End DecrementResult.
Abbreviation DecrementResult := DecrementResult.DecrementResult.

Module KvSubDocResult.
Record KvSubDocResult : Type := mk {
  err : option Core.MemdxError;
  value : option (list Z);
}.
End KvSubDocResult.
Abbreviation KvSubDocResult := KvSubDocResult.KvSubDocResult.

Module LookupInResult.
Record LookupInResult : Type := mk {
  value : list KvSubDocResult;
  cas : Z;
  doc_is_deleted : bool;
}.
End LookupInResult.
Abbreviation LookupInResult := LookupInResult.LookupInResult.

Module MutateInResult.
Record MutateInResult : Type := mk {
  value : list KvSubDocResult;
  cas : Z;
  mutation_token : option KvMutationToken;
}.
End MutateInResult.
Abbreviation MutateInResult := MutateInResult.MutateInResult.

Module GetCollectionIdResult.
Record GetCollectionIdResult : Type := mk {
  manifest_rev : Z;
  collection_id : Z;
}.
End GetCollectionIdResult.
Abbreviation GetCollectionIdResult := GetCollectionIdResult.GetCollectionIdResult.
