(* ===== verification/Crud.v ===== *)
(** * One key-value operation through all layers ([crudcomponent.rs],
    [kv_orchestration.rs], [compressionmanager.rs])

    [orchestrate_simple_crud] nests the layers of an operation: retries around
    collection resolution around routing around the choice of a connection.  The
    layers are used through their interfaces ([RetryStrategy],
    [CollectionResolver], [VbucketRouter], [KvEndpointClientManager]).

    [snap::raw::Encoder::compress_vec] is a parameter. *)

From Stdlib Require Import SpecFloat.
From S2P Require Import Prelude Wire MemdError Codec Requests Response Client.
From S2P Require Import Text CoreError Vbucket Retry Collections.

(** ** Connections ([kv_orchestration.rs]) *)

(** [trait KvEndpointClientManager], as far as operations use it. *)
Class KvEndpointClientManager (S C : Type) := {
  get_client : action S C;
  get_endpoint_client : string → action S C;
}.

Section KvLoop.
Context {S C Resp : Type} `{KvEndpointClientManager S C}.

(** The loop both functions have: while the client cannot send the request, take
    another client.  [None] when [fuel] clients were not enough. *)
Fixpoint kv_client_loop (fuel : nat) (get : action S C) (operation : C → action S Resp)
    (st : S) : S * option (outcome Core.Error Resp) :=
  match fuel with
  | O => (st, None)
  | Datatypes.S fuel =>
      match get st with
      | (st, Some (Ok client)) =>
          match operation client st with
          | (st, Some (Err e)) =>
              match Core.is_memdx_error e with
              | Some memdx_err =>
                  if is_dispatch_error memdx_err then kv_client_loop fuel get operation st
                  else (st, Some (Err e))
              | None => (st, Some (Err e))
              end
          | res => res
          end
      | (st, Some (Err e)) => (st, Some (Err e))
      | (st, Some Panic) => (st, Some Panic)
      | (st, None) => (st, None)
      end
  end.

Definition orchestrate_kv_client (fuel : nat) (operation : C → action S Resp) : action S Resp :=
  kv_client_loop fuel get_client operation.

Definition orchestrate_endpoint_kv_client (fuel : nat) (endpoint : string)
    (operation : C → action S Resp) : action S Resp :=
  kv_client_loop fuel (get_endpoint_client endpoint) operation.

End KvLoop.

(** ** All layers ([CrudComponent::orchestrate_simple_crud]) *)

Section Crud.
Context {P : Profile} {S C Resp T TerseConfig : Type}
  `{VbucketRouter S, CollectionResolver S, KvEndpointClientManager S C, RetryStrategy T}
  (err_map_component : ErrMapComponent) (from_str : list Z → option TerseConfig)
  (not_my_vbucket_config : TerseConfig → string → S → S).

(** One attempt. *)
Definition crud_attempt (clients : nat) (key : list Z) (scope_name collection_name : string)
    (operation : Z → Z → C → action S Resp) : action S Resp :=
  orchestrate_memd_collection_id scope_name collection_name (λ collection_id,
    orchestrate_memd_routing from_str not_my_vbucket_config key 0 (λ endpoint vb_id,
      orchestrate_endpoint_kv_client clients endpoint (λ client,
        operation collection_id vb_id client))).

Definition orchestrate_simple_crud (attempts clients : nat) (key : list Z) (retry_strategy : T)
    (retry_info : RetryRequest) (scope_name collection_name : string)
    (operation : Z → Z → C → action S Resp) (st : S)
    : S * list (RetryReason * Duration) * option (outcome Core.Error Resp) :=
  orchestrate_retries err_map_component retry_strategy attempts retry_info
    (crud_attempt clients key scope_name collection_name operation) st.

End Crud.

(** ** Value compression ([compressionmanager.rs]) *)

Inductive CompressionMode : Type :=
| Enabled (min_size : Z) (min_ratio : spec_float)
| Disabled.

(** The output buffer the source keeps in the compressor is the value returned. *)
Record StdCompressor : Type := mkCompressor {
  compression_enabled : bool;
  compression_min_size : Z;
  compression_min_ratio : spec_float;
}.

Definition std_compressor_new (mode : CompressionMode) : StdCompressor :=
  match mode with
  | Enabled min_size min_ratio => mkCompressor true min_size min_ratio
  | Disabled => mkCompressor false 0 (S754_zero false)
  end.

Section Compress.
Context (compress_vec : list Z → list Z + string).

Definition compress (self : StdCompressor) (connection_supports_snappy : bool)
    (datatype : DataTypeFlag) (input : list Z) : outcome Core.Error (list Z * Z) :=
  if negb connection_supports_snappy || negb (compression_enabled self) then
    Ok (input, u8_from_datatype_flag datatype)
  else
    let datatype := u8_from_datatype_flag datatype in
    let compressed_flag := u8_from_datatype_flag DataTypeFlag.Compressed in
    if negb (Z.land datatype compressed_flag =? 0) then Ok (input, datatype)
    else
      let packet_size := blen input in
      if packet_size <=? compression_min_size self then Ok (input, datatype)
      else
        match compress_vec input with
        | inr msg => Err (Core.new (Core.Compression msg))
        | inl compressed_value =>
            if SFltb (compression_min_ratio self)
                 (f64_div (f64_of_Z (blen compressed_value)) (f64_of_Z packet_size))
            then Ok (input, datatype)
            else Ok (compressed_value, Z.lor datatype compressed_flag)
        end.
End Compress.

(** ** Theorems *)

(** Compression is transparent: whatever the mode, the connection and the
    flag of a value that is not already compressed, the value and datatype that
    are sent, when a response brings them back, are turned by the read loop into
    the original value and datatype; without snappy on the connection they are
    sent as they are.  [snappy] is the documented behaviour of the codec. *)
Lemma compression_roundtrip compress_vec decompress_vec
    (snappy : ∀ x c, compress_vec x = inl c → decompress_vec c = Some x)
    mode supported flag input out datatype p :
  flag ≠ DataTypeFlag.Compressed →
  compress compress_vec (std_compressor_new mode) supported flag input = Ok (out, datatype) →
  rs_value p = Some out → rs_datatype p = datatype →
  (∃ p', decompress decompress_vec false p = Some p'
     ∧ rs_value p' = Some input ∧ rs_datatype p' = u8_from_datatype_flag flag)
  ∧ (supported = false → out = input ∧ datatype = u8_from_datatype_flag flag).
Proof.
  intros Hflag Hc Hv Hd. assert (Z.land (u8_from_datatype_flag flag)
    (u8_from_datatype_flag DataTypeFlag.Compressed) = 0) as Hbit by (by destruct flag).
  unfold compress in Hc. rewrite Hbit in Hc. simpl in Hc.
  assert ((out, datatype) = (input, u8_from_datatype_flag flag)
    ∨ supported = true ∧ compress_vec input = inl out
      ∧ datatype = Z.lor (u8_from_datatype_flag flag) 2) as [Heq|(Hs & Hcv & Hdt)].
  { destruct supported; simpl in Hc; [|left; congruence].
    repeat case_match; try discriminate; injection Hc as <- <-; auto. }
  - injection Heq as -> ->. split; [|done]. exists p. unfold decompress. rewrite Hv, Hd, Hbit. done.
  - split; [|by rewrite Hs]. unfold decompress. rewrite Hv, Hd, Hdt.
    apply snappy in Hcv. rewrite Hcv.
    destruct flag; try done; simpl; eexists; (split; [done|]); done.
Qed.

Lemma compression_roundtrip_example :
  ∃ p', decompress (λ c, if bool_decide (c = [7]) then Some [5; 5; 5; 5] else None) false
      (with_value (sample_response 1) 3 [7]) = Some p'
    ∧ rs_value p' = Some [5; 5; 5; 5] ∧ rs_datatype p' = 1.
Proof.
  destruct (compression_roundtrip
    (λ x, if bool_decide (x = [5; 5; 5; 5]) then inl [7] else inr "bad input"%string)
    (λ c, if bool_decide (c = [7]) then Some [5; 5; 5; 5] else None)
    ltac:(intros x c; simpl; case_bool_decide; intros Heq; simplify_eq; done)
    (Enabled 2 (S754_finite false 1 (-1))) true DataTypeFlag.Json [5; 5; 5; 5] [7] 3
    (with_value (sample_response 1) 3 [7])) as [(p' & H1 & H2 & H3) _]; [done|evaluate|done..|].
  by exists p'.
Defined.

Section Recovery.
Context {P : Profile} {S C Resp T TerseConfig : Type}
  `{VbucketRouter S, CollectionResolver S, KvEndpointClientManager S C, RetryStrategy T}
  (em : ErrMapComponent) (from_str : list Z → option TerseConfig)
  (handler : TerseConfig → string → S → S) (strategy : T).
Context (clients : nat) (key : list Z) (scope coll : string) (op : Z → Z → C → action S Resp).

(** The first connection is used: the request reaches the server that owns the
    key, under the resolved collection id, and is answered with [res]. *)
Record reaches (st : S) (endpoint : string) (st' : S) (res : outcome Core.Error Resp) : Prop := {
  rc_named : scope ≠ ""%string ∧ scope ≠ "_default"%string;
  rc_run : ∃ cid rev vb c st0 st1,
    cr_resolve scope coll st = (st0, Some (Ok (cid, rev)))
    ∧ dispatch_by_key st0 key 0 = Ok (endpoint, vb)
    ∧ get_endpoint_client endpoint st0 = (st1, Some (Ok c))
    ∧ op cid vb c st1 = (st', Some res);
}.

Definition server_answer (e : Core.Error) (kind : ServerErrorKind) (config : option (list Z)) : Prop :=
  ∃ me se, e = Core.new_contextual_memdx_error me
    ∧ err_kind (Core.source me) = ErrorKind.Server se
    ∧ se_kind se = kind ∧ se_config se = config.

Abbreviation attempt := (crud_attempt from_str handler (Datatypes.S clients) key scope coll op).

(** What an attempt does with the answer of the server. *)
Lemma attempt_result st endpoint st' res :
  reaches st endpoint st' res →
  match res with
  | Ok r => attempt st = (st', Some (Ok r))
  | Err e =>
      Core.is_memdx_error e ≠ None →
      (∀ me, Core.is_memdx_error e = Some me → is_dispatch_error me = false) →
      attempt st
      = (invalidate_collection_id e scope coll
           (fst (orchestrate_memd_routing (Resp := Resp) from_str handler key 0
                   (λ _ _ _, (st', Some (Err e))) (fst (cr_resolve scope coll st)))),
         Some (Err e))
  | Panic => True
  end.
Proof.
  intros [[Hs1 Hs2] (cid & rev & vb & c & st0 & st1 & Hr & Hd & Hg & Hop)].
  assert (attempt st = match res with
    | Ok r => (st', Some (Ok r))
    | Err e => attempt st
    | Panic => attempt st end) as Hok.
  { destruct res as [r| |]; [|done..]. unfold crud_attempt, orchestrate_memd_collection_id.
    rewrite !(bool_decide_false (scope = _)) by done. simpl. rewrite Hr.
    unfold orchestrate_memd_routing. rewrite Hd. unfold orchestrate_endpoint_kv_client. simpl.
    by rewrite Hg, Hop. }
  destruct res as [r|e|]; [done| |done]. intros Hm Hnd. clear Hok.
  unfold crud_attempt, orchestrate_memd_collection_id.
  rewrite !(bool_decide_false (scope = _)) by done. simpl. rewrite Hr. simpl.
  unfold orchestrate_memd_routing. rewrite Hd. unfold orchestrate_endpoint_kv_client. simpl.
  rewrite Hg, Hop. destruct (Core.is_memdx_error e) as [me|] eqn:He; [|done].
  rewrite (Hnd me eq_refl). rewrite He. repeat case_match; simplify_eq/=; done.
Qed.

(** A failed attempt whose reason is always retried. *)
Lemma simple_crud_again n req st st' e reason :
  retry_attempts req = 0 → attempt st = (st', Some (Err e)) →
  snd (error_to_retry_reason em req e) = Some reason → always_retry reason = true →
  ∃ req', retry_attempts req' = 1 ∧ is_idempotent req' = is_idempotent req ∧
    orchestrate_simple_crud em from_str handler (Datatypes.S n) (Datatypes.S clients) key strategy
      req scope coll op st
    = let '(st'', trace, res) := orchestrate_simple_crud em from_str handler n (Datatypes.S clients)
        key strategy req' scope coll op st' in
      (st'', (reason, from_millis 10) :: trace, res).
Proof.
  intros Ha Hatt Hreason Halways.
  pose proof (error_to_retry_reason_request em req e) as Hid.
  destruct (error_to_retry_reason em req e) as [r x] eqn:Hr. simpl in Hid, Hreason. subst x.
  set (req' := mkRetryRequest (operation r) (is_idempotent r) 1
    ({[ reason ]} ∪ retry_reasons r) (unique_id r)).
  assert (retry_attempts r = 0) as Hra by (rewrite Hid; done).
  assert (is_idempotent r = is_idempotent req) as Hri by (rewrite Hid; done).
  exists req'. split_and!; [done..|]. unfold orchestrate_simple_crud. rewrite orchestrate_S, Hatt.
  unfold decide_retry. rewrite Hr. unfold maybe_retry. rewrite Halways.
  unfold add_retry_attempt, add_w. rewrite Hra. done.
Qed.


End Recovery.

(** ** Witness: a node that no longer holds the vbucket answers with a new config.

    The state is the number of configs received; node 2 holds the vbucket. *)

#[local] Instance sample_state_router : VbucketRouter nat :=
  {| update_vbucket_info := λ _ st, st;
     dispatch_by_key := λ st _ _, Ok (if (st =? 0)%nat then "node1" else "node2", 5)%string;
     dispatch_to_vbucket := λ st _, Ok "node2"%string |}.
#[local] Instance sample_state_resolver : CollectionResolver nat :=
  {| cr_resolve := λ _ _ st, (st, Some (Ok (8, 1))); cr_invalidate := λ _ _ st, st |}.
#[local] Instance sample_state_clients : KvEndpointClientManager nat string :=
  {| get_client := λ st, (st, Some (Ok "node1"%string));
     get_endpoint_client := λ endpoint st, (st, Some (Ok endpoint)) |}.

Definition wrong_node : Core.Error :=
  Core.new_contextual_memdx_error (Core.memdx_error_new (error_from_server
    (server_error_with_config
       (server_error_new ServerErrorKind.NotMyVbucket OpCode.Get Status.NotMyVbucket 1)
       (str_bytes "$HOST")))).

Definition sample_request (_ _ : Z) (client : string) : action nat Z := λ st,
  (st, Some (if bool_decide (client = "node2"%string) then Ok 1 else Err wrong_node)).


(** ** Failed writes *)

(** A request whose flush fails after it was encoded is reported as a dispatch
    error, although all its bytes are in the output (the peer may receive and
    execute it), and the connection loop runs the operation again on the next
    client, without looking at idempotence. *)
Lemma flush_failure_is_resent {S C Resp : Type} (get : action S C) (op : C → action S Resp)
    (st st1 st2 : S) (client : C) fuel (cl : Client) c item per what opaque me :
  dispatching cl !! c = Some (item, per) → rq_opaque item = Some opaque →
  packet_ok item → encodable item = true →
  Core.source me = new_dispatch_error opaque (rq_op_code item) (error_from_io what) →
  get st = (st1, Some (Ok client)) →
  op client st1 = (st2, Some (Err (Core.new_contextual_memdx_error me))) →
  (∃ cl', dispatch_write c (IoFlushFailed what) cl = Some (cl', OutError (Core.source me))
     ∧ written cl' = written cl ++ encoded_frame item)
  ∧ kv_client_loop (Datatypes.S fuel) get op st = kv_client_loop fuel get op st2.
Proof.
  intros Hd Ho Hok Henc Hme Hget Hop. split.
  - unfold dispatch_write. rewrite Hd. simpl. rewrite Ho. unfold writer_send.
    rewrite encode_frame by done. simpl. rewrite Hme. eexists. split; [done|].
    unfold drop_receiver. by case_match.
  - simpl. rewrite Hget, Hop. simpl. unfold is_dispatch_error. rewrite Hme. done.
Qed.
