(* ===== verification/KvClient.v ===== *)
(** * One connection with its bucket and features ([kvclient.rs], [kvclient_ops.rs])

    A [StdKvClient] wraps the client of one connection: it bootstraps it, knows
    which features the server granted and which bucket is selected, closes itself
    when a request cannot be written or the login is stale, and puts the addresses
    of the connection into every error.

    The trait [KvClientOps] is the class of the same name; the operations of
    [CrudOps.v] are proved against it and [StdKvClient] is its instance.  The
    underlying dispatcher is the class [Connection]. *)

From Stdlib Require Import SpecFloat.
From S2P Require Import Prelude Wire MemdError Codec Requests OpsCore OpsCrud Response.
From S2P Require Import Client PendingOp Scram Bootstrap CoreError.

#[global] Instance hello_feature_eq_dec : EqDecision HelloFeature.
Proof. solve_decision. Defined.

(** A call that changes [S] and returns a result, an error with the context of the
    connection, or does not return. *)
Definition kv_action (S A : Type) : Type := S → S * option (outcome Core.MemdxError A).

(** [trait KvClientOps], with the two queries of [trait KvClient] the operations
    use. *)
Class KvClientOps (S C : Type) := {
  kc_bucket_name : C → S → option string;
  kc_has_feature : C → HelloFeature → S → bool;
  kc_set : C → SetRequest → kv_action S MutationResponse;
  kc_get : C → GetRequest → kv_action S GetResponse;
  kc_get_meta : C → GetMetaRequest → kv_action S GetMetaResponse;
  kc_delete : C → DeleteRequest → kv_action S MutationResponse;
  kc_get_and_lock : C → GetAndLockRequest → kv_action S GetResponse;
  kc_get_and_touch : C → GetAndTouchRequest → kv_action S GetResponse;
  kc_unlock : C → UnlockRequest → kv_action S UnlockResponse;
  kc_touch : C → TouchRequest → kv_action S TouchResponse;
  kc_add : C → AddRequest → kv_action S MutationResponse;
  kc_replace : C → ReplaceRequest → kv_action S MutationResponse;
  kc_append : C → AppendRequest → kv_action S MutationResponse;
  kc_prepend : C → PrependRequest → kv_action S MutationResponse;
  kc_increment : C → IncrementRequest → kv_action S CounterResponse;
  kc_decrement : C → DecrementRequest → kv_action S CounterResponse;
  kc_lookup_in : C → LookupInRequest → kv_action S LookupInResponse;
  kc_mutate_in : C → MutateInRequest → kv_action S MutateInResponse;
  kc_get_cluster_config : C → GetClusterConfigRequest → kv_action S (list Z);
  kc_get_collection_id : C → GetCollectionIdRequest → kv_action S GetCollectionIdResponse;
  kc_ping : C → PingRequest → kv_action S unit;
}.

(** The dispatcher below: dispatching, receiving, bootstrapping and closing, and
    the clock. *)
Class Connection (D H : Type) := {
  connection_dispatcher :: Dispatcher D H;
  connection_exchange :: Exchange D;
  conn_recv : H → conn D ClientResponse;
  conn_close : conn D unit;
  utc_now : D → Z;
}.

Record StdKvClient (D : Type) : Type := mkKvClient {
  cli : D;
  remote_addr : string;
  local_addr : string;
  remote_hostname : string;
  endpoint_id : string;
  closed : bool;
  has_on_close : bool;
  supported_features : list HelloFeature;
  selected_bucket : option string;
  last_activity_timestamp_micros : Z;
  id : string;
}.
Arguments mkKvClient {D}.
Arguments cli {D}. Arguments remote_addr {D}. Arguments local_addr {D}.
Arguments remote_hostname {D}. Arguments endpoint_id {D}. Arguments closed {D}.
Arguments has_on_close {D}. Arguments supported_features {D}. Arguments selected_bucket {D}.
Arguments last_activity_timestamp_micros {D}. Arguments id {D}.

Section Setters.
Context {D : Type}.
Definition set_cli (x : D) (s : StdKvClient D) : StdKvClient D :=
  mkKvClient x (remote_addr s) (local_addr s) (remote_hostname s) (endpoint_id s) (closed s)
    (has_on_close s) (supported_features s) (selected_bucket s) (last_activity_timestamp_micros s) (id s).
Definition set_closed (x : bool) (s : StdKvClient D) : StdKvClient D :=
  mkKvClient (cli s) (remote_addr s) (local_addr s) (remote_hostname s) (endpoint_id s) x
    (has_on_close s) (supported_features s) (selected_bucket s) (last_activity_timestamp_micros s) (id s).
Definition set_features (x : list HelloFeature) (s : StdKvClient D) : StdKvClient D :=
  mkKvClient (cli s) (remote_addr s) (local_addr s) (remote_hostname s) (endpoint_id s) (closed s)
    (has_on_close s) x (selected_bucket s) (last_activity_timestamp_micros s) (id s).
Definition set_bucket (x : option string) (s : StdKvClient D) : StdKvClient D :=
  mkKvClient (cli s) (remote_addr s) (local_addr s) (remote_hostname s) (endpoint_id s) (closed s)
    (has_on_close s) (supported_features s) x (last_activity_timestamp_micros s) (id s).
Definition set_last_activity (x : Z) (s : StdKvClient D) : StdKvClient D :=
  mkKvClient (cli s) (remote_addr s) (local_addr s) (remote_hostname s) (endpoint_id s) (closed s)
    (has_on_close s) (supported_features s) (selected_bucket s) x (id s).
End Setters.

(** [MemdxError::with_dispatched_to] and [with_dispatched_from]. *)
Definition with_dispatched_to (to : string) (e : Core.MemdxError) : Core.MemdxError :=
  Core.mkMemdxError (Core.source e) (Some to) (Core.dispatched_from e) (Core.doc_id e)
    (Core.bucket_name e) (Core.scope_name e) (Core.collection_name e).
Definition with_dispatched_from (from : string) (e : Core.MemdxError) : Core.MemdxError :=
  Core.mkMemdxError (Core.source e) (Core.dispatched_to e) (Some from) (Core.doc_id e)
    (Core.bucket_name e) (Core.scope_name e) (Core.collection_name e).

Section Ops.
Context {P : Profile} (powf : spec_float → spec_float → spec_float).
Context {D H : Type} `{Connection D H}.

Abbreviation Kv := (StdKvClient D).

Definition has_feature (self : Kv) (feature : HelloFeature) : bool :=
  bool_decide (feature ∈ supported_features self).

Definition update_last_activity (self : Kv) : Kv := set_last_activity (utc_now (cli self)) self.

(** [compare_exchange(false, true)] on [closed]: only the first call closes. *)
Definition close (self : Kv) : Kv * option (outcome Core.Error unit) :=
  if closed self then (self, Some (Ok tt))
  else
    let self := set_closed true self in
    let '(d, r) := conn_close (cli self) in
    (set_cli d self,
     match r with
     | Some (Ok _) => Some (Ok tt)
     | Some (Err e) => Some (Err (Core.new_contextual_memdx_error (Core.memdx_error_new e)))
     | Some Panic => Some Panic
     | None => None
     end).

(** The task that waits for the read loop to end; the second component tells
    whether the owner of the client is told. *)
Definition on_read_close (self : Kv) : Kv * bool :=
  if closed self then (self, false) else (set_closed true self, has_on_close self).

(** [Drop]. *)
Definition kv_client_drop (self : Kv) : Kv := set_closed true self.

Definition connection_error (self : Kv) (e : Error) : Core.MemdxError :=
  with_dispatched_from (local_addr self)
    (with_dispatched_to (remote_addr self) (Core.memdx_error_new e)).

(** [if close_needed { let _ = self.close().await; }] before the error is returned. *)
Definition fail_with {A} (close_needed : bool) (e : Error) : kv_action Kv A := λ self,
  if close_needed then
    match close self with
    | (self, Some Panic) => (self, Some Panic)
    | (self, Some _) => (self, Some (Err (connection_error self e)))
    | (self, None) => (self, None)
    end
  else (self, Some (Err (connection_error self e))).

Definition is_auth_stale (e : Error) : bool :=
  match err_kind e with
  | ErrorKind.Server se => bool_decide (se_kind se = ServerErrorKind.AuthStale)
  | _ => false
  end.

Definition handle_dispatch_side_result {A} (result : outcome Error A) : kv_action Kv A := λ self,
  match result with
  | Ok v => (self, Some (Ok v))
  | Err e => fail_with (is_dispatch_error e) e self
  | Panic => (self, Some Panic)
  end.

Definition handle_response_side_result {A} (result : outcome Error A) : kv_action Kv A := λ self,
  match result with
  | Ok v => (self, Some (Ok v))
  | Err e => fail_with (is_auth_stale e) e self
  | Panic => (self, Some Panic)
  end.

(** What every operation does with the call it builds: dispatch it, receive the
    response and decode it. *)
Definition kv_op {A} (call : outcome Error DispatchCall)
    (try_from : ClientResponse → outcome Error A) : kv_action Kv A := λ self,
  let self := update_last_activity self in
  let '(d, result) := run_op call (cli self) in
  match handle_dispatch_side_result result (set_cli d self) with
  | (self, Some (Ok op)) =>
      match conn_recv op (cli self) with
      | (d, Some r) => handle_response_side_result (r ≫= try_from) (set_cli d self)
      | (d, None) => (set_cli d self, None)
      end
  | (self, Some (Err e)) => (self, Some (Err e))
  | (self, Some Panic) => (self, Some Panic)
  | (self, None) => (self, None)
  end.

Definition ops_crud (self : Kv) : OpsCrud.OpsCrud :=
  OpsCrud.mk (has_feature self HelloFeature.Collections) (has_feature self HelloFeature.SyncReplication)
    (has_feature self HelloFeature.PreserveExpiry) (has_feature self HelloFeature.AltRequests).

Definition kv_set (req : SetRequest) : kv_action Kv MutationResponse := λ self,
  kv_op (OpsCrud.set (ops_crud self) req) (set_try_from powf) self.
Definition kv_get (req : GetRequest) : kv_action Kv GetResponse := λ self,
  kv_op (OpsCrud.get (ops_crud self) req) (get_try_from powf) self.
Definition kv_get_meta (req : GetMetaRequest) : kv_action Kv GetMetaResponse := λ self,
  kv_op (OpsCrud.get_meta (ops_crud self) req) (get_meta_try_from powf) self.
Definition kv_delete (req : DeleteRequest) : kv_action Kv MutationResponse := λ self,
  kv_op (OpsCrud.delete (ops_crud self) req) (delete_try_from powf) self.
Definition kv_get_and_lock (req : GetAndLockRequest) : kv_action Kv GetResponse := λ self,
  kv_op (OpsCrud.get_and_lock (ops_crud self) req) (get_and_lock_try_from powf) self.
Definition kv_get_and_touch (req : GetAndTouchRequest) : kv_action Kv GetResponse := λ self,
  kv_op (OpsCrud.get_and_touch (ops_crud self) req) (get_and_touch_try_from powf) self.
Definition kv_unlock (req : UnlockRequest) : kv_action Kv UnlockResponse := λ self,
  kv_op (OpsCrud.unlock (ops_crud self) req) (unlock_try_from powf) self.
Definition kv_touch (req : TouchRequest) : kv_action Kv TouchResponse := λ self,
  kv_op (OpsCrud.touch (ops_crud self) req) (touch_try_from powf) self.
Definition kv_add (req : AddRequest) : kv_action Kv MutationResponse := λ self,
  kv_op (OpsCrud.add (ops_crud self) req) (add_try_from powf) self.
Definition kv_replace (req : ReplaceRequest) : kv_action Kv MutationResponse := λ self,
  kv_op (OpsCrud.replace (ops_crud self) req) (replace_try_from powf) self.
Definition kv_append (req : AppendRequest) : kv_action Kv MutationResponse := λ self,
  kv_op (OpsCrud.append (ops_crud self) req) (append_try_from powf) self.
Definition kv_prepend (req : PrependRequest) : kv_action Kv MutationResponse := λ self,
  kv_op (OpsCrud.prepend (ops_crud self) req) (prepend_try_from powf) self.
Definition kv_increment (req : IncrementRequest) : kv_action Kv CounterResponse := λ self,
  kv_op (OpsCrud.increment (ops_crud self) req) (increment_try_from powf) self.
Definition kv_decrement (req : DecrementRequest) : kv_action Kv CounterResponse := λ self,
  kv_op (OpsCrud.decrement (ops_crud self) req) (decrement_try_from powf) self.
Definition kv_lookup_in (req : LookupInRequest) : kv_action Kv LookupInResponse := λ self,
  kv_op (OpsCrud.lookup_in (ops_crud self) req) (lookup_in_try_from powf) self.
Definition kv_mutate_in (req : MutateInRequest) : kv_action Kv MutateInResponse := λ self,
  kv_op (OpsCrud.mutate_in (ops_crud self) req) (mutate_in_try_from powf) self.
Definition kv_get_cluster_config (req : GetClusterConfigRequest) : kv_action Kv (list Z) :=
  kv_op (Ok (OpsCore.get_cluster_config req)) get_cluster_config_try_from.
Definition kv_get_collection_id (req : GetCollectionIdRequest) : kv_action Kv GetCollectionIdResponse :=
  kv_op (Ok (OpsUtil.get_collection_id req)) get_collection_id_try_from.
Definition kv_ping (req : PingRequest) : kv_action Kv unit :=
  kv_op (Ok (OpsUtil.ping req)) ping_try_from.
Definition kv_select_bucket (req : SelectBucketRequest) : kv_action Kv unit :=
  kv_op (Ok (OpsCore.select_bucket req)) select_bucket_try_from.

(** [KvClient::select_bucket]: at most one bucket, given back when the server
    refuses. *)
Definition select_bucket (bucket_name : string) (self : Kv) : Kv * option (outcome Core.Error unit) :=
  match selected_bucket self with
  | Some _ =>
      (self, Some (Err (Core.new (Core.InvalidArgument
         "cannot select bucket when a bucket is already selected" (Some "bucket_name"%string)))))
  | None =>
      let self := set_bucket (Some bucket_name) self in
      match kv_select_bucket (SelectBucketRequest.mk bucket_name) self with
      | (self, Some (Ok _)) => (self, Some (Ok tt))
      | (self, Some (Err e)) =>
          (set_bucket None self, Some (Err (Core.new_contextual_memdx_error e)))
      | (self, Some Panic) => (self, Some Panic)
      | (self, None) => (self, None)
      end
  end.

(** A new token for a connection that is logged in. *)
Definition reconfigure_authenticator (creds : Credentials) (deadline : Z) : kv_action Kv unit := λ self,
  match creds with
  | Credentials.UserPass _ _ => (self, Some Panic)
  | Credentials.JwtToken token =>
      let self := update_last_activity self in
      let '(d, r) := sasl_auth_oauth_bearer token deadline (cli self) in
      (set_cli d self,
       match r with
       | Some (Ok _) => Some (Ok tt)
       | Some (Err e) => Some (Err (Core.memdx_error_new e))
       | Some Panic => Some Panic
       | None => None
       end)
  end.

(** ** A new client ([KvClient::new]) *)

Record KvClientOptions : Type := mkKvClientOptions {
  ko_address : string;
  ko_hostname : string;
  ko_tls_enabled : bool;
  ko_authenticator : Authenticator;
  ko_selected_bucket : option string;
  ko_client_name : string;
  ko_disable_error_map : bool;
  ko_disable_mutation_tokens : bool;
  ko_disable_server_durations : bool;
  ko_auth_mechanisms : list AuthMechanism;
  ko_endpoint_id : string;
  ko_has_on_close : bool;
  ko_id : string;
}.

Definition requested_features (opts : KvClientOptions) : list HelloFeature :=
  [HelloFeature.DataType; HelloFeature.Xattr; HelloFeature.Xerror; HelloFeature.Snappy;
   HelloFeature.SnappyEverywhere; HelloFeature.Json; HelloFeature.UnorderedExec;
   HelloFeature.SyncReplication; HelloFeature.ReplaceBodyWithXattr; HelloFeature.SelectBucket;
   HelloFeature.CreateAsDeleted; HelloFeature.AltRequests; HelloFeature.Collections;
   HelloFeature.ClusterMapKnownVersion; HelloFeature.DedupeNotMyVbucketClustermap;
   HelloFeature.ClusterMapChangeNotificationBrief; HelloFeature.Duplex; HelloFeature.PreserveExpiry]
  ++ (if ko_disable_mutation_tokens opts then [] else [HelloFeature.SeqNo])
  ++ (if ko_disable_server_durations opts then [] else [HelloFeature.Durations]).

Definition bootstrap_auth (opts : KvClientOptions) : option SASLAuthAutoOptions :=
  let mechs default_mechs :=
    match ko_auth_mechanisms opts with [] => default_mechs | ms => ms end in
  match ko_authenticator opts with
  | Authenticator.PasswordAuthenticator username password =>
      Some (mkAuthAuto (Credentials.UserPass username password)
              (mechs (password_auth_mechanisms (ko_tls_enabled opts))))
  | Authenticator.CertificateAuthenticator => None
  | Authenticator.JwtAuthenticator token =>
      Some (mkAuthAuto (Credentials.JwtToken token) (mechs jwt_auth_mechanisms))
  end.

Definition bootstrap_options (opts : KvClientOptions) (deadline : Z) : BootstrapOptions :=
  mkBootstrap
    (if bool_decide (ko_client_name opts = ""%string) then None
     else Some (HelloRequest.mk (str_bytes (ko_client_name opts)) (requested_features opts)))
    (if ko_disable_error_map opts then None else Some (GetErrorMapRequest.mk 2))
    (bootstrap_auth opts)
    (SelectBucketRequest.mk <$> ko_selected_bucket opts)
    deadline None.

Definition should_bootstrap (b : BootstrapOptions) : bool :=
  bool_decide (is_Some (bo_hello b)) || bool_decide (is_Some (bo_auth b))
  || bool_decide (is_Some (bo_get_error_map b)).

Section New.
Context (sha1 sha256 sha512 : ScramHash) (b64_encode : list Z → list Z)
  (b64_decode : list Z → option (list Z)) (random : D → list Z).

(** [connected] is the outcome of the TCP or TLS connection: the connection with
    the addresses of its ends, or an error.  The second result is the error map
    given to [on_err_map_fetched]. *)
Definition kv_client_new (opts : KvClientOptions) (connected : outcome Error (D * string * string))
    (deadline : Z) : option (outcome Core.Error (Kv * option (list Z))) :=
  match connected with
  | Ok (d, remote, local) =>
      let self := mkKvClient d remote local (ko_hostname opts) (ko_endpoint_id opts) false
        (ko_has_on_close opts) [] None (utc_now d) (ko_id opts) in
      let b := bootstrap_options opts deadline in
      if should_bootstrap b then
        let self :=
          match ko_selected_bucket opts with Some name => set_bucket (Some name) self | None => self end in
        match bootstrap sha1 sha256 sha512 b64_encode b64_decode random b (cli self) with
        | (d, Some (Ok res)) =>
            let self := set_cli d self in
            let self :=
              match br_hello res with Some h => set_features (enabled_features h) self | None => self end in
            Some (Ok (self, gem_error_map <$> br_error_map res))
        | (d, Some (Err e)) =>
            match close (set_cli d self) with
            | (_, Some Panic) => Some Panic
            | (self, Some _) => Some (Err (Core.new_contextual_memdx_error (connection_error self e)))
            | (_, None) => None
            end
        | (_, Some Panic) => Some Panic
        | (_, None) => None
        end
      else Some (Ok (self, None))
  | Err e =>
      Some (Err (Core.new_contextual_memdx_error
        (with_dispatched_to (ko_address opts) (Core.memdx_error_new e))))
  | Panic => Some Panic
  end.
End New.
End Ops.

(** ** The instance of [KvClientOps]

    The state holds every client of the agent; a client is named by its number. *)

Definition on_client {D A : Type} (c : nat) (m : kv_action (StdKvClient D) A)
    : kv_action (nat → StdKvClient D) A := λ st,
  let '(self, r) := m (st c) in ((λ c', if (c' =? c)%nat then self else st c'), r).

#[export] Instance std_kv_client_ops {P : Profile} (powf : spec_float → spec_float → spec_float)
    {D H : Type} `{Connection D H} : KvClientOps (nat → StdKvClient D) nat :=
  {| kc_bucket_name := λ c st, selected_bucket (st c);
     kc_has_feature := λ c feature st, has_feature (st c) feature;
     kc_set := λ c req, on_client c (kv_set powf req);
     kc_get := λ c req, on_client c (kv_get powf req);
     kc_get_meta := λ c req, on_client c (kv_get_meta powf req);
     kc_delete := λ c req, on_client c (kv_delete powf req);
     kc_get_and_lock := λ c req, on_client c (kv_get_and_lock powf req);
     kc_get_and_touch := λ c req, on_client c (kv_get_and_touch powf req);
     kc_unlock := λ c req, on_client c (kv_unlock powf req);
     kc_touch := λ c req, on_client c (kv_touch powf req);
     kc_add := λ c req, on_client c (kv_add powf req);
     kc_replace := λ c req, on_client c (kv_replace powf req);
     kc_append := λ c req, on_client c (kv_append powf req);
     kc_prepend := λ c req, on_client c (kv_prepend powf req);
     kc_increment := λ c req, on_client c (kv_increment powf req);
     kc_decrement := λ c req, on_client c (kv_decrement powf req);
     kc_lookup_in := λ c req, on_client c (kv_lookup_in powf req);
     kc_mutate_in := λ c req, on_client c (kv_mutate_in powf req);
     kc_get_cluster_config := λ c req, on_client c (kv_get_cluster_config req);
     kc_get_collection_id := λ c req, on_client c (kv_get_collection_id req);
     kc_ping := λ c req, on_client c (kv_ping req) |}.

(** ** Theorems *)

Section Theorems.
Context {P : Profile} {D H : Type} `{Connection D H}.

(** Nothing but the connection, [closed] and the time of the last activity. *)
Definition same_client (self self' : StdKvClient D) : Prop :=
  remote_addr self' = remote_addr self ∧ local_addr self' = local_addr self
  ∧ selected_bucket self' = selected_bucket self
  ∧ supported_features self' = supported_features self ∧ id self' = id self.

Context (close_returns : ∀ d, ∃ r, snd (conn_close d) = Some r ∧ r ≠ Panic).

Lemma fail_with_spec {A} close_needed e (self : StdKvClient D) :
  ∃ self', fail_with (A := A) close_needed e self = (self', Some (Err (connection_error self e)))
    ∧ same_client self self' ∧ closed self' = closed self || close_needed.
Proof.
  unfold fail_with, close. destruct close_needed; [|by exists self; rewrite orb_false_r].
  destruct (closed self) eqn:Hc; [by exists self; rewrite orb_true_r|].
  destruct (close_returns (cli (set_closed true self))) as (r & Hr & Hp).
  destruct (conn_close (cli (set_closed true self))) as [d r']. simpl in Hr. subst r'.
  exists (set_cli d (set_closed true self)). by destruct r.
Qed.

(** One operation, case by case. *)
Lemma kv_op_run {A} call (try_from : ClientResponse → outcome Error A) (self : StdKvClient D) :
  let '(d1, sent) := run_op call (cli self) in
  match sent with
  | Err e =>
      ∃ self', kv_op call try_from self = (self', Some (Err (connection_error self e)))
        ∧ same_client self self' ∧ closed self' = closed self || is_dispatch_error e
  | Ok op =>
      match conn_recv op d1 with
      | (d2, Some received) =>
          match received ≫= try_from with
          | Ok a =>
              ∃ self', kv_op call try_from self = (self', Some (Ok a))
                ∧ same_client self self' ∧ closed self' = closed self ∧ cli self' = d2
          | Err e =>
              ∃ self', kv_op call try_from self = (self', Some (Err (connection_error self e)))
                ∧ same_client self self' ∧ closed self' = closed self || is_auth_stale e
          | Panic => snd (kv_op call try_from self) = Some Panic
          end
      | (_, None) => snd (kv_op call try_from self) = None
      end
  | Panic => snd (kv_op call try_from self) = Some Panic
  end.
Proof.
  destruct (run_op call (cli self)) as [d1 sent] eqn:Hrun. unfold kv_op.
  change (cli (update_last_activity self)) with (cli self). rewrite Hrun.
  set (self1 := set_cli d1 (update_last_activity self)).
  destruct sent as [op|e|]; [|destruct (fail_with_spec (A := H) (is_dispatch_error e) e self1)
    as (self' & Hf & Hsame & Hc); exists self'; simpl; by rewrite Hf|done].
  simpl. change (cli self1) with d1.
  destruct (conn_recv op d1) as [d2 [received|]]; [|done].
  destruct (received ≫= try_from) as [a|e|]; simpl; [by exists (set_cli d2 self1)| |done].
  destruct (fail_with_spec (A := A) (is_auth_stale e) e (set_cli d2 self1))
    as (self' & Hf & Hsame & Hc). exists self'. by rewrite Hf.
Qed.


(** A client has at most one bucket: selecting a second one is refused without
    a request, and after a selection that fails there is none again. *)
Lemma select_bucket_spec name (self : StdKvClient D) :
  match selected_bucket self, select_bucket name self with
  | Some _, (self', r) => self' = self ∧ ∃ e, r = Some (Err e)
  | None, (self', Some (Ok _)) => selected_bucket self' = Some name
  | None, (self', Some (Err _)) => selected_bucket self' = None
  | None, _ => True
  end.
Proof.
  unfold select_bucket. destruct (selected_bucket self) as [b|] eqn:Hb; [by eauto|].
  pose proof (kv_op_run (Ok (OpsCore.select_bucket (SelectBucketRequest.mk name)))
    select_bucket_try_from (set_bucket (Some name) self)) as Hspec.
  unfold kv_select_bucket.
  destruct (kv_op _ _ (set_bucket (Some name) self)) as [self' [[[]|e|]|]]; try done.
  repeat (case_match; try done); destruct Hspec as (self'' & Heq & Hsame & _); simplify_eq;
    by destruct Hsame as (_ & _ & Hbucket & _).
Qed.
End Theorems.

(** ** New clients, against any server *)

Section AnyServer.
Context (answer : list DispatchCall → DispatchCall → option (outcome Error ClientResponse)).

(** The connection is the log of its calls; a call is its own handle. *)
#[local] Instance log_connection : Connection (list DispatchCall) (list DispatchCall * DispatchCall) :=
  {| connection_dispatcher := λ call log, (log ++ [call], Ok (log, call));
     connection_exchange := log_exchange answer;
     conn_recv := λ op log, (log, answer (fst op) (snd op));
     conn_close := λ log, (log, Some (Ok tt));
     utc_now := λ log, blen log |}.

Context (sha1 sha256 sha512 : ScramHash) (b64_encode : list Z → list Z)
  (b64_decode : list Z → option (list Z)) (random : list DispatchCall → list Z).

Abbreviation new_client := (kv_client_new sha1 sha256 sha512 b64_encode b64_decode random).

(** C10. A client that is handed out is logged in: unless it authenticates with a
    certificate, the server accepted its login, and if a bucket was asked for, the
    server accepted that bucket and the client knows it.  The requests can be read
    off the connection. *)
Theorem new_client_is_logged_in opts remote local deadline self error_map :
  ko_authenticator opts ≠ Authenticator.CertificateAuthenticator →
  new_client opts (Ok ([], remote, local)) deadline = Some (Ok (self, error_map)) →
  closed self = false
  ∧ (∃ before login after, cli self = before ++ [login] ++ after ∧ login_call login
       ∧ accepts answer before login)
  ∧ selected_bucket self = ko_selected_bucket opts
  ∧ (∀ name, ko_selected_bucket opts = Some name →
       ∃ before rest, cli self = before ++ [OpsCore.select_bucket (SelectBucketRequest.mk name)] ++ rest
         ∧ accepts answer before (OpsCore.select_bucket (SelectBucketRequest.mk name))).
Proof.
  intros Hauth Hnew.
  assert (∃ auth, bootstrap_auth opts = Some auth) as [auth Ha]
    by (unfold bootstrap_auth; destruct (ko_authenticator opts); by eauto).
  unfold kv_client_new in Hnew. cbn zeta in Hnew.
  assert (should_bootstrap (bootstrap_options opts deadline) = true) as Hshould.
  { unfold should_bootstrap, bootstrap_options. cbn [bo_auth]. rewrite Ha.
    rewrite (bool_decide_true (is_Some (Some auth))) by done. by rewrite orb_true_r. }
  rewrite Hshould in Hnew.
  destruct (bootstrap_calls answer sha1 sha256 sha512 b64_encode b64_decode random
    (bootstrap_options opts deadline) auth [] Ha)
    as (before & auths & after & Hlog & _ & _ & _ & Hacc & Hsel).
  assert (∀ n, cli (match ko_selected_bucket opts with
    | Some name => set_bucket (Some name) (mkKvClient (D := list DispatchCall) [] remote local
        (ko_hostname opts) (ko_endpoint_id opts) false (ko_has_on_close opts) [] None n (ko_id opts))
    | None => mkKvClient [] remote local (ko_hostname opts) (ko_endpoint_id opts) false
        (ko_has_on_close opts) [] None n (ko_id opts) end) = []) as Hcli
    by (intros; by destruct (ko_selected_bucket opts)).
  rewrite Hcli in Hnew. cbn [connection_exchange log_connection] in Hnew.
  destruct (bootstrap _ _ _ _ _ _ (bootstrap_options opts deadline) []) as [d [[res|e|]|]] eqn:Hb; try done.
  2:{ destruct (close _) as [? [[]|]]; done. }
  cbn [fst snd] in Hlog, Hacc, Hsel. injection Hnew as <- _.
  destruct (Hacc ltac:(right; by eexists)) as (pre & a & -> & Hl & Haccept).
  split_and!.
  - by destruct (br_hello res), (ko_selected_bucket opts).
  - exists (before ++ pre), a, after. split_and!; [|done..].
    assert (d = (before ++ pre) ++ [a] ++ after) by (rewrite Hlog; by rewrite <-!app_assoc).
    by destruct (br_hello res), (ko_selected_bucket opts).
  - by destruct (br_hello res), (ko_selected_bucket opts).
  - intros name Hname. destruct (Hsel res (SelectBucketRequest.mk name) eq_refl) as (rest & -> & Hs).
    { unfold bootstrap_options. cbn [bo_select_bucket]. by rewrite Hname. }
    exists (before ++ pre ++ [a]), rest. split; [|done].
    assert (d = (before ++ pre ++ [a]) ++ [OpsCore.select_bucket (SelectBucketRequest.mk name)] ++ rest)
      by (rewrite Hlog; by rewrite <-!app_assoc).
    by destruct (br_hello res), (ko_selected_bucket opts).
Qed.

(** C11. Without TLS a password is not sent in the clear: unless the mechanisms are
    configured, no login request names PLAIN, whatever the server
    answers and also when the bootstrap fails. *)
Theorem no_clear_password_without_tls opts username password deadline log call :
  ko_authenticator opts = Authenticator.PasswordAuthenticator username password →
  ko_tls_enabled opts = false → ko_auth_mechanisms opts = [] →
  call ∈ drop (length log) (fst (bootstrap sha1 sha256 sha512 b64_encode b64_decode random
           (bootstrap_options opts deadline) log)) →
  login_call call → rq_key (dc_packet call) ≠ Some (bytes_from_auth_mechanism AuthMechanism.Plain).
Proof.
  intros Hp Htls Hm Hin Hlogin Hkey.
  set (auth := mkAuthAuto (Credentials.UserPass username password) (password_auth_mechanisms false)).
  assert (bo_auth (bootstrap_options opts deadline) = Some auth) as Ha
    by (unfold bootstrap_options, bootstrap_auth; simpl; by rewrite Hp, Hm, Htls).
  destruct (bootstrap_calls answer sha1 sha256 sha512 b64_encode b64_decode random _ auth log Ha)
    as (before & auths & after & Hlog & Hbefore & Hauths & Hafter & _).
  cbn [connection_exchange log_connection] in Hin. rewrite Hlog, drop_app_length in Hin.
  rewrite list.Forall_forall in Hbefore, Hauths, Hafter. unfold login_call in Hlogin.
  apply elem_of_app in Hin as [Hin|[Hin|Hin]%elem_of_app].
  - destruct (Hbefore _ Hin) as [He|He], Hlogin; congruence.
  - destruct (Hauths _ Hin) as [He|[_ Hplain]]; [destruct Hlogin; congruence|].
    specialize (Hplain Hkey). by apply (bool_decide_pack _) in Hplain.
  - destruct (Hafter _ Hin) as [He|He], Hlogin; congruence.
Qed.
End AnyServer.

(** ** Witnesses *)

Definition sample_options (auth : Authenticator) : KvClientOptions :=
  mkKvClientOptions "node1:11210" "node1" false auth (Some "travel"%string) "client" true false false
    [] "ep" true "kv1".

Definition sample_password : Authenticator := Authenticator.PasswordAuthenticator "user" "secret".

(** Answers every login and every selection with success. *)
Definition sample_new : option (outcome Core.Error (StdKvClient (list DispatchCall) * option (list Z))) :=
  kv_client_new (H := list DispatchCall * DispatchCall) (H0 := log_connection sample_answer) sample_hash sample_hash
    sample_hash toy_encode toy_decode (λ _, [1; 2; 3; 4; 5; 6]) (sample_options sample_password)
    (Ok ([], "10.0.0.1:11210", "10.0.0.2:40000"))%string 7.

Lemma new_client_is_logged_in_witness :
  ∃ self em, sample_new = Some (Ok (self, em)) ∧ selected_bucket self = Some "travel"%string
    ∧ ∃ before login, accepts sample_answer before login.
Proof.
  destruct sample_new as [[[self em]| |]|] eqn:Hnew; try by vm_compute in Hnew.
  exists self, em. split; [done|].
  destruct (new_client_is_logged_in sample_answer sample_hash sample_hash sample_hash toy_encode
    toy_decode (λ _, [1; 2; 3; 4; 5; 6]) (sample_options sample_password) "10.0.0.1:11210"
    "10.0.0.2:40000" 7 self em ltac:(done) Hnew) as (_ & (before & login & _ & _ & _ & Ha) & Hb & _).
  split; [exact Hb|]. by exists before, login.
Defined.

Lemma no_clear_password_without_tls_witness :
  rq_key (dc_packet (OpsCore.sasl_auth (SASLAuthRequest.mk AuthMechanism.ScramSha512
    (str_bytes "n,,n=user,r=" ++ toy_encode [1; 2; 3; 4; 5; 6]))))
  ≠ Some (bytes_from_auth_mechanism AuthMechanism.Plain).
Proof.
  eapply (no_clear_password_without_tls sample_answer sample_hash sample_hash sample_hash toy_encode
    toy_decode (λ _, [1; 2; 3; 4; 5; 6]) (sample_options sample_password) "user" "secret" 7 []);
    [reflexivity..| |by left].
  apply (list_elem_of_lookup_2 _ 2). by vm_compute.
Defined.

Definition sample_client : StdKvClient (list DispatchCall) :=
  mkKvClient [] "10.0.0.1:11210" "10.0.0.2:40000" "node1" "ep" false true [] None 0 "kv1".

Abbreviation sample_connection := (log_connection sample_answer).

Lemma sample_close_returns (d : list DispatchCall) :
  ∃ r, snd (conn_close (Connection := sample_connection) d) = Some r ∧ r ≠ Panic.
Proof. by exists (Ok tt). Qed.


Lemma select_bucket_spec_example :
  selected_bucket (fst (select_bucket (H0 := sample_connection) "travel" sample_client))
  = Some "travel"%string.
Proof.
  exact (select_bucket_spec (H0 := sample_connection) sample_close_returns "travel" sample_client).
Defined.
