(* ===== verification/CrudOps.v ===== *)
(** * The key-value operations of the agent ([crudcomponent.rs])

    Each operation builds its request from its options and the collection id and
    vbucket it was resolved to, sends it on a client ([KvClientOps]), puts the
    document and the keyspace into an error and turns the response into a result.
    [crud_upsert] and the others run that closure through all layers ([Crud.v]).

    [snap::raw::Encoder::compress_vec] and [serde] are parameters, as in [Crud.v]. *)

From Stdlib Require Import SpecFloat.
From S2P Require Import Prelude Wire MemdError Codec Requests OpsCore OpsCrud Response.
From S2P Require Import Client PendingOp Scram Bootstrap CoreError Vbucket Retry Collections.
From S2P Require Import CrudOptions Crud KvClient.

(** ** Operations *)

Section Operations.
Context {P : Profile} {S C T TerseConfig : Type}
  `{VbucketRouter S, CollectionResolver S, KvEndpointClientManager S C, RetryStrategy T,
    KvClientOps S C}.
Context (err_map_component : ErrMapComponent) (from_str : list Z → option TerseConfig)
  (not_my_vbucket_config : TerseConfig → string → S → S)
  (compress_vec : list Z → list Z + string) (compression_mode : CompressionMode).

(** [self.compression_manager.compressor().compress(..)], with its early return. *)
Definition with_compressed {A} (client : C) (datatype : DataTypeFlag) (value : list Z)
    (k : list Z → Z → action S A) : action S A := λ st,
  match compress compress_vec (std_compressor_new compression_mode)
          (kc_has_feature client HelloFeature.Snappy st) datatype value with
  | Ok (value, datatype) => k value datatype st
  | Err e => (st, Some (Err e))
  | Panic => (st, Some Panic)
  end.

(** [.map_err(..).map_ok(..)]: both closures read the bucket of the client. *)
Definition with_context {A B} (client : C) (key : list Z) (scope_name collection_name : string)
    (f : option string → A → B) (m : kv_action S A) : action S B := λ st,
  let '(st, r) := m st in
  (st,
   match r with
   | Some (Ok resp) => Some (Ok (f (kc_bucket_name client st) resp))
   | Some (Err e) =>
       Some (Err (Core.new_contextual_memdx_error
         (Core.update_memdx_err (kc_bucket_name client st) e key scope_name collection_name)))
   | Some Panic => Some Panic
   | None => None
   end).

(** [MutationToken { vbid: vbucket_id, vbuuid: t.vbuuid, seqno: t.seqno }]. *)
Definition kv_token (vbucket_id : Z) (t : MutationToken) : KvMutationToken :=
  KvMutationToken.mk vbucket_id (vbuuid t) (seqno t).

(** The result of one sub-document operation, its error with its context. *)
Definition subdoc_result (bucket : option string) (key : list Z) (scope_name collection_name : string)
    (o : SubDocResult) : KvSubDocResult :=
  KvSubDocResult.mk
    ((λ e, Core.update_memdx_err bucket (Core.memdx_error_new e) key scope_name collection_name)
       <$> SubDocResult.err o)
    (SubDocResult.value o).

Abbreviation run_result A := (S * list (RetryReason * Duration) * option (outcome Core.Error A))%type.

(** [self.orchestrate_simple_crud(.., RetryRequest::new(name, is_idempotent), ..)]. *)
Definition crud_run {A} (attempts clients : nat) (key : list Z) (retry_strategy : T) (name : string)
    (is_idempotent : bool) (scope_name collection_name : string) (operation : Z → Z → C → action S A)
    : S → run_result A :=
  orchestrate_simple_crud err_map_component from_str not_my_vbucket_config attempts clients key
    retry_strategy (retry_request_new name is_idempotent) scope_name collection_name operation.

Definition upsert_op (opts : UpsertOptions T) (collection_id vbucket_id : Z)
  (client : C) : action S UpsertResult :=
  with_compressed client (UpsertOptions.datatype opts) (UpsertOptions.value opts) (λ value datatype,
  with_context client (UpsertOptions.key opts) (UpsertOptions.scope_name opts)
    (UpsertOptions.collection_name opts)
    (λ _ resp,
      UpsertResult.mk (mr_cas resp) (kv_token vbucket_id <$> mr_mutation_token resp))
    (kc_set client (SetRequest.mk collection_id (UpsertOptions.key opts) vbucket_id
      (UpsertOptions.flags opts) value datatype (UpsertOptions.expiry opts)
        (UpsertOptions.preserve_expiry opts) (UpsertOptions.cas opts) None
          (UpsertOptions.durability_level opts) None))).

Definition crud_upsert (attempts clients : nat)
  (opts : UpsertOptions T) : S → run_result UpsertResult :=
  crud_run attempts clients (UpsertOptions.key opts)
    (UpsertOptions.retry_strategy opts) "upsert" false
    (UpsertOptions.scope_name opts) (UpsertOptions.collection_name opts) (upsert_op opts).

Definition get_op (opts : GetOptions T) (collection_id vbucket_id : Z)
  (client : C) : action S GetResult :=
  with_context client (GetOptions.key opts) (GetOptions.scope_name opts)
    (GetOptions.collection_name opts)
    (λ _ resp,
      GetResult.mk (gr_value resp) (gr_flags resp) (gr_datatype resp) (gr_cas resp))
    (kc_get client (GetRequest.mk collection_id (GetOptions.key opts) vbucket_id None)).

Definition crud_get (attempts clients : nat) (opts : GetOptions T) : S → run_result GetResult :=
  crud_run attempts clients (GetOptions.key opts) (GetOptions.retry_strategy opts) "get" true
    (GetOptions.scope_name opts) (GetOptions.collection_name opts) (get_op opts).

Definition get_meta_op (opts : GetMetaOptions T) (collection_id vbucket_id : Z)
  (client : C) : action S GetMetaResult :=
  with_context client (GetMetaOptions.key opts) (GetMetaOptions.scope_name opts)
    (GetMetaOptions.collection_name opts)
    (λ _ resp,
      GetMetaResult.mk (gm_cas resp) (gm_flags resp) (gm_value resp) (gm_datatype resp)
        (gm_server_duration resp) (gm_expiry resp) (gm_seq_no resp) (gm_deleted resp))
    (kc_get_meta client (GetMetaRequest.mk collection_id (GetMetaOptions.key opts) vbucket_id None)).

Definition crud_get_meta (attempts clients : nat)
  (opts : GetMetaOptions T) : S → run_result GetMetaResult :=
  crud_run attempts clients (GetMetaOptions.key opts)
    (GetMetaOptions.retry_strategy opts) "get_meta" true
    (GetMetaOptions.scope_name opts) (GetMetaOptions.collection_name opts) (get_meta_op opts).

Definition delete_op (opts : DeleteOptions T) (collection_id vbucket_id : Z)
  (client : C) : action S DeleteResult :=
  with_context client (DeleteOptions.key opts) (DeleteOptions.scope_name opts)
    (DeleteOptions.collection_name opts)
    (λ _ resp,
      DeleteResult.mk (mr_cas resp) (kv_token vbucket_id <$> mr_mutation_token resp))
    (kc_delete client (DeleteRequest.mk collection_id (DeleteOptions.key opts) vbucket_id
      (DeleteOptions.cas opts) None (DeleteOptions.durability_level opts) None)).

Definition crud_delete (attempts clients : nat)
  (opts : DeleteOptions T) : S → run_result DeleteResult :=
  crud_run attempts clients (DeleteOptions.key opts)
    (DeleteOptions.retry_strategy opts) "delete" false
    (DeleteOptions.scope_name opts) (DeleteOptions.collection_name opts) (delete_op opts).

Definition get_and_lock_op (opts : GetAndLockOptions T) (collection_id vbucket_id : Z)
  (client : C) : action S GetAndLockResult :=
  with_context client (GetAndLockOptions.key opts) (GetAndLockOptions.scope_name opts)
    (GetAndLockOptions.collection_name opts)
    (λ _ resp,
      GetAndLockResult.mk (gr_value resp) (gr_flags resp) (gr_datatype resp) (gr_cas resp))
    (kc_get_and_lock client (GetAndLockRequest.mk collection_id
      (GetAndLockOptions.key opts) vbucket_id (GetAndLockOptions.lock_time opts) None)).

Definition crud_get_and_lock (attempts clients : nat)
  (opts : GetAndLockOptions T) : S → run_result GetAndLockResult :=
  crud_run attempts clients (GetAndLockOptions.key opts)
    (GetAndLockOptions.retry_strategy opts) "get_and_lock" false
    (GetAndLockOptions.scope_name opts) (GetAndLockOptions.collection_name opts)
      (get_and_lock_op opts).

Definition get_and_touch_op (opts : GetAndTouchOptions T) (collection_id vbucket_id : Z)
  (client : C) : action S GetAndTouchResult :=
  with_context client (GetAndTouchOptions.key opts) (GetAndTouchOptions.scope_name opts)
    (GetAndTouchOptions.collection_name opts)
    (λ _ resp,
      GetAndTouchResult.mk (gr_value resp) (gr_flags resp) (gr_datatype resp) (gr_cas resp))
    (kc_get_and_touch client (GetAndTouchRequest.mk collection_id
      (GetAndTouchOptions.key opts) vbucket_id (GetAndTouchOptions.expiry opts) None)).

Definition crud_get_and_touch (attempts clients : nat)
  (opts : GetAndTouchOptions T) : S → run_result GetAndTouchResult :=
  crud_run attempts clients (GetAndTouchOptions.key opts)
    (GetAndTouchOptions.retry_strategy opts) "get_and_touch" false
    (GetAndTouchOptions.scope_name opts) (GetAndTouchOptions.collection_name opts)
      (get_and_touch_op opts).

Definition unlock_op (opts : UnlockOptions T) (collection_id vbucket_id : Z)
  (client : C) : action S UnlockResult :=
  with_context client (UnlockOptions.key opts) (UnlockOptions.scope_name opts)
    (UnlockOptions.collection_name opts)
    (λ _ _, UnlockResult.mk)
    (kc_unlock client (UnlockRequest.mk collection_id (UnlockOptions.key opts) vbucket_id
      (UnlockOptions.cas opts) None)).

Definition crud_unlock (attempts clients : nat)
  (opts : UnlockOptions T) : S → run_result UnlockResult :=
  crud_run attempts clients (UnlockOptions.key opts)
    (UnlockOptions.retry_strategy opts) "unlock" false
    (UnlockOptions.scope_name opts) (UnlockOptions.collection_name opts) (unlock_op opts).

Definition touch_op (opts : TouchOptions T) (collection_id vbucket_id : Z)
  (client : C) : action S TouchResult :=
  with_context client (TouchOptions.key opts) (TouchOptions.scope_name opts)
    (TouchOptions.collection_name opts)
    (λ _ resp, TouchResult.mk (th_cas resp))
    (kc_touch client (TouchRequest.mk collection_id (TouchOptions.key opts) vbucket_id
      (TouchOptions.expiry opts) None)).

Definition crud_touch (attempts clients : nat) (opts : TouchOptions T) : S → run_result TouchResult :=
  crud_run attempts clients (TouchOptions.key opts) (TouchOptions.retry_strategy opts) "touch" false
    (TouchOptions.scope_name opts) (TouchOptions.collection_name opts) (touch_op opts).

Definition add_op (opts : AddOptions T) (collection_id vbucket_id : Z)
  (client : C) : action S AddResult :=
  with_compressed client (AddOptions.datatype opts) (AddOptions.value opts) (λ value datatype,
  with_context client (AddOptions.key opts) (AddOptions.scope_name opts)
    (AddOptions.collection_name opts)
    (λ _ resp,
      AddResult.mk (mr_cas resp) (kv_token vbucket_id <$> mr_mutation_token resp))
    (kc_add client (AddRequest.mk collection_id (AddOptions.key opts) vbucket_id
      (AddOptions.flags opts) value datatype (AddOptions.expiry opts) None
        (AddOptions.durability_level opts) None))).

Definition crud_add (attempts clients : nat) (opts : AddOptions T) : S → run_result AddResult :=
  crud_run attempts clients (AddOptions.key opts) (AddOptions.retry_strategy opts) "add" false
    (AddOptions.scope_name opts) (AddOptions.collection_name opts) (add_op opts).

Definition replace_op (opts : ReplaceOptions T) (collection_id vbucket_id : Z)
  (client : C) : action S ReplaceResult :=
  with_compressed client (ReplaceOptions.datatype opts) (ReplaceOptions.value opts) (λ value datatype,
  with_context client (ReplaceOptions.key opts) (ReplaceOptions.scope_name opts)
    (ReplaceOptions.collection_name opts)
    (λ _ resp,
      ReplaceResult.mk (mr_cas resp) (kv_token vbucket_id <$> mr_mutation_token resp))
    (kc_replace client (ReplaceRequest.mk collection_id (ReplaceOptions.key opts) vbucket_id
      (ReplaceOptions.flags opts) value datatype (ReplaceOptions.expiry opts)
        (ReplaceOptions.preserve_expiry opts) (ReplaceOptions.cas opts) None
          (ReplaceOptions.durability_level opts) None))).

Definition crud_replace (attempts clients : nat)
  (opts : ReplaceOptions T) : S → run_result ReplaceResult :=
  crud_run attempts clients (ReplaceOptions.key opts)
    (ReplaceOptions.retry_strategy opts) "replace" false
    (ReplaceOptions.scope_name opts) (ReplaceOptions.collection_name opts) (replace_op opts).

Definition append_op (opts : AppendOptions T) (collection_id vbucket_id : Z)
  (client : C) : action S AppendResult :=
  with_compressed client DataTypeFlag.None_ (AppendOptions.value opts) (λ value datatype,
  with_context client (AppendOptions.key opts) (AppendOptions.scope_name opts)
    (AppendOptions.collection_name opts)
    (λ _ resp,
      AppendResult.mk (mr_cas resp) (kv_token vbucket_id <$> mr_mutation_token resp))
    (kc_append client (AppendRequest.mk collection_id
      (AppendOptions.key opts) vbucket_id value datatype (AppendOptions.cas opts) None
        (AppendOptions.durability_level opts) None))).

Definition crud_append (attempts clients : nat)
  (opts : AppendOptions T) : S → run_result AppendResult :=
  crud_run attempts clients (AppendOptions.key opts)
    (AppendOptions.retry_strategy opts) "append" false
    (AppendOptions.scope_name opts) (AppendOptions.collection_name opts) (append_op opts).

Definition prepend_op (opts : PrependOptions T) (collection_id vbucket_id : Z)
  (client : C) : action S PrependResult :=
  with_compressed client DataTypeFlag.None_ (PrependOptions.value opts) (λ value datatype,
  with_context client (PrependOptions.key opts) (PrependOptions.scope_name opts)
    (PrependOptions.collection_name opts)
    (λ _ resp,
      PrependResult.mk (mr_cas resp) (kv_token vbucket_id <$> mr_mutation_token resp))
    (kc_prepend client (PrependRequest.mk collection_id
      (PrependOptions.key opts) vbucket_id value datatype (PrependOptions.cas opts) None
        (PrependOptions.durability_level opts) None))).

Definition crud_prepend (attempts clients : nat)
  (opts : PrependOptions T) : S → run_result PrependResult :=
  crud_run attempts clients (PrependOptions.key opts)
    (PrependOptions.retry_strategy opts) "prepend" false
    (PrependOptions.scope_name opts) (PrependOptions.collection_name opts) (prepend_op opts).

Definition increment_op (opts : IncrementOptions T) (collection_id vbucket_id : Z)
  (client : C) : action S IncrementResult :=
  with_context client (IncrementOptions.key opts) (IncrementOptions.scope_name opts)
    (IncrementOptions.collection_name opts)
    (λ _ resp,
      IncrementResult.mk (cr_cas resp) (cr_value resp)
        (kv_token vbucket_id <$> cr_mutation_token resp))
    (kc_increment client (IncrementRequest.mk collection_id (IncrementOptions.key opts) vbucket_id
      (IncrementOptions.initial opts) (IncrementOptions.delta opts)
        (IncrementOptions.expiry opts) None (IncrementOptions.durability_level opts) None)).

Definition crud_increment (attempts clients : nat)
  (opts : IncrementOptions T) : S → run_result IncrementResult :=
  crud_run attempts clients (IncrementOptions.key opts)
    (IncrementOptions.retry_strategy opts) "increment" false
    (IncrementOptions.scope_name opts) (IncrementOptions.collection_name opts) (increment_op opts).

Definition decrement_op (opts : DecrementOptions T) (collection_id vbucket_id : Z)
  (client : C) : action S DecrementResult :=
  with_context client (DecrementOptions.key opts) (DecrementOptions.scope_name opts)
    (DecrementOptions.collection_name opts)
    (λ _ resp,
      DecrementResult.mk (cr_cas resp) (cr_value resp)
        (kv_token vbucket_id <$> cr_mutation_token resp))
    (kc_decrement client (DecrementRequest.mk collection_id (DecrementOptions.key opts) vbucket_id
      (DecrementOptions.initial opts) (DecrementOptions.delta opts)
        (DecrementOptions.expiry opts) None (DecrementOptions.durability_level opts) None)).

Definition crud_decrement (attempts clients : nat)
  (opts : DecrementOptions T) : S → run_result DecrementResult :=
  crud_run attempts clients (DecrementOptions.key opts)
    (DecrementOptions.retry_strategy opts) "decrement" false
    (DecrementOptions.scope_name opts) (DecrementOptions.collection_name opts) (decrement_op opts).

Definition lookup_in_op (opts : LookupInOptions T) (collection_id vbucket_id : Z)
  (client : C) : action S LookupInResult :=
  with_context client (LookupInOptions.key opts) (LookupInOptions.scope_name opts)
    (LookupInOptions.collection_name opts)
    (λ bucket resp,
      LookupInResult.mk (subdoc_result bucket (LookupInOptions.key opts)
        (LookupInOptions.scope_name opts) (LookupInOptions.collection_name opts)
          <$> li_ops resp) (li_cas resp) (li_doc_is_deleted resp))
    (kc_lookup_in client (LookupInRequest.mk collection_id (LookupInOptions.key opts) vbucket_id
      (LookupInOptions.flags opts) (LookupInOptions.ops opts) None)).

Definition crud_lookup_in (attempts clients : nat)
  (opts : LookupInOptions T) : S → run_result LookupInResult :=
  crud_run attempts clients (LookupInOptions.key opts)
    (LookupInOptions.retry_strategy opts) "lookup_in" true
    (LookupInOptions.scope_name opts) (LookupInOptions.collection_name opts) (lookup_in_op opts).

Definition mutate_in_op (opts : MutateInOptions T) (collection_id vbucket_id : Z)
  (client : C) : action S MutateInResult :=
  with_context client (MutateInOptions.key opts) (MutateInOptions.scope_name opts)
    (MutateInOptions.collection_name opts)
    (λ bucket resp,
      MutateInResult.mk (subdoc_result bucket (MutateInOptions.key opts)
        (MutateInOptions.scope_name opts) (MutateInOptions.collection_name opts)
          <$> mi_ops resp) (mi_cas resp)
        (kv_token vbucket_id <$> mi_mutation_token resp))
    (kc_mutate_in client (MutateInRequest.mk collection_id (MutateInOptions.key opts) vbucket_id
      (MutateInOptions.flags opts) (MutateInOptions.ops opts) (MutateInOptions.expiry opts)
        (MutateInOptions.preserve_expiry opts) (MutateInOptions.cas opts) None
          (MutateInOptions.durability_level opts) None)).

Definition crud_mutate_in (attempts clients : nat)
  (opts : MutateInOptions T) : S → run_result MutateInResult :=
  crud_run attempts clients (MutateInOptions.key opts)
    (MutateInOptions.retry_strategy opts) "mutate_in" false
    (MutateInOptions.scope_name opts) (MutateInOptions.collection_name opts) (mutate_in_op opts).

(** ** Resolving a collection id ([CrudComponent::get_collection_id])

    The loop of [orchestrate_retries] on any connection, but an unknown collection
    is returned at once. *)

Definition get_collection_id_attempt (clients : nat) (opts : GetCollectionIdOptions T)
    : action S GetCollectionIdResult :=
  orchestrate_kv_client clients (λ client st,
    let scope_name := GetCollectionIdOptions.scope_name opts in
    let collection_name := GetCollectionIdOptions.collection_name opts in
    let '(st, r) := kc_get_collection_id client (GetCollectionIdRequest.mk scope_name collection_name) st in
    (st,
     match r with
     | Some (Ok resp) =>
         Some (Ok (GetCollectionIdResult.mk (gci_manifest_rev resp) (gci_collection_id resp)))
     | Some (Err e) =>
         Some (Err (Core.new_contextual_memdx_error
           (Core.mkMemdxError (Core.source e) (Core.dispatched_to e) (Core.dispatched_from e)
              (Core.doc_id e) (Some (default ""%string (kc_bucket_name client st)))
              (Some scope_name) (Some collection_name))))
     | Some Panic => Some Panic
     | None => None
     end)).

Fixpoint get_collection_id_loop (attempts clients : nat) (opts : GetCollectionIdOptions T)
    (retry_info : RetryRequest) (st : S) : S * option (outcome Core.Error GetCollectionIdResult) :=
  match attempts with
  | O => (st, None)
  | Datatypes.S attempts =>
      match get_collection_id_attempt clients opts st with
      | (st, Some (Err err)) =>
          let unknown :=
            match Core.is_memdx_error err with
            | Some memdx_err => is_server_error_kind memdx_err ServerErrorKind.UnknownCollectionName
            | None => false
            end in
          if unknown then (st, Some (Err err))
          else
            match decide_retry err_map_component (GetCollectionIdOptions.retry_strategy opts)
                    retry_info err with
            | Again retry_info _ _ => get_collection_id_loop attempts clients opts retry_info st
            | GiveUp e => (st, Some (Err e))
            | Crash => (st, Some Panic)
            end
      | res => res
      end
  end.

Definition crud_get_collection_id (attempts clients : nat) (opts : GetCollectionIdOptions T)
    : action S GetCollectionIdResult :=
  get_collection_id_loop attempts clients opts (retry_request_new "get_collection_id" true).

End Operations.

(** ** The operations together *)

Module CrudOp.
Inductive CrudOp (T : Type) : Type :=
| Upsert (opts : UpsertOptions T)
| Get (opts : GetOptions T)
| GetMeta (opts : GetMetaOptions T)
| Delete (opts : DeleteOptions T)
| GetAndLock (opts : GetAndLockOptions T)
| GetAndTouch (opts : GetAndTouchOptions T)
| Unlock (opts : UnlockOptions T)
| Touch (opts : TouchOptions T)
| Add (opts : AddOptions T)
| Replace (opts : ReplaceOptions T)
| Append (opts : AppendOptions T)
| Prepend (opts : PrependOptions T)
| Increment (opts : IncrementOptions T)
| Decrement (opts : DecrementOptions T)
| LookupIn (opts : LookupInOptions T)
| MutateIn (opts : MutateInOptions T).
Arguments Upsert {T} opts.
Arguments Get {T} opts.
Arguments GetMeta {T} opts.
Arguments Delete {T} opts.
Arguments GetAndLock {T} opts.
Arguments GetAndTouch {T} opts.
Arguments Unlock {T} opts.
Arguments Touch {T} opts.
Arguments Add {T} opts.
Arguments Replace {T} opts.
Arguments Append {T} opts.
Arguments Prepend {T} opts.
Arguments Increment {T} opts.
Arguments Decrement {T} opts.
Arguments LookupIn {T} opts.
Arguments MutateIn {T} opts.
End CrudOp.
Abbreviation CrudOp := CrudOp.CrudOp.

Module CrudResult.
Inductive CrudResult : Type :=
| Upsert (r : UpsertResult)
| Get (r : GetResult)
| GetMeta (r : GetMetaResult)
| Delete (r : DeleteResult)
| GetAndLock (r : GetAndLockResult)
| GetAndTouch (r : GetAndTouchResult)
| Unlock (r : UnlockResult)
| Touch (r : TouchResult)
| Add (r : AddResult)
| Replace (r : ReplaceResult)
| Append (r : AppendResult)
| Prepend (r : PrependResult)
| Increment (r : IncrementResult)
| Decrement (r : DecrementResult)
| LookupIn (r : LookupInResult)
| MutateIn (r : MutateInResult).
End CrudResult.
Abbreviation CrudResult := CrudResult.CrudResult.

(** The result of an action, converted. *)
Definition action_map {S A B} (f : A → B) (m : action S A) : action S B := λ st,
  let '(st, r) := m st in (st, match r with Some o => Some (f <$> o) | None => None end).

Section Closure.
Context {S C T : Type} `{KvClientOps S C}
  (compress_vec : list Z → list Z + string) (compression_mode : CompressionMode).

(** The closure an operation passes to [orchestrate_simple_crud]. *)
Definition crud_closure (o : CrudOp T) (collection_id vbucket_id : Z) (client : C)
    : action S CrudResult :=
  match o with
  | CrudOp.Upsert opts =>
      action_map CrudResult.Upsert (upsert_op compress_vec compression_mode opts collection_id vbucket_id client)
  | CrudOp.Get opts =>
      action_map CrudResult.Get (get_op opts collection_id vbucket_id client)
  | CrudOp.GetMeta opts =>
      action_map CrudResult.GetMeta (get_meta_op opts collection_id vbucket_id client)
  | CrudOp.Delete opts =>
      action_map CrudResult.Delete (delete_op opts collection_id vbucket_id client)
  | CrudOp.GetAndLock opts =>
      action_map CrudResult.GetAndLock (get_and_lock_op opts collection_id vbucket_id client)
  | CrudOp.GetAndTouch opts =>
      action_map CrudResult.GetAndTouch (get_and_touch_op opts collection_id vbucket_id client)
  | CrudOp.Unlock opts =>
      action_map CrudResult.Unlock (unlock_op opts collection_id vbucket_id client)
  | CrudOp.Touch opts =>
      action_map CrudResult.Touch (touch_op opts collection_id vbucket_id client)
  | CrudOp.Add opts =>
      action_map CrudResult.Add (add_op compress_vec compression_mode opts collection_id vbucket_id client)
  | CrudOp.Replace opts =>
      action_map CrudResult.Replace (replace_op compress_vec compression_mode opts collection_id vbucket_id client)
  | CrudOp.Append opts =>
      action_map CrudResult.Append (append_op compress_vec compression_mode opts collection_id vbucket_id client)
  | CrudOp.Prepend opts =>
      action_map CrudResult.Prepend (prepend_op compress_vec compression_mode opts collection_id vbucket_id client)
  | CrudOp.Increment opts =>
      action_map CrudResult.Increment (increment_op opts collection_id vbucket_id client)
  | CrudOp.Decrement opts =>
      action_map CrudResult.Decrement (decrement_op opts collection_id vbucket_id client)
  | CrudOp.LookupIn opts =>
      action_map CrudResult.LookupIn (lookup_in_op opts collection_id vbucket_id client)
  | CrudOp.MutateIn opts =>
      action_map CrudResult.MutateIn (mutate_in_op opts collection_id vbucket_id client)
  end.
End Closure.

Section Fields.
Context {T : Type}.

(** Key, scope and collection of an operation. *)
Definition op_key (o : CrudOp T) : list Z :=
  match o with
  | CrudOp.Upsert opts => UpsertOptions.key opts
  | CrudOp.Get opts => GetOptions.key opts
  | CrudOp.GetMeta opts => GetMetaOptions.key opts
  | CrudOp.Delete opts => DeleteOptions.key opts
  | CrudOp.GetAndLock opts => GetAndLockOptions.key opts
  | CrudOp.GetAndTouch opts => GetAndTouchOptions.key opts
  | CrudOp.Unlock opts => UnlockOptions.key opts
  | CrudOp.Touch opts => TouchOptions.key opts
  | CrudOp.Add opts => AddOptions.key opts
  | CrudOp.Replace opts => ReplaceOptions.key opts
  | CrudOp.Append opts => AppendOptions.key opts
  | CrudOp.Prepend opts => PrependOptions.key opts
  | CrudOp.Increment opts => IncrementOptions.key opts
  | CrudOp.Decrement opts => DecrementOptions.key opts
  | CrudOp.LookupIn opts => LookupInOptions.key opts
  | CrudOp.MutateIn opts => MutateInOptions.key opts
  end.
Definition op_scope (o : CrudOp T) : string :=
  match o with
  | CrudOp.Upsert opts => UpsertOptions.scope_name opts
  | CrudOp.Get opts => GetOptions.scope_name opts
  | CrudOp.GetMeta opts => GetMetaOptions.scope_name opts
  | CrudOp.Delete opts => DeleteOptions.scope_name opts
  | CrudOp.GetAndLock opts => GetAndLockOptions.scope_name opts
  | CrudOp.GetAndTouch opts => GetAndTouchOptions.scope_name opts
  | CrudOp.Unlock opts => UnlockOptions.scope_name opts
  | CrudOp.Touch opts => TouchOptions.scope_name opts
  | CrudOp.Add opts => AddOptions.scope_name opts
  | CrudOp.Replace opts => ReplaceOptions.scope_name opts
  | CrudOp.Append opts => AppendOptions.scope_name opts
  | CrudOp.Prepend opts => PrependOptions.scope_name opts
  | CrudOp.Increment opts => IncrementOptions.scope_name opts
  | CrudOp.Decrement opts => DecrementOptions.scope_name opts
  | CrudOp.LookupIn opts => LookupInOptions.scope_name opts
  | CrudOp.MutateIn opts => MutateInOptions.scope_name opts
  end.
Definition op_collection (o : CrudOp T) : string :=
  match o with
  | CrudOp.Upsert opts => UpsertOptions.collection_name opts
  | CrudOp.Get opts => GetOptions.collection_name opts
  | CrudOp.GetMeta opts => GetMetaOptions.collection_name opts
  | CrudOp.Delete opts => DeleteOptions.collection_name opts
  | CrudOp.GetAndLock opts => GetAndLockOptions.collection_name opts
  | CrudOp.GetAndTouch opts => GetAndTouchOptions.collection_name opts
  | CrudOp.Unlock opts => UnlockOptions.collection_name opts
  | CrudOp.Touch opts => TouchOptions.collection_name opts
  | CrudOp.Add opts => AddOptions.collection_name opts
  | CrudOp.Replace opts => ReplaceOptions.collection_name opts
  | CrudOp.Append opts => AppendOptions.collection_name opts
  | CrudOp.Prepend opts => PrependOptions.collection_name opts
  | CrudOp.Increment opts => IncrementOptions.collection_name opts
  | CrudOp.Decrement opts => DecrementOptions.collection_name opts
  | CrudOp.LookupIn opts => LookupInOptions.collection_name opts
  | CrudOp.MutateIn opts => MutateInOptions.collection_name opts
  end.

(** The value of an operation that stores one, with the datatype it declares. *)
Definition op_value (o : CrudOp T) : option (list Z * DataTypeFlag) :=
  match o with
  | CrudOp.Upsert opts => Some (UpsertOptions.value opts, UpsertOptions.datatype opts)
  | CrudOp.Add opts => Some (AddOptions.value opts, AddOptions.datatype opts)
  | CrudOp.Replace opts => Some (ReplaceOptions.value opts, ReplaceOptions.datatype opts)
  | CrudOp.Append opts => Some (AppendOptions.value opts, DataTypeFlag.None_)
  | CrudOp.Prepend opts => Some (PrependOptions.value opts, DataTypeFlag.None_)
  | _ => None
  end.

(** What an operation asks for, read off its options: the request that has to reach
    the server, when the value is sent as [value] with the datatype [datatype]. *)
Definition op_intent (o : CrudOp T) (cid vb : Z) (value : list Z) (datatype : Z) : Intent :=
  let flags_expiry flags expiry := be_bytes 4 flags ++ be_bytes 4 (unwrap_or_default expiry) in
  match o with
  | CrudOp.Upsert o' =>
      Build_Intent OpCode.Set_ cid (op_key o) vb datatype (UpsertOptions.cas o')
        (flags_expiry (UpsertOptions.flags o') (UpsertOptions.expiry o')) (Some value)
        (req_frames (UpsertOptions.durability_level o') None (UpsertOptions.preserve_expiry o') None)
  | CrudOp.Get _ =>
      Build_Intent OpCode.Get cid (op_key o) vb 0 None [] None []
  | CrudOp.GetMeta _ =>
      Build_Intent OpCode.GetMeta cid (op_key o) vb 0 None [2] None []
  | CrudOp.Delete o' =>
      Build_Intent OpCode.Delete cid (op_key o) vb 0 (DeleteOptions.cas o') [] None
        (req_frames (DeleteOptions.durability_level o') None None None)
  | CrudOp.GetAndLock o' =>
      Build_Intent OpCode.GetLocked cid (op_key o) vb 0 None (be_bytes 4 (GetAndLockOptions.lock_time o'))
        None []
  | CrudOp.GetAndTouch o' =>
      Build_Intent OpCode.GAT cid (op_key o) vb 0 None (be_bytes 4 (GetAndTouchOptions.expiry o')) None []
  | CrudOp.Unlock o' =>
      Build_Intent OpCode.UnlockKey cid (op_key o) vb 0 (Some (UnlockOptions.cas o')) [] None []
  | CrudOp.Touch o' =>
      Build_Intent OpCode.Touch cid (op_key o) vb 0 None (be_bytes 4 (TouchOptions.expiry o')) None []
  | CrudOp.Add o' =>
      Build_Intent OpCode.Add cid (op_key o) vb datatype None
        (flags_expiry (AddOptions.flags o') (AddOptions.expiry o')) (Some value)
        (req_frames (AddOptions.durability_level o') None None None)
  | CrudOp.Replace o' =>
      Build_Intent OpCode.Replace cid (op_key o) vb datatype (ReplaceOptions.cas o')
        (flags_expiry (ReplaceOptions.flags o') (ReplaceOptions.expiry o')) (Some value)
        (req_frames (ReplaceOptions.durability_level o') None (ReplaceOptions.preserve_expiry o') None)
  | CrudOp.Append o' =>
      Build_Intent OpCode.Append cid (op_key o) vb datatype (AppendOptions.cas o') [] (Some value)
        (req_frames (AppendOptions.durability_level o') None None None)
  | CrudOp.Prepend o' =>
      Build_Intent OpCode.Prepend cid (op_key o) vb datatype (PrependOptions.cas o') [] (Some value)
        (req_frames (PrependOptions.durability_level o') None None None)
  | CrudOp.Increment o' =>
      Build_Intent OpCode.Increment cid (op_key o) vb 0 None
        (OpsCrud.encode_counter_values (IncrementOptions.delta o') (IncrementOptions.initial o')
           (IncrementOptions.expiry o')) None
        (req_frames (IncrementOptions.durability_level o') None None None)
  | CrudOp.Decrement o' =>
      Build_Intent OpCode.Decrement cid (op_key o) vb 0 None
        (OpsCrud.encode_counter_values (DecrementOptions.delta o') (DecrementOptions.initial o')
           (DecrementOptions.expiry o')) None
        (req_frames (DecrementOptions.durability_level o') None None None)
  | CrudOp.LookupIn o' =>
      Build_Intent OpCode.SubDocMultiLookup cid (op_key o) vb 0 None
        (if flags_is_empty (LookupInOptions.flags o') then [] else [LookupInOptions.flags o'])
        (Some (lookup_body (LookupInOptions.ops o'))) []
  | CrudOp.MutateIn o' =>
      Build_Intent OpCode.SubDocMultiMutation cid (op_key o) vb 0 (MutateInOptions.cas o')
        (be_bytes 4 (unwrap_or_default (MutateInOptions.expiry o'))
         ++ (if flags_is_empty (MutateInOptions.flags o') then [] else [MutateInOptions.flags o']))
        (Some (mutate_body (MutateInOptions.ops o')))
        (req_frames (MutateInOptions.durability_level o') None (MutateInOptions.preserve_expiry o') None)
  end.
End Fields.

(** ** What an operation sends *)

Lemma action_map_context {S C A B R} `{KvClientOps S C} (client : C) key scope coll
    (f : option string → A → B) (g : B → R) (m : kv_action S A) (st : S) :
  action_map g (with_context client key scope coll f m) st
  = with_context client key scope coll (λ b r, g (f b r)) m st.
Proof. unfold action_map, with_context. by destruct (m st) as [st' [[]|]]. Qed.

Lemma action_map_compressed {S C A R} `{KvClientOps S C} compress_vec mode (client : C) flag value
    (k : list Z → Z → action S A) (g : A → R) (st : S) :
  action_map g (with_compressed compress_vec mode client flag value k) st
  = match compress compress_vec (std_compressor_new mode)
            (kc_has_feature client HelloFeature.Snappy st) flag value with
    | Ok (v, d) => action_map g (k v d) st
    | Err e => (st, Some (Err e))
    | Panic => (st, Some Panic)
    end.
Proof. unfold action_map, with_compressed. by destruct (compress _ _ _ _ _) as [[]| |]. Qed.

(** The request an operation builds. *)
Definition op_request {T} (o : CrudOp T) (cid vb : Z) (v : list Z) (d : Z) : CrudRequest.CrudRequest :=
  match o with
  | CrudOp.Upsert o => CrudRequest.Set_ (SetRequest.mk cid (UpsertOptions.key o) vb
      (UpsertOptions.flags o) v d (UpsertOptions.expiry o) (UpsertOptions.preserve_expiry o)
      (UpsertOptions.cas o) None (UpsertOptions.durability_level o) None)
  | CrudOp.Get o => CrudRequest.Get (GetRequest.mk cid (GetOptions.key o) vb None)
  | CrudOp.GetMeta o => CrudRequest.GetMeta (GetMetaRequest.mk cid (GetMetaOptions.key o) vb None)
  | CrudOp.Delete o => CrudRequest.Delete (DeleteRequest.mk cid (DeleteOptions.key o) vb
      (DeleteOptions.cas o) None (DeleteOptions.durability_level o) None)
  | CrudOp.GetAndLock o => CrudRequest.GetAndLock (GetAndLockRequest.mk cid (GetAndLockOptions.key o) vb
      (GetAndLockOptions.lock_time o) None)
  | CrudOp.GetAndTouch o => CrudRequest.GetAndTouch (GetAndTouchRequest.mk cid
      (GetAndTouchOptions.key o) vb (GetAndTouchOptions.expiry o) None)
  | CrudOp.Unlock o => CrudRequest.Unlock (UnlockRequest.mk cid (UnlockOptions.key o) vb
      (UnlockOptions.cas o) None)
  | CrudOp.Touch o => CrudRequest.Touch (TouchRequest.mk cid (TouchOptions.key o) vb
      (TouchOptions.expiry o) None)
  | CrudOp.Add o => CrudRequest.Add (AddRequest.mk cid (AddOptions.key o) vb (AddOptions.flags o) v d
      (AddOptions.expiry o) None (AddOptions.durability_level o) None)
  | CrudOp.Replace o => CrudRequest.Replace (ReplaceRequest.mk cid (ReplaceOptions.key o) vb
      (ReplaceOptions.flags o) v d (ReplaceOptions.expiry o) (ReplaceOptions.preserve_expiry o)
      (ReplaceOptions.cas o) None (ReplaceOptions.durability_level o) None)
  | CrudOp.Append o => CrudRequest.Append (AppendRequest.mk cid (AppendOptions.key o) vb v d
      (AppendOptions.cas o) None (AppendOptions.durability_level o) None)
  | CrudOp.Prepend o => CrudRequest.Prepend (PrependRequest.mk cid (PrependOptions.key o) vb v d
      (PrependOptions.cas o) None (PrependOptions.durability_level o) None)
  | CrudOp.Increment o => CrudRequest.Increment (IncrementRequest.mk cid (IncrementOptions.key o) vb
      (IncrementOptions.initial o) (IncrementOptions.delta o) (IncrementOptions.expiry o) None
      (IncrementOptions.durability_level o) None)
  | CrudOp.Decrement o => CrudRequest.Decrement (DecrementRequest.mk cid (DecrementOptions.key o) vb
      (DecrementOptions.initial o) (DecrementOptions.delta o) (DecrementOptions.expiry o) None
      (DecrementOptions.durability_level o) None)
  | CrudOp.LookupIn o => CrudRequest.LookupIn (LookupInRequest.mk cid (LookupInOptions.key o) vb
      (LookupInOptions.flags o) (LookupInOptions.ops o) None)
  | CrudOp.MutateIn o => CrudRequest.MutateIn (MutateInRequest.mk cid (MutateInOptions.key o) vb
      (MutateInOptions.flags o) (MutateInOptions.ops o) (MutateInOptions.expiry o)
      (MutateInOptions.preserve_expiry o) (MutateInOptions.cas o) None
      (MutateInOptions.durability_level o) None)
  end.

Lemma op_request_intent {T} (o : CrudOp T) cid vb v d :
  crud_intent (op_request o cid vb v d) = op_intent o cid vb v d.
Proof. by destruct o. Qed.

Section AnyServer.
Context {P : Profile} (powf : spec_float → spec_float → spec_float) {T : Type}
  (compress_vec : list Z → list Z + string) (mode : CompressionMode).
Context (answer : list DispatchCall → DispatchCall → option (outcome Error ClientResponse)).

Abbreviation conn_log := (log_connection answer).
Abbreviation clients := (nat → StdKvClient (list DispatchCall)).

#[local] Instance log_clients : KvClientOps clients nat :=
  std_kv_client_ops powf (H0 := conn_log).

(** What is sent of the value of an operation. *)
Definition sent_value (o : CrudOp T) (self : StdKvClient (list DispatchCall))
    : outcome Core.Error (list Z * Z) :=
  match op_value o with
  | Some (value, datatype) =>
      compress compress_vec (std_compressor_new mode) (has_feature self HelloFeature.Snappy) datatype value
  | None => Ok ([], 0)
  end.

(** Every closure is the same computation around its request. *)
Lemma closure_runs (o : CrudOp T) cid vb c (st : clients) :
  ∃ (A : Type) (try_from : ClientResponse → outcome Error A) f,
    crud_closure compress_vec mode o cid vb c st
    = match sent_value o (st c) with
      | Ok (v, d) =>
          with_context c (op_key o) (op_scope o) (op_collection o) f
            (on_client c (kv_op (H0 := conn_log) (crud_call (ops_crud (st c)) (op_request o cid vb v d))
               try_from)) st
      | Err e => (st, Some (Err e))
      | Panic => (st, Some Panic)
      end.
Proof.
  destruct o as [o|o|o|o|o|o|o|o|o|o|o|o|o|o|o|o]; eexists _, _, _; unfold sent_value; cbn [op_value].
  all: try (cbn [crud_closure];
    unfold get_op, get_meta_op, delete_op, get_and_lock_op, get_and_touch_op, unlock_op, touch_op,
      increment_op, decrement_op, lookup_in_op, mutate_in_op;
    rewrite action_map_context; reflexivity).
  all: cbn [crud_closure]; unfold upsert_op, add_op, replace_op, append_op, prepend_op;
    rewrite action_map_compressed.
  all: change (kc_has_feature c HelloFeature.Snappy st) with (has_feature (st c) HelloFeature.Snappy);
    destruct (compress _ _ _ _ _) as [[v d]|e|]; [|reflexivity..];
    rewrite action_map_context; reflexivity.
Qed.

Lemma fail_with_log {A} close_needed e (self : StdKvClient (list DispatchCall)) :
  cli (fst (fail_with (H0 := conn_log) (A := A) close_needed e self)) = cli self
  ∧ snd (fail_with (H0 := conn_log) (A := A) close_needed e self) = Some (Err (connection_error self e)).
Proof. unfold fail_with, close. destruct close_needed, (closed self) eqn:Hc; done. Qed.

(** A call that was built is dispatched, one that was not is the error. *)
Lemma kv_op_log {A} call (try_from : ClientResponse → outcome Error A)
    (self : StdKvClient (list DispatchCall)) :
  let '(self', r) := kv_op (H0 := conn_log) call try_from self in
  match call with
  | Ok c => cli self' = cli self ++ [c]
  | Err e => cli self' = cli self ∧ r = Some (Err (connection_error self e))
  | Panic => r = Some Panic
  end.
Proof.
  unfold kv_op. destruct call as [call|e|]; simpl; [| |done].
  - set (self1 := set_cli _ _). destruct (answer (cli self) call) as [r|]; simpl; [|done].
    destruct (r ≫= try_from) as [a|e|]; simpl; [done| |done].
    destruct (fail_with_log (A := A) (is_auth_stale e) e (set_cli (cli self1) self1)) as [Hc _].
    by destruct (fail_with _ e _).
  - set (self1 := set_cli _ _).
    destruct (fail_with_log (A := list DispatchCall * DispatchCall) (is_dispatch_error e) e self1)
      as [Hc Hr].
    destruct (fail_with _ e self1) as [self' r]. simpl in Hc, Hr. by subst r.
Qed.

End AnyServer.

(** ** What an operation returns *)

Definition result_token (r : CrudResult) : option KvMutationToken :=
  match r with
  | CrudResult.Upsert r => UpsertResult.mutation_token r
  | CrudResult.Delete r => DeleteResult.mutation_token r
  | CrudResult.Add r => AddResult.mutation_token r
  | CrudResult.Replace r => ReplaceResult.mutation_token r
  | CrudResult.Append r => AppendResult.mutation_token r
  | CrudResult.Prepend r => PrependResult.mutation_token r
  | CrudResult.Increment r => IncrementResult.mutation_token r
  | CrudResult.Decrement r => DecrementResult.mutation_token r
  | CrudResult.MutateIn r => MutateInResult.mutation_token r
  | _ => None
  end.

(** The errors inside a sub-document result. *)
Definition result_errors (r : CrudResult) : list Core.MemdxError :=
  match r with
  | CrudResult.LookupIn r => omap KvSubDocResult.err (LookupInResult.value r)
  | CrudResult.MutateIn r => omap KvSubDocResult.err (MutateInResult.value r)
  | _ => []
  end.

(** The error says which document of which collection it is about. *)
Definition names_document (bucket : option string) (key : list Z) (scope coll : string)
    (e : Core.MemdxError) : Prop :=
  Core.doc_id e = Some key ∧ Core.bucket_name e = Some (default ""%string bucket)
  ∧ Core.scope_name e = Some scope ∧ Core.collection_name e = Some coll.

Section AnyClient.
Context {S C T : Type} `{KvClientOps S C}
  (compress_vec : list Z → list Z + string) (mode : CompressionMode).

(** The outcome of a closure on vbucket [vb] that left the state [st']. *)
Definition outcome_ok (o : CrudOp T) (vb : Z) (c : C) (st' : S)
    (r : option (outcome Core.Error CrudResult)) : Prop :=
  match r with
  | Some (Ok res) =>
      (∀ t, result_token res = Some t → KvMutationToken.vbid t = vb)
      ∧ Forall (names_document (kc_bucket_name c st') (op_key o) (op_scope o) (op_collection o))
          (result_errors res)
  | Some (Err e) =>
      (∃ msg, Core.kind e = Core.Compression msg ∧ op_value o ≠ None)
      ∨ ∃ me, e = Core.new_contextual_memdx_error me
          ∧ names_document (kc_bucket_name c st') (op_key o) (op_scope o) (op_collection o) me
  | _ => True
  end.

Lemma with_context_ok {A} (o : CrudOp T) vb c (f : option string → A → CrudResult) (m : kv_action S A) st :
  (∀ b resp t, result_token (f b resp) = Some t → KvMutationToken.vbid t = vb) →
  (∀ b resp, Forall (names_document b (op_key o) (op_scope o) (op_collection o))
     (result_errors (f b resp))) →
  let run := with_context c (op_key o) (op_scope o) (op_collection o) f m st in
  outcome_ok o vb c (fst run) (snd run).
Proof.
  intros Ht He. unfold with_context. destruct (m st) as [st' [[a|e|]|]]; simpl; [|right|done..].
  - split; [apply Ht|apply He].
  - by eexists.
Qed.

Lemma token_vbid vb (t : option MutationToken) t' :
  kv_token vb <$> t = Some t' → KvMutationToken.vbid t' = vb.
Proof. destruct t; intros Heq; by simplify_eq/=. Qed.

Lemma subdoc_errors bucket key scope coll os :
  Forall (names_document bucket key scope coll)
    (omap KvSubDocResult.err (subdoc_result bucket key scope coll <$> os)).
Proof. induction os as [|[[e|] v] os IH]; simpl; [done| |done]. constructor; [done|apply IH]. Qed.

(** What an operation returns is about the document it was asked for: a
    mutation token names the vbucket the request was sent to, and every error, of
    the request or of a sub-document operation inside a result, carries document
    key, bucket, scope and collection; the only other error is a value that cannot
    be compressed.  This holds for every client. *)
Lemma outcomes_name_the_document (o : CrudOp T) cid vb c st :
  let run := crud_closure compress_vec mode o cid vb c st in outcome_ok o vb c (fst run) (snd run).
Proof.
  cbn zeta. destruct o as [o|o|o|o|o|o|o|o|o|o|o|o|o|o|o|o]; cbn [crud_closure];
    unfold upsert_op, add_op, replace_op, append_op, prepend_op,
      get_op, get_meta_op, delete_op, get_and_lock_op, get_and_touch_op, unlock_op, touch_op,
      increment_op, decrement_op, lookup_in_op, mutate_in_op.
  all: try (rewrite action_map_compressed; destruct (compress _ _ _ _ _) as [[v d]|e|] eqn:Hc;
    [|simpl; left; unfold compress in Hc; repeat (case_match; simplify_eq/=); by eexists|done]).
  all: rewrite action_map_context;
    match goal with |- outcome_ok ?o ?vb ?c _ _ => apply (with_context_ok o vb c) end;
    [intros b resp t; simpl; (done || apply token_vbid)|intros b resp; simpl; (done || apply subdoc_errors)].
Qed.
End AnyClient.

(** ** Which operations are repeated *)

Definition is_read {T} (o : CrudOp T) : bool :=
  match o with
  | CrudOp.Get _ | CrudOp.GetMeta _ | CrudOp.LookupIn _ => true
  | _ => false
  end.

Section Repeated.
Context {P : Profile} {S C TerseConfig : Type}
  `{VbucketRouter S, CollectionResolver S, KvEndpointClientManager S C, KvClientOps S C}.
Context (em : ErrMapComponent) (from_str : list Z → option TerseConfig)
  (handler : TerseConfig → string → S → S) (compress_vec : list Z → list Z + string)
  (mode : CompressionMode).

(** The reasons and pauses of the repeated attempts of an operation. *)
Definition repeated {T} `{RetryStrategy T} (attempts clients : nat) (o : CrudOp T) (st : S)
    : list (RetryReason * Duration) :=
  match o with
  | CrudOp.Upsert opts =>
      snd (fst (crud_upsert em from_str handler compress_vec mode attempts clients opts st))
  | CrudOp.Get opts =>
      snd (fst (crud_get em from_str handler attempts clients opts st))
  | CrudOp.GetMeta opts =>
      snd (fst (crud_get_meta em from_str handler attempts clients opts st))
  | CrudOp.Delete opts =>
      snd (fst (crud_delete em from_str handler attempts clients opts st))
  | CrudOp.GetAndLock opts =>
      snd (fst (crud_get_and_lock em from_str handler attempts clients opts st))
  | CrudOp.GetAndTouch opts =>
      snd (fst (crud_get_and_touch em from_str handler attempts clients opts st))
  | CrudOp.Unlock opts =>
      snd (fst (crud_unlock em from_str handler attempts clients opts st))
  | CrudOp.Touch opts =>
      snd (fst (crud_touch em from_str handler attempts clients opts st))
  | CrudOp.Add opts =>
      snd (fst (crud_add em from_str handler compress_vec mode attempts clients opts st))
  | CrudOp.Replace opts =>
      snd (fst (crud_replace em from_str handler compress_vec mode attempts clients opts st))
  | CrudOp.Append opts =>
      snd (fst (crud_append em from_str handler compress_vec mode attempts clients opts st))
  | CrudOp.Prepend opts =>
      snd (fst (crud_prepend em from_str handler compress_vec mode attempts clients opts st))
  | CrudOp.Increment opts =>
      snd (fst (crud_increment em from_str handler attempts clients opts st))
  | CrudOp.Decrement opts =>
      snd (fst (crud_decrement em from_str handler attempts clients opts st))
  | CrudOp.LookupIn opts =>
      snd (fst (crud_lookup_in em from_str handler attempts clients opts st))
  | CrudOp.MutateIn opts =>
      snd (fst (crud_mutate_in em from_str handler attempts clients opts st))
  end.

End Repeated.

(** ** Witnesses *)

Definition sample_upsert : UpsertOptions FailFastRetryStrategy :=
  upsert_options_expiry (Some 60) (upsert_options_flags 33554432
    (upsert_options_new (str_bytes "doc") "app" "users" (str_bytes "{}"))).

Definition collections_client : StdKvClient (list DispatchCall) :=
  set_bucket (Some "travel"%string) (set_features [HelloFeature.Collections] sample_client).

Abbreviation sample_closure o := (crud_closure (H := log_clients (P := true) sample_powf sample_answer)
  (λ _, inr "snappy"%string) Disabled o 8 5 0%nat (λ _, collections_client)).


Example sample_upsert_succeeds :
  snd (sample_closure (CrudOp.Upsert sample_upsert))
  = Some (Ok (CrudResult.Upsert (UpsertResult.mk 99 None))).
Proof. reflexivity. Qed.

#[local] Instance sample_clients_ops : KvClientOps nat string :=
  {| kc_bucket_name := λ _ _, None; kc_has_feature := λ _ _ _, false;
     kc_set := λ _ _ st, (S st, Some (Err (Core.memdx_error_new
       (new_cancelled_error CancellationErrorKind.ClosedInFlight))));
     kc_get := λ _ _ st, (st, None); kc_get_meta := λ _ _ st, (st, None);
     kc_delete := λ _ _ st, (st, None); kc_get_and_lock := λ _ _ st, (st, None);
     kc_get_and_touch := λ _ _ st, (st, None); kc_unlock := λ _ _ st, (st, None);
     kc_touch := λ _ _ st, (st, None); kc_add := λ _ _ st, (st, None);
     kc_replace := λ _ _ st, (st, None); kc_append := λ _ _ st, (st, None);
     kc_prepend := λ _ _ st, (st, None); kc_increment := λ _ _ st, (st, None);
     kc_decrement := λ _ _ st, (st, None); kc_lookup_in := λ _ _ st, (st, None);
     kc_mutate_in := λ _ _ st, (st, None); kc_get_cluster_config := λ _ _ st, (st, None);
     kc_get_collection_id := λ _ _ st, (st, None); kc_ping := λ _ _ st, (st, None) |}.

#[local] Instance sample_router : VbucketRouter nat :=
  {| update_vbucket_info := λ _ st, st; dispatch_by_key := λ _ _ _, Ok ("node1", 5)%string;
     dispatch_to_vbucket := λ _ _, Ok "node1"%string |}.
#[local] Instance sample_resolver : CollectionResolver nat :=
  {| cr_resolve := λ _ _ st, (st, Some (Ok (8, 1))); cr_invalidate := λ _ _ st, st |}.
#[local] Instance sample_manager : KvEndpointClientManager nat string :=
  {| get_client := λ st, (st, Some (Ok "node1"%string));
     get_endpoint_client := λ endpoint st, (st, Some (Ok endpoint)) |}.

