(* ===== verification/Config.v ===== *)
(** * Cluster configs ([cbconfig/mod.rs], [configparser.rs], [parsedconfig.rs],
    [networktypeheuristic.rs], [componentconfigs.rs])

    A server sends a terse config; [parse_terse_config] turns it into the config
    the agent works with; [gen_from_config] derives from it what every component
    needs: the endpoints of each service, the connections to keep and the routing
    table.  The JSON text is parsed by [serde]; the model starts at its result. *)

From S2P Require Import Prelude Text Wire MemdError Requests Response CoreError Vbucket Bootstrap.

(** ** What the server sends ([cbconfig/mod.rs]) *)

Module VBucketServerMap.
Record VBucketServerMap : Type := mk {
  hash_algorithm : string;
  num_replicas : Z;
  server_list : list string;
  vbucket_map : list (list Z);
}.
End VBucketServerMap.
Abbreviation VBucketServerMap := VBucketServerMap.VBucketServerMap.

(** Every field is an [Option<u16>]. *)
Module TerseExtNodePorts.
Record TerseExtNodePorts : Type := mk {
  kv : option Z; capi : option Z; mgmt : option Z; n1ql : option Z; fts : option Z;
  cbas : option Z; eventing : option Z; gsi : option Z; backup : option Z;
  kv_ssl : option Z; capi_ssl : option Z; mgmt_ssl : option Z; n1ql_ssl : option Z;
  fts_ssl : option Z; cbas_ssl : option Z; eventing_ssl : option Z; gsi_ssl : option Z;
  backup_ssl : option Z;
}.
(** [Default]. *)
Definition default_ : TerseExtNodePorts :=
  mk None None None None None None None None None None None None None None None None None None.
End TerseExtNodePorts.
Abbreviation TerseExtNodePorts := TerseExtNodePorts.TerseExtNodePorts.

Record TerseExtNodeAltAddresses : Type := mkAltAddresses {
  alt_ports : TerseExtNodePorts;
  alt_hostname : option string;
}.

Record TerseNodeExtConfig : Type := mkNodeExt {
  ne_services : option TerseExtNodePorts;
  ne_this_node : option bool;
  ne_hostname : option string;
  ne_alternate_addresses : gmap string TerseExtNodeAltAddresses;
}.

(** Of [nodes] only the length is used. *)
Module TerseConfig.
Record TerseConfig : Type := mk {
  rev : Z;
  rev_epoch : option Z;
  name : option string;
  node_locator : option string;
  uuid : option string;
  bucket_capabilities : option (list string);
  vbucket_server_map : option VBucketServerMap;
  nodes_len : option nat;
  nodes_ext : list TerseNodeExtConfig;
  cluster_capabilities : gmap string (list string);
}.
End TerseConfig.
Abbreviation TerseConfig := TerseConfig.TerseConfig.

(** ** The parsed config ([parsedconfig.rs]) *)

Inductive BucketType : Type := Invalid | Couchbase.

#[global] Instance bucket_type_eq_dec : EqDecision BucketType.
Proof. solve_decision. Defined.

Record ParsedConfigNodePorts : Type := mkPorts {
  p_kv : option Z;
  p_mgmt : option Z;
  p_analytics : option Z;
  p_query : option Z;
  p_search : option Z;
}.

Definition ports_default : ParsedConfigNodePorts := mkPorts None None None None None.

Record ParsedConfigNodeAddresses : Type := mkAddresses {
  a_hostname : string;
  non_ssl_ports : ParsedConfigNodePorts;
  ssl_ports : ParsedConfigNodePorts;
}.

Record ParsedConfigNode : Type := mkNode {
  has_data : bool;
  addresses : ParsedConfigNodeAddresses;
  alt_addresses : gmap string ParsedConfigNodeAddresses;
}.

Inductive ParsedConfigFeature : Type := FtsVectorSearch | UnknownFeature.

#[global] Instance config_feature_eq_dec : EqDecision ParsedConfigFeature.
Proof. solve_decision. Defined.

Module ParsedConfigBucketFeature.
Inductive ParsedConfigBucketFeature : Type :=
| CreateAsDeleted
| ReplaceBodyWithXattr
| RangeScan
| ReplicaRead
| NonDedupedHistory
| ReviveDocument
| Unknown.
End ParsedConfigBucketFeature.
Abbreviation ParsedConfigBucketFeature := ParsedConfigBucketFeature.ParsedConfigBucketFeature.

#[global] Instance bucket_feature_eq_dec : EqDecision ParsedConfigBucketFeature.
Proof. solve_decision. Defined.

(** [From<String>]. *)
Definition bucket_feature_from (s : string) : ParsedConfigBucketFeature :=
  if bool_decide (s = "tombstonedUserXAttrs") then ParsedConfigBucketFeature.CreateAsDeleted
  else if bool_decide (s = "subdoc.ReplaceBodyWithXattr")
    then ParsedConfigBucketFeature.ReplaceBodyWithXattr
  else if bool_decide (s = "rangeScan") then ParsedConfigBucketFeature.RangeScan
  else if bool_decide (s = "subdoc.ReplicaRead") then ParsedConfigBucketFeature.ReplicaRead
  else if bool_decide (s = "nonDedupedHistory") then ParsedConfigBucketFeature.NonDedupedHistory
  else if bool_decide (s = "subdoc.ReviveDocument") then ParsedConfigBucketFeature.ReviveDocument
  else ParsedConfigBucketFeature.Unknown.

Record ParsedConfigBucket : Type := mkBucket {
  bucket_uuid : string;
  bucket_name : string;
  bucket_type : BucketType;
  vbucket_map : option VbucketMap;
  bucket_features : list ParsedConfigBucketFeature;
}.

Record ParsedConfig : Type := mkConfig {
  rev_id : Z;
  rev_epoch : Z;
  source_hostname : string;
  bucket : option ParsedConfigBucket;
  nodes : list ParsedConfigNode;
  features : list ParsedConfigFeature;
}.

Definition parsed_config_default : ParsedConfig := mkConfig (-1) 0 "" None [] [].

Definition is_versioned (self : ParsedConfig) : bool := (0 <? rev_epoch self) && (0 <? rev_id self).

(** [PartialOrd]: the revision epoch first. *)
Definition partial_cmp (self other : ParsedConfig) : option comparison :=
  match rev_epoch self ?= rev_epoch other with
  | Lt => Some Lt
  | Gt => Some Gt
  | Eq =>
      match rev_id self ?= rev_id other with
      | Lt => Some Lt
      | Gt => Some Gt
      | Eq => Some Eq
      end
  end.

(** ** Parsing ([configparser.rs]) *)

Definition colon : Ascii.ascii := Ascii.ascii_of_nat 58.

Definition parse_config_hostname (hostname : option string) (source_hostname : string) : string :=
  match hostname with
  | Some hostname => if str_contains colon hostname then "[" +:+ hostname +:+ "]" else hostname
  | None => source_hostname
  end.

Definition parse_config_hosts_into (hostname : string) (ports : TerseExtNodePorts)
    : ParsedConfigNodeAddresses :=
  mkAddresses hostname
    (mkPorts (TerseExtNodePorts.kv ports) (TerseExtNodePorts.mgmt ports) (TerseExtNodePorts.cbas ports)
       (TerseExtNodePorts.n1ql ports) (TerseExtNodePorts.fts ports))
    (mkPorts (TerseExtNodePorts.kv_ssl ports) (TerseExtNodePorts.mgmt_ssl ports)
       (TerseExtNodePorts.cbas_ssl ports) (TerseExtNodePorts.n1ql_ssl ports)
       (TerseExtNodePorts.fts_ssl ports)).

Definition parse_vbucket_server_map (m : option VBucketServerMap)
    : outcome Core.Error (option VbucketMap) :=
  match m with
  | Some m =>
      if bool_decide (VBucketServerMap.vbucket_map m = []) then Err (Core.new Core.NoVbucketMap)
      else
        v ← vbucket_map_new (VBucketServerMap.vbucket_map m) (VBucketServerMap.num_replicas m);
        Ok (Some v)
  | None => Ok None
  end.

(** One node of the list, the [node_idx]th. *)
Definition parse_node (len_nodes : nat) (source_hostname : string) (node_idx : nat)
    (node : TerseNodeExtConfig) : ParsedConfigNode :=
  let node_hostname := parse_config_hostname (ne_hostname node) source_hostname in
  mkNode (node_idx <? len_nodes)%nat
    (parse_config_hosts_into node_hostname (default TerseExtNodePorts.default_ (ne_services node)))
    ((λ alt_addrs, parse_config_hosts_into
        (parse_config_hostname (alt_hostname alt_addrs) node_hostname) (alt_ports alt_addrs))
     <$> ne_alternate_addresses node).

Definition parse_terse_config (config : TerseConfig) (source_hostname : string)
    : outcome Core.Error ParsedConfig :=
  let rev_id := TerseConfig.rev config in
  let rev_epoch := default 0 (TerseConfig.rev_epoch config) in
  let len_nodes := default 0%nat (TerseConfig.nodes_len config) in
  let nodes := imap (parse_node len_nodes source_hostname) (TerseConfig.nodes_ext config) in
  bucket ←
    match TerseConfig.name config with
    | Some bucket_name =>
        '(bucket_type, vbucket_map) ←
          match TerseConfig.node_locator config with
          | Some locator =>
              if bool_decide (locator = "vbucket") then
                m ← parse_vbucket_server_map (TerseConfig.vbucket_server_map config);
                Ok (Couchbase, m)
              else Ok (Invalid, None)
          | None => Ok (Invalid, None)
          end;
        let features :=
          filter (λ feat, feat ≠ ParsedConfigBucketFeature.Unknown)
            (bucket_feature_from <$> default [] (TerseConfig.bucket_capabilities config)) in
        Ok (Some (mkBucket (default ""%string (TerseConfig.uuid config)) bucket_name bucket_type
                    vbucket_map features))
    | None => Ok None
    end;
  let features :=
    match TerseConfig.cluster_capabilities config !! "search"%string with
    | Some caps => if bool_decide ("vectorSearch"%string ∈ caps) then [FtsVectorSearch] else []
    | None => []
    end in
  Ok (mkConfig rev_id rev_epoch source_hostname bucket nodes features).

(** ** The addresses of a network *)

Record NetworkConfigNode : Type := mkNetworkNode {
  n_node_id : string;
  n_hostname : string;
  n_has_data : bool;
  n_non_ssl_ports : ParsedConfigNodePorts;
  n_ssl_ports : ParsedConfigNodePorts;
}.

(** The management port is unwrapped. *)
Definition network_node (network_type : string) (node : ParsedConfigNode)
    : outcome Core.Error NetworkConfigNode :=
  port ← expect (p_mgmt (non_ssl_ports (addresses node)));
  let node_id := "ep-" +:+ a_hostname (addresses node) +:+ "-" +:+ show port in
  Ok (if bool_decide (network_type = "default") then
        mkNetworkNode node_id (a_hostname (addresses node)) (has_data node)
          (non_ssl_ports (addresses node)) (ssl_ports (addresses node))
      else
        match alt_addresses node !! network_type with
        | Some alt_info =>
            mkNetworkNode node_id (a_hostname alt_info) (has_data node) (non_ssl_ports alt_info)
              (ssl_ports alt_info)
        | None => mkNetworkNode node_id "" (has_data node) ports_default ports_default
        end).

Fixpoint network_nodes (network_type : string) (ns : list ParsedConfigNode)
    : outcome Core.Error (list NetworkConfigNode) :=
  match ns with
  | [] => Ok []
  | n :: ns =>
      n ← network_node network_type n;
      ns ← network_nodes network_type ns;
      Ok (n :: ns)
  end.

Definition addresses_group_for_network_type (self : ParsedConfig) (network_type : string)
    : outcome Core.Error (list NetworkConfigNode) :=
  network_nodes network_type (nodes self).

(** ** Which network the agent is in ([networktypeheuristic.rs]) *)

Definition is_address (hostname : string) (port : option Z) (addr : string) : bool :=
  match port with
  | Some p => bool_decide (hostname +:+ ":" +:+ show p = addr)
  | None => false
  end.

Definition node_contains_address (node : ParsedConfigNodeAddresses) (addr : string) : bool :=
  is_address (a_hostname node) (p_kv (non_ssl_ports node)) addr
  || is_address (a_hostname node) (p_mgmt (non_ssl_ports node)) addr
  || is_address (a_hostname node) (p_kv (ssl_ports node)) addr
  || is_address (a_hostname node) (p_kv (ssl_ports node)) addr.

Section Identify.
(** The order in which a [HashMap] is iterated. *)
Context (iter : gmap string ParsedConfigNodeAddresses → list (string * ParsedConfigNodeAddresses)).

Definition identify (config : ParsedConfig) : string :=
  if existsb (λ node, node_contains_address (addresses node) (source_hostname config)) (nodes config)
  then "default"
  else
    match list_find (λ x, node_contains_address (snd x) (source_hostname config) = true)
            (node ← nodes config; iter (alt_addresses node)) with
    | Some (_, (network_type, _)) => network_type
    | None => "default"
    end.

(** The network of a new agent ([Agent::new]). *)
Definition agent_network_type (network : option string) (config : ParsedConfig) : string :=
  match network with
  | Some network =>
      if bool_decide (network = "auto"%string) || bool_decide (network = ""%string)
      then identify config else network
  | None => identify config
  end.
End Identify.

(** ** What the components are configured with ([componentconfigs.rs]) *)

Record Address : Type := mkAddress { host : string; port : Z }.
Record KvTarget : Type := mkTarget { address : Address; target_tls : bool }.

Record AgentComponentConfigs : Type := mkComponentConfigs {
  kv_targets : gmap string KvTarget;
  auth : Authenticator;
  cc_selected_bucket : option string;
  config_manager_endpoints : list string;
  vbucket_routing_info : VbucketRoutingInfo;
  analytics_endpoints : gmap string string;
  query_endpoints : gmap string string;
  search_endpoints : gmap string string;
  vector_search_enabled : bool;
  mgmt_endpoints : gmap string string;
  services : list ServiceType;
  cc_rev_id : Z;
}.

(** The ports of a node the agent uses, with TLS or without. *)
Definition used_ports (tls : bool) (node : NetworkConfigNode) : ParsedConfigNodePorts :=
  if tls then n_ssl_ports node else n_non_ssl_ports node.

(** [map.insert(ep_id, ..)] for every node that has the endpoint, in order. *)
Definition insert_endpoint {B} (prefix : string) (val : NetworkConfigNode → option B)
    (m : gmap string B) (node : NetworkConfigNode) : gmap string B :=
  match val node with
  | Some v => <[prefix +:+ n_node_id node := v]> m
  | None => m
  end.

Definition endpoint_map {B} (prefix : string) (val : NetworkConfigNode → option B)
    (ns : list NetworkConfigNode) : gmap string B :=
  foldl (insert_endpoint prefix val) ∅ ns.

(** The endpoints of one HTTP service. *)
Definition http_endpoints (tls : bool) (prefix : string) (get : ParsedConfigNodePorts → option Z)
    : list NetworkConfigNode → gmap string string :=
  endpoint_map prefix (λ node, p ← get (used_ports tls node);
    Some ((if tls then "https://" else "http://") +:+ n_hostname node +:+ ":" +:+ show p)).

Definition kv_data_hosts (tls : bool) : list NetworkConfigNode → gmap string Address :=
  endpoint_map "kv" (λ node, p ← p_kv (used_ports tls node); Some (mkAddress (n_hostname node) p)).

Definition gen_from_config (config : ParsedConfig) (network_type : string) (tls : bool)
    (bucket_name : option string) (authenticator : Authenticator)
    : outcome Core.Error AgentComponentConfigs :=
  ns ← addresses_group_for_network_type config network_type;
  let kv_ep_ids := (λ node, "kv" +:+ n_node_id node) <$> ns in
  let kv_data_node_ids := (λ node, "kv" +:+ n_node_id node) <$> filter (λ node, n_has_data node = true) ns in
  let analytics := http_endpoints tls "analytics" p_analytics ns in
  let query := http_endpoints tls "query" p_query ns in
  let search := http_endpoints tls "search" p_search ns in
  let mgmt := http_endpoints tls "mgmt" p_mgmt ns in
  let routing :=
    match bucket config with
    | Some info => mkRoutingInfo (vbucket_map info) kv_data_node_ids true
    | None => mkRoutingInfo None kv_data_node_ids false
    end in
  let services :=
    [ServiceType.Memd]
    ++ (if bool_decide (query = ∅) then [] else [ServiceType.Query])
    ++ (if bool_decide (search = ∅) then [] else [ServiceType.Search]) in
  Ok (mkComponentConfigs ((λ address, mkTarget address tls) <$> kv_data_hosts tls ns) authenticator
        bucket_name kv_ep_ids routing analytics query search
        (bool_decide (FtsVectorSearch ∈ features config)) mgmt services (rev_id config)).

(** ** Lemmas *)

(** What a config says of one node: its identity, and its key-value address in a
    network. *)
Definition node_identity (src : string) (node : TerseNodeExtConfig) : string * option Z :=
  (parse_config_hostname (ne_hostname node) src,
   services ← ne_services node; TerseExtNodePorts.mgmt services).

Definition kv_port (tls : bool) (ports : TerseExtNodePorts) : option Z :=
  if tls then TerseExtNodePorts.kv_ssl ports else TerseExtNodePorts.kv ports.

Definition node_kv_address (src network : string) (tls : bool) (node : TerseNodeExtConfig)
    : option Address :=
  let hostname := parse_config_hostname (ne_hostname node) src in
  if bool_decide (network = "default") then
    services ← ne_services node;
    p ← kv_port tls services;
    Some (mkAddress hostname p)
  else
    alt ← ne_alternate_addresses node !! network;
    p ← kv_port tls (alt_ports alt);
    Some (mkAddress (parse_config_hostname (alt_hostname alt) hostname) p).

Lemma foldl_endpoints_inv {B} prefix (val : NetworkConfigNode → option B) ns m k v :
  foldl (insert_endpoint prefix val) m ns !! k = Some v →
  m !! k = Some v ∨ ∃ node, node ∈ ns ∧ k = prefix +:+ n_node_id node ∧ val node = Some v.
Proof.
  revert m. induction ns as [|n ns IH]; intros m; simpl; [auto|]. intros H.
  destruct (IH _ H) as [Hm|(node & Hin & Hk & Hv)]; [|right; exists node; set_solver].
  unfold insert_endpoint in Hm. destruct (val n) as [v0|] eqn:Hn; [|auto].
  apply lookup_insert_Some in Hm as [[<- <-]|[_ Hm]]; [|auto].
  right. exists n. set_solver.
Qed.

(** An endpoint of the map is the endpoint of a node. *)
Lemma endpoint_map_inv {B} prefix (val : NetworkConfigNode → option B) ns k v :
  endpoint_map prefix val ns !! k = Some v →
  ∃ node, node ∈ ns ∧ k = prefix +:+ n_node_id node ∧ val node = Some v.
Proof.
  intros H. destruct (foldl_endpoints_inv _ _ _ _ _ _ H) as [H'|H']; [|done].
  by rewrite lookup_empty in H'.
Qed.

Lemma foldl_endpoints_keep {B} prefix (val : NetworkConfigNode → option B) ns m id v :
  id ∉ (n_node_id <$> ns) → m !! (prefix +:+ id) = Some v →
  foldl (insert_endpoint prefix val) m ns !! (prefix +:+ id) = Some v.
Proof.
  revert m. induction ns as [|n ns IH]; intros m Hni Hm; simpl; [done|].
  rewrite fmap_cons in Hni. apply not_elem_of_cons in Hni as [Hne Hni]. apply IH; [done|].
  unfold insert_endpoint. destruct (val n); [|done]. rewrite lookup_insert_ne; [done|].
  intros H. apply Hne. by apply (inj (String.append prefix)) in H.
Qed.

(** With distinct ids, a node's endpoint is not overwritten by another's. *)
Lemma endpoint_map_lookup {B} prefix (val : NetworkConfigNode → option B) ns node v :
  NoDup (n_node_id <$> ns) → node ∈ ns → val node = Some v →
  endpoint_map prefix val ns !! (prefix +:+ n_node_id node) = Some v.
Proof.
  intros Hnd Hin Hv. unfold endpoint_map. generalize (∅ : gmap string B).
  induction ns as [|n ns IH]; intros m; [by apply elem_of_nil in Hin|]. simpl.
  rewrite fmap_cons in Hnd. apply list.NoDup_cons in Hnd as [Hni Hnd].
  apply elem_of_cons in Hin as [<-|Hin]; [|by apply IH].
  apply foldl_endpoints_keep; [done|]. unfold insert_endpoint. by rewrite Hv, lookup_insert_eq.
Qed.

Lemma endpoint_id_inj h h' p p' :
  0 <= p → 0 <= p' →
  "ep-" +:+ h +:+ "-" +:+ show p = "ep-" +:+ h' +:+ "-" +:+ show p' → h = h' ∧ p = p'.
Proof.
  intros Hp Hp' H. apply (inj (String.append "ep-")) in H.
  apply (last_separator_inj (Ascii.ascii_of_nat 45)) in H as [-> H]; [|by apply show_contains..].
  split; [done|]. by apply (inj pretty).
Qed.

Lemma network_nodes_ok nt ns :
  Forall (λ n, p_mgmt (non_ssl_ports (addresses n)) ≠ None) ns →
  ∃ l, network_nodes nt ns = Ok l ∧ Forall2 (λ n m, network_node nt n = Ok m) ns l.
Proof.
  induction 1 as [|n ns Hn _ (l & Hl & HF)]; simpl; [by exists []|].
  destruct (network_node nt n) as [m| |] eqn:Hm; simpl.
  - rewrite Hl. simpl. exists (m :: l). by split; [|constructor].
  - unfold network_node in Hm. destruct (p_mgmt _); by simplify_eq/=.
  - unfold network_node in Hm. destruct (p_mgmt _); by simplify_eq/=.
Qed.

(** The view of a parsed node in a network, by the config's own words. *)
Lemma parse_node_network len src network tls i node p :
  snd (node_identity src node) = Some p →
  ∃ n, network_node network (parse_node len src i node) = Ok n
  ∧ n_node_id n = "ep-" +:+ fst (node_identity src node) +:+ "-" +:+ show p
  ∧ n_has_data n = (i <? len)%nat
  ∧ (p ← p_kv (used_ports tls n); Some (mkAddress (n_hostname n) p)) = node_kv_address src network tls node.
Proof.
  intros Hp. unfold node_identity in Hp. simpl in Hp.
  destruct (ne_services node) as [services|] eqn:Hs; [|done]. simpl in Hp.
  unfold network_node, parse_node, parse_config_hosts_into. rewrite Hs. simpl. rewrite Hp. simpl.
  unfold node_kv_address, kv_port. rewrite Hs. case_bool_decide; eexists; split_and!; try done.
  - by destruct tls.
  - by rewrite lookup_fmap; destruct (ne_alternate_addresses node !! network).
  - by rewrite lookup_fmap; destruct (ne_alternate_addresses node !! network).
  - rewrite lookup_fmap. destruct (ne_alternate_addresses node !! network); by destruct tls.
Qed.

(** The data nodes are the first nodes of the list. *)
Lemma filter_prefix {A} (f : A → bool) (l : list A) n :
  (∀ i x, l !! i = Some x → f x = (i <? n)%nat) → filter (λ x, f x = true) l = take n l.
Proof.
  revert n. induction l as [|x l IH]; intros n H; [by rewrite take_nil|].
  pose proof (H 0%nat x eq_refl) as Hx. rewrite filter_cons. destruct n as [|n].
  - rewrite decide_False by (by rewrite Hx). simpl.
    rewrite (IH 0%nat); [done|]. intros i y Hy. by rewrite (H (S i) y Hy).
  - rewrite decide_True by (by rewrite Hx). simpl. f_equal. apply IH.
    intros i y Hy. by rewrite (H (S i) y Hy).
Qed.

(** A config whose nodes all have a management port, as every server's has. *)
Definition identified (src : string) (node : TerseNodeExtConfig) : Prop :=
  ∃ p, snd (node_identity src node) = Some p ∧ fits 16 p.

(** The nodes of a parsed config in a network, one for each node of the list. *)
Lemma parsed_network_nodes src len network nodes :
  Forall (identified src) nodes →
  ∃ ns, network_nodes network (imap (parse_node len src) nodes) = Ok ns
  ∧ length ns = length nodes
  ∧ (∀ tls i node, nodes !! i = Some node → ∃ n p, ns !! i = Some n
      ∧ snd (node_identity src node) = Some p ∧ fits 16 p
      ∧ n_node_id n = "ep-" +:+ fst (node_identity src node) +:+ "-" +:+ show p
      ∧ n_has_data n = (i <? len)%nat
      ∧ (p ← p_kv (used_ports tls n); Some (mkAddress (n_hostname n) p))
        = node_kv_address src network tls node).
Proof.
  intros Hid. destruct (network_nodes_ok network (imap (parse_node len src) nodes)) as (ns & Hns & HF).
  { apply list.Forall_lookup. intros i n Hn. rewrite list_lookup_imap in Hn.
    destruct (nodes !! i) as [node|] eqn:Hi; simplify_eq/=.
    eapply list.Forall_lookup in Hid as (p & Hp & _); [|exact Hi].
    unfold node_identity in Hp. simpl in Hp. destruct (ne_services node); [|done].
    simpl in *. congruence. }
  exists ns. split; [done|]. split.
  { apply Forall2_length in HF. by rewrite length_imap in HF. }
  intros tls i node Hi. eapply list.Forall_lookup in Hid as (p & Hp & Hfit); [|exact Hi].
  destruct (parse_node_network len src network tls i node p Hp) as (n & Hn & Hprops).
  exists n, p. split; [|done].
  destruct (Forall2_lookup_l _ _ _ i (parse_node len src i node) HF) as (m & Hm & Hnm).
  { by rewrite list_lookup_imap, Hi. }
  rewrite Hn in Hnm. by injection Hnm as ->.
Qed.

Lemma parsed_ids_distinct src network len nodes ns :
  Forall (identified src) nodes → NoDup (node_identity src <$> nodes) →
  network_nodes network (imap (parse_node len src) nodes) = Ok ns → NoDup (n_node_id <$> ns).
Proof.
  intros Hid Hnd Hns. destruct (parsed_network_nodes src len network nodes Hid)
    as (ns' & Hns' & Hlen & Hview). rewrite Hns in Hns'. injection Hns' as <-.
  apply NoDup_alt. intros i j id Hi Hj. rewrite list_lookup_fmap in Hi, Hj.
  destruct (ns !! i) as [a|] eqn:Ha; simplify_eq/=. destruct (ns !! j) as [b|] eqn:Hb; simplify_eq/=.
  destruct (lookup_lt_is_Some_2 nodes i) as [x Hx]; [rewrite <- Hlen; by eapply lookup_lt_Some|].
  destruct (lookup_lt_is_Some_2 nodes j) as [y Hy]; [rewrite <- Hlen; by eapply lookup_lt_Some|].
  destruct (Hview true i x Hx) as (a' & p & Ha' & Hp & [] & Hida & _). simplify_eq.
  destruct (Hview true j y Hy) as (b' & q & Hb' & Hq & [] & Hidb & _). simplify_eq.
  rewrite Hida, Hidb in Hj. apply endpoint_id_inj in Hj as [Hh Hpq]; [|done..].
  eapply (proj1 (NoDup_alt _) Hnd i j (node_identity src x)); rewrite list_lookup_fmap; [by rewrite Hx|].
  rewrite Hy. change (Some (node_identity src y) = Some (node_identity src x)). f_equal.
  apply injective_projections; [done|]. trans (Some q); [done|]. by rewrite Hpq.
Qed.

(** What the parser returns for the config of a bucket with a vbucket map. *)
Lemma parse_bucket_config tc src name m :
  TerseConfig.name tc = Some name → TerseConfig.node_locator tc = Some "vbucket"%string →
  TerseConfig.vbucket_server_map tc = Some m → VBucketServerMap.vbucket_map m ≠ [] →
  ∃ cfg info, parse_terse_config tc src = Ok cfg ∧ bucket cfg = Some info
  ∧ vbucket_map info = Some (mkVbucketMap (VBucketServerMap.vbucket_map m) (VBucketServerMap.num_replicas m))
  ∧ nodes cfg = imap (parse_node (default 0%nat (TerseConfig.nodes_len tc)) src) (TerseConfig.nodes_ext tc).
Proof.
  intros Hname Hloc Hmap Hne. unfold parse_terse_config. rewrite Hname, Hloc, Hmap. simpl.
  rewrite bool_decide_false by done. unfold vbucket_map_new. destruct (VBucketServerMap.vbucket_map m); [done|]. simpl. eauto 10.
Qed.

Lemma gen_from_config_ok cfg network tls bkt auth ns :
  addresses_group_for_network_type cfg network = Ok ns →
  ∃ cc, gen_from_config cfg network tls bkt auth = Ok cc
  ∧ kv_targets cc = (λ address, mkTarget address tls) <$> kv_data_hosts tls ns
  ∧ config_manager_endpoints cc = (λ n, "kv" +:+ n_node_id n) <$> ns
  ∧ vbucket_routing_info cc
    = mkRoutingInfo (info ← bucket cfg; vbucket_map info)
        ((λ n, "kv" +:+ n_node_id n) <$> filter (λ n, n_has_data n = true) ns)
        (bool_decide (is_Some (bucket cfg))).
Proof.
  intros Hns. unfold gen_from_config. rewrite Hns. simpl. eexists. split; [done|]. simpl.
  split_and!; [done..|]. by destruct (bucket cfg).
Qed.

Section Reach.
Context (hash : list Z → Z) {P : Profile} (hash_u32 : ∀ key, fits 32 (hash key)).

(** From the config a server sends to the connection a key uses.  Take a config
    of a bucket with a vbucket map, whose nodes have a management port and are
    pairwise different.  It is parsed and the components are configured from it
    without an error; and for every key and every copy the map places on a data
    node that has a key-value address in the agent's network, the router answers
    with the key's vbucket and an endpoint whose connection goes to that address,
    with TLS exactly when the agent uses it. *)
Lemma keys_reach_the_mapped_node tc src network tls bkt auth name m key copy i node addr :
  TerseConfig.name tc = Some name → TerseConfig.node_locator tc = Some "vbucket"%string →
  TerseConfig.vbucket_server_map tc = Some m →
  0 < blen (VBucketServerMap.vbucket_map m) < 2 ^ 16 → fits 31 (VBucketServerMap.num_replicas m) →
  Forall (identified src) (TerseConfig.nodes_ext tc) →
  NoDup (node_identity src <$> TerseConfig.nodes_ext tc) →
  let vb := vbucket_of hash (blen (VBucketServerMap.vbucket_map m)) key in
  0 <= copy <= VBucketServerMap.num_replicas m →
  (row ← VBucketServerMap.vbucket_map m !! Z.to_nat vb; row !! Z.to_nat copy) = Some (Z.of_nat i) →
  (i < default 0%nat (TerseConfig.nodes_len tc))%nat →
  TerseConfig.nodes_ext tc !! i = Some node →
  node_kv_address src network tls node = Some addr →
  ∃ cfg cc endpoint,
    parse_terse_config tc src = Ok cfg
    ∧ gen_from_config cfg network tls bkt auth = Ok cc
    ∧ std_dispatch_by_key hash (vbucket_routing_info cc) key copy = Ok (endpoint, vb)
    ∧ kv_targets cc !! endpoint = Some (mkTarget addr tls).
Proof using hash_u32.
  intros Hname Hloc Hmap Hn Hr Hid Hnd vb Hcopy Hrow Hi Hnode Haddr.
  destruct (parse_bucket_config tc src name m) as (cfg & info & Hcfg & Hb & Hvm & Hnodes); [done..| |].
  { intros E. rewrite E in Hn. simpl in Hn. by destruct Hn. }
  destruct (parsed_network_nodes src (default 0%nat (TerseConfig.nodes_len tc)) network
    (TerseConfig.nodes_ext tc) Hid) as (ns & Hns & Hlen & Hview).
  pose proof (parsed_ids_distinct _ _ _ _ _ Hid Hnd Hns) as Hids.
  destruct (gen_from_config_ok cfg network tls bkt auth ns) as (cc & Hcc & Hkv & _ & Hri).
  { unfold addresses_group_for_network_type. by rewrite Hnodes. }
  destruct (Hview tls i node Hnode) as (n & p & Hin & _ & _ & _ & Hdata & Hkvaddr).
  exists cfg, cc, ("kv" +:+ n_node_id n). split_and!; [done..| |].
  - set (vmap := mkVbucketMap (VBucketServerMap.vbucket_map m) (VBucketServerMap.num_replicas m)) in *.
    rewrite Hri, Hb. simpl.
    destruct (dispatch_by_key_spec hash hash_u32
      (mkRoutingInfo (vbucket_map info)
        ((λ n, "kv" +:+ n_node_id n) <$> filter (λ n, n_has_data n = true) ns) true) vmap key copy)
      as [_ ->]; [done..|lia|]. simpl.
    test_false (VBucketServerMap.num_replicas m + 1 <? copy).
    change (vbucket_of hash (num_vbuckets vmap) key) with vb.
    assert (owner (mkRoutingInfo (vbucket_map info)
        ((λ n, "kv" +:+ n_node_id n) <$> filter (λ n, n_has_data n = true) ns) true) vmap vb copy
      = Some ("kv" +:+ n_node_id n)) as ->; [|done].
    unfold owner. simpl. change (entries vmap) with (VBucketServerMap.vbucket_map m).
    destruct (VBucketServerMap.vbucket_map m !! Z.to_nat vb) as [row|]; [|done]. simpl in *.
    rewrite Hrow. simpl. test_true (0 <=? Z.of_nat i). rewrite Nat2Z.id.
    rewrite (filter_prefix n_has_data ns (default 0%nat (TerseConfig.nodes_len tc))).
    { rewrite list_lookup_fmap, lookup_take_lt by done. by rewrite Hin. }
    intros j x Hj. destruct (lookup_lt_is_Some_2 (TerseConfig.nodes_ext tc) j) as [y Hy].
    { rewrite <- Hlen. by eapply lookup_lt_Some. }
    destruct (Hview tls j y Hy) as (x' & ? & Hx' & _ & _ & _ & Hd & _). congruence.
  - rewrite Hkv, lookup_fmap. unfold kv_data_hosts.
    rewrite (endpoint_map_lookup "kv" _ ns n addr); [done..| |by rewrite Hkvaddr].
    by eapply list_elem_of_lookup_2.
Qed.
End Reach.

(** ** Well-formedness *)

(** A parsed config: a vbucket map is never empty and belongs to a Couchbase
    bucket, only known features are kept, and the data nodes come first. *)
Definition config_wf (cfg : ParsedConfig) : Prop :=
  (∀ info m, bucket cfg = Some info → vbucket_map info = Some m →
     entries m ≠ [] ∧ bucket_type info = Couchbase)
  ∧ (∀ info, bucket cfg = Some info → ParsedConfigBucketFeature.Unknown ∉ bucket_features info)
  ∧ (∃ n, ∀ i node, nodes cfg !! i = Some node → has_data node = (i <? n)%nat).

(** The configs of the components: the router's servers are the first endpoints the
    config manager polls, every connection goes to one of those endpoints and uses
    the agent's TLS setting, and a vbucket map is only there with a bucket. *)
Definition component_configs_wf (tls : bool) (cc : AgentComponentConfigs) : Prop :=
  server_list (vbucket_routing_info cc) `prefix_of` config_manager_endpoints cc
  ∧ (∀ id t, kv_targets cc !! id = Some t → id ∈ config_manager_endpoints cc ∧ target_tls t = tls)
  ∧ (∀ m, vbucket_info (vbucket_routing_info cc) = Some m →
       bucket_selected (vbucket_routing_info cc) = true ∧ entries m ≠ []).

Lemma parse_server_map_ok vm m :
  parse_vbucket_server_map vm = Ok (Some m) → entries m ≠ [].
Proof.
  unfold parse_vbucket_server_map. destruct vm as [vm|]; [|done]. case_bool_decide; [done|].
  unfold vbucket_map_new. destruct (VBucketServerMap.vbucket_map vm); [done|]. simpl. by intros [= <-].
Qed.

Lemma parse_terse_config_wf tc src cfg : parse_terse_config tc src = Ok cfg → config_wf cfg.
Proof.
  unfold parse_terse_config. intros H. apply bind_ok_inv in H as (info & Hinfo & [= <-]).
  split_and!; simpl; [..|eexists; intros i node Hi; rewrite list_lookup_imap in Hi;
    destruct (TerseConfig.nodes_ext tc !! i); by simplify_eq/=].
  - intros b m -> Hm. destruct (TerseConfig.name tc); [|done].
    apply bind_ok_inv in Hinfo as ([bt vm] & Hbv & [= <-]). simpl in *. subst vm.
    destruct (TerseConfig.node_locator tc) as [loc|]; [|done]. case_bool_decide; [|done].
    apply bind_ok_inv in Hbv as (vm & Hvm & [= <- ->]). split; [|done]. by eapply parse_server_map_ok.
  - intros b -> Hin. destruct (TerseConfig.name tc); [|done].
    apply bind_ok_inv in Hinfo as ([bt vm] & Hbv & [= <-]). simpl in Hin.
    by apply list_elem_of_filter in Hin as [[] _].
Qed.

Lemma network_nodes_data nt ns l i n m :
  network_nodes nt ns = Ok l → ns !! i = Some n → l !! i = Some m → n_has_data m = has_data n.
Proof.
  revert l i. induction ns as [|x ns IH]; intros l i; simpl; [done|]. intros H.
  apply bind_ok_inv in H as (y & Hy & H). apply bind_ok_inv in H as (l' & Hl' & [= <-]).
  destruct i as [|i]; simpl; [|by apply IH]. intros [= ->] [= ->].
  unfold network_node in Hy. apply bind_ok_inv in Hy as (p & _ & [= <-]).
  case_bool_decide; [done|]. by destruct (alt_addresses n !! nt).
Qed.

Lemma network_nodes_length nt ns l : network_nodes nt ns = Ok l → length l = length ns.
Proof.
  revert l. induction ns as [|x ns IH]; intros l; simpl; [by intros [= <-]|]. intros H.
  apply bind_ok_inv in H as (y & Hy & H). apply bind_ok_inv in H as (l' & Hl' & [= <-]).
  simpl. by rewrite (IH l').
Qed.

(** C37. Every config the parser returns is well formed, and so is everything
    the components are configured with: the vbucket map is not empty and belongs to
    a Couchbase bucket, the data nodes are the first nodes of the list, so the
    index of a server in the vbucket map is its index among the endpoints the
    config manager polls; no connection has an endpoint the config manager does
    not know, and all of them use the agent's TLS setting. *)
Theorem configs_well_formed tc src network tls bkt auth cfg cc :
  parse_terse_config tc src = Ok cfg → gen_from_config cfg network tls bkt auth = Ok cc →
  config_wf cfg ∧ component_configs_wf tls cc.
Proof.
  intros Hcfg Hcc. pose proof (parse_terse_config_wf _ _ _ Hcfg) as Hwf. split; [done|].
  destruct Hwf as (Hmap & _ & k & Hdata).
  destruct (addresses_group_for_network_type cfg network) as [ns| |] eqn:Hns;
    [|by unfold gen_from_config in Hcc; rewrite Hns in Hcc..].
  destruct (gen_from_config_ok cfg network tls bkt auth ns Hns) as (cc' & Hcc' & Hkv & Hep & Hri).
  rewrite Hcc in Hcc'. injection Hcc' as <-. unfold component_configs_wf. rewrite Hri, Hep, Hkv.
  split_and!; simpl.
  - rewrite (filter_prefix n_has_data ns k); [rewrite fmap_take; eexists; by rewrite take_drop|].
    intros i m Hi. destruct (lookup_lt_is_Some_2 (nodes cfg) i) as [n Hn].
    { rewrite <- (network_nodes_length _ _ _ Hns). by eapply lookup_lt_Some. }
    rewrite (network_nodes_data _ _ _ i n m Hns Hn Hi). by apply Hdata.
  - intros id t Hid. rewrite lookup_fmap in Hid. apply fmap_Some in Hid as (a & Ha & ->).
    apply endpoint_map_inv in Ha as (n & Hin & -> & _). split; [|done].
    apply list_elem_of_fmap. eauto.
  - intros m Hm. destruct (bucket cfg) as [info|] eqn:Hb; [|done]. simpl in Hm. split; [done|].
    by eapply Hmap.
Qed.

(** Configuring the components panics exactly when a node has no management port:
    the comment in [addresses_group_for_network_type] holds for every server, but
    nothing in the parser enforces it. *)
Lemma gen_from_config_panics cfg network tls bkt auth :
  gen_from_config cfg network tls bkt auth = Panic
  ↔ ∃ n, n ∈ nodes cfg ∧ p_mgmt (non_ssl_ports (addresses n)) = None.
Proof.
  split.
  - intros H. destruct (decide (Forall (λ n, p_mgmt (non_ssl_ports (addresses n)) ≠ None) (nodes cfg)))
      as [Hall|Hex].
    + destruct (network_nodes_ok network _ Hall) as (l & Hl & _). unfold gen_from_config,
        addresses_group_for_network_type in H. by rewrite Hl in H.
    + apply not_Forall_Exists in Hex; [|apply _]. apply list.Exists_exists in Hex as (n & Hn & Hp).
      exists n. split; [done|]. by apply dec_stable.
  - intros (n & Hn & Hp). unfold gen_from_config, addresses_group_for_network_type.
    assert (network_nodes network (nodes cfg) = Panic) as ->; [|done].
    induction (nodes cfg) as [|x ns IH]; [by apply elem_of_nil in Hn|]. simpl.
    destruct (network_node network x) as [y| |] eqn:Hx; simpl; [|..|done].
    + apply elem_of_cons in Hn as [->|Hn].
      { unfold network_node in Hx. by rewrite Hp in Hx. }
      by rewrite (IH Hn).
    + unfold network_node in Hx. by destruct (p_mgmt (non_ssl_ports (addresses x))).
Qed.

Lemma is_address_colon h p addr : is_address h p addr = true → str_contains colon addr = true.
Proof.
  unfold is_address. destruct p as [p|]; [|done]. intros H. apply bool_decide_eq_true in H as <-.
  rewrite !str_contains_app. simpl. by rewrite orb_true_r.
Qed.

Lemma node_contains_address_colon a addr :
  str_contains colon addr = false → node_contains_address a addr = false.
Proof.
  intros Hc. unfold node_contains_address. apply not_true_iff_false. intros H.
  rewrite !orb_true_iff in H. destruct H as [[[H|H]|H]|H]; apply is_address_colon in H; congruence.
Qed.

(** Automatic network selection never leaves the default network: the
    heuristic compares [host:port] texts with the host the config came from, and
    that host carries no port.  So for a config whose source is a plain host name
    the answer is the default network, whatever alternate addresses the nodes
    have, even when the host is one of them; another network is only used when
    the options name it. *)
Lemma auto_network_is_default iter network cfg :
  str_contains colon (source_hostname cfg) = false →
  agent_network_type iter network cfg
  = match network with
    | Some n => if bool_decide (n = "auto"%string) || bool_decide (n = ""%string)
                then "default"%string else n
    | None => "default"%string
    end.
Proof.
  intros Hc. assert (identify iter cfg = "default"%string) as Hid.
  { unfold identify. destruct (existsb _ _); [done|].
    destruct (list_find _ _) as [[i [nt a]]|] eqn:Hf; [|done].
    apply list_find_Some in Hf as (_ & H & _). simpl in H.
    by rewrite node_contains_address_colon in H. }
  unfold agent_network_type. by rewrite Hid.
Qed.

(** ** Witnesses: a cluster of two data nodes and a query node, the first with an
    external address *)

Definition sample_ports (kv mgmt : Z) : TerseExtNodePorts :=
  TerseExtNodePorts.mk (Some kv) None (Some mgmt) None None None None None None
    (Some (kv - 3)) None (Some (mgmt + 10000)) None None None None None None.

Definition sample_nodes : list TerseNodeExtConfig :=
  [mkNodeExt (Some (sample_ports 11210 8091)) (Some true) None
     {["external"%string := mkAltAddresses (sample_ports 31210 38091) (Some "db.example.com"%string)]};
   mkNodeExt (Some (sample_ports 11210 8091)) None (Some "10.0.0.2"%string) ∅;
   mkNodeExt (Some (TerseExtNodePorts.mk None None (Some 8091) (Some 8093) None None None None None
                      None None None None None None None None None)) None (Some "10.0.0.3"%string) ∅].

Definition sample_server_map : VBucketServerMap :=
  VBucketServerMap.mk "CRC" 1 ["10.0.0.1:11210"; "10.0.0.2:11210"]%string
    [[0; 1]; [1; 0]; [0; 1]; [0; 1]; [1; 0]].

Definition sample_terse : TerseConfig :=
  TerseConfig.mk 42 (Some 1) (Some "travel"%string) (Some "vbucket"%string) (Some "uuid"%string)
    (Some ["rangeScan"; "new"]%string) (Some sample_server_map) (Some 2%nat) sample_nodes ∅.

Definition sample_auth : Authenticator := Authenticator.CertificateAuthenticator.

Lemma sample_nodes_identified : Forall (identified "10.0.0.1") sample_nodes.
Proof. repeat constructor; exists 8091; split; (reflexivity || split; lia). Qed.

Lemma sample_nodes_distinct : NoDup (node_identity "10.0.0.1" <$> sample_nodes).
Proof. apply (bool_decide_unpack _). vm_compute. exact I. Qed.

Lemma keys_reach_the_mapped_node_example :
  (∃ cfg cc endpoint,
     parse_terse_config sample_terse "10.0.0.1" = Ok cfg
     ∧ gen_from_config cfg "default" false None sample_auth = Ok cc
     ∧ std_dispatch_by_key crc32_ieee (P := true) (vbucket_routing_info cc) (str_bytes "key1") 0
       = Ok (endpoint, 1)
     ∧ kv_targets cc !! endpoint = Some (mkTarget (mkAddress "10.0.0.2" 11210) false))
  ∧ ∃ cfg cc endpoint,
     parse_terse_config sample_terse "10.0.0.1" = Ok cfg
     ∧ gen_from_config cfg "external" true None sample_auth = Ok cc
     ∧ std_dispatch_by_key crc32_ieee (P := true) (vbucket_routing_info cc) (str_bytes "key2") 0
       = Ok (endpoint, 3)
     ∧ kv_targets cc !! endpoint = Some (mkTarget (mkAddress "db.example.com" 31207) true).
Proof.
  split.
  - apply (keys_reach_the_mapped_node (P := true) crc32_ieee crc32_ieee_u32 sample_terse "10.0.0.1"
      "default" false None sample_auth "travel" sample_server_map (str_bytes "key1") 0 1
      (mkNodeExt (Some (sample_ports 11210 8091)) None (Some "10.0.0.2"%string) ∅)
      (mkAddress "10.0.0.2" 11210));
      first [exact sample_nodes_identified | exact sample_nodes_distinct | evaluate | vm_compute; lia].
  - eapply (keys_reach_the_mapped_node (P := true) crc32_ieee crc32_ieee_u32 sample_terse "10.0.0.1"
      "external" true None sample_auth "travel" sample_server_map (str_bytes "key2") 0 0
      _ (mkAddress "db.example.com" 31207));
      first [exact sample_nodes_identified | exact sample_nodes_distinct | evaluate | vm_compute; lia].
Defined.

Lemma configs_well_formed_witness :
  ∃ cfg cc, parse_terse_config sample_terse "10.0.0.1" = Ok cfg
  ∧ gen_from_config cfg "default" false None sample_auth = Ok cc
  ∧ config_wf cfg ∧ component_configs_wf false cc.
Proof.
  eexists _, _. split; [vm_compute; reflexivity|]. split; [vm_compute; reflexivity|].
  eapply (configs_well_formed sample_terse "10.0.0.1" "default" false None sample_auth);
    vm_compute; reflexivity.
Defined.

(** Reached through the external address, the agent still takes the internal one. *)
Lemma auto_network_is_default_example :
  ∃ cfg, parse_terse_config sample_terse "db.example.com" = Ok cfg
  ∧ agent_network_type map_to_list (Some "auto"%string) cfg = "default"%string.
Proof.
  eexists. split; [vm_compute; reflexivity|].
  apply (auto_network_is_default map_to_list (Some "auto"%string)). vm_compute. reflexivity.
Defined.
