(* ===== verification/Babysitter.v ===== *)
(** * The babysitter of one connection ([kvclient_babysitter.rs])

    A babysitter keeps one connection to its endpoint: it builds a client, watches
    for its loss, builds the next one, and hands the current client to callers.
    Its tasks run concurrently; the model is a transition system whose steps are
    the critical sections, stores and sends of the code, one label each, so that a
    list of labels is an interleaving.

    A client is named by the id of the build that made it ([client_id] of
    [begin_client_build]; a build hands out at most one client).  The steps of the
    environment are the outcome of a connection attempt, the end of a connection's
    read loop, a client that closes itself ([close] in [kvclient_ops.rs]) and the
    passing of time. *)

From S2P Require Import Prelude Text Wire MemdError Requests Response CoreError Vbucket Bootstrap Config.

(** ** State *)

(** [connection_state.rs]. *)
Module ConnectionState.
Inductive ConnectionState : Type := Connected | Disconnected | Connecting | Disconnecting.
End ConnectionState.
Abbreviation ConnectionState := ConnectionState.ConnectionState.

#[global] Instance connection_state_eq_dec : EqDecision ConnectionState.
Proof. solve_decision. Defined.

Record KvClientBabysitterClientConfig : Type := mkClientConfig {
  cc_target : KvTarget;
  cc_auth : Authenticator;
  cc_bucket : option string;
}.

Record ConnectionError : Type := mkConnectionError {
  connect_error : Core.Error;
  connect_error_time : Z;
}.

(** Where a build is: at the top of its loop, asleep until a time, about to read the
    wanted config, connecting with it, holding a new client at each of the four
    places it is published, or holding the error of a failed attempt. *)
Inductive Builder : Type :=
| BThrottle
| BSleep (until : Z)
| BPrepare
| BConnect (config : KvClientBabysitterClientConfig)
| BInstall
| BStoreFast
| BNotify
| BReport
| BFailed (e : Core.Error).

(** Where the task that waits for the loss of a client is. *)
Inductive Watcher : Type := WWait | WClosed | WReport | WRestart.

(** Where a call of [get_client] is; [seen] is the version of the watch channel the
    subscription has seen. *)
Inductive Caller : Type :=
| CFast
| CSlow
| CSubscribe
| CBegin (seen : nat)
| CWait (seen : nat)
| CDone (client : option nat).

Module Babysitter.
Record Babysitter : Type := mk {
  on_demand_connect : bool;
  connect_throttle_period : Z;
  desired_config : KvClientBabysitterClientConfig;
  connect_err : option ConnectionError;
  client : option nat;
  current_state : ConnectionState;
  is_building : bool;
  fast_client : option nat;
  on_client_connected : nat * option nat;
  shutdown : bool;
  (** sent to the pool, the last first *)
  state_changes : list (option nat);
  builders : gmap nat Builder;
  watchers : gmap nat Watcher;
  callers : gmap nat Caller;
  (** the clients that were built, and those of them that are closed *)
  built : gset nat;
  closed : gset nat;
  now : Z;
  next_id : nat;
}.
End Babysitter.
Abbreviation Babysitter := Babysitter.Babysitter.
Import Babysitter.

(** Field updates. *)
Definition set_desired (c : KvClientBabysitterClientConfig) (s : Babysitter) : Babysitter :=
  mk (on_demand_connect s) (connect_throttle_period s) c (connect_err s) (client s) (current_state s)
    (is_building s) (fast_client s) (on_client_connected s) (shutdown s) (state_changes s)
    (builders s) (watchers s) (callers s) (built s) (closed s) (now s) (next_id s).

(** The fields of [slow_state] a critical section writes. *)
Definition set_slow (err : option ConnectionError) (c : option nat) (cs : ConnectionState) (b : bool)
    (s : Babysitter) : Babysitter :=
  mk (on_demand_connect s) (connect_throttle_period s) (desired_config s) err c cs
    b (fast_client s) (on_client_connected s) (shutdown s) (state_changes s)
    (builders s) (watchers s) (callers s) (built s) (closed s) (now s) (next_id s).

Definition set_fast (c : option nat) (s : Babysitter) : Babysitter :=
  mk (on_demand_connect s) (connect_throttle_period s) (desired_config s) (connect_err s) (client s)
    (current_state s) (is_building s) c (on_client_connected s) (shutdown s) (state_changes s)
    (builders s) (watchers s) (callers s) (built s) (closed s) (now s) (next_id s).

Definition send_connected (c : nat) (s : Babysitter) : Babysitter :=
  mk (on_demand_connect s) (connect_throttle_period s) (desired_config s) (connect_err s) (client s)
    (current_state s) (is_building s) (fast_client s) (S (fst (on_client_connected s)), Some c)
    (shutdown s) (state_changes s)
    (builders s) (watchers s) (callers s) (built s) (closed s) (now s) (next_id s).

Definition send_state_change (c : option nat) (s : Babysitter) : Babysitter :=
  mk (on_demand_connect s) (connect_throttle_period s) (desired_config s) (connect_err s) (client s)
    (current_state s) (is_building s) (fast_client s) (on_client_connected s) (shutdown s)
    (c :: state_changes s)
    (builders s) (watchers s) (callers s) (built s) (closed s) (now s) (next_id s).

Definition set_shutdown (s : Babysitter) : Babysitter :=
  mk (on_demand_connect s) (connect_throttle_period s) (desired_config s) (connect_err s) (client s)
    (current_state s) (is_building s) (fast_client s) (on_client_connected s) true (state_changes s)
    (builders s) (watchers s) (callers s) (built s) (closed s) (now s) (next_id s).

Definition set_builders (m : gmap nat Builder) (s : Babysitter) : Babysitter :=
  mk (on_demand_connect s) (connect_throttle_period s) (desired_config s) (connect_err s) (client s)
    (current_state s) (is_building s) (fast_client s) (on_client_connected s) (shutdown s)
    (state_changes s) m (watchers s) (callers s) (built s) (closed s) (now s) (next_id s).

Definition set_watchers (m : gmap nat Watcher) (s : Babysitter) : Babysitter :=
  mk (on_demand_connect s) (connect_throttle_period s) (desired_config s) (connect_err s) (client s)
    (current_state s) (is_building s) (fast_client s) (on_client_connected s) (shutdown s)
    (state_changes s) (builders s) m (callers s) (built s) (closed s) (now s) (next_id s).

Definition set_callers (m : gmap nat Caller) (s : Babysitter) : Babysitter :=
  mk (on_demand_connect s) (connect_throttle_period s) (desired_config s) (connect_err s) (client s)
    (current_state s) (is_building s) (fast_client s) (on_client_connected s) (shutdown s)
    (state_changes s) (builders s) (watchers s) m (built s) (closed s) (now s) (next_id s).

Definition set_clients (b c : gset nat) (s : Babysitter) : Babysitter :=
  mk (on_demand_connect s) (connect_throttle_period s) (desired_config s) (connect_err s) (client s)
    (current_state s) (is_building s) (fast_client s) (on_client_connected s) (shutdown s)
    (state_changes s) (builders s) (watchers s) (callers s) b c (now s) (next_id s).

Definition set_clock (t : Z) (n : nat) (s : Babysitter) : Babysitter :=
  mk (on_demand_connect s) (connect_throttle_period s) (desired_config s) (connect_err s) (client s)
    (current_state s) (is_building s) (fast_client s) (on_client_connected s) (shutdown s)
    (state_changes s) (builders s) (watchers s) (callers s) (built s) (closed s) t n.

(** ** Operations *)

(** Spawns the task that waits for the loss of the client and the one that builds it. *)
Definition begin_client_build (s : Babysitter) : Babysitter :=
  let id := next_id s in
  set_clock (now s) (S id)
    (set_builders (<[id := BThrottle]> (builders s)) (set_watchers (<[id := WWait]> (watchers s)) s)).

Definition maybe_begin_client (s : Babysitter) : Babysitter :=
  if is_building s then s
  else begin_client_build (set_slow (connect_err s) (client s) (current_state s) true s).

Definition babysitter_new (on_demand : bool) (period : Z) (config : KvClientBabysitterClientConfig)
    (t : Z) : Babysitter :=
  let s := mk on_demand period config None None ConnectionState.Disconnected false None (0%nat, None)
             false [] ∅ ∅ ∅ ∅ ∅ t 0 in
  if on_demand then s else maybe_begin_client s.

(** One step of a call of [get_client]. *)
Definition caller_step (i : nat) (pc : Caller) (s : Babysitter) : option Babysitter :=
  let goto pc := Some (set_callers (<[i := pc]> (callers s)) s) in
  match pc with
  | CFast => match fast_client s with Some c => goto (CDone (Some c)) | None => goto CSlow end
  | CSlow => match client s with Some c => goto (CDone (Some c)) | None => goto CSubscribe end
  | CSubscribe => goto (CBegin (fst (on_client_connected s)))
  | CBegin seen =>
      let s := maybe_begin_client s in
      Some (set_callers (<[i := CWait seen]> (callers s)) s)
  | CWait seen =>
      if bool_decide (seen = fst (on_client_connected s)) then None
      else
        match snd (on_client_connected s) with
        | Some c => goto (CDone (Some c))
        | None => goto (CWait (fst (on_client_connected s)))
        end
  | CDone _ => None
  end.

(** [maybe_throttle_on_error], up to the sleep. *)
Definition maybe_throttle_on_error (s : Babysitter) : Builder :=
  match connect_err s with
  | Some e =>
      let elapsed := now s - connect_error_time e in
      if elapsed <? connect_throttle_period s
      then BSleep (now s + (connect_throttle_period s - elapsed))
      else BPrepare
  | None => BPrepare
  end.

(** One step of the build [b]; the outcome of an attempt is a step of its own. *)
Definition builder_step (b : nat) (pc : Builder) (s : Babysitter) : option Babysitter :=
  let goto pc s := Some (set_builders (<[b := pc]> (builders s)) s) in
  match pc with
  | BThrottle => goto (maybe_throttle_on_error s) s
  | BSleep until => if now s <? until then None else goto BPrepare s
  | BPrepare =>
      goto (BConnect (desired_config s))
        (set_slow (connect_err s) (client s) ConnectionState.Connecting (is_building s) s)
  | BConnect _ => None
  | BInstall => goto BStoreFast (set_slow (connect_err s) (Some b) ConnectionState.Connected false s)
  | BStoreFast => goto BNotify (set_fast (Some b) s)
  | BNotify => goto BReport (send_connected b s)
  | BReport =>
      let s := send_state_change (Some b) s in
      Some (set_builders (base.delete b (builders s)) s)
  | BFailed e =>
      goto BThrottle
        (set_slow (Some (mkConnectionError e (now s))) (client s) ConnectionState.Disconnected false s)
  end.

(** [on_close.send(())]: the task hears of the loss when it still waits. *)
Definition signal_close (c : nat) (s : Babysitter) : Babysitter :=
  match watchers s !! c with
  | Some WWait => set_watchers (<[c := WClosed]> (watchers s)) s
  | _ => s
  end.

(** One step of the task that waits for the loss of the client [c]. *)
Definition watcher_step (c : nat) (pc : Watcher) (s : Babysitter) : option Babysitter :=
  match pc with
  | WWait => None
  | WClosed =>
      let s := set_slow (connect_err s) (client s) (current_state s) false s in
      Some (if bool_decide (client s = Some c) then
              let s := set_slow (connect_err s) None (current_state s) (is_building s) s in
              let s := set_fast None s in
              set_watchers (<[c := WReport]> (watchers s)) s
            else set_watchers (base.delete c (watchers s)) s)
  | WReport =>
      let s := send_state_change None s in
      Some (set_watchers (<[c := WRestart]> (watchers s)) s)
  | WRestart =>
      let s := set_watchers (base.delete c (watchers s)) s in
      Some (if on_demand_connect s then s else maybe_begin_client s)
  end.

Definition update_target (t : KvTarget) (s : Babysitter) : Babysitter :=
  set_desired (mkClientConfig t (cc_auth (desired_config s)) (cc_bucket (desired_config s))) s.

(** The wanted authenticator; with a token the current client is authenticated
    again in the background, and closes itself when that fails. *)
Definition update_auth (a : Authenticator) (s : Babysitter) : Babysitter :=
  set_desired (mkClientConfig (cc_target (desired_config s)) a (cc_bucket (desired_config s))) s.

(** [close]; [close_ok] is the result of closing the client. *)
Definition close (close_ok : bool) (s : Babysitter) : Babysitter :=
  let c := client s in
  let s := set_slow (connect_err s) None (current_state s) (is_building s) (set_fast None (set_shutdown s)) in
  match c with
  | Some c =>
      let s := set_clients (built s) ({[c]} ∪ closed s) s in
      if close_ok then send_state_change None s else s
  | None => send_state_change None s
  end.

(** ** Interleavings *)

Inductive label : Type :=
| LCall (i : nat)
| LCaller (i : nat)
| LCallerShutdown (i : nat)
| LBuilder (b : nat)
| LBuilderShutdown (b : nat)
| LConnected (b : nat)
| LConnectFailed (b : nat) (e : Core.Error) (signalled : bool)
| LWatcher (c : nat)
| LWatcherShutdown (c : nat)
| LConnectionLost (c : nat)
| LSelfClose (c : nat)
| LTick (d : nat)
| LUpdateTarget (t : KvTarget)
| LUpdateAuth (a : Authenticator)
| LClose (close_ok : bool).

Definition step (l : label) (s : Babysitter) : option Babysitter :=
  match l with
  | LCall i =>
      if bool_decide (callers s !! i = None) then Some (set_callers (<[i := CFast]> (callers s)) s)
      else None
  | LCaller i => pc ← callers s !! i; caller_step i pc s
  | LCallerShutdown i =>
      match callers s !! i with
      | Some (CWait _) =>
          if shutdown s then Some (set_callers (<[i := CDone None]> (callers s)) s) else None
      | _ => None
      end
  | LBuilder b => pc ← builders s !! b; builder_step b pc s
  | LBuilderShutdown b =>
      if shutdown s then
        match builders s !! b with
        | Some (BSleep _) => Some (set_builders (base.delete b (builders s)) s)
        | Some (BConnect _) => Some (set_builders (base.delete b (builders s)) (set_fast None s))
        | _ => None
        end
      else None
  | LConnected b =>
      match builders s !! b with
      | Some (BConnect _) =>
          Some (set_clients ({[b]} ∪ built s) (closed s) (set_builders (<[b := BInstall]> (builders s)) s))
      | _ => None
      end
  | LConnectFailed b e signalled =>
      match builders s !! b with
      | Some (BConnect _) =>
          let s := if signalled then signal_close b s else s in
          Some (set_builders (<[b := BFailed e]> (builders s)) (set_fast None s))
      | _ => None
      end
  | LWatcher c => pc ← watchers s !! c; watcher_step c pc s
  | LWatcherShutdown c =>
      match watchers s !! c with
      | Some WWait =>
          if shutdown s then Some (set_watchers (base.delete c (watchers s)) s) else None
      | _ => None
      end
  | LConnectionLost c =>
      if bool_decide (c ∈ built s ∧ c ∉ closed s)
      then Some (signal_close c (set_clients (built s) ({[c]} ∪ closed s) s)) else None
  | LSelfClose c =>
      if bool_decide (c ∈ built s) then Some (set_clients (built s) ({[c]} ∪ closed s) s) else None
  | LTick d => Some (set_clock (now s + Z.of_nat d) (next_id s) s)
  | LUpdateTarget t => Some (update_target t s)
  | LUpdateAuth a => Some (update_auth a s)
  | LClose close_ok => Some (close close_ok s)
  end.

Fixpoint run (ls : list label) (s : Babysitter) : option Babysitter :=
  match ls with
  | [] => Some s
  | l :: ls => s' ← step l s; run ls s'
  end.

(** ** Invariants *)

(** A build that has not yet installed its client, or not yet announced it. *)
Definition pre_install (pc : Builder) : bool :=
  match pc with
  | BThrottle | BSleep _ | BPrepare | BConnect _ | BInstall | BFailed _ => true
  | _ => false
  end.

Definition pre_notify (pc : Builder) : bool :=
  match pc with BReport => false | _ => true end.

(** A build that holds a client. *)
Definition holds_client (pc : Builder) : bool :=
  match pc with BInstall | BStoreFast | BNotify | BReport => true | _ => false end.

Definition some_builder (Q : Builder → bool) (s : Babysitter) : Prop :=
  ∃ b pc, builders s !! b = Some pc ∧ Q pc = true.

Definition is_built (s : Babysitter) (c : option nat) : Prop :=
  match c with Some c => c ∈ built s | None => True end.

Record inv (s : Babysitter) : Prop := {
  inv_building : shutdown s = false → is_building s = true → some_builder pre_install s;
  inv_waiting : ∀ i seen, shutdown s = false → callers s !! i = Some (CWait seen) →
    seen = fst (on_client_connected s) → some_builder pre_notify s;
  inv_seen : ∀ i seen, callers s !! i = Some (CBegin seen) ∨ callers s !! i = Some (CWait seen) →
    (seen <= fst (on_client_connected s))%nat;
  inv_connected : (0 < fst (on_client_connected s))%nat → is_Some (snd (on_client_connected s));
  inv_client_built : is_built s (client s);
  inv_fast_built : is_built s (fast_client s);
  inv_connected_built : is_built s (snd (on_client_connected s));
  inv_builder_built : ∀ b pc, builders s !! b = Some pc → holds_client pc = true → b ∈ built s;
  inv_done_built : ∀ i c, callers s !! i = Some (CDone c) → is_built s c;
}.

Lemma some_builder_insert Q s b pc :
  Q pc = true → some_builder Q (set_builders (<[b := pc]> (builders s)) s).
Proof. intros H. exists b, pc. simpl. by rewrite lookup_insert_eq. Qed.

(** A build that moves on keeps the promise as long as it is still before the point. *)
Lemma some_builder_move (Q : Builder → bool) (m : gmap nat Builder) b pc pc' :
  m !! b = Some pc → (Q pc = true → Q pc' = true) →
  (∃ b pc, m !! b = Some pc ∧ Q pc = true) →
  ∃ b' pc, <[b := pc']> m !! b' = Some pc ∧ Q pc = true.
Proof.
  intros Hb HQ (b' & pc0 & Hb' & Hpc). destruct (decide (b' = b)) as [->|Hne].
  - exists b, pc'. rewrite lookup_insert_eq. simplify_eq. auto.
  - exists b', pc0. by rewrite lookup_insert_ne.
Qed.

Lemma some_builder_other (Q : Builder → bool) (m m' : gmap nat Builder) b pc :
  m !! b = Some pc → Q pc = false → (∀ b', b' ≠ b → m' !! b' = m !! b') →
  (∃ b pc, m !! b = Some pc ∧ Q pc = true) → ∃ b pc, m' !! b = Some pc ∧ Q pc = true.
Proof.
  intros Hb HQ Hm (b' & pc0 & Hb' & Hpc). assert (b' ≠ b) by (intros ->; simplify_eq; congruence).
  exists b', pc0. by rewrite Hm.
Qed.

Lemma pre_install_notify s : some_builder pre_install s → some_builder pre_notify s.
Proof. intros (b & pc & Hb & Hpc). exists b, pc. split; [done|]. by destruct pc. Qed.

Lemma inv_maybe_begin s : inv s → inv (maybe_begin_client s).
Proof.
  intros Hi. unfold maybe_begin_client. destruct (is_building s) eqn:Hb; [done|].
  destruct Hi. constructor; simpl; try done.
  - intros _ _. exists (next_id s), BThrottle. simpl. by rewrite lookup_insert_eq.
  - intros i seen _ _ _. exists (next_id s), BThrottle. simpl. by rewrite lookup_insert_eq.
  - intros b pc Hpc. destruct (decide (b = next_id s)) as [->|Hne];
      [rewrite lookup_insert_eq in Hpc; by simplify_eq|]. rewrite lookup_insert_ne in Hpc by done. eauto.
Qed.

(** After it, a build is under way. *)
Lemma maybe_begin_builds s :
  inv s → shutdown s = false → some_builder pre_notify (maybe_begin_client s).
Proof.
  intros Hi Hs. apply pre_install_notify. unfold maybe_begin_client.
  destruct (is_building s) eqn:Hb; [by apply (inv_building s Hi)|].
  exists (next_id s), BThrottle. simpl. by rewrite lookup_insert_eq.
Qed.

(** Moving a caller: to a place where it does not wait, or to a return. *)
Lemma inv_set_caller s i pc :
  inv s →
  match pc with
  | CBegin seen => (seen <= fst (on_client_connected s))%nat
  | CWait seen => (seen <= fst (on_client_connected s))%nat
                  ∧ (shutdown s = false → seen = fst (on_client_connected s) → some_builder pre_notify s)
  | CDone c => is_built s c
  | _ => True
  end → inv (set_callers (<[i := pc]> (callers s)) s).
Proof.
  intros Hi Hpc. destruct Hi. constructor; simpl; try done.
  - intros j seen Hs Hj. destruct (decide (j = i)) as [->|Hne];
      [|rewrite lookup_insert_ne in Hj by done; eauto].
    rewrite lookup_insert_eq in Hj. injection Hj as ->. destruct Hpc. auto.
  - intros j seen Hj. destruct (decide (j = i)) as [->|Hne];
      [|rewrite lookup_insert_ne in Hj by done; eauto].
    rewrite lookup_insert_eq in Hj. destruct Hj as [[= ->]|[= ->]]; [done|]. by destruct Hpc.
  - intros j c Hj. destruct (decide (j = i)) as [->|Hne];
      [|rewrite lookup_insert_ne in Hj by done; eauto].
    rewrite lookup_insert_eq in Hj. by injection Hj as ->.
Qed.

Lemma inv_caller_step i pc s s' :
  inv s → callers s !! i = Some pc → caller_step i pc s = Some s' → inv s'.
Proof.
  intros Hi Hpc H. destruct pc; simpl in H.
  - destruct (fast_client s) eqn:Hf; injection H as <-; apply inv_set_caller; try done.
    rewrite <- Hf. apply Hi.
  - destruct (client s) eqn:Hc; injection H as <-; apply inv_set_caller; try done.
    rewrite <- Hc. apply Hi.
  - injection H as <-. by apply inv_set_caller.
  - injection H as <-. apply inv_set_caller; [by apply inv_maybe_begin|]. split.
    + assert (fst (on_client_connected (maybe_begin_client s)) = fst (on_client_connected s)) as ->
        by (unfold maybe_begin_client; by destruct (is_building s)).
      eapply inv_seen; eauto.
    + intros Hs _. apply maybe_begin_builds; [done|]. revert Hs.
      unfold maybe_begin_client. by destruct (is_building s).
  - case_bool_decide as Hseen; [done|].
    assert (seen <= fst (on_client_connected s))%nat by (eapply inv_seen; eauto).
    destruct (inv_connected s Hi) as [c Hc]; [lia|]. rewrite Hc in H. injection H as <-.
    apply inv_set_caller; [done|]. rewrite <- Hc. apply Hi.
  - done.
Qed.

(** Moving a build to a place before the point, with the client it may hold. *)
Lemma inv_set_builder s b pc pc' :
  inv s → builders s !! b = Some pc →
  (pre_install pc = true → pre_install pc' = true ∨ is_building s = false) →
  (pre_notify pc = true → pre_notify pc' = true) →
  (holds_client pc' = true → b ∈ built s) →
  inv (set_builders (<[b := pc']> (builders s)) s).
Proof.
  intros Hi Hb Hinst Hnot Hbuilt. destruct Hi. constructor; simpl; try done.
  - intros Hs Hib. destruct (pre_install pc') eqn:Hpc'; [by apply some_builder_insert|].
    destruct (pre_install pc) eqn:Hpc.
    + destruct (Hinst eq_refl); congruence.
    + eapply some_builder_move; [done|by rewrite Hpc|]. by apply inv_building0.
  - intros i seen Hs Hi Hseen. eapply some_builder_move; [done..|]. by eapply inv_waiting0.
  - intros b' pc0 Hb' Hh. destruct (decide (b' = b)) as [->|Hne];
      [rewrite lookup_insert_eq in Hb'; simplify_eq; auto|].
    rewrite lookup_insert_ne in Hb' by done. eauto.
Qed.

(** Writes that keep the invariant: the slow state, the fast client, a report. *)
Lemma inv_set_slow s err c cs b :
  inv s → is_built s c → (b = true → is_building s = true) → inv (set_slow err c cs b s).
Proof. intros [] Hc Hb. constructor; simpl; try done. auto. Qed.

Lemma inv_set_fast s c : inv s → is_built s c → inv (set_fast c s).
Proof. intros [] Hc. by constructor. Qed.

Lemma inv_send_state_change s c : inv s → inv (send_state_change c s).
Proof. intros []. by constructor. Qed.

Lemma inv_set_watchers s m : inv s → inv (set_watchers m s).
Proof. intros []. by constructor. Qed.

(** A build that ends, when it no longer matters or everything shuts down. *)
Lemma inv_delete_builder s b pc :
  inv s → builders s !! b = Some pc → pre_notify pc = false ∨ shutdown s = true →
  inv (set_builders (base.delete b (builders s)) s).
Proof.
  intros Hi Hb Hend. destruct Hi. constructor; simpl; try done.
  - intros Hs Hib. destruct Hend as [Hend|]; [|congruence].
    eapply some_builder_other; [done|by destruct pc|by intros; apply lookup_delete_ne|].
    by apply inv_building0.
  - intros i seen Hs Hi Hseen. destruct Hend as [Hend|]; [|congruence].
    eapply some_builder_other; [done|done|by intros; apply lookup_delete_ne|]. by eapply inv_waiting0.
  - intros b' pc' Hb' Hh. apply lookup_delete_Some in Hb' as [_ Hb']. eauto.
Qed.

Lemma inv_builder_step b pc s s' :
  inv s → builders s !! b = Some pc → builder_step b pc s = Some s' → inv s'.
Proof.
  intros Hi Hb H. destruct pc; simpl in H.
  - injection H as <-. eapply inv_set_builder; try done; unfold maybe_throttle_on_error;
      repeat case_match; simpl; auto; done.
  - case_match; [done|]. injection H as <-. eapply inv_set_builder; eauto; done.
  - injection H as <-. apply (inv_set_builder (set_slow _ _ _ _ s) b BPrepare); auto; try done.
    apply inv_set_slow; [done|apply Hi|done].
  - done.
  - injection H as <-.
    assert (b ∈ built s) by (by eapply inv_builder_built).
    apply (inv_set_builder (set_slow _ _ _ _ s) b BInstall); auto. by apply inv_set_slow.
  - injection H as <-. assert (b ∈ built s) by (by eapply inv_builder_built).
    apply (inv_set_builder (set_fast _ s) b BStoreFast); auto; try done. by apply inv_set_fast.
  - injection H as <-. assert (b ∈ built s) by (by eapply inv_builder_built).
    destruct Hi. constructor; simpl; try done.
    + intros Hs Hib. eapply some_builder_move; [done| |by apply inv_building0]. done.
    + intros i seen Hs Hc ->. specialize (inv_seen0 i _ (or_intror Hc)). simpl in inv_seen0. lia.
    + intros i seen Hc. specialize (inv_seen0 i _ Hc). lia.
    + intros b' pc0 Hb' Hh. destruct (decide (b' = b)) as [->|Hne]; [done|].
      rewrite lookup_insert_ne in Hb' by done. eauto.
  - injection H as <-. apply (inv_delete_builder (send_state_change _ s) b BReport); auto.
    by apply inv_send_state_change.
  - injection H as <-. apply (inv_set_builder (set_slow _ _ _ _ s) b (BFailed e)); auto; try done.
    apply inv_set_slow; [done|apply Hi|done].
Qed.

Lemma inv_watcher_step c pc s s' : inv s → watcher_step c pc s = Some s' → inv s'.
Proof.
  intros Hi H. destruct pc; simpl in H.
  - done.
  - injection H as <-. case_bool_decide.
    + apply inv_set_watchers, inv_set_fast; [|done]. apply inv_set_slow; [|done..].
      apply inv_set_slow; [done|apply Hi|done].
    + apply inv_set_watchers, inv_set_slow; [done|apply Hi|done].
  - injection H as <-. by apply inv_set_watchers, inv_send_state_change.
  - injection H as <-. assert (inv (set_watchers (base.delete c (watchers s)) s))
      by by apply inv_set_watchers. destruct (on_demand_connect s); [done|]. by apply inv_maybe_begin.
Qed.

Lemma inv_signal_close c s : inv s → inv (signal_close c s).
Proof.
  intros Hi. unfold signal_close. destruct (watchers s !! c) as [[]|]; try done. by apply inv_set_watchers.
Qed.

(** Clients are never forgotten, so what was built stays built. *)
Lemma inv_set_clients s b c : inv s → built s ⊆ b → inv (set_clients b c s).
Proof.
  intros Hi Hb. assert (∀ o, is_built s o → is_built (set_clients b c s) o) as Hup.
  { intros [o|]; simpl; [set_solver|done]. }
  destruct Hi. constructor; simpl; try done; eauto.
Qed.

Lemma inv_set_desired s c : inv s → inv (set_desired c s).
Proof. intros []. by constructor. Qed.

Lemma inv_set_clock s t n : inv s → inv (set_clock t n s).
Proof. intros []. by constructor. Qed.

Lemma inv_set_shutdown s : inv s → inv (set_shutdown s).
Proof. intros []. by constructor. Qed.

Lemma inv_close ok s : inv s → inv (close ok s).
Proof.
  intros Hi. unfold close.
  assert (inv (set_slow (connect_err s) None (current_state s) (is_building s)
    (set_fast None (set_shutdown s)))) as Hc.
  { apply inv_set_slow; [|done..]. apply inv_set_fast; [|done]. by apply inv_set_shutdown. }
  destruct (client s) as [c|]; [|by apply inv_send_state_change].
  destruct ok; [apply inv_send_state_change|]; by apply inv_set_clients.
Qed.

(** Every step keeps the invariant. *)
Lemma sitter_inv_step l s s' : inv s → step l s = Some s' → inv s'.
Proof.
  intros Hi H. destruct l; simpl in H.
  - case_bool_decide; [|done]. injection H as <-. by apply inv_set_caller.
  - apply bind_Some in H as (pc & Hpc & H). by eapply inv_caller_step.
  - destruct (callers s !! i) as [[]|]; try done. destruct (shutdown s); [|done].
    injection H as <-. by apply inv_set_caller.
  - apply bind_Some in H as (pc & Hpc & H). by eapply inv_builder_step.
  - destruct (shutdown s) eqn:Hs; [|done]. destruct (builders s !! b) as [[]|] eqn:Hb; try done;
      injection H as <-.
    + eapply inv_delete_builder; eauto.
    + eapply (inv_delete_builder (set_fast None s)); eauto. by apply inv_set_fast.
  - destruct (builders s !! b) as [[]|] eqn:Hb; try done. injection H as <-.
    assert (inv (set_clients ({[b]} ∪ built s) (closed s) s)) as Hc
      by (apply inv_set_clients; [done|set_solver]).
    apply (inv_set_builder _ b _ BInstall Hc Hb); auto. simpl. set_solver.
  - destruct (builders s !! b) as [[]|] eqn:Hb; try done.
    assert (inv (set_fast None (if signalled then signal_close b s else s))) as Hc.
    { apply inv_set_fast; [|done]. destruct signalled; [by apply inv_signal_close|done]. }
    injection H as <-.
    apply (inv_set_builder _ b (BConnect config) (BFailed e) Hc); simpl; auto; try done.
    destruct signalled; [|done]. unfold signal_close. by destruct (watchers s !! b) as [[]|].
  - apply bind_Some in H as (pc & Hpc & H). by eapply inv_watcher_step.
  - destruct (watchers s !! c) as [[]|]; try done. destruct (shutdown s); [|done].
    injection H as <-. by apply inv_set_watchers.
  - case_bool_decide; [|done]. injection H as <-. by apply inv_signal_close, inv_set_clients.
  - case_bool_decide; [|done]. injection H as <-. by apply inv_set_clients.
  - injection H as <-. by apply inv_set_clock.
  - injection H as <-. by apply inv_set_desired.
  - injection H as <-. by apply inv_set_desired.
  - injection H as <-. by apply inv_close.
Qed.

Lemma inv_run ls s s' : inv s → run ls s = Some s' → inv s'.
Proof.
  revert s. induction ls as [|l ls IH]; intros s Hi H; simpl in H; [by injection H as <-|].
  apply bind_Some in H as (s1 & Hs1 & H). eapply IH; [|done]. by eapply sitter_inv_step.
Qed.

Lemma sitter_inv_new od period config t : inv (babysitter_new od period config t).
Proof.
  unfold babysitter_new. destruct od; [|apply inv_maybe_begin]; constructor; simpl; intros;
    destruct_or?; first [done | lia].
Qed.

(** ** Progress *)

Lemma sitter_run_app ls1 ls2 s s1 s2 : run ls1 s = Some s1 → run ls2 s1 = Some s2 → run (ls1 ++ ls2) s = Some s2.
Proof.
  revert s. induction ls1 as [|l ls1 IH]; intros s H1 H2; simpl in *; [by simplify_eq|].
  apply bind_Some in H1 as (s' & Hs' & H1). rewrite Hs'. simpl. by eapply IH.
Qed.

Lemma run_cons l ls s s1 s2 : step l s = Some s1 → run ls s1 = Some s2 → run (l :: ls) s = Some s2.
Proof. intros H1 H2. simpl. rewrite H1. done. Qed.

Definition is_close (l : label) : bool := match l with LClose _ => true | _ => false end.

(** The steps of the build [b] that make it announce a client. *)
Definition announces (b : nat) (s : Babysitter) : Prop :=
  ∃ ls s', run ls s = Some s' ∧ Forall (λ l, is_close l = false) ls
    ∧ on_client_connected s' = (S (fst (on_client_connected s)), Some b)
    ∧ callers s' = callers s ∧ shutdown s' = shutdown s.

(** One step that leaves the callers, the channel and the shutdown flag alone. *)
Lemma announces_step l b s s1 :
  step l s = Some s1 → is_close l = false →
  on_client_connected s1 = on_client_connected s → callers s1 = callers s → shutdown s1 = shutdown s →
  announces b s1 → announces b s.
Proof.
  intros Hs Hl Hc Hcs Hsh (ls & s' & Hr & Hls & Hc' & Hcs' & Hsh').
  exists (l :: ls), s'. simpl. rewrite Hs. simpl. rewrite Hc', Hc.
  split_and!; [done|by constructor|done| |]; congruence.
Qed.

Lemma announces_notify b s : builders s !! b = Some BNotify → announces b s.
Proof.
  intros Hb. exists [LBuilder b]. eexists. simpl. rewrite Hb. simpl.
  split_and!; try done. by constructor.
Qed.

Ltac builder_move b tac :=
  match goal with
  | Hb : builders ?s !! b = Some _ |- announces b ?s =>
      eapply (announces_step (LBuilder b)); [simpl; rewrite Hb; simpl; reflexivity|done..|];
      tac; simpl; by rewrite lookup_insert_eq
  end.

Lemma announces_store_fast b s : builders s !! b = Some BStoreFast → announces b s.
Proof. intros Hb. builder_move b ltac:(apply announces_notify). Qed.

Lemma announces_install b s : builders s !! b = Some BInstall → announces b s.
Proof. intros Hb. builder_move b ltac:(apply announces_store_fast). Qed.

Lemma announces_connect b s cfg : builders s !! b = Some (BConnect cfg) → announces b s.
Proof.
  intros Hb. eapply (announces_step (LConnected b)); [simpl; rewrite Hb; reflexivity|done..|].
  apply announces_install. simpl. by rewrite lookup_insert_eq.
Qed.

Lemma announces_prepare b s : builders s !! b = Some BPrepare → announces b s.
Proof. intros Hb. builder_move b ltac:(eapply announces_connect). Qed.

Lemma announces_sleep b s u : builders s !! b = Some (BSleep u) → announces b s.
Proof.
  intros Hb. eapply (announces_step (LTick (Z.to_nat (u - now s)))); [reflexivity|done..|].
  eapply (announces_step (LBuilder b)).
  - simpl. rewrite Hb. simpl. rewrite (proj2 (Z.ltb_ge _ _)) by lia. reflexivity.
  - done.
  - done.
  - done.
  - done.
  - apply announces_prepare. simpl. by rewrite lookup_insert_eq.
Qed.

Lemma announces_throttle b s : builders s !! b = Some BThrottle → announces b s.
Proof.
  intros Hb. eapply (announces_step (LBuilder b)); [simpl; rewrite Hb; simpl; reflexivity|done..|].
  destruct (maybe_throttle_on_error s) as [|u| | | | | | |] eqn:Ht;
    try (unfold maybe_throttle_on_error in Ht; by repeat case_match).
  - eapply announces_sleep. simpl. by rewrite lookup_insert_eq.
  - apply announces_prepare. simpl. by rewrite lookup_insert_eq.
Qed.

(** A build under way can always be completed. *)
Lemma announces_any b s pc :
  builders s !! b = Some pc → pre_notify pc = true → announces b s.
Proof.
  intros Hb Hpc. destruct pc; try done.
  - by apply announces_throttle.
  - by eapply announces_sleep.
  - by apply announces_prepare.
  - by eapply announces_connect.
  - by apply announces_install.
  - by apply announces_store_fast.
  - by apply announces_notify.
  - builder_move b ltac:(apply announces_throttle).
Qed.

(** Steps after which the call [i] has returned, with a client unless the babysitter
    was shut down. *)
Definition returns (i : nat) (s : Babysitter) : Prop :=
  ∃ ls s' r, run ls s = Some s' ∧ Forall (λ l, is_close l = false) ls
    ∧ callers s' !! i = Some (CDone r) ∧ (shutdown s = false → r ≠ None).

Lemma returns_step l i s s1 :
  step l s = Some s1 → is_close l = false → shutdown s1 = shutdown s → returns i s1 → returns i s.
Proof.
  intros Hs Hl Hsh (ls & s' & r & Hr & Hls & Hd & Hn). exists (l :: ls), s', r. simpl. rewrite Hs.
  split_and!; [done|by constructor|done|by rewrite <- Hsh].
Qed.

(** A step that returns. *)
Lemma returns_now l i s s1 c :
  step l s = Some s1 → is_close l = false → callers s1 !! i = Some (CDone (Some c)) → returns i s.
Proof.
  intros Hs Hl Hd. exists [l], s1, (Some c). simpl. rewrite Hs. split_and!; try done. by constructor.
Qed.

Lemma returns_wait i s seen : inv s → callers s !! i = Some (CWait seen) → returns i s.
Proof.
  intros Hi Hc. destruct (decide (seen = fst (on_client_connected s))) as [Heq|Hne].
  - destruct (shutdown s) eqn:Hs.
    + eexists [LCallerShutdown i], _, None. simpl. rewrite Hc, Hs. split_and!; [done|by constructor| |done].
      simpl. by rewrite lookup_insert_eq.
    + destruct (inv_waiting s Hi i seen Hs Hc Heq) as (b & pc & Hb & Hpc).
      destruct (announces_any b s pc Hb Hpc) as (ls & s' & Hr & Hls & Hcn & Hcs & Hsh).
      exists (ls ++ [LCaller i]). eexists _, (Some b). split_and!.
      * eapply sitter_run_app; [done|]. simpl. rewrite Hcs, Hc. simpl. rewrite Hcn. simpl.
        rewrite bool_decide_false by lia. reflexivity.
      * apply list.Forall_app. split; [done|by constructor].
      * simpl. by rewrite lookup_insert_eq.
      * done.
  - assert (seen <= fst (on_client_connected s))%nat by (eapply inv_seen; eauto).
    destruct (inv_connected s Hi) as [c Hcc]; [lia|].
    eapply (returns_now (LCaller i) i s _ c).
    + simpl. rewrite Hc. simpl. rewrite bool_decide_false by done. rewrite Hcc. reflexivity.
    + done.
    + simpl. by rewrite lookup_insert_eq.
Qed.

Lemma returns_begin i s seen : inv s → callers s !! i = Some (CBegin seen) → returns i s.
Proof.
  intros Hi Hc. assert (step (LCaller i) s = Some (set_callers
    (<[i := CWait seen]> (callers (maybe_begin_client s))) (maybe_begin_client s))) as Hs
    by (simpl; rewrite Hc; reflexivity).
  eapply returns_step; [exact Hs|done| |].
  - unfold maybe_begin_client. by destruct (is_building s) eqn:?.
  - apply (returns_wait _ _ seen); [by eapply sitter_inv_step|]. simpl. by rewrite lookup_insert_eq.
Qed.

Lemma returns_subscribe i s : inv s → callers s !! i = Some CSubscribe → returns i s.
Proof.
  intros Hi Hc. set (pc := CBegin (fst (on_client_connected s))).
  assert (step (LCaller i) s = Some (set_callers (<[i := pc]> (callers s)) s)) as Hs
    by (simpl; by rewrite Hc).
  eapply returns_step; [exact Hs|done|done|].
  eapply returns_begin; [by eapply sitter_inv_step|]. simpl. by rewrite lookup_insert_eq.
Qed.

Lemma returns_slow i s : inv s → callers s !! i = Some CSlow → returns i s.
Proof.
  intros Hi Hc. destruct (client s) as [c|] eqn:Hcl.
  - eapply (returns_now (LCaller i) i s _ c); [simpl; rewrite Hc; simpl; rewrite Hcl; reflexivity|done|].
    simpl. by rewrite lookup_insert_eq.
  - assert (step (LCaller i) s = Some (set_callers (<[i := CSubscribe]> (callers s)) s)) as Hs
      by (simpl; rewrite Hc; simpl; by rewrite Hcl).
    eapply returns_step; [exact Hs|done|done|].
    apply returns_subscribe; [by eapply sitter_inv_step|]. simpl. by rewrite lookup_insert_eq.
Qed.

Lemma returns_fast i s : inv s → callers s !! i = Some CFast → returns i s.
Proof.
  intros Hi Hc. destruct (fast_client s) as [c|] eqn:Hcl.
  - eapply (returns_now (LCaller i) i s _ c); [simpl; rewrite Hc; simpl; rewrite Hcl; reflexivity|done|].
    simpl. by rewrite lookup_insert_eq.
  - assert (step (LCaller i) s = Some (set_callers (<[i := CSlow]> (callers s)) s)) as Hs
      by (simpl; rewrite Hc; simpl; by rewrite Hcl).
    eapply returns_step; [exact Hs|done|done|].
    apply returns_slow; [by eapply sitter_inv_step|]. simpl. by rewrite lookup_insert_eq.
Qed.

(** C12. No call of [get_client] is ever stuck.  In every state a babysitter can
    reach, however its builds, its callers, losses of connections and shutdowns
    interleave, a call that has not returned can still return without anybody
    having to close the babysitter: a build is under way, or a client is there, or
    the babysitter was shut down.  Unless it was shut down the call gets a client,
    and a client that is handed out was built: its connection was made and its
    bootstrap succeeded. *)
Theorem get_client_can_return od period config t ls s i pc :
  run ls (babysitter_new od period config t) = Some s →
  callers s !! i = Some pc → (∀ r, pc ≠ CDone r) →
  ∃ ls' s' r, run ls' s = Some s' ∧ Forall (λ l, is_close l = false) ls'
    ∧ callers s' !! i = Some (CDone r) ∧ (shutdown s = false → r ≠ None) ∧ is_built s' r.
Proof.
  intros Hr Hc Hpc. pose proof (inv_run _ _ _ (sitter_inv_new od period config t) Hr) as Hi.
  assert (returns i s) as (ls' & s' & r & Hr' & Hls & Hd & Hn).
  { destruct pc as [| | |seen|seen|r]; [by apply returns_fast|by apply returns_slow
      |by apply returns_subscribe|by eapply returns_begin|by eapply returns_wait|by destruct (Hpc r)]. }
  exists ls', s', r. split_and!; try done. eapply inv_done_built; [|done]. by eapply inv_run.
Qed.

(** ** The loss of a client *)

(** At rest with the closed client [c]: it is installed, nothing is being built, no
    call is past the check for it, and the task that waits for its loss has not
    heard of it. *)
Record at_rest (c : nat) (s : Babysitter) : Prop := {
  rest_client : client s = Some c;
  rest_fast : fast_client s = Some c;
  rest_builders : builders s = ∅;
  rest_closed : c ∈ closed s;
  rest_callers : ∀ i pc, callers s !! i = Some pc → pc = CFast ∨ pc = CSlow ∨ ∃ r, pc = CDone r;
  rest_watchers : ∀ x pc, watchers s !! x = Some pc → pc = WWait ∨ pc = WClosed ∧ x ≠ c;
}.

Lemma rest_set_callers c s i pc :
  at_rest c s → (pc = CFast ∨ pc = CSlow ∨ ∃ r, pc = CDone r) →
  at_rest c (set_callers (<[i := pc]> (callers s)) s).
Proof.
  intros [] Hpc. constructor; simpl; try done. intros j pc' Hj.
  destruct (decide (j = i)) as [->|Hne]; [rewrite lookup_insert_eq in Hj; by simplify_eq|].
  rewrite lookup_insert_ne in Hj by done. eauto.
Qed.

Lemma rest_set_watchers c s (m : gmap nat Watcher) :
  at_rest c s → (∀ x pc, m !! x = Some pc → pc = WWait ∨ pc = WClosed ∧ x ≠ c) →
  at_rest c (set_watchers m s).
Proof. intros [] Hm. by constructor. Qed.

Lemma rest_delete_watcher c s x : at_rest c s → at_rest c (set_watchers (base.delete x (watchers s)) s).
Proof.
  intros Hr. apply rest_set_watchers; [done|]. intros y pc Hy. apply lookup_delete_Some in Hy as [_ Hy].
  by eapply rest_watchers.
Qed.

(** What is reported to the pool and handed to callers at rest. *)
Definition undisturbed (c : nat) (s s' : Babysitter) : Prop :=
  state_changes s' = state_changes s
  ∧ ∀ i r, callers s' !! i = Some (CDone r) → callers s !! i = Some (CDone r) ∨ r = Some c.

Lemma undisturbed_callers c s i pc :
  (∀ r, pc = CDone r → r = Some c) → undisturbed c s (set_callers (<[i := pc]> (callers s)) s).
Proof.
  intros Hpc. split; [done|]. intros j r. simpl. destruct (decide (j = i)) as [->|Hne].
  - rewrite lookup_insert_eq. intros [= ->]. auto.
  - rewrite lookup_insert_ne by done. auto.
Qed.

(** Nothing but closing the babysitter disturbs it. *)
Lemma rest_step c l s s' :
  at_rest c s → is_close l = false → step l s = Some s' → at_rest c s' ∧ undisturbed c s s'.
Proof.
  intros Hr Hl H. pose proof Hr as [Hcl Hf Hb Hcd Hcs Hw].
  assert (∀ s', state_changes s' = state_changes s → callers s' = callers s → undisturbed c s s') as Hund.
  { intros s'' Hsc Hcs'. split; [done|]. rewrite Hcs'. auto. }
  destruct l; simpl in H; try (rewrite Hb, lookup_empty in H; simpl in H; try done; by destruct (shutdown s)).
  - case_bool_decide; [|done]. injection H as <-.
    split; [apply rest_set_callers; auto|by apply undisturbed_callers].
  - apply bind_Some in H as (pc & Hpc & H). destruct (Hcs i pc Hpc) as [->|[->|[r ->]]]; simpl in H; [..|done].
    + rewrite Hf in H. injection H as <-.
      split; [apply rest_set_callers; eauto|apply undisturbed_callers; by intros r [= <-]].
    + rewrite Hcl in H. injection H as <-.
      split; [apply rest_set_callers; eauto|apply undisturbed_callers; by intros r [= <-]].
  - destruct (callers s !! i) as [[]|] eqn:Hi; try done. by destruct (Hcs i _ Hi) as [?|[?|[??]]].
  - apply bind_Some in H as (pc & Hpc & H). destruct (Hw c0 pc Hpc) as [->|[-> Hne]]; [done|].
    simpl in H. rewrite bool_decide_false in H by congruence. injection H as <-.
    split; [|by apply Hund]. apply (rest_delete_watcher c (set_slow _ _ _ _ s)). by constructor.
  - destruct (watchers s !! c0) as [[]|]; try done. destruct (shutdown s); [|done]. injection H as <-.
    split; [by apply rest_delete_watcher|by apply Hund].
  - case_bool_decide as Hc0; [|done]. injection H as <-. split.
    + assert (at_rest c (set_clients (built s) ({[c0]} ∪ closed s) s)) as Hr'
        by (constructor; simpl; try done; by apply elem_of_union_r).
      unfold signal_close. simpl. destruct (watchers s !! c0) as [[]|]; try done.
      apply rest_set_watchers; [done|]. simpl. intros x pc. destruct (decide (x = c0)) as [->|Hne].
      * rewrite lookup_insert_eq. intros [= <-]. right. split; [done|]. intros ->. by destruct Hc0.
      * rewrite lookup_insert_ne by done. apply Hw.
    + apply Hund; unfold signal_close; simpl; by destruct (watchers s !! c0) as [[]|].
  - case_bool_decide; [|done]. injection H as <-. split; [|by apply Hund].
    constructor; simpl; try done. by apply elem_of_union_r.
  - injection H as <-. split; [by constructor|by apply Hund].
  - injection H as <-. split; [by constructor|by apply Hund].
  - injection H as <-. split; [by constructor|by apply Hund].
  - done.
Qed.

Lemma rest_run c ls s s' :
  at_rest c s → Forall (λ l, is_close l = false) ls → run ls s = Some s' →
  at_rest c s' ∧ undisturbed c s s'.
Proof.
  revert s. induction ls as [|l ls IH]; intros s Hr Hls H; simpl in H.
  { injection H as <-. split; [done|]. split; auto. }
  apply list.Forall_cons in Hls as [Hl Hls]. apply bind_Some in H as (s1 & Hs1 & H).
  destruct (rest_step c l s s1 Hr Hl Hs1) as [Hr1 [Hsc1 Hd1]].
  destruct (IH s1 Hr1 Hls H) as [Hr' [Hsc' Hd']]. split; [done|]. split; [congruence|].
  intros i r Hi. destruct (Hd' i r Hi) as [Hi1|]; auto.
Qed.

(** A client that closes itself is never replaced.  When the connection at rest
    closes itself (it does after a failed write and after a stale-authentication
    answer), the babysitter is not told: in every continuation in which nobody
    closes the babysitter, the closed client stays installed, every call of
    [get_client] returns it, no other connection is built, and the pool is never
    told. *)
Lemma self_closed_client_is_kept c s s1 ls s2 :
  client s = Some c → fast_client s = Some c → builders s = ∅ →
  map_Forall (λ _ pc, pc = WWait) (watchers s) →
  map_Forall (λ _ pc, ∃ r, pc = CDone r) (callers s) →
  step (LSelfClose c) s = Some s1 →
  Forall (λ l, is_close l = false) ls → run ls s1 = Some s2 →
  client s2 = Some c ∧ fast_client s2 = Some c ∧ c ∈ closed s2 ∧ builders s2 = ∅
  ∧ state_changes s2 = state_changes s
  ∧ ∀ i r, callers s2 !! i = Some (CDone r) → callers s !! i = Some (CDone r) ∨ r = Some c.
Proof.
  intros Hc Hf Hb Hw Hcs Hs1 Hls H. simpl in Hs1. case_bool_decide; [|done]. injection Hs1 as <-.
  destruct (rest_run c ls (set_clients (built s) ({[c]} ∪ closed s) s) s2) as [[] [Hsc Hd]];
    [|done..|done].
  constructor; simpl; try done; [by apply elem_of_union_l, elem_of_singleton|..].
  - intros i pc Hi. right. right. by apply (Hcs i pc).
  - intros x pc Hx. left. by apply (Hw x pc).
Qed.

Lemma step_watcher c s pc : watchers s !! c = Some pc → step (LWatcher c) s = watcher_step c pc s.
Proof. intros H. unfold step. by rewrite H. Qed.

(** The task that waits for the loss of [c], step by step. *)
Lemma watcher_closed c s :
  watchers s !! c = Some WClosed → client s = Some c →
  ∃ s', step (LWatcher c) s = Some s' ∧ client s' = None ∧ fast_client s' = None
  ∧ is_building s' = false ∧ watchers s' !! c = Some WReport
  ∧ state_changes s' = state_changes s ∧ on_demand_connect s' = on_demand_connect s
  ∧ current_state s' = current_state s.
Proof.
  intros Hw Hc. rewrite (step_watcher c s WClosed Hw). unfold watcher_step.
  rewrite bool_decide_true by done. eexists. split; [reflexivity|]. simpl. by rewrite lookup_insert_eq.
Qed.

Lemma watcher_report c s :
  watchers s !! c = Some WReport →
  ∃ s', step (LWatcher c) s = Some s' ∧ client s' = client s ∧ fast_client s' = fast_client s
  ∧ is_building s' = is_building s ∧ watchers s' !! c = Some WRestart
  ∧ state_changes s' = None :: state_changes s ∧ on_demand_connect s' = on_demand_connect s
  ∧ current_state s' = current_state s.
Proof.
  intros Hw. rewrite (step_watcher c s WReport Hw). unfold watcher_step.
  eexists. split; [reflexivity|]. simpl. by rewrite lookup_insert_eq.
Qed.

Lemma watcher_restart c s :
  watchers s !! c = Some WRestart → is_building s = false →
  ∃ s', step (LWatcher c) s = Some s' ∧ client s' = client s ∧ fast_client s' = fast_client s
  ∧ state_changes s' = state_changes s ∧ current_state s' = current_state s
  ∧ (on_demand_connect s = false → is_building s' = true ∧ some_builder pre_install s').
Proof.
  intros Hw Hb. rewrite (step_watcher c s WRestart Hw). unfold watcher_step, maybe_begin_client. simpl.
  rewrite Hb. eexists. split; [reflexivity|]. destruct (on_demand_connect s); simpl; [done|].
  split_and!; try done. intros _. split; [done|].
  exists (next_id s), BThrottle. simpl. by rewrite lookup_insert_eq.
Qed.

(** A connection that is lost is replaced.  When the read loop of the installed
    client ends and the task that waits for it is there, that task's next three
    steps take the client out of both places callers look in, tell the pool and,
    unless connections are made on demand, start the next build. *)
Lemma lost_client_is_replaced c s :
  client s = Some c → c ∈ built s → c ∉ closed s → watchers s !! c = Some WWait →
  ∃ s', run [LConnectionLost c; LWatcher c; LWatcher c; LWatcher c] s = Some s'
  ∧ client s' = None ∧ fast_client s' = None ∧ state_changes s' = None :: state_changes s
  ∧ (on_demand_connect s = false → is_building s' = true ∧ some_builder pre_install s')
  ∧ current_state s' = current_state s.
Proof.
  intros Hc Hb Hncl Hw.
  assert (step (LConnectionLost c) s = Some (set_watchers (<[c := WClosed]> (watchers s))
    (set_clients (built s) ({[c]} ∪ closed s) s))) as Hs1.
  { simpl. rewrite bool_decide_true by done. unfold signal_close. simpl. by rewrite Hw. }
  destruct (watcher_closed c (set_watchers (<[c := WClosed]> (watchers s))
    (set_clients (built s) ({[c]} ∪ closed s) s))) as (s2 & Hs2 & H2); [simpl; by rewrite lookup_insert_eq|done|].
  destruct H2 as (Hc2 & Hf2 & Hb2 & Hw2 & Hsc2 & Hod2 & Hcs2). simpl in Hsc2, Hod2, Hcs2.
  destruct (watcher_report c s2 Hw2) as (s3 & Hs3 & Hc3 & Hf3 & Hb3 & Hw3 & Hsc3 & Hod3 & Hcs3).
  destruct (watcher_restart c s3 Hw3) as (s4 & Hs4 & Hc4 & Hf4 & Hsc4 & Hcs4 & Hb4); [congruence|].
  exists s4. split.
  { eapply run_cons; [exact Hs1|]. eapply run_cons; [exact Hs2|].
    eapply run_cons; [exact Hs3|]. by eapply run_cons; [exact Hs4|]. }
  split_and!; [congruence..| |]; [|rewrite Hcs4, Hcs3, Hcs2; done].
  intros Hod. apply Hb4. by rewrite Hod3, Hod2.
Qed.

(** ** Witnesses *)

Definition sample_config : KvClientBabysitterClientConfig :=
  mkClientConfig (mkTarget (mkAddress "10.0.0.1" 11210) false) sample_auth None.

Definition sample_babysitter : Babysitter := babysitter_new false 5 sample_config 0.

(** The first build connects at once and announces its client. *)
Definition first_build : list label :=
  [LBuilder 0; LBuilder 0; LConnected 0; LBuilder 0; LBuilder 0; LBuilder 0; LBuilder 0].

Definition connected_babysitter : Babysitter := default sample_babysitter (run first_build sample_babysitter).

Lemma connected_example : run first_build sample_babysitter = Some connected_babysitter
  ∧ client connected_babysitter = Some 0%nat ∧ builders connected_babysitter = ∅.
Proof. vm_compute. done. Qed.

(** A call that arrives while the first attempt fails, the server closing the
    connection during the bootstrap. *)
Definition early_call : list label :=
  [LCall 0; LCaller 0; LCaller 0; LCaller 0; LCaller 0; LBuilder 0; LBuilder 0;
   LConnectFailed 0 (Core.new Core.NoBucket) true; LBuilder 0]%nat.

Lemma get_client_can_return_witness :
  ∃ s, run early_call sample_babysitter = Some s
  ∧ ∃ ls' s' r, run ls' s = Some s' ∧ Forall (λ l, is_close l = false) ls'
    ∧ callers s' !! 0%nat = Some (CDone r) ∧ (shutdown s = false → r ≠ None) ∧ is_built s' r.
Proof.
  destruct (run early_call sample_babysitter) as [s|] eqn:Hs; [|vm_compute in Hs; discriminate].
  exists s. split; [reflexivity|].
  eapply (get_client_can_return false 5 sample_config 0 early_call s 0 (CWait 0)).
  - exact Hs.
  - vm_compute in Hs. injection Hs as <-. vm_compute. reflexivity.
  - discriminate.
Defined.

Lemma self_closed_client_is_kept_example :
  ∃ s1 s2, step (LSelfClose 0) connected_babysitter = Some s1
  ∧ run [LConnectionLost 1; LCall 0; LCaller 0]%nat s1 = None
  ∧ run [LCall 0; LCaller 0]%nat s1 = Some s2
  ∧ client s2 = Some 0%nat ∧ 0%nat ∈ closed s2 ∧ callers s2 !! 0%nat = Some (CDone (Some 0%nat)).
Proof.
  destruct (step (LSelfClose 0) connected_babysitter) as [s1|] eqn:H1; [|vm_compute in H1; discriminate].
  destruct (run [LCall 0; LCaller 0]%nat s1) as [s2|] eqn:H2;
    [|vm_compute in H1; injection H1 as <-; vm_compute in H2; discriminate].
  exists s1, s2. split; [done|]. split; [vm_compute in H1; injection H1 as <-; vm_compute; done|].
  split; [done|].
  destruct (self_closed_client_is_kept 0 connected_babysitter s1 [LCall 0; LCaller 0]%nat s2)
    as (Hc & _ & Hcl & _ & _ & Hd); try done.
  - intros x pc Hx. assert (watchers connected_babysitter = {[0%nat := WWait]}) as Hw by (vm_compute; done).
    rewrite Hw in Hx. by apply lookup_singleton_Some in Hx as [_ <-].
  - by repeat constructor.
  - split; [done|]. split; [done|]. vm_compute in H1. injection H1 as <-. vm_compute in H2.
    injection H2 as <-. vm_compute. done.
Defined.

Lemma lost_client_is_replaced_example :
  ∃ s', run [LConnectionLost 0; LWatcher 0; LWatcher 0; LWatcher 0]%nat connected_babysitter = Some s'
  ∧ client s' = None ∧ is_building s' = true ∧ current_state s' = ConnectionState.Connected.
Proof.
  destruct (lost_client_is_replaced 0 connected_babysitter) as (s' & Hr & Hc & _ & _ & Hb & Hs);
    [evaluate| | |evaluate|].
  - apply (bool_decide_unpack _). vm_compute. exact I.
  - apply (bool_decide_unpack _). vm_compute. exact I.
  - exists s'. split; [done|]. split; [done|]. split; [by apply Hb|]. by rewrite Hs.
Defined.

(** An attempt whose connection the server closes uses up the task that waits for
    the loss: the client the next attempt builds is not watched, so its loss goes
    unnoticed and it stays installed. *)
Lemma signalled_failure_loses_watcher :
  ∃ s, run ([LBuilder 0; LBuilder 0; LConnectFailed 0 (Core.new Core.NoBucket) true; LWatcher 0;
             LBuilder 0; LBuilder 0; LTick 5; LBuilder 0; LBuilder 0; LConnected 0;
             LBuilder 0; LBuilder 0; LBuilder 0; LBuilder 0; LConnectionLost 0]%nat) sample_babysitter = Some s
  ∧ at_rest 0 s ∧ watchers s = ∅.
Proof.
  eexists. split; [vm_compute; reflexivity|]. split; [|vm_compute; reflexivity].
  constructor; try (vm_compute; reflexivity).
  - intros i pc Hi. vm_compute in Hi. done.
  - intros x pc Hx. vm_compute in Hx. done.
Qed.

(** A failed attempt clears the mark that a build is under way although its loop goes
    on: a call then starts a second one, and the endpoint gets two connections. *)
Lemma failed_attempt_allows_second_build :
  ∃ s, run ([LBuilder 0; LBuilder 0; LConnectFailed 0 (Core.new Core.NoBucket) false; LBuilder 0;
             LCall 0; LCaller 0; LCaller 0; LCaller 0; LCaller 0]%nat) sample_babysitter = Some s
  ∧ builders s = <[1%nat := BThrottle]> {[0%nat := BThrottle]}.
Proof. eexists. split; vm_compute; reflexivity. Qed.
