(* ===== verification/Endpoints.v ===== *)
(** * Connections of all endpoints ([kvendpointclientmanager.rs])

    The manager keeps one pool of connections per endpoint.  Operations find the
    pool of an endpoint in the fast state, without a lock; a new list of endpoints
    is put in place under the lock of the slow state.  Pools are shared: both
    states refer to them, so a pool is a reference and its contents are in the
    state [S] of the interface [KvClientPool]. *)

From S2P Require Import Prelude Text Wire MemdError Requests Response CoreError Vbucket Bootstrap Config.

(** ** The interface of a pool ([trait KvClientPool]) *)

(** Of the options of a pool, those the code itself reads; what is handed through to
    the connection (bootstrap options, handlers, compression) is the same for
    every pool of a manager. *)
Record KvClientPoolOptions : Type := mkPoolOptions {
  num_connections : nat;
  po_on_demand_connect : bool;
  po_connect_throttle_period : Z;
  po_endpoint_id : string;
  po_target : KvTarget;
  po_auth : Authenticator;
  po_selected_bucket : option string;
}.

Class KvClientPool (S : Type) := {
  pool_new : KvClientPoolOptions → S → S * nat;
  pool_get_client : nat → action S nat;
  pool_update_auth : Authenticator → nat → S → S;
  pool_update_target : KvTarget → nat → S → S;
  pool_close : nat → S → S * outcome Core.Error unit;
}.

(** What a pool promises: it serves the target it was made for or last updated to,
    and no operation disturbs another pool. *)
Class KvClientPoolLaws (S : Type) `{KvClientPool S} := {
  pools_ok : S → Prop;
  serves : S → nat → KvTarget → Prop;
  pool_new_ok : ∀ o s, pools_ok s → (0 < num_connections o)%nat →
    pools_ok (fst (pool_new o s)) ∧ serves (fst (pool_new o s)) (snd (pool_new o s)) (po_target o)
    ∧ ∀ q t, serves s q t → q ≠ snd (pool_new o s) ∧ serves (fst (pool_new o s)) q t;
  pool_update_target_ok : ∀ t' p s t, pools_ok s → serves s p t →
    pools_ok (pool_update_target t' p s) ∧ serves (pool_update_target t' p s) p t'
    ∧ ∀ q u, q ≠ p → serves s q u → serves (pool_update_target t' p s) q u;
  pool_update_auth_ok : ∀ a p s t, pools_ok s → serves s p t →
    pools_ok (pool_update_auth a p s)
    ∧ ∀ q u, serves s q u → serves (pool_update_auth a p s) q u;
  pool_close_ok : ∀ p s t, pools_ok s → serves s p t →
    pools_ok (fst (pool_close p s))
    ∧ ∀ q u, q ≠ p → serves s q u → serves (fst (pool_close p s)) q u;
}.

(** ** The manager *)

Module Manager.
Record Manager : Type := mk {
  on_demand_connect : bool;
  num_pool_connections : nat;
  connect_throttle_period : Z;
  auth : Authenticator;
  selected_bucket : option string;
  slow_pools : gmap string nat;
  fast_pools : gmap string nat;
}.
End Manager.
Abbreviation Manager := Manager.Manager.

Section Manager.
Context {S : Type} `{KvClientPool S}.

Definition set_pools (ps : gmap string nat) (m : Manager) : Manager :=
  Manager.mk (Manager.on_demand_connect m) (Manager.num_pool_connections m)
    (Manager.connect_throttle_period m) (Manager.auth m) (Manager.selected_bucket m) ps ps.

(** One endpoint of the new list: its pool is kept and told the target, or made. *)
Definition update_endpoint (m : Manager) (x : string * KvTarget)
    (acc : gmap string nat * gmap string nat * S) : gmap string nat * gmap string nat * S :=
  let '(old_pools, new_pools, s) := acc in
  let '(endpoint, target) := x in
  match old_pools !! endpoint with
  | Some old_pool =>
      (base.delete endpoint old_pools, <[endpoint := old_pool]> new_pools,
       pool_update_target target old_pool s)
  | None =>
      let '(s, pool) :=
        pool_new (mkPoolOptions (Manager.num_pool_connections m) (Manager.on_demand_connect m)
                    (Manager.connect_throttle_period m) endpoint target (Manager.auth m)
                    (Manager.selected_bucket m)) s in
      (old_pools, <[endpoint := pool]> new_pools, s)
  end.

Definition update_each (m : Manager) (endpoints : list (string * KvTarget))
    (acc : gmap string nat * gmap string nat * S) : gmap string nat * gmap string nat * S :=
  foldl (λ acc x, update_endpoint m x acc) acc endpoints.

(** [pool.close()] for every pool that is left; a failure is only logged. *)
Definition close_pools (ps : list nat) (s : S) : S := foldl (λ s p, fst (pool_close p s)) s ps.

(** [endpoints] in the order the map is iterated in, and [order] that order for the
    pools that are left. *)
Definition update_endpoints (order : gmap string nat → list (string * nat))
    (endpoints : list (string * KvTarget)) (add_only : bool) (m : Manager) (s : S)
    : Manager * S * outcome Core.Error unit :=
  let '(old_pools, new_pools, s) := update_each m endpoints (Manager.slow_pools m, ∅, s) in
  let '(new_pools, s) :=
    if add_only then (foldl (λ ps x, <[fst x := snd x]> ps) new_pools (order old_pools), s)
    else (new_pools, close_pools (snd <$> order old_pools) s) in
  (set_pools new_pools m, s, Ok tt).

Definition manager_new (order : gmap string nat → list (string * nat)) (on_demand : bool)
    (num_connections : nat) (period : Z) (auth : Authenticator) (selected_bucket : option string)
    (endpoints : list (string * KvTarget)) (s : S) : Manager * S * outcome Core.Error unit :=
  update_endpoints order endpoints false
    (Manager.mk on_demand num_connections period auth selected_bucket ∅ ∅) s.

(** The first pool in iteration order. *)
Definition get_client (order : gmap string nat → list (string * nat)) (m : Manager)
    : action S nat := λ s,
  match order (Manager.fast_pools m) with
  | (_, pool) :: _ => pool_get_client pool s
  | [] => (s, Some (Err (Core.new_message_error "invalid endpoint")))
  end.

Definition get_endpoint_client (m : Manager) (endpoint : string) : action S nat := λ s,
  match Manager.fast_pools m !! endpoint with
  | Some pool => pool_get_client pool s
  | None => (s, Some (Err (Core.new_message_error "invalid endpoint")))
  end.

Definition update_auth (order : gmap string nat → list (string * nat)) (a : Authenticator)
    (m : Manager) (s : S) : Manager * S :=
  let m := Manager.mk (Manager.on_demand_connect m) (Manager.num_pool_connections m)
             (Manager.connect_throttle_period m) a (Manager.selected_bucket m)
             (Manager.slow_pools m) (Manager.fast_pools m) in
  (m, foldl (λ s p, pool_update_auth a p s) s (snd <$> order (Manager.slow_pools m))).

End Manager.

(** ** What the manager implements: a map from endpoints to targets *)

Section Laws.
Context {S : Type} `{KvClientPoolLaws S}.

(** Every endpoint has a pool of its own, which serves the endpoint's target. *)
Record represents (ps : gmap string nat) (s : S) (T : gmap string KvTarget) : Prop := {
  rep_ok : pools_ok s;
  rep_inj : ∀ e e' p, ps !! e = Some p → ps !! e' = Some p → e = e';
  rep_serves : map_Forall2 (λ _ p t, serves s p t) ps T;
}.

(** The manager at rest: the fast state is the slow one. *)
Definition manages (m : Manager) (s : S) (T : gmap string KvTarget) : Prop :=
  Manager.fast_pools m = Manager.slow_pools m ∧ represents (Manager.slow_pools m) s T
  ∧ (0 < Manager.num_pool_connections m)%nat.

Lemma rep_lookup ps s T e p : represents ps s T → ps !! e = Some p → ∃ t, T !! e = Some t ∧ serves s p t.
Proof.
  intros [_ _ HF] He. specialize (HF e). rewrite He in HF. inversion HF as [? t Hs|]; subst. eauto.
Qed.

(** A change of one pool that leaves the others alone. *)
Lemma rep_frame ps s s' T e p t :
  represents ps s T → ps !! e = Some p → pools_ok s' → serves s' p t →
  (∀ q u, q ≠ p → serves s q u → serves s' q u) → represents ps s' (<[e := t]> T).
Proof.
  intros [Hok Hinj HF] He Hok' Hs Hq. constructor; [done|done|]. intros x. specialize (HF x).
  destruct (decide (x = e)) as [->|Hne]; [rewrite lookup_insert_eq, He; by constructor|].
  rewrite lookup_insert_ne by done. inversion HF as [q u Hqu Hx Hu|]; [|constructor]. constructor.
  apply Hq; [|done]. intros ->. apply Hne. by eapply Hinj.
Qed.

(** A pool that is added. *)
Lemma rep_insert ps s s' T e p t :
  represents ps s T → ps !! e = None → pools_ok s' → serves s' p t →
  (∀ q u, serves s q u → q ≠ p ∧ serves s' q u) → represents (<[e := p]> ps) s' (<[e := t]> T).
Proof.
  intros Hr He Hok' Hs Hq. pose proof Hr as [Hok Hinj HF].
  assert (∀ x, ps !! x ≠ Some p) as Hfresh.
  { intros x Hx. destruct (rep_lookup _ _ _ _ _ Hr Hx) as (u & _ & Hu). by destruct (Hq p u Hu). }
  constructor; [done| |].
  - intros x y q Hx Hy. apply lookup_insert_Some in Hx as [[<- <-]|[Hne Hx]];
      apply lookup_insert_Some in Hy as [[<- Hy]|[Hne' Hy]]; try done.
    + by destruct (Hfresh y).
    + subst. by destruct (Hfresh x).
    + by eapply Hinj.
  - apply map_Forall2_insert_2; [done|]. eapply map_Forall2_impl; [exact HF|]. intros x q u Hqu.
    by apply Hq.
Qed.

Lemma update_endpoint_spec m e t old new s T :
  new ##ₘ old → represents (new ∪ old) s T → new !! e = None →
  (0 < Manager.num_pool_connections m)%nat →
  let '(old', new', s') := update_endpoint m (e, t) (old, new, s) in
  new' ##ₘ old' ∧ represents (new' ∪ old') s' (<[e := t]> T)
  ∧ dom new' = {[e]} ∪ dom new
  ∧ (∀ x p, (new ∪ old) !! x = Some p → (new' ∪ old') !! x = Some p).
Proof.
  intros Hdisj Hr Hnew Hnum. unfold update_endpoint. destruct (old !! e) as [p|] eqn:Hold.
  - assert ((new ∪ old) !! e = Some p) as Hall by by apply lookup_union_Some_r.
    destruct (rep_lookup _ _ _ _ _ Hr Hall) as (u & _ & Hu). pose proof (rep_ok _ _ _ Hr) as Hok.
    destruct (pool_update_target_ok t p s u Hok Hu) as (Hok' & Hs & Hq).
    assert (<[e := p]> new ∪ base.delete e old = new ∪ old) as ->.
    { rewrite <- insert_union_l, insert_union_r by done. by rewrite insert_delete_id. }
    split_and!; [|by eapply rep_frame|by rewrite dom_insert_L|done].
    apply map_disjoint_insert_l_2; [by apply lookup_delete_eq|]. by apply map_disjoint_delete_r.
  - assert ((new ∪ old) !! e = None) as Hall by by apply lookup_union_None.
    match goal with |- context [pool_new ?o s] =>
      destruct (pool_new_ok o s (rep_ok _ _ _ Hr) Hnum) as (Hok' & Hs & Hq);
      destruct (pool_new o s) as [s' p] eqn:Hp end. simpl in *.
    split_and!; [by apply map_disjoint_insert_l_2| |by rewrite dom_insert_L|].
    + rewrite <- insert_union_l. by eapply rep_insert.
    + intros x q Hx. rewrite <- insert_union_l, lookup_insert_ne; [done|]. intros ->. congruence.
Qed.

Lemma update_each_spec m eps old new s T :
  new ##ₘ old → represents (new ∪ old) s T → NoDup eps.*1 →
  (∀ e, e ∈ eps.*1 → new !! e = None) → (0 < Manager.num_pool_connections m)%nat →
  let '(old', new', s') := update_each m eps (old, new, s) in
  new' ##ₘ old' ∧ represents (new' ∪ old') s' (list_to_map eps ∪ T)
  ∧ dom new' = list_to_set eps.*1 ∪ dom new
  ∧ (∀ x p, (new ∪ old) !! x = Some p → (new' ∪ old') !! x = Some p).
Proof.
  revert old new s T. induction eps as [|[e t] eps IH]; intros old new s T Hdisj Hr Hnd Hfresh Hnum.
  { simpl. rewrite (left_id_L ∅ (∪)). split_and!; try done. set_solver. }
  rewrite fmap_cons in Hnd, Hfresh. apply list.NoDup_cons in Hnd as [Hni Hnd]. simpl in Hni.
  pose proof (update_endpoint_spec m e t old new s T Hdisj Hr (Hfresh e ltac:(set_solver)) Hnum) as Hstep.
  unfold update_each. cbn [foldl]. destruct (update_endpoint m (e, t) (old, new, s)) as [[old1 new1] s1].
  destruct Hstep as (Hdisj1 & Hr1 & Hdom1 & Hkeep1).
  assert (∀ e', e' ∈ eps.*1 → new1 !! e' = None) as Hfresh1.
  { intros e' He'. apply not_elem_of_dom. rewrite Hdom1. apply not_elem_of_union. split.
    - apply not_elem_of_singleton. by intros ->.
    - apply not_elem_of_dom, Hfresh. set_solver. }
  specialize (IH old1 new1 s1 _ Hdisj1 Hr1 Hnd Hfresh1 Hnum). unfold update_each in IH.
  destruct (foldl _ _ eps) as [[old2 new2] s2]. destruct IH as (Hdisj2 & Hr2 & Hdom2 & Hkeep2).
  split_and!; [done| | |by auto].
  - rewrite list_to_map_cons, <- insert_union_l, insert_union_r; [done|].
    by apply not_elem_of_list_to_map_1.
  - rewrite Hdom2, Hdom1. set_solver.
Qed.

(** Closing pools leaves the others alone. *)
Lemma close_pools_spec ps qs s T :
  represents qs s T → NoDup ps →
  (∀ p, p ∈ ps → (∃ t, serves s p t) ∧ ∀ e, qs !! e ≠ Some p) → represents qs (close_pools ps s) T.
Proof.
  revert s. induction ps as [|p ps IH]; intros s Hr Hnd Hps; [done|]. simpl.
  apply list.NoDup_cons in Hnd as [Hni Hnd].
  destruct (Hps p) as [[t Ht] Hp]; [set_solver|].
  destruct (pool_close_ok p s t (rep_ok _ _ _ Hr) Ht) as [Hok' Hq]. apply IH; [|done|].
  - destruct Hr as [_ Hinj HF]. constructor; [done..|]. intros x. specialize (HF x).
    inversion HF as [q u Hqu Hx Hu|]; constructor. apply Hq; [|done]. intros ->. by destruct (Hp x).
  - intros q Hqin. destruct (Hps q) as [[u Hu] Hq']; [set_solver|]. split; [|done]. exists u.
    apply Hq; [|done]. by intros ->.
Qed.

(** The order a [HashMap] is iterated in is some order of its entries. *)
Context (order : gmap string nat → list (string * nat))
  (order_perm : ∀ ps, order ps ≡ₚ map_to_list ps).

Lemma insert_pools_union (new old : gmap string nat) :
  new ##ₘ old → foldl (λ ps x, <[fst x := snd x]> ps) new (order old) = new ∪ old.
Proof using order_perm.
  intros Hdisj. assert (NoDup (order old).*1) as Hnd.
  { rewrite order_perm. apply NoDup_fst_map_to_list. }
  assert (∀ l, NoDup l.*1 → (∀ e, e ∈ l.*1 → new !! e = None) →
    foldl (λ ps x, <[fst x := snd x]> ps) new l = new ∪ list_to_map l) as Hl.
  { clear Hnd Hdisj. intros l. induction l as [|[e p] l IH] using rev_ind; intros Hnd Hn.
    { simpl. by rewrite (right_id_L ∅ (∪)). }
    rewrite fmap_app in Hnd, Hn. apply list.NoDup_app in Hnd as (Hnd & Hni & _). rewrite foldl_app. simpl.
    rewrite IH; [|done|intros e' He'; apply Hn; set_solver].
    rewrite list_to_map_snoc by (intros Hin; by apply (Hni e Hin), list_elem_of_singleton).
    apply insert_union_r. apply Hn. set_solver. }
  rewrite Hl; [|done|].
  - f_equal. trans (list_to_map (M := gmap string nat) (map_to_list old));
      [apply list_to_map_proper; [done|apply order_perm]|apply list_to_map_to_list].
  - intros e He. rewrite order_perm in He. apply list_elem_of_fmap in He as ([e' p] & -> & Hin).
    apply elem_of_map_to_list in Hin. simpl. destruct (new !! e') eqn:Hn; [|done].
    by rewrite (map_disjoint_Some_l _ _ _ _ Hdisj Hn) in Hin.
Qed.

(** The pools that are left over are different, open, and not among the new ones. *)
Lemma leftover_pools new old s T :
  new ##ₘ old → represents (new ∪ old) s T →
  NoDup (snd <$> order old)
  ∧ ∀ p, p ∈ snd <$> order old → (∃ t, serves s p t) ∧ ∀ e, new !! e ≠ Some p.
Proof using order_perm.
  intros Hdisj Hr. split.
  - rewrite order_perm. apply NoDup_alt. intros i j p Hi Hj. rewrite list_lookup_fmap in Hi, Hj.
    destruct (map_to_list old !! i) as [[e q]|] eqn:Hei; [|done].
    destruct (map_to_list old !! j) as [[e' q']|] eqn:Hej; [|done]. simpl in *. simplify_eq.
    assert (old !! e = Some p) as He by (by eapply elem_of_map_to_list, list_elem_of_lookup_2).
    assert (old !! e' = Some p) as He' by (by eapply elem_of_map_to_list, list_elem_of_lookup_2).
    assert (e = e') as -> by (eapply (rep_inj _ _ _ Hr); by apply lookup_union_Some_r).
    eapply (NoDup_lookup (map_to_list old)); [apply (NoDup_map_to_list old)|exact Hei|exact Hej].
  - intros p Hp. rewrite order_perm in Hp. apply list_elem_of_fmap in Hp as ([e q] & -> & Hin).
    apply elem_of_map_to_list in Hin. simpl.
    assert ((new ∪ old) !! e = Some q) as Hall by by apply lookup_union_Some_r. split.
    { destruct (rep_lookup _ _ _ _ _ Hr Hall) as (t & _ & Ht). eauto. }
    intros e' He'. assert (e = e') as <-.
    { eapply (rep_inj _ _ _ Hr); [done|]. by apply lookup_union_Some_l. }
    by rewrite (map_disjoint_Some_l _ _ _ _ Hdisj He') in Hin.
Qed.

(** The manager at rest, updated. *)
Lemma update_endpoints_manages eps add_only m s T :
  manages m s T → NoDup eps.*1 →
  let '(m', s', r) := update_endpoints order eps add_only m s in
  r = Ok tt
  ∧ manages m' s' (if add_only then list_to_map eps ∪ T else list_to_map eps)
  ∧ (∀ e p, Manager.slow_pools m !! e = Some p → is_Some (Manager.slow_pools m' !! e) →
       Manager.slow_pools m' !! e = Some p).
Proof using order_perm.
  intros (Hfs & Hr & Hnum) Hnd. unfold update_endpoints.
  pose proof (update_each_spec m eps (Manager.slow_pools m) ∅ s T) as Hspec.
  destruct (update_each m eps (Manager.slow_pools m, ∅, s)) as [[old new] s1].
  rewrite (left_id_L ∅ (∪) (Manager.slow_pools m)) in Hspec.
  destruct Hspec as (Hdisj & Hr1 & Hdom & Hkeep);
    [apply map_disjoint_empty_l|done|done|by intros; apply lookup_empty|done|].
  rewrite dom_empty_L, (right_id_L ∅ (∪)) in Hdom. destruct add_only.
  - rewrite insert_pools_union by done. split_and!; [done|by split_and!|]. intros e p He _. by apply Hkeep.
  - assert (represents new s1 (list_to_map eps)) as Hnew.
    { destruct Hr1 as [Hok Hinj HF]. constructor; [done| |].
      - intros e e' p He He'. eapply Hinj; by apply lookup_union_Some_l.
      - intros e. specialize (HF e). destruct (decide (e ∈ dom new)) as [Hin|Hout].
        + apply elem_of_dom in Hin as [p Hp]. rewrite Hp. rewrite (lookup_union_Some_l _ _ _ _ Hp) in HF.
          inversion HF as [? t Hs Heq Ht|]; subst. assert (e ∈ dom new) as Hin by (by eapply elem_of_dom_2).
          rewrite Hdom in Hin. apply elem_of_list_to_set in Hin.
          destruct (list_to_map (M := gmap string KvTarget) eps !! e) as [t'|] eqn:Ht'.
          * erewrite lookup_union_Some_l in Ht by done. simplify_eq. by constructor.
          * by apply not_elem_of_list_to_map in Ht'.
        + pose proof Hout as Hnone. apply not_elem_of_dom in Hnone. rewrite Hnone.
          rewrite Hdom, elem_of_list_to_set in Hout.
          rewrite not_elem_of_list_to_map_1 by done. constructor. }
    destruct (leftover_pools _ _ _ _ Hdisj Hr1) as [Hnd' Hps].
    split_and!; [done|by split_and!; [|apply close_pools_spec|]|].
    + intros e p He [q Hq]. simpl in *. specialize (Hkeep e p He).
      rewrite (lookup_union_Some_l _ _ _ _ Hq) in Hkeep. by rewrite Hq.
Qed.

(** The pool of an endpoint that is removed is closed, while it is still open. *)
Lemma update_endpoints_closes eps m s T e p :
  manages m s T → NoDup eps.*1 → e ∉ eps.*1 → Manager.slow_pools m !! e = Some p →
  ∃ s1 ps1 ps2 t, snd (fst (update_endpoints order eps false m s)) = close_pools (ps1 ++ p :: ps2) s1
  ∧ serves (close_pools ps1 s1) p t.
Proof using order_perm.
  intros (Hfs & Hr & Hnum) Hnd He Hp. unfold update_endpoints.
  pose proof (update_each_spec m eps (Manager.slow_pools m) ∅ s T) as Hspec.
  destruct (update_each m eps (Manager.slow_pools m, ∅, s)) as [[old new] s1].
  rewrite (left_id_L ∅ (∪) (Manager.slow_pools m)) in Hspec.
  destruct Hspec as (Hdisj & Hr1 & Hdom & Hkeep);
    [apply map_disjoint_empty_l|done|done|by intros; apply lookup_empty|done|].
  rewrite dom_empty_L, (right_id_L ∅ (∪)) in Hdom. simpl.
  assert (old !! e = Some p) as Hold.
  { specialize (Hkeep e p Hp). apply lookup_union_Some in Hkeep as [Hn|]; [|done..].
    apply elem_of_dom_2 in Hn. rewrite Hdom in Hn. by apply elem_of_list_to_set in Hn. }
  destruct (leftover_pools _ _ _ _ Hdisj Hr1) as [Hnd' Hps].
  assert (p ∈ snd <$> order old) as Hin.
  { rewrite order_perm. apply list_elem_of_fmap. exists (e, p). split; [done|].
    by apply elem_of_map_to_list. }
  destruct (Hps p Hin) as [[t Ht] _]. destruct (list_elem_of_split _ _ Hin) as (ps1 & ps2 & Heq).
  exists s1, ps1, ps2, t. rewrite Heq in *. split; [done|].
  assert (represents {[e := p]} (close_pools ps1 s1) {[e := t]}) as [_ _ HF].
  { apply list.NoDup_app in Hnd' as (Hnd1 & Hdis & _). apply close_pools_spec; [|done|].
    - constructor; [apply Hr1| |].
      + intros x y q Hx Hy. by apply lookup_singleton_Some in Hx as [<- _], Hy as [<- _].
      + by apply map_Forall2_singleton.
    - intros q Hq. split; [apply Hps; set_solver|]. intros x Hx.
      apply lookup_singleton_Some in Hx as [_ <-]. apply (Hdis p Hq). set_solver. }
  by apply map_Forall2_singleton in HF.
Qed.

(** C14. The endpoint manager is a map from endpoints to targets, put in place without
    a gap.  Whatever the order its maps are iterated in, updating it with a list of
    endpoints succeeds and leaves exactly those endpoints (or, in add-only mode,
    also the ones it had), each with a pool of its own that connects to the
    endpoint's target; the lock-free map callers read is the one just built; and an
    endpoint that was there and stays keeps its pool, so its connections are not
    made anew. *)
Theorem update_endpoints_refines_map eps add_only m s T :
  manages m s T → NoDup eps.*1 →
  let '(m', s', r) := update_endpoints order eps add_only m s in
  r = Ok tt
  ∧ manages m' s' (if add_only then list_to_map eps ∪ T else list_to_map eps)
  ∧ (∀ e p, Manager.slow_pools m !! e = Some p → is_Some (Manager.slow_pools m' !! e) →
       Manager.slow_pools m' !! e = Some p).
Proof using order_perm. apply update_endpoints_manages. Qed.

End Laws.
