(* ===== verification/Pool.v ===== *)
(** * A pool of connections to one endpoint ([kvclientpool.rs])

    A pool keeps a fixed number of babysitters.  They report their clients to it; it
    keeps the list of the clients that are there ([fast_map]) and hands them out
    in turn, and asks a babysitter when there is none.  Pools are in a heap, since
    the endpoint manager and its callers share them. *)

From S2P Require Import Prelude Text Wire MemdError Requests Response CoreError Vbucket Bootstrap Config.
From S2P Require Import Babysitter Endpoints.

(** ** The interface of a babysitter ([trait KvClientBabysitter]) *)

Class KvClientBabysitter (S : Type) := {
  bs_new : KvClientPoolOptions → S → S * nat;
  bs_get_client : nat → action S nat;
  bs_update_auth : Authenticator → nat → S → S;
  bs_update_target : KvTarget → nat → S → S;
  bs_close : nat → S → S * outcome Core.Error unit;
}.

(** The target the connection of a babysitter is to be made to. *)
Class KvClientBabysitterLaws (S : Type) `{KvClientBabysitter S} := {
  bs_target : S → nat → option KvTarget;
  bs_new_ok : ∀ o s b, bs_target s (snd (bs_new o s)) = None
    ∧ bs_target (fst (bs_new o s)) b
      = if bool_decide (b = snd (bs_new o s)) then Some (po_target o) else bs_target s b;
  bs_update_target_ok : ∀ t b s b', is_Some (bs_target s b) →
    bs_target (bs_update_target t b s) b' = if bool_decide (b' = b) then Some t else bs_target s b';
  bs_update_auth_ok : ∀ a b s b', bs_target (bs_update_auth a b s) b' = bs_target s b';
  bs_close_ok : ∀ b s b', bs_target (fst (bs_close b s)) b' = bs_target s b';
}.

(** ** The pool *)

Record KvClientPoolEntry : Type := mkEntry {
  babysitter : nat;
  entry_client : option nat;
}.

Module Pool.
Record Pool : Type := mk {
  shutdown : bool;
  client_idx : Z;
  fast_map : list nat;
  babysitters : list KvClientPoolEntry;
}.
End Pool.
Abbreviation Pool := Pool.Pool.

(** The heap of pools, and the babysitters. *)
Record Pools (S : Type) : Type := mkPools {
  heap : gmap nat Pool;
  next_pool : nat;
  sitters : S;
}.
Arguments mkPools {S}. Arguments heap {S}. Arguments next_pool {S}. Arguments sitters {S}.

(** The clients the entries have, in order. *)
Definition clients_of (es : list KvClientPoolEntry) : list nat := omap entry_client es.

(** A report of a babysitter: its entry gets the client, and the list of clients is
    made anew. *)
Fixpoint set_entry_client (b : nat) (c : option nat) (es : list KvClientPoolEntry)
    : list KvClientPoolEntry :=
  match es with
  | [] => []
  | e :: es =>
      if bool_decide (babysitter e = b) then mkEntry b c :: es
      else e :: set_entry_client b c es
  end.

(** The task of the pool; it has ended once the pool is shut down. *)
Definition on_state_change (b : nat) (c : option nat) (p : Pool) : Pool :=
  if Pool.shutdown p then p
  else
    let es := set_entry_client b c (Pool.babysitters p) in
    Pool.mk (Pool.shutdown p) (Pool.client_idx p) (clients_of es) es.

(** [fetch_add(1)] on a [usize]. *)
Definition take_idx (p : Pool) : Z * Pool :=
  (Pool.client_idx p,
   Pool.mk (Pool.shutdown p) (cast_u 64 (Pool.client_idx p + 1)) (Pool.fast_map p) (Pool.babysitters p)).

Section Ops.
Context {S : Type} `{KvClientBabysitter S}.

Definition with_heap (h : gmap nat Pool) (s : Pools S) : Pools S := mkPools h (next_pool s) (sitters s).
Definition with_sitters (x : S) (s : Pools S) : Pools S := mkPools (heap s) (next_pool s) x.

(** The babysitters of a new pool, one after the other. *)
Fixpoint new_babysitters (n : nat) (o : KvClientPoolOptions) (s : S) : S * list KvClientPoolEntry :=
  match n with
  | O => (s, [])
  | Datatypes.S n =>
      let '(s, b) := bs_new o s in
      let '(s, es) := new_babysitters n o s in
      (s, mkEntry b None :: es)
  end.

Definition std_pool_new (o : KvClientPoolOptions) (s : Pools S) : Pools S * nat :=
  let '(x, es) := new_babysitters (num_connections o) o (sitters s) in
  (mkPools (<[next_pool s := Pool.mk false 0 [] es]> (heap s)) (Datatypes.S (next_pool s)) x, next_pool s).

(** The remainder by the number of babysitters panics when there are none. *)
Definition get_client_slow (id : nat) (p : Pool) : action (Pools S) nat := λ s,
  let '(client_idx, p) := take_idx p in
  let s := with_heap (<[id := p]> (heap s)) s in
  if bool_decide (Pool.babysitters p = []) then (s, Some Panic)
  else
    match Pool.babysitters p !! Z.to_nat (client_idx mod blen (Pool.babysitters p)) with
    | Some e =>
        let '(x, r) := bs_get_client (babysitter e) (sitters s) in (with_sitters x s, r)
    | None => (s, Some Panic)
    end.

Definition std_pool_get_client (id : nat) : action (Pools S) nat := λ s,
  match heap s !! id with
  | None => (s, None)
  | Some p =>
      let n := blen (Pool.fast_map p) in
      if 0 <? n then
        let '(client_idx, p) := take_idx p in
        let s := with_heap (<[id := p]> (heap s)) s in
        match Pool.fast_map p !! Z.to_nat (client_idx mod n) with
        | Some client => (s, Some (Ok client))
        | None => (s, Some Panic)
        end
      else get_client_slow id p s
  end.

(** A call on every babysitter, in order. *)
Definition each_babysitter (f : nat → S → S) (id : nat) (s : Pools S) : Pools S :=
  match heap s !! id with
  | Some p => with_sitters (foldl (λ x e, f (babysitter e) x) (sitters s) (Pool.babysitters p)) s
  | None => s
  end.

Definition std_pool_update_auth (a : Authenticator) : nat → Pools S → Pools S :=
  each_babysitter (bs_update_auth a).

Definition std_pool_update_target (t : KvTarget) : nat → Pools S → Pools S :=
  each_babysitter (bs_update_target t).

(** A failure to close a babysitter is only logged. *)
Definition std_pool_close (id : nat) (s : Pools S) : Pools S * outcome Core.Error unit :=
  match heap s !! id with
  | Some p =>
      let s := each_babysitter (λ b x, fst (bs_close b x)) id s in
      (with_heap (<[id := Pool.mk true (Pool.client_idx p) [] []]> (heap s)) s, Ok tt)
  | None => (s, Ok tt)
  end.

#[global] Instance std_kv_client_pool : KvClientPool (Pools S) :=
  {| pool_new := std_pool_new;
     pool_get_client := std_pool_get_client;
     pool_update_auth := std_pool_update_auth;
     pool_update_target := std_pool_update_target;
     pool_close := std_pool_close |}.

End Ops.

(** ** A pool keeps its promises *)

Section Laws.
Context {S : Type} `{KvClientBabysitterLaws S}.

Definition owns (s : Pools S) (p b : nat) : Prop :=
  ∃ pool, heap s !! p = Some pool ∧ b ∈ babysitter <$> Pool.babysitters pool.

(** Pools are numbered, no babysitter is in two pools, and all of them have a target. *)
Record std_pools_ok (s : Pools S) : Prop := {
  ok_numbered : ∀ p, is_Some (heap s !! p) → (p < next_pool s)%nat;
  ok_disjoint : ∀ p q b, owns s p b → owns s q b → p = q;
  ok_targets : ∀ p b, owns s p b → is_Some (bs_target (sitters s) b);
}.

Definition std_serves (s : Pools S) (p : nat) (t : KvTarget) : Prop :=
  ∃ pool, heap s !! p = Some pool ∧ Pool.shutdown pool = false ∧ Pool.babysitters pool ≠ []
  ∧ ∀ b, b ∈ babysitter <$> Pool.babysitters pool → bs_target (sitters s) b = Some t.

Lemma serves_owns s p t b : std_serves s p t → owns s p b → bs_target (sitters s) b = Some t.
Proof. intros (pool & Hp & _ & _ & Ht) (pool' & Hp' & Hb). simplify_eq. auto. Qed.

Lemma new_babysitters_ok n o x :
  let '(x', es) := new_babysitters n o x in
  length es = n
  ∧ (∀ b, b ∈ babysitter <$> es → bs_target x b = None ∧ bs_target x' b = Some (po_target o))
  ∧ (∀ b, is_Some (bs_target x b) → bs_target x' b = bs_target x b).
Proof.
  revert x. induction n as [|n IH]; intros x; simpl.
  { split_and!; [done|by intros b Hb%elem_of_nil|done]. }
  pose proof (bs_new_ok o x) as Hnew. destruct (bs_new o x) as [x1 b0]. simpl in Hnew.
  specialize (IH x1). destruct (new_babysitters n o x1) as [x2 es]. destruct IH as (Hlen & Hes & Hold).
  assert (bs_target x1 b0 = Some (po_target o)) as Hb0
    by (rewrite (proj2 (Hnew b0)); by rewrite bool_decide_true).
  split_and!; [by rewrite <- Hlen| |].
  - intros b Hb. rewrite fmap_cons in Hb. apply elem_of_cons in Hb as [->|Hb]; simpl.
    + split; [apply (Hnew b0)|]. rewrite Hold; [done|by eexists].
    + destruct (Hes b Hb) as [Hn Ht]. split; [|done]. destruct (Hnew b) as [_ Heq].
      case_bool_decide; congruence.
  - intros b Hb. destruct (Hnew b) as [Hn0 Heq]. rewrite bool_decide_false in Heq.
    + rewrite Hold; congruence.
    + intros ->. rewrite Hn0 in Hb. by destruct Hb.
Qed.

(** The same call on a list of babysitters. *)
Lemma foldl_update_target t es x b :
  (∀ b, b ∈ babysitter <$> es → is_Some (bs_target x b)) →
  bs_target (foldl (λ x e, bs_update_target t (babysitter e) x) x es) b
  = if bool_decide (b ∈ babysitter <$> es) then Some t else bs_target x b.
Proof.
  revert x. induction es as [|e es IH]; intros x Hlive; [done|]. cbn [foldl].
  rewrite fmap_cons in Hlive |- *.
  assert (∀ b', bs_target (bs_update_target t (babysitter e) x) b'
    = if bool_decide (b' = babysitter e) then Some t else bs_target x b') as Hup
    by (intros b'; apply bs_update_target_ok, Hlive; set_solver).
  rewrite IH.
  - rewrite Hup. destruct (decide (b ∈ babysitter <$> es)) as [Hin|Hout].
    { rewrite !bool_decide_true by set_solver. done. }
    rewrite (bool_decide_false (b ∈ babysitter <$> es)) by done.
    rewrite (bool_decide_ext (b = babysitter e) (b ∈ babysitter e :: (babysitter <$> es)));
      [done|]. rewrite elem_of_cons. naive_solver.
  - intros b' Hb'. rewrite Hup. destruct (bool_decide (b' = babysitter e)); [eauto|].
    apply Hlive. by apply elem_of_cons; right.
Qed.

Lemma foldl_targets (f : nat → S → S) es x b :
  (∀ b x b', bs_target (f b x) b' = bs_target x b') →
  bs_target (foldl (λ x e, f (babysitter e) x) x es) b = bs_target x b.
Proof. intros Hf. revert x. induction es as [|e es IH]; intros x; simpl; [done|]. by rewrite IH, Hf. Qed.

Lemma std_pool_new_ok o s :
  std_pools_ok s → (0 < num_connections o)%nat →
  std_pools_ok (fst (std_pool_new o s))
  ∧ std_serves (fst (std_pool_new o s)) (snd (std_pool_new o s)) (po_target o)
  ∧ ∀ q t, std_serves s q t →
      q ≠ snd (std_pool_new o s) ∧ std_serves (fst (std_pool_new o s)) q t.
Proof.
  intros [Hnum Hdis Htg] Hn. unfold std_pool_new.
  pose proof (new_babysitters_ok (num_connections o) o (sitters s)) as Hnb.
  destruct (new_babysitters (num_connections o) o (sitters s)) as [x es]. simpl.
  destruct Hnb as (Hlen & Hes & Hold).
  assert (heap s !! next_pool s = None) as Hfresh.
  { destruct (heap s !! next_pool s) eqn:Hp; [|done]. assert (next_pool s < next_pool s)%nat; [|lia].
    apply Hnum. by eexists. }
  set (s' := mkPools (<[next_pool s := Pool.mk false 0 [] es]> (heap s)) (Datatypes.S (next_pool s)) x).
  assert (∀ p b, owns s' p b → p = next_pool s ∧ b ∈ babysitter <$> es ∨ p ≠ next_pool s ∧ owns s p b)
    as Howns.
  { intros p b (pool & Hp & Hb). simpl in Hp. apply lookup_insert_Some in Hp as [[<- <-]|[Hne Hp]]; [by left|].
    right. split; [done|]. by exists pool. }
  split_and!.
  - constructor; simpl.
    + intros p [pool Hp]. apply lookup_insert_Some in Hp as [[<- _]|[Hne Hp]]; [lia|].
      assert (p < next_pool s)%nat; [apply Hnum; by eexists|lia].
    + intros p q b Hp Hq. apply Howns in Hp as [[-> Hb]|[Hne Hp]], Hq as [[-> Hb']|[Hne' Hq]].
      * done.
      * destruct (Htg _ _ Hq) as [u Hu]. destruct (Hes b Hb). congruence.
      * destruct (Htg _ _ Hp) as [u Hu]. destruct (Hes b Hb'). congruence.
      * by eapply Hdis.
    + intros p b Hp. apply Howns in Hp as [[-> Hb]|[Hne Hp]].
      * destruct (Hes b Hb) as [_ ->]. by eexists.
      * rewrite Hold by by eapply Htg. by eapply Htg.
  - exists (Pool.mk false 0 [] es). simpl. rewrite lookup_insert_eq. split_and!; try done.
    + destruct es; [simpl in Hlen; lia|done].
    + intros b Hb. by apply Hes.
  - intros q t (pool & Hq & Hs & Hne & Ht).
    assert (q ≠ next_pool s) as Hqne by (intros ->; congruence). split; [done|].
    exists pool. simpl. rewrite lookup_insert_ne by done. split_and!; try done.
    intros b Hb. rewrite Hold; [by apply Ht|]. rewrite Ht by done. by eexists.
Qed.

(** The heap of another pool is not touched by a call on the babysitters of one. *)
Lemma each_babysitter_ok f id s :
  std_pools_ok s →
  (∀ p b, owns s p b → is_Some (bs_target (sitters (each_babysitter f id s)) b)) →
  std_pools_ok (each_babysitter f id s).
Proof.
  intros [Hnum Hdis Htg] Hlive. unfold each_babysitter in *. destruct (heap s !! id); by constructor.
Qed.

Lemma std_pool_update_target_ok t' p s t :
  std_pools_ok s → std_serves s p t →
  std_pools_ok (std_pool_update_target t' p s) ∧ std_serves (std_pool_update_target t' p s) p t'
  ∧ ∀ q u, q ≠ p → std_serves s q u → std_serves (std_pool_update_target t' p s) q u.
Proof.
  intros Hok Hs. pose proof Hs as (pool & Hp & Hsd & Hne & Ht). unfold std_pool_update_target.
  assert (∀ b, bs_target (sitters (each_babysitter (bs_update_target t') p s)) b
    = if bool_decide (b ∈ babysitter <$> Pool.babysitters pool) then Some t' else bs_target (sitters s) b)
    as Hup.
  { intros b. unfold each_babysitter. rewrite Hp. simpl. apply foldl_update_target.
    intros b' Hb'. rewrite Ht by done. by eexists. }
  assert (heap (each_babysitter (bs_update_target t') p s) = heap s) as Hheap
    by (unfold each_babysitter; by rewrite Hp).
  split_and!.
  - apply each_babysitter_ok; [done|]. intros q b Hb. rewrite Hup. case_bool_decide; [by eexists|].
    by eapply ok_targets.
  - exists pool. rewrite Hheap. split_and!; try done. intros b Hb. rewrite Hup. by rewrite bool_decide_true.
  - intros q u Hqp (pool' & Hq & Hsd' & Hne' & Hu). exists pool'. rewrite Hheap. split_and!; try done.
    intros b Hb. rewrite Hup, bool_decide_false; [by apply Hu|]. intros Hb'. apply Hqp.
    eapply ok_disjoint; [exact Hok|by exists pool'|by exists pool].
Qed.

Lemma std_pool_same_targets_ok f p s :
  (∀ b x b', bs_target (f b x) b' = bs_target x b') → std_pools_ok s →
  std_pools_ok (each_babysitter f p s)
  ∧ (∀ b, bs_target (sitters (each_babysitter f p s)) b = bs_target (sitters s) b)
  ∧ heap (each_babysitter f p s) = heap s.
Proof.
  intros Hf Hok.
  assert (∀ b, bs_target (sitters (each_babysitter f p s)) b = bs_target (sitters s) b) as Hsame.
  { intros b. unfold each_babysitter. destruct (heap s !! p); [|done]. by apply foldl_targets. }
  split_and!; [|done|unfold each_babysitter; by destruct (heap s !! p)].
  apply each_babysitter_ok; [done|]. intros q b Hb. rewrite Hsame. by eapply ok_targets.
Qed.

Lemma std_pool_update_auth_ok a p s t :
  std_pools_ok s → std_serves s p t →
  std_pools_ok (std_pool_update_auth a p s)
  ∧ ∀ q u, std_serves s q u → std_serves (std_pool_update_auth a p s) q u.
Proof.
  intros Hok _. destruct (std_pool_same_targets_ok (bs_update_auth a) p s) as (Hok' & Hsame & Hheap);
    [intros; apply bs_update_auth_ok|done|].
  split; [done|]. intros q u (pool & Hq & Hsd & Hne & Hu). exists pool. unfold std_pool_update_auth.
  rewrite Hheap. split_and!; try done. intros b Hb. rewrite Hsame. by apply Hu.
Qed.

Lemma std_pool_close_ok p s t :
  std_pools_ok s → std_serves s p t →
  std_pools_ok (fst (std_pool_close p s))
  ∧ ∀ q u, q ≠ p → std_serves s q u → std_serves (fst (std_pool_close p s)) q u.
Proof.
  intros Hok (pool & Hp & _). unfold std_pool_close. rewrite Hp. simpl.
  destruct (std_pool_same_targets_ok (λ b x, fst (bs_close b x)) p s) as (Hok' & Hsame & Hheap);
    [intros; apply bs_close_ok|done|]. set (s1 := each_babysitter _ p s) in *.
  set (s2 := with_heap _ s1).
  assert (∀ q b, owns s2 q b → owns s1 q b) as Howns.
  { intros q b (pool' & Hq & Hb). simpl in Hq. apply lookup_insert_Some in Hq as [[_ <-]|[_ Hq]].
    - by apply elem_of_nil in Hb.
    - by exists pool'. }
  split.
  - destruct Hok' as [Hnum Hdis Htg]. constructor.
    + intros q [pool' Hq]. simpl in Hq. apply Hnum. apply lookup_insert_Some in Hq as [[<- _]|[_ Hq]].
      * rewrite Hheap, Hp. by eexists.
      * by eexists.
    + intros q q' b Hq Hq'. by eapply Hdis; apply Howns.
    + intros q b Hq. by eapply Htg, Howns.
  - intros q u Hqp (pool' & Hq & Hsd & Hne & Hu). exists pool'. simpl. rewrite lookup_insert_ne by done.
    rewrite Hheap. split_and!; try done. intros b Hb. rewrite Hsame. by apply Hu.
Qed.

#[global] Instance std_kv_client_pool_laws : KvClientPoolLaws (Pools S) :=
  {| pools_ok := std_pools_ok;
     serves := std_serves;
     pool_new_ok := std_pool_new_ok;
     pool_update_target_ok := std_pool_update_target_ok;
     pool_update_auth_ok := std_pool_update_auth_ok;
     pool_close_ok := std_pool_close_ok |}.

End Laws.

(** ** The babysitters of [kvclient_babysitter.rs]

    A call that finds a client returns at once; one that does not starts a build and
    waits ([None]): what happens to it then is the subject of [Babysitter]. *)

Abbreviation Sitters := (gmap nat Babysitter).

#[global] Instance std_babysitter : KvClientBabysitter Sitters :=
  {| bs_new := λ o s,
       let b := fresh (dom s) in
       (<[b := babysitter_new (po_on_demand_connect o) (po_connect_throttle_period o)
                 (mkClientConfig (po_target o) (po_auth o) (po_selected_bucket o)) 0]> s, b);
     bs_get_client := λ b s,
       match s !! b with
       | Some x =>
           match Babysitter.fast_client x with
           | Some c => (s, Some (Ok c))
           | None =>
               match Babysitter.client x with
               | Some c => (s, Some (Ok c))
               | None => (alter maybe_begin_client b s, None)
               end
           end
       | None => (s, None)
       end;
     bs_update_auth := λ a, alter (Babysitter.update_auth a);
     bs_update_target := λ t, alter (Babysitter.update_target t);
     bs_close := λ b s, (alter (Babysitter.close true) b s, Ok tt) |}.

Definition sitter_target (s : Sitters) (b : nat) : option KvTarget :=
  x ← s !! b; Some (cc_target (Babysitter.desired_config x)).

Lemma sitter_new_ok o (s : Sitters) b :
  sitter_target s (snd (bs_new o s)) = None
  ∧ sitter_target (fst (bs_new o s)) b
    = if bool_decide (b = snd (bs_new o s)) then Some (po_target o) else sitter_target s b.
Proof.
  simpl. assert (s !! fresh (dom s) = None) as Hfresh by (apply not_elem_of_dom, is_fresh).
  unfold sitter_target. rewrite Hfresh. split; [done|]. case_bool_decide as Hb.
  - rewrite Hb, lookup_insert_eq. simpl. unfold babysitter_new. by destruct (po_on_demand_connect o).
  - by rewrite lookup_insert_ne.
Qed.

(** A call on one babysitter that leaves its target alone. *)
Lemma sitter_alter_target f (s : Sitters) b b' :
  (∀ x, cc_target (Babysitter.desired_config (f x)) = cc_target (Babysitter.desired_config x)) →
  sitter_target (alter f b s) b' = sitter_target s b'.
Proof.
  intros Hf. unfold sitter_target. destruct (decide (b' = b)) as [->|Hne];
    [|by rewrite lookup_alter_ne]. rewrite lookup_alter_eq. destruct (s !! b); simpl; [by rewrite Hf|done].
Qed.

Lemma sitter_update_target_ok t b (s : Sitters) b' :
  is_Some (sitter_target s b) →
  sitter_target (bs_update_target t b s) b' = if bool_decide (b' = b) then Some t else sitter_target s b'.
Proof.
  intros [u Hu]. simpl. unfold sitter_target in *. case_bool_decide as Hb.
  - subst. rewrite lookup_alter_eq. by destruct (s !! b).
  - by rewrite lookup_alter_ne.
Qed.

#[global] Instance std_babysitter_laws : KvClientBabysitterLaws Sitters.
Proof.
  apply (Build_KvClientBabysitterLaws Sitters _ sitter_target).
  - apply sitter_new_ok.
  - apply sitter_update_target_ok.
  - intros a b s b'. by apply sitter_alter_target.
  - intros b s b'. apply sitter_alter_target. intros x. unfold Babysitter.close.
    by destruct (Babysitter.client x).
Defined.

(** ** What callers get *)

(** The list of clients is the clients the entries have. *)
Definition pool_ok (p : Pool) : Prop := Pool.fast_map p = clients_of (Pool.babysitters p).

(** Reports keep the list right, whatever their order, and no entry is added or lost. *)
Lemma on_state_change_ok b c p :
  pool_ok p → pool_ok (on_state_change b c p)
  ∧ (babysitter <$> Pool.babysitters (on_state_change b c p)) = (babysitter <$> Pool.babysitters p).
Proof.
  intros Hok. unfold on_state_change. destruct (Pool.shutdown p); [done|]. split; [done|]. simpl.
  induction (Pool.babysitters p) as [|e es IH]; [done|]. simpl. case_bool_decide as He; simpl; [by subst|].
  by f_equal.
Qed.

Definition on_state_changes (reports : list (nat * option nat)) (p : Pool) : Pool :=
  foldl (λ p r, on_state_change (fst r) (snd r) p) p reports.

(** The last report of a babysitter. *)
Definition last_report (b : nat) (reports : list (nat * option nat)) : option nat :=
  foldl (λ acc r, if bool_decide (fst r = b) then snd r else acc) None reports.

Lemma set_entry_client_fmap b c es :
  NoDup (babysitter <$> es) →
  set_entry_client b c es = (λ e, if bool_decide (babysitter e = b) then mkEntry b c else e) <$> es.
Proof.
  induction es as [|x es IH]; intros Hnd; [done|]. rewrite fmap_cons in Hnd.
  apply list.NoDup_cons in Hnd as [Hni Hnd]. simpl. destruct (decide (babysitter x = b)) as [Hx|Hx].
  - rewrite !bool_decide_true by done. f_equal. rewrite <- (list_fmap_id es) at 1. apply list_fmap_ext.
    intros i e He. rewrite bool_decide_false; [done|]. intros Heb. apply Hni. rewrite Hx, <- Heb.
    apply list_elem_of_fmap. exists e. split; [done|]. by eapply list_elem_of_lookup_2.
  - rewrite !bool_decide_false by done. by rewrite IH.
Qed.

(** The entries after a list of reports. *)
Definition reported (reports : list (nat * option nat)) (e : KvClientPoolEntry) : KvClientPoolEntry :=
  mkEntry (babysitter e)
    (foldl (λ acc r, if bool_decide (fst r = babysitter e) then snd r else acc) (entry_client e) reports).

Lemma on_state_changes_entries reports p :
  pool_ok p → Pool.shutdown p = false → NoDup (babysitter <$> Pool.babysitters p) →
  pool_ok (on_state_changes reports p)
  ∧ Pool.babysitters (on_state_changes reports p) = reported reports <$> Pool.babysitters p.
Proof.
  revert p. induction reports as [|[b c] reports IH]; intros p Hok Hs Hnd; simpl.
  { split; [done|]. rewrite <- (list_fmap_id (Pool.babysitters p)) at 1. apply list_fmap_ext.
    by intros i [] _. }
  destruct (on_state_change_ok b c p Hok) as [Hok' Hids].
  assert (Pool.shutdown (on_state_change b c p) = false) as Hs'
    by (unfold on_state_change; by rewrite Hs).
  destruct (IH (on_state_change b c p) Hok' Hs') as [Hok2 Hes]; [by rewrite Hids|]. split; [done|].
  rewrite Hes. unfold on_state_change. rewrite Hs. simpl. rewrite set_entry_client_fmap by done.
  rewrite <- list_fmap_compose. apply list_fmap_ext. intros i e _. unfold reported. simpl.
  destruct (decide (babysitter e = b)) as [<-|Hne].
  - by rewrite !bool_decide_true by done.
  - rewrite (bool_decide_false (babysitter e = b)), (bool_decide_false (b = babysitter e)) by congruence.
    done.
Qed.

Lemma omap_fmap_compose {A B C} (f : A → B) (g : B → option C) (l : list A) :
  omap g (f <$> l) = omap (λ x, g (f x)) l.
Proof. induction l as [|x l IH]; [done|]. csimpl. destruct (g (f x)); by rewrite IH. Qed.

Section Calls.
Context {S : Type} `{KvClientBabysitter S}.

(** Consecutive calls of [get_client]. *)
Fixpoint get_clients (k : nat) (id : nat) (s : Pools S) : Pools S * list (option (outcome Core.Error nat)) :=
  match k with
  | O => (s, [])
  | Datatypes.S k =>
      let '(s, r) := std_pool_get_client id s in
      let '(s, rs) := get_clients k id s in
      (s, r :: rs)
  end.

Lemma get_client_fast id s p c :
  heap s !! id = Some p → Pool.fast_map p !! Z.to_nat (Pool.client_idx p mod blen (Pool.fast_map p)) = Some c →
  std_pool_get_client id s = (with_heap (<[id := snd (take_idx p)]> (heap s)) s, Some (Ok c)).
Proof.
  intros Hp Hc. unfold std_pool_get_client. rewrite Hp.
  assert (0 < blen (Pool.fast_map p)) as Hn.
  { apply lookup_lt_Some in Hc. unfold blen. lia. }
  test_true (0 <? blen (Pool.fast_map p)). simpl. by rewrite Hc.
Qed.

Lemma get_clients_spec k id s p cs :
  heap s !! id = Some p → Pool.fast_map p = cs → cs ≠ [] → 0 <= Pool.client_idx p →
  Pool.client_idx p + Z.of_nat k < 2 ^ 64 →
  length (snd (get_clients k id s)) = k
  ∧ ∀ j, (j < k)%nat → ∃ c, cs !! Z.to_nat ((Pool.client_idx p + Z.of_nat j) mod blen cs) = Some c
      ∧ snd (get_clients k id s) !! j = Some (Some (Ok c)).
Proof.
  revert s p. induction k as [|k IH]; intros s p Hp Hcs Hne Hidx Hlt; [split; [done|lia]|].
  assert (0 < blen cs) as Hn by (destruct cs; [done|rewrite blen_cons; pose proof (blen_nonneg cs); lia]).
  destruct (lookup_lt_is_Some_2 cs (Z.to_nat (Pool.client_idx p mod blen cs))) as [c Hc].
  { pose proof (Z.mod_pos_bound (Pool.client_idx p) (blen cs) Hn). unfold blen in *. lia. }
  cbn [get_clients]. rewrite (get_client_fast id s p c Hp) by (by rewrite Hcs).
  set (s1 := with_heap _ s). set (p1 := snd (take_idx p)).
  assert (Pool.client_idx p1 = Pool.client_idx p + 1) as Hidx1
    by (unfold p1, take_idx, cast_u; simpl; apply Z.mod_small; lia).
  destruct (IH s1 p1) as [Hlen Hj]; [unfold s1; simpl; by rewrite lookup_insert_eq|done|done|lia|lia|].
  destruct (get_clients k id s1) as [s2 rs]. simpl in *. split; [by rewrite Hlen|].
  intros [|j] Hjk; simpl.
  - exists c. rewrite Z.add_0_r. done.
  - destruct (Hj j) as (c' & Hc' & Hr); [lia|]. exists c'. split; [|done]. rewrite <- Hc', Hidx1.
    do 2 f_equal. f_equal. lia.
Qed.

(** A pool of the babysitters [bs] that has seen the reports [reports]. *)
Definition pool_after (bs : list nat) (idx : Z) (reports : list (nat * option nat)) : Pool :=
  on_state_changes reports (Pool.mk false idx [] ((λ b, mkEntry b None) <$> bs)).

Lemma pool_after_clients bs idx reports :
  NoDup bs →
  Pool.fast_map (pool_after bs idx reports) = omap (λ b, last_report b reports) bs
  ∧ Pool.client_idx (pool_after bs idx reports) = idx.
Proof.
  intros Hnd. unfold pool_after. set (p0 := Pool.mk false idx [] ((λ b, mkEntry b None) <$> bs)).
  assert ((babysitter <$> Pool.babysitters p0) = bs) as Hids.
  { simpl. rewrite <- list_fmap_compose. apply list_fmap_id. }
  assert (pool_ok p0) as Hok.
  { unfold pool_ok, clients_of. simpl. rewrite omap_fmap_compose. simpl. clear. by induction bs. }
  destruct (on_state_changes_entries reports p0) as [Hok' Hes]; [done|done|by rewrite Hids|].
  split.
  - rewrite Hok', Hes. unfold clients_of. simpl. by rewrite !omap_fmap_compose.
  - assert (∀ p, Pool.client_idx (on_state_changes reports p) = Pool.client_idx p) as Hidx; [|apply Hidx].
    clear. induction reports as [|[b c] reports IH]; intros p; simpl; [done|]. rewrite IH.
    unfold on_state_change. by destruct (Pool.shutdown p).
Qed.

(** A pool hands its connections out in turn.  After any reports of its
    babysitters, in whatever order they arrive, the clients that are handed out are
    exactly the last ones reported and not lost since; and as many consecutive
    calls as there are such clients return each of them once, starting where the
    previous call stopped (up to the wrap-around of the counter). *)
Lemma pool_hands_out_in_turn s id bs idx reports :
  heap s !! id = Some (pool_after bs idx reports) → NoDup bs →
  let cs := omap (λ b, last_report b reports) bs in
  cs ≠ [] → 0 <= idx → idx + blen cs < 2 ^ 64 →
  snd (get_clients (length cs) id s) = (λ c, Some (Ok c)) <$> rotate (Z.to_nat idx) cs.
Proof.
  intros Hp Hnd cs Hne Hidx Hlt. destruct (pool_after_clients bs idx reports Hnd) as [Hcs Hi].
  destruct (get_clients_spec (length cs) id s _ cs Hp Hcs Hne) as [Hlen Hj]; [by rewrite Hi..|].
  apply list_eq. intros j. destruct (decide (j < length cs)%nat) as [Hlt'|Hge].
  - destruct (Hj j Hlt') as (c & Hc & ->). rewrite list_lookup_fmap, lookup_rotate_r by done.
    unfold rotate_nat_add. rewrite Z2Nat.id by done. rewrite Hi in Hc. unfold blen in Hc. by rewrite Hc.
  - rewrite (proj2 (lookup_ge_None _ j)) by lia. symmetry. apply lookup_ge_None.
    rewrite length_fmap, length_rotate. lia.
Qed.

(** A call on a pool that was closed. *)
Lemma closed_pool_panics id s idx :
  heap s !! id = Some (Pool.mk true idx [] []) → snd (std_pool_get_client id s) = Some Panic.
Proof. intros Hp. unfold std_pool_get_client. by rewrite Hp. Qed.

Lemma close_pools_closed ps (s : Pools S) p idx :
  heap s !! p = Some (Pool.mk true idx [] []) →
  heap (close_pools ps s) !! p = Some (Pool.mk true idx [] []).
Proof.
  revert s. induction ps as [|q ps IH]; intros s Hp; [done|]. simpl. apply IH.
  unfold std_pool_close. destruct (heap s !! q) as [pool|] eqn:Hq; [|done]. simpl.
  assert (heap (each_babysitter (λ b x, fst (bs_close b x)) q s) = heap s) as ->
    by (unfold each_babysitter; by rewrite Hq).
  destruct (decide (p = q)) as [->|Hne]; [|by rewrite lookup_insert_ne].
  rewrite lookup_insert_eq. by simplify_eq.
Qed.
End Calls.

(** A call that looked its pool up before the endpoint was removed panics after
    it: removing an endpoint closes its pool and empties it, and [get_client] on an
    empty pool takes a remainder by zero.  So a caller that found the pool of an
    endpoint in the lock-free map and is overtaken by the update panics instead of
    getting an error it could retry. *)
Lemma removed_endpoint_panics {S : Type} `{KvClientBabysitterLaws S}
    (order : gmap string nat → list (string * nat)) eps m (s : Pools S) T e p :
  (∀ ps, order ps ≡ₚ map_to_list ps) → manages m s T → NoDup eps.*1 → e ∉ eps.*1 →
  Manager.fast_pools m !! e = Some p →
  snd (pool_get_client p (snd (fst (update_endpoints order eps false m s)))) = Some Panic.
Proof.
  intros Hperm Hm Hnd He Hp. destruct Hm as (Hfs & Hr & Hnum). rewrite Hfs in Hp.
  destruct (update_endpoints_closes order Hperm eps m s T e p) as (s1 & ps1 & ps2 & t & Heq & Hs);
    [by split_and!|done..|].
  rewrite Heq. unfold close_pools. rewrite foldl_app. cbn [foldl]. fold (close_pools ps1 s1).
  destruct Hs as (pool & Hpool & _). apply (closed_pool_panics p _ (Pool.client_idx pool)).
  apply close_pools_closed. simpl. unfold std_pool_close. rewrite Hpool. simpl. apply lookup_insert_eq.
Qed.

(** ** Witnesses *)

Definition no_pools : Pools Sitters := mkPools ∅ 0 ∅.

Definition no_endpoints (n : nat) : Manager := Manager.mk false n 5 sample_auth None ∅ ∅.

Lemma no_endpoints_manages n : (0 < n)%nat → manages (no_endpoints n) no_pools ∅.
Proof.
  intros Hn. split; [done|]. split; [|done]. constructor.
  - constructor.
    + intros p [x Hx]. done.
    + intros p q b (pool & Hp & _). done.
    + intros p b (pool & Hp & _). done.
  - intros e e' p He. done.
  - apply map_Forall2_empty.
Qed.

Definition target_of (h : string) : KvTarget := mkTarget (mkAddress h 11210) false.

Definition two_endpoints : list (string * KvTarget) :=
  [("kvep-a-8091", target_of "a"); ("kvep-b-8091", target_of "b")]%string.

Definition first_update : Manager * Pools Sitters * outcome Core.Error unit :=
  update_endpoints map_to_list two_endpoints false (no_endpoints 2) no_pools.

Lemma update_endpoints_refines_map_witness :
  manages (fst (fst first_update)) (snd (fst first_update)) (list_to_map two_endpoints)
  ∧ heap (snd (fst first_update)) !! 1%nat
    = Some (Pool.mk false 0 [] [mkEntry 2 None; mkEntry 3 None]).
Proof.
  split; [|vm_compute; reflexivity].
  pose proof (update_endpoints_refines_map map_to_list (λ _, reflexivity _) two_endpoints false
    (no_endpoints 2) no_pools ∅ (no_endpoints_manages 2 ltac:(lia))) as H.
  unfold first_update. destruct (update_endpoints _ _ _ _ _) as [[m' s'] r].
  apply H. apply (bool_decide_unpack _). vm_compute. exact I.
Defined.

Lemma removed_endpoint_panics_example :
  snd (pool_get_client 1%nat (snd (fst (update_endpoints map_to_list [("kvep-a-8091"%string, target_of "a")]
         false (fst (fst first_update)) (snd (fst first_update)))))) = Some Panic.
Proof.
  apply (removed_endpoint_panics map_to_list [("kvep-a-8091"%string, target_of "a")]
    (fst (fst first_update)) (snd (fst first_update)) (list_to_map two_endpoints) "kvep-b-8091" 1).
  - reflexivity.
  - pose proof (update_endpoints_manages map_to_list (λ _, reflexivity _) two_endpoints false
      (no_endpoints 2) no_pools ∅ (no_endpoints_manages 2 ltac:(lia))) as H.
    unfold first_update. destruct (update_endpoints _ _ _ _ _) as [[m' s'] r].
    apply H. apply (bool_decide_unpack _). vm_compute. exact I.
  - apply (bool_decide_unpack _). vm_compute. exact I.
  - apply (bool_decide_unpack _). vm_compute. exact I.
  - vm_compute. reflexivity.
Defined.

(** Three connections, of which the second was lost. *)
Definition sample_reports : list (nat * option nat) :=
  [(4, Some 40); (5, Some 50); (5, None); (6, Some 60)]%nat.

Lemma pool_hands_out_in_turn_example :
  snd (get_clients 2 0 (mkPools {[0%nat := pool_after [4; 5; 6]%nat 7 sample_reports]} 1 (∅ : Sitters)))
  = [Some (Ok 60%nat); Some (Ok 40%nat)].
Proof.
  apply (pool_hands_out_in_turn (S := Sitters) _ 0 [4; 5; 6]%nat 7 sample_reports);
    first [vm_compute; done | apply (bool_decide_unpack _); vm_compute; exact I | idtac].
Defined.
