(* ===== verification/ConfigManager.v ===== *)
(** * Keeping the config current ([configmanager.rs], [configfetcher.rs],
    [configwatcher.rs])

    New configs reach the agent over three ways: a poller asks the nodes in turn,
    servers push a note that there is a newer one, and a not-my-vbucket answer
    carries one.  All of them pass [handle_config], which keeps the newest under a
    lock; what it lets through is then applied by the agent.  The steps between
    the lock and the application are not under the lock, so the model of the
    whole is a transition system. *)

From S2P Require Import Prelude Text Wire MemdError Codec Requests Response Client CoreError Vbucket.
From S2P Require Import Bootstrap Config KvClient.

(** ** The newest config *)

Record ConfigVersion : Type := mkVersion {
  v_rev_epoch : Z;
  v_rev_id : Z;
}.

#[global] Instance config_version_eq_dec : EqDecision ConfigVersion.
Proof. solve_decision. Defined.

Definition version_of (c : ParsedConfig) : ConfigVersion := mkVersion (rev_epoch c) (rev_id c).

Definition bucket_type_changed (a b : option ParsedConfigBucket) : bool :=
  match a, b with
  | None, None => false
  | Some _, None | None, Some _ => true
  | Some a_bucket, Some b_bucket => negb (bool_decide (bucket_type a_bucket = bucket_type b_bucket))
  end.

Definition can_update_config (new_config old_config : ParsedConfig) : bool :=
  if bucket_type_changed (bucket new_config) (bucket old_config) then true
  else
    match partial_cmp new_config old_config with
    | Some Gt => true
    | _ => false
    end.

(** [handle_config] up to the release of the lock: the config to let through, which
    is also the new latest config. *)
Definition handle_config (latest_config parsed_config : ParsedConfig) : option ParsedConfig :=
  if can_update_config parsed_config latest_config then Some parsed_config else None.

(** ** Fetching ([configfetcher.rs], [cbconfig/parse.rs]) *)

Section Fetch.
Context {S C : Type} `{KvClientOps S C}
  (get_endpoint_client : string → action S C)
  (remote_hostname : C → string)
  (from_str : list Z → option TerseConfig).

Definition parse_config_text (config : list Z) (source_hostname : string)
    : outcome Core.Error TerseConfig :=
  if utf8_valid config then
    match from_str (str_replace (str_bytes "$HOST") (str_bytes source_hostname) config) with
    | Some c => Ok c
    | None => Err (Core.new_message_error "failed to parse terse config")
    end
  else Err (Core.new_message_error "failed to parse terse config").

(** A call that does not return is cut off by the timeout. *)
Definition poll_one (endpoint : string) (rev_id rev_epoch : Z) (skip_fetch : C → bool)
    : action S (option ParsedConfig) := λ st,
  match get_endpoint_client endpoint st with
  | (st, Some (Ok client)) =>
      if skip_fetch client then (st, Some (Ok None))
      else
        let hostname := remote_hostname client in
        let known_version :=
          if (0 <? rev_id) && kc_has_feature client HelloFeature.ClusterMapKnownVersion st
          then Some (GetClusterConfigKnownVersion.mk rev_epoch rev_id) else None in
        match kc_get_cluster_config client (GetClusterConfigRequest.mk known_version) st with
        | (st, None) => (st, Some (Err (Core.new_message_error "get cluster config timed out")))
        | (st, Some Panic) => (st, Some Panic)
        | (st, Some (Err e)) => (st, Some (Err (Core.new_contextual_memdx_error e)))
        | (st, Some (Ok config)) =>
            if bool_decide (config = []) then (st, Some (Ok None))
            else
              (st, Some (config ← parse_config_text config hostname;
                         c ← parse_terse_config config hostname;
                         Ok (Some c)))
        end
  | (st, Some (Err e)) => (st, Some (Err e))
  | (st, Some Panic) => (st, Some Panic)
  | (st, None) => (st, None)
  end.

End Fetch.

(** ** A note of a newer config ([perform_out_of_band_fetch]) *)

(** [AtomicBool::compare_exchange]: the new value and [Ok] or [Err] of the old one. *)
Definition compare_exchange (current expected new : bool) : bool * (bool + bool) :=
  if bool_decide (current = expected) then (new, inl current) else (current, inr current).

Record ManagerState : Type := mkManagerState {
  ms_latest_config : ParsedConfig;
  ms_latest_version : ConfigVersion;
  performing_out_of_band_fetch : bool;
}.

Section OutOfBand.
Context {S : Type} (poll_one : string → Z → Z → action S (option ParsedConfig)).

(** One round of the loop: [None] when it waits for the fetch of another call, or the
    fetch does not return. *)
Definition perform_out_of_band_fetch (rev_id rev_epoch : Z) (endpoint_id : string)
    (st : ManagerState * S) : ManagerState * S * option (outcome Core.Error (option ParsedConfig)) :=
  let '(ms, s) := st in
  let latest_rev_epoch := Config.rev_epoch (ms_latest_config ms) in
  let latest_rev_id := Config.rev_id (ms_latest_config ms) in
  if (rev_epoch <? latest_rev_epoch)
     || (rev_epoch =? latest_rev_epoch) && (rev_id <=? latest_rev_id)
  then (st, Some (Ok None))
  else
    let '(flag, res) := compare_exchange (performing_out_of_band_fetch ms) false true in
    let ms := mkManagerState (ms_latest_config ms) (ms_latest_version ms) flag in
    if bool_decide (res = inl true) then (ms, s, None)
    else
      match poll_one endpoint_id latest_rev_id latest_rev_epoch s with
      | (s, Some (Ok parsed_config)) =>
          match parsed_config ≫= handle_config (ms_latest_config ms) with
          | Some cfg => (mkManagerState cfg (version_of cfg) false, s, Some (Ok (Some cfg)))
          | None => (mkManagerState (ms_latest_config ms) (ms_latest_version ms) false, s,
                     Some (Ok None))
          end
      | (s, Some (Err _)) => (ms, s, Some (Ok None))
      | (s, Some Panic) => (ms, s, Some Panic)
      | (s, None) => (ms, s, None)
      end.

End OutOfBand.

(** ** The three ways together *)

Inductive Origin : Type := Watcher | Unsolicited | NotMyVbucket.

#[global] Instance origin_eq_dec : EqDecision Origin.
Proof. solve_decision. Defined.

(** Where the handling of one config is: before the lock of [handle_config], before
    the version is sent, and after [handle_config] has let it through, before it is
    applied (or, for the watcher, put on the channel to the agent). *)
Inductive Stage : Type := AtLock | AtSend | AtDeliver.

Record Task : Type := mkTask {
  origin : Origin;
  stage : Stage;
  config : ParsedConfig;
}.

Module Manager.
Record Manager : Type := mk {
  latest_config : ParsedConfig;
  latest_version : ConfigVersion;
  (** the channel [on_new_config]: its value, when the agent has not seen it *)
  on_new_config : option ParsedConfig;
  (** taken from the channel, before it is applied *)
  watched : option ParsedConfig;
  (** [AgentState::latest_config], as of the last [apply_config] *)
  applied : ParsedConfig;
  tasks : gmap nat Task;
  (** the configs that passed the lock, the last first *)
  handled : list ParsedConfig;
}.
End Manager.
Abbreviation Manager := Manager.Manager.
Import Manager.

Definition manager_new (first_config : ParsedConfig) : Manager :=
  mk first_config (version_of first_config) None None first_config ∅ [].

Definition set_tasks (ts : gmap nat Task) (s : Manager) : Manager :=
  mk (latest_config s) (latest_version s) (on_new_config s) (watched s) (applied s) ts (handled s).

(** One step of a task. *)
Definition task_step (i : nat) (t : Task) (s : Manager) : Manager :=
  match stage t with
  | AtLock =>
      let s := mk (latest_config s) (latest_version s) (on_new_config s) (watched s) (applied s)
                 (tasks s) (config t :: handled s) in
      match handle_config (latest_config s) (config t) with
      | Some cfg =>
          mk cfg (latest_version s) (on_new_config s) (watched s) (applied s)
            (<[i := mkTask (origin t) AtSend cfg]> (tasks s)) (handled s)
      | None => set_tasks (base.delete i (tasks s)) s
      end
  | AtSend =>
      mk (latest_config s) (version_of (config t)) (on_new_config s) (watched s) (applied s)
        (<[i := mkTask (origin t) AtDeliver (config t)]> (tasks s)) (handled s)
  | AtDeliver =>
      if bool_decide (origin t = Watcher) then
        mk (latest_config s) (latest_version s) (Some (config t)) (watched s) (applied s)
          (base.delete i (tasks s)) (handled s)
      else
        mk (latest_config s) (latest_version s) (on_new_config s) (watched s) (config t)
          (base.delete i (tasks s)) (handled s)
  end.

Inductive step : Type :=
| Arrive (i : nat) (o : Origin) (c : ParsedConfig)
| Advance (i : nat)
| Borrow
| Apply.

(** The watcher's configs and the unsolicited packets are each handled by one task,
    one after the other; not-my-vbucket answers are handled by their operations. *)
Definition busy (o : Origin) (s : Manager) : bool :=
  negb (bool_decide (o = NotMyVbucket))
  && bool_decide (map_Exists (λ _ t, origin t = o) (tasks s)).

Definition take_step (l : step) (s : Manager) : option Manager :=
  match l with
  | Arrive i o c =>
      if bool_decide (tasks s !! i = None) && negb (busy o s)
      then Some (set_tasks (<[i := mkTask o AtLock c]> (tasks s)) s) else None
  | Advance i => t ← tasks s !! i; Some (task_step i t s)
  | Borrow =>
      match on_new_config s, watched s with
      | Some c, None =>
          Some (mk (latest_config s) (latest_version s) None (Some c) (applied s) (tasks s) (handled s))
      | _, _ => None
      end
  | Apply =>
      match watched s with
      | Some c =>
          Some (mk (latest_config s) (latest_version s) (on_new_config s) None c (tasks s) (handled s))
      | None => None
      end
  end.

Fixpoint take_steps (ls : list step) (s : Manager) : option Manager :=
  match ls with
  | [] => Some s
  | l :: ls => s' ← take_step l s; take_steps ls s'
  end.

(** ** Lemmas *)

(** The order of versions, and configs of the same bucket type. *)
Definition older (a b : ParsedConfig) : Prop :=
  rev_epoch a < rev_epoch b ∨ rev_epoch a = rev_epoch b ∧ rev_id a < rev_id b.

Definition same_type (a b : ParsedConfig) : Prop :=
  bucket_type <$> bucket a = bucket_type <$> bucket b.

Lemma bucket_type_changed_false a b :
  bucket_type_changed a b = false ↔ bucket_type <$> a = bucket_type <$> b.
Proof.
  destruct a as [a|], b as [b|]; simpl; try done. rewrite negb_false_iff, bool_decide_eq_true.
  split; [by intros ->|by intros [= ->]].
Qed.

Lemma partial_cmp_gt a b : partial_cmp a b = Some Gt ↔ older b a.
Proof.
  unfold partial_cmp, older. destruct (Z.compare_spec (rev_epoch a) (rev_epoch b)).
  - destruct (Z.compare_spec (rev_id a) (rev_id b)); split; try done; lia.
  - split; [done|lia].
  - split; [lia|done].
Qed.

Lemma handle_config_same_type old new :
  same_type old new →
  handle_config old new = if bool_decide (partial_cmp new old = Some Gt) then Some new else None.
Proof.
  intros Ht. unfold handle_config, can_update_config.
  rewrite (proj2 (bucket_type_changed_false _ _)) by done.
  destruct (partial_cmp new old) as [[]|]; by case_bool_decide.
Qed.

Lemma older_trans a b c : older a b → older b c → older a c.
Proof. unfold older. lia. Qed.

Lemma not_older a b : ¬ older a b → older b a ∨ rev_epoch a = rev_epoch b ∧ rev_id a = rev_id b.
Proof. unfold older. lia. Qed.

(** The newer of two configs; the first when they are equally new. *)
Definition newest (a b : ParsedConfig) : ParsedConfig :=
  if bool_decide (partial_cmp b a = Some Gt) then b else a.

Lemma newest_ge a b : ¬ older (newest a b) a ∧ ¬ older (newest a b) b.
Proof.
  unfold newest. case_bool_decide as H; rewrite partial_cmp_gt in H; unfold older in *; lia.
Qed.

(** The config a step brings in satisfies [Q]. *)
Definition arrival (Q : ParsedConfig → Prop) (l : step) : Prop :=
  match l with Arrive _ _ c => Q c | _ => True end.

Section Newest.
Context (first : ParsedConfig).

Record newest_inv (s : Manager) : Prop := {
  ni_tasks : map_Forall (λ _ t, same_type first (config t)) (tasks s);
  ni_latest_type : same_type first (latest_config s);
  ni_latest : latest_config s = foldr (λ c acc, newest acc c) first (handled s);
}.

Lemma newest_inv_step l s s' :
  newest_inv s → arrival (same_type first) l → take_step l s = Some s' → newest_inv s'.
Proof.
  intros [Ht Hlt Hl] Ha H. destruct l as [i o c|i| |]; simpl in H.
  - case_match; [|done]. injection H as <-. constructor; simpl; try done. by apply map_Forall_insert_2.
  - apply bind_Some in H as (t & Hi & [= <-]). pose proof (Ht i t Hi) as Hti. simpl in Hti.
    unfold task_step. destruct (stage t).
    + simpl. rewrite handle_config_same_type by (unfold same_type in *; congruence).
      case_bool_decide as Hgt; constructor; simpl; try done.
      * by apply map_Forall_insert_2.
      * rewrite <- Hl. unfold newest. by rewrite bool_decide_true.
      * by apply map_Forall_delete.
      * rewrite <- Hl. unfold newest. by rewrite bool_decide_false.
    + constructor; simpl; try done. by apply map_Forall_insert_2.
    + case_bool_decide; constructor; simpl; try done; by apply map_Forall_delete.
  - destruct (on_new_config s), (watched s); try done. injection H as <-. by constructor.
  - destruct (watched s); [|done]. injection H as <-. by constructor.
Qed.

Lemma newest_inv_steps ls s s' :
  newest_inv s → Forall (arrival (same_type first)) ls → take_steps ls s = Some s' → newest_inv s'.
Proof.
  revert s. induction ls as [|l ls IH]; intros s Hi Hls H; simpl in H; [by injection H as <-|].
  apply list.Forall_cons in Hls as [Hl Hls]. apply bind_Some in H as (s1 & Hs1 & H).
  eapply IH; [|done..]. by eapply newest_inv_step.
Qed.

Lemma foldr_newest_ge cs c : c ∈ first :: cs → ¬ older (foldr (λ c acc, newest acc c) first cs) c.
Proof.
  induction cs as [|x cs IH]; simpl; intros Hc.
  - apply list_elem_of_singleton in Hc as ->. unfold older. lia.
  - destruct (newest_ge (foldr (λ c acc, newest acc c) first cs) x) as [Hge Hgex].
    assert (c = x ∨ c ∈ first :: cs) as [->|Hin] by set_solver; [done|].
    specialize (IH Hin). unfold older in *. lia.
Qed.

(** C13. The config manager keeps the newest config, however its sources race.  While
    the bucket keeps its type, after any interleaving of the poller, the pushed
    notes and the not-my-vbucket answers, the latest config is the newest of the
    first config and all that passed the lock, the first of equally new ones; no
    config it has seen is newer. *)
Theorem latest_config_is_newest ls s :
  take_steps ls (manager_new first) = Some s → Forall (arrival (same_type first)) ls →
  latest_config s = foldr (λ c acc, newest acc c) first (handled s)
  ∧ ∀ c, c ∈ first :: handled s → ¬ older (latest_config s) c.
Proof.
  intros H Hls. destruct (newest_inv_steps ls (manager_new first) s) as [_ _ Hl]; [|done..|].
  { by constructor. }
  split; [done|]. rewrite Hl. apply foldr_newest_ge.
Qed.
End Newest.

(** ** One config at a time *)

Definition quiet (s : Manager) : bool :=
  bool_decide (tasks s = ∅ ∧ on_new_config s = None ∧ watched s = None).

(** A run in which a config only arrives when the one before it was dealt with. *)
Fixpoint serial (ls : list step) (s : Manager) : bool :=
  match ls with
  | [] => true
  | l :: ls =>
      match l with Arrive _ _ _ => quiet s | _ => true end
      && match take_step l s with Some s' => serial ls s' | None => false end
  end.

(** What is under way carries the latest config; when nothing is, it was applied. *)
Inductive carried (s : Manager) : Prop :=
| carried_done :
    tasks s = ∅ → on_new_config s = None → watched s = None →
    applied s = latest_config s → latest_version s = version_of (latest_config s) → carried s
| carried_lock i o c :
    tasks s = {[i := mkTask o AtLock c]} → on_new_config s = None → watched s = None →
    applied s = latest_config s → latest_version s = version_of (latest_config s) → carried s
| carried_send i o :
    tasks s = {[i := mkTask o AtSend (latest_config s)]} → on_new_config s = None → watched s = None →
    carried s
| carried_deliver i o :
    tasks s = {[i := mkTask o AtDeliver (latest_config s)]} → on_new_config s = None →
    watched s = None → latest_version s = version_of (latest_config s) → carried s
| carried_channel :
    tasks s = ∅ → on_new_config s = Some (latest_config s) → watched s = None →
    latest_version s = version_of (latest_config s) → carried s
| carried_watched :
    tasks s = ∅ → on_new_config s = None → watched s = Some (latest_config s) →
    latest_version s = version_of (latest_config s) → carried s.

Lemma carried_task i t s s' :
  carried s → tasks s !! i = Some t → s' = task_step i t s → carried s'.
Proof.
  intros Hc Hi ->. destruct Hc as [Ht|j o c Ht Hn Hw Ha Hv|j o Ht Hn Hw|j o Ht Hn Hw Hv|Ht|Ht];
    rewrite Ht in Hi; try done; apply lookup_singleton_Some in Hi as [<- <-]; unfold task_step; simpl.
  - destruct (handle_config (latest_config s) c) as [cfg|] eqn:Hh.
    + eapply carried_send; simpl; [|done..]. rewrite Ht. apply insert_singleton_eq.
    + apply carried_done; simpl; try done. rewrite Ht. apply delete_singleton_eq.
  - eapply carried_deliver; simpl; try done. rewrite Ht. apply insert_singleton_eq.
  - case_bool_decide; [apply carried_channel|apply carried_done]; simpl; try done;
      rewrite Ht; apply delete_singleton_eq.
Qed.

Lemma carried_step l s s' :
  carried s → match l with Arrive _ _ _ => quiet s = true | _ => True end →
  take_step l s = Some s' → carried s'.
Proof.
  intros Hc Hq H. destruct l as [i o c|i| |]; simpl in H.
  - apply bool_decide_eq_true in Hq as (Ht & Hn & Hw). case_match; [|done]. injection H as <-.
    destruct Hc; try congruence; [|by rewrite Ht in *; simplify_map_eq..].
    eapply carried_lock; simpl; try done. rewrite Ht. by rewrite insert_empty.
  - apply bind_Some in H as (t & Hi & [= <-]). by eapply carried_task.
  - destruct (on_new_config s) eqn:Hn, (watched s) eqn:Hw; try done. injection H as <-.
    destruct Hc; try congruence. eapply carried_watched; simpl; congruence.
  - destruct (watched s) eqn:Hw; [|done]. injection H as <-.
    destruct Hc; try congruence. eapply carried_done; simpl; congruence.
Qed.

Lemma carried_steps ls s s' :
  carried s → serial ls s = true → take_steps ls s = Some s' → carried s'.
Proof.
  revert s. induction ls as [|l ls IH]; intros s Hc Hs H; simpl in *; [by injection H as <-|].
  apply andb_true_iff in Hs as [Hq Hs]. apply bind_Some in H as (s1 & Hs1 & H). rewrite Hs1 in Hs.
  eapply IH; [|done..]. eapply carried_step; [done| |done]. by destruct l.
Qed.

(** Configs that are handled one at a time reach the agent: when every config
    arrives after the one before it was dealt with, then at every quiet moment the
    agent has applied the latest config of the manager, and the version the poller
    asks with is that config's; also across changes of the bucket type. *)
Lemma serial_configs_are_applied first ls s :
  serial ls (manager_new first) = true → take_steps ls (manager_new first) = Some s → quiet s = true →
  applied s = latest_config s ∧ latest_version s = version_of (latest_config s).
Proof.
  intros Hs H Hq. apply bool_decide_eq_true in Hq as (Ht & Hn & Hw).
  destruct (carried_steps ls (manager_new first) s) as [Ht'|i o c Ht'|i o Ht'|i o Ht'|Ht' Hn'|Ht' Hn' Hw'];
    try congruence; [by apply carried_done|done| | |]; rewrite Ht in Ht'; exfalso;
    by eapply (insert_non_empty ∅ i), eq_sym.
Qed.

(** ** Two configs at a time *)

(** Nothing newer than [c2] is under way. *)
Record stale (c1 c2 : ParsedConfig) (s : Manager) : Prop := {
  stale_latest : latest_config s = c2;
  stale_applied : applied s = c1;
  stale_channel : on_new_config s = None;
  stale_watched : watched s = None;
  stale_tasks : map_Forall (λ _ t, stage t = AtLock ∧ same_type c2 (config t) ∧ ¬ older c2 (config t)) (tasks s);
}.

Lemma stale_step c1 c2 l s s' :
  stale c1 c2 s → arrival (λ c, same_type c2 c ∧ ¬ older c2 c) l → take_step l s = Some s' →
  stale c1 c2 s'.
Proof.
  intros [Hl Ha Hn Hw Ht] Harr H. destruct l as [i o c|i| |]; simpl in H.
  - case_match; [|done]. injection H as <-. constructor; simpl; try done. by apply map_Forall_insert_2.
  - apply bind_Some in H as (t & Hi & [= <-]). destruct (Ht i t Hi) as (Hst & Hty & Hold).
    unfold task_step. rewrite Hst. simpl. rewrite Hl, handle_config_same_type by done.
    rewrite bool_decide_false by by rewrite partial_cmp_gt.
    constructor; simpl; try done. by apply map_Forall_delete.
  - by rewrite Hn in H.
  - by rewrite Hw in H.
Qed.

Lemma stale_steps c1 c2 ls s s' :
  stale c1 c2 s → Forall (arrival (λ c, same_type c2 c ∧ ¬ older c2 c)) ls →
  take_steps ls s = Some s' → stale c1 c2 s'.
Proof.
  revert s. induction ls as [|l ls IH]; intros s Hi Hls H; simpl in H; [by injection H as <-|].
  apply list.Forall_cons in Hls as [Hl Hls]. apply bind_Some in H as (s1 & Hs1 & H).
  eapply IH; [|done..]. by eapply stale_step.
Qed.

(** Two not-my-vbucket answers: the second overtakes the first between the lock and
    the application. *)
Definition overtaken (c1 c2 : ParsedConfig) : list step :=
  [Arrive 0 NotMyVbucket c1; Advance 0; Arrive 1 NotMyVbucket c2; Advance 1; Advance 1; Advance 1;
   Advance 0; Advance 0]%nat.

Lemma steps_arrive i c ls s :
  tasks s !! i = None →
  take_steps (Arrive i NotMyVbucket c :: ls) s
  = take_steps ls (set_tasks (<[i := mkTask NotMyVbucket AtLock c]> (tasks s)) s).
Proof. intros Hi. simpl. by rewrite bool_decide_true. Qed.

Lemma steps_advance i t ls s :
  tasks s !! i = Some t → take_steps (Advance i :: ls) s = take_steps ls (task_step i t s).
Proof. intros Hi. simpl. by rewrite Hi. Qed.

Lemma overtaken_run c0 c1 c2 :
  same_type c0 c1 → same_type c1 c2 → older c0 c1 → older c1 c2 →
  take_steps (overtaken c1 c2) (manager_new c0)
  = Some (mk c2 (version_of c1) None None c1 ∅ [c2; c1]).
Proof.
  intros H01 H12 Ho01 Ho12.
  assert (handle_config c0 c1 = Some c1) as E1
    by (rewrite handle_config_same_type, bool_decide_true by (done || by rewrite partial_cmp_gt); done).
  assert (handle_config c1 c2 = Some c2) as E2
    by (rewrite handle_config_same_type, bool_decide_true by (done || by rewrite partial_cmp_gt); done).
  unfold overtaken. rewrite steps_arrive by done. rewrite (steps_advance 0 (mkTask NotMyVbucket AtLock c1)) by done.
  unfold task_step at 1. simpl stage. cbv iota. simpl handle_config. rewrite E1.
  rewrite steps_arrive by done. rewrite (steps_advance 1 (mkTask NotMyVbucket AtLock c2)) by done.
  unfold task_step at 1. simpl stage. cbv iota. simpl handle_config. rewrite E2.
  rewrite (steps_advance 1 (mkTask NotMyVbucket AtSend c2)) by done.
  rewrite (steps_advance 1 (mkTask NotMyVbucket AtDeliver c2)) by done.
  rewrite (steps_advance 0 (mkTask NotMyVbucket AtSend c1)) by done.
  rewrite (steps_advance 0 (mkTask NotMyVbucket AtDeliver c1)) by done.
  reflexivity.
Qed.

(** A newer config can be overwritten by an older one, and stay so.  Take two
    configs, each newer than the one before, that arrive with two not-my-vbucket
    answers: when the second is applied before the first, although the first passed
    the lock first, everything comes to rest with the agent routing by the older
    one and the poller asking with its version, while the manager holds the newer
    one.  From then on no config that is not newer still reaches the agent: every
    answer with the newer config is turned down as already known. *)
Lemma overtaken_config_stays_applied c0 c1 c2 :
  same_type c0 c1 → same_type c1 c2 → older c0 c1 → older c1 c2 →
  ∃ ls s, take_steps ls (manager_new c0) = Some s
  ∧ quiet s = true ∧ latest_config s = c2 ∧ applied s = c1 ∧ latest_version s = version_of c1
  ∧ ∀ ls' s', take_steps ls' s = Some s' →
      Forall (arrival (λ c, same_type c2 c ∧ ¬ older c2 c)) ls' → applied s' = c1.
Proof.
  intros H01 H12 Ho01 Ho12. exists (overtaken c1 c2). eexists.
  split; [by apply (overtaken_run c0)|]. simpl. split_and!; try done.
  intros ls' s' H Hls. apply (stale_applied c1 c2). eapply stale_steps; [|exact Hls|exact H].
  by constructor.
Qed.

(** ** A pushed note *)

Section Note.
Context {S : Type} (poll : string → Z → Z → action S (option ParsedConfig)).

(** A pushed note of a newer config is followed up, and only then.  A note that is
    not newer than the latest config changes nothing and fetches nothing.  For a
    newer one the config is fetched with the version the manager has; it is let
    through, and becomes the latest one, exactly when it is newer than that (or
    changes the bucket type); and the guard against a second fetch at the same time
    never holds: the call fetches whether or not the mark is set, and a failed
    fetch leaves the mark set for good. *)
Lemma pushed_note_spec rev_id rev_epoch ep ms s :
  let latest := ms_latest_config ms in
  perform_out_of_band_fetch poll rev_id rev_epoch ep (ms, s)
  = if bool_decide (older latest (mkConfig rev_id rev_epoch "" None [] [])) then
      match poll ep (Config.rev_id latest) (Config.rev_epoch latest) s with
      | (s', Some (Ok c)) =>
          match c ≫= handle_config latest with
          | Some cfg => (mkManagerState cfg (version_of cfg) false, s', Some (Ok (Some cfg)))
          | None => (mkManagerState latest (ms_latest_version ms) false, s', Some (Ok None))
          end
      | (s', Some (Err _)) => (mkManagerState latest (ms_latest_version ms) true, s', Some (Ok None))
      | (s', Some Panic) => (mkManagerState latest (ms_latest_version ms) true, s', Some Panic)
      | (s', None) => (mkManagerState latest (ms_latest_version ms) true, s', None)
      end
    else (ms, s, Some (Ok None)).
Proof.
  intros latest. unfold perform_out_of_band_fetch. fold latest.
  assert ((rev_epoch <? Config.rev_epoch latest)
    || (rev_epoch =? Config.rev_epoch latest) && (rev_id <=? Config.rev_id latest)
    = negb (bool_decide (older latest (mkConfig rev_id rev_epoch "" None [] [])))) as ->.
  { apply eq_true_iff_eq. rewrite negb_true_iff, bool_decide_eq_false. unfold older. simpl. lia. }
  case_bool_decide; [|done]. simpl.
  by destruct (performing_out_of_band_fetch ms); simpl.
Qed.
End Note.

(** ** The poller ([configwatcher.rs]) *)

Record WatchState : Type := mkWatchState {
  recent_endpoints : list string;
  all_endpoints_failed : bool;
}.

Definition watch_start : WatchState := mkWatchState [] true.

(** What the loop does in one round, in order. *)
Inductive Event : Type :=
| Polled (endpoint : string)
| Sent (c : ParsedConfig)
| Slept.

(** One round of the loop; a shutdown during a sleep ends it. *)
Definition watch_round (endpoints : list string)
    (poll : string → outcome Core.Error (option ParsedConfig)) (ws : WatchState)
    : WatchState * list Event :=
  if bool_decide (endpoints = []) then (ws, [Slept])
  else
    match filter (λ e, e ∉ recent_endpoints ws) endpoints with
    | [] => (mkWatchState [] true, if all_endpoints_failed ws then [Slept] else [])
    | endpoint :: _ =>
        let recent := recent_endpoints ws ++ [endpoint] in
        match poll endpoint with
        | Ok parsed_config =>
            (mkWatchState recent false,
             [Polled endpoint] ++ match parsed_config with Some c => [Sent c] | None => [] end ++ [Slept])
        | _ => (mkWatchState recent (all_endpoints_failed ws), [Polled endpoint; Slept])
        end
    end.

Section Watch.
(** The endpoints do not change; the [k]th round gets the answers [poll k]. *)
Context (endpoints : list string) (poll : nat → string → outcome Core.Error (option ParsedConfig)).

Fixpoint watch (n k : nat) (ws : WatchState) : WatchState * list Event :=
  match n with
  | O => (ws, [])
  | S n =>
      let '(ws, evs) := watch_round endpoints (poll k) ws in
      let '(ws, evs') := watch n (S k) ws in
      (ws, evs ++ evs')
  end.

Definition polled (evs : list Event) : list string :=
  omap (λ e, match e with Polled ep => Some ep | _ => None end) evs.

(** Reading the events with a mark whether there was a sleep since the last poll:
    [None] as soon as a poll comes without one. *)
Fixpoint spaced (rested : bool) (evs : list Event) : option bool :=
  match evs with
  | [] => Some rested
  | Polled _ :: evs => if rested then spaced false evs else None
  | Sent _ :: evs => spaced rested evs
  | Slept :: evs => spaced true evs
  end.

Lemma watch_app n m k ws :
  watch (n + m) k ws
  = let '(ws1, e1) := watch n k ws in let '(ws2, e2) := watch m (k + n) ws1 in (ws2, e1 ++ e2).
Proof.
  revert k ws. induction n as [|n IH]; intros k ws; simpl.
  { rewrite Nat.add_0_r. by destruct (watch m k ws). }
  destruct (watch_round endpoints (poll k) ws) as [ws1 e1]. rewrite IH.
  destruct (watch n (S k) ws1) as [ws2 e2]. rewrite Nat.add_succ_comm.
  destruct (watch m (k + S n) ws2) as [ws3 e3]. by rewrite app_assoc.
Qed.

Lemma polled_app e1 e2 : polled (e1 ++ e2) = polled e1 ++ polled e2.
Proof. apply omap_app. Qed.

Lemma spaced_app r evs evs' : spaced r (evs ++ evs') = r' ← spaced r evs; spaced r' evs'.
Proof. revert r. induction evs as [|[] evs IH]; intros r; simpl; [done|destruct r; auto|auto..]. Qed.

(** Every round ends rested when it begins so. *)
Lemma watch_round_spaced p ws : spaced true (snd (watch_round endpoints p ws)) = Some true.
Proof.
  unfold watch_round. case_bool_decide; [done|]. destruct (filter _ _) as [|e ?].
  - by destruct (all_endpoints_failed ws).
  - by destruct (p e) as [[c|]| |].
Qed.

Lemma watch_spaced n k ws : spaced true (snd (watch n k ws)) = Some true.
Proof.
  revert k ws. induction n as [|n IH]; intros k ws; simpl; [done|].
  pose proof (watch_round_spaced (poll k) ws) as Hr.
  destruct (watch_round endpoints (poll k) ws) as [ws1 e1].
  specialize (IH (S k) ws1). destruct (watch n (S k) ws1) as [ws2 e2]. simpl in *.
  by rewrite spaced_app, Hr.
Qed.

Lemma filter_not_in_prefix {A} `{EqDecision A} (l k : list A) :
  NoDup (l ++ k) → filter (λ e, e ∉ l) (l ++ k) = k.
Proof.
  intros Hnd. apply list.NoDup_app in Hnd as (_ & Hdis & _). rewrite list.filter_app.
  assert (∀ m, (∀ x, x ∈ m → x ∈ l) → filter (λ e, e ∉ l) m = []) as Hnil.
  { induction m as [|x m IH]; intros Hm; [done|]. rewrite filter_cons, decide_False.
    - apply IH. set_solver.
    - intros Hx. apply Hx, Hm. set_solver. }
  rewrite Hnil by done. simpl.
  assert (∀ m : list A, (∀ x, x ∈ m → x ∉ l) → filter (λ e, e ∉ l) m = m) as Hid.
  { induction m as [|x m IH]; intros Hm; [done|]. rewrite filter_cons, decide_True.
    - f_equal. apply IH. set_solver.
    - apply Hm. set_solver. }
  apply Hid. intros x Hx Hd. by apply (Hdis x Hd).
Qed.

(** The rounds that poll the endpoints not yet polled. *)
Lemma watch_rest pre rest k ws :
  endpoints = pre ++ rest → NoDup endpoints → endpoints ≠ [] → recent_endpoints ws = pre →
  polled (snd (watch (length rest) k ws)) = rest
  ∧ recent_endpoints (fst (watch (length rest) k ws)) = endpoints.
Proof.
  revert pre k ws. induction rest as [|e rest IH]; intros pre k ws He Hnd Hne Hr.
  { simpl. rewrite app_nil_r in He. by rewrite Hr, He. }
  assert (∃ ws1 e1, watch_round endpoints (poll k) ws = (ws1, e1)
    ∧ polled e1 = [e] ∧ recent_endpoints ws1 = pre ++ [e]) as (ws1 & e1 & Hrd & Hp & Hr1).
  { unfold watch_round. rewrite bool_decide_false by done. rewrite Hr.
    assert (filter (λ e, e ∉ pre) endpoints = e :: rest) as ->
      by (rewrite He; apply filter_not_in_prefix; by rewrite <- He).
    destruct (poll k e) as [[c|]| |]; eauto. }
  simpl. rewrite Hrd.
  destruct (IH (pre ++ [e]) (S k) ws1) as [Hp' Hr']; [by rewrite <- app_assoc|done..|].
  destruct (watch (length rest) (S k) ws1) as [ws2 e2]. simpl in *.
  by rewrite polled_app, Hp, Hp'.
Qed.

(** One cycle: every endpoint, and the round that starts over. *)
Lemma watch_cycle k ws :
  NoDup endpoints → endpoints ≠ [] → recent_endpoints ws = [] →
  polled (snd (watch (S (length endpoints)) k ws)) = endpoints
  ∧ recent_endpoints (fst (watch (S (length endpoints)) k ws)) = [].
Proof.
  intros Hnd Hne Hr. replace (S (length endpoints)) with (length endpoints + 1)%nat by lia.
  rewrite watch_app. destruct (watch_rest [] endpoints k ws) as [Hp Hr1]; [done..|].
  destruct (watch (length endpoints) k ws) as [ws1 e1]. simpl in *.
  assert (watch_round endpoints (poll (k + length endpoints)) ws1
    = (mkWatchState [] true, if all_endpoints_failed ws1 then [Slept] else [])) as ->.
  { unfold watch_round. rewrite bool_decide_false by done. rewrite Hr1.
    assert (filter (λ e, e ∉ endpoints) endpoints = []) as ->; [|done].
    pose proof (filter_not_in_prefix endpoints []) as Hf. rewrite app_nil_r in Hf. by apply Hf. }
  simpl. rewrite app_nil_r, polled_app, Hp. split; [|done].
  destruct (all_endpoints_failed ws1); by rewrite app_nil_r.
Qed.

(** The poller is fair and does not flood.  With a fixed list of different
    endpoints it polls all of them in order, then starts over: after any number of
    cycles it has polled exactly that many repetitions of the list, whatever the
    nodes answer and however many of them fail.  And it never polls twice without
    a sleep of the polling period in between. *)
Lemma poller_is_fair cycles :
  NoDup endpoints → endpoints ≠ [] →
  polled (snd (watch (cycles * S (length endpoints)) 0 watch_start)) = concat (replicate cycles endpoints)
  ∧ ∀ n, spaced true (snd (watch n 0 watch_start)) = Some true.
Proof.
  intros Hnd Hne. split; [|intros n; apply watch_spaced].
  assert (∀ k ws, recent_endpoints ws = [] →
    polled (snd (watch (cycles * S (length endpoints)) k ws)) = concat (replicate cycles endpoints))
    as Hall; [|by apply Hall].
  induction cycles as [|c IH]; intros k ws Hr; [done|].
  change (S c * S (length endpoints))%nat with (S (length endpoints) + c * S (length endpoints))%nat.
  rewrite watch_app. destruct (watch_cycle k ws Hnd Hne Hr) as [Hp Hr1].
  destruct (watch (S (length endpoints)) k ws) as [ws1 e1]. simpl fst in Hr1. simpl snd in Hp.
  specialize (IH (k + S (length endpoints))%nat ws1 Hr1).
  destruct (watch (c * S (length endpoints)) _ ws1) as [ws2 e2]. simpl in *.
  by rewrite polled_app, Hp, IH.
Qed.
End Watch.

(** ** Witnesses *)

Definition config_rev (n : Z) : ParsedConfig := mkConfig n 1 "" None [] [].

Lemma latest_config_is_newest_witness :
  ∃ s, take_steps (overtaken (config_rev 2) (config_rev 3)) (manager_new (config_rev 1)) = Some s
  ∧ latest_config s = config_rev 3.
Proof.
  eexists. split; [vm_compute; reflexivity|].
  destruct (latest_config_is_newest (config_rev 1) (overtaken (config_rev 2) (config_rev 3))
    (mk (config_rev 3) (mkVersion 1 2) None None (config_rev 2) ∅ [config_rev 3; config_rev 2]))
    as [H _]; [vm_compute; reflexivity|by repeat constructor|]. exact H.
Defined.

(** A config of the poller, then an older one of a not-my-vbucket answer. *)
Definition sample_serial : list step :=
  [Arrive 0 Watcher (config_rev 5); Advance 0; Advance 0; Advance 0; Borrow; Apply;
   Arrive 1 NotMyVbucket (config_rev 4); Advance 1]%nat.

Lemma serial_configs_are_applied_example :
  ∃ s, take_steps sample_serial (manager_new (config_rev 1)) = Some s
  ∧ applied s = config_rev 5 ∧ latest_config s = config_rev 5.
Proof.
  destruct (take_steps sample_serial (manager_new (config_rev 1))) as [s|] eqn:Hs;
    [|vm_compute in Hs; discriminate].
  exists s. split; [reflexivity|].
  destruct (serial_configs_are_applied (config_rev 1) sample_serial s) as [Ha _].
  - vm_compute. reflexivity.
  - exact Hs.
  - vm_compute in Hs. injection Hs as <-. vm_compute. reflexivity.
  - rewrite Ha. vm_compute in Hs. injection Hs as <-. split; reflexivity.
Defined.

Lemma overtaken_config_stays_applied_example :
  ∃ ls s, take_steps ls (manager_new (config_rev 1)) = Some s
  ∧ quiet s = true ∧ latest_config s = config_rev 3 ∧ applied s = config_rev 2.
Proof.
  destruct (overtaken_config_stays_applied (config_rev 1) (config_rev 2) (config_rev 3))
    as (ls & s & H1 & H2 & H3 & H4 & _); [reflexivity..|right; done|right; done|].
  exists ls, s. auto.
Defined.

(** Two nodes of which the second never answers. *)
Lemma poller_is_fair_example :
  polled (snd (watch ["a"; "b"]%string
    (λ _ e, if bool_decide (e = "a"%string) then Ok None else Err (Core.new Core.NoBucket)) 6 0 watch_start))
  = ["a"; "b"; "a"; "b"]%string.
Proof.
  apply (poller_is_fair ["a"; "b"]%string _ 2); [|done].
  apply (bool_decide_unpack _). vm_compute. exact I.
Defined.
