(* ===== verification/Agent.v ===== *)
(** * The agent ([agent.rs], [nmvbhandler.rs])

    The agent owns the components and puts a new config in place: it derives the
    configs of all components, first adds the new endpoints to the connection
    manager, then switches the routing table, then removes the endpoints that are
    gone.  Operations run at the same time and read the routing table and the
    connection manager without a lock, so every state between two of those steps
    is visible to them; the model keeps the list of those states. *)

From S2P Require Import Prelude Text Wire MemdError Codec Requests ExtFrame Response Client CoreError Vbucket.
From S2P Require Import Bootstrap Config KvClient ConfigManager Endpoints.

(** ** State *)

Record AgentState : Type := mkAgentState {
  ag_bucket : option string;
  ag_tls : bool;
  ag_authenticator : Authenticator;
  ag_latest_config : ParsedConfig;
  ag_network_type : string;
}.

(** The configs of the HTTP components and of the diagnostics, as they are swapped. *)
Record HttpConfigs : Type := mkHttpConfigs {
  hc_authenticator : Authenticator;
  hc_analytics : gmap string string;
  hc_query : gmap string string;
  hc_search : gmap string string;
  hc_vector_search : bool;
  hc_mgmt : gmap string string;
  hc_services : list ServiceType;
  hc_bucket : option string;
  hc_rev_id : Z;
}.

(** What operations see: the connection manager with its pools, the routing table,
    the poller's endpoints and the HTTP components. *)
Record World (S : Type) : Type := mkWorld {
  conn_mgr : Endpoints.Manager;
  w_pools : S;
  vb_router : VbucketRoutingInfo;
  poll_endpoints : list string;
  http_configs : HttpConfigs;
}.
Arguments mkWorld {S}. Arguments conn_mgr {S}. Arguments w_pools {S}. Arguments vb_router {S}.
Arguments poll_endpoints {S}. Arguments http_configs {S}.

Record AgentInner (S : Type) : Type := mkAgent {
  state : AgentState;
  cfg_manager : ManagerState;
  world : World S;
}.
Arguments mkAgent {S}. Arguments state {S}. Arguments cfg_manager {S}. Arguments world {S}.

(** ** Operations *)

Section Agent.
Context {S : Type} `{KvClientPool S}.

(** The orders the maps are iterated in. *)
Context (order : gmap string nat → list (string * nat))
  (target_order : gmap string KvTarget → list (string * KvTarget)).

Definition gen_agent_component_configs_locked (st : AgentState)
    : outcome Core.Error AgentComponentConfigs :=
  gen_from_config (ag_latest_config st) (ag_network_type st) (ag_tls st) (ag_bucket st)
    (ag_authenticator st).

Definition update_conn_mgr (targets : gmap string KvTarget) (add_only : bool) (w : World S) : World S :=
  let '(m, s, _) := update_endpoints order (target_order targets) add_only (conn_mgr w) (w_pools w) in
  mkWorld m s (vb_router w) (poll_endpoints w) (http_configs w).

Definition switch_router (info : VbucketRoutingInfo) (w : World S) : World S :=
  mkWorld (conn_mgr w) (w_pools w) info (poll_endpoints w) (http_configs w).

Definition reconfigure_poller (endpoints : list string) (w : World S) : World S :=
  mkWorld (conn_mgr w) (w_pools w) (vb_router w) endpoints (http_configs w).

Definition reconfigure_http (cc : AgentComponentConfigs) (w : World S) : World S :=
  mkWorld (conn_mgr w) (w_pools w) (vb_router w) (poll_endpoints w)
    (mkHttpConfigs (auth cc) (analytics_endpoints cc) (query_endpoints cc) (search_endpoints cc)
       (vector_search_enabled cc) (mgmt_endpoints cc) (services cc) (cc_selected_bucket cc) (cc_rev_id cc)).

(** The states after each step, in order. *)
Definition put_in_place (cc : AgentComponentConfigs) (w : World S) : list (World S) :=
  let w1 := update_conn_mgr (kv_targets cc) true w in
  let w2 := switch_router (vbucket_routing_info cc) w1 in
  let w3 := reconfigure_poller (config_manager_endpoints cc) w2 in
  let w4 := update_conn_mgr (kv_targets cc) false w3 in
  [w1; w2; w3; w4; reconfigure_http cc w4].

(** The state at the end, and those on the way. *)
Definition update_state_locked (st : AgentState) (w : World S)
    : outcome Core.Error (World S * list (World S)) :=
  cc ← gen_agent_component_configs_locked st;
  let ws := put_in_place cc w in
  Ok (List.last ws w, ws).

Definition with_config (c : ParsedConfig) (st : AgentState) : AgentState :=
  mkAgentState (ag_bucket st) (ag_tls st) (ag_authenticator st) c (ag_network_type st).

(** A panic leaves the new config in the agent's state and the components as they
    were. *)
Definition apply_config (c : ParsedConfig) (a : AgentInner S) : AgentInner S * outcome Core.Error unit :=
  let st := with_config c (state a) in
  match update_state_locked st (world a) with
  | Ok (w, _) => (mkAgent st (cfg_manager a) w, Ok tt)
  | Err e => (mkAgent st (cfg_manager a) (world a), Err e)
  | Panic => (mkAgent st (cfg_manager a) (world a), Panic)
  end.

Definition with_manager (ms : ManagerState) (a : AgentInner S) : AgentInner S :=
  mkAgent (state a) ms (world a).

(** [out_of_band_config]. *)
Definition out_of_band_config (c : ParsedConfig) (ms : ManagerState) : ManagerState * option ParsedConfig :=
  match handle_config (ms_latest_config ms) c with
  | Some c => (mkManagerState c (version_of c) (performing_out_of_band_fetch ms), Some c)
  | None => (ms, None)
  end.

(** [apply_terse_config]; a config that cannot be parsed is dropped. *)
Definition apply_terse_config (config : TerseConfig) (source_hostname : string) (a : AgentInner S)
    : AgentInner S * outcome Core.Error unit :=
  match parse_terse_config config source_hostname with
  | Ok c =>
      let '(ms, r) := out_of_band_config c (cfg_manager a) in
      let a := with_manager ms a in
      match r with
      | Some c => apply_config c a
      | None => (a, Ok tt)
      end
  | Err _ => (a, Ok tt)
  | Panic => (a, Panic)
  end.

(** [StdNotMyVbucketConfigHandler], with the agent as its watcher ([None] before
    [set_watcher] and after the agent is dropped). *)
Definition not_my_vbucket_config (watcher : option (AgentInner S)) (config : TerseConfig)
    (source_hostname : string) : option (AgentInner S) * outcome Core.Error unit :=
  match watcher with
  | Some a => let '(a, r) := apply_terse_config config source_hostname a in (Some a, r)
  | None => (None, Ok tt)
  end.

(** The value of a signed 64-bit integer in network order. *)
Definition read_i64 (l : list Z) : Z :=
  let v := from_be (take 8 l) in if v <? 2 ^ 63 then v else v - 2 ^ 64.

(** [unsolicited_packet_handler]; the fetch works on the pools. *)
Definition unsolicited_packet_handler (poll : string → Z → Z → action S (option ParsedConfig))
    (op_code : OpCode) (extras : option (list Z)) (endpoint_id : string) (a : AgentInner S)
    : AgentInner S * option (outcome Core.Error unit) :=
  if bool_decide (op_code = OpCode.Set_) then
    match extras with
    | Some extras =>
        if blen extras <? 16 then (a, Some (Ok tt))
        else
          let server_rev_epoch := read_i64 extras in
          let server_rev_id := read_i64 (drop 8 extras) in
          let w := world a in
          let '(ms, s, r) :=
            perform_out_of_band_fetch poll server_rev_id server_rev_epoch endpoint_id
              (cfg_manager a, w_pools w) in
          let a := mkAgent (state a) ms
                     (mkWorld (conn_mgr w) s (vb_router w) (poll_endpoints w) (http_configs w)) in
          match r with
          | Some (Ok (Some c)) => let '(a, r) := apply_config c a in (a, Some r)
          | Some (Ok None) => (a, Some (Ok tt))
          | Some (Err e) => (a, Some (Err e))
          | Some Panic => (a, Some Panic)
          | None => (a, None)
          end
    | None => (a, Some (Ok tt))
    end
  else (a, Some (Ok tt)).

(** [reconfigure]: the authenticator and TLS of the agent. *)
Definition reconfigure (tls : bool) (authenticator : Authenticator) (a : AgentInner S)
    : AgentInner S * outcome Core.Error unit :=
  let st := mkAgentState (ag_bucket (state a)) tls authenticator (ag_latest_config (state a))
              (ag_network_type (state a)) in
  let '(m, s) := Endpoints.update_auth order authenticator (conn_mgr (world a)) (w_pools (world a)) in
  let w := mkWorld m s (vb_router (world a)) (poll_endpoints (world a)) (http_configs (world a)) in
  match update_state_locked st w with
  | Ok (w, _) => (mkAgent st (cfg_manager a) w, Ok tt)
  | Err e => (mkAgent st (cfg_manager a) w, Err e)
  | Panic => (mkAgent st (cfg_manager a) w, Panic)
  end.

End Agent.

(** ** Features *)

(** [features.rs]. *)
Module BucketFeature.
Inductive BucketFeature : Type :=
| CreateAsDeleted
| ReplaceBodyWithXattr
| RangeScan
| ReplicaRead
| NonDedupedHistory
| ReviveDocument.
End BucketFeature.
Abbreviation BucketFeature := BucketFeature.BucketFeature.

#[global] Instance agent_feature_eq_dec : EqDecision BucketFeature.
Proof. solve_decision. Defined.

Definition bucket_feature (f : ParsedConfigBucketFeature) : option BucketFeature :=
  match f with
  | ParsedConfigBucketFeature.CreateAsDeleted => Some BucketFeature.CreateAsDeleted
  | ParsedConfigBucketFeature.ReplaceBodyWithXattr => Some BucketFeature.ReplaceBodyWithXattr
  | ParsedConfigBucketFeature.RangeScan => Some BucketFeature.RangeScan
  | ParsedConfigBucketFeature.ReplicaRead => Some BucketFeature.ReplicaRead
  | ParsedConfigBucketFeature.NonDedupedHistory => Some BucketFeature.NonDedupedHistory
  | ParsedConfigBucketFeature.ReviveDocument => Some BucketFeature.ReviveDocument
  | ParsedConfigBucketFeature.Unknown => None
  end.

Definition agent_bucket_features (st : AgentState) : outcome Core.Error (list BucketFeature) :=
  match bucket (ag_latest_config st) with
  | Some b => Ok (omap bucket_feature (bucket_features b))
  | None => Err (Core.new Core.NoBucket)
  end.

(** [format!("{feature:?}")]. *)
Definition feature_name (f : BucketFeature) : string :=
  match f with
  | BucketFeature.CreateAsDeleted => "CreateAsDeleted"
  | BucketFeature.ReplaceBodyWithXattr => "ReplaceBodyWithXattr"
  | BucketFeature.RangeScan => "RangeScan"
  | BucketFeature.ReplicaRead => "ReplicaRead"
  | BucketFeature.NonDedupedHistory => "NonDedupedHistory"
  | BucketFeature.ReviveDocument => "ReviveDocument"
  end.

Definition run_with_bucket_feature_check {S T : Type} (feature : BucketFeature)
    (operation : action (AgentInner S) T) (message : string) : action (AgentInner S) T := λ a,
  match agent_bucket_features (state a) with
  | Ok features =>
      if bool_decide (feature ∈ features) then operation a
      else (a, Some (Err (Core.new (Core.FeatureNotAvailable (feature_name feature) message))))
  | Err e => (a, Some (Err e))
  | Panic => (a, Some Panic)
  end.

(** ** Theorems *)

Section Theorems.
Context {S : Type} `{KvClientPoolLaws S}
  (order : gmap string nat → list (string * nat))
  (order_perm : ∀ ps, order ps ≡ₚ map_to_list ps)
  (target_order : gmap string KvTarget → list (string * KvTarget))
  (target_order_perm : ∀ ts, target_order ts ≡ₚ map_to_list ts).

(** The connection manager of a world implements the map [T]. *)
Definition connects (w : World S) (T : gmap string KvTarget) : Prop :=
  manages (conn_mgr w) (w_pools w) T.

Lemma target_order_nodup ts : NoDup (target_order ts).*1.
Proof using target_order_perm. rewrite target_order_perm. apply NoDup_fst_map_to_list. Qed.

Lemma target_order_map ts : list_to_map (target_order ts) = ts.
Proof using target_order_perm.
  trans (list_to_map (M := gmap string KvTarget) (map_to_list ts)); [|apply list_to_map_to_list].
  apply list_to_map_proper; [apply target_order_nodup|apply target_order_perm].
Qed.

Lemma update_conn_mgr_connects ts add_only w T :
  connects w T →
  connects (update_conn_mgr order target_order ts add_only w) (if add_only then ts ∪ T else ts)
  ∧ vb_router (update_conn_mgr order target_order ts add_only w) = vb_router w.
Proof using order_perm target_order_perm.
  intros Hc. unfold connects, update_conn_mgr.
  pose proof (update_endpoints_manages order order_perm (target_order ts) add_only (conn_mgr w) (w_pools w) T
    Hc (target_order_nodup ts)) as Hup. rewrite target_order_map in Hup.
  destruct (update_endpoints order (target_order ts) add_only (conn_mgr w) (w_pools w)) as [[m s] r].
  by destruct Hup as (_ & Hm & _).
Qed.

(** An endpoint the manager has is found by operations, with its target. *)
Lemma connects_lookup w T e t :
  connects w T → T !! e = Some t →
  ∃ p, Endpoints.Manager.fast_pools (conn_mgr w) !! e = Some p ∧ serves (w_pools w) p t.
Proof.
  intros (Hf & [_ _ HF] & _) Ht. rewrite Hf. specialize (HF e). rewrite Ht in HF.
  inversion HF as [p t' Hs Hp Heq|]; subst. eauto.
Qed.

Lemma put_in_place_connects cc w T :
  connects w T →
  ∃ w1 w2 w3 w4, put_in_place order target_order cc w = [w1; w2; w3; w4; reconfigure_http cc w4]
  ∧ (connects w1 (kv_targets cc ∪ T) ∧ vb_router w1 = vb_router w)
  ∧ (connects w2 (kv_targets cc ∪ T) ∧ vb_router w2 = vbucket_routing_info cc)
  ∧ (connects w3 (kv_targets cc ∪ T) ∧ vb_router w3 = vbucket_routing_info cc)
  ∧ (connects w4 (kv_targets cc) ∧ vb_router w4 = vbucket_routing_info cc).
Proof using order_perm target_order_perm.
  intros Hc. do 4 eexists. split; [reflexivity|].
  destruct (update_conn_mgr_connects (kv_targets cc) true w T Hc) as [H1 Hr1].
  destruct (update_conn_mgr_connects (kv_targets cc) false
    (reconfigure_poller (config_manager_endpoints cc) (switch_router (vbucket_routing_info cc)
       (update_conn_mgr order target_order (kv_targets cc) true w))) _ H1) as [H4 Hr4].
  split_and!; try done.
Qed.

(** C6. While a new config is put in place, no operation is routed to an endpoint that
    is gone.  In every state on the way, and at the end, each endpoint that has a
    target in the config the routing table of that moment was made from has a pool:
    the old table is only in force while the old endpoints are all there, and the
    new one only once the new endpoints are.  In the end the connection manager has
    exactly the endpoints of the new config, each with a pool for its target. *)
Theorem no_gap_in_routing cc w T e :
  connects w T →
  let pooled w' := is_Some (Endpoints.Manager.fast_pools (conn_mgr w') !! e) in
  ∃ w1 ws, put_in_place order target_order cc w = w1 :: ws
  ∧ (vb_router w1 = vb_router w ∧ (is_Some (T !! e) → pooled w1))
  ∧ Forall (λ w', vb_router w' = vbucket_routing_info cc ∧ (is_Some (kv_targets cc !! e) → pooled w')) ws
  ∧ connects (List.last ws w1) (kv_targets cc).
Proof using order_perm target_order_perm.
  intros Hc pooled. destruct (put_in_place_connects cc w T Hc)
    as (w1 & w2 & w3 & w4 & Heq & [H1 Hr1] & [H2 Hr2] & [H3 Hr3] & [H4 Hr4]).
  assert (∀ w' T', connects w' T' → is_Some (T' !! e) → pooled w') as Hfind.
  { intros w' T' Hw [t Ht]. destruct (connects_lookup w' T' e t Hw Ht) as (p & Hp & _). by eexists. }
  assert (∀ w', connects w' (kv_targets cc ∪ T) →
    is_Some (T !! e) ∨ is_Some (kv_targets cc !! e) → pooled w') as Hboth.
  { intros w' Hw Hor. eapply Hfind; [exact Hw|]. apply lookup_union_is_Some. by destruct Hor; auto. }
  exists w1, [w2; w3; w4; reconfigure_http cc w4]. split_and!; [done|done|by auto| |done].
  repeat apply list.Forall_cons_2; try apply list.Forall_nil_2; split; try done; intros He; auto.
  - by eapply Hfind.
  - apply (Hfind (reconfigure_http cc w4) _ H4 He).
Qed.

(** Applying a config that configures the components. *)
Lemma apply_config_ok c a cc T :
  connects (world a) T →
  gen_from_config c (ag_network_type (state a)) (ag_tls (state a)) (ag_bucket (state a))
    (ag_authenticator (state a)) = Ok cc →
  let '(a', r) := apply_config order target_order c a in
  r = Ok tt ∧ ag_latest_config (state a') = c ∧ cfg_manager a' = cfg_manager a
  ∧ vb_router (world a') = vbucket_routing_info cc ∧ connects (world a') (kv_targets cc).
Proof using order_perm target_order_perm.
  intros Hc Hcc. unfold apply_config, update_state_locked, gen_agent_component_configs_locked, with_config.
  cbn [ag_bucket ag_tls ag_authenticator ag_latest_config ag_network_type]. rewrite Hcc.
  cbn [mbind outcome_bind].
  destruct (put_in_place_connects cc (world a) T Hc)
    as (w1 & w2 & w3 & w4 & Heq & _ & _ & _ & [H4 Hr4]). rewrite Heq. by split_and!.
Qed.
End Theorems.

Section EndToEnd.
Context {S : Type} `{KvClientPoolLaws S}
  (order : gmap string nat → list (string * nat))
  (order_perm : ∀ ps, order ps ≡ₚ map_to_list ps)
  (target_order : gmap string KvTarget → list (string * KvTarget))
  (target_order_perm : ∀ ts, target_order ts ≡ₚ map_to_list ts)
  (hash : list Z → Z) {P : Profile} (hash_u32 : ∀ key, fits 32 (hash key)).

(** C4. From a config the server sends to the connection a key uses, through the
    running agent.  Whatever endpoints the agent has connections to, when a config
    of a bucket arrives that is newer than the one it has (or is for another bucket
    type), then it becomes the agent's config and the manager's latest one; and
    every key goes, for each copy the map places on a data node with an address in
    the agent's network, to an endpoint that operations find, whose pool connects
    to that node's address. *)
Theorem new_config_takes_effect tc src cfg a T name m key copy i node addr :
  connects (world a) T →
  parse_terse_config tc src = Ok cfg →
  can_update_config cfg (ms_latest_config (cfg_manager a)) = true →
  TerseConfig.name tc = Some name → TerseConfig.node_locator tc = Some "vbucket"%string →
  TerseConfig.vbucket_server_map tc = Some m →
  0 < blen (VBucketServerMap.vbucket_map m) < 2 ^ 16 → fits 31 (VBucketServerMap.num_replicas m) →
  Forall (identified src) (TerseConfig.nodes_ext tc) →
  NoDup (node_identity src <$> TerseConfig.nodes_ext tc) →
  let vb := vbucket_of hash (blen (VBucketServerMap.vbucket_map m)) key in
  0 <= copy <= VBucketServerMap.num_replicas m →
  (row ← VBucketServerMap.vbucket_map m !! Z.to_nat vb; row !! Z.to_nat copy) = Some (Z.of_nat i) →
  (i < default 0%nat (TerseConfig.nodes_len tc))%nat →
  TerseConfig.nodes_ext tc !! i = Some node →
  node_kv_address src (ag_network_type (state a)) (ag_tls (state a)) node = Some addr →
  ∃ a' endpoint pool,
    apply_terse_config order target_order tc src a = (a', Ok tt)
    ∧ ag_latest_config (state a') = cfg ∧ ms_latest_config (cfg_manager a') = cfg
    ∧ std_dispatch_by_key hash (vb_router (world a')) key copy = Ok (endpoint, vb)
    ∧ Endpoints.Manager.fast_pools (conn_mgr (world a')) !! endpoint = Some pool
    ∧ serves (w_pools (world a')) pool (mkTarget addr (ag_tls (state a))).
Proof using order_perm target_order_perm hash_u32.
  intros Hc Hparse Hnew Hname Hloc Hmap Hn Hr Hid Hnd vb Hcopy Hrow Hi Hnode Haddr.
  destruct (keys_reach_the_mapped_node hash hash_u32 tc src (ag_network_type (state a)) (ag_tls (state a))
    (ag_bucket (state a)) (ag_authenticator (state a)) name m key copy i node addr)
    as (cfg' & cc & ep & Hcfg' & Hcc & Hd & Ht); [done..|].
  rewrite Hparse in Hcfg'. injection Hcfg' as <-.
  unfold apply_terse_config, out_of_band_config, handle_config. rewrite Hparse, Hnew.
  cbv beta iota zeta.
  set (ms := mkManagerState cfg (version_of cfg) (performing_out_of_band_fetch (cfg_manager a))).
  pose proof (apply_config_ok order order_perm target_order target_order_perm cfg (with_manager ms a) cc T
    Hc Hcc) as Hap.
  destruct (apply_config order target_order cfg (with_manager ms a)) as [a' r].
  destruct Hap as (-> & Hl & Hms & Hrt & Hcn).
  destruct (connects_lookup (world a') (kv_targets cc) ep _ Hcn Ht) as (p & Hp & Hs).
  exists a', ep, p. split_and!; try done.
  - by rewrite Hms.
  - by rewrite Hrt.
Qed.
End EndToEnd.

(** The routing loop hands the config of a not-my-vbucket answer over with the id of
    the endpoint as the source host ([orchestrate_memd_routing]); a node without a
    host of its own, such as the only node of a cluster, then gets that id as its
    address. *)
Lemma nmvb_host_is_endpoint_id endpoint node services p :
  ne_hostname node = None → ne_services node = Some services →
  TerseExtNodePorts.kv services = Some p →
  node_kv_address endpoint "default" false node = Some (mkAddress endpoint p).
Proof. intros Hh Hs Hp. unfold node_kv_address, kv_port. simpl. rewrite Hh, Hs. simpl. by rewrite Hp. Qed.

(** Features are those of the last config applied; without a bucket there are none. *)
Lemma feature_check_spec {S T : Type} f (op : action (AgentInner S) T) msg (a : AgentInner S) :
  run_with_bucket_feature_check f op msg a
  = match bucket (ag_latest_config (state a)) with
    | Some b =>
        if bool_decide (Exists (λ pf, bucket_feature pf = Some f) (bucket_features b)) then op a
        else (a, Some (Err (Core.new (Core.FeatureNotAvailable (feature_name f) msg))))
    | None => (a, Some (Err (Core.new Core.NoBucket)))
    end.
Proof.
  unfold run_with_bucket_feature_check, agent_bucket_features.
  destruct (bucket (ag_latest_config (state a))) as [b|]; [|done].
  assert ((f ∈ omap bucket_feature (bucket_features b))
    ↔ Exists (λ pf, bucket_feature pf = Some f) (bucket_features b)) as Hiff
    by (rewrite list_elem_of_omap, list.Exists_exists; done).
  destruct (decide (f ∈ omap bucket_feature (bucket_features b))) as [Hin|Hout].
  - rewrite bool_decide_true by done. case_bool_decide as Hex; [done|]. by destruct Hex; apply Hiff.
  - rewrite bool_decide_false by done. case_bool_decide as Hex; [|done]. by destruct Hout; apply Hiff.
Qed.

(** ** Witnesses: an agent with one endpoint that is not in the new config *)

From S2P Require Import Babysitter Pool.

Definition old_targets : list (string * KvTarget) := [("kvep-z-8091"%string, target_of "z")].

Definition old_world : World (Pools Sitters) :=
  let '(m, s, _) := update_endpoints map_to_list old_targets false (no_endpoints 2) no_pools in
  mkWorld m s (mkRoutingInfo None [] false) [] (mkHttpConfigs sample_auth ∅ ∅ ∅ false ∅ [] None 0).

Lemma old_world_connects : connects old_world (list_to_map old_targets).
Proof.
  pose proof (update_endpoints_manages map_to_list (λ _, reflexivity _) old_targets false
    (no_endpoints 2) no_pools ∅ (no_endpoints_manages 2 ltac:(lia))) as H.
  unfold connects, old_world. destruct (update_endpoints _ _ _ _ _) as [[m' s'] r].
  apply H. apply (bool_decide_unpack _). vm_compute. exact I.
Qed.

Definition old_agent : AgentInner (Pools Sitters) :=
  mkAgent (mkAgentState (Some "travel"%string) false sample_auth parsed_config_default "default"%string)
    (mkManagerState parsed_config_default (version_of parsed_config_default) false) old_world.

Lemma no_gap_in_routing_witness :
  ∃ cfg cc w1 ws, parse_terse_config sample_terse "10.0.0.1" = Ok cfg
  ∧ gen_from_config cfg "default" false None sample_auth = Ok cc
  ∧ put_in_place map_to_list map_to_list cc old_world = w1 :: ws
  ∧ is_Some (Endpoints.Manager.fast_pools (conn_mgr w1) !! "kvep-z-8091"%string)
  ∧ connects (List.last ws w1) (kv_targets cc).
Proof.
  eexists _, _. destruct (no_gap_in_routing (S := Pools Sitters) map_to_list (λ _, reflexivity _)
    map_to_list (λ _, reflexivity _)
    (match (c ← parse_terse_config sample_terse "10.0.0.1";
            gen_from_config c "default" false None sample_auth) with
     | Ok cc => cc
     | _ => mkComponentConfigs ∅ sample_auth None [] (mkRoutingInfo None [] false) ∅ ∅ ∅ false ∅ [] 0
     end) old_world (list_to_map old_targets) "kvep-z-8091" old_world_connects)
    as (w1 & ws & Heq & [_ Hp] & _ & Hc).
  exists w1, ws. split; [vm_compute; reflexivity|]. split; [vm_compute; reflexivity|].
  split; [exact Heq|]. split; [|exact Hc]. apply Hp. vm_compute. by eexists.
Defined.

Lemma new_config_takes_effect_witness :
  ∃ a' endpoint pool,
    apply_terse_config map_to_list map_to_list sample_terse "10.0.0.1" old_agent = (a', Ok tt)
    ∧ std_dispatch_by_key crc32_ieee (P := true) (vb_router (world a')) (str_bytes "key1") 0 = Ok (endpoint, 1)
    ∧ Endpoints.Manager.fast_pools (conn_mgr (world a')) !! endpoint = Some pool
    ∧ serves (w_pools (world a')) pool (mkTarget (mkAddress "10.0.0.2" 11210) false).
Proof.
  destruct (parse_terse_config sample_terse "10.0.0.1") as [cfg| |] eqn:Hcfg;
    [|vm_compute in Hcfg; discriminate..].
  assert (can_update_config cfg (ms_latest_config (cfg_manager old_agent)) = true) as Hnew
    by (vm_compute in Hcfg; injection Hcfg as <-; vm_compute; reflexivity).
  destruct (new_config_takes_effect (S := Pools Sitters) (P := true) map_to_list (λ _, reflexivity _)
    map_to_list (λ _, reflexivity _) crc32_ieee crc32_ieee_u32 sample_terse "10.0.0.1" cfg old_agent
    (list_to_map old_targets) "travel" sample_server_map (str_bytes "key1") 0 1
    (mkNodeExt (Some (sample_ports 11210 8091)) None (Some "10.0.0.2"%string) ∅)
    (mkAddress "10.0.0.2" 11210) old_world_connects Hcfg Hnew eq_refl eq_refl eq_refl)
    as (a' & ep & p & H1 & _ & _ & H2 & H3 & H4).
  - split; reflexivity.
  - split; [discriminate|reflexivity].
  - exact sample_nodes_identified.
  - exact sample_nodes_distinct.
  - split; discriminate.
  - vm_compute. reflexivity.
  - simpl. lia.
  - reflexivity.
  - vm_compute. reflexivity.
  - exists a', ep, p. auto.
Defined.
