(* ===== verification/Durations.v ===== *)
(** * Durations as text ([helpers/durations.rs])

    The HTTP services write durations the way Go prints them: [1h2m3.5s].  Text is a
    list of bytes, a duration its number of nanoseconds.  The parser is the loop of
    the source, one component of the text a round ([parse_component]); the printer
    fills a buffer of 32 bytes from its end, [acc] being the part that is filled.

    Machine arithmetic is checked or wraps around according to the build
    ([Profile]); fractions go through [f64], as in the source. *)

From S2P Require Import Prelude Text.
From Stdlib Require Import SpecFloat.

Definition U64_MAX : Z := 2 ^ 64 - 1.

(** ** Parsing *)

(** The units, in UTF-8: the micro sign and the Greek letter mu are both known. *)
Definition UNIT_MAP (u : list Z) : option Z :=
  if bool_decide (u = str_bytes "ns") then Some 1
  else if bool_decide (u = str_bytes "us") then Some 1000
  else if bool_decide (u = [194; 181; 115]) then Some 1000
  else if bool_decide (u = [206; 188; 115]) then Some 1000
  else if bool_decide (u = str_bytes "ms") then Some 1000000
  else if bool_decide (u = str_bytes "s") then Some 1000000000
  else if bool_decide (u = str_bytes "m") then Some 60000000000
  else if bool_decide (u = str_bytes "h") then Some 3600000000000
  else None.

Definition quote (s : list Z) : list Z := 34 :: s ++ [34].

Definition invalid_duration (orig : list Z) : list Z := str_bytes "invalid duration " ++ quote orig.

Section Parse.
Context {P : Profile}.

Fixpoint leading_int_loop (x : Z) (s : list Z) : outcome (list Z) (Z * list Z) :=
  match s with
  | [] => Ok (x, [])
  | c :: s' =>
      if negb (is_digit c) then Ok (x, s)
      else if U64_MAX / 10 <? x then Err (str_bytes "bad [0-9]*")
      else
        x ← mul_w 64 x 10;
        x ← add_w 64 x (c - 48);
        leading_int_loop x s'
  end.

Definition leading_int (s : list Z) : outcome (list Z) (Z * list Z) := leading_int_loop 0 s.

(** [1.0] and [10.0]. *)
Definition f64_one : spec_float := f64_of_Z 1.
Definition f64_ten : spec_float := f64_of_Z 10.

Fixpoint leading_fraction_loop (x : Z) (scale : spec_float) (overflow : bool) (s : list Z)
    : outcome (list Z) (Z * spec_float * list Z) :=
  match s with
  | [] => Ok (x, scale, [])
  | c :: s' =>
      if negb (is_digit c) then Ok (x, scale, s)
      else if overflow then leading_fraction_loop x scale overflow s'
      else if (U64_MAX - 1) / 10 <? x then leading_fraction_loop x scale true s'
      else
        y ← mul_w 64 x 10;
        y ← add_w 64 y (c - 48);
        leading_fraction_loop y (f64_mul scale f64_ten) overflow s'
  end.

Definition leading_fraction (s : list Z) : outcome (list Z) (Z * spec_float * list Z) :=
  leading_fraction_loop 0 f64_one false s.

(** The text up to the first digit or dot, and from there. *)
Fixpoint split_unit (s : list Z) : list Z * list Z :=
  match s with
  | [] => ([], [])
  | c :: s' =>
      if (c =? 46) || is_digit c then ([], s)
      else let '(u, s') := split_unit s' in (c :: u, s')
  end.

(** The fraction [f / scale] of a unit, which is added to [v]. *)
Definition add_fraction (orig : list Z) (v f : Z) (scale : spec_float) (unit : Z) : outcome (list Z) Z :=
  if 0 <? f then
    let vf := f64_mul (f64_of_Z f) (f64_div (f64_of_Z unit) scale) in
    if SFltb (f64_of_Z U64_MAX) vf then Err (invalid_duration orig)
    else add_w 64 v (f64_as_uint 64 vf)
  else Ok v.

(** The part after the dot, when there is one: the fraction, its scale and whether
    there were digits. *)
Definition optional_fraction (s : list Z) : outcome (list Z) (Z * spec_float * bool * list Z) :=
  match s with
  | [] => Ok (0, f64_one, false, [])
  | c :: s' =>
      if c =? 46 then
        '(f, scale, s2) ← leading_fraction s';
        Ok (f, scale, negb (Nat.eqb (length s') (length s2)), s2)
      else Ok (0, f64_one, false, s)
  end.

(** One round of the loop: the nanoseconds of a number and its unit, and the text
    after them. *)
Definition parse_component (orig s : list Z) : outcome (list Z) (Z * list Z) :=
  if negb (match s with c :: _ => is_digit c || (c =? 46) | [] => false end) then
    Err (invalid_duration orig)
  else
    '(v, s1) ← leading_int s;
    let pre := negb (Nat.eqb (length s) (length s1)) in
    '(f, scale, post, s2) ← optional_fraction s1;
    if negb pre && negb post then Err (invalid_duration orig)
    else
      let '(u, s3) := split_unit s2 in
      match u with
      | [] => Err (str_bytes "missing unit in duration " ++ quote orig)
      | _ =>
          match UNIT_MAP u with
          | None => Err (str_bytes "unknown unit " ++ quote u ++ str_bytes " in duration " ++ quote orig)
          | Some unit =>
              if U64_MAX / unit <? v then Err (invalid_duration orig)
              else
                v ← mul_w 64 v unit;
                v ← add_fraction orig v f scale unit;
                Ok (v, s3)
          end
      end.

(** The loop: every round takes at least a digit or a dot. *)
Fixpoint parse_loop (fuel : nat) (orig : list Z) (d : Z) (s : list Z) : option (outcome (list Z) Z) :=
  match s, fuel with
  | [], _ => Some (Ok d)
  | _, O => None
  | _, S fuel =>
      match parse_component orig s with
      | Ok (v, s) =>
          if d + v <? 2 ^ 64 then parse_loop fuel orig (d + v) s
          else Some (Err (invalid_duration orig))
      | Err e => Some (Err e)
      | Panic => Some Panic
      end
  end.

Definition parse_duration_from_golang_string (s : list Z) : outcome (list Z) Z :=
  let orig := s in
  if starts_with [45] s then Err (str_bytes "invalid negative duration " ++ quote orig)
  else
    let s := if starts_with [43] s then drop 1 s else s in
    if bool_decide (s = [48]) then Ok 0
    else match s with
         | [] => Err (invalid_duration orig)
         | _ => default Panic (parse_loop (length s) orig 0 s)
         end.
End Parse.

(** ** Printing *)

(** [w -= 1; buf[w] = b]: there is room for 32 bytes. *)
Definition push {E} (b : Z) (acc : list Z) : outcome E (list Z) :=
  if blen acc <? 32 then Ok (b :: acc) else Panic.

Fixpoint fmt_frac_loop {E} (prec : nat) (v : Z) (print : bool) (acc : list Z)
    : outcome E (list Z * Z * bool) :=
  match prec with
  | O => Ok (acc, v, print)
  | S prec =>
      let digit := v mod 10 in
      let print := print || negb (digit =? 0) in
      acc ← (if print then push (digit + 48) acc else Ok acc);
      fmt_frac_loop prec (v / 10) print acc
  end.

Definition fmt_frac {E} (acc : list Z) (v : Z) (prec : nat) : outcome E (list Z * Z) :=
  '(acc, v, print) ← fmt_frac_loop prec v false acc;
  acc ← (if (print : bool) then push 46 acc else Ok acc);
  Ok (acc, v).

(** [v] has at most as many decimal digits as rounds are given. *)
Fixpoint fmt_int_loop {E} (rounds : nat) (v : Z) (acc : list Z) : outcome E (list Z) :=
  match rounds with
  | O => Ok acc
  | S rounds =>
      if 0 <? v then
        acc ← push (v mod 10 + 48) acc;
        fmt_int_loop rounds (v / 10) acc
      else Ok acc
  end.

Definition fmt_int {E} (acc : list Z) (v : Z) : outcome E (list Z) :=
  if v =? 0 then push 48 acc else fmt_int_loop (S (Z.to_nat (Z.log2 v))) v acc.

(** Below a second: nanoseconds, microseconds (the micro sign takes two bytes) or
    milliseconds. *)
Definition print_small {E} (u : Z) : outcome E (list Z) :=
  acc ← push 115 [];
  if u =? 0 then push 48 acc
  else
    '(prec, acc) ← (if u <? 1000 then acc ← push 110 acc; Ok (0%nat, acc)
                    else if u <? 1000000 then acc ← push 181 acc; acc ← push 194 acc; Ok (3%nat, acc)
                    else acc ← push 109 acc; Ok (6%nat, acc));
    '(acc, u) ← fmt_frac acc u prec;
    fmt_int acc u.

Definition print_large {E} (u : Z) : outcome E (list Z) :=
  acc ← push 115 [];
  '(acc, u) ← fmt_frac acc u 9;
  acc ← fmt_int acc (u mod 60);
  let u := u / 60 in
  if 0 <? u then
    acc ← push 109 acc;
    acc ← fmt_int acc (u mod 60);
    let u := u / 60 in
    if 0 <? u then
      acc ← push 104 acc;
      fmt_int acc u
    else Ok acc
  else Ok acc.

(** [duration.as_nanos() as u64] keeps the low 64 bits. *)
Definition duration_to_golang_string {E} (nanos : Z) : outcome E (list Z) :=
  let u := cast_u 64 nanos in
  if u <? 1000000000 then print_small u else print_large u.

(** ** The tests of the source *)

Example durations_parse :
  let p := @parse_duration_from_golang_string true in
  p (str_bytes "+5s") = Ok 5000000000 ∧ p (str_bytes ".5s") = Ok 500000000
  ∧ p (str_bytes "10.5s4m") = Ok 250500000000 ∧ p (str_bytes "0.3333333333333333333h") = Ok 1200000000000
  ∧ p (str_bytes "9223372036854775.807us") = Ok 9223372036854775807
  ∧ p (str_bytes "0.830103483285477580700h") = Ok 2988372539827.
Proof. vm_compute. repeat split. Qed.

Example durations_print :
  @duration_to_golang_string unit 18367001000000 = Ok (str_bytes "5h6m7.001s")
  ∧ @duration_to_golang_string unit 480000000001 = Ok (str_bytes "8m0.000000001s")
  ∧ @duration_to_golang_string unit 2200000 = Ok (str_bytes "2.2ms").
Proof. vm_compute. repeat split. Qed.

(** Two numbers the checks miss: the last digit of the whole part, and the sum of both
    parts.  The first is 2^64; it panics or is read as zero. *)
Example durations_overflow :
  @parse_duration_from_golang_string true (str_bytes "18446744073709551616ns") = Panic
  ∧ @parse_duration_from_golang_string false (str_bytes "18446744073709551616ns") = Ok 0
  ∧ @parse_duration_from_golang_string true (str_bytes "18446744073709551.9us") = Panic
  ∧ @parse_duration_from_golang_string false (str_bytes "18446744073709551.9us") = Ok 284.
Proof. vm_compute. repeat split. Qed.

(** A duration of 2^64 nanoseconds, some 584 years, is printed as zero. *)
Example long_duration_prints_zero : @duration_to_golang_string unit (2 ^ 64) = Ok (str_bytes "0s").
Proof. reflexivity. Qed.

(** ** What is printed *)

(** The last [k] decimal digits of [v]. *)
Fixpoint padded (k : nat) (v : Z) : list Z :=
  match k with O => [] | S k => padded k (v / 10) ++ [v mod 10 + 48] end.

Fixpoint frac_text (prec : nat) (v : Z) (print : bool) : list Z :=
  match prec with
  | O => []
  | S prec =>
      let print := print || negb (v mod 10 =? 0) in
      frac_text prec (v / 10) print ++ (if print then [v mod 10 + 48] else [])
  end.

Lemma length_padded k v : length (padded k v) = k.
Proof. revert v. induction k as [|k IH]; intros v; cbn; [done|]. rewrite length_app, IH. cbn. lia. Qed.

Lemma frac_text_print prec v : frac_text prec v true = padded prec v.
Proof. revert v. induction prec as [|prec IH]; intros v; cbn; [done|]. by rewrite IH. Qed.

Lemma div_pow10 v k : 0 <= v → v / 10 / 10 ^ Z.of_nat k = v / 10 ^ Z.of_nat (S k).
Proof. intros Hv. rewrite Nat2Z.inj_succ, Z.pow_succ_r by lia. by rewrite Z.div_div by lia. Qed.

(** The digits without the zeros at the end. *)
Lemma frac_text_spec prec v :
  0 <= v →
  ∃ k, (k ≤ prec)%nat ∧ frac_text prec v false = padded k (v / 10 ^ Z.of_nat (prec - k))
    ∧ v mod 10 ^ Z.of_nat prec = (v / 10 ^ Z.of_nat (prec - k)) mod 10 ^ Z.of_nat k * 10 ^ Z.of_nat (prec - k)
    ∧ (k = 0%nat ∨ (v / 10 ^ Z.of_nat (prec - k)) mod 10 ≠ 0).
Proof.
  revert v. induction prec as [|prec IH]; intros v Hv.
  { exists 0%nat. cbn. rewrite !Z.mod_1_r. auto. }
  cbn [frac_text orb]. destruct (v mod 10 =? 0) eqn:H0; cbn [negb].
  - destruct (IH (v / 10)) as (k & Hk & Ht & Hm & Hz); [by apply Z.div_pos|].
    exists k. rewrite app_nil_r. replace (S prec - k)%nat with (S (prec - k)) by lia.
    rewrite <- div_pow10 by done. split; [lia|]. split; [done|]. split; [|done].
    assert (v = v / 10 * 10) as Hv10 by (pose proof (Z.div_mod v 10); lia).
    rewrite !Nat2Z.inj_succ, !Z.pow_succ_r by lia. rewrite Hv10 at 1.
    rewrite (Z.mul_comm 10), Z.mul_mod_distr_r by (try lia; apply Z.pow_nonzero; lia). lia.
  - exists (S prec). rewrite Nat.sub_diag, Z.div_1_r, Z.mul_1_r, frac_text_print.
    split; [lia|]. split; [done|]. split; [done|]. right. lia.
Qed.

Definition all_digits (l : list Z) : Prop := Forall (λ b, is_digit b = true) l.

Lemma digit_ok v : is_digit (v mod 10 + 48) = true.
Proof. unfold is_digit. pose proof (Z.mod_pos_bound v 10). lia. Qed.

Lemma padded_digits k v : all_digits (padded k v).
Proof.
  revert v. induction k as [|k IH]; intros v; cbn; [constructor|].
  apply Forall_app. split; [apply IH|]. constructor; [apply digit_ok|constructor].
Qed.

Lemma padded_value k v : 0 <= v → digits_value (padded k v) 0 = v mod 10 ^ Z.of_nat k.
Proof.
  revert v. induction k as [|k IH]; intros v Hv; cbn [padded]; [by rewrite Z.mod_1_r|].
  rewrite digits_value_app, IH by (by apply Z.div_pos). unfold digits_value. cbn [foldl].
  rewrite Nat2Z.inj_succ, Z.pow_succ_r, Z.rem_mul_r by (try lia; apply Z.pow_nonzero; lia). lia.
Qed.

Lemma length_digits fuel n d : 0 <= n < 10 ^ Z.of_nat d → (0 < d)%nat → (length (digits fuel n) ≤ d)%nat.
Proof.
  revert n d. induction fuel as [|fuel IH]; intros n d Hn Hd; cbn [digits]; [cbn; lia|].
  destruct (n <? 10) eqn:H10; [cbn; lia|]. rewrite length_app. cbn [length].
  destruct d as [|[|d]]; [lia|change (10 ^ Z.of_nat 1) with 10 in Hn; lia|].
  rewrite Nat2Z.inj_succ, Z.pow_succ_r in Hn by lia.
  assert (length (digits fuel (n / 10)) ≤ S d)%nat; [|lia].
  apply IH; [|lia]. split; [apply Z.div_pos; lia|apply Z.div_lt_upper_bound; lia].
Qed.

Section Printing.
Context {E : Type}.

Lemma push_ok b acc : blen acc < 32 → push (E:=E) b acc = Ok (b :: acc).
Proof. intros H. unfold push. by test_true (blen acc <? 32). Qed.

Lemma fmt_frac_loop_text prec v print acc :
  0 <= v → blen acc + Z.of_nat prec <= 32 →
  ∃ print', fmt_frac_loop (E:=E) prec v print acc
    = Ok (frac_text prec v print ++ acc, v / 10 ^ Z.of_nat prec, print')
    ∧ (print' = true ↔ print = true ∨ frac_text prec v print ≠ []).
Proof.
  revert v print acc. induction prec as [|prec IH]; intros v print acc Hv Hacc; cbn [fmt_frac_loop frac_text].
  { exists print. rewrite Z.div_1_r. split; [done|]. tauto. }
  set (print1 := print || negb (v mod 10 =? 0)).
  assert ((if print1 then push (E:=E) (v mod 10 + 48) acc else Ok acc)
    = Ok ((if print1 then [v mod 10 + 48] else []) ++ acc)) as ->.
  { destruct print1; [|done]. apply push_ok. lia. }
  cbn [mbind outcome_bind].
  destruct (IH (v / 10) print1 ((if print1 then [v mod 10 + 48] else []) ++ acc)) as (print' & -> & Hp);
    [by apply Z.div_pos|destruct print1; rewrite ?blen_app, ?blen_cons, ?blen_nil; lia|].
  exists print'. rewrite app_assoc, div_pow10 by done. split; [done|]. rewrite Hp.
  destruct print1 eqn:H1.
  - split; [intros _|by left]. right. intros [_ ?]%app_nil. done.
  - unfold print1 in H1. apply orb_false_iff in H1 as [-> _]. by rewrite app_nil_r.
Qed.

(** The fraction with its dot, when it is not zero. *)
Definition dot_text (prec : nat) (v : Z) : list Z :=
  match frac_text prec v false with [] => [] | f => 46 :: f end.

Lemma fmt_frac_text prec v acc :
  0 <= v → blen acc + Z.of_nat prec < 32 →
  fmt_frac (E:=E) acc v prec = Ok (dot_text prec v ++ acc, v / 10 ^ Z.of_nat prec).
Proof.
  intros Hv Hacc. unfold fmt_frac.
  destruct (fmt_frac_loop_text prec v false acc) as (print & -> & Hp); [done|lia|].
  cbn [mbind outcome_bind]. unfold dot_text.
  assert (length (frac_text prec v false) ≤ prec)%nat as Hlen.
  { destruct (frac_text_spec prec v Hv) as (k & Hk & -> & _). by rewrite length_padded. }
  destruct (frac_text prec v false) as [|c f] eqn:Hf.
  - destruct print; [|done]. destruct (proj1 Hp eq_refl) as [?|?]; done.
  - destruct print; [|assert (false = true) by (apply Hp; by right); done].
    rewrite push_ok; [done|]. unfold blen in *. rewrite length_app in *. cbn in *. lia.
Qed.

Lemma fmt_int_loop_text fuel v d acc :
  0 < v < 10 ^ Z.of_nat fuel → v < 10 ^ Z.of_nat d → blen acc + Z.of_nat d <= 32 →
  fmt_int_loop (E:=E) fuel v acc = Ok (digits fuel v ++ acc).
Proof.
  revert v d acc. induction fuel as [|fuel IH]; intros v d acc Hv Hd Hacc.
  { change (10 ^ Z.of_nat 0) with 1 in Hv. lia. }
  assert (0 < d)%nat as Hd0 by (destruct d; [change (10 ^ Z.of_nat 0) with 1 in Hd; lia|lia]).
  cbn [fmt_int_loop digits]. test_true (0 <? v). rewrite push_ok by lia. cbn [mbind outcome_bind].
  destruct (v <? 10) eqn:H10.
  - rewrite Z.mod_small, Z.div_small by lia. rewrite Z.add_comm. by destruct fuel.
  - destruct d as [|d]; [lia|].
    rewrite Nat2Z.inj_succ, Z.pow_succ_r in Hv, Hd by lia.
    rewrite (IH (v / 10) d).
    + rewrite <- app_assoc. cbn [app]. by rewrite Z.add_comm.
    + split; [apply Z.div_str_pos; lia|apply Z.div_lt_upper_bound; lia].
    + apply Z.div_lt_upper_bound; lia.
    + rewrite blen_cons. lia.
Qed.

Lemma log2_pow10 v : 0 < v → v < 10 ^ Z.of_nat (S (Z.to_nat (Z.log2 v))).
Proof.
  intros Hv. eapply Z.lt_le_trans; [apply Z.log2_spec; lia|].
  rewrite Nat2Z.inj_succ, Z2Nat.id by apply Z.log2_nonneg. apply Z.pow_le_mono_l. lia.
Qed.

Lemma fmt_int_text v d acc :
  0 <= v < 10 ^ Z.of_nat d → (0 < d)%nat → blen acc + Z.of_nat d <= 32 →
  fmt_int (E:=E) acc v = Ok (decimal v ++ acc).
Proof.
  intros Hv Hd Hacc. unfold fmt_int, decimal. destruct (v =? 0) eqn:H0.
  - apply Z.eqb_eq in H0 as ->. rewrite push_ok by lia. done.
  - apply (fmt_int_loop_text _ v d); [|lia|done]. split; [lia|]. apply log2_pow10. lia.
Qed.

Lemma blen_decimal v d : 0 <= v < 10 ^ Z.of_nat d → (0 < d)%nat → 0 < blen (decimal v) <= Z.of_nat d.
Proof.
  intros Hv Hd. unfold blen, decimal. pose proof (length_digits (S (Z.to_nat (Z.log2 v))) v d Hv Hd).
  pose proof (digits_nonempty (Z.to_nat (Z.log2 v)) v).
  destruct (digits (S (Z.to_nat (Z.log2 v))) v); [done|cbn in *; lia].
Qed.

Lemma blen_dot_text prec v : 0 <= v → 0 <= blen (dot_text prec v) <= Z.of_nat prec + 1.
Proof.
  intros Hv. unfold dot_text. destruct (frac_text_spec prec v Hv) as (k & Hk & -> & _).
  assert (length (padded k (v / 10 ^ Z.of_nat (prec - k))) = k) as Hl by apply length_padded.
  destruct (padded k _) as [|c f]; unfold blen in *; cbn in *; lia.
Qed.

(** What is printed: three units below a second, else hours, minutes and seconds. *)
Definition component (v : Z) (frac unit : list Z) : list Z := decimal v ++ frac ++ unit.

Definition duration_text (u : Z) : list Z :=
  if u =? 0 then str_bytes "0s"
  else if u <? 1000 then component u [] (str_bytes "ns")
  else if u <? 1000000 then component (u / 1000) (dot_text 3 u) [194; 181; 115]
  else if u <? 1000000000 then component (u / 1000000) (dot_text 6 u) (str_bytes "ms")
  else
    let seconds := u / 1000000000 in
    let last := component (seconds mod 60) (dot_text 9 u) (str_bytes "s") in
    if seconds <? 60 then last
    else
      let minutes := component (seconds / 60 mod 60) [] (str_bytes "m") in
      if seconds / 60 <? 60 then minutes ++ last
      else component (seconds / 60 / 60) [] (str_bytes "h") ++ minutes ++ last.

Lemma print_small_text u : 0 <= u < 1000000000 → print_small (E:=E) u = Ok (duration_text u).
Proof.
  intros Hu. unfold print_small, duration_text. rewrite push_ok by (rewrite blen_nil; lia).
  cbn [mbind outcome_bind].
  destruct (u =? 0) eqn:H0; [by rewrite push_ok by done|].
  destruct (u <? 1000) eqn:H3; [|destruct (u <? 1000000) eqn:H6].
  - rewrite push_ok by done. cbn [mbind outcome_bind]. rewrite fmt_frac_text by (done || lia).
    cbn [mbind outcome_bind dot_text frac_text app]. rewrite Z.div_1_r.
    rewrite (fmt_int_text u 3) by (done || lia). done.
  - rewrite !push_ok by done. cbn [mbind outcome_bind]. rewrite push_ok by done. cbn [mbind outcome_bind].
    rewrite fmt_frac_text by (done || lia). cbn [mbind outcome_bind].
    pose proof (blen_dot_text 3 u). change (10 ^ Z.of_nat 3) with 1000.
    rewrite (fmt_int_text (u / 1000) 3);
      [done|split; [apply Z.div_pos; lia|apply Z.div_lt_upper_bound; lia]|lia|].
    rewrite blen_app. change (blen [194; 181; 115]) with 3. lia.
  - test_true (u <? 1000000000). rewrite push_ok by done. cbn [mbind outcome_bind].
    rewrite fmt_frac_text by (done || lia). cbn [mbind outcome_bind].
    pose proof (blen_dot_text 6 u). change (10 ^ Z.of_nat 6) with 1000000.
    rewrite (fmt_int_text (u / 1000000) 3);
      [done|split; [apply Z.div_pos; lia|apply Z.div_lt_upper_bound; lia]|lia|].
    rewrite blen_app. change (blen [109; 115]) with 2. lia.
Qed.

Lemma below_60 x : 0 <= x → 0 <= x mod 60 < 10 ^ Z.of_nat 2.
Proof. intros _. pose proof (Z.mod_pos_bound x 60). change (10 ^ Z.of_nat 2) with 100. lia. Qed.

Lemma print_large_text u : 1000000000 <= u < 2 ^ 64 → print_large (E:=E) u = Ok (duration_text u).
Proof.
  intros Hu. unfold print_large, duration_text. rewrite push_ok by (rewrite blen_nil; lia).
  cbn [mbind outcome_bind]. rewrite fmt_frac_text by (done || lia). cbn [mbind outcome_bind].
  test_false (u =? 0). test_false (u <? 1000). test_false (u <? 1000000). test_false (u <? 1000000000).
  change (10 ^ Z.of_nat 9) with 1000000000. set (s := u / 1000000000).
  assert (0 <= s < 18446744074) as Hs
    by (split; [apply Z.div_pos; lia|apply Z.div_lt_upper_bound; lia]).
  pose proof (blen_dot_text 9 u ltac:(lia)) as Hdot.
  pose proof (blen_decimal (s mod 60) 2 (below_60 s ltac:(lia)) ltac:(lia)) as Hsec.
  rewrite (fmt_int_text (s mod 60) 2);
    [|apply below_60; lia|lia|rewrite blen_app; change (blen [115]) with 1; lia].
  cbn [mbind outcome_bind]. cbv zeta.
  assert (0 <= s / 60 < 307445735) as Hm by (split; [apply Z.div_pos; lia|apply Z.div_lt_upper_bound; lia]).
  assert (blen (decimal (s mod 60) ++ dot_text 9 u ++ [115]) <= 13) as Hlast
    by (rewrite !blen_app; change (blen [115]) with 1; lia).
  destruct (s <? 60) eqn:H60.
  { rewrite Z.div_small by lia. done. }
  assert (0 < s / 60) by (apply Z.div_str_pos; lia). test_true (0 <? s / 60).
  rewrite push_ok by lia. cbn [mbind outcome_bind].
  rewrite (fmt_int_text (s / 60 mod 60) 2); [|apply below_60; lia|lia|rewrite blen_cons; lia].
  cbn [mbind outcome_bind]. pose proof (blen_decimal (s / 60 mod 60) 2 (below_60 (s / 60) ltac:(lia)) ltac:(lia)).
  destruct (s / 60 <? 60) eqn:H3600.
  { rewrite (Z.div_small (s / 60)) by lia. unfold component. cbn [app]. by rewrite <- app_assoc. }
  assert (0 < s / 60 / 60) by (apply Z.div_str_pos; lia). test_true (0 <? s / 60 / 60).
  rewrite push_ok by (rewrite blen_app, blen_cons; lia). cbn [mbind outcome_bind].
  rewrite (fmt_int_text (s / 60 / 60) 7); [|..|lia|rewrite blen_cons, blen_app, blen_cons; lia].
  - unfold component. cbn [app]. by rewrite <- !app_assoc.
  - change (10 ^ Z.of_nat 7) with 10000000. split; [lia|apply Z.div_lt_upper_bound; lia].
Qed.

(** The buffer is large enough for every duration. *)
Lemma duration_prints nanos :
  0 <= nanos → duration_to_golang_string (E:=E) nanos = Ok (duration_text (nanos mod 2 ^ 64)).
Proof.
  intros Hn. unfold duration_to_golang_string, cast_u. pose proof (Z.mod_pos_bound nanos (2 ^ 64)).
  destruct (_ <? 1000000000) eqn:H9; [apply print_small_text; lia|apply print_large_text; lia].
Qed.
End Printing.

(** ** Parsing what is printed *)

Section RoundTrip.
Context {P : Profile}.

Definition no_digit_first (l : list Z) : Prop := match l with [] => True | c :: _ => is_digit c = false end.

Lemma add_w_ok {E} a b : a + b < 2 ^ 64 → add_w (E:=E) 64 a b = Ok (a + b).
Proof. intros H. unfold add_w. by test_true (a + b <? 2 ^ 64). Qed.

Lemma mul_w_ok {E} a b : a * b < 2 ^ 64 → mul_w (E:=E) 64 a b = Ok (a * b).
Proof. intros H. unfold mul_w. by test_true (a * b <? 2 ^ 64). Qed.

Lemma leading_int_loop_ok ds x rest :
  all_digits ds → 0 <= x → digits_value ds x < 2 ^ 64 → no_digit_first rest →
  leading_int_loop x (ds ++ rest) = Ok (digits_value ds x, rest).
Proof.
  intros Hds. revert x. induction Hds as [|c ds Hc Hds IH]; intros x Hx Hv Hrest.
  { destruct rest as [|c rest]; [done|]. cbn in Hrest |- *. by rewrite Hrest. }
  cbn [app leading_int_loop]. rewrite Hc. cbn [negb].
  unfold digits_value in Hv |- *. cbn [foldl] in Hv |- *. fold (digits_value ds (x * 10 + (c - 48))) in Hv |- *.
  unfold is_digit in Hc. pose proof (digits_value_ge ds (x * 10 + (c - 48)) Hds ltac:(lia)) as Hge.
  unfold U64_MAX. assert ((2 ^ 64 - 1) / 10 <? x = false) as ->.
  { apply Z.ltb_ge. apply Z.div_le_lower_bound; lia. }
  rewrite mul_w_ok by lia. cbn [mbind outcome_bind]. rewrite add_w_ok by lia. cbn [mbind outcome_bind].
  apply IH; [lia|done|done].
Qed.

Fixpoint scale_of (k : nat) (scale : spec_float) : spec_float :=
  match k with O => scale | S k => scale_of k (f64_mul scale f64_ten) end.

Lemma leading_fraction_loop_ok ds x scale rest :
  all_digits ds → 0 <= x → digits_value ds x < 2 ^ 60 → no_digit_first rest →
  leading_fraction_loop x scale false (ds ++ rest) = Ok (digits_value ds x, scale_of (length ds) scale, rest).
Proof.
  intros Hds. revert x scale. induction Hds as [|c ds Hc Hds IH]; intros x scale Hx Hv Hrest.
  { destruct rest as [|c rest]; [done|]. cbn in Hrest |- *. by rewrite Hrest. }
  cbn [app leading_fraction_loop length scale_of]. rewrite Hc. cbn [negb].
  unfold digits_value in Hv |- *. cbn [foldl] in Hv |- *. fold (digits_value ds (x * 10 + (c - 48))) in Hv |- *.
  unfold is_digit in Hc. pose proof (digits_value_ge ds (x * 10 + (c - 48)) Hds ltac:(lia)) as Hge.
  unfold U64_MAX. assert ((2 ^ 64 - 1 - 1) / 10 <? x = false) as ->.
  { apply Z.ltb_ge. apply Z.div_le_lower_bound; lia. }
  rewrite mul_w_ok by lia. cbn [mbind outcome_bind]. rewrite add_w_ok by lia. cbn [mbind outcome_bind].
  apply IH; [lia|done|done].
Qed.

(** A fraction of [k] digits of a unit of [q * 10 ^ k] is computed exactly. *)
Definition exact_unit (unit : Z) (k : nat) : Prop :=
  ∃ q, 0 < q ∧ unit = q * 10 ^ Z.of_nat k
    ∧ f64_div (f64_of_Z unit) (scale_of k f64_one) = f64_of_Z q.

Lemma exact_units unit prec k :
  (unit, prec) ∈ [(1000, 3%nat); (1000000, 6%nat); (1000000000, 9%nat)] → (k ≤ prec)%nat → exact_unit unit k.
Proof.
  intros Hu Hk. exists (10 ^ Z.of_nat (prec - k)).
  split; [apply Z.pow_pos_nonneg; lia|].
  apply elem_of_cons in Hu as [[= -> ->]|Hu];
    [|apply elem_of_cons in Hu as [[= -> ->]|Hu];
      [|apply elem_of_cons in Hu as [[= -> ->]|Hu]; [|by apply elem_of_nil in Hu]]];
    do 10 (destruct k as [|k]; [first [lia | split; vm_compute; reflexivity]|]); lia.
Qed.

Lemma add_fraction_ok orig v f unit k :
  exact_unit unit k → 0 <= f → f * unit < 2 ^ 53 * 10 ^ Z.of_nat k → 0 <= v →
  v + f * unit / 10 ^ Z.of_nat k < 2 ^ 64 →
  add_fraction orig v f (scale_of k f64_one) unit = Ok (v + f * unit / 10 ^ Z.of_nat k).
Proof.
  intros (q & Hq & -> & Hdiv) Hf Hfu Hv Hsum. assert (0 < 10 ^ Z.of_nat k) as H10 by (apply Z.pow_pos_nonneg; lia).
  assert (f * (q * 10 ^ Z.of_nat k) / 10 ^ Z.of_nat k = f * q) as Hfq
    by (rewrite Z.mul_assoc, Z.div_mul; lia).
  rewrite Hfq in Hsum |- *. unfold add_fraction. destruct (0 <? f) eqn:H0.
  - rewrite Hdiv. unfold U64_MAX. assert (f * q < 2 ^ 53) by nia.
    rewrite f64_mul_below_max, f64_mul_as_uint by lia. rewrite add_w_ok by nia. done.
  - assert (f = 0) as -> by lia. f_equal. lia.
Qed.

(** The units as they are printed. *)
Definition printed_unit (u : list Z) (unit : Z) : Prop :=
  (u, unit) ∈ [(str_bytes "ns", 1); ([194; 181; 115], 1000); (str_bytes "ms", 1000000);
    (str_bytes "s", 1000000000); (str_bytes "m", 60000000000); (str_bytes "h", 3600000000000)].

(** The next component begins with a digit. *)
Definition digit_first (l : list Z) : Prop := match l with [] => True | c :: _ => is_digit c = true end.

Lemma split_unit_digits l : digit_first l → split_unit l = ([], l).
Proof. destruct l as [|c l]; [done|]. cbn. intros ->. by rewrite orb_true_r. Qed.

Lemma printed_unit_facts u unit rest :
  printed_unit u unit → digit_first rest →
  UNIT_MAP u = Some unit ∧ split_unit (u ++ rest) = (u, rest) ∧ no_digit_first (u ++ rest)
  ∧ (∃ c u', u = c :: u' ∧ c ≠ 46) ∧ 0 < unit.
Proof.
  intros Hu Hr. unfold printed_unit in Hu.
  repeat (apply elem_of_cons in Hu as [[= -> ->]|Hu];
    [repeat split; try done; [|by eexists _, _];
     repeat match goal with |- context [str_bytes ?s] => let x := eval cbv in (str_bytes s) in change (str_bytes s) with x end;
     cbn [split_unit app]; cbn [Z.eqb Pos.eqb is_digit andb orb Z.leb Z.compare Pos.compare Pos.compare_cont];
     by rewrite (split_unit_digits rest Hr)|]).
  by apply elem_of_nil in Hu.
Qed.

Lemma decimal_value a : 0 <= a → digits_value (decimal a) 0 = a.
Proof.
  intros Ha. destruct (decide (a = 0)) as [->|]; [done|].
  apply digits_value_digits. split; [done|]. apply log2_pow10. lia.
Qed.

Lemma decimal_cons a : 0 <= a → ∃ c l, decimal a = c :: l ∧ is_digit c = true.
Proof.
  intros Ha. pose proof (decimal_digits a Ha) as Hd. unfold decimal in *.
  pose proof (digits_nonempty (Z.to_nat (Z.log2 a)) a).
  destruct (digits (S (Z.to_nat (Z.log2 a))) a) as [|c l]; [done|].
  apply list.Forall_cons in Hd as [Hc _]. eauto.
Qed.

Lemma leading_int_decimal a rest :
  0 <= a < 2 ^ 64 → no_digit_first rest → leading_int (decimal a ++ rest) = Ok (a, rest).
Proof.
  intros Ha Hr. unfold leading_int. rewrite leading_int_loop_ok; rewrite ?decimal_value; try done; try lia.
  apply decimal_digits. lia.
Qed.

(** A component without a fraction. *)
Lemma parse_whole orig a u unit rest :
  0 <= a → printed_unit u unit → a * unit < 2 ^ 64 → digit_first rest →
  parse_component orig (component a [] u ++ rest) = Ok (a * unit, rest).
Proof.
  intros Ha Hu Hau Hr. destruct (printed_unit_facts u unit rest Hu Hr) as (Hmap & Hsplit & Hnd & (c & u' & Hcu & Hc) & Hpos).
  unfold component. cbn [app]. rewrite <- app_assoc. unfold parse_component.
  destruct (decimal_cons a Ha) as (d & l & Hd & Hdd). rewrite Hd. cbn [app]. rewrite Hdd. cbn [orb negb].
  change (d :: l ++ u ++ rest) with ((d :: l) ++ u ++ rest). rewrite <- Hd.
  rewrite leading_int_decimal by (done || nia). cbn [mbind outcome_bind].
  assert (optional_fraction (u ++ rest) = Ok (0, f64_one, false, u ++ rest)) as ->.
  { rewrite Hcu. cbn [app optional_fraction]. by test_false (c =? 46). }
  cbn [mbind outcome_bind]. 
  assert (Nat.eqb (length (decimal a ++ u ++ rest)) (length (u ++ rest)) = false) as ->.
  { apply Nat.eqb_neq. rewrite Hd, length_app. cbn. lia. }
  cbn [negb andb]. rewrite Hsplit, Hcu, <- Hcu, Hmap.
  unfold U64_MAX. assert ((2 ^ 64 - 1) / unit <? a = false) as ->
    by (apply Z.ltb_ge, Z.div_le_lower_bound; lia).
  rewrite mul_w_ok by nia. cbn [mbind outcome_bind]. unfold add_fraction. cbn. done.
Qed.

(** A component with a fraction of [prec] places, of which the zeros at the end are
    not printed. *)
Lemma parse_fraction orig v prec u unit rest :
  0 <= v → printed_unit u unit → (unit, prec) ∈ [(1000, 3%nat); (1000000, 6%nat); (1000000000, 9%nat)] →
  v < 2 ^ 64 → digit_first rest →
  ∀ a, 0 <= a → a * unit + v mod unit < 2 ^ 64 →
  parse_component orig (component a (dot_text prec v) u ++ rest) = Ok (a * unit + v mod unit, rest).
Proof.
  intros Hv Hu Hup Hv64 Hr a Ha Hsum.
  assert (unit = 10 ^ Z.of_nat prec ∧ (prec ≤ 9)%nat) as [Hunit Hprec].
  { apply elem_of_cons in Hup as [[= -> ->]|Hup];
      [|apply elem_of_cons in Hup as [[= -> ->]|Hup];
        [|apply elem_of_cons in Hup as [[= -> ->]|Hup]; [|by apply elem_of_nil in Hup]]]; split; done || lia. }
  assert (0 < unit) as Hupos by (rewrite Hunit; apply Z.pow_pos_nonneg; lia).
  pose proof (Z.mod_pos_bound v unit Hupos) as Hmod.
  destruct (frac_text_spec prec v Hv) as (k & Hk & Ht & Hm & Hz). unfold dot_text. rewrite Ht.
  destruct k as [|k].
  { cbn [padded]. change (10 ^ Z.of_nat 0) with 1 in Hm. rewrite Z.mod_1_r in Hm.
    rewrite <- Hunit in Hm. assert (v mod unit = 0) as Hm0 by lia. rewrite Hm0 in Hsum |- *.
    rewrite Z.add_0_r in Hsum |- *. by apply parse_whole. }
  set (f := v / 10 ^ Z.of_nat (prec - S k)) in *.
  assert (0 <= f) as Hf by (apply Z.div_pos; [done|apply Z.pow_pos_nonneg; lia]).
  destruct (printed_unit_facts u unit rest Hu Hr) as (Hmap & Hsplit & Hnd & (c & u' & Hcu & Hc) & _).
  assert (∃ h t, padded (S k) f = h :: t) as (h & t & Hht).
  { pose proof (length_padded (S k) f). destruct (padded (S k) f); [done|eauto]. }
  assert (component a (match padded (S k) f with [] => [] | f0 => 46 :: f0 end) u ++ rest
    = decimal a ++ 46 :: padded (S k) f ++ u ++ rest) as ->.
  { unfold component. rewrite Hht. cbn [app]. rewrite <- !app_assoc. cbn [app]. by rewrite <- app_assoc. }
  unfold parse_component. destruct (decimal_cons a Ha) as (d & l & Hd & Hdd). rewrite Hd. cbn [app].
  rewrite Hdd. cbn [orb negb].
  change (d :: l ++ 46 :: padded (S k) f ++ u ++ rest) with ((d :: l) ++ 46 :: padded (S k) f ++ u ++ rest).
  rewrite <- Hd. rewrite leading_int_decimal by (done || nia). cbn [mbind outcome_bind].
  assert (0 < 10 ^ Z.of_nat (S k)) as Hk10 by (apply Z.pow_pos_nonneg; lia).
  pose proof (Z.mod_pos_bound f (10 ^ Z.of_nat (S k)) Hk10) as Hfm.
  assert (10 ^ Z.of_nat (S k) <= 10 ^ 9) as Hk9 by (apply Z.pow_le_mono_r; lia).
  assert (optional_fraction (46 :: padded (S k) f ++ u ++ rest)
    = Ok (f mod 10 ^ Z.of_nat (S k), scale_of (S k) f64_one, true, u ++ rest)) as ->.
  { unfold optional_fraction. cbn [Z.eqb Pos.eqb]. unfold leading_fraction.
    rewrite leading_fraction_loop_ok; rewrite ?padded_value; try done; [|apply padded_digits|lia].
    cbn [mbind outcome_bind]. rewrite length_padded. do 3 f_equal.
    apply negb_true_iff, Nat.eqb_neq. rewrite length_app, length_padded. lia. }
  cbn [mbind outcome_bind].
  assert (Nat.eqb (length (decimal a ++ 46 :: padded (S k) f ++ u ++ rest))
    (length (46 :: padded (S k) f ++ u ++ rest)) = false) as ->.
  { apply Nat.eqb_neq. rewrite Hd, length_app. cbn. lia. }
  cbn [negb andb]. rewrite Hsplit, Hcu, <- Hcu, Hmap.
  unfold U64_MAX. assert ((2 ^ 64 - 1) / unit <? a = false) as ->
    by (apply Z.ltb_ge, Z.div_le_lower_bound; lia).
  rewrite mul_w_ok by nia. cbn [mbind outcome_bind].
  assert (unit = 10 ^ Z.of_nat (prec - S k) * 10 ^ Z.of_nat (S k)) as Hsplit10.
  { rewrite Hunit, <- Z.pow_add_r by lia. f_equal. lia. }
  assert (f mod 10 ^ Z.of_nat (S k) * unit / 10 ^ Z.of_nat (S k) = v mod unit) as Hfrac.
  { rewrite Hsplit10 at 1. rewrite Z.mul_assoc, Z.div_mul by lia. rewrite Hunit, Hm. done. }
  assert (unit <= 10 ^ 9) by (rewrite Hunit; apply Z.pow_le_mono_r; lia).
  rewrite add_fraction_ok; rewrite ?Hfrac; [done|exact (exact_units unit prec (S k) Hup Hk)|lia|nia|nia|lia].
Qed.

Lemma parse_loop_step orig fuel d text rest v :
  parse_component orig (text ++ rest) = Ok (v, rest) → text ≠ [] → d + v < 2 ^ 64 →
  parse_loop (S fuel) orig d (text ++ rest) = parse_loop fuel orig (d + v) rest.
Proof.
  intros Hp Ht Hd. destruct text as [|c text]; [done|]. cbn [app parse_loop] in Hp |- *. rewrite Hp.
  by test_true (d + v <? 2 ^ 64).
Qed.

Lemma component_cons a frac u : 0 <= a → ∃ c l, component a frac u = c :: l ∧ is_digit c = true.
Proof. intros Ha. destruct (decimal_cons a Ha) as (c & l & Hc & Hd). unfold component. rewrite Hc. by exists c, (l ++ frac ++ u). Qed.

Lemma component_not_nil a frac u : 0 <= a → component a frac u ≠ [].
Proof. intros Ha. by destruct (component_cons a frac u Ha) as (c & l & -> & _). Qed.

Lemma component_digit_first a frac u rest : 0 <= a → digit_first (component a frac u ++ rest).
Proof. intros Ha. by destruct (component_cons a frac u Ha) as (c & l & -> & Hd). Qed.

(** What a text of components is read as, with or without a sign. *)
Lemma parse_text s : digit_first s → (2 ≤ length s)%nat →
  parse_duration_from_golang_string s = default Panic (parse_loop (length s) s 0 s).
Proof.
  intros Hd Hl. unfold parse_duration_from_golang_string.
  destruct s as [|c [|c' s]]; [cbn in Hl; lia..|]. cbn in Hd. unfold is_digit in Hd.
  assert (starts_with [45] (c :: c' :: s) = false ∧ starts_with [43] (c :: c' :: s) = false) as [-> ->].
  { unfold starts_with. cbn [length take]. split; apply bool_decide_eq_false_2; intros [= ->]; done. }
  cbv zeta iota. by rewrite bool_decide_eq_false_2 by done.
Qed.

Lemma parse_one a frac u v :
  0 <= a → u ≠ [] →
  parse_component (component a frac u) (component a frac u ++ []) = Ok (v, []) → v < 2 ^ 64 →
  parse_duration_from_golang_string (component a frac u) = Ok v.
Proof.
  intros Ha Hu Hp Hv.
  assert (2 ≤ length (component a frac u))%nat as Hl.
  { destruct (decimal_cons a Ha) as (c & l & Hc & _). unfold component. rewrite Hc, !length_app. cbn.
    destruct u; [done|]. cbn. lia. }
  rewrite parse_text; [|by rewrite <- (app_nil_r (component _ _ _)); apply component_digit_first|done].
  set (s := component a frac u) in *. destruct (length s) as [|fuel] eqn:Hf; [lia|].
  replace (parse_loop (S fuel) s 0 s) with (parse_loop (S fuel) s 0 (s ++ [])) by (by rewrite app_nil_r).
  rewrite (parse_loop_step s fuel 0 s [] v Hp); [|by apply component_not_nil|lia]. by destruct fuel.
Qed.

(** *** From a second on: two or three components *)

Lemma below_second u s :
  s = u / 1000000000 → 0 <= u < 2 ^ 64 →
  0 <= s < 18446744074 ∧ u = s * 1000000000 + u mod 1000000000 ∧ 0 <= u mod 1000000000 < 1000000000
  ∧ 0 <= s mod 60 < 60 ∧ s = 60 * (s / 60) + s mod 60 ∧ 0 <= s / 60
  ∧ 0 <= s / 60 mod 60 < 60 ∧ s / 60 = 60 * (s / 60 / 60) + s / 60 mod 60 ∧ 0 <= s / 60 / 60.
Proof.
  intros Hs Hu.
  assert (0 <= s < 18446744074) by (subst s; split; [apply Z.div_pos; lia|apply Z.div_lt_upper_bound; lia]).
  pose proof (Z.div_mod u 1000000000 ltac:(lia)). pose proof (Z.mod_pos_bound u 1000000000 ltac:(lia)).
  pose proof (Z.mod_pos_bound s 60 ltac:(lia)). pose proof (Z.mod_pos_bound (s / 60) 60 ltac:(lia)).
  pose proof (Z.div_mod s 60 ltac:(lia)). pose proof (Z.div_mod (s / 60) 60 ltac:(lia)).
  assert (0 <= s / 60) by (apply Z.div_pos; lia). assert (0 <= s / 60 / 60) by (apply Z.div_pos; lia). lia.
Qed.

Lemma parse_seconds u orig :
  0 <= u < 2 ^ 64 →
  parse_component orig (component (u / 1000000000 mod 60) (dot_text 9 u) (str_bytes "s") ++ [])
  = Ok (u / 1000000000 mod 60 * 1000000000 + u mod 1000000000, []).
Proof.
  intros Hu. pose proof (below_second u _ eq_refl Hu).
  apply (parse_fraction _ u 9 _ 1000000000);
    [lia|by do 3 right; left|by do 2 right; left|lia|done|lia|lia].
Qed.

Lemma not_nil_length {A} (l : list A) : l ≠ [] → (1 ≤ length l)%nat.
Proof. destruct l; cbn; [done|lia]. Qed.

Lemma parse_two t1 t2 v1 v2 :
  (∀ orig, parse_component orig (t1 ++ t2 ++ []) = Ok (v1, t2 ++ [])) →
  (∀ orig, parse_component orig (t2 ++ []) = Ok (v2, [])) →
  t1 ≠ [] → t2 ≠ [] → digit_first (t1 ++ t2) → 0 <= v2 → v1 + v2 < 2 ^ 64 →
  parse_duration_from_golang_string (t1 ++ t2) = Ok (v1 + v2).
Proof.
  intros H1 H2 Hn1 Hn2 Hd Hv Hsum.
  pose proof (not_nil_length t1 Hn1). pose proof (not_nil_length t2 Hn2).
  rewrite parse_text by (done || (rewrite length_app; lia)).
  set (text := t1 ++ t2) at 2. rewrite length_app.
  replace (length t1 + length t2)%nat with (S (S (length t1 + length t2 - 2))) by lia.
  rewrite <- (app_nil_r t2) at 2.
  rewrite (parse_loop_step text _ 0 t1 _ _ (H1 text)) by (done || lia).
  rewrite (parse_loop_step text _ _ t2 _ _ (H2 text)) by (done || lia).
  by destruct (length t1 + length t2 - 2)%nat.
Qed.

Lemma parse_three t1 t2 t3 v1 v2 v3 :
  (∀ orig, parse_component orig (t1 ++ t2 ++ t3 ++ []) = Ok (v1, t2 ++ t3 ++ [])) →
  (∀ orig, parse_component orig (t2 ++ t3 ++ []) = Ok (v2, t3 ++ [])) →
  (∀ orig, parse_component orig (t3 ++ []) = Ok (v3, [])) →
  t1 ≠ [] → t2 ≠ [] → t3 ≠ [] → digit_first (t1 ++ t2 ++ t3) → 0 <= v2 → 0 <= v3 → v1 + v2 + v3 < 2 ^ 64 →
  parse_duration_from_golang_string (t1 ++ t2 ++ t3) = Ok (v1 + v2 + v3).
Proof.
  intros H1 H2 H3 Hn1 Hn2 Hn3 Hd Hv2 Hv3 Hsum.
  pose proof (not_nil_length t1 Hn1). pose proof (not_nil_length t2 Hn2). pose proof (not_nil_length t3 Hn3).
  rewrite parse_text by (done || (rewrite !length_app; lia)).
  set (text := t1 ++ t2 ++ t3) at 2. rewrite !length_app.
  replace (length t1 + (length t2 + length t3))%nat with (S (S (S (length t1 + length t2 + length t3 - 3)))) by lia.
  rewrite <- (app_nil_r t3) at 2.
  rewrite (parse_loop_step text _ 0 t1 _ _ (H1 text)) by (done || lia).
  rewrite (parse_loop_step text _ _ t2 _ _ (H2 text)) by (done || lia).
  rewrite (parse_loop_step text _ _ t3 _ _ (H3 text)) by (done || lia).
  by destruct (length t1 + length t2 + length t3 - 3)%nat.
Qed.

Lemma parse_large u :
  1000000000 <= u < 2 ^ 64 → parse_duration_from_golang_string (duration_text u) = Ok u.
Proof.
  intros Hu. pose proof (below_second u _ eq_refl ltac:(lia)) as Hb.
  pose proof (λ orig, parse_seconds u orig ltac:(lia)) as Hlast. unfold duration_text.
  test_false (u =? 0). test_false (u <? 1000). test_false (u <? 1000000). test_false (u <? 1000000000).
  cbv zeta. set (s := u / 1000000000) in *. set (last := component (s mod 60) _ _) in *.
  assert (last ≠ []) as Hlast0 by (apply component_not_nil; lia).
  destruct (s <? 60) eqn:H60.
  { apply parse_one; [lia|done| |lia]. fold last. rewrite Hlast. do 2 f_equal. rewrite Z.mod_small; lia. }
  set (minutes := component (s / 60 mod 60) [] (str_bytes "m")).
  assert (minutes ≠ []) as Hmin0 by (apply component_not_nil; lia).
  assert (∀ orig, parse_component orig (minutes ++ last ++ []) = Ok (s / 60 mod 60 * 60000000000, last ++ []))
    as Hminutes.
  { intros orig. apply parse_whole; [lia|by do 4 right; left|lia|apply component_digit_first; lia]. }
  destruct (s / 60 <? 60) eqn:H3600.
  - rewrite (parse_two _ _ _ _ Hminutes Hlast) by (done || lia || (apply component_digit_first; lia)).
    f_equal. rewrite (Z.mod_small (s / 60)) by lia. lia.
  - rewrite (parse_three (component (s / 60 / 60) [] (str_bytes "h")) minutes last
      (s / 60 / 60 * 3600000000000) _ _) with (2 := Hminutes) (3 := Hlast);
      [f_equal; lia| |apply component_not_nil; lia|done|done|apply component_digit_first; lia|lia|lia|lia].
    intros orig. apply parse_whole; [lia|by do 5 right; left|lia|apply component_digit_first; lia].
Qed.

(** Printing a duration and parsing the text gives the duration back, to the
    nanosecond: for every duration that fits 64 bits of nanoseconds the printer stays
    inside its buffer of 32 bytes, no step of the parser overflows, and the
    floating-point arithmetic of the fraction is exact. *)
Lemma duration_roundtrip u :
  0 <= u < 2 ^ 64 →
  ∃ s, duration_to_golang_string (E:=list Z) u = Ok s ∧ parse_duration_from_golang_string s = Ok u.
Proof.
  intros Hu. exists (duration_text u). rewrite duration_prints, Z.mod_small by lia. split; [done|].
  destruct (u <? 1000000000) eqn:H9; [|apply parse_large; lia]. unfold duration_text.
  destruct (u =? 0) eqn:H0; [assert (u = 0) as -> by lia; by destruct P|]. rewrite H9.
  destruct (u <? 1000) eqn:H3; [|destruct (u <? 1000000) eqn:H6].
  - apply parse_one; [lia|done| |lia].
    pose proof (parse_whole (component u [] (str_bytes "ns")) u (str_bytes "ns") 1 []) as K.
    rewrite Z.mul_1_r in K. apply K; [lia|by left|lia|done].
  - pose proof (Z.div_mod u 1000 ltac:(lia)) as Hdm. apply parse_one; [apply Z.div_pos; lia|done| |lia].
    replace u with (u / 1000 * 1000 + u mod 1000) at 5 by lia.
    apply (parse_fraction _ u 3 _ 1000); [lia|by right; left|by left|lia|done|apply Z.div_pos; lia|lia].
  - pose proof (Z.div_mod u 1000000 ltac:(lia)) as Hdm. apply parse_one; [apply Z.div_pos; lia|done| |lia].
    replace u with (u / 1000000 * 1000000 + u mod 1000000) at 5 by lia.
    apply (parse_fraction _ u 6 _ 1000000);
      [lia|by do 2 right; left|by right; left|lia|done|apply Z.div_pos; lia|lia].
Qed.
End RoundTrip.

Lemma duration_roundtrip_example :
  0 <= 18367001000000 < 2 ^ 64
  ∧ ∃ s, duration_to_golang_string (E:=list Z) 18367001000000 = Ok s
      ∧ @parse_duration_from_golang_string true s = Ok 18367001000000.
Proof. split; [lia|]. apply duration_roundtrip. lia. Defined.

