(* ===== verification/JsonScanner.v ===== *)
(** * The JSON scanner ([httpx/scanner.rs])

    The HTTP services answer with JSON documents that are read while they arrive.
    The scanner is fed one byte at a time and says what the byte means; the decoder
    ([JsonDecoder.v]) uses it to find where a value ends.

    The scanner is the automaton of the source: its [step] field, a function
    pointer there, is a constructor of [Step] here, and [call_step] calls the
    function it stands for.  The stack [parse_state] has its top at the head.  The
    one index of the source that can be out of range is a [None].

    The second half of the file is a reference grammar of JSON texts ([value]) and
    the proof that the automaton recognises exactly it: [scan_value] runs the
    automaton over a value of the grammar, and [scanned_is_value] reads the grammar
    off a run. *)

From S2P Require Import Prelude Text HttpxError.

(** ** Bytes *)

Definition is_ascii_whitespace (c : Z) : bool :=
  (c =? 32) || (c =? 9) || (c =? 10) || (c =? 12) || (c =? 13).

Definition is_ascii_hexdigit (c : Z) : bool :=
  is_digit c || (65 <=? c) && (c <=? 70) || (97 <=? c) && (c <=? 102).

Abbreviation SPACE := 32 (only parsing).
Abbreviation QUOTE := 34 (only parsing).
Abbreviation PLUS := 43 (only parsing).
Abbreviation COMMA := 44 (only parsing).
Abbreviation MINUS := 45 (only parsing).
Abbreviation LBRACKET := 91 (only parsing).
Abbreviation BACKSLASH := 92 (only parsing).
Abbreviation RBRACKET := 93 (only parsing).
Abbreviation LBRACE := 123 (only parsing).
Abbreviation RBRACE := 125 (only parsing).

(** [c as char] printed: the UTF-8 of the code point [c]. *)
Definition char_string (c : Z) : string :=
  if c <? 128 then String (Ascii.ascii_of_N (Z.to_N c)) ""
  else String (Ascii.ascii_of_N (Z.to_N (192 + c / 64)))
         (String (Ascii.ascii_of_N (Z.to_N (128 + c mod 64))) "").

Definition quote_char (c : Z) : string :=
  if c =? 39 then "'\''"
  else if c =? QUOTE then String (Ascii.ascii_of_N 39) (String (Ascii.ascii_of_N 34) "'")
  else "'" +:+ char_string c +:+ "'".

(** ** The automaton *)

Module ScanState.
Inductive ScanState : Type :=
| Continue | BeginLiteral | BeginObject | ObjectKey | ObjectValue | EndObject
| BeginArray | ArrayValue | EndArray | SkipSpace | End_ | Error.
End ScanState.
Abbreviation ScanState := ScanState.ScanState.

Module ParseState.
Inductive ParseState : Type := ObjectKey | ObjectValue | ArrayValue.
End ParseState.
Abbreviation ParseState := ParseState.ParseState.

#[global] Instance scan_state_eq_dec : EqDecision ScanState.
Proof. solve_decision. Defined.
#[global] Instance parse_state_eq_dec : EqDecision ParseState.
Proof. solve_decision. Defined.

(** The functions the field [step] can hold. *)
Inductive Step : Type :=
| BeginValue | BeginValueOrEmpty | BeginStringOrEmpty | BeginString | EndValue | EndTop
| InString | InStringEsc | InStringEscU | InStringEscU1 | InStringEscU12 | InStringEscU123
| Neg | State1 | State0 | Dot | Dot0 | E | ESign | E0
| T | Tr | Tru | F | Fa | Fal | Fals | N | Nu | Nul | StateError.

Record Scanner : Type := mkScanner {
  step : Step;
  end_top : bool;
  parse_state : list ParseState;
  err : option HttpxError;
  sc_bytes : Z
}.

Definition scanner_new : Scanner := mkScanner BeginValue false [] None 0.

Definition set_step (f : Step) (s : Scanner) : Scanner :=
  mkScanner f (end_top s) (parse_state s) (err s) (sc_bytes s).
Definition set_parse_state (ps : list ParseState) (s : Scanner) : Scanner :=
  mkScanner (step s) (end_top s) ps (err s) (sc_bytes s).
Definition set_end_top (s : Scanner) : Scanner :=
  mkScanner (step s) true (parse_state s) (err s) (sc_bytes s).

Definition incr_bytes (incr : Z) (s : Scanner) : Scanner :=
  mkScanner (step s) (end_top s) (parse_state s) (err s) (sc_bytes s + incr).

Definition reset (s : Scanner) : Scanner := mkScanner BeginValue false [] None (sc_bytes s).

(** What a function returns, with the scanner it leaves; [None] is a panic. *)
Abbreviation scanned := (option (Scanner * ScanState)) (only parsing).

Definition error (c : Z) (context : string) (s : Scanner) : Scanner * ScanState :=
  (mkScanner StateError (end_top s) (parse_state s)
     (Some (httpx_message_error ("invalid character " +:+ quote_char c +:+ " " +:+ context)))
     (sc_bytes s), ScanState.Error).

Definition push_parse_state (new_parse_state : ParseState) (success_state : ScanState) (s : Scanner)
    : Scanner * ScanState :=
  (set_parse_state (new_parse_state :: parse_state s) s, success_state).

Definition pop_parse_state (s : Scanner) : Scanner :=
  let s := set_parse_state (tail (parse_state s)) s in
  match parse_state s with
  | [] => set_end_top (set_step EndTop s)
  | _ => set_step EndValue s
  end.

Definition state_begin_value (c : Z) (s : Scanner) : Scanner * ScanState :=
  if is_ascii_whitespace c then (s, ScanState.SkipSpace)
  else if c =? LBRACE then
    push_parse_state ParseState.ObjectKey ScanState.BeginObject (set_step BeginStringOrEmpty s)
  else if c =? LBRACKET then
    push_parse_state ParseState.ArrayValue ScanState.BeginArray (set_step BeginValueOrEmpty s)
  else if c =? QUOTE then (set_step InString s, ScanState.BeginLiteral)
  else if c =? MINUS then (set_step Neg s, ScanState.BeginLiteral)
  else if c =? 48 (* 0 *) then (set_step State0 s, ScanState.BeginLiteral)
  else if c =? 116 (* t *) then (set_step T s, ScanState.BeginLiteral)
  else if c =? 102 (* f *) then (set_step F s, ScanState.BeginLiteral)
  else if c =? 110 (* n *) then (set_step N s, ScanState.BeginLiteral)
  else if is_digit c then (set_step State1 s, ScanState.BeginLiteral)
  else error c "looking for beginning of value" s.

Definition state_end_top (c : Z) (s : Scanner) : Scanner * ScanState :=
  let s := if negb (is_ascii_whitespace c) then fst (error c "after top-level value" s) else s in
  (s, ScanState.End_).

Definition state_end_value (c : Z) (s : Scanner) : Scanner * ScanState :=
  match parse_state s with
  | [] => state_end_top c (set_end_top (set_step EndTop s))
  | ps :: rest =>
      if is_ascii_whitespace c then (set_step EndValue s, ScanState.SkipSpace)
      else
        match ps with
        | ParseState.ObjectKey =>
            if c =? COLON then
              (set_step BeginValue (set_parse_state (ParseState.ObjectValue :: rest) s), ScanState.ObjectKey)
            else error c "after object key" s
        | ParseState.ObjectValue =>
            if c =? COMMA then
              (set_step BeginString (set_parse_state (ParseState.ObjectKey :: rest) s), ScanState.ObjectValue)
            else if c =? RBRACE then (pop_parse_state s, ScanState.EndObject)
            else error c "after object key:value pair" s
        | ParseState.ArrayValue =>
            if c =? COMMA then (set_step BeginValue s, ScanState.ArrayValue)
            else if c =? RBRACKET then (pop_parse_state s, ScanState.EndArray)
            else error c "after array element" s
        end
  end.

Definition state_begin_value_or_empty (c : Z) (s : Scanner) : Scanner * ScanState :=
  if is_ascii_whitespace c then (s, ScanState.SkipSpace)
  else if c =? RBRACKET then state_end_value c s
  else state_begin_value c s.

Definition state_begin_string (c : Z) (s : Scanner) : Scanner * ScanState :=
  if is_ascii_whitespace c then (s, ScanState.SkipSpace)
  else if c =? QUOTE then (set_step InString s, ScanState.BeginLiteral)
  else error c "looking for beginning of object key string" s.

Definition state_begin_string_or_empty (c : Z) (s : Scanner) : scanned :=
  if is_ascii_whitespace c then Some (s, ScanState.SkipSpace)
  else if c =? RBRACE then
    match parse_state s with
    | [] => None
    | _ :: rest => Some (state_end_value c (set_parse_state (ParseState.ObjectValue :: rest) s))
    end
  else Some (state_begin_string c s).

Definition state_in_string (c : Z) (s : Scanner) : Scanner * ScanState :=
  if c =? QUOTE then (set_step EndValue s, ScanState.Continue)
  else if c =? BACKSLASH then (set_step InStringEsc s, ScanState.Continue)
  else if c <? 32 then error c "in string literal" s
  else (s, ScanState.Continue).

(** One of b, f, n, r, t, backslash, slash and the quote. *)
Definition is_escape (c : Z) : bool :=
  (c =? 98) || (c =? 102) || (c =? 110) || (c =? 114) || (c =? 116)
  || (c =? BACKSLASH) || (c =? 47) || (c =? QUOTE).

Definition state_in_string_esc (c : Z) (s : Scanner) : Scanner * ScanState :=
  if is_escape c then (set_step InString s, ScanState.Continue)
  else if c =? 117 (* u *) then (set_step InStringEscU s, ScanState.Continue)
  else error c "in string escape code" s.

Definition state_in_string_esc_u (c : Z) (s : Scanner) : Scanner * ScanState :=
  if is_ascii_hexdigit c then (set_step InStringEscU1 s, ScanState.Continue)
  else error c "in \u hexadecimal character escape" s.

Definition state_in_string_esc_u1 (c : Z) (s : Scanner) : Scanner * ScanState :=
  if is_ascii_hexdigit c then (set_step InStringEscU12 s, ScanState.Continue)
  else error c "in \u hexadecimal character escape" s.

Definition state_in_string_esc_u12 (c : Z) (s : Scanner) : Scanner * ScanState :=
  if is_ascii_hexdigit c then (set_step InStringEscU123 s, ScanState.Continue)
  else error c "in \u hexadecimal character escape" s.

Definition state_in_string_esc_u123 (c : Z) (s : Scanner) : Scanner * ScanState :=
  if is_ascii_hexdigit c then (set_step InString s, ScanState.Continue)
  else error c "in \u hexadecimal character escape" s.

Definition state_neg (c : Z) (s : Scanner) : Scanner * ScanState :=
  if c =? 48 then (set_step State0 s, ScanState.Continue)
  else if is_digit c then (set_step State1 s, ScanState.Continue)
  else error c "in numeric literal" s.

(** The letter of an exponent, e or E. *)
Definition is_exponent (c : Z) : bool := (c =? 101) || (c =? 69).

Definition state0 (c : Z) (s : Scanner) : Scanner * ScanState :=
  if c =? DOT then (set_step Dot s, ScanState.Continue)
  else if is_exponent c then (set_step E s, ScanState.Continue)
  else state_end_value c s.

Definition state1 (c : Z) (s : Scanner) : Scanner * ScanState :=
  if is_digit c then (set_step State1 s, ScanState.Continue) else state0 c s.

Definition state_dot (c : Z) (s : Scanner) : Scanner * ScanState :=
  if is_digit c then (set_step Dot0 s, ScanState.Continue)
  else error c "after decimal point in numeric literal" s.

Definition state_dot0 (c : Z) (s : Scanner) : Scanner * ScanState :=
  if is_digit c then (s, ScanState.Continue)
  else if is_exponent c then (set_step E s, ScanState.Continue)
  else state_end_value c s.

Definition state_e_sign (c : Z) (s : Scanner) : Scanner * ScanState :=
  if is_digit c then (set_step E0 s, ScanState.Continue)
  else error c "in exponent of numeric literal" s.

Definition state_e (c : Z) (s : Scanner) : Scanner * ScanState :=
  if (c =? PLUS) || (c =? MINUS) then (set_step ESign s, ScanState.Continue)
  else state_e_sign c s.

Definition state_e0 (c : Z) (s : Scanner) : Scanner * ScanState :=
  if is_digit c then (s, ScanState.Continue) else state_end_value c s.

(** The letters of a literal: [state_t] to [state_nul] each expect one. *)
Definition state_letter (expected : Z) (next : Step) (context : string) (c : Z) (s : Scanner)
    : Scanner * ScanState :=
  if c =? expected then (set_step next s, ScanState.Continue) else error c context s.

Definition state_t := state_letter 114 Tr "in literal true (expecting 'r')".
Definition state_tr := state_letter 117 Tru "in literal true (expecting 'u')".
Definition state_tru := state_letter 101 EndValue "in literal true (expecting 'e')".
Definition state_f := state_letter 97 Fa "in literal false (expecting 'a')".
Definition state_fa := state_letter 108 Fal "in literal false (expecting 'l')".
Definition state_fal := state_letter 115 Fals "in literal false (expecting 's')".
Definition state_fals := state_letter 101 EndValue "in literal false (expecting 'e')".
Definition state_n := state_letter 117 Nu "in literal null (expecting 'u')".
Definition state_nu := state_letter 108 Nul "in literal null (expecting 'l')".
Definition state_nul := state_letter 108 EndValue "in literal null (expecting 'l')".

Definition state_error (c : Z) (s : Scanner) : Scanner * ScanState := (s, ScanState.Error).

(** [(self.step)(self, c)]. *)
Definition call_step (c : Z) (s : Scanner) : scanned :=
  match step s with
  | BeginValue => Some (state_begin_value c s)
  | BeginValueOrEmpty => Some (state_begin_value_or_empty c s)
  | BeginStringOrEmpty => state_begin_string_or_empty c s
  | BeginString => Some (state_begin_string c s)
  | EndValue => Some (state_end_value c s)
  | EndTop => Some (state_end_top c s)
  | InString => Some (state_in_string c s)
  | InStringEsc => Some (state_in_string_esc c s)
  | InStringEscU => Some (state_in_string_esc_u c s)
  | InStringEscU1 => Some (state_in_string_esc_u1 c s)
  | InStringEscU12 => Some (state_in_string_esc_u12 c s)
  | InStringEscU123 => Some (state_in_string_esc_u123 c s)
  | Neg => Some (state_neg c s)
  | State1 => Some (state1 c s)
  | State0 => Some (state0 c s)
  | Dot => Some (state_dot c s)
  | Dot0 => Some (state_dot0 c s)
  | E => Some (state_e c s)
  | ESign => Some (state_e_sign c s)
  | E0 => Some (state_e0 c s)
  | T => Some (state_t c s)
  | Tr => Some (state_tr c s)
  | Tru => Some (state_tru c s)
  | F => Some (state_f c s)
  | Fa => Some (state_fa c s)
  | Fal => Some (state_fal c s)
  | Fals => Some (state_fals c s)
  | N => Some (state_n c s)
  | Nu => Some (state_nu c s)
  | Nul => Some (state_nul c s)
  | StateError => Some (state_error c s)
  end.

Definition eof (s : Scanner) : scanned :=
  if err s then Some (s, ScanState.Error)
  else if end_top s then Some (s, ScanState.End_)
  else call_step SPACE s.

Fixpoint valid_from (s : Scanner) (data : list Z) : option bool :=
  match data with
  | [] => '(_, r) ← eof s; Some (negb (bool_decide (r = ScanState.Error)))
  | c :: data =>
      '(s, r) ← call_step c (incr_bytes 1 s);
      if bool_decide (r = ScanState.Error) then Some false else valid_from s data
  end.

Definition valid (data : list Z) : option bool := valid_from scanner_new data.

(** ** JSON texts

    The grammar of RFC 8259 over bytes, with the whitespace of
    [is_ascii_whitespace], which has the form feed besides. *)

Definition ws (w : list Z) : Prop := Forall (λ c, is_ascii_whitespace c = true) w.

Definition json_digits (ds : list Z) : Prop := Forall (λ c, is_digit c = true) ds.

Inductive string_body : list Z → Prop :=
| body_nil : string_body []
| body_char c b : 32 <= c → c ≠ QUOTE → c ≠ BACKSLASH → string_body b → string_body (c :: b)
| body_escape c b : is_escape c = true → string_body b → string_body (BACKSLASH :: c :: b)
| body_unicode h1 h2 h3 h4 b :
    Forall (λ h, is_ascii_hexdigit h = true) [h1; h2; h3; h4] → string_body b →
    string_body (BACKSLASH :: 117 :: h1 :: h2 :: h3 :: h4 :: b).

Inductive json_string : list Z → Prop :=
| json_string_intro b : string_body b → json_string (QUOTE :: b ++ [QUOTE]).

(** An optional minus sign, then 0 or digits that do not begin with 0. *)
Inductive integer : list Z → Prop :=
| integer_zero sg : sg = [] ∨ sg = [MINUS] → integer (sg ++ [48])
| integer_digits sg d ds : sg = [] ∨ sg = [MINUS] → is_digit d = true → d ≠ 48 → json_digits ds →
    integer (sg ++ d :: ds).

Inductive mantissa : list Z → Prop :=
| mantissa_integer i : integer i → mantissa i
| mantissa_fraction i d ds : integer i → json_digits (d :: ds) → mantissa (i ++ DOT :: d :: ds).

Inductive number : list Z → Prop :=
| number_mantissa m : mantissa m → number m
| number_exponent m e sg d ds : mantissa m → is_exponent e = true →
    sg = [] ∨ sg = [PLUS] ∨ sg = [MINUS] → json_digits (d :: ds) →
    number (m ++ e :: sg ++ d :: ds).

Inductive value : list Z → Prop :=
| value_true : value [116; 114; 117; 101]
| value_false : value [102; 97; 108; 115; 101]
| value_null : value [110; 117; 108; 108]
| value_number n : number n → value n
| value_string s : json_string s → value s
| value_empty_array w : ws w → value (LBRACKET :: w ++ [RBRACKET])
| value_array es : elements es → value (LBRACKET :: es ++ [RBRACKET])
| value_empty_object w : ws w → value (LBRACE :: w ++ [RBRACE])
| value_object ms : members ms → value (LBRACE :: ms ++ [RBRACE])
with elements : list Z → Prop :=
| elements_one w1 v w2 : ws w1 → value v → ws w2 → elements (w1 ++ v ++ w2)
| elements_more es w1 v w2 : elements es → ws w1 → value v → ws w2 →
    elements (es ++ COMMA :: w1 ++ v ++ w2)
with members : list Z → Prop :=
| members_one w1 k w2 w3 v w4 : ws w1 → json_string k → ws w2 → ws w3 → value v → ws w4 →
    members (w1 ++ k ++ w2 ++ COLON :: w3 ++ v ++ w4)
| members_more ms w1 k w2 w3 v w4 : members ms →
    ws w1 → json_string k → ws w2 → ws w3 → value v → ws w4 →
    members (ms ++ COMMA :: w1 ++ k ++ w2 ++ COLON :: w3 ++ v ++ w4).

Scheme value_mut := Induction for value Sort Prop
with elements_mut := Induction for elements Sort Prop
with members_mut := Induction for members Sort Prop.

(** ** Running the automaton *)

(** The scanner after the bytes [l], none of which ended the text or was refused. *)
Fixpoint feed (s : Scanner) (l : list Z) : option Scanner :=
  match l with
  | [] => Some s
  | c :: l =>
      match call_step c (incr_bytes 1 s) with
      | Some (_, ScanState.End_) | Some (_, ScanState.Error) | None => None
      | Some (s, _) => feed s l
      end
  end.

(** Inside a text, with the stack [st]. *)
Definition inside (f : Step) (st : list ParseState) (b : Z) : Scanner := mkScanner f false st None b.

(** A value may be complete in these states. *)
Definition ends (f : Step) : bool :=
  match f with EndValue | State0 | State1 | Dot0 | E0 => true | _ => false end.

(** The state after a value: when it was the outermost one and ended with its
    bracket, the top was reached. *)
Definition after_value (st : list ParseState) (b : Z) (s : Scanner) : Prop :=
  (∃ f, ends f = true ∧ s = inside f st b) ∨ st = [] ∧ s = mkScanner EndTop true [] None b.

(** Bytes that can continue a number. *)
Definition number_char (c : Z) : bool := is_digit c || (c =? DOT) || is_exponent c.

Lemma feed_app s l k : feed s (l ++ k) = s' ← feed s l; feed s' k.
Proof.
  revert s. induction l as [|c l IH]; intros s; [done|]. cbn [feed app].
  destruct (call_step c (incr_bytes 1 s)) as [[s' []]|]; try done; apply IH.
Qed.

(** A byte decides every test on it. *)
Ltac byte_tests :=
  unfold number_char, is_ascii_whitespace, is_ascii_hexdigit, is_exponent, is_escape, is_digit in *.

Lemma whitespace_cases c : is_ascii_whitespace c = true → c = 32 ∨ c = 9 ∨ c = 10 ∨ c = 12 ∨ c = 13.
Proof. unfold is_ascii_whitespace. lia. Qed.

(** One byte whose class is known. *)
Ltac feed_one :=
  cbn [feed incr_bytes inside call_step set_step set_parse_state step end_top parse_state err sc_bytes];
  cbv beta delta [state_begin_value state_begin_value_or_empty state_begin_string
    state_begin_string_or_empty state_in_string state_in_string_esc
    state_in_string_esc_u state_in_string_esc_u1 state_in_string_esc_u12 state_in_string_esc_u123
    state_neg state0 state1 state_dot state_dot0 state_e state_e_sign state_e0];
  byte_tests;
  repeat match goal with
         | |- context [if ?b then _ else _] => first [test_true b | test_false b]
         end;
  cbn [set_step set_parse_state step end_top parse_state err sc_bytes push_parse_state].

Lemma feed_ws f st b w :
  ws w → f = BeginValue ∨ f = BeginValueOrEmpty ∨ f = BeginString ∨ f = BeginStringOrEmpty →
  feed (inside f st b) w = Some (inside f st (b + blen w)).
Proof.
  intros Hw Hf. revert b. induction Hw as [|c w Hc Hw IH]; intros b.
  { rewrite blen_nil. by replace (b + 0) with b by lia. }
  rewrite blen_cons. replace (b + (1 + blen w)) with (b + 1 + blen w) by lia. rewrite <- IH.
  clear IH. destruct Hf as [->|[->|[->| ->]]];
    destruct (whitespace_cases c Hc) as [->|[->|[->|[->| ->]]]]; reflexivity.
Qed.

Lemma feed_digits f st b ds :
  f = State1 ∨ f = Dot0 ∨ f = E0 → json_digits ds →
  feed (inside f st b) ds = Some (inside f st (b + blen ds)).
Proof.
  intros Hf Hds. revert b. induction Hds as [|c ds Hc Hds IH]; intros b.
  { rewrite blen_nil. by replace (b + 0) with b by lia. }
  rewrite blen_cons. replace (b + (1 + blen ds)) with (b + 1 + blen ds) by lia. rewrite <- IH.
  clear IH. destruct Hf as [->|[->| ->]]; feed_one; done.
Qed.

Lemma feed_body st b s : string_body s → feed (inside InString st b) s = Some (inside InString st (b + blen s)).
Proof.
  intros Hs. revert b. induction Hs as [|c s H1 H2 H3 Hs IH|c s Hc Hs IH|h1 h2 h3 h4 s Hh Hs IH]; intros b.
  { rewrite blen_nil. by replace (b + 0) with b by lia. }
  - rewrite blen_cons. replace (b + (1 + blen s)) with (b + 1 + blen s) by lia. rewrite <- IH. repeat feed_one. done.
  - rewrite !blen_cons. replace (b + (1 + (1 + blen s))) with (b + 1 + 1 + blen s) by lia.
    rewrite <- IH. repeat feed_one. done.
  - rewrite !list.Forall_cons in Hh. destruct Hh as (? & ? & ? & ? & _). rewrite !blen_cons.
    replace (b + _) with (b + 1 + 1 + 1 + 1 + 1 + 1 + blen s) by lia. rewrite <- IH.
    repeat feed_one. done.
Qed.

(** Bytes are counted in the order they are fed. *)
Ltac count := rewrite ?blen_app, ?blen_cons, ?blen_app, ?blen_cons, ?blen_nil, ?Z.add_0_r, ?Z.add_assoc.

Lemma feed_integer st b i :
  integer i → ∃ f, (f = State0 ∨ f = State1) ∧ feed (inside BeginValue st b) i = Some (inside f st (b + blen i)).
Proof.
  intros [sg Hsg|sg d ds Hsg Hd Hd0 Hds].
  - exists State0. split; [auto|]. destruct Hsg as [->| ->]; [reflexivity|]. count. reflexivity.
  - exists State1. split; [auto|].
    destruct Hsg as [->| ->]; cbn [app]; count; repeat feed_one; apply feed_digits; auto.
Qed.

Lemma feed_mantissa st b m :
  mantissa m → ∃ f, (f = State0 ∨ f = State1 ∨ f = Dot0)
    ∧ feed (inside BeginValue st b) m = Some (inside f st (b + blen m)).
Proof.
  intros [i Hi|i d ds Hi Hds]; destruct (feed_integer st b i Hi) as (f & Hf & Hrun).
  { exists f. tauto. }
  exists Dot0. split; [auto|]. rewrite feed_app, Hrun. cbn [mbind option_bind]. count.
  apply list.Forall_cons in Hds as [Hd Hds].
  destruct Hf as [->| ->]; repeat feed_one; apply feed_digits; auto.
Qed.

Lemma feed_number st b n :
  number n → ∃ f, ends f = true ∧ feed (inside BeginValue st b) n = Some (inside f st (b + blen n)).
Proof.
  intros [m Hm|m e sg d ds Hm He Hsg Hds]; destruct (feed_mantissa st b m Hm) as (f & Hf & Hrun).
  { exists f. split; [|done]. by destruct Hf as [->|[->| ->]]. }
  exists E0. split; [done|]. rewrite feed_app, Hrun. cbn [mbind option_bind].
  apply list.Forall_cons in Hds as [Hd Hds].
  destruct Hf as [->|[->| ->]]; destruct Hsg as [->|[->| ->]]; cbn [app]; count;
    repeat feed_one; apply feed_digits; auto.
Qed.

Lemma feed_string f st b s :
  json_string s → f = BeginValue ∨ f = BeginString →
  feed (inside f st b) s = Some (inside EndValue st (b + blen s)).
Proof.
  intros [t Ht] Hf. count.
  assert (feed (inside InString st (b + 1)) (t ++ [QUOTE]) = Some (inside EndValue st (b + 1 + blen t + 1))) as <-.
  { rewrite feed_app, feed_body by done. reflexivity. }
  by destruct Hf as [->| ->].
Qed.

Lemma call_step_ends f st b c :
  ends f = true → number_char c = false →
  call_step c (inside f st b) = Some (state_end_value c (inside f st b)).
Proof. intros Hf Hc. destruct f; try discriminate; [done|..]; feed_one; done. Qed.

Lemma feed_ws_after f st b w :
  ends f = true → st ≠ [] → ws w →
  ∃ f', ends f' = true ∧ feed (inside f st b) w = Some (inside f' st (b + blen w)).
Proof.
  intros Hf Hst Hw. revert f b Hf. induction Hw as [|c w Hc Hw IH]; intros f b Hf.
  { exists f. rewrite blen_nil. by replace (b + 0) with b by lia. }
  destruct (IH EndValue (b + 1)) as (f' & Hf' & Hrun); [done|]. exists f'. split; [done|].
  rewrite blen_cons, Z.add_assoc, <- Hrun. cbn [feed].
  change (incr_bytes 1 (inside f st b)) with (inside f st (b + 1)).
  rewrite call_step_ends by (done || (apply whitespace_cases in Hc as [->|[->|[->|[->| ->]]]]; done)).
  unfold state_end_value. cbn [parse_state inside]. destruct st; [done|]. by rewrite Hc.
Qed.

(** The state after the closing bracket of a value. *)
Definition closed (st : list ParseState) (b : Z) : Scanner :=
  match st with [] => mkScanner EndTop true [] None b | _ => inside EndValue st b end.

Lemma closed_after st b : after_value st b (closed st b).
Proof. destruct st; [by right|]. left. by exists EndValue. Qed.

Lemma feed_close f st b p c :
  ends f = true → (p = ParseState.ArrayValue ∧ c = RBRACKET) ∨ (p = ParseState.ObjectValue ∧ c = RBRACE) →
  feed (inside f (p :: st) b) [c] = Some (closed st (b + 1)).
Proof.
  intros Hf Hpc. cbn [feed]. change (incr_bytes 1 (inside f (p :: st) b)) with (inside f (p :: st) (b + 1)).
  rewrite call_step_ends by (done || (destruct Hpc as [[_ ->]|[_ ->]]; done)).
  destruct Hpc as [[-> ->]|[-> ->]]; by destruct st.
Qed.

Lemma value_head v :
  value v → ∃ c l, v = c :: l ∧ is_ascii_whitespace c = false ∧ c ≠ RBRACKET ∧ c ≠ RBRACE ∧ c ≠ COMMA ∧ c ≠ COLON.
Proof.
  assert (∀ c l, v = c :: l → is_ascii_whitespace c = false ∧ c ≠ RBRACKET ∧ c ≠ RBRACE ∧ c ≠ COMMA ∧ c ≠ COLON →
    ∃ c l, v = c :: l ∧ is_ascii_whitespace c = false ∧ c ≠ RBRACKET ∧ c ≠ RBRACE ∧ c ≠ COMMA ∧ c ≠ COLON) as K
    by eauto.
  assert (∀ i l, integer i → v = i ++ l →
    ∃ c l, v = c :: l ∧ is_ascii_whitespace c = false ∧ c ≠ RBRACKET ∧ c ≠ RBRACE ∧ c ≠ COMMA ∧ c ≠ COLON) as Ki.
  { intros i l [sg [->| ->]|sg d ds [->| ->] Hd Hd0 _] Hv; cbn [app] in Hv; (eapply K; [exact Hv|]);
      byte_tests; lia. }
  assert (∀ m l, mantissa m → v = m ++ l →
    ∃ c l, v = c :: l ∧ is_ascii_whitespace c = false ∧ c ≠ RBRACKET ∧ c ≠ RBRACE ∧ c ≠ COMMA ∧ c ≠ COLON) as Km.
  { intros m l [i Hi|i d ds Hi _] Hv; [by eapply Ki|]. rewrite <- app_assoc in Hv. by eapply Ki. }
  intros Hv. destruct Hv as [| | |n [m Hm|m e sg d ds Hm _ _ _]|s [b _]| | | |];
    try (eapply K; [reflexivity|]; byte_tests; lia).
  - eapply Km; [done|]. by rewrite app_nil_r.
  - by eapply Km.
Qed.

Lemma elements_head es :
  elements es → ∃ w c l, es = w ++ c :: l ∧ ws w ∧ is_ascii_whitespace c = false ∧ c ≠ RBRACKET.
Proof.
  induction 1 as [w1 v w2 Hw1 Hv Hw2|es w1 v w2 Hes IH _ _ _].
  - destruct (value_head v Hv) as (c & l & -> & ? & ? & _). exists w1, c, (l ++ w2). done.
  - destruct IH as (w & c & l & -> & ? & ? & ?). exists w, c, (l ++ COMMA :: w1 ++ v ++ w2).
    by rewrite <- app_assoc.
Qed.

Lemma members_head ms : members ms → ∃ w l, ms = w ++ QUOTE :: l ∧ ws w.
Proof.
  induction 1 as [w1 k w2 w3 v w4 Hw1 Hk _ _ _ _|ms w1 k w2 w3 v w4 _ IH _ _ _ _ _ _].
  - destruct Hk as [s _]. exists w1. by eexists.
  - destruct IH as (w & l & -> & ?). exists w. eexists. split; [|done]. by rewrite <- app_assoc.
Qed.

Lemma feed_value_or_empty st b w c l :
  ws w → is_ascii_whitespace c = false → c ≠ RBRACKET →
  feed (inside BeginValueOrEmpty st b) (w ++ c :: l) = feed (inside BeginValue st b) (w ++ c :: l).
Proof.
  intros Hw Hc Hcb. rewrite !feed_app, !feed_ws by auto. cbn [mbind option_bind feed].
  change (call_step c (incr_bytes 1 (inside BeginValueOrEmpty st ?x))) with
    (Some (state_begin_value_or_empty c (inside BeginValueOrEmpty st (b + blen w + 1)))).
  change (call_step c (incr_bytes 1 (inside BeginValue st ?x))) with
    (Some (state_begin_value c (inside BeginValue st (b + blen w + 1)))).
  unfold state_begin_value_or_empty, state_begin_value. rewrite Hc. test_false (c =? RBRACKET).
  repeat match goal with |- context [if ?t then _ else _] => destruct t; [reflexivity|] end. reflexivity.
Qed.

Lemma feed_string_or_empty st b w c l :
  ws w → is_ascii_whitespace c = false → c ≠ RBRACE →
  feed (inside BeginStringOrEmpty st b) (w ++ c :: l) = feed (inside BeginString st b) (w ++ c :: l).
Proof.
  intros Hw Hc Hcb. rewrite !feed_app, !feed_ws by auto. cbn [mbind option_bind feed].
  change (call_step c (incr_bytes 1 (inside BeginStringOrEmpty st ?x))) with
    (state_begin_string_or_empty c (inside BeginStringOrEmpty st (b + blen w + 1))).
  change (call_step c (incr_bytes 1 (inside BeginString st ?x))) with
    (Some (state_begin_string c (inside BeginString st (b + blen w + 1)))).
  unfold state_begin_string_or_empty, state_begin_string. rewrite Hc. test_false (c =? RBRACE).
  repeat match goal with |- context [if ?t then _ else _] => destruct t; [reflexivity|] end. reflexivity.
Qed.

(** The runs over a value, over the elements of an array and over the members of an
    object. *)
Definition value_runs (v : list Z) : Prop :=
  ∀ st b, ∃ s, feed (inside BeginValue st b) v = Some s ∧ after_value st (b + blen v) s.
Definition elements_run (es : list Z) : Prop :=
  ∀ st b, ∃ f, ends f = true ∧ feed (inside BeginValue (ParseState.ArrayValue :: st) b) es
    = Some (inside f (ParseState.ArrayValue :: st) (b + blen es)).
Definition members_run (ms : list Z) : Prop :=
  ∀ st b, ∃ f, ends f = true ∧ feed (inside BeginString (ParseState.ObjectKey :: st) b) ms
    = Some (inside f (ParseState.ObjectValue :: st) (b + blen ms)).

Lemma value_runs_ends v st b :
  st ≠ [] → value_runs v →
  ∃ f, ends f = true ∧ feed (inside BeginValue st b) v = Some (inside f st (b + blen v)).
Proof. intros Hst Hv. destruct (Hv st b) as (s & Hs & [(f & Hf & ->)|[? _]]); [eauto|done]. Qed.

(** One element or value, with the whitespace around it. *)
Lemma run_padded p st b w1 v w2 :
  ws w1 → value_runs v → ws w2 →
  ∃ f, ends f = true ∧ feed (inside BeginValue (p :: st) b) (w1 ++ v ++ w2)
    = Some (inside f (p :: st) (b + blen (w1 ++ v ++ w2))).
Proof.
  intros H1 Hv H2. destruct (value_runs_ends v (p :: st) (b + blen w1)) as (f & Hf & Hrun); [done|done|].
  destruct (feed_ws_after f (p :: st) (b + blen w1 + blen v) w2) as (f' & Hf' & Hrun'); [done..|].
  exists f'. split; [done|]. rewrite !feed_app, feed_ws by auto. cbn [mbind option_bind].
  rewrite feed_app, Hrun. cbn [mbind option_bind]. rewrite Hrun', !blen_app. do 2 f_equal. lia.
Qed.

Lemma run_member st b w1 k w2 w3 v w4 :
  ws w1 → json_string k → ws w2 → ws w3 → value_runs v → ws w4 →
  ∃ f, ends f = true ∧
    feed (inside BeginString (ParseState.ObjectKey :: st) b) (w1 ++ k ++ w2 ++ COLON :: w3 ++ v ++ w4)
    = Some (inside f (ParseState.ObjectValue :: st) (b + blen (w1 ++ k ++ w2 ++ COLON :: w3 ++ v ++ w4))).
Proof.
  intros H1 Hk H2 H3 Hv H4.
  destruct (feed_ws_after EndValue (ParseState.ObjectKey :: st) (b + blen w1 + blen k) w2)
    as (f & Hf & Hrun); [done..|].
  destruct (run_padded ParseState.ObjectValue st (b + blen w1 + blen k + blen w2 + 1) w3 v w4 H3 Hv H4)
    as (f' & Hf' & Hrun'). exists f'. split; [done|].
  rewrite feed_app, feed_ws by auto. cbn [mbind option_bind].
  rewrite feed_app, feed_string by auto. cbn [mbind option_bind].
  rewrite feed_app, Hrun. cbn [mbind option_bind].
  change (COLON :: w3 ++ v ++ w4) with ([COLON] ++ w3 ++ v ++ w4) at 1.
  rewrite feed_app. cbn [feed].
  change (incr_bytes 1 (inside f ?x ?y)) with (inside f x (y + 1)). rewrite call_step_ends by done.
  unfold state_end_value. cbn [parse_state inside mbind option_bind]. cbv iota.
  change (is_ascii_whitespace COLON) with false. cbv iota. change (COLON =? COLON) with true. cbv iota.
  change (set_step BeginValue ?x) with (inside BeginValue (ParseState.ObjectValue :: st) (b + blen w1 + blen k + blen w2 + 1)).
  cbn [mbind option_bind]. rewrite Hrun'. rewrite !blen_app, !blen_cons, !blen_app. do 2 f_equal. lia.
Qed.

(** The brackets around elements and members. *)
Lemma run_empty_array w : ws w → value_runs (LBRACKET :: w ++ [RBRACKET]).
Proof.
  intros Hw st b. exists (closed st (b + blen (LBRACKET :: w ++ [RBRACKET]))).
  split; [|apply closed_after].
  change (feed (inside BeginValue st b) (LBRACKET :: ?l))
    with (feed (inside BeginValueOrEmpty (ParseState.ArrayValue :: st) (b + 1)) l).
  rewrite feed_app, feed_ws by auto. cbn [mbind option_bind]. count. by destruct st.
Qed.

Lemma run_array es : elements es → elements_run es → value_runs (LBRACKET :: es ++ [RBRACKET]).
Proof.
  intros Hes Hrun st b. exists (closed st (b + blen (LBRACKET :: es ++ [RBRACKET]))).
  split; [|apply closed_after].
  change (feed (inside BeginValue st b) (LBRACKET :: ?l))
    with (feed (inside BeginValueOrEmpty (ParseState.ArrayValue :: st) (b + 1)) l).
  destruct (Hrun st (b + 1)) as (f & Hf & Hes').
  destruct (elements_head es Hes) as (w & c & l & -> & Hw & Hc & Hcb).
  rewrite feed_app, feed_value_or_empty, Hes' by done. cbn [mbind option_bind].
  rewrite feed_close by auto. by count.
Qed.

Lemma run_empty_object w : ws w → value_runs (LBRACE :: w ++ [RBRACE]).
Proof.
  intros Hw st b. exists (closed st (b + blen (LBRACE :: w ++ [RBRACE]))).
  split; [|apply closed_after].
  change (feed (inside BeginValue st b) (LBRACE :: ?l))
    with (feed (inside BeginStringOrEmpty (ParseState.ObjectKey :: st) (b + 1)) l).
  rewrite feed_app, feed_ws by auto. cbn [mbind option_bind]. count. by destruct st.
Qed.

Lemma run_object ms : members ms → members_run ms → value_runs (LBRACE :: ms ++ [RBRACE]).
Proof.
  intros Hms Hrun st b. exists (closed st (b + blen (LBRACE :: ms ++ [RBRACE]))).
  split; [|apply closed_after].
  change (feed (inside BeginValue st b) (LBRACE :: ?l))
    with (feed (inside BeginStringOrEmpty (ParseState.ObjectKey :: st) (b + 1)) l).
  destruct (Hrun st (b + 1)) as (f & Hf & Hms').
  destruct (members_head ms Hms) as (w & l & -> & Hw).
  rewrite feed_app, feed_string_or_empty, Hms' by done. cbn [mbind option_bind].
  rewrite feed_close by auto. by count.
Qed.

(** The comma before another element or member. *)
Lemma feed_comma f p st b l :
  ends f = true →
  feed (inside f (p :: st) b) (COMMA :: l)
  = match p with
    | ParseState.ArrayValue => feed (inside BeginValue (p :: st) (b + 1)) l
    | ParseState.ObjectValue => feed (inside BeginString (ParseState.ObjectKey :: st) (b + 1)) l
    | ParseState.ObjectKey => None
    end.
Proof.
  intros Hf. cbn [feed]. change (incr_bytes 1 (inside f (p :: st) b)) with (inside f (p :: st) (b + 1)).
  rewrite call_step_ends by done. by destruct p.
Qed.

(** Every value of the grammar is accepted. *)
Lemma scan_value v : value v → value_runs v.
Proof.
  revert v. apply (value_mut (λ v _, value_runs v) (λ es _, elements_run es) (λ ms _, members_run ms)).
  - intros st b. exists (inside EndValue st (b + 1 + 1 + 1 + 1)). split; [done|]. left. exists EndValue.
    split; [done|]. by count.
  - intros st b. exists (inside EndValue st (b + 1 + 1 + 1 + 1 + 1)). split; [done|]. left. exists EndValue.
    split; [done|]. by count.
  - intros st b. exists (inside EndValue st (b + 1 + 1 + 1 + 1)). split; [done|]. left. exists EndValue.
    split; [done|]. by count.
  - intros n Hn st b. destruct (feed_number st b n Hn) as (f & Hf & ?). eexists. split; [done|]. left. eauto.
  - intros s Hs st b. eexists. split; [by apply feed_string; auto|]. left. by exists EndValue.
  - apply run_empty_array.
  - apply run_array.
  - apply run_empty_object.
  - apply run_object.
  - intros w1 v w2 H1 _ Hv H2 st b. by apply run_padded.
  - intros es w1 v w2 _ Hes H1 _ Hv H2 st b. destruct (Hes st b) as (f & Hf & Hrun).
    destruct (run_padded ParseState.ArrayValue st (b + blen es + 1) w1 v w2 H1 Hv H2) as (f' & Hf' & Hrun').
    exists f'. split; [done|]. rewrite feed_app, Hrun. cbn [mbind option_bind].
    rewrite feed_comma, Hrun' by done. rewrite (blen_app es), blen_cons. do 2 f_equal. lia.
  - intros w1 k w2 w3 v w4 H1 Hk H2 H3 _ Hv H4 st b. by apply run_member.
  - intros ms w1 k w2 w3 v w4 _ Hms H1 Hk H2 H3 _ Hv H4 st b. destruct (Hms st b) as (f & Hf & Hrun).
    destruct (run_member st (b + blen ms + 1) w1 k w2 w3 v w4 H1 Hk H2 H3 Hv H4) as (f' & Hf' & Hrun').
    exists f'. split; [done|]. rewrite feed_app, Hrun. cbn [mbind option_bind].
    rewrite feed_comma, Hrun' by done. rewrite (blen_app ms), blen_cons. do 2 f_equal. lia.
Qed.

(** ** Reading the grammar off a run

    What was read when the stack is [st], up to where the value or key at hand may
    begin: the open brackets, each with the elements or members completed in it. *)

Definition is_key (st : list ParseState) : bool :=
  match st with ParseState.ObjectKey :: _ => true | _ => false end.

Definition separated (parts : list Z → Prop) (l : list Z) : Prop :=
  l = [] ∨ ∃ l', parts l' ∧ l = l' ++ [COMMA].

Fixpoint expects (st : list ParseState) (p : list Z) : Prop :=
  match st with
  | [] => p = []
  | ps :: st =>
      is_key st = false ∧ ∃ p0 w, expects st p0 ∧ ws w ∧
      match ps with
      | ParseState.ArrayValue =>
          ∃ es, separated elements es ∧ p = p0 ++ w ++ LBRACKET :: es
      | ParseState.ObjectKey =>
          ∃ ms, separated members ms ∧ p = p0 ++ w ++ LBRACE :: ms
      | ParseState.ObjectValue =>
          ∃ ms w1 k w2, separated members ms ∧ ws w1 ∧ json_string k ∧ ws w2
            ∧ p = p0 ++ w ++ LBRACE :: ms ++ w1 ++ k ++ w2 ++ [COLON]
      end
  end.

(** What may stand where the stack expects it: a key or a value. *)
Definition item (key : bool) (v : list Z) : Prop := if key then json_string v else value v.

(** The part [x] of an item that was read in the state [f]. *)
Definition partial (f : Step) (st : list ParseState) (x : list Z) : Prop :=
  match f with
  | BeginValue => x = [] ∧ is_key st = false
  | BeginString => x = [] ∧ is_key st = true
  | EndValue => ∃ v w, x = v ++ w ∧ item (is_key st) v ∧ ws w ∧ (st = [] → w = [])
  | InString => ∃ b, x = QUOTE :: b ∧ string_body b
  | InStringEsc => ∃ b, x = QUOTE :: b ++ [BACKSLASH] ∧ string_body b
  | InStringEscU => ∃ b, x = QUOTE :: b ++ [BACKSLASH; 117] ∧ string_body b
  | InStringEscU1 => ∃ b h1, x = QUOTE :: b ++ [BACKSLASH; 117; h1] ∧ string_body b
      ∧ Forall (λ h, is_ascii_hexdigit h = true) [h1]
  | InStringEscU12 => ∃ b h1 h2, x = QUOTE :: b ++ [BACKSLASH; 117; h1; h2] ∧ string_body b
      ∧ Forall (λ h, is_ascii_hexdigit h = true) [h1; h2]
  | InStringEscU123 => ∃ b h1 h2 h3, x = QUOTE :: b ++ [BACKSLASH; 117; h1; h2; h3] ∧ string_body b
      ∧ Forall (λ h, is_ascii_hexdigit h = true) [h1; h2; h3]
  | Neg => x = [MINUS] ∧ is_key st = false
  | State0 => integer x ∧ is_key st = false
  | State1 => (∃ sg d ds, x = sg ++ d :: ds ∧ (sg = [] ∨ sg = [MINUS]) ∧ is_digit d = true ∧ d ≠ 48
      ∧ json_digits ds) ∧ is_key st = false
  | Dot => (∃ i, x = i ++ [DOT] ∧ integer i) ∧ is_key st = false
  | Dot0 => (∃ i d ds, x = i ++ DOT :: d :: ds ∧ integer i ∧ json_digits (d :: ds)) ∧ is_key st = false
  | E => (∃ m e, x = m ++ [e] ∧ mantissa m ∧ is_exponent e = true) ∧ is_key st = false
  | ESign => (∃ m e sg, x = m ++ [e; sg] ∧ mantissa m ∧ is_exponent e = true ∧ (sg = PLUS ∨ sg = MINUS))
      ∧ is_key st = false
  | E0 => (∃ m e sg d ds, x = m ++ e :: sg ++ d :: ds ∧ mantissa m ∧ is_exponent e = true
      ∧ (sg = [] ∨ sg = [PLUS] ∨ sg = [MINUS]) ∧ json_digits (d :: ds)) ∧ is_key st = false
  | T => x = [116] ∧ is_key st = false
  | Tr => x = [116; 114] ∧ is_key st = false
  | Tru => x = [116; 114; 117] ∧ is_key st = false
  | F => x = [102] ∧ is_key st = false
  | Fa => x = [102; 97] ∧ is_key st = false
  | Fal => x = [102; 97; 108] ∧ is_key st = false
  | Fals => x = [102; 97; 108; 115] ∧ is_key st = false
  | N => x = [110] ∧ is_key st = false
  | Nu => x = [110; 117] ∧ is_key st = false
  | Nul => x = [110; 117; 108] ∧ is_key st = false
  | BeginValueOrEmpty | BeginStringOrEmpty | EndTop | StateError => False
  end.

(** [p] was read and the scanner is in the state [f] with the stack [st]. *)
Definition reads (f : Step) (st : list ParseState) (p : list Z) : Prop :=
  match f with
  | BeginValueOrEmpty =>
      ∃ st' p0 w w', st = ParseState.ArrayValue :: st' ∧ is_key st' = false ∧ expects st' p0 ∧ ws w ∧ ws w'
        ∧ p = p0 ++ w ++ LBRACKET :: w'
  | BeginStringOrEmpty =>
      ∃ st' p0 w w', st = ParseState.ObjectKey :: st' ∧ is_key st' = false ∧ expects st' p0 ∧ ws w ∧ ws w'
        ∧ p = p0 ++ w ++ LBRACE :: w'
  | EndTop => st = [] ∧ ∃ w v, p = w ++ v ∧ ws w ∧ value v
  | _ => ∃ p0 w x, p = p0 ++ w ++ x ∧ expects st p0 ∧ ws w ∧ partial f st x
  end.

(** What the answer [r] to the byte [c], read after [p], says. *)
Definition answer_ok (p : list Z) (c : Z) (x : Scanner * ScanState) : Prop :=
  let '(s, r) := x in
  match r with
  | ScanState.Error => err s ≠ None
  | ScanState.End_ => ∃ w v, p = w ++ v ∧ ws w ∧ value v
  | _ => err s = None ∧ reads (step s) (parse_state s) (p ++ [c])
  end.

Lemma string_body_app a b : string_body a → string_body b → string_body (a ++ b).
Proof.
  intros Ha Hb. induction Ha as [| | |]; [done|..]; cbn [app].
  - by apply body_char.
  - by apply body_escape.
  - by apply body_unicode.
Qed.

Lemma error_ok p c context s : answer_ok p c (error c context s).
Proof. done. Qed.

(** A state that only extends the item at hand. *)
Lemma extend_ok f s p0 w x c :
  match f with BeginValueOrEmpty | BeginStringOrEmpty | EndTop => False | _ => True end →
  err s = None → expects (parse_state s) p0 → ws w →
  partial f (parse_state s) (x ++ [c]) →
  answer_ok (p0 ++ w ++ x) c (set_step f s, ScanState.Continue).
Proof.
  intros Hf He Hp Hw Hx. split; [done|]. cbn [step set_step parse_state].
  assert (∃ p1 w1 x1, (p0 ++ w ++ x) ++ [c] = p1 ++ w1 ++ x1 ∧ expects (parse_state s) p1 ∧ ws w1
    ∧ partial f (parse_state s) x1) as K.
  { exists p0, w, (x ++ [c]). by rewrite <- !app_assoc. }
  by destruct f.
Qed.

(** Lists that differ in the way they are put together. *)
Ltac norm_app := repeat first [rewrite <- app_assoc | progress (cbn [app])].

Lemma separated_element es w1 v w2 :
  separated elements es → ws w1 → value v → ws w2 → elements (es ++ w1 ++ v ++ w2).
Proof.
  intros [->|(es' & Hes & ->)] H1 Hv H2; [exact (elements_one _ _ _ H1 Hv H2)|].
  rewrite <- app_assoc. exact (elements_more _ _ _ _ Hes H1 Hv H2).
Qed.

Lemma separated_member ms w1 k w2 w3 v w4 :
  separated members ms → ws w1 → json_string k → ws w2 → ws w3 → value v → ws w4 →
  members (ms ++ w1 ++ k ++ w2 ++ COLON :: w3 ++ v ++ w4).
Proof.
  intros [->|(ms' & Hms & ->)] H1 Hk H2 H3 Hv H4; [exact (members_one _ _ _ _ _ _ H1 Hk H2 H3 Hv H4)|].
  rewrite <- app_assoc. exact (members_more _ _ _ _ _ _ _ Hms H1 Hk H2 H3 Hv H4).
Qed.

(** A closing bracket completes the value [v] that was opened after [p0] and [w]. *)
Lemma pop_ok s p0 w v p c r :
  err s = None → expects (tail (parse_state s)) p0 → is_key (tail (parse_state s)) = false →
  ws w → value v → p ++ [c] = p0 ++ w ++ v →
  r = ScanState.EndObject ∨ r = ScanState.EndArray → answer_ok p c (pop_parse_state s, r).
Proof.
  intros He Hp Hk Hw Hv Heq Hr.
  assert (reads (step (pop_parse_state s)) (parse_state (pop_parse_state s)) (p0 ++ w ++ v)) as K.
  { unfold pop_parse_state. cbn [parse_state set_parse_state]. destruct (tail (parse_state s)) as [|ps st].
    - split; [done|]. exists w, v. simpl in Hp. by subst p0.
    - exists p0, w, v. do 3 (split; [done|]). exists v, []. rewrite app_nil_r.
      split; [done|]. unfold item. change (is_key _) with (is_key (ps :: st)). rewrite Hk. split; [done|]. split; [constructor|done]. }
  rewrite <- Heq in K. unfold pop_parse_state in K |- *. cbn [parse_state set_parse_state] in K |- *.
  destruct Hr as [->| ->]; (split; [|exact K]); by destruct (tail (parse_state s)).
Qed.

Lemma end_value_ok s p0 w v w' c :
  err s = None → expects (parse_state s) p0 → ws w → item (is_key (parse_state s)) v → ws w' →
  (parse_state s = [] → w' = []) →
  answer_ok (p0 ++ w ++ v ++ w') c (state_end_value c s).
Proof.
  intros He Hp Hw Hv Hw' Hnil. unfold state_end_value. destruct (parse_state s) as [|ps st] eqn:Hst.
  { rewrite (Hnil eq_refl), app_nil_r. simpl in Hp. subst p0. by exists w, v. }
  destruct (is_ascii_whitespace c) eqn:Hc.
  { split; [done|]. exists p0, w, (v ++ w' ++ [c]). cbn [parse_state set_step]. rewrite Hst.
    rewrite <- !app_assoc. do 3 (split; [done|]). exists v, (w' ++ [c]). do 2 (split; [done|]).
    split; [|done]. apply Forall_app. by repeat constructor. }
  destruct ps; cbn [is_key item] in Hv; destruct Hp as (Hk & q & w0 & Hq & Hw0 & Hps).
  - destruct (c =? COLON) eqn:Hcc; [|done]. apply Z.eqb_eq in Hcc as ->. split; [done|].
    destruct Hps as (ms & Hms & ->). eexists _, [], []. cbn [app parse_state set_step set_parse_state].
    split; [by rewrite app_nil_r|]. repeat split; try done; [|constructor].
    exists q, w0. do 2 (split; [done|]). exists ms, w, v, w'. do 4 (split; [done|]).
    by norm_app.
  - destruct Hps as (ms & w1 & k & w2 & Hms & H1 & Hks & H2 & ->).
    pose proof (separated_member ms w1 k w2 w v w' Hms H1 Hks H2 Hw Hv Hw') as Hms'.
    destruct (c =? COMMA) eqn:Hcc; [|destruct (c =? RBRACE) eqn:Hcb; [|done]].
    + apply Z.eqb_eq in Hcc as ->. split; [done|].
      eexists _, [], []. cbn [app parse_state set_step set_parse_state].
      split; [by rewrite app_nil_r|]. repeat split; try done; [|constructor].
      exists q, w0. do 2 (split; [done|]). eexists. split; [right; by eexists|].
      by norm_app.
    + apply Z.eqb_eq in Hcb as ->.
      apply pop_ok with (p0 := q) (w := w0) (v := LBRACE :: (ms ++ w1 ++ k ++ w2 ++ COLON :: w ++ v ++ w') ++ [RBRACE]);
        rewrite ?Hst; auto; [by apply value_object|].
      by norm_app.
  - destruct Hps as (es & Hes & ->).
    pose proof (separated_element es w v w' Hes Hw Hv Hw') as Hes'.
    destruct (c =? COMMA) eqn:Hcc; [|destruct (c =? RBRACKET) eqn:Hcb; [|done]].
    + apply Z.eqb_eq in Hcc as ->. split; [done|].
      eexists _, [], []. cbn [app parse_state set_step]. rewrite Hst.
      split; [by rewrite app_nil_r|]. repeat split; try done; [|constructor].
      exists q, w0. do 2 (split; [done|]). eexists. split; [right; by eexists|].
      by norm_app.
    + apply Z.eqb_eq in Hcb as ->.
      apply pop_ok with (p0 := q) (w := w0) (v := LBRACKET :: (es ++ w ++ v ++ w') ++ [RBRACKET]);
        rewrite ?Hst; auto; [by apply value_array|].
      by norm_app.
Qed.

Lemma begin_value_ok s p0 w c :
  err s = None → expects (parse_state s) p0 → ws w → is_key (parse_state s) = false →
  is_ascii_whitespace c = false ∨ step s = BeginValue →
  answer_ok (p0 ++ w) c (state_begin_value c s).
Proof.
  intros He Hp Hw Hk Hc. unfold state_begin_value.
  destruct (is_ascii_whitespace c) eqn:Hws.
  { destruct Hc as [?|Hf]; [done|]. split; [done|]. rewrite Hf. exists p0, (w ++ [c]), [].
    rewrite app_nil_r, <- app_assoc. repeat split; try done. apply Forall_app. by repeat constructor. }
  clear Hc. destruct (c =? LBRACE) eqn:H1.
  { apply Z.eqb_eq in H1 as ->. split; [done|]. exists (parse_state s), p0, w, [].
    repeat split; try done; [constructor|]. by rewrite <- app_assoc. }
  destruct (c =? LBRACKET) eqn:H2.
  { apply Z.eqb_eq in H2 as ->. split; [done|]. exists (parse_state s), p0, w, [].
    repeat split; try done; [constructor|]. by rewrite <- app_assoc. }
  rewrite <- (app_nil_r w).
  repeat match goal with
         | |- context [if ?t then _ else _] => let H := fresh "Hc" in destruct t eqn:H
         end; try done;
    (apply extend_ok; [done..|]); cbn [app partial];
    repeat match goal with H : (c =? _) = true |- _ => apply Z.eqb_eq in H as -> end;
    try done.
  - exists []. by split; [|constructor].
  - split; [|done]. apply (integer_zero []). auto.
  - split; [|done]. exists [], c, []. repeat split; auto; [lia|constructor].
Qed.

Lemma begin_string_ok s p0 w c :
  err s = None → expects (parse_state s) p0 → ws w → is_key (parse_state s) = true →
  is_ascii_whitespace c = false ∨ step s = BeginString →
  answer_ok (p0 ++ w) c (state_begin_string c s).
Proof.
  intros He Hp Hw Hk Hc. unfold state_begin_string.
  destruct (is_ascii_whitespace c) eqn:Hws.
  { destruct Hc as [?|Hf]; [done|]. split; [done|]. rewrite Hf. exists p0, (w ++ [c]), [].
    rewrite app_nil_r, <- app_assoc. repeat split; try done. apply Forall_app. by repeat constructor. }
  destruct (c =? QUOTE) eqn:Hq; [|done]. apply Z.eqb_eq in Hq as ->.
  rewrite <- (app_nil_r w). apply extend_ok; [done..|]. exists []. by split; [|constructor].
Qed.

(** In a state whose item [x] is complete. *)
Lemma complete_ok s p0 w x c :
  err s = None → expects (parse_state s) p0 → ws w → item (is_key (parse_state s)) x →
  answer_ok (p0 ++ w ++ x) c (state_end_value c s).
Proof.
  intros He Hp Hw Hx. rewrite <- (app_nil_r x). apply end_value_ok; try done. constructor.
Qed.

Lemma number_item st n : is_key st = false → number n → item (is_key st) n.
Proof. intros -> Hn. by apply value_number. Qed.

(** The states inside a string. *)
Definition in_string_state (f : Step) : bool :=
  match f with
  | InString | InStringEsc | InStringEscU | InStringEscU1 | InStringEscU12 | InStringEscU123 => true
  | _ => false
  end.

Definition call_string (c : Z) (s : Scanner) : Scanner * ScanState :=
  match step s with
  | InString => state_in_string c s
  | InStringEsc => state_in_string_esc c s
  | InStringEscU => state_in_string_esc_u c s
  | InStringEscU1 => state_in_string_esc_u1 c s
  | InStringEscU12 => state_in_string_esc_u12 c s
  | _ => state_in_string_esc_u123 c s
  end.

(** A test that succeeds moves on to a state given by [extend_ok]; one that fails
    is an error. *)
Ltac extend_if := match goal with
  | |- answer_ok _ _ (if ?t then _ else _) =>
      let H := fresh "Hc" in destruct t eqn:H; [apply extend_ok; [done..|]|try exact (error_ok _ _ _ _)]
  end.

Lemma string_state_ok s p0 w x c :
  err s = None → expects (parse_state s) p0 → ws w → partial (step s) (parse_state s) x →
  in_string_state (step s) = true → answer_ok (p0 ++ w ++ x) c (call_string c s).
Proof.
  intros He Hp Hw Hx Hf. unfold call_string. destruct (step s) eqn:Hs; try discriminate; cbn [partial] in Hx.
  - destruct Hx as (b & -> & Hb). unfold state_in_string. extend_if.
    { apply Z.eqb_eq in Hc as ->. exists (QUOTE :: b ++ [QUOTE]), [].
      split; [by rewrite app_nil_r|]. split; [|split; [constructor|done]].
      destruct (is_key _); [|apply value_string]; by constructor. }
    extend_if.
    { apply Z.eqb_eq in Hc0 as ->. exists b. by norm_app. }
    destruct (c <? 32) eqn:H32; [done|]. rewrite <- (app_nil_r w) at 1.
    replace (s, ScanState.Continue) with (set_step InString s, ScanState.Continue)
      by (destruct s; cbn in Hs |- *; by subst).
    rewrite app_nil_r. apply extend_ok; [done..|]. exists (b ++ [c]). split; [by norm_app|].
    apply string_body_app; [done|]. apply body_char; [lia..|constructor].
  - destruct Hx as (b & -> & Hb). unfold state_in_string_esc. extend_if.
    { exists (b ++ [BACKSLASH; c]). split; [by norm_app|]. apply string_body_app; [done|].
      apply body_escape; [done|constructor]. }
    extend_if. apply Z.eqb_eq in Hc0 as ->. exists b. by norm_app.
  - destruct Hx as (b & -> & Hb). unfold state_in_string_esc_u. extend_if.
    exists b, c. split; [by norm_app|]. by repeat constructor.
  - destruct Hx as (b & h1 & -> & Hb & Hh). unfold state_in_string_esc_u1. extend_if.
    exists b, h1, c. split; [by norm_app|]. split; [done|]. inversion Hh; subst. by repeat constructor.
  - destruct Hx as (b & h1 & h2 & -> & Hb & Hh). unfold state_in_string_esc_u12. extend_if.
    exists b, h1, h2, c. split; [by norm_app|]. split; [done|].
    apply (Forall_app_2 _ [h1; h2] [c]); [done|]. by repeat constructor.
  - destruct Hx as (b & h1 & h2 & h3 & -> & Hb & Hh). unfold state_in_string_esc_u123. extend_if.
    exists (b ++ [BACKSLASH; 117; h1; h2; h3; c]). split; [by norm_app|]. apply string_body_app; [done|].
    apply body_unicode; [|constructor]. apply (Forall_app_2 _ [h1; h2; h3] [c]); [done|]. by repeat constructor.
Qed.

(** The states inside a literal. *)
Definition in_literal_state (f : Step) : bool :=
  match f with T | Tr | Tru | F | Fa | Fal | Fals | N | Nu | Nul => true | _ => false end.

Lemma literal_state_ok s p0 w x c :
  err s = None → expects (parse_state s) p0 → ws w → partial (step s) (parse_state s) x →
  in_literal_state (step s) = true → ∃ y, call_step c s = Some y ∧ answer_ok (p0 ++ w ++ x) c y.
Proof.
  intros He Hp Hw Hx Hf. unfold call_step.
  destruct (step s) eqn:Hs; try discriminate; cbn [partial] in Hx; destruct Hx as [-> Hk];
    (eexists; split; [reflexivity|]); unfold state_t, state_tr, state_tru, state_f, state_fa, state_fal,
      state_fals, state_n, state_nu, state_nul, state_letter; extend_if; apply Z.eqb_eq in Hc as ->;
    try done; (eexists _, []; split; [by rewrite app_nil_r|]); rewrite Hk;
    (split; [|split; [constructor|done]]); constructor.
Qed.

(** The states inside a number. *)
Definition in_number_state (f : Step) : bool :=
  match f with Neg | State1 | State0 | Dot | Dot0 | E | ESign | E0 => true | _ => false end.

Lemma digits_snoc ds c : json_digits ds → is_digit c = true → json_digits (ds ++ [c]).
Proof. intros Hds Hc. apply Forall_app. by repeat constructor. Qed.

Lemma state0_ok s p0 w x c :
  err s = None → expects (parse_state s) p0 → ws w → integer x → is_key (parse_state s) = false →
  answer_ok (p0 ++ w ++ x) c (state0 c s).
Proof.
  intros He Hp Hw Hx Hk. unfold state0. extend_if.
  { apply Z.eqb_eq in Hc as ->. split; [|done]. by exists x. }
  extend_if.
  { split; [|done]. exists x, c. repeat split; try done. by apply mantissa_integer. }
  apply complete_ok; try done. apply number_item; [done|]. by apply number_mantissa, mantissa_integer.
Qed.

Lemma stay_ok s p0 w x c :
  match step s with BeginValueOrEmpty | BeginStringOrEmpty | EndTop => False | _ => True end →
  err s = None → expects (parse_state s) p0 → ws w → partial (step s) (parse_state s) (x ++ [c]) →
  answer_ok (p0 ++ w ++ x) c (s, ScanState.Continue).
Proof.
  intros Hf He Hp Hw Hx. replace s with (set_step (step s) s) at 1 by (by destruct s).
  by apply extend_ok.
Qed.

Lemma e_sign_ok s p0 w m e sg c :
  err s = None → expects (parse_state s) p0 → ws w → is_key (parse_state s) = false →
  mantissa m → is_exponent e = true → sg = [] ∨ sg = [PLUS] ∨ sg = [MINUS] →
  answer_ok (p0 ++ w ++ m ++ e :: sg) c (state_e_sign c s).
Proof.
  intros He Hp Hw Hk Hm Hex Hsg. unfold state_e_sign. extend_if. split; [|done].
  exists m, e, sg, c, []. split; [by norm_app|]. repeat split; try done. by repeat constructor.
Qed.

Lemma number_state_ok s p0 w x c :
  err s = None → expects (parse_state s) p0 → ws w → partial (step s) (parse_state s) x →
  in_number_state (step s) = true → ∃ y, call_step c s = Some y ∧ answer_ok (p0 ++ w ++ x) c y.
Proof.
  intros He Hp Hw Hx Hf. unfold call_step.
  destruct (step s) eqn:Hs; try discriminate; cbn [partial] in Hx; destruct Hx as [Hx Hk];
    (eexists; split; [reflexivity|]).
  - subst x. unfold state_neg. extend_if.
    { apply Z.eqb_eq in Hc as ->. split; [|done]. apply (integer_zero [MINUS]). auto. }
    extend_if. split; [|done]. exists [MINUS], c, []. repeat split; auto; [lia|constructor].
  - destruct Hx as (sg & d & ds & -> & Hsg & Hd & Hd0 & Hds). unfold state1. extend_if.
    { split; [|done]. exists sg, d, (ds ++ [c]). split; [by norm_app|]. auto using digits_snoc. }
    apply state0_ok; try done. by apply integer_digits.
  - by apply state0_ok.
  - destruct Hx as (i & -> & Hi). unfold state_dot. extend_if. split; [|done].
    exists i, c, []. split; [by norm_app|]. split; [done|]. by repeat constructor.
  - destruct Hx as (i & d & ds & -> & Hi & Hds). unfold state_dot0.
    destruct (is_digit c) eqn:Hc.
    { apply stay_ok; rewrite ?Hs; try done. split; [|done]. exists i, d, (ds ++ [c]).
      split; [by norm_app|]. split; [done|]. by apply (digits_snoc (d :: ds)). }
    extend_if.
    { split; [|done]. exists (i ++ DOT :: d :: ds), c. split; [done|]. split; [|done].
      by apply mantissa_fraction. }
    apply complete_ok; try done. apply number_item; [done|]. by apply number_mantissa, mantissa_fraction.
  - destruct Hx as (m & e & -> & Hm & Hex). unfold state_e. extend_if.
    { split; [|done]. exists m, e, c. split; [by norm_app|]. repeat split; try done. lia. }
    apply e_sign_ok; auto.
  - destruct Hx as (m & e & sg & -> & Hm & Hex & Hsg). apply (e_sign_ok s p0 w m e [sg]); try done.
    destruct Hsg as [->| ->]; auto.
  - destruct Hx as (m & e & sg & d & ds & -> & Hm & Hex & Hsg & Hds). unfold state_e0.
    destruct (is_digit c) eqn:Hc.
    { apply stay_ok; rewrite ?Hs; try done. split; [|done]. exists m, e, sg, d, (ds ++ [c]).
      split; [by norm_app|]. repeat split; try done. by apply (digits_snoc (d :: ds)). }
    apply complete_ok; try done. apply number_item; [done|]. by apply number_exponent.
Qed.

(** Every byte is answered, and the answer is right. *)
Lemma call_step_ok s p c :
  err s = None → reads (step s) (parse_state s) p →
  ∃ y, call_step c s = Some y ∧ answer_ok p c y.
Proof.
  intros He Hr. destruct (in_literal_state (step s)) eqn:Hl.
  { assert (∃ p0 w x, p = p0 ++ w ++ x ∧ expects (parse_state s) p0 ∧ ws w
      ∧ partial (step s) (parse_state s) x) as (p0 & w & x & -> & Hp & Hw & Hx) by (by destruct (step s)).
    by apply literal_state_ok. }
  destruct (in_number_state (step s)) eqn:Hn.
  { assert (∃ p0 w x, p = p0 ++ w ++ x ∧ expects (parse_state s) p0 ∧ ws w
      ∧ partial (step s) (parse_state s) x) as (p0 & w & x & -> & Hp & Hw & Hx) by (by destruct (step s)).
    by apply number_state_ok. }
  destruct (in_string_state (step s)) eqn:Hi.
  { assert (∃ p0 w x, p = p0 ++ w ++ x ∧ expects (parse_state s) p0 ∧ ws w
      ∧ partial (step s) (parse_state s) x) as (p0 & w & x & -> & Hp & Hw & Hx) by (by destruct (step s)).
    exists (call_string c s). split; [|by apply string_state_ok].
    unfold call_step, call_string. by destruct (step s). }
  unfold call_step. destruct (step s) eqn:Hs; try discriminate; cbn [reads] in Hr;
    first [destruct Hr as (st & p0 & w & w' & Hst & Hk & Hp & Hw & Hw' & ->)
          |destruct Hr as (p0 & w & x & -> & Hp & Hw & Hx)
          |destruct Hr as (Hst & w & v & -> & Hw & Hv)].
  - destruct Hx as [-> Hk]. rewrite app_nil_r. eexists. split; [done|]. apply begin_value_ok; auto.
  - eexists. split; [done|]. unfold state_begin_value_or_empty.
    destruct (is_ascii_whitespace c) eqn:Hc.
    { split; [done|]. rewrite Hs. exists st, p0, w, (w' ++ [c]). repeat split; try done; [|by norm_app].
      apply Forall_app. by repeat constructor. }
    destruct (c =? RBRACKET) eqn:Hcb.
    + apply Z.eqb_eq in Hcb as ->. unfold state_end_value. rewrite Hst. cbv iota.
      apply pop_ok with (p0 := p0) (w := w) (v := LBRACKET :: w' ++ [RBRACKET]); rewrite ?Hst; auto;
        [by apply value_empty_array|by norm_app].
    + replace (p0 ++ w ++ LBRACKET :: w') with ((p0 ++ w ++ [LBRACKET]) ++ w') by (by norm_app).
      apply begin_value_ok; rewrite ?Hst; auto. split; [done|]. exists p0, w. do 2 (split; [done|]).
      exists []. split; [by left|done].
  - unfold state_begin_string_or_empty. destruct (is_ascii_whitespace c) eqn:Hc.
    { eexists. split; [done|]. split; [done|]. rewrite Hs. exists st, p0, w, (w' ++ [c]).
      repeat split; try done; [|by norm_app]. apply Forall_app. by repeat constructor. }
    destruct (c =? RBRACE) eqn:Hcb.
    + apply Z.eqb_eq in Hcb as ->. rewrite Hst. eexists. split; [done|].
      unfold state_end_value. cbn [parse_state set_parse_state]. cbv iota.
      apply pop_ok with (p0 := p0) (w := w) (v := LBRACE :: w' ++ [RBRACE]); auto;
        [by apply value_empty_object|by norm_app].
    + eexists. split; [done|].
      replace (p0 ++ w ++ LBRACE :: w') with ((p0 ++ w ++ [LBRACE]) ++ w') by (by norm_app).
      apply begin_string_ok; rewrite ?Hst; auto. split; [done|]. exists p0, w. do 2 (split; [done|]).
      exists []. split; [by left|done].
  - destruct Hx as [-> Hk]. rewrite app_nil_r. eexists. split; [done|]. apply begin_string_ok; auto.
  - destruct Hx as (v & w' & -> & Hv & Hw' & Hnil). eexists. split; [done|]. by apply end_value_ok.
  - eexists. split; [done|]. by exists w, v.
  - done.
Qed.

Lemma reads_begin : reads BeginValue [] [].
Proof. by exists [], [], []; repeat split; constructor. Qed.
