(* ===== verification/JsonDecoder.v ===== *)
(** * The streaming JSON decoder ([httpx/decoder.rs])

    The decoder reads the body of an HTTP answer as it arrives, value by value
    ([decode]) or token by token ([token]), looking ahead with [more].

    [Decoder] is the decoder of the source: [d_r] holds the items the stream yields
    until it ends, chunks or errors, so an [await] takes the next one.  The loops
    that refill the buffer recur on that list, and [token_loop] takes fuel, of which
    two rounds are enough ([token_returns]).  The theorems are about [rest], the
    bytes not consumed yet, however they are cut into chunks. *)

From S2P Require Import Prelude Text HttpxError JsonScanner.

Module TokenState.
Inductive TokenState : Type :=
| TopValue | ArrayStart | ArrayValue | ArrayComma | ObjectStart | ObjectKey | ObjectColon
| ObjectValue | ObjectComma.
End TokenState.
Abbreviation TokenState := TokenState.TokenState.

#[global] Instance token_state_eq_dec : EqDecision TokenState.
Proof. solve_decision. Defined.

Module Token.
Inductive Token : Type :=
| Delim (c : Z)
| String_ (s : string)
| Value (v : list Z).
End Token.
Abbreviation Token := Token.Token.

#[global] Instance token_eq_dec : EqDecision Token.
Proof. solve_decision. Defined.

Record Decoder : Type := mkDecoder {
  d_r : list (outcome HttpxError (list Z));
  d_buf : list Z;
  d_scanp : nat;
  d_scanned : nat;
  d_scan : Scanner;
  d_err : option HttpxError;
  d_token_state : TokenState;
  d_token_stack : list TokenState
}.

Definition decoder_new (r : list (outcome HttpxError (list Z))) : Decoder :=
  mkDecoder r [] 0 0 scanner_new None TokenState.TopValue [].

Definition set_scanp (n : nat) (d : Decoder) : Decoder :=
  mkDecoder (d_r d) (d_buf d) n (d_scanned d) (d_scan d) (d_err d) (d_token_state d) (d_token_stack d).
Definition set_scan (s : Scanner) (d : Decoder) : Decoder :=
  mkDecoder (d_r d) (d_buf d) (d_scanp d) (d_scanned d) s (d_err d) (d_token_state d) (d_token_stack d).
Definition set_err (e : HttpxError) (d : Decoder) : Decoder :=
  mkDecoder (d_r d) (d_buf d) (d_scanp d) (d_scanned d) (d_scan d) (Some e) (d_token_state d) (d_token_stack d).
Definition set_token_state (t : TokenState) (d : Decoder) : Decoder :=
  mkDecoder (d_r d) (d_buf d) (d_scanp d) (d_scanned d) (d_scan d) (d_err d) t (d_token_stack d).
Definition set_token_stack (ts : list TokenState) (d : Decoder) : Decoder :=
  mkDecoder (d_r d) (d_buf d) (d_scanp d) (d_scanned d) (d_scan d) (d_err d) (d_token_state d) ts.

Definition buffered (d : Decoder) : list Z := drop (d_scanp d) (d_buf d).

Definition input_offset (d : Decoder) : nat := (d_scanned d + d_scanp d)%nat.

Definition unexpected_eof : HttpxError := httpx_message_error "unexpected EOF".

(** ** Reading a value *)

(** The scan of the bytes in the buffer, from position [n] of the value: it ends
    before or after a byte, at a byte that is refused, or with the bytes. *)
Inductive ScanResult : Type :=
| Found (n : nat) (s : Scanner)
| Refused (e : HttpxError) (s : Scanner)
| Crashed
| Drained (n : nat) (s : Scanner).

Fixpoint scan_bytes (l : list Z) (n : nat) (s : Scanner) : ScanResult :=
  match l with
  | [] => Drained n s
  | c :: l =>
      match call_step c (incr_bytes 1 s) with
      | None => Crashed
      | Some (s, ScanState.End_) => Found n (incr_bytes (-1) s)
      | Some (s, ScanState.EndObject) | Some (s, ScanState.EndArray) =>
          match call_step SPACE s with
          | None => Crashed
          | Some (s, ScanState.End_) => Found (S n) s
          | Some (s, _) => scan_bytes l (S n) s
          end
      | Some (s, ScanState.Error) =>
          match err s with Some e => Refused e s | None => Crashed end
      | Some (s, _) => scan_bytes l (S n) s
      end
  end.

(** Bytes already consumed are dropped from the buffer first. *)
Definition refill (d : Decoder) : Decoder * option (outcome HttpxError unit) :=
  let d := mkDecoder (d_r d) (buffered d) 0 (input_offset d) (d_scan d) (d_err d)
             (d_token_state d) (d_token_stack d) in
  match d_r d with
  | [] => (d, None)
  | item :: r =>
      let buf := match item with Ok chunk => d_buf d ++ chunk | _ => d_buf d end in
      (mkDecoder r buf (d_scanp d) (d_scanned d) (d_scan d) (d_err d) (d_token_state d) (d_token_stack d),
       Some (match item with Ok _ => Ok tt | Err e => Err e | Panic => Panic end))
  end.

(** The stream has ended and the [n] bytes left are no complete value yet. *)
Definition read_value_eof (n : nat) (d : Decoder) : Decoder * outcome HttpxError nat :=
  match call_step SPACE (d_scan d) with
  | None => (d, Panic)
  | Some (s, ScanState.End_) => (set_scan s d, Ok n)
  | Some (s, _) =>
      let d := set_scan s d in
      let d := if existsb (λ b, negb (is_ascii_whitespace b)) (d_buf d) then set_err unexpected_eof d else d in
      (d, match d_err d with Some e => Err e | None => Ok n end)
  end.

(** [r] is the stream of [d], which every round shortens; [n] bytes are scanned. *)
Fixpoint read_value_loop (r : list (outcome HttpxError (list Z))) (n : nat)
    (res : option (outcome HttpxError unit)) (d : Decoder) : Decoder * outcome HttpxError nat :=
  match scan_bytes (drop n (buffered d)) n (d_scan d) with
  | Found n s => (set_scan s d, Ok n)
  | Refused e s => (set_err e (set_scan s d), Err e)
  | Crashed => (d, Panic)
  | Drained n s =>
      let d := set_scan s d in
      match res with
      | Some (Err e) => (set_err e d, Err e)
      | Some Panic => (d, Panic)
      | _ =>
          let '(d, res) := refill d in
          match r with
          | [] => read_value_eof n d
          | _ :: r => read_value_loop r n res d
          end
      end
  end.

Definition read_value (d : Decoder) : Decoder * outcome HttpxError nat :=
  read_value_loop (d_r d) 0 None (set_scan (reset (d_scan d)) d).

(** ** Peeking *)

Fixpoint peek_loop (r : list (outcome HttpxError (list Z))) (res : option (outcome HttpxError unit))
    (d : Decoder) : Decoder * option (outcome HttpxError Z) :=
  match list_find (λ c, is_ascii_whitespace c = false) (buffered d) with
  | Some (i, c) => (set_scanp (d_scanp d + i) d, Some (Ok c))
  | None =>
      match res with
      | Some (Err e) => (d, Some (Err e))
      | Some Panic => (d, Some Panic)
      | _ =>
          let '(d, res) := refill d in
          match r with
          | [] => (d, None)
          | _ :: r => peek_loop r res d
          end
      end
  end.

Definition peek (d : Decoder) : Decoder * option (outcome HttpxError Z) := peek_loop (d_r d) None d.

(** ** Calls of the decoder *)

(** A call on a state [S]: it changes the state and returns a result. *)
Definition calls (S A : Type) : Type := S → S * outcome HttpxError A.

#[global] Instance calls_ret {S} : MRet (calls S) := λ A a s, (s, Ok a).
#[global] Instance calls_bind {S} : MBind (calls S) := λ A B f m s,
  match m s with
  | (s, Ok a) => f a s
  | (s, Err e) => (s, Err e)
  | (s, Panic) => (s, Panic)
  end.

Abbreviation dec := (calls Decoder).

Definition fail {S A} (e : HttpxError) : calls S A := λ s, (s, Err e).
Definition lift {S A} (r : outcome HttpxError A) : calls S A := λ s, (s, r).
Definition modify {S} (f : S → S) : calls S unit := λ s, (f s, Ok tt).

(** [self.scanp += n]. *)
Definition advance (n : nat) (d : Decoder) : Decoder := set_scanp (d_scanp d + n) d.

(** The byte a token begins with; the end of the stream is an error. *)
Definition peek_token : dec Z := λ d,
  let '(d, c) := peek d in (d, match c with Some c => c | None => Err unexpected_eof end).

(** Whether another element or member follows. *)
Definition more (d : Decoder) : Decoder * bool :=
  let '(d, c) := peek d in
  (d, match c with
      | Some (Ok c) => negb (c =? RBRACKET) && negb (c =? RBRACE)
      | _ => false
      end).

(** ** Values *)

Definition trim_start (l : list Z) : list Z :=
  match list_find (λ c, is_ascii_whitespace c = false) l with
  | Some (i, _) => drop i l
  | None => []
  end.

Definition trim_ascii (l : list Z) : list Z := reverse (trim_start (reverse (trim_start l))).

(** The separator before a value, which must be the byte [sep]. *)
Definition expect_separator (sep : Z) (next : TokenState) (msg : string) : dec unit :=
  c ← peek_token;
  if negb (c =? sep) then fail (httpx_message_error msg)
  else modify (λ d, set_token_state next (advance 1 d)).

Definition token_prepare_for_decode : dec unit := λ d,
  match d_token_state d with
  | TokenState.ArrayComma =>
      expect_separator COMMA TokenState.ArrayValue "expected comma after array element" d
  | TokenState.ObjectColon =>
      expect_separator COLON TokenState.ObjectValue "expected colon after object key" d
  | _ => (d, Ok tt)
  end.

Definition token_value_allowed (d : Decoder) : bool :=
  match d_token_state d with
  | TokenState.TopValue | TokenState.ArrayStart | TokenState.ArrayValue | TokenState.ObjectValue => true
  | _ => false
  end.

Definition token_value_end (d : Decoder) : Decoder :=
  match d_token_state d with
  | TokenState.ArrayStart | TokenState.ArrayValue => set_token_state TokenState.ArrayComma d
  | TokenState.ObjectValue => set_token_state TokenState.ObjectComma d
  | _ => d
  end.

(** The next [n] bytes of the buffer, [self.buf[self.scanp..self.scanp + n]]. *)
Definition take_value (n : nat) : dec (list Z) := λ d,
  match slice (Z.of_nat (d_scanp d)) (Z.of_nat (d_scanp d + n)) (d_buf d) with
  | Ok val => (advance n d, Ok val)
  | Err e => (d, Err e)
  | Panic => (d, Panic)
  end.

(** The bytes of the next value. *)
Definition next_value : dec (list Z) := n ← read_value; take_value n.

Definition decode : dec (list Z) := λ d,
  match d_err d with
  | Some e => (d, Err e)
  | None =>
      (_ ← token_prepare_for_decode;
       _ ← (λ d, if negb (token_value_allowed d) then (d, Err (httpx_message_error "not at beginning of value"))
                 else (d, Ok tt));
       val ← next_value;
       _ ← modify token_value_end;
       mret (trim_ascii val)) d
  end.

(** ** Tokens *)

Definition token_error {A} (c : Z) : dec A := λ d,
  let context :=
    match d_token_state d with
    | TokenState.TopValue => " looking for beginning of value"
    | TokenState.ArrayStart | TokenState.ArrayValue | TokenState.ObjectValue =>
        " looking for beginning of value"
    | TokenState.ArrayComma => " after array element"
    | TokenState.ObjectKey => " looking for beginning of object key string"
    | TokenState.ObjectColon => " after object key"
    | TokenState.ObjectComma => " after object key:value pair"
    | TokenState.ObjectStart => ""
    end in
  (d, Err (httpx_message_error ("invalid character " +:+ quote_char c +:+ context))).

(** [self.token_stack.push(self.token_state)] and the state of the new container. *)
Definition open_container (start : TokenState) (d : Decoder) : Decoder :=
  set_token_state start (set_token_stack (d_token_state d :: d_token_stack d) (advance 1 d)).

(** [self.token_state = self.token_stack.pop().unwrap()], and the end of the value. *)
Definition close_container : dec unit := λ d,
  match d_token_stack (advance 1 d) with
  | [] => (advance 1 d, Panic)
  | t :: ts => (token_value_end (set_token_state t (set_token_stack ts (advance 1 d))), Ok tt)
  end.

Section Tokens.
(** [serde_json::from_slice] into a string: an error is its text. *)
Context (from_slice_string : list Z → string + string).

Definition object_key : dec Token :=
  _ ← modify (set_token_state TokenState.TopValue);
  decoded ← decode;
  x ← lift (match from_slice_string decoded with
            | inl e => Err (httpx_message_error e)
            | inr x => Ok x
            end);
  _ ← modify (set_token_state TokenState.ObjectColon);
  mret (Token.String_ x).

Definition value_token (c : Z) : dec Token := λ d,
  if negb (token_value_allowed d) then token_error c d
  else (decoded ← decode; mret (Token.Value decoded)) d.

(** One round of the loop of [token], at the byte [c]: [None] goes round again. *)
Definition token_at (c : Z) : dec (option Token) := λ d,
  let state := d_token_state d in
  if c =? LBRACKET then
    if negb (token_value_allowed d) then token_error c d
    else (open_container TokenState.ArrayStart d, Ok (Some (Token.Delim c)))
  else if c =? RBRACKET then
    if negb (bool_decide (state = TokenState.ArrayStart)) && negb (bool_decide (state = TokenState.ArrayComma))
    then token_error c d
    else (_ ← close_container; mret (Some (Token.Delim c))) d
  else if c =? LBRACE then
    if negb (token_value_allowed d) then token_error c d
    else (open_container TokenState.ObjectStart d, Ok (Some (Token.Delim c)))
  else if c =? RBRACE then
    if negb (bool_decide (state = TokenState.ObjectStart)) && negb (bool_decide (state = TokenState.ObjectComma))
    then token_error c d
    else (_ ← close_container; mret (Some (Token.Delim c))) d
  else if c =? COLON then
    if negb (bool_decide (state = TokenState.ObjectColon)) then token_error c d
    else (set_token_state TokenState.ObjectValue (advance 1 d), Ok None)
  else if c =? COMMA then
    if bool_decide (state = TokenState.ArrayComma) then
      (set_token_state TokenState.ArrayValue (advance 1 d), Ok None)
    else if bool_decide (state = TokenState.ObjectComma) then
      (set_token_state TokenState.ObjectKey (advance 1 d), Ok None)
    else token_error c d
  else if (c =? QUOTE) && (bool_decide (state = TokenState.ObjectStart) || bool_decide (state = TokenState.ObjectKey))
  then (t ← object_key; mret (Some t)) d
  else (t ← value_token c; mret (Some t)) d.

Definition token_round : dec (option Token) := c ← peek_token; token_at c.

(** [None]: the fuel is used up. *)
Fixpoint token_loop (fuel : nat) (d : Decoder) : option (Decoder * outcome HttpxError Token) :=
  match fuel with
  | O => None
  | S fuel =>
      match token_round d with
      | (d, Ok (Some t)) => Some (d, Ok t)
      | (d, Ok None) => token_loop fuel d
      | (d, Err e) => Some (d, Err e)
      | (d, Panic) => Some (d, Panic)
      end
  end.

Definition token : dec Token := λ d, default (d, Panic) (token_loop 2 d).
End Tokens.

(** ** The scan of the bytes in hand *)

(** Every function of the automaton but [state_end_value]. *)
Ltac unfold_states :=
  unfold call_step, state_begin_value_or_empty, state_begin_value, state_begin_string_or_empty,
    state_begin_string, state_end_top, state_in_string, state_in_string_esc, state_in_string_esc_u,
    state_in_string_esc_u1, state_in_string_esc_u12, state_in_string_esc_u123, state_neg, state1, state0,
    state_dot, state_dot0, state_e, state_e_sign, state_e0, state_t, state_tr, state_tru, state_f, state_fa,
    state_fal, state_fals, state_n, state_nu, state_nul, state_letter, state_error, push_parse_state, error.

(** The answers that close a container are given by [pop_parse_state], which also is
    the only way to the top. *)
Lemma bracket_pops c s s' r :
  call_step c s = Some (s', r) → r = ScanState.EndObject ∨ r = ScanState.EndArray →
  ∃ s0, s' = pop_parse_state s0.
Proof.
  assert (∀ s, state_end_value c s = (s', r) → r = ScanState.EndObject ∨ r = ScanState.EndArray →
    ∃ s0, s' = pop_parse_state s0) as K.
  { intros s1 H Hr. unfold state_end_value, state_end_top, error in H.
    repeat case_match; simplify_eq; destruct Hr; try done; eauto. }
  unfold_states.
  intros H Hr. destruct (step s); repeat case_match; simplify_eq; first [by destruct Hr | by eapply K].
Qed.

Lemma top_answers c s s' r :
  call_step c s = Some (s', r) → step s ≠ EndTop → step s' = EndTop →
  r = ScanState.End_ ∨ r = ScanState.EndObject ∨ r = ScanState.EndArray.
Proof.
  assert (∀ s, state_end_value c s = (s', r) → step s ≠ EndTop → step s' = EndTop →
    r = ScanState.End_ ∨ r = ScanState.EndObject ∨ r = ScanState.EndArray) as K.
  { intros s1 H Hs Hs'. unfold state_end_value, state_end_top, error in H.
    repeat case_match; simplify_eq; try done; auto. }
  unfold_states.
  intros H Hs Hs'. destruct (step s) eqn:Hf; repeat case_match; simplify_eq; cbn in Hs';
    first [by eapply K; [done|cbn; congruence|done] | congruence | auto].
Qed.

(** The step with a space after a closing bracket only tells the top apart. *)
Lemma bracket_space s0 :
  let s := pop_parse_state s0 in
  call_step SPACE s = Some (s, match parse_state s with [] => ScanState.End_ | _ => ScanState.SkipSpace end)
  ∧ (parse_state s = [] ↔ step s = EndTop).
Proof. destruct s0 as [f et [|p [|p' st]] e b]; done. Qed.

Lemma scan_bytes_app l k n s :
  scan_bytes (l ++ k) n s
  = match scan_bytes l n s with Drained n s => scan_bytes k n s | r => r end.
Proof.
  revert n s. induction l as [|c l IH]; intros n s; [done|]. cbn [scan_bytes app].
  destruct (call_step c (incr_bytes 1 s)) as [[s' []]|]; try apply IH; try done;
    try (destruct (call_step SPACE s') as [[s'' []]|]; try apply IH; done).
  by destruct (err s').
Qed.

(** What a scan from a state reached by reading [p] finds. *)
Definition scan_ok (p l : list Z) (n : nat) (r : ScanResult) : Prop :=
  match r with
  | Found m s => (n ≤ m ≤ n + length l)%nat ∧ ∃ w v, p ++ take (m - n) l = w ++ v ∧ ws w ∧ value v
  | Refused _ _ => True
  | Crashed => False
  | Drained m s => m = (n + length l)%nat ∧ err s = None ∧ reads (step s) (parse_state s) (p ++ l)
  end.

Lemma scan_ok_cons p c l n r : scan_ok (p ++ [c]) l (S n) r → scan_ok p (c :: l) n r.
Proof.
  destruct r as [m s|e s| |m s]; cbn [scan_ok length]; try done.
  - intros ([? ?] & w & v & Heq & Hw & Hv). split; [lia|]. exists w, v. split; [|done].
    replace (m - n)%nat with (S (m - S n)) by lia. cbn [take]. by rewrite <- Heq, <- app_assoc.
  - intros (-> & He & Hr). split; [lia|]. by rewrite <- app_assoc in Hr.
Qed.

Lemma scan_bytes_ok l : ∀ p n s,
  err s = None → reads (step s) (parse_state s) p → scan_ok p l n (scan_bytes l n s).
Proof.
  induction l as [|c l IH]; intros p n s He Hr; cbn [scan_bytes].
  { cbn [scan_ok length]. rewrite app_nil_r. auto with lia. }
  destruct (call_step_ok (incr_bytes 1 s) p c He Hr) as ([s' r] & Hstep & Hans). rewrite Hstep.
  assert ((r = ScanState.EndObject ∨ r = ScanState.EndArray) →
    scan_ok p (c :: l) n
      match call_step SPACE s' with
      | Some (s, ScanState.End_) => Found (S n) s
      | Some (s, _) => scan_bytes l (S n) s
      | None => Crashed
      end) as Hbracket.
  { intros Hrb. destruct (bracket_pops _ _ _ _ Hstep Hrb) as [s0 ->].
    destruct (bracket_space s0) as [-> Htop]. cbv beta in Htop.
    assert (err (pop_parse_state s0) = None ∧ reads (step (pop_parse_state s0))
      (parse_state (pop_parse_state s0)) (p ++ [c])) as [He' Hr'] by (by destruct Hrb as [->| ->]).
    destruct (parse_state (pop_parse_state s0)) as [|x st] eqn:Hst.
    - rewrite (proj1 Htop eq_refl) in Hr'. destruct Hr' as (_ & w & v & Heq & Hw & Hv).
      cbn [scan_ok length]. split; [lia|]. exists w, v.
      replace (S n - n)%nat with 1%nat by lia. cbn [take]. by rewrite take_0.
    - apply scan_ok_cons, IH; [done|]. by rewrite Hst. }
  destruct r; try (by apply Hbracket; auto); try (destruct Hans; by apply scan_ok_cons, IH).
  - destruct Hans as (w & v & -> & Hw & Hv). cbn [scan_ok length]. split; [lia|]. exists w, v.
    by rewrite Nat.sub_diag, take_0, app_nil_r.
  - cbn [answer_ok] in Hans. by destruct (err s').
Qed.

Lemma scan_feed l : ∀ n s s',
  feed s l = Some s' → step s ≠ EndTop →
  scan_bytes l n s =
    match step s' with EndTop => Found (n + length l) s' | _ => Drained (n + length l) s' end.
Proof.
  induction l as [|c l IH]; intros n s s' H Hs; cbn [feed scan_bytes length] in H |- *.
  { simplify_eq. rewrite Nat.add_0_r. by destruct (step s'). }
  destruct (call_step c (incr_bytes 1 s)) as [[s1 r]|] eqn:Hstep; [|done].
  replace (n + S (length l))%nat with (S n + length l)%nat by lia.
  assert ((r = ScanState.EndObject ∨ r = ScanState.EndArray) → feed s1 l = Some s' →
      match call_step SPACE s1 with
      | Some (s, ScanState.End_) => Found (S n) s
      | Some (s, _) => scan_bytes l (S n) s
      | None => Crashed
      end = match step s' with EndTop => Found (S n + length l) s' | _ => Drained (S n + length l) s' end)
    as Hbracket.
  { intros Hrb H'. destruct (bracket_pops _ _ _ _ Hstep Hrb) as [s0 ->].
    destruct (bracket_space s0) as [-> Htop]. cbv beta in Htop.
    destruct (parse_state (pop_parse_state s0)) as [|x st] eqn:Hst.
    - assert (step (pop_parse_state s0) = EndTop) as Ht by tauto.
      destruct l as [|c' l]; cbn [feed length] in H' |- *.
      + simplify_eq. by rewrite Ht, Nat.add_0_r.
      + exfalso. unfold call_step in H'. change (step (incr_bytes 1 ?s)) with (step s) in H'.
        by rewrite Ht in H'.
    - apply IH; [done|]. intros Ht. apply Htop in Ht. done. }
  assert (step s1 = EndTop → r = ScanState.End_ ∨ r = ScanState.EndObject ∨ r = ScanState.EndArray) as Htop
    by (by eapply top_answers).
  destruct r; try done; try (by apply Hbracket; auto);
    (apply IH; [done|]; intros Ht; destruct (Htop Ht) as [|[|]]; done).
Qed.

(** ** However the text is cut

    What is left to read, as one list, and with it all a call can observe. *)

Definition chunks (r : list (outcome HttpxError (list Z))) : list Z :=
  concat ((λ item, match item with Ok c => c | _ => [] end) <$> r).

Definition rest (d : Decoder) : list Z := buffered d ++ chunks (d_r d).

(** The position is in the buffer and the stream has no errors. *)
Definition sound (d : Decoder) : Prop :=
  (d_scanp d ≤ length (d_buf d))%nat ∧ Forall (λ item, is_ok item = true) (d_r d).

Record View : Type := mkView {
  v_rest : list Z;
  v_offset : nat;
  v_scan : Scanner;
  v_err : option HttpxError;
  v_token_state : TokenState;
  v_token_stack : list TokenState
}.

Definition view (d : Decoder) : View :=
  mkView (rest d) (input_offset d) (d_scan d) (d_err d) (d_token_state d) (d_token_stack d).

(** The view after [n] bytes. *)
Definition skip (n : nat) (v : View) : View :=
  mkView (drop n (v_rest v)) (v_offset v + n) (v_scan v) (v_err v) (v_token_state v) (v_token_stack v).

Definition view_scan (s : Scanner) (v : View) : View :=
  mkView (v_rest v) (v_offset v) s (v_err v) (v_token_state v) (v_token_stack v).

Definition view_err (e : option HttpxError) (v : View) : View :=
  mkView (v_rest v) (v_offset v) (v_scan v) e (v_token_state v) (v_token_stack v).

Lemma refill_ok d :
  sound d →
  let '(d', res) := refill d in
  sound d' ∧ view d' = view d ∧ d_scanp d' = 0%nat
  ∧ match d_r d with
    | [] => res = None ∧ d_r d' = [] ∧ d_buf d' = rest d
    | _ :: r => res = Some (Ok tt) ∧ d_r d' = r ∧ ∃ c, buffered d' = buffered d ++ c
    end.
Proof.
  intros [Hp Hr]. unfold refill. cbn [d_r].
  destruct (d_r d) as [|item r] eqn:Hdr.
  - unfold sound, view, rest, buffered, input_offset. cbn. rewrite Hdr. cbn.
    repeat split; [lia|constructor|..]; try done; [|by rewrite app_nil_r].
    f_equal. lia.
  - apply list.Forall_cons in Hr as [Hi Hr]. destruct item as [c| |]; try done.
    unfold sound, view, rest, buffered, input_offset. cbn. rewrite Hdr. cbn.
    repeat split; [lia|done|..]; try done; [|by exists c].
    f_equal; [by rewrite drop_0, <- app_assoc|lia].
Qed.

Lemma advance_view n d :
  (d_scanp d + n ≤ length (d_buf d))%nat → Forall (λ item, is_ok item = true) (d_r d) →
  sound (advance n d) ∧ view (advance n d) = skip n (view d).
Proof.
  intros Hn Hr. split; [done|]. unfold view, skip, rest, buffered, input_offset. cbn. f_equal; [|lia].
  rewrite drop_app_le by (rewrite length_drop; lia). by rewrite drop_drop.
Qed.

(** The first byte that is no whitespace, and where it is. *)
Definition first_byte (l : list Z) : option (nat * Z) := list_find (λ c, is_ascii_whitespace c = false) l.

Lemma peek_loop_ok r : ∀ res d,
  r = d_r d → sound d → match res with Some (Err _) | Some Panic => False | _ => True end →
  let '(d', c) := peek_loop r res d in
  sound d' ∧
  match first_byte (rest d) with
  | Some (i, b) => c = Some (Ok b) ∧ view d' = skip i (view d) ∧ (d_scanp d' < length (d_buf d'))%nat
  | None => c = None ∧ view d' = view d
  end.
Proof.
  induction r as [|item r IH]; intros res d Hdr Hd Hres; cbn [peek_loop]; fold (first_byte (buffered d));
    unfold rest; rewrite <- Hdr; destruct (first_byte (buffered d)) as [[i b]|] eqn:Hf.
  1, 3: unfold first_byte in Hf |- *; rewrite (list_find_app_l _ _ _ _ _ Hf);
    apply list_find_Some in Hf as (Hi & _); apply lookup_lt_Some in Hi; unfold buffered in Hi;
    rewrite length_drop in Hi; destruct Hd as [Hp Hr];
    destruct (advance_view i d) as [Hs Hv]; [lia|done|];
    (split; [exact Hs|split; [done|split; [exact Hv|cbn; lia]]]).
  - destruct res as [[]|]; try done;
      pose proof (refill_ok d Hd) as Hrf; destruct (refill d) as [d' res']; destruct Hrf as (Hd' & Hv & _);
      cbn [chunks fmap list_fmap concat]; rewrite app_nil_r, Hf; done.
  - assert (let '(d', c) := let '(d, res) := refill d in peek_loop r res d in
      sound d' ∧ match first_byte (buffered d ++ chunks (item :: r)) with
        | Some (i, b) => c = Some (Ok b) ∧ view d' = skip i (view d) ∧ (d_scanp d' < length (d_buf d'))%nat
        | None => c = None ∧ view d' = view d end) as K.
    { pose proof (refill_ok d Hd) as Hrf. destruct (refill d) as [d1 res1].
      destruct Hrf as (Hd1 & Hv & _ & Hm). rewrite <- Hdr in Hm. destruct Hm as (-> & Hr1 & _).
      specialize (IH (Some (Ok tt)) d1 (eq_sym Hr1) Hd1 I). destruct (peek_loop r (Some (Ok tt)) d1) as [d' c].
      replace (buffered d ++ chunks (item :: r)) with (rest d1); [by rewrite <- Hv|].
      rewrite Hdr. exact (f_equal v_rest Hv). }
    destruct res as [[]|]; try done; exact K.
Qed.

Lemma peek_ok d :
  sound d →
  let '(d', c) := peek d in
  sound d' ∧
  match first_byte (rest d) with
  | Some (i, b) => c = Some (Ok b) ∧ view d' = skip i (view d) ∧ (d_scanp d' < length (d_buf d'))%nat
  | None => c = None ∧ view d' = view d
  end.
Proof. intros Hd. by apply peek_loop_ok. Qed.

(** [read_value] with the whole text in hand. *)
Definition read_flat (v : View) : View * outcome HttpxError nat :=
  match scan_bytes (v_rest v) 0 (reset (v_scan v)) with
  | Found n s => (view_scan s v, Ok n)
  | Refused e s => (view_err (Some e) (view_scan s v), Err e)
  | Crashed => (v, Panic)
  | Drained n s =>
      match call_step SPACE s with
      | None => (v, Panic)
      | Some (s, ScanState.End_) => (view_scan s v, Ok n)
      | Some (s, _) =>
          let v := view_scan s v in
          let v := if existsb (λ b, negb (is_ascii_whitespace b)) (v_rest v)
                   then view_err (Some unexpected_eof) v else v in
          (v, match v_err v with Some e => Err e | None => Ok n end)
      end
  end.

(** The call [x] left a sound decoder, with the view and the result [y], and a value
    that was found is in the buffer. *)
Definition agrees (x : Decoder * outcome HttpxError nat) (y : View * outcome HttpxError nat) : Prop :=
  sound (fst x) ∧ (view (fst x), snd x) = y
  ∧ ∀ n, snd x = Ok n → (d_scanp (fst x) + n ≤ length (d_buf (fst x)))%nat.

Lemma view_eta s d : view (set_scan s d) = view_scan s (view d).
Proof. done. Qed.

Lemma sound_scan s d : sound d → sound (set_scan s d).
Proof. done. Qed.

Lemma scan_reset_ok l s : scan_ok [] l 0 (scan_bytes l 0 (reset s)).
Proof. apply scan_bytes_ok; [done|]. apply reads_begin. Qed.

Lemma scan_found_bound l s n s' : scan_bytes l 0 (reset s) = Found n s' → (n ≤ length l)%nat.
Proof. intros H. pose proof (scan_reset_ok l s) as K. rewrite H in K. destruct K as [? _]. lia. Qed.

Lemma read_value_eof_ok n d s :
  sound d → d_r d = [] → d_buf d = rest d → d_scanp d = 0%nat → n = length (rest d) →
  scan_bytes (rest d) 0 (reset s) = Drained n (d_scan d) →
  agrees (read_value_eof n d) (read_flat (view_scan s (view d))).
Proof.
  intros Hd Hr Hb Hp Hn Hscan. unfold read_flat.
  change (v_rest (view_scan s (view d))) with (rest d).
  change (v_scan (view_scan s (view d))) with s. rewrite Hscan. unfold read_value_eof.
  pose proof (scan_reset_ok (rest d) s) as Hok. rewrite Hscan in Hok. destruct Hok as (_ & He & Hreads).
  destruct (call_step_ok _ _ SPACE He Hreads) as ([s' r] & Hstep & _). rewrite Hstep.
  assert (d_scanp d + n ≤ length (d_buf d))%nat as Hlen by (rewrite Hb, Hp, Hn; lia).
  destruct (bool_decide (r = ScanState.End_)) eqn:Hend.
  { apply bool_decide_eq_true in Hend as ->. split; [done|]. split; [done|]. intros m [= <-]. exact Hlen. }
  apply bool_decide_eq_false in Hend.
  assert (∀ (A : Type) (a b : A), match r with ScanState.End_ => a | _ => b end = b) as Hr'
    by (by destruct r).
  rewrite !Hr'. cbn [set_scan d_buf view_scan v_rest]. change (v_rest (view d)) with (rest d). rewrite <- Hb.
  destruct (existsb _ (d_buf d)); (split; [done|]; split; [done|]); intros m Hm; cbn in Hm |- *; [done|].
  destruct (d_err d); simplify_eq. exact Hlen.
Qed.

Lemma read_loop_ok s r : ∀ n res d,
  r = d_r d → sound d → match res with Some (Err _) | Some Panic => False | _ => True end →
  (n ≤ length (buffered d))%nat →
  scan_bytes (take n (buffered d)) 0 (reset s) = Drained n (d_scan d) →
  agrees (read_value_loop r n res d) (read_flat (view_scan s (view d))).
Proof.
  induction r as [|item r IH]; intros n res d Hdr Hd Hres Hn Hscan;
    (assert (scan_bytes (buffered d) 0 (reset s) = scan_bytes (drop n (buffered d)) n (d_scan d)) as Hbuf
      by (by rewrite <- (take_drop n (buffered d)) at 1; rewrite scan_bytes_app, Hscan));
    (assert (scan_bytes (rest d) 0 (reset s)
      = match scan_bytes (buffered d) 0 (reset s) with
        | Drained n s => scan_bytes (chunks (d_r d)) n s | x => x end) as Hrest by apply scan_bytes_app);
    cbn [read_value_loop]; rewrite <- Hbuf; pose proof (scan_reset_ok (buffered d) s) as Hok;
    destruct (scan_bytes (buffered d) 0 (reset s)) as [m s'|e s'| |m s'] eqn:Hs; try done.
  1, 4: unfold read_flat; change (v_rest (view_scan s (view d))) with (rest d);
    change (v_scan (view_scan s (view d))) with s; rewrite Hrest; (split; [done|]; split; [done|]);
    intros k [= <-]; destruct Hok as [Hk _]; unfold buffered in Hk; rewrite length_drop in Hk;
    destruct Hd as [? _]; cbn; lia.
  1, 3: unfold read_flat; change (v_rest (view_scan s (view d))) with (rest d);
    change (v_scan (view_scan s (view d))) with s; rewrite Hrest; by (split; [done|]; split).
  - destruct Hok as [Hm _]. rewrite Nat.add_0_l in Hm.
    assert (agrees (let '(d, _) := refill (set_scan s' d) in read_value_eof m d)
      (read_flat (view_scan s (view d)))) as K.
    { pose proof (refill_ok (set_scan s' d) Hd) as Hrf. destruct (refill (set_scan s' d)) as [d1 res1].
      destruct Hrf as (Hd1 & Hv & Hp1 & Hm1). cbn [set_scan d_r] in Hm1. rewrite <- Hdr in Hm1.
      destruct Hm1 as (_ & Hr1 & Hb1).
      assert (rest d1 = rest d) as Hr1' by exact (f_equal v_rest Hv).
      assert (d_scan d1 = s') as Hs1 by exact (f_equal v_scan Hv).
      replace (view_scan s (view d)) with (view_scan s (view d1)) by (by rewrite Hv).
      rewrite <- Hdr in Hrest. apply read_value_eof_ok; try done.
      - by rewrite Hr1'.
      - rewrite Hr1'. unfold rest. by rewrite <- Hdr, app_nil_r.
      - by rewrite Hr1', Hs1, Hrest. }
    destruct res as [[]|]; try done; by destruct (refill (set_scan s' d)).
  - destruct Hok as [Hm _]. rewrite Nat.add_0_l in Hm.
    assert (agrees (let '(d, res) := refill (set_scan s' d) in read_value_loop r m res d)
      (read_flat (view_scan s (view d)))) as K.
    { pose proof (refill_ok (set_scan s' d) Hd) as Hrf. destruct (refill (set_scan s' d)) as [d1 res1].
      destruct Hrf as (Hd1 & Hv & Hp1 & Hm1). cbn [set_scan d_r] in Hm1. rewrite <- Hdr in Hm1.
      destruct Hm1 as (-> & Hr1 & c & Hb1). change (buffered (set_scan s' d)) with (buffered d) in Hb1.
      assert (d_scan d1 = s') as Hs1 by exact (f_equal v_scan Hv).
      replace (view_scan s (view d)) with (view_scan s (view d1)) by (by rewrite Hv).
      apply IH; try done.
      - rewrite Hb1, length_app. lia.
      - rewrite Hb1, take_app_le by lia. rewrite take_ge by lia. by rewrite Hs, Hs1. }
    destruct res as [[]|]; try done; by destruct (refill (set_scan s' d)).
Qed.

Lemma read_value_ok d : sound d → agrees (read_value d) (read_flat (view d)).
Proof.
  intros Hd. unfold read_value.
  change (read_flat (view d)) with (read_flat (view_scan (d_scan d) (view (set_scan (reset (d_scan d)) d)))).
  by apply read_loop_ok; [done|done|done|cbn; lia|cbn].
Qed.

(** [next_value] with the whole text in hand. *)
Definition next_flat (v : View) : View * outcome HttpxError (list Z) :=
  match read_flat v with
  | (v, Ok n) => (skip n v, Ok (take n (v_rest v)))
  | (v, Err e) => (v, Err e)
  | (v, Panic) => (v, Panic)
  end.

Lemma take_value_ok n d :
  sound d → (d_scanp d + n ≤ length (d_buf d))%nat →
  take_value n d = (advance n d, Ok (take n (rest d))).
Proof.
  intros [Hp Hr] Hn. unfold take_value, slice.
  assert ((0 <=? Z.of_nat (d_scanp d)) && (Z.of_nat (d_scanp d) <=? Z.of_nat (d_scanp d + n))
    && (Z.of_nat (d_scanp d + n) <=? blen (d_buf d)) = true) as ->  by (rewrite !andb_true_iff, !Z.leb_le; unfold blen; lia).
  do 2 f_equal. unfold rest, buffered. rewrite take_app_le by (rewrite length_drop; lia).
  f_equal; [lia|]. by rewrite Nat2Z.id.
Qed.

Lemma next_value_ok d :
  sound d → sound (fst (next_value d)) ∧ (view (fst (next_value d)), snd (next_value d)) = next_flat (view d).
Proof.
  intros Hd. pose proof (read_value_ok d Hd) as (Hs & Hv & Hn).
  unfold next_value, next_flat. unfold mbind, calls_bind.
  destruct (read_value d) as [d' [n|e|]]; cbn [fst snd] in *; rewrite <- Hv; [|done..].
  specialize (Hn n eq_refl). rewrite take_value_ok by done.
  destruct (advance_view n d') as [Hs' Hv']; [done|apply Hs|]. cbn [fst snd].
  split; [done|]. by rewrite Hv'.
Qed.

(** Decoders that have the same text left, cut in their own ways. *)
Definition same_text (d1 d2 : Decoder) : Prop := sound d1 ∧ sound d2 ∧ view d1 = view d2.

Definition same_result {A} : relation (Decoder * A) := prod_relation same_text eq.

#[global] Instance same_text_per : RelationClasses.PER same_text.
Proof. split; unfold same_text; [intros d1 d2|intros d1 d2 d3]; intuition congruence. Qed.

(** A call that answers the same and stays in step however the text is cut. *)
Abbreviation respects m := (Proper (same_text ==> same_result) m).

#[global] Instance dec_ret_respects {A} (a : A) : respects (mret (M:=dec) a).
Proof. intros d1 d2 Hd. by split. Qed.

#[global] Instance fail_respects {A} e : respects (fail (A:=A) e).
Proof. intros d1 d2 Hd. by split. Qed.

#[global] Instance lift_respects {A} (r : outcome HttpxError A) : respects (lift r).
Proof. intros d1 d2 Hd. by split. Qed.

#[global] Instance modify_respects f : Proper (same_text ==> same_text) f → respects (modify f).
Proof. intros Hf d1 d2 Hd. split; [by apply Hf|done]. Qed.

#[global] Instance set_token_state_proper t : Proper (same_text ==> same_text) (set_token_state t).
Proof.
  intros d1 d2 (H1 & H2 & Hv). split; [exact H1|split; [exact H2|]].
  exact (f_equal (λ v, mkView (v_rest v) (v_offset v) (v_scan v) (v_err v) t (v_token_stack v)) Hv).
Qed.

#[global] Instance set_token_stack_proper ts : Proper (same_text ==> same_text) (set_token_stack ts).
Proof.
  intros d1 d2 (H1 & H2 & Hv). split; [exact H1|split; [exact H2|]].
  exact (f_equal (λ v, mkView (v_rest v) (v_offset v) (v_scan v) (v_err v) (v_token_state v) ts) Hv).
Qed.

Lemma same_state d1 d2 : same_text d1 d2 → d_token_state d1 = d_token_state d2.
Proof. intros (_ & _ & Hv). exact (f_equal v_token_state Hv). Qed.

Lemma same_stack d1 d2 : same_text d1 d2 → d_token_stack d1 = d_token_stack d2.
Proof. intros (_ & _ & Hv). exact (f_equal v_token_stack Hv). Qed.

#[global] Instance token_value_end_proper : Proper (same_text ==> same_text) token_value_end.
Proof.
  intros d1 d2 Hd. unfold token_value_end. rewrite (same_state d1 d2 Hd).
  destruct (d_token_state d2); try exact Hd; by apply set_token_state_proper.
Qed.

Lemma dec_bind_respects {A B} (m : dec A) (f : A → dec B) :
  respects m → (∀ a, respects (f a)) → respects (m ≫= f).
Proof.
  intros Hm Hf d1 d2 Hd. destruct (Hm d1 d2 Hd) as [H1 H2].
  unfold mbind, calls_bind. destruct (m d1) as [d1' r1], (m d2) as [d2' r2]; cbn in H1, H2. subst r2.
  destruct r1; [by apply Hf|done..].
Qed.

#[global] Instance next_value_respects : respects next_value.
Proof.
  intros d1 d2 (H1 & H2 & Hv). destruct (next_value_ok d1 H1) as [H1' Hv1], (next_value_ok d2 H2) as [H2' Hv2].
  rewrite Hv in Hv1. rewrite <- Hv2 in Hv1. apply pair_equal_spec in Hv1 as [Hv' Hr]. done.
Qed.

(** A byte was seen: the position is inside the buffer. *)
Definition has_byte (d : Decoder) : Prop := (d_scanp d < length (d_buf d))%nat.

Lemma peek_same d1 d2 :
  same_text d1 d2 → same_result (peek d1) (peek d2)
    ∧ (snd (peek d1) ≠ None → has_byte (fst (peek d1)) ∧ has_byte (fst (peek d2))).
Proof.
  intros (H1 & H2 & Hv). pose proof (peek_ok d1 H1) as K1. pose proof (peek_ok d2 H2) as K2.
  destruct (peek d1) as [d1' c1], (peek d2) as [d2' c2]. destruct K1 as [H1' K1], K2 as [H2' K2].
  assert (rest d1 = rest d2) as Hr by exact (f_equal v_rest Hv). rewrite <- Hr in K2. cbn [fst snd].
  destruct (first_byte (rest d1)) as [[i b]|].
  - destruct K1 as (-> & Hv1 & Hb1), K2 as (-> & Hv2 & Hb2). split; [|done]. split; [|done].
    split; [done|]. split; [done|]. cbn. by rewrite Hv1, Hv2, Hv.
  - destruct K1 as [-> Hv1], K2 as [-> Hv2]. split; [|done]. split; [|done].
    split; [done|]. split; [done|]. cbn. by rewrite Hv1, Hv2.
Qed.

Lemma more_respects : Proper (same_text ==> same_result) more.
Proof.
  intros d1 d2 Hd. destruct (peek_same d1 d2 Hd) as [[K Hc] _]. unfold more.
  destruct (peek d1), (peek d2). cbn in K, Hc. by subst.
Qed.

Lemma bind_peek_respects {A} (f : Z → dec A) :
  (∀ c d1 d2, same_text d1 d2 → has_byte d1 → has_byte d2 → same_result (f c d1) (f c d2)) →
  respects (peek_token ≫= f).
Proof.
  intros Hf d1 d2 Hd. destruct (peek_same d1 d2 Hd) as [[K Hc] Hb].
  unfold mbind, calls_bind, peek_token. destruct (peek d1) as [d1' c1], (peek d2) as [d2' c2].
  cbn in K, Hc, Hb. subst c2. destruct c1 as [c|]; [|done].
  destruct Hb as [Hb1 Hb2]; [done|]. destruct c; [by apply Hf|done..].
Qed.

Lemma advance_same d1 d2 :
  same_text d1 d2 → has_byte d1 → has_byte d2 → same_text (advance 1 d1) (advance 1 d2).
Proof.
  intros ([H1 Hr1] & [H2 Hr2] & Hv) Hb1 Hb2.
  destruct (advance_view 1 d1) as [Hs1 Hv1]; [red in Hb1; lia|done|].
  destruct (advance_view 1 d2) as [Hs2 Hv2]; [red in Hb2; lia|done|].
  split; [done|]. split; [done|]. by rewrite Hv1, Hv2, Hv.
Qed.

Lemma expect_separator_respects sep next msg : respects (expect_separator sep next msg).
Proof.
  apply bind_peek_respects. intros c d1 d2 Hd H1 H2. destruct (negb (c =? sep)); [by split|].
  split; [|done]. by apply set_token_state_proper, advance_same.
Qed.

#[global] Instance decode_respects : respects decode.
Proof.
  intros d1 d2 Hd. unfold decode.
  assert (d_err d1 = d_err d2) as -> by (destruct Hd as (_ & _ & Hv); exact (f_equal v_err Hv)).
  destruct (d_err d2); [by split|]. revert d1 d2 Hd.
  apply dec_bind_respects.
  { intros d1 d2 Hd. unfold token_prepare_for_decode. rewrite (same_state d1 d2 Hd).
    destruct (d_token_state d2); try (by split); by apply expect_separator_respects. }
  intros _. apply dec_bind_respects.
  { intros d1 d2 Hd. unfold token_value_allowed. rewrite (same_state d1 d2 Hd).
    destruct (d_token_state d2); by split. }
  intros _. apply dec_bind_respects; [apply _|]. intros val.
  apply dec_bind_respects; apply _.
Qed.

Section TokenFacts.
Context (from_slice_string : list Z → string + string).

Lemma object_key_respects : respects (object_key from_slice_string).
Proof. repeat (apply dec_bind_respects; [apply _|intros ?]). apply _. Qed.

Lemma value_token_respects c : respects (value_token c).
Proof.
  intros d1 d2 Hd. unfold value_token, token_value_allowed, token_error. rewrite (same_state d1 d2 Hd).
  assert (respects (decoded ← decode; mret (M:=dec) (Token.Value decoded))) as K
    by (apply dec_bind_respects; apply _).
  destruct (d_token_state d2); first [by apply K | by split].
Qed.

Lemma close_container_same d1 d2 :
  same_text d1 d2 → has_byte d1 → has_byte d2 → same_result (close_container d1) (close_container d2).
Proof.
  intros Hd H1 H2. pose proof (advance_same d1 d2 Hd H1 H2) as Ha. unfold close_container.
  rewrite (same_stack _ _ Ha). destruct (d_token_stack (advance 1 d2)) as [|t ts]; [by split|].
  split; [|done]. by apply token_value_end_proper, set_token_state_proper, set_token_stack_proper.
Qed.

Lemma token_at_same c d1 d2 :
  same_text d1 d2 → has_byte d1 → has_byte d2 →
  same_result (token_at from_slice_string c d1) (token_at from_slice_string c d2).
Proof.
  intros Hd H1 H2. pose proof (advance_same d1 d2 Hd H1 H2) as Ha.
  assert (∀ A, same_result (token_error (A:=A) c d1) (token_error c d2)) as Herr.
  { intros A. unfold token_error. rewrite (same_state d1 d2 Hd). by split. }
  assert (∀ t, same_result ((_ ← close_container; mret (M:=dec) (Some (Token.Delim t))) d1)
    ((_ ← close_container; mret (M:=dec) (Some (Token.Delim t))) d2)) as Hclose.
  { intros t. destruct (close_container_same d1 d2 Hd H1 H2) as [K1 K2]. unfold mbind, calls_bind.
    destruct (close_container d1) as [d1' r1], (close_container d2) as [d2' r2]; cbn in K1, K2. subst r2.
    by destruct r1. }
  assert (∀ start t, same_result (open_container start d1, Ok (E:=HttpxError) (Some (Token.Delim t)))
    (open_container start d2, Ok (Some (Token.Delim t)))) as Hopen.
  { intros start t. split; [|done]. unfold open_container.
    rewrite (same_state _ _ Hd), (same_stack _ _ Hd).
    by apply set_token_state_proper, set_token_stack_proper. }
  assert (∀ s, same_result (set_token_state s (advance 1 d1), Ok (E:=HttpxError) (@None Token))
    (set_token_state s (advance 1 d2), Ok None)) as Hskip.
  { intros s. split; [|done]. by apply set_token_state_proper. }
  unfold token_at, token_value_allowed. rewrite (same_state d1 d2 Hd).
  assert (respects (t ← object_key from_slice_string; mret (M:=dec) (Some t))) as Hkey
    by (apply dec_bind_respects; [apply object_key_respects|apply _]).
  assert (respects (t ← value_token c; mret (M:=dec) (Some t))) as Hval
    by (apply dec_bind_respects; [apply value_token_respects|apply _]).
  repeat match goal with |- same_result (if ?b then _ else _) _ => destruct b; cbv iota end;
    first [apply Herr | apply Hclose | apply Hopen | apply Hskip | by apply Hkey | by apply Hval].
Qed.

Lemma token_round_respects : respects (token_round from_slice_string).
Proof. apply bind_peek_respects. intros c d1 d2. apply token_at_same. Qed.

#[global] Instance token_respects : respects (token from_slice_string).
Proof.
  assert (∀ fuel d1 d2, same_text d1 d2 →
    match token_loop from_slice_string fuel d1, token_loop from_slice_string fuel d2 with
    | Some x1, Some x2 => same_result x1 x2
    | None, None => True
    | _, _ => False
    end) as K.
  { induction fuel as [|fuel IH]; intros d1 d2 Hd; [done|]. cbn [token_loop].
    destruct (token_round_respects d1 d2 Hd) as [K1 K2].
    destruct (token_round from_slice_string d1) as [d1' r1], (token_round from_slice_string d2) as [d2' r2].
    cbn in K1, K2. subst r2. destruct r1 as [[t|]| |]; [done|by apply IH|done..]. }
  intros d1 d2 Hd. specialize (K 2%nat d1 d2 Hd). unfold token.
  destruct (token_loop from_slice_string 2 d1), (token_loop from_slice_string 2 d2); done.
Qed.

(** A round that goes round again leaves a state in which the next one does not. *)
Lemma peek_state d : d_token_state (fst (peek d)) = d_token_state d.
Proof.
  unfold peek. generalize (@None (outcome HttpxError unit)). generalize (d_r d) as r. intros r. revert d.
  induction r as [|item r IH]; intros d res; cbn [peek_loop];
    destruct (list_find _ (buffered d)) as [[i c]|]; try done;
    (assert (d_token_state (fst (refill d)) = d_token_state d) as Hrf
      by (unfold refill; cbn; by destruct (d_r d)));
    destruct res as [[]|]; try done; destruct (refill d) as [d' res']; cbn in Hrf;
    first [done | by rewrite <- Hrf; apply IH].
Qed.

Lemma token_again d d' :
  token_round from_slice_string d = (d', Ok None) →
  d_token_state d' ∈ [TokenState.ObjectValue; TokenState.ArrayValue; TokenState.ObjectKey].
Proof.
  unfold token_round, peek_token, mbind, calls_bind. destruct (peek d) as [d1 [[c| |]|]]; try done.
  unfold token_at, token_error, mbind, calls_bind, mret, calls_ret.
  intros H. repeat case_match; simplify_eq; cbn; set_solver.
Qed.

Lemma token_not_again d d' :
  d_token_state d ∈ [TokenState.ObjectValue; TokenState.ArrayValue; TokenState.ObjectKey] →
  token_round from_slice_string d ≠ (d', Ok None).
Proof.
  intros Hs H. rewrite <- (peek_state d) in Hs.
  unfold token_round, peek_token, mbind, calls_bind in H.
  destruct (peek d) as [d1 [[c| |]|]]; try done. cbn [fst] in Hs.
  unfold token_at, token_error, mbind, calls_bind, mret, calls_ret in H.
  rewrite !elem_of_cons, elem_of_nil in Hs.
  destruct Hs as [Hs|[Hs|[Hs|[]]]]; rewrite Hs in H; cbn in H; repeat case_match; simplify_eq.
Qed.

(** Two rounds are enough. *)
Lemma token_returns d : token_loop from_slice_string 2 d ≠ None.
Proof.
  cbn [token_loop]. destruct (token_round from_slice_string d) as [d1 [[t|]| |]] eqn:H1; try done.
  destruct (token_round from_slice_string d1) as [d2 [[t|]| |]] eqn:H2; try done.
  exfalso. exact (token_not_again d1 d2 (token_again d d1 H1) H2).
Qed.
End TokenFacts.

(** ** Sequences of calls *)

Inductive Call : Type := CallDecode | CallToken | CallMore.

Inductive Answer : Type :=
| Decoded (r : outcome HttpxError (list Z))
| Tokenized (r : outcome HttpxError Token)
| HasMore (b : bool).

Section Calls.
Context (from_slice_string : list Z → string + string).

Definition call_decoder (c : Call) (d : Decoder) : Decoder * Answer :=
  match c with
  | CallDecode => let '(d, r) := decode d in (d, Decoded r)
  | CallToken => let '(d, r) := token from_slice_string d in (d, Tokenized r)
  | CallMore => let '(d, b) := more d in (d, HasMore b)
  end.

Fixpoint run_calls (cs : list Call) (d : Decoder) : list Answer :=
  match cs with
  | [] => []
  | c :: cs => let '(d, a) := call_decoder c d in a :: run_calls cs d
  end.

Lemma run_calls_same cs d1 d2 : same_text d1 d2 → run_calls cs d1 = run_calls cs d2.
Proof.
  revert d1 d2. induction cs as [|c cs IH]; intros d1 d2 Hd; [done|]. cbn [run_calls].
  assert (same_result (call_decoder c d1) (call_decoder c d2)) as [K1 K2].
  { destruct c; cbn [call_decoder].
    - destruct (decode_respects d1 d2 Hd) as [K1 K2]. destruct (decode d1), (decode d2). cbn in K1, K2.
      by subst.
    - destruct (token_respects from_slice_string d1 d2 Hd) as [K1 K2].
      destruct (token from_slice_string d1), (token from_slice_string d2). cbn in K1, K2. by subst.
    - destruct (more_respects d1 d2 Hd) as [K1 K2]. destruct (more d1), (more d2). cbn in K1, K2.
      by subst. }
  destruct (call_decoder c d1), (call_decoder c d2). cbn in K1, K2. subst. f_equal. by apply IH.
Qed.

Lemma sound_new (cs : list (list Z)) : sound (decoder_new (Ok <$> cs)).
Proof. split; [cbn; lia|]. cbn. apply Forall_fmap, Forall_true. done. Qed.

Lemma rest_new (cs : list (list Z)) : rest (decoder_new (Ok <$> cs)) = concat cs.
Proof. unfold rest, chunks. cbn. rewrite <- list_fmap_compose. f_equal. apply list_fmap_id. Qed.

(** The decoder reads the text, not the chunks: two streams that carry the same
    bytes, cut anywhere, give the same answers to any sequence of calls, errors
    included. *)
Lemma chunks_do_not_matter cs1 cs2 calls :
  concat cs1 = concat cs2 →
  run_calls calls (decoder_new (Ok <$> cs1)) = run_calls calls (decoder_new (Ok <$> cs2)).
Proof.
  intros Hcs. apply run_calls_same. split; [apply sound_new|]. split; [apply sound_new|].
  unfold view. rewrite !rest_new. by rewrite Hcs.
Qed.
End Calls.

Lemma chunks_do_not_matter_example :
  run_calls (λ _, inr "k") [CallToken; CallToken; CallMore; CallDecode; CallToken]
    (decoder_new (Ok <$> [str_bytes "{ "; [34; 107]; [34; 58; 49]; str_bytes "23}"]))
  = run_calls (λ _, inr "k") [CallToken; CallToken; CallMore; CallDecode; CallToken]
    (decoder_new (Ok <$> [str_bytes "{ " ++ [34; 107; 34; 58] ++ str_bytes "123}"])).
Proof. apply (chunks_do_not_matter (λ _, inr "k")). reflexivity. Defined.

(** ** Values of the grammar *)

(** The byte after a value does not continue a number. *)
Definition stops (t : list Z) : Prop := match t with [] => True | c :: _ => number_char c = false end.

Lemma feed_text s w v :
  ws w → value v →
  ∃ s', feed (reset s) (w ++ v) = Some s' ∧ after_value [] (sc_bytes s + blen w + blen v) s'.
Proof.
  intros Hw Hv. change (reset s) with (inside BeginValue [] (sc_bytes s)).
  rewrite feed_app, feed_ws by auto. cbn [mbind option_bind]. by apply scan_value.
Qed.

Lemma scan_text s w v t :
  ws w → value v → stops t →
  (∃ s', scan_bytes (w ++ v ++ t) 0 (reset s) = Found (length (w ++ v)) s')
  ∨ t = [] ∧ ∃ s' s'', scan_bytes (w ++ v ++ t) 0 (reset s) = Drained (length (w ++ v)) s'
      ∧ call_step SPACE s' = Some (s'', ScanState.End_).
Proof.
  intros Hw Hv Ht. destruct (feed_text s w v Hw Hv) as (s' & Hf & Hafter).
  rewrite app_assoc, scan_bytes_app. rewrite (scan_feed _ 0 _ _ Hf) by done.
  destruct Hafter as [(f & Hends & ->)|[_ ->]]; [|left; by eexists].
  cbn [step inside]. set (b := sc_bytes s + blen w + blen v).
  assert (match f with EndTop => Found (0 + length (w ++ v)) (inside f [] b)
    | _ => Drained (0 + length (w ++ v)) (inside f [] b) end = Drained (length (w ++ v)) (inside f [] b))
    as -> by (by destruct f).
  destruct t as [|c t].
  - right. split; [done|]. eexists _, _. split; [reflexivity|]. by rewrite call_step_ends.
  - left. cbn [scan_bytes]. change (incr_bytes 1 (inside f [] b)) with (inside f [] (b + 1)).
    rewrite call_step_ends by done. unfold state_end_value, state_end_top. cbn [parse_state inside].
    by eexists.
Qed.

Lemma next_flat_value v w x t :
  v_rest v = w ++ x ++ t → ws w → value x → stops t →
  ∃ s, next_flat v = (skip (length (w ++ x)) (view_scan s v), Ok (w ++ x)).
Proof.
  intros Hr Hw Hx Ht. unfold next_flat, read_flat. rewrite Hr.
  destruct (scan_text (v_scan v) w x t Hw Hx Ht) as [(s' & ->)|(-> & s' & s'' & -> & ->)].
  - exists s'. do 2 f_equal. cbn. rewrite Hr, app_assoc. by rewrite take_app_length.
  - exists s''. do 2 f_equal. cbn. rewrite Hr, app_nil_r. by rewrite firstn_all.
Qed.

Lemma ws_existsb l : existsb (λ b, negb (is_ascii_whitespace b)) l = false ↔ ws l.
Proof.
  unfold ws. induction l as [|c l IH]; cbn; [by split|].
  rewrite list.Forall_cons, orb_false_iff, negb_false_iff. tauto.
Qed.

Lemma end_step_value s p :
  err s = None → reads (step s) (parse_state s) p → ∀ s', call_step SPACE s = Some (s', ScanState.End_) →
  ∃ w v, p = w ++ v ∧ ws w ∧ value v.
Proof.
  intros He Hr s' Hs. destruct (call_step_ok s p SPACE He Hr) as ([s1 r] & Hs1 & Hans). by simplify_eq.
Qed.

Lemma next_flat_sound v v' b :
  next_flat v = (v', Ok b) →
  v_rest v = b ++ v_rest v' ∧
  ((∃ w x, b = w ++ x ∧ ws w ∧ value x) ∨ v_err v = None ∧ ws b ∧ v_rest v' = []).
Proof.
  unfold next_flat, read_flat. pose proof (scan_reset_ok (v_rest v) (v_scan v)) as Hok.
  destruct (scan_bytes (v_rest v) 0 (reset (v_scan v))) as [n s|e s| |n s]; try done.
  - destruct Hok as (Hn & w & x & Heq & Hw & Hx). rewrite Nat.sub_0_r in Heq. intros [= <- <-]. cbn.
    split; [by rewrite take_drop|]. left. exists w, x. done.
  - destruct Hok as (-> & He & Hr). cbn [app] in Hr.
    destruct (call_step SPACE s) as [[s' r]|] eqn:Hs; [|done].
    destruct (bool_decide (r = ScanState.End_)) eqn:Hend.
    + apply bool_decide_eq_true in Hend as ->. intros [= <- <-]. cbn. split; [by rewrite take_drop|]. left.
      destruct (end_step_value s _ He Hr s' Hs) as (w & x & Heq & Hw & Hx). rewrite firstn_all. eauto.
    + apply bool_decide_eq_false in Hend.
      assert (∀ (A : Type) (a b : A), match r with ScanState.End_ => a | _ => b end = b) as Hr'
        by (by destruct r).
      rewrite !Hr'. cbn [view_scan v_rest].
      destruct (existsb _ (v_rest v)) eqn:Hex; cbn; [done|]. destruct (v_err v); [done|].
      intros [= <- <-]. cbn. rewrite firstn_all. split; [by rewrite drop_all, app_nil_r|]. right.
      apply ws_existsb in Hex. rewrite drop_all. done.
Qed.

Lemma next_flat_no_panic v : snd (next_flat v) ≠ Panic.
Proof.
  unfold next_flat, read_flat. pose proof (scan_reset_ok (v_rest v) (v_scan v)) as Hok.
  destruct (scan_bytes (v_rest v) 0 (reset (v_scan v))) as [n s|e s| |n s]; try done.
  destruct Hok as (-> & He & Hr).
  destruct (call_step_ok s _ SPACE He Hr) as ([s' r] & -> & _). destruct r; try done;
    cbn; destruct (existsb _ _); try done; cbn; by destruct (v_err v).
Qed.

(** ** Trimming *)

Lemma trim_start_ws w c l : ws w → is_ascii_whitespace c = false → trim_start (w ++ c :: l) = c :: l.
Proof.
  intros Hw Hc. unfold trim_start.
  assert (list_find (λ c, is_ascii_whitespace c = false) (w ++ c :: l) = Some (length w, c)) as ->.
  { apply list_find_Some. split; [by rewrite list_lookup_middle|]. split; [done|].
    intros j y Hj Hlt. rewrite lookup_app_l in Hj by done. 
    apply (list.Forall_lookup_1 _ _ _ _ Hw) in Hj. congruence. }
  by rewrite drop_app_length.
Qed.

Lemma trim_start_all w : ws w → trim_start w = [].
Proof.
  intros Hw. unfold trim_start. destruct (list_find _ w) as [[i c]|] eqn:Hf; [|done].
  apply list_find_Some in Hf as (Hi & Hc & _).
  apply (list.Forall_lookup_1 _ _ _ _ Hw) in Hi. congruence.
Qed.

Lemma digits_last d ds : json_digits (d :: ds) → ∃ l c, d :: ds = l ++ [c] ∧ is_ascii_whitespace c = false.
Proof.
  intros H. destruct (exists_last (l := d :: ds)) as (l & c & Heq); [done|]. exists l, c. split; [done|].
  rewrite Heq in H. apply Forall_app in H as [_ H]. apply list.Forall_cons in H as [H _].
  byte_tests. lia.
Qed.

Lemma integer_last i : integer i → ∃ l c, i = l ++ [c] ∧ is_ascii_whitespace c = false.
Proof.
  intros [sg Hsg|sg d ds Hsg Hd Hd0 Hds]; [by exists sg, 48|].
  destruct (digits_last d ds) as (l & c & -> & Hc); [by constructor|]. exists (sg ++ l), c. by rewrite app_assoc.
Qed.

Lemma number_last n : number n → ∃ l c, n = l ++ [c] ∧ is_ascii_whitespace c = false.
Proof.
  intros [m [i Hi|i d ds Hi Hds]|m e sg d ds _ _ _ Hds]; [by apply integer_last|..];
    destruct (digits_last d ds Hds) as (l & c & -> & Hc).
  - exists (i ++ DOT :: l), c. by norm_app.
  - exists (m ++ e :: sg ++ l), c. by norm_app.
Qed.

Lemma value_last v : value v → ∃ l c, v = l ++ [c] ∧ is_ascii_whitespace c = false.
Proof.
  intros [| | |n Hn|s [b _]|w _|es _|w _|ms _]; [by eexists [_; _; _], _|by eexists [_; _; _; _], _
    |by eexists [_; _; _], _|by apply number_last|..].
  - by exists (QUOTE :: b), QUOTE.
  - by exists (LBRACKET :: w), RBRACKET.
  - by exists (LBRACKET :: es), RBRACKET.
  - by exists (LBRACE :: w), RBRACE.
  - by exists (LBRACE :: ms), RBRACE.
Qed.

Lemma trim_value w v : ws w → value v → trim_ascii (w ++ v) = v.
Proof.
  intros Hw Hv. destruct (value_head v Hv) as (c & l & Heq & Hc & _).
  destruct (value_last v Hv) as (l' & c' & Heq' & Hc').
  unfold trim_ascii. rewrite Heq, trim_start_ws, <- Heq, Heq', reverse_snoc by done.
  change (c' :: reverse l') with ([] ++ c' :: reverse l'). rewrite trim_start_ws by (done || constructor).
  by rewrite reverse_cons, reverse_involutive.
Qed.

Lemma trim_ws w : ws w → trim_ascii w = [].
Proof. intros Hw. unfold trim_ascii. by rewrite (trim_start_all w Hw). Qed.

(** ** Decoding *)

(** Where a value may come next, with nothing to read before it. *)
Definition at_value (d : Decoder) : Prop :=
  sound d ∧ d_err d = None ∧ token_value_allowed d = true.

Definition after_token_value (t : TokenState) : TokenState :=
  match t with
  | TokenState.ArrayStart | TokenState.ArrayValue => TokenState.ArrayComma
  | TokenState.ObjectValue => TokenState.ObjectComma
  | t => t
  end.

Lemma token_value_end_view d :
  sound d → sound (token_value_end d)
    ∧ rest (token_value_end d) = rest d ∧ d_err (token_value_end d) = d_err d
    ∧ d_token_state (token_value_end d) = after_token_value (d_token_state d)
    ∧ d_token_stack (token_value_end d) = d_token_stack d.
Proof.
  intros Hd. unfold token_value_end.
  destruct (d_token_state d) eqn:Ht; (split; [exact Hd|]); repeat split; done.
Qed.

Lemma decode_at_value d :
  at_value d →
  decode d = match next_value d with
             | (d, Ok val) => (token_value_end d, Ok (trim_ascii val))
             | (d, Err e) => (d, Err e)
             | (d, Panic) => (d, Panic)
             end.
Proof.
  intros (Hd & He & Ha). unfold decode. rewrite He.
  assert (token_prepare_for_decode d = (d, Ok tt)) as Hp.
  { unfold token_prepare_for_decode, token_value_allowed in *. by destruct (d_token_state d). }
  unfold mbind at 1, calls_bind at 1. rewrite Hp. unfold mbind at 1, calls_bind at 1. rewrite Ha.
  unfold mbind, calls_bind, modify, mret, calls_ret. change (negb true) with false. cbv iota. destruct (next_value d) as [d1 [?|?|]]; reflexivity.
Qed.

(** The decoder [d'] after a value that ended before [t]. *)
Definition decoded_to (d d' : Decoder) (t : list Z) : Prop :=
  sound d' ∧ rest d' = t ∧ d_err d' = d_err d
  ∧ d_token_state d' = after_token_value (d_token_state d) ∧ d_token_stack d' = d_token_stack d.

Lemma decode_value d w v t :
  at_value d → rest d = w ++ v ++ t → ws w → value v → stops t →
  ∃ d', decode d = (d', Ok v) ∧ decoded_to d d' t.
Proof.
  intros Had Hr Hw Hv Ht. rewrite decode_at_value by done. destruct Had as (Hd & He & Ha).
  destruct (next_value_ok d Hd) as [Hd' Hn].
  destruct (next_flat_value (view d) w v t Hr Hw Hv Ht) as [s Hs]. rewrite Hs in Hn.
  destruct (next_value d) as [d' r]. cbn [fst snd] in *. simplify_eq.
  eexists. split; [by rewrite trim_value|].
  destruct (token_value_end_view d' Hd') as (H1 & H2 & H3 & H4 & H5).
  split; [done|]. rewrite H2, H3, H4, H5. split; [|split; [|split]].
  - etransitivity; [exact (f_equal v_rest H)|]. cbn. rewrite Hr, app_assoc. by rewrite drop_app_length.
  - exact (f_equal v_err H).
  - f_equal. exact (f_equal v_token_state H).
  - exact (f_equal v_token_stack H).
Qed.

Lemma decode_sound_value d d' v :
  at_value d → decode d = (d', Ok v) →
  (∃ w, rest d = w ++ v ++ rest d' ∧ ws w ∧ value v) ∨ ws (rest d) ∧ v = [] ∧ rest d' = [].
Proof.
  intros Had. rewrite decode_at_value by done. destruct Had as (Hd & He & Ha).
  destruct (next_value_ok d Hd) as [Hd1 Hn]. destruct (next_value d) as [d1 [b| |]]; try done.
  intros [= <- <-]. cbn [fst snd] in Hd1, Hn.
  destruct (token_value_end_view d1 Hd1) as (_ & -> & _).
  symmetry in Hn. apply next_flat_sound in Hn as (Hr & [(w & x & -> & Hw & Hx)|(_ & Hb & Ht)]).
  - left. exists w. rewrite trim_value by done. split; [|done]. change (rest d) with (v_rest (view d)).
    rewrite Hr. by rewrite <- app_assoc.
  - right. rewrite trim_ws by done. split; [|done]. change (rest d) with (v_rest (view d)).
    rewrite Hr, Ht. by rewrite app_nil_r.
Qed.

Lemma decode_no_panic d : at_value d → snd (decode d) ≠ Panic.
Proof.
  intros Had. rewrite decode_at_value by done. destruct Had as (Hd & He & Ha).
  destruct (next_value_ok d Hd) as [_ Hn]. pose proof (next_flat_no_panic (view d)) as Hp.
  rewrite <- Hn in Hp. cbn in Hp. by destruct (next_value d) as [d1 []].
Qed.

(** C18. Decoding is parsing: where a value may come, [decode] returns exactly the
    bytes of a value of the JSON grammar and leaves the decoder behind it; every value
    is returned like that when what follows it cannot continue it; and no input makes
    it panic.  The one exception is the end of the stream, where nothing but
    whitespace decodes to no bytes. *)
Theorem decode_parses_values d :
  at_value d →
  (∀ d' v, decode d = (d', Ok v) →
     (∃ w, rest d = w ++ v ++ rest d' ∧ ws w ∧ value v) ∨ ws (rest d) ∧ v = [] ∧ rest d' = [])
  ∧ (∀ w v t, rest d = w ++ v ++ t → ws w → value v → stops t →
     ∃ d', decode d = (d', Ok v) ∧ decoded_to d d' t)
  ∧ snd (decode d) ≠ Panic.
Proof.
  intros Had. split; [intros d' v; by apply decode_sound_value|].
  split; [intros w v t; by apply decode_value|by apply decode_no_panic].
Qed.

(** ** Tokens *)

(** The decoder [d'] has read up to [t] and is otherwise as [d]. *)
Definition moved (d d' : Decoder) (t : list Z) : Prop :=
  sound d' ∧ rest d' = t ∧ d_err d' = d_err d
  ∧ d_token_state d' = d_token_state d ∧ d_token_stack d' = d_token_stack d.

Lemma first_byte_at w c l :
  ws w → is_ascii_whitespace c = false → first_byte (w ++ c :: l) = Some (length w, c).
Proof.
  intros Hw Hc. apply list_find_Some. split; [by rewrite list_lookup_middle|]. split; [done|].
  intros j y Hj Hlt. rewrite lookup_app_l in Hj by done.
  apply (list.Forall_lookup_1 _ _ _ _ Hw) in Hj. congruence.
Qed.

Lemma peek_at d w c l :
  sound d → rest d = w ++ c :: l → ws w → is_ascii_whitespace c = false →
  ∃ d', peek d = (d', Some (Ok c)) ∧ moved d d' (c :: l) ∧ has_byte d'.
Proof.
  intros Hd Hr Hw Hc. pose proof (peek_ok d Hd) as K. destruct (peek d) as [d' x].
  rewrite Hr, (first_byte_at _ _ _ Hw Hc) in K. destruct K as (Hd' & -> & Hv & Hb).
  exists d'. split; [done|]. split; [|done]. split; [done|]. split; [|split; [|split]].
  - etransitivity; [exact (f_equal v_rest Hv)|]. cbn. rewrite Hr. by rewrite drop_app_length.
  - exact (f_equal v_err Hv).
  - exact (f_equal v_token_state Hv).
  - exact (f_equal v_token_stack Hv).
Qed.

Lemma more_at d w c l :
  sound d → rest d = w ++ c :: l → ws w → is_ascii_whitespace c = false →
  ∃ d', more d = (d', negb (c =? RBRACKET) && negb (c =? RBRACE)) ∧ moved d d' (c :: l).
Proof.
  intros Hd Hr Hw Hc. destruct (peek_at d w c l Hd Hr Hw Hc) as (d' & Hp & Hm & _).
  exists d'. unfold more. by rewrite Hp.
Qed.

Lemma peek_end d : sound d → ws (rest d) → ∃ d', peek d = (d', None) ∧ moved d d' (rest d).
Proof.
  intros Hd Hw. pose proof (peek_ok d Hd) as K. destruct (peek d) as [d' x].
  destruct (first_byte (rest d)) as [[i b]|] eqn:Hf.
  { apply list_find_Some in Hf as (Hi & Hb & _). apply (list.Forall_lookup_1 _ _ _ _ Hw) in Hi. congruence. }
  destruct K as (Hd' & -> & Hv). exists d'. split; [done|]. split; [done|].
  split; [exact (f_equal v_rest Hv)|]. split; [exact (f_equal v_err Hv)|].
  split; [exact (f_equal v_token_state Hv)|exact (f_equal v_token_stack Hv)].
Qed.

Lemma advance_at d d1 c l : moved d d1 (c :: l) → has_byte d1 → moved d (advance 1 d1) l.
Proof.
  intros (Hs & Hr & He & Ht & Hk) Hb. destruct (advance_view 1 d1) as [Hs' Hv]; [red in Hb; lia|apply Hs|].
  split; [done|]. split; [|done]. etransitivity; [exact (f_equal v_rest Hv)|]. cbn. by rewrite Hr.
Qed.

(** A separator and the value after it. *)
Lemma expect_separator_at sep next msg d w l :
  sound d → rest d = w ++ sep :: l → ws w → is_ascii_whitespace sep = false →
  ∃ d', expect_separator sep next msg d = (d', Ok tt) ∧ sound d' ∧ rest d' = l ∧ d_err d' = d_err d
    ∧ d_token_state d' = next ∧ d_token_stack d' = d_token_stack d.
Proof.
  intros Hd Hr Hw Hs. destruct (peek_at d w sep l Hd Hr Hw Hs) as (d1 & Hp & Hm & Hb).
  destruct (advance_at d d1 sep l Hm Hb) as (H1 & H2 & H3 & H4 & H5).
  exists (set_token_state next (advance 1 d1)). split; [|done].
  unfold expect_separator, peek_token, mbind, calls_bind. rewrite Hp. cbv iota beta. by rewrite Z.eqb_refl.
Qed.

Lemma decode_after_separator d w1 sep w2 v t next :
  sound d → d_err d = None →
  (d_token_state d, sep, next) ∈
    [(TokenState.ArrayComma, COMMA, TokenState.ArrayValue); (TokenState.ObjectColon, COLON, TokenState.ObjectValue)] →
  rest d = w1 ++ sep :: w2 ++ v ++ t → ws w1 → ws w2 → value v → stops t →
  ∃ d', decode d = (d', Ok v) ∧ sound d' ∧ rest d' = t ∧ d_err d' = None
    ∧ d_token_state d' = after_token_value next ∧ d_token_stack d' = d_token_stack d.
Proof.
  intros Hd He Hsep Hr H1 H2 Hv Ht.
  assert (∃ d1, token_prepare_for_decode d = (d1, Ok tt) ∧ sound d1 ∧ rest d1 = w2 ++ v ++ t
    ∧ d_err d1 = None ∧ d_token_state d1 = next ∧ d_token_stack d1 = d_token_stack d) as (d1 & Hp & K).
  { unfold token_prepare_for_decode. rewrite <- He.
    apply elem_of_cons in Hsep as [[= -> -> ->]|Hsep];
      [|apply elem_of_cons in Hsep as [[= -> -> ->]|Hsep]; [|by apply elem_of_nil in Hsep]];
      by eapply expect_separator_at. }
  destruct K as (Hd1 & Hr1 & He1 & Ht1 & Hk1).
  assert (token_prepare_for_decode d1 = (d1, Ok tt) ∧ token_value_allowed d1 = true) as [Hp1 Ha1].
  { unfold token_prepare_for_decode, token_value_allowed. rewrite Ht1.
    apply elem_of_cons in Hsep as [[= _ _ ->]|Hsep]; [done|].
    apply elem_of_cons in Hsep as [[= _ _ ->]|Hsep]; [done|]. by apply elem_of_nil in Hsep. }
  assert (decode d = decode d1) as ->.
  { unfold decode. rewrite He, He1. unfold mbind, calls_bind. by rewrite Hp, Hp1. }
  destruct (decode_value d1 w2 v t) as (d' & Hdec & H3 & H4 & H5 & H6 & H7); [done..|].
  exists d'. rewrite <- Ht1, <- Hk1. split; [done|]. split; [done|]. split; [done|].
  split; [congruence|]. done.
Qed.

(** ** Calls only consume text *)

Definition left (d : Decoder) : nat := length (rest d).

(** The call leaves a sound decoder with at most the text there was. *)
Definition consumes {A} (m : dec A) : Prop :=
  ∀ d, sound d → sound (fst (m d)) ∧ (left (fst (m d)) ≤ left d)%nat.

Lemma respects_sound {A} (m : Decoder → Decoder * A) d : respects m → sound d → sound (fst (m d)).
Proof. intros Hm Hd. by destruct (Hm d d (conj Hd (conj Hd eq_refl))) as [(H & _ & _) _]. Qed.

Lemma consumes_bind {A B} (m : dec A) (f : A → dec B) :
  consumes m → (∀ a, consumes (f a)) → consumes (m ≫= f).
Proof.
  intros Hm Hf d Hd. destruct (Hm d Hd) as [H1 H2]. unfold mbind, calls_bind.
  destruct (m d) as [d' [a| |]]; cbn [fst] in *; [|done..].
  destruct (Hf a d' H1). split; [done|lia].
Qed.

Lemma consumes_same {A} (m : dec A) :
  (∀ d, sound d → sound (fst (m d)) ∧ rest (fst (m d)) = rest d) → consumes m.
Proof. intros Hm d Hd. destruct (Hm d Hd) as [H1 H2]. unfold left. by rewrite H2. Qed.

Lemma left_advance n d : (left (advance n d) ≤ left d)%nat.
Proof.
  unfold left, rest. rewrite !length_app. change (d_r (advance n d)) with (d_r d).
  unfold buffered, advance. cbn [set_scanp d_scanp d_buf]. rewrite !length_drop. lia.
Qed.

Lemma left_skip n v d d' : view d = v → view d' = skip n v → (left d' ≤ left d)%nat.
Proof.
  intros <- Hv. unfold left. change (rest d') with (v_rest (view d')). rewrite Hv. cbn.
  rewrite length_drop. lia.
Qed.

Lemma peek_left d : sound d → sound (fst (peek d)) ∧ (left (fst (peek d)) ≤ left d)%nat.
Proof.
  intros Hd. pose proof (peek_ok d Hd) as K. destruct (peek d) as [d' c]. destruct K as [Hd' K].
  split; [done|]. cbn [fst]. destruct (first_byte (rest d)) as [[i b]|].
  - by eapply left_skip; [|apply K].
  - unfold left. by rewrite (f_equal v_rest (proj2 K) : rest d' = rest d).
Qed.

Lemma consumes_peek : consumes peek_token.
Proof.
  intros d Hd. pose proof (peek_left d Hd). unfold peek_token. by destruct (peek d).
Qed.

Lemma consumes_next_value : consumes next_value.
Proof.
  intros d Hd. destruct (next_value_ok d Hd) as [H1 H2]. split; [done|].
  assert (left (fst (next_value d)) = length (v_rest (fst (next_flat (view d))))) as -> by (by rewrite <- H2).
  unfold left, next_flat, read_flat. change (rest d) with (v_rest (view d)).
  destruct (scan_bytes _ _ _) as [n s|e s| |n s]; cbn; try done; [rewrite length_drop; lia|].
  destruct (call_step SPACE s) as [[s' []]|]; cbn; rewrite ?length_drop; try lia;
    destruct (existsb _ _); cbn; try lia; destruct (d_err d); cbn; rewrite ?length_drop; lia.
Qed.

Lemma token_state_left t d : left (set_token_state t d) = left d.
Proof. done. Qed.

Lemma token_value_end_left d : left (token_value_end d) = left d.
Proof. unfold token_value_end. by destruct (d_token_state d). Qed.

Lemma consumes_decode : consumes decode.
Proof.
  intros d Hd. split; [by apply respects_sound; [apply _|]|].
  assert (∀ sep nx msg, consumes (expect_separator sep nx msg)) as Hsep.
  { intros sep nx msg d1 Hd1. split; [by apply respects_sound; [apply expect_separator_respects|]|].
    pose proof (peek_left d1 Hd1) as [_ K]. unfold expect_separator, peek_token, mbind, calls_bind.
    destruct (peek d1) as [d2 [[c| |]|]]; cbn [fst] in K |- *; try done.
    destruct (negb (c =? sep)); [exact K|]. pose proof (left_advance 1 d2).
    change (left (advance 1 d2) ≤ left d1)%nat. lia. }
  unfold decode. destruct (d_err d); [done|]. revert d Hd.
  change (∀ d, sound d → (left (fst ((_ ← token_prepare_for_decode;
       _ ← (λ d, if negb (token_value_allowed d) then (d, Err (httpx_message_error "not at beginning of value"))
                 else (d, Ok tt));
       val ← next_value;
       _ ← modify token_value_end;
       mret (M:=dec) (trim_ascii val)) d)) ≤ left d)%nat).
  intros d Hd. eapply (consumes_bind (A:=unit)); [| |exact Hd].
  { intros d1 Hd1. unfold token_prepare_for_decode.
    destruct (d_token_state d1); try done; by apply Hsep. }
  intros _. apply consumes_bind; [apply consumes_same; intros d1 Hd1; by destruct (negb _)|].
  intros _. apply consumes_bind; [apply consumes_next_value|]. intros val.
  apply consumes_bind; [|intros _; by apply consumes_same].
  intros d1 Hd1. cbn. rewrite token_value_end_left. split; [by apply token_value_end_view|done].
Qed.

Section ConsumingTokens.
Context (from_slice_string : list Z → string + string).

Lemma close_container_left d : (left (fst (close_container d)) ≤ left d)%nat.
Proof.
  unfold close_container. pose proof (left_advance 1 d).
  destruct (d_token_stack (advance 1 d)) as [|t ts]; [done|]. cbn [fst]. by rewrite token_value_end_left.
Qed.

Lemma consumes_object_key : consumes (object_key from_slice_string).
Proof.
  unfold object_key. apply consumes_bind; [by apply consumes_same|]. intros _.
  apply consumes_bind; [apply consumes_decode|]. intros b.
  apply consumes_bind; [by apply consumes_same|]. intros x.
  apply consumes_bind; [by apply consumes_same|]. intros _. by apply consumes_same.
Qed.

Lemma consumes_value_token c : consumes (value_token c).
Proof.
  intros d Hd. unfold value_token. destruct (negb (token_value_allowed d)); [done|].
  revert d Hd. apply consumes_bind; [apply consumes_decode|]. intros b. by apply consumes_same.
Qed.

Lemma token_at_left c d : sound d → (left (fst (token_at from_slice_string c d)) ≤ left d)%nat.
Proof.
  intros Hd. pose proof (left_advance 1 d) as Ha.
  assert (∀ t, (left (fst ((_ ← close_container; mret (M:=dec) (Some (Token.Delim t))) d)) ≤ left d)%nat) as Hc.
  { intros t. pose proof (close_container_left d) as K. unfold mbind, calls_bind.
    by destruct (close_container d) as [d' []]. }
  assert ((left (fst ((t ← object_key from_slice_string; mret (M:=dec) (Some t)) d)) ≤ left d)%nat) as Hk.
  { revert d Hd Ha Hc. intros d Hd _ _. revert d Hd.
    apply (consumes_bind (object_key from_slice_string) (λ t, mret (M:=dec) (Some t)));
      [apply consumes_object_key|]. intros t. by apply consumes_same. }
  assert ((left (fst ((t ← value_token c; mret (M:=dec) (Some t)) d)) ≤ left d)%nat) as Hv.
  { clear Hk Hc Ha. revert d Hd. apply (consumes_bind (value_token c) (λ t, mret (M:=dec) (Some t)));
      [apply consumes_value_token|]. intros t. by apply consumes_same. }
  unfold token_at.
  repeat match goal with |- (left (fst (if ?b then _ else _)) ≤ _)%nat => destruct b end;
    first [done | exact (Hc _) | exact Hk | exact Hv | exact Ha].
Qed.
Lemma consumes_token_round : consumes (token_round from_slice_string).
Proof.
  intros d Hd. split; [by apply respects_sound; [apply token_round_respects|]|].
  unfold token_round, peek_token, mbind, calls_bind. destruct (peek_left d Hd) as [H1 H2].
  destruct (peek d) as [d1 [[c| |]|]]; cbn [fst] in *; try done.
  pose proof (token_at_left c d1 H1). lia.
Qed.

Lemma consumes_token_loop fuel d :
  sound d → match token_loop from_slice_string fuel d with
            | Some (d', _) => sound d' ∧ (left d' ≤ left d)%nat
            | None => True
            end.
Proof.
  revert d. induction fuel as [|fuel IH]; intros d Hd; [done|]. cbn [token_loop].
  destruct (consumes_token_round d Hd) as [H1 H2].
  destruct (token_round from_slice_string d) as [d1 [[t|]| |]]; cbn [fst] in *; try done.
  specialize (IH d1 H1). destruct (token_loop from_slice_string fuel d1) as [[d2 r]|]; [|done].
  destruct IH. split; [done|lia].
Qed.

Lemma consumes_token : consumes (token from_slice_string).
Proof.
  intros d Hd. unfold token. pose proof (consumes_token_loop 2 d Hd) as K.
  by destruct (token_loop from_slice_string 2 d) as [[d' r]|].
Qed.

(** A key takes at least its quote. *)
Lemma object_key_strict d d' t l :
  sound d → rest d = QUOTE :: l → object_key from_slice_string d = (d', Ok t) → (left d' < left d)%nat.
Proof.
  intros Hd Hr. unfold object_key, mbind, calls_bind, modify, mret, calls_ret, lift.
  destruct (decode (set_token_state TokenState.TopValue d)) as [d1 [b| |]] eqn:Hdec; try done.
  destruct (from_slice_string b); [done|]. intros [= <- _]. rewrite token_state_left.
  assert (at_value (set_token_state TokenState.TopValue d)) as Hat.
  { split; [done|]. split; [|done]. unfold decode in Hdec. by destruct (d_err _). }
  destruct (decode_sound_value _ _ _ Hat Hdec) as [(w & Heq & _ & Hv)|(Hw & _)].
  - change (rest (set_token_state TokenState.TopValue d)) with (rest d) in Heq. unfold left.
    destruct (value_head b Hv) as (c & b' & -> & _). rewrite Heq, !length_app. cbn. lia.
  - change (rest (set_token_state TokenState.TopValue d)) with (rest d) in Hw. rewrite Hr in Hw.
    by apply list.Forall_cons in Hw as [? _].
Qed.

Lemma token_round_strict d d' x :
  sound d → token_round from_slice_string d = (d', Ok (Some (Token.String_ x))) → (left d' < left d)%nat.
Proof.
  intros Hd. unfold token_round, peek_token, mbind, calls_bind. pose proof (peek_ok d Hd) as K.
  destruct (peek d) as [d1 o]. destruct K as [Hd1 K].
  destruct (first_byte (rest d)) as [[i c]|] eqn:Hf; destruct K as (-> & Hv); [|done]. destruct Hv as [Hv _].
  assert (left d1 ≤ left d)%nat as Hle by (by eapply left_skip).
  assert (∃ l, rest d1 = c :: l) as [l Hl].
  { apply list_find_Some in Hf as (Hi & _). exists (drop (S i) (rest d)).
    etransitivity; [exact (f_equal v_rest Hv)|]. by apply drop_S. }
  unfold token_at. intros H.
  destruct (c =? QUOTE) eqn:Hq.
  - apply Z.eqb_eq in Hq as ->. cbn [Z.eqb Pos.eqb andb] in H. cbv iota in H.
    destruct (bool_decide _ || bool_decide _).
    + unfold mbind, calls_bind in H. destruct (object_key from_slice_string d1) as [d2 [t| |]] eqn:Hk; try done.
      unfold mret, calls_ret in H. simplify_eq. pose proof (object_key_strict _ _ _ _ Hd1 Hl Hk). lia.
    + unfold value_token, token_error, mbind, calls_bind, mret, calls_ret in H.
      repeat case_match; simplify_eq.
  - cbn [andb] in H. cbv iota in H.
    unfold value_token, token_error, mbind, calls_bind, mret, calls_ret in H.
    repeat case_match; simplify_eq.
Qed.

Lemma token_string_strict d d' x :
  sound d → token from_slice_string d = (d', Ok (Token.String_ x)) → (left d' < left d)%nat.
Proof.
  intros Hd. unfold token. cbn [token_loop].
  destruct (consumes_token_round d Hd) as [H1 H2].
  destruct (token_round from_slice_string d) as [d1 [[t|]| |]] eqn:Hr1; cbn [fst] in *; try done.
  - cbn. intros [= <- ->]. by eapply token_round_strict.
  - destruct (token_round from_slice_string d1) as [d2 [[t|]| |]] eqn:Hr2; cbn; try done.
    intros [= <- ->]. pose proof (token_round_strict _ _ _ H1 Hr2). lia.
Qed.
End ConsumingTokens.

(** A decoder without errors before [t], in the state [st] inside the containers of
    [k]. *)
Record placed (d : Decoder) (t : list Z) (st : TokenState) (k : list TokenState) : Prop := mkPlaced {
  placed_sound : sound d;
  placed_rest : rest d = t;
  placed_err : d_err d = None;
  placed_state : d_token_state d = st;
  placed_stack : d_token_stack d = k
}.

Lemma moved_placed d d' l t st k : placed d l st k → moved d d' t → placed d' t st k.
Proof. intros [] (? & ? & ? & ? & ?). split; congruence. Qed.

Lemma placed_new (cs : list (list Z)) : placed (decoder_new (Ok <$> cs)) (concat cs) TokenState.TopValue [].
Proof. split; [apply sound_new|apply rest_new|done..]. Qed.

Lemma placed_more d w c l st k :
  placed d (w ++ c :: l) st k → ws w → is_ascii_whitespace c = false →
  ∃ d', more d = (d', negb (c =? RBRACKET) && negb (c =? RBRACE)) ∧ placed d' (c :: l) st k.
Proof.
  intros Hd Hw Hc. destruct (more_at d w c l (placed_sound _ _ _ _ Hd) (placed_rest _ _ _ _ Hd) Hw Hc)
    as (d' & Hm & Hd'). exists d'. split; [done|]. by eapply moved_placed.
Qed.

Lemma placed_value d w v t st k :
  placed d (w ++ v ++ t) st k →
  st ∈ [TokenState.TopValue; TokenState.ArrayStart; TokenState.ArrayValue; TokenState.ObjectValue] →
  ws w → value v → stops t →
  ∃ d', decode d = (d', Ok v) ∧ placed d' t (after_token_value st) k.
Proof.
  intros [Hd Hr He Hs Hk] Hst Hw Hv Ht.
  destruct (decode_value d w v t) as (d' & Hdec & H1 & H2 & H3 & H4 & H5); [|done..|].
  { split; [done|]. split; [done|]. unfold token_value_allowed. rewrite Hs.
    by repeat (apply elem_of_cons in Hst as [->|Hst]; [done|]); apply elem_of_nil in Hst. }
  exists d'. split; [done|]. split; congruence.
Qed.

Lemma placed_separated d w1 sep w2 v t st next k :
  placed d (w1 ++ sep :: w2 ++ v ++ t) st k →
  (st, sep, next) ∈
    [(TokenState.ArrayComma, COMMA, TokenState.ArrayValue); (TokenState.ObjectColon, COLON, TokenState.ObjectValue)] →
  ws w1 → ws w2 → value v → stops t →
  ∃ d', decode d = (d', Ok v) ∧ placed d' t (after_token_value next) k.
Proof.
  intros [Hd Hr He Hs Hk] Hsep H1 H2 Hv Ht. rewrite <- Hs in Hsep.
  destruct (decode_after_separator d w1 sep w2 v t next) as (d' & Hdec & ? & ? & ? & ? & ?); [done..|].
  exists d'. split; [done|]. split; congruence.
Qed.

Section PlacedTokens.
Context (from_slice_string : list Z → string + string).
Abbreviation tok := (token from_slice_string).
Abbreviation tok1 := (token_loop from_slice_string 1).

(** One round gives the token. *)
Lemma token_one d x : tok1 d = Some x → tok d = x.
Proof.
  unfold token. cbn [token_loop].
  destruct (token_round from_slice_string d) as [d1 [[t|]| |]]; cbn; by intros [= <-].
Qed.

Lemma tok1_at d w c l st k :
  placed d (w ++ c :: l) st k → ws w → is_ascii_whitespace c = false →
  ∃ d1, placed d1 (c :: l) st k ∧ placed (advance 1 d1) l st k
    ∧ token_round from_slice_string d = token_at from_slice_string c d1.
Proof.
  intros Hd Hw Hc.
  destruct (peek_at d w c l (placed_sound _ _ _ _ Hd) (placed_rest _ _ _ _ Hd) Hw Hc) as (d1 & Hp & Hm & Hb).
  exists d1. split; [by eapply moved_placed|]. split; [eapply moved_placed; [done|]; by eapply advance_at|].
  unfold token_round, peek_token, mbind, calls_bind. by rewrite Hp.
Qed.

(** A separator is skipped. *)
Lemma tok_skip d w sep l st next k :
  placed d (w ++ sep :: l) st k → ws w →
  (st, sep, next) ∈ [(TokenState.ObjectColon, COLON, TokenState.ObjectValue);
    (TokenState.ArrayComma, COMMA, TokenState.ArrayValue); (TokenState.ObjectComma, COMMA, TokenState.ObjectKey)] →
  ∃ d', placed d' l next k ∧ ∀ x, tok1 d' = Some x → tok d = x.
Proof.
  intros Hd Hw Hsep.
  assert (is_ascii_whitespace sep = false) as Hc
    by (by repeat (apply elem_of_cons in Hsep as [[= -> -> ->]|Hsep]; [done|]); apply elem_of_nil in Hsep).
  destruct (tok1_at d w sep l st k Hd Hw Hc) as (d1 & [? ? ? Hs1 ?] & [] & Hround).
  exists (set_token_state next (advance 1 d1)). split; [by split|].
  intros x Hx. unfold token. cbn [token_loop]. rewrite Hround.
  assert (token_at from_slice_string sep d1 = (set_token_state next (advance 1 d1), Ok None)) as ->; [|].
  { unfold token_at. rewrite Hs1.
    by repeat (apply elem_of_cons in Hsep as [[= -> -> ->]|Hsep]; [done|]); apply elem_of_nil in Hsep. }
  change (default (d, Panic) (tok1 (set_token_state next (advance 1 d1))) = x). by rewrite Hx.
Qed.

Lemma tok1_open d w c t st k start :
  placed d (w ++ c :: t) st k → ws w →
  (c, start) ∈ [(LBRACKET, TokenState.ArrayStart); (LBRACE, TokenState.ObjectStart)] →
  st ∈ [TokenState.TopValue; TokenState.ArrayStart; TokenState.ArrayValue; TokenState.ObjectValue] →
  ∃ d', tok1 d = Some (d', Ok (Token.Delim c)) ∧ placed d' t start (st :: k).
Proof.
  intros Hd Hw Hcs Hst.
  assert (is_ascii_whitespace c = false) as Hc
    by (by repeat (apply elem_of_cons in Hcs as [[= -> ->]|Hcs]; [done|]); apply elem_of_nil in Hcs).
  destruct (tok1_at d w c t st k Hd Hw Hc) as (d1 & [? ? ? Hs1 Hk1] & [] & Hround).
  exists (open_container start d1). cbn [token_loop]. rewrite Hround.
  assert (token_value_allowed d1 = true) as Ha.
  { unfold token_value_allowed. rewrite Hs1.
    by repeat (apply elem_of_cons in Hst as [->|Hst]; [done|]); apply elem_of_nil in Hst. }
  split.
  - unfold token_at. rewrite Ha.
    by repeat (apply elem_of_cons in Hcs as [[= -> ->]|Hcs]; [done|]); apply elem_of_nil in Hcs.
  - split; try done. cbn. by rewrite Hs1, Hk1.
Qed.

Lemma tok1_close d w c t st s k :
  placed d (w ++ c :: t) st (s :: k) → ws w →
  (c, st) ∈ [(RBRACKET, TokenState.ArrayStart); (RBRACKET, TokenState.ArrayComma);
    (RBRACE, TokenState.ObjectStart); (RBRACE, TokenState.ObjectComma)] →
  ∃ d', tok1 d = Some (d', Ok (Token.Delim c)) ∧ placed d' t (after_token_value s) k.
Proof.
  intros Hd Hw Hcs.
  assert (is_ascii_whitespace c = false) as Hc
    by (by repeat (apply elem_of_cons in Hcs as [[= -> ->]|Hcs]; [done|]); apply elem_of_nil in Hcs).
  destruct (tok1_at d w c t st (s :: k) Hd Hw Hc) as (d1 & [? ? ? Hs1 Hk1] & [Hs2 Hr2 He2 _ Hk2] & Hround).
  exists (token_value_end (set_token_state s (set_token_stack k (advance 1 d1)))).
  assert (close_container d1
    = (token_value_end (set_token_state s (set_token_stack k (advance 1 d1))), Ok tt)) as Hclose
    by (unfold close_container; by rewrite Hk2).
  split.
  - cbn [token_loop]. rewrite Hround. unfold token_at, mbind, calls_bind. rewrite Hs1, Hclose.
    by repeat (apply elem_of_cons in Hcs as [[= -> ->]|Hcs]; [done|]); apply elem_of_nil in Hcs.
  - destruct (token_value_end_view (set_token_state s (set_token_stack k (advance 1 d1))) Hs2)
      as (H1 & H2 & H3 & H4 & H5). split; [done|..]; rewrite ?H2, ?H3, ?H4, ?H5; done.
Qed.

Lemma tok1_key d w key t st k x :
  placed d (w ++ key ++ t) st k → ws w → json_string key → stops t → from_slice_string key = inr x →
  st ∈ [TokenState.ObjectStart; TokenState.ObjectKey] →
  ∃ d', tok1 d = Some (d', Ok (Token.String_ x)) ∧ placed d' t TokenState.ObjectColon k.
Proof.
  intros Hd Hw Hkey Ht Hx Hst.
  assert (∃ l, key = QUOTE :: l) as [l Hl] by (destruct Hkey; by eexists). rewrite Hl in Hd.
  destruct (tok1_at d w QUOTE (l ++ t) st k Hd Hw eq_refl) as (d1 & Hd1 & _ & Hround).
  destruct Hd1 as [Hs1 Hr1 He1 Ht1 Hk1].
  destruct (placed_value (set_token_state TokenState.TopValue d1) [] key t TokenState.TopValue k)
    as (d2 & Hdec & Hd2); [|by left|constructor|by apply value_string|done|].
  { split; try done. rewrite Hl. exact Hr1. }
  exists (set_token_state TokenState.ObjectColon d2). split; [|by destruct Hd2].
  cbn [token_loop]. rewrite Hround. unfold token_at. rewrite Ht1.
  assert (bool_decide (st = TokenState.ObjectStart) || bool_decide (st = TokenState.ObjectKey) = true) as ->
    by (by repeat (apply elem_of_cons in Hst as [->|Hst]; [done|]); apply elem_of_nil in Hst).
  cbn [Z.eqb Pos.eqb andb]. cbv iota.
  unfold object_key, mbind, calls_bind, modify, lift. rewrite Hdec. by rewrite Hx.
Qed.
End PlacedTokens.

Definition sample_chunks : list (list Z) := [str_bytes " [1, {"; [34]; str_bytes "a"; [34] ++ str_bytes ":2}]"; str_bytes " tr"].

Lemma decode_parses_values_witness :
  let d := decoder_new (Ok <$> sample_chunks) in
  at_value d ∧ snd (decode d) = Ok (str_bytes "[1, {" ++ [34] ++ str_bytes "a" ++ [34] ++ str_bytes ":2}]")
  ∧ snd (decode d) ≠ Panic.
Proof.
  split; [split; [apply sound_new|done]|]. split; [reflexivity|].
  apply (decode_parses_values (decoder_new (Ok <$> sample_chunks))). split; [apply sound_new|done].
Defined.

(** The text that ends in the middle of a literal is refused, and so is every call
    after it. *)
Example truncated_value :
  run_calls (λ _, inr "") [CallDecode; CallDecode; CallMore] (decoder_new (Ok <$> sample_chunks))
  = [Decoded (Ok (str_bytes "[1, {" ++ [34] ++ str_bytes "a" ++ [34] ++ str_bytes ":2}]"));
     Decoded (Err unexpected_eof); HasMore true].
Proof. reflexivity. Qed.

(** A stream of whitespace decodes to a value of no bytes, which is no JSON text. *)
Example whitespace_decodes : snd (decode (decoder_new [Ok (str_bytes "  ")])) = Ok [].
Proof. reflexivity. Qed.
