(* ===== verification/RowStreamer.v ===== *)
(** * Rows of a streamed answer ([httpx/raw_json_row_streamer.rs])

    The query, search and analytics services answer with one JSON object, of which one
    attribute is the array of rows.  The streamer reads the attributes before the
    rows ([read_prelude]), hands out the rows one by one while they arrive ([next]),
    and gives the attributes of both sides at the end.

    JSON values are of the type [V]; their parser and printer ([serde_json]) are
    parameters.  The loops take fuel: as many rounds as there are bytes left are
    enough, since every round reads at least a key ([begin_returns],
    [next_returns]). *)

From S2P Require Import Prelude Text HttpxError JsonScanner JsonDecoder.

Module RowStreamState.
Inductive RowStreamState : Type := Start | Rows | PostRows | End_.
End RowStreamState.
Abbreviation RowStreamState := RowStreamState.RowStreamState.

#[global] Instance row_stream_state_eq_dec : EqDecision RowStreamState.
Proof. solve_decision. Defined.

Module RawJsonRowItem.
Inductive RawJsonRowItem : Type :=
| Row (row : list Z)
| Metadata (metadata : list Z).
End RawJsonRowItem.
Abbreviation RawJsonRowItem := RawJsonRowItem.RawJsonRowItem.

Section Streamer.
Context {V : Type}.
(** [serde_json]: [from_slice] into a string and into a value, [to_vec] of the
    attributes.  An error is its text. *)
Context (from_slice_string : list Z → string + string) (from_slice_value : list Z → string + V)
  (to_vec : gmap string V → string + list Z).

Record RawJsonRowStreamer : Type := mkStreamer {
  rs_stream : Decoder;
  rs_rows_attrib : string;
  rs_attribs : gmap string V;
  rs_state : RowStreamState
}.

Definition streamer_new (stream : Decoder) (rows_attrib : string) : RawJsonRowStreamer :=
  mkStreamer stream rows_attrib ∅ RowStreamState.Start.

Definition set_stream (d : Decoder) (s : RawJsonRowStreamer) : RawJsonRowStreamer :=
  mkStreamer d (rs_rows_attrib s) (rs_attribs s) (rs_state s).
Definition set_rs_state (st : RowStreamState) (s : RawJsonRowStreamer) : RawJsonRowStreamer :=
  mkStreamer (rs_stream s) (rs_rows_attrib s) (rs_attribs s) st.
Definition insert_attrib (k : string) (v : V) (s : RawJsonRowStreamer) : RawJsonRowStreamer :=
  mkStreamer (rs_stream s) (rs_rows_attrib s) (<[k := v]> (rs_attribs s)) (rs_state s).

Abbreviation row := (calls RawJsonRowStreamer).

(** A call on the decoder. *)
Definition on_stream {A} (m : dec A) : row A := λ s,
  let '(d, r) := m (rs_stream s) in (set_stream d s, r).

Definition stream_more : row bool := on_stream (λ d, let '(d, b) := more d in (d, Ok b)).

Abbreviation tok := (on_stream (token from_slice_string)).

Definition parse_value (value : list Z) : outcome HttpxError V :=
  match from_slice_value value with
  | inl e => Err (httpx_message_error ("failed to parse value: " +:+ e))
  | inr v => Ok v
  end.

(** The value of the attribute [key], which is remembered. *)
Definition read_attrib (key : string) : row unit :=
  value ← on_stream decode;
  value ← lift (parse_value value);
  modify (insert_attrib key value).

Definition expect_end_of_rows : row unit :=
  token ← tok;
  match token with
  | Token.Delim c =>
      if c =? RBRACKET then mret tt
      else fail (httpx_message_error "expected closing ] for the result")
  | _ => fail (httpx_message_error "expected closing ] for the result")
  end.

(** The attribute of the rows in [begin]; the result says whether to go round again. *)
Definition begin_rows : row bool :=
  token ← tok;
  match token with
  | Token.Delim c =>
      if c =? LBRACKET then
        _ ← modify (set_rs_state RowStreamState.Rows);
        has_rows ← stream_more;
        if (has_rows : bool) then
          _ ← modify (set_rs_state RowStreamState.Rows);
          mret false
        else
          _ ← expect_end_of_rows;
          _ ← modify (set_rs_state RowStreamState.PostRows);
          mret true
      else fail (httpx_message_error "expected an opening bracket for the rows")
  | Token.Value v =>
      if bool_decide (v = str_bytes "null") then mret true
      else fail (httpx_message_error "expected an opening bracket for the rows")
  | Token.String_ _ => fail (httpx_message_error "expected an opening bracket for the rows")
  end.

(** One round of the loop of [begin]. *)
Definition begin_round : row bool :=
  has_more ← stream_more;
  if negb (has_more : bool) then
    _ ← modify (set_rs_state RowStreamState.End_);
    mret false
  else
    token ← tok;
    match token with
    | Token.String_ key => λ s,
        if bool_decide (key = rs_rows_attrib s) then begin_rows s
        else (_ ← read_attrib key; mret true) s
    | _ => fail (httpx_message_error "expected a string key for the result")
    end.

Fixpoint begin_loop (fuel : nat) (s : RawJsonRowStreamer)
    : option (RawJsonRowStreamer * outcome HttpxError unit) :=
  match fuel with
  | O => None
  | S fuel =>
      match begin_round s with
      | (s, Ok true) => begin_loop fuel s
      | (s, Ok false) => Some (s, Ok tt)
      | (s, Err e) => Some (s, Err e)
      | (s, Panic) => Some (s, Panic)
      end
  end.

(** Enough rounds for the text that is left. *)
Definition rounds (s : RawJsonRowStreamer) : nat := S (length (rest (rs_stream s))).

Definition begin_ : row unit := λ s,
  if negb (bool_decide (rs_state s = RowStreamState.Start)) then
    (s, Err (httpx_message_error "unexpected parsing state during begin"))
  else
    (first ← tok;
     if negb (bool_decide (first = Token.Delim LBRACE)) then
       fail (httpx_message_error "expected an opening brace for the result")
     else λ s, default (s, Panic) (begin_loop (rounds s) s)) s.

Definition has_more_rows (s : RawJsonRowStreamer) : RawJsonRowStreamer * bool :=
  if negb (bool_decide (rs_state s = RowStreamState.Rows)) then (s, false)
  else let '(d, b) := more (rs_stream s) in (set_stream d s, b).

(** The attributes as text; [msg] is the text of an error. *)
Definition attribs_text (msg : string) : row (list Z) := λ s,
  (s, match to_vec (rs_attribs s) with
      | inl e => Err (httpx_message_error (msg +:+ e))
      | inr text => Ok text
      end).

Definition read_prelude : row (list Z) := _ ← begin_; attribs_text "failed to read prelude: ".

Definition epilog : row (list Z) := attribs_text "failed to read epilogue: ".

(** One round of the loop of [next]: [None] goes round again. *)
Definition next_round : row (option RawJsonRowItem) := λ s,
  if bool_decide (rs_state s = RowStreamState.PostRows) then
    (token ← tok;
     match token with
     | Token.String_ key => _ ← read_attrib key; mret None
     | Token.Delim c =>
         if c =? RBRACE then
           _ ← modify (set_rs_state RowStreamState.End_);
           metadata ← attribs_text "failed to encode metadata: ";
           mret (Some (RawJsonRowItem.Metadata metadata))
         else fail (httpx_message_error "expected a string key for the result")
     | Token.Value _ => fail (httpx_message_error "expected a string key for the result")
     end) s
  else
    (r ← on_stream decode;
     has_more ← stream_more;
     if negb (has_more : bool) then
       _ ← expect_end_of_rows;
       _ ← modify (set_rs_state RowStreamState.PostRows);
       mret (Some (RawJsonRowItem.Row r))
     else mret (Some (RawJsonRowItem.Row r))) s.

Fixpoint next_loop (fuel : nat) (s : RawJsonRowStreamer)
    : option (RawJsonRowStreamer * outcome HttpxError RawJsonRowItem) :=
  match fuel with
  | O => None
  | S fuel =>
      match next_round s with
      | (s, Ok (Some item)) => Some (s, Ok item)
      | (s, Ok None) => next_loop fuel s
      | (s, Err e) => Some (s, Err e)
      | (s, Panic) => Some (s, Panic)
      end
  end.

Definition next (s : RawJsonRowStreamer) : RawJsonRowStreamer * option (outcome HttpxError RawJsonRowItem) :=
  if bool_decide (rs_state s = RowStreamState.End_) then (s, None)
  else let '(s, r) := default (s, Panic) (next_loop (rounds s) s) in (s, Some r).

(** [into_stream], its first [n] items. *)
Fixpoint stream_items (n : nat) (s : RawJsonRowStreamer) : list (outcome HttpxError RawJsonRowItem) :=
  match n with
  | O => []
  | S n =>
      match next s with
      | (s, Some item) => item :: stream_items n s
      | (_, None) => []
      end
  end.

(** ** Every call returns *)

Abbreviation left_of s := (left (rs_stream s)).
Abbreviation sound_of s := (sound (rs_stream s)).

Definition consumes_row {A} (m : row A) : Prop :=
  ∀ s, sound_of s → sound_of (fst (m s)) ∧ (left_of (fst (m s)) ≤ left_of s)%nat.

Lemma consumes_row_bind {A B} (m : row A) (f : A → row B) :
  consumes_row m → (∀ a, consumes_row (f a)) → consumes_row (m ≫= f).
Proof.
  intros Hm Hf s Hs. destruct (Hm s Hs) as [H1 H2]. unfold mbind, calls_bind.
  destruct (m s) as [s' [a| |]]; cbn [fst] in *; [|done..]. destruct (Hf a s' H1). split; [done|lia].
Qed.

Lemma consumes_on_stream {A} (m : dec A) : consumes m → consumes_row (on_stream m).
Proof. intros Hm s Hs. destruct (Hm (rs_stream s) Hs). unfold on_stream. by destruct (m (rs_stream s)). Qed.

Lemma consumes_more : consumes_row stream_more.
Proof.
  apply consumes_on_stream. intros d Hd. pose proof (peek_left d Hd). unfold more. by destruct (peek d).
Qed.

Lemma consumes_tok : consumes_row tok.
Proof. apply consumes_on_stream, consumes_token. Qed.

Lemma consumes_modify f : (∀ s, rs_stream (f s) = rs_stream s) → consumes_row (modify f).
Proof. intros Hf s Hs. cbn. by rewrite Hf. Qed.

Lemma consumes_pure {A} (r : outcome HttpxError A) : consumes_row (λ s, (s, r)).
Proof. done. Qed.

Lemma consumes_read_attrib key : consumes_row (read_attrib key).
Proof.
  apply consumes_row_bind; [apply consumes_on_stream, consumes_decode|]. intros b.
  apply consumes_row_bind; [apply consumes_pure|]. intros v. by apply consumes_modify.
Qed.

Lemma consumes_end_of_rows : consumes_row expect_end_of_rows.
Proof.
  apply consumes_row_bind; [apply consumes_tok|]. intros [c|x|v]; [|apply consumes_pure..].
  destruct (c =? RBRACKET); apply consumes_pure.
Qed.

Lemma consumes_begin_rows : consumes_row begin_rows.
Proof.
  apply consumes_row_bind; [apply consumes_tok|]. intros [c|x|v]; [|apply consumes_pure|].
  - destruct (c =? LBRACKET); [|apply consumes_pure].
    apply consumes_row_bind; [by apply consumes_modify|]. intros _.
    apply consumes_row_bind; [apply consumes_more|]. intros [].
    + apply consumes_row_bind; [by apply consumes_modify|]. intros _. apply consumes_pure.
    + apply consumes_row_bind; [apply consumes_end_of_rows|]. intros _.
      apply consumes_row_bind; [by apply consumes_modify|]. intros _. apply consumes_pure.
  - destruct (bool_decide _); apply consumes_pure.
Qed.

(** A key was read, and nothing gives text back. *)
Lemma tok_then_strict {B} (f : Token → row B) (P : RawJsonRowStreamer * outcome HttpxError B → Prop) s :
  sound_of s →
  (∀ x s', sound_of s' → (left_of s' < left_of s)%nat → P (f (Token.String_ x) s')) →
  (∀ t s', match t with Token.String_ _ => False | _ => True end → sound_of s' → P (f t s')) →
  (∀ s' e, P (s', Err e)) → (∀ s', P (s', Panic)) →
  P ((tok ≫= f) s).
Proof.
  intros Hs Hkey Hother Herr Hpanic. unfold mbind, calls_bind, on_stream.
  destruct (consumes_token from_slice_string (rs_stream s) Hs) as [H1 H2].
  destruct (token from_slice_string (rs_stream s)) as [d [[c|x|v]| |]] eqn:Ht; cbn [fst] in *; try done.
  - by apply Hother.
  - apply Hkey; [done|]. by eapply token_string_strict.
  - by apply Hother.
Qed.

Lemma begin_round_progress s :
  sound_of s → let '(s', r) := begin_round s in
  r = Ok true → sound_of s' ∧ (left_of s' < left_of s)%nat.
Proof.
  intros Hs. unfold begin_round. unfold mbind at 1, calls_bind at 1.
  destruct (consumes_more s Hs) as [H1 H2]. destruct (stream_more s) as [s1 [b| |]]; cbn [fst] in *; try done.
  destruct b; cbn [negb]; [|done].
  apply (tok_then_strict _ (λ x, let '(s', r) := x in
    r = Ok true → sound_of s' ∧ (left_of s' < left_of s)%nat)); try done.
  - intros x s2 Hs2 Hlt. cbn beta iota. 
    assert (∀ m : row bool, consumes_row m → let '(s', r) := m s2 in
      r = Ok true → sound_of s' ∧ (left_of s' < left_of s)%nat) as K.
    { intros m Hm. destruct (Hm s2 Hs2). destruct (m s2). cbn [fst] in *. split; [done|lia]. }
    destruct (bool_decide _); [apply K, consumes_begin_rows|].
    apply K. apply consumes_row_bind; [apply consumes_read_attrib|]. intros _. apply consumes_pure.
  - intros [c|x|v] s2 Hm Hs2; done.
Qed.

(** [begin] always returns: the rounds given are enough. *)
Lemma begin_returns s : sound_of s → begin_loop (rounds s) s ≠ None.
Proof.
  intros Hs. unfold rounds. fold (left (rs_stream s)).
  assert (∀ fuel s, sound_of s → (left_of s < fuel)%nat → begin_loop fuel s ≠ None) as K; [|apply K; [done|lia]].
  clear s Hs. induction fuel as [|fuel IH]; intros s Hs Hlt; [lia|]. cbn [begin_loop].
  pose proof (begin_round_progress s Hs) as Hp. destruct (begin_round s) as [s' [[]| |]]; try done.
  destruct Hp as [Hs' Hl]; [done|]. apply IH; [done|lia].
Qed.

Lemma next_round_progress s :
  sound_of s → let '(s', r) := next_round s in
  r = Ok None → sound_of s' ∧ (left_of s' < left_of s)%nat.
Proof.
  intros Hs. unfold next_round. destruct (bool_decide _).
  - apply (tok_then_strict _ (λ x, let '(s', r) := x in
      r = Ok None → sound_of s' ∧ (left_of s' < left_of s)%nat)); try done.
    + intros x s2 Hs2 Hlt. unfold mbind, calls_bind. destruct (consumes_read_attrib x s2 Hs2).
      destruct (read_attrib x s2) as [s3 []]; cbn [fst] in *; try done. intros _. split; [done|lia].
    + intros [c|x|v] s2 Hm Hs2; try done. destruct (c =? RBRACE); [|done].
      unfold mbind, calls_bind, modify, attribs_text. by destruct (to_vec _).
  - unfold mbind, calls_bind. destruct (on_stream decode s) as [s1 [b| |]]; try done.
    destruct (stream_more s1) as [s2 [[]| |]]; try done. cbn [negb].
    destruct (expect_end_of_rows s2) as [s3 []]; done.
Qed.

Lemma next_returns s : sound_of s → next_loop (rounds s) s ≠ None.
Proof.
  intros Hs. unfold rounds. fold (left (rs_stream s)).
  assert (∀ fuel s, sound_of s → (left_of s < fuel)%nat → next_loop fuel s ≠ None) as K; [|apply K; [done|lia]].
  clear s Hs. induction fuel as [|fuel IH]; intros s Hs Hlt; [lia|]. cbn [next_loop].
  pose proof (next_round_progress s Hs) as Hp. destruct (next_round s) as [s' [[]| |]]; try done.
  destruct Hp as [Hs' Hl]; [done|]. apply IH; [done|lia].
Qed.

(** *** Whatever is called *)

Lemma consumes_begin_round : consumes_row begin_round.
Proof.
  apply consumes_row_bind; [apply consumes_more|]. intros []; cbn [negb].
  - apply consumes_row_bind; [apply consumes_tok|]. intros [c|x|v]; [apply consumes_pure| |apply consumes_pure].
    intros s. destruct (bool_decide _); [apply consumes_begin_rows|].
    apply consumes_row_bind; [apply consumes_read_attrib|]. intros _. apply consumes_pure.
  - apply consumes_row_bind; [by apply consumes_modify|]. intros _. apply consumes_pure.
Qed.

Lemma consumes_attribs_text msg : consumes_row (attribs_text msg).
Proof. done. Qed.

Lemma consumes_next_round : consumes_row next_round.
Proof.
  intros s. unfold next_round. destruct (bool_decide _).
  - revert s. apply consumes_row_bind; [apply consumes_tok|]. intros [c|x|v]; [| |apply consumes_pure].
    + destruct (c =? RBRACE); [|apply consumes_pure].
      apply consumes_row_bind; [by apply consumes_modify|]. intros _.
      apply consumes_row_bind; [apply consumes_attribs_text|]. intros m. apply consumes_pure.
    + apply consumes_row_bind; [apply consumes_read_attrib|]. intros _. apply consumes_pure.
  - revert s. apply consumes_row_bind; [apply consumes_on_stream, consumes_decode|]. intros r.
    apply consumes_row_bind; [apply consumes_more|]. intros []; cbn [negb]; [apply consumes_pure|].
    apply consumes_row_bind; [apply consumes_end_of_rows|]. intros _.
    apply consumes_row_bind; [by apply consumes_modify|]. intros _. apply consumes_pure.
Qed.

Lemma sound_begin_loop fuel s s' r : sound_of s → begin_loop fuel s = Some (s', r) → sound_of s'.
Proof.
  revert s. induction fuel as [|fuel IH]; intros s Hs; [done|]. cbn [begin_loop].
  destruct (consumes_begin_round s Hs) as [H1 _].
  destruct (begin_round s) as [s1 [[]| |]]; cbn [fst] in H1; [by apply IH|by intros [= <- <-]..].
Qed.

Lemma sound_next_loop fuel s s' r : sound_of s → next_loop fuel s = Some (s', r) → sound_of s'.
Proof.
  revert s. induction fuel as [|fuel IH]; intros s Hs; [done|]. cbn [next_loop].
  destruct (consumes_next_round s Hs) as [H1 _].
  destruct (next_round s) as [s1 [[]| |]]; cbn [fst] in H1; [|by apply IH|..]; by intros [= <- <-].
Qed.

(** The calls of a reader of rows, in any order. *)
Inductive RowCall : Type := CallPrelude | CallHasMore | CallNext | CallEpilog.

Definition call_streamer (c : RowCall) (s : RawJsonRowStreamer) : RawJsonRowStreamer :=
  match c with
  | CallPrelude => fst (read_prelude s)
  | CallHasMore => fst (has_more_rows s)
  | CallNext => fst (next s)
  | CallEpilog => fst (epilog s)
  end.

Definition call_all (cs : list RowCall) (s : RawJsonRowStreamer) : RawJsonRowStreamer :=
  fold_left (λ s c, call_streamer c s) cs s.

Lemma sound_begin s : sound_of s → sound_of (fst (begin_ s)).
Proof.
  intros Hs. unfold begin_. destruct (negb _); [done|]. unfold mbind, calls_bind.
  destruct (consumes_tok s Hs) as [H1 _]. destruct (tok s) as [s1 [t| |]]; cbn [fst] in *; [|done..].
  destruct (negb _); [done|]. destruct (begin_loop _ s1) as [[s2 r]|] eqn:Hl; [|done].
  by eapply sound_begin_loop.
Qed.

Lemma sound_call c s : sound_of s → sound_of (call_streamer c s).
Proof.
  intros Hs. destruct c; cbn [call_streamer]; [| | |done].
  - pose proof (sound_begin s Hs) as H1. unfold read_prelude, mbind, calls_bind. by destruct (begin_ s) as [s1 []].
  - unfold has_more_rows. destruct (negb _); [done|]. pose proof (peek_left (rs_stream s) Hs) as [H1 _].
    unfold more. by destruct (peek (rs_stream s)).
  - unfold next. destruct (bool_decide _); [done|]. destruct (next_loop _ s) as [[s1 r]|] eqn:Hl; [|done].
    cbn. by eapply sound_next_loop.
Qed.

(** C39. However the calls of a reader are ordered, whatever bytes the stream delivers
    and however they are cut into chunks, no call goes round for ever: the loop of
    [token] ends after two rounds, and the loops of [begin] and [next] end within one
    round more than there are bytes left. *)
Theorem streamer_returns cs rows_attrib calls :
  let s := call_all calls (streamer_new (decoder_new (Ok <$> cs)) rows_attrib) in
  token_loop from_slice_string 2 (rs_stream s) ≠ None
  ∧ (∀ s' t, tok s = (s', t) → begin_loop (rounds s') s' ≠ None)
  ∧ next_loop (rounds s) s ≠ None.
Proof.
  assert (∀ s, sound_of s → sound_of (call_all calls s)) as K.
  { induction calls as [|c calls IH]; intros s Hs; [done|]. apply IH. by apply sound_call. }
  cbv zeta. set (s := call_all _ _). assert (sound_of s) as Hs by apply K, sound_new.
  split; [apply token_returns|]. split; [|by apply next_returns].
  intros s' t Ht. apply begin_returns. destruct (consumes_tok s Hs) as [H1 _]. by rewrite Ht in H1.
Qed.

(** ** A document of rows

    The text of an attribute, with the whitespace around its parts, and of a row. *)

Record Attr : Type := mkAttr {
  at_ws1 : list Z;
  at_key : list Z;
  at_ws2 : list Z;
  at_ws3 : list Z;
  at_value_text : list Z;
  at_ws4 : list Z;
  at_name : string;
  at_value : V
}.

(** What comes before the value, and the whole attribute. *)
Definition key_text (a : Attr) : list Z := at_ws1 a ++ at_key a.
Definition attr_text (a : Attr) : list Z :=
  key_text a ++ at_ws2 a ++ COLON :: at_ws3 a ++ at_value_text a ++ at_ws4 a.

Definition key_ok (a : Attr) : Prop :=
  ws (at_ws1 a) ∧ json_string (at_key a) ∧ ws (at_ws2 a) ∧ ws (at_ws3 a) ∧ ws (at_ws4 a)
  ∧ from_slice_string (at_key a) = inr (at_name a).

Definition attr_ok (a : Attr) : Prop :=
  key_ok a ∧ value (at_value_text a) ∧ from_slice_value (at_value_text a) = inr (at_value a).

Record RowText : Type := mkRowText { row_ws1 : list Z; row_value : list Z; row_ws2 : list Z }.

Definition row_text (r : RowText) : list Z := row_ws1 r ++ row_value r ++ row_ws2 r.

Definition row_ok (r : RowText) : Prop := ws (row_ws1 r) ∧ value (row_value r) ∧ ws (row_ws2 r).

Definition before_commas (l : list (list Z)) : list Z := concat ((λ x, x ++ [COMMA]) <$> l).
Definition after_commas (l : list (list Z)) : list Z := concat (cons COMMA <$> l).

(** An object with the attributes [pre], the rows under the key of [h] and the
    attributes [post]; the value of [h] is not used. *)
Definition document (w0 : list Z) (pre : list Attr) (h : Attr) (r : RowText) (rs : list RowText)
    (post : list Attr) (tail : list Z) : list Z :=
  w0 ++ LBRACE :: before_commas (attr_text <$> pre) ++ key_text h ++ at_ws2 h ++ COLON :: at_ws3 h
    ++ LBRACKET :: (row_text r ++ after_commas (row_text <$> rs)) ++ RBRACKET :: at_ws4 h
    ++ after_commas (attr_text <$> post) ++ RBRACE :: tail.

Definition attribs_of (l : list Attr) (m : gmap string V) : gmap string V :=
  foldl (λ m a, <[at_name a := at_value a]> m) m l.

(** *** Steps over the parts of a document *)

Definition at_stream (s : RawJsonRowStreamer) (t : list Z) (st : TokenState) (k : list TokenState) : Prop :=
  placed (rs_stream s) t st k.

(** The streamers differ in the position in the text only. *)
Definition moved_on (s s' : RawJsonRowStreamer) : Prop :=
  rs_rows_attrib s' = rs_rows_attrib s ∧ rs_attribs s' = rs_attribs s ∧ rs_state s' = rs_state s.

Abbreviation top := [TokenState.TopValue].

(** A key comes next: the first of the object, or one after a comma. *)
Definition at_key_text (s : RawJsonRowStreamer) (l : list Z) : Prop :=
  at_stream s l TokenState.ObjectStart top
  ∨ ∃ w, ws w ∧ at_stream s (w ++ COMMA :: l) TokenState.ObjectComma top.

Lemma stops_ws w t : ws w → stops t → stops (w ++ t).
Proof.
  intros Hw Ht. destruct Hw as [|c w Hc]; [done|]. cbn.
  apply whitespace_cases in Hc as [->|[->|[->|[->| ->]]]]; done.
Qed.

Lemma more_step s w c l st k :
  at_stream s (w ++ c :: l) st k → ws w → is_ascii_whitespace c = false →
  ∃ s', stream_more s = (s', Ok (negb (c =? RBRACKET) && negb (c =? RBRACE)))
    ∧ at_stream s' (c :: l) st k ∧ moved_on s s'.
Proof.
  intros Hs Hw Hc. destruct (placed_more _ w c l st k Hs Hw Hc) as (d & Hm & Hd).
  exists (set_stream d s). unfold stream_more, on_stream. by rewrite Hm.
Qed.

Lemma tok_step {s d x} :
  token from_slice_string (rs_stream s) = (d, Ok x) → tok s = (set_stream d s, Ok x).
Proof. intros H. unfold on_stream. by rewrite H. Qed.

Lemma key_step s a t :
  at_key_text s (key_text a ++ t) → key_ok a → stops t →
  ∃ s1 s2, stream_more s = (s1, Ok true) ∧ tok s1 = (s2, Ok (Token.String_ (at_name a)))
    ∧ at_stream s2 t TokenState.ObjectColon top ∧ moved_on s s2.
Proof.
  intros Hs (H1 & Hk & _ & _ & _ & Hn) Ht. unfold key_text in Hs.
  assert (∃ q, at_key a = QUOTE :: q) as [q Hq] by (destruct Hk; by eexists).
  destruct Hs as [Hs|(w & Hw & Hs)].
  - assert (at_stream s (at_ws1 a ++ QUOTE :: q ++ t) TokenState.ObjectStart top) as Hs'.
    { rewrite <- app_assoc, Hq in Hs. exact Hs. }
    destruct (more_step s _ _ _ _ _ Hs' H1 eq_refl) as (s1 & Hm & Hs1 & Hmv). exists s1.
    destruct (tok1_key from_slice_string (rs_stream s1) [] (at_key a) t TokenState.ObjectStart top (at_name a))
      as (d & Hd & Hp); [by rewrite Hq|constructor|done..|by left|].
    exists (set_stream d s1). split; [done|]. split; [by apply tok_step, token_one|]. split; [done|].
    destruct Hmv as (? & ? & ?). by split.
  - destruct (more_step s w COMMA _ _ _ Hs Hw eq_refl) as (s1 & Hm & Hs1 & Hmv). exists s1.
    destruct (tok_skip from_slice_string (rs_stream s1) [] COMMA _ _ TokenState.ObjectKey _ Hs1)
      as (d1 & Hd1 & Htok); [constructor|by right; right; left|].
    destruct (tok1_key from_slice_string d1 (at_ws1 a) (at_key a) t TokenState.ObjectKey top (at_name a))
      as (d & Hd & Hp); [by rewrite app_assoc|done..|by right; left|].
    exists (set_stream d s1). split; [done|]. split; [by apply tok_step, Htok|]. split; [done|].
    destruct Hmv as (? & ? & ?). by split.
Qed.

(** The value after a key. *)
Lemma attrib_step s a l :
  at_stream s (at_ws2 a ++ COLON :: at_ws3 a ++ at_value_text a ++ at_ws4 a ++ l) TokenState.ObjectColon top →
  attr_ok a → stops l →
  ∃ s', read_attrib (at_name a) s = (s', Ok tt) ∧ at_stream s' (at_ws4 a ++ l) TokenState.ObjectComma top
    ∧ rs_rows_attrib s' = rs_rows_attrib s ∧ rs_state s' = rs_state s
    ∧ rs_attribs s' = <[at_name a := at_value a]> (rs_attribs s).
Proof.
  intros Hs ((_ & _ & H2 & H3 & H4 & _) & Hv & Hp) Hl.
  destruct (placed_separated _ _ _ _ _ _ _ TokenState.ObjectValue _ Hs) as (d & Hd & Hpl);
    [by right; left|done..|by apply stops_ws|].
  exists (insert_attrib (at_name a) (at_value a) (set_stream d s)).
  split; [|done]. unfold read_attrib, mbind, calls_bind, on_stream. rewrite Hd.
  unfold lift, parse_value. by rewrite Hp.
Qed.

Lemma attr_text_app a l :
  attr_text a ++ l = key_text a ++ at_ws2 a ++ COLON :: at_ws3 a ++ at_value_text a ++ at_ws4 a ++ l.
Proof. unfold attr_text. by norm_app. Qed.

Lemma stops_colon w l : ws w → stops (w ++ COLON :: l).
Proof. intros Hw. by apply stops_ws. Qed.

(** An attribute in [begin]. *)
Lemma begin_attrib s a l :
  at_key_text s (attr_text a ++ l) → attr_ok a → at_name a ≠ rs_rows_attrib s → stops l →
  ∃ s', begin_round s = (s', Ok true) ∧ at_stream s' (at_ws4 a ++ l) TokenState.ObjectComma top
    ∧ rs_rows_attrib s' = rs_rows_attrib s
    ∧ rs_attribs s' = <[at_name a := at_value a]> (rs_attribs s).
Proof.
  intros Hs Ha Hname Hl. rewrite attr_text_app in Hs.
  destruct (key_step s a _ Hs (proj1 Ha)) as (s1 & s2 & Hm & Ht & Hs2 & Ha2 & Hb2 & _); [by apply stops_colon, Ha|].
  destruct (attrib_step s2 a l Hs2 Ha) as (s3 & Hr & Hs3 & Ha3 & _ & Hb3); [done|].
  exists s3. split; [|split; [done|split; congruence]].
  unfold begin_round. unfold mbind at 1, calls_bind at 1. rewrite Hm. cbn [negb]. cbv iota.
  unfold mbind at 1, calls_bind at 1. rewrite Ht.
  rewrite bool_decide_eq_false_2 by congruence. unfold mbind, calls_bind. by rewrite Hr.
Qed.

(** An attribute before the rows. *)
Lemma begin_attr s a l :
  at_key_text s (attr_text a ++ COMMA :: l) → attr_ok a → at_name a ≠ rs_rows_attrib s →
  ∃ s', begin_round s = (s', Ok true) ∧ at_key_text s' l
    ∧ rs_rows_attrib s' = rs_rows_attrib s
    ∧ rs_attribs s' = <[at_name a := at_value a]> (rs_attribs s).
Proof.
  intros Hs Ha Hname. destruct (begin_attrib s a _ Hs Ha Hname) as (s' & Hb & Hs' & H); [done|].
  exists s'. split; [done|]. split; [|done]. right. exists (at_ws4 a). split; [apply Ha|done].
Qed.

(** The rows are found when there is one. *)
Definition in_rows : list TokenState := [TokenState.ObjectValue; TokenState.TopValue].

Lemma value_cons v : value v → ∃ c l, v = c :: l ∧ is_ascii_whitespace c = false
  ∧ negb (c =? RBRACKET) && negb (c =? RBRACE) = true.
Proof.
  intros Hv. destruct (value_head v Hv) as (c & l & -> & Hc & H1 & H2 & _). exists c, l.
  repeat split; [done|]. apply Z.eqb_neq in H1 as ->. by apply Z.eqb_neq in H2 as ->.
Qed.

Lemma begin_at_rows s h r l :
  at_key_text s (key_text h ++ at_ws2 h ++ COLON :: at_ws3 h ++ LBRACKET :: row_text r ++ l) →
  key_ok h → at_name h = rs_rows_attrib s → row_ok r →
  ∃ s', begin_round s = (s', Ok false)
    ∧ at_stream s' (row_value r ++ row_ws2 r ++ l) TokenState.ArrayStart in_rows
    ∧ rs_rows_attrib s' = rs_rows_attrib s ∧ rs_attribs s' = rs_attribs s
    ∧ rs_state s' = RowStreamState.Rows.
Proof.
  intros Hs Hh Hname (Hr1 & Hv & Hr2).
  destruct (key_step s h _ Hs Hh) as (s1 & s2 & Hm & Ht & Hs2 & Ha2 & Hb2 & Hc2); [by apply stops_colon, Hh|].
  destruct Hh as (_ & _ & H2 & H3 & _).
  destruct (tok_skip from_slice_string (rs_stream s2) _ COLON _ _ TokenState.ObjectValue _ Hs2 H2)
    as (d1 & Hd1 & Htok); [by left|].
  destruct (tok1_open from_slice_string d1 _ LBRACKET _ _ _ TokenState.ArrayStart Hd1 H3)
    as (d2 & Hopen & Hd2); [by left|by right; right; right; left|].
  set (s3 := set_rs_state RowStreamState.Rows (set_stream d2 s2)).
  destruct (value_cons _ Hv) as (c & q & Hq & Hc & Hcb).
  assert (at_stream s3 (row_ws1 r ++ c :: q ++ row_ws2 r ++ l) TokenState.ArrayStart in_rows) as Hs3.
  { unfold row_text in Hd2. rewrite <- !app_assoc, Hq in Hd2. exact Hd2. }
  destruct (more_step s3 _ _ _ _ _ Hs3 Hr1 Hc) as (s4 & Hm4 & Hs4 & Ha4 & Hb4 & Hc4). rewrite Hcb in Hm4.
  exists (set_rs_state RowStreamState.Rows s4).
  split; [|split; [rewrite Hq; exact Hs4|cbn; split; [|split]; [etransitivity; [exact Ha4|done]
    |etransitivity; [exact Hb4|done]|done]]].
  unfold begin_round. unfold mbind at 1, calls_bind at 1. rewrite Hm. cbn [negb]. cbv iota.
  unfold mbind at 1, calls_bind at 1. rewrite Ht. rewrite bool_decide_eq_true_2 by congruence.
  unfold begin_rows. unfold mbind at 1, calls_bind at 1. rewrite (tok_step (Htok _ Hopen)).
  cbn [Z.eqb Pos.eqb]. cbv iota. unfold mbind at 1, calls_bind at 1, modify at 1. fold s3.
  unfold mbind at 1, calls_bind at 1. by rewrite Hm4.
Qed.

Lemma before_commas_cons x l : before_commas (x :: l) = x ++ COMMA :: before_commas l.
Proof. unfold before_commas. cbn. by rewrite <- app_assoc. Qed.

Lemma length_before_commas l : (length l ≤ length (before_commas l))%nat.
Proof. induction l as [|x l IH]; [cbn; lia|]. rewrite before_commas_cons, length_app. cbn. lia. Qed.

Lemma length_after_commas l : (length l ≤ length (after_commas l))%nat.
Proof. induction l as [|x l IH]; [cbn; lia|]. unfold after_commas in *. cbn. rewrite length_app. lia. Qed.

Lemma begin_loop_document pre h r l : ∀ s fuel,
  at_key_text s (before_commas (attr_text <$> pre) ++ key_text h ++ at_ws2 h ++ COLON :: at_ws3 h
    ++ LBRACKET :: row_text r ++ l) →
  Forall attr_ok pre → Forall (λ a, at_name a ≠ rs_rows_attrib s) pre →
  key_ok h → at_name h = rs_rows_attrib s → row_ok r → (length pre < fuel)%nat →
  ∃ s', begin_loop fuel s = Some (s', Ok tt)
    ∧ at_stream s' (row_value r ++ row_ws2 r ++ l) TokenState.ArrayStart in_rows
    ∧ rs_attribs s' = attribs_of pre (rs_attribs s) ∧ rs_state s' = RowStreamState.Rows.
Proof.
  induction pre as [|a pre IH]; intros s fuel Hs Hpre Hnames Hh Hname Hr Hfuel;
    (destruct fuel as [|fuel]; [lia|]); cbn [begin_loop].
  - destruct (begin_at_rows s h r l Hs Hh Hname Hr) as (s' & -> & Hs' & _ & Ha & Hst). by exists s'.
  - apply list.Forall_cons in Hpre as [Ha Hpre]. apply list.Forall_cons in Hnames as [Hn Hnames].
    rewrite fmap_cons, before_commas_cons, <- app_assoc in Hs.
    destruct (begin_attr s a _ Hs Ha Hn) as (s1 & -> & Hs1 & Hra & Hat).
    destruct (IH s1 fuel Hs1 Hpre) as (s' & Hb & Hs' & Hat' & Hst); [by rewrite Hra|done|by rewrite Hra|done|cbn in Hfuel; lia|].
    exists s'. rewrite Hb. split; [done|]. split; [done|]. split; [|done]. by rewrite Hat', Hat.
Qed.

(** *** Rows and the end *)

(** A row is next: the first one, or one after a comma. *)
Definition at_row (s : RawJsonRowStreamer) (r : RowText) (l : list Z) : Prop :=
  rs_state s = RowStreamState.Rows
  ∧ (at_stream s (row_value r ++ row_ws2 r ++ l) TokenState.ArrayStart in_rows
     ∨ at_stream s (COMMA :: row_text r ++ l) TokenState.ArrayComma in_rows).

Lemma row_decode s r l :
  at_row s r l → row_ok r → stops l →
  ∃ s', on_stream decode s = (s', Ok (row_value r))
    ∧ at_stream s' (row_ws2 r ++ l) TokenState.ArrayComma in_rows ∧ moved_on s s'.
Proof.
  intros [_ Hs] (H1 & Hv & H2) Hl.
  assert (stops (row_ws2 r ++ l)) as Hst by (by apply stops_ws).
  assert (∃ d, decode (rs_stream s) = (d, Ok (row_value r))
    ∧ placed d (row_ws2 r ++ l) TokenState.ArrayComma in_rows) as (d & Hd & Hp).
  { destruct Hs as [Hs|Hs].
    - destruct (placed_value (rs_stream s) [] _ _ _ _ Hs) as (d & Hd & Hp);
        [by right; left|constructor|done..|]. by exists d.
    - unfold row_text in Hs. rewrite <- !app_assoc in Hs.
      destruct (placed_separated (rs_stream s) [] COMMA _ _ _ _ TokenState.ArrayValue _ Hs) as (d & Hd & Hp);
        [by left|constructor|done..|]. by exists d. }
  exists (set_stream d s). unfold on_stream. by rewrite Hd.
Qed.

Lemma next_of_round s s' item :
  rs_state s ≠ RowStreamState.End_ → next_round s = (s', Ok (Some item)) → next s = (s', Some (Ok item)).
Proof.
  intros Hs Hr. unfold next. rewrite bool_decide_eq_false_2 by done.
  unfold rounds. cbn [next_loop]. by rewrite Hr.
Qed.

Lemma next_row s r r' l :
  at_row s r (COMMA :: row_text r' ++ l) → row_ok r →
  ∃ s', next s = (s', Some (Ok (RawJsonRowItem.Row (row_value r)))) ∧ at_row s' r' l
    ∧ rs_attribs s' = rs_attribs s.
Proof.
  intros Hs Hr. destruct (row_decode s r _ Hs Hr) as (s1 & Hd & Hs1 & _ & Ha1 & Hb1); [done|].
  destruct Hr as (_ & _ & H2).
  destruct (more_step s1 _ COMMA _ _ _ Hs1 H2 eq_refl) as (s2 & Hm & Hs2 & _ & Ha2 & Hb2).
  destruct Hs as [Hst _]. exists s2. split; [|split; [split; [congruence|by right]|congruence]].
  apply next_of_round; [congruence|]. unfold next_round. rewrite bool_decide_eq_false_2 by congruence.
  unfold mbind at 1, calls_bind at 1. rewrite Hd. unfold mbind, calls_bind. by rewrite Hm.
Qed.

Lemma next_last_row s r l :
  at_row s r (RBRACKET :: l) → row_ok r →
  ∃ s', next s = (s', Some (Ok (RawJsonRowItem.Row (row_value r))))
    ∧ at_stream s' l TokenState.ObjectComma top ∧ rs_state s' = RowStreamState.PostRows
    ∧ rs_attribs s' = rs_attribs s.
Proof.
  intros Hs Hr. destruct (row_decode s r _ Hs Hr) as (s1 & Hd & Hs1 & _ & Ha1 & Hb1); [done|].
  destruct Hr as (_ & _ & H2).
  destruct (more_step s1 _ RBRACKET _ _ _ Hs1 H2 eq_refl) as (s2 & Hm & Hs2 & _ & Ha2 & Hb2).
  destruct (tok1_close from_slice_string (rs_stream s2) [] RBRACKET l TokenState.ArrayComma
    TokenState.ObjectValue top) as (d & Ht & Hp); [exact Hs2|constructor|by right; left|].
  destruct Hs as [Hst _]. exists (set_rs_state RowStreamState.PostRows (set_stream d s2)).
  split; [|split; [exact Hp|split; [done|cbn; congruence]]].
  apply next_of_round; [congruence|]. unfold next_round. rewrite bool_decide_eq_false_2 by congruence.
  unfold mbind at 1, calls_bind at 1. rewrite Hd. unfold mbind at 1, calls_bind at 1. rewrite Hm.
  cbn [negb Z.eqb Pos.eqb andb]. cbv iota. unfold expect_end_of_rows, mbind, calls_bind.
  by rewrite (tok_step (token_one _ _ _ Ht)).
Qed.

(** The attributes after the rows, and the closing brace. *)
Lemma next_loop_attribs post tail m : ∀ s w fuel,
  at_stream s (w ++ after_commas (attr_text <$> post) ++ RBRACE :: tail) TokenState.ObjectComma top →
  ws w → Forall attr_ok post → rs_state s = RowStreamState.PostRows → (length post < fuel)%nat →
  to_vec (attribs_of post (rs_attribs s)) = inr m →
  ∃ s', next_loop fuel s = Some (s', Ok (RawJsonRowItem.Metadata m)) ∧ rs_state s' = RowStreamState.End_.
Proof.
  induction post as [|a post IH]; intros s w fuel Hs Hw Hpost Hst Hfuel Hm;
    (destruct fuel as [|fuel]; [lia|]); cbn [next_loop]; unfold next_round;
    rewrite bool_decide_eq_true_2 by done; unfold mbind at 1, calls_bind at 1.
  - destruct (tok1_close from_slice_string (rs_stream s) w RBRACE tail TokenState.ObjectComma
      TokenState.TopValue []) as (d & Ht & Hp); [exact Hs|done|by right; right; right; left|].
    rewrite (tok_step (token_one _ _ _ Ht)). cbn [Z.eqb Pos.eqb]. cbv iota.
    exists (set_rs_state RowStreamState.End_ (set_stream d s)). split; [|done].
    unfold mbind, calls_bind, modify, attribs_text. cbn [attribs_of foldl] in Hm.
    change (rs_attribs (set_rs_state RowStreamState.End_ (set_stream d s))) with (rs_attribs s). by rewrite Hm.
  - apply list.Forall_cons in Hpost as [Ha Hpost].
    assert (after_commas (attr_text <$> a :: post)
      = COMMA :: attr_text a ++ after_commas (attr_text <$> post)) as Heq by done.
    rewrite Heq in Hs. cbn [app] in Hs. rewrite <- app_assoc, attr_text_app in Hs.
    assert (at_key_text s (key_text a ++ at_ws2 a ++ COLON :: at_ws3 a ++ at_value_text a ++ at_ws4 a
      ++ after_commas (attr_text <$> post) ++ RBRACE :: tail)) as Hk by (right; by exists w).
    destruct (tok_skip from_slice_string (rs_stream s) w COMMA _ _ TokenState.ObjectKey _ Hs Hw)
      as (d1 & Hd1 & Htok); [by right; right; left|].
    pose proof Ha as ((H1 & Hkey & H2 & _ & _ & Hname) & _).
    unfold key_text in Hd1. rewrite <- app_assoc in Hd1.
    destruct (tok1_key from_slice_string d1 (at_ws1 a) (at_key a) _ TokenState.ObjectKey top (at_name a) Hd1)
      as (d & Hd & Hp); [done|done|by apply stops_colon|done|by right; left|].
    rewrite (tok_step (Htok _ Hd)).
    destruct (attrib_step (set_stream d s) a (after_commas (attr_text <$> post) ++ RBRACE :: tail))
      as (s2 & Hr2 & Hs2 & _ & Hst2 & Hat2); [exact Hp|done|by destruct post|].
    unfold mbind, calls_bind. rewrite Hr2. unfold mret, calls_ret.
    apply (IH s2 (at_ws4 a)); [done|apply Ha|done|by rewrite Hst2|cbn in Hfuel; lia|].
    rewrite Hat2. exact Hm.
Qed.

Lemma next_metadata s w post tail m :
  at_stream s (w ++ after_commas (attr_text <$> post) ++ RBRACE :: tail) TokenState.ObjectComma top →
  ws w → Forall attr_ok post → rs_state s = RowStreamState.PostRows →
  to_vec (attribs_of post (rs_attribs s)) = inr m →
  ∃ s', next s = (s', Some (Ok (RawJsonRowItem.Metadata m))) ∧ rs_state s' = RowStreamState.End_.
Proof.
  intros Hs Hw Hpost Hst Hm.
  destruct (next_loop_attribs post tail m s w (rounds s)) as (s' & Hn & Hs'); [done..| |done|].
  { unfold rounds. rewrite (placed_rest _ _ _ _ Hs), !length_app.
    pose proof (length_after_commas (attr_text <$> post)) as K. rewrite length_fmap in K. cbn. lia. }
  exists s'. split; [|done]. unfold next. rewrite bool_decide_eq_false_2 by congruence. by rewrite Hn.
Qed.

Lemma stream_rows rs h post tail m : ∀ r s,
  at_row s r (after_commas (row_text <$> rs) ++ RBRACKET :: at_ws4 h
    ++ after_commas (attr_text <$> post) ++ RBRACE :: tail) →
  row_ok r → Forall row_ok rs → ws (at_ws4 h) → Forall attr_ok post →
  to_vec (attribs_of post (rs_attribs s)) = inr m →
  ∀ n, stream_items (S (S (length rs)) + n) s
    = (Ok ∘ RawJsonRowItem.Row ∘ row_value <$> r :: rs) ++ [Ok (RawJsonRowItem.Metadata m)].
Proof.
  induction rs as [|r' rs IH]; intros r s Hs Hr Hrs Hw Hpost Hm n.
  - destruct (next_last_row s r _ Hs Hr) as (s1 & Hn1 & Hs1 & Hst1 & Ha1). rewrite <- Ha1 in Hm.
    destruct (next_metadata s1 _ post tail m Hs1 Hw Hpost Hst1 Hm) as (s2 & Hn2 & Hst2).
    cbn [length Nat.add stream_items]. rewrite Hn1, Hn2. cbn. do 2 f_equal.
    destruct n as [|n]; [done|]. cbn [stream_items]. unfold next. by rewrite Hst2.
  - apply list.Forall_cons in Hrs as [Hr' Hrs].
    assert (after_commas (row_text <$> r' :: rs) = COMMA :: row_text r' ++ after_commas (row_text <$> rs))
      as Heq by done.
    rewrite Heq in Hs. cbn [app] in Hs. rewrite <- app_assoc in Hs.
    destruct (next_row s r r' _ Hs Hr) as (s1 & Hn1 & Hs1 & Ha1). rewrite <- Ha1 in Hm.
    specialize (IH r' s1 Hs1 Hr' Hrs Hw Hpost Hm n).
    change (S (S (length (r' :: rs))) + n)%nat with (S (S (S (length rs)) + n)). cbn [stream_items].
    rewrite Hn1, IH. done.
Qed.

(** *** Whole answers *)

(** The opening brace; what is left bounds the attributes. *)
Lemma begin_brace cs w0 body rows_attrib :
  concat cs = w0 ++ LBRACE :: body → ws w0 →
  ∃ s1, at_stream s1 body TokenState.ObjectStart top ∧ rs_rows_attrib s1 = rows_attrib ∧ rs_attribs s1 = ∅
    ∧ rounds s1 = S (length body)
    ∧ ∀ res, begin_loop (rounds s1) s1 = Some res →
        begin_ (streamer_new (decoder_new (Ok <$> cs)) rows_attrib) = res.
Proof.
  intros Hcs Hw0. set (s0 := streamer_new _ _).
  assert (at_stream s0 (w0 ++ LBRACE :: body) TokenState.TopValue []) as Hs0 by (rewrite <- Hcs; apply placed_new).
  destruct (tok1_open from_slice_string (rs_stream s0) w0 LBRACE body _ _ TokenState.ObjectStart Hs0 Hw0)
    as (d & Hopen & Hd); [by right; left|by left|].
  exists (set_stream d s0). split; [done|]. split; [done|]. split; [done|]. split.
  - unfold rounds. cbn [set_stream rs_stream]. by rewrite (placed_rest _ _ _ _ Hd).
  - intros res Hres. unfold begin_. cbn [s0 streamer_new rs_state]. rewrite bool_decide_eq_true_2 by done.
    cbn [negb]. cbv iota. unfold mbind, calls_bind. rewrite (tok_step (token_one _ _ _ Hopen)).
    rewrite bool_decide_eq_true_2 by done. cbn [negb]. cbv iota. by rewrite Hres.
Qed.

Lemma document_streams cs w0 pre h r rs post tail m1 m2 :
  concat cs = document w0 pre h r rs post tail →
  ws w0 → Forall attr_ok pre → key_ok h → Forall (λ a, at_name a ≠ at_name h) pre →
  Forall row_ok (r :: rs) → Forall attr_ok post →
  to_vec (attribs_of pre ∅) = inr m1 → to_vec (attribs_of (pre ++ post) ∅) = inr m2 →
  ∃ s1 s2, read_prelude (streamer_new (decoder_new (Ok <$> cs)) (at_name h)) = (s1, Ok m1)
    ∧ has_more_rows s1 = (s2, true)
    ∧ ∀ n, stream_items (length (r :: rs) + 1 + n) s2
        = (Ok ∘ RawJsonRowItem.Row ∘ row_value <$> r :: rs) ++ [Ok (RawJsonRowItem.Metadata m2)].
Proof.
  intros Hcs Hw0 Hpre Hh Hnames Hrows Hpost Hm1 Hm2. apply list.Forall_cons in Hrows as [Hr Hrs].
  destruct (begin_brace cs w0 _ (at_name h) Hcs Hw0) as (s1 & Hs1 & Hra1 & Hat1 & Hrd & Hbegin).
  assert (length pre < rounds s1)%nat as Hfuel.
  { rewrite Hrd. pose proof (length_before_commas (attr_text <$> pre)) as K. rewrite length_fmap in K.
    rewrite !length_app. lia. }
  rewrite <- !app_assoc in Hs1.
  destruct (begin_loop_document pre h r (after_commas (row_text <$> rs) ++ RBRACKET :: at_ws4 h
    ++ after_commas (attr_text <$> post) ++ RBRACE :: tail) s1 (rounds s1))
    as (s2 & Hb & Hs2 & Ha2 & Hst2); [by left|done|by rewrite Hra1|done..|].
  apply Hbegin in Hb. clear Hbegin. rename Hb into Hbegin. rewrite Hat1 in Ha2.
  pose proof Hr as (_ & Hv & _). destruct (value_cons _ Hv) as (c & q & Hq & Hc & Hcb).
  rewrite Hq in Hs2. destruct (more_step s2 [] c _ _ _ Hs2 ltac:(constructor) Hc)
    as (s3 & Hm3 & Hs3 & Ha3 & Hb3 & Hc3). rewrite Hcb in Hm3.
  exists s2, s3. split; [|split].
  - unfold read_prelude, mbind, calls_bind. rewrite Hbegin. unfold attribs_text. by rewrite Ha2, Hm1.
  - unfold has_more_rows. rewrite bool_decide_eq_true_2 by done. cbn [negb]. cbv iota.
    unfold stream_more, on_stream in Hm3. destruct (more (rs_stream s2)). by simplify_eq.
  - intros n. replace (length (r :: rs) + 1 + n)%nat with (S (S (length rs)) + n)%nat by (cbn; lia).
    apply (stream_rows rs h post tail m2); [|done|done|apply Hh|done|].
    + split; [congruence|]. left. by rewrite Hq.
    + rewrite Hb3, Ha2. unfold attribs_of in *. by rewrite foldl_app in Hm2.
Qed.

(** An answer without rows is read to its end by [begin]. *)
Definition empty_document (w0 : list Z) (pre : list Attr) (h : Attr) (w : list Z)
    (post : list Attr) (tail : list Z) : list Z :=
  w0 ++ LBRACE :: before_commas (attr_text <$> pre) ++ key_text h ++ at_ws2 h ++ COLON :: at_ws3 h
    ++ LBRACKET :: w ++ RBRACKET :: at_ws4 h ++ after_commas (attr_text <$> post) ++ RBRACE :: tail.

Lemma begin_empty_rows s h w l :
  at_key_text s (key_text h ++ at_ws2 h ++ COLON :: at_ws3 h ++ LBRACKET :: w ++ RBRACKET :: l) →
  key_ok h → at_name h = rs_rows_attrib s → ws w →
  ∃ s', begin_round s = (s', Ok true) ∧ at_stream s' l TokenState.ObjectComma top
    ∧ rs_rows_attrib s' = rs_rows_attrib s ∧ rs_attribs s' = rs_attribs s.
Proof.
  intros Hs Hh Hname Hw.
  destruct (key_step s h _ Hs Hh) as (s1 & s2 & Hm & Ht & Hs2 & Ha2 & Hb2 & Hc2); [by apply stops_colon, Hh|].
  destruct Hh as (_ & _ & H2 & H3 & _).
  destruct (tok_skip from_slice_string (rs_stream s2) _ COLON _ _ TokenState.ObjectValue _ Hs2 H2)
    as (d1 & Hd1 & Htok); [by left|].
  destruct (tok1_open from_slice_string d1 _ LBRACKET _ _ _ TokenState.ArrayStart Hd1 H3)
    as (d2 & Hopen & Hd2); [by left|by right; right; right; left|].
  set (s3 := set_rs_state RowStreamState.Rows (set_stream d2 s2)).
  destruct (more_step s3 w RBRACKET l TokenState.ArrayStart in_rows Hd2 Hw eq_refl)
    as (s4 & Hm4 & Hs4 & Ha4 & Hb4 & Hc4).
  destruct (tok1_close from_slice_string (rs_stream s4) [] RBRACKET l TokenState.ArrayStart
    TokenState.ObjectValue top) as (d & Htc & Hp); [exact Hs4|constructor|by left|].
  exists (set_rs_state RowStreamState.PostRows (set_stream d s4)).
  split; [|split; [exact Hp|cbn; split; [etransitivity; [exact Ha4|done]|etransitivity; [exact Hb4|done]]]].
  unfold begin_round. unfold mbind at 1, calls_bind at 1. rewrite Hm. cbn [negb]. cbv iota.
  unfold mbind at 1, calls_bind at 1. rewrite Ht. rewrite bool_decide_eq_true_2 by congruence.
  unfold begin_rows. unfold mbind at 1, calls_bind at 1. rewrite (tok_step (Htok _ Hopen)).
  cbn [Z.eqb Pos.eqb]. cbv iota. unfold mbind at 1, calls_bind at 1, modify at 1. fold s3.
  unfold mbind at 1, calls_bind at 1. rewrite Hm4. cbn [negb andb Z.eqb Pos.eqb]. cbv iota.
  unfold expect_end_of_rows, mbind, calls_bind. by rewrite (tok_step (token_one _ _ _ Htc)).
Qed.

Lemma begin_loop_attribs post tail : ∀ s w fuel,
  at_stream s (w ++ after_commas (attr_text <$> post) ++ RBRACE :: tail) TokenState.ObjectComma top →
  ws w → Forall attr_ok post → Forall (λ a, at_name a ≠ rs_rows_attrib s) post → (length post < fuel)%nat →
  ∃ s', begin_loop fuel s = Some (s', Ok tt) ∧ rs_attribs s' = attribs_of post (rs_attribs s)
    ∧ rs_state s' = RowStreamState.End_.
Proof.
  induction post as [|a post IH]; intros s w fuel Hs Hw Hpost Hnames Hfuel;
    (destruct fuel as [|fuel]; [lia|]); cbn [begin_loop].
  - destruct (more_step s w RBRACE tail _ _ Hs Hw eq_refl) as (s1 & Hm & Hs1 & _ & Ha & _).
    exists (set_rs_state RowStreamState.End_ s1). split; [|split; [exact Ha|done]].
    unfold begin_round. unfold mbind at 1, calls_bind at 1. by rewrite Hm.
  - apply list.Forall_cons in Hpost as [Ha Hpost]. apply list.Forall_cons in Hnames as [Hn Hnames].
    assert (after_commas (attr_text <$> a :: post) = COMMA :: attr_text a ++ after_commas (attr_text <$> post))
      as Heq by done.
    rewrite Heq in Hs. cbn [app] in Hs. rewrite <- app_assoc in Hs.
    destruct (begin_attrib s a (after_commas (attr_text <$> post) ++ RBRACE :: tail))
      as (s1 & -> & Hs1 & Hra & Hat); [by right; exists w|done|done|by destruct post|].
    destruct (IH s1 (at_ws4 a) fuel) as (s' & Hb & Hat' & Hst); [done|apply Ha|done|by rewrite Hra|cbn in Hfuel; lia|].
    exists s'. by rewrite Hb, Hat', Hat.
Qed.

Lemma begin_loop_empty pre h w post tail : ∀ s fuel,
  at_key_text s (before_commas (attr_text <$> pre) ++ key_text h ++ at_ws2 h ++ COLON :: at_ws3 h
    ++ LBRACKET :: w ++ RBRACKET :: at_ws4 h ++ after_commas (attr_text <$> post) ++ RBRACE :: tail) →
  Forall attr_ok (pre ++ post) → Forall (λ a, at_name a ≠ rs_rows_attrib s) (pre ++ post) →
  key_ok h → at_name h = rs_rows_attrib s → ws w → (S (length (pre ++ post)) < fuel)%nat →
  ∃ s', begin_loop fuel s = Some (s', Ok tt) ∧ rs_attribs s' = attribs_of (pre ++ post) (rs_attribs s)
    ∧ rs_state s' = RowStreamState.End_.
Proof.
  induction pre as [|a pre IH]; intros s fuel Hs Hok Hnames Hh Hname Hw Hfuel;
    (destruct fuel as [|fuel]; [lia|]); cbn [begin_loop app] in *.
  - destruct (begin_empty_rows s h w _ Hs Hh Hname Hw) as (s1 & -> & Hs1 & Hra & Hat).
    destruct (begin_loop_attribs post tail s1 (at_ws4 h) fuel) as (s' & Hb & Hat' & Hst);
      [done|apply Hh|done|by rewrite Hra|lia|]. exists s'. by rewrite Hb, Hat', Hat.
  - apply list.Forall_cons in Hok as [Ha Hok]. apply list.Forall_cons in Hnames as [Hn Hnames].
    rewrite fmap_cons, before_commas_cons, <- app_assoc in Hs.
    destruct (begin_attr s a _ Hs Ha Hn) as (s1 & -> & Hs1 & Hra & Hat).
    destruct (IH s1 fuel Hs1 Hok) as (s' & Hb & Hat' & Hst); [by rewrite Hra|done|by rewrite Hra|done|cbn in Hfuel; lia|].
    exists s'. by rewrite Hb, Hat', Hat.
Qed.

Lemma empty_document_streams cs w0 pre h w post tail m :
  concat cs = empty_document w0 pre h w post tail →
  ws w0 → ws w → Forall attr_ok (pre ++ post) → key_ok h → Forall (λ a, at_name a ≠ at_name h) (pre ++ post) →
  to_vec (attribs_of (pre ++ post) ∅) = inr m →
  ∃ s1, read_prelude (streamer_new (decoder_new (Ok <$> cs)) (at_name h)) = (s1, Ok m)
    ∧ has_more_rows s1 = (s1, false) ∧ epilog s1 = (s1, Ok m) ∧ next s1 = (s1, None).
Proof.
  intros Hcs Hw0 Hw Hok Hh Hnames Hm.
  destruct (begin_brace cs w0 _ (at_name h) Hcs Hw0) as (s1 & Hs1 & Hra1 & Hat1 & Hrd & Hbegin).
  destruct (begin_loop_empty pre h w post tail s1 (rounds s1)) as (s2 & Hb & Hat2 & Hst2);
    [by left|done|by rewrite Hra1|done..| |].
  { rewrite Hrd. pose proof (length_before_commas (attr_text <$> pre)) as K1. rewrite length_fmap in K1.
    pose proof (length_after_commas (attr_text <$> post)) as K2. rewrite length_fmap in K2.
    repeat (rewrite !length_app; cbn [length]). lia. }
  apply Hbegin in Hb. clear Hbegin. rename Hb into Hbegin. rewrite Hat1 in Hat2. exists s2.
  unfold read_prelude, mbind, calls_bind. rewrite Hbegin. unfold epilog, attribs_text. rewrite Hat2, Hm.
  unfold has_more_rows, next. rewrite Hst2. done.
Qed.


End Streamer.

(** ** Samples: attributes are kept as their text *)

Definition sample_key (k : list Z) : string + string :=
  match k with
  | [34; 97; 34] => inr "a"
  | [34; 114; 34] => inr "r"
  | [34; 122; 34] => inr "z"
  | _ => inl "unknown"
  end.

Definition sample_value (v : list Z) : string + list Z := inr v.

Definition sample_text (m : gmap string (list Z)) : string + list Z :=
  inr (concat (snd <$> map_to_list m)).

Definition sample_attr (c : Z) (name : string) (v : list Z) : Attr (V:=list Z) :=
  mkAttr [SPACE] [QUOTE; c; QUOTE] [] [SPACE] v [] name v.

Definition sample_row (v : list Z) : RowText := mkRowText [] v [SPACE].

(** One attribute, three rows and another attribute, in chunks that end in the middle
    of keys and values. *)
Definition sample_document : list (list Z) :=
  [str_bytes "{ "; [QUOTE; 97; QUOTE] ++ str_bytes ": 1, "; [QUOTE; 114];
   [QUOTE] ++ str_bytes ": [tr"; str_bytes "ue ,[1,2"; str_bytes "] ,null ], "; [QUOTE; 122; QUOTE; COLON];
   str_bytes " 2}"].

Lemma sample_value_ok : value (str_bytes "[1,2]").
Proof.
  apply (value_array (str_bytes "1,2")). apply (elements_more [49] [] [50] []); [|constructor| |constructor].
  - apply (elements_one [] [49] []); [constructor| |constructor].
    apply value_number, number_mantissa, mantissa_integer, (integer_digits [] 49 []); auto; constructor.
  - apply value_number, number_mantissa, mantissa_integer, (integer_digits [] 50 []); auto; constructor.
Qed.

Lemma sample_attr_ok c name d :
  sample_key [QUOTE; c; QUOTE] = inr name → 97 <= c <= 122 → 49 <= d <= 57 →
  attr_ok sample_key sample_value (sample_attr c name [d]).
Proof.
  intros Hk Hc Hd. split; [|split; [|done]].
  - repeat split; try done; try (by repeat constructor). 
    apply (json_string_intro [c]), body_char; [lia..|constructor].
  - apply value_number, number_mantissa, mantissa_integer, (integer_digits [] d []); auto;
      [unfold is_digit; lia|lia|constructor].
Qed.


(** A connection that fails between the value of an attribute and the comma after it,
    with the rows still to come, is taken for the end of an answer without rows. *)
Example broken_answer_is_complete e :
  let s := streamer_new (decoder_new [Ok (str_bytes "{" ++ [QUOTE; 97; QUOTE] ++ str_bytes ": 1 "); Err e]) "r" in
  let '(s, prelude) := read_prelude sample_key sample_value sample_text s in
  prelude = Ok (str_bytes "1") ∧ snd (has_more_rows s) = false
  ∧ stream_items sample_key sample_value sample_text 1 s = [].
Proof. vm_compute. auto. Qed.
