(* ===== verification/Http.v ===== *)
(** * HTTP requests and the endpoints they go to ([httpx/request.rs], [httpx/response.rs],
    [httpx/client.rs], [httpcomponent.rs], [util.rs])

    A service client builds a [Request] and gives it to the HTTP client, which hands it to
    [reqwest].  The component of a service knows the endpoints of the current config
    and the credentials; [orchestrate_endpoint] chooses one for a call.

    Parameters are [reqwest] (the outcome of sending what it was handed), base64, the
    [url] crate and the random number generator. *)

From Stdlib Require Import SpecFloat.
From S2P Require Import Prelude HttpxError Wire Bootstrap CoreError Retry Text.

(** ** Calls

    A call of a service: it may change the state and returns a result, an error of the
    service, or nothing at all. *)

Definition io (S E A : Type) : Type := S → S * option (outcome E A).

#[global] Instance io_ret {S E} : MRet (io S E) := λ A a s, (s, Some (Ok a)).
#[global] Instance io_bind {S E} : MBind (io S E) := λ A B f m s,
  match m s with
  | (s, Some (Ok a)) => f a s
  | (s, Some (Err e)) => (s, Some (Err e))
  | (s, Some Panic) => (s, Some Panic)
  | (s, None) => (s, None)
  end.

Definition io_fail {S E A} (e : E) : io S E A := λ s, (s, Some (Err e)).
Definition io_result {S E A} (r : option (outcome E A)) : io S E A := λ s, (s, r).
Definition io_lift {S E A} (r : outcome E A) : io S E A := λ s, (s, Some r).

(** ** Responses ([httpx/response.rs]) *)

(** A response of the HTTP client: its status, what reading the whole body gives, and
    its body as a stream. *)
Record Response : Type := mkResponse {
  resp_status : Z;
  resp_bytes : outcome string (list Z);
  resp_chunks : list (outcome string (list Z));
}.

Definition map_err {E F A} (f : E → F) (m : outcome E A) : outcome F A :=
  match m with Ok a => Ok a | Err e => Err (f e) | Panic => Panic end.

Definition response_bytes (r : Response) : outcome HttpxError (list Z) :=
  map_err (λ e, httpx_message_error ("failed to read bytes from response: " +:+ e)) (resp_bytes r).

Definition response_bytes_stream (r : Response) : list (outcome HttpxError (list Z)) :=
  map_err (λ e, httpx_message_error ("failed to read bytes stream from response: " +:+ e)) <$> resp_chunks r.

(** [m.map_err(f)] of a call. *)
Definition io_map_err {S E F A} (f : E → F) (m : io S E A) : io S F A := λ s,
  let '(s, r) := m s in (s, map_err f <$> r).

(** ** Requests ([httpx/request.rs]) *)

Module OboPasswordOrDomain.
Inductive OboPasswordOrDomain : Type := Password (password : string) | Domain (domain : string).
End OboPasswordOrDomain.

Record OnBehalfOfInfo : Type := mkOnBehalfOfInfo {
  obo_username : string;
  obo_password_or_domain : OboPasswordOrDomain.OboPasswordOrDomain;
}.

Module Auth.
Inductive Auth : Type :=
| BasicAuth (username password : string)
| BearerAuth (token : string)
| OnBehalfOf (info : OnBehalfOfInfo).
End Auth.
Abbreviation Auth := Auth.Auth.

Record Request : Type := mkRequest {
  req_method : Method;
  req_uri : string;
  req_auth : option Auth;
  req_user_agent : option string;
  req_content_type : option string;
  req_body : option (list Z);
  req_headers : gmap string string;
  req_unique_id : option string;
}.

Definition request_new (method : Method) (uri : string) : Request :=
  mkRequest method uri None None None None ∅ None.

Definition request_auth (auth : option Auth) (r : Request) : Request :=
  mkRequest (req_method r) (req_uri r) auth (req_user_agent r) (req_content_type r) (req_body r)
    (req_headers r) (req_unique_id r).
Definition request_user_agent (user_agent : option string) (r : Request) : Request :=
  mkRequest (req_method r) (req_uri r) (req_auth r) user_agent (req_content_type r) (req_body r)
    (req_headers r) (req_unique_id r).
Definition request_content_type (content_type : option string) (r : Request) : Request :=
  mkRequest (req_method r) (req_uri r) (req_auth r) (req_user_agent r) content_type (req_body r)
    (req_headers r) (req_unique_id r).
Definition request_body (body : option (list Z)) (r : Request) : Request :=
  mkRequest (req_method r) (req_uri r) (req_auth r) (req_user_agent r) (req_content_type r) body
    (req_headers r) (req_unique_id r).
Definition request_unique_id (unique_id : option string) (r : Request) : Request :=
  mkRequest (req_method r) (req_uri r) (req_auth r) (req_user_agent r) (req_content_type r) (req_body r)
    (req_headers r) unique_id.
Definition add_header (key value : string) (r : Request) : Request :=
  mkRequest (req_method r) (req_uri r) (req_auth r) (req_user_agent r) (req_content_type r) (req_body r)
    (<[key := value]> (req_headers r)) (req_unique_id r).

(** ** The HTTP client ([httpx/client.rs]) *)

(** [trait Client]. *)
Class HttpClient (S : Type) := http_execute : Request → io S HttpxError Response.

(** What [reqwest] is handed: the credentials go through [basic_auth], [bearer_auth] or a
    header of their own. *)
Inductive SentAuth : Type :=
| SentBasic (username password : string)
| SentBearer (token : string)
| SentHeader (name value : string).

Record SentRequest : Type := mkSentRequest {
  sent_method : Method;
  sent_uri : string;
  sent_body : option (list Z);
  sent_content_type : option string;
  sent_user_agent : option string;
  sent_auth : option SentAuth;
}.

(** An error of [reqwest]: what its predicates say, and its text. *)
Record SendError : Type := mkSendError { is_connect : bool; is_request : bool; send_error_text : string }.

Section ReqwestClient.
Context (base64_encode : string → string).

Definition sent_of_auth (auth : Auth) : SentAuth :=
  match auth with
  | Auth.BasicAuth username password => SentBasic username password
  | Auth.BearerAuth token => SentBearer token
  | Auth.OnBehalfOf obo =>
      match obo_password_or_domain obo with
      | OboPasswordOrDomain.Password password => SentBasic (obo_username obo) password
      | OboPasswordOrDomain.Domain domain =>
          SentHeader "cb-on-behalf-of" (base64_encode (obo_username obo +:+ ":" +:+ domain))
      end
  end.

(** The calls on the request builder of [execute]. *)
Definition build_request (req : Request) : SentRequest :=
  mkSentRequest (req_method req) (req_uri req) (req_body req) (req_content_type req) (req_user_agent req)
    (sent_of_auth <$> req_auth req).

Definition httpx_error_of_send (err : SendError) : HttpxError :=
  if is_connect err then httpx_connection_error (send_error_text err)
  else if is_request err then httpx_request_error (send_error_text err)
  else httpx_message_error (send_error_text err).

(** [ReqwestClient::execute]; [send] is the request builder's. *)
Definition reqwest_execute {S} (send : SentRequest → io S SendError Response) (req : Request)
    : io S HttpxError Response :=
  io_map_err httpx_error_of_send (send (build_request req)).

End ReqwestClient.

(** ** Hosts ([util.rs]) *)

Section Component.
(** [Url::parse]: the host and the port of a URI. *)
Context (url_parse : string → string + option string * option Z).

Definition get_host_port_from_uri (uri : string) : outcome Core.Error string :=
  match url_parse uri with
  | inl e => Err (Core.new_message_error ("failed to parse uri: " +:+ e))
  | inr (Some host, Some port) => Ok (host +:+ ":" +:+ show port)
  | inr (Some host, None) => Ok host
  | inr (None, _) => Err (Core.new_message_error ("no host in URI " +:+ uri))
  end.

(** ** The component of a service ([httpcomponent.rs]) *)

Record HttpComponentState : Type := mkHttpComponentState {
  hcs_endpoints : gmap string string;
  hcs_authenticator : Authenticator;
}.

Record HttpEndpointProperties : Type := mkHttpEndpointProperties {
  hep_auth : Auth;
  hep_endpoint : string;
  hep_endpoint_id : option string;
}.

(** The credentials of a password or a certificate do not depend on service and host. *)
Definition auth_from_authenticator (authenticator : Authenticator) (service_type : ServiceType) (host : string)
    : outcome Core.Error Auth :=
  match authenticator with
  | Authenticator.PasswordAuthenticator username password => Ok (Auth.BasicAuth username password)
  | Authenticator.CertificateAuthenticator => Ok (Auth.BasicAuth "" "")
  | Authenticator.JwtAuthenticator token => Ok (Auth.BearerAuth token)
  end.

(** The state [S] of a run has the component's state in it, as its mutex does. *)
Context {S : Type} (http_state : S → HttpComponentState) (service_type : ServiceType).

(** [rand::rng().random_range(0..n)]. *)
Context (random_range : nat → nat).

Definition endpoint_auth (state : HttpComponentState) (endpoint : string) : outcome Core.Error Auth :=
  host ← get_host_port_from_uri endpoint;
  auth_from_authenticator (hcs_authenticator state) service_type host.

Definition select_specific_endpoint (state : HttpComponentState) (endpoint_id : string)
    : outcome Core.Error HttpEndpointProperties :=
  let found_endpoint :=
    foldl (λ found '(ep_id, endpoint), if bool_decide (ep_id = endpoint_id) then Some endpoint else found)
      None (map_to_list (hcs_endpoints state)) in
  match found_endpoint with
  | None => Err (Core.new (Core.EndpointNotKnown endpoint_id))
  | Some found_endpoint =>
      auth ← endpoint_auth state found_endpoint;
      Ok (mkHttpEndpointProperties auth found_endpoint None)
  end.

(** The endpoints that are not to be ignored, in the order of the map. *)
Definition remaining_endpoints (state : HttpComponentState) (endpoint_ids_to_ignore : list string)
    : list (string * string) :=
  filter (λ ep, ep.1 ∉ endpoint_ids_to_ignore) (map_to_list (hcs_endpoints state)).

Definition select_endpoint (state : HttpComponentState) (endpoint_ids_to_ignore : list string)
    : outcome Core.Error (option HttpEndpointProperties) :=
  match remaining_endpoints state endpoint_ids_to_ignore with
  | [] => Ok None
  | remaining =>
      '(endpoint_id, endpoint) ← expect (remaining !! random_range (length remaining));
      auth ← endpoint_auth state endpoint;
      Ok (Some (mkHttpEndpointProperties auth endpoint (Some endpoint_id)))
  end.

Definition orchestrate_endpoint {Resp} (endpoint_id : option string)
    (operation : string → string → Auth → action S Resp) : action S Resp := λ s,
  match endpoint_id with
  | Some endpoint_id =>
      match select_specific_endpoint (http_state s) endpoint_id with
      | Ok props => operation endpoint_id (hep_endpoint props) (hep_auth props) s
      | Err e => (s, Some (Err e))
      | Panic => (s, Some Panic)
      end
  | None =>
      match select_endpoint (http_state s) [] with
      | Ok (Some props) =>
          operation (default ""%string (hep_endpoint_id props)) (hep_endpoint props) (hep_auth props) s
      | Ok None => (s, Some (Err (Core.new (Core.ServiceNotAvailable service_type))))
      | Err e => (s, Some (Err e))
      | Panic => (s, Some Panic)
      end
  end.

(** [NodeTarget]. *)
Record NodeTarget : Type := mkNodeTarget { nt_endpoint : string; nt_auth : Auth }.

Definition get_all_targets (state : HttpComponentState) (endpoint_ids_to_ignore : list string)
    : outcome Core.Error (list NodeTarget) :=
  mapM (λ '(_, endpoint), auth ← endpoint_auth state endpoint; Ok (mkNodeTarget endpoint auth))
    (remaining_endpoints state endpoint_ids_to_ignore).

(** [ensure_resource] with the pauses it makes; [None] when [fuel] polls were not enough.
    [T] is the state a poll may keep, the [FnMut] of the source. *)
Section Ensure.
Context {P : Profile} {B T : Type} `{BackoffCalculator B}.

Fixpoint ensure_resource_loop (fuel : nat) (attempt_idx : Z) (backoff_calc : B)
    (poll_fn : list NodeTarget → T → action S (bool * T)) (t : T) (s : S)
    : S * list Duration * option (outcome Core.Error unit) :=
  match fuel with
  | O => (s, [], None)
  | Datatypes.S fuel =>
      match get_all_targets (http_state s) [] with
      | Err e => (s, [], Some (Err e))
      | Panic => (s, [], Some Panic)
      | Ok targets =>
          match poll_fn targets t s with
          | (s, Some (Ok (true, _))) => (s, [], Some (Ok tt))
          | (s, Some (Ok (false, t))) =>
              match (pause ← backoff backoff_calc attempt_idx; idx ← add_w 32 attempt_idx 1; Ok (pause, idx)) with
              | Ok (pause, attempt_idx) =>
                  let '(s, pauses, r) := ensure_resource_loop fuel attempt_idx backoff_calc poll_fn t s in
                  (s, pause :: pauses, r)
              | Err e => (s, [], Some (Err e))
              | Panic => (s, [], Some Panic)
              end
          | (s, Some (Err e)) => (s, [], Some (Err e))
          | (s, Some Panic) => (s, [], Some Panic)
          | (s, None) => (s, [], None)
          end
      end
  end.

Definition ensure_resource (fuel : nat) (backoff_calc : B)
    (poll_fn : list NodeTarget → T → action S (bool * T)) (t : T) (s : S)
    : S * list Duration * option (outcome Core.Error unit) :=
  ensure_resource_loop fuel 0 backoff_calc poll_fn t s.

End Ensure.
End Component.

(** ** Theorems: the endpoint of a call *)

Section EndpointTheorems.
Context (url_parse : string → string + option string * option Z).
Context {S : Type} (http_state : S → HttpComponentState) (service_type : ServiceType).
Implicit Types (s : S) (st : HttpComponentState).

Abbreviation auth_of := (endpoint_auth url_parse service_type).

(** The endpoint is one of the current config, with the credentials for it. *)
Definition known_endpoint st (id endpoint : string) (auth : Auth) : Prop :=
  hcs_endpoints st !! id = Some endpoint ∧ auth_of st endpoint = Ok auth.

Lemma endpoint_auth_no_panic st endpoint : auth_of st endpoint ≠ Panic.
Proof.
  unfold endpoint_auth, get_host_port_from_uri.
  by destruct (url_parse endpoint) as [e|[[host|] [port|]]]; cbn; [|destruct (hcs_authenticator st)..|].
Qed.

Lemma found_by_fold (l : list (string * string)) id acc :
  NoDup l.*1 →
  foldl (λ found '(ep_id, endpoint), if bool_decide (ep_id = id) then Some endpoint else found) acc l
  = match list_find (λ p, p.1 = id) l with Some (_, p) => Some p.2 | None => acc end.
Proof.
  revert acc. induction l as [|[k ep] l IH]; intros acc Hnd; [done|].
  rewrite fmap_cons in Hnd. apply list.NoDup_cons in Hnd as [Hk Hnd]. cbn [foldl]. rewrite IH by done.
  cbn. destruct (decide (k = id)) as [->|Hne].
  - rewrite bool_decide_true by done.
    destruct (list_find _ l) as [[i p]|] eqn:Hf; [|done]. apply list_find_Some in Hf as (Hi & Hp & _).
    exfalso. apply Hk, list_elem_of_fmap. exists p. split; [done|]. by eapply list_elem_of_lookup_2.
  - rewrite bool_decide_false by done. by destruct (list_find _ l) as [[i p]|].
Qed.

Lemma specific_endpoint_found st id :
  foldl (λ found '(ep_id, endpoint), if bool_decide (ep_id = id) then Some endpoint else found)
    None (map_to_list (hcs_endpoints st)) = hcs_endpoints st !! id.
Proof.
  rewrite found_by_fold by apply NoDup_fst_map_to_list. destruct (list_find _ _) as [[i [k ep]]|] eqn:Hf.
  - apply list_find_Some in Hf as (Hi & Hp & _). cbn in Hp |- *. subst k. symmetry.
    apply elem_of_map_to_list. by eapply list_elem_of_lookup_2.
  - apply list_find_None in Hf. destruct (hcs_endpoints st !! id) as [ep|] eqn:He; [|done].
    apply elem_of_map_to_list in He. by apply (proj1 (list.Forall_forall _ _) Hf) in He.
Qed.

Lemma filter_all {A} (Q : A → Prop) `{∀ x, base.Decision (Q x)} (l : list A) : (∀ x, Q x) → filter Q l = l.
Proof. intros HQ. induction l as [|x l IH]; [done|]. rewrite filter_cons_True by apply HQ. by rewrite IH. Qed.

Lemma remaining_all st : remaining_endpoints st [] = map_to_list (hcs_endpoints st).
Proof. unfold remaining_endpoints. apply filter_all. set_solver. Qed.

(** The outcomes of a choice that leave nothing to call. *)
Definition no_endpoint st (endpoint_id : option string) (e : Core.Error) : Prop :=
  match endpoint_id with
  | Some id => hcs_endpoints st !! id = None ∧ e = Core.new (Core.EndpointNotKnown id)
  | None => hcs_endpoints st = ∅ ∧ e = Core.new (Core.ServiceNotAvailable service_type)
  end
  ∨ ∃ id endpoint, hcs_endpoints st !! id = Some endpoint ∧ auth_of st endpoint = Err e
      ∧ (endpoint_id = None ∨ endpoint_id = Some id).

Lemma orchestrate_cases random_range {Resp} endpoint_id (operation : string → string → Auth → action S Resp) s :
  (∀ n, (0 < n)%nat → (random_range n < n)%nat) →
  (∃ id endpoint auth, known_endpoint (http_state s) id endpoint auth
     ∧ (endpoint_id = Some id
        ∨ endpoint_id = None ∧ map_to_list (hcs_endpoints (http_state s))
              !! random_range (size (hcs_endpoints (http_state s))) = Some (id, endpoint))
     ∧ orchestrate_endpoint url_parse http_state service_type random_range endpoint_id operation s
       = operation id endpoint auth s)
  ∨ (∃ e, no_endpoint (http_state s) endpoint_id e
     ∧ orchestrate_endpoint url_parse http_state service_type random_range endpoint_id operation s
       = (s, Some (Err e))).
Proof.
  intros Hr. destruct endpoint_id as [id|].
  - unfold orchestrate_endpoint, select_specific_endpoint. rewrite specific_endpoint_found.
    destruct (hcs_endpoints (http_state s) !! id) as [endpoint|] eqn:He.
    2:{ right. eexists. split; [|done]. by left. }
    pose proof (endpoint_auth_no_panic (http_state s) endpoint) as Hnp. fold (auth_of (http_state s) endpoint).
    destruct (auth_of _ endpoint) as [auth|e|] eqn:Ha; [|right|done]; unfold mbind, outcome_bind.
    + left. exists id, endpoint, auth. split; [done|]. by split; [left|].
    + exists e. split; [|done]. right. exists id, endpoint. auto.
  - unfold orchestrate_endpoint, select_endpoint. rewrite remaining_all.
    destruct (map_to_list (hcs_endpoints (http_state s))) as [|p l] eqn:Hm.
    { right. eexists. split; [|done]. left. split; [by apply map_to_list_empty_iff|done]. }
    assert (size (hcs_endpoints (http_state s)) = length (p :: l)) as Hsz
      by (rewrite <- Hm; symmetry; apply length_map_to_list).
    destruct (lookup_lt_is_Some_2 (p :: l) (random_range (length (p :: l)))) as [[id endpoint] Hi];
      [apply Hr; cbn; lia|].
    assert (hcs_endpoints (http_state s) !! id = Some endpoint) as He.
    { apply elem_of_map_to_list. rewrite Hm. by eapply list_elem_of_lookup_2. }
    rewrite Hi. unfold mbind, outcome_bind. cbn [expect].
    pose proof (endpoint_auth_no_panic (http_state s) endpoint) as Hnp.
    destruct (auth_of _ endpoint) as [auth|e|] eqn:Ha; [|right|done].
    + left. exists id, endpoint, auth. split; [done|]. split; [|done]. right. split; [done|]. by rewrite Hsz.
    + exists e. split; [|done]. right. exists id, endpoint. auto.
Qed.

(** C32. A call goes to an endpoint of the config that is current when it starts, with the
    credentials for it, and to the named one when it names one.  Otherwise nothing is called: the
    named endpoint is not known, there is no endpoint of the service at all, or there are no
    credentials for the chosen one.  Any endpoint may be chosen for a call that names none. *)
Theorem calls_go_to_known_endpoints {Resp} endpoint_id (operation : string → string → Auth → action S Resp) s :
  (∀ random_range, (∀ n, (0 < n)%nat → (random_range n < n)%nat) →
    let call := orchestrate_endpoint url_parse http_state service_type random_range endpoint_id operation s in
    (∃ id endpoint auth, known_endpoint (http_state s) id endpoint auth
       ∧ (∀ given, endpoint_id = Some given → id = given) ∧ call = operation id endpoint auth s)
    ∨ ∃ e, no_endpoint (http_state s) endpoint_id e ∧ call = (s, Some (Err e)))
  ∧ ∀ id endpoint auth, known_endpoint (http_state s) id endpoint auth →
      ∃ i, (i < size (hcs_endpoints (http_state s)))%nat
        ∧ ∀ random_range, (∀ n, (0 < n)%nat → (random_range n < n)%nat) →
            random_range (size (hcs_endpoints (http_state s))) = i →
            orchestrate_endpoint url_parse http_state service_type random_range None operation s
            = operation id endpoint auth s.
Proof.
  split.
  - intros random_range Hr.
    destruct (orchestrate_cases random_range endpoint_id operation s Hr)
      as [(id & ep & auth & Hk & Hid & ->)|(e & He & ->)]; [left|right; by exists e].
    exists id, ep, auth. split; [done|]. split; [|done]. intros given Hg. destruct Hid as [Hid|[Hid _]]; congruence.
  - intros id ep auth [He Ha]. apply elem_of_map_to_list, list_elem_of_lookup in He as [i Hi].
    exists i. split; [rewrite <- length_map_to_list; by eapply lookup_lt_Some|]. intros random_range Hr Hri.
    unfold orchestrate_endpoint, select_endpoint.
    rewrite remaining_all. rewrite <- length_map_to_list in Hri. rewrite <- Hri in Hi.
    destruct (map_to_list (hcs_endpoints (http_state s))) as [|p l]; [by rewrite lookup_nil in Hi|].
    rewrite Hi. unfold mbind, outcome_bind. cbn [expect]. by rewrite Ha.
Qed.
(** The targets are the endpoints of the config, all of them. *)
Lemma get_all_targets_all st targets :
  get_all_targets url_parse service_type st [] = Ok targets →
  (nt_endpoint <$> targets) = (map_to_list (hcs_endpoints st)).*2.
Proof.
  unfold get_all_targets. rewrite remaining_all. revert targets.
  induction (map_to_list (hcs_endpoints st)) as [|[id ep] l IH]; intros targets; [by intros [= <-]|].
  cbn [mapM]. intros (t & Ht & Hr)%bind_ok_inv. apply bind_ok_inv in Hr as (ts & Hts & Hr).
  apply bind_ok_inv in Ht as (auth & _ & Ht). injection Ht as <-. injection Hr as <-.
  rewrite !fmap_cons. by rewrite (IH ts).
Qed.

(** A wait that succeeded ended with a poll of the endpoints known then. *)
Lemma ensure_resource_ok {P : Profile} {B T : Type} `{BackoffCalculator B} fuel idx (calc : B)
    (poll_fn : list NodeTarget → T → action S (bool * T)) t s s' pauses :
  ensure_resource_loop url_parse http_state service_type fuel idx calc poll_fn t s = (s', pauses, Some (Ok tt)) →
  (∃ s1 t1 t2 targets, get_all_targets url_parse service_type (http_state s1) [] = Ok targets
     ∧ poll_fn targets t1 s1 = (s', Some (Ok (true, t2))))
  ∧ Forall (λ d, ∃ i, backoff calc i = Ok d) pauses.
Proof.
  revert idx t s s' pauses. induction fuel as [|fuel IH]; intros idx t s s' pauses; [done|]. cbn [ensure_resource_loop].
  destruct (get_all_targets _ _ _ _) as [targets|e|] eqn:Hg; [|done..].
  destruct (poll_fn targets t s) as [s1 [[[[] t1]|e|]|]] eqn:Hp; try done.
  { intros [= -> <-]. split; [by exists s, t, t1, targets|constructor]. }
  destruct (pause ← backoff calc idx; i ← add_w 32 idx 1; Ok (pause, i)) as [[pause i]|e|] eqn:Hb; [|done..].
  destruct (ensure_resource_loop _ _ _ _ _ _ _ _ s1) as [[s2 ps] r] eqn:Hl. intros [= <- <- ->].
  destruct (IH i t1 s1 s2 ps Hl) as [Hlast Hps]. split; [done|]. constructor; [|done].
  apply bind_ok_inv in Hb as (d & Hd & Hb). apply bind_ok_inv in Hb as (? & _ & Hb). injection Hb as <- _. by exists idx.
Qed.

End EndpointTheorems.

(** Two endpoints, of which the second is named and the first is drawn. *)
Definition sample_component : HttpComponentState :=
  mkHttpComponentState (<["n1"%string := "http://a:8093"%string]> (<["n2"%string := "http://b:8093"%string]> ∅))
    (Authenticator.PasswordAuthenticator "user" "password").

Lemma calls_go_to_known_endpoints_witness :
  let call := orchestrate_endpoint (λ _, inr (Some "a"%string, Some 8093)) (λ s : HttpComponentState, s)
    ServiceType.Query (λ _, O) (Some "n2"%string)
    (λ id endpoint auth s, (s, Some (Ok (id, endpoint)))) sample_component in
  call = (sample_component, Some (Ok ("n2", "http://b:8093")))%string
  ∧ ((∃ id endpoint auth, known_endpoint (λ _, inr (Some "a"%string, Some 8093)) ServiceType.Query sample_component
          id endpoint auth
       ∧ (∀ given, Some "n2"%string = Some given → id = given)
       ∧ call = (sample_component, Some (Ok (id, endpoint))))
     ∨ ∃ e, no_endpoint (λ _, inr (Some "a"%string, Some 8093)) ServiceType.Query sample_component
              (Some "n2"%string) e ∧ call = (sample_component, Some (Err e))).
Proof.
  split; [vm_compute; reflexivity|].
  refine (proj1 (calls_go_to_known_endpoints (λ _, inr (Some "a"%string, Some 8093)) (λ s : HttpComponentState, s)
    ServiceType.Query (Some "n2"%string) (λ id endpoint auth s, (s, Some (Ok (id, endpoint)))) sample_component)
    (λ _, O) _).
  intros n Hn. exact Hn.
Defined.

(** Headers are kept in a request and not sent. *)
Example headers_are_not_sent base64_encode key value r :
  build_request base64_encode (add_header key value r) = build_request base64_encode r.
Proof. done. Qed.

(** A request on behalf of a user of a domain has no credentials of its own. *)
Example domain_request_has_no_credentials base64_encode user domain r :
  sent_auth (build_request base64_encode
    (request_auth (Some (Auth.OnBehalfOf (mkOnBehalfOfInfo user (OboPasswordOrDomain.Domain domain)))) r))
  = Some (SentHeader "cb-on-behalf-of" (base64_encode (user +:+ ":" +:+ domain))).
Proof. done. Qed.

(** * What the operations of the HTTP services share ([querycomponent.rs], [mgmtcomponent.rs])

    The pauses of a wait, the errors a call can end with, and the reasons an operation is sent again
    at a chosen endpoint. *)

(** ** The pauses of a wait *)

(** The literal [1.5]. *)
Definition f64_three_halves : spec_float := S754_finite false 6755399441055744 (-52).

Definition ensure_backoff : ExponentialBackoffCalculator :=
  {| min := from_millis 100; max := from_millis 1000; backoff_factor := f64_three_halves |}.

Lemma ensure_pauses powi n d :
  exponential_backoff powi ensure_backoff n = Ok d → from_millis 100 <= d <= from_millis 1000.
Proof.
  unfold exponential_backoff. set (f := f64_as_u128 _). cbn [min max ensure_backoff].
  generalize ((2 ^ 128 - 1) / as_millis (from_millis 100)) (2 ^ 64 - 1). intros limit limit2.
  generalize (from_millis (as_millis (from_millis 100) * f)) (as_millis (from_millis 100) * f). intros b v.
  assert (from_millis 100 <= from_millis 1000) by (unfold from_millis; lia).
  destruct (as_millis _ =? 0); [discriminate|].
  destruct (limit <? f); [intros [= <-]; lia|]. destruct (limit2 <? v); [intros [= <-]; lia|]. intros [= <-].
  repeat case_match; prop_tests; unfold from_millis in *; lia.
Qed.

(** ** The answers of a poll *)

(** Every target gave the answer [v] just when none is left out by asking for it. *)
Lemma all_answered {A} (v : bool) (targets : list A) answers :
  length answers = length targets →
  length (filter (λ p : A * bool, p.2 = v) (zip targets answers)) = length targets ↔ Forall (λ b, b = v) answers.
Proof.
  intros Hl. assert ((length (filter (λ p : A * bool, p.2 = v) (zip targets answers)) ≤ length targets)%nat
    ∧ (length (filter (λ p : A * bool, p.2 = v) (zip targets answers)) = length targets ↔ Forall (λ b, b = v) answers))
    as [_ K]; [|exact K].
  revert answers Hl. induction targets as [|t ts IH]; intros [|b bs]; try done.
  intros [= Hl]. destruct (IH bs Hl) as [Hle Hiff]. cbn [zip zip_with]. rewrite list.Forall_cons, <-Hiff.
  destruct (decide (b = v)) as [Hb|Hb].
  - rewrite filter_cons_True by done. cbn. split; [lia|]. split; [intros; split; [done|lia]|intros [_ ?]; lia].
  - rewrite filter_cons_False by done. split; [cbn; lia|]. split; [cbn; lia|by intros [? _]].
Qed.

(** [res.status().is_success()]. *)
Definition is_success (status : Z) : bool := (200 <=? status) && (status <? 300).

(** ** The errors of a call *)

(** [Q] holds of every error of a call. *)
Definition io_errors {S E A} (Q : E → Prop) (m : io S E A) : Prop := ∀ s s' e, m s = (s', Some (Err e)) → Q e.

Lemma io_errors_bind {S E A B} (Q : E → Prop) (m : io S E A) (f : A → io S E B) :
  io_errors Q m → (∀ a, io_errors Q (f a)) → io_errors Q (m ≫= f).
Proof.
  intros Hm Hf s s' e. unfold mbind, io_bind. specialize (Hm s). destruct (m s) as [s1 [[a|x|]|]].
  - intros He. by eapply Hf.
  - intros [= _ ->]. by eapply Hm.
  - done.
  - done.
Qed.

Lemma io_errors_ret {S E A} (Q : E → Prop) (a : A) : io_errors (S:=S) Q (mret a).
Proof. by intros s s' e [= _]. Qed.

Lemma io_errors_lift {S E A} (Q : E → Prop) (m : outcome E A) :
  (∀ e, m = Err e → Q e) → io_errors (S:=S) Q (io_lift m).
Proof. intros Hm s s' e [= _ He]. by apply Hm. Qed.

Lemma io_errors_result {S E A} (Q : E → Prop) (r : option (outcome E A)) :
  (∀ e, r = Some (Err e) → Q e) → io_errors (S:=S) Q (io_result r).
Proof. intros Hr s s' e [= _ He]. by apply Hr. Qed.

Lemma io_errors_map_err {S E F A} (Q : F → Prop) (f : E → F) (m : io S E A) :
  (∀ e, Q (f e)) → io_errors Q (io_map_err f m).
Proof.
  intros Hf s s' e. unfold io_map_err. destruct (m s) as [s1 [[a|x|]|]]; intros Heq; try done.
  cbn in Heq. injection Heq as _ <-. apply Hf.
Qed.

(** ** Why an operation is sent again *)

Section RetryTheorems.
Context {P : Profile} (err_map_component : ErrMapComponent) {T : Type} `{RetryStrategy T} (strategy : T).

(** The reasons of a run are those of the errors of its operation. *)
Lemma orchestrate_error_reasons {S A} (Q : RetryReason → Prop) (op : action S A) fuel req s :
  (∀ s s' e req reason, op s = (s', Some (Err e)) →
     snd (error_to_retry_reason err_map_component req e) = Some reason → Q reason) →
  Forall (λ p, Q p.1) (snd (fst (orchestrate_retries err_map_component strategy fuel req op s))).
Proof.
  intros HQ. revert req s. induction fuel as [|fuel IH]; intros req s; [constructor|]. cbn [orchestrate_retries].
  destruct (op s) as [s1 [[a|e|]|]] eqn:Ho; try constructor.
  destruct (decide_retry err_map_component strategy req e) as [req' reason d|e'|] eqn:Hd; try constructor.
  specialize (IH req' s1). destruct (orchestrate_retries _ _ fuel req' op s1) as [[s2 tr] r]. cbn. constructor; [|done].
  cbn. revert Hd. unfold decide_retry. pose proof (HQ s s1 e req) as K.
  destruct (error_to_retry_reason err_map_component req e) as [info [why|]]; [|done].
  destruct (maybe_retry strategy info why) as [[info' [d'|]]|x|]; [|done..]. intros [= _ <- _]. by apply K.
Qed.




Context {S : Type} (url_parse : string → string + option string * option Z) (random_range : nat → nat).
Context (http_state : S → HttpComponentState) (service_type : ServiceType.ServiceType).

Lemma endpoint_auth_error st endpoint e req reason :
  endpoint_auth url_parse service_type st endpoint = Err e →
  snd (error_to_retry_reason err_map_component req e) = Some reason → False.
Proof.
  unfold endpoint_auth, get_host_port_from_uri.
  destruct (url_parse endpoint) as [x|[[host|] [port|]]]; cbn; try (by intros [= <-]);
    destruct (hcs_authenticator st); done.
Qed.

(** An operation at a chosen endpoint is sent again because no endpoint is known, or for the reasons of
    its own errors. *)
Lemma orchestrate_endpoint_reasons {A} (Q : RetryReason → Prop) (operation : string → string → Auth → action S A)
    endpoint fuel req s :
  Q RetryReason.ServiceNotAvailable →
  (∀ id ep auth s s' e req reason, operation id ep auth s = (s', Some (Err e)) →
     snd (error_to_retry_reason err_map_component req e) = Some reason → Q reason) →
  Forall (λ p, Q p.1)
    (snd (fst (orchestrate_retries err_map_component strategy fuel req
                 (orchestrate_endpoint url_parse http_state service_type random_range endpoint operation) s))).
Proof.
  intros Hna Hop. apply orchestrate_error_reasons. clear s. intros s s' e req' reason He Hr.
  revert He. unfold orchestrate_endpoint. destruct endpoint as [id|].
  - unfold select_specific_endpoint. destruct (foldl _ _ _) as [ep|].
    + destruct (endpoint_auth _ _ _ ep) as [auth|x|] eqn:Ha; cbn; [intros He; by eapply Hop| |done].
      intros [= _ <-]. exfalso. by eapply endpoint_auth_error.
    + intros [= _ <-]. by cbn in Hr.
  - unfold select_endpoint. destruct (remaining_endpoints _ _) as [|p l].
    { cbn. intros [= _ <-]. cbn in Hr. by injection Hr as <-. }
    destruct ((p :: l) !! _) as [[id ep]|]; cbn; [|done].
    destruct (endpoint_auth _ _ _ ep) as [auth|x|] eqn:Ha; cbn; [intros He; by eapply Hop| |done].
    intros [= _ <-]. exfalso. by eapply endpoint_auth_error.
Qed.

End RetryTheorems.
