(* ===== verification/RowReader.v ===== *)
(** * Readers of streamed answers ([analyticsx/query_respreader.rs], [searchx/search_respreader.rs])

    The readers of the analytics and the search service read the rows of an answer while it
    arrives, and then what is around the rows; they differ in the rows, in what is made of the
    attributes around them, and in their errors, which are parameters here. *)

From S2P Require Import Prelude HttpxError JsonScanner JsonDecoder RowStreamer Http.

Record RowReader (V M E : Type) : Type := mkRowReader {
  rr_streamer : RawJsonRowStreamer (V:=V);
  rr_final : option M;
  rr_error : option E;
}.
#[global] Arguments mkRowReader {V M E}.
#[global] Arguments rr_streamer {V M E}.
#[global] Arguments rr_final {V M E}.
#[global] Arguments rr_error {V M E}.

Section Reader.
Context {V M E A : Type}.
(** [serde_json]: the names of attributes, their values, and the object of those that were kept. *)
Context (from_slice_string : list Z → string + string) (from_slice_value : list Z → string + V)
  (to_vec : gmap string V → string + list Z).
(** What is made of a row, of the attributes, and of an error of the stream. *)
Context (read_row : list Z → outcome E A) (read_final : list Z → outcome E M) (http_error : HttpxError → E).

Abbreviation Reader := (RowReader V M E).
Implicit Types r : Reader.

Definition reader_at (s : RawJsonRowStreamer (V:=V)) (r : Reader) : Reader := mkRowReader s (rr_final r) (rr_error r).

(** The start of an answer is read, and the whole of it when it has no rows. *)
Definition reader_new (chunks : list (outcome HttpxError (list Z))) (rows_attrib : string) : outcome E Reader :=
  let streamer := streamer_new (decoder_new chunks) rows_attrib in
  let '(streamer, prelude) := read_prelude from_slice_string from_slice_value to_vec streamer in
  _ ← map_err http_error prelude;
  let '(streamer, has_rows) := has_more_rows streamer in
  if negb has_rows then
    let '(streamer, text) := epilog to_vec streamer in
    text ← map_err http_error text;
    final ← read_final text;
    Ok (mkRowReader streamer (Some final) None)
  else Ok (mkRowReader streamer None None).

Definition reader_next (r : Reader) : Reader * option (outcome E A) :=
  let '(s, item) := next from_slice_string from_slice_value to_vec (rr_streamer r) in
  let r := reader_at s r in
  match item with
  | Some (Ok (RawJsonRowItem.Row row_data)) => (r, Some (read_row row_data))
  | Some (Ok (RawJsonRowItem.Metadata text)) =>
      match read_final text with
      | Ok final => (mkRowReader s (Some final) (rr_error r), None)
      | Err e => (mkRowReader s (rr_final r) (Some e), Some (Err e))
      | Panic => (r, Some Panic)
      end
  | Some (Err e) => (r, Some (Err (http_error e)))
  | Some Panic => (r, Some Panic)
  | None => (r, None)
  end.

(** What is around the rows, once it was read; until then [too_early]. *)
Definition reader_final (too_early : E) (r : Reader) : outcome E M :=
  match rr_error r with
  | Some e => Err e
  | None => match rr_final r with Some final => Ok final | None => Err too_early end
  end.

(** The reader polled until it ends, at most [n] times. *)
Fixpoint reader_all (n : nat) (r : Reader) : Reader * list (outcome E A) :=
  match n with
  | O => (r, [])
  | S n =>
      match reader_next r with
      | (r, Some item) => let '(r, items) := reader_all n r in (r, item :: items)
      | (r, None) => (r, [])
      end
  end.

(** ** Answers *)

Lemma reader_stream_cons n s item l :
  stream_items from_slice_string from_slice_value to_vec (S n) s = item :: l →
  ∃ s', next from_slice_string from_slice_value to_vec s = (s', Some item)
    ∧ stream_items from_slice_string from_slice_value to_vec n s' = l.
Proof.
  cbn [stream_items]. destruct (next _ _ _ s) as [s' [x|]]; [|done]. intros [= -> <-]. by exists s'.
Qed.

(** The streamer hands out the rows [xs] and then the attributes [m]. *)
Definition hands_out (xs : list (list Z)) (m : list Z) (s : RawJsonRowStreamer (V:=V)) : Prop :=
  ∀ n, stream_items from_slice_string from_slice_value to_vec (length xs + 1 + n) s
       = (Ok ∘ RawJsonRowItem.Row <$> xs) ++ [Ok (RawJsonRowItem.Metadata m)].

Lemma reader_rows xs m n : ∀ r,
  hands_out xs m (rr_streamer r) →
  ∃ s', hands_out [] m s'
    ∧ reader_all (length xs + n) r
      = let '(r', items) := reader_all n (reader_at s' r) in (r', (read_row <$> xs) ++ items).
Proof.
  induction xs as [|x xs IH]; intros r Hs.
  { exists (rr_streamer r). split; [done|]. replace (reader_at (rr_streamer r) r) with r by (by destruct r).
    cbn [length Nat.add]. by destruct (reader_all n r). }
  assert (∃ s1, next from_slice_string from_slice_value to_vec (rr_streamer r)
                = (s1, Some (Ok (RawJsonRowItem.Row x))) ∧ hands_out xs m s1) as (s1 & Hn & Hs1).
  { destruct (reader_stream_cons _ _ _ _ (Hs 0%nat)) as (s1 & Hn & _). exists s1. split; [done|]. intros k.
    destruct (reader_stream_cons _ _ _ _ (Hs k)) as (s2 & Hn2 & Hl). rewrite Hn2 in Hn. by simplify_eq. }
  destruct (IH (reader_at s1 r) Hs1) as (s' & Hs' & Hp). exists s'. split; [done|].
  cbn [length Nat.add reader_all]. unfold reader_next. rewrite Hn, Hp.
  unfold reader_at. cbn [rr_final rr_error]. by destruct (reader_all n _).
Qed.

(** The end of an answer: what is made of the attributes, or the error they are. *)
Lemma reader_end m n r too_early :
  hands_out [] m (rr_streamer r) → rr_error r = None →
  let '(r', items) := reader_all (1 + n) r in
  match read_final m with
  | Ok final => items = [] ∧ reader_final too_early r' = Ok final
  | Err e => items = [Err e] ∧ reader_final too_early r' = Err e
  | Panic => True
  end.
Proof.
  intros Hs He. destruct (reader_stream_cons _ _ _ _ (Hs 1%nat)) as (s1 & Hn & Hl).
  assert (next from_slice_string from_slice_value to_vec s1 = (fst (next from_slice_string from_slice_value to_vec s1), None)) as Hend.
  { cbn [stream_items] in Hl. by destruct (next _ _ _ s1) as [? [?|]]. }
  cbn [Nat.add reader_all]. unfold reader_next at 1. rewrite Hn.
  destruct (read_final m) as [final|e|]; [by unfold reader_final; cbn; rewrite He| |by destruct (reader_all n _)].
  destruct n as [|n]; [done|]. cbn [reader_all]. unfold reader_next. unfold reader_at.
  cbn [rr_streamer rr_final rr_error]. by rewrite Hend.
Qed.

(** An answer with rows, however it is cut into chunks: the reader is there as soon as the first row
    is; it gives every row once and in order; what is around the rows is known afterwards. *)
Lemma reader_answer cs w0 pre h rw rs post tail m1 m2 too_early :
  concat cs = document w0 pre h rw rs post tail →
  ws w0 → Forall (attr_ok from_slice_string from_slice_value) pre → key_ok from_slice_string h →
  Forall (λ a, at_name a ≠ at_name h) pre →
  Forall row_ok (rw :: rs) → Forall (attr_ok from_slice_string from_slice_value) post →
  to_vec (attribs_of pre ∅) = inr m1 → to_vec (attribs_of (pre ++ post) ∅) = inr m2 →
  ∃ r, reader_new (Ok <$> cs) (at_name h) = Ok r ∧ reader_final too_early r = Err too_early
    ∧ ∀ n, let '(r', items) := reader_all (length (rw :: rs) + 1 + n) r in
        match read_final m2 with
        | Ok final => items = read_row <$> (row_value <$> rw :: rs) ∧ reader_final too_early r' = Ok final
        | Err e => items = (read_row <$> (row_value <$> rw :: rs)) ++ [Err e] ∧ reader_final too_early r' = Err e
        | Panic => True
        end.
Proof.
  intros Hcs Hw0 Hpre Hh Hnames Hrows Hpost Hm1 Hm2.
  destruct (document_streams from_slice_string from_slice_value to_vec cs w0 pre h rw rs post tail m1 m2)
    as (s1 & s2 & Hp & Hmore & Hitems); [done..|].
  exists (mkRowReader s2 None None). split; [|split; [done|]].
  - unfold reader_new. rewrite Hp. cbn [map_err]. unfold mbind, outcome_bind. by rewrite Hmore.
  - intros n. rewrite <- Nat.add_assoc, <- (length_fmap row_value).
    destruct (reader_rows (row_value <$> rw :: rs) m2 (1 + n) (mkRowReader s2 None None)) as (s' & Hs' & ->).
    { intros k. rewrite length_fmap. cbn [rr_streamer]. rewrite Hitems. by rewrite <- list_fmap_compose. }
    pose proof (reader_end m2 n (mkRowReader s' None None) too_early Hs' eq_refl) as Hend.
    unfold reader_at. cbn [rr_streamer rr_final rr_error].
    destruct (reader_all (1 + n) (mkRowReader s' None None)) as [r' items].
    destruct (read_final m2) as [final|e|]; [| |done]; destruct Hend as [-> ?]; [by rewrite app_nil_r|done].
Qed.

(** An answer without rows is read at once. *)
Lemma reader_answer_without_rows cs w0 pre h w post tail m too_early :
  concat cs = empty_document w0 pre h w post tail →
  ws w0 → ws w → Forall (attr_ok from_slice_string from_slice_value) (pre ++ post) → key_ok from_slice_string h →
  Forall (λ a, at_name a ≠ at_name h) (pre ++ post) → to_vec (attribs_of (pre ++ post) ∅) = inr m →
  match read_final m with
  | Ok final => ∃ r, reader_new (Ok <$> cs) (at_name h) = Ok r ∧ reader_final too_early r = Ok final ∧ (reader_next r).2 = None
  | Err e => reader_new (Ok <$> cs) (at_name h) = Err e
  | Panic => reader_new (Ok <$> cs) (at_name h) = Panic
  end.
Proof.
  intros Hcs Hw0 Hw Hok Hh Hnames Hm.
  destruct (empty_document_streams from_slice_string from_slice_value to_vec cs w0 pre h w post tail m)
    as (s1 & Hp & Hmore & Hep & Hn); [done..|].
  assert (reader_new (Ok <$> cs) (at_name h) = (final ← read_final m; Ok (mkRowReader s1 (Some final) None))) as ->.
  { unfold reader_new. rewrite Hp. cbn [map_err]. unfold mbind, outcome_bind. rewrite Hmore. cbn [negb]. cbv iota.
    by rewrite Hep. }
  destruct (read_final m) as [final|e|]; [|done..]. exists (mkRowReader s1 (Some final) None). split_and!; [done..|].
  unfold reader_next. cbn [rr_streamer]. by rewrite Hn.
Qed.

End Reader.
