(* ===== verification/QueryReader.v ===== *)
(** * Answers of the query service ([queryx/query_respreader.rs], [queryx/query_json.rs],
    [queryx/query_result.rs])

    The reader takes the answer to a query apart: an answer with another status than
    200 is an error made of the errors in its body; otherwise the rows are streamed
    ([RowStreamer.v]) and the metadata around them is kept for afterwards, where
    errors of the server can still be found.

    Parameters are [serde_json] (the texts of keys, values, attributes and of the three
    documents read with it, and the comparison of a [Value] with a number), the [regex]
    crate, and the text of a status code.  [str::to_lowercase] is exact as far as ASCII
    text is looked for in its result. *)

From S2P Require Import Prelude Text HttpxError Durations JsonScanner JsonDecoder RowStreamer.
From S2P Require Import CoreError Http QueryxError.

(** ** Text *)

(** [s.to_lowercase()].  Of the characters outside ASCII only two have ASCII letters in
    their lower case: the dotted capital I and the Kelvin sign. *)
Fixpoint to_lowercase (l : list Z) : list Z :=
  match l with
  | [] => []
  | c :: l1 =>
      if (65 <=? c) && (c <=? 90) then c + 32 :: to_lowercase l1
      else match l1 with
           | [] => [c]
           | c2 :: l2 =>
               if (c =? 196) && (c2 =? 176) then 105 :: 204 :: 135 :: to_lowercase l2
               else match l2 with
                    | [] => c :: to_lowercase l1
                    | c3 :: l3 =>
                        if (c =? 226) && (c2 =? 132) && (c3 =? 170) then 107 :: to_lowercase l3
                        else c :: to_lowercase l1
                    end
           end
  end.

(** [s.contains(pat)]. *)
Fixpoint contains (pat l : list Z) : bool :=
  starts_with pat l || match l with [] => false | _ :: l => contains pat l end.

(** ** Results ([queryx/query_result.rs]) *)

Module QueryStatus.
Inductive Status : Type :=
| Running | Success | Errors | Completed | Stopped | Timeout | Closed | Fatal | Aborted | Unknown.
End QueryStatus.

Definition query_status_display (s : QueryStatus.Status) : string :=
  match s with
  | QueryStatus.Running => "running"
  | QueryStatus.Success => "success"
  | QueryStatus.Errors => "errors"
  | QueryStatus.Completed => "completed"
  | QueryStatus.Stopped => "stopped"
  | QueryStatus.Timeout => "timeout"
  | QueryStatus.Closed => "closed"
  | QueryStatus.Fatal => "fatal"
  | QueryStatus.Aborted => "aborted"
  | QueryStatus.Unknown => "unknown"
  end.

Record EarlyMetaData : Type := mkEarlyMetaData { em_prepared : option string }.

Record Warning : Type := mkWarning { warning_code : Z; warning_message : string }.

Record Metrics : Type := mkMetrics {
  elapsed_time : Z;
  execution_time : Z;
  result_count : Z;
  result_size : Z;
  mutation_count : Z;
  sort_count : Z;
  error_count : Z;
  warning_count : Z;
}.

Record MetaData : Type := mkMetaData {
  md_prepared : option string;
  md_request_id : string;
  md_client_context_id : string;
  md_status : QueryStatus.Status;
  md_metrics : option Metrics;
  md_signature : option (list Z);
  md_warnings : list Warning;
  md_profile : option (list Z);
}.

(** ** The documents that are read ([queryx/query_json.rs]) *)

Record QueryMetrics : Type := mkQueryMetrics {
  qm_elapsed_time : option (list Z);
  qm_execution_time : option (list Z);
  qm_result_count : option Z;
  qm_result_size : option Z;
  qm_mutation_count : option Z;
  qm_sort_count : option Z;
  qm_error_count : option Z;
  qm_warning_count : option Z;
}.

Record QueryWarning : Type := mkQueryWarning { qw_code : option Z; qw_msg : option string }.

Record QueryEarlyMetaData : Type := mkQueryEarlyMetaData { qem_prepared : option string }.

Section Reader.
Context {P : Profile} {V : Type}.

Record QueryError : Type := mkQueryError {
  qe_code : Z;
  qe_msg : list Z;
  qe_reason : gmap string V;
  qe_retry : option bool;
}.

Record QueryErrorResponse : Type := mkQueryErrorResponse { qer_errors : list QueryError }.

Record QueryMetaData : Type := mkQueryMetaData {
  qmd_early_meta_data : QueryEarlyMetaData;
  qmd_request_id : option string;
  qmd_client_context_id : option string;
  qmd_status : QueryStatus.Status;
  qmd_errors : list QueryError;
  qmd_warnings : list QueryWarning;
  qmd_metrics : option QueryMetrics;
  qmd_profile : option (list Z);
  qmd_signature : option (list Z);
}.

(** [value == code], the [regex] crate and [StatusCode]'s [Display]. *)
Context (value_is : V → Z → bool) (regex_is_match : string → list Z → bool) (status_display : Z → string).

(** [serde_json]. *)
Context (from_slice_string : list Z → string + string) (from_slice_value : list Z → string + V)
  (to_vec : gmap string V → string + list Z)
  (from_slice_error_response : list Z → string + QueryErrorResponse)
  (from_slice_early_metadata : list Z → string + QueryEarlyMetaData)
  (from_slice_metadata : list Z → string + QueryMetaData).

Abbreviation Error := (Queryx.Error V).

(** *** Errors *)

(** The kind of a planning error, an indexer error and an execution error. *)
Definition planning_error_kind (err_code : Z) : QueryServerErrorKind :=
  if (err_code =? 4040) || (err_code =? 4050) || (err_code =? 4060) || (err_code =? 4070)
     || (err_code =? 4080) || (err_code =? 4090)
  then QueryServerErrorKind.PreparedStatementFailure
  else if err_code =? 4300 then QueryServerErrorKind.IndexExists
  else QueryServerErrorKind.PlanningFailure.

Definition indexer_error_kind (error_msg : list Z) : QueryServerErrorKind :=
  let msg := to_lowercase error_msg in
  if contains (str_bytes "not enough") msg && contains (str_bytes "replica") msg then
    QueryServerErrorKind.InvalidArgument "num_replicas"
      "not enough indexer nodes to create index with replica count"
  else if contains (str_bytes "build already in progress") msg then QueryServerErrorKind.BuildAlreadyInProgress
  else if regex_is_match ".*?ndex .*? already exist.*" error_msg then QueryServerErrorKind.IndexExists
  else if regex_is_match ".*?ndex .*? not exist.*" error_msg then QueryServerErrorKind.IndexNotFound
  else QueryServerErrorKind.Internal.

Definition dml_error_kind (error : QueryError) : QueryServerErrorKind :=
  if negb (bool_decide (qe_reason error = ∅)) then
    match qe_reason error !! "code"%string with
    | Some code =>
        if value_is code 12033 then QueryServerErrorKind.CasMismatch
        else if value_is code 17014 then QueryServerErrorKind.DocNotFound
        else if value_is code 17012 then QueryServerErrorKind.DocExists
        else QueryServerErrorKind.DMLFailure
    | None => QueryServerErrorKind.DMLFailure
    end
  else if contains (str_bytes "cas mismatch") (to_lowercase (qe_msg error)) then QueryServerErrorKind.CasMismatch
  else QueryServerErrorKind.DMLFailure.

Definition datastore_error_kind (error : QueryError) : QueryServerErrorKind :=
  let err_code := qe_code error in
  if err_code =? 12003 then QueryServerErrorKind.CollectionNotFound
  else if err_code =? 12004 then QueryServerErrorKind.IndexNotFound
  else if err_code =? 12009 then dml_error_kind error
  else if err_code =? 12016 then QueryServerErrorKind.IndexNotFound
  else if err_code =? 12021 then QueryServerErrorKind.ScopeNotFound
  else QueryServerErrorKind.IndexFailure.

Definition parse_error_kind (error : QueryError) : QueryServerErrorKind :=
  let err_code := qe_code error in
  let err_code_group := err_code / 1000 in
  if err_code_group =? 4 then planning_error_kind err_code
  else if err_code_group =? 5 then indexer_error_kind (qe_msg error)
  else if err_code_group =? 12 then datastore_error_kind error
  else if err_code_group =? 14 then QueryServerErrorKind.IndexFailure
  else if err_code_group =? 10 then QueryServerErrorKind.AuthenticationFailure
  else if err_code =? 1000 then QueryServerErrorKind.WriteInReadOnlyMode
  else if err_code =? 1080 then QueryServerErrorKind.Timeout
  else if err_code =? 3000 then QueryServerErrorKind.ParsingFailure
  else if err_code =? 13014 then QueryServerErrorKind.AuthenticationFailure
  else QueryServerErrorKind.Unknown.

Definition error_desc (error : QueryError) : Queryx.ErrorDesc V :=
  Queryx.mkErrorDesc (parse_error_kind error) (qe_code error) (qe_msg error) (default false (qe_retry error))
    (qe_reason error).

(** The error a server error becomes: where a resource is named, its names are read. *)
Definition error_of_server_error (e : Queryx.ServerError V) : outcome Error Error :=
  let resource := r ← Queryx.resource_error_new e; Ok (Queryx.new_resource_error r) in
  match Queryx.se_kind e with
  | QueryServerErrorKind.ScopeNotFound => resource
  | QueryServerErrorKind.CollectionNotFound => resource
  | QueryServerErrorKind.IndexNotFound => resource
  | QueryServerErrorKind.IndexExists => resource
  | QueryServerErrorKind.AuthenticationFailure =>
      if Queryx.se_code e =? 13014 then resource else Ok (Queryx.new_server_error e)
  | _ => Ok (Queryx.new_server_error e)
  end.

(** [error_descs[0]] is read even when another description is chosen. *)
Definition parse_errors (errors : list QueryError) (endpoint statement client_context_id : string)
    (status_code : Z) : outcome Error Error :=
  let error_descs := error_desc <$> errors in
  first ← expect (head error_descs);
  let chosen_desc := default first (snd <$> list_find (λ d, Queryx.desc_retry d = false) error_descs) in
  let server_error :=
    Queryx.with_statement statement (Queryx.with_client_context_id client_context_id
      (Queryx.server_error_new (Queryx.desc_kind chosen_desc) endpoint status_code
         (Queryx.desc_code chosen_desc) (Queryx.desc_message chosen_desc))) in
  let server_error :=
    if (1 <? length error_descs)%nat then Queryx.with_error_descs error_descs server_error else server_error in
  error_of_server_error server_error.

(** *** The reader *)

Record QueryRespReader : Type := mkQueryRespReader {
  rd_endpoint : string;
  rd_statement : string;
  rd_client_context_id : string;
  rd_status_code : Z;
  rd_streamer : RawJsonRowStreamer (V:=V);
  rd_early_meta_data : EarlyMetaData;
  rd_meta_data : option MetaData;
  rd_meta_data_error : option Error;
}.

Definition set_streamer (s : RawJsonRowStreamer) (r : QueryRespReader) : QueryRespReader :=
  mkQueryRespReader (rd_endpoint r) (rd_statement r) (rd_client_context_id r) (rd_status_code r) s
    (rd_early_meta_data r) (rd_meta_data r) (rd_meta_data_error r).
Definition set_meta_data (m : MetaData) (r : QueryRespReader) : QueryRespReader :=
  mkQueryRespReader (rd_endpoint r) (rd_statement r) (rd_client_context_id r) (rd_status_code r) (rd_streamer r)
    (rd_early_meta_data r) (Some m) (rd_meta_data_error r).
Definition set_meta_data_error (e : Error) (r : QueryRespReader) : QueryRespReader :=
  mkQueryRespReader (rd_endpoint r) (rd_statement r) (rd_client_context_id r) (rd_status_code r) (rd_streamer r)
    (rd_early_meta_data r) (rd_meta_data r) (Some e).

(** [parse_duration_from_golang_string(&text).unwrap_or_default()] of an optional text. *)
Definition parse_time (text : option (list Z)) : outcome Error Z :=
  match text with
  | Some text =>
      match parse_duration_from_golang_string text with
      | Ok d => Ok d
      | Err _ => Ok 0
      | Panic => Panic
      end
  | None => Ok 0
  end.

Definition parse_metrics (metrics : option QueryMetrics) : outcome Error (option Metrics) :=
  match metrics with
  | None => Ok None
  | Some m =>
      elapsed_time ← parse_time (qm_elapsed_time m);
      execution_time ← parse_time (qm_execution_time m);
      Ok (Some (mkMetrics elapsed_time execution_time (default 0 (qm_result_count m))
        (default 0 (qm_result_size m)) (default 0 (qm_mutation_count m)) (default 0 (qm_sort_count m))
        (default 0 (qm_error_count m)) (default 0 (qm_warning_count m))))
  end.

Definition parse_warnings (warnings : list QueryWarning) : list Warning :=
  (λ w, mkWarning (default 0 (qw_code w)) (default ""%string (qw_msg w))) <$> warnings.

Definition parse_metadata (r : QueryRespReader) (metadata : QueryMetaData) : outcome Error MetaData :=
  match qmd_errors metadata with
  | [] =>
      metrics ← parse_metrics (qmd_metrics metadata);
      Ok (mkMetaData (qem_prepared (qmd_early_meta_data metadata)) (default ""%string (qmd_request_id metadata))
        (default ""%string (qmd_client_context_id metadata)) (qmd_status metadata) metrics
        (qmd_signature metadata) (parse_warnings (qmd_warnings metadata)) (qmd_profile metadata))
  | errors =>
      e ← parse_errors errors (rd_endpoint r) (rd_statement r) (rd_client_context_id r) (rd_status_code r);
      Err e
  end.

Definition read_final_metadata (r : QueryRespReader) (epilog : list Z) : outcome Error MetaData :=
  match from_slice_metadata epilog with
  | inl e => Err (Queryx.new_message_error ("failed to parse query metadata from epilog: " +:+ e)
                    (Some (rd_endpoint r)) (Some (rd_statement r)) (Some (rd_client_context_id r)))
  | inr metadata => parse_metadata r metadata
  end.

(** A call of the streamer; its errors are HTTP errors of this request. *)
Definition http_err {A} (endpoint statement client_context_id : string) (m : outcome HttpxError A)
    : outcome Error A :=
  map_err (λ e, Queryx.new_http_error e endpoint (Some statement) (Some client_context_id)) m.

Definition read_early_metadata (streamer : RawJsonRowStreamer) (endpoint statement client_context_id : string)
    : RawJsonRowStreamer * outcome Error EarlyMetaData :=
  let '(streamer, prelude) := read_prelude from_slice_string from_slice_value to_vec streamer in
  (streamer,
   prelude ← http_err endpoint statement client_context_id prelude;
   match from_slice_early_metadata prelude with
   | inl e => Err (Queryx.new_message_error ("failed to parse metadata from response: " +:+ e)
                     (Some endpoint) (Some statement) (Some client_context_id))
   | inr early_metadata => Ok (mkEarlyMetaData (qem_prepared early_metadata))
   end).

(** An answer with another status than 200. *)
Definition read_failure (resp : Response) (endpoint statement client_context_id : string)
    : outcome Error Error :=
  match response_bytes resp with
  | Err e => Ok (Queryx.new_http_error e endpoint (Some statement) (Some client_context_id))
  | Panic => Panic
  | Ok body =>
      match from_slice_error_response body with
      | inl e =>
          Ok (Queryx.new_message_error
                ("non-200 status code received " +:+ status_display (resp_status resp)
                 +:+ " but parsing error response body failed " +:+ e) None None None)
      | inr errors =>
          match qer_errors errors with
          | [] =>
              Ok (Queryx.new_message_error
                    ("Non-200 status code received " +:+ status_display (resp_status resp)
                     +:+ " but response body contained no errors") None None None)
          | errors => parse_errors errors endpoint statement client_context_id (resp_status resp)
          end
      end
  end.

Definition query_resp_reader_new (resp : Response) (endpoint statement client_context_id : string)
    : outcome Error QueryRespReader :=
  if negb (resp_status resp =? 200) then
    e ← read_failure resp endpoint statement client_context_id;
    Err e
  else
    let streamer := streamer_new (decoder_new (response_bytes_stream resp)) "results" in
    let '(streamer, early) := read_early_metadata streamer endpoint statement client_context_id in
    early_meta_data ← early;
    let '(streamer, has_rows) := has_more_rows streamer in
    let reader s := mkQueryRespReader endpoint statement client_context_id (resp_status resp) s
                      early_meta_data None None in
    if negb has_rows then
      let '(streamer, text) := epilog to_vec streamer in
      text ← http_err endpoint statement client_context_id text;
      meta ← read_final_metadata (reader streamer) text;
      Ok (set_meta_data meta (reader streamer))
    else Ok (reader streamer).

Definition early_metadata (r : QueryRespReader) : EarlyMetaData := rd_early_meta_data r.

Definition metadata_too_early : Error :=
  Queryx.new_message_error "cannot read meta-data until after all rows are read" None None None.

Definition metadata (r : QueryRespReader) : outcome Error MetaData :=
  match rd_meta_data_error r with
  | Some e => Err e
  | None => match rd_meta_data r with Some meta => Ok meta | None => Err metadata_too_early end
  end.

Definition poll_next (r : QueryRespReader) : QueryRespReader * option (outcome Error (list Z)) :=
  let '(s, item) := next from_slice_string from_slice_value to_vec (rd_streamer r) in
  let r := set_streamer s r in
  match item with
  | Some (Ok (RawJsonRowItem.Row row_data)) => (r, Some (Ok row_data))
  | Some (Ok (RawJsonRowItem.Metadata text)) =>
      match read_final_metadata r text with
      | Ok meta => (set_meta_data meta r, None)
      | Err e => (set_meta_data_error e r, Some (Err e))
      | Panic => (r, Some Panic)
      end
  | Some (Err e) =>
      (r, Some (Err (Queryx.new_http_error e (rd_endpoint r) (Some (rd_statement r))
                       (Some (rd_client_context_id r)))))
  | Some Panic => (r, Some Panic)
  | None => (r, None)
  end.

(** The reader polled until it ends, at most [n] times. *)
Fixpoint poll_all (n : nat) (r : QueryRespReader) : QueryRespReader * list (outcome Error (list Z)) :=
  match n with
  | O => (r, [])
  | S n =>
      match poll_next r with
      | (r, Some item) => let '(r, items) := poll_all n r in (r, item :: items)
      | (r, None) => (r, [])
      end
  end.

(** ** Theorems: answers with rows *)

Lemma stream_items_cons n s item l :
  stream_items from_slice_string from_slice_value to_vec (S n) s = item :: l →
  ∃ s', next from_slice_string from_slice_value to_vec s = (s', Some item)
    ∧ stream_items from_slice_string from_slice_value to_vec n s' = l.
Proof.
  cbn [stream_items]. destruct (next _ _ _ s) as [s' [x|]]; [|done]. intros [= -> <-]. by exists s'.
Qed.

Lemma parse_metadata_same r r' md :
  rd_endpoint r = rd_endpoint r' → rd_statement r = rd_statement r' →
  rd_client_context_id r = rd_client_context_id r' → rd_status_code r = rd_status_code r' →
  parse_metadata r md = parse_metadata r' md.
Proof. intros H1 H2 H3 H4. unfold parse_metadata. by rewrite H1, H2, H3, H4. Qed.

(** The streamer hands out the rows [xs] and then the attributes [m]. *)
Definition streams (xs : list (list Z)) (m : list Z) (s : RawJsonRowStreamer) : Prop :=
  ∀ n, stream_items from_slice_string from_slice_value to_vec (length xs + 1 + n) s
       = (Ok ∘ RawJsonRowItem.Row <$> xs) ++ [Ok (RawJsonRowItem.Metadata m)].

Lemma poll_rows xs m n : ∀ r,
  streams xs m (rd_streamer r) →
  ∃ s', streams [] m s'
    ∧ poll_all (length xs + n) r = let '(r', items) := poll_all n (set_streamer s' r) in (r', (Ok <$> xs) ++ items).
Proof.
  induction xs as [|x xs IH]; intros r Hs.
  { exists (rd_streamer r). split; [done|]. replace (set_streamer (rd_streamer r) r) with r by (by destruct r).
    cbn [length Nat.add]. by destruct (poll_all n r). }
  assert (∃ s1, next from_slice_string from_slice_value to_vec (rd_streamer r)
                = (s1, Some (Ok (RawJsonRowItem.Row x))) ∧ streams xs m s1) as (s1 & Hn & Hs1).
  { destruct (stream_items_cons _ _ _ _ (Hs 0%nat)) as (s1 & Hn & _). exists s1. split; [done|]. intros k.
    destruct (stream_items_cons _ _ _ _ (Hs k)) as (s2 & Hn2 & Hl). rewrite Hn2 in Hn. by simplify_eq. }
  destruct (IH (set_streamer s1 r) Hs1) as (s' & Hs' & Hp). exists s'. split; [done|].
  cbn [length Nat.add poll_all]. unfold poll_next. rewrite Hn. cbn [set_streamer]. rewrite Hp.
  cbn [set_streamer rd_endpoint rd_statement rd_client_context_id rd_status_code rd_early_meta_data rd_meta_data
    rd_meta_data_error]. by destruct (poll_all n _).
Qed.

(** The end of the answer: errors among the metadata are the last item. *)
Lemma poll_end m md n r :
  streams [] m (rd_streamer r) → from_slice_metadata m = inr md → rd_meta_data_error r = None →
  let '(r', items) := poll_all (1 + n) r in
  match parse_metadata r md with
  | Ok meta => items = [] ∧ metadata r' = Ok meta
  | Err e => items = [Err e] ∧ metadata r' = Err e
  | Panic => True
  end.
Proof.
  intros Hs Hm He. destruct (stream_items_cons _ _ _ _ (Hs 1%nat)) as (s1 & Hn & Hl).
  assert (next from_slice_string from_slice_value to_vec s1 = (fst (next from_slice_string from_slice_value to_vec s1), None)) as Hend.
  { cbn [stream_items] in Hl. by destruct (next _ _ _ s1) as [? [?|]]. }
  cbn [Nat.add poll_all]. unfold poll_next at 1. rewrite Hn. unfold read_final_metadata. rewrite Hm.
  rewrite (parse_metadata_same (set_streamer s1 r) r) by done.
  destruct (parse_metadata r md) as [meta|e|]; [by unfold metadata; cbn; rewrite He| |by destruct (poll_all n _)].
  destruct n as [|n]; [done|]. cbn [poll_all]. unfold poll_next. cbn [set_meta_data_error rd_streamer set_streamer].
  rewrite Hend. done.
Qed.


(** An answer with status 200 and no rows is read to its end at once: errors of the
    server among the attributes are the result of the call that sent the query, and
    otherwise the metadata are there and the stream of rows is empty. *)
Lemma query_answer_without_rows resp cs w0 pre h w post tail m early md endpoint statement ctx :
  resp_status resp = 200 → resp_chunks resp = Ok <$> cs →
  concat cs = empty_document w0 pre h w post tail →
  ws w0 → ws w → Forall (attr_ok from_slice_string from_slice_value) (pre ++ post) → key_ok from_slice_string h →
  at_name h = "results" → Forall (λ a, at_name a ≠ "results") (pre ++ post) →
  to_vec (attribs_of (pre ++ post) ∅) = inr m →
  from_slice_early_metadata m = inr early → from_slice_metadata m = inr md →
  ∃ rd0, rd_endpoint rd0 = endpoint ∧ rd_statement rd0 = statement ∧ rd_client_context_id rd0 = ctx
    ∧ match parse_metadata rd0 md with
      | Ok meta => ∃ rd, query_resp_reader_new resp endpoint statement ctx = Ok rd
          ∧ metadata rd = Ok meta ∧ early_metadata rd = mkEarlyMetaData (qem_prepared early)
          ∧ snd (poll_next rd) = None
      | Err e => query_resp_reader_new resp endpoint statement ctx = Err e
      | Panic => query_resp_reader_new resp endpoint statement ctx = Panic
      end.
Proof.
  intros Hst Hch Hcs Hw0 Hw Hok Hh Hname Hnames Hm Hearly Hmd.
  destruct (empty_document_streams from_slice_string from_slice_value to_vec cs w0 pre h w post tail m)
    as (s1 & Hp & Hmore & Hep & Hn); [by rewrite ?Hname..|].
  set (rd := mkQueryRespReader endpoint statement ctx 200 s1 (mkEarlyMetaData (qem_prepared early)) None None).
  exists rd. split_and!; [done..|].
  assert (query_resp_reader_new resp endpoint statement ctx
          = (meta ← parse_metadata rd md; Ok (set_meta_data meta rd))) as ->.
  { unfold query_resp_reader_new, read_early_metadata, response_bytes_stream. rewrite Hst, Hch. cbn [negb Z.eqb Pos.eqb].
    rewrite <- list_fmap_compose. change (map_err _ ∘ Ok) with (@Ok HttpxError (list Z)). rewrite Hname in Hp.
    rewrite Hp. cbn [http_err map_err]. unfold mbind, outcome_bind. rewrite Hearly, Hmore. cbn [negb]. cbv iota.
    rewrite Hep. cbn [http_err map_err]. unfold read_final_metadata. by rewrite Hmd. }
  destruct (parse_metadata rd md) as [meta|e|]; [|done..]. exists (set_meta_data meta rd). split_and!; [done..|].
  unfold poll_next. cbn [set_meta_data rd rd_streamer]. by rewrite Hn.
Qed.

(** ** Theorems: failures *)

(** The error of the server behind an error. *)
Definition server_error_of (e : Error) : option (Queryx.ServerError V) :=
  match Queryx.kind e with
  | Queryx.Server s => Some s
  | Queryx.Resource r => Some (Queryx.cause r)
  | _ => None
  end.

Lemma error_of_server_error_cases (s : Queryx.ServerError V) :
  match error_of_server_error s with
  | Ok e => server_error_of e = Some s
  | Err _ => False
  | Panic => Queryx.resource_error_new s = Panic
  end.
Proof.
  destruct (resource_error_panics s) as [_ Hr]. unfold error_of_server_error.
  assert (match (r ← Queryx.resource_error_new s; Ok (Queryx.new_resource_error r)) with
          | Ok e => server_error_of e = Some s
          | Err _ => False
          | Panic => Queryx.resource_error_new s = Panic
          end) as K.
  { destruct (Queryx.resource_error_new s) as [r|e|]; [|by destruct (Hr ltac:(done)) as (? & ? & _)|done].
    destruct (Hr ltac:(done)) as (? & [= <-] & <-). done. }
  destruct (Queryx.se_kind s); first [exact K | done | destruct (_ =? 13014); [exact K|done]].
Qed.

(** The first error that is not worth another try, or else the first. *)
Definition chosen (errors : list QueryError) (e : QueryError) : Prop :=
  ∃ l1 l2, errors = l1 ++ e :: l2
    ∧ (Forall (λ x, qe_retry x = Some true) l1 ∧ qe_retry e ≠ Some true
       ∨ l1 = [] ∧ Forall (λ x, qe_retry x = Some true) errors).

Lemma chosen_desc errors first :
  head (error_desc <$> errors) = Some first →
  ∃ e, chosen errors e
    ∧ default first (snd <$> list_find (λ d, Queryx.desc_retry d = false) (error_desc <$> errors)) = error_desc e.
Proof.
  intros Hh. assert (∀ x, qe_retry x ≠ Some true ↔ default false (qe_retry x) = false) as Hret
    by (intros x; destruct (qe_retry x) as [[]|]; naive_solver).
  destruct (list_find _ _) as [[i d]|] eqn:Hf.
  - apply list_find_Some in Hf as (Hi & Hd & Hbefore). rewrite list_lookup_fmap in Hi.
    destruct (errors !! i) as [e|] eqn:He; [|done]. cbn in Hi. simplify_eq. exists e. split; [|done].
    exists (take i errors), (drop (S i) errors). split; [by rewrite take_drop_middle|]. left. split; [|by apply Hret].
    apply list.Forall_forall. intros x Hx. apply list_elem_of_lookup in Hx as [j Hj].
    apply lookup_take_Some in Hj as [Hj Hlt]. specialize (Hbefore j (error_desc x)).
    destruct (decide (qe_retry x = Some true)) as [|Hn]; [done|]. exfalso. apply Hbefore; [|done|by apply Hret].
    by rewrite list_lookup_fmap, Hj.
  - apply list_find_None in Hf. destruct errors as [|e errors]; [done|]. cbn in Hh. simplify_eq. exists e.
    split; [|done]. exists [], errors. split; [done|]. right. split; [done|].
    rewrite !list.Forall_fmap in Hf. eapply list.Forall_impl; [exact Hf|]. intros x Hx. cbn in Hx.
    destruct (qe_retry x) as [[]|]; done.
Qed.

(** What the error made of [errors] says. *)
Definition reports (errors : list QueryError) (endpoint statement ctx : string) (status : Z)
    (s : Queryx.ServerError V) : Prop :=
  ∃ e, chosen errors e
    ∧ Queryx.se_kind s = parse_error_kind e ∧ Queryx.se_code s = qe_code e ∧ Queryx.se_msg s = qe_msg e
    ∧ Queryx.se_endpoint s = endpoint ∧ Queryx.se_status_code s = status
    ∧ Queryx.se_statement s = Some statement ∧ Queryx.se_client_context_id s = Some ctx
    ∧ Queryx.se_all_error_descs s = match errors with [_] => [] | _ => error_desc <$> errors end.

Lemma parse_errors_cases errors endpoint statement ctx status :
  errors ≠ [] →
  match parse_errors errors endpoint statement ctx status with
  | Ok err => ∃ s, server_error_of err = Some s ∧ reports errors endpoint statement ctx status s
  | Err _ => False
  | Panic => ∃ s, reports errors endpoint statement ctx status s ∧ Queryx.resource_error_new s = Panic
  end.
Proof.
  intros Hne. unfold parse_errors. destruct (head (error_desc <$> errors)) as [first|] eqn:Hh; [|by destruct errors].
  destruct (chosen_desc errors first Hh) as (e & Hc & Hd). cbn [expect]. unfold mbind, outcome_bind. rewrite Hd.
  set (s := if (1 <? _)%nat then _ else _).
  assert (reports errors endpoint statement ctx status s) as Hs.
  { exists e. split; [done|]. subst s. destruct errors as [|e1 [|e2 errors]]; [done|done|].
    cbn [fmap list_fmap length Nat.ltb Nat.leb]. done. }
  pose proof (error_of_server_error_cases s) as K. destruct (error_of_server_error s) as [err| |]; [|done|].
  - by exists s.
  - by exists s.
Qed.

(** C36. An answer with another status than 200 never gives a reader.  When its body is the
    list of errors of the server, the error of the call is about the first of them
    that the server does not mark as worth a retry - or the first, when all are -,
    with its code, message and kind, and with the endpoint, the statement and the
    context id of the request; all of them are attached when there are several.  The one
    other outcome is a panic over the names in the message. *)
Theorem query_failure_is_reported resp endpoint statement ctx :
  resp_status resp ≠ 200 →
  (∀ rd, query_resp_reader_new resp endpoint statement ctx ≠ Ok rd)
  ∧ ∀ body errors, resp_bytes resp = Ok body →
      from_slice_error_response body = inr (mkQueryErrorResponse errors) → errors ≠ [] →
      match query_resp_reader_new resp endpoint statement ctx with
      | Ok _ => False
      | Err err => ∃ s, server_error_of err = Some s ∧ reports errors endpoint statement ctx (resp_status resp) s
      | Panic => ∃ s, reports errors endpoint statement ctx (resp_status resp) s ∧ Queryx.resource_error_new s = Panic
      end.
Proof.
  intros Hst. unfold query_resp_reader_new. test_false (resp_status resp =? 200). cbn [negb]. cbv iota. split.
  - intros rd. by destruct (read_failure resp endpoint statement ctx).
  - intros body errors Hb He Hne. unfold read_failure, response_bytes. rewrite Hb. cbn [map_err]. rewrite He.
    cbn [qer_errors]. destruct errors as [|e errors]; [done|].
    pose proof (parse_errors_cases (e :: errors) endpoint statement ctx (resp_status resp) Hne) as K.
    by destruct (parse_errors _ _ _ _ _).
Qed.

End Reader.
#[global] Arguments QueryError : clear implicits.
#[global] Arguments QueryErrorResponse : clear implicits.
#[global] Arguments QueryMetaData : clear implicits.
#[global] Arguments QueryRespReader : clear implicits.

(** ** Witnesses

    Attributes are kept as their text; the documents read with serde have one error. *)

Definition query_key (k : list Z) : string + string :=
  if bool_decide (k = [34] ++ str_bytes "results" ++ [34]) then inr "results"
  else if bool_decide (k = [34; 97; 34]) then inr "a"
  else inl "unknown".

Definition query_rows_attr : Attr (V:=list Z) :=
  mkAttr [] ([34] ++ str_bytes "results" ++ [34]) [] [SPACE] [] [] "results" [].
Definition query_attr : Attr (V:=list Z) := mkAttr [] [34; 97; 34] [] [SPACE] [49] [] "a" [49].

Definition query_sample_error : QueryError (list Z) := mkQueryError 12003 (str_bytes "Keyspace not found") ∅ None.
Definition query_sample_metadata : QueryMetaData (list Z) :=
  mkQueryMetaData (mkQueryEarlyMetaData None) None None QueryStatus.Errors [query_sample_error] [] None None None.

Definition query_sample_rows : list RowText := [sample_row (str_bytes "null")].

Definition query_sample_text : list Z :=
  document [] [query_attr] query_rows_attr (sample_row (str_bytes "true")) query_sample_rows [] [].
Definition query_sample_empty : list Z := empty_document [] [query_attr] query_rows_attr [] [] [].

Definition sample_response (status : Z) (text : list Z) : Response :=
  mkResponse status (Ok text) (Ok <$> [take 20 text; drop 20 text]).

Lemma query_rows_key_ok : key_ok query_key query_rows_attr.
Proof.
  assert (json_string ([34] ++ str_bytes "results" ++ [34])) as Hk.
  { apply (json_string_intro (str_bytes "results")). 
    change (str_bytes "results") with [114; 101; 115; 117; 108; 116; 115].
    repeat (apply body_char; [lia..|]). constructor. }
  unfold key_ok. split_and!; first [exact Hk | done | by constructor].
Qed.

Lemma query_attr_ok : attr_ok query_key sample_value query_attr.
Proof.
  assert (json_string [34; 97; 34]) as Hk by (apply (json_string_intro [97]), body_char; [lia..|constructor]).
  split; [|split; [|done]].
  - unfold key_ok. split_and!; first [exact Hk | done | by constructor].
  - apply value_number, number_mantissa, mantissa_integer, (integer_digits [] 49 []); auto; constructor.
Qed.

Abbreviation sample_new early :=
  (query_resp_reader_new (P:=true) (V:=list Z) (λ _ _, false) (λ _ _, false) (λ _, "404"%string) query_key sample_value
     sample_text (λ _, inr (mkQueryErrorResponse [query_sample_error])) (λ _, inr (mkQueryEarlyMetaData early))
     (λ _, inr query_sample_metadata)).

Abbreviation sample_final rd :=
  (parse_metadata (P:=true) (V:=list Z) (λ _ _, false) (λ _ _, false) rd query_sample_metadata).

Abbreviation sample_poll :=
  (poll_all (P:=true) (V:=list Z) (λ _ _, false) (λ _ _, false) query_key sample_value sample_text
     (λ _, inr query_sample_metadata)).


Lemma query_answer_without_rows_example :
  ∃ rd0, rd_endpoint rd0 = "e"%string ∧ rd_statement rd0 = "s"%string ∧ rd_client_context_id rd0 = "c"%string
    ∧ match sample_final rd0 with
      | Ok meta => ∃ rd, sample_new None (sample_response 200 query_sample_empty) "e" "s" "c" = Ok rd
          ∧ metadata rd = Ok meta ∧ early_metadata rd = mkEarlyMetaData None
          ∧ snd (poll_next (P:=true) (V:=list Z) (λ _ _, false) (λ _ _, false) query_key sample_value sample_text
                   (λ _, inr query_sample_metadata) rd) = None
      | Err e => sample_new None (sample_response 200 query_sample_empty) "e" "s" "c" = Err e
      | Panic => sample_new None (sample_response 200 query_sample_empty) "e" "s" "c" = Panic
      end.
Proof.
  apply (query_answer_without_rows (P:=true) (V:=list Z) (λ _ _, false) (λ _ _, false) (λ _, "404"%string) query_key
    sample_value sample_text (λ _, inr (mkQueryErrorResponse [query_sample_error]))
    (λ _, inr (mkQueryEarlyMetaData None)) (λ _, inr query_sample_metadata)
    (sample_response 200 query_sample_empty) [take 20 query_sample_empty; drop 20 query_sample_empty] []
    [query_attr] query_rows_attr [] [] [] [49] (mkQueryEarlyMetaData None) query_sample_metadata "e" "s" "c").
  - reflexivity.
  - reflexivity.
  - reflexivity.
  - constructor.
  - constructor.
  - constructor; [apply query_attr_ok|constructor].
  - apply query_rows_key_ok.
  - reflexivity.
  - constructor; [done|constructor].
  - vm_compute. reflexivity.
  - reflexivity.
  - reflexivity.
Defined.

Lemma query_failure_is_reported_witness :
  404 ≠ 200 ∧ ∀ rd, sample_new None (sample_response 404 []) "e" "s" "c" ≠ Ok rd.
Proof.
  split; [lia|].
  refine (proj1 (query_failure_is_reported (P:=true) (V:=list Z) (λ _ _, false) (λ _ _, false) (λ _, "404"%string) query_key
    sample_value sample_text (λ _, inr (mkQueryErrorResponse [query_sample_error]))
    (λ _, inr (mkQueryEarlyMetaData None)) (λ _, inr query_sample_metadata) (sample_response 404 []) "e" "s" "c" _)).
  cbn. lia.
Defined.
