(* ===== verification/QueryxOptions.v ===== *)
(** * Options of the query service ([queryx/query_options.rs])

    The options of a query and of the index operations, their setters and the JSON object
    a query's options are sent as.

    [serde_json::Value] is a class of the constructors values are built with; the values of
    [Json.v] are an instance. *)

From S2P Require Import Prelude Text Json Durations Wire CoreError Http.

(** [serde_json::Value], as far as values are built. *)
Class JsonValue (V : Type) := {
  json_string : string → V;
  json_bool : bool → V;
  json_number : Z → V;
  json_array : list V → V;
  json_object : list (string * V) → V;
}.

#[global] Instance value_json : JsonValue Value := {|
  json_string := Json.String_;
  json_bool := Json.Bool;
  json_number := Json.number_from;
  json_array := Json.Array;
  json_object entries := Json.Object (foldl (λ m '(k, v), Json.map_insert k v m) [] entries);
|}.

(** ** Values of options *)

Module ScanConsistency.
Inductive ScanConsistency : Type := NotBounded | RequestPlus | AtPlus.
End ScanConsistency.

Module ProfileMode.
Inductive ProfileMode : Type := Off | Phases | Timings.
End ProfileMode.

Module Compression.
Inductive Compression : Type := Zip | Rle | Lzma | Lzo | None_.
End Compression.

Module QueryDurabilityLevel.
Inductive DurabilityLevel : Type := None_ | Majority | MajorityAndPersistActive | PersistToMajority.
End QueryDurabilityLevel.

Inductive Encoding : Type := Utf8.

Module Format.
Inductive Format : Type := Json | Xml | Csv | Tsv.
End Format.

Module ReplicaLevel.
Inductive ReplicaLevel : Type := Off | On.
End ReplicaLevel.

Record CredsJson : Type := mkCredsJson { creds_user : string; creds_pass : string }.

Record ScanVectorEntry : Type := mkScanVectorEntry { seq_no : Z; vb_uuid : string }.

Inductive DesiredState : Type := Created | Deleted.

(** ** The options *)

Module QueryOptions.
Section Fields.
Context {V : Type}.
Record QueryOptions : Type := mk {
  args : option (list V);
  atr_collection : option string;
  auto_execute : option bool;
  client_context_id : option string;
  compression : option Compression.Compression;
  controls : option bool;
  creds : option (list CredsJson);
  durability_level : option QueryDurabilityLevel.DurabilityLevel;
  encoded_plan : option string;
  encoding : option Encoding;
  format : option Format.Format;
  kv_timeout : option Duration;
  max_parallelism : option Z;
  memory_quota : option Z;
  metrics : option bool;
  namespace : option string;
  num_atrs : option Z;
  pipeline_batch : option Z;
  pipeline_cap : option Z;
  prepared : option string;
  preserve_expiry : option bool;
  pretty : option bool;
  profile : option ProfileMode.ProfileMode;
  query_context : option string;
  read_only : option bool;
  scan_cap : option Z;
  scan_consistency : option ScanConsistency.ScanConsistency;
  sparse_scan_vector : option (gmap string ScanVectorEntry);
  full_scan_vector : option (list ScanVectorEntry);
  sparse_scan_vectors : option (gmap string (gmap string ScanVectorEntry));
  full_scan_vectors : option (gmap string (list ScanVectorEntry));
  scan_wait : option Duration;
  signature : option bool;
  statement : option string;
  timeout : option Duration;
  tx_data : option (list Z);
  tx_id : option string;
  tx_implicit : option bool;
  tx_stmt_num : option Z;
  tx_timeout : option Duration;
  use_cbo : option bool;
  use_fts : option bool;
  use_replica : option ReplicaLevel.ReplicaLevel;
  named_args : option (gmap string V);
  raw : option (gmap string V);
  on_behalf_of : option OnBehalfOfInfo;
}.
End Fields.
#[global] Arguments QueryOptions : clear implicits.
End QueryOptions.
Abbreviation QueryOptions := QueryOptions.QueryOptions.
#[global] Instance query_options_settable V : Settable (QueryOptions V) := λ r,
  QueryOptions.mk (QueryOptions.args r) (QueryOptions.atr_collection r)
    (QueryOptions.auto_execute r) (QueryOptions.client_context_id r) (QueryOptions.compression r)
    (QueryOptions.controls r) (QueryOptions.creds r) (QueryOptions.durability_level r)
    (QueryOptions.encoded_plan r) (QueryOptions.encoding r) (QueryOptions.format r)
    (QueryOptions.kv_timeout r) (QueryOptions.max_parallelism r) (QueryOptions.memory_quota r)
    (QueryOptions.metrics r) (QueryOptions.namespace r) (QueryOptions.num_atrs r)
    (QueryOptions.pipeline_batch r) (QueryOptions.pipeline_cap r) (QueryOptions.prepared r)
    (QueryOptions.preserve_expiry r) (QueryOptions.pretty r) (QueryOptions.profile r)
    (QueryOptions.query_context r) (QueryOptions.read_only r) (QueryOptions.scan_cap r)
    (QueryOptions.scan_consistency r) (QueryOptions.sparse_scan_vector r)
    (QueryOptions.full_scan_vector r) (QueryOptions.sparse_scan_vectors r)
    (QueryOptions.full_scan_vectors r) (QueryOptions.scan_wait r) (QueryOptions.signature r)
    (QueryOptions.statement r) (QueryOptions.timeout r) (QueryOptions.tx_data r)
    (QueryOptions.tx_id r) (QueryOptions.tx_implicit r) (QueryOptions.tx_stmt_num r)
    (QueryOptions.tx_timeout r) (QueryOptions.use_cbo r) (QueryOptions.use_fts r)
    (QueryOptions.use_replica r) (QueryOptions.named_args r) (QueryOptions.raw r)
    (QueryOptions.on_behalf_of r).

Definition query_options_new {V : Type} : QueryOptions V :=
  QueryOptions.mk None None None None None None None None None None None None None None None None
    None None None None None None None None None None None None None None None None None None None
    None None None None None None None None None None None.

Definition query_options_args {V : Type} (args : option (list V))
    (self : QueryOptions V) : QueryOptions V :=
  self <| QueryOptions.args := args |>.

Definition query_options_atr_collection {V : Type} (atr_collection : option string)
    (self : QueryOptions V) : QueryOptions V :=
  self <| QueryOptions.atr_collection := atr_collection |>.

Definition query_options_auto_execute {V : Type} (auto_execute : option bool)
    (self : QueryOptions V) : QueryOptions V :=
  self <| QueryOptions.auto_execute := auto_execute |>.

Definition query_options_client_context_id {V : Type} (client_context_id : option string)
    (self : QueryOptions V) : QueryOptions V :=
  self <| QueryOptions.client_context_id := client_context_id |>.

Definition query_options_compression {V : Type} (compression : option Compression.Compression)
    (self : QueryOptions V) : QueryOptions V :=
  self <| QueryOptions.compression := compression |>.

Definition query_options_controls {V : Type} (controls : option bool)
    (self : QueryOptions V) : QueryOptions V :=
  self <| QueryOptions.controls := controls |>.

Definition query_options_creds {V : Type} (creds : option (list CredsJson))
    (self : QueryOptions V) : QueryOptions V :=
  self <| QueryOptions.creds := creds |>.

Definition query_options_durability_level {V : Type}
    (durability_level : option QueryDurabilityLevel.DurabilityLevel)
    (self : QueryOptions V) : QueryOptions V :=
  self <| QueryOptions.durability_level := durability_level |>.

Definition query_options_encoded_plan {V : Type} (encoded_plan : option string)
    (self : QueryOptions V) : QueryOptions V :=
  self <| QueryOptions.encoded_plan := encoded_plan |>.

Definition query_options_encoding {V : Type} (encoding : option Encoding)
    (self : QueryOptions V) : QueryOptions V :=
  self <| QueryOptions.encoding := encoding |>.

Definition query_options_format {V : Type} (format : option Format.Format)
    (self : QueryOptions V) : QueryOptions V :=
  self <| QueryOptions.format := format |>.

Definition query_options_kv_timeout {V : Type} (kv_timeout : option Duration)
    (self : QueryOptions V) : QueryOptions V :=
  self <| QueryOptions.kv_timeout := kv_timeout |>.

Definition query_options_max_parallelism {V : Type} (max_parallelism : option Z)
    (self : QueryOptions V) : QueryOptions V :=
  self <| QueryOptions.max_parallelism := max_parallelism |>.

Definition query_options_memory_quota {V : Type} (memory_quota : option Z)
    (self : QueryOptions V) : QueryOptions V :=
  self <| QueryOptions.memory_quota := memory_quota |>.

Definition query_options_metrics {V : Type} (metrics : option bool)
    (self : QueryOptions V) : QueryOptions V :=
  self <| QueryOptions.metrics := metrics |>.

Definition query_options_namespace {V : Type} (namespace : option string)
    (self : QueryOptions V) : QueryOptions V :=
  self <| QueryOptions.namespace := namespace |>.

Definition query_options_num_atrs {V : Type} (num_atrs : option Z)
    (self : QueryOptions V) : QueryOptions V :=
  self <| QueryOptions.num_atrs := num_atrs |>.

Definition query_options_pipeline_batch {V : Type} (pipeline_batch : option Z)
    (self : QueryOptions V) : QueryOptions V :=
  self <| QueryOptions.pipeline_batch := pipeline_batch |>.

Definition query_options_pipeline_cap {V : Type} (pipeline_cap : option Z)
    (self : QueryOptions V) : QueryOptions V :=
  self <| QueryOptions.pipeline_cap := pipeline_cap |>.

Definition query_options_prepared {V : Type} (prepared : option string)
    (self : QueryOptions V) : QueryOptions V :=
  self <| QueryOptions.prepared := prepared |>.

Definition query_options_preserve_expiry {V : Type} (preserve_expiry : option bool)
    (self : QueryOptions V) : QueryOptions V :=
  self <| QueryOptions.preserve_expiry := preserve_expiry |>.

Definition query_options_pretty {V : Type} (pretty : option bool)
    (self : QueryOptions V) : QueryOptions V :=
  self <| QueryOptions.pretty := pretty |>.

Definition query_options_profile {V : Type} (profile : option ProfileMode.ProfileMode)
    (self : QueryOptions V) : QueryOptions V :=
  self <| QueryOptions.profile := profile |>.

Definition query_options_query_context {V : Type} (query_context : option string)
    (self : QueryOptions V) : QueryOptions V :=
  self <| QueryOptions.query_context := query_context |>.

Definition query_options_read_only {V : Type} (read_only : option bool)
    (self : QueryOptions V) : QueryOptions V :=
  self <| QueryOptions.read_only := read_only |>.

Definition query_options_scan_cap {V : Type} (scan_cap : option Z)
    (self : QueryOptions V) : QueryOptions V :=
  self <| QueryOptions.scan_cap := scan_cap |>.

Definition query_options_scan_consistency {V : Type}
    (scan_consistency : option ScanConsistency.ScanConsistency)
    (self : QueryOptions V) : QueryOptions V :=
  self <| QueryOptions.scan_consistency := scan_consistency |>.

Definition query_options_sparse_scan_vector {V : Type} (sparse_scan_vector : option
    (gmap string ScanVectorEntry)) (self : QueryOptions V) : QueryOptions V :=
  self <| QueryOptions.sparse_scan_vector := sparse_scan_vector |>.

Definition query_options_full_scan_vector {V : Type} (full_scan_vector : option
    (list ScanVectorEntry)) (self : QueryOptions V) : QueryOptions V :=
  self <| QueryOptions.full_scan_vector := full_scan_vector |>.

Definition query_options_sparse_scan_vectors {V : Type} (sparse_scan_vectors : option (gmap string
    (gmap string ScanVectorEntry))) (self : QueryOptions V) : QueryOptions V :=
  self <| QueryOptions.sparse_scan_vectors := sparse_scan_vectors |>.

Definition query_options_full_scan_vectors {V : Type} (full_scan_vectors : option (gmap string
    (list ScanVectorEntry))) (self : QueryOptions V) : QueryOptions V :=
  self <| QueryOptions.full_scan_vectors := full_scan_vectors |>.

Definition query_options_scan_wait {V : Type} (scan_wait : option Duration)
    (self : QueryOptions V) : QueryOptions V :=
  self <| QueryOptions.scan_wait := scan_wait |>.

Definition query_options_signature {V : Type} (signature : option bool)
    (self : QueryOptions V) : QueryOptions V :=
  self <| QueryOptions.signature := signature |>.

Definition query_options_statement {V : Type} (statement : option string)
    (self : QueryOptions V) : QueryOptions V :=
  self <| QueryOptions.statement := statement |>.

Definition query_options_timeout {V : Type} (timeout : option Duration)
    (self : QueryOptions V) : QueryOptions V :=
  self <| QueryOptions.timeout := timeout |>.

Definition query_options_tx_data {V : Type} (tx_data : option (list Z))
    (self : QueryOptions V) : QueryOptions V :=
  self <| QueryOptions.tx_data := tx_data |>.

Definition query_options_tx_id {V : Type} (tx_id : option string)
    (self : QueryOptions V) : QueryOptions V :=
  self <| QueryOptions.tx_id := tx_id |>.

Definition query_options_tx_implicit {V : Type} (tx_implicit : option bool)
    (self : QueryOptions V) : QueryOptions V :=
  self <| QueryOptions.tx_implicit := tx_implicit |>.

Definition query_options_tx_stmt_num {V : Type} (tx_stmt_num : option Z)
    (self : QueryOptions V) : QueryOptions V :=
  self <| QueryOptions.tx_stmt_num := tx_stmt_num |>.

Definition query_options_tx_timeout {V : Type} (tx_timeout : option Duration)
    (self : QueryOptions V) : QueryOptions V :=
  self <| QueryOptions.tx_timeout := tx_timeout |>.

Definition query_options_use_cbo {V : Type} (use_cbo : option bool)
    (self : QueryOptions V) : QueryOptions V :=
  self <| QueryOptions.use_cbo := use_cbo |>.

Definition query_options_use_fts {V : Type} (use_fts : option bool)
    (self : QueryOptions V) : QueryOptions V :=
  self <| QueryOptions.use_fts := use_fts |>.

Definition query_options_use_replica {V : Type} (use_replica : option ReplicaLevel.ReplicaLevel)
    (self : QueryOptions V) : QueryOptions V :=
  self <| QueryOptions.use_replica := use_replica |>.

Definition query_options_named_args {V : Type} (named_args : option (gmap string V))
    (self : QueryOptions V) : QueryOptions V :=
  self <| QueryOptions.named_args := named_args |>.

Definition query_options_raw {V : Type} (raw : option (gmap string V))
    (self : QueryOptions V) : QueryOptions V :=
  self <| QueryOptions.raw := raw |>.

Definition query_options_on_behalf_of {V : Type} (on_behalf_of : option OnBehalfOfInfo)
    (self : QueryOptions V) : QueryOptions V :=
  self <| QueryOptions.on_behalf_of := on_behalf_of |>.

Module GetAllIndexesOptions.
Record GetAllIndexesOptions : Type := mk {
  bucket_name : string;
  scope_name : option string;
  collection_name : option string;
  on_behalf_of : option OnBehalfOfInfo;
}.
End GetAllIndexesOptions.
Abbreviation GetAllIndexesOptions := GetAllIndexesOptions.GetAllIndexesOptions.
#[global] Instance get_all_indexes_options_settable : Settable (GetAllIndexesOptions) := λ r,
  GetAllIndexesOptions.mk (GetAllIndexesOptions.bucket_name r) (GetAllIndexesOptions.scope_name r)
    (GetAllIndexesOptions.collection_name r) (GetAllIndexesOptions.on_behalf_of r).

Definition get_all_indexes_options_new : GetAllIndexesOptions :=
  GetAllIndexesOptions.mk "" None None None.

Definition get_all_indexes_options_bucket_name (bucket_name : string)
    (self : GetAllIndexesOptions) : GetAllIndexesOptions :=
  self <| GetAllIndexesOptions.bucket_name := bucket_name |>.

Definition get_all_indexes_options_scope_name (scope_name : option string)
    (self : GetAllIndexesOptions) : GetAllIndexesOptions :=
  self <| GetAllIndexesOptions.scope_name := scope_name |>.

Definition get_all_indexes_options_collection_name (collection_name : option string)
    (self : GetAllIndexesOptions) : GetAllIndexesOptions :=
  self <| GetAllIndexesOptions.collection_name := collection_name |>.

Definition get_all_indexes_options_on_behalf_of (on_behalf_of : option OnBehalfOfInfo)
    (self : GetAllIndexesOptions) : GetAllIndexesOptions :=
  self <| GetAllIndexesOptions.on_behalf_of := on_behalf_of |>.

Module CreatePrimaryIndexOptions.
Record CreatePrimaryIndexOptions : Type := mk {
  bucket_name : string;
  scope_name : option string;
  collection_name : option string;
  index_name : option string;
  num_replicas : option Z;
  deferred : option bool;
  ignore_if_exists : option bool;
  on_behalf_of : option OnBehalfOfInfo;
}.
End CreatePrimaryIndexOptions.
Abbreviation CreatePrimaryIndexOptions := CreatePrimaryIndexOptions.CreatePrimaryIndexOptions.
#[global] Instance create_primary_index_options_settable : Settable
    (CreatePrimaryIndexOptions) := λ r,
  CreatePrimaryIndexOptions.mk (CreatePrimaryIndexOptions.bucket_name r)
    (CreatePrimaryIndexOptions.scope_name r) (CreatePrimaryIndexOptions.collection_name r)
    (CreatePrimaryIndexOptions.index_name r) (CreatePrimaryIndexOptions.num_replicas r)
    (CreatePrimaryIndexOptions.deferred r) (CreatePrimaryIndexOptions.ignore_if_exists r)
    (CreatePrimaryIndexOptions.on_behalf_of r).

Definition create_primary_index_options_new : CreatePrimaryIndexOptions :=
  CreatePrimaryIndexOptions.mk "" None None None None None None None.

Definition create_primary_index_options_bucket_name (bucket_name : string)
    (self : CreatePrimaryIndexOptions) : CreatePrimaryIndexOptions :=
  self <| CreatePrimaryIndexOptions.bucket_name := bucket_name |>.

Definition create_primary_index_options_scope_name (scope_name : option string)
    (self : CreatePrimaryIndexOptions) : CreatePrimaryIndexOptions :=
  self <| CreatePrimaryIndexOptions.scope_name := scope_name |>.

Definition create_primary_index_options_collection_name (collection_name : option string)
    (self : CreatePrimaryIndexOptions) : CreatePrimaryIndexOptions :=
  self <| CreatePrimaryIndexOptions.collection_name := collection_name |>.

Definition create_primary_index_options_index_name (index_name : option string)
    (self : CreatePrimaryIndexOptions) : CreatePrimaryIndexOptions :=
  self <| CreatePrimaryIndexOptions.index_name := index_name |>.

Definition create_primary_index_options_num_replicas (num_replicas : option Z)
    (self : CreatePrimaryIndexOptions) : CreatePrimaryIndexOptions :=
  self <| CreatePrimaryIndexOptions.num_replicas := num_replicas |>.

Definition create_primary_index_options_deferred (deferred : option bool)
    (self : CreatePrimaryIndexOptions) : CreatePrimaryIndexOptions :=
  self <| CreatePrimaryIndexOptions.deferred := deferred |>.

Definition create_primary_index_options_ignore_if_exists (ignore_if_exists : option bool)
    (self : CreatePrimaryIndexOptions) : CreatePrimaryIndexOptions :=
  self <| CreatePrimaryIndexOptions.ignore_if_exists := ignore_if_exists |>.

Definition create_primary_index_options_on_behalf_of (on_behalf_of : option OnBehalfOfInfo)
    (self : CreatePrimaryIndexOptions) : CreatePrimaryIndexOptions :=
  self <| CreatePrimaryIndexOptions.on_behalf_of := on_behalf_of |>.

Module CreateIndexOptions.
Record CreateIndexOptions : Type := mk {
  bucket_name : string;
  scope_name : option string;
  collection_name : option string;
  index_name : string;
  num_replicas : option Z;
  fields : list string;
  deferred : option bool;
  ignore_if_exists : option bool;
  on_behalf_of : option OnBehalfOfInfo;
}.
End CreateIndexOptions.
Abbreviation CreateIndexOptions := CreateIndexOptions.CreateIndexOptions.
#[global] Instance create_index_options_settable : Settable (CreateIndexOptions) := λ r,
  CreateIndexOptions.mk (CreateIndexOptions.bucket_name r) (CreateIndexOptions.scope_name r)
    (CreateIndexOptions.collection_name r) (CreateIndexOptions.index_name r)
    (CreateIndexOptions.num_replicas r) (CreateIndexOptions.fields r)
    (CreateIndexOptions.deferred r) (CreateIndexOptions.ignore_if_exists r)
    (CreateIndexOptions.on_behalf_of r).

Definition create_index_options_new : CreateIndexOptions :=
  CreateIndexOptions.mk "" None None "" None [] None None None.

Definition create_index_options_bucket_name (bucket_name : string)
    (self : CreateIndexOptions) : CreateIndexOptions :=
  self <| CreateIndexOptions.bucket_name := bucket_name |>.

Definition create_index_options_scope_name (scope_name : option string)
    (self : CreateIndexOptions) : CreateIndexOptions :=
  self <| CreateIndexOptions.scope_name := scope_name |>.

Definition create_index_options_collection_name (collection_name : option string)
    (self : CreateIndexOptions) : CreateIndexOptions :=
  self <| CreateIndexOptions.collection_name := collection_name |>.

Definition create_index_options_index_name (index_name : string)
    (self : CreateIndexOptions) : CreateIndexOptions :=
  self <| CreateIndexOptions.index_name := index_name |>.

Definition create_index_options_num_replicas (num_replicas : option Z)
    (self : CreateIndexOptions) : CreateIndexOptions :=
  self <| CreateIndexOptions.num_replicas := num_replicas |>.

Definition create_index_options_fields (fields : list string)
    (self : CreateIndexOptions) : CreateIndexOptions :=
  self <| CreateIndexOptions.fields := fields |>.

Definition create_index_options_deferred (deferred : option bool)
    (self : CreateIndexOptions) : CreateIndexOptions :=
  self <| CreateIndexOptions.deferred := deferred |>.

Definition create_index_options_ignore_if_exists (ignore_if_exists : option bool)
    (self : CreateIndexOptions) : CreateIndexOptions :=
  self <| CreateIndexOptions.ignore_if_exists := ignore_if_exists |>.

Definition create_index_options_on_behalf_of (on_behalf_of : option OnBehalfOfInfo)
    (self : CreateIndexOptions) : CreateIndexOptions :=
  self <| CreateIndexOptions.on_behalf_of := on_behalf_of |>.

Module DropPrimaryIndexOptions.
Record DropPrimaryIndexOptions : Type := mk {
  bucket_name : string;
  scope_name : option string;
  collection_name : option string;
  index_name : option string;
  ignore_if_not_exists : option bool;
  on_behalf_of : option OnBehalfOfInfo;
}.
End DropPrimaryIndexOptions.
Abbreviation DropPrimaryIndexOptions := DropPrimaryIndexOptions.DropPrimaryIndexOptions.
#[global] Instance drop_primary_index_options_settable : Settable (DropPrimaryIndexOptions) := λ r,
  DropPrimaryIndexOptions.mk (DropPrimaryIndexOptions.bucket_name r)
    (DropPrimaryIndexOptions.scope_name r) (DropPrimaryIndexOptions.collection_name r)
    (DropPrimaryIndexOptions.index_name r) (DropPrimaryIndexOptions.ignore_if_not_exists r)
    (DropPrimaryIndexOptions.on_behalf_of r).

Definition drop_primary_index_options_new : DropPrimaryIndexOptions :=
  DropPrimaryIndexOptions.mk "" None None None None None.

Definition drop_primary_index_options_bucket_name (bucket_name : string)
    (self : DropPrimaryIndexOptions) : DropPrimaryIndexOptions :=
  self <| DropPrimaryIndexOptions.bucket_name := bucket_name |>.

Definition drop_primary_index_options_scope_name (scope_name : option string)
    (self : DropPrimaryIndexOptions) : DropPrimaryIndexOptions :=
  self <| DropPrimaryIndexOptions.scope_name := scope_name |>.

Definition drop_primary_index_options_collection_name (collection_name : option string)
    (self : DropPrimaryIndexOptions) : DropPrimaryIndexOptions :=
  self <| DropPrimaryIndexOptions.collection_name := collection_name |>.

Definition drop_primary_index_options_index_name (index_name : option string)
    (self : DropPrimaryIndexOptions) : DropPrimaryIndexOptions :=
  self <| DropPrimaryIndexOptions.index_name := index_name |>.

Definition drop_primary_index_options_ignore_if_not_exists (ignore_if_not_exists : option bool)
    (self : DropPrimaryIndexOptions) : DropPrimaryIndexOptions :=
  self <| DropPrimaryIndexOptions.ignore_if_not_exists := ignore_if_not_exists |>.

Definition drop_primary_index_options_on_behalf_of (on_behalf_of : option OnBehalfOfInfo)
    (self : DropPrimaryIndexOptions) : DropPrimaryIndexOptions :=
  self <| DropPrimaryIndexOptions.on_behalf_of := on_behalf_of |>.

Module DropIndexOptions.
Record DropIndexOptions : Type := mk {
  bucket_name : string;
  scope_name : option string;
  collection_name : option string;
  index_name : string;
  ignore_if_not_exists : option bool;
  on_behalf_of : option OnBehalfOfInfo;
}.
End DropIndexOptions.
Abbreviation DropIndexOptions := DropIndexOptions.DropIndexOptions.
#[global] Instance drop_index_options_settable : Settable (DropIndexOptions) := λ r,
  DropIndexOptions.mk (DropIndexOptions.bucket_name r) (DropIndexOptions.scope_name r)
    (DropIndexOptions.collection_name r) (DropIndexOptions.index_name r)
    (DropIndexOptions.ignore_if_not_exists r) (DropIndexOptions.on_behalf_of r).

Definition drop_index_options_new : DropIndexOptions :=
  DropIndexOptions.mk "" None None "" None None.

Definition drop_index_options_bucket_name (bucket_name : string)
    (self : DropIndexOptions) : DropIndexOptions :=
  self <| DropIndexOptions.bucket_name := bucket_name |>.

Definition drop_index_options_scope_name (scope_name : option string)
    (self : DropIndexOptions) : DropIndexOptions :=
  self <| DropIndexOptions.scope_name := scope_name |>.

Definition drop_index_options_collection_name (collection_name : option string)
    (self : DropIndexOptions) : DropIndexOptions :=
  self <| DropIndexOptions.collection_name := collection_name |>.

Definition drop_index_options_index_name (index_name : string)
    (self : DropIndexOptions) : DropIndexOptions :=
  self <| DropIndexOptions.index_name := index_name |>.

Definition drop_index_options_ignore_if_not_exists (ignore_if_not_exists : option bool)
    (self : DropIndexOptions) : DropIndexOptions :=
  self <| DropIndexOptions.ignore_if_not_exists := ignore_if_not_exists |>.

Definition drop_index_options_on_behalf_of (on_behalf_of : option OnBehalfOfInfo)
    (self : DropIndexOptions) : DropIndexOptions :=
  self <| DropIndexOptions.on_behalf_of := on_behalf_of |>.

Module BuildDeferredIndexesOptions.
Record BuildDeferredIndexesOptions : Type := mk {
  bucket_name : string;
  scope_name : option string;
  collection_name : option string;
  on_behalf_of : option OnBehalfOfInfo;
}.
End BuildDeferredIndexesOptions.
Abbreviation BuildDeferredIndexesOptions := BuildDeferredIndexesOptions.BuildDeferredIndexesOptions.
#[global] Instance build_deferred_indexes_options_settable : Settable
    (BuildDeferredIndexesOptions) := λ r,
  BuildDeferredIndexesOptions.mk (BuildDeferredIndexesOptions.bucket_name r)
    (BuildDeferredIndexesOptions.scope_name r) (BuildDeferredIndexesOptions.collection_name r)
    (BuildDeferredIndexesOptions.on_behalf_of r).

Definition build_deferred_indexes_options_new : BuildDeferredIndexesOptions :=
  BuildDeferredIndexesOptions.mk "" None None None.

Definition build_deferred_indexes_options_bucket_name (bucket_name : string)
    (self : BuildDeferredIndexesOptions) : BuildDeferredIndexesOptions :=
  self <| BuildDeferredIndexesOptions.bucket_name := bucket_name |>.

Definition build_deferred_indexes_options_scope_name (scope_name : option string)
    (self : BuildDeferredIndexesOptions) : BuildDeferredIndexesOptions :=
  self <| BuildDeferredIndexesOptions.scope_name := scope_name |>.

Definition build_deferred_indexes_options_collection_name (collection_name : option string)
    (self : BuildDeferredIndexesOptions) : BuildDeferredIndexesOptions :=
  self <| BuildDeferredIndexesOptions.collection_name := collection_name |>.

Definition build_deferred_indexes_options_on_behalf_of (on_behalf_of : option OnBehalfOfInfo)
    (self : BuildDeferredIndexesOptions) : BuildDeferredIndexesOptions :=
  self <| BuildDeferredIndexesOptions.on_behalf_of := on_behalf_of |>.

Module WatchIndexesOptions.
Record WatchIndexesOptions : Type := mk {
  bucket_name : string;
  scope_name : option string;
  collection_name : option string;
  indexes : list string;
  watch_primary : option bool;
  on_behalf_of : option OnBehalfOfInfo;
}.
End WatchIndexesOptions.
Abbreviation WatchIndexesOptions := WatchIndexesOptions.WatchIndexesOptions.
#[global] Instance watch_indexes_options_settable : Settable (WatchIndexesOptions) := λ r,
  WatchIndexesOptions.mk (WatchIndexesOptions.bucket_name r) (WatchIndexesOptions.scope_name r)
    (WatchIndexesOptions.collection_name r) (WatchIndexesOptions.indexes r)
    (WatchIndexesOptions.watch_primary r) (WatchIndexesOptions.on_behalf_of r).

Definition watch_indexes_options_new : WatchIndexesOptions :=
  WatchIndexesOptions.mk "" None None [] None None.

Definition watch_indexes_options_bucket_name (bucket_name : string)
    (self : WatchIndexesOptions) : WatchIndexesOptions :=
  self <| WatchIndexesOptions.bucket_name := bucket_name |>.

Definition watch_indexes_options_scope_name (scope_name : option string)
    (self : WatchIndexesOptions) : WatchIndexesOptions :=
  self <| WatchIndexesOptions.scope_name := scope_name |>.

Definition watch_indexes_options_collection_name (collection_name : option string)
    (self : WatchIndexesOptions) : WatchIndexesOptions :=
  self <| WatchIndexesOptions.collection_name := collection_name |>.

Definition watch_indexes_options_indexes (indexes : list string)
    (self : WatchIndexesOptions) : WatchIndexesOptions :=
  self <| WatchIndexesOptions.indexes := indexes |>.

Definition watch_indexes_options_watch_primary (watch_primary : option bool)
    (self : WatchIndexesOptions) : WatchIndexesOptions :=
  self <| WatchIndexesOptions.watch_primary := watch_primary |>.

Definition watch_indexes_options_on_behalf_of (on_behalf_of : option OnBehalfOfInfo)
    (self : WatchIndexesOptions) : WatchIndexesOptions :=
  self <| WatchIndexesOptions.on_behalf_of := on_behalf_of |>.

Module PingOptions.
Record PingOptions : Type := mk {
  on_behalf_of : option OnBehalfOfInfo;
}.
End PingOptions.
Abbreviation PingOptions := PingOptions.PingOptions.
#[global] Instance ping_options_settable : Settable (PingOptions) := λ r,
  PingOptions.mk (PingOptions.on_behalf_of r).

Definition ping_options_new : PingOptions :=
  PingOptions.mk None.

Definition ping_options_on_behalf_of (on_behalf_of : option OnBehalfOfInfo)
    (self : PingOptions) : PingOptions :=
  self <| PingOptions.on_behalf_of := on_behalf_of |>.

(** ** The JSON of a query's options *)

Section Serialize.
Context {V : Type} `{JsonValue V}.

(** The names serde gives the variants. *)
Definition scan_consistency_json (x : ScanConsistency.ScanConsistency) : V :=
  json_string match x with
  | ScanConsistency.NotBounded => "not_bounded"
  | ScanConsistency.RequestPlus => "request_plus"
  | ScanConsistency.AtPlus => "at_plus"
  end.

Definition profile_mode_json (x : ProfileMode.ProfileMode) : V :=
  json_string match x with
  | ProfileMode.Off => "off"
  | ProfileMode.Phases => "phases"
  | ProfileMode.Timings => "timings"
  end.

Definition compression_json (x : Compression.Compression) : V :=
  json_string match x with
  | Compression.Zip => "ZIP"
  | Compression.Rle => "RLE"
  | Compression.Lzma => "LZMA"
  | Compression.Lzo => "LZO"
  | Compression.None_ => "NONE"
  end.

Definition query_durability_level_json (x : QueryDurabilityLevel.DurabilityLevel) : V :=
  json_string match x with
  | QueryDurabilityLevel.None_ => "none"
  | QueryDurabilityLevel.Majority => "majority"
  | QueryDurabilityLevel.MajorityAndPersistActive => "majorityAndPersistActive"
  | QueryDurabilityLevel.PersistToMajority => "persistToMajority"
  end.

Definition encoding_json (x : Encoding) : V := json_string "UTF-8".

Definition format_json (x : Format.Format) : V :=
  json_string match x with
  | Format.Json => "JSON"
  | Format.Xml => "XML"
  | Format.Csv => "CSV"
  | Format.Tsv => "TSV"
  end.

Definition replica_level_json (x : ReplicaLevel.ReplicaLevel) : V :=
  json_string match x with ReplicaLevel.Off => "off" | ReplicaLevel.On => "on" end.

(** Empty names are left out. *)
Definition creds_json (c : CredsJson) : V :=
  let entry name v := if bool_decide (v = ""%string) then [] else [(name, json_string v)] in
  json_object (entry "user"%string (creds_user c) ++ entry "pass"%string (creds_pass c)).

Definition scan_vector_entry_json (e : ScanVectorEntry) : V :=
  json_array [json_number (seq_no e); json_string (vb_uuid e)].

Definition sparse_scan_vector_json (m : gmap string ScanVectorEntry) : V :=
  json_object (prod_map id scan_vector_entry_json <$> map_to_list m).
Definition full_scan_vector_json (l : list ScanVectorEntry) : V := json_array (scan_vector_entry_json <$> l).
Definition sparse_scan_vectors_json (m : gmap string (gmap string ScanVectorEntry)) : V :=
  json_object (prod_map id sparse_scan_vector_json <$> map_to_list m).
Definition full_scan_vectors_json (m : gmap string (list ScanVectorEntry)) : V :=
  json_object (prod_map id full_scan_vector_json <$> map_to_list m).

(** [serialize_if_not_none!] and [serialize_duration_if_not_none!]. *)
Definition entry {E A} (f : A → V) (field : option A) (name : string) : outcome E (list (string * V)) :=
  Ok (match field with Some x => [(name, f x)] | None => [] end).

Definition duration_entry {E} (field : option Duration) (name : string) : outcome E (list (string * V)) :=
  match field with
  | Some d => text ← duration_to_golang_string d; Ok [(name, json_string (bytes_string text))]
  | None => Ok []
  end.

(** Named arguments are sent with a dollar sign, which the caller may have written. *)
Definition named_arg_key (k : string) : string :=
  if starts_with (str_bytes "$") (str_bytes k) then k else "$" +:+ k.

Definition named_arg_entries (m : option (gmap string V)) : list (string * V) :=
  match m with Some m => prod_map named_arg_key id <$> map_to_list m | None => [] end.

Definition raw_entries (m : option (gmap string V)) : list (string * V) :=
  match m with Some m => map_to_list m | None => [] end.

(** [Serialize for QueryOptions]: the entries in the order they are written. *)
Definition serialize_query_options {E} (o : QueryOptions V) : outcome E (list (string * V)) :=
  entries ← mapM (M := outcome E) id [
    entry json_array (QueryOptions.args o) "args";
    entry json_string (QueryOptions.atr_collection o) "atr_collection";
    entry json_bool (QueryOptions.auto_execute o) "auto_execute";
    entry json_string (QueryOptions.client_context_id o) "client_context_id";
    entry compression_json (QueryOptions.compression o) "compression";
    entry json_bool (QueryOptions.controls o) "controls";
    entry (λ l, json_array (creds_json <$> l)) (QueryOptions.creds o) "creds";
    entry query_durability_level_json (QueryOptions.durability_level o) "durability_level";
    entry json_string (QueryOptions.encoded_plan o) "encoded_plan";
    entry encoding_json (QueryOptions.encoding o) "encoding";
    entry format_json (QueryOptions.format o) "format";
    duration_entry (QueryOptions.kv_timeout o) "kvtimeout";
    entry json_number (QueryOptions.max_parallelism o) "max_parallelism";
    entry json_number (QueryOptions.memory_quota o) "memory_quota";
    entry json_bool (QueryOptions.metrics o) "metrics";
    entry json_string (QueryOptions.namespace o) "namespace";
    entry json_number (QueryOptions.num_atrs o) "num_atrs";
    entry json_number (QueryOptions.pipeline_batch o) "pipeline_batch";
    entry json_number (QueryOptions.pipeline_cap o) "pipeline_cap";
    entry json_string (QueryOptions.prepared o) "prepared";
    entry json_bool (QueryOptions.preserve_expiry o) "preserve_expiry";
    entry json_bool (QueryOptions.pretty o) "pretty";
    entry profile_mode_json (QueryOptions.profile o) "profile";
    entry json_string (QueryOptions.query_context o) "query_context";
    entry json_bool (QueryOptions.read_only o) "readonly";
    entry json_number (QueryOptions.scan_cap o) "scan_cap";
    entry scan_consistency_json (QueryOptions.scan_consistency o) "scan_consistency";
    entry sparse_scan_vector_json (QueryOptions.sparse_scan_vector o) "scan_vector";
    entry full_scan_vector_json (QueryOptions.full_scan_vector o) "scan_vector";
    entry sparse_scan_vectors_json (QueryOptions.sparse_scan_vectors o) "scan_vectors";
    entry full_scan_vectors_json (QueryOptions.full_scan_vectors o) "scan_vectors";
    duration_entry (QueryOptions.scan_wait o) "scan_wait";
    entry json_bool (QueryOptions.signature o) "signature";
    entry json_string (QueryOptions.statement o) "statement";
    duration_entry (QueryOptions.timeout o) "timeout";
    entry (λ l, json_array (json_number <$> l)) (QueryOptions.tx_data o) "txdata";
    entry json_string (QueryOptions.tx_id o) "txid";
    entry json_bool (QueryOptions.tx_implicit o) "tximplicit";
    entry json_number (QueryOptions.tx_stmt_num o) "txstmtnum";
    duration_entry (QueryOptions.tx_timeout o) "txtimeout";
    entry json_bool (QueryOptions.use_cbo o) "use_cbo";
    entry json_bool (QueryOptions.use_fts o) "use_fts";
    entry replica_level_json (QueryOptions.use_replica o) "use_replica"];
  Ok (concat entries ++ named_arg_entries (QueryOptions.named_args o) ++ raw_entries (QueryOptions.raw o)).

(** A [Map] the entries are inserted into: later ones replace earlier ones. *)
Definition insert_entries (entries : list (string * V)) (m : gmap string V) : gmap string V :=
  foldl (λ m '(k, v), <[k := v]> m) m entries.

(** [serde_json::to_value(opts)], an object. *)
Definition query_options_to_value {E} (o : QueryOptions V) : outcome E (gmap string V) :=
  entries ← serialize_query_options o;
  Ok (insert_entries entries ∅).

End Serialize.
