(* ===== verification/Query.v ===== *)
(** * The query client ([queryx/query.rs], [queryx/index.rs])

    [query] sends a query to one endpoint and gives the answer to a reader; the index
    operations are queries too, over texts they put together.

    Besides the parameters of the reader, [serde_json] encodes the request and the names
    in index queries, and a random identifier is asked of the state. *)

From S2P Require Import Prelude Text HttpxError Durations Wire CoreError Http QueryxError.
From S2P Require Import JsonScanner JsonDecoder RowStreamer QueryReader QueryxOptions.

(** ** Texts of statements *)

Definition dquote : string := String (Ascii.ascii_of_N 34) "".
Definition backslash : Ascii.ascii := Ascii.ascii_of_N 92.
Definition backquote : Ascii.ascii := Ascii.ascii_of_N 96.

(** [s.replace(c, r)] for a character. *)
Fixpoint replace_char (c : Ascii.ascii) (r : string) (s : string) : string :=
  match s with
  | "" => ""
  | String a s => if bool_decide (a = c) then r +:+ replace_char c r s else String a (replace_char c r s)
  end%string.

Definition encode_identifier (identifier : string) : string :=
  let out := replace_char backslash (String backslash (String backslash "")) identifier in
  let out := replace_char backquote (String backslash (String backquote "")) out in
  String backquote out +:+ String backquote "".

Definition normalise_default_name (name : string) : string :=
  if bool_decide (name = ""%string) then "_default" else name.

Definition build_keyspace (bucket_name : string) (scope_name collection_name : option string) : string :=
  match scope_name, collection_name with
  | Some scope, Some collection =>
      encode_identifier bucket_name +:+ "." +:+ encode_identifier scope +:+ "." +:+ encode_identifier collection
  | Some scope, None => encode_identifier bucket_name +:+ "." +:+ encode_identifier scope +:+ "._default"
  | None, Some collection => encode_identifier bucket_name +:+ "._default." +:+ encode_identifier collection
  | None, None => encode_identifier bucket_name
  end.

(** ** Indexes ([queryx/index.rs]) *)

Record Index : Type := mkIndex {
  ix_name : string;
  ix_using : string;
  ix_state : string;
  ix_is_primary : option bool;
  ix_keyspace_id : option string;
  ix_namespace_id : option string;
  ix_index_key : option (list string);
  ix_condition : option string;
  ix_partition : option string;
  ix_scope_id : option string;
  ix_bucket_id : option string;
}.

Definition index_to_namespace_parts (index : Index) : string * string * string :=
  match ix_bucket_id index with
  | None => (default ""%string (ix_keyspace_id index), "_default"%string, "_default"%string)
  | Some _ =>
      (default ""%string (ix_bucket_id index), default ""%string (ix_scope_id index),
       default ""%string (ix_keyspace_id index))
  end.

(** Every listed index is there and online. *)
Definition check_indexes_active (indexes : list Index) (check_list : list string) : bool :=
  let found := (λ name, snd <$> list_find (λ idx, ix_name idx = name) indexes) <$> check_list in
  match mapM (M := option) id found with
  | None => false
  | Some check_indexes => forallb (λ index, bool_decide (ix_state index = "online"%string)) check_indexes
  end.

(** ** The client of one endpoint *)

Record Query : Type := mkQuery {
  q_user_agent : string;
  q_endpoint : string;
  q_auth : Auth;
}.

Definition query_new_request (self : Query) (method : Method) (path content_type : string)
    (on_behalf_of : option OnBehalfOfInfo) (body : option (list Z)) : Request :=
  let auth :=
    match on_behalf_of with
    | Some obo => Auth.OnBehalfOf (mkOnBehalfOfInfo (obo_username obo) (obo_password_or_domain obo))
    | None => q_auth self
    end in
  request_body body (request_content_type (Some content_type) (request_user_agent (Some (q_user_agent self))
    (request_auth (Some auth) (request_new method (q_endpoint self +:+ "/" +:+ path))))).

Section QueryClient.
Context {P : Profile} {V : Type} `{JsonValue V} {S : Type} `{HttpClient S}.
Context (value_is : V → Z → bool) (regex_is_match : string → list Z → bool) (status_display : Z → string).
Context (from_slice_string : list Z → string + string) (from_slice_value : list Z → string + V)
  (to_vec : gmap string V → string + list Z)
  (from_slice_error_response : list Z → string + QueryErrorResponse V)
  (from_slice_early_metadata : list Z → string + QueryEarlyMetaData)
  (from_slice_metadata : list Z → string + QueryMetaData V)
  (from_slice_index : list Z → string + Index)
  (json_text : V → string + string).
Context (new_uuid : S → S * string).

Abbreviation Error := (Queryx.Error V).
Abbreviation Reader := (QueryRespReader V).
Abbreviation call := (io S Error).

Definition query_execute (self : Query) (method : Method) (path content_type : string)
    (on_behalf_of : option OnBehalfOfInfo) (body : option (list Z)) : io S HttpxError Response :=
  http_execute (query_new_request self method path content_type on_behalf_of body).

(** The JSON object of a request. *)
Definition query_object (opts : QueryOptions V) (client_context_id : string) : outcome Error (gmap string V) :=
  obj ← query_options_to_value opts;
  let obj :=
    match obj !! "client_context_id"%string with
    | None => <["client_context_id"%string := json_string client_context_id]> obj
    | Some _ => obj
    end in
  let obj := insert_entries (named_arg_entries (QueryOptions.named_args opts)) obj in
  Ok (insert_entries (raw_entries (QueryOptions.raw opts)) obj).

Definition query_body (opts : QueryOptions V) (client_context_id : string) : outcome Error (list Z) :=
  obj ← query_object opts client_context_id;
  match to_vec obj with
  | inl e => Err (Queryx.new_encoding_error ("failed to encode options: " +:+ e))
  | inr body => Ok body
  end.

Definition query (self : Query) (opts : QueryOptions V) : call Reader := λ s,
  let statement := default ""%string (QueryOptions.statement opts) in
  let '(s, client_context_id) :=
    match QueryOptions.client_context_id opts with Some id => (s, id) | None => new_uuid s end in
  (body ← io_lift (query_body opts client_context_id);
   res ← io_map_err
           (λ e, Queryx.new_http_error e (q_endpoint self) (Some statement) (Some client_context_id))
           (query_execute self POST "query/service" "application/json" (QueryOptions.on_behalf_of opts) (Some body));
   io_lift (query_resp_reader_new value_is regex_is_match status_display from_slice_string from_slice_value to_vec
              from_slice_error_response from_slice_early_metadata from_slice_metadata
              res (q_endpoint self) statement client_context_id)) s.

(** *** Indexes *)

Definition encode_value (value : V) : outcome Error string :=
  match json_text value with
  | inl e => Err (Queryx.new_message_error ("failed to encode value: " +:+ e) None None None)
  | inr text => Ok text
  end.

(** The condition on the keyspace. *)
Definition index_where_clause (opts : GetAllIndexesOptions) : outcome Error string :=
  let bucket_name := GetAllIndexesOptions.bucket_name opts in
  match GetAllIndexesOptions.collection_name opts, GetAllIndexesOptions.scope_name opts with
  | None, None =>
      if negb (bool_decide (bucket_name = ""%string)) then
        encoded_bucket ← encode_value (json_string bucket_name);
        Ok ("(keyspace_id=" +:+ encoded_bucket +:+ " AND bucket_id IS MISSING) OR bucket_id=" +:+ encoded_bucket)
      else Ok "1=1"%string
  | Some collection_name, Some scope_name =>
      let scope_name := normalise_default_name scope_name in
      let collection_name := normalise_default_name collection_name in
      encoded_bucket ← encode_value (json_string bucket_name);
      encoded_scope ← encode_value (json_string scope_name);
      encoded_collection ← encode_value (json_string collection_name);
      let temp_where := "bucket_id=" +:+ encoded_bucket +:+ " AND scope_id=" +:+ encoded_scope
                        +:+ " AND keyspace_id=" +:+ encoded_collection in
      Ok (if bool_decide (scope_name = "_default"%string) && bool_decide (collection_name = "_default"%string)
          then "(" +:+ temp_where +:+ ") OR (keyspace_id=" +:+ encoded_bucket +:+ " AND bucket_id IS MISSING)"
          else temp_where)
  | None, Some scope_name =>
      let scope_name := normalise_default_name scope_name in
      encoded_bucket ← encode_value (json_string bucket_name);
      encoded_scope ← encode_value (json_string scope_name);
      Ok ("bucket_id=" +:+ encoded_bucket +:+ " AND scope_id=" +:+ encoded_scope)
  | Some _, None =>
      Err (Queryx.new_invalid_argument_error "invalid combination of bucket, scope and collection" None)
  end.

Definition get_all_indexes_statement (opts : GetAllIndexesOptions) : outcome Error string :=
  where_clause ← index_where_clause opts;
  Ok ("SELECT `idx`.* FROM system:indexes AS idx WHERE (" +:+ where_clause +:+ ") AND `using`=" +:+ dquote
      +:+ "gsi" +:+ dquote +:+ " ORDER BY is_primary DESC, name ASC").

(** [QueryOptions::new().statement(qs).on_behalf_of(..)]. *)
Definition statement_options (qs : string) (on_behalf_of : option OnBehalfOfInfo) : QueryOptions V :=
  query_options_on_behalf_of on_behalf_of (query_options_statement (Some qs) query_options_new).

Abbreviation poll := (poll_next value_is regex_is_match from_slice_string from_slice_value to_vec from_slice_metadata).

(** The loop over the rows of an answer. *)
Fixpoint collect_indexes (fuel : nat) (res : Reader) : option (outcome Error (list Index)) :=
  match fuel with
  | O => None
  | Datatypes.S fuel =>
      match poll res with
      | (res, Some (Ok bytes)) =>
          match from_slice_index bytes with
          | inl e => Some (Err (Queryx.new_message_error ("failed to parse index from response: " +:+ e) None None None))
          | inr index => (λ r, indexes ← r; Ok (index :: indexes)) <$> collect_indexes fuel res
          end
      | (_, Some (Err e)) => Some (Err e)
      | (_, Some Panic) => Some Panic
      | (_, None) => Some (Ok [])
      end
  end.

(** Every row takes a byte of the text that is left. *)
Definition row_fuel (res : Reader) : nat := Datatypes.S (rounds (rd_streamer res)).

Definition get_all_indexes (self : Query) (opts : GetAllIndexesOptions) : call (list Index) :=
  qs ← io_lift (get_all_indexes_statement opts);
  res ← query self (statement_options qs (GetAllIndexesOptions.on_behalf_of opts));
  io_result (collect_indexes (row_fuel res) res).

(** The [WITH] clause of a new index. *)
Definition with_clause (deferred : option bool) (num_replicas : option Z) : outcome Error string :=
  let entries :=
    (match deferred with Some d => [("defer_build"%string, json_bool d)] | None => [] end)
    ++ (match num_replicas with Some n => [("num_replica"%string, json_number n)] | None => [] end) in
  match entries with
  | [] => Ok ""%string
  | _ => text ← encode_value (json_object entries); Ok (" WITH " +:+ text)
  end.

(** The result of a statement that creates an index. *)
Definition created_result (ignore_if_exists : option bool) (res : call Reader) : call unit := λ s,
  match res s with
  | (s, Some (Err e)) =>
      (s, Some (if Queryx.is_index_exists e then (if default false ignore_if_exists then Ok tt else Err e)
                else if Queryx.is_build_already_in_progress e then Ok tt
                else Err e))
  | (s, Some (Ok _)) => (s, Some (Ok tt))
  | (s, Some Panic) => (s, Some Panic)
  | (s, None) => (s, None)
  end.

(** And of one that drops an index. *)
Definition dropped_result (ignore_if_not_exists : option bool) (res : call Reader) : call unit := λ s,
  match res s with
  | (s, Some (Err e)) =>
      (s, Some (if Queryx.is_index_not_found e then (if default false ignore_if_not_exists then Ok tt else Err e)
                else Err e))
  | (s, Some (Ok _)) => (s, Some (Ok tt))
  | (s, Some Panic) => (s, Some Panic)
  | (s, None) => (s, None)
  end.

Definition create_primary_index_statement (opts : CreatePrimaryIndexOptions) : outcome Error string :=
  let keyspace := build_keyspace (CreatePrimaryIndexOptions.bucket_name opts)
                    (CreatePrimaryIndexOptions.scope_name opts) (CreatePrimaryIndexOptions.collection_name opts) in
  clause ← with_clause (CreatePrimaryIndexOptions.deferred opts) (CreatePrimaryIndexOptions.num_replicas opts);
  Ok ("CREATE PRIMARY INDEX"
      +:+ match CreatePrimaryIndexOptions.index_name opts with
          | Some index_name => " " +:+ encode_identifier index_name
          | None => ""
          end
      +:+ " ON " +:+ keyspace +:+ clause).

Definition create_primary_index (self : Query) (opts : CreatePrimaryIndexOptions) : call unit :=
  qs ← io_lift (create_primary_index_statement opts);
  created_result (CreatePrimaryIndexOptions.ignore_if_exists opts)
    (query self (statement_options qs (CreatePrimaryIndexOptions.on_behalf_of opts))).

Definition create_index_statement (opts : CreateIndexOptions) : outcome Error string :=
  let keyspace := build_keyspace (CreateIndexOptions.bucket_name opts) (CreateIndexOptions.scope_name opts)
                    (CreateIndexOptions.collection_name opts) in
  clause ← with_clause (CreateIndexOptions.deferred opts) (CreateIndexOptions.num_replicas opts);
  Ok ("CREATE INDEX " +:+ encode_identifier (CreateIndexOptions.index_name opts) +:+ " ON " +:+ keyspace
      +:+ " ( " +:+ join_commas (encode_identifier <$> CreateIndexOptions.fields opts) +:+ ")" +:+ clause).

Definition create_index (self : Query) (opts : CreateIndexOptions) : call unit :=
  qs ← io_lift (create_index_statement opts);
  created_result (CreateIndexOptions.ignore_if_exists opts)
    (query self (statement_options qs (CreateIndexOptions.on_behalf_of opts))).

(** The statement that drops a named index. *)
Definition drop_statement (bucket_name : string) (scope_name collection_name : option string) (index_name : string)
    : string :=
  let keyspace := build_keyspace bucket_name scope_name collection_name in
  if bool_decide (is_Some scope_name) || bool_decide (is_Some collection_name) then
    "DROP INDEX " +:+ encode_identifier index_name +:+ " ON " +:+ keyspace
  else "DROP INDEX " +:+ keyspace +:+ "." +:+ encode_identifier index_name.

Definition drop_primary_index (self : Query) (opts : DropPrimaryIndexOptions) : call unit :=
  let bucket_name := DropPrimaryIndexOptions.bucket_name opts in
  let scope_name := DropPrimaryIndexOptions.scope_name opts in
  let collection_name := DropPrimaryIndexOptions.collection_name opts in
  let qs :=
    match DropPrimaryIndexOptions.index_name opts with
    | Some index_name => drop_statement bucket_name scope_name collection_name index_name
    | None => "DROP PRIMARY INDEX ON " +:+ build_keyspace bucket_name scope_name collection_name
    end in
  dropped_result (DropPrimaryIndexOptions.ignore_if_not_exists opts)
    (query self (statement_options qs (DropPrimaryIndexOptions.on_behalf_of opts))).

Definition drop_index (self : Query) (opts : DropIndexOptions) : call unit :=
  let qs := drop_statement (DropIndexOptions.bucket_name opts) (DropIndexOptions.scope_name opts)
              (DropIndexOptions.collection_name opts) (DropIndexOptions.index_name opts) in
  dropped_result (DropIndexOptions.ignore_if_not_exists opts)
    (query self (statement_options qs (DropIndexOptions.on_behalf_of opts))).

(** The deferred indexes by keyspace, each list in the order of the answer. *)
Definition deferred_indexes (indexes : list Index) : gmap string (list string) :=
  foldl (λ m index,
    let '(bucket, scope, collection) := index_to_namespace_parts index in
    let keyspace := build_keyspace bucket (Some scope) (Some collection) in
    <[keyspace := default [] (m !! keyspace) ++ [ix_name index]]> m)
    ∅ (filter (λ index, ix_state index = "deferred"%string) indexes).

Definition build_statement (keyspace : string) (names : list string) : string :=
  "BUILD INDEX ON " +:+ keyspace +:+ "(" +:+ join_commas (encode_identifier <$> names) +:+ ")".

Fixpoint build_each (self : Query) (on_behalf_of : option OnBehalfOfInfo) (l : list (string * list string))
    : call unit :=
  match l with
  | [] => mret tt
  | (keyspace, names) :: l => λ s,
      match query self (statement_options (build_statement keyspace names) on_behalf_of) s with
      | (s, Some (Err e)) =>
          if Queryx.is_build_already_in_progress e then build_each self on_behalf_of l s else (s, Some (Err e))
      | (s, Some (Ok _)) => build_each self on_behalf_of l s
      | (s, Some Panic) => (s, Some Panic)
      | (s, None) => (s, None)
      end
  end.

Definition build_deferred_indexes (self : Query) (opts : BuildDeferredIndexesOptions) : call unit :=
  let obo := BuildDeferredIndexesOptions.on_behalf_of opts in
  indexes ← get_all_indexes self
    (GetAllIndexesOptions.mk (BuildDeferredIndexesOptions.bucket_name opts)
       (BuildDeferredIndexesOptions.scope_name opts) (BuildDeferredIndexesOptions.collection_name opts) obo);
  build_each self obo (map_to_list (deferred_indexes indexes)).

(** The loop of [watch_indexes] with its pauses in milliseconds; [None] when [fuel] rounds
    were not enough. *)
Fixpoint watch_loop (fuel : nat) (self : Query) (get : GetAllIndexesOptions) (watch_list : list string)
    (cur_interval : Z) (s : S) : S * list Z * option (outcome Error unit) :=
  match fuel with
  | O => (s, [], None)
  | Datatypes.S fuel =>
      match get_all_indexes self get s with
      | (s, Some (Ok indexes)) =>
          if check_indexes_active indexes watch_list then (s, [], Some (Ok tt))
          else
            let cur_interval := Z.min (cur_interval + 500) 1000 in
            let '(s, pauses, r) := watch_loop fuel self get watch_list cur_interval s in
            (s, cur_interval :: pauses, r)
      | (s, Some (Err e)) => (s, [], Some (Err e))
      | (s, Some Panic) => (s, [], Some Panic)
      | (s, None) => (s, [], None)
      end
  end.

Definition watch_indexes (fuel : nat) (self : Query) (opts : WatchIndexesOptions) (s : S)
    : S * list Z * option (outcome Error unit) :=
  let watch_list :=
    WatchIndexesOptions.indexes opts
    ++ (if default false (WatchIndexesOptions.watch_primary opts) then ["#primary"%string] else []) in
  watch_loop fuel self
    (GetAllIndexesOptions.mk (WatchIndexesOptions.bucket_name opts) (WatchIndexesOptions.scope_name opts)
       (WatchIndexesOptions.collection_name opts) (WatchIndexesOptions.on_behalf_of opts))
    watch_list 50 s.

(** [res.status().is_success()]. *)
Definition query_ping (self : Query) (opts : PingOptions) : call unit :=
  res ← io_map_err (λ e, Queryx.new_http_error e (q_endpoint self) None None)
          (query_execute self GET "admin/ping" "" (PingOptions.on_behalf_of opts) None);
  if (200 <=? resp_status res) && (resp_status res <? 300) then mret tt
  else io_fail (Queryx.new_message_error ("ping failed with status code: " +:+ status_display (resp_status res))
                  (Some (q_endpoint self)) None None).

End QueryClient.

(** ** Theorems: names in statements

    A reader of quoted identifiers: a backslash takes the next character as it is, a
    backquote ends the name. *)

Fixpoint read_body (s : string) : option (string * string) :=
  match s with
  | "" => None
  | String c s =>
      if bool_decide (c = backquote) then Some (""%string, s)
      else if bool_decide (c = backslash) then
        match s with
        | "" => None
        | String d s => prod_map (String d) id <$> read_body s
        end
      else prod_map (String c) id <$> read_body s
  end%string.

Definition read_identifier (s : string) : option (string * string) :=
  match s with
  | "" => None
  | String c s => if bool_decide (c = backquote) then read_body s else None
  end%string.

(** [n + 1] identifiers with [sep] between them. *)
Fixpoint read_names (sep : Ascii.ascii) (n : nat) (s : string) : option (list string * string) :=
  '(name, s) ← read_identifier s;
  match n with
  | O => Some ([name], s)
  | S n =>
      match s with
      | "" => None
      | String c s => if bool_decide (c = sep) then prod_map (cons name) id <$> read_names sep n s else None
      end%string
  end.

(** Both replacements at once. *)
Fixpoint escape (s : string) : string :=
  match s with
  | "" => ""
  | String c s =>
      if bool_decide (c = backslash) then String backslash (String backslash (escape s))
      else if bool_decide (c = backquote) then String backslash (String backquote (escape s))
      else String c (escape s)
  end%string.

Lemma app_two a b x : String a (String b "") +:+ x = String a (String b x).
Proof. done. Qed.

Lemma escape_replaces s :
  replace_char backquote (String backslash (String backquote ""))
    (replace_char backslash (String backslash (String backslash "")) s) = escape s.
Proof.
  induction s as [|c s IH]; [done|]. cbn [replace_char escape].
  destruct (decide (c = backslash)) as [->|Hb].
  - rewrite !bool_decide_true by done. rewrite app_two. cbn [replace_char].
    rewrite !(bool_decide_false (backslash = backquote)) by done. by rewrite IH.
  - rewrite !(bool_decide_false (c = backslash)) by done. cbn [replace_char].
    destruct (bool_decide (c = backquote)); [rewrite app_two|]; by rewrite IH.
Qed.

Lemma read_escape s rest : read_body (escape s +:+ String backquote rest) = Some (s, rest).
Proof.
  induction s as [|c s IH]; [done|]. cbn [escape].
  destruct (decide (c = backslash)) as [->|Hb]; [|destruct (decide (c = backquote)) as [->|Hq]].
  - rewrite bool_decide_true by done.
    rewrite !app_cons. cbn [read_body]. rewrite bool_decide_false, bool_decide_true by done. by rewrite IH.
  - rewrite bool_decide_false, bool_decide_true by done.
    rewrite !app_cons. cbn [read_body]. rewrite bool_decide_false, bool_decide_true by done. by rewrite IH.
  - rewrite !bool_decide_false by done. rewrite !app_cons. cbn [read_body].
    rewrite !bool_decide_false by done. by rewrite IH.
Qed.

Lemma read_encoded s rest : read_identifier (encode_identifier s +:+ rest) = Some (s, rest).
Proof.
  unfold encode_identifier. rewrite escape_replaces.
  rewrite !app_cons, string_app_assoc.
  unfold read_identifier. rewrite bool_decide_true by done. apply read_escape.
Qed.

Definition dot : Ascii.ascii := Ascii.ascii_of_N 46.
Definition comma : Ascii.ascii := Ascii.ascii_of_N 44.

Lemma read_names_app sep name n s rest :
  read_names sep (S n) (encode_identifier name +:+ (String sep s +:+ rest))
  = prod_map (cons name) id <$> read_names sep n (s +:+ rest).
Proof. rewrite app_cons. cbn [read_names]. rewrite read_encoded. cbn. by rewrite bool_decide_true. Qed.

Lemma read_names_sep sep name n rest :
  read_names sep (S n) (encode_identifier name +:+ (String sep "" +:+ rest))
  = prod_map (cons name) id <$> read_names sep n rest.
Proof. apply (read_names_app sep name n "" rest). Qed.

Lemma read_last_name sep name rest : read_names sep 0 (encode_identifier name +:+ rest) = Some ([name], rest).
Proof. cbn [read_names]. by rewrite read_encoded. Qed.


(** ** Theorems: what a query sends *)

Section Objects.
Context {P : Profile} {V : Type} `{JsonValue V}.
Implicit Types (m : gmap string V) (l : list (string * V)).

Lemma insert_entries_app l1 l2 m : insert_entries (l1 ++ l2) m = insert_entries l2 (insert_entries l1 m).
Proof. apply foldl_app. Qed.

Lemma insert_entries_cons k v l m : insert_entries ((k, v) :: l) m = insert_entries l (<[k:=v]> m).
Proof. done. Qed.

Lemma insert_entries_other k l m : k ∉ l.*1 → insert_entries l m !! k = m !! k.
Proof.
  revert m. induction l as [|[k' v] l IH]; intros m Hk; [done|]. rewrite fmap_cons in Hk.
  apply not_elem_of_cons in Hk as [Hk Hl]. rewrite insert_entries_cons, IH by done. by rewrite lookup_insert_ne.
Qed.

(** The entry of a key, whose entries after it have other keys. *)
Lemma insert_entries_last k v l1 l2 m :
  k ∉ l2.*1 → insert_entries (l1 ++ (k, v) :: l2) m !! k = Some v.
Proof.
  intros Hk. rewrite insert_entries_app, insert_entries_cons, insert_entries_other by done. by rewrite lookup_insert_eq.
Qed.

Lemma insert_map_entries k v (r : gmap string V) m : r !! k = Some v → insert_entries (map_to_list r) m !! k = Some v.
Proof.
  intros Hv. apply elem_of_map_to_list in Hv. apply list_elem_of_split in Hv as (l1 & l2 & Hl). rewrite Hl.
  apply insert_entries_last. pose proof (NoDup_fst_map_to_list r) as Hnd. rewrite Hl, fmap_app in Hnd.
  apply list.NoDup_app in Hnd as (_ & _ & Hnd). rewrite fmap_cons in Hnd. by apply list.NoDup_cons in Hnd as [? _].
Qed.

Lemma insert_entries_keeps k l m : is_Some (m !! k) → is_Some (insert_entries l m !! k).
Proof.
  revert m. induction l as [|[k' v] l IH]; intros m Hk; [done|]. rewrite insert_entries_cons. apply IH.
  destruct (decide (k' = k)) as [->|Hne]; [rewrite lookup_insert_eq; by eexists|by rewrite lookup_insert_ne].
Qed.

(** *** The fields *)

(** The entries of a duration, without the error no duration gives. *)
Definition duration_entries (field : option Duration) (name : string) : list (string * V) :=
  match field with
  | Some d => [(name, json_string (bytes_string (duration_text (d mod 2 ^ 64))))]
  | None => []
  end.

Definition some_entry {A} (f : A → V) (field : option A) (name : string) : list (string * V) :=
  match field with Some x => [(name, f x)] | None => [] end.

Lemma duration_entry_ok {E} field name : duration_entry (E:=E) field name = Ok (duration_entries field name).
Proof.
  destruct field as [d|]; [|done]. unfold duration_entry, duration_entries.
  assert (duration_to_golang_string (E:=E) d = Ok (duration_text (d mod 2 ^ 64))) as ->; [|done].
  rewrite <- (Z.mod_mod d (2 ^ 64)) by lia. rewrite <- duration_prints by (apply Z.mod_pos_bound; lia).
  unfold duration_to_golang_string, cast_u. by rewrite Z.mod_mod by lia.
Qed.

Lemma some_entry_other {A} k (f : A → V) field name m :
  name ≠ k → insert_entries (some_entry f field name) m !! k = m !! k.
Proof. intros Hk. apply insert_entries_other. destruct field; set_solver. Qed.

Lemma duration_entries_other k field name m :
  name ≠ k → insert_entries (duration_entries field name) m !! k = m !! k.
Proof. intros Hk. apply insert_entries_other. destruct field; set_solver. Qed.

Lemma some_entry_this {A} (f : A → V) field name m :
  m !! name = None → insert_entries (some_entry f field name) m !! name = f <$> field.
Proof. intros Hm. destruct field; cbn; [by rewrite lookup_insert_eq|done]. Qed.

(** What the entries of the fields come to, for the fields a query is told apart by. *)
Definition fields_ok (o : QueryOptions V) (fields : list (string * V)) : Prop :=
  let at_key k := insert_entries fields ∅ !! k in
  Forall (λ k, starts_with (str_bytes "$") (str_bytes k) = false) fields.*1
  ∧ at_key "statement"%string = json_string <$> QueryOptions.statement o
  ∧ at_key "prepared"%string = json_string <$> QueryOptions.prepared o
  ∧ at_key "auto_execute"%string = json_bool <$> QueryOptions.auto_execute o
  ∧ at_key "readonly"%string = json_bool <$> QueryOptions.read_only o
  ∧ at_key "query_context"%string = json_string <$> QueryOptions.query_context o
  ∧ at_key "client_context_id"%string = json_string <$> QueryOptions.client_context_id o
  ∧ at_key "timeout"%string
    = (λ d, json_string (bytes_string (duration_text (d mod 2 ^ 64)))) <$> QueryOptions.timeout o.

Lemma entry_ok {E A} (f : A → V) field name : entry (E:=E) f field name = Ok (some_entry f field name).
Proof. done. Qed.

Lemma duration_entries_this field name m :
  m !! name = None → insert_entries (duration_entries field name) m !! name
    = (λ d, json_string (bytes_string (duration_text (d mod 2 ^ 64)))) <$> field.
Proof. intros Hm. destruct field; cbn; [by rewrite lookup_insert_eq|done]. Qed.

Lemma concat_insert (L : list (list (string * V))) m :
  insert_entries (concat L) m = foldl (λ m l, insert_entries l m) m L.
Proof. revert m. induction L as [|l L IH]; intros m; [done|].
  change (concat (l :: L)) with (l ++ concat L). by rewrite insert_entries_app, IH. Qed.

Lemma some_entry_keys {A} (f : A → V) field name :
  starts_with (str_bytes "$") (str_bytes name) = false →
  Forall (λ k, starts_with (str_bytes "$") (str_bytes k) = false) (some_entry f field name).*1.
Proof. intros Hn. destruct field; repeat constructor. done. Qed.

Lemma duration_entries_keys field name :
  starts_with (str_bytes "$") (str_bytes name) = false →
  Forall (λ k, starts_with (str_bytes "$") (str_bytes k) = false) (duration_entries field name).*1.
Proof. intros Hn. destruct field; repeat constructor. done. Qed.

Ltac peel_rest := repeat first [rewrite some_entry_other by done | rewrite duration_entries_other by done].
Ltac peel_entries :=
  rewrite concat_insert; cbn [foldl];
  peel_rest.

Lemma serialize_ok {E} (o : QueryOptions V) :
  ∃ fields, serialize_query_options (E:=E) o
    = Ok (fields ++ named_arg_entries (QueryOptions.named_args o) ++ raw_entries (QueryOptions.raw o))
  ∧ fields_ok o fields.
Proof.
  unfold serialize_query_options. rewrite !duration_entry_ok, !entry_ok.
  eexists. split; [reflexivity|]. unfold fields_ok. split.
  { rewrite list.Forall_fmap, List.Forall_concat.
    repeat (apply list.Forall_cons_2; [apply list.Forall_fmap; first [by apply some_entry_keys | by apply duration_entries_keys]|]).
    apply list.Forall_nil_2. }
  split_and!; peel_entries; rewrite ?some_entry_this, ?duration_entries_this; peel_rest; done.
Qed.

Lemma insert_entries_in k l m : k ∈ l.*1 → ∃ v, (k, v) ∈ l ∧ insert_entries l m !! k = Some v.
Proof.
  revert m. induction l as [|[k' v] l IH] using rev_ind; intros m Hk; [by apply elem_of_nil in Hk|].
  rewrite insert_entries_app. cbn. destruct (decide (k' = k)) as [->|Hne].
  - exists v. rewrite lookup_insert_eq. set_solver.
  - rewrite fmap_app in Hk. apply elem_of_app in Hk as [Hk|Hk]; [|set_solver].
    destruct (IH m Hk) as (w & Hw & Hm). exists w. rewrite lookup_insert_ne by done. set_solver.
Qed.

(** The caller's raw options have no entry of this name. *)
Definition not_raw (o : QueryOptions V) (k : string) : Prop := k ∉ (raw_entries (QueryOptions.raw o)).*1.

Lemma named_args_start k (m : option (gmap string V)) :
  k ∈ (named_arg_entries m).*1 → starts_with (str_bytes "$") (str_bytes k) = true.
Proof.
  destruct m as [m|]; [|by intros Hk%elem_of_nil]. cbn. intros Hk.
  apply list_elem_of_fmap in Hk as ([k' v] & -> & Hk). apply list_elem_of_fmap in Hk as ([k2 v2] & [= -> ->] & _).
  unfold named_arg_key. destruct (starts_with _ (str_bytes k2)) eqn:Hs; [done|]. by vm_compute (str_bytes "$").
Qed.

Lemma named_arg_entry k v (m : option (gmap string V)) :
  (k, v) ∈ named_arg_entries m ↔ ∃ args k', m = Some args ∧ args !! k' = Some v ∧ named_arg_key k' = k.
Proof.
  destruct m as [m|]; cbn; [|set_solver]. rewrite list_elem_of_fmap. split.
  - intros ([k' v'] & [= -> ->] & Hin). apply elem_of_map_to_list in Hin. eauto.
  - intros (args & k' & [= ->] & Hv & <-). exists (k', v). split; [done|]. by apply elem_of_map_to_list.
Qed.

(** What becomes of the four layers of the object, for a name of an option. *)
Lemma object_plain fields o obj k :
  Forall (λ k, starts_with (str_bytes "$") (str_bytes k) = false) fields.*1 →
  starts_with (str_bytes "$") (str_bytes k) = false → not_raw o k →
  insert_entries (raw_entries (QueryOptions.raw o))
    (insert_entries (named_arg_entries (QueryOptions.named_args o)) obj) !! k = obj !! k
  ∧ insert_entries (fields ++ named_arg_entries (QueryOptions.named_args o) ++ raw_entries (QueryOptions.raw o)) ∅ !! k
    = insert_entries fields ∅ !! k.
Proof.
  intros Hf Hk Hr.
  assert (k ∉ (named_arg_entries (QueryOptions.named_args o)).*1) as Hn.
  { intros Hin%named_args_start. congruence. }
  rewrite !insert_entries_app. by rewrite !(insert_entries_other k) by done.
Qed.

(** The object of a query, whatever the options. *)
Definition object_of (o : QueryOptions V) (id : string) (obj : gmap string V) : Prop :=
  (∀ r k v, QueryOptions.raw o = Some r → r !! k = Some v → obj !! k = Some v)
  ∧ (∀ args k v, QueryOptions.named_args o = Some args → args !! k = Some v → not_raw o (named_arg_key k) →
      ∃ k' v', args !! k' = Some v' ∧ named_arg_key k' = named_arg_key k ∧ obj !! named_arg_key k = Some v')
  ∧ (not_raw o "client_context_id" →
      obj !! "client_context_id"%string = Some (json_string (default id (QueryOptions.client_context_id o))))
  ∧ (not_raw o "statement" → obj !! "statement"%string = json_string <$> QueryOptions.statement o)
  ∧ (not_raw o "prepared" → obj !! "prepared"%string = json_string <$> QueryOptions.prepared o)
  ∧ (not_raw o "auto_execute" → obj !! "auto_execute"%string = json_bool <$> QueryOptions.auto_execute o)
  ∧ (not_raw o "readonly" → obj !! "readonly"%string = json_bool <$> QueryOptions.read_only o)
  ∧ (not_raw o "query_context" → obj !! "query_context"%string = json_string <$> QueryOptions.query_context o)
  ∧ (not_raw o "timeout" → obj !! "timeout"%string
      = (λ d, json_string (bytes_string (duration_text (d mod 2 ^ 64)))) <$> QueryOptions.timeout o).

Lemma query_object_ok (o : QueryOptions V) id : ∃ obj, query_object o id = Ok obj ∧ object_of o id obj.
Proof.
  unfold query_object, query_options_to_value.
  destruct (serialize_ok (E:=Queryx.Error V) o) as (fields & -> & Hf & Hst & Hpr & Hae & Hro & Hqc & Hid & Hto).
  cbn -[starts_with str_bytes]. eexists. split; [reflexivity|].
  set (m0 := insert_entries _ ∅). set (m1 := match m0 !! _ with Some _ => m0 | None => _ end).
  assert (∀ k v0, k ≠ "client_context_id"%string → starts_with (str_bytes "$") (str_bytes k) = false →
    insert_entries fields ∅ !! k = v0 → not_raw o k →
    insert_entries (raw_entries (QueryOptions.raw o))
      (insert_entries (named_arg_entries (QueryOptions.named_args o)) m1) !! k = v0) as Hplain.
  { intros k v0 Hne Hk Hv Hr. destruct (object_plain fields o m1 k Hf Hk Hr) as [-> Hm].
    rewrite <- Hv, <- Hm. unfold m1. destruct (m0 !! _); [done|]. by rewrite lookup_insert_ne. }
  unfold object_of. split_and!; try (by apply Hplain).
  - intros r k v Hr Hv. unfold raw_entries. rewrite Hr. by apply insert_map_entries.
  - intros args k v Ha Hv Hr. rewrite insert_entries_other by done.
    destruct (insert_entries_in (named_arg_key k) (named_arg_entries (QueryOptions.named_args o)) m1) as (v' & Hin & Hm).
    { apply list_elem_of_fmap. exists (named_arg_key k, v). split; [done|]. apply named_arg_entry. by exists args, k. }
    apply named_arg_entry in Hin as (args' & k' & Ha' & Hv' & Hk'). rewrite Ha in Ha'. injection Ha' as <-. by exists k', v'.
  - intros Hr. destruct (object_plain fields o m1 "client_context_id" Hf eq_refl Hr) as [-> Hm].
    fold m0 in Hm. unfold m1. rewrite Hm, Hid.
    destruct (QueryOptions.client_context_id o) as [c|]; cbn; [by rewrite Hm, Hid|by rewrite lookup_insert_eq].
Qed.

(** The request of a query can always be put together.  A raw option of the caller replaces
    any other entry of its name; a named argument is sent under its name with a dollar sign and
    never replaces an option; the identifier of the request is the caller's or the fresh one; and
    the statement, the plan, auto_execute, readonly, the context and the timeout are sent as they
    were given, and not at all when they were not. *)
Lemma query_object_spec (o : QueryOptions V) id :
  ∃ obj, query_object o id = Ok obj ∧ object_of o id obj
    ∧ ∀ args k v, QueryOptions.named_args o = Some args → args !! k = Some v → not_raw o (named_arg_key k) →
        (∀ k', named_arg_key k' = named_arg_key k → is_Some (args !! k') → k' = k) →
        obj !! named_arg_key k = Some v.
Proof.
  destruct (query_object_ok o id) as (obj & Hq & Ho). exists obj. split; [done|]. split; [done|].
  intros args k v Ha Hv Hr Hu. destruct Ho as (_ & Ho & _).
  destruct (Ho args k v Ha Hv Hr) as (k' & v' & Hv' & Hk' & ->).
  rewrite (Hu k' Hk' (mk_is_Some _ _ Hv')) in Hv'. congruence.
Qed.
End Objects.

(** ** Theorems: indexes *)

(** Equal keyspaces have equal names. *)
Lemma build_keyspace_inj b1 s1 c1 b2 s2 c2 :
  build_keyspace b1 (Some s1) (Some c1) = build_keyspace b2 (Some s2) (Some c2) → b1 = b2 ∧ s1 = s2 ∧ c1 = c2.
Proof.
  intros Heq.
  assert (∀ b s c, read_names dot 2 (build_keyspace b (Some s) (Some c) +:+ "") = Some ([b; s; c], ""%string)) as Hr.
  { intros b s c. unfold build_keyspace. rewrite !string_app_assoc. change "."%string with (String dot "").
    by rewrite !read_names_sep, read_last_name. }
  pose proof (Hr b1 s1 c1) as H1. rewrite Heq, Hr in H1. by simplify_eq.
Qed.

Definition keyspace_of (index : Index) : string :=
  let '(b, s, c) := index_to_namespace_parts index in build_keyspace b (Some s) (Some c).

Definition deferred_of (k : string) (indexes : list Index) : list Index :=
  filter (λ i, ix_state i = "deferred"%string ∧ keyspace_of i = k) indexes.

Lemma deferred_fold (l : list Index) (m : gmap string (list string)) k :
  foldl (λ m index,
    let '(bucket, scope, collection) := index_to_namespace_parts index in
    let keyspace := build_keyspace bucket (Some scope) (Some collection) in
    <[keyspace := default [] (m !! keyspace) ++ [ix_name index]]> m) m l !! k
  = match filter (λ i, keyspace_of i = k) l with
    | [] => m !! k
    | l => Some (default [] (m !! k) ++ (ix_name <$> l))
    end.
Proof.
  revert m. induction l as [|i l IH]; intros m; [done|]. cbn [foldl]. rewrite IH.
  assert (∀ A (f : string → A), (let '(b, s, c) := index_to_namespace_parts i in f (build_keyspace b (Some s) (Some c)))
            = f (keyspace_of i)) as Hk.
  { intros A f. unfold keyspace_of. by destruct (index_to_namespace_parts i) as [[b s] c]. }
  rewrite (Hk _ (λ ks, <[ks := default [] (m !! ks) ++ [ix_name i]]> m)).
  destruct (decide (keyspace_of i = k)) as [<-|Hne].
  - rewrite lookup_insert_eq, (filter_cons_True _ i) by done. cbn [default].
    destruct (filter _ l) as [|j l']; [done|]. cbn. by rewrite <- app_assoc.
  - rewrite lookup_insert_ne by done. by rewrite (filter_cons_False _ i) by done.
Qed.

Lemma deferred_lookup indexes k :
  deferred_indexes indexes !! k
  = match deferred_of k indexes with [] => None | l => Some (ix_name <$> l) end.
Proof.
  unfold deferred_indexes. rewrite deferred_fold, lookup_empty, list_filter_filter. unfold deferred_of.
  by rewrite (list_filter_iff _ (λ i, ix_state i = "deferred"%string ∧ keyspace_of i = k)) by (intros; tauto).
Qed.

(** Building the deferred indexes builds each of them, once, in its own collection and in
    the order of the answer: the list of a keyspace has the names of the deferred indexes
    of exactly this bucket, scope and collection, whatever characters are in the names, and
    no other keyspace gets a statement. *)
Lemma deferred_indexes_by_collection indexes :
  (∀ bucket scope collection,
     deferred_indexes indexes !! build_keyspace bucket (Some scope) (Some collection)
     = match filter (λ i, ix_state i = "deferred"%string
                          ∧ index_to_namespace_parts i = (bucket, scope, collection)) indexes with
       | [] => None
       | l => Some (ix_name <$> l)
       end)
  ∧ ∀ keyspace names, deferred_indexes indexes !! keyspace = Some names →
      ∃ bucket scope collection, keyspace = build_keyspace bucket (Some scope) (Some collection).
Proof.
  split.
  - intros b s c. rewrite deferred_lookup. unfold deferred_of.
    rewrite (list_filter_iff _ (λ i, ix_state i = "deferred"%string ∧ index_to_namespace_parts i = (b, s, c))); [done|].
    intros i. apply and_iff_compat_l. unfold keyspace_of. destruct (index_to_namespace_parts i) as [[b' s'] c'].
    split; [|congruence]. intros (-> & -> & ->)%build_keyspace_inj. done.
  - intros k names. rewrite deferred_lookup. destruct (deferred_of k indexes) as [|i l] eqn:Hl; [done|]. intros _.
    assert (i ∈ deferred_of k indexes) as Hi by (rewrite Hl; left).
    unfold deferred_of in Hi. apply list_elem_of_filter in Hi as [[_ <-] _]. unfold keyspace_of.
    destruct (index_to_namespace_parts i) as [[b s] c]. eauto.
Qed.
