(* ===== verification/PreparedQuery.v ===== *)
(** * Prepared queries ([queryx/preparedquery.rs])

    A prepared query goes through a cache of statements that all calls share: it first runs
    the plan of the statement when there is one, and prepares it otherwise.  The client that
    sends the queries is the parameter [executor]. *)

From S2P Require Import Prelude Text HttpxError Durations Wire CoreError Http QueryxError.
From S2P Require Import JsonScanner JsonDecoder RowStreamer QueryReader QueryxOptions Query.

(** ** Definitions *)

Section Prepared.
Context {V : Type} {S : Type}.
Abbreviation call := (io S (Queryx.Error V)).
Abbreviation Reader := (QueryRespReader V).
Context (cache : S → gmap string string) (set_cache : gmap string string → S → S).

Definition cache_get (statement : string) (s : S) : option string := cache s !! statement.
Definition cache_put (statement prepared_name : string) (s : S) : S :=
  set_cache (<[statement := prepared_name]> (cache s)) s.

Definition set_prepared (o : QueryOptions V) (statement prepared : option string) (auto_execute : option bool)
    : QueryOptions V :=
  o <| QueryOptions.statement := statement |> <| QueryOptions.prepared := prepared |>
    <| QueryOptions.auto_execute := auto_execute |>.

(** The options of the first attempt, with the cached plan, and of the second. *)
Definition cached_options (opts : QueryOptions V) (cached_statement : string) : QueryOptions V :=
  set_prepared opts None (Some cached_statement) (QueryOptions.auto_execute opts).
Definition prepare_options (opts : QueryOptions V) (statement : string) (prepared : option string)
    : QueryOptions V :=
  set_prepared opts (Some ("PREPARE " +:+ statement)) prepared (Some true).

(** The second part: the statement is prepared, and its plan kept.  [opts] has the cached
    plan of the first part when there was one. *)
Definition prepare_and_run (executor : QueryOptions V → call Reader) (opts : QueryOptions V) (statement : string)
    : call Reader := λ s,
  match executor (prepare_options opts statement (QueryOptions.prepared opts)) s with
  | (s, Some (Ok res)) =>
      (match em_prepared (early_metadata res) with
       | Some prepared => cache_put statement prepared s
       | None => s
       end, Some (Ok res))
  | r => r
  end.

Definition prepared_query (executor : QueryOptions V → call Reader) (opts : QueryOptions V) : call Reader := λ s,
  if default false (QueryOptions.auto_execute opts) then executor opts s
  else
    match QueryOptions.statement opts with
    | None =>
        (s, Some (Err (Queryx.new_invalid_argument_error
                         "statement must be present if auto_execute is true" (Some "statement"%string))))
    | Some statement =>
        match cache_get statement s with
        | Some cached_statement =>
            let opts := cached_options opts cached_statement in
            match executor opts s with
            | (s, Some (Ok reader)) => (s, Some (Ok reader))
            | (s, Some (Err _)) => prepare_and_run executor opts statement s
            | r => r
            end
        | None => prepare_and_run executor opts statement s
        end
    end.

End Prepared.

(** ** Theorems: prepared queries

    The calls share the cache with other tasks, which may run while a request is under way:
    what they do to the cache is what this call does, and the requests of all of them are in
    one log. *)

Section PreparedQueries.
Context {V : Type} {S : Type} (cache : S → gmap string string) (set_cache : gmap string string → S → S).
Abbreviation answer := (option (outcome (Queryx.Error V) (QueryRespReader V))).
Context (log : S → list (QueryOptions V * answer)) (executor : QueryOptions V → S → S * answer).
Abbreviation prepared_query := (prepared_query cache set_cache executor).

(** The entry of the log is a successful preparation of the statement, under the name. *)
Definition plan_of (e : QueryOptions V * answer) (statement name : string) : Prop :=
  QueryOptions.statement e.1 = Some ("PREPARE " +:+ statement) ∧ QueryOptions.auto_execute e.1 = Some true
  ∧ ∃ reader, e.2 = Some (Ok reader) ∧ em_prepared (early_metadata reader) = Some name.

(** Every name in the cache is one the server gave to this statement. *)
Definition plans_known (s : S) : Prop :=
  ∀ statement name, cache s !! statement = Some name → Exists (λ e, plan_of e statement name) (log s).

Definition cell_laws : Prop := ∀ m s, cache (set_cache m s) = m ∧ log (set_cache m s) = log s.

(** A request is logged with its answer; others may log theirs and keep plans meanwhile. *)
Definition executor_logs : Prop := ∀ o s s' r, executor o s = (s', r) →
  (∃ others, log s' = log s ++ others ++ [(o, r)]) ∧ (plans_known s → plans_known s').

Lemma prepare_and_run_known opts statement s s' r :
  cell_laws → executor_logs → plans_known s →
  prepare_and_run cache set_cache executor opts statement s = (s', r) →
  plans_known s' ∧ (∃ new, log s' = log s ++ new)
  ∧ ∃ s1, executor (prepare_options opts statement (QueryOptions.prepared opts)) s = (s1, r)
    ∧ ∀ reader name, r = Some (Ok reader) → em_prepared (early_metadata reader) = Some name →
        cache s' !! statement = Some name.
Proof.
  intros Hcell Hexec Hs. unfold prepare_and_run.
  destruct (executor _ s) as [s1 r1] eqn:He. destruct (Hexec _ _ _ _ He) as ((others & Hl) & Hk).
  specialize (Hk Hs).
  destruct r1 as [[reader|e|]|];
    try (intros [= <- <-]; split; [done|]; split; [by eauto|]; exists s1; split; [done|]; intros; congruence).
  destruct (em_prepared (early_metadata reader)) as [name|] eqn:Hp; intros [= <- <-].
  2:{ split; [done|]. split; [by eauto|]. exists s1. split; [done|]. intros; congruence. }
  split_and!; [| |exists s1; split; [done|]].
  - intros st nm. unfold cache_put. destruct (Hcell (<[statement := name]> (cache s1)) s1) as [-> ->].
    destruct (decide (st = statement)) as [->|Hne]; [|rewrite lookup_insert_ne by done; apply Hk].
    rewrite lookup_insert_eq. intros [= <-]. rewrite Hl, !list.Exists_app. right. right. apply Exists_cons_hd.
    split; [done|]. split; [done|]. by exists reader.
  - unfold cache_put. destruct (Hcell (<[statement := name]> (cache s1)) s1) as [_ ->]. eauto.
  - intros reader' name' [= <-] Hn. rewrite Hp in Hn. injection Hn as <-.
    unfold cache_put. destruct (Hcell (<[statement := name]> (cache s1)) s1) as [-> _]. by rewrite lookup_insert_eq.
Qed.

(** C20. The cache never gives a plan to a statement that it was not made for, also when other
    calls run at the same time: every name in it was given by the server in a successful answer
    to the preparation of that very statement, and a prepared query keeps this.  Its answer is
    that of the run of the cached plan, sent by name and without the text, when that run
    succeeded; otherwise that of a preparation of the statement, whose plan then replaces the
    cached one; a query that is marked to be executed at once passes by the cache; and without a
    statement nothing is sent. *)
Theorem prepared_queries_use_their_plan opts s s' r :
  cell_laws → executor_logs → plans_known s → prepared_query opts s = (s', r) →
  plans_known s' ∧ (∃ new, log s' = log s ++ new)
  ∧ match default false (QueryOptions.auto_execute opts), QueryOptions.statement opts with
    | true, _ => executor opts s = (s', r)
    | false, None => s' = s ∧ ∃ e, r = Some (Err e)
    | false, Some statement =>
        (∃ name reader, Exists (λ e, plan_of e statement name) (log s) ∧ r = Some (Ok reader)
           ∧ executor (cached_options opts name) s = (s', r))
        ∨ (∃ s1, executor (cached_options opts (default ""%string (cache s !! statement))) s = (s1, r)
             ∧ (r = Some Panic ∨ r = None))
        ∨ (∃ stale s1 s2, executor (prepare_options opts statement stale) s1 = (s2, r)
             ∧ ((s1 = s ∧ cache s !! statement = None ∧ stale = QueryOptions.prepared opts)
                ∨ ∃ name e, cache s !! statement = Some name ∧ stale = Some name
                    ∧ executor (cached_options opts name) s = (s1, Some (Err e)))
             ∧ ∀ reader name, r = Some (Ok reader) → em_prepared (early_metadata reader) = Some name →
                 cache s' !! statement = Some name)
    end.
Proof.
  intros Hcell Hexec Hs. unfold PreparedQuery.prepared_query.
  destruct (default false (QueryOptions.auto_execute opts)) eqn:Hae.
  { intros He. destruct (Hexec _ _ _ _ He) as ((others & Hl) & Hk). eauto. }
  destruct (QueryOptions.statement opts) as [statement|] eqn:Hst.
  2:{ intros [= <- <-]. split; [done|]. split; [by exists []; rewrite app_nil_r|eauto]. }
  unfold cache_get. destruct (cache s !! statement) as [name|] eqn:Hc.
  2:{ intros Hr. destruct (prepare_and_run_known _ _ _ _ _ Hcell Hexec Hs Hr) as (Hk & Hl & s1 & He & Hp).
      split; [done|]. split; [done|]. right. right. exists (QueryOptions.prepared opts), s, s1. eauto 10. }
  destruct (executor (cached_options opts name) s) as [s1 r1] eqn:He.
  destruct (Hexec _ _ _ _ He) as ((others & Hl) & Hk). specialize (Hk Hs).
  destruct r1 as [[reader|e|]|]; try (intros [= <- <-]; split; [done|]; split; [by eauto|]).
  - left. exists name, reader. eauto.
  - intros Hr. destruct (prepare_and_run_known _ _ _ _ _ Hcell Hexec Hk Hr) as (Hk' & (new & Hl') & s2 & He' & Hp).
    split; [done|]. split.
    { exists ((others ++ [(cached_options opts name, Some (Err e))]) ++ new). by rewrite Hl', Hl, <- app_assoc. }
    right. right. exists (Some name), s1, s2. split; [exact He'|]. eauto 10.
  - right. left. cbn. eauto.
  - right. left. cbn. eauto.
Qed.

End PreparedQueries.

(** The run above, by a server that names every plan after the statement: a text is answered
    with the plan, and a plan is run. *)
Definition logged_state : Type :=
  gmap string string * list (QueryOptions string * option (outcome (Queryx.Error string) (QueryRespReader string))).

Definition sample_reader (prepared : option string) : QueryRespReader string :=
  mkQueryRespReader "e" "s" "c" 200 (streamer_new (decoder_new []) "results") (mkEarlyMetaData prepared) None None.

Definition naming_executor (o : QueryOptions string) (s : logged_state)
    : logged_state * option (outcome (Queryx.Error string) (QueryRespReader string)) :=
  let r := Some (Ok (sample_reader (QueryOptions.statement o))) in ((s.1, s.2 ++ [(o, r)]), r).

Definition sample_prepared := prepared_query fst (λ m (s : logged_state), (m, s.2)) naming_executor.

Definition select_one : QueryOptions string := query_options_statement (Some "SELECT 1"%string) query_options_new.

(** A statement is prepared once, and then run by its plan. *)
Example prepared_once :
  let '(s, _) := sample_prepared select_one (∅, []) in
  let '(s, _) := sample_prepared select_one s in
  s.2.*1 = [prepare_options select_one "SELECT 1" None; cached_options select_one "PREPARE SELECT 1"]
  ∧ s.1 !! "SELECT 1"%string = Some "PREPARE SELECT 1"%string.
Proof. vm_compute. done. Qed.

Lemma prepared_queries_use_their_plan_witness :
  let '(s, r) := sample_prepared select_one (∅, []) in
  plans_known fst snd s ∧ r = Some (Ok (sample_reader (Some "PREPARE SELECT 1"%string))).
Proof.
  split; [|reflexivity].
  refine (proj1 (prepared_queries_use_their_plan fst (λ m (s : logged_state), (m, s.2)) snd naming_executor
    select_one (∅, []) _ (Some (Ok (sample_reader (Some "PREPARE SELECT 1"%string)))) _ _ _ _)).
  - intros m s. done.
  - intros o [c l] s' r [= <- <-]. split; [exists []; done|]. intros Hs st nm Hc. cbn in Hc |- *.
    apply list.Exists_app. left. by apply (Hs st nm).
  - intros st nm Hc. by vm_compute in Hc.
  - reflexivity.
Defined.

(** After a failed run of a plan the statement is prepared with the old plan still set. *)
Example stale_plan_is_sent {V} (o : QueryOptions V) statement name :
  QueryOptions.prepared (prepare_options (cached_options o name) statement
    (QueryOptions.prepared (cached_options o name))) = Some name.
Proof. done. Qed.

