(* ===== verification/EnsureIndex.v ===== *)
(** * Waiting for an index ([queryx/ensure_index_helper.rs])

    A poll asks every node of the query service whether it lists the index, until all do, or
    none does. *)

From S2P Require Import Prelude Text HttpxError Durations Wire CoreError Retry Http QueryxError.
From S2P Require Import JsonScanner JsonDecoder RowStreamer QueryReader QueryxOptions Query.

(** ** Definitions *)


Record EnsureIndexHelper : Type := mkEnsureIndexHelper {
  eh_user_agent : string;
  eh_on_behalf_of_info : option OnBehalfOfInfo;
  eh_index_name : string;
  eh_bucket_name : string;
  eh_scope_name : option string;
  eh_collection_name : option string;
  eh_confirmed_endpoints : list string;
}.

Definition ensure_index_helper_new (user_agent index_name bucket_name : string)
    (scope_name collection_name : option string) (on_behalf_of_info : option OnBehalfOfInfo) : EnsureIndexHelper :=
  mkEnsureIndexHelper user_agent on_behalf_of_info index_name bucket_name scope_name collection_name [].

Section Ensure.
Context {P : Profile} {V : Type} `{JsonValue V} {S : Type} `{HttpClient S}.
Context (value_is : V → Z → bool) (regex_is_match : string → list Z → bool) (status_display : Z → string).
Context (from_slice_string : list Z → string + string) (from_slice_value : list Z → string + V)
  (to_vec : gmap string V → string + list Z)
  (from_slice_error_response : list Z → string + QueryErrorResponse V)
  (from_slice_early_metadata : list Z → string + QueryEarlyMetaData)
  (from_slice_metadata : list Z → string + QueryMetaData V)
  (from_slice_index : list Z → string + Index)
  (json_text : V → string + string).
Context (new_uuid : S → S * string).


Abbreviation call := (io S (Queryx.Error V)).
Abbreviation get_all_indexes := (get_all_indexes value_is regex_is_match status_display from_slice_string from_slice_value
  to_vec from_slice_error_response from_slice_early_metadata from_slice_metadata from_slice_index json_text new_uuid).

(** Whether the node of a target lists the index. *)
Definition poll_one (self : EnsureIndexHelper) (target : NodeTarget) : call bool :=
  resp ← get_all_indexes (mkQuery (eh_user_agent self) (nt_endpoint target) (nt_auth target))
           (GetAllIndexesOptions.mk (eh_bucket_name self) (eh_scope_name self) (eh_collection_name self)
              (eh_on_behalf_of_info self));
  mret (existsb (λ index, bool_decide (ix_name index = eh_index_name self)) resp).

(** The endpoints of the targets that are in the state that is waited for. *)
Fixpoint success_endpoints (self : EnsureIndexHelper) (desired_state : DesiredState) (targets : list NodeTarget)
    : call (list string) :=
  match targets with
  | [] => mret []
  | target :: targets =>
      exists_ ← poll_one self target;
      rest ← success_endpoints self desired_state targets;
      let success := match desired_state with Created => exists_ | Deleted => negb exists_ end in
      mret (if (success : bool) then nt_endpoint target :: rest else rest)
  end.

(** All targets are asked, also those confirmed before. *)
Definition ensure_poll (self : EnsureIndexHelper) (desired_state : DesiredState) (targets : list NodeTarget)
    : call (bool * EnsureIndexHelper) :=
  let filtered_targets := filter (λ t, nt_endpoint t ∉ eh_confirmed_endpoints self) targets in
  success ← success_endpoints self desired_state targets;
  mret (bool_decide (length success = length filtered_targets),
        mkEnsureIndexHelper (eh_user_agent self) (eh_on_behalf_of_info self) (eh_index_name self)
          (eh_bucket_name self) (eh_scope_name self) (eh_collection_name self)
          (eh_confirmed_endpoints self ++ success)).

End Ensure.

(** ** Theorems: waiting for an index *)

Section EnsureTheorems.
Context {P : Profile} {V : Type} `{JsonValue V} {S : Type} `{HttpClient S}.
Context (value_is : V → Z → bool) (regex_is_match : string → list Z → bool) (status_display : Z → string).
Context (from_slice_string : list Z → string + string) (from_slice_value : list Z → string + V)
  (to_vec : gmap string V → string + list Z)
  (from_slice_error_response : list Z → string + QueryErrorResponse V)
  (from_slice_early_metadata : list Z → string + QueryEarlyMetaData)
  (from_slice_metadata : list Z → string + QueryMetaData V)
  (from_slice_index : list Z → string + Index)
  (json_text : V → string + string).
Context (new_uuid : S → S * string).

Abbreviation ask := (poll_one value_is regex_is_match status_display from_slice_string from_slice_value to_vec
  from_slice_error_response from_slice_early_metadata from_slice_metadata from_slice_index json_text new_uuid).
Abbreviation successes := (success_endpoints value_is regex_is_match status_display from_slice_string from_slice_value
  to_vec from_slice_error_response from_slice_early_metadata from_slice_metadata from_slice_index json_text new_uuid).
Abbreviation poll := (ensure_poll value_is regex_is_match status_display from_slice_string from_slice_value
  to_vec from_slice_error_response from_slice_early_metadata from_slice_metadata from_slice_index json_text new_uuid).

(** The targets were asked one after the other, with these answers. *)
Inductive asked (self : EnsureIndexHelper) : list NodeTarget → S → list bool → S → Prop :=
| asked_none s : asked self [] s [] s
| asked_one t ts s b s1 answers s2 :
    ask self t s = (s1, Some (Ok b)) → asked self ts s1 answers s2 → asked self (t :: ts) s (b :: answers) s2.

Definition wanted (d : DesiredState) : bool := match d with Created => true | Deleted => false end.

(** The endpoints whose answer is the wanted one. *)
Definition confirmed (d : DesiredState) (targets : list NodeTarget) (answers : list bool) : list string :=
  (λ p, nt_endpoint p.1) <$> filter (λ p, p.2 = wanted d) (zip targets answers).

Lemma asked_length self targets s answers s' : asked self targets s answers s' → length answers = length targets.
Proof. induction 1; cbn; lia. Qed.

Lemma successes_cases self d targets s :
  match successes self d targets s with
  | (s', Some (Ok l)) => ∃ answers, asked self targets s answers s' ∧ l = confirmed d targets answers
  | (s', r) => ∃ before t after answers s1 r0, targets = before ++ t :: after
      ∧ asked self before s answers s1 ∧ ask self t s1 = (s', r0)
      ∧ match r, r0 with
        | Some (Err e), Some (Err e') => e = e'
        | Some Panic, Some Panic | None, None => True
        | _, _ => False
        end
  end.
Proof.
  revert s. induction targets as [|t ts IH]; intros s; [exists []; split; [constructor|done]|].
  cbn [success_endpoints]. unfold mbind, io_bind.
  destruct (ask self t s) as [s1 [[b|e|]|]] eqn:Ht;
    try (eexists [], t, ts, [], s, _; split; [done|]; split; [constructor|]; split; [exact Ht|done]).
  specialize (IH s1). destruct (successes self d ts s1) as [s2 [[l|e|]|]].
  { cbn. destruct IH as (answers & Ha & ->). exists (b :: answers). split; [by econstructor|].
    unfold confirmed. cbn [zip zip_with]. destruct d, b; cbn; done. }
  all: destruct IH as (before & t' & after & answers & s3 & r0 & -> & Ha & He & Hr);
    exists (t :: before), t', after, (b :: answers), s3, r0;
    split; [done|]; split; [by econstructor|]; by split.
Qed.

(** All the answers are the wanted one when the list of the confirmed ones is full. *)
Lemma confirmed_full d targets answers :
  length answers = length targets →
  length (confirmed d targets answers) = length targets ↔ Forall (λ b, b = wanted d) answers.
Proof.
  intros Hl. unfold confirmed. rewrite length_fmap.
  by apply all_answered.
Qed.

(** A poll asks every target in turn, and fails with the first one that fails.  For a helper
    that starts afresh it says that the wait is over just when every node gave the wanted
    answer. *)
Lemma ensure_poll_cases self d targets s :
  match poll self d targets s with
  | (s', Some (Ok (finished, self'))) =>
      ∃ answers, asked self targets s answers s'
        ∧ eh_confirmed_endpoints self' = eh_confirmed_endpoints self ++ confirmed d targets answers
        ∧ (eh_confirmed_endpoints self = [] → (finished = true ↔ Forall (λ b, b = wanted d) answers))
  | (s', r) => ∃ before t after answers s1 r0, targets = before ++ t :: after
      ∧ asked self before s answers s1 ∧ ask self t s1 = (s', r0)
      ∧ match r, r0 with
        | Some (Err e), Some (Err e') => e = e'
        | Some Panic, Some Panic | None, None => True
        | _, _ => False
        end
  end.
Proof.
  pose proof (successes_cases self d targets s) as K. unfold ensure_poll, mbind, io_bind.
  destruct (successes self d targets s) as [s' [[l|e|]|]]; [|done..]. cbn -[filter].
  destruct K as (answers & Ha & ->). exists answers. split; [done|]. split; [done|]. intros Hc.
  rewrite Hc, bool_decide_eq_true. rewrite (filter_all _ targets) by (intros ?; apply not_elem_of_nil).
  apply confirmed_full. by eapply asked_length.
Qed.

End EnsureTheorems.

(** A helper that kept the endpoint its only target confirmed does not see that target agree
    again: it compares with the targets it has not confirmed, but asks all. *)
Example confirmed_helper_never_ends d (t : NodeTarget) :
  length (confirmed d [t] [wanted d]) ≠ length (filter (λ u, nt_endpoint u ∉ [nt_endpoint t]) [t]).
Proof.
  unfold confirmed. rewrite (filter_cons_False _ t) by set_solver. destruct d; done.
Qed.
