(* ===== verification/CoreQueryOptions.v ===== *)
(** * Options of the query operations ([options/query.rs])

    One record per options struct of the agent's query operations, with its constructors, its
    setters and its conversion to the options of the query client, which leaves the endpoint
    and the retry strategy behind.  The type of the retry strategy is the parameter [T]. *)

From S2P Require Import Prelude Text Wire CoreError Retry CrudOptions Http QueryxOptions.

(** ** The options *)

Module CoreQueryOptions.
Section Fields.
Context {T V : Type}.
Record CoreQueryOptions : Type := mk {
  args : option (list V);
  atr_collection : option string;
  auto_execute : option bool;
  client_context_id : option string;
  compression : option Compression.Compression;
  controls : option bool;
  creds : option (list CredsJson);
  durability_level : option QueryDurabilityLevel.DurabilityLevel;
  encoded_plan : option string;
  encoding : option Encoding;
  format : option Format.Format;
  kv_timeout : option Duration;
  max_parallelism : option Z;
  memory_quota : option Z;
  metrics : option bool;
  namespace : option string;
  num_atrs : option Z;
  pipeline_batch : option Z;
  pipeline_cap : option Z;
  prepared : option string;
  preserve_expiry : option bool;
  pretty : option bool;
  profile : option ProfileMode.ProfileMode;
  query_context : option string;
  read_only : option bool;
  scan_cap : option Z;
  scan_consistency : option ScanConsistency.ScanConsistency;
  sparse_scan_vector : option (gmap string ScanVectorEntry);
  full_scan_vector : option (list ScanVectorEntry);
  sparse_scan_vectors : option (gmap string (gmap string ScanVectorEntry));
  full_scan_vectors : option (gmap string (list ScanVectorEntry));
  scan_wait : option Duration;
  signature : option bool;
  statement : option string;
  timeout : option Duration;
  tx_data : option (list Z);
  tx_id : option string;
  tx_implicit : option bool;
  tx_stmt_num : option Z;
  tx_timeout : option Duration;
  use_cbo : option bool;
  use_fts : option bool;
  use_replica : option ReplicaLevel.ReplicaLevel;
  named_args : option (gmap string V);
  raw : option (gmap string V);
  on_behalf_of : option OnBehalfOfInfo;
  endpoint : option string;
  retry_strategy : T;
}.
End Fields.
#[global] Arguments CoreQueryOptions : clear implicits.
End CoreQueryOptions.
Abbreviation CoreQueryOptions := CoreQueryOptions.CoreQueryOptions.
#[global] Instance core_query_options_settable T V : Settable (CoreQueryOptions T V) := λ r,
  CoreQueryOptions.mk (CoreQueryOptions.args r) (CoreQueryOptions.atr_collection r)
    (CoreQueryOptions.auto_execute r) (CoreQueryOptions.client_context_id r)
    (CoreQueryOptions.compression r) (CoreQueryOptions.controls r) (CoreQueryOptions.creds r)
    (CoreQueryOptions.durability_level r) (CoreQueryOptions.encoded_plan r)
    (CoreQueryOptions.encoding r) (CoreQueryOptions.format r) (CoreQueryOptions.kv_timeout r)
    (CoreQueryOptions.max_parallelism r) (CoreQueryOptions.memory_quota r)
    (CoreQueryOptions.metrics r) (CoreQueryOptions.namespace r) (CoreQueryOptions.num_atrs r)
    (CoreQueryOptions.pipeline_batch r) (CoreQueryOptions.pipeline_cap r)
    (CoreQueryOptions.prepared r) (CoreQueryOptions.preserve_expiry r) (CoreQueryOptions.pretty r)
    (CoreQueryOptions.profile r) (CoreQueryOptions.query_context r) (CoreQueryOptions.read_only r)
    (CoreQueryOptions.scan_cap r) (CoreQueryOptions.scan_consistency r)
    (CoreQueryOptions.sparse_scan_vector r) (CoreQueryOptions.full_scan_vector r)
    (CoreQueryOptions.sparse_scan_vectors r) (CoreQueryOptions.full_scan_vectors r)
    (CoreQueryOptions.scan_wait r) (CoreQueryOptions.signature r) (CoreQueryOptions.statement r)
    (CoreQueryOptions.timeout r) (CoreQueryOptions.tx_data r) (CoreQueryOptions.tx_id r)
    (CoreQueryOptions.tx_implicit r) (CoreQueryOptions.tx_stmt_num r)
    (CoreQueryOptions.tx_timeout r) (CoreQueryOptions.use_cbo r) (CoreQueryOptions.use_fts r)
    (CoreQueryOptions.use_replica r) (CoreQueryOptions.named_args r) (CoreQueryOptions.raw r)
    (CoreQueryOptions.on_behalf_of r) (CoreQueryOptions.endpoint r)
    (CoreQueryOptions.retry_strategy r).

Definition core_query_options_default {V : Type} : CoreQueryOptions FailFastRetryStrategy V :=
  CoreQueryOptions.mk None None None None None None None None None None None None None None None
    None None None None None None None None None None None None None None None None None None None
    None None None None None None None None None None None None None DEFAULT_RETRY_STRATEGY.

Definition core_query_options_new {V : Type} : CoreQueryOptions FailFastRetryStrategy V :=
    core_query_options_default.

Definition core_query_options_args {T V : Type} (args : option (list V))
    (self : CoreQueryOptions T V) : CoreQueryOptions T V :=
  self <| CoreQueryOptions.args := args |>.

Definition core_query_options_atr_collection {T V : Type} (atr_collection : option string)
    (self : CoreQueryOptions T V) : CoreQueryOptions T V :=
  self <| CoreQueryOptions.atr_collection := atr_collection |>.

Definition core_query_options_auto_execute {T V : Type} (auto_execute : option bool)
    (self : CoreQueryOptions T V) : CoreQueryOptions T V :=
  self <| CoreQueryOptions.auto_execute := auto_execute |>.

Definition core_query_options_client_context_id {T V : Type} (client_context_id : option string)
    (self : CoreQueryOptions T V) : CoreQueryOptions T V :=
  self <| CoreQueryOptions.client_context_id := client_context_id |>.

Definition core_query_options_compression {T V : Type}
    (compression : option Compression.Compression)
    (self : CoreQueryOptions T V) : CoreQueryOptions T V :=
  self <| CoreQueryOptions.compression := compression |>.

Definition core_query_options_controls {T V : Type} (controls : option bool)
    (self : CoreQueryOptions T V) : CoreQueryOptions T V :=
  self <| CoreQueryOptions.controls := controls |>.

Definition core_query_options_creds {T V : Type} (creds : option (list CredsJson))
    (self : CoreQueryOptions T V) : CoreQueryOptions T V :=
  self <| CoreQueryOptions.creds := creds |>.

Definition core_query_options_durability_level {T V : Type}
    (durability_level : option QueryDurabilityLevel.DurabilityLevel)
    (self : CoreQueryOptions T V) : CoreQueryOptions T V :=
  self <| CoreQueryOptions.durability_level := durability_level |>.

Definition core_query_options_encoded_plan {T V : Type} (encoded_plan : option string)
    (self : CoreQueryOptions T V) : CoreQueryOptions T V :=
  self <| CoreQueryOptions.encoded_plan := encoded_plan |>.

Definition core_query_options_encoding {T V : Type} (encoding : option Encoding)
    (self : CoreQueryOptions T V) : CoreQueryOptions T V :=
  self <| CoreQueryOptions.encoding := encoding |>.

Definition core_query_options_format {T V : Type} (format : option Format.Format)
    (self : CoreQueryOptions T V) : CoreQueryOptions T V :=
  self <| CoreQueryOptions.format := format |>.

Definition core_query_options_kv_timeout {T V : Type} (kv_timeout : option Duration)
    (self : CoreQueryOptions T V) : CoreQueryOptions T V :=
  self <| CoreQueryOptions.kv_timeout := kv_timeout |>.

Definition core_query_options_max_parallelism {T V : Type} (max_parallelism : option Z)
    (self : CoreQueryOptions T V) : CoreQueryOptions T V :=
  self <| CoreQueryOptions.max_parallelism := max_parallelism |>.

Definition core_query_options_memory_quota {T V : Type} (memory_quota : option Z)
    (self : CoreQueryOptions T V) : CoreQueryOptions T V :=
  self <| CoreQueryOptions.memory_quota := memory_quota |>.

Definition core_query_options_metrics {T V : Type} (metrics : option bool)
    (self : CoreQueryOptions T V) : CoreQueryOptions T V :=
  self <| CoreQueryOptions.metrics := metrics |>.

Definition core_query_options_namespace {T V : Type} (namespace : option string)
    (self : CoreQueryOptions T V) : CoreQueryOptions T V :=
  self <| CoreQueryOptions.namespace := namespace |>.

Definition core_query_options_num_atrs {T V : Type} (num_atrs : option Z)
    (self : CoreQueryOptions T V) : CoreQueryOptions T V :=
  self <| CoreQueryOptions.num_atrs := num_atrs |>.

Definition core_query_options_pipeline_batch {T V : Type} (pipeline_batch : option Z)
    (self : CoreQueryOptions T V) : CoreQueryOptions T V :=
  self <| CoreQueryOptions.pipeline_batch := pipeline_batch |>.

Definition core_query_options_pipeline_cap {T V : Type} (pipeline_cap : option Z)
    (self : CoreQueryOptions T V) : CoreQueryOptions T V :=
  self <| CoreQueryOptions.pipeline_cap := pipeline_cap |>.

Definition core_query_options_prepared {T V : Type} (prepared : option string)
    (self : CoreQueryOptions T V) : CoreQueryOptions T V :=
  self <| CoreQueryOptions.prepared := prepared |>.

Definition core_query_options_preserve_expiry {T V : Type} (preserve_expiry : option bool)
    (self : CoreQueryOptions T V) : CoreQueryOptions T V :=
  self <| CoreQueryOptions.preserve_expiry := preserve_expiry |>.

Definition core_query_options_pretty {T V : Type} (pretty : option bool)
    (self : CoreQueryOptions T V) : CoreQueryOptions T V :=
  self <| CoreQueryOptions.pretty := pretty |>.

Definition core_query_options_profile {T V : Type} (profile : option ProfileMode.ProfileMode)
    (self : CoreQueryOptions T V) : CoreQueryOptions T V :=
  self <| CoreQueryOptions.profile := profile |>.

Definition core_query_options_query_context {T V : Type} (query_context : option string)
    (self : CoreQueryOptions T V) : CoreQueryOptions T V :=
  self <| CoreQueryOptions.query_context := query_context |>.

Definition core_query_options_read_only {T V : Type} (read_only : option bool)
    (self : CoreQueryOptions T V) : CoreQueryOptions T V :=
  self <| CoreQueryOptions.read_only := read_only |>.

Definition core_query_options_scan_cap {T V : Type} (scan_cap : option Z)
    (self : CoreQueryOptions T V) : CoreQueryOptions T V :=
  self <| CoreQueryOptions.scan_cap := scan_cap |>.

Definition core_query_options_scan_consistency {T V : Type}
    (scan_consistency : option ScanConsistency.ScanConsistency)
    (self : CoreQueryOptions T V) : CoreQueryOptions T V :=
  self <| CoreQueryOptions.scan_consistency := scan_consistency |>.

Definition core_query_options_sparse_scan_vector {T V : Type} (sparse_scan_vector : option
    (gmap string ScanVectorEntry)) (self : CoreQueryOptions T V) : CoreQueryOptions T V :=
  self <| CoreQueryOptions.sparse_scan_vector := sparse_scan_vector |>.

Definition core_query_options_full_scan_vector {T V : Type} (full_scan_vector : option
    (list ScanVectorEntry)) (self : CoreQueryOptions T V) : CoreQueryOptions T V :=
  self <| CoreQueryOptions.full_scan_vector := full_scan_vector |>.

Definition core_query_options_sparse_scan_vectors {T V : Type} (sparse_scan_vectors : option
    (gmap string (gmap string ScanVectorEntry)))
    (self : CoreQueryOptions T V) : CoreQueryOptions T V :=
  self <| CoreQueryOptions.sparse_scan_vectors := sparse_scan_vectors |>.

Definition core_query_options_full_scan_vectors {T V : Type} (full_scan_vectors : option
    (gmap string (list ScanVectorEntry))) (self : CoreQueryOptions T V) : CoreQueryOptions T V :=
  self <| CoreQueryOptions.full_scan_vectors := full_scan_vectors |>.

Definition core_query_options_scan_wait {T V : Type} (scan_wait : option Duration)
    (self : CoreQueryOptions T V) : CoreQueryOptions T V :=
  self <| CoreQueryOptions.scan_wait := scan_wait |>.

Definition core_query_options_signature {T V : Type} (signature : option bool)
    (self : CoreQueryOptions T V) : CoreQueryOptions T V :=
  self <| CoreQueryOptions.signature := signature |>.

Definition core_query_options_statement {T V : Type} (statement : option string)
    (self : CoreQueryOptions T V) : CoreQueryOptions T V :=
  self <| CoreQueryOptions.statement := statement |>.

Definition core_query_options_timeout {T V : Type} (timeout : option Duration)
    (self : CoreQueryOptions T V) : CoreQueryOptions T V :=
  self <| CoreQueryOptions.timeout := timeout |>.

Definition core_query_options_tx_data {T V : Type} (tx_data : option (list Z))
    (self : CoreQueryOptions T V) : CoreQueryOptions T V :=
  self <| CoreQueryOptions.tx_data := tx_data |>.

Definition core_query_options_tx_id {T V : Type} (tx_id : option string)
    (self : CoreQueryOptions T V) : CoreQueryOptions T V :=
  self <| CoreQueryOptions.tx_id := tx_id |>.

Definition core_query_options_tx_implicit {T V : Type} (tx_implicit : option bool)
    (self : CoreQueryOptions T V) : CoreQueryOptions T V :=
  self <| CoreQueryOptions.tx_implicit := tx_implicit |>.

Definition core_query_options_tx_stmt_num {T V : Type} (tx_stmt_num : option Z)
    (self : CoreQueryOptions T V) : CoreQueryOptions T V :=
  self <| CoreQueryOptions.tx_stmt_num := tx_stmt_num |>.

Definition core_query_options_tx_timeout {T V : Type} (tx_timeout : option Duration)
    (self : CoreQueryOptions T V) : CoreQueryOptions T V :=
  self <| CoreQueryOptions.tx_timeout := tx_timeout |>.

Definition core_query_options_use_cbo {T V : Type} (use_cbo : option bool)
    (self : CoreQueryOptions T V) : CoreQueryOptions T V :=
  self <| CoreQueryOptions.use_cbo := use_cbo |>.

Definition core_query_options_use_fts {T V : Type} (use_fts : option bool)
    (self : CoreQueryOptions T V) : CoreQueryOptions T V :=
  self <| CoreQueryOptions.use_fts := use_fts |>.

Definition core_query_options_use_replica {T V : Type}
    (use_replica : option ReplicaLevel.ReplicaLevel)
    (self : CoreQueryOptions T V) : CoreQueryOptions T V :=
  self <| CoreQueryOptions.use_replica := use_replica |>.

Definition core_query_options_named_args {T V : Type} (named_args : option (gmap string V))
    (self : CoreQueryOptions T V) : CoreQueryOptions T V :=
  self <| CoreQueryOptions.named_args := named_args |>.

Definition core_query_options_raw {T V : Type} (raw : option (gmap string V))
    (self : CoreQueryOptions T V) : CoreQueryOptions T V :=
  self <| CoreQueryOptions.raw := raw |>.

Definition core_query_options_on_behalf_of {T V : Type} (on_behalf_of : option OnBehalfOfInfo)
    (self : CoreQueryOptions T V) : CoreQueryOptions T V :=
  self <| CoreQueryOptions.on_behalf_of := on_behalf_of |>.

Definition core_query_options_retry_strategy {T T' V : Type} (retry_strategy : T')
    (self : CoreQueryOptions T V) : CoreQueryOptions T' V :=
  CoreQueryOptions.mk (CoreQueryOptions.args self) (CoreQueryOptions.atr_collection self)
    (CoreQueryOptions.auto_execute self) (CoreQueryOptions.client_context_id self)
    (CoreQueryOptions.compression self) (CoreQueryOptions.controls self)
    (CoreQueryOptions.creds self) (CoreQueryOptions.durability_level self)
    (CoreQueryOptions.encoded_plan self) (CoreQueryOptions.encoding self)
    (CoreQueryOptions.format self) (CoreQueryOptions.kv_timeout self)
    (CoreQueryOptions.max_parallelism self) (CoreQueryOptions.memory_quota self)
    (CoreQueryOptions.metrics self) (CoreQueryOptions.namespace self)
    (CoreQueryOptions.num_atrs self) (CoreQueryOptions.pipeline_batch self)
    (CoreQueryOptions.pipeline_cap self) (CoreQueryOptions.prepared self)
    (CoreQueryOptions.preserve_expiry self) (CoreQueryOptions.pretty self)
    (CoreQueryOptions.profile self) (CoreQueryOptions.query_context self)
    (CoreQueryOptions.read_only self) (CoreQueryOptions.scan_cap self)
    (CoreQueryOptions.scan_consistency self) (CoreQueryOptions.sparse_scan_vector self)
    (CoreQueryOptions.full_scan_vector self) (CoreQueryOptions.sparse_scan_vectors self)
    (CoreQueryOptions.full_scan_vectors self) (CoreQueryOptions.scan_wait self)
    (CoreQueryOptions.signature self) (CoreQueryOptions.statement self)
    (CoreQueryOptions.timeout self) (CoreQueryOptions.tx_data self) (CoreQueryOptions.tx_id self)
    (CoreQueryOptions.tx_implicit self) (CoreQueryOptions.tx_stmt_num self)
    (CoreQueryOptions.tx_timeout self) (CoreQueryOptions.use_cbo self)
    (CoreQueryOptions.use_fts self) (CoreQueryOptions.use_replica self)
    (CoreQueryOptions.named_args self) (CoreQueryOptions.raw self)
    (CoreQueryOptions.on_behalf_of self) (CoreQueryOptions.endpoint self) retry_strategy.

Definition core_query_options_endpoint {T V : Type} (endpoint : option string)
    (self : CoreQueryOptions T V) : CoreQueryOptions T V :=
  self <| CoreQueryOptions.endpoint := endpoint |>.

Definition core_query_options_into {T V : Type} (opts : CoreQueryOptions T V) : QueryOptions V :=
  QueryOptions.mk (CoreQueryOptions.args opts) (CoreQueryOptions.atr_collection opts)
    (CoreQueryOptions.auto_execute opts) (CoreQueryOptions.client_context_id opts)
    (CoreQueryOptions.compression opts) (CoreQueryOptions.controls opts)
    (CoreQueryOptions.creds opts) (CoreQueryOptions.durability_level opts)
    (CoreQueryOptions.encoded_plan opts) (CoreQueryOptions.encoding opts)
    (CoreQueryOptions.format opts) (CoreQueryOptions.kv_timeout opts)
    (CoreQueryOptions.max_parallelism opts) (CoreQueryOptions.memory_quota opts)
    (CoreQueryOptions.metrics opts) (CoreQueryOptions.namespace opts)
    (CoreQueryOptions.num_atrs opts) (CoreQueryOptions.pipeline_batch opts)
    (CoreQueryOptions.pipeline_cap opts) (CoreQueryOptions.prepared opts)
    (CoreQueryOptions.preserve_expiry opts) (CoreQueryOptions.pretty opts)
    (CoreQueryOptions.profile opts) (CoreQueryOptions.query_context opts)
    (CoreQueryOptions.read_only opts) (CoreQueryOptions.scan_cap opts)
    (CoreQueryOptions.scan_consistency opts) (CoreQueryOptions.sparse_scan_vector opts)
    (CoreQueryOptions.full_scan_vector opts) (CoreQueryOptions.sparse_scan_vectors opts)
    (CoreQueryOptions.full_scan_vectors opts) (CoreQueryOptions.scan_wait opts)
    (CoreQueryOptions.signature opts) (CoreQueryOptions.statement opts)
    (CoreQueryOptions.timeout opts) (CoreQueryOptions.tx_data opts) (CoreQueryOptions.tx_id opts)
    (CoreQueryOptions.tx_implicit opts) (CoreQueryOptions.tx_stmt_num opts)
    (CoreQueryOptions.tx_timeout opts) (CoreQueryOptions.use_cbo opts)
    (CoreQueryOptions.use_fts opts) (CoreQueryOptions.use_replica opts)
    (CoreQueryOptions.named_args opts) (CoreQueryOptions.raw opts)
    (CoreQueryOptions.on_behalf_of opts).

Module CoreGetAllIndexesOptions.
Section Fields.
Context {T : Type}.
Record CoreGetAllIndexesOptions : Type := mk {
  bucket_name : string;
  scope_name : option string;
  collection_name : option string;
  on_behalf_of : option OnBehalfOfInfo;
  endpoint : option string;
  retry_strategy : T;
}.
End Fields.
#[global] Arguments CoreGetAllIndexesOptions : clear implicits.
End CoreGetAllIndexesOptions.
Abbreviation CoreGetAllIndexesOptions := CoreGetAllIndexesOptions.CoreGetAllIndexesOptions.
#[global] Instance core_get_all_indexes_options_settable T : Settable
    (CoreGetAllIndexesOptions T) := λ r,
  CoreGetAllIndexesOptions.mk (CoreGetAllIndexesOptions.bucket_name r)
    (CoreGetAllIndexesOptions.scope_name r) (CoreGetAllIndexesOptions.collection_name r)
    (CoreGetAllIndexesOptions.on_behalf_of r) (CoreGetAllIndexesOptions.endpoint r)
    (CoreGetAllIndexesOptions.retry_strategy r).

Definition core_get_all_indexes_options_new
    (bucket_name : string) : CoreGetAllIndexesOptions FailFastRetryStrategy :=
  CoreGetAllIndexesOptions.mk bucket_name None None None None DEFAULT_RETRY_STRATEGY.

Definition core_get_all_indexes_options_scope_name {T : Type} (scope_name : string)
    (self : CoreGetAllIndexesOptions T) : CoreGetAllIndexesOptions T :=
  self <| CoreGetAllIndexesOptions.scope_name := Some scope_name |>.

Definition core_get_all_indexes_options_collection_name {T : Type} (collection_name : string)
    (self : CoreGetAllIndexesOptions T) : CoreGetAllIndexesOptions T :=
  self <| CoreGetAllIndexesOptions.collection_name := Some collection_name |>.

Definition core_get_all_indexes_options_on_behalf_of {T : Type} (on_behalf_of : OnBehalfOfInfo)
    (self : CoreGetAllIndexesOptions T) : CoreGetAllIndexesOptions T :=
  self <| CoreGetAllIndexesOptions.on_behalf_of := Some on_behalf_of |>.

Definition core_get_all_indexes_options_endpoint {T : Type} (endpoint : string)
    (self : CoreGetAllIndexesOptions T) : CoreGetAllIndexesOptions T :=
  self <| CoreGetAllIndexesOptions.endpoint := Some endpoint |>.

Definition core_get_all_indexes_options_retry_strategy {T T' : Type} (retry_strategy : T')
    (self : CoreGetAllIndexesOptions T) : CoreGetAllIndexesOptions T' :=
  CoreGetAllIndexesOptions.mk (CoreGetAllIndexesOptions.bucket_name self)
    (CoreGetAllIndexesOptions.scope_name self) (CoreGetAllIndexesOptions.collection_name self)
    (CoreGetAllIndexesOptions.on_behalf_of self)
    (CoreGetAllIndexesOptions.endpoint self) retry_strategy.

Definition core_get_all_indexes_options_into {T : Type}
    (opts : CoreGetAllIndexesOptions T) : GetAllIndexesOptions :=
  GetAllIndexesOptions.mk (CoreGetAllIndexesOptions.bucket_name opts)
    (CoreGetAllIndexesOptions.scope_name opts) (CoreGetAllIndexesOptions.collection_name opts)
    (CoreGetAllIndexesOptions.on_behalf_of opts).

Module CoreCreatePrimaryIndexOptions.
Section Fields.
Context {T : Type}.
Record CoreCreatePrimaryIndexOptions : Type := mk {
  bucket_name : string;
  scope_name : option string;
  collection_name : option string;
  index_name : option string;
  num_replicas : option Z;
  deferred : option bool;
  ignore_if_exists : option bool;
  on_behalf_of : option OnBehalfOfInfo;
  endpoint : option string;
  retry_strategy : T;
}.
End Fields.
#[global] Arguments CoreCreatePrimaryIndexOptions : clear implicits.
End CoreCreatePrimaryIndexOptions.
Abbreviation CoreCreatePrimaryIndexOptions :=
    CoreCreatePrimaryIndexOptions.CoreCreatePrimaryIndexOptions.
#[global] Instance core_create_primary_index_options_settable T : Settable
    (CoreCreatePrimaryIndexOptions T) := λ r,
  CoreCreatePrimaryIndexOptions.mk (CoreCreatePrimaryIndexOptions.bucket_name r)
    (CoreCreatePrimaryIndexOptions.scope_name r) (CoreCreatePrimaryIndexOptions.collection_name r)
    (CoreCreatePrimaryIndexOptions.index_name r) (CoreCreatePrimaryIndexOptions.num_replicas r)
    (CoreCreatePrimaryIndexOptions.deferred r) (CoreCreatePrimaryIndexOptions.ignore_if_exists r)
    (CoreCreatePrimaryIndexOptions.on_behalf_of r) (CoreCreatePrimaryIndexOptions.endpoint r)
    (CoreCreatePrimaryIndexOptions.retry_strategy r).

Definition core_create_primary_index_options_new
    (bucket_name : string) : CoreCreatePrimaryIndexOptions FailFastRetryStrategy :=
  CoreCreatePrimaryIndexOptions.mk bucket_name None None None None None None None None
    DEFAULT_RETRY_STRATEGY.

Definition core_create_primary_index_options_scope_name {T : Type} (scope_name : string)
    (self : CoreCreatePrimaryIndexOptions T) : CoreCreatePrimaryIndexOptions T :=
  self <| CoreCreatePrimaryIndexOptions.scope_name := Some scope_name |>.

Definition core_create_primary_index_options_collection_name {T : Type} (collection_name : string)
    (self : CoreCreatePrimaryIndexOptions T) : CoreCreatePrimaryIndexOptions T :=
  self <| CoreCreatePrimaryIndexOptions.collection_name := Some collection_name |>.

Definition core_create_primary_index_options_index_name {T : Type} (index_name : string)
    (self : CoreCreatePrimaryIndexOptions T) : CoreCreatePrimaryIndexOptions T :=
  self <| CoreCreatePrimaryIndexOptions.index_name := Some index_name |>.

Definition core_create_primary_index_options_num_replicas {T : Type} (num_replicas : Z)
    (self : CoreCreatePrimaryIndexOptions T) : CoreCreatePrimaryIndexOptions T :=
  self <| CoreCreatePrimaryIndexOptions.num_replicas := Some num_replicas |>.

Definition core_create_primary_index_options_deferred {T : Type} (deferred : bool)
    (self : CoreCreatePrimaryIndexOptions T) : CoreCreatePrimaryIndexOptions T :=
  self <| CoreCreatePrimaryIndexOptions.deferred := Some deferred |>.

Definition core_create_primary_index_options_ignore_if_exists {T : Type} (ignore_if_exists : bool)
    (self : CoreCreatePrimaryIndexOptions T) : CoreCreatePrimaryIndexOptions T :=
  self <| CoreCreatePrimaryIndexOptions.ignore_if_exists := Some ignore_if_exists |>.

Definition core_create_primary_index_options_on_behalf_of {T : Type}
    (on_behalf_of : OnBehalfOfInfo)
    (self : CoreCreatePrimaryIndexOptions T) : CoreCreatePrimaryIndexOptions T :=
  self <| CoreCreatePrimaryIndexOptions.on_behalf_of := Some on_behalf_of |>.

Definition core_create_primary_index_options_endpoint {T : Type} (endpoint : string)
    (self : CoreCreatePrimaryIndexOptions T) : CoreCreatePrimaryIndexOptions T :=
  self <| CoreCreatePrimaryIndexOptions.endpoint := Some endpoint |>.

Definition core_create_primary_index_options_retry_strategy {T T' : Type} (retry_strategy : T')
    (self : CoreCreatePrimaryIndexOptions T) : CoreCreatePrimaryIndexOptions T' :=
  CoreCreatePrimaryIndexOptions.mk (CoreCreatePrimaryIndexOptions.bucket_name self)
    (CoreCreatePrimaryIndexOptions.scope_name self)
    (CoreCreatePrimaryIndexOptions.collection_name self)
    (CoreCreatePrimaryIndexOptions.index_name self)
    (CoreCreatePrimaryIndexOptions.num_replicas self)
    (CoreCreatePrimaryIndexOptions.deferred self)
    (CoreCreatePrimaryIndexOptions.ignore_if_exists self)
    (CoreCreatePrimaryIndexOptions.on_behalf_of self)
    (CoreCreatePrimaryIndexOptions.endpoint self) retry_strategy.

Definition core_create_primary_index_options_into {T : Type}
    (opts : CoreCreatePrimaryIndexOptions T) : CreatePrimaryIndexOptions :=
  CreatePrimaryIndexOptions.mk (CoreCreatePrimaryIndexOptions.bucket_name opts)
    (CoreCreatePrimaryIndexOptions.scope_name opts)
    (CoreCreatePrimaryIndexOptions.collection_name opts)
    (CoreCreatePrimaryIndexOptions.index_name opts)
    (CoreCreatePrimaryIndexOptions.num_replicas opts)
    (CoreCreatePrimaryIndexOptions.deferred opts)
    (CoreCreatePrimaryIndexOptions.ignore_if_exists opts)
    (CoreCreatePrimaryIndexOptions.on_behalf_of opts).

Module CoreCreateIndexOptions.
Section Fields.
Context {T : Type}.
Record CoreCreateIndexOptions : Type := mk {
  bucket_name : string;
  scope_name : option string;
  collection_name : option string;
  index_name : string;
  num_replicas : option Z;
  fields : list string;
  deferred : option bool;
  ignore_if_exists : option bool;
  on_behalf_of : option OnBehalfOfInfo;
  endpoint : option string;
  retry_strategy : T;
}.
End Fields.
#[global] Arguments CoreCreateIndexOptions : clear implicits.
End CoreCreateIndexOptions.
Abbreviation CoreCreateIndexOptions := CoreCreateIndexOptions.CoreCreateIndexOptions.
#[global] Instance core_create_index_options_settable T : Settable
    (CoreCreateIndexOptions T) := λ r,
  CoreCreateIndexOptions.mk (CoreCreateIndexOptions.bucket_name r)
    (CoreCreateIndexOptions.scope_name r) (CoreCreateIndexOptions.collection_name r)
    (CoreCreateIndexOptions.index_name r) (CoreCreateIndexOptions.num_replicas r)
    (CoreCreateIndexOptions.fields r) (CoreCreateIndexOptions.deferred r)
    (CoreCreateIndexOptions.ignore_if_exists r) (CoreCreateIndexOptions.on_behalf_of r)
    (CoreCreateIndexOptions.endpoint r) (CoreCreateIndexOptions.retry_strategy r).

Definition core_create_index_options_new (bucket_name : string) (index_name : string)
    (fields : list string) : CoreCreateIndexOptions FailFastRetryStrategy :=
  CoreCreateIndexOptions.mk bucket_name None None index_name None fields None None None None
    DEFAULT_RETRY_STRATEGY.

Definition core_create_index_options_scope_name {T : Type} (scope_name : string)
    (self : CoreCreateIndexOptions T) : CoreCreateIndexOptions T :=
  self <| CoreCreateIndexOptions.scope_name := Some scope_name |>.

Definition core_create_index_options_collection_name {T : Type} (collection_name : string)
    (self : CoreCreateIndexOptions T) : CoreCreateIndexOptions T :=
  self <| CoreCreateIndexOptions.collection_name := Some collection_name |>.

Definition core_create_index_options_num_replicas {T : Type} (num_replicas : Z)
    (self : CoreCreateIndexOptions T) : CoreCreateIndexOptions T :=
  self <| CoreCreateIndexOptions.num_replicas := Some num_replicas |>.

Definition core_create_index_options_deferred {T : Type} (deferred : bool)
    (self : CoreCreateIndexOptions T) : CoreCreateIndexOptions T :=
  self <| CoreCreateIndexOptions.deferred := Some deferred |>.

Definition core_create_index_options_ignore_if_exists {T : Type} (ignore_if_exists : bool)
    (self : CoreCreateIndexOptions T) : CoreCreateIndexOptions T :=
  self <| CoreCreateIndexOptions.ignore_if_exists := Some ignore_if_exists |>.

Definition core_create_index_options_on_behalf_of {T : Type} (on_behalf_of : OnBehalfOfInfo)
    (self : CoreCreateIndexOptions T) : CoreCreateIndexOptions T :=
  self <| CoreCreateIndexOptions.on_behalf_of := Some on_behalf_of |>.

Definition core_create_index_options_endpoint {T : Type} (endpoint : string)
    (self : CoreCreateIndexOptions T) : CoreCreateIndexOptions T :=
  self <| CoreCreateIndexOptions.endpoint := Some endpoint |>.

Definition core_create_index_options_retry_strategy {T T' : Type} (retry_strategy : T')
    (self : CoreCreateIndexOptions T) : CoreCreateIndexOptions T' :=
  CoreCreateIndexOptions.mk (CoreCreateIndexOptions.bucket_name self)
    (CoreCreateIndexOptions.scope_name self) (CoreCreateIndexOptions.collection_name self)
    (CoreCreateIndexOptions.index_name self) (CoreCreateIndexOptions.num_replicas self)
    (CoreCreateIndexOptions.fields self) (CoreCreateIndexOptions.deferred self)
    (CoreCreateIndexOptions.ignore_if_exists self) (CoreCreateIndexOptions.on_behalf_of self)
    (CoreCreateIndexOptions.endpoint self) retry_strategy.

Definition core_create_index_options_into {T : Type}
    (opts : CoreCreateIndexOptions T) : CreateIndexOptions :=
  CreateIndexOptions.mk (CoreCreateIndexOptions.bucket_name opts)
    (CoreCreateIndexOptions.scope_name opts) (CoreCreateIndexOptions.collection_name opts)
    (CoreCreateIndexOptions.index_name opts) (CoreCreateIndexOptions.num_replicas opts)
    (CoreCreateIndexOptions.fields opts) (CoreCreateIndexOptions.deferred opts)
    (CoreCreateIndexOptions.ignore_if_exists opts) (CoreCreateIndexOptions.on_behalf_of opts).

Module CoreDropPrimaryIndexOptions.
Section Fields.
Context {T : Type}.
Record CoreDropPrimaryIndexOptions : Type := mk {
  bucket_name : string;
  scope_name : option string;
  collection_name : option string;
  index_name : option string;
  ignore_if_not_exists : option bool;
  on_behalf_of : option OnBehalfOfInfo;
  endpoint : option string;
  retry_strategy : T;
}.
End Fields.
#[global] Arguments CoreDropPrimaryIndexOptions : clear implicits.
End CoreDropPrimaryIndexOptions.
Abbreviation CoreDropPrimaryIndexOptions := CoreDropPrimaryIndexOptions.CoreDropPrimaryIndexOptions.
#[global] Instance core_drop_primary_index_options_settable T : Settable
    (CoreDropPrimaryIndexOptions T) := λ r,
  CoreDropPrimaryIndexOptions.mk (CoreDropPrimaryIndexOptions.bucket_name r)
    (CoreDropPrimaryIndexOptions.scope_name r) (CoreDropPrimaryIndexOptions.collection_name r)
    (CoreDropPrimaryIndexOptions.index_name r)
    (CoreDropPrimaryIndexOptions.ignore_if_not_exists r)
    (CoreDropPrimaryIndexOptions.on_behalf_of r) (CoreDropPrimaryIndexOptions.endpoint r)
    (CoreDropPrimaryIndexOptions.retry_strategy r).

Definition core_drop_primary_index_options_new
    (bucket_name : string) : CoreDropPrimaryIndexOptions FailFastRetryStrategy :=
  CoreDropPrimaryIndexOptions.mk bucket_name None None None None None None DEFAULT_RETRY_STRATEGY.

Definition core_drop_primary_index_options_scope_name {T : Type} (scope_name : string)
    (self : CoreDropPrimaryIndexOptions T) : CoreDropPrimaryIndexOptions T :=
  self <| CoreDropPrimaryIndexOptions.scope_name := Some scope_name |>.

Definition core_drop_primary_index_options_collection_name {T : Type} (collection_name : string)
    (self : CoreDropPrimaryIndexOptions T) : CoreDropPrimaryIndexOptions T :=
  self <| CoreDropPrimaryIndexOptions.collection_name := Some collection_name |>.

Definition core_drop_primary_index_options_index_name {T : Type} (index_name : string)
    (self : CoreDropPrimaryIndexOptions T) : CoreDropPrimaryIndexOptions T :=
  self <| CoreDropPrimaryIndexOptions.index_name := Some index_name |>.

Definition core_drop_primary_index_options_ignore_if_not_exists {T : Type}
    (ignore_if_not_exists : bool)
    (self : CoreDropPrimaryIndexOptions T) : CoreDropPrimaryIndexOptions T :=
  self <| CoreDropPrimaryIndexOptions.ignore_if_not_exists := Some ignore_if_not_exists |>.

Definition core_drop_primary_index_options_on_behalf_of {T : Type} (on_behalf_of : OnBehalfOfInfo)
    (self : CoreDropPrimaryIndexOptions T) : CoreDropPrimaryIndexOptions T :=
  self <| CoreDropPrimaryIndexOptions.on_behalf_of := Some on_behalf_of |>.

Definition core_drop_primary_index_options_endpoint {T : Type} (endpoint : string)
    (self : CoreDropPrimaryIndexOptions T) : CoreDropPrimaryIndexOptions T :=
  self <| CoreDropPrimaryIndexOptions.endpoint := Some endpoint |>.

Definition core_drop_primary_index_options_retry_strategy {T T' : Type} (retry_strategy : T')
    (self : CoreDropPrimaryIndexOptions T) : CoreDropPrimaryIndexOptions T' :=
  CoreDropPrimaryIndexOptions.mk (CoreDropPrimaryIndexOptions.bucket_name self)
    (CoreDropPrimaryIndexOptions.scope_name self)
    (CoreDropPrimaryIndexOptions.collection_name self)
    (CoreDropPrimaryIndexOptions.index_name self)
    (CoreDropPrimaryIndexOptions.ignore_if_not_exists self)
    (CoreDropPrimaryIndexOptions.on_behalf_of self)
    (CoreDropPrimaryIndexOptions.endpoint self) retry_strategy.

Definition core_drop_primary_index_options_into {T : Type}
    (opts : CoreDropPrimaryIndexOptions T) : DropPrimaryIndexOptions :=
  DropPrimaryIndexOptions.mk (CoreDropPrimaryIndexOptions.bucket_name opts)
    (CoreDropPrimaryIndexOptions.scope_name opts)
    (CoreDropPrimaryIndexOptions.collection_name opts)
    (CoreDropPrimaryIndexOptions.index_name opts)
    (CoreDropPrimaryIndexOptions.ignore_if_not_exists opts)
    (CoreDropPrimaryIndexOptions.on_behalf_of opts).

Module CoreDropIndexOptions.
Section Fields.
Context {T : Type}.
Record CoreDropIndexOptions : Type := mk {
  bucket_name : string;
  scope_name : option string;
  collection_name : option string;
  index_name : string;
  ignore_if_not_exists : option bool;
  on_behalf_of : option OnBehalfOfInfo;
  endpoint : option string;
  retry_strategy : T;
}.
End Fields.
#[global] Arguments CoreDropIndexOptions : clear implicits.
End CoreDropIndexOptions.
Abbreviation CoreDropIndexOptions := CoreDropIndexOptions.CoreDropIndexOptions.
#[global] Instance core_drop_index_options_settable T : Settable (CoreDropIndexOptions T) := λ r,
  CoreDropIndexOptions.mk (CoreDropIndexOptions.bucket_name r) (CoreDropIndexOptions.scope_name r)
    (CoreDropIndexOptions.collection_name r) (CoreDropIndexOptions.index_name r)
    (CoreDropIndexOptions.ignore_if_not_exists r) (CoreDropIndexOptions.on_behalf_of r)
    (CoreDropIndexOptions.endpoint r) (CoreDropIndexOptions.retry_strategy r).

Definition core_drop_index_options_new (bucket_name : string)
    (index_name : string) : CoreDropIndexOptions FailFastRetryStrategy :=
  CoreDropIndexOptions.mk bucket_name None None index_name None None None DEFAULT_RETRY_STRATEGY.

Definition core_drop_index_options_scope_name {T : Type} (scope_name : string)
    (self : CoreDropIndexOptions T) : CoreDropIndexOptions T :=
  self <| CoreDropIndexOptions.scope_name := Some scope_name |>.

Definition core_drop_index_options_collection_name {T : Type} (collection_name : string)
    (self : CoreDropIndexOptions T) : CoreDropIndexOptions T :=
  self <| CoreDropIndexOptions.collection_name := Some collection_name |>.

Definition core_drop_index_options_ignore_if_not_exists {T : Type} (ignore_if_not_exists : bool)
    (self : CoreDropIndexOptions T) : CoreDropIndexOptions T :=
  self <| CoreDropIndexOptions.ignore_if_not_exists := Some ignore_if_not_exists |>.

Definition core_drop_index_options_on_behalf_of {T : Type} (on_behalf_of : OnBehalfOfInfo)
    (self : CoreDropIndexOptions T) : CoreDropIndexOptions T :=
  self <| CoreDropIndexOptions.on_behalf_of := Some on_behalf_of |>.

Definition core_drop_index_options_endpoint {T : Type} (endpoint : string)
    (self : CoreDropIndexOptions T) : CoreDropIndexOptions T :=
  self <| CoreDropIndexOptions.endpoint := Some endpoint |>.

Definition core_drop_index_options_retry_strategy {T T' : Type} (retry_strategy : T')
    (self : CoreDropIndexOptions T) : CoreDropIndexOptions T' :=
  CoreDropIndexOptions.mk (CoreDropIndexOptions.bucket_name self)
    (CoreDropIndexOptions.scope_name self) (CoreDropIndexOptions.collection_name self)
    (CoreDropIndexOptions.index_name self) (CoreDropIndexOptions.ignore_if_not_exists self)
    (CoreDropIndexOptions.on_behalf_of self) (CoreDropIndexOptions.endpoint self) retry_strategy.

Definition core_drop_index_options_into {T : Type}
    (opts : CoreDropIndexOptions T) : DropIndexOptions :=
  DropIndexOptions.mk (CoreDropIndexOptions.bucket_name opts)
    (CoreDropIndexOptions.scope_name opts) (CoreDropIndexOptions.collection_name opts)
    (CoreDropIndexOptions.index_name opts) (CoreDropIndexOptions.ignore_if_not_exists opts)
    (CoreDropIndexOptions.on_behalf_of opts).

Module CoreBuildDeferredIndexesOptions.
Section Fields.
Context {T : Type}.
Record CoreBuildDeferredIndexesOptions : Type := mk {
  bucket_name : string;
  scope_name : option string;
  collection_name : option string;
  on_behalf_of : option OnBehalfOfInfo;
  endpoint : option string;
  retry_strategy : T;
}.
End Fields.
#[global] Arguments CoreBuildDeferredIndexesOptions : clear implicits.
End CoreBuildDeferredIndexesOptions.
Abbreviation CoreBuildDeferredIndexesOptions :=
    CoreBuildDeferredIndexesOptions.CoreBuildDeferredIndexesOptions.
#[global] Instance core_build_deferred_indexes_options_settable T : Settable
    (CoreBuildDeferredIndexesOptions T) := λ r,
  CoreBuildDeferredIndexesOptions.mk (CoreBuildDeferredIndexesOptions.bucket_name r)
    (CoreBuildDeferredIndexesOptions.scope_name r)
    (CoreBuildDeferredIndexesOptions.collection_name r)
    (CoreBuildDeferredIndexesOptions.on_behalf_of r) (CoreBuildDeferredIndexesOptions.endpoint r)
    (CoreBuildDeferredIndexesOptions.retry_strategy r).

Definition core_build_deferred_indexes_options_new
    (bucket_name : string) : CoreBuildDeferredIndexesOptions FailFastRetryStrategy :=
  CoreBuildDeferredIndexesOptions.mk bucket_name None None None None DEFAULT_RETRY_STRATEGY.

Definition core_build_deferred_indexes_options_scope_name {T : Type} (scope_name : string)
    (self : CoreBuildDeferredIndexesOptions T) : CoreBuildDeferredIndexesOptions T :=
  self <| CoreBuildDeferredIndexesOptions.scope_name := Some scope_name |>.

Definition core_build_deferred_indexes_options_collection_name {T : Type}
    (collection_name : string)
    (self : CoreBuildDeferredIndexesOptions T) : CoreBuildDeferredIndexesOptions T :=
  self <| CoreBuildDeferredIndexesOptions.collection_name := Some collection_name |>.

Definition core_build_deferred_indexes_options_on_behalf_of {T : Type}
    (on_behalf_of : OnBehalfOfInfo)
    (self : CoreBuildDeferredIndexesOptions T) : CoreBuildDeferredIndexesOptions T :=
  self <| CoreBuildDeferredIndexesOptions.on_behalf_of := Some on_behalf_of |>.

Definition core_build_deferred_indexes_options_endpoint {T : Type} (endpoint : string)
    (self : CoreBuildDeferredIndexesOptions T) : CoreBuildDeferredIndexesOptions T :=
  self <| CoreBuildDeferredIndexesOptions.endpoint := Some endpoint |>.

Definition core_build_deferred_indexes_options_retry_strategy {T T' : Type} (retry_strategy : T')
    (self : CoreBuildDeferredIndexesOptions T) : CoreBuildDeferredIndexesOptions T' :=
  CoreBuildDeferredIndexesOptions.mk (CoreBuildDeferredIndexesOptions.bucket_name self)
    (CoreBuildDeferredIndexesOptions.scope_name self)
    (CoreBuildDeferredIndexesOptions.collection_name self)
    (CoreBuildDeferredIndexesOptions.on_behalf_of self)
    (CoreBuildDeferredIndexesOptions.endpoint self) retry_strategy.

Definition core_build_deferred_indexes_options_into {T : Type}
    (opts : CoreBuildDeferredIndexesOptions T) : BuildDeferredIndexesOptions :=
  BuildDeferredIndexesOptions.mk (CoreBuildDeferredIndexesOptions.bucket_name opts)
    (CoreBuildDeferredIndexesOptions.scope_name opts)
    (CoreBuildDeferredIndexesOptions.collection_name opts)
    (CoreBuildDeferredIndexesOptions.on_behalf_of opts).

Module CoreWatchIndexesOptions.
Section Fields.
Context {T : Type}.
Record CoreWatchIndexesOptions : Type := mk {
  bucket_name : string;
  scope_name : option string;
  collection_name : option string;
  indexes : list string;
  watch_primary : option bool;
  on_behalf_of : option OnBehalfOfInfo;
  endpoint : option string;
  retry_strategy : T;
}.
End Fields.
#[global] Arguments CoreWatchIndexesOptions : clear implicits.
End CoreWatchIndexesOptions.
Abbreviation CoreWatchIndexesOptions := CoreWatchIndexesOptions.CoreWatchIndexesOptions.
#[global] Instance core_watch_indexes_options_settable T : Settable
    (CoreWatchIndexesOptions T) := λ r,
  CoreWatchIndexesOptions.mk (CoreWatchIndexesOptions.bucket_name r)
    (CoreWatchIndexesOptions.scope_name r) (CoreWatchIndexesOptions.collection_name r)
    (CoreWatchIndexesOptions.indexes r) (CoreWatchIndexesOptions.watch_primary r)
    (CoreWatchIndexesOptions.on_behalf_of r) (CoreWatchIndexesOptions.endpoint r)
    (CoreWatchIndexesOptions.retry_strategy r).

Definition core_watch_indexes_options_new (bucket_name : string)
    (indexes : list string) : CoreWatchIndexesOptions FailFastRetryStrategy :=
  CoreWatchIndexesOptions.mk bucket_name None None indexes None None None DEFAULT_RETRY_STRATEGY.

Definition core_watch_indexes_options_scope_name {T : Type} (scope_name : string)
    (self : CoreWatchIndexesOptions T) : CoreWatchIndexesOptions T :=
  self <| CoreWatchIndexesOptions.scope_name := Some scope_name |>.

Definition core_watch_indexes_options_collection_name {T : Type} (collection_name : string)
    (self : CoreWatchIndexesOptions T) : CoreWatchIndexesOptions T :=
  self <| CoreWatchIndexesOptions.collection_name := Some collection_name |>.

Definition core_watch_indexes_options_watch_primary {T : Type} (watch_primary : bool)
    (self : CoreWatchIndexesOptions T) : CoreWatchIndexesOptions T :=
  self <| CoreWatchIndexesOptions.watch_primary := Some watch_primary |>.

Definition core_watch_indexes_options_on_behalf_of {T : Type} (on_behalf_of : OnBehalfOfInfo)
    (self : CoreWatchIndexesOptions T) : CoreWatchIndexesOptions T :=
  self <| CoreWatchIndexesOptions.on_behalf_of := Some on_behalf_of |>.

Definition core_watch_indexes_options_endpoint {T : Type} (endpoint : string)
    (self : CoreWatchIndexesOptions T) : CoreWatchIndexesOptions T :=
  self <| CoreWatchIndexesOptions.endpoint := Some endpoint |>.

Definition core_watch_indexes_options_retry_strategy {T T' : Type} (retry_strategy : T')
    (self : CoreWatchIndexesOptions T) : CoreWatchIndexesOptions T' :=
  CoreWatchIndexesOptions.mk (CoreWatchIndexesOptions.bucket_name self)
    (CoreWatchIndexesOptions.scope_name self) (CoreWatchIndexesOptions.collection_name self)
    (CoreWatchIndexesOptions.indexes self) (CoreWatchIndexesOptions.watch_primary self)
    (CoreWatchIndexesOptions.on_behalf_of self)
    (CoreWatchIndexesOptions.endpoint self) retry_strategy.

Definition core_watch_indexes_options_into {T : Type}
    (opts : CoreWatchIndexesOptions T) : WatchIndexesOptions :=
  WatchIndexesOptions.mk (CoreWatchIndexesOptions.bucket_name opts)
    (CoreWatchIndexesOptions.scope_name opts) (CoreWatchIndexesOptions.collection_name opts)
    (CoreWatchIndexesOptions.indexes opts) (CoreWatchIndexesOptions.watch_primary opts)
    (CoreWatchIndexesOptions.on_behalf_of opts).

Module CoreEnsureIndexOptions.
Record CoreEnsureIndexOptions : Type := mk {
  index_name : string;
  bucket_name : string;
  scope_name : option string;
  collection_name : option string;
  on_behalf_of_info : option OnBehalfOfInfo;
  desired_state : DesiredState;
}.
End CoreEnsureIndexOptions.
Abbreviation CoreEnsureIndexOptions := CoreEnsureIndexOptions.CoreEnsureIndexOptions.
#[global] Instance core_ensure_index_options_settable : Settable (CoreEnsureIndexOptions) := λ r,
  CoreEnsureIndexOptions.mk (CoreEnsureIndexOptions.index_name r)
    (CoreEnsureIndexOptions.bucket_name r) (CoreEnsureIndexOptions.scope_name r)
    (CoreEnsureIndexOptions.collection_name r) (CoreEnsureIndexOptions.on_behalf_of_info r)
    (CoreEnsureIndexOptions.desired_state r).

Definition core_ensure_index_options_new (index_name : string) (bucket_name : string)
    (scope_name : option string) (collection_name : option string)
    (desired_state : DesiredState) : CoreEnsureIndexOptions :=
  CoreEnsureIndexOptions.mk index_name bucket_name scope_name collection_name None desired_state.
