(* ===== verification/Analytics.v ===== *)
(** * The analytics service ([analyticsx/], [options/analytics.rs], [results/analytics.rs],
    [analyticscomponent.rs])

    First the options of the client and of the agent, with their setters, the conversion from the
    second to the first and the JSON object that the first are sent as; then the client with the
    reader of its answers; then the operations of the agent.  [V] is the type of a JSON value, [T]
    that of a retry strategy. *)

From S2P Require Import Prelude Text HttpxError Durations JsonScanner JsonDecoder RowStreamer RowReader.
From S2P Require Import Wire Bootstrap CoreError Retry CrudOptions Http AnalyticsxError QueryxOptions.

(** * Options of analytics queries ([analyticsx/query_options.rs], [options/analytics.rs])

    The options of the analytics client and those of the agent, with their setters, the
    conversion from the second to the first, and the JSON object that the first are sent as.
    [V] is the type of a JSON value, [T] that of a retry strategy. *)

(** ** Choices *)

Inductive AnalyticsScanConsistency : Type := NotBounded | RequestPlus.

Inductive AnalyticsFormat : Type := Json.

Module PlanFormat.
Inductive PlanFormat : Type := Json | String_.
End PlanFormat.

(** ** Options of the client *)

Module AnalyticsQueryOptions.
Section Fields.
Context {V : Type}.
Record AnalyticsQueryOptions : Type := mk {
  args : option (list V);
  client_context_id : option string;
  format : option AnalyticsFormat;
  pretty : option bool;
  query_context : option string;
  read_only : option bool;
  scan_consistency : option AnalyticsScanConsistency;
  scan_wait : option Duration;
  statement : option string;
  timeout : option Duration;
  named_args : option (gmap string V);
  raw : option (gmap string V);
  plan_format : option PlanFormat.PlanFormat;
  logical_plan : option bool;
  optimized_logical_plan : option bool;
  expression_tree : option bool;
  rewritten_expression_tree : option bool;
  job : option bool;
  max_warnings : option Z;
  on_behalf_of : option OnBehalfOfInfo;
}.
End Fields.
#[global] Arguments AnalyticsQueryOptions : clear implicits.
End AnalyticsQueryOptions.
Abbreviation AnalyticsQueryOptions := AnalyticsQueryOptions.AnalyticsQueryOptions.
#[global] Instance analytics_query_options_settable V : Settable (AnalyticsQueryOptions V) := λ r,
  AnalyticsQueryOptions.mk (AnalyticsQueryOptions.args r) (AnalyticsQueryOptions.client_context_id r)
    (AnalyticsQueryOptions.format r) (AnalyticsQueryOptions.pretty r) (AnalyticsQueryOptions.query_context r)
    (AnalyticsQueryOptions.read_only r) (AnalyticsQueryOptions.scan_consistency r)
    (AnalyticsQueryOptions.scan_wait r) (AnalyticsQueryOptions.statement r) (AnalyticsQueryOptions.timeout r)
    (AnalyticsQueryOptions.named_args r) (AnalyticsQueryOptions.raw r) (AnalyticsQueryOptions.plan_format r)
    (AnalyticsQueryOptions.logical_plan r) (AnalyticsQueryOptions.optimized_logical_plan r)
    (AnalyticsQueryOptions.expression_tree r) (AnalyticsQueryOptions.rewritten_expression_tree r)
    (AnalyticsQueryOptions.job r) (AnalyticsQueryOptions.max_warnings r) (AnalyticsQueryOptions.on_behalf_of r).

Definition analytics_query_options_new {V : Type} : AnalyticsQueryOptions V :=
  AnalyticsQueryOptions.mk None None None None None None None None None None None None None None None None None
    None None None.

Definition analytics_query_options_args {V : Type} (args : option (list V))
    (self : AnalyticsQueryOptions V) : AnalyticsQueryOptions V :=
  self <| AnalyticsQueryOptions.args := args |>.

Definition analytics_query_options_client_context_id {V : Type} (client_context_id : option string)
    (self : AnalyticsQueryOptions V) : AnalyticsQueryOptions V :=
  self <| AnalyticsQueryOptions.client_context_id := client_context_id |>.

Definition analytics_query_options_pretty {V : Type} (pretty : option bool)
    (self : AnalyticsQueryOptions V) : AnalyticsQueryOptions V :=
  self <| AnalyticsQueryOptions.pretty := pretty |>.

Definition analytics_query_options_query_context {V : Type} (query_context : option string)
    (self : AnalyticsQueryOptions V) : AnalyticsQueryOptions V :=
  self <| AnalyticsQueryOptions.query_context := query_context |>.

Definition analytics_query_options_read_only {V : Type} (read_only : option bool)
    (self : AnalyticsQueryOptions V) : AnalyticsQueryOptions V :=
  self <| AnalyticsQueryOptions.read_only := read_only |>.

Definition analytics_query_options_scan_consistency {V : Type} (scan_consistency : option AnalyticsScanConsistency)
    (self : AnalyticsQueryOptions V) : AnalyticsQueryOptions V :=
  self <| AnalyticsQueryOptions.scan_consistency := scan_consistency |>.

Definition analytics_query_options_scan_wait {V : Type} (scan_wait : option Duration)
    (self : AnalyticsQueryOptions V) : AnalyticsQueryOptions V :=
  self <| AnalyticsQueryOptions.scan_wait := scan_wait |>.

Definition analytics_query_options_statement {V : Type} (statement : option string)
    (self : AnalyticsQueryOptions V) : AnalyticsQueryOptions V :=
  self <| AnalyticsQueryOptions.statement := statement |>.

Definition analytics_query_options_timeout {V : Type} (timeout : option Duration)
    (self : AnalyticsQueryOptions V) : AnalyticsQueryOptions V :=
  self <| AnalyticsQueryOptions.timeout := timeout |>.

Definition analytics_query_options_named_args {V : Type} (named_args : option (gmap string V))
    (self : AnalyticsQueryOptions V) : AnalyticsQueryOptions V :=
  self <| AnalyticsQueryOptions.named_args := named_args |>.

Definition analytics_query_options_raw {V : Type} (raw : option (gmap string V))
    (self : AnalyticsQueryOptions V) : AnalyticsQueryOptions V :=
  self <| AnalyticsQueryOptions.raw := raw |>.

Definition analytics_query_options_plan_format {V : Type} (plan_format : option PlanFormat.PlanFormat)
    (self : AnalyticsQueryOptions V) : AnalyticsQueryOptions V :=
  self <| AnalyticsQueryOptions.plan_format := plan_format |>.

Definition analytics_query_options_logical_plan {V : Type} (logical_plan : option bool)
    (self : AnalyticsQueryOptions V) : AnalyticsQueryOptions V :=
  self <| AnalyticsQueryOptions.logical_plan := logical_plan |>.

Definition analytics_query_options_optimized_logical_plan {V : Type} (optimized_logical_plan : option bool)
    (self : AnalyticsQueryOptions V) : AnalyticsQueryOptions V :=
  self <| AnalyticsQueryOptions.optimized_logical_plan := optimized_logical_plan |>.

Definition analytics_query_options_expression_tree {V : Type} (expression_tree : option bool)
    (self : AnalyticsQueryOptions V) : AnalyticsQueryOptions V :=
  self <| AnalyticsQueryOptions.expression_tree := expression_tree |>.

Definition analytics_query_options_rewritten_expression_tree {V : Type} (rewritten_expression_tree : option bool)
    (self : AnalyticsQueryOptions V) : AnalyticsQueryOptions V :=
  self <| AnalyticsQueryOptions.rewritten_expression_tree := rewritten_expression_tree |>.

Definition analytics_query_options_job {V : Type} (job : option bool)
    (self : AnalyticsQueryOptions V) : AnalyticsQueryOptions V :=
  self <| AnalyticsQueryOptions.job := job |>.

Definition analytics_query_options_max_warnings {V : Type} (max_warnings : option Z)
    (self : AnalyticsQueryOptions V) : AnalyticsQueryOptions V :=
  self <| AnalyticsQueryOptions.max_warnings := max_warnings |>.

Definition analytics_query_options_on_behalf_of {V : Type} (on_behalf_of : option OnBehalfOfInfo)
    (self : AnalyticsQueryOptions V) : AnalyticsQueryOptions V :=
  self <| AnalyticsQueryOptions.on_behalf_of := on_behalf_of |>.

Module AnalyticsPingOptions.
Record AnalyticsPingOptions : Type := mk {
  on_behalf_of : option OnBehalfOfInfo;
}.
End AnalyticsPingOptions.
Abbreviation AnalyticsPingOptions := AnalyticsPingOptions.AnalyticsPingOptions.
#[global] Instance analytics_ping_options_settable : Settable (AnalyticsPingOptions) := λ r,
  AnalyticsPingOptions.mk (AnalyticsPingOptions.on_behalf_of r).

Definition analytics_ping_options_new : AnalyticsPingOptions :=
  AnalyticsPingOptions.mk None.

Definition analytics_ping_options_on_behalf_of (on_behalf_of : option OnBehalfOfInfo)
    (self : AnalyticsPingOptions) : AnalyticsPingOptions :=
  self <| AnalyticsPingOptions.on_behalf_of := on_behalf_of |>.

Module AnalyticsGetPendingMutationsOptions.
Record AnalyticsGetPendingMutationsOptions : Type := mk {
  on_behalf_of : option OnBehalfOfInfo;
}.
End AnalyticsGetPendingMutationsOptions.
Abbreviation AnalyticsGetPendingMutationsOptions :=
    AnalyticsGetPendingMutationsOptions.AnalyticsGetPendingMutationsOptions.
#[global] Instance analytics_get_pending_mutations_options_settable : Settable
    (AnalyticsGetPendingMutationsOptions) := λ r,
  AnalyticsGetPendingMutationsOptions.mk (AnalyticsGetPendingMutationsOptions.on_behalf_of r).

Definition analytics_get_pending_mutations_options_new : AnalyticsGetPendingMutationsOptions :=
  AnalyticsGetPendingMutationsOptions.mk None.

Definition analytics_get_pending_mutations_options_on_behalf_of (on_behalf_of : option OnBehalfOfInfo)
    (self : AnalyticsGetPendingMutationsOptions) : AnalyticsGetPendingMutationsOptions :=
  self <| AnalyticsGetPendingMutationsOptions.on_behalf_of := on_behalf_of |>.

(** ** Options of the agent *)

Module CoreAnalyticsOptions.
Section Fields.
Context {T V : Type}.
Record CoreAnalyticsOptions : Type := mk {
  args : option (list V);
  client_context_id : option string;
  format : option AnalyticsFormat;
  pretty : option bool;
  query_context : option string;
  read_only : option bool;
  scan_consistency : option AnalyticsScanConsistency;
  scan_wait : option Duration;
  statement : option string;
  timeout : option Duration;
  named_args : option (gmap string V);
  raw : option (gmap string V);
  plan_format : option PlanFormat.PlanFormat;
  logical_plan : option bool;
  optimized_logical_plan : option bool;
  expression_tree : option bool;
  rewritten_expression_tree : option bool;
  job : option bool;
  max_warnings : option Z;
  on_behalf_of : option OnBehalfOfInfo;
  endpoint : option string;
  retry_strategy : T;
}.
End Fields.
#[global] Arguments CoreAnalyticsOptions : clear implicits.
End CoreAnalyticsOptions.
Abbreviation CoreAnalyticsOptions := CoreAnalyticsOptions.CoreAnalyticsOptions.
#[global] Instance core_analytics_options_settable T V : Settable (CoreAnalyticsOptions T V) := λ r,
  CoreAnalyticsOptions.mk (CoreAnalyticsOptions.args r) (CoreAnalyticsOptions.client_context_id r)
    (CoreAnalyticsOptions.format r) (CoreAnalyticsOptions.pretty r) (CoreAnalyticsOptions.query_context r)
    (CoreAnalyticsOptions.read_only r) (CoreAnalyticsOptions.scan_consistency r) (CoreAnalyticsOptions.scan_wait
    r) (CoreAnalyticsOptions.statement r) (CoreAnalyticsOptions.timeout r) (CoreAnalyticsOptions.named_args r)
    (CoreAnalyticsOptions.raw r) (CoreAnalyticsOptions.plan_format r) (CoreAnalyticsOptions.logical_plan r)
    (CoreAnalyticsOptions.optimized_logical_plan r) (CoreAnalyticsOptions.expression_tree r)
    (CoreAnalyticsOptions.rewritten_expression_tree r) (CoreAnalyticsOptions.job r)
    (CoreAnalyticsOptions.max_warnings r) (CoreAnalyticsOptions.on_behalf_of r) (CoreAnalyticsOptions.endpoint
    r) (CoreAnalyticsOptions.retry_strategy r).

Definition core_analytics_options_new {V : Type} : CoreAnalyticsOptions FailFastRetryStrategy V :=
  CoreAnalyticsOptions.mk None None None None None None None None None None None None None None None None None
    None None None None DEFAULT_RETRY_STRATEGY.

Definition core_analytics_options_args {T V : Type} (args : option (list V))
    (self : CoreAnalyticsOptions T V) : CoreAnalyticsOptions T V :=
  self <| CoreAnalyticsOptions.args := args |>.

Definition core_analytics_options_client_context_id {T V : Type} (client_context_id : option string)
    (self : CoreAnalyticsOptions T V) : CoreAnalyticsOptions T V :=
  self <| CoreAnalyticsOptions.client_context_id := client_context_id |>.

Definition core_analytics_options_pretty {T V : Type} (pretty : option bool)
    (self : CoreAnalyticsOptions T V) : CoreAnalyticsOptions T V :=
  self <| CoreAnalyticsOptions.pretty := pretty |>.

Definition core_analytics_options_query_context {T V : Type} (query_context : option string)
    (self : CoreAnalyticsOptions T V) : CoreAnalyticsOptions T V :=
  self <| CoreAnalyticsOptions.query_context := query_context |>.

Definition core_analytics_options_read_only {T V : Type} (read_only : option bool)
    (self : CoreAnalyticsOptions T V) : CoreAnalyticsOptions T V :=
  self <| CoreAnalyticsOptions.read_only := read_only |>.

Definition core_analytics_options_scan_consistency {T V : Type} (scan_consistency : option AnalyticsScanConsistency)
    (self : CoreAnalyticsOptions T V) : CoreAnalyticsOptions T V :=
  self <| CoreAnalyticsOptions.scan_consistency := scan_consistency |>.

Definition core_analytics_options_scan_wait {T V : Type} (scan_wait : option Duration)
    (self : CoreAnalyticsOptions T V) : CoreAnalyticsOptions T V :=
  self <| CoreAnalyticsOptions.scan_wait := scan_wait |>.

Definition core_analytics_options_statement {T V : Type} (statement : option string)
    (self : CoreAnalyticsOptions T V) : CoreAnalyticsOptions T V :=
  self <| CoreAnalyticsOptions.statement := statement |>.

Definition core_analytics_options_timeout {T V : Type} (timeout : option Duration)
    (self : CoreAnalyticsOptions T V) : CoreAnalyticsOptions T V :=
  self <| CoreAnalyticsOptions.timeout := timeout |>.

Definition core_analytics_options_named_args {T V : Type} (named_args : option (gmap string V))
    (self : CoreAnalyticsOptions T V) : CoreAnalyticsOptions T V :=
  self <| CoreAnalyticsOptions.named_args := named_args |>.

Definition core_analytics_options_raw {T V : Type} (raw : option (gmap string V))
    (self : CoreAnalyticsOptions T V) : CoreAnalyticsOptions T V :=
  self <| CoreAnalyticsOptions.raw := raw |>.

Definition core_analytics_options_plan_format {T V : Type} (plan_format : option PlanFormat.PlanFormat)
    (self : CoreAnalyticsOptions T V) : CoreAnalyticsOptions T V :=
  self <| CoreAnalyticsOptions.plan_format := plan_format |>.

Definition core_analytics_options_logical_plan {T V : Type} (logical_plan : option bool)
    (self : CoreAnalyticsOptions T V) : CoreAnalyticsOptions T V :=
  self <| CoreAnalyticsOptions.logical_plan := logical_plan |>.

Definition core_analytics_options_optimized_logical_plan {T V : Type} (optimized_logical_plan : option bool)
    (self : CoreAnalyticsOptions T V) : CoreAnalyticsOptions T V :=
  self <| CoreAnalyticsOptions.optimized_logical_plan := optimized_logical_plan |>.

Definition core_analytics_options_expression_tree {T V : Type} (expression_tree : option bool)
    (self : CoreAnalyticsOptions T V) : CoreAnalyticsOptions T V :=
  self <| CoreAnalyticsOptions.expression_tree := expression_tree |>.

Definition core_analytics_options_rewritten_expression_tree {T V : Type} (rewritten_expression_tree : option bool)
    (self : CoreAnalyticsOptions T V) : CoreAnalyticsOptions T V :=
  self <| CoreAnalyticsOptions.rewritten_expression_tree := rewritten_expression_tree |>.

Definition core_analytics_options_job {T V : Type} (job : option bool)
    (self : CoreAnalyticsOptions T V) : CoreAnalyticsOptions T V :=
  self <| CoreAnalyticsOptions.job := job |>.

Definition core_analytics_options_max_warnings {T V : Type} (max_warnings : option Z)
    (self : CoreAnalyticsOptions T V) : CoreAnalyticsOptions T V :=
  self <| CoreAnalyticsOptions.max_warnings := max_warnings |>.

Definition core_analytics_options_on_behalf_of {T V : Type} (on_behalf_of : option OnBehalfOfInfo)
    (self : CoreAnalyticsOptions T V) : CoreAnalyticsOptions T V :=
  self <| CoreAnalyticsOptions.on_behalf_of := on_behalf_of |>.

Definition core_analytics_options_retry_strategy {T T' V : Type} (retry_strategy : T')
    (self : CoreAnalyticsOptions T V) : CoreAnalyticsOptions T' V :=
  CoreAnalyticsOptions.mk (CoreAnalyticsOptions.args self) (CoreAnalyticsOptions.client_context_id self)
    (CoreAnalyticsOptions.format self) (CoreAnalyticsOptions.pretty self) (CoreAnalyticsOptions.query_context
    self) (CoreAnalyticsOptions.read_only self) (CoreAnalyticsOptions.scan_consistency self)
    (CoreAnalyticsOptions.scan_wait self) (CoreAnalyticsOptions.statement self) (CoreAnalyticsOptions.timeout
    self) (CoreAnalyticsOptions.named_args self) (CoreAnalyticsOptions.raw self)
    (CoreAnalyticsOptions.plan_format self) (CoreAnalyticsOptions.logical_plan self)
    (CoreAnalyticsOptions.optimized_logical_plan self) (CoreAnalyticsOptions.expression_tree self)
    (CoreAnalyticsOptions.rewritten_expression_tree self) (CoreAnalyticsOptions.job self)
    (CoreAnalyticsOptions.max_warnings self) (CoreAnalyticsOptions.on_behalf_of self)
    (CoreAnalyticsOptions.endpoint self) retry_strategy.

Definition core_analytics_options_endpoint {T V : Type} (endpoint : option string)
    (self : CoreAnalyticsOptions T V) : CoreAnalyticsOptions T V :=
  self <| CoreAnalyticsOptions.endpoint := endpoint |>.

Definition core_analytics_options_into {T V : Type} (opts : CoreAnalyticsOptions T V) : AnalyticsQueryOptions V :=
  AnalyticsQueryOptions.mk (CoreAnalyticsOptions.args opts) (CoreAnalyticsOptions.client_context_id opts)
    (CoreAnalyticsOptions.format opts) (CoreAnalyticsOptions.pretty opts) (CoreAnalyticsOptions.query_context
    opts) (CoreAnalyticsOptions.read_only opts) (CoreAnalyticsOptions.scan_consistency opts)
    (CoreAnalyticsOptions.scan_wait opts) (CoreAnalyticsOptions.statement opts) (CoreAnalyticsOptions.timeout
    opts) (CoreAnalyticsOptions.named_args opts) (CoreAnalyticsOptions.raw opts)
    (CoreAnalyticsOptions.plan_format opts) (CoreAnalyticsOptions.logical_plan opts)
    (CoreAnalyticsOptions.optimized_logical_plan opts) (CoreAnalyticsOptions.expression_tree opts)
    (CoreAnalyticsOptions.rewritten_expression_tree opts) (CoreAnalyticsOptions.job opts)
    (CoreAnalyticsOptions.max_warnings opts) (CoreAnalyticsOptions.on_behalf_of opts).

Module CoreGetPendingMutationsOptions.
Section Fields.
Context {T : Type}.
Record CoreGetPendingMutationsOptions : Type := mk {
  on_behalf_of : option OnBehalfOfInfo;
  endpoint : option string;
  retry_strategy : T;
}.
End Fields.
#[global] Arguments CoreGetPendingMutationsOptions : clear implicits.
End CoreGetPendingMutationsOptions.
Abbreviation CoreGetPendingMutationsOptions := CoreGetPendingMutationsOptions.CoreGetPendingMutationsOptions.
#[global] Instance core_get_pending_mutations_options_settable T : Settable (CoreGetPendingMutationsOptions T)
    := λ r,
  CoreGetPendingMutationsOptions.mk (CoreGetPendingMutationsOptions.on_behalf_of r)
    (CoreGetPendingMutationsOptions.endpoint r) (CoreGetPendingMutationsOptions.retry_strategy r).

Definition core_get_pending_mutations_options_new : CoreGetPendingMutationsOptions FailFastRetryStrategy :=
  CoreGetPendingMutationsOptions.mk None None DEFAULT_RETRY_STRATEGY.

Definition core_get_pending_mutations_options_on_behalf_of {T : Type} (on_behalf_of : option OnBehalfOfInfo)
    (self : CoreGetPendingMutationsOptions T) : CoreGetPendingMutationsOptions T :=
  self <| CoreGetPendingMutationsOptions.on_behalf_of := on_behalf_of |>.

Definition core_get_pending_mutations_options_retry_strategy {T T' : Type} (retry_strategy : T')
    (self : CoreGetPendingMutationsOptions T) : CoreGetPendingMutationsOptions T' :=
  CoreGetPendingMutationsOptions.mk (CoreGetPendingMutationsOptions.on_behalf_of self)
    (CoreGetPendingMutationsOptions.endpoint self) retry_strategy.

Definition core_get_pending_mutations_options_endpoint {T : Type} (endpoint : option string)
    (self : CoreGetPendingMutationsOptions T) : CoreGetPendingMutationsOptions T :=
  self <| CoreGetPendingMutationsOptions.endpoint := endpoint |>.

Definition core_get_pending_mutations_options_into {T : Type} (opts : CoreGetPendingMutationsOptions T) :
    AnalyticsGetPendingMutationsOptions :=
  AnalyticsGetPendingMutationsOptions.mk (CoreGetPendingMutationsOptions.on_behalf_of opts).

(** ** Serialization *)

Section Serialize.
Context {V : Type} `{JsonValue V}.

(** The names serde gives the variants. *)
Definition analytics_scan_consistency_json (x : AnalyticsScanConsistency) : V :=
  json_string match x with NotBounded => "not_bounded" | RequestPlus => "request_plus" end.
Definition analytics_format_json (x : AnalyticsFormat) : V := json_string "JSON".
Definition plan_format_json (x : PlanFormat.PlanFormat) : V :=
  json_string match x with PlanFormat.Json => "JSON" | PlanFormat.String_ => "STRING" end.

(** [Serialize for QueryOptions]: the entries in the order they are written. *)
Definition serialize_analytics_options {E} (o : AnalyticsQueryOptions V) : outcome E (list (string * V)) :=
  entries ← mapM (M := outcome E) id [
    entry json_array (AnalyticsQueryOptions.args o) "args";
    entry json_string (AnalyticsQueryOptions.client_context_id o) "client_context_id";
    entry analytics_format_json (AnalyticsQueryOptions.format o) "format";
    entry json_bool (AnalyticsQueryOptions.pretty o) "pretty";
    entry json_string (AnalyticsQueryOptions.query_context o) "query_context";
    entry json_bool (AnalyticsQueryOptions.read_only o) "readonly";
    entry analytics_scan_consistency_json (AnalyticsQueryOptions.scan_consistency o) "scan_consistency";
    duration_entry (AnalyticsQueryOptions.scan_wait o) "scan_wait";
    entry json_string (AnalyticsQueryOptions.statement o) "statement";
    duration_entry (AnalyticsQueryOptions.timeout o) "timeout";
    entry plan_format_json (AnalyticsQueryOptions.plan_format o) "plan_format";
    entry json_bool (AnalyticsQueryOptions.logical_plan o) "logical_plan";
    entry json_bool (AnalyticsQueryOptions.optimized_logical_plan o) "optimized_logical_plan";
    entry json_bool (AnalyticsQueryOptions.expression_tree o) "expression_tree";
    entry json_bool (AnalyticsQueryOptions.rewritten_expression_tree o) "rewritten_expression_tree";
    entry json_bool (AnalyticsQueryOptions.job o) "job";
    entry json_number (AnalyticsQueryOptions.max_warnings o) "max_warnings"];
  Ok (concat entries ++ named_arg_entries (AnalyticsQueryOptions.named_args o)
      ++ raw_entries (AnalyticsQueryOptions.raw o)).

(** [serde_json::to_value(opts)], an object. *)
Definition analytics_options_to_value {E} (o : AnalyticsQueryOptions V) : outcome E (gmap string V) :=
  entries ← serialize_analytics_options o;
  Ok (insert_entries entries ∅).

End Serialize.

(** * The analytics client ([analyticsx/analytics.rs], [analyticsx/query_respreader.rs],
    [analyticsx/query_json.rs], [analyticsx/query_result.rs])

    An analytics query is sent and answered like one of the query service: an answer with another
    status than 200 is an error made of the errors in its body; otherwise the rows are streamed
    ([RowStreamer.v]) and the metadata after them is kept, where errors of the server can still be
    found.

    Parameters are [serde_json], the text of a status code, and fresh identifiers. *)

(** ** Results ([analyticsx/query_result.rs]) *)

Module AnalyticsStatus.
Inductive Status : Type := Running | Success | Timeout | Fatal | Failed | Unknown.
End AnalyticsStatus.

Definition analytics_status_display (s : AnalyticsStatus.Status) : string :=
  match s with
  | AnalyticsStatus.Running => "running"
  | AnalyticsStatus.Success => "success"
  | AnalyticsStatus.Timeout => "timeout"
  | AnalyticsStatus.Fatal => "fatal"
  | AnalyticsStatus.Failed => "failed"
  | AnalyticsStatus.Unknown => "unknown"
  end.

Record MetadataPlans : Type := mkMetadataPlans {
  mp_logical_plan : option (list Z);
  mp_optimized_logical_plan : option (list Z);
  mp_rewritten_expression_tree : option string;
  mp_expression_tree : option string;
  mp_job : option (list Z);
}.

Record AnalyticsWarning : Type := mkAnalyticsWarning { aw_code : Z; aw_message : string }.

Record AnalyticsMetrics : Type := mkAnalyticsMetrics {
  am_elapsed_time : Z;
  am_execution_time : Z;
  am_result_count : Z;
  am_result_size : Z;
  am_error_count : Z;
  am_warning_count : Z;
  am_processed_objects : Z;
}.

Record AnalyticsMetaData : Type := mkAnalyticsMetaData {
  ad_request_id : option string;
  ad_client_context_id : option string;
  ad_status : AnalyticsStatus.Status;
  ad_warnings : list AnalyticsWarning;
  ad_metrics : option AnalyticsMetrics;
  ad_signature : option (list Z);
  ad_plans : option MetadataPlans;
}.

(** ** The documents that are read ([analyticsx/query_json.rs]) *)

Record QueryMetadataPlans : Type := mkQueryMetadataPlans {
  qp_logical_plan : option (list Z);
  qp_optimized_logical_plan : option (list Z);
  qp_rewritten_expression_tree : option string;
  qp_expression_tree : option string;
  qp_job : option (list Z);
}.

Record QueryMetrics : Type := mkQueryMetrics {
  qm_elapsed_time : option (list Z);
  qm_execution_time : option (list Z);
  qm_result_count : option Z;
  qm_result_size : option Z;
  qm_error_count : option Z;
  qm_warning_count : option Z;
  qm_processed_objects : option Z;
}.

Record QueryWarning : Type := mkQueryWarning { qw_code : option Z; qw_msg : option string }.

Record QueryError : Type := mkQueryError { qe_code : Z; qe_msg : list Z }.

Record QueryErrorResponse : Type := mkQueryErrorResponse { qer_errors : list QueryError }.

Record QueryMetaData : Type := mkQueryMetaData {
  qmd_request_id : option string;
  qmd_client_context_id : option string;
  qmd_status : AnalyticsStatus.Status;
  qmd_errors : list QueryError;
  qmd_warnings : list QueryWarning;
  qmd_metrics : option QueryMetrics;
  qmd_signature : option (list Z);
  qmd_plans : option QueryMetadataPlans;
}.

(** ** Errors *)

Definition parse_error_kind (error : QueryError) : Analyticsx.ServerErrorKind :=
  let err_code := qe_code error in
  let err_code_group := err_code / 1000 in
  if err_code_group =? 20 then Analyticsx.AuthenticationFailure
  else if err_code_group =? 24 then
    if err_code =? 24000 then Analyticsx.ParsingFailure
    else if err_code =? 24006 then Analyticsx.LinkNotFound
    else if (err_code =? 24025) || (err_code =? 24044) || (err_code =? 24045) then Analyticsx.DatasetNotFound
    else if err_code =? 24034 then Analyticsx.DataverseNotFound
    else if err_code =? 24039 then Analyticsx.DataverseExists
    else if err_code =? 24040 then Analyticsx.DatasetExists
    else if err_code =? 24047 then Analyticsx.IndexNotFound
    else if err_code =? 24048 then Analyticsx.IndexExists
    else if err_code =? 24055 then Analyticsx.LinkExists
    else Analyticsx.CompilationFailure
  else if err_code_group =? 25 then Analyticsx.Internal
  else if (err_code =? 23000) || (err_code =? 23003) then Analyticsx.TemporaryFailure
  else if err_code =? 23007 then Analyticsx.JobQueueFull
  else Analyticsx.Unknown.

Definition error_desc (error : QueryError) : Analyticsx.ErrorDesc :=
  Analyticsx.mkErrorDesc (parse_error_kind error) (qe_code error) (qe_msg error).

(** The first error is the error; all are kept when there are more. *)
Definition parse_errors (errors : list QueryError) (endpoint statement client_context_id : string)
    (status_code : Z) : outcome Analyticsx.Error Analyticsx.Error :=
  let error_descs := error_desc <$> errors in
  chosen_desc ← expect (head error_descs);
  let server_error :=
    Analyticsx.with_statement statement (Analyticsx.with_client_context_id client_context_id
      (Analyticsx.server_error_new (Analyticsx.desc_kind chosen_desc) endpoint status_code
         (Analyticsx.desc_code chosen_desc) (Analyticsx.desc_message chosen_desc))) in
  let server_error :=
    if (1 <? length error_descs)%nat then Analyticsx.with_error_descs error_descs server_error else server_error in
  Ok (Analyticsx.new_server_error server_error).

(** ** The answers ([analyticsx/query_respreader.rs]) *)


Section Client.
Context {P : Profile} {V : Type} `{JsonValue V}.
Context (status_display : Z → string).
(** [serde_json]. *)
Context (from_slice_string : list Z → string + string) (from_slice_value : list Z → string + V)
  (to_vec : gmap string V → string + list Z)
  (from_slice_error_response : list Z → string + QueryErrorResponse)
  (from_slice_metadata : list Z → string + QueryMetaData)
  (from_slice_pending : list Z → string + gmap string (gmap string Z)).

Abbreviation Error := Analyticsx.Error.

Record AnalyticsRespReader : Type := mkAnalyticsRespReader {
  ar_endpoint : string;
  ar_statement : string;
  ar_client_context_id : string;
  ar_status_code : Z;
  (** [streamer], [meta_data] and [meta_data_error]. *)
  ar_rows : RowReader V AnalyticsMetaData Error;
}.

(** [parse_duration_from_golang_string(&text).unwrap_or_default()] of an optional text. *)
Definition parse_time (text : option (list Z)) : outcome Error Z :=
  match text with
  | Some text =>
      match parse_duration_from_golang_string text with
      | Ok d => Ok d
      | Err _ => Ok 0
      | Panic => Panic
      end
  | None => Ok 0
  end.

Definition parse_metrics (metrics : option QueryMetrics) : outcome Error (option AnalyticsMetrics) :=
  match metrics with
  | None => Ok None
  | Some m =>
      elapsed_time ← parse_time (qm_elapsed_time m);
      execution_time ← parse_time (qm_execution_time m);
      Ok (Some (mkAnalyticsMetrics elapsed_time execution_time (default 0 (qm_result_count m))
        (default 0 (qm_result_size m)) (default 0 (qm_error_count m)) (default 0 (qm_warning_count m))
        (default 0 (qm_processed_objects m))))
  end.

Definition parse_warnings (warnings : list QueryWarning) : list AnalyticsWarning :=
  (λ w, mkAnalyticsWarning (default 0 (qw_code w)) (default ""%string (qw_msg w))) <$> warnings.

Definition plans_of (p : QueryMetadataPlans) : MetadataPlans :=
  mkMetadataPlans (qp_logical_plan p) (qp_optimized_logical_plan p) (qp_rewritten_expression_tree p)
    (qp_expression_tree p) (qp_job p).

Section Request.
Context (endpoint statement client_context_id : string) (status_code : Z).

Definition parse_metadata (metadata : QueryMetaData) : outcome Error AnalyticsMetaData :=
  match qmd_errors metadata with
  | [] =>
      metrics ← parse_metrics (qmd_metrics metadata);
      Ok (mkAnalyticsMetaData (qmd_request_id metadata) (qmd_client_context_id metadata) (qmd_status metadata)
        (parse_warnings (qmd_warnings metadata)) metrics (qmd_signature metadata) (plans_of <$> qmd_plans metadata))
  | errors =>
      e ← parse_errors errors endpoint statement client_context_id status_code;
      Err e
  end.

Definition read_final_metadata (epilog : list Z) : outcome Error AnalyticsMetaData :=
  match from_slice_metadata epilog with
  | inl e =>
      Err (Analyticsx.new_message_error ("failed to parse analytics metadata from epilog: " +:+ e)
             (Some endpoint) (Some statement) (Some client_context_id))
  | inr metadata => parse_metadata metadata
  end.

Definition stream_error (e : HttpxError) : Error :=
  Analyticsx.new_http_error e endpoint (Some statement) (Some client_context_id).

(** An answer with another status than 200. *)
Definition read_failure (resp : Response) : outcome Error Error :=
  match response_bytes resp with
  | Err e => Ok (stream_error e)
  | Panic => Panic
  | Ok body =>
      match from_slice_error_response body with
      | inl e =>
          Ok (Analyticsx.new_message_error
                ("non-200 status code received " +:+ status_display (resp_status resp)
                 +:+ " but parsing error response body failed " +:+ e) None None None)
      | inr errors =>
          match qer_errors errors with
          | [] =>
              Ok (Analyticsx.new_message_error
                    ("Non-200 status code received " +:+ status_display (resp_status resp)
                     +:+ " but response body contained no errors") None None None)
          | errors => parse_errors errors endpoint statement client_context_id (resp_status resp)
          end
      end
  end.
End Request.

Definition query_resp_reader_new (resp : Response) (endpoint statement client_context_id : string)
    : outcome Error AnalyticsRespReader :=
  let status_code := resp_status resp in
  if negb (status_code =? 200) then
    e ← read_failure endpoint statement client_context_id resp;
    Err e
  else
    rows ← reader_new from_slice_string from_slice_value to_vec
             (read_final_metadata endpoint statement client_context_id status_code)
             (stream_error endpoint statement client_context_id) (response_bytes_stream resp) "results";
    Ok (mkAnalyticsRespReader endpoint statement client_context_id status_code rows).

Definition metadata_too_early : Error :=
  Analyticsx.new_message_error "cannot read meta-data until after all rows are read" None None None.

Definition metadata (self : AnalyticsRespReader) : outcome Error AnalyticsMetaData :=
  reader_final metadata_too_early (ar_rows self).

Definition poll_next (self : AnalyticsRespReader) : AnalyticsRespReader * option (outcome Error (list Z)) :=
  let '(rows, item) :=
    reader_next from_slice_string from_slice_value to_vec Ok
      (read_final_metadata (ar_endpoint self) (ar_statement self) (ar_client_context_id self) (ar_status_code self))
      (stream_error (ar_endpoint self) (ar_statement self) (ar_client_context_id self)) (ar_rows self) in
  (mkAnalyticsRespReader (ar_endpoint self) (ar_statement self) (ar_client_context_id self) (ar_status_code self) rows,
   item).

(** ** The client of one endpoint ([analyticsx/analytics.rs]) *)

Record AnalyticsQuery : Type := mkAnalyticsQuery {
  aq_user_agent : string;
  aq_endpoint : string;
  aq_auth : Auth;
}.

Definition analytics_new_request (self : AnalyticsQuery) (method : Method) (path content_type : string)
    (on_behalf_of : option OnBehalfOfInfo) (body : option (list Z)) : Request :=
  let auth :=
    match on_behalf_of with
    | Some obo => Auth.OnBehalfOf (mkOnBehalfOfInfo (obo_username obo) (obo_password_or_domain obo))
    | None => aq_auth self
    end in
  request_body body (request_content_type (Some content_type) (request_user_agent (Some (aq_user_agent self))
    (request_auth (Some auth) (request_new method (aq_endpoint self +:+ "/" +:+ path))))).

(** The JSON object of a request. *)
Definition analytics_object (opts : AnalyticsQueryOptions V) (client_context_id : string)
    : outcome Error (gmap string V) :=
  obj ← analytics_options_to_value opts;
  let obj :=
    match obj !! "client_context_id"%string with
    | None => <["client_context_id"%string := json_string client_context_id]> obj
    | Some _ => obj
    end in
  let obj := insert_entries (named_arg_entries (AnalyticsQueryOptions.named_args opts)) obj in
  Ok (insert_entries (raw_entries (AnalyticsQueryOptions.raw opts)) obj).

Definition analytics_body (opts : AnalyticsQueryOptions V) (client_context_id : string) : outcome Error (list Z) :=
  obj ← analytics_object opts client_context_id;
  match to_vec obj with
  | inl e => Err (Analyticsx.new_encoding_error ("failed to encode options: " +:+ e))
  | inr body => Ok body
  end.

Section Calls.
Context {S : Type} `{HttpClient S} (new_uuid : S → S * string).
Abbreviation call := (io S Error).

Definition analytics_execute (self : AnalyticsQuery) (method : Method) (path content_type : string)
    (on_behalf_of : option OnBehalfOfInfo) (body : option (list Z)) : io S HttpxError Response :=
  http_execute (analytics_new_request self method path content_type on_behalf_of body).

Definition analytics_query (self : AnalyticsQuery) (opts : AnalyticsQueryOptions V) : call AnalyticsRespReader := λ s,
  let statement := default ""%string (AnalyticsQueryOptions.statement opts) in
  let '(s, client_context_id) :=
    match AnalyticsQueryOptions.client_context_id opts with Some id => (s, id) | None => new_uuid s end in
  (body ← io_lift (analytics_body opts client_context_id);
   res ← io_map_err (stream_error (aq_endpoint self) statement client_context_id)
           (analytics_execute self POST "analytics/service" "application/json" (AnalyticsQueryOptions.on_behalf_of opts)
              (Some body));
   io_lift (query_resp_reader_new res (aq_endpoint self) statement client_context_id)) s.

Definition endpoint_error (self : AnalyticsQuery) (e : HttpxError) : Error :=
  Analyticsx.new_http_error e (aq_endpoint self) None None.

Definition get_pending_mutations (self : AnalyticsQuery) (opts : AnalyticsGetPendingMutationsOptions)
    : call (gmap string (gmap string Z)) :=
  res ← io_map_err (endpoint_error self)
          (analytics_execute self GET "analytics/node/agg/stats/remaining" "application/json"
             (AnalyticsGetPendingMutationsOptions.on_behalf_of opts) None);
  io_lift
    (if negb (is_success (resp_status res)) then
       Err (Analyticsx.new_message_error
              ("get_pending_mutations failed with status code: " +:+ status_display (resp_status res))
              (Some (aq_endpoint self)) None None)
     else
       body ← map_err (endpoint_error self) (response_bytes res);
       match from_slice_pending body with
       | inl e =>
           Err (Analyticsx.new_message_error ("failed to decode get_pending_mutations response: " +:+ e)
                  (Some (aq_endpoint self)) None None)
       | inr pending => Ok pending
       end).

Definition analytics_ping (self : AnalyticsQuery) (opts : AnalyticsPingOptions) : call unit :=
  res ← io_map_err (endpoint_error self)
          (analytics_execute self GET "admin/ping" "" (AnalyticsPingOptions.on_behalf_of opts) None);
  io_lift
    (if is_success (resp_status res) then Ok tt
     else Err (Analyticsx.new_message_error ("ping failed with status code: " +:+ status_display (resp_status res))
                 (Some (aq_endpoint self)) None None)).
End Calls.

End Client.

(** ** Theorems *)

Section Theorems.
Context {P : Profile} {V : Type} `{JsonValue V}.
Context (status_display : Z → string).
Context (from_slice_string : list Z → string + string) (from_slice_value : list Z → string + V)
  (to_vec : gmap string V → string + list Z)
  (from_slice_error_response : list Z → string + QueryErrorResponse)
  (from_slice_metadata : list Z → string + QueryMetaData).

Abbreviation new_reader := (query_resp_reader_new status_display from_slice_string from_slice_value to_vec
  from_slice_error_response from_slice_metadata).
Abbreviation poll := (poll_next from_slice_string from_slice_value to_vec from_slice_metadata).

(** The reader polled until it ends, at most [n] times. *)
Fixpoint poll_all (n : nat) (r : AnalyticsRespReader (V:=V)) : AnalyticsRespReader * list (outcome Analyticsx.Error (list Z)) :=
  match n with
  | O => (r, [])
  | S n =>
      match poll r with
      | (r, Some item) => let '(r, items) := poll_all n r in (r, item :: items)
      | (r, None) => (r, [])
      end
  end.

Lemma poll_all_rows n e s c st rows :
  poll_all n (mkAnalyticsRespReader e s c st rows)
  = let '(rows, items) :=
      reader_all from_slice_string from_slice_value to_vec Ok (read_final_metadata from_slice_metadata e s c st)
        (stream_error e s c) n rows in
    (mkAnalyticsRespReader e s c st rows, items).
Proof.
  revert rows. induction n as [|n IH]; intros rows; [done|]. cbn [poll_all reader_all]. unfold poll_next.
  cbn [ar_endpoint ar_statement ar_client_context_id ar_status_code ar_rows].
  destruct (reader_next _ _ _ _ _ _ rows) as [rows' [item|]]; [|done]. rewrite IH.
  by destruct (reader_all _ _ _ _ _ _ n rows').
Qed.

(** An analytics answer with status 200 and rows is read as it is, however it is cut into chunks: polling
    gives the text of every row, once and in order; only then are the metadata available, and errors the
    server reports after the rows come as the last item and stay in place of the metadata. *)
Lemma analytics_answer_is_read resp cs w0 pre h r rs post tail m1 m2 md endpoint statement ctx :
  resp_status resp = 200 → resp_chunks resp = Ok <$> cs →
  concat cs = document w0 pre h r rs post tail →
  ws w0 → Forall (attr_ok from_slice_string from_slice_value) pre → key_ok from_slice_string h →
  at_name h = "results" → Forall (λ a, at_name a ≠ "results") pre →
  Forall row_ok (r :: rs) → Forall (attr_ok from_slice_string from_slice_value) post →
  to_vec (attribs_of pre ∅) = inr m1 → to_vec (attribs_of (pre ++ post) ∅) = inr m2 →
  from_slice_metadata m2 = inr md →
  ∃ rd, new_reader resp endpoint statement ctx = Ok rd ∧ metadata rd = Err metadata_too_early
    ∧ ∀ n, let '(rd', items) := poll_all (length (r :: rs) + 1 + n) rd in
        match parse_metadata endpoint statement ctx 200 md with
        | Ok meta => items = Ok <$> (row_value <$> r :: rs) ∧ metadata rd' = Ok meta
        | Err e => items = (Ok <$> (row_value <$> r :: rs)) ++ [Err e] ∧ metadata rd' = Err e
        | Panic => True
        end.
Proof.
  intros Hst Hch Hcs Hw0 Hpre Hh Hname Hnames Hrows Hpost Hm1 Hm2 Hmd.
  destruct (reader_answer from_slice_string from_slice_value to_vec Ok
    (read_final_metadata from_slice_metadata endpoint statement ctx 200) (stream_error endpoint statement ctx)
    cs w0 pre h r rs post tail m1 m2 metadata_too_early) as (rows & Hn & He & Hall); [by rewrite ?Hname..|].
  rewrite Hname in Hn. exists (mkAnalyticsRespReader endpoint statement ctx 200 rows). split; [|split; [done|]].
  - unfold query_resp_reader_new, response_bytes_stream. rewrite Hst, Hch. cbn [negb Z.eqb Pos.eqb].
    rewrite <- list_fmap_compose. change (map_err _ ∘ Ok) with (@Ok HttpxError (list Z)). by rewrite Hn.
  - intros n. rewrite poll_all_rows. specialize (Hall n).
    assert (read_final_metadata from_slice_metadata endpoint statement ctx 200 m2 = parse_metadata endpoint statement ctx 200 md)
      as Hfin by (unfold read_final_metadata; by rewrite Hmd).
    rewrite Hfin in Hall. destruct (reader_all _ _ _ _ _ _ _ rows) as [rows' items]. exact Hall.
Qed.

(** An answer with another status and errors is the first of them, with all of them when there are more. *)
Lemma analytics_failure_is_reported resp body err errs endpoint statement ctx :
  resp_status resp ≠ 200 → response_bytes resp = Ok body →
  from_slice_error_response body = inr (mkQueryErrorResponse (err :: errs)) →
  ∃ se, new_reader resp endpoint statement ctx = Err (Analyticsx.new_server_error se)
    ∧ Analyticsx.se_kind se = parse_error_kind err ∧ Analyticsx.se_code se = qe_code err ∧ Analyticsx.se_msg se = qe_msg err
    ∧ Analyticsx.se_status_code se = resp_status resp ∧ Analyticsx.se_statement se = Some statement
    ∧ Analyticsx.se_client_context_id se = Some ctx
    ∧ Analyticsx.se_all_error_descs se = match errs with [] => [] | _ => error_desc <$> err :: errs end.
Proof.
  intros Hst Hb He. unfold query_resp_reader_new, read_failure.
  replace (resp_status resp =? 200) with false by (symmetry; by apply Z.eqb_neq). cbn [negb]. rewrite Hb, He.
  cbn [qer_errors]. unfold parse_errors. cbn [fmap list_fmap head expect]. unfold mbind, outcome_bind.
  eexists. split; [reflexivity|]. by destruct errs.
Qed.
End Theorems.

(** * The analytics operations of the agent ([analyticscomponent.rs], [results/analytics.rs])

    Every operation chooses an endpoint of the analytics service and runs the analytics client
    there, and is run again when its error has a reason to be retried. *)

(** [From<AnalyticsError> for Error]. *)
Definition error_of_analytics (e : Analyticsx.Error) : Core.Error := Core.new (Core.Analytics e).

Record AnalyticsComponentConfig : Type := mkAnalyticsComponentConfig {
  acc_endpoints : gmap string string;
  acc_authenticator : Authenticator;
}.

Definition analytics_http_state (config : AnalyticsComponentConfig) : HttpComponentState :=
  mkHttpComponentState (acc_endpoints config) (acc_authenticator config).

Record AnalyticsResultStream (V : Type) : Type := mkAnalyticsResultStream {
  as_inner : AnalyticsRespReader (V:=V);
  as_endpoint : string;
}.
#[global] Arguments mkAnalyticsResultStream {V}.
#[global] Arguments as_inner {V}.
#[global] Arguments as_endpoint {V}.

Section Component.
Context {P : Profile} {V S : Type} `{JsonValue V} `{HttpClient S}.
Context (status_display : Z → string).
Context (from_slice_string : list Z → string + string) (from_slice_value : list Z → string + V)
  (to_vec : gmap string V → string + list Z)
  (from_slice_error_response : list Z → string + QueryErrorResponse)
  (from_slice_metadata : list Z → string + QueryMetaData)
  (from_slice_pending : list Z → string + gmap string (gmap string Z)).
Context (new_uuid : S → S * string).
Context (url_parse : string → string + option string * option Z) (random_range : nat → nat).
Context (http_state : S → HttpComponentState) (set_http_state : HttpComponentState → S → S).
Context (user_agent : string) (err_map_component : ErrMapComponent).

(** [AnalyticsResultStream::metadata] and [poll_next]. *)
Definition result_metadata (self : AnalyticsResultStream V) : outcome Core.Error AnalyticsMetaData :=
  map_err error_of_analytics (metadata (as_inner self)).

Definition result_poll_next (self : AnalyticsResultStream V)
    : AnalyticsResultStream V * option (outcome Core.Error (list Z)) :=
  let '(inner, item) := poll_next from_slice_string from_slice_value to_vec from_slice_metadata (as_inner self) in
  (mkAnalyticsResultStream inner (as_endpoint self), map_err error_of_analytics <$> item).

(** The new config replaces the endpoints and the credentials at once. *)
Definition analytics_reconfigure (config : AnalyticsComponentConfig) (s : S) : S :=
  set_http_state (analytics_http_state config) s.

Section Calls.
Context {T : Type} `{RetryStrategy T}.

(** A call of the analytics client at a chosen endpoint, with retries. *)
Definition orchestrate_analytics {A} (fuel : nat) (retry_strategy : T) (retry_info : RetryRequest)
    (endpoint : option string) (operation : AnalyticsQuery → io S Analyticsx.Error A) (s : S)
    : S * list (RetryReason * Duration) * option (outcome Core.Error A) :=
  orchestrate_retries err_map_component retry_strategy fuel retry_info
    (orchestrate_endpoint url_parse http_state ServiceType.Analytics random_range endpoint
       (λ endpoint_id endpoint auth,
          io_map_err error_of_analytics (operation (mkAnalyticsQuery user_agent endpoint auth)))) s.

Definition component_analytics_query (fuel : nat) (opts : CoreAnalyticsOptions T V) :=
  orchestrate_analytics fuel (CoreAnalyticsOptions.retry_strategy opts)
    (retry_request_new "analytics" (default false (CoreAnalyticsOptions.read_only opts)))
    (CoreAnalyticsOptions.endpoint opts)
    (λ client,
       res ← analytics_query status_display from_slice_string from_slice_value to_vec from_slice_error_response
               from_slice_metadata new_uuid client (core_analytics_options_into opts);
       mret (mkAnalyticsResultStream res (aq_endpoint client))).

Definition component_get_pending_mutations (fuel : nat) (opts : CoreGetPendingMutationsOptions T) :=
  orchestrate_analytics fuel (CoreGetPendingMutationsOptions.retry_strategy opts)
    (retry_request_new "get_pending_mutations" true) (CoreGetPendingMutationsOptions.endpoint opts)
    (λ client, get_pending_mutations status_display from_slice_pending client
       (core_get_pending_mutations_options_into opts)).

(** An analytics operation is sent again because no node was known or because the request could not be
    sent, and for no other reason: not for the errors the service calls temporary. *)
Lemma analytics_repeated_for {A} fuel (strategy : T) req endpoint (operation : AnalyticsQuery → io S Analyticsx.Error A) s :
  Forall (λ p, p.1 = RetryReason.ServiceNotAvailable ∨ p.1 = RetryReason.HttpSendRequestFailed)
    (snd (fst (orchestrate_analytics fuel strategy req endpoint operation s))).
Proof.
  apply (orchestrate_endpoint_reasons err_map_component strategy url_parse random_range http_state ServiceType.Analytics
    (λ r, r = RetryReason.ServiceNotAvailable ∨ r = RetryReason.HttpSendRequestFailed)); [by left|].
  intros id ep auth s1 s2 e req' reason He Hr. unfold io_map_err in He.
  destruct (operation _ s1) as [s3 [[a|x|]|]]; try done. cbn in He. injection He as _ <-.
  unfold error_of_analytics, error_to_retry_reason in Hr. cbn in Hr. destruct (Analyticsx.kind x); try done.
  unfold http_retry_reason in Hr. destruct (httpx_kind _); try done. injection Hr as <-. by right.
Qed.
End Calls.

End Component.
