(* ===== verification/QueryComponent.v ===== *)
(** * The query operations of the agent ([querycomponent.rs], [results/query.rs],
    [results/pingreport.rs])

    Every operation chooses an endpoint, runs the query client there and is run again when
    its error has a reason to be retried.  The state of a run has the endpoints and the
    cache of prepared statements in it, as their mutexes do.

    Besides the parameters of the query client, [tokio]'s race of a call against a sleep and
    the clock are parameters. *)

From Stdlib Require Import SpecFloat.
From S2P Require Import Prelude Text HttpxError Json Durations Wire Bootstrap CoreError Retry Http QueryxError.
From S2P Require Import JsonScanner JsonDecoder RowStreamer QueryReader QueryxOptions.
From S2P Require Import Query PreparedQuery EnsureIndex CoreQueryOptions.

(** ** Errors and results *)

(** [From<QueryError> for Error]. *)
Definition error_of_query (e : Queryx.Error Value) : Core.Error := Core.new (Core.Query e).

Record QueryResultStream (V : Type) : Type := mkQueryResultStream {
  qs_inner : QueryRespReader V;
  qs_endpoint : string;
}.
#[global] Arguments mkQueryResultStream {V} qs_inner qs_endpoint.
#[global] Arguments qs_inner {V} q.
#[global] Arguments qs_endpoint {V} q.

Inductive PingState : Type := PingOk | PingTimeout | PingError.

Record EndpointPingReport : Type := mkEndpointPingReport {
  epr_remote : string;
  epr_error : option Core.Error;
  epr_latency : Duration;
  epr_id : option string;
  epr_namespace : option string;
  epr_state : PingState;
}.

Record PingQueryReportOptions : Type := mkPingQueryReportOptions {
  pqr_on_behalf_of : option OnBehalfOfInfo;
  pqr_timeout : Duration;
}.

Record QueryComponentConfig : Type := mkQueryComponentConfig {
  qcc_endpoints : gmap string string;
  qcc_authenticator : Authenticator;
}.

Definition query_http_state (config : QueryComponentConfig) : HttpComponentState :=
  mkHttpComponentState (qcc_endpoints config) (qcc_authenticator config).

(** ** Operations *)

Section Component.
Context {P : Profile} {S : Type} `{HttpClient S}.
Context (value_is : Value → Z → bool) (regex_is_match : string → list Z → bool) (status_display : Z → string).
Context (from_slice_string : list Z → string + string) (from_slice_value : list Z → string + Value)
  (to_vec : gmap string Value → string + list Z)
  (from_slice_error_response : list Z → string + QueryErrorResponse Value)
  (from_slice_early_metadata : list Z → string + QueryEarlyMetaData)
  (from_slice_metadata : list Z → string + QueryMetaData Value)
  (from_slice_index : list Z → string + Index)
  (json_text : Value → string + string).
Context (new_uuid : S → S * string).
Context (url_parse : string → string + option string * option Z) (random_range : nat → nat).
Context (http_state : S → HttpComponentState) (set_http_state : HttpComponentState → S → S).
Context (cache : S → gmap string string) (set_cache : gmap string string → S → S).
Context (user_agent : string) (err_map_component : ErrMapComponent).

Abbreviation queryx_query := (query value_is regex_is_match status_display from_slice_string from_slice_value
  to_vec from_slice_error_response from_slice_early_metadata from_slice_metadata new_uuid).
Abbreviation on_indexes f := (f value_is regex_is_match status_display from_slice_string from_slice_value to_vec
  from_slice_error_response from_slice_early_metadata from_slice_metadata from_slice_index json_text new_uuid).
Abbreviation Error := (Queryx.Error Value).

(** The new config replaces the endpoints and the credentials at once. *)
Definition query_reconfigure (config : QueryComponentConfig) (s : S) : S :=
  set_http_state (query_http_state config) s.

Section Calls.
Context {T : Type} `{RetryStrategy T}.

(** A call of the query client at a chosen endpoint, with retries. *)
Definition orchestrate_query {A} (fuel : nat) (retry_strategy : T) (retry_info : RetryRequest)
    (endpoint : option string) (operation : Query → io S Error A) (s : S)
    : S * list (RetryReason * Duration) * option (outcome Core.Error A) :=
  orchestrate_retries err_map_component retry_strategy fuel retry_info
    (orchestrate_endpoint url_parse http_state ServiceType.Query random_range endpoint
       (λ endpoint_id endpoint auth, io_map_err error_of_query (operation (mkQuery user_agent endpoint auth)))) s.

(** The reader with the endpoint it came from. *)
Definition result_stream (client : Query) (res : io S Error (QueryRespReader Value)) : io S Error (QueryResultStream Value) :=
  reader ← res; mret (mkQueryResultStream reader (q_endpoint client)).

Definition component_query (fuel : nat) (opts : CoreQueryOptions T Value) :=
  orchestrate_query fuel (CoreQueryOptions.retry_strategy opts)
    (retry_request_new "query" (default false (CoreQueryOptions.read_only opts))) (CoreQueryOptions.endpoint opts)
    (λ client, result_stream client (queryx_query client (core_query_options_into opts))).

Definition component_prepared_query (fuel : nat) (opts : CoreQueryOptions T Value) :=
  orchestrate_query fuel (CoreQueryOptions.retry_strategy opts)
    (retry_request_new "prepared_query" (default false (CoreQueryOptions.read_only opts)))
    (CoreQueryOptions.endpoint opts)
    (λ client, result_stream client
       (prepared_query cache set_cache (queryx_query client) (core_query_options_into opts))).

Definition component_get_all_indexes (fuel : nat) (opts : CoreGetAllIndexesOptions T) :=
  orchestrate_query fuel (CoreGetAllIndexesOptions.retry_strategy opts) (retry_request_new "query_get_all_indexes" true)
    (CoreGetAllIndexesOptions.endpoint opts)
    (λ client, on_indexes get_all_indexes client (core_get_all_indexes_options_into opts)).

Definition component_create_primary_index (fuel : nat) (opts : CoreCreatePrimaryIndexOptions T) :=
  orchestrate_query fuel (CoreCreatePrimaryIndexOptions.retry_strategy opts)
    (retry_request_new "query_create_primary_index" false) (CoreCreatePrimaryIndexOptions.endpoint opts)
    (λ client, create_primary_index value_is regex_is_match status_display from_slice_string from_slice_value to_vec
       from_slice_error_response from_slice_early_metadata from_slice_metadata json_text new_uuid client
       (core_create_primary_index_options_into opts)).

Definition component_create_index (fuel : nat) (opts : CoreCreateIndexOptions T) :=
  orchestrate_query fuel (CoreCreateIndexOptions.retry_strategy opts)
    (retry_request_new "query_create_index" false) (CoreCreateIndexOptions.endpoint opts)
    (λ client, create_index value_is regex_is_match status_display from_slice_string from_slice_value to_vec
       from_slice_error_response from_slice_early_metadata from_slice_metadata json_text new_uuid client
       (core_create_index_options_into opts)).

Definition component_drop_primary_index (fuel : nat) (opts : CoreDropPrimaryIndexOptions T) :=
  orchestrate_query fuel (CoreDropPrimaryIndexOptions.retry_strategy opts)
    (retry_request_new "query_drop_primary_index" false) (CoreDropPrimaryIndexOptions.endpoint opts)
    (λ client, drop_primary_index value_is regex_is_match status_display from_slice_string from_slice_value to_vec
       from_slice_error_response from_slice_early_metadata from_slice_metadata new_uuid client
       (core_drop_primary_index_options_into opts)).

Definition component_drop_index (fuel : nat) (opts : CoreDropIndexOptions T) :=
  orchestrate_query fuel (CoreDropIndexOptions.retry_strategy opts)
    (retry_request_new "query_drop_index" false) (CoreDropIndexOptions.endpoint opts)
    (λ client, drop_index value_is regex_is_match status_display from_slice_string from_slice_value to_vec
       from_slice_error_response from_slice_early_metadata from_slice_metadata new_uuid client
       (core_drop_index_options_into opts)).

Definition component_build_deferred_indexes (fuel : nat) (opts : CoreBuildDeferredIndexesOptions T) :=
  orchestrate_query fuel (CoreBuildDeferredIndexesOptions.retry_strategy opts)
    (retry_request_new "query_build_deferred_indexes" false) (CoreBuildDeferredIndexesOptions.endpoint opts)
    (λ client, on_indexes build_deferred_indexes client (core_build_deferred_indexes_options_into opts)).

(** [watch_fuel] bounds the rounds of one watch. *)
Definition component_watch_indexes (watch_fuel fuel : nat) (opts : CoreWatchIndexesOptions T) :=
  orchestrate_query fuel (CoreWatchIndexesOptions.retry_strategy opts)
    (retry_request_new "query_watch_indexes" true) (CoreWatchIndexesOptions.endpoint opts)
    (λ client s,
       let '(s, _, r) := on_indexes watch_indexes watch_fuel client (core_watch_indexes_options_into opts) s in (s, r)).
End Calls.

(** Every poll starts from a copy of the helper. *)
Definition component_ensure_index (powi : spec_float → Z → spec_float) (fuel : nat) (opts : CoreEnsureIndexOptions)
    (s : S) : S * list Duration * option (outcome Core.Error unit) :=
  let helper :=
    ensure_index_helper_new user_agent (CoreEnsureIndexOptions.index_name opts)
      (CoreEnsureIndexOptions.bucket_name opts) (CoreEnsureIndexOptions.scope_name opts)
      (CoreEnsureIndexOptions.collection_name opts) (CoreEnsureIndexOptions.on_behalf_of_info opts) in
  ensure_resource (H := exponential_calculator powi) url_parse http_state ServiceType.Query fuel ensure_backoff
    (λ targets _,
       io_map_err error_of_query
         ('(finished, _) ← on_indexes ensure_poll helper (CoreEnsureIndexOptions.desired_state opts) targets;
          mret (finished, tt)))
    tt s.

(** *** Pings *)

Abbreviation ping := (query_ping status_display (V := Value)).

Definition target_client (target : NodeTarget) : Query :=
  mkQuery user_agent (nt_endpoint target) (nt_auth target).

Definition ping_one (client : Query) (opts : PingOptions) : action S unit :=
  io_map_err error_of_query (ping client opts).

(** [join_all] has the results in the order of the calls, which here run in this order. *)
Fixpoint join_all {A} (calls : list (S → S * option A)) (s : S) : S * option (list A) :=
  match calls with
  | [] => (s, Some [])
  | call :: calls =>
      let '(s, r) := call s in
      let '(s, rs) := join_all calls s in
      (s, (r ← r; rs ← rs; Some (r :: rs)))
  end.

Definition ping_all_endpoints (on_behalf_of : option OnBehalfOfInfo) (s : S)
    : S * option (outcome Core.Error (list (outcome Core.Error unit))) :=
  match get_all_targets url_parse ServiceType.Query (http_state s) [] with
  | Ok targets =>
      let '(s, results) := join_all ((λ t, ping_one (target_client t) (PingOptions.mk on_behalf_of)) <$> targets) s in
      (s, Ok <$> results)
  | Err e => (s, Some (Err e))
  | Panic => (s, Some Panic)
  end.

(** [select! { sleep(timeout) => .., r = call => .. }]: [None] inside when the sleep was
    first. *)
Context (select_timeout : Duration → io S Error unit → S → S * option (option (outcome Error unit))).
Context (now : S → Z).

(** A call that panics or does not return leaves no report. *)
Definition create_one_report (client : Query) (timeout : Duration) (opts : PingOptions) (s0 : S)
    : S * option EndpointPingReport :=
  let start := now s0 in
  match select_timeout timeout (ping client opts) s0 with
  | (s, Some None) =>
      (s, Some (mkEndpointPingReport (q_endpoint client) None (now s - start) None None PingTimeout))
  | (s, Some (Some (Ok _))) =>
      (s, Some (mkEndpointPingReport (q_endpoint client) None (now s - start) None None PingOk))
  | (s, Some (Some (Err e))) =>
      (s, Some (mkEndpointPingReport (q_endpoint client) (Some (error_of_query e)) (now s - start) None None PingError))
  | (s, Some (Some Panic)) | (s, None) => (s, None)
  end.

Definition create_ping_report (opts : PingQueryReportOptions) (s : S)
    : S * option (outcome Core.Error (list EndpointPingReport)) :=
  match get_all_targets url_parse ServiceType.Query (http_state s) [] with
  | Ok targets =>
      let '(s, reports) :=
        join_all ((λ t, create_one_report (target_client t) (pqr_timeout opts) (PingOptions.mk (pqr_on_behalf_of opts)))
                  <$> targets) s in
      (s, Ok <$> reports)
  | Err e => (s, Some (Err e))
  | Panic => (s, Some Panic)
  end.

End Component.

(** ** Theorems: the errors of the query client *)

Section ErrorTheorems.
Context {P : Profile} {S : Type} `{HttpClient S}.
Context (value_is : Value → Z → bool) (regex_is_match : string → list Z → bool) (status_display : Z → string).
Context (from_slice_string : list Z → string + string) (from_slice_value : list Z → string + Value)
  (to_vec : gmap string Value → string + list Z)
  (from_slice_error_response : list Z → string + QueryErrorResponse Value)
  (from_slice_early_metadata : list Z → string + QueryEarlyMetaData)
  (from_slice_metadata : list Z → string + QueryMetaData Value)
  (from_slice_index : list Z → string + Index)
  (json_text : Value → string + string).
Context (new_uuid : S → S * string).
Abbreviation Error := (Queryx.Error Value).
Abbreviation queryx_query := (query value_is regex_is_match status_display from_slice_string from_slice_value
  to_vec from_slice_error_response from_slice_early_metadata from_slice_metadata new_uuid).

(** The error is not a server error whose resource was left unread. *)
Definition resource_read (e : Error) : Prop :=
  match Queryx.kind e with
  | Queryx.Server s =>
      Queryx.se_kind s ≠ QueryServerErrorKind.IndexNotFound ∧ Queryx.se_kind s ≠ QueryServerErrorKind.IndexExists
      ∧ Queryx.se_kind s ≠ QueryServerErrorKind.ScopeNotFound
      ∧ Queryx.se_kind s ≠ QueryServerErrorKind.CollectionNotFound
  | _ => True
  end.

Lemma error_of_server_error_read (s : Queryx.ServerError Value) e :
  error_of_server_error s = Ok e → resource_read e.
Proof.
  unfold error_of_server_error. assert ((r ← Queryx.resource_error_new s; Ok (Queryx.new_resource_error r)) = Ok e →
    resource_read e) as K.
  { intros (r & _ & He)%bind_ok_inv. by injection He as <-. }
  unfold resource_read. destruct (Queryx.se_kind s) eqn:Hk;
    first [exact K | intros [= <-]; cbn; by rewrite Hk | idtac].
  destruct (_ =? 13014); [exact K|]. intros [= <-]. cbn. by rewrite Hk.
Qed.

Lemma parse_errors_read errors endpoint statement ctx status e :
  parse_errors value_is regex_is_match errors endpoint statement ctx status = Ok e → resource_read e.
Proof. unfold parse_errors. intros (d & _ & He)%bind_ok_inv. by eapply error_of_server_error_read. Qed.

Lemma error_of_server_error_no_err (s : Queryx.ServerError Value) e : error_of_server_error s ≠ Err e.
Proof. pose proof (error_of_server_error_cases s) as K. intros Heq. by rewrite Heq in K. Qed.

Lemma parse_errors_no_err errors endpoint statement ctx status e :
  parse_errors value_is regex_is_match errors endpoint statement ctx status ≠ Err e.
Proof.
  unfold parse_errors. destruct (head _) as [d|]; [|done]. cbn [expect]. unfold mbind, outcome_bind.
  apply error_of_server_error_no_err.
Qed.

Lemma http_err_read {A} endpoint statement ctx (m : outcome HttpxError A) e :
  http_err (V:=Value) endpoint statement ctx m = Err e → resource_read e.
Proof. destruct m as [a|x|]; cbn; [done| |done]. by intros [= <-]. Qed.

Lemma parse_metrics_no_err (m : option QueryMetrics) e : parse_metrics (V:=Value) m ≠ Err e.
Proof.
  destruct m as [m|]; [|done]. unfold parse_metrics, parse_time.
  destruct (qm_elapsed_time m) as [t1|], (qm_execution_time m) as [t2|]; cbn; try done;
    repeat match goal with |- context [parse_duration_from_golang_string ?t] =>
      destruct (parse_duration_from_golang_string t); cbn; try done end.
Qed.

Lemma parse_metadata_read rd md e : parse_metadata value_is regex_is_match rd md = Err e → resource_read e.
Proof.
  unfold parse_metadata. destruct (qmd_errors md) as [|x l].
  - pose proof (parse_metrics_no_err (qmd_metrics md)) as Hm.
    destruct (parse_metrics _) as [m|y|]; cbn; [done| |done]. by destruct (Hm y).
  - pose proof (parse_errors_no_err (x :: l) (rd_endpoint rd) (rd_statement rd) (rd_client_context_id rd)
      (rd_status_code rd)) as Hn.
    destruct (parse_errors _ _ _ _ _ _ _) as [y|y|] eqn:Hp; cbn; [|by destruct (Hn y)|done].
    intros [= <-]. by eapply parse_errors_read.
Qed.

Lemma read_final_metadata_read rd text e :
  read_final_metadata value_is regex_is_match from_slice_metadata rd text = Err e → resource_read e.
Proof.
  unfold read_final_metadata. destruct (from_slice_metadata text); [by intros [= <-]|]. apply parse_metadata_read.
Qed.

Lemma read_failure_read resp endpoint statement ctx :
  match read_failure value_is regex_is_match status_display from_slice_error_response resp endpoint statement ctx with
  | Ok e => resource_read e
  | Err _ => False
  | Panic => True
  end.
Proof.
  unfold read_failure. destruct (response_bytes resp) as [body|e|]; [|done..].
  destruct (from_slice_error_response body) as [e|[[|x l]]]; cbn [qer_errors]; [done..|].
  destruct (parse_errors _ _ _ _ _ _ _) as [y|y|] eqn:Hp; [by eapply parse_errors_read| |done].
  by eapply parse_errors_no_err.
Qed.

Lemma reader_new_read resp endpoint statement ctx e :
  query_resp_reader_new value_is regex_is_match status_display from_slice_string from_slice_value to_vec
    from_slice_error_response from_slice_early_metadata from_slice_metadata resp endpoint statement ctx = Err e →
  resource_read e.
Proof.
  unfold query_resp_reader_new. destruct (negb _).
  { pose proof (read_failure_read resp endpoint statement ctx) as K.
    destruct (read_failure _ _ _ _ _ _ _ _) as [x|x|]; cbn; [|done..]. by intros [= <-]. }
  unfold read_early_metadata. destruct (read_prelude _ _ _ _) as [s1 r].
  destruct (http_err endpoint statement ctx r) as [prelude|x|] eqn:Hr; cbn [mbind outcome_bind];
    [|intros [= <-]; by eapply http_err_read|done].
  destruct (from_slice_early_metadata prelude) as [x|early]; [by intros [= <-]|].
  destruct (has_more_rows s1) as [s2 []]; cbn [negb]; cbv iota; [done|]. destruct (epilog to_vec s2) as [s3 text].
  destruct (http_err endpoint statement ctx text) as [t|x|] eqn:Ht; cbn [mbind outcome_bind];
    [|intros [= <-]; by eapply http_err_read|done].
  destruct (read_final_metadata _ _ _ _ _) as [meta|x|] eqn:Hm; [done| |done].
  intros [= <-]. by eapply read_final_metadata_read.
Qed.

Lemma query_read client opts : io_errors resource_read (queryx_query client opts).
Proof.
  intros s. unfold query. destruct (match QueryOptions.client_context_id opts with Some _ => _ | None => _ end) as [s0 id].
  revert s0.
  refine (_ : io_errors _ _). apply io_errors_bind; [|intros body; apply io_errors_bind].
  - apply io_errors_lift. unfold query_body. destruct (query_object_ok opts id) as (obj & -> & _).
    cbn. destruct (to_vec obj); [by intros e [= <-]|done].
  - by apply io_errors_map_err.
  - intros res. apply io_errors_lift. intros e. apply reader_new_read.
Qed.

Lemma prepare_and_run_read cache set_cache (executor : QueryOptions Value → io S Error (QueryRespReader Value)) opts statement :
  (∀ o, io_errors resource_read (executor o)) →
  io_errors resource_read (prepare_and_run cache set_cache executor opts statement).
Proof.
  intros Hx s s' e. unfold prepare_and_run. specialize (Hx (prepare_options opts statement (QueryOptions.prepared opts)) s).
  destruct (executor _ s) as [s1 [[r|x|]|]]; [done| |done..]. intros Heq. by eapply Hx.
Qed.

Lemma prepared_query_read cache set_cache (executor : QueryOptions Value → io S Error (QueryRespReader Value)) opts :
  (∀ o, io_errors resource_read (executor o)) →
  io_errors resource_read (prepared_query cache set_cache executor opts).
Proof.
  intros Hx s s' e. unfold prepared_query. destruct (default false _); [by apply Hx|].
  destruct (QueryOptions.statement opts) as [statement|]; [|by intros [= _ <-]].
  destruct (cache_get cache statement s) as [name|]; [|by apply prepare_and_run_read].
  destruct (executor _ s) as [s1 [[r|x|]|]]; [done| |done..]. by apply prepare_and_run_read.
Qed.

Abbreviation poll := (poll_next value_is regex_is_match from_slice_string from_slice_value to_vec from_slice_metadata).

Lemma poll_next_read rd rd' e : poll rd = (rd', Some (Err e)) → resource_read e.
Proof.
  unfold poll_next. destruct (next _ _ _ (rd_streamer rd)) as [s [[[row|text]|x|]|]]; try done.
  - destruct (read_final_metadata _ _ _ _ text) as [m|y|] eqn:Hm; [done| |done].
    intros [= _ <-]. by eapply read_final_metadata_read.
  - by intros [= _ <-].
Qed.

Lemma collect_indexes_read fuel rd e :
  collect_indexes value_is regex_is_match from_slice_string from_slice_value to_vec from_slice_metadata from_slice_index
    fuel rd = Some (Err e) → resource_read e.
Proof.
  revert rd e. induction fuel as [|fuel IH]; intros rd e; [done|]. cbn [collect_indexes].
  destruct (poll rd) as [rd' [[bytes|x|]|]] eqn:Hp; try done.
  - destruct (from_slice_index bytes) as [x|index]; [by intros [= <-]|].
    destruct (collect_indexes _ _ _ _ _ _ _ fuel rd') as [[l|x|]|] eqn:Hc; try done. cbn. intros [= <-]. by eapply IH.
  - intros [= <-]. by eapply poll_next_read.
Qed.

Lemma encode_value_read (v : Value) e : encode_value json_text v = Err e → resource_read e.
Proof. unfold encode_value. destruct (json_text v); [by intros [= <-]|done]. Qed.

Lemma bind_err_inv {E A B} (m : outcome E A) (f : A → outcome E B) e :
  m ≫= f = Err e → m = Err e ∨ ∃ a, m = Ok a ∧ f a = Err e.
Proof. destruct m as [a|x|]; cbn; intros He; [right; by eauto|left; congruence|done]. Qed.

Lemma index_where_clause_read opts e : index_where_clause json_text opts = Err e → resource_read e.
Proof.
  unfold index_where_clause.
  destruct (GetAllIndexesOptions.collection_name opts), (GetAllIndexesOptions.scope_name opts);
    [| |cbv zeta|destruct (negb _); [|done]]; try (by intros [= <-]); cbv zeta.
  all: repeat (intros [He|(? & _ & He)]%bind_err_inv; [by eapply encode_value_read|revert He]); done.
Qed.

Lemma get_all_indexes_read client opts :
  io_errors resource_read (get_all_indexes value_is regex_is_match status_display from_slice_string from_slice_value to_vec
    from_slice_error_response from_slice_early_metadata from_slice_metadata from_slice_index json_text new_uuid client opts).
Proof.
  unfold get_all_indexes. apply io_errors_bind; [|intros qs; apply io_errors_bind; [apply query_read|]].
  - apply io_errors_lift. intros e. unfold get_all_indexes_statement.
    intros [He|(? & _ & He)]%bind_err_inv; [by eapply index_where_clause_read|done].
  - intros rd. apply io_errors_result. intros e. apply collect_indexes_read.
Qed.

Lemma created_result_read ignore (res : io S Error (QueryRespReader Value)) :
  io_errors resource_read res → io_errors resource_read (created_result ignore res).
Proof.
  intros Hr s s' e. unfold created_result. specialize (Hr s). destruct (res s) as [s1 [[r|x|]|]]; try done.
  specialize (Hr s1 x eq_refl). destruct (Queryx.is_index_exists x), (default false ignore),
    (Queryx.is_build_already_in_progress x); intros Heq; by simplify_eq/=.
Qed.

Lemma dropped_result_read ignore (res : io S Error (QueryRespReader Value)) :
  io_errors resource_read res → io_errors resource_read (dropped_result ignore res).
Proof.
  intros Hr s s' e. unfold dropped_result. specialize (Hr s). destruct (res s) as [s1 [[r|x|]|]]; try done.
  specialize (Hr s1 x eq_refl). destruct (Queryx.is_index_not_found x), (default false ignore); intros Heq;
    by simplify_eq/=.
Qed.

Lemma with_clause_read deferred num_replicas e : with_clause json_text deferred num_replicas = Err e → resource_read e.
Proof.
  unfold with_clause. destruct (_ ++ _); [done|]. intros [He|(? & _ & He)]%bind_err_inv; [by eapply encode_value_read|done].
Qed.

Lemma create_primary_index_read client opts :
  io_errors resource_read (create_primary_index value_is regex_is_match status_display from_slice_string from_slice_value
    to_vec from_slice_error_response from_slice_early_metadata from_slice_metadata json_text new_uuid client opts).
Proof.
  apply io_errors_bind; [|intros qs; apply created_result_read, query_read]. apply io_errors_lift. intros e.
  intros [He|(? & _ & He)]%bind_err_inv; [by eapply with_clause_read|done].
Qed.

Lemma create_index_read client opts :
  io_errors resource_read (create_index value_is regex_is_match status_display from_slice_string from_slice_value
    to_vec from_slice_error_response from_slice_early_metadata from_slice_metadata json_text new_uuid client opts).
Proof.
  apply io_errors_bind; [|intros qs; apply created_result_read, query_read]. apply io_errors_lift. intros e.
  intros [He|(? & _ & He)]%bind_err_inv; [by eapply with_clause_read|done].
Qed.

Lemma build_each_read client obo l :
  io_errors resource_read (build_each value_is regex_is_match status_display from_slice_string from_slice_value
    to_vec from_slice_error_response from_slice_early_metadata from_slice_metadata new_uuid client obo l).
Proof.
  induction l as [|[k names] l IH]; [apply io_errors_ret|]. intros s s' e. cbn [build_each].
  pose proof (query_read client (statement_options (build_statement k names) obo) s) as Hq.
  destruct (queryx_query client _ s) as [s1 [[r|x|]|]]; [apply IH| |done..].
  destruct (Queryx.is_build_already_in_progress x); [apply IH|]. intros [= _ <-]. by eapply Hq.
Qed.

Lemma build_deferred_indexes_read client opts :
  io_errors resource_read (build_deferred_indexes value_is regex_is_match status_display from_slice_string
    from_slice_value to_vec from_slice_error_response from_slice_early_metadata from_slice_metadata from_slice_index
    json_text new_uuid client opts).
Proof. apply io_errors_bind; [apply get_all_indexes_read|intros l; apply build_each_read]. Qed.

Lemma watch_loop_read fuel client get l cur :
  io_errors resource_read (λ s, let '(s, _, r) := watch_loop value_is regex_is_match status_display from_slice_string
    from_slice_value to_vec from_slice_error_response from_slice_early_metadata from_slice_metadata from_slice_index
    json_text new_uuid fuel client get l cur s in (s, r)).
Proof.
  revert cur. induction fuel as [|fuel IH]; intros cur s s' e; [done|]. cbn [watch_loop].
  pose proof (get_all_indexes_read client get s) as Hg.
  destruct (get_all_indexes _ _ _ _ _ _ _ _ _ _ _ _ _ _ s) as [s1 [[r|x|]|]]; [| |done..].
  - destruct (check_indexes_active r l); [done|]. specialize (IH (Z.min (cur + 500) 1000) s1). cbv beta in IH.
    destruct (watch_loop _ _ _ _ _ _ _ _ _ _ _ _ _ _ _ _ _ s1) as [[s2 p] r2]. intros Heq. by eapply IH.
  - intros [= _ <-]. by eapply Hg.
Qed.

End ErrorTheorems.

(** ** Theorems: why a query is sent again *)

Section ComponentTheorems.
Context {P : Profile} {S : Type} `{HttpClient S}.
Context (value_is : Value → Z → bool) (regex_is_match : string → list Z → bool) (status_display : Z → string).
Context (from_slice_string : list Z → string + string) (from_slice_value : list Z → string + Value)
  (to_vec : gmap string Value → string + list Z)
  (from_slice_error_response : list Z → string + QueryErrorResponse Value)
  (from_slice_early_metadata : list Z → string + QueryEarlyMetaData)
  (from_slice_metadata : list Z → string + QueryMetaData Value)
  (from_slice_index : list Z → string + Index)
  (json_text : Value → string + string).
Context (new_uuid : S → S * string).
Context (url_parse : string → string + option string * option Z) (random_range : nat → nat).
Context (http_state : S → HttpComponentState) (set_http_state : HttpComponentState → S → S).
Context (cache : S → gmap string string) (set_cache : gmap string string → S → S).
Context (user_agent : string) (err_map_component : ErrMapComponent).

Context {T : Type} `{RetryStrategy T}.

Definition query_reason (r : RetryReason) : Prop :=
  r ∈ [RetryReason.ServiceNotAvailable; RetryReason.QueryPreparedStatementFailure; RetryReason.HttpSendRequestFailed].

Lemma query_error_reason (e : Queryx.Error Value) req reason :
  resource_read e → snd (error_to_retry_reason err_map_component req (error_of_query e)) = Some reason →
  query_reason reason.
Proof.
  unfold resource_read, error_of_query, error_to_retry_reason, query_reason. cbn.
  destruct (Queryx.kind e) as [s|error ep st c|r|msg ep st c|msg arg|msg]; cbn; try done.
  - intros (Hi & _ & _ & _). destruct (Queryx.se_kind s); try done. intros [= <-]. set_solver.
  - intros _. unfold http_retry_reason. destruct (httpx_kind error); cbn; try done. intros [= <-]. set_solver.
Qed.

Lemma orchestrate_query_reasons {A} fuel (strategy : T) req endpoint (operation : Query → io S (Queryx.Error Value) A) s :
  (∀ client, io_errors resource_read (operation client)) →
  Forall (λ p, query_reason p.1)
    (snd (fst (orchestrate_query url_parse random_range http_state user_agent err_map_component fuel strategy req endpoint
                 operation s))).
Proof.
  intros Hop. apply orchestrate_endpoint_reasons; [unfold query_reason; set_solver|].
  intros id ep auth s1 s2 e req' reason He Hr.
  specialize (Hop (mkQuery user_agent ep auth) s1). unfold io_map_err in He.
  destruct (operation _ s1) as [s3 [[a|x|]|]]; try done. cbn in He. injection He as _ <-.
  eapply query_error_reason; [by eapply Hop|done].
Qed.

Lemma result_stream_read client (res : io S (Queryx.Error Value) (QueryRespReader Value)) :
  io_errors resource_read res → io_errors resource_read (result_stream client res).
Proof. intros Hr. apply io_errors_bind; [done|intros r; apply io_errors_ret]. Qed.

Abbreviation on_indexes f := (f value_is regex_is_match status_display from_slice_string from_slice_value to_vec
  from_slice_error_response from_slice_early_metadata from_slice_metadata from_slice_index json_text new_uuid).

(** The reasons of the attempts that were repeated. *)
Definition repeated_for {A} (run : S * list (RetryReason * Duration) * option (outcome Core.Error A))
    (Q : RetryReason → Prop) : Prop := Forall (λ p, Q p.1) (snd (fst run)).

(** An operation of the query service is sent again for three reasons only: no node of the
    service was known yet, the plan of a prepared statement failed, or the request could not be
    sent.  Whatever the strategy allows, it is never sent again because an index is missing: such
    an error always comes with the name of the index, as a resource error, which the retries do not
    look into. *)
Lemma query_operations_retry_for s fuel watch_fuel opts iopts popts copts dpopts dopts bopts wopts :
  let em := err_map_component in
  repeated_for (component_query value_is regex_is_match status_display from_slice_string from_slice_value to_vec
    from_slice_error_response from_slice_early_metadata from_slice_metadata new_uuid url_parse random_range http_state
    user_agent em fuel (opts : CoreQueryOptions T Value) s) query_reason
  ∧ repeated_for (component_prepared_query value_is regex_is_match status_display from_slice_string from_slice_value
    to_vec from_slice_error_response from_slice_early_metadata from_slice_metadata new_uuid url_parse random_range
    http_state cache set_cache user_agent em fuel (opts : CoreQueryOptions T Value) s) query_reason
  ∧ repeated_for (on_indexes component_get_all_indexes url_parse random_range http_state user_agent em fuel
      (iopts : CoreGetAllIndexesOptions T) s) query_reason
  ∧ repeated_for (component_create_primary_index value_is regex_is_match status_display from_slice_string from_slice_value
    to_vec from_slice_error_response from_slice_early_metadata from_slice_metadata json_text new_uuid url_parse
    random_range http_state user_agent em fuel (popts : CoreCreatePrimaryIndexOptions T) s) query_reason
  ∧ repeated_for (component_create_index value_is regex_is_match status_display from_slice_string from_slice_value
    to_vec from_slice_error_response from_slice_early_metadata from_slice_metadata json_text new_uuid url_parse
    random_range http_state user_agent em fuel (copts : CoreCreateIndexOptions T) s) query_reason
  ∧ repeated_for (component_drop_primary_index value_is regex_is_match status_display from_slice_string from_slice_value
    to_vec from_slice_error_response from_slice_early_metadata from_slice_metadata new_uuid url_parse
    random_range http_state user_agent em fuel (dpopts : CoreDropPrimaryIndexOptions T) s) query_reason
  ∧ repeated_for (component_drop_index value_is regex_is_match status_display from_slice_string from_slice_value
    to_vec from_slice_error_response from_slice_early_metadata from_slice_metadata new_uuid url_parse
    random_range http_state user_agent em fuel (dopts : CoreDropIndexOptions T) s) query_reason
  ∧ repeated_for (on_indexes component_build_deferred_indexes url_parse random_range http_state user_agent em fuel
      (bopts : CoreBuildDeferredIndexesOptions T) s) query_reason
  ∧ repeated_for (on_indexes component_watch_indexes url_parse random_range http_state user_agent em watch_fuel fuel
      (wopts : CoreWatchIndexesOptions T) s) query_reason.
Proof.
  intros em. split_and!; apply orchestrate_query_reasons; intros client.
  - apply result_stream_read, query_read.
  - apply result_stream_read, prepared_query_read. intros o. apply query_read.
  - apply get_all_indexes_read.
  - apply create_primary_index_read.
  - apply create_index_read.
  - apply dropped_result_read, query_read.
  - apply dropped_result_read, query_read.
  - apply build_deferred_indexes_read.
  - apply watch_loop_read.
Qed.

(** Waiting for an index ends with success only after a poll in which every endpoint of the
    config that was current then was asked and gave the wanted answer: all list the index when it
    is to be created, none does when it is to be gone.  Between two polls it pauses for at least
    100 milliseconds and at most a second, whatever the powers of the backoff factor are. *)
Lemma index_wait_ends_when_all_agree powi fuel opts s s' pauses :
  on_indexes component_ensure_index url_parse http_state user_agent powi fuel opts s = (s', pauses, Some (Ok tt)) →
  (∃ s1 targets answers,
     (nt_endpoint <$> targets) = (map_to_list (hcs_endpoints (http_state s1))).*2
     ∧ on_indexes asked (ensure_index_helper_new user_agent (CoreEnsureIndexOptions.index_name opts)
         (CoreEnsureIndexOptions.bucket_name opts) (CoreEnsureIndexOptions.scope_name opts)
         (CoreEnsureIndexOptions.collection_name opts) (CoreEnsureIndexOptions.on_behalf_of_info opts))
         targets s1 answers s'
     ∧ Forall (λ b, b = wanted (CoreEnsureIndexOptions.desired_state opts)) answers)
  ∧ Forall (λ d, from_millis 100 <= d <= from_millis 1000) pauses.
Proof.
  unfold component_ensure_index, ensure_resource. intros Hrun.
  apply ensure_resource_ok in Hrun as [(s1 & t1 & t2 & targets & Hg & Hp) Hps]. split.
  2:{ eapply list.Forall_impl; [exact Hps|]. intros d [n Hd]. by eapply ensure_pauses. }
  apply get_all_targets_all in Hg. unfold io_map_err, mbind, io_bind in Hp.
  match type of Hp with context [ensure_poll _ _ _ _ _ _ _ _ _ _ _ _ ?h ?d _ _] =>
    pose proof (ensure_poll_cases value_is regex_is_match status_display from_slice_string from_slice_value to_vec
      from_slice_error_response from_slice_early_metadata from_slice_metadata from_slice_index json_text new_uuid
      h d targets s1) as K end.
  destruct (ensure_poll _ _ _ _ _ _ _ _ _ _ _ _ _ _ targets s1) as [s2 [[[finished h2]|e|]|]]; [|done..].
  cbn in Hp. injection Hp as -> -> _. destruct K as (answers & Ha & _ & Hiff).
  exists s1, targets, answers. split; [done|]. split; [done|]. by apply Hiff.
Qed.

End ComponentTheorems.

(** ** Witnesses

    A node that answers every query with no rows: an index that is to be gone is gone. *)

#[local] Instance empty_node : HttpClient HttpComponentState :=
  λ _ s, (s, Some (Ok (sample_response 200 query_sample_empty))).

(** The values of the sample play no part. *)
Definition null_value (l : list Z) : string + Value := inr Json.Null.
Definition null_text (m : gmap string Value) : string + list Z := inr [].

Definition no_index_metadata : QueryMetaData Value :=
  mkQueryMetaData (mkQueryEarlyMetaData None) None None QueryStatus.Success [] [] None None None.

Definition gone_options : CoreEnsureIndexOptions :=
  core_ensure_index_options_new "i" "b" None None Deleted.

Abbreviation gone_run :=
  (component_ensure_index (P:=true) (λ _ _, false) (λ _ _, false) (λ _, "200"%string) query_key null_value
     null_text (λ _, inr (mkQueryErrorResponse [])) (λ _, inr (mkQueryEarlyMetaData None))
     (λ _, inr no_index_metadata) (λ _, inl "no index"%string) (λ _, inr "null"%string) (λ s, (s, "id"%string))
     (λ _, inr (Some "a"%string, Some 8093)) (λ s, s) "agent" (λ x _, x) 1 gone_options sample_component).

Lemma index_wait_ends_when_all_agree_example :
  gone_run = (sample_component, [], Some (Ok tt))
  ∧ ∃ s1 targets, (nt_endpoint <$> targets) = (map_to_list (hcs_endpoints s1)).*2.
Proof.
  assert (gone_run = (sample_component, [], Some (Ok tt))) as Hrun by (vm_compute; reflexivity).
  split; [exact Hrun|].
  destruct (proj1 (index_wait_ends_when_all_agree (P:=true) (λ _ _, false) (λ _ _, false) (λ _, "200"%string)
    query_key null_value null_text (λ _, inr (mkQueryErrorResponse []))
    (λ _, inr (mkQueryEarlyMetaData None)) (λ _, inr no_index_metadata) (λ _, inl "no index"%string)
    (λ _, inr "null"%string) (λ s, (s, "id"%string)) (λ _, inr (Some "a"%string, Some 8093)) (λ s, s)
    "agent" (λ x _, x) 1 gone_options sample_component sample_component [] Hrun))
    as (s1 & targets & _ & Ht & _).
  exists s1, targets. exact Ht.
Defined.
