(* ===== verification/FacadeError.v ===== *)
(** * Errors of the public crate ([couchbase/src/error.rs], [error_context.rs],
    [service_type.rs])

    An application sees an error of its own type: a kind, and the context of the call where
    there is one.  The errors of the layers below are converted to it.

    A message that is the text of another error ([to_string]) is kept as that error: how an
    error is shown is formatting.  Keys are bytes, as they were sent.  The module [Sdk] keeps
    the names of the source apart from those of the other error types. *)

From S2P Require Import Prelude Text Json HttpxError QueryxError SearchxError AnalyticsxError MgmtxError.
From S2P Require Import Wire MemdError CoreError Http.

(** ** Services ([service_type.rs]) *)

Module SdkServiceType.
Inductive SdkServiceType : Type :=
| Kv
| Mgmt
| Query
| Search
| Eventing
| Other (val : string).
End SdkServiceType.
Abbreviation SdkServiceType := SdkServiceType.SdkServiceType.

(** [Display] of a service of the agent. *)
Definition service_type_display (s : ServiceType) : string :=
  match s with
  | ServiceType.Memd => "memd"
  | ServiceType.Mgmt => "mgmt"
  | ServiceType.Query => "query"
  | ServiceType.Search => "search"
  | ServiceType.Eventing => "eventing"
  | ServiceType.Analytics => "analytics"
  | ServiceType.Other val => "unknown(" +:+ val +:+ ")"
  end.

Definition sdk_service_type_from (service_type : ServiceType) : SdkServiceType :=
  match service_type with
  | ServiceType.Memd => SdkServiceType.Kv
  | ServiceType.Mgmt => SdkServiceType.Mgmt
  | ServiceType.Query => SdkServiceType.Query
  | ServiceType.Search => SdkServiceType.Search
  | ServiceType.Eventing => SdkServiceType.Eventing
  | _ => SdkServiceType.Other (service_type_display service_type)
  end.

(** [unreachable!()] for the services an application cannot name. *)
Definition service_type_from_sdk {E} (service_type : SdkServiceType) : outcome E ServiceType :=
  match service_type with
  | SdkServiceType.Kv => Ok ServiceType.Memd
  | SdkServiceType.Mgmt => Ok ServiceType.Mgmt
  | SdkServiceType.Query => Ok ServiceType.Query
  | SdkServiceType.Search => Ok ServiceType.Search
  | SdkServiceType.Eventing => Ok ServiceType.Eventing
  | SdkServiceType.Other _ => Panic
  end.

(** ** The context of a server error ([ServerError::parse_context]) *)

Definition hex_digit (b : Z) : option Z :=
  if is_digit b then Some (b - 48)
  else if (97 <=? b) && (b <=? 102) then Some (b - 87)
  else if (65 <=? b) && (b <=? 70) then Some (b - 55)
  else None.

Fixpoint parse_hex_digits (acc : Z) (l : list Z) : option Z :=
  match l with
  | [] => Some acc
  | b :: l =>
      d ← hex_digit b;
      let acc := acc * 16 + d in
      if acc <? 2 ^ 64 then parse_hex_digits acc l else None
  end.

(** [u64::from_str_radix(text, 16)]: a sign [+] is accepted, no digits are not. *)
Definition u64_from_hex (text : string) : option Z :=
  match str_bytes text with
  | [] => None
  | [b] => parse_hex_digits 0 [b]
  | b :: rest => if b =? 43 then parse_hex_digits 0 rest else parse_hex_digits 0 (b :: rest)
  end.

Record ServerErrorContextJson : Type := mkServerErrorContextJson {
  secj_context : option string;
  secj_error_ref : option string;
  secj_manifest_rev : option string;
}.

Record ServerErrorContext : Type := mkServerErrorContext {
  sec_text : option string;
  sec_error_ref : option string;
  sec_manifest_rev : option Z;
}.

Module Sdk.

(** ** Kinds *)

(** A message: a text of its own, or the text of another error. *)
Inductive FailureText : Type :=
| Text (msg : string)
| ShownCore (e : Core.Error)
| ShownMemdx (e : Core.MemdxError)
| ShownSource (s : Source)
| ShownServerKind (k : MemdError.ServerErrorKind)
| ShownSubdoc (e : SubdocError)
| ShownQuery (e : Queryx.Error Value)
| ShownQueryKind (k : QueryServerErrorKind)
| ShownSearch (e : Searchx.Error)
| ShownSearchKind (k : Searchx.ServerErrorKind)
| ShownMgmt (e : Mgmtx.Error)
| ShownMgmtKind (k : Mgmtx.ServerErrorKind).

Inductive ErrorKind : Type :=
| OtherFailure (msg : FailureText)
| ServerTimeout
| Disconnected
| InvalidArgument (msg : FailureText) (arg : option string)
| ServiceNotAvailable (service : SdkServiceType)
| FeatureNotAvailable (feature : string) (msg : option string)
| InternalServerFailure
| AuthenticationFailure
| TemporaryFailure
| ParsingFailure
| CasMismatch
| BucketNotFound
| CollectionNotFound
| ScopeNotFound
| EncodingFailure (msg : string)
| DecodingFailure (msg : string)
| UnsupportedOperation
| IndexNotFound
| IndexExists
| RateLimitedFailure
| QuotaLimitedFailure
| DocumentNotFound
| DocumentUnretrievable
| DocumentLocked
| ValueTooLarge
| DocumentExists
| DurabilityLevelNotAvailable
| DurabilityImpossible
| DurabilityAmbiguous
| DurabilityWriteInProgress
| DurableWriteRecommitInProgress
| PathNotFound
| PathMismatch
| PathInvalid
| PathTooBig
| PathTooDeep
| ValueTooDeep
| ValueInvalid
| DocumentNotJSON
| NumberTooBig
| DeltaInvalid
| PathExists
| XattrUnknownMacro
| XattrInvalidKeyCombo
| XattrUnknownVirtualAttribute
| XattrCannotModifyVirtualAttribute
| XattrNoAccess
| XattrInvalidOrder
| XattrInvalidFlagCombo
| MutationTokenOutdated
| DocumentNotLocked
| PlanningFailure
| IndexFailure
| PreparedStatementFailure
| DMLFailure
| CollectionExists
| ScopeExists
| UserNotFound
| GroupNotFound
| BucketExists
| UserExists
| GroupExists
| BucketNotFlushable.

(** ** Contexts ([error_context.rs]) *)

Record KeyValueErrorContext : Type := mkKeyValueErrorContext {
  kvc_key : list Z;
  kvc_opaque : Z;
  kvc_op_code : Z;
  kvc_status : Z;
  kvc_bucket_name : string;
  kvc_scope_name : string;
  kvc_collection_name : string;
  kvc_error_name : option string;
  kvc_error_desc : option string;
  kvc_xcontent : option string;
  kvc_xref : option string;
  kvc_source_message : option string;
}.

#[export] Instance kv_error_context_settable : Settable KeyValueErrorContext := λ r,
  mkKeyValueErrorContext (kvc_key r) (kvc_opaque r) (kvc_op_code r) (kvc_status r) (kvc_bucket_name r)
    (kvc_scope_name r) (kvc_collection_name r) (kvc_error_name r) (kvc_error_desc r) (kvc_xcontent r) (kvc_xref r)
    (kvc_source_message r).

Definition kv_error_context_new (key : list Z) (opaque op_code status : Z)
    (bucket_name scope_name collection_name : string) : KeyValueErrorContext :=
  mkKeyValueErrorContext key opaque op_code status bucket_name scope_name collection_name None None None None None.

Definition with_error_name (error_name : string) (c : KeyValueErrorContext) : KeyValueErrorContext :=
  c <| kvc_error_name := Some error_name |>.
Definition with_error_desc (error_desc : string) (c : KeyValueErrorContext) : KeyValueErrorContext :=
  c <| kvc_error_desc := Some error_desc |>.
Definition with_xcontent (xcontent : string) (c : KeyValueErrorContext) : KeyValueErrorContext :=
  c <| kvc_xcontent := Some xcontent |>.
Definition with_xref (xref : string) (c : KeyValueErrorContext) : KeyValueErrorContext :=
  c <| kvc_xref := Some xref |>.
Definition with_source_message (source_message : string) (c : KeyValueErrorContext) : KeyValueErrorContext :=
  c <| kvc_source_message := Some source_message |>.

Record QueryErrorDesc : Type := mkQueryErrorDesc {
  qed_kind : ErrorKind;
  qed_code : Z;
  qed_message : list Z;
  qed_retry : bool;
  qed_reason : gmap string Value;
}.

Record QueryErrorContext : Type := mkQueryErrorContext {
  qec_statement : string;
  qec_code : option Z;
  qec_message : option (list Z);
  qec_client_context_id : string;
  qec_http_status_code : option Z;
  qec_descs : list QueryErrorDesc;
}.

Record SearchErrorContext : Type := mkSearchErrorContext {
  sxc_index_name : string;
  sxc_error_text : option string;
  sxc_http_status_code : option Z;
}.

Record HttpErrorContext : Type := mkHttpErrorContext {
  hec_status_code : Z;
  hec_path : string;
  hec_method : Method;
  hec_error_text : option (list Z);
}.

Inductive ExtendedErrorContext : Type :=
| KeyValue (context : KeyValueErrorContext)
| Query (context : QueryErrorContext)
| Search (context : SearchErrorContext)
| Http (context : HttpErrorContext).

Record ErrorContext : Type := mkErrorContext {
  last_dispatched_from : option string;
  last_dispatched_to : option string;
  extended_context : option ExtendedErrorContext;
}.

#[export] Instance error_context_settable : Settable ErrorContext := λ r,
  mkErrorContext (last_dispatched_from r) (last_dispatched_to r) (extended_context r).

Definition error_context_new : ErrorContext := mkErrorContext None None None.
Definition with_dispatched_from (dispatched_from : string) (c : ErrorContext) : ErrorContext :=
  c <| last_dispatched_from := Some dispatched_from |>.
Definition with_dispatched_to (dispatched_to : string) (c : ErrorContext) : ErrorContext :=
  c <| last_dispatched_to := Some dispatched_to |>.
Definition with_extended_context (context : ExtendedErrorContext) (c : ErrorContext) : ErrorContext :=
  c <| extended_context := Some context |>.

(** ** Errors *)

Record Error : Type := mkError {
  kind : ErrorKind;
  context : option ErrorContext;
}.

Definition new (kind : ErrorKind) : Error := mkError kind None.
Definition other_failure (msg : string) : Error := new (OtherFailure (Text msg)).
Definition encoding_failure_from_serde (e : string) : Error := new (EncodingFailure ("encoding failed: " +:+ e)).
Definition decoding_failure_from_serde (e : string) : Error := new (DecodingFailure ("decoding failed: " +:+ e)).
Definition invalid_argument (arg : string) (msg : FailureText) : Error := new (InvalidArgument msg (Some arg)).
Definition with_context (context : ErrorContext) (e : Error) : Error := mkError (kind e) (Some context).

(** *** Key-value errors *)

Definition kind_from_subdoc_error (value : SubdocError) : ErrorKind :=
  match sde_kind value with
  | SubdocErrorKind.PathNotFound => PathNotFound
  | SubdocErrorKind.PathMismatch => PathMismatch
  | SubdocErrorKind.PathInvalid => PathInvalid
  | SubdocErrorKind.PathTooBig => PathTooBig
  | SubdocErrorKind.DocTooDeep => PathTooDeep
  | SubdocErrorKind.CantInsert => ValueInvalid
  | SubdocErrorKind.NotJSON => DocumentNotJSON
  | SubdocErrorKind.BadRange => NumberTooBig
  | SubdocErrorKind.BadDelta => DeltaInvalid
  | SubdocErrorKind.PathExists => PathExists
  | SubdocErrorKind.ValueTooDeep => ValueTooDeep
  | SubdocErrorKind.InvalidCombo => InvalidArgument (ShownSubdoc value) None
  | SubdocErrorKind.XattrInvalidFlagCombo => XattrInvalidFlagCombo
  | SubdocErrorKind.XattrInvalidKeyCombo => XattrInvalidKeyCombo
  | SubdocErrorKind.XattrUnknownMacro => XattrUnknownMacro
  | SubdocErrorKind.XattrUnknownVAttr => XattrUnknownVirtualAttribute
  | SubdocErrorKind.XattrCannotModifyVAttr => XattrCannotModifyVirtualAttribute
  | SubdocErrorKind.InvalidXattrOrder => XattrInvalidOrder
  | SubdocErrorKind.XattrUnknownVattrMacro => XattrUnknownVirtualAttribute
  | _ => OtherFailure (ShownSubdoc value)
  end.

Definition kind_from_server_error_kind (value : MemdError.ServerErrorKind) : ErrorKind :=
  match value with
  | ServerErrorKind.KeyExists => DocumentExists
  | ServerErrorKind.NotStored => DocumentNotFound
  | ServerErrorKind.KeyNotFound => DocumentNotFound
  | ServerErrorKind.TmpFail => TemporaryFailure
  | ServerErrorKind.CasMismatch => CasMismatch
  | ServerErrorKind.Locked => DocumentLocked
  | ServerErrorKind.NotLocked => DocumentNotLocked
  | ServerErrorKind.TooBig => ValueTooLarge
  | ServerErrorKind.UnknownCollectionID => CollectionNotFound
  | ServerErrorKind.UnknownBucketName => BucketNotFound
  | ServerErrorKind.Access => AuthenticationFailure
  | ServerErrorKind.Auth _ => AuthenticationFailure
  | ServerErrorKind.UnknownScopeName => ScopeNotFound
  | ServerErrorKind.UnknownCollectionName => CollectionNotFound
  | ServerErrorKind.Subdoc error => kind_from_subdoc_error error
  | ServerErrorKind.RateLimitedScopeSizeLimitExceeded => QuotaLimitedFailure
  | ServerErrorKind.RateLimitedNetworkEgress => RateLimitedFailure
  | ServerErrorKind.RateLimitedNetworkIngress => RateLimitedFailure
  | ServerErrorKind.RateLimitedMaxCommands => RateLimitedFailure
  | ServerErrorKind.RateLimitedMaxConnections => RateLimitedFailure
  | ServerErrorKind.DurabilityImpossible => DurabilityImpossible
  | ServerErrorKind.SyncWriteRecommitInProgress => DurableWriteRecommitInProgress
  | ServerErrorKind.SyncWriteInProgress => DurabilityWriteInProgress
  | ServerErrorKind.SyncWriteAmbiguous => DurabilityAmbiguous
  | ServerErrorKind.DurabilityInvalid => DurabilityLevelNotAvailable
  | ServerErrorKind.BadDelta => DeltaInvalid
  | ServerErrorKind.RangeError => NumberTooBig
  | ServerErrorKind.InternalError => InternalServerFailure
  | ServerErrorKind.Busy => TemporaryFailure
  | ServerErrorKind.UnknownCommand => UnsupportedOperation
  | ServerErrorKind.NotSupported => UnsupportedOperation
  | _ => OtherFailure (ShownServerKind value)
  end.

Section Conversions.
Context (from_slice_context : list Z → option ServerErrorContextJson).

Definition parse_context (context : list Z) : option ServerErrorContext :=
  match context with
  | [] => None
  | _ =>
      context_json ← from_slice_context context;
      Some (mkServerErrorContext (secj_context context_json) (secj_error_ref context_json)
              ((λ rev, default 0 (u64_from_hex rev)) <$> secj_manifest_rev context_json))
  end.

(** [if let Some(x) = o { c = f(x, c) }]. *)
Definition with_some {A C} (f : A → C → C) (o : option A) (c : C) : C :=
  match o with Some x => f x c | None => c end.

(** A server error has no source: the source message is never set. *)
Definition parse_kv_server_error (e : MemdError.ServerError) (doc_id : list Z)
    (bucket_name scope_name collection_name : string) : ErrorKind * KeyValueErrorContext :=
  let extended_context :=
    kv_error_context_new doc_id (MemdError.se_opaque e) (u8_from_opcode (MemdError.se_op_code e))
      (u16_from_status (MemdError.se_status e)) bucket_name scope_name collection_name in
  let extended_context :=
    match MemdError.se_context e ≫= parse_context with
    | Some parsed =>
        with_some with_xref (sec_error_ref parsed) (with_some with_xcontent (sec_text parsed) extended_context)
    | None => extended_context
    end in
  (kind_from_server_error_kind (MemdError.se_kind e), extended_context).

Definition error_from_memdx (value : Core.MemdxError) : Error :=
  let failed := (OtherFailure (ShownMemdx value), None) in
  let or_empty (o : option string) := default ""%string o in
  let '(kind, extended) :=
    match err_kind (Core.source value) with
    | MemdError.ErrorKind.Server e =>
        let '(kind, context) :=
          parse_kv_server_error e (obytes (Core.doc_id value)) (or_empty (Core.bucket_name value))
            (or_empty (Core.scope_name value)) (or_empty (Core.collection_name value)) in
        (kind, Some (KeyValue context))
    | MemdError.ErrorKind.Resource e =>
        let '(kind, context) :=
          parse_kv_server_error (re_cause e) (obytes (Core.doc_id value)) (or_empty (Core.bucket_name value))
            (re_scope_name e) (re_collection_name e) in
        (kind, Some (KeyValue context))
    | MemdError.ErrorKind.Io =>
        (OtherFailure (match err_source (Core.source value) with Some s => ShownSource s | None => ShownMemdx value end),
         None)
    | MemdError.ErrorKind.InvalidArgument msg arg =>
        (InvalidArgument (match err_source (Core.source value) with Some s => ShownSource s | None => Text msg end) arg,
         None)
    | _ => failed
    end in
  let context := with_some with_dispatched_from (Core.dispatched_from value) error_context_new in
  let context := with_some with_dispatched_to (Core.dispatched_to value) context in
  let context := with_some with_extended_context extended context in
  mkError kind (Some context).

(** *** Query errors *)

Definition kind_from_query_server_error_kind (value : QueryServerErrorKind) : ErrorKind :=
  match value with
  | QueryServerErrorKind.ParsingFailure => ParsingFailure
  | QueryServerErrorKind.Internal => InternalServerFailure
  | QueryServerErrorKind.AuthenticationFailure => AuthenticationFailure
  | QueryServerErrorKind.CasMismatch => CasMismatch
  | QueryServerErrorKind.DocNotFound => DocumentNotFound
  | QueryServerErrorKind.DocExists => DocumentExists
  | QueryServerErrorKind.PlanningFailure => PlanningFailure
  | QueryServerErrorKind.IndexFailure => IndexFailure
  | QueryServerErrorKind.PreparedStatementFailure => PreparedStatementFailure
  | QueryServerErrorKind.DMLFailure => DMLFailure
  | QueryServerErrorKind.Timeout => ServerTimeout
  | QueryServerErrorKind.IndexExists => IndexExists
  | QueryServerErrorKind.IndexNotFound => IndexNotFound
  | QueryServerErrorKind.ScopeNotFound => ScopeNotFound
  | QueryServerErrorKind.CollectionNotFound => CollectionNotFound
  | QueryServerErrorKind.InvalidArgument argument reason => InvalidArgument (Text reason) (Some argument)
  | _ => OtherFailure (ShownQueryKind value)
  end.

Definition parse_query_server_error (e : Queryx.ServerError Value) : ErrorKind * QueryErrorContext :=
  (kind_from_query_server_error_kind (Queryx.se_kind e),
   mkQueryErrorContext (default ""%string (Queryx.se_statement e)) (Some (Queryx.se_code e)) (Some (Queryx.se_msg e))
     (default ""%string (Queryx.se_client_context_id e)) (Some (Queryx.se_status_code e))
     ((λ ed, mkQueryErrorDesc (kind_from_query_server_error_kind (Queryx.desc_kind ed)) (Queryx.desc_code ed)
               (Queryx.desc_message ed) (Queryx.desc_retry ed) (Queryx.desc_reason ed))
        <$> Queryx.se_all_error_descs e)).

(** A server error of the query service, at its endpoint. *)
Definition error_from_query_server (e : Queryx.ServerError Value) : Error :=
  let '(kind, context) := parse_query_server_error e in
  mkError kind (Some (with_dispatched_to (Queryx.se_endpoint e) (with_extended_context (Query context) error_context_new))).

Definition unanswered_query (statement client_context_id : option string) : ErrorContext :=
  with_extended_context
    (Query (mkQueryErrorContext (default ""%string statement) None None (default ""%string client_context_id) None []))
    error_context_new.

(** An error of the query client has no source, whatever it wraps. *)
Definition error_from_query (value : Queryx.Error Value) : Error :=
  match Queryx.kind value with
  | Queryx.Server e => error_from_query_server e
  | Queryx.Http _ endpoint statement client_context_id =>
      mkError (OtherFailure (Text "unknown http error"))
        (Some (with_dispatched_to endpoint (unanswered_query statement client_context_id)))
  | Queryx.Resource e => error_from_query_server (Queryx.cause e)
  | Queryx.Message msg endpoint statement client_context_id =>
      mkError (OtherFailure (Text msg))
        (Some (with_some with_dispatched_to endpoint (unanswered_query statement client_context_id)))
  | Queryx.InvalidArgument msg arg => new (InvalidArgument (Text msg) arg)
  | Queryx.Encoding msg => new (OtherFailure (Text msg))
  end.

(** *** Search errors *)

Definition kind_from_search_server_error_kind (value : Searchx.ServerErrorKind) : ErrorKind :=
  match value with
  | Searchx.Internal => InternalServerFailure
  | Searchx.AuthenticationFailure => AuthenticationFailure
  | Searchx.IndexExists => IndexNotFound
  | Searchx.IndexNotFound => IndexNotFound
  | Searchx.RateLimitedFailure => RateLimitedFailure
  | _ => OtherFailure (ShownSearchKind value)
  end.

Definition error_from_search (value : Searchx.Error) : Error :=
  match Searchx.kind value with
  | Searchx.Server e =>
      mkError (kind_from_search_server_error_kind (Searchx.se_kind e))
        (Some (with_dispatched_to (Searchx.se_endpoint e)
           (with_extended_context
              (Search (mkSearchErrorContext (Searchx.se_index_name e) (Some (Searchx.se_error_text e))
                         (Some (Searchx.se_status_code e))))
              error_context_new)))
  | Searchx.Http _ endpoint =>
      mkError (OtherFailure (Text "unknown http error")) (Some (with_dispatched_to endpoint error_context_new))
  | Searchx.Message msg endpoint =>
      mkError (OtherFailure (Text msg)) ((λ ep, with_dispatched_to ep error_context_new) <$> endpoint)
  | Searchx.InvalidArgument msg arg => new (InvalidArgument (Text msg) arg)
  | Searchx.Encoding msg => new (EncodingFailure msg)
  | Searchx.UnsupportedFeature feature => new (FeatureNotAvailable feature None)
  end.

(** *** Management errors *)

Definition kind_from_mgmt_server_error_kind (value : Mgmtx.ServerErrorKind) : ErrorKind :=
  match value with
  | Mgmtx.AccessDenied => AuthenticationFailure
  | Mgmtx.UnsupportedFeature feature => FeatureNotAvailable feature None
  | Mgmtx.ScopeExists => ScopeExists
  | Mgmtx.ScopeNotFound => ScopeNotFound
  | Mgmtx.CollectionExists => CollectionExists
  | Mgmtx.CollectionNotFound => CollectionNotFound
  | Mgmtx.BucketExists => BucketExists
  | Mgmtx.BucketNotFound => BucketNotFound
  | Mgmtx.FlushDisabled => BucketNotFlushable
  | Mgmtx.ServerInvalidArg arg reason => InvalidArgument (Text reason) (Some arg)
  | Mgmtx.UserNotFound => UserNotFound
  | Mgmtx.GroupNotFound => GroupNotFound
  | _ => OtherFailure (ShownMgmtKind value)
  end.

Definition error_from_mgmt_server (e : Mgmtx.ServerError) : Error :=
  mkError (kind_from_mgmt_server_error_kind (Mgmtx.se_kind e))
    (Some (with_dispatched_to (Mgmtx.se_url e)
       (with_extended_context
          (Http (mkHttpErrorContext (Mgmtx.se_status_code e) (Mgmtx.se_path e) (Mgmtx.se_method e) (Some (Mgmtx.se_body e))))
          error_context_new))).

Definition error_from_mgmt (value : Mgmtx.Error) : Error :=
  match Mgmtx.kind value with
  | Mgmtx.Server e => error_from_mgmt_server e
  | Mgmtx.Resource e => error_from_mgmt_server (Mgmtx.cause e)
  | Mgmtx.InvalidArgument msg arg => new (InvalidArgument (Text msg) arg)
  | Mgmtx.Message msg => new (OtherFailure (Text msg))
  | _ => new (OtherFailure (ShownMgmt value))
  end.

(** *** Errors of the agent *)

Definition error_from_core (value : Core.Error) : Error :=
  match Core.kind value with
  | Core.Memdx e => error_from_memdx e
  | Core.Query e => error_from_query e
  | Core.Search e => error_from_search e
  | Core.Http e =>
      new (match httpx_kind e with
           | HttpxErrorKind.Connection msg => OtherFailure (Text msg)
           | HttpxErrorKind.Decoding msg => DecodingFailure msg
           | HttpxErrorKind.Message msg => OtherFailure (Text msg)
           | _ => OtherFailure (ShownCore value)
           end)
  | Core.Mgmt e => error_from_mgmt e
  | Core.InvalidArgument msg arg => new (InvalidArgument (Text msg) arg)
  | Core.IllegalState msg => new (OtherFailure (Text msg))
  | Core.Message msg => new (OtherFailure (Text msg))
  | Core.ServiceNotAvailable service => new (ServiceNotAvailable (sdk_service_type_from service))
  | Core.FeatureNotAvailable feature msg => new (FeatureNotAvailable feature (Some msg))
  | Core.Compression msg => new (OtherFailure (Text msg))
  | Core.Internal msg => new (OtherFailure (Text msg))
  | _ => new (OtherFailure (ShownCore value))
  end.

End Conversions.
End Sdk.

(** * Calls of the agent from the public crate ([clients/agent_provider.rs])

    The clients of the public crate have one of two back ends, of which the second is not implemented.  A
    client waits for the agent of its bucket ([AgentProvider.v]), upgrades the reference it gets and
    calls the agent; its error becomes one of the public crate. *)

(** [enum ..ClientBackend]: everything of a [Couchbase2..Client] is [unimplemented!()]. *)
Inductive ClientBackend (C : Type) : Type :=
| CouchbaseBackend (client : C)
| Couchbase2Backend.
#[global] Arguments CouchbaseBackend {C}.
#[global] Arguments Couchbase2Backend {C}.

(** [match &self.backend]. *)
Definition on_backend {S C A} (backend : ClientBackend C) (operation : C → io S Sdk.Error A) : io S Sdk.Error A :=
  match backend with
  | CouchbaseBackend client => operation client
  | Couchbase2Backend => io_lift Panic
  end.

(** [if let Some(x) = o { acc = acc.setter(x); }], and with a conversion of [x] on the way. *)
Definition set_some {A B} (setter : A → B → B) (o : option A) (acc : B) : B :=
  match o with Some x => setter x acc | None => acc end.
Definition set_into {E A A' B} (into : A → outcome E A') (setter : A' → B → B) (o : option A) (acc : B) : outcome E B :=
  match o with Some x => y ← into x; Ok (setter y acc) | None => Ok acc end.

Section Agent.
Context {S : Type}.
(** [agent_provider.get_agent().await] and whether the agent can be upgraded: nothing when no agent ever
    arrives. *)
Context (get_agent : S → S * option bool).
Context (from_slice_context : list Z → option ServerErrorContextJson).

(** [CouchbaseAgentProvider::upgrade_agent(agent)?] of the agent that was waited for. *)
Definition upgraded {A} (operation : io S Sdk.Error A) : io S Sdk.Error A := λ s,
  match get_agent s with
  | (s, Some true) => operation s
  | (s, Some false) => (s, Some (Err (Sdk.new Sdk.Disconnected)))
  | (s, None) => (s, None)
  end.

(** [agent.operation(..).await?]. *)
Definition agent_call {A} (operation : io S Core.Error A) : io S Sdk.Error A :=
  io_map_err (Sdk.error_from_core from_slice_context) operation.

Definition on_agent {A} (operation : io S Core.Error A) : io S Sdk.Error A := upgraded (agent_call operation).

(** An operation of the agent, with something that is made of the arguments while the agent is already waited for. *)
Definition on_agent_after {X A} (prepare : outcome Sdk.Error X) (operation : X → io S Core.Error A)
    : io S Sdk.Error A := λ s,
  match get_agent s with
  | (s, Some has_agent) =>
      match prepare with
      | Ok x =>
          if has_agent : bool then agent_call (operation x) s
          else (s, Some (Err (Sdk.new Sdk.Disconnected)))
      | Err e => (s, Some (Err e))
      | Panic => (s, Some Panic)
      end
  | (s, None) => (s, None)
  end.

(** The operation is run once, by the agent that is there, or not at all. *)
Lemma on_agent_ok {A} (operation : io S Core.Error A) s s' a :
  on_agent operation s = (s', Some (Ok a)) ↔
  ∃ s1, get_agent s = (s1, Some true) ∧ operation s1 = (s', Some (Ok a)).
Proof.
  unfold on_agent, upgraded, agent_call, io_map_err. split.
  - destruct (get_agent s) as [s1 [[]|]]; try done. destruct (operation s1) as [s2 [[x|e|]|]] eqn:Ho; cbn; try done.
    intros [= <- <-]. by exists s1.
  - intros (s1 & -> & ->). done.
Qed.

(** Without an agent nothing is asked, and an error of the agent's is that error, as the public crate has it. *)
Lemma on_agent_gone {A} (operation : io S Core.Error A) s s1 :
  get_agent s = (s1, Some false) → on_agent operation s = (s1, Some (Err (Sdk.new Sdk.Disconnected))).
Proof. intros Hg. unfold on_agent, upgraded. by rewrite Hg. Qed.

Lemma on_agent_err {A} (operation : io S Core.Error A) s s1 s' e :
  get_agent s = (s1, Some true) → operation s1 = (s', Some (Err e)) →
  on_agent operation s = (s', Some (Err (Sdk.error_from_core from_slice_context e))).
Proof. intros Hg Ho. unfold on_agent, upgraded, agent_call, io_map_err. by rewrite Hg, Ho. Qed.

Lemma on_agent_after_ok {X A} x (operation : X → io S Core.Error A) s :
  on_agent_after (Ok x) operation s = on_agent (operation x) s.
Proof. unfold on_agent_after, on_agent, upgraded. by destruct (get_agent s) as [s1 [[]|]]. Qed.

(** What cannot be made of the arguments is not asked for. *)
Lemma on_agent_after_panic {X A} (operation : X → io S Core.Error A) s s1 has_agent :
  get_agent s = (s1, Some has_agent) → on_agent_after Panic operation s = (s1, Some Panic).
Proof. intros Hg. unfold on_agent_after. by rewrite Hg. Qed.
End Agent.
