(* ===== verification/SdkOptions.v ===== *)
(** * Options of the key-value operations of the public crate
    ([couchbase/src/options/kv_options.rs], [kv_binary_options.rs], [collection_ds_options.rs],
    [durability_level.rs])

    The records an application fills in, with their setters.  The retry strategy is a trait
    object of the type [T].  Names that the layer below uses too carry the prefix [Sdk]. *)

From S2P Require Import Prelude Wire.

(** ** Durability levels *)

Module SdkDurabilityLevel.
Inductive SdkDurabilityLevel : Type :=
| None_
| Majority
| MajorityAndPersistActive
| PersistToMajority
| Other (val : string).
End SdkDurabilityLevel.
(** [struct DurabilityLevel(InnerDurabilityLevel)]. *)
Abbreviation SdkDurabilityLevel := SdkDurabilityLevel.SdkDurabilityLevel.

Definition parse_optional_durability_level_to_memdx (durability_level : option SdkDurabilityLevel)
    : option DurabilityLevel :=
  match durability_level with
  | Some SdkDurabilityLevel.Majority => Some InnerDurabilityLevel.Majority
  | Some SdkDurabilityLevel.MajorityAndPersistActive => Some InnerDurabilityLevel.MajorityAndPersistActive
  | Some SdkDurabilityLevel.PersistToMajority => Some InnerDurabilityLevel.PersistToMajority
  | _ => None
  end.

Module StoreSemantics.
Inductive StoreSemantics : Type := Replace | Upsert | Insert.
End StoreSemantics.
Abbreviation StoreSemantics := StoreSemantics.StoreSemantics.

(** ** Options *)

(** *** [options/kv_options.rs] *)

Module SdkUpsertOptions.
Section Fields.
Context {T : Type}.
Record SdkUpsertOptions : Type := mk {
  expiry : option Duration;
  durability_level : option SdkDurabilityLevel;
  preserve_expiry : option bool;
  retry_strategy : option T;
}.
End Fields.
#[global] Arguments SdkUpsertOptions : clear implicits.
End SdkUpsertOptions.
Abbreviation SdkUpsertOptions := SdkUpsertOptions.SdkUpsertOptions.
#[global] Instance sdk_upsert_options_settable T : Settable (SdkUpsertOptions T) := λ r,
  SdkUpsertOptions.mk (SdkUpsertOptions.expiry r) (SdkUpsertOptions.durability_level r)
    (SdkUpsertOptions.preserve_expiry r) (SdkUpsertOptions.retry_strategy r).

Definition sdk_upsert_options_new {T : Type} : SdkUpsertOptions T :=
  SdkUpsertOptions.mk None None None None.

Definition sdk_upsert_options_expiry {T : Type} (expiry : Duration)
    (self : SdkUpsertOptions T) : SdkUpsertOptions T :=
  self <| SdkUpsertOptions.expiry := Some expiry |>.

Definition sdk_upsert_options_durability_level {T : Type} (durability_level : SdkDurabilityLevel)
    (self : SdkUpsertOptions T) : SdkUpsertOptions T :=
  self <| SdkUpsertOptions.durability_level := Some durability_level |>.

Definition sdk_upsert_options_preserve_expiry {T : Type} (preserve_expiry : bool)
    (self : SdkUpsertOptions T) : SdkUpsertOptions T :=
  self <| SdkUpsertOptions.preserve_expiry := Some preserve_expiry |>.

Definition sdk_upsert_options_retry_strategy {T : Type} (retry_strategy : T)
    (self : SdkUpsertOptions T) : SdkUpsertOptions T :=
  self <| SdkUpsertOptions.retry_strategy := Some retry_strategy |>.

Module SdkInsertOptions.
Section Fields.
Context {T : Type}.
Record SdkInsertOptions : Type := mk {
  expiry : option Duration;
  durability_level : option SdkDurabilityLevel;
  retry_strategy : option T;
}.
End Fields.
#[global] Arguments SdkInsertOptions : clear implicits.
End SdkInsertOptions.
Abbreviation SdkInsertOptions := SdkInsertOptions.SdkInsertOptions.
#[global] Instance sdk_insert_options_settable T : Settable (SdkInsertOptions T) := λ r,
  SdkInsertOptions.mk (SdkInsertOptions.expiry r) (SdkInsertOptions.durability_level r)
    (SdkInsertOptions.retry_strategy r).

Definition sdk_insert_options_new {T : Type} : SdkInsertOptions T :=
  SdkInsertOptions.mk None None None.

Definition sdk_insert_options_expiry {T : Type} (expiry : Duration)
    (self : SdkInsertOptions T) : SdkInsertOptions T :=
  self <| SdkInsertOptions.expiry := Some expiry |>.

Definition sdk_insert_options_durability_level {T : Type} (durability_level : SdkDurabilityLevel)
    (self : SdkInsertOptions T) : SdkInsertOptions T :=
  self <| SdkInsertOptions.durability_level := Some durability_level |>.

Definition sdk_insert_options_retry_strategy {T : Type} (retry_strategy : T)
    (self : SdkInsertOptions T) : SdkInsertOptions T :=
  self <| SdkInsertOptions.retry_strategy := Some retry_strategy |>.

Module SdkReplaceOptions.
Section Fields.
Context {T : Type}.
Record SdkReplaceOptions : Type := mk {
  expiry : option Duration;
  durability_level : option SdkDurabilityLevel;
  preserve_expiry : option bool;
  cas : option Z;
  retry_strategy : option T;
}.
End Fields.
#[global] Arguments SdkReplaceOptions : clear implicits.
End SdkReplaceOptions.
Abbreviation SdkReplaceOptions := SdkReplaceOptions.SdkReplaceOptions.
#[global] Instance sdk_replace_options_settable T : Settable (SdkReplaceOptions T) := λ r,
  SdkReplaceOptions.mk (SdkReplaceOptions.expiry r) (SdkReplaceOptions.durability_level r)
    (SdkReplaceOptions.preserve_expiry r) (SdkReplaceOptions.cas r) (SdkReplaceOptions.retry_strategy r).

Definition sdk_replace_options_new {T : Type} : SdkReplaceOptions T :=
  SdkReplaceOptions.mk None None None None None.

Definition sdk_replace_options_expiry {T : Type} (expiry : Duration)
    (self : SdkReplaceOptions T) : SdkReplaceOptions T :=
  self <| SdkReplaceOptions.expiry := Some expiry |>.

Definition sdk_replace_options_durability_level {T : Type} (durability_level : SdkDurabilityLevel)
    (self : SdkReplaceOptions T) : SdkReplaceOptions T :=
  self <| SdkReplaceOptions.durability_level := Some durability_level |>.

Definition sdk_replace_options_preserve_expiry {T : Type} (preserve_expiry : bool)
    (self : SdkReplaceOptions T) : SdkReplaceOptions T :=
  self <| SdkReplaceOptions.preserve_expiry := Some preserve_expiry |>.

Definition sdk_replace_options_cas {T : Type} (cas : Z) (self : SdkReplaceOptions T) : SdkReplaceOptions T :=
  self <| SdkReplaceOptions.cas := Some cas |>.

Definition sdk_replace_options_retry_strategy {T : Type} (retry_strategy : T)
    (self : SdkReplaceOptions T) : SdkReplaceOptions T :=
  self <| SdkReplaceOptions.retry_strategy := Some retry_strategy |>.

Module SdkGetOptions.
Section Fields.
Context {T : Type}.
Record SdkGetOptions : Type := mk {
  expiry : option bool;
  projections : option (list string);
  retry_strategy : option T;
}.
End Fields.
#[global] Arguments SdkGetOptions : clear implicits.
End SdkGetOptions.
Abbreviation SdkGetOptions := SdkGetOptions.SdkGetOptions.
#[global] Instance sdk_get_options_settable T : Settable (SdkGetOptions T) := λ r,
  SdkGetOptions.mk (SdkGetOptions.expiry r) (SdkGetOptions.projections r) (SdkGetOptions.retry_strategy r).

Definition sdk_get_options_new {T : Type} : SdkGetOptions T :=
  SdkGetOptions.mk None None None.

Definition sdk_get_options_expiry {T : Type} (expiry : bool) (self : SdkGetOptions T) : SdkGetOptions T :=
  self <| SdkGetOptions.expiry := Some expiry |>.

Definition sdk_get_options_projections {T : Type} (projections : list string)
    (self : SdkGetOptions T) : SdkGetOptions T :=
  self <| SdkGetOptions.projections := Some projections |>.

Definition sdk_get_options_retry_strategy {T : Type} (retry_strategy : T)
    (self : SdkGetOptions T) : SdkGetOptions T :=
  self <| SdkGetOptions.retry_strategy := Some retry_strategy |>.

Module SdkExistsOptions.
Section Fields.
Context {T : Type}.
Record SdkExistsOptions : Type := mk {
  retry_strategy : option T;
}.
End Fields.
#[global] Arguments SdkExistsOptions : clear implicits.
End SdkExistsOptions.
Abbreviation SdkExistsOptions := SdkExistsOptions.SdkExistsOptions.
#[global] Instance sdk_exists_options_settable T : Settable (SdkExistsOptions T) := λ r,
  SdkExistsOptions.mk (SdkExistsOptions.retry_strategy r).

Definition sdk_exists_options_new {T : Type} : SdkExistsOptions T :=
  SdkExistsOptions.mk None.

Definition sdk_exists_options_retry_strategy {T : Type} (retry_strategy : T)
    (self : SdkExistsOptions T) : SdkExistsOptions T :=
  self <| SdkExistsOptions.retry_strategy := Some retry_strategy |>.

Module SdkRemoveOptions.
Section Fields.
Context {T : Type}.
Record SdkRemoveOptions : Type := mk {
  durability_level : option SdkDurabilityLevel;
  cas : option Z;
  retry_strategy : option T;
}.
End Fields.
#[global] Arguments SdkRemoveOptions : clear implicits.
End SdkRemoveOptions.
Abbreviation SdkRemoveOptions := SdkRemoveOptions.SdkRemoveOptions.
#[global] Instance sdk_remove_options_settable T : Settable (SdkRemoveOptions T) := λ r,
  SdkRemoveOptions.mk (SdkRemoveOptions.durability_level r) (SdkRemoveOptions.cas r)
    (SdkRemoveOptions.retry_strategy r).

Definition sdk_remove_options_new {T : Type} : SdkRemoveOptions T :=
  SdkRemoveOptions.mk None None None.

Definition sdk_remove_options_durability_level {T : Type} (durability_level : SdkDurabilityLevel)
    (self : SdkRemoveOptions T) : SdkRemoveOptions T :=
  self <| SdkRemoveOptions.durability_level := Some durability_level |>.

Definition sdk_remove_options_cas {T : Type} (cas : Z) (self : SdkRemoveOptions T) : SdkRemoveOptions T :=
  self <| SdkRemoveOptions.cas := Some cas |>.

Definition sdk_remove_options_retry_strategy {T : Type} (retry_strategy : T)
    (self : SdkRemoveOptions T) : SdkRemoveOptions T :=
  self <| SdkRemoveOptions.retry_strategy := Some retry_strategy |>.

Module SdkGetAndTouchOptions.
Section Fields.
Context {T : Type}.
Record SdkGetAndTouchOptions : Type := mk {
  retry_strategy : option T;
}.
End Fields.
#[global] Arguments SdkGetAndTouchOptions : clear implicits.
End SdkGetAndTouchOptions.
Abbreviation SdkGetAndTouchOptions := SdkGetAndTouchOptions.SdkGetAndTouchOptions.
#[global] Instance sdk_get_and_touch_options_settable T : Settable (SdkGetAndTouchOptions T) := λ r,
  SdkGetAndTouchOptions.mk (SdkGetAndTouchOptions.retry_strategy r).

Definition sdk_get_and_touch_options_new {T : Type} : SdkGetAndTouchOptions T :=
  SdkGetAndTouchOptions.mk None.

Definition sdk_get_and_touch_options_retry_strategy {T : Type} (retry_strategy : T)
    (self : SdkGetAndTouchOptions T) : SdkGetAndTouchOptions T :=
  self <| SdkGetAndTouchOptions.retry_strategy := Some retry_strategy |>.

Module SdkGetAndLockOptions.
Section Fields.
Context {T : Type}.
Record SdkGetAndLockOptions : Type := mk {
  retry_strategy : option T;
}.
End Fields.
#[global] Arguments SdkGetAndLockOptions : clear implicits.
End SdkGetAndLockOptions.
Abbreviation SdkGetAndLockOptions := SdkGetAndLockOptions.SdkGetAndLockOptions.
#[global] Instance sdk_get_and_lock_options_settable T : Settable (SdkGetAndLockOptions T) := λ r,
  SdkGetAndLockOptions.mk (SdkGetAndLockOptions.retry_strategy r).

Definition sdk_get_and_lock_options_new {T : Type} : SdkGetAndLockOptions T :=
  SdkGetAndLockOptions.mk None.

Definition sdk_get_and_lock_options_retry_strategy {T : Type} (retry_strategy : T)
    (self : SdkGetAndLockOptions T) : SdkGetAndLockOptions T :=
  self <| SdkGetAndLockOptions.retry_strategy := Some retry_strategy |>.

Module SdkUnlockOptions.
Section Fields.
Context {T : Type}.
Record SdkUnlockOptions : Type := mk {
  retry_strategy : option T;
}.
End Fields.
#[global] Arguments SdkUnlockOptions : clear implicits.
End SdkUnlockOptions.
Abbreviation SdkUnlockOptions := SdkUnlockOptions.SdkUnlockOptions.
#[global] Instance sdk_unlock_options_settable T : Settable (SdkUnlockOptions T) := λ r,
  SdkUnlockOptions.mk (SdkUnlockOptions.retry_strategy r).

Definition sdk_unlock_options_new {T : Type} : SdkUnlockOptions T :=
  SdkUnlockOptions.mk None.

Definition sdk_unlock_options_retry_strategy {T : Type} (retry_strategy : T)
    (self : SdkUnlockOptions T) : SdkUnlockOptions T :=
  self <| SdkUnlockOptions.retry_strategy := Some retry_strategy |>.

Module SdkTouchOptions.
Section Fields.
Context {T : Type}.
Record SdkTouchOptions : Type := mk {
  retry_strategy : option T;
}.
End Fields.
#[global] Arguments SdkTouchOptions : clear implicits.
End SdkTouchOptions.
Abbreviation SdkTouchOptions := SdkTouchOptions.SdkTouchOptions.
#[global] Instance sdk_touch_options_settable T : Settable (SdkTouchOptions T) := λ r,
  SdkTouchOptions.mk (SdkTouchOptions.retry_strategy r).

Definition sdk_touch_options_new {T : Type} : SdkTouchOptions T :=
  SdkTouchOptions.mk None.

Definition sdk_touch_options_retry_strategy {T : Type} (retry_strategy : T)
    (self : SdkTouchOptions T) : SdkTouchOptions T :=
  self <| SdkTouchOptions.retry_strategy := Some retry_strategy |>.

Module SdkLookupInOptions.
Section Fields.
Context {T : Type}.
Record SdkLookupInOptions : Type := mk {
  access_deleted : option bool;
  retry_strategy : option T;
}.
End Fields.
#[global] Arguments SdkLookupInOptions : clear implicits.
End SdkLookupInOptions.
Abbreviation SdkLookupInOptions := SdkLookupInOptions.SdkLookupInOptions.
#[global] Instance sdk_lookup_in_options_settable T : Settable (SdkLookupInOptions T) := λ r,
  SdkLookupInOptions.mk (SdkLookupInOptions.access_deleted r) (SdkLookupInOptions.retry_strategy r).

Definition sdk_lookup_in_options_new {T : Type} : SdkLookupInOptions T :=
  SdkLookupInOptions.mk None None.

Definition sdk_lookup_in_options_access_deleted {T : Type} (access_deleted : bool)
    (self : SdkLookupInOptions T) : SdkLookupInOptions T :=
  self <| SdkLookupInOptions.access_deleted := Some access_deleted |>.

Definition sdk_lookup_in_options_retry_strategy {T : Type} (retry_strategy : T)
    (self : SdkLookupInOptions T) : SdkLookupInOptions T :=
  self <| SdkLookupInOptions.retry_strategy := Some retry_strategy |>.

Module SdkMutateInOptions.
Section Fields.
Context {T : Type}.
Record SdkMutateInOptions : Type := mk {
  expiry : option Duration;
  preserve_expiry : option bool;
  cas : option Z;
  durability_level : option SdkDurabilityLevel;
  store_semantics : option StoreSemantics;
  access_deleted : option bool;
  retry_strategy : option T;
}.
End Fields.
#[global] Arguments SdkMutateInOptions : clear implicits.
End SdkMutateInOptions.
Abbreviation SdkMutateInOptions := SdkMutateInOptions.SdkMutateInOptions.
#[global] Instance sdk_mutate_in_options_settable T : Settable (SdkMutateInOptions T) := λ r,
  SdkMutateInOptions.mk (SdkMutateInOptions.expiry r) (SdkMutateInOptions.preserve_expiry r)
    (SdkMutateInOptions.cas r) (SdkMutateInOptions.durability_level r) (SdkMutateInOptions.store_semantics r)
    (SdkMutateInOptions.access_deleted r) (SdkMutateInOptions.retry_strategy r).

Definition sdk_mutate_in_options_new {T : Type} : SdkMutateInOptions T :=
  SdkMutateInOptions.mk None None None None None None None.

Definition sdk_mutate_in_options_expiry {T : Type} (expiry : Duration)
    (self : SdkMutateInOptions T) : SdkMutateInOptions T :=
  self <| SdkMutateInOptions.expiry := Some expiry |>.

Definition sdk_mutate_in_options_preserve_expiry {T : Type} (preserve_expiry : bool)
    (self : SdkMutateInOptions T) : SdkMutateInOptions T :=
  self <| SdkMutateInOptions.preserve_expiry := Some preserve_expiry |>.

Definition sdk_mutate_in_options_cas {T : Type} (cas : Z) (self : SdkMutateInOptions T) : SdkMutateInOptions T :=
  self <| SdkMutateInOptions.cas := Some cas |>.

Definition sdk_mutate_in_options_durability_level {T : Type} (durability_level : SdkDurabilityLevel)
    (self : SdkMutateInOptions T) : SdkMutateInOptions T :=
  self <| SdkMutateInOptions.durability_level := Some durability_level |>.

Definition sdk_mutate_in_options_store_semantics {T : Type} (store_semantics : StoreSemantics)
    (self : SdkMutateInOptions T) : SdkMutateInOptions T :=
  self <| SdkMutateInOptions.store_semantics := Some store_semantics |>.

Definition sdk_mutate_in_options_access_deleted {T : Type} (access_deleted : bool)
    (self : SdkMutateInOptions T) : SdkMutateInOptions T :=
  self <| SdkMutateInOptions.access_deleted := Some access_deleted |>.

Definition sdk_mutate_in_options_retry_strategy {T : Type} (retry_strategy : T)
    (self : SdkMutateInOptions T) : SdkMutateInOptions T :=
  self <| SdkMutateInOptions.retry_strategy := Some retry_strategy |>.

(** *** [options/kv_binary_options.rs] *)

Module SdkAppendOptions.
Section Fields.
Context {T : Type}.
Record SdkAppendOptions : Type := mk {
  durability_level : option SdkDurabilityLevel;
  cas : option Z;
  retry_strategy : option T;
}.
End Fields.
#[global] Arguments SdkAppendOptions : clear implicits.
End SdkAppendOptions.
Abbreviation SdkAppendOptions := SdkAppendOptions.SdkAppendOptions.
#[global] Instance sdk_append_options_settable T : Settable (SdkAppendOptions T) := λ r,
  SdkAppendOptions.mk (SdkAppendOptions.durability_level r) (SdkAppendOptions.cas r)
    (SdkAppendOptions.retry_strategy r).

Definition sdk_append_options_new {T : Type} : SdkAppendOptions T :=
  SdkAppendOptions.mk None None None.

Definition sdk_append_options_durability_level {T : Type} (durability_level : SdkDurabilityLevel)
    (self : SdkAppendOptions T) : SdkAppendOptions T :=
  self <| SdkAppendOptions.durability_level := Some durability_level |>.

Definition sdk_append_options_cas {T : Type} (cas : Z) (self : SdkAppendOptions T) : SdkAppendOptions T :=
  self <| SdkAppendOptions.cas := Some cas |>.

Definition sdk_append_options_retry_strategy {T : Type} (retry_strategy : T)
    (self : SdkAppendOptions T) : SdkAppendOptions T :=
  self <| SdkAppendOptions.retry_strategy := Some retry_strategy |>.

Module SdkPrependOptions.
Section Fields.
Context {T : Type}.
Record SdkPrependOptions : Type := mk {
  durability_level : option SdkDurabilityLevel;
  cas : option Z;
  retry_strategy : option T;
}.
End Fields.
#[global] Arguments SdkPrependOptions : clear implicits.
End SdkPrependOptions.
Abbreviation SdkPrependOptions := SdkPrependOptions.SdkPrependOptions.
#[global] Instance sdk_prepend_options_settable T : Settable (SdkPrependOptions T) := λ r,
  SdkPrependOptions.mk (SdkPrependOptions.durability_level r) (SdkPrependOptions.cas r)
    (SdkPrependOptions.retry_strategy r).

Definition sdk_prepend_options_new {T : Type} : SdkPrependOptions T :=
  SdkPrependOptions.mk None None None.

Definition sdk_prepend_options_durability_level {T : Type} (durability_level : SdkDurabilityLevel)
    (self : SdkPrependOptions T) : SdkPrependOptions T :=
  self <| SdkPrependOptions.durability_level := Some durability_level |>.

Definition sdk_prepend_options_cas {T : Type} (cas : Z) (self : SdkPrependOptions T) : SdkPrependOptions T :=
  self <| SdkPrependOptions.cas := Some cas |>.

Definition sdk_prepend_options_retry_strategy {T : Type} (retry_strategy : T)
    (self : SdkPrependOptions T) : SdkPrependOptions T :=
  self <| SdkPrependOptions.retry_strategy := Some retry_strategy |>.

Module SdkIncrementOptions.
Section Fields.
Context {T : Type}.
Record SdkIncrementOptions : Type := mk {
  expiry : option Duration;
  initial : option Z;
  delta : option Z;
  durability_level : option SdkDurabilityLevel;
  retry_strategy : option T;
}.
End Fields.
#[global] Arguments SdkIncrementOptions : clear implicits.
End SdkIncrementOptions.
Abbreviation SdkIncrementOptions := SdkIncrementOptions.SdkIncrementOptions.
#[global] Instance sdk_increment_options_settable T : Settable (SdkIncrementOptions T) := λ r,
  SdkIncrementOptions.mk (SdkIncrementOptions.expiry r) (SdkIncrementOptions.initial r)
    (SdkIncrementOptions.delta r) (SdkIncrementOptions.durability_level r) (SdkIncrementOptions.retry_strategy
    r).

Definition sdk_increment_options_new {T : Type} : SdkIncrementOptions T :=
  SdkIncrementOptions.mk None None None None None.

Definition sdk_increment_options_expiry {T : Type} (expiry : Duration)
    (self : SdkIncrementOptions T) : SdkIncrementOptions T :=
  self <| SdkIncrementOptions.expiry := Some expiry |>.

Definition sdk_increment_options_initial {T : Type} (initial : Z)
    (self : SdkIncrementOptions T) : SdkIncrementOptions T :=
  self <| SdkIncrementOptions.initial := Some initial |>.

Definition sdk_increment_options_delta {T : Type} (delta : Z)
    (self : SdkIncrementOptions T) : SdkIncrementOptions T :=
  self <| SdkIncrementOptions.delta := Some delta |>.

Definition sdk_increment_options_durability_level {T : Type} (durability_level : SdkDurabilityLevel)
    (self : SdkIncrementOptions T) : SdkIncrementOptions T :=
  self <| SdkIncrementOptions.durability_level := Some durability_level |>.

Definition sdk_increment_options_retry_strategy {T : Type} (retry_strategy : T)
    (self : SdkIncrementOptions T) : SdkIncrementOptions T :=
  self <| SdkIncrementOptions.retry_strategy := Some retry_strategy |>.

Module SdkDecrementOptions.
Section Fields.
Context {T : Type}.
Record SdkDecrementOptions : Type := mk {
  expiry : option Duration;
  initial : option Z;
  delta : option Z;
  durability_level : option SdkDurabilityLevel;
  retry_strategy : option T;
}.
End Fields.
#[global] Arguments SdkDecrementOptions : clear implicits.
End SdkDecrementOptions.
Abbreviation SdkDecrementOptions := SdkDecrementOptions.SdkDecrementOptions.
#[global] Instance sdk_decrement_options_settable T : Settable (SdkDecrementOptions T) := λ r,
  SdkDecrementOptions.mk (SdkDecrementOptions.expiry r) (SdkDecrementOptions.initial r)
    (SdkDecrementOptions.delta r) (SdkDecrementOptions.durability_level r) (SdkDecrementOptions.retry_strategy
    r).

Definition sdk_decrement_options_new {T : Type} : SdkDecrementOptions T :=
  SdkDecrementOptions.mk None None None None None.

Definition sdk_decrement_options_expiry {T : Type} (expiry : Duration)
    (self : SdkDecrementOptions T) : SdkDecrementOptions T :=
  self <| SdkDecrementOptions.expiry := Some expiry |>.

Definition sdk_decrement_options_initial {T : Type} (initial : Z)
    (self : SdkDecrementOptions T) : SdkDecrementOptions T :=
  self <| SdkDecrementOptions.initial := Some initial |>.

Definition sdk_decrement_options_delta {T : Type} (delta : Z)
    (self : SdkDecrementOptions T) : SdkDecrementOptions T :=
  self <| SdkDecrementOptions.delta := Some delta |>.

Definition sdk_decrement_options_durability_level {T : Type} (durability_level : SdkDurabilityLevel)
    (self : SdkDecrementOptions T) : SdkDecrementOptions T :=
  self <| SdkDecrementOptions.durability_level := Some durability_level |>.

Definition sdk_decrement_options_retry_strategy {T : Type} (retry_strategy : T)
    (self : SdkDecrementOptions T) : SdkDecrementOptions T :=
  self <| SdkDecrementOptions.retry_strategy := Some retry_strategy |>.

(** *** [options/collection_ds_options.rs] *)

Module SdkCouchbaseListOptions.
Section Fields.
Context {T : Type}.
Record SdkCouchbaseListOptions : Type := mk {
  retry_strategy : option T;
}.
End Fields.
#[global] Arguments SdkCouchbaseListOptions : clear implicits.
End SdkCouchbaseListOptions.
Abbreviation SdkCouchbaseListOptions := SdkCouchbaseListOptions.SdkCouchbaseListOptions.
#[global] Instance sdk_couchbase_list_options_settable T : Settable (SdkCouchbaseListOptions T) := λ r,
  SdkCouchbaseListOptions.mk (SdkCouchbaseListOptions.retry_strategy r).

Definition sdk_couchbase_list_options_new {T : Type} : SdkCouchbaseListOptions T :=
  SdkCouchbaseListOptions.mk None.

Definition sdk_couchbase_list_options_retry_strategy {T : Type} (retry_strategy : T)
    (self : SdkCouchbaseListOptions T) : SdkCouchbaseListOptions T :=
  self <| SdkCouchbaseListOptions.retry_strategy := Some retry_strategy |>.

Module SdkCouchbaseMapOptions.
Section Fields.
Context {T : Type}.
Record SdkCouchbaseMapOptions : Type := mk {
  retry_strategy : option T;
}.
End Fields.
#[global] Arguments SdkCouchbaseMapOptions : clear implicits.
End SdkCouchbaseMapOptions.
Abbreviation SdkCouchbaseMapOptions := SdkCouchbaseMapOptions.SdkCouchbaseMapOptions.
#[global] Instance sdk_couchbase_map_options_settable T : Settable (SdkCouchbaseMapOptions T) := λ r,
  SdkCouchbaseMapOptions.mk (SdkCouchbaseMapOptions.retry_strategy r).

Definition sdk_couchbase_map_options_new {T : Type} : SdkCouchbaseMapOptions T :=
  SdkCouchbaseMapOptions.mk None.

Definition sdk_couchbase_map_options_retry_strategy {T : Type} (retry_strategy : T)
    (self : SdkCouchbaseMapOptions T) : SdkCouchbaseMapOptions T :=
  self <| SdkCouchbaseMapOptions.retry_strategy := Some retry_strategy |>.

Module SdkCouchbaseSetOptions.
Section Fields.
Context {T : Type}.
Record SdkCouchbaseSetOptions : Type := mk {
  retry_strategy : option T;
}.
End Fields.
#[global] Arguments SdkCouchbaseSetOptions : clear implicits.
End SdkCouchbaseSetOptions.
Abbreviation SdkCouchbaseSetOptions := SdkCouchbaseSetOptions.SdkCouchbaseSetOptions.
#[global] Instance sdk_couchbase_set_options_settable T : Settable (SdkCouchbaseSetOptions T) := λ r,
  SdkCouchbaseSetOptions.mk (SdkCouchbaseSetOptions.retry_strategy r).

Definition sdk_couchbase_set_options_new {T : Type} : SdkCouchbaseSetOptions T :=
  SdkCouchbaseSetOptions.mk None.

Definition sdk_couchbase_set_options_retry_strategy {T : Type} (retry_strategy : T)
    (self : SdkCouchbaseSetOptions T) : SdkCouchbaseSetOptions T :=
  self <| SdkCouchbaseSetOptions.retry_strategy := Some retry_strategy |>.

Module SdkCouchbaseQueueOptions.
Section Fields.
Context {T : Type}.
Record SdkCouchbaseQueueOptions : Type := mk {
  retry_strategy : option T;
}.
End Fields.
#[global] Arguments SdkCouchbaseQueueOptions : clear implicits.
End SdkCouchbaseQueueOptions.
Abbreviation SdkCouchbaseQueueOptions := SdkCouchbaseQueueOptions.SdkCouchbaseQueueOptions.
#[global] Instance sdk_couchbase_queue_options_settable T : Settable (SdkCouchbaseQueueOptions T) := λ r,
  SdkCouchbaseQueueOptions.mk (SdkCouchbaseQueueOptions.retry_strategy r).

Definition sdk_couchbase_queue_options_new {T : Type} : SdkCouchbaseQueueOptions T :=
  SdkCouchbaseQueueOptions.mk None.

Definition sdk_couchbase_queue_options_retry_strategy {T : Type} (retry_strategy : T)
    (self : SdkCouchbaseQueueOptions T) : SdkCouchbaseQueueOptions T :=
  self <| SdkCouchbaseQueueOptions.retry_strategy := Some retry_strategy |>.
