(* ===== verification/SubdocSpecs.v ===== *)
(** * Specifications of sub-document operations ([couchbase/src/subdoc/])

    What an application asks of one lookup or mutation, and the operation of the protocol
    layer it becomes.

    A value of the application is of any type [A] with a serializer ([serde_json::to_vec]),
    which is a parameter of the constructors, as is the text of an integer. *)

From S2P Require Import Prelude Text Wire MemdError Requests FacadeError.

(** ** Macros ([macros.rs]) *)

Module LookupInMacros.
Inductive LookupInMacros : Type :=
| Document
| ExpiryTime
| CAS
| SeqNo
| LastModified
| IsDeleted
| ValueSizeBytes
| RevId.
End LookupInMacros.
Abbreviation LookupInMacros := LookupInMacros.LookupInMacros.

Definition string_from_lookup_in_macros (macro_ : LookupInMacros) : string :=
  match macro_ with
  | LookupInMacros.Document => "$document"
  | LookupInMacros.ExpiryTime => "$document.exptime"
  | LookupInMacros.CAS => "$document.CAS"
  | LookupInMacros.SeqNo => "$document.seqno"
  | LookupInMacros.LastModified => "$document.last_modified"
  | LookupInMacros.IsDeleted => "$document.deleted"
  | LookupInMacros.ValueSizeBytes => "$document.value_bytes"
  | LookupInMacros.RevId => "$document.revid"
  end.

Module MutateInMacros.
Inductive MutateInMacros : Type := CAS | SeqNo | ValueCrc32c.
End MutateInMacros.
Abbreviation MutateInMacros := MutateInMacros.MutateInMacros.

(** The name a macro is serialized with. *)
Definition mutate_in_macro_name (macro_ : MutateInMacros) : string :=
  match macro_ with
  | MutateInMacros.CAS => "${Mutation.CAS}"
  | MutateInMacros.SeqNo => "${Mutation.seqno}"
  | MutateInMacros.ValueCrc32c => "${Mutation.value_crc32c}"
  end.

Abbreviation QUOTE := 34 (only parsing).

Definition quoted (s : string) : list Z := QUOTE :: str_bytes s ++ [QUOTE].

(** The JSON texts of the macros. *)
Definition MUTATE_IN_MACROS : list (list Z) :=
  [quoted "${Mutation.CAS}"; quoted "${Mutation.seqno}"; quoted "${Mutation.value_crc32c}"].

(** ** Lookups ([lookup_in_specs.rs]) *)

Module SdkLookupInOpType.
Inductive SdkLookupInOpType : Type := Get | Exists_ | Count.
End SdkLookupInOpType.
Abbreviation SdkLookupInOpType := SdkLookupInOpType.SdkLookupInOpType.

#[global] Instance sdk_lookup_in_op_type_eq_dec : EqDecision SdkLookupInOpType.
Proof. solve_decision. Defined.

Module LookupInSpec.
Record LookupInSpec : Type := mk {
  op : SdkLookupInOpType;
  path : string;
  is_xattr : bool;
}.
End LookupInSpec.
Abbreviation LookupInSpec := LookupInSpec.LookupInSpec.

#[global] Instance lookup_in_spec_subdoc : SubdocOp LookupInSpec := LookupInSpec.is_xattr.

Module GetSpecOptions.
Record GetSpecOptions : Type := mk {
  is_xattr : option bool;
}.
End GetSpecOptions.
Abbreviation GetSpecOptions := GetSpecOptions.GetSpecOptions.
#[global] Instance get_spec_options_settable : Settable (GetSpecOptions) := λ r,
  GetSpecOptions.mk (GetSpecOptions.is_xattr r).

Definition get_spec_options_new : GetSpecOptions :=
  GetSpecOptions.mk None.

Definition get_spec_options_xattr (is_xattr : bool) (self : GetSpecOptions) : GetSpecOptions :=
  self <| GetSpecOptions.is_xattr := Some is_xattr |>.

Module ExistsSpecOptions.
Record ExistsSpecOptions : Type := mk {
  is_xattr : option bool;
}.
End ExistsSpecOptions.
Abbreviation ExistsSpecOptions := ExistsSpecOptions.ExistsSpecOptions.
#[global] Instance exists_spec_options_settable : Settable (ExistsSpecOptions) := λ r,
  ExistsSpecOptions.mk (ExistsSpecOptions.is_xattr r).

Definition exists_spec_options_new : ExistsSpecOptions :=
  ExistsSpecOptions.mk None.

Definition exists_spec_options_xattr (is_xattr : bool) (self : ExistsSpecOptions) : ExistsSpecOptions :=
  self <| ExistsSpecOptions.is_xattr := Some is_xattr |>.

Module CountSpecOptions.
Record CountSpecOptions : Type := mk {
  is_xattr : option bool;
}.
End CountSpecOptions.
Abbreviation CountSpecOptions := CountSpecOptions.CountSpecOptions.
#[global] Instance count_spec_options_settable : Settable (CountSpecOptions) := λ r,
  CountSpecOptions.mk (CountSpecOptions.is_xattr r).

Definition count_spec_options_new : CountSpecOptions :=
  CountSpecOptions.mk None.

Definition count_spec_options_xattr (is_xattr : bool) (self : CountSpecOptions) : CountSpecOptions :=
  self <| CountSpecOptions.is_xattr := Some is_xattr |>.

Definition lookup_in_spec_get (path : string) (opts : option GetSpecOptions) : LookupInSpec :=
  let opts := default get_spec_options_new opts in
  LookupInSpec.mk SdkLookupInOpType.Get path (default false (GetSpecOptions.is_xattr opts)).

Definition lookup_in_spec_exists (path : string) (opts : option ExistsSpecOptions) : LookupInSpec :=
  let opts := default exists_spec_options_new opts in
  LookupInSpec.mk SdkLookupInOpType.Exists_ path (default false (ExistsSpecOptions.is_xattr opts)).

Definition lookup_in_spec_count (path : string) (opts : option CountSpecOptions) : LookupInSpec :=
  let opts := default count_spec_options_new opts in
  LookupInSpec.mk SdkLookupInOpType.Count path (default false (CountSpecOptions.is_xattr opts)).

(** [if cond { flags |= flag }]. *)
Definition flag_if (cond : bool) (flag flags : Z) : Z := if cond then Z.lor flags flag else flags.

(** [From<&LookupInSpec> for LookupInOp]. *)
Definition lookup_in_op_from (value : LookupInSpec) : LookupInOp :=
  let op_type :=
    match LookupInSpec.op value with
    | SdkLookupInOpType.Get =>
        if bool_decide (LookupInSpec.path value = "") then LookupInOpType.GetDoc else LookupInOpType.Get
    | SdkLookupInOpType.Exists_ => LookupInOpType.Exists_
    | SdkLookupInOpType.Count => LookupInOpType.GetCount
    end in
  LookupInOp.mk op_type (flag_if (is_xattr_op value) XATTR_PATH 0) (str_bytes (LookupInSpec.path value)).

(** ** Mutations ([mutate_in_specs.rs]) *)

Module SdkMutateInOpType.
Inductive SdkMutateInOpType : Type :=
| Insert
| Upsert
| Replace
| Remove
| ArrayAppend
| ArrayPrepend
| ArrayInsert
| ArrayAddUnique
| Counter.
End SdkMutateInOpType.
Abbreviation SdkMutateInOpType := SdkMutateInOpType.SdkMutateInOpType.

Module MutateInSpec.
Record MutateInSpec : Type := mk {
  op : SdkMutateInOpType;
  path : string;
  value : list Z;
  create_path : bool;
  is_xattr : bool;
  expand_macros : bool;
}.
End MutateInSpec.
Abbreviation MutateInSpec := MutateInSpec.MutateInSpec.

#[global] Instance mutate_in_spec_subdoc : SubdocOp MutateInSpec := MutateInSpec.is_xattr.

Module InsertSpecOptions.
Record InsertSpecOptions : Type := mk {
  create_path : option bool;
  is_xattr : option bool;
}.
End InsertSpecOptions.
Abbreviation InsertSpecOptions := InsertSpecOptions.InsertSpecOptions.
#[global] Instance insert_spec_options_settable : Settable (InsertSpecOptions) := λ r,
  InsertSpecOptions.mk (InsertSpecOptions.create_path r) (InsertSpecOptions.is_xattr r).

Definition insert_spec_options_new : InsertSpecOptions :=
  InsertSpecOptions.mk None None.

Definition insert_spec_options_xattr (is_xattr : bool) (self : InsertSpecOptions) : InsertSpecOptions :=
  self <| InsertSpecOptions.is_xattr := Some is_xattr |>.

Definition insert_spec_options_create_path (create_path : bool) (self : InsertSpecOptions) : InsertSpecOptions :=
  self <| InsertSpecOptions.create_path := Some create_path |>.

Module UpsertSpecOptions.
Record UpsertSpecOptions : Type := mk {
  create_path : option bool;
  is_xattr : option bool;
}.
End UpsertSpecOptions.
Abbreviation UpsertSpecOptions := UpsertSpecOptions.UpsertSpecOptions.
#[global] Instance upsert_spec_options_settable : Settable (UpsertSpecOptions) := λ r,
  UpsertSpecOptions.mk (UpsertSpecOptions.create_path r) (UpsertSpecOptions.is_xattr r).

Definition upsert_spec_options_new : UpsertSpecOptions :=
  UpsertSpecOptions.mk None None.

Definition upsert_spec_options_xattr (is_xattr : bool) (self : UpsertSpecOptions) : UpsertSpecOptions :=
  self <| UpsertSpecOptions.is_xattr := Some is_xattr |>.

Definition upsert_spec_options_create_path (create_path : bool) (self : UpsertSpecOptions) : UpsertSpecOptions :=
  self <| UpsertSpecOptions.create_path := Some create_path |>.

Module ReplaceSpecOptions.
Record ReplaceSpecOptions : Type := mk {
  is_xattr : option bool;
}.
End ReplaceSpecOptions.
Abbreviation ReplaceSpecOptions := ReplaceSpecOptions.ReplaceSpecOptions.
#[global] Instance replace_spec_options_settable : Settable (ReplaceSpecOptions) := λ r,
  ReplaceSpecOptions.mk (ReplaceSpecOptions.is_xattr r).

Definition replace_spec_options_new : ReplaceSpecOptions :=
  ReplaceSpecOptions.mk None.

Definition replace_spec_options_xattr (is_xattr : bool) (self : ReplaceSpecOptions) : ReplaceSpecOptions :=
  self <| ReplaceSpecOptions.is_xattr := Some is_xattr |>.

Module RemoveSpecOptions.
Record RemoveSpecOptions : Type := mk {
  is_xattr : option bool;
}.
End RemoveSpecOptions.
Abbreviation RemoveSpecOptions := RemoveSpecOptions.RemoveSpecOptions.
#[global] Instance remove_spec_options_settable : Settable (RemoveSpecOptions) := λ r,
  RemoveSpecOptions.mk (RemoveSpecOptions.is_xattr r).

Definition remove_spec_options_new : RemoveSpecOptions :=
  RemoveSpecOptions.mk None.

Definition remove_spec_options_xattr (is_xattr : bool) (self : RemoveSpecOptions) : RemoveSpecOptions :=
  self <| RemoveSpecOptions.is_xattr := Some is_xattr |>.

Module ArrayAppendSpecOptions.
Record ArrayAppendSpecOptions : Type := mk {
  create_path : option bool;
  is_xattr : option bool;
}.
End ArrayAppendSpecOptions.
Abbreviation ArrayAppendSpecOptions := ArrayAppendSpecOptions.ArrayAppendSpecOptions.
#[global] Instance array_append_spec_options_settable : Settable (ArrayAppendSpecOptions) := λ r,
  ArrayAppendSpecOptions.mk (ArrayAppendSpecOptions.create_path r) (ArrayAppendSpecOptions.is_xattr r).

Definition array_append_spec_options_new : ArrayAppendSpecOptions :=
  ArrayAppendSpecOptions.mk None None.

Definition array_append_spec_options_xattr (is_xattr : bool)
    (self : ArrayAppendSpecOptions) : ArrayAppendSpecOptions :=
  self <| ArrayAppendSpecOptions.is_xattr := Some is_xattr |>.

Definition array_append_spec_options_create_path (create_path : bool)
    (self : ArrayAppendSpecOptions) : ArrayAppendSpecOptions :=
  self <| ArrayAppendSpecOptions.create_path := Some create_path |>.

Module ArrayPrependSpecOptions.
Record ArrayPrependSpecOptions : Type := mk {
  create_path : option bool;
  is_xattr : option bool;
}.
End ArrayPrependSpecOptions.
Abbreviation ArrayPrependSpecOptions := ArrayPrependSpecOptions.ArrayPrependSpecOptions.
#[global] Instance array_prepend_spec_options_settable : Settable (ArrayPrependSpecOptions) := λ r,
  ArrayPrependSpecOptions.mk (ArrayPrependSpecOptions.create_path r) (ArrayPrependSpecOptions.is_xattr r).

Definition array_prepend_spec_options_new : ArrayPrependSpecOptions :=
  ArrayPrependSpecOptions.mk None None.

Definition array_prepend_spec_options_xattr (is_xattr : bool)
    (self : ArrayPrependSpecOptions) : ArrayPrependSpecOptions :=
  self <| ArrayPrependSpecOptions.is_xattr := Some is_xattr |>.

Definition array_prepend_spec_options_create_path (create_path : bool)
    (self : ArrayPrependSpecOptions) : ArrayPrependSpecOptions :=
  self <| ArrayPrependSpecOptions.create_path := Some create_path |>.

Module ArrayInsertSpecOptions.
Record ArrayInsertSpecOptions : Type := mk {
  create_path : option bool;
  is_xattr : option bool;
}.
End ArrayInsertSpecOptions.
Abbreviation ArrayInsertSpecOptions := ArrayInsertSpecOptions.ArrayInsertSpecOptions.
#[global] Instance array_insert_spec_options_settable : Settable (ArrayInsertSpecOptions) := λ r,
  ArrayInsertSpecOptions.mk (ArrayInsertSpecOptions.create_path r) (ArrayInsertSpecOptions.is_xattr r).

Definition array_insert_spec_options_new : ArrayInsertSpecOptions :=
  ArrayInsertSpecOptions.mk None None.

Definition array_insert_spec_options_xattr (is_xattr : bool)
    (self : ArrayInsertSpecOptions) : ArrayInsertSpecOptions :=
  self <| ArrayInsertSpecOptions.is_xattr := Some is_xattr |>.

Definition array_insert_spec_options_create_path (create_path : bool)
    (self : ArrayInsertSpecOptions) : ArrayInsertSpecOptions :=
  self <| ArrayInsertSpecOptions.create_path := Some create_path |>.

Module ArrayAddUniqueSpecOptions.
Record ArrayAddUniqueSpecOptions : Type := mk {
  create_path : option bool;
  is_xattr : option bool;
}.
End ArrayAddUniqueSpecOptions.
Abbreviation ArrayAddUniqueSpecOptions := ArrayAddUniqueSpecOptions.ArrayAddUniqueSpecOptions.
#[global] Instance array_add_unique_spec_options_settable : Settable (ArrayAddUniqueSpecOptions) := λ r,
  ArrayAddUniqueSpecOptions.mk (ArrayAddUniqueSpecOptions.create_path r) (ArrayAddUniqueSpecOptions.is_xattr r).

Definition array_add_unique_spec_options_new : ArrayAddUniqueSpecOptions :=
  ArrayAddUniqueSpecOptions.mk None None.

Definition array_add_unique_spec_options_xattr (is_xattr : bool)
    (self : ArrayAddUniqueSpecOptions) : ArrayAddUniqueSpecOptions :=
  self <| ArrayAddUniqueSpecOptions.is_xattr := Some is_xattr |>.

Definition array_add_unique_spec_options_create_path (create_path : bool)
    (self : ArrayAddUniqueSpecOptions) : ArrayAddUniqueSpecOptions :=
  self <| ArrayAddUniqueSpecOptions.create_path := Some create_path |>.

Module IncrementSpecOptions.
Record IncrementSpecOptions : Type := mk {
  create_path : option bool;
  is_xattr : option bool;
}.
End IncrementSpecOptions.
Abbreviation IncrementSpecOptions := IncrementSpecOptions.IncrementSpecOptions.
#[global] Instance increment_spec_options_settable : Settable (IncrementSpecOptions) := λ r,
  IncrementSpecOptions.mk (IncrementSpecOptions.create_path r) (IncrementSpecOptions.is_xattr r).

Definition increment_spec_options_new : IncrementSpecOptions :=
  IncrementSpecOptions.mk None None.

Definition increment_spec_options_xattr (is_xattr : bool) (self : IncrementSpecOptions) : IncrementSpecOptions :=
  self <| IncrementSpecOptions.is_xattr := Some is_xattr |>.

Definition increment_spec_options_create_path (create_path : bool)
    (self : IncrementSpecOptions) : IncrementSpecOptions :=
  self <| IncrementSpecOptions.create_path := Some create_path |>.

Module DecrementSpecOptions.
Record DecrementSpecOptions : Type := mk {
  create_path : option bool;
  is_xattr : option bool;
}.
End DecrementSpecOptions.
Abbreviation DecrementSpecOptions := DecrementSpecOptions.DecrementSpecOptions.
#[global] Instance decrement_spec_options_settable : Settable (DecrementSpecOptions) := λ r,
  DecrementSpecOptions.mk (DecrementSpecOptions.create_path r) (DecrementSpecOptions.is_xattr r).

Definition decrement_spec_options_new : DecrementSpecOptions :=
  DecrementSpecOptions.mk None None.

Definition decrement_spec_options_xattr (is_xattr : bool) (self : DecrementSpecOptions) : DecrementSpecOptions :=
  self <| DecrementSpecOptions.is_xattr := Some is_xattr |>.

Definition decrement_spec_options_create_path (create_path : bool)
    (self : DecrementSpecOptions) : DecrementSpecOptions :=
  self <| DecrementSpecOptions.create_path := Some create_path |>.

Definition check_is_macro (value : list Z) : bool := bool_decide (value ∈ MUTATE_IN_MACROS).

Definition insert_raw (path : string) (value : list Z) (opts : option InsertSpecOptions) : MutateInSpec :=
  let opts := default insert_spec_options_new opts in
  let is_macro := check_is_macro value in
  MutateInSpec.mk SdkMutateInOpType.Insert path value (default false (InsertSpecOptions.create_path opts))
    (default is_macro (InsertSpecOptions.is_xattr opts)) is_macro.

Definition upsert_raw (path : string) (value : list Z) (opts : option UpsertSpecOptions) : MutateInSpec :=
  let opts := default upsert_spec_options_new opts in
  let is_macro := check_is_macro value in
  MutateInSpec.mk SdkMutateInOpType.Upsert path value (default false (UpsertSpecOptions.create_path opts))
    (default is_macro (UpsertSpecOptions.is_xattr opts)) is_macro.

Definition replace_raw (path : string) (value : list Z) (opts : option ReplaceSpecOptions) : MutateInSpec :=
  let opts := default replace_spec_options_new opts in
  let is_macro := check_is_macro value in
  MutateInSpec.mk SdkMutateInOpType.Replace path value false
    (default is_macro (ReplaceSpecOptions.is_xattr opts)) is_macro.

Definition spec_remove (path : string) (opts : option RemoveSpecOptions) : MutateInSpec :=
  let opts := default remove_spec_options_new opts in
  MutateInSpec.mk SdkMutateInOpType.Remove path [] false (default false (RemoveSpecOptions.is_xattr opts)) false.

Definition array_append_raw (path : string) (value : list Z) (opts : option ArrayAppendSpecOptions) : MutateInSpec :=
  let opts := default array_append_spec_options_new opts in
  MutateInSpec.mk SdkMutateInOpType.ArrayAppend path value
    (default false (ArrayAppendSpecOptions.create_path opts))
    (default false (ArrayAppendSpecOptions.is_xattr opts)) false.

Definition array_prepend_raw (path : string) (value : list Z) (opts : option ArrayPrependSpecOptions)
    : MutateInSpec :=
  let opts := default array_prepend_spec_options_new opts in
  MutateInSpec.mk SdkMutateInOpType.ArrayPrepend path value
    (default false (ArrayPrependSpecOptions.create_path opts))
    (default false (ArrayPrependSpecOptions.is_xattr opts)) false.

Definition array_insert_raw (path : string) (value : list Z) (opts : option ArrayInsertSpecOptions) : MutateInSpec :=
  let opts := default array_insert_spec_options_new opts in
  MutateInSpec.mk SdkMutateInOpType.ArrayInsert path value
    (default false (ArrayInsertSpecOptions.create_path opts))
    (default false (ArrayInsertSpecOptions.is_xattr opts)) false.

Definition array_add_unique_raw (path : string) (value : list Z) (opts : option ArrayAddUniqueSpecOptions)
    : MutateInSpec :=
  let opts := default array_add_unique_spec_options_new opts in
  let is_macro := check_is_macro value in
  MutateInSpec.mk SdkMutateInOpType.ArrayAddUnique path value
    (default false (ArrayAddUniqueSpecOptions.create_path opts))
    (default is_macro (ArrayAddUniqueSpecOptions.is_xattr opts)) is_macro.

(** [serde_json::to_vec(..).map_err(Error::encoding_failure_from_serde)?]. *)
Definition to_vec_or_fail (text : string + list Z) : outcome Sdk.Error (list Z) :=
  match text with inr value => Ok value | inl e => Err (Sdk.encoding_failure_from_serde e) end.

(** The text of an array without its brackets: the first byte and the last one are dropped. *)
Definition without_brackets (value : list Z) : list Z :=
  match value with
  | [] => []
  | _ :: value => match value with [] => [] | _ => take (length value - 1) value end
  end.

Section Typed.
Context {A : Type} (to_vec : A → string + list Z) (slice_to_vec : list A → string + list Z).

Definition spec_insert (path : string) (value : A) (opts : option InsertSpecOptions) : outcome Sdk.Error MutateInSpec :=
  value ← to_vec_or_fail (to_vec value); Ok (insert_raw path value opts).

Definition spec_upsert (path : string) (value : A) (opts : option UpsertSpecOptions) : outcome Sdk.Error MutateInSpec :=
  value ← to_vec_or_fail (to_vec value); Ok (upsert_raw path value opts).

Definition spec_replace (path : string) (value : A) (opts : option ReplaceSpecOptions)
    : outcome Sdk.Error MutateInSpec :=
  value ← to_vec_or_fail (to_vec value); Ok (replace_raw path value opts).

Definition array_append (path : string) (value : list A) (opts : option ArrayAppendSpecOptions)
    : outcome Sdk.Error MutateInSpec :=
  value ← to_vec_or_fail (slice_to_vec value); Ok (array_append_raw path (without_brackets value) opts).

Definition array_prepend (path : string) (value : list A) (opts : option ArrayPrependSpecOptions)
    : outcome Sdk.Error MutateInSpec :=
  value ← to_vec_or_fail (slice_to_vec value); Ok (array_prepend_raw path (without_brackets value) opts).

Definition array_insert (path : string) (value : list A) (opts : option ArrayInsertSpecOptions)
    : outcome Sdk.Error MutateInSpec :=
  value ← to_vec_or_fail (slice_to_vec value); Ok (array_insert_raw path (without_brackets value) opts).

Definition array_add_unique (path : string) (value : A) (opts : option ArrayAddUniqueSpecOptions)
    : outcome Sdk.Error MutateInSpec :=
  value ← to_vec_or_fail (to_vec value); Ok (array_add_unique_raw path value opts).

End Typed.

Section Counters.
Context (i64_to_vec : Z → string + list Z).

Definition spec_increment (path : string) (delta : Z) (opts : option IncrementSpecOptions)
    : outcome Sdk.Error MutateInSpec :=
  if delta <? 0 then
    Err (Sdk.invalid_argument "delta" (Sdk.Text "only positive delta allowed in subdoc increment"))
  else
    value ← to_vec_or_fail (i64_to_vec delta);
    let opts := default increment_spec_options_new opts in
    Ok (MutateInSpec.mk SdkMutateInOpType.Counter path value (default false (IncrementSpecOptions.create_path opts))
          (default false (IncrementSpecOptions.is_xattr opts)) false).

(** [-delta] cannot overflow: [delta] is not negative. *)
Definition spec_decrement (path : string) (delta : Z) (opts : option DecrementSpecOptions)
    : outcome Sdk.Error MutateInSpec :=
  if delta <? 0 then
    Err (Sdk.invalid_argument "delta" (Sdk.Text "only positive delta allowed in subdoc increment"))
  else
    value ← to_vec_or_fail (i64_to_vec (- delta));
    let opts := default decrement_spec_options_new opts in
    Ok (MutateInSpec.mk SdkMutateInOpType.Counter path value (default false (DecrementSpecOptions.create_path opts))
          (default false (DecrementSpecOptions.is_xattr opts)) false).

End Counters.

(** [TryFrom<&MutateInSpec> for MutateInOp]. *)
Definition mutate_in_op_try_from (value : MutateInSpec) : outcome Sdk.Error MutateInOp :=
  let no_path := bool_decide (MutateInSpec.path value = "") in
  op_type ←
    match MutateInSpec.op value with
    | SdkMutateInOpType.Insert =>
        if no_path then Err (Sdk.invalid_argument "path" (Sdk.Text "path cannot be empty for insert operation"))
        else Ok MutateInOpType.DictAdd
    | SdkMutateInOpType.Upsert =>
        if no_path then Err (Sdk.invalid_argument "path" (Sdk.Text "path cannot be empty for upsert operation"))
        else Ok MutateInOpType.DictSet
    | SdkMutateInOpType.Replace => Ok (if no_path then MutateInOpType.SetDoc else MutateInOpType.Replace)
    | SdkMutateInOpType.Remove => Ok (if no_path then MutateInOpType.DeleteDoc else MutateInOpType.Delete)
    | SdkMutateInOpType.ArrayAppend => Ok MutateInOpType.ArrayPushLast
    | SdkMutateInOpType.ArrayPrepend => Ok MutateInOpType.ArrayPushFirst
    | SdkMutateInOpType.ArrayInsert => Ok MutateInOpType.ArrayInsert
    | SdkMutateInOpType.ArrayAddUnique => Ok MutateInOpType.ArrayAddUnique
    | SdkMutateInOpType.Counter => Ok MutateInOpType.Counter
    end;
  let op_flags := flag_if (MutateInSpec.is_xattr value) XATTR_PATH 0 in
  let op_flags := flag_if (MutateInSpec.create_path value) MKDIR_P op_flags in
  let op_flags := flag_if (MutateInSpec.expand_macros value) EXPAND_MACROS op_flags in
  Ok (MutateInOp.mk op_type op_flags (str_bytes (MutateInSpec.path value)) (MutateInSpec.value value)).

(** ** Lemmas *)

Lemma without_brackets_app b inner e : without_brackets (b :: inner ++ [e]) = inner.
Proof.
  unfold without_brackets. destruct (inner ++ [e]) as [|x l] eqn:Hl; [by destruct inner|].
  rewrite <- Hl, length_app. cbn. rewrite Nat.add_sub. apply take_app_length.
Qed.

(** The flags of an operation are the ones its specification asks for, and the sorting of
    operations sees an extended attribute where the specification says so. *)
Lemma mutate_in_op_flags value op :
  mutate_in_op_try_from value = Ok op →
  flags_contains (MutateInOp.flags op) XATTR_PATH = MutateInSpec.is_xattr value
  ∧ flags_contains (MutateInOp.flags op) MKDIR_P = MutateInSpec.create_path value
  ∧ flags_contains (MutateInOp.flags op) EXPAND_MACROS = MutateInSpec.expand_macros value
  ∧ MutateInOp.path op = str_bytes (MutateInSpec.path value)
  ∧ MutateInOp.value op = MutateInSpec.value value.
Proof.
  unfold mutate_in_op_try_from. destruct value as [o p v c x m]; cbn [MutateInSpec.op MutateInSpec.path
    MutateInSpec.is_xattr MutateInSpec.create_path MutateInSpec.expand_macros MutateInSpec.value].
  intros (t & _ & Ho)%bind_ok_inv. injection Ho as <-. by destruct x, c, m.
Qed.

Lemma lookup_in_op_from_xattr value : is_xattr_op (lookup_in_op_from value) = is_xattr_op value.
Proof. unfold lookup_in_op_from. cbn. by destruct (is_xattr_op value). Qed.

(** A macro is always expanded, and goes to an extended attribute unless the caller says
    otherwise; no other value is expanded. *)
Lemma upsert_macros path value opts :
  MutateInSpec.expand_macros (upsert_raw path value opts) = bool_decide (value ∈ MUTATE_IN_MACROS)
  ∧ (opts = None → MutateInSpec.is_xattr (upsert_raw path value opts) = bool_decide (value ∈ MUTATE_IN_MACROS)).
Proof. split; [done|]. by intros ->. Qed.
