(* ===== verification/MutationState.v ===== *)
(** * Mutation tokens ([couchbase/src/mutation_state.rs])

    A mutation state collects the tokens of mutations, so that a query can be asked to see
    them: per vbucket of a bucket it keeps the token with the highest sequence number.

    A state is sent as a JSON object of buckets with their vbuckets.  The entries a
    deserializer hands out are lists, in the order the document or the map gives them. *)

From S2P Require Import Prelude Text Wire CrudOptions QueryxOptions.

(** ** Tokens *)

Module SdkMutationToken.
Record SdkMutationToken : Type := mk {
  token : KvMutationToken;
  bucket_name : string;
}.
End SdkMutationToken.
Abbreviation SdkMutationToken := SdkMutationToken.SdkMutationToken.

Definition mutation_token_new (token : KvMutationToken) (bucket_name : string) : SdkMutationToken :=
  SdkMutationToken.mk token bucket_name.
Definition mutation_token_from_parts (vbid vbuuid seqno : Z) (bucket_name : string) : SdkMutationToken :=
  SdkMutationToken.mk (KvMutationToken.mk vbid vbuuid seqno) bucket_name.
Definition partition_id (t : SdkMutationToken) : Z := KvMutationToken.vbid (SdkMutationToken.token t).
Definition partition_uuid (t : SdkMutationToken) : Z := KvMutationToken.vbuuid (SdkMutationToken.token t).
Definition sequence_number (t : SdkMutationToken) : Z := KvMutationToken.seqno (SdkMutationToken.token t).

Record MutationStateKey : Type := mkMutationStateKey {
  key_bucket_name : string;
  key_vbid : Z;
}.

#[global] Instance mutation_state_key_eq_dec : EqDecision MutationStateKey.
Proof. solve_decision. Defined.
#[global] Instance mutation_state_key_countable : Countable MutationStateKey.
Proof.
  refine (inj_countable' (λ k, (key_bucket_name k, key_vbid k)) (λ p, mkMutationStateKey p.1 p.2) _). by intros [].
Defined.

(** ** States *)

Record MutationState : Type := mkMutationState {
  tokens : gmap MutationStateKey KvMutationToken;
}.

Definition mutation_state_new : MutationState := mkMutationState ∅.

Definition push_token (token : SdkMutationToken) (self : MutationState) : MutationState :=
  let key := mkMutationStateKey (SdkMutationToken.bucket_name token) (partition_id token) in
  let token := SdkMutationToken.token token in
  match tokens self !! key with
  | Some entry =>
      if KvMutationToken.seqno entry <? KvMutationToken.seqno token
      then mkMutationState (<[key := token]> (tokens self)) else self
  | None => mkMutationState (<[key := token]> (tokens self))
  end.

(** [MutationState::tokens]. *)
Definition state_tokens (self : MutationState) : list SdkMutationToken :=
  (λ '(key, token), mutation_token_new token (key_bucket_name key)) <$> map_to_list (tokens self).

(** [From<MutationToken> for MutationState], [From<Vec<MutationToken>>]. *)
Definition state_from_token (value : SdkMutationToken) : MutationState := push_token value mutation_state_new.
Definition state_from_tokens (value : list SdkMutationToken) : MutationState :=
  foldl (λ state token, push_token token state) mutation_state_new value.

(** ** As a document *)

(** [buckets.entry(key.bucket_name).or_default().insert(..)] for every token. *)
Definition by_bucket {B} (f : KvMutationToken → B) (entries : list (MutationStateKey * KvMutationToken))
    : gmap string (gmap string B) :=
  foldl (λ buckets '(key, token),
    let bucket := default ∅ (buckets !! key_bucket_name key) in
    <[key_bucket_name key := <[bytes_string (decimal (key_vbid key)) := f token]> bucket]> buckets) ∅ entries.

(** [From<MutationState> for HashMap<String, SparseScanVectors>]. *)
Definition scan_vectors_from (value : MutationState) : gmap string (gmap string ScanVectorEntry) :=
  by_bucket (λ token, mkScanVectorEntry (KvMutationToken.seqno token)
                        (bytes_string (decimal (KvMutationToken.vbuuid token))))
    (map_to_list (tokens value)).

(** [Serialize for MutationState]: sequence number and vbucket uuid. *)
Definition serialize_state (self : MutationState) : gmap string (gmap string (Z * string)) :=
  by_bucket (λ token, (KvMutationToken.seqno token, bytes_string (decimal (KvMutationToken.vbuuid token))))
    (map_to_list (tokens self)).

(** One bucket of [visit_map]; [None] is an error of one of the numbers. *)
Fixpoint visit_bucket (bucket_name : string) (vbuckets : list (string * (Z * string)))
    (m : gmap MutationStateKey KvMutationToken) : option (gmap MutationStateKey KvMutationToken) :=
  match vbuckets with
  | [] => Some m
  | (vbid, (seqno, vbuuid)) :: vbuckets =>
      vbid ← parse_uint 16 (str_bytes vbid);
      vbuuid ← parse_uint 64 (str_bytes vbuuid);
      visit_bucket bucket_name vbuckets
        (<[mkMutationStateKey bucket_name vbid := KvMutationToken.mk vbid vbuuid seqno]> m)
  end.

Fixpoint visit_map (entries : list (string * list (string * (Z * string))))
    (m : gmap MutationStateKey KvMutationToken) : option MutationState :=
  match entries with
  | [] => Some (mkMutationState m)
  | (bucket_name, vbuckets) :: entries => m ← visit_bucket bucket_name vbuckets m; visit_map entries m
  end.

(** [Deserialize for MutationState]. *)
Definition deserialize_state (entries : list (string * list (string * (Z * string)))) : option MutationState :=
  visit_map entries ∅.

(** ** Which tokens are kept *)

Definition token_key (t : SdkMutationToken) : MutationStateKey :=
  mkMutationStateKey (SdkMutationToken.bucket_name t) (partition_id t).

(** For a key: a token that was pushed, such that none of the pushed ones is newer. *)
Definition newest_at (ts : list SdkMutationToken) (key : MutationStateKey) (o : option KvMutationToken) : Prop :=
  match o with
  | Some t =>
      mutation_token_new t (key_bucket_name key) ∈ ts ∧ KvMutationToken.vbid t = key_vbid key
      ∧ ∀ t', t' ∈ ts → token_key t' = key → sequence_number t' <= KvMutationToken.seqno t
  | None => ∀ t', t' ∈ ts → token_key t' ≠ key
  end.

Lemma newest_at_other ts t key o : token_key t ≠ key → newest_at ts key o → newest_at (ts ++ [t]) key o.
Proof.
  intros Hk. destruct o as [e|]; cbn.
  - intros (He & Hv & Hn). split_and!; [set_solver|done|]. intros t' [Ht'|Ht']%elem_of_app Heq; [by apply Hn|].
    by apply list_elem_of_singleton in Ht' as ->.
  - intros Hn t' [Ht'|Ht']%elem_of_app; [by apply Hn|]. by apply list_elem_of_singleton in Ht' as ->.
Qed.

Lemma newest_at_kept ts t e :
  sequence_number t <= KvMutationToken.seqno e →
  newest_at ts (token_key t) (Some e) → newest_at (ts ++ [t]) (token_key t) (Some e).
Proof.
  intros Hle (He & Hv & Hn). split_and!; [set_solver|done|]. intros t' [Ht'|Ht']%elem_of_app Heq; [by apply Hn|].
  by apply list_elem_of_singleton in Ht' as ->.
Qed.

Lemma newest_at_replaced ts t o :
  (∀ e, o = Some e → KvMutationToken.seqno e < sequence_number t) →
  newest_at ts (token_key t) o → newest_at (ts ++ [t]) (token_key t) (Some (SdkMutationToken.token t)).
Proof.
  intros Hlt Hn. split_and!; [destruct t; set_solver|done|].
  intros t' [Ht'|Ht']%elem_of_app Heq; [|by apply list_elem_of_singleton in Ht' as ->].
  destruct o as [e|]; cbn in Hn; [|by destruct (Hn t')].
  destruct Hn as (_ & _ & Hn). specialize (Hn t' Ht' Heq). specialize (Hlt e eq_refl).
  unfold sequence_number in *. lia.
Qed.

Definition newest_of (ts : list SdkMutationToken) (s : MutationState) : Prop :=
  ∀ key, newest_at ts key (tokens s !! key).

Lemma push_token_newest ts t s : newest_of ts s → newest_of (ts ++ [t]) (push_token t s).
Proof.
  intros Hn key. unfold push_token. fold (token_key t). specialize (Hn key).
  destruct (decide (token_key t = key)) as [<-|Hk].
  - destruct (tokens s !! token_key t) as [e|] eqn:He.
    + destruct (Z.ltb_spec (KvMutationToken.seqno e) (KvMutationToken.seqno (SdkMutationToken.token t))); cbn [tokens].
      * rewrite lookup_insert_eq. eapply newest_at_replaced; [|exact Hn]. by intros ? [= <-].
      * rewrite He. by apply newest_at_kept.
    + cbn [tokens]. rewrite lookup_insert_eq. by apply (newest_at_replaced _ _ None).
  - apply (newest_at_other _ t) in Hn; [|done].
    destruct (tokens s !! token_key t); [case_match; [|done]|]; cbn [tokens]; by rewrite lookup_insert_ne.
Qed.

(** C23. A mutation state built from any tokens, in any order, holds for every vbucket of every
    bucket exactly one token when one was pushed: one of the pushed tokens, with the highest
    sequence number of all of them. *)
Theorem mutation_state_keeps_newest ts :
  newest_of ts (state_from_tokens ts)
  ∧ ∀ ts' key t t', ts ≡ₚ ts' → tokens (state_from_tokens ts) !! key = Some t →
      tokens (state_from_tokens ts') !! key = Some t' → KvMutationToken.seqno t = KvMutationToken.seqno t'.
Proof.
  assert (∀ ts, newest_of ts (state_from_tokens ts)) as Hall.
  { intros l. unfold state_from_tokens. induction l as [|t l IH] using rev_ind.
    - intros key. cbn. rewrite lookup_empty. intros t'. by rewrite elem_of_nil.
    - rewrite foldl_app. by apply push_token_newest. }
  split; [apply Hall|]. intros ts' key t t' Hp Ht Ht'.
  pose proof (Hall ts key) as H. pose proof (Hall ts' key) as H'. rewrite Ht in H. rewrite Ht' in H'. cbn in H, H'.
  destruct H as (Hin & Hv & Hle), H' as (Hin' & Hv' & Hle').
  specialize (Hle (mutation_token_new t' (key_bucket_name key))). specialize (Hle' (mutation_token_new t (key_bucket_name key))).
  unfold token_key, partition_id, sequence_number in Hle, Hle'. cbn in Hle, Hle'. rewrite Hv in Hle'. rewrite Hv' in Hle.
  assert (mkMutationStateKey (key_bucket_name key) (key_vbid key) = key) as Hk by (by destruct key).
  rewrite <- Hp in Hin'. specialize (Hle Hin' Hk). rewrite Hp in Hin. specialize (Hle' Hin Hk). lia.
Qed.

(** ** Examples: the documents of the unit tests *)

Definition sample_state : MutationState :=
  state_from_tokens [mutation_token_from_parts 1 1234 1 "default"; mutation_token_from_parts 25 5678 10 "beer-sample"].

Example serialize_sample :
  (λ m, map_to_list m) <$> (serialize_state sample_state !! "default"%string) = Some [("1"%string, (1, "1234"%string))].
Proof. vm_compute. reflexivity. Qed.

Example deserialize_sample :
  deserialize_state [("default", [("1", (1, "1234"))]); ("beer-sample", [("25", (10, "5678"))])]%string
  = Some sample_state.
Proof. vm_compute. reflexivity. Qed.

(** A token that is older than the one that is kept is dropped. *)
Example older_token_dropped :
  state_tokens (state_from_tokens [mutation_token_from_parts 1 7 5 "b"; mutation_token_from_parts 1 8 4 "b"])
  = [mutation_token_from_parts 1 7 5 "b"].
Proof. vm_compute. reflexivity. Qed.
