(* ===== verification/KvResults.v ===== *)
(** * Results of the key-value operations of the public crate
    ([couchbase/src/transcoding/], [results/kv_results.rs], [results/kv_binary_results.rs])

    What an application gets back, how it reads the contents, and the flags that say what the
    contents are.

    [serde_json] (for a type [V] of the application) and the check of UTF-8 are parameters. *)

From S2P Require Import Prelude Text Json Wire CoreError CrudOptions FacadeError SubdocSpecs MutationState.

(** ** Flags of contents ([transcoding/mod.rs]) *)

Module DataType.
Inductive DataType : Type := Unknown | Json | Binary | String_.
End DataType.
Abbreviation DataType := DataType.DataType.

#[global] Instance data_type_eq_dec : EqDecision DataType.
Proof. solve_decision. Defined.

Definition CF_MASK : Z := 0xFF000000.
Definition CF_FMT_MASK : Z := 0x0F000000.
Definition CF_FMT_JSON : Z := Z.shiftl 2 24.
Definition CF_FMT_BINARY : Z := Z.shiftl 3 24.
Definition CF_FMT_STRING : Z := Z.shiftl 4 24.
Definition LF_JSON : Z := 0.

Definition encode_common_flags (value_type : DataType) : Z :=
  match value_type with
  | DataType.Json => Z.lor 0 CF_FMT_JSON
  | DataType.Binary => Z.lor 0 CF_FMT_BINARY
  | DataType.String_ => Z.lor 0 CF_FMT_STRING
  | DataType.Unknown => 0
  end.

Definition data_type_of_format (flags : Z) : DataType :=
  if Z.land flags CF_FMT_MASK =? CF_FMT_BINARY then DataType.Binary
  else if Z.land flags CF_FMT_MASK =? CF_FMT_STRING then DataType.String_
  else if Z.land flags CF_FMT_MASK =? CF_FMT_JSON then DataType.Json
  else DataType.Unknown.

Definition decode_common_flags (flags : Z) : DataType :=
  if Z.land flags CF_MASK =? 0 then
    if flags =? LF_JSON then data_type_of_format CF_FMT_JSON else DataType.Unknown
  else data_type_of_format flags.

Definition check_datatype {A} (wanted : DataType) (flags : Z) (value : outcome Sdk.Error A) : outcome Sdk.Error A :=
  if bool_decide (decode_common_flags flags = wanted) then value
  else Err (Sdk.other_failure "datatype not supported").

Definition raw_binary_encode (value : list Z) : list Z * Z := (value, encode_common_flags DataType.Binary).
Definition raw_binary_decode (value : list Z) (flags : Z) : outcome Sdk.Error (list Z) :=
  check_datatype DataType.Binary flags (Ok value).
Definition raw_json_encode (value : list Z) : list Z * Z := (value, encode_common_flags DataType.Json).
Definition raw_json_decode (bytes : list Z) (flags : Z) : outcome Sdk.Error (list Z) :=
  check_datatype DataType.Json flags (Ok bytes).
Definition raw_string_encode (value : string) : list Z * Z := (str_bytes value, encode_common_flags DataType.String_).
(** [utf8_error] is the text of the error of a text that is not UTF-8. *)
Definition raw_string_decode (utf8_error : list Z → option string) (value : list Z) (flags : Z)
    : outcome Sdk.Error string :=
  check_datatype DataType.String_ flags
    match utf8_error value with
    | None => Ok (bytes_string value)
    | Some e => Err (Sdk.other_failure ("invalid UTF-8: " +:+ e))
    end.

(** [transcoding::json::encode] and [decode]. *)
Definition json_encode {V} (to_vec : V → string + list Z) (value : V) : outcome Sdk.Error (list Z * Z) :=
  match to_vec value with
  | inr content => Ok (content, encode_common_flags DataType.Json)
  | inl e => Err (Sdk.other_failure e)
  end.

Definition json_decode {V} (from_slice : list Z → string + V) (value : list Z) (flags : Z) : outcome Sdk.Error V :=
  check_datatype DataType.Json flags
    match from_slice value with inr v => Ok v | inl e => Err (Sdk.other_failure e) end.

(** ** Results ([results/kv_results.rs]) *)

Section Results.
(** A [DateTime<Utc>]. *)
Context {DateTime : Type}.

Record SdkGetResult : Type := mkSdkGetResult {
  gr_content : list Z;
  gr_flags : Z;
  gr_cas : Z;
  gr_expiry_time : option DateTime;
}.

Definition get_content_as_raw (self : SdkGetResult) : list Z * Z := (gr_content self, gr_flags self).

Definition get_content_as {V} (from_slice : list Z → string + V) (self : SdkGetResult) : outcome Sdk.Error V :=
  let '(content, flags) := get_content_as_raw self in json_decode from_slice content flags.

Definition get_result_from_get (result : GetResult) : SdkGetResult :=
  mkSdkGetResult (GetResult.value result) (GetResult.flags result) (GetResult.cas result) None.
Definition get_result_from_get_and_touch (result : GetAndTouchResult) : SdkGetResult :=
  mkSdkGetResult (GetAndTouchResult.value result) (GetAndTouchResult.flags result) (GetAndTouchResult.cas result) None.
Definition get_result_from_get_and_lock (result : GetAndLockResult) : SdkGetResult :=
  mkSdkGetResult (GetAndLockResult.value result) (GetAndLockResult.flags result) (GetAndLockResult.cas result) None.

End Results.
#[global] Arguments SdkGetResult : clear implicits.

Record ExistsResult : Type := mkExistsResult { exr_exists : bool; exr_cas : Z }.
Definition exists_result_from (result : GetMetaResult) : ExistsResult :=
  mkExistsResult (negb (GetMetaResult.deleted result)) (GetMetaResult.cas result).

Record SdkTouchResult : Type := mkSdkTouchResult { tr_cas : Z }.
Definition touch_result_from (result : TouchResult) : SdkTouchResult := mkSdkTouchResult (TouchResult.cas result).

Record MutationResult : Type := mkMutationResult {
  mr_cas : Z;
  mr_mutation_token : option SdkMutationToken;
}.

(** [results/kv_binary_results.rs]. *)
Record CounterResult : Type := mkCounterResult {
  cr_cas : Z;
  cr_mutation_token : option SdkMutationToken;
  cr_content : Z;
}.

(** *** Sub-document results *)

Record LookupInResultEntry : Type := mkLookupInResultEntry {
  le_value : option (list Z);
  le_error : option Sdk.Error;
  le_op : SdkLookupInOpType;
}.

Record SdkLookupInResult : Type := mkSdkLookupInResult {
  lr_cas : Z;
  lr_entries : list LookupInResultEntry;
  lr_is_deleted : bool;
}.

Definition lookup_exists (self : SdkLookupInResult) (lookup_index : nat) : outcome Sdk.Error bool :=
  if (length (lr_entries self) <=? lookup_index)%nat then
    Err (Sdk.invalid_argument "index" (Sdk.Text "index cannot be >= number of lookups"))
  else
    entry ← ok_or (lr_entries self !! lookup_index) (Sdk.invalid_argument "index" (Sdk.Text "index out of bounds"));
    match le_error entry with
    | Some err => match Sdk.kind err with Sdk.PathNotFound => Ok false | _ => Err err end
    | None => Ok true
    end.

(** [bool_to_vec] is [serde_json::to_vec] of a [bool]. *)
Definition lookup_content_as_raw (bool_to_vec : bool → string + list Z) (self : SdkLookupInResult) (lookup_index : nat)
    : outcome Sdk.Error (list Z) :=
  if (length (lr_entries self) <=? lookup_index)%nat then
    Err (Sdk.invalid_argument "index" (Sdk.Text "index cannot be >= number of lookups"))
  else
    entry ← ok_or (lr_entries self !! lookup_index) (Sdk.invalid_argument "index" (Sdk.Text "index out of bounds"));
    if bool_decide (le_op entry = SdkLookupInOpType.Exists_) then
      res ← lookup_exists self lookup_index;
      match bool_to_vec res with inr val => Ok val | inl e => Err (Sdk.decoding_failure_from_serde e) end
    else
      match le_error entry with
      | Some err => Err err
      | None => Ok (obytes (le_value entry))
      end.

Definition read_content {V} (from_slice : list Z → string + V) (content : list Z) : outcome Sdk.Error V :=
  match from_slice content with inr v => Ok v | inl e => Err (Sdk.decoding_failure_from_serde e) end.

Definition lookup_content_as {V} (bool_to_vec : bool → string + list Z) (from_slice : list Z → string + V)
    (self : SdkLookupInResult) (lookup_index : nat) : outcome Sdk.Error V :=
  content ← lookup_content_as_raw bool_to_vec self lookup_index; read_content from_slice content.

Record MutateInResultEntry : Type := mkMutateInResultEntry { me_value : option (list Z) }.

Record SdkMutateInResult : Type := mkSdkMutateInResult {
  mir_cas : Z;
  mir_mutation_token : option SdkMutationToken;
  mir_entries : list MutateInResultEntry;
}.

Definition mutate_content_as_raw (self : SdkMutateInResult) (mutate_index : nat) : outcome Sdk.Error (list Z) :=
  if (length (mir_entries self) <=? mutate_index)%nat then
    Err (Sdk.invalid_argument "index" (Sdk.Text "index cannot be >= number of operations"))
  else
    entry ← ok_or (mir_entries self !! mutate_index) (Sdk.invalid_argument "index" (Sdk.Text "index out of bounds"));
    Ok (obytes (me_value entry)).

Definition mutate_content_as {V} (from_slice : list Z → string + V) (self : SdkMutateInResult) (mutate_index : nat)
    : outcome Sdk.Error V :=
  content ← mutate_content_as_raw self mutate_index; read_content from_slice content.

(** ** Lemmas *)

(** The flags of every kind of contents are read back; flags that say nothing are read as JSON. *)
Lemma common_flags_roundtrip d :
  decode_common_flags (encode_common_flags d)
  = match d with DataType.Unknown => DataType.Json | _ => d end.
Proof. by destruct d. Qed.

Lemma json_roundtrip {V} (to_vec : V → string + list Z) (from_slice : list Z → string + V) v content flags :
  from_slice content = inr v → json_encode to_vec v = Ok (content, flags) → json_decode from_slice content flags = Ok v.
Proof.
  intros Hf. unfold json_encode. destruct (to_vec v) as [e|c]; [done|]. intros [= -> <-].
  unfold json_decode. by rewrite Hf.
Qed.

(** No result panics, at whatever index it is read. *)
Lemma lookup_content_no_panic b r i : lookup_content_as_raw b r i ≠ Panic.
Proof.
  unfold lookup_content_as_raw, lookup_exists. case_match; [done|].
  destruct (lr_entries r !! i) as [e|]; [|done]. cbn.
  repeat (case_match; cbn); done.
Qed.
