(* ===== verification/Projection.v ===== *)
(** * Projections of a document ([couchbase/src/results/projection.rs])

    A get can ask for parts of a document; the result is a document with these parts at their
    paths, put together from the answers of single lookups or out of the whole document.

    [serde_json] is a parameter: its parser and its printer. *)

From Stdlib Require Import Ascii.
From S2P Require Import Prelude Json FacadeError SubdocSpecs KvResults.

Record SubdocPath : Type := mkSubdocPath {
  sp_path : string;
  sp_is_array : bool;
}.

(** [SubdocPath::path_parts]: [current] is the key that is being read; with [skip] the text is
    inside of brackets, whose content is dropped. *)
Fixpoint path_parts_from (skip : bool) (current : string) (path : string) : list SubdocPath :=
  match path with
  | EmptyString => if bool_decide (current = "") then [] else [mkSubdocPath current false]
  | String ch path =>
      if skip then
        if bool_decide (ch = "]"%char) then
          match path with
          | String next rest =>
              if bool_decide (next = "."%char) then path_parts_from false "" rest else path_parts_from false "" path
          | EmptyString => []
          end
        else path_parts_from true "" path
      else if bool_decide (ch = "."%char) then
        if bool_decide (current = "") then path_parts_from false "" path
        else mkSubdocPath current false :: path_parts_from false "" path
      else if bool_decide (ch = "["%char) then mkSubdocPath current true :: path_parts_from true "" path
      else path_parts_from false (current +:+ String ch "") path
  end.

Definition path_parts (path_str : string) : list SubdocPath := path_parts_from false "" path_str.

(** [SubdocPath::set_value]: [paths[0]] panics without a path. *)
Fixpoint set_value {E} (paths : list SubdocPath) (content value : Value) : outcome E Value :=
  match paths with
  | [] => Panic
  | [path] =>
      Ok (if sp_is_array path then
            match content with
            | Json.Object obj => Json.Object (Json.map_insert (sp_path path) (Json.Array [value]) obj)
            | Json.Array vec => Json.Array (vec ++ [Json.Array [value]])
            | _ => content
            end
          else
            match content with
            | Json.Array vec => Json.Array (vec ++ [Json.Object (Json.map_insert (sp_path path) value [])])
            | Json.Object obj => Json.Object (Json.map_insert (sp_path path) value obj)
            | _ => content
            end)
  | path :: paths =>
      if sp_is_array path then
        match content with
        | Json.Array vec => child ← set_value paths (Json.Array []) value; Ok (Json.Array (vec ++ [child]))
        | Json.Object obj =>
            child ← set_value paths (Json.Array []) value; Ok (Json.Object (Json.map_insert (sp_path path) child obj))
        | _ => Ok content
        end
      else
        match content with
        | Json.Array vec =>
            child ← set_value paths (Json.Object []) value;
            Ok (Json.Array (vec ++ [Json.Object (Json.map_insert (sp_path path) child [])]))
        | Json.Object obj =>
            child ← set_value paths (Json.Object []) value; Ok (Json.Object (Json.map_insert (sp_path path) child obj))
        | _ => Ok content
        end
  end.

Fixpoint resolve_projection_value (current : Value) (parts : list SubdocPath) : option Value :=
  match parts with
  | [] => Some current
  | part :: parts =>
      match Json.value_get (sp_path part) current with
      | Some next => resolve_projection_value next parts
      | None => None
      end
  end.

Section Build.
Context (from_slice : list Z → string + Value) (to_vec : Value → string + list Z)
  (bool_to_vec : bool → string + list Z).

Definition document_text (content : Value) : outcome Sdk.Error (list Z) :=
  match to_vec content with inr text => Ok text | inl e => Err (Sdk.decoding_failure_from_serde e) end.

(** The loop of [build_from_subdoc_entries]; an index past the results panics. *)
Fixpoint subdoc_entries_loop (i : nat) (specs : list LookupInSpec) (results : list LookupInResultEntry) (content : Value)
    : outcome Sdk.Error Value :=
  match specs with
  | [] => Ok content
  | spec :: specs =>
      result ← expect (results !! i);
      let place :=
        value_bytes ← ok_or (le_value result) (Sdk.other_failure "missing subdoc value");
        value ← read_content from_slice value_bytes;
        content ← set_value (path_parts (LookupInSpec.path spec)) content value;
        subdoc_entries_loop (Datatypes.S i) specs results content in
      match le_error result with
      | Some err =>
          match Sdk.kind err with
          | Sdk.PathNotFound => subdoc_entries_loop (Datatypes.S i) specs results content
          | _ => Err err
          end
      | None => place
      end
  end.

Definition build_from_subdoc_entries (specs : list LookupInSpec) (results : list LookupInResultEntry)
    : outcome Sdk.Error (list Z) :=
  content ← subdoc_entries_loop 0 specs results (Json.Object []); document_text content.

Fixpoint full_doc_loop (content : Value) (projections : list string) (projection_content : Value)
    : outcome Sdk.Error Value :=
  match projections with
  | [] => Ok projection_content
  | projection :: projections =>
      let parts := path_parts projection in
      match resolve_projection_value content parts with
      | Some value =>
          projection_content ← set_value parts projection_content value;
          full_doc_loop content projections projection_content
      | None => full_doc_loop content projections projection_content
      end
  end.

Definition build_from_full_doc (result : SdkLookupInResult) (projections : option (list string))
    : outcome Sdk.Error (list Z) :=
  match projections with
  | None => lookup_content_as_raw bool_to_vec result 0
  | Some projections =>
      if negb (length (lr_entries result) =? 1)%nat then
        Err (Sdk.other_failure "expected exactly one entry for full document")
      else
        content ← lookup_content_as bool_to_vec from_slice result 0;
        projection_content ← full_doc_loop content projections (Json.Object []);
        document_text projection_content
  end.

End Build.

(** ** What the document is *)

(** What is stored at the first key of a path, and what is pushed where a path goes on inside
    of an array. *)
Fixpoint entry_of (paths : list SubdocPath) (value : Value) : Value :=
  match paths with
  | [] => value
  | path :: rest =>
      if sp_is_array path then
        Json.Array [match rest with [] => value | _ => element_of rest value end]
      else match rest with [] => value | next :: _ => Json.Object [(sp_path next, entry_of rest value)] end
  end
with element_of (paths : list SubdocPath) (value : Value) : Value :=
  match paths with
  | [] => value
  | path :: rest =>
      if sp_is_array path then
        Json.Array [match rest with [] => value | _ => element_of rest value end]
      else Json.Object [(sp_path path,
             match rest with [] => value | next :: _ => Json.Object [(sp_path next, entry_of rest value)] end)]
  end.

(** One step into a path of several keys. *)
Lemma set_value_step {E} p q rest content value :
  set_value (E:=E) (p :: q :: rest) content value
  = match content with
    | Json.Array vec =>
        child ← set_value (q :: rest) (if sp_is_array p then Json.Array [] else Json.Object []) value;
        Ok (Json.Array (vec ++ [if sp_is_array p then child else Json.Object [(sp_path p, child)]]))
    | Json.Object obj =>
        child ← set_value (q :: rest) (if sp_is_array p then Json.Array [] else Json.Object []) value;
        Ok (Json.Object (Json.map_insert (sp_path p) child obj))
    | _ => Ok content
    end.
Proof. destruct content; cbn -[set_value]; by destruct (sp_is_array p) eqn:Hp; cbn; rewrite Hp. Qed.

Lemma set_value_spec {E} p rest value :
  (∀ vec, set_value (E:=E) (p :: rest) (Json.Array vec) value = Ok (Json.Array (vec ++ [element_of (p :: rest) value])))
  ∧ ∀ m, set_value (E:=E) (p :: rest) (Json.Object m) value
         = Ok (Json.Object (Json.map_insert (sp_path p) (entry_of (p :: rest) value) m)).
Proof.
  revert p. induction rest as [|q rest IH]; intros p.
  - split; intros ?; cbn; by destruct (sp_is_array p).
  - destruct (IH q) as [Ha Ho].
    split; intros x; rewrite set_value_step; destruct (sp_is_array p) eqn:Hp; rewrite ?Ha, ?Ho;
      cbn -[entry_of element_of]; cbn [entry_of element_of]; by rewrite Hp.
Qed.

Lemma set_value_nonempty {E} parts m value :
  parts ≠ [] → ∃ p rest, parts = p :: rest ∧
    set_value (E:=E) parts (Json.Object m) value
    = Ok (Json.Object (Json.map_insert (sp_path p) (entry_of parts value) m)).
Proof. destruct parts as [|p rest]; [done|]. intros _. exists p, rest. split; [done|]. apply set_value_spec. Qed.

(** The key an entry is stored at. *)
Definition first_key (parts : list SubdocPath) : option string := sp_path <$> head parts.

Definition put (m : list (string * Value)) (x : list SubdocPath * Value) : list (string * Value) :=
  match x.1 with p :: _ => Json.map_insert (sp_path p) (entry_of x.1 x.2) m | [] => m end.

Lemma map_get_put_all l m k :
  Json.map_get k (foldl put m l)
  = match list.last (filter (λ x, first_key x.1 = Some k) l) with
    | Some x => Some (entry_of x.1 x.2)
    | None => Json.map_get k m
    end.
Proof.
  induction l as [|[parts v] l IH] using rev_ind; [done|].
  rewrite foldl_app, list.filter_app. cbn [foldl]. unfold put at 1. cbn [fst snd].
  destruct parts as [|p rest]; [by rewrite filter_cons_False, filter_nil, app_nil_r by done|].
  destruct (decide (sp_path p = k)) as [<-|Hk].
  - rewrite filter_cons_True, filter_nil, list.last_snoc, map_get_insert by done. done.
  - rewrite filter_cons_False, filter_nil, app_nil_r by (cbn; congruence).
    by rewrite map_get_insert_ne by done.
Qed.

Lemma entry_of_resolves p rest v :
  Forall (λ q, sp_is_array q = false) (p :: rest) → resolve_projection_value (entry_of (p :: rest) v) rest = Some v.
Proof.
  revert p. induction rest as [|q rest IH]; intros p Hf; apply list.Forall_cons in Hf as [Hp Hf].
  - cbn. by rewrite Hp.
  - cbn [entry_of resolve_projection_value]. rewrite Hp. cbn [Json.value_get Json.map_get].
    rewrite bool_decide_true by done. by apply IH.
Qed.

(** The projections found in a document, with what was found. *)
Definition found (content : Value) (projections : list string) : list (list SubdocPath * Value) :=
  omap (λ p, (path_parts p,.) <$> resolve_projection_value content (path_parts p)) projections.

Lemma full_doc_loop_spec content projections m :
  Forall (λ p, path_parts p ≠ []) projections →
  full_doc_loop content projections (Json.Object m) = Ok (Json.Object (foldl put m (found content projections))).
Proof.
  intros Hf. revert m. induction Hf as [|p ps Hp Hps IH]; intros m; [done|].
  cbn [full_doc_loop]. unfold found. cbn [omap list_omap].
  destruct (resolve_projection_value content (path_parts p)) as [v|]; [|apply IH].
  destruct (set_value_nonempty (E:=Sdk.Error) (path_parts p) m v Hp) as (q & rest & Hq & ->). cbn [fmap option_fmap option_map mbind outcome_bind].
  rewrite IH. cbn [foldl]. unfold put at 3. cbn [fst snd]. by rewrite Hq.
Qed.

Section Lookups.
Context (from_slice : list Z → string + Value) (to_vec : Value → string + list Z)
  (bool_to_vec : bool → string + list Z).

(** The answer of a lookup says what is in the document at its path. *)
Definition answers (content : Value) (p : string) (result : LookupInResultEntry) : Prop :=
  match resolve_projection_value content (path_parts p) with
  | Some v => le_error result = None ∧ ∃ text, le_value result = Some text ∧ from_slice text = inr v
  | None => ∃ e, le_error result = Some e ∧ Sdk.kind e = Sdk.PathNotFound
  end.

Lemma subdoc_loop_full content specs before results projection_content :
  Forall2 (answers content) (LookupInSpec.path <$> specs) results →
  subdoc_entries_loop from_slice (length before) specs (before ++ results) projection_content
  = full_doc_loop content (LookupInSpec.path <$> specs) projection_content.
Proof.
  revert before results projection_content. induction specs as [|s specs IH]; intros before results doc H; [done|].
  apply Forall2_cons_inv_l in H as (r & rs & Hr & Hrs & ->). cbn [subdoc_entries_loop fmap list_fmap full_doc_loop].
  rewrite list_lookup_middle by done. cbn [expect mbind outcome_bind]. unfold answers in Hr.
  assert (∀ doc, subdoc_entries_loop from_slice (Datatypes.S (length before)) specs (before ++ r :: rs) doc
                 = full_doc_loop content (LookupInSpec.path <$> specs) doc) as K.
  { intros d. rewrite <- (IH (before ++ [r]) rs d Hrs). rewrite length_app, Nat.add_1_r. by rewrite <- app_assoc. }
  destruct (resolve_projection_value _ _) as [v|].
  - destruct Hr as (-> & text & -> & Ht). cbn [ok_or mbind outcome_bind]. unfold read_content. rewrite Ht.
    cbn [mbind outcome_bind]. destruct (set_value _ doc v); cbn; [apply K|done..].
  - destruct Hr as (e & -> & ->). apply K.
Qed.

(** A get of some parts of a document builds its result in one of two ways: from the answers
    of one lookup per part, or, when there are too many parts, out of the whole document.  When
    every lookup answers what the document has at its path both give the same document, and a
    part that does not exist is left out.  Of the parts that begin with the same key only the last
    one is in the result; a part that is the only one with its first key and has no array index is
    found at its path. *)
Lemma projections_agree content specs results :
  let ps := LookupInSpec.path <$> specs in
  Forall2 (answers content) ps results → Forall (λ p, path_parts p ≠ []) ps →
  ∃ m, build_from_subdoc_entries from_slice to_vec specs results = document_text to_vec (Json.Object m)
  ∧ (∀ text cas deleted, from_slice text = inr content →
       build_from_full_doc from_slice to_vec bool_to_vec
         (mkSdkLookupInResult cas [mkLookupInResultEntry (Some text) None SdkLookupInOpType.Get] deleted) (Some ps)
       = document_text to_vec (Json.Object m))
  ∧ (∀ k, Json.map_get k m
          = (λ x, entry_of x.1 x.2) <$> list.last (filter (λ x, first_key x.1 = Some k) (found content ps)))
  ∧ ∀ p v, p ∈ ps → resolve_projection_value content (path_parts p) = Some v →
      Forall (λ q, sp_is_array q = false) (path_parts p) →
      (∀ p', p' ∈ ps → first_key (path_parts p') = first_key (path_parts p) → path_parts p' = path_parts p) →
      resolve_projection_value (Json.Object m) (path_parts p) = Some v.
Proof.
  intros ps Ha Hne. exists (foldl put [] (found content ps)). split_and!.
  - unfold build_from_subdoc_entries. change results with ([] ++ results). change 0%nat with (length (@nil LookupInResultEntry)).
    rewrite (subdoc_loop_full content) by done. by rewrite full_doc_loop_spec.
  - intros text cas deleted Ht. unfold build_from_full_doc, lookup_content_as, lookup_content_as_raw.
    cbn. unfold read_content. rewrite bool_decide_false by done. cbn. rewrite Ht. cbn. by rewrite full_doc_loop_spec.
  - intros k. rewrite map_get_put_all. by destruct (list.last _).
  - intros p v Hp Hv Hf Hu.
    assert (path_parts p ≠ []) as Hpn by (rewrite list.Forall_forall in Hne; by apply Hne).
    destruct (path_parts p) as [|q rest] eqn:Hparts; [done|]. cbn [resolve_projection_value Json.value_get].
    rewrite map_get_put_all.
    assert (((q :: rest), v) ∈ filter (λ x, first_key x.1 = Some (sp_path q)) (found content ps)) as Hin.
    { apply list_elem_of_filter. split; [done|]. apply list_elem_of_omap. exists p. split; [done|]. by rewrite Hparts, Hv. }
    destruct (list.last _) as [[parts' v']|] eqn:Hl.
    2:{ apply list.last_None in Hl. rewrite Hl in Hin. by apply not_elem_of_nil in Hin. }
    apply list.last_Some_elem_of, list_elem_of_filter in Hl as [Hk (p' & Hp' & Hr')%list_elem_of_omap].
    destruct (resolve_projection_value content (path_parts p')) as [w|] eqn:Hw; [|done]. injection Hr' as <- <-.
    rewrite (Hu p' Hp') in Hw |- * by done. rewrite Hv in Hw. injection Hw as <-. by apply entry_of_resolves.
Qed.

End Lookups.

(** ** Witness and examples *)

Definition one : Value := Json.number_from 1.
Definition two : Value := Json.number_from 2.

(** [{"a":{"b":1,"c":2},"d":[1,2]}], and single-byte texts for its parts. *)
Definition sample_document : Value :=
  Json.Object [("a", Json.Object [("b", one); ("c", two)]); ("d", Json.Array [one; two])]%string.

Definition sample_from_slice (text : list Z) : string + Value :=
  match text with
  | [49] => inr one
  | [50] => inr two
  | [68] => inr sample_document
  | _ => inl "expected value"%string
  end.

Definition sample_specs : list LookupInSpec :=
  [lookup_in_spec_get "a.b" None; lookup_in_spec_get "x" None].

Definition sample_results : list LookupInResultEntry :=
  [mkLookupInResultEntry (Some [49]) None SdkLookupInOpType.Get;
   mkLookupInResultEntry None (Some (Sdk.new Sdk.PathNotFound)) SdkLookupInOpType.Get].

Lemma projections_agree_example :
  ∃ m, build_from_subdoc_entries sample_from_slice (λ _, inr []) sample_specs sample_results = Ok []
  ∧ resolve_projection_value (Json.Object m) (path_parts "a.b") = Some one.
Proof.
  destruct (projections_agree sample_from_slice (λ _, inr []) (λ _, inr []) sample_document sample_specs sample_results)
    as (m & Hb & _ & _ & Hr).
  - constructor; [split; [done|by exists [49]]|]. constructor; [by eexists|constructor].
  - by repeat constructor.
  - exists m. split; [exact Hb|]. apply (Hr "a.b"%string); [by left|done|by repeat constructor|].
    intros p' [->|[->|[]%not_elem_of_nil]%elem_of_cons]%elem_of_cons; done.
Defined.

(** Two parts of the same object: the first one is lost. *)
Example sibling_is_lost :
  full_doc_loop sample_document ["a.b"; "a.c"]%string (Json.Object [])
  = Ok (Json.Object [("a", Json.Object [("c", two)])])%string.
Proof. reflexivity. Qed.

(** An element of an array out of the whole document is the whole array in another one. *)
Example array_index_is_ignored :
  full_doc_loop sample_document ["d[0]"]%string (Json.Object [])
  = Ok (Json.Object [("d", Json.Array [Json.Array [one; two]])])%string.
Proof. reflexivity. Qed.

(** The answer of the single lookup for this path is put where it belongs. *)
Example array_index_of_a_lookup :
  subdoc_entries_loop sample_from_slice 0 [lookup_in_spec_get "d[0]" None]
    [mkLookupInResultEntry (Some [49]) None SdkLookupInOpType.Get] (Json.Object [])
  = Ok (Json.Object [("d", Json.Array [one])])%string.
Proof. reflexivity. Qed.

(** A part without a name stops the caller. *)
Lemma empty_projection_panics content projections m :
  full_doc_loop content ("" :: projections)%string m = Panic.
Proof. done. Qed.
