(* ===== verification/SdkKvClient.v ===== *)
(** * Key-value operations of the public crate ([couchbase/src/clients/couchbase_core_kv_client.rs])

    Each operation of a collection as the call of the agent it makes.  The agent is the
    interface [KvAgent]; [get_agent] waits for the agent of the bucket and says whether it is
    still there when the operation uses it.

    Parameters are [serde_json] (the context of a server error, and the numbers and documents that
    are read and written), the clock and [chrono]'s conversion of a timestamp. *)

From S2P Require Import Prelude Text Json Wire MemdError CoreError Requests Retry CrudOptions Http.
From S2P Require Import FacadeError SdkOptions SubdocSpecs MutationState KvResults Projection.

(** ** The agent *)

Class KvAgent (S T : Type) : Type := {
  (** [agent_provider.get_agent().await] and whether the agent can be upgraded: nothing when no
      agent ever arrives. *)
  get_agent : S → S * option bool;
  agent_upsert : UpsertOptions T → action S UpsertResult;
  agent_add : AddOptions T → action S AddResult;
  agent_replace : ReplaceOptions T → action S ReplaceResult;
  agent_delete : DeleteOptions T → action S DeleteResult;
  agent_get : GetOptions T → action S GetResult;
  agent_get_meta : GetMetaOptions T → action S GetMetaResult;
  agent_get_and_touch : GetAndTouchOptions T → action S GetAndTouchResult;
  agent_get_and_lock : GetAndLockOptions T → action S GetAndLockResult;
  agent_unlock : UnlockOptions T → action S UnlockResult;
  agent_touch : TouchOptions T → action S TouchResult;
  agent_append : AppendOptions T → action S AppendResult;
  agent_prepend : PrependOptions T → action S PrependResult;
  agent_increment : IncrementOptions T → action S IncrementResult;
  agent_decrement : DecrementOptions T → action S DecrementResult;
  agent_lookup_in : LookupInOptions T → action S LookupInResult;
  agent_mutate_in : MutateInOptions T → action S MutateInResult;
}.

(** ** Expiry *)

Definition SECS_IN_DAY : Z := 24 * 60 * 60.

Definition int_error : string := "out of range integral type conversion attempted".

(** [now] is [Utc::now().timestamp()]. *)
Definition expiry_to_seconds (now : Z) (expiry : Duration) : outcome Sdk.Error Z :=
  if as_millis expiry <? 1000 then Ok 1
  else
    let expiry_secs := as_secs expiry in
    if expiry_secs <? SECS_IN_DAY * 30 then
      if expiry_secs <? 2 ^ 32 then Ok expiry_secs
      else Err (Sdk.invalid_argument "expiry" (Sdk.Text ("expiry duration is too large for u32: " +:+ int_error)))
    else
      let then_ := Z.min (cast_u 64 now + expiry_secs) (2 ^ 64 - 1) in
      if then_ <? 2 ^ 32 then Ok then_
      else Err (Sdk.invalid_argument "expiry" (Sdk.Text ("expiry as timestamp is too large for u32: " +:+ int_error))).

(** [options.expiry.map(Self::expiry_to_seconds).transpose()]. *)
Definition optional_expiry (now : Z) (expiry : option Duration) : outcome Sdk.Error (option Z) :=
  match expiry with Some d => Some <$> expiry_to_seconds now d | None => Ok None end.

(** ** The client *)

Record CouchbaseCoreKvClient (T : Type) : Type := mkCouchbaseCoreKvClient {
  cl_bucket_name : string;
  cl_scope_name : string;
  cl_collection_name : string;
  cl_default_retry_strategy : T;
}.
#[global] Arguments mkCouchbaseCoreKvClient {T}.
#[global] Arguments cl_bucket_name {T}.
#[global] Arguments cl_scope_name {T}.
#[global] Arguments cl_collection_name {T}.
#[global] Arguments cl_default_retry_strategy {T}.

Definition entries_from_indexes_step {A} (i : nat) (original_idx : option nat) (entry : option A)
    (entries : list (option A)) : outcome Sdk.Error (list (option A)) :=
  original_idx ← expect original_idx;
  entry ← expect entry;
  if (original_idx <? length entries)%nat then Ok (<[original_idx := Some entry]> entries) else Panic.

(** [for (i, x) in results.into_iter().enumerate() { entries[op_indexes[i]] = Some(..) }]; an
    index out of range panics. *)
Fixpoint entries_loop {X A} (i : nat) (op_indexes : list nat) (entry : nat → X → option A) (results : list X)
    (entries : list (option A)) : outcome Sdk.Error (list (option A)) :=
  match results with
  | [] => Ok entries
  | x :: results =>
      entries ← entries_from_indexes_step i (op_indexes !! i) (entry i x) entries;
      entries_loop (Datatypes.S i) op_indexes entry results entries
  end.

(** [entries.into_iter().map(|x| x.unwrap()).collect()]. *)
Definition unwrap_all {A} (entries : list (option A)) : outcome Sdk.Error (list A) := expect (mapM id entries).

(** The results of reordered operations at the positions of the operations. *)
Definition in_order {X A} (n : nat) (op_indexes : list nat) (entry : nat → X → option A) (results : list X)
    : outcome Sdk.Error (list A) :=
  entries ← entries_loop 0 op_indexes entry results (replicate n None); unwrap_all entries.

Section Client.
Context {S T DateTime : Type} `{KvAgent S T}.
Context (from_slice_context : list Z → option ServerErrorContextJson) (now : S → Z).
Context (from_slice : list Z → string + Value) (to_vec : Value → string + list Z)
  (bool_to_vec : bool → string + list Z) (from_slice_u64 from_slice_u32 : list Z → string + Z).
Context (from_timestamp : Z → option DateTime).

Abbreviation Call A := (io S Sdk.Error A).
Abbreviation Client := (CouchbaseCoreKvClient T).

(** [CouchbaseAgentProvider::upgrade_agent(agent)?] of the agent that was waited for. *)
Definition with_agent {A} (operation : Call A) : Call A := λ s,
  match get_agent (S:=S) (T:=T) s with
  | (s, Some true) => operation s
  | (s, Some false) => (s, Some (Err (Sdk.new Sdk.Disconnected)))
  | (s, None) => (s, None)
  end.

Definition call {A} (m : action S A) : Call A := io_map_err (Sdk.error_from_core from_slice_context) m.

Definition expiry_now (expiry : option Duration) : Call (option Z) := λ s, io_lift (optional_expiry (now s) expiry) s.
Definition seconds_now (expiry : Duration) : Call Z := λ s, io_lift (expiry_to_seconds (now s) expiry) s.

Definition retry_of (self : Client) (retry_strategy : option T) : T :=
  default (cl_default_retry_strategy self) retry_strategy.

Definition bucket_token (self : Client) (t : option KvMutationToken) : option SdkMutationToken :=
  (λ t, mutation_token_new t (cl_bucket_name self)) <$> t.

(** *** Mutations *)

Definition client_upsert (self : Client) (id : string) (value : list Z) (flags : Z) (options : SdkUpsertOptions T)
    : Call MutationResult :=
  with_agent (
    expiry ← expiry_now (SdkUpsertOptions.expiry options);
    result ← call (agent_upsert (
      upsert_options_preserve_expiry (SdkUpsertOptions.preserve_expiry options)
      (upsert_options_retry_strategy (retry_of self (SdkUpsertOptions.retry_strategy options))
      (upsert_options_durability_level
         (parse_optional_durability_level_to_memdx (SdkUpsertOptions.durability_level options))
      (upsert_options_expiry expiry
      (upsert_options_flags flags
      (upsert_options_new (str_bytes id) (cl_scope_name self) (cl_collection_name self) value)))))));
    mret (mkMutationResult (UpsertResult.cas result) (bucket_token self (UpsertResult.mutation_token result)))).

Definition client_insert (self : Client) (id : string) (value : list Z) (flags : Z) (options : SdkInsertOptions T)
    : Call MutationResult :=
  with_agent (
    expiry ← expiry_now (SdkInsertOptions.expiry options);
    result ← call (agent_add (
      add_options_retry_strategy (retry_of self (SdkInsertOptions.retry_strategy options))
      (add_options_durability_level
         (parse_optional_durability_level_to_memdx (SdkInsertOptions.durability_level options))
      (add_options_expiry expiry
      (add_options_flags flags
      (add_options_new (str_bytes id) (cl_scope_name self) (cl_collection_name self) value))))));
    mret (mkMutationResult (AddResult.cas result) (bucket_token self (AddResult.mutation_token result)))).

Definition client_replace (self : Client) (id : string) (value : list Z) (flags : Z) (options : SdkReplaceOptions T)
    : Call MutationResult :=
  with_agent (
    expiry ← expiry_now (SdkReplaceOptions.expiry options);
    result ← call (agent_replace (
      replace_options_cas (SdkReplaceOptions.cas options)
      (replace_options_preserve_expiry (SdkReplaceOptions.preserve_expiry options)
      (replace_options_retry_strategy (retry_of self (SdkReplaceOptions.retry_strategy options))
      (replace_options_durability_level
         (parse_optional_durability_level_to_memdx (SdkReplaceOptions.durability_level options))
      (replace_options_expiry expiry
      (replace_options_flags flags
      (replace_options_new (str_bytes id) (cl_scope_name self) (cl_collection_name self) value))))))));
    mret (mkMutationResult (ReplaceResult.cas result) (bucket_token self (ReplaceResult.mutation_token result)))).

Definition client_remove (self : Client) (id : string) (options : SdkRemoveOptions T) : Call MutationResult :=
  with_agent (
    result ← call (agent_delete (
      delete_options_cas (SdkRemoveOptions.cas options)
      (delete_options_retry_strategy (retry_of self (SdkRemoveOptions.retry_strategy options))
      (delete_options_durability_level
         (parse_optional_durability_level_to_memdx (SdkRemoveOptions.durability_level options))
      (delete_options_new (str_bytes id) (cl_scope_name self) (cl_collection_name self))))));
    mret (mkMutationResult (DeleteResult.cas result) (bucket_token self (DeleteResult.mutation_token result)))).

Definition client_append (self : Client) (id : string) (value : list Z) (options : SdkAppendOptions T)
    : Call MutationResult :=
  with_agent (
    result ← call (agent_append (
      append_options_retry_strategy (retry_of self (SdkAppendOptions.retry_strategy options))
      (append_options_durability_level
         (parse_optional_durability_level_to_memdx (SdkAppendOptions.durability_level options))
      (append_options_cas (SdkAppendOptions.cas options)
      (append_options_new (str_bytes id) (cl_scope_name self) (cl_collection_name self) value)))));
    mret (mkMutationResult (AppendResult.cas result) (bucket_token self (AppendResult.mutation_token result)))).

Definition client_prepend (self : Client) (id : string) (value : list Z) (options : SdkPrependOptions T)
    : Call MutationResult :=
  with_agent (
    result ← call (agent_prepend (
      prepend_options_retry_strategy (retry_of self (SdkPrependOptions.retry_strategy options))
      (prepend_options_cas (SdkPrependOptions.cas options)
      (prepend_options_durability_level
         (parse_optional_durability_level_to_memdx (SdkPrependOptions.durability_level options))
      (prepend_options_new (str_bytes id) (cl_scope_name self) (cl_collection_name self) value)))));
    mret (mkMutationResult (PrependResult.cas result) (bucket_token self (PrependResult.mutation_token result)))).

Definition client_increment (self : Client) (id : string) (options : SdkIncrementOptions T) : Call CounterResult :=
  with_agent (
    expiry ← expiry_now (SdkIncrementOptions.expiry options);
    result ← call (agent_increment (
      increment_options_initial (SdkIncrementOptions.initial options)
      (increment_options_expiry expiry
      (increment_options_retry_strategy (retry_of self (SdkIncrementOptions.retry_strategy options))
      (increment_options_durability_level
         (parse_optional_durability_level_to_memdx (SdkIncrementOptions.durability_level options))
      (increment_options_new (str_bytes id) (default 1 (SdkIncrementOptions.delta options)) (cl_scope_name self)
         (cl_collection_name self)))))));
    mret (mkCounterResult (IncrementResult.cas result) (bucket_token self (IncrementResult.mutation_token result))
            (IncrementResult.value result))).

Definition client_decrement (self : Client) (id : string) (options : SdkDecrementOptions T) : Call CounterResult :=
  with_agent (
    expiry ← expiry_now (SdkDecrementOptions.expiry options);
    result ← call (agent_decrement (
      decrement_options_initial (SdkDecrementOptions.initial options)
      (decrement_options_expiry expiry
      (decrement_options_retry_strategy (retry_of self (SdkDecrementOptions.retry_strategy options))
      (decrement_options_durability_level
         (parse_optional_durability_level_to_memdx (SdkDecrementOptions.durability_level options))
      (decrement_options_new (str_bytes id) (default 1 (SdkDecrementOptions.delta options)) (cl_scope_name self)
         (cl_collection_name self)))))));
    mret (mkCounterResult (DecrementResult.cas result) (bucket_token self (DecrementResult.mutation_token result))
            (DecrementResult.value result))).

(** *** Reads and locks *)

Definition get_direct (self : Client) (id : string) (options : SdkGetOptions T) : Call (SdkGetResult DateTime) :=
  with_agent (
    res ← call (agent_get (
      get_options_retry_strategy (retry_of self (SdkGetOptions.retry_strategy options))
      (get_options_new (str_bytes id) (cl_scope_name self) (cl_collection_name self))));
    mret (get_result_from_get res)).

Definition client_exists (self : Client) (id : string) (options : SdkExistsOptions T) : Call ExistsResult :=
  with_agent (
    res ← call (agent_get_meta (
      get_meta_options_retry_strategy (retry_of self (SdkExistsOptions.retry_strategy options))
      (get_meta_options_new (str_bytes id) (cl_scope_name self) (cl_collection_name self))));
    mret (exists_result_from res)).

Definition client_get_and_touch (self : Client) (id : string) (expiry : Duration) (options : SdkGetAndTouchOptions T)
    : Call (SdkGetResult DateTime) :=
  with_agent (
    expiry ← seconds_now expiry;
    res ← call (agent_get_and_touch (
      get_and_touch_options_retry_strategy (retry_of self (SdkGetAndTouchOptions.retry_strategy options))
      (get_and_touch_options_new (str_bytes id) (cl_scope_name self) (cl_collection_name self) expiry)));
    mret (get_result_from_get_and_touch res)).

(** The lock time is cast to 32 bits. *)
Definition client_get_and_lock (self : Client) (id : string) (lock_time : Duration) (options : SdkGetAndLockOptions T)
    : Call (SdkGetResult DateTime) :=
  with_agent (
    res ← call (agent_get_and_lock (
      get_and_lock_options_retry_strategy (retry_of self (SdkGetAndLockOptions.retry_strategy options))
      (get_and_lock_options_new (str_bytes id) (cl_scope_name self) (cl_collection_name self)
         (cast_u 32 (as_secs lock_time)))));
    mret (get_result_from_get_and_lock res)).

Definition client_unlock (self : Client) (id : string) (cas : Z) (options : SdkUnlockOptions T) : Call unit :=
  with_agent (
    _ ← call (agent_unlock (
      unlock_options_retry_strategy (retry_of self (SdkUnlockOptions.retry_strategy options))
      (unlock_options_new (str_bytes id) (cl_scope_name self) (cl_collection_name self) cas)));
    mret tt).

Definition client_touch (self : Client) (id : string) (expiry : Duration) (options : SdkTouchOptions T)
    : Call SdkTouchResult :=
  with_agent (
    expiry ← seconds_now expiry;
    result ← call (agent_touch (
      touch_options_retry_strategy (retry_of self (SdkTouchOptions.retry_strategy options))
      (touch_options_new (str_bytes id) (cl_scope_name self) (cl_collection_name self) expiry)));
    mret (touch_result_from result)).

(** *** Sub-document operations *)

Definition lookup_entry (ordered_specs : list LookupInSpec) (i : nat) (x : KvSubDocResult) : option LookupInResultEntry :=
  spec ← ordered_specs !! i;
  Some (mkLookupInResultEntry (KvSubDocResult.value x)
          (Sdk.error_from_memdx from_slice_context <$> KvSubDocResult.err x) (LookupInSpec.op spec)).

Definition client_lookup_in (self : Client) (id : string) (specs : list LookupInSpec) (options : SdkLookupInOptions T)
    : Call SdkLookupInResult :=
  let '(ordered_specs, op_indexes) := reorder_subdoc_ops specs in
  with_agent (
    result ← call (agent_lookup_in (
      lookup_in_options_retry_strategy (retry_of self (SdkLookupInOptions.retry_strategy options))
      (lookup_in_options_flags
         (flag_if (default false (SdkLookupInOptions.access_deleted options)) AccessDeleted 0)
      (lookup_in_options_new (str_bytes id) (cl_scope_name self) (cl_collection_name self)
         (lookup_in_op_from <$> ordered_specs)))));
    entries ← io_lift (in_order (length specs) op_indexes (lookup_entry ordered_specs) (LookupInResult.value result));
    mret (mkSdkLookupInResult (LookupInResult.cas result) entries (LookupInResult.doc_is_deleted result))).

Definition store_flags (access_deleted : option bool) (store_semantics : option StoreSemantics) : Z :=
  let flags := flag_if (default false access_deleted) AccessDeleted 0 in
  match store_semantics with
  | Some StoreSemantics.Insert => Z.lor flags AddDoc
  | Some StoreSemantics.Upsert => Z.lor flags MkDoc
  | _ => flags
  end.

Definition client_mutate_in (self : Client) (id : string) (specs : list MutateInSpec) (options : SdkMutateInOptions T)
    : Call SdkMutateInResult :=
  let '(ordered_specs, op_indexes) := reorder_subdoc_ops specs in
  with_agent (
    ops ← io_lift (mapM mutate_in_op_try_from ordered_specs);
    expiry ← expiry_now (SdkMutateInOptions.expiry options);
    result ← call (agent_mutate_in (
      mutate_in_options_retry_strategy (retry_of self (SdkMutateInOptions.retry_strategy options))
      (mutate_in_options_cas (SdkMutateInOptions.cas options)
      (mutate_in_options_expiry expiry
      (mutate_in_options_preserve_expiry (SdkMutateInOptions.preserve_expiry options)
      (mutate_in_options_flags
         (store_flags (SdkMutateInOptions.access_deleted options) (SdkMutateInOptions.store_semantics options))
      (mutate_in_options_new (str_bytes id) (cl_scope_name self) (cl_collection_name self) ops)))))));
    entries ← io_lift (in_order (length specs) op_indexes (λ _ x, Some (mkMutateInResultEntry (KvSubDocResult.value x)))
                         (MutateInResult.value result));
    mret (mkSdkMutateInResult (MutateInResult.cas result)
            (bucket_token self (MutateInResult.mutation_token result)) entries)).

(** *** Projections *)

(** [x as i64] of an unsigned 64-bit integer. *)
Definition as_i64 (x : Z) : Z := if x <? 2 ^ 63 then x else x - 2 ^ 64.

Definition xattr_get (path : string) : LookupInSpec :=
  lookup_in_spec_get path (Some (get_spec_options_xattr true get_spec_options_new)).

(** The lookups of [get_with_projections]: whether the flags and the whole document are asked
    for, and the specifications. *)
Definition projection_lookups (expiry : option bool) (projections : option (list string))
    : bool * bool * list LookupInSpec :=
  let wants_expiry := bool_decide (expiry = Some true) in
  let num_lookups := length (default [] projections) in
  let with_flags := wants_expiry && (num_lookups =? 0)%nat in
  let num_lookups := if wants_expiry then (num_lookups + 1)%nat else num_lookups in
  let full_lookup := (16 <? num_lookups)%nat || bool_decide (projections = None) in
  (with_flags, full_lookup,
   (if wants_expiry then
      xattr_get "$document.exptime" :: (if with_flags then [xattr_get "$document.flags"] else [])
    else [])
   ++ (if full_lookup then [lookup_in_spec_get "" None]
       else (λ p, lookup_in_spec_get p None) <$> default [] projections)).

(** [v.remove(0)]: panics when there is nothing to remove. *)
Definition remove_first {A} (l : list A) : outcome Sdk.Error (list A) :=
  match l with [] => Panic | _ :: l => Ok l end.

Definition read_int (from_slice_int : list Z → string + Z) (res : SdkLookupInResult) : outcome Sdk.Error Z :=
  lookup_content_as bool_to_vec from_slice_int res 0.

Definition drop_lookup (res : SdkLookupInResult) (specs : list LookupInSpec)
    : outcome Sdk.Error (SdkLookupInResult * list LookupInSpec) :=
  entries ← remove_first (lr_entries res);
  specs ← remove_first specs;
  Ok (mkSdkLookupInResult (lr_cas res) entries (lr_is_deleted res), specs).

(** What is made of the answers. *)
Definition projection_result (expiry : option bool) (projections : option (list string)) (with_flags full_lookup : bool)
    (specs : list LookupInSpec) (res : SdkLookupInResult) : outcome Sdk.Error (SdkGetResult DateTime) :=
  '(expires_at, flags, res, specs) ←
    (if bool_decide (expiry = Some true) then
       expiry ← read_int from_slice_u64 res;
       expires_at ← ok_or (from_timestamp (as_i64 expiry)) (Sdk.other_failure "invalid expiry time returned from server");
       '(res, specs) ← drop_lookup res specs;
       if with_flags then
         flags ← read_int from_slice_u32 res;
         '(res, specs) ← drop_lookup res specs;
         Ok (Some expires_at, flags, res, specs)
       else Ok (Some expires_at, 0, res, specs)
     else Ok (None, 0, res, specs));
  content ← (if full_lookup then build_from_full_doc from_slice to_vec bool_to_vec res projections
             else build_from_subdoc_entries from_slice to_vec specs (lr_entries res));
  Ok (mkSdkGetResult content flags (lr_cas res) expires_at).

Definition get_with_projections (self : Client) (id : string) (options : SdkGetOptions T) : Call (SdkGetResult DateTime) :=
  let expiry := SdkGetOptions.expiry options in
  let projections := SdkGetOptions.projections options in
  let '(with_flags, full_lookup, specs) := projection_lookups expiry projections in
  res ← client_lookup_in self id specs sdk_lookup_in_options_new;
  io_lift (projection_result expiry projections with_flags full_lookup specs res).

Definition client_get (self : Client) (id : string) (options : SdkGetOptions T) : Call (SdkGetResult DateTime) :=
  match SdkGetOptions.expiry options, SdkGetOptions.projections options with
  | None, None => get_direct self id options
  | _, _ => get_with_projections self id options
  end.

End Client.

(** ** Lemmas: results at the positions of their operations *)

Lemma unwrap_all_some {A} (l : list A) : unwrap_all (Some <$> l) = Ok l.
Proof.
  unfold unwrap_all. enough (mapM id (Some <$> l) = Some l) as -> by done.
  induction l as [|a l IH]; [done|]. cbn. cbn in IH. by rewrite IH.
Qed.

Section InOrder.
Context {X A : Type} (idx : list nat) (entry : nat → X → option A) (l : list A).

(** The loop fills the positions of the results with the entries of [l], and keeps the others. *)
Lemma entries_loop_fills results i entries :
  length entries = length l →
  (∀ j x, results !! j = Some x →
     ∃ k a, idx !! (i + j)%nat = Some k ∧ l !! k = Some a ∧ entry (i + j)%nat x = Some a) →
  ∃ es, entries_loop i idx entry results entries = Ok es ∧ length es = length l
    ∧ (∀ k, es !! k = entries !! k ∨ es !! k = Some <$> l !! k)
    ∧ (∀ j k, (j < length results)%nat → idx !! (i + j)%nat = Some k → es !! k = Some <$> l !! k).
Proof.
  revert i entries. induction results as [|x results IH]; intros i entries Hlen Hres.
  { exists entries. split_and!; [done|done|by left|cbn; lia]. }
  destruct (Hres 0%nat x) as (k & a & Hk & Ha & Hx); [done|]. rewrite Nat.add_0_r in *.
  assert (k < length l)%nat as Hkl by by apply lookup_lt_Some in Ha.
  destruct (IH (Datatypes.S i) (<[k := Some a]> entries)) as (es & Hes & Hl & Hent & Hfill).
  { by rewrite length_insert. }
  { intros j y Hj. destruct (Hres (Datatypes.S j) y Hj) as (k' & b & Hb).
    exists k', b. by rewrite <-Nat.add_succ_comm in Hb. }
  assert (es !! k = Some <$> l !! k) as Hset.
  { destruct (Hent k) as [Hm|Hm]; [|done]. rewrite Hm, list_lookup_insert_eq by lia. by rewrite Ha. }
  exists es. split_and!; [|done| |].
  - assert (entries_from_indexes_step i (idx !! i) (entry i x) entries = Ok (<[k:=Some a]> entries)) as Hstep.
    { rewrite Hk, Hx. unfold entries_from_indexes_step. cbn -[Nat.ltb].
      by rewrite (proj2 (Nat.ltb_lt k (length entries))) by lia. }
    cbn -[entries_from_indexes_step]. rewrite Hstep. exact Hes.
  - intros m. destruct (decide (m = k)) as [->|Hne]; [by right|].
    destruct (Hent m) as [Hm|Hm]; [left|by right]. by rewrite Hm, list_lookup_insert_ne.
  - intros [|j] m Hj Hm; [rewrite Nat.add_0_r in Hm; by simplify_eq|].
    apply (Hfill j); [cbn in Hj; lia|]. by rewrite <-Nat.add_succ_comm in Hm.
Qed.

(** Results of which each is the entry of its operation come back in the order of [l]. *)
Lemma in_order_spec results :
  idx ≡ₚ seq 0 (length l) → length results = length l →
  (∀ j k x, results !! j = Some x → idx !! j = Some k → entry j x = l !! k) →
  in_order (length l) idx entry results = Ok l.
Proof.
  intros Hp Hlen Hent. assert (length idx = length l) as Hil by by rewrite Hp, length_seq.
  unfold in_order. destruct (entries_loop_fills results 0 (replicate (length l) None)) as (es & -> & Hl & _ & Hfill).
  { by rewrite length_replicate. }
  { intros j x Hx. destruct (lookup_lt_is_Some_2 idx j) as [k Hk].
    { apply lookup_lt_Some in Hx. lia. }
    destruct (lookup_lt_is_Some_2 l k) as [a Ha].
    { apply list_elem_of_lookup_2 in Hk. rewrite Hp in Hk. apply elem_of_seq in Hk. lia. }
    exists k, a. split_and!; [done..|]. cbn. by rewrite (Hent j k x). }
  cbn. enough (es = Some <$> l) as -> by apply unwrap_all_some.
  apply list_eq. intros k. rewrite list_lookup_fmap.
  destruct (decide (k < length l)%nat) as [Hk|Hk].
  - assert (k ∈ idx) as [j Hj]%list_elem_of_lookup_1 by (rewrite Hp; apply elem_of_seq; lia).
    apply (Hfill j); [apply lookup_lt_Some in Hj; lia|done].
  - rewrite !lookup_ge_None_2 by lia. done.
Qed.

End InOrder.

(** As many operations are sent as there are specifications. *)
Lemma filter_split_length `{SubdocOp X} (ops ordered : list X) :
  ordered = filter (λ o, is_xattr_op o = true) ops ++ filter (λ o, is_xattr_op o = false) ops →
  length ordered = length ops.
Proof.
  intros ->. rewrite length_app. induction ops as [|o ops IH]; [done|].
  destruct (is_xattr_op o) eqn:Ho.
  - rewrite filter_cons_True, filter_cons_False by congruence. cbn. lia.
  - rewrite filter_cons_False, filter_cons_True by congruence. cbn. lia.
Qed.

(** ** Properties *)

(** The lookups of a projection fit the sixteen operations that the server takes, and there is
    always at least one unless an empty list of projections was given. *)
Lemma projection_lookups_fit expiry projections :
  (length (projection_lookups expiry projections).2 ≤ 16)%nat
  ∧ ((projection_lookups expiry projections).2 = [] → projections = Some [] ∧ expiry ≠ Some true).
Proof.
  unfold projection_lookups. cbn [snd].
  destruct (bool_decide_reflect (expiry = Some true)) as [->|He];
    destruct projections as [[|p ps]|]; cbn -[Nat.ltb]; split; try (lia || done);
    case_match eqn:Hb; cbn -[Nat.ltb]; try (done || lia);
    apply Nat.ltb_ge in Hb || (apply orb_false_iff in Hb as [Hb _]; apply Nat.ltb_ge in Hb);
    rewrite ?length_fmap; lia.
Qed.

(** C24. An expiry is never lost or turned into another one: what is sent to the server is a
    non-zero 32-bit number, the seconds of the duration (a duration below a second is one second)
    when it is below the thirty days under which the server reads it as relative, and otherwise
    the moment the duration ends; an expiry that does not fit is an error of the argument. *)
Theorem expiry_to_seconds_bounds now expiry :
  0 ≤ now < 2 ^ 63 → 0 ≤ expiry →
  match expiry_to_seconds now expiry with
  | Ok r =>
      0 < r < 2 ^ 32
      ∧ (as_secs expiry < 30 * 86400 → r = Z.max 1 (as_secs expiry) ∧ r < 30 * 86400)
      ∧ (30 * 86400 ≤ as_secs expiry → r = now + as_secs expiry ∧ 30 * 86400 ≤ r)
  | Err e => 30 * 86400 ≤ as_secs expiry ∧ 2 ^ 32 ≤ now + as_secs expiry ∧ ∃ t, Sdk.kind e = Sdk.InvalidArgument t (Some "expiry")
  | Panic => False
  end.
Proof.
  intros Hn He. unfold expiry_to_seconds, as_millis, as_secs, SECS_IN_DAY, cast_u.
  rewrite (Z.mod_small now) by lia.
  destruct (Z.ltb_spec (expiry / 1000000) 1000) as [Hm|Hm].
  { assert (expiry / 1000000000 < 1); [|lia].
    apply Z.div_lt_upper_bound; [lia|]. pose proof (Z.mul_succ_div_gt expiry 1000000). lia. }
  assert (1 ≤ expiry / 1000000000) as Hs.
  { apply Z.div_le_lower_bound; [lia|]. pose proof (Z.mul_div_le expiry 1000000). lia. }
  set (secs := expiry / 1000000000) in *.
  destruct (Z.ltb_spec secs (24 * 60 * 60 * 30)) as [Hd|Hd].
  - rewrite (proj2 (Z.ltb_lt _ _)) by lia. lia.
  - destruct (Z.ltb_spec (Z.min (now + secs) (2 ^ 64 - 1)) (2 ^ 32)) as [Ht|Ht].
    + rewrite Z.min_l in * by lia. lia.
    + split_and!; [lia|lia|]. eexists. reflexivity.
Qed.

(** *** Answers in the order of the specifications *)

Section Answers.
Context {S T DateTime : Type} `{KvAgent S T}.
Context (from_slice_context : list Z → option ServerErrorContextJson).

(** C22. A lookup gives the answer of each specification at its position, however the operations
    were reordered for the server: over an agent that answers the operations it is sent one by
    one, whatever it answers for each, entry [i] is what it says of specification [i]. *)
Theorem lookup_in_answers_in_order (self : CouchbaseCoreKvClient T) id specs options s s1 s2 cas deleted
    (answer : LookupInOp → KvSubDocResult) :
  get_agent (S:=S) (T:=T) s = (s1, Some true) →
  (∀ options, agent_lookup_in (T:=T) options s1
    = (s2, Some (Ok (LookupInResult.mk (answer <$> LookupInOptions.ops options) cas deleted)))) →
  client_lookup_in from_slice_context self id specs options s
  = (s2, Some (Ok (mkSdkLookupInResult cas
      ((λ spec, let x := answer (lookup_in_op_from spec) in
          mkLookupInResultEntry (KvSubDocResult.value x)
            (Sdk.error_from_memdx from_slice_context <$> KvSubDocResult.err x) (LookupInSpec.op spec)) <$> specs)
      deleted))).
Proof.
  intros Hg Ha. pose proof (reorder_subdoc_ops_spec specs) as Hr.
  unfold client_lookup_in. destruct (reorder_subdoc_ops specs) as [ordered idx].
  destruct Hr as (Hlen%filter_split_length & Hp & Hord).
  unfold with_agent. rewrite Hg. unfold mbind, io_bind, call, io_map_err at 1.
  rewrite Ha. cbn [fmap option_fmap option_map map_err LookupInResult.value].
  set (l := _ <$> specs).
  replace (length specs) with (length l) by apply length_fmap.
  unfold io_lift. rewrite (in_order_spec idx _ l).
  - done.
  - unfold l. by rewrite length_fmap.
  - unfold l. cbn. by rewrite !length_fmap.
  - intros j k x Hx Hk. unfold l. cbn in Hx. rewrite !list_lookup_fmap in *.
    specialize (Hord j k Hk). unfold lookup_entry. rewrite Hord in *.
    destruct (specs !! k) as [spec|]; [|done]. cbn in Hx. by simplify_eq.
Qed.

(** A mutation of a sub-document is sent without the durability that was asked for. *)
Lemma mutate_in_ignores_durability (now : S → Z) (self : CouchbaseCoreKvClient T) id specs options level :
  client_mutate_in from_slice_context now self id specs (options <| SdkMutateInOptions.durability_level := level |>)
  = client_mutate_in from_slice_context now self id specs options.
Proof. by destruct options. Qed.

Context (from_slice : list Z → string + Value) (to_vec : Value → string + list Z)
  (bool_to_vec : bool → string + list Z) (from_slice_u64 from_slice_u32 : list Z → string + Z) (from_timestamp : Z → option DateTime).

(** Asking not to be told the expiry loses the flags of the document, which are then read as
    those of a document of no known format. *)
Lemma get_expiry_false_loses_flags (self : CouchbaseCoreKvClient T) id options s s' r :
  SdkGetOptions.expiry options = Some false →
  client_get from_slice_context from_slice to_vec bool_to_vec from_slice_u64 from_slice_u32 from_timestamp self id options s
    = (s', Some (Ok r)) →
  gr_flags r = 0.
Proof.
  intros He. unfold client_get. rewrite He. unfold get_with_projections. rewrite He.
  destruct (projection_lookups _ _) as [[with_flags full] specs]. unfold mbind at 1, io_bind.
  destruct (client_lookup_in _ _ _ _ _ s) as [s1 [[res|e| ]|]]; try done.
  unfold io_lift, projection_result. rewrite bool_decide_false by done. cbn.
  destruct (if full then _ else _); cbn; [|done..]. by intros [= <- <-].
Qed.

End Answers.

(** *** Witnesses *)

Lemma expiry_to_seconds_bounds_witness :
  0 ≤ 1760000000 < 2 ^ 63 ∧ 0 ≤ 30 * 86400 * 1000000000
  ∧ match expiry_to_seconds 1760000000 (30 * 86400 * 1000000000) with
    | Ok r =>
        0 < r < 2 ^ 32
        ∧ (as_secs (30 * 86400 * 1000000000) < 30 * 86400
             → r = Z.max 1 (as_secs (30 * 86400 * 1000000000)) ∧ r < 30 * 86400)
        ∧ (30 * 86400 ≤ as_secs (30 * 86400 * 1000000000)
             → r = 1760000000 + as_secs (30 * 86400 * 1000000000) ∧ 30 * 86400 ≤ r)
    | Err e => 30 * 86400 ≤ as_secs (30 * 86400 * 1000000000)
               ∧ 2 ^ 32 ≤ 1760000000 + as_secs (30 * 86400 * 1000000000)
               ∧ ∃ t, Sdk.kind e = Sdk.InvalidArgument t (Some "expiry")
    | Panic => False
    end.
Proof.
  split; [lia|]. split; [lia|].
  apply (expiry_to_seconds_bounds 1760000000 (30 * 86400 * 1000000000)); lia.
Defined.

Example month_is_absolute : expiry_to_seconds 1760000000 (30 * 86400 * 1000000000) = Ok 1762592000.
Proof. reflexivity. Qed.
Example less_than_a_month_is_relative : expiry_to_seconds 1760000000 (29 * 86400 * 1000000000) = Ok 2505600.
Proof. reflexivity. Qed.
Example part_of_a_second_is_a_second : expiry_to_seconds 1760000000 1 = Ok 1.
Proof. reflexivity. Qed.

(** An agent that answers every lookup with the path it was sent. *)
Definition sample_answer (op : LookupInOp) : KvSubDocResult :=
  KvSubDocResult.mk None (Some (LookupInOp.path op)).

Definition no_answer {S A} : action S A := λ s, (s, None).

#[local] Instance sample_agent : KvAgent nat unit := {
  get_agent s := (s, Some true);
  agent_upsert _ := no_answer; agent_add _ := no_answer; agent_replace _ := no_answer;
  agent_delete _ := no_answer; agent_get _ := no_answer; agent_get_meta _ := no_answer;
  agent_get_and_touch _ := no_answer; agent_get_and_lock _ := no_answer; agent_unlock _ := no_answer;
  agent_touch _ := no_answer; agent_append _ := no_answer; agent_prepend _ := no_answer;
  agent_increment _ := no_answer; agent_decrement _ := no_answer;
  agent_lookup_in o := λ s, (Datatypes.S s, Some (Ok (LookupInResult.mk (sample_answer <$> LookupInOptions.ops o) 7 false)));
  agent_mutate_in _ := no_answer;
}.

Definition sample_client : CouchbaseCoreKvClient unit := mkCouchbaseCoreKvClient "b" "_default" "_default" tt.
Definition sample_specs : list LookupInSpec := [lookup_in_spec_get "a" None; xattr_get "x"; lookup_in_spec_exists "b" None].

Lemma lookup_in_answers_in_order_witness :
  client_lookup_in (λ _, None) sample_client "id" sample_specs sdk_lookup_in_options_new 0%nat
  = (1%nat, Some (Ok (mkSdkLookupInResult 7
      [mkLookupInResultEntry (Some (str_bytes "a")) None SdkLookupInOpType.Get;
       mkLookupInResultEntry (Some (str_bytes "x")) None SdkLookupInOpType.Get;
       mkLookupInResultEntry (Some (str_bytes "b")) None SdkLookupInOpType.Exists_] false))).
Proof.
  rewrite (lookup_in_answers_in_order (λ _, None) sample_client "id" sample_specs sdk_lookup_in_options_new
             0%nat 0%nat 1%nat 7 false sample_answer); reflexivity.
Defined.
