(* ===== verification/Collection.v ===== *)
(** * Collections of the public crate ([couchbase/src/collection_crud.rs])

    The client of a collection chooses the backend ([couchbase/src/clients/core_kv_client.rs]);
    a [Collection] and a [BinaryCollection] pass their calls on, with default options and with
    JSON as the encoding of values ([collection.rs], [collection_binary_crud.rs]). *)

From S2P Require Import Prelude Text Json Wire MemdError CoreError Requests Retry CrudOptions Http.
From S2P Require Import FacadeError SdkOptions SubdocSpecs MutationState KvResults Projection SdkKvClient.

(** ** The client of the backend *)

Inductive CoreKvClientBackend (T : Type) : Type :=
| CouchbaseCoreKvClientBackend (client : CouchbaseCoreKvClient T)
| Couchbase2CoreKvClientBackend.
#[global] Arguments CouchbaseCoreKvClientBackend {T}.
#[global] Arguments Couchbase2CoreKvClientBackend {T}.

Record CoreKvClient (T : Type) : Type := mkCoreKvClient { backend : CoreKvClientBackend T }.
#[global] Arguments mkCoreKvClient {T}.
#[global] Arguments backend {T}.

(** The name and the clients of the other services are not modelled. *)
Record Collection (T : Type) : Type := mkCollection { col_core_kv_client : CoreKvClient T }.
#[global] Arguments mkCollection {T}.
#[global] Arguments col_core_kv_client {T}.

Record BinaryCollection (T : Type) : Type := mkBinaryCollection { bc_core_kv_client : CoreKvClient T }.
#[global] Arguments mkBinaryCollection {T}.
#[global] Arguments bc_core_kv_client {T}.

Definition binary {T} (self : Collection T) : BinaryCollection T := mkBinaryCollection (col_core_kv_client self).

Section Dispatch.
Context {S T DateTime : Type} `{KvAgent S T}.
Context (from_slice_context : list Z → option ServerErrorContextJson) (now : S → Z).
Context (from_slice : list Z → string + Value) (to_vec : Value → string + list Z)
  (bool_to_vec : bool → string + list Z) (from_slice_u64 from_slice_u32 : list Z → string + Z).
Context (from_timestamp : Z → option DateTime).

Abbreviation Call A := (io S Sdk.Error A).
Abbreviation CoreKvClient := (CoreKvClient T).

(** *** The other backend: [unimplemented!()] *)

Definition couchbase2_upsert (_id : string) (_value : list Z) (_flags : Z) (_options : SdkUpsertOptions T)
    : Call MutationResult := io_lift Panic.
Definition couchbase2_insert (_id : string) (_value : list Z) (_flags : Z) (_options : SdkInsertOptions T)
    : Call MutationResult := io_lift Panic.
Definition couchbase2_replace (_id : string) (_value : list Z) (_flags : Z) (_options : SdkReplaceOptions T)
    : Call MutationResult := io_lift Panic.
Definition couchbase2_remove (_id : string) (_options : SdkRemoveOptions T) : Call MutationResult := io_lift Panic.
Definition couchbase2_get (_id : string) (_options : SdkGetOptions T)
    : Call (SdkGetResult DateTime) := io_lift Panic.
Definition couchbase2_exists (_id : string) (_options : SdkExistsOptions T) : Call ExistsResult := io_lift Panic.
Definition couchbase2_get_and_touch (_id : string) (_expiry : Duration) (_options : SdkGetAndTouchOptions T)
    : Call (SdkGetResult DateTime) := io_lift Panic.
Definition couchbase2_get_and_lock (_id : string) (_lock_time : Duration) (_options : SdkGetAndLockOptions T)
    : Call (SdkGetResult DateTime) := io_lift Panic.
Definition couchbase2_unlock (_id : string) (_cas : Z) (_options : SdkUnlockOptions T)
    : Call unit := io_lift Panic.
Definition couchbase2_touch (_id : string) (_expiry : Duration) (_options : SdkTouchOptions T)
    : Call SdkTouchResult := io_lift Panic.
Definition couchbase2_append (_id : string) (_value : list Z) (_options : SdkAppendOptions T)
    : Call MutationResult := io_lift Panic.
Definition couchbase2_prepend (_id : string) (_value : list Z) (_options : SdkPrependOptions T)
    : Call MutationResult := io_lift Panic.
Definition couchbase2_increment (_id : string) (_options : SdkIncrementOptions T)
    : Call CounterResult := io_lift Panic.
Definition couchbase2_decrement (_id : string) (_options : SdkDecrementOptions T)
    : Call CounterResult := io_lift Panic.
Definition couchbase2_lookup_in (_id : string) (_specs : list LookupInSpec) (_options : SdkLookupInOptions T)
    : Call SdkLookupInResult := io_lift Panic.
Definition couchbase2_mutate_in (_id : string) (_specs : list MutateInSpec) (_options : SdkMutateInOptions T)
    : Call SdkMutateInResult := io_lift Panic.

(** *** Choosing the backend *)

Definition core_upsert (self : CoreKvClient) (id : string) (value : list Z) (flags : Z)
    (options : SdkUpsertOptions T) : Call MutationResult :=
  match backend self with
  | CouchbaseCoreKvClientBackend client => client_upsert from_slice_context now client id value flags options
  | Couchbase2CoreKvClientBackend => couchbase2_upsert id value flags options
  end.

Definition core_insert (self : CoreKvClient) (id : string) (value : list Z) (flags : Z)
    (options : SdkInsertOptions T) : Call MutationResult :=
  match backend self with
  | CouchbaseCoreKvClientBackend client => client_insert from_slice_context now client id value flags options
  | Couchbase2CoreKvClientBackend => couchbase2_insert id value flags options
  end.

Definition core_replace (self : CoreKvClient) (id : string) (value : list Z) (flags : Z)
    (options : SdkReplaceOptions T) : Call MutationResult :=
  match backend self with
  | CouchbaseCoreKvClientBackend client => client_replace from_slice_context now client id value flags options
  | Couchbase2CoreKvClientBackend => couchbase2_replace id value flags options
  end.

Definition core_remove (self : CoreKvClient) (id : string) (options : SdkRemoveOptions T)
    : Call MutationResult :=
  match backend self with
  | CouchbaseCoreKvClientBackend client => client_remove from_slice_context client id options
  | Couchbase2CoreKvClientBackend => couchbase2_remove id options
  end.

Definition core_get (self : CoreKvClient) (id : string) (options : SdkGetOptions T)
    : Call (SdkGetResult DateTime) :=
  match backend self with
  | CouchbaseCoreKvClientBackend client => client_get from_slice_context from_slice to_vec bool_to_vec from_slice_u64 from_slice_u32 from_timestamp
      client id options
  | Couchbase2CoreKvClientBackend => couchbase2_get id options
  end.

Definition core_exists (self : CoreKvClient) (id : string) (options : SdkExistsOptions T)
    : Call ExistsResult :=
  match backend self with
  | CouchbaseCoreKvClientBackend client => client_exists from_slice_context client id options
  | Couchbase2CoreKvClientBackend => couchbase2_exists id options
  end.

Definition core_get_and_touch (self : CoreKvClient) (id : string) (expiry : Duration)
    (options : SdkGetAndTouchOptions T) : Call (SdkGetResult DateTime) :=
  match backend self with
  | CouchbaseCoreKvClientBackend client => client_get_and_touch from_slice_context now client id expiry options
  | Couchbase2CoreKvClientBackend => couchbase2_get_and_touch id expiry options
  end.

Definition core_get_and_lock (self : CoreKvClient) (id : string) (lock_time : Duration)
    (options : SdkGetAndLockOptions T) : Call (SdkGetResult DateTime) :=
  match backend self with
  | CouchbaseCoreKvClientBackend client => client_get_and_lock from_slice_context client id lock_time options
  | Couchbase2CoreKvClientBackend => couchbase2_get_and_lock id lock_time options
  end.

Definition core_unlock (self : CoreKvClient) (id : string) (cas : Z) (options : SdkUnlockOptions T)
    : Call unit :=
  match backend self with
  | CouchbaseCoreKvClientBackend client => client_unlock from_slice_context client id cas options
  | Couchbase2CoreKvClientBackend => couchbase2_unlock id cas options
  end.

Definition core_touch (self : CoreKvClient) (id : string) (expiry : Duration) (options : SdkTouchOptions T)
    : Call SdkTouchResult :=
  match backend self with
  | CouchbaseCoreKvClientBackend client => client_touch from_slice_context now client id expiry options
  | Couchbase2CoreKvClientBackend => couchbase2_touch id expiry options
  end.

Definition core_append (self : CoreKvClient) (id : string) (value : list Z) (options : SdkAppendOptions T)
    : Call MutationResult :=
  match backend self with
  | CouchbaseCoreKvClientBackend client => client_append from_slice_context client id value options
  | Couchbase2CoreKvClientBackend => couchbase2_append id value options
  end.

Definition core_prepend (self : CoreKvClient) (id : string) (value : list Z) (options : SdkPrependOptions T)
    : Call MutationResult :=
  match backend self with
  | CouchbaseCoreKvClientBackend client => client_prepend from_slice_context client id value options
  | Couchbase2CoreKvClientBackend => couchbase2_prepend id value options
  end.

Definition core_increment (self : CoreKvClient) (id : string) (options : SdkIncrementOptions T)
    : Call CounterResult :=
  match backend self with
  | CouchbaseCoreKvClientBackend client => client_increment from_slice_context now client id options
  | Couchbase2CoreKvClientBackend => couchbase2_increment id options
  end.

Definition core_decrement (self : CoreKvClient) (id : string) (options : SdkDecrementOptions T)
    : Call CounterResult :=
  match backend self with
  | CouchbaseCoreKvClientBackend client => client_decrement from_slice_context now client id options
  | Couchbase2CoreKvClientBackend => couchbase2_decrement id options
  end.

Definition core_lookup_in (self : CoreKvClient) (id : string) (specs : list LookupInSpec)
    (options : SdkLookupInOptions T) : Call SdkLookupInResult :=
  match backend self with
  | CouchbaseCoreKvClientBackend client => client_lookup_in from_slice_context client id specs options
  | Couchbase2CoreKvClientBackend => couchbase2_lookup_in id specs options
  end.

Definition core_mutate_in (self : CoreKvClient) (id : string) (specs : list MutateInSpec)
    (options : SdkMutateInOptions T) : Call SdkMutateInResult :=
  match backend self with
  | CouchbaseCoreKvClientBackend client => client_mutate_in from_slice_context now client id specs options
  | Couchbase2CoreKvClientBackend => couchbase2_mutate_in id specs options
  end.

(** *** The public operations *)

Definition collection_upsert_raw (self : Collection T) (id : string) (value : list Z) (flags : Z)
    (options : option (SdkUpsertOptions T)) : Call MutationResult :=
  core_upsert (col_core_kv_client self) id value flags (default sdk_upsert_options_new options).

Definition collection_upsert {V} (encode : V → string + list Z) (self : Collection T) (id : string) (value : V)
   
    (options : option (SdkUpsertOptions T)) : Call MutationResult :=
  '(value, flags) ← io_lift (json_encode encode value);
  collection_upsert_raw self id value flags options.

Definition collection_insert_raw (self : Collection T) (id : string) (value : list Z) (flags : Z)
    (options : option (SdkInsertOptions T)) : Call MutationResult :=
  core_insert (col_core_kv_client self) id value flags (default sdk_insert_options_new options).

Definition collection_insert {V} (encode : V → string + list Z) (self : Collection T) (id : string) (value : V)
   
    (options : option (SdkInsertOptions T)) : Call MutationResult :=
  '(value, flags) ← io_lift (json_encode encode value);
  collection_insert_raw self id value flags options.

Definition collection_replace_raw (self : Collection T) (id : string) (value : list Z) (flags : Z)
    (options : option (SdkReplaceOptions T)) : Call MutationResult :=
  core_replace (col_core_kv_client self) id value flags (default sdk_replace_options_new options).

Definition collection_replace {V} (encode : V → string + list Z) (self : Collection T) (id : string) (value : V)
   
    (options : option (SdkReplaceOptions T)) : Call MutationResult :=
  '(value, flags) ← io_lift (json_encode encode value);
  collection_replace_raw self id value flags options.

Definition collection_remove (self : Collection T) (id : string) (options : option (SdkRemoveOptions T))
    : Call MutationResult :=
  core_remove (col_core_kv_client self) id (default sdk_remove_options_new options).

Definition collection_get (self : Collection T) (id : string) (options : option (SdkGetOptions T))
    : Call (SdkGetResult DateTime) :=
  core_get (col_core_kv_client self) id (default sdk_get_options_new options).

Definition collection_exists (self : Collection T) (id : string) (options : option (SdkExistsOptions T))
    : Call ExistsResult :=
  core_exists (col_core_kv_client self) id (default sdk_exists_options_new options).

Definition collection_get_and_touch (self : Collection T) (id : string) (expiry : Duration)
    (options : option (SdkGetAndTouchOptions T)) : Call (SdkGetResult DateTime) :=
  core_get_and_touch (col_core_kv_client self) id expiry (default sdk_get_and_touch_options_new options).

Definition collection_get_and_lock (self : Collection T) (id : string) (lock_time : Duration)
    (options : option (SdkGetAndLockOptions T)) : Call (SdkGetResult DateTime) :=
  core_get_and_lock (col_core_kv_client self) id lock_time (default sdk_get_and_lock_options_new options).

Definition collection_unlock (self : Collection T) (id : string) (cas : Z) (options : option (SdkUnlockOptions T))
    : Call unit :=
  core_unlock (col_core_kv_client self) id cas (default sdk_unlock_options_new options).

Definition collection_touch (self : Collection T) (id : string) (expiry : Duration)
    (options : option (SdkTouchOptions T)) : Call SdkTouchResult :=
  core_touch (col_core_kv_client self) id expiry (default sdk_touch_options_new options).

Definition binary_collection_append (self : BinaryCollection T) (id : string) (value : list Z)
    (options : option (SdkAppendOptions T)) : Call MutationResult :=
  core_append (bc_core_kv_client self) id value (default sdk_append_options_new options).

Definition binary_collection_prepend (self : BinaryCollection T) (id : string) (value : list Z)
    (options : option (SdkPrependOptions T)) : Call MutationResult :=
  core_prepend (bc_core_kv_client self) id value (default sdk_prepend_options_new options).

Definition binary_collection_increment (self : BinaryCollection T) (id : string)
    (options : option (SdkIncrementOptions T)) : Call CounterResult :=
  core_increment (bc_core_kv_client self) id (default sdk_increment_options_new options).

Definition binary_collection_decrement (self : BinaryCollection T) (id : string)
    (options : option (SdkDecrementOptions T)) : Call CounterResult :=
  core_decrement (bc_core_kv_client self) id (default sdk_decrement_options_new options).

Definition collection_lookup_in (self : Collection T) (id : string) (specs : list LookupInSpec)
    (options : option (SdkLookupInOptions T)) : Call SdkLookupInResult :=
  core_lookup_in (col_core_kv_client self) id specs (default sdk_lookup_in_options_new options).

Definition collection_mutate_in (self : Collection T) (id : string) (specs : list MutateInSpec)
    (options : option (SdkMutateInOptions T)) : Call SdkMutateInResult :=
  core_mutate_in (col_core_kv_client self) id specs (default sdk_mutate_in_options_new options).

End Dispatch.
