(* ===== verification/DataStructures.v ===== *)
(** * Data structures over a document ([couchbase/src/collection_ds.rs])

    A [CouchbaseList], [CouchbaseMap], [CouchbaseSet] and [CouchbaseQueue] is a collection and the
    id of a document that holds an array or an object.  What they use of the collection is the
    interface [DocumentOps]; [Collection.v] implements it.

    [CouchbaseSet::remove] and [CouchbaseQueue::pop] read the document, then remove under the
    version they read, and try again when another client was faster.  [AtomicVersions] states what
    the server promises of versions; over it both are atomic. *)

From S2P Require Import Prelude Json CoreError Requests Retry Http.
From S2P Require Import FacadeError SdkOptions SubdocSpecs MutationState KvResults SdkKvClient Collection.

Class DocumentOps (S T DateTime : Type) : Type := {
  doc_get : string → option (SdkGetOptions T) → io S Sdk.Error (SdkGetResult DateTime);
  doc_lookup_in : string → list LookupInSpec → option (SdkLookupInOptions T) → io S Sdk.Error SdkLookupInResult;
  doc_mutate_in : string → list MutateInSpec → option (SdkMutateInOptions T) → io S Sdk.Error SdkMutateInResult;
  doc_remove : string → option (SdkRemoveOptions T) → io S Sdk.Error MutationResult;
}.

Section Collection.
Context {S T DateTime : Type} `{KvAgent S T}.
Context (from_slice_context : list Z → option ServerErrorContextJson) (now : S → Z).
Context (from_slice : list Z → string + Value) (to_vec : Value → string + list Z)
  (bool_to_vec : bool → string + list Z) (from_slice_u64 from_slice_u32 : list Z → string + Z).
Context (from_timestamp : Z → option DateTime) (self : Collection T).

(** A collection is where the documents are. *)
Definition collection_documents : DocumentOps S T DateTime := {|
  doc_get := collection_get from_slice_context from_slice to_vec bool_to_vec from_slice_u64 from_slice_u32 from_timestamp self;
  doc_lookup_in := collection_lookup_in from_slice_context self;
  doc_mutate_in := collection_mutate_in from_slice_context now self;
  doc_remove := collection_remove from_slice_context self;
|}.
End Collection.

(** ** The structures

    The collection that each one holds is the instance of [DocumentOps]. *)

Record CouchbaseList (T : Type) : Type := mkCouchbaseList { list_id : string; list_options : SdkCouchbaseListOptions T }.
Record CouchbaseMap (T : Type) : Type := mkCouchbaseMap { map_id : string; map_options : SdkCouchbaseMapOptions T }.
Record CouchbaseSet (T : Type) : Type := mkCouchbaseSet { set_id : string; set_options : SdkCouchbaseSetOptions T }.
Record CouchbaseQueue (T : Type) : Type :=
  mkCouchbaseQueue { queue_id : string; queue_options : SdkCouchbaseQueueOptions T }.
#[global] Arguments mkCouchbaseList {T}. #[global] Arguments list_id {T}. #[global] Arguments list_options {T}.
#[global] Arguments mkCouchbaseMap {T}. #[global] Arguments map_id {T}. #[global] Arguments map_options {T}.
#[global] Arguments mkCouchbaseSet {T}. #[global] Arguments set_id {T}. #[global] Arguments set_options {T}.
#[global] Arguments mkCouchbaseQueue {T}. #[global] Arguments queue_id {T}. #[global] Arguments queue_options {T}.

Definition collection_list {T} (id : string) (options : option (SdkCouchbaseListOptions T)) : CouchbaseList T :=
  mkCouchbaseList id (default sdk_couchbase_list_options_new options).
Definition collection_map {T} (id : string) (options : option (SdkCouchbaseMapOptions T)) : CouchbaseMap T :=
  mkCouchbaseMap id (default sdk_couchbase_map_options_new options).
Definition collection_set {T} (id : string) (options : option (SdkCouchbaseSetOptions T)) : CouchbaseSet T :=
  mkCouchbaseSet id (default sdk_couchbase_set_options_new options).
Definition collection_queue {T} (id : string) (options : option (SdkCouchbaseQueueOptions T)) : CouchbaseQueue T :=
  mkCouchbaseQueue id (default sdk_couchbase_queue_options_new options).

(** [format!("[{index}]")]. *)
Definition index_path (index : Z) : string := "[" +:+ show index +:+ "]".

(** The index of the last item that is the value. *)
Fixpoint last_index {V} (eqb : V → V → bool) (value : V) (i : nat) (contents : list V) : option nat :=
  match contents with
  | [] => None
  | item :: contents =>
      match last_index eqb value (Datatypes.S i) contents with
      | Some index => Some index
      | None => if eqb item value then Some i else None
      end
  end.

Fixpoint first_index {V} (eqb : V → V → bool) (value : V) (i : nat) (contents : list V) : option nat :=
  match contents with
  | [] => None
  | item :: contents => if eqb item value then Some i else first_index eqb value (Datatypes.S i) contents
  end.

Section Structures.
Context {S T DateTime V : Type} `{DocumentOps S T DateTime}.
(** [serde_json] at the type of the items, at lists and maps of them, at [usize] and [bool]. *)
Context (list_from_slice : list Z → string + list V) (item_from_slice : list Z → string + V)
  (map_from_slice : list Z → string + gmap string V) (usize_from_slice : list Z → string + Z)
  (bool_to_vec : bool → string + list Z) (to_vec : V → string + list Z) (slice_to_vec : list V → string + list Z).
(** [PartialEq] of the items. *)
Context (eqb : V → V → bool).

Abbreviation Call A := (io S Sdk.Error A).

Definition read_list (id : string) : Call (list V) :=
  res ← doc_get (T:=T) (DateTime:=DateTime) id None; io_lift (get_content_as list_from_slice res).
Definition read_map (id : string) : Call (gmap string V) :=
  res ← doc_get (T:=T) (DateTime:=DateTime) id None; io_lift (get_content_as map_from_slice res).

Definition lookup_one (id : string) (spec : LookupInSpec) : Call SdkLookupInResult :=
  doc_lookup_in (T:=T) (DateTime:=DateTime) id [spec] None.
Definition lookup_item (id path : string) : Call V :=
  res ← lookup_one id (lookup_in_spec_get path None); io_lift (lookup_content_as bool_to_vec item_from_slice res 0).
Definition count_items (id : string) : Call Z :=
  res ← lookup_one id (lookup_in_spec_count "" None); io_lift (lookup_content_as bool_to_vec usize_from_slice res 0).

Definition upsert_semantics : option (SdkMutateInOptions T) :=
  Some (sdk_mutate_in_options_store_semantics StoreSemantics.Upsert sdk_mutate_in_options_new).
Definition mutate_one (id : string) (spec : MutateInSpec) (options : option (SdkMutateInOptions T))
    : Call SdkMutateInResult := doc_mutate_in (DateTime:=DateTime) id [spec] options.
(** A mutation of which nothing is returned. *)
Definition mutate_with (id : string) (spec : outcome Sdk.Error MutateInSpec) (options : option (SdkMutateInOptions T))
    : Call unit :=
  spec ← io_lift spec; _ ← mutate_one id spec options; mret tt.

Definition clear_document (id : string) : Call unit := _ ← doc_remove (T:=T) (DateTime:=DateTime) id None; mret tt.

(** *** Lists *)

Definition list_iter (self : CouchbaseList T) : Call (list V) := read_list (list_id self).
Definition list_get (self : CouchbaseList T) (index : Z) : Call V := lookup_item (list_id self) (index_path index).
Definition list_remove (self : CouchbaseList T) (index : Z) : Call unit :=
  mutate_with (list_id self) (Ok (spec_remove (index_path index) None)) None.
Definition list_append (self : CouchbaseList T) (value : V) : Call unit :=
  mutate_with (list_id self) (array_append slice_to_vec "" [value] None) upsert_semantics.
Definition list_prepend (self : CouchbaseList T) (value : V) : Call unit :=
  mutate_with (list_id self) (array_prepend slice_to_vec "" [value] None) upsert_semantics.
Definition list_position (self : CouchbaseList T) (value : V) : Call Z :=
  list_contents ← read_list (list_id self);
  mret (match first_index eqb value 0 list_contents with Some i => Z.of_nat i | None => -1 end).
Definition list_len (self : CouchbaseList T) : Call Z := count_items (list_id self).
Definition list_clear (self : CouchbaseList T) : Call unit := clear_document (list_id self).

(** *** Maps

    The entries of a [HashMap] come in no particular order. *)

Definition map_iter (self : CouchbaseMap T) : Call (gmap string V) := read_map (map_id self).
Definition map_get_item (self : CouchbaseMap T) (id : string) : Call V := lookup_item (map_id self) id.
Definition map_insert_item (self : CouchbaseMap T) (id : string) (value : V) : Call unit :=
  mutate_with (map_id self) (spec_upsert to_vec id value None) upsert_semantics.
Definition map_remove_item (self : CouchbaseMap T) (id : string) : Call unit :=
  mutate_with (map_id self) (Ok (spec_remove id None)) None.
Definition map_contains_key (self : CouchbaseMap T) (id : string) : Call bool :=
  res ← lookup_one (map_id self) (lookup_in_spec_exists id None); io_lift (lookup_exists res 0).
Definition map_len (self : CouchbaseMap T) : Call Z := count_items (map_id self).
Definition map_keys (self : CouchbaseMap T) : Call (list string) :=
  map_contents ← read_map (map_id self); mret (map_to_list map_contents).*1.
Definition map_values (self : CouchbaseMap T) : Call (list V) :=
  map_contents ← read_map (map_id self); mret (map_to_list map_contents).*2.
Definition map_clear (self : CouchbaseMap T) : Call unit := clear_document (map_id self).

(** *** The versioned removals *)

Definition retries_exhausted : Sdk.Error := Sdk.other_failure "failed to perform operation after 16 retries".

(** [DocumentExists | CasMismatch => continue]. *)
Definition lost_race (e : Sdk.Error) : bool :=
  match Sdk.kind e with Sdk.DocumentExists | Sdk.CasMismatch => true | _ => false end.

(** The removal of a path under a version: on a lost race, [retry]. *)
Definition remove_under {A} (id path : string) (cas : Z) (done : A) (retry : Call A) : Call A := λ s,
  match mutate_one id (spec_remove path None) (Some (sdk_mutate_in_options_cas cas sdk_mutate_in_options_new)) s with
  | (s, Some (Ok _)) => (s, Some (Ok done))
  | (s, Some (Err e)) => if lost_race e then retry s else (s, Some (Err e))
  | (s, Some Panic) => (s, Some Panic)
  | (s, None) => (s, None)
  end.

(** *** Sets *)

Definition set_iter (self : CouchbaseSet T) : Call (list V) := read_list (set_id self).
(** Whether the value was added: a value that is there already is no error. *)
Definition added (m : Call SdkMutateInResult) : Call bool := λ s,
  match m s with
  | (s, Some (Ok _)) => (s, Some (Ok true))
  | (s, Some (Err e)) => (s, Some (match Sdk.kind e with Sdk.PathExists => Ok false | _ => Err e end))
  | (s, Some Panic) => (s, Some Panic)
  | (s, None) => (s, None)
  end.
Definition set_insert (self : CouchbaseSet T) (value : V) : Call bool :=
  spec ← io_lift (array_add_unique to_vec "" value None);
  added (mutate_one (set_id self) spec upsert_semantics).

Fixpoint set_remove_loop (tries : nat) (id : string) (value : V) : Call unit :=
  match tries with
  | 0%nat => io_fail retries_exhausted
  | Datatypes.S tries =>
      items ← doc_get (T:=T) (DateTime:=DateTime) id None;
      set_contents ← io_lift (get_content_as list_from_slice items);
      match last_index eqb value 0 set_contents with
      | Some index =>
          remove_under id (index_path (Z.of_nat index)) (gr_cas items) tt (set_remove_loop tries id value)
      | None => mret tt
      end
  end.
Definition set_remove (self : CouchbaseSet T) (value : V) : Call unit := set_remove_loop 16 (set_id self) value.

Definition set_values (self : CouchbaseSet T) : Call (list V) := read_list (set_id self).
Definition set_contains (self : CouchbaseSet T) (value : V) : Call bool :=
  set_contents ← read_list (set_id self); mret (existsb (λ item, eqb item value) set_contents).
Definition set_len (self : CouchbaseSet T) : Call Z := count_items (set_id self).
Definition set_clear (self : CouchbaseSet T) : Call unit := clear_document (set_id self).

(** *** Queues *)

Definition queue_iter (self : CouchbaseQueue T) : Call (list V) :=
  list_contents ← read_list (queue_id self); mret (reverse list_contents).
Definition queue_push (self : CouchbaseQueue T) (value : V) : Call unit :=
  mutate_with (queue_id self) (array_prepend slice_to_vec "" [value] None) upsert_semantics.

Fixpoint queue_pop_loop (tries : nat) (id : string) : Call V :=
  match tries with
  | 0%nat => io_fail retries_exhausted
  | Datatypes.S tries =>
      res ← lookup_one id (lookup_in_spec_get "[-1]" None);
      value ← io_lift (lookup_content_as bool_to_vec item_from_slice res 0);
      remove_under id "[-1]" (lr_cas res) value (queue_pop_loop tries id)
  end.
Definition queue_pop (self : CouchbaseQueue T) : Call V := queue_pop_loop 16 (queue_id self).

Definition queue_len (self : CouchbaseQueue T) : Call Z := count_items (queue_id self).
Definition queue_clear (self : CouchbaseQueue T) : Call unit := clear_document (queue_id self).

End Structures.

(** ** Versions of the document

    [history] is the sequence of the versions of the document that a state of the world has seen,
    oldest first.  Other clients may add versions before and after each operation takes effect. *)

Record Version (V : Type) : Type := mkVersion { v_cas : Z; v_items : list V }.
#[global] Arguments mkVersion {V}.
#[global] Arguments v_cas {V}.
#[global] Arguments v_items {V}.

Section Versions.
Context {S V : Type} (history : S → list (Version V)).

(** The version was the current one at some moment between the two states. *)
Definition current_between (s s' : S) (v : Version V) : Prop :=
  ∃ h1 h2, history s' = h1 ++ v :: h2 ∧ (length (history s) ≤ Datatypes.S (length h1))%nat.

(** Between the two states, the item at the index of the version was removed, and only that. *)
Definition removed_between (s s' : S) (v : Version V) (i : nat) : Prop :=
  ∃ h1 v' h2, history s' = h1 ++ v :: v' :: h2 ∧ (length (history s) ≤ Datatypes.S (length h1))%nat
    ∧ v_items v' = delete i (v_items v).

(** What the server promises of the versions of an array document. *)
Class AtomicVersions {T DateTime : Type} `{DocumentOps S T DateTime} (id : string)
    (list_from_slice : list Z → string + list V) (item_from_slice : list Z → string + V)
    (bool_to_vec : bool → string + list Z) : Prop := {
  (** Each version has a CAS of its own. *)
  versions_distinct s : NoDup (v_cas <$> history s);
  get_grows s s' r : doc_get (T:=T) (DateTime:=DateTime) id None s = (s', r) → history s `prefix_of` history s';
  lookup_grows s s' specs r : doc_lookup_in (T:=T) (DateTime:=DateTime) id specs None s = (s', r) →
    history s `prefix_of` history s';
  mutate_grows s s' specs o r : doc_mutate_in (T:=T) (DateTime:=DateTime) id specs o s = (s', r) →
    history s `prefix_of` history s';
  (** A read is of a version that was current during the read. *)
  get_reads s s' res items : doc_get (T:=T) (DateTime:=DateTime) id None s = (s', Some (Ok res)) →
    get_content_as list_from_slice res = Ok items →
    current_between s s' (mkVersion (gr_cas res) items);
  lookup_reads_last s s' res x :
    doc_lookup_in (T:=T) (DateTime:=DateTime) id [lookup_in_spec_get (index_path (-1)) None] None s = (s', Some (Ok res)) →
    lookup_content_as bool_to_vec item_from_slice res 0 = Ok x →
    ∃ items, current_between s s' (mkVersion (lr_cas res) (items ++ [x]));
  (** A removal under a CAS removes from the version of that CAS; a negative index counts from the end. *)
  removes s s' i cas r :
    doc_mutate_in (T:=T) (DateTime:=DateTime) id [spec_remove (index_path i) None]
      (Some (sdk_mutate_in_options_cas cas sdk_mutate_in_options_new)) s = (s', Some (Ok r)) →
    ∃ v, v_cas v = cas
      ∧ removed_between s s' v (Z.to_nat (if i <? 0 then Z.of_nat (length (v_items v)) + i else i));
}.
End Versions.

(** ** Lemmas *)

Lemma index_path_last : index_path (-1) = "[-1]".
Proof. reflexivity. Qed.

(** The index that is found is of an item that is the value. *)
Lemma last_index_found {V} (eqb : V → V → bool) value contents i index :
  last_index eqb value i contents = Some index →
  ∃ j item, index = (i + j)%nat ∧ contents !! j = Some item ∧ eqb item value = true.
Proof.
  revert i. induction contents as [|item contents IH]; intros i; cbn; [done|].
  destruct (last_index _ _ _ contents) as [k|] eqn:Hl.
  - intros [= ->]. destruct (IH _ Hl) as (j & item' & -> & ? & ?).
    exists (Datatypes.S j), item'. split_and!; [lia|done|done].
  - destruct (eqb item value) eqn:He; [|done]. intros [= ->]. exists 0%nat, item. split_and!; [lia|done|done].
Qed.

Lemma last_index_none {V} (eqb : V → V → bool) value contents i :
  last_index eqb value i contents = None ↔ Forall (λ item, eqb item value = false) contents.
Proof.
  revert i. induction contents as [|item contents IH]; intros i; cbn; [by split|].
  rewrite list.Forall_cons, <-(IH (Datatypes.S i)).
  destruct (last_index _ _ _ contents); [naive_solver|]. destruct (eqb item value); naive_solver.
Qed.

Section Atomic.
Context {S T DateTime V : Type} `{DocumentOps S T DateTime} (history : S → list (Version V)).
Context (list_from_slice : list Z → string + list V) (item_from_slice : list Z → string + V)
  (bool_to_vec : bool → string + list Z) (id : string).

Lemma current_between_grow s s1 s2 v :
  current_between history s s1 v → history s1 `prefix_of` history s2 → current_between history s s2 v.
Proof. intros (h1 & h2 & He & Hl) [k Hk]. exists h1, (h2 ++ k). split; [|done]. by rewrite Hk, He, <-app_assoc. Qed.

Lemma current_between_before s s1 s2 v :
  history s `prefix_of` history s1 → current_between history s1 s2 v → current_between history s s2 v.
Proof. intros Hp%prefix_length (h1 & h2 & He & Hl). exists h1, h2. split; [done|lia]. Qed.

Lemma removed_between_before s s1 s2 v i :
  history s `prefix_of` history s1 → removed_between history s1 s2 v i → removed_between history s s2 v i.
Proof. intros Hp%prefix_length (h1 & v' & h2 & He & Hl & Hd). exists h1, v', h2. split_and!; [done|lia|done]. Qed.

Context `{!AtomicVersions (T:=T) (DateTime:=DateTime) history id list_from_slice item_from_slice bool_to_vec}.

(** Two versions of a history with the same CAS are the same. *)
Lemma version_of_cas s v1 v2 : v1 ∈ history s → v2 ∈ history s → v_cas v1 = v_cas v2 → v1 = v2.
Proof.
  intros [i Hi]%list_elem_of_lookup_1 [j Hj]%list_elem_of_lookup_1 Hc.
  pose proof (versions_distinct history (T:=T) (DateTime:=DateTime) s) as Hd.
  assert (i = j) as ->; [|congruence].
  apply (NoDup_lookup _ i j (v_cas v1) Hd); rewrite list_lookup_fmap; [by rewrite Hi|by rewrite Hj, Hc].
Qed.

Lemma current_between_elem s s' v : current_between history s s' v → v ∈ history s'.
Proof. intros (h1 & h2 & -> & _). set_solver. Qed.

(** A removal under the CAS of a version that was read is of an item of that version. *)
Lemma remove_under_version {A} s s' s1 v (a x : A) i retry :
  v ∈ history s1 → history s `prefix_of` history s1 →
  remove_under (T:=T) (DateTime:=DateTime) id (index_path i) (v_cas v) a retry s1 = (s', Some (Ok x)) →
  (a = x ∧ removed_between history s s' v (Z.to_nat (if i <? 0 then Z.of_nat (length (v_items v)) + i else i)))
  ∨ ∃ s2, history s `prefix_of` history s2 ∧ retry s2 = (s', Some (Ok x)).
Proof.
  intros Hv Hp. unfold remove_under, mutate_one.
  destruct (doc_mutate_in _ _ _ s1) as [s2 [[r|e| ]|]] eqn:Hm; try done.
  - intros [= -> ->]. left. split; [done|].
    pose proof (mutate_grows history _ _ _ _ _ Hm) as Hg.
    apply (removes history) in Hm as (w & Hw & Hr).
    assert (w = v) as ->; [|by eapply removed_between_before].
    apply (version_of_cas s'); [|by eapply elem_of_prefix|done].
    destruct Hr as (h1 & v' & h2 & -> & _). set_solver.
  - pose proof (mutate_grows history _ _ _ _ _ Hm) as Hg. destruct (lost_race e); [|done].
    intros Hr. right. exists s2. split; [by etrans|done].
Qed.

(** C21. Popping from a queue is atomic, whatever other clients do to the document in the meantime:
    when [queue_pop] returns an item, there was a version of the document of which it was the last
    item, current at some moment of the call, and the version that follows it is the same without
    that item; an item is never returned that was not removed, and the item that was removed is
    the one that is returned. *)
Theorem queue_pop_atomic options s s' x :
  queue_pop (T:=T) (DateTime:=DateTime) item_from_slice bool_to_vec (mkCouchbaseQueue id options) s
    = (s', Some (Ok x)) →
  ∃ cas items, removed_between history s s' (mkVersion cas (items ++ [x])) (length items).
Proof.
  unfold queue_pop. cbn [queue_id]. generalize 16%nat. intros tries.
  enough (∀ s0, history s `prefix_of` history s0 →
    queue_pop_loop (T:=T) (DateTime:=DateTime) item_from_slice bool_to_vec tries id s0 = (s', Some (Ok x)) →
    ∃ cas items, removed_between history s s' (mkVersion cas (items ++ [x])) (length items)) by eauto.
  induction tries as [|tries IH]; intros s0 Hp; [done|]. cbn [queue_pop_loop].
  unfold mbind, io_bind, lookup_one. rewrite <-index_path_last.
  destruct (doc_lookup_in _ _ _ s0) as [s1 [[res|e| ]|]] eqn:Hl; try done. unfold io_lift.
  destruct (lookup_content_as _ _ res 0) as [y|e| ] eqn:Hy; try done.
  pose proof (lookup_grows history _ _ _ _ Hl) as Hg.
  destruct (lookup_reads_last history _ _ _ _ Hl Hy) as [items Hc].
  intros Hr. apply (remove_under_version s s' s1 (mkVersion (lr_cas res) (items ++ [y]))) in Hr
    as [[-> Hrem]|(s2 & Hp2 & Hr)].
  - exists (lr_cas res), items. cbn in Hrem. rewrite length_app in Hrem. cbn in Hrem.
    by replace (Z.to_nat _) with (length items) in Hrem by lia.
  - by apply (IH s2).
  - by apply current_between_elem in Hc.
  - by etrans.
Qed.

(** Removing from a set is atomic, whatever other clients do to the document in the meantime:
    when [set_remove] returns, either a version that was current at some moment of the call did not
    hold the value, or one item that is the value was removed from a version that was current, and
    nothing else with it. *)
Lemma set_remove_atomic eqb options value s s' :
  set_remove (T:=T) (DateTime:=DateTime) list_from_slice eqb (mkCouchbaseSet id options) value s = (s', Some (Ok tt)) →
  (∃ v, current_between history s s' v ∧ Forall (λ item, eqb item value = false) (v_items v))
  ∨ (∃ v i item, removed_between history s s' v i ∧ v_items v !! i = Some item ∧ eqb item value = true).
Proof.
  unfold set_remove. cbn [set_id]. generalize 16%nat. intros tries.
  enough (∀ s0, history s `prefix_of` history s0 →
    set_remove_loop (T:=T) (DateTime:=DateTime) list_from_slice eqb tries id value s0 = (s', Some (Ok tt)) →
    (∃ v, current_between history s s' v ∧ Forall (λ item, eqb item value = false) (v_items v))
    ∨ (∃ v i item, removed_between history s s' v i ∧ v_items v !! i = Some item ∧ eqb item value = true)) by eauto.
  induction tries as [|tries IH]; intros s0 Hp; [done|]. cbn [set_remove_loop].
  unfold mbind, io_bind.
  destruct (doc_get _ _ s0) as [s1 [[res|e| ]|]] eqn:Hl; try done. unfold io_lift.
  destruct (get_content_as _ res) as [items|e| ] eqn:Hi; try done.
  pose proof (get_grows history _ _ _ Hl) as Hg.
  pose proof (get_reads history _ _ _ _ Hl Hi) as Hc.
  destruct (last_index eqb value 0 items) as [index|] eqn:Hx.
  - intros Hr. apply (remove_under_version s s' s1 (mkVersion (gr_cas res) items)) in Hr
      as [[_ Hrem]|(s2 & Hp2 & Hr)].
    + apply last_index_found in Hx as (j & item & -> & Hj & He).
      right. exists (mkVersion (gr_cas res) items), j, item. split_and!; [|done|done].
      cbn in Hrem. rewrite (proj2 (Z.ltb_ge _ _)) in Hrem by lia. by rewrite Nat2Z.id in Hrem.
    + by apply (IH s2).
    + by apply current_between_elem in Hc.
    + by etrans.
  - intros [= ->]. left. exists (mkVersion (gr_cas res) items).
    split; [by eapply current_between_before|]. by apply last_index_none in Hx.
Qed.

End Atomic.

(** The options of a structure, its retry strategy, are used by none of its operations. *)
Lemma structure_options_ignored {S T DateTime V : Type} `{DocumentOps S T DateTime} item_from_slice bool_to_vec id o1 o2 :
  queue_pop (V:=V) (T:=T) (DateTime:=DateTime) item_from_slice bool_to_vec (mkCouchbaseQueue id o1)
  = queue_pop item_from_slice bool_to_vec (mkCouchbaseQueue id o2).
Proof. reflexivity. Qed.

(** ** A document store

    Versions are numbered; every mutation of the client comes after a mutation of another client,
    while there are any. *)

Module Store.

Record World : Type := mkWorld { versions : list (list Z); rivals : list (list Z) }.

Definition history (w : World) : list (Version Z) := imap (λ i l, mkVersion (Z.of_nat i) l) (versions w).

(** The current version: its CAS and its items. *)
Definition current (docs : list (list Z)) : option (Z * list Z) :=
  items ← list.last docs; Some (Z.of_nat (pred (length docs)), items).

(** The item that a path names. *)
Definition named_item (path : string) (items : list Z) : option nat :=
  if bool_decide (path = index_path (-1)) then
    match items with [] => None | _ => Some (pred (length items)) end
  else list_find (λ i : nat, path = index_path (Z.of_nat i)) (seq 0 (length items)) ≫= λ p, Some p.2.

Definition store_get (w : World) : World * option (outcome Sdk.Error (SdkGetResult unit)) :=
  (w, Some (match current (versions w) with
            | Some (cas, items) => Ok (mkSdkGetResult items 0 cas None)
            | None => Err (Sdk.new Sdk.DocumentNotFound)
            end)).

Definition store_last (w : World) : World * option (outcome Sdk.Error SdkLookupInResult) :=
  (w, Some (match current (versions w) with
            | Some (cas, items) =>
                match list.last items with
                | Some x => Ok (mkSdkLookupInResult cas [mkLookupInResultEntry (Some [x]) None SdkLookupInOpType.Get] false)
                | None => Err (Sdk.new Sdk.PathNotFound)
                end
            | None => Err (Sdk.new Sdk.DocumentNotFound)
            end)).

Definition store_remove (path : string) (cas : option Z) (w : World)
    : World * option (outcome Sdk.Error SdkMutateInResult) :=
  let docs := versions w ++ take 1 (rivals w) in
  let w := mkWorld docs (drop 1 (rivals w)) in
  match current docs with
  | Some (now, items) =>
      if bool_decide (cas = Some now) then
        match named_item path items with
        | Some i => (mkWorld (docs ++ [delete i items]) (rivals w), Some (Ok (mkSdkMutateInResult (now + 1) None [])))
        | None => (w, Some (Err (Sdk.new Sdk.PathNotFound)))
        end
      else (w, Some (Err (Sdk.new Sdk.CasMismatch)))
  | None => (w, Some (Err (Sdk.new Sdk.DocumentNotFound)))
  end.

#[local] Instance store : DocumentOps World unit unit := {
  doc_get _ _ := store_get;
  doc_lookup_in _ _ _ := store_last;
  doc_mutate_in _ specs options :=
    match specs with
    | [spec] => store_remove (MutateInSpec.path spec) (options ≫= SdkMutateInOptions.cas)
    | _ => λ w, (w, None)
    end;
  doc_remove _ _ := λ w, (w, None);
}.

(** Items are bytes, and a list of them is its contents. *)
Definition list_of : list Z → string + list Z := inr.
Definition item_of (l : list Z) : string + Z := match l with [x] => inr x | _ => inl "item" end.
Definition no_bool (_ : bool) : string + list Z := inl "bool".

Lemma append_bracket_inj (a b : string) : a +:+ "]" = b +:+ "]" → a = b.
Proof.
  revert b. induction a as [|c a IH]; intros [|d b]; cbn; [done|..].
  - intros [= <- Hb]. by destruct b.
  - intros [= -> Ha]. by destruct a.
  - intros [= -> Hab]. by rewrite (IH b).
Qed.

Lemma index_path_inj i j : index_path i = index_path j → i = j.
Proof. intros [= Hij%append_bracket_inj]. unfold show in Hij. by simplify_eq. Qed.

Lemma named_item_index i items k :
  named_item (index_path i) items = Some k → k = Z.to_nat (if i <? 0 then Z.of_nat (length items) + i else i).
Proof.
  unfold named_item. case_bool_decide as Hi.
  - apply index_path_inj in Hi as ->. destruct items; [done|]. intros [= <-]. cbn. lia.
  - destruct (list_find _ _) as [[n m]|] eqn:Hf; [|done]. intros [= <-].
    apply list_find_Some in Hf as (_ & ->%index_path_inj & _).
    rewrite (proj2 (Z.ltb_ge _ _)) by lia. cbn. lia.
Qed.

Lemma current_history docs rs cas items :
  current docs = Some (cas, items) →
  ∃ h, history (mkWorld docs rs) = h ++ [mkVersion cas items] ∧ docs = take (length h) docs ++ [items].
Proof.
  unfold current. destruct (list.last docs) as [l|] eqn:Hl; [|done]. intros [= <- <-].
  apply list.last_Some in Hl as [d ->]. unfold history. cbn [versions]. rewrite imap_app.
  exists (imap (λ i l0, mkVersion (Z.of_nat i) l0) d). rewrite length_app, length_imap, take_app_length. cbn.
  split; [|done]. do 3 f_equal. lia.
Qed.

Lemma history_app docs docs' rs rs' : history (mkWorld docs rs) `prefix_of` history (mkWorld (docs ++ docs') rs').
Proof. unfold history. cbn [versions]. rewrite imap_app. by eexists. Qed.

Lemma history_snoc docs items rs rs' :
  history (mkWorld (docs ++ [items]) rs)
  = history (mkWorld docs rs') ++ [mkVersion (Z.of_nat (length docs)) items].
Proof. unfold history. cbn [versions]. rewrite imap_app. cbn. by rewrite Nat.add_0_r. Qed.

Lemma store_remove_grows path cas w w' r :
  store_remove path cas w = (w', r) → history w `prefix_of` history w'.
Proof.
  destruct w as [docs rs]. unfold store_remove. cbn [versions rivals].
  destruct (current _) as [[now items]|]; [|intros [= <- <-]; apply history_app].
  case_bool_decide; [|intros [= <- <-]; apply history_app].
  destruct (named_item path items); intros [= <- <-]; rewrite <-?app_assoc; apply history_app.
Qed.

#[local] Instance store_versions : AtomicVersions (T:=unit) (DateTime:=unit) history "id" list_of item_of no_bool.
Proof.
  split.
  - intros [docs rs]. unfold history. cbn [versions]. rewrite fmap_imap.
    rewrite (imap_seq_0 _ (λ i, Z.of_nat i)). apply NoDup_fmap; [apply _|apply NoDup_seq].
  - intros w w' r [= <- <-]. done.
  - intros w w' specs r [= <- <-]. done.
  - intros w w' [|spec [|? ?]] o r; cbn; [by intros [= <- <-]| |by intros [= <- <-]]. apply store_remove_grows.
  - intros [docs rs] w' res items. cbn. unfold store_get. cbn [versions].
    destruct (current docs) as [[cas l]|] eqn:Hc; [|done]. intros [= <- <-]. cbn. intros [= <-].
    apply (current_history _ rs) in Hc as (h & Hh & _). exists h, []. rewrite Hh. split; [done|].
    rewrite length_app. cbn. lia.
  - intros [docs rs] w' res x. cbn. unfold store_last. cbn [versions].
    destruct (current docs) as [[cas l]|] eqn:Hc; [|done].
    destruct (list.last l) as [y|] eqn:Hl; [|done]. intros [= <- <-]. cbn. intros [= <-].
    apply list.last_Some in Hl as [items ->]. exists items.
    apply (current_history _ rs) in Hc as (h & Hh & _). exists h, []. rewrite Hh. split; [done|].
    rewrite length_app. cbn. lia.
  - intros [docs rs] w' i cas r. cbn. unfold store_remove. cbn [versions rivals].
    destruct (current _) as [[now items]|] eqn:Hc; [|done].
    case_bool_decide as Hcas; [|done]. injection Hcas as ->.
    destruct (named_item _ items) as [k|] eqn:Hk; [|done]. intros [= <- <-].
    apply named_item_index in Hk as ->.
    exists (mkVersion now items). split; [done|].
    apply (current_history _ (drop 1 rs)) in Hc as (h & Hh & _).
    exists h. eexists _, []. split_and!; [rewrite (history_snoc _ _ _ (drop 1 rs)), Hh, <-app_assoc; done| |done].
    pose proof (prefix_length _ _ (history_app docs (take 1 rs) rs (drop 1 rs))) as Hl.
    rewrite Hh, length_app, Nat.add_1_r in Hl. exact Hl.
Qed.


(** The first attempts are lost to other clients. *)
Definition sample : World := mkWorld [[1; 2; 3]] [[4; 1; 2; 3]; [4; 1; 2]].

Lemma queue_pop_atomic_witness :
  queue_pop (T:=unit) (DateTime:=unit) item_of no_bool (mkCouchbaseQueue "id" sdk_couchbase_queue_options_new) sample
    = (mkWorld [[1; 2; 3]; [4; 1; 2; 3]; [4; 1; 2]; [4; 1]] [], Some (Ok 2))
  ∧ ∃ cas items, removed_between history sample (mkWorld [[1; 2; 3]; [4; 1; 2; 3]; [4; 1; 2]; [4; 1]] [])
      (mkVersion cas (items ++ [2])) (length items).
Proof.
  split; [vm_compute; reflexivity|].
  apply (queue_pop_atomic history list_of item_of no_bool "id" sdk_couchbase_queue_options_new). vm_compute. reflexivity.
Defined.

Lemma set_remove_atomic_example :
  set_remove (T:=unit) (DateTime:=unit) list_of Z.eqb (mkCouchbaseSet "id" sdk_couchbase_set_options_new) 1 sample
    = (mkWorld [[1; 2; 3]; [4; 1; 2; 3]; [4; 1; 2]; [4; 2]] [], Some (Ok tt))
  ∧ ((∃ v, current_between history sample (mkWorld [[1; 2; 3]; [4; 1; 2; 3]; [4; 1; 2]; [4; 2]] []) v
        ∧ Forall (λ item, Z.eqb item 1 = false) (v_items v))
     ∨ (∃ v i item, removed_between history sample (mkWorld [[1; 2; 3]; [4; 1; 2; 3]; [4; 1; 2]; [4; 2]] []) v i
          ∧ v_items v !! i = Some item ∧ Z.eqb item 1 = true)).
Proof.
  split; [vm_compute; reflexivity|].
  apply (set_remove_atomic history list_of item_of no_bool "id" Z.eqb sdk_couchbase_set_options_new). vm_compute.
  reflexivity.
Defined.

(** After sixteen lost races the call gives up. *)
Example pop_gives_up :
  (queue_pop (T:=unit) (DateTime:=unit) item_of no_bool (mkCouchbaseQueue "id" sdk_couchbase_queue_options_new)
     (mkWorld [[1]] (replicate 16 [1]))).2 = Some (Err retries_exhausted).
Proof. vm_compute. reflexivity. Qed.

End Store.
