(* ===== verification/AgentProvider.v ===== *)
(** * Waiting for the agent of a bucket ([couchbase/src/clients/agent_provider.rs])

    A task asks the agent manager for the agent of a bucket until it gets one, stores it and wakes
    the callers that wait.  A caller looks for the agent under the lock; when there is none it
    registers with the [Notify] and, when it is woken, looks again.  The tasks run in parallel: the
    provider is a transition system whose steps are those of the task and of the callers.

    [tokio::sync::Notify::notify_waiters] wakes the callers that have registered, and no others:
    it leaves nothing behind for one that registers later. *)

From S2P Require Import Prelude FacadeError Http.

(** Where the task that creates the agent is. *)
Inductive CreatorPc : Type := Creating | Notifying | Finished.
(** Where a call of [get_agent] is. *)
Inductive CallerPc (A : Type) : Type := Checking | Registering | Waiting | Returned (agent : A).
#[global] Arguments Checking {A}.
#[global] Arguments Registering {A}.
#[global] Arguments Waiting {A}.
#[global] Arguments Returned {A}.

#[global] Instance CreatorPc_eq_dec : EqDecision CreatorPc.
Proof. solve_decision. Defined.

Record CouchbaseAgentProvider (A : Type) : Type := mkCouchbaseAgentProvider {
  cap_agent : option A;
  cap_creator : CreatorPc;
  cap_callers : gmap nat (CallerPc A);
}.
#[global] Arguments mkCouchbaseAgentProvider {A}.
#[global] Arguments cap_agent {A}.
#[global] Arguments cap_creator {A}.
#[global] Arguments cap_callers {A}.

Section Provider.
Context {A : Type}.
Implicit Types (p : CouchbaseAgentProvider A) (k : nat) (a : A).
Abbreviation Provider := (CouchbaseAgentProvider A).

Definition provider_with_agent (agent : A) : Provider := mkCouchbaseAgentProvider (Some agent) Finished ∅.
Definition provider_with_bucket : Provider := mkCouchbaseAgentProvider None Creating ∅.

(** *** The task *)

(** [get_bucket_agent(..).await]: an error is logged and the loop goes on. *)
Definition creator_result {E} (r : E + A) p : Provider :=
  match r with
  | inl _ => p
  | inr agent => mkCouchbaseAgentProvider (Some agent) Notifying (cap_callers p)
  end.

Definition wake (pc : CallerPc A) : CallerPc A := match pc with Waiting => Checking | _ => pc end.
Definition notify_waiters p : Provider :=
  mkCouchbaseAgentProvider (cap_agent p) Finished (wake <$> cap_callers p).

(** *** A caller *)

Definition set_caller k (pc : CallerPc A) p : Provider :=
  mkCouchbaseAgentProvider (cap_agent p) (cap_creator p) (<[k := pc]> (cap_callers p)).

(** [self.inner.agent.read()]. *)
Definition check_agent k p : Provider :=
  set_caller k (match cap_agent p with Some agent => Returned agent | None => Registering end) p.

(** [upgrade_agent]: [None] when the agent is gone. *)
Definition upgrade_agent {B} (upgrade : A → option B) (agent : A) : outcome Sdk.Error B :=
  match upgrade agent with Some agent => Ok agent | None => Err (Sdk.new Sdk.Disconnected) end.

Inductive step : Provider → Provider → Prop :=
| step_create p (r : string + A) : cap_creator p = Creating → step p (creator_result r p)
| step_notify p : cap_creator p = Notifying → step p (notify_waiters p)
| step_call p k : cap_callers p !! k = None → step p (set_caller k Checking p)
| step_check p k : cap_callers p !! k = Some Checking → step p (check_agent k p)
| step_register p k : cap_callers p !! k = Some Registering → step p (set_caller k Waiting p).

Inductive initial : Provider → Prop :=
| initial_with_agent a : initial (provider_with_agent a)
| initial_with_bucket : initial provider_with_bucket.

Definition reachable p : Prop := ∃ p0, initial p0 ∧ rtc step p0 p.

(** ** The agent that is returned *)

(** While the agent is created there is none and nobody has one; afterwards there is one, and
    every caller that returned has it. *)
Definition provider_ok p : Prop :=
  (cap_agent p = None ↔ cap_creator p = Creating)
  ∧ ∀ k a, cap_callers p !! k = Some (Returned a) → cap_agent p = Some a.

Lemma initial_ok p : initial p → provider_ok p.
Proof. intros []; split; cbn; try done; intros k a0; by rewrite lookup_empty. Qed.

Lemma set_caller_ok k pc p :
  (∀ a, pc = Returned a → cap_agent p = Some a) → provider_ok p → provider_ok (set_caller k pc p).
Proof.
  intros Hpc [Ha Hc]. split; [done|]. intros k' a. cbn. destruct (decide (k = k')) as [<-|Hne].
  - rewrite lookup_insert_eq. intros [= ->]. by apply Hpc.
  - rewrite lookup_insert_ne by done. apply Hc.
Qed.

Lemma step_ok p p' : step p p' → provider_ok p → provider_ok p'.
Proof.
  intros [q [e|a] Hc|q Hc|q k Hk|q k Hk|q k Hk] Hok; try (by apply set_caller_ok).
  - done.
  - destruct Hok as [Ha Hr]. split; cbn; [done|]. intros k b Hk.
    apply Hr in Hk. rewrite (proj2 Ha Hc) in Hk. done.
  - destruct Hok as [Ha Hr]. split; cbn; [rewrite Ha, Hc; done|]. intros k b.
    rewrite lookup_fmap. destruct (cap_callers q !! k) as [[]|] eqn:Hq; cbn; try done.
    intros [= ->]. by eapply Hr.
  - apply set_caller_ok; [|done]. intros a. case_match; [|done]. by intros [= ->].
Qed.

Lemma reachable_ok p : reachable p → provider_ok p.
Proof.
  intros (p0 & Hi & Hs). apply initial_ok in Hi. induction Hs as [|x y z Hxy Hs IH]; [done|].
  by apply IH, (step_ok x).
Qed.

(** The agent is stored once. *)
Lemma agent_stays p p' a : rtc step p p' → provider_ok p → cap_agent p = Some a → cap_agent p' = Some a.
Proof.
  induction 1 as [|x y z Hxy Hs IH]; [done|]. intros Hok Ha. apply IH; [by eapply step_ok|].
  destruct Hxy as [q [e|b] Hc|q Hc|q k Hk|q k Hk|q k Hk]; try done.
  destruct Hok as [Hn _]. rewrite (proj2 Hn Hc) in Ha. done.
Qed.

(** ** Callers that are not woken *)

(** A caller that had found no agent when the waiters were woken waits for ever. *)
Definition missed (pc : CallerPc A) : Prop := pc = Waiting ∨ pc = Registering.

Lemma missed_stays p p' k pc :
  rtc step p p' → cap_creator p = Finished → cap_callers p !! k = Some pc → missed pc →
  ∃ pc', cap_callers p' !! k = Some pc' ∧ missed pc'.
Proof.
  intros Hs. revert pc. induction Hs as [|x y z Hxy Hs IH]; intros pc Hc Hk Hm; [eauto|].
  assert (cap_creator y = Finished ∧ ∃ pc', cap_callers y !! k = Some pc' ∧ missed pc') as (? & pc' & ? & ?).
  { destruct Hxy as [q r Hq|q Hq|q j Hj|q j Hj|q j Hj]; try congruence; (split; [done|]); cbn;
      (destruct (decide (j = k)) as [->|Hne];
       [rewrite lookup_insert_eq|rewrite lookup_insert_ne by done; eauto]).
    - congruence.
    - destruct Hm; congruence.
    - exists Waiting. split; [done|by left]. }
  by eapply IH.
Qed.

(** Everybody else can still return. *)
Lemma checking_returns p k a :
  cap_agent p = Some a → cap_callers p !! k = Some Checking →
  ∃ p', rtc step p p' ∧ cap_callers p' !! k = Some (Returned a).
Proof.
  intros Ha Hk. exists (check_agent k p). split; [by apply rtc_once, step_check|].
  unfold check_agent. rewrite Ha. cbn. by rewrite lookup_insert_eq.
Qed.

Lemma woken_returns p k a pc :
  cap_agent p = Some a → cap_creator p = Notifying → cap_callers p !! k = Some pc → pc = Waiting ∨ pc = Checking →
  ∃ p', rtc step p p' ∧ cap_callers p' !! k = Some (Returned a).
Proof.
  intros Ha Hc Hk Hpc.
  destruct (checking_returns (notify_waiters p) k a) as (p' & Hs & Hp'); [done| |].
  { cbn. rewrite lookup_fmap, Hk. by destruct Hpc as [->| ->]. }
  exists p'. split; [|done]. eapply rtc_l; [by apply step_notify|done].
Qed.

Lemma not_woken_returns p k a pc :
  cap_agent p = Some a → cap_creator p = Notifying → cap_callers p !! k = Some pc →
  ∃ p' b, rtc step p p' ∧ cap_callers p' !! k = Some (Returned b).
Proof.
  intros Ha Hc Hk. destruct pc as [ | | |b].
  - destruct (woken_returns p k a Checking) as (p' & ? & ?); [done..|by right|eauto].
  - destruct (woken_returns (set_caller k Waiting p) k a Waiting) as (p' & ? & ?);
      [done|done|cbn; by rewrite lookup_insert_eq|by left|].
    exists p', a. split; [|done]. eapply rtc_l; [by apply step_register|done].
  - destruct (woken_returns p k a Waiting) as (p' & ? & ?); [done..|by left|eauto].
  - exists p, b. split; [apply rtc_refl|done].
Qed.


(** The agent stored under the lock between a caller's look and its registration is never seen. *)
Lemma lost_wakeup a :
  ∃ p, reachable p ∧ cap_agent p = Some a ∧ cap_creator p = Finished ∧ cap_callers p !! 0%nat = Some Waiting.
Proof.
  exists (mkCouchbaseAgentProvider (Some a) Finished {[ 0%nat := Waiting ]}). split_and!; [|done|done|cbn; by rewrite lookup_singleton_eq].
  exists provider_with_bucket. split; [constructor|].
  eapply rtc_l. { by apply (step_call _ 0). }
  eapply rtc_l. { by apply (step_check _ 0). }
  eapply rtc_l. { by apply (step_create _ (inr a)). }
  eapply rtc_l. { by apply step_notify. }
  eapply rtc_l. { by apply (step_register _ 0). }
  replace (set_caller _ _ _) with (mkCouchbaseAgentProvider (Some a) Finished ({[ 0%nat := Waiting ]} : gmap nat (CallerPc A))).
  - apply rtc_refl.
  - reflexivity.
Qed.

(** A provider that is made with its agent keeps nobody waiting. *)
Lemma with_agent_never_waits a p :
  rtc step (provider_with_agent a) p → ∀ k pc, cap_callers p !! k = Some pc → pc = Checking ∨ pc = Returned a.
Proof.
  intros Hs. pattern p. revert p Hs. apply rtc_ind_r.
  - intros k pc. cbn. by rewrite lookup_empty.
  - intros y z Hy Hyz IH.
    pose proof (initial_ok _ (initial_with_agent a)) as Hok.
    pose proof (agent_stays _ _ a Hy Hok eq_refl) as Ha.
    destruct Hyz as [q [e|b] Hc|q Hc|q j Hj|q j Hj|q j Hj]; intros k pc; cbn; try apply IH.
    + rewrite lookup_fmap. destruct (cap_callers q !! k) as [pc'|] eqn:Hq; [|done]. cbn. intros [= <-].
      destruct (IH _ _ Hq) as [->| ->]; [by left|by right].
    + destruct (decide (j = k)) as [->|Hne]; [rewrite lookup_insert_eq|rewrite lookup_insert_ne by done; apply IH].
      intros [= <-]. by left.
    + destruct (decide (j = k)) as [->|Hne]; [rewrite lookup_insert_eq|rewrite lookup_insert_ne by done; apply IH].
      rewrite Ha. intros [= <-]. by right.
    + destruct (IH _ _ Hj); done.
Qed.

End Provider.

(** A caller that missed the agent: it found none, then the agent was stored and the waiters woken. *)
Definition missed_agent : CouchbaseAgentProvider nat :=
  notify_waiters (creator_result (E:=string) (inr 7%nat) (check_agent 3 (set_caller 3 Checking provider_with_bucket))).

Lemma missed_agent_reachable : reachable missed_agent.
Proof.
  exists provider_with_bucket. split; [constructor|].
  eapply rtc_l. { by apply (step_call _ 3). }
  eapply rtc_l. { by apply (step_check _ 3). }
  eapply rtc_l. { by apply (step_create _ (inr 7%nat)). }
  apply rtc_once. by apply step_notify.
Qed.

