(* ===== verification/OnDemand.v ===== *)
(** * Agents on demand ([ondemand_agentmanager.rs])

    The manager makes an agent for a bucket when one is first asked for.  A call of
    [get_bucket_agent] looks in the fast map, and without an agent there in the slow map, under its
    lock: the agent is there, or another call is making it and this one waits for its [Notify], or
    this call makes it.  Calls run in parallel: the manager is a transition system whose steps are
    the critical sections of the calls and what happens between them.  The lock of the notif map is taken
    only under the lock of the slow map, so it is always free.

    A caller may be dropped at any of its awaits.  [Agent::new] is an input: an agent or an error.
    Agents are kept by the slow map, so the weak references of the fast map stay valid. *)

From S2P Require Import Prelude.

(** Where a call of [get_bucket_agent] is; a [nat] names the [Notify] of one creation. *)
Inductive CallPc (A E : Type) : Type :=
| LoadFast
| LoadSlow
| Registering (notif : nat)
| Waiting (notif : nat)
| Making (notif : nat)
| Inserting (notif : nat) (agent : A)
| Rebuilding
| Returned (r : E + A)
| Dropped.
#[global] Arguments LoadFast {A E}.
#[global] Arguments LoadSlow {A E}.
#[global] Arguments Registering {A E}.
#[global] Arguments Waiting {A E}.
#[global] Arguments Making {A E}.
#[global] Arguments Inserting {A E}.
#[global] Arguments Rebuilding {A E}.
#[global] Arguments Returned {A E}.
#[global] Arguments Dropped {A E}.

Record OnDemandAgentManager (A E : Type) : Type := mkOnDemandAgentManager {
  odm_fast : gmap string A;
  odm_slow : gmap string A;
  odm_notif : gmap string nat;
  (** The next [Notify]. *)
  odm_fresh : nat;
  (** The calls: the bucket of each and where it is. *)
  odm_calls : gmap nat (string * CallPc A E);
}.
#[global] Arguments mkOnDemandAgentManager {A E}.
#[global] Arguments odm_fast {A E}.
#[global] Arguments odm_slow {A E}.
#[global] Arguments odm_notif {A E}.
#[global] Arguments odm_fresh {A E}.
#[global] Arguments odm_calls {A E}.

Section Manager.
Context {A E : Type}.
Abbreviation Manager := (OnDemandAgentManager A E).
Implicit Types (m : Manager) (k n : nat) (b : string) (a : A) (pc : CallPc A E).

#[local] Instance manager_settable : Settable Manager := λ r,
  mkOnDemandAgentManager (odm_fast r) (odm_slow r) (odm_notif r) (odm_fresh r) (odm_calls r).

Definition manager_new : Manager := mkOnDemandAgentManager ∅ ∅ ∅ 0 ∅.

Definition goto k b pc m : Manager := m <| odm_calls := <[k := (b, pc)]> (odm_calls m) |>.

(** [self.fast_map.load()]. *)
Definition load_fast k b m : Manager :=
  goto k b (match odm_fast m !! b with Some agent => Returned (inr agent) | None => LoadSlow end) m.

(** The first critical section of [load_bucket_agent_slow]. *)
Definition load_slow k b m : Manager :=
  match odm_slow m !! b with
  | Some _ => goto k b Rebuilding m
  | None =>
      match odm_notif m !! b with
      | Some notif => goto k b (Registering notif) m
      | None =>
          let notif := odm_fresh m in
          goto k b (Making notif) (m <| odm_notif := <[b := notif]> (odm_notif m) |> <| odm_fresh := S notif |>)
      end
  end.

(** [Agent::new(opts).await?]. *)
Definition agent_made k b notif (r : E + A) m : Manager :=
  goto k b (match r with inl e => Returned (inl e) | inr agent => Inserting notif agent end) m.

(** [notif.notify_waiters()]: the calls that wait for it go on. *)
Definition wake notif (c : string * CallPc A E) : string * CallPc A E :=
  match c with
  | (b, Waiting n) => if bool_decide (n = notif) then (b, Rebuilding) else c
  | _ => c
  end.

(** The second critical section of [load_bucket_agent_slow]. *)
Definition insert_agent k b notif (agent : A) m : Manager :=
  goto k b Rebuilding
    (m <| odm_slow := <[b := agent]> (odm_slow m) |>
       <| odm_notif := base.delete b (odm_notif m) |>
       <| odm_calls := wake notif <$> odm_calls m |>).

(** The fast map is made anew of the slow map, and the loop goes on. *)
Definition rebuild_fast_map k b m : Manager := goto k b LoadFast (m <| odm_fast := odm_slow m |>).

Inductive step : Manager → Manager → Prop :=
| step_call m k b : odm_calls m !! k = None → step m (goto k b LoadFast m)
| step_load_fast m k b : odm_calls m !! k = Some (b, LoadFast) → step m (load_fast k b m)
| step_load_slow m k b : odm_calls m !! k = Some (b, LoadSlow) → step m (load_slow k b m)
| step_register m k b n : odm_calls m !! k = Some (b, Registering n) → step m (goto k b (Waiting n) m)
| step_made m k b n (r : E + A) : odm_calls m !! k = Some (b, Making n) → step m (agent_made k b n r m)
| step_insert m k b n a : odm_calls m !! k = Some (b, Inserting n a) → step m (insert_agent k b n a m)
| step_rebuild m k b : odm_calls m !! k = Some (b, Rebuilding) → step m (rebuild_fast_map k b m)
| step_drop m k b pc : odm_calls m !! k = Some (b, pc) → step m (goto k b Dropped m).

Definition reachable m : Prop := rtc step manager_new m.

(** ** The invariant *)

(** The call is making an agent. *)
Definition maker pc : option nat := match pc with Making n | Inserting n _ => Some n | _ => None end.

Definition call_ok m (c : string * CallPc A E) : Prop :=
  let '(b, pc) := c in
  match pc with
  | Registering n | Waiting n =>
      (n < odm_fresh m)%nat ∧ (∀ b', odm_notif m !! b' = Some n → b' = b)
      ∧ (odm_notif m !! b = Some n ∨ is_Some (odm_slow m !! b))
  | Making n | Inserting n _ => odm_notif m !! b = Some n
  | Rebuilding => is_Some (odm_slow m !! b)
  | Returned (inr a) => odm_slow m !! b = Some a
  | _ => True
  end.

Record manager_ok m : Prop := {
  ok_fast b a : odm_fast m !! b = Some a → odm_slow m !! b = Some a;
  ok_slow b a : odm_slow m !! b = Some a → odm_notif m !! b = None;
  ok_fresh b n : odm_notif m !! b = Some n → (n < odm_fresh m)%nat;
  ok_inj b b' n : odm_notif m !! b = Some n → odm_notif m !! b' = Some n → b = b';
  ok_maker k k' c c' n : odm_calls m !! k = Some c → odm_calls m !! k' = Some c' →
    maker c.2 = Some n → maker c'.2 = Some n → k = k';
  ok_call k c : odm_calls m !! k = Some c → call_ok m c;
}.

Lemma manager_new_ok : manager_ok manager_new.
Proof. split; cbn; intros *; rewrite ?lookup_empty; done. Qed.

(** One call moves: it is still right, and it makes an agent only if it did before or nobody does. *)
Lemma goto_ok k b pc m :
  manager_ok m → call_ok m (b, pc) →
  (∀ n, maker pc = Some n → (∃ c, odm_calls m !! k = Some c ∧ maker c.2 = Some n)
          ∨ ∀ k' c, odm_calls m !! k' = Some c → maker c.2 ≠ Some n) →
  manager_ok (goto k b pc m).
Proof.
  intros [Hf Hs Hfr Hi Hm Hc] Hpc Hmk. split; cbn; try done.
  - intros k1 k2 c1 c2 n [[<- <-]|[Hk1 H1]]%lookup_insert_Some [[<- <-]|[Hk2 H2]]%lookup_insert_Some; cbn; intros Hn1 Hn2.
    + done.
    + destruct (Hmk n Hn1) as [(c & Hc' & Hn)|Hno]; [by apply (Hm k k2 c c2 n)|by destruct (Hno k2 c2 H2)].
    + destruct (Hmk n Hn2) as [(c & Hc' & Hn)|Hno]; [by apply (Hm k1 k c1 c n)|by destruct (Hno k1 c1 H1)].
    + by apply (Hm k1 k2 c1 c2 n).
  - intros k' c [[<- <-]|[Hk H]]%lookup_insert_Some; [done|by apply (Hc k')].
Qed.

Lemma goto_idle_ok k b pc m : manager_ok m → call_ok m (b, pc) → maker pc = None → manager_ok (goto k b pc m).
Proof. intros ?? Hn. apply goto_ok; [done..|]. rewrite Hn. done. Qed.

Lemma load_slow_ok k b m : manager_ok m → manager_ok (load_slow k b m).
Proof.
  intros Hok. unfold load_slow. destruct (odm_slow m !! b) as [a|] eqn:Hs.
  { apply goto_idle_ok; [done| |done]. cbn. by rewrite Hs. }
  destruct (odm_notif m !! b) as [n|] eqn:Hn.
  { apply goto_idle_ok; [done| |done]. cbn. split_and!; [by eapply ok_fresh|intros b' Hb'; by eapply ok_inj|by left]. }
  destruct Hok as [Hf Hsl Hfr Hi Hm Hc]. apply goto_ok.
  - split; cbn; try done.
    + intros b' a Hb'. rewrite lookup_insert_ne; [by eapply Hsl|]. intros ->. congruence.
    + intros b' n [[<- <-]|[? Hb']]%lookup_insert_Some; [lia|]. apply Hfr in Hb'. lia.
    + intros b1 b2 n [[<- <-]|[? H1]]%lookup_insert_Some [[<- Hn2]|[? H2]]%lookup_insert_Some; [done|..].
      * apply Hfr in H2. lia.
      * apply Hfr in H1. lia.
      * by eapply Hi.
    + intros k' [b' pc] Hk'. apply Hc in Hk'. cbn in *. destruct pc as [| |n|n|n|n a| |[e|a]|]; try done; cbn.
      * destruct Hk' as (Hlt & Hu & Ho). split_and!; [lia| |].
        -- intros b1 [[<- <-]|[? H1]]%lookup_insert_Some; [lia|by apply Hu].
        -- destruct Ho as [Ho|Ho]; [left|by right]. rewrite lookup_insert_ne; [done|congruence].
      * destruct Hk' as (Hlt & Hu & Ho). split_and!; [lia| |].
        -- intros b1 [[<- <-]|[? H1]]%lookup_insert_Some; [lia|by apply Hu].
        -- destruct Ho as [Ho|Ho]; [left|by right]. rewrite lookup_insert_ne; [done|congruence].
      * rewrite lookup_insert_ne; [done|congruence].
      * rewrite lookup_insert_ne; [done|congruence].
  - cbn. by rewrite lookup_insert_eq.
  - intros n [= <-]. right. intros k' [b' pc] Hk' Hmk. cbn in *. apply Hc in Hk'.
    assert (odm_notif m !! b' = Some (odm_fresh m)) as Hx by (destruct pc; cbn in *; congruence).
    apply Hfr in Hx. lia.
Qed.

Lemma maker_wake notif c : maker (wake notif c).2 = maker c.2.
Proof. destruct c as [b []]; cbn; try done. by case_bool_decide. Qed.

Lemma insert_agent_ok k b n a m :
  manager_ok m → odm_calls m !! k = Some (b, Inserting n a) → manager_ok (insert_agent k b n a m).
Proof.
  intros [Hf Hs Hfr Hi Hm Hc] Hk.
  pose proof (Hc _ _ Hk) as Hn. cbn in Hn.
  assert (odm_slow m !! b = None) as Hsn.
  { destruct (odm_slow m !! b) as [x|] eqn:Hx; [|done]. apply Hs in Hx. congruence. }
  split; cbn.
  - intros b' x Hx. apply Hf in Hx. rewrite lookup_insert_ne; [done|congruence].
  - intros b' x [[<- <-]|[? Hx]]%lookup_insert_Some; [by rewrite lookup_delete_eq|].
    rewrite lookup_delete_ne by done. by eapply Hs.
  - intros b' n' [? H']%lookup_delete_Some. by eapply Hfr.
  - intros b1 b2 n' [? H1]%lookup_delete_Some [? H2]%lookup_delete_Some. by eapply Hi.
  - intros k1 k2 c1 c2 n' [[<- <-]|[? H1]]%lookup_insert_Some [[<- <-]|[? H2]]%lookup_insert_Some; try done.
    rewrite lookup_fmap in H1, H2.
    destruct (odm_calls m !! k1) as [d1|] eqn:E1, (odm_calls m !! k2) as [d2|] eqn:E2; try done. cbn in H1, H2.
    simplify_eq. rewrite !maker_wake. by eapply Hm.
  - intros k' c [[<- <-]|[Hne H']]%lookup_insert_Some; [cbn; by rewrite lookup_insert_eq|].
    rewrite lookup_fmap in H'. destruct (odm_calls m !! k') as [[b' pc]|] eqn:Hk'; [|done]. cbn in H'.
    pose proof (Hc _ _ Hk') as Hok. cbn in Hok.
    assert (∀ n', maker pc = Some n' → b' ≠ b) as Hmk.
    { intros n' Hp ->. apply Hne. eapply (Hm k k' (b, Inserting n a) (b, pc) n); [done..|].
      destruct pc; cbn in *; congruence. }
    assert (is_Some (<[b:=a]> (odm_slow m) !! b') ↔ b' = b ∨ is_Some (odm_slow m !! b')) as Hins.
    { rewrite lookup_insert_is_Some. destruct (decide (b = b')); naive_solver. }
    assert (∀ n', n' ≠ n → odm_notif m !! b' = Some n' → base.delete b (odm_notif m) !! b' = Some n') as Hdel.
    { intros n' Hne' Hb'. rewrite lookup_delete_ne; [done|congruence]. }
    destruct pc as [| |n'|n'|n'|n' x| |[e|x]|]; simplify_eq; cbn; try done.
    + destruct Hok as (Hlt & Hu & Ho). split_and!; [done|intros b1 [? H1]%lookup_delete_Some; by apply Hu|].
      rewrite Hins. destruct (decide (b' = b)) as [->|?]; [right; by left|].
      destruct Ho as [Ho|Ho]; [|right; by right]. left. by rewrite lookup_delete_ne.
    + case_bool_decide as Hnn; [subst n'|]; cbn.
      * destruct Hok as (_ & Hu & _). rewrite Hins. left. by rewrite (Hu b).
      * destruct Hok as (Hlt & Hu & Ho). split_and!; [done|intros b1 [? H1]%lookup_delete_Some; by apply Hu|].
        rewrite Hins. destruct Ho as [Ho|Ho]; [left; by apply Hdel|right; by right].
    + rewrite lookup_delete_ne; [done|]. intros ->. by apply (Hmk n').
    + rewrite lookup_delete_ne; [done|]. intros ->. by apply (Hmk n').
    + rewrite Hins. by right.
    + rewrite lookup_insert_ne; [done|congruence].
Qed.

Lemma rebuild_ok k b m : manager_ok m → manager_ok (rebuild_fast_map k b m).
Proof.
  intros [Hf Hs Hfr Hi Hm Hc]. apply goto_idle_ok; [|done|done]. by split.
Qed.

Lemma manager_step_ok m m' : step m m' → manager_ok m → manager_ok m'.
Proof.
  intros Hstep Hok. destruct Hstep as [m k b Hk|m k b Hk|m k b Hk|m k b n Hk|m k b n r Hk|m k b n a Hk|m k b Hk|m k b pc Hk].
  - by apply goto_idle_ok.
  - unfold load_fast. destruct (odm_fast m !! b) as [a|] eqn:Hf; apply goto_idle_ok; try done. by eapply ok_fast.
  - by apply load_slow_ok.
  - apply goto_idle_ok; [done| |done]. by apply (ok_call _ Hok _ _ Hk).
  - pose proof (ok_call _ Hok _ _ Hk) as Hn. apply goto_ok; [done|by destruct r|].
    intros n' Hn'. left. exists (b, Making n). split; [done|]. destruct r; cbn in *; congruence.
  - by apply insert_agent_ok.
  - by apply rebuild_ok.
  - by apply goto_idle_ok.
Qed.

Lemma manager_steps_ok m m' : rtc step m m' → manager_ok m → manager_ok m'.
Proof. induction 1 as [|x y z Hxy Hs IH]; [done|]. intros Hok. by apply IH, (manager_step_ok x). Qed.

Lemma manager_reachable_ok m : reachable m → manager_ok m.
Proof. intros Hr. by eapply manager_steps_ok, manager_new_ok. Qed.

(** An agent is never replaced. *)
Lemma slow_stays m m' b a : rtc step m m' → manager_ok m → odm_slow m !! b = Some a → odm_slow m' !! b = Some a.
Proof.
  induction 1 as [|x y z Hxy Hs IH]; [done|]. intros Hok Ha. apply IH; [by eapply manager_step_ok|].
  destruct Hxy as [m k b' Hk|m k b' Hk|m k b' Hk|m k b' n Hk|m k b' n r Hk|m k b' n x Hk|m k b' Hk|m k b' pc Hk]; try done.
  - unfold load_slow. repeat case_match; done.
  - cbn. rewrite lookup_insert_ne; [done|]. intros ->.
    pose proof (ok_call _ Hok _ _ Hk) as Hn. cbn in Hn. rewrite (ok_slow _ Hok _ _ Ha) in Hn. done.
Qed.

(** C27. There is one agent for a bucket: whichever calls ask for it, at the same time or one after
    the other, every call that returns an agent returns the same one. *)
Theorem one_agent_per_bucket m m' b k k' a a' :
  reachable m → rtc step m m' →
  odm_calls m !! k = Some (b, Returned (inr a)) → odm_calls m' !! k' = Some (b, Returned (inr a')) → a' = a.
Proof.
  intros Hok%manager_reachable_ok Hs Hk Hk'.
  pose proof (ok_call _ Hok _ _ Hk) as Ha. pose proof (ok_call _ (manager_steps_ok _ _ Hs Hok) _ _ Hk') as Ha'. cbn in Ha, Ha'.
  apply (slow_stays _ _ _ _ Hs Hok) in Ha. congruence.
Qed.

(** ** Calls that never return *)

(** The bucket has no agent, and the [Notify] of a creation that nobody goes on with. *)
Definition abandoned b m : Prop :=
  odm_slow m !! b = None
  ∧ ∃ n, odm_notif m !! b = Some n ∧ ∀ k c, odm_calls m !! k = Some c → maker c.2 ≠ Some n.

(** The call waits, or is about to wait, for a creation that has ended. *)
Definition missed k m : Prop :=
  ∃ b pc n, odm_calls m !! k = Some (b, pc) ∧ (pc = Registering n ∨ pc = Waiting n) ∧ odm_notif m !! b ≠ Some n.

Lemma goto_abandoned k b pc m b0 pc0 :
  odm_calls m !! k = Some (b, pc0) → (∀ n, maker pc = Some n → maker pc0 = Some n) →
  abandoned b0 m → abandoned b0 (goto k b pc m).
Proof.
  intros Hk Hm (Hs & n & Hn & Hno). split; [done|]. exists n. split; [done|]. cbn.
  intros k' c [[<- <-]|[? H']]%lookup_insert_Some; [|by apply (Hno k')].
  intros Hpc. by apply (Hno k _ Hk), Hm.
Qed.

(** A call that makes no agent moves. *)
Lemma goto_not_abandoned k b pc m b0 pc0 :
  odm_calls m !! k = Some (b, pc0) → maker pc0 = None → ¬ abandoned b0 m → ¬ abandoned b0 (goto k b pc m).
Proof.
  intros Hk Hm Hna (Hs & n & Hn & Hno). apply Hna. split; [done|]. exists n. split; [done|].
  intros k' c Hk' Hc. destruct (decide (k = k')) as [<-|Hne]; [rewrite Hk in Hk'; simplify_eq; cbn in Hc; congruence|].
  apply (Hno k' c); [|done]. cbn. by rewrite lookup_insert_ne.
Qed.

Lemma step_abandoned m m' b : step m m' → manager_ok m → abandoned b m → abandoned b m'.
Proof.
  intros Hstep Hok Ha. destruct Hstep as [m k b' Hk|m k b' Hk|m k b' Hk|m k b' n Hk|m k b' n r Hk|m k b' n x Hk|m k b' Hk|m k b' pc Hk].
  - destruct Ha as (Hs & n & Hn & Hno). split; [done|]. exists n. split; [done|]. cbn.
    intros k' c [[<- <-]|[? H']]%lookup_insert_Some; [done|by apply (Hno k')].
  - eapply goto_abandoned; [done| |done]. by case_match.
  - unfold load_slow. destruct (odm_slow m !! b') eqn:Hs; [by eapply goto_abandoned|].
    destruct (odm_notif m !! b') eqn:Hn; [by eapply goto_abandoned|].
    destruct Ha as (Hs' & n & Hn' & Hno). split; [done|]. exists n. cbn.
    split; [by rewrite lookup_insert_ne by congruence|].
    intros k' c [[<- <-]|[? H']]%lookup_insert_Some; [|by apply (Hno k')].
    intros [= <-]. apply (ok_fresh _ Hok) in Hn'. lia.
  - by eapply goto_abandoned.
  - eapply goto_abandoned; [done| |done]. intros n'. by destruct r.
  - pose proof (ok_call _ Hok _ _ Hk) as Hn. cbn in Hn. destruct Ha as (Hs & n' & Hn' & Hno).
    assert (b ≠ b') as Hb. { intros ->. apply (Hno k _ Hk). cbn. congruence. }
    split; cbn; [by rewrite lookup_insert_ne|]. exists n'. split; [by rewrite lookup_delete_ne|].
    intros k' c [[<- <-]|[? H']]%lookup_insert_Some; [done|].
    rewrite lookup_fmap in H'. destruct (odm_calls m !! k') as [c'|] eqn:Hk'; [|done]. cbn in H'. simplify_eq.
    rewrite maker_wake. by apply (Hno k').
  - destruct (goto_abandoned k b' LoadFast m b Rebuilding) as (Hs & n & Hn & Hno); [done..|].
    split; [done|]. by exists n.
  - by eapply goto_abandoned.
Qed.

Lemma abandoned_stays m m' b : rtc step m m' → manager_ok m → abandoned b m → abandoned b m'.
Proof.
  induction 1 as [|x y z Hxy Hs IH]; [done|]. intros Hok Ha. apply IH; [by eapply manager_step_ok|by eapply step_abandoned].
Qed.

(** A call of an abandoned bucket never has an agent. *)
Lemma abandoned_no_agent m k b a : manager_ok m → abandoned b m → odm_calls m !! k ≠ Some (b, Returned (inr a)).
Proof. intros Hok [Hs _] Hk. apply (ok_call _ Hok) in Hk. cbn in Hk. congruence. Qed.

(** A call that missed its creation stays where it is, until it is dropped. *)
Definition missed_or_dropped k b m : Prop :=
  odm_calls m !! k = Some (b, Dropped)
  ∨ ∃ pc n, odm_calls m !! k = Some (b, pc) ∧ (pc = Registering n ∨ pc = Waiting n) ∧ odm_notif m !! b ≠ Some n.

Lemma step_missed m m' k b : step m m' → manager_ok m → missed_or_dropped k b m → missed_or_dropped k b m'.
Proof.
  intros Hstep Hok Hm.
  assert (∃ pc, odm_calls m !! k = Some (b, pc)) as [pc0 Hpc0] by (destruct Hm as [?|(pc & n & ? & _)]; eauto).
  assert (∀ k' b' pc m1, odm_calls m1 = odm_calls m → k' ≠ k → (∀ n, (n < odm_fresh m)%nat → odm_notif m !! b ≠ Some n →
      odm_notif m1 !! b ≠ Some n) → missed_or_dropped k b (goto k' b' pc m1)) as Hother.
  { intros k' b' pc m1 Hcalls Hne Hnot. destruct Hm as [Hd|(pc1 & n & Hk & Hpc & Hn)].
    - left. cbn. rewrite lookup_insert_ne by done. by rewrite Hcalls.
    - right. exists pc1, n. cbn. rewrite lookup_insert_ne, Hcalls by done. split_and!; [done..|].
      apply Hnot; [|done]. pose proof (ok_call _ Hok _ _ Hk) as Hcok. by destruct Hpc as [-> | ->], Hcok. }
  assert (∀ n, (n < odm_fresh m)%nat → odm_notif m !! b ≠ Some n → odm_notif m !! b ≠ Some n) as Hsame by auto.
  destruct Hstep as [m k' b' Hk|m k' b' Hk|m k' b' Hk|m k' b' n Hk|m k' b' n r Hk|m k' b' n x Hk|m k' b' Hk|m k' b' pc Hk];
    (destruct (decide (k' = k)) as [->|Hne];
     [destruct Hm as [Hd|(pc1 & n1 & Hk1 & Hpc & Hn1)]; try congruence|]).
  all: try (by apply Hother). all: try (destruct Hpc; congruence).
  - unfold load_slow. destruct (odm_slow m !! b'); [by apply Hother|].
    destruct (odm_notif m !! b') eqn:Hn'; [by apply Hother|]. apply Hother; [done..|]. cbn.
    intros n Hlt Hn [[<- <-]|[? ?]]%lookup_insert_Some; [lia|done].
  - right. exists (Waiting n), n. cbn. rewrite lookup_insert_eq.
    assert (b' = b ∧ n1 = n) as [-> ->] by (destruct Hpc; split; congruence).
    split_and!; [done|by right|done].
  - pose proof (ok_call _ Hok _ _ Hk) as Hn. cbn in Hn.
    destruct Hm as [Hd|(pc1 & n1 & Hk1 & Hpc & Hn1)]; [left|right]; cbn.
    + rewrite lookup_insert_ne, lookup_fmap, Hd by done. done.
    + assert (∀ b1, odm_notif m !! b1 = Some n1 → b1 = b) as Hu.
      { pose proof (ok_call _ Hok _ _ Hk1) as Hcok. by destruct Hpc as [-> | ->], Hcok as (_ & Hu & _). }
      exists pc1, n1. rewrite lookup_insert_ne, lookup_fmap, Hk1 by done. cbn.
      assert (n1 ≠ n) as Hnn. { intros ->. apply Hn1. by rewrite <-(Hu b'). }
      split_and!; [|done|].
      * destruct Hpc as [-> | ->]; [done|]. cbn. by rewrite bool_decide_false.
      * intros [? ?]%lookup_delete_Some. done.
  - left. cbn. rewrite lookup_insert_eq. congruence.
  - left. cbn. rewrite lookup_insert_eq. congruence.
Qed.

(** ** Calls that can return *)

Definition can_return m k b : Prop := ∃ m' a, rtc step m m' ∧ odm_calls m' !! k = Some (b, Returned (inr a)).

Lemma can_return_step m m' k b : step m m' → can_return m' k b → can_return m k b.
Proof. intros Hs (m2 & a & Hr & Hk). exists m2, a. split; [by eapply rtc_l|done]. Qed.

Lemma can_return_steps m m' k b : rtc step m m' → can_return m' k b → can_return m k b.
Proof. intros Hs (m2 & a & Hr & Hk). exists m2, a. split; [by etrans|done]. Qed.

(** With an agent in the slow map. *)
Lemma rebuilding_returns m k b a :
  odm_slow m !! b = Some a → odm_calls m !! k = Some (b, Rebuilding) → can_return m k b.
Proof.
  intros Hs Hk. eapply can_return_step; [by apply step_rebuild|].
  eapply can_return_step; [apply step_load_fast; cbn; by rewrite lookup_insert_eq|].
  eexists _, a. split; [apply rtc_refl|]. unfold load_fast. cbn. rewrite Hs. by rewrite lookup_insert_eq.
Qed.

Lemma load_slow_returns m k b a :
  odm_slow m !! b = Some a → odm_calls m !! k = Some (b, LoadSlow) → can_return m k b.
Proof.
  intros Hs Hk. eapply can_return_step; [by apply step_load_slow|]. unfold load_slow. rewrite Hs.
  apply (rebuilding_returns _ _ _ a); [done|]. cbn. by rewrite lookup_insert_eq.
Qed.

(** A call at the head of the loop returns or goes on to the slow map. *)
Lemma load_fast_returns m k b :
  odm_calls m !! k = Some (b, LoadFast) → can_return (goto k b LoadSlow m) k b → can_return m k b.
Proof.
  intros Hk Hret. eapply can_return_step; [by apply step_load_fast|]. unfold load_fast.
  destruct (odm_fast m !! b) as [a|]; [|done]. eexists _, a. split; [apply rtc_refl|]. cbn. by rewrite lookup_insert_eq.
Qed.

(** A creation that goes on ends with the agent in the slow map, and wakes those that wait for it. *)
Lemma maker_inserts `{Inhabited A} m k b pc n :
  odm_calls m !! k = Some (b, pc) → maker pc = Some n →
  ∃ m' a, rtc step m m' ∧ odm_slow m' !! b = Some a ∧ odm_calls m' !! k = Some (b, Rebuilding)
    ∧ ∀ k', k' ≠ k → odm_calls m' !! k' = wake n <$> odm_calls m !! k'.
Proof.
  intros Hk Hm.
  assert (∃ m1 a, rtc step m m1 ∧ odm_calls m1 = <[k := (b, Inserting n a)]> (odm_calls m)) as (m1 & a & Hs1 & Hc1).
  { destruct pc as [| | | |n1|n1 a| | |]; try done; cbn in Hm; simplify_eq.
    - exists (agent_made k b n (inr inhabitant) m), inhabitant. split; [|done]. apply rtc_once. by apply step_made.
    - exists m, a. split; [apply rtc_refl|]. by rewrite insert_id. }
  exists (insert_agent k b n a m1), a. split_and!.
  - eapply rtc_r; [done|]. apply step_insert. by rewrite Hc1, lookup_insert_eq.
  - cbn. by rewrite lookup_insert_eq.
  - cbn. by rewrite lookup_insert_eq.
  - intros k' Hne. cbn. rewrite lookup_insert_ne, lookup_fmap, Hc1, lookup_insert_ne by done. done.
Qed.

Lemma making_returns `{Inhabited A} m k b n : odm_calls m !! k = Some (b, Making n) → can_return m k b.
Proof.
  intros Hk. destruct (maker_inserts m k b (Making n) n Hk eq_refl) as (m' & a & Hs & Ha & Hc & _).
  eapply can_return_steps; [done|]. by eapply rebuilding_returns.
Qed.

(** A call that can still find the agent, or will be woken, returns once another one inserted it. *)
Lemma waker_returns `{Inhabited A} m k k' b pc pc' n :
  odm_calls m !! k' = Some (b, pc') → maker pc' = Some n → odm_calls m !! k = Some (b, pc) → k ≠ k' →
  pc = LoadSlow ∨ pc = Waiting n → can_return m k b.
Proof.
  intros Hk' Hm Hk Hne Hpc. destruct (maker_inserts m k' b pc' n Hk' Hm) as (m' & a & Hs & Ha & _ & Hrest).
  eapply can_return_steps; [done|]. specialize (Hrest k Hne). rewrite Hk in Hrest. cbn in Hrest.
  destruct Hpc as [-> | ->].
  - by eapply load_slow_returns.
  - rewrite bool_decide_true in Hrest by done. by eapply rebuilding_returns.
Qed.

(** A call at the slow map of a bucket that is not abandoned. *)
Lemma load_slow_can_return `{Inhabited A} m k b :
  manager_ok m → ¬ abandoned b m → odm_calls m !! k = Some (b, LoadSlow) → can_return m k b.
Proof.
  intros Hok Hna Hk. destruct (odm_slow m !! b) as [a|] eqn:Hs; [by eapply load_slow_returns|].
  destruct (odm_notif m !! b) as [n|] eqn:Hn.
  - destruct (decide (map_Exists (λ _ c, maker c.2 = Some n) (odm_calls m))) as [(k' & [b' pc'] & Hk' & Hm)|Hno].
    + cbn in Hm. assert (b' = b) as ->.
      { pose proof (ok_call _ Hok _ _ Hk') as Hc. apply (ok_inj _ Hok _ _ n); [|done]. destruct pc'; cbn in *; congruence. }
      apply (waker_returns m k k' b LoadSlow pc' n); [done..| |by left]. intros ->. rewrite Hk in Hk'. by simplify_eq.
    + exfalso. apply Hna. split; [done|]. exists n. split; [done|]. intros k' c Hk' Hm. apply Hno. by exists k', c.
  - eapply can_return_step; [by apply step_load_slow|]. unfold load_slow. rewrite Hs, Hn.
    apply (making_returns _ _ _ (odm_fresh m)). cbn. by rewrite lookup_insert_eq.
Qed.

Lemma waiting_can_return `{Inhabited A} m k b n :
  manager_ok m → ¬ abandoned b m → odm_notif m !! b = Some n → odm_calls m !! k = Some (b, Waiting n) → can_return m k b.
Proof.
  intros Hok Hna Hn Hk.
  assert (odm_slow m !! b = None) as Hs.
  { destruct (odm_slow m !! b) as [a|] eqn:Ha; [|done]. apply (ok_slow _ Hok) in Ha. congruence. }
  destruct (decide (map_Exists (λ _ c, maker c.2 = Some n) (odm_calls m))) as [(k' & [b' pc'] & Hk' & Hm)|Hno].
  - cbn in Hm. assert (b' = b) as ->.
    { pose proof (ok_call _ Hok _ _ Hk') as Hc. apply (ok_inj _ Hok _ _ n); [|done]. destruct pc'; cbn in *; congruence. }
    apply (waker_returns m k k' b (Waiting n) pc' n); [done..| |by right]. intros ->. rewrite Hk in Hk'. by simplify_eq.
  - exfalso. apply Hna. split; [done|]. exists n. split; [done|]. intros k' c Hk' Hm. apply Hno. by exists k', c.
Qed.

(** The calls that have not ended. *)
Definition active pc : Prop := match pc with Returned _ | Dropped => False | _ => True end.

(** C28. Exactly two kinds of calls can never get their agent.  A call that asks for the agent of a
    bucket, and has not ended, has a way to return it, unless the creation of that bucket's agent
    was abandoned, by an error or because its caller was dropped: then no call for the bucket ever
    returns an agent; or unless the creation it waits for, or is about to wait for, has ended
    without waking it. *)
Theorem bucket_agent_can_return_iff `{Inhabited A} m k b pc :
  reachable m → odm_calls m !! k = Some (b, pc) → active pc →
  can_return m k b ↔ ¬ abandoned b m ∧ ¬ missed k m.
Proof.
  intros Hok%manager_reachable_ok Hk Hact. split.
  - intros (m' & a & Hs & Hk'). pose proof (manager_steps_ok _ _ Hs Hok) as Hok'. split.
    + intros Hab. by apply (abandoned_no_agent m' k b a Hok' (abandoned_stays _ _ _ Hs Hok Hab)).
    + intros (b' & pc' & n & Hk2 & Hpc & Hn). rewrite Hk in Hk2. simplify_eq.
      assert (missed_or_dropped k b' m') as [Hd|(pc2 & n2 & Hk2 & Hpc2 & _)]; [|congruence|destruct Hpc2; congruence].
      assert (missed_or_dropped k b' m) as Hm by (right; eauto). clear -Hs Hok Hm. revert Hok Hm.
      induction Hs as [|x y z Hxy Hs IH]; [done|]. intros Hok Hm. apply IH; [by eapply manager_step_ok|by eapply step_missed].
  - intros [Hna Hnm]. destruct pc as [| |n|n|n|n a| | |]; try done.
    + apply load_fast_returns; [done|]. apply load_slow_can_return; [by apply goto_idle_ok| |cbn; by rewrite lookup_insert_eq].
      by eapply goto_not_abandoned.
    + by apply load_slow_can_return.
    + assert (odm_notif m !! b = Some n) as Hn.
      { destruct (decide (odm_notif m !! b = Some n)); [done|]. destruct Hnm. exists b, (Registering n), n. eauto. }
      eapply can_return_step; [by apply step_register|].
      apply (waiting_can_return _ _ _ n); [|  |done|cbn; by rewrite lookup_insert_eq].
      * apply goto_idle_ok; [done| |done]. by apply (ok_call _ Hok _ _ Hk).
      * by eapply goto_not_abandoned.
    + assert (odm_notif m !! b = Some n) as Hn.
      { destruct (decide (odm_notif m !! b = Some n)); [done|]. destruct Hnm. exists b, (Waiting n), n. eauto. }
      by apply (waiting_can_return _ _ _ n).
    + by eapply making_returns.
    + destruct (maker_inserts m k b (Inserting n a) n Hk eq_refl) as (m' & x & Hs & Ha & Hc & _).
      eapply can_return_steps; [done|]. by eapply rebuilding_returns.
    + pose proof (ok_call _ Hok _ _ Hk) as [a Ha]. by eapply rebuilding_returns.
Qed.

(** An error of [Agent::new], or a caller that is dropped while it waits for it, abandons the bucket:
    the next call for it waits for ever, and so does every other. *)
Lemma ended_creation_abandons m k b n pc :
  reachable m → odm_calls m !! k = Some (b, Making n) → (∃ e, pc = Returned (inl e)) ∨ pc = Dropped →
  step m (goto k b pc m) ∧ abandoned b (goto k b pc m).
Proof.
  intros Hok%manager_reachable_ok Hk Hpc. pose proof (ok_call _ Hok _ _ Hk) as Hn. cbn in Hn. split.
  - destruct Hpc as [[e ->] | ->]; [by apply (step_made m k b n (inl e))|by eapply step_drop].
  - split.
    + cbn. destruct (odm_slow m !! b) as [a|] eqn:Ha; [|done]. apply (ok_slow _ Hok) in Ha. congruence.
    + exists n. split; [done|]. cbn. intros k' c [[<- <-]|[Hne Hk']]%lookup_insert_Some Hm.
      * by destruct Hpc as [[e ->] | ->].
      * apply Hne. by eapply (ok_maker _ Hok k k' (b, Making n) c n).
Qed.

End Manager.

(** ** Witnesses *)

(** Two calls for the same bucket: the first one is making its agent. *)
Definition first_call : OnDemandAgentManager nat string :=
  load_slow 0 "b" (load_fast 0 "b" (goto 0 "b" LoadFast manager_new)).
Definition both_returned : OnDemandAgentManager nat string :=
  let m := insert_agent 0 "b" 0 7%nat (agent_made 0 "b" 0 (inr 7%nat) first_call) in
  let m := load_fast 0 "b" (rebuild_fast_map 0 "b" m) in
  load_fast 1 "b" (goto 1 "b" LoadFast m).

Lemma first_call_reachable : reachable first_call.
Proof.
  unfold first_call. eapply rtc_l. { by apply (step_call _ 0 "b"). }
  eapply rtc_l. { by apply (step_load_fast _ 0 "b"). }
  apply rtc_once. by apply (step_load_slow _ 0 "b").
Qed.

Lemma both_returned_steps : rtc step first_call both_returned.
Proof.
  unfold both_returned.
  eapply rtc_l. { by apply (step_made _ 0 "b" 0 (inr 7%nat)). }
  eapply rtc_l. { by apply (step_insert _ 0 "b" 0 7%nat). }
  eapply rtc_l. { by apply (step_rebuild _ 0 "b"). }
  eapply rtc_l. { by apply (step_load_fast _ 0 "b"). }
  eapply rtc_l. { by apply (step_call _ 1 "b"). }
  apply rtc_once. by apply (step_load_fast _ 1 "b").
Qed.

Lemma one_agent_per_bucket_witness :
  odm_calls both_returned !! 0%nat = Some ("b", Returned (inr 7%nat)) ∧ (7 = 7)%nat.
Proof.
  split; [reflexivity|].
  apply (one_agent_per_bucket both_returned both_returned "b" 0%nat 1%nat 7%nat 7%nat); [|apply rtc_refl|reflexivity|reflexivity].
  unfold reachable. etransitivity; [apply first_call_reachable|apply both_returned_steps].
Defined.

Lemma bucket_agent_can_return_iff_witness :
  can_return first_call 0 "b" ↔ ¬ abandoned "b" first_call ∧ ¬ missed 0 first_call.
Proof.
  apply (bucket_agent_can_return_iff first_call 0%nat "b" (Making 0)); [apply first_call_reachable|reflexivity|exact I].
Defined.
