(* ===== verification/BucketSettings.v ===== *)
(** * Settings of a bucket ([mgmtx/bucket_settings.rs], [mgmtx/bucket_settings_json.rs])

    The settings that an application gives, as the pairs of a form that is sent to the server, and
    the JSON document of a bucket that the server gives, as settings. *)

From S2P Require Import Prelude Wire.

(** ** The choices

    Each with its text; a text that is not known is kept. *)

Module StoredBucketType.
Inductive StoredBucketType : Type := | Couchbase | Ephemeral | Other (val : string).
End StoredBucketType.
Abbreviation StoredBucketType := StoredBucketType.StoredBucketType.
#[global] Instance stored_bucket_type_eq_dec : EqDecision StoredBucketType.
Proof. solve_decision. Defined.

Definition stored_bucket_type_display (x : StoredBucketType) : string :=
  match x with
  | StoredBucketType.Couchbase => "membase"
  | StoredBucketType.Ephemeral => "ephemeral"
  | StoredBucketType.Other val => "unknown(" +:+ val +:+ ")"
  end.

Definition deserialize_bucket_type (s : option string) : option StoredBucketType :=
  (λ other,
    if bool_decide (other = "membase"%string) then StoredBucketType.Couchbase
    else if bool_decide (other = "ephemeral"%string) then StoredBucketType.Ephemeral
    else StoredBucketType.Other other) <$> s.

Module EvictionPolicyType.
Inductive EvictionPolicyType : Type := | ValueOnly | Full | NotRecentlyUsed | NoEviction | Other (val : string).
End EvictionPolicyType.
Abbreviation EvictionPolicyType := EvictionPolicyType.EvictionPolicyType.
#[global] Instance eviction_policy_type_eq_dec : EqDecision EvictionPolicyType.
Proof. solve_decision. Defined.

Definition eviction_policy_type_display (x : EvictionPolicyType) : string :=
  match x with
  | EvictionPolicyType.ValueOnly => "valueOnly"
  | EvictionPolicyType.Full => "fullEviction"
  | EvictionPolicyType.NotRecentlyUsed => "nruEviction"
  | EvictionPolicyType.NoEviction => "noEviction"
  | EvictionPolicyType.Other val => "unknown(" +:+ val +:+ ")"
  end.

Definition deserialize_eviction_policy (s : option string) : option EvictionPolicyType :=
  (λ other,
    if bool_decide (other = "valueOnly"%string) then EvictionPolicyType.ValueOnly
    else if bool_decide (other = "fullEviction"%string) then EvictionPolicyType.Full
    else if bool_decide (other = "nruEviction"%string) then EvictionPolicyType.NotRecentlyUsed
    else if bool_decide (other = "noEviction"%string) then EvictionPolicyType.NoEviction
    else EvictionPolicyType.Other other) <$> s.

Module BucketCompressionMode.
Inductive BucketCompressionMode : Type := | Off | Passive | Active | Other (val : string).
End BucketCompressionMode.
Abbreviation BucketCompressionMode := BucketCompressionMode.BucketCompressionMode.
#[global] Instance bucket_compression_mode_eq_dec : EqDecision BucketCompressionMode.
Proof. solve_decision. Defined.

Definition bucket_compression_mode_display (x : BucketCompressionMode) : string :=
  match x with
  | BucketCompressionMode.Off => "off"
  | BucketCompressionMode.Passive => "passive"
  | BucketCompressionMode.Active => "active"
  | BucketCompressionMode.Other val => "unknown(" +:+ val +:+ ")"
  end.

Definition deserialize_compression_mode (s : option string) : option BucketCompressionMode :=
  (λ other,
    if bool_decide (other = "off"%string) then BucketCompressionMode.Off
    else if bool_decide (other = "passive"%string) then BucketCompressionMode.Passive
    else if bool_decide (other = "active"%string) then BucketCompressionMode.Active
    else BucketCompressionMode.Other other) <$> s.

Module BucketDurabilityLevel.
Inductive BucketDurabilityLevel : Type := | None_ | Majority | MajorityAndPersistActive | PersistToMajority | Other (val : string).
End BucketDurabilityLevel.
Abbreviation BucketDurabilityLevel := BucketDurabilityLevel.BucketDurabilityLevel.
#[global] Instance bucket_durability_level_eq_dec : EqDecision BucketDurabilityLevel.
Proof. solve_decision. Defined.

Definition bucket_durability_level_display (x : BucketDurabilityLevel) : string :=
  match x with
  | BucketDurabilityLevel.None_ => "none"
  | BucketDurabilityLevel.Majority => "majority"
  | BucketDurabilityLevel.MajorityAndPersistActive => "majorityAndPersistActive"
  | BucketDurabilityLevel.PersistToMajority => "persistToMajority"
  | BucketDurabilityLevel.Other val => "unknown(" +:+ val +:+ ")"
  end.

Definition deserialize_durability_level (s : option string) : option BucketDurabilityLevel :=
  (λ other,
    if bool_decide (other = "none"%string) then BucketDurabilityLevel.None_
    else if bool_decide (other = "majority"%string) then BucketDurabilityLevel.Majority
    else if bool_decide (other = "majorityAndPersistActive"%string) then BucketDurabilityLevel.MajorityAndPersistActive
    else if bool_decide (other = "persistToMajority"%string) then BucketDurabilityLevel.PersistToMajority
    else BucketDurabilityLevel.Other other) <$> s.

Module ConflictResolutionType.
Inductive ConflictResolutionType : Type := | SequenceNumber | Timestamp | Custom | Other (val : string).
End ConflictResolutionType.
Abbreviation ConflictResolutionType := ConflictResolutionType.ConflictResolutionType.
#[global] Instance conflict_resolution_type_eq_dec : EqDecision ConflictResolutionType.
Proof. solve_decision. Defined.

Definition conflict_resolution_type_display (x : ConflictResolutionType) : string :=
  match x with
  | ConflictResolutionType.SequenceNumber => "seqno"
  | ConflictResolutionType.Timestamp => "lww"
  | ConflictResolutionType.Custom => "custom"
  | ConflictResolutionType.Other val => "unknown(" +:+ val +:+ ")"
  end.

Definition deserialize_conflict_resolution_type (s : option string) : option ConflictResolutionType :=
  (λ other,
    if bool_decide (other = "seqno"%string) then ConflictResolutionType.SequenceNumber
    else if bool_decide (other = "lww"%string) then ConflictResolutionType.Timestamp
    else if bool_decide (other = "custom"%string) then ConflictResolutionType.Custom
    else ConflictResolutionType.Other other) <$> s.

Module StorageBackend.
Inductive StorageBackend : Type := | Couchstore | Magma | Other (val : string).
End StorageBackend.
Abbreviation StorageBackend := StorageBackend.StorageBackend.
#[global] Instance storage_backend_eq_dec : EqDecision StorageBackend.
Proof. solve_decision. Defined.

Definition storage_backend_display (x : StorageBackend) : string :=
  match x with
  | StorageBackend.Couchstore => "couchstore"
  | StorageBackend.Magma => "magma"
  | StorageBackend.Other val => "unknown(" +:+ val +:+ ")"
  end.

Definition deserialize_storage_backend (s : option string) : option StorageBackend :=
  (λ other,
    if bool_decide (other = "couchstore"%string) then StorageBackend.Couchstore
    else if bool_decide (other = "magma"%string) then StorageBackend.Magma
    else StorageBackend.Other other) <$> s.

(** ** Settings *)

Module BucketSettings.
Record BucketSettings : Type := mk {
  flush_enabled : option bool;
  ram_quota_mb : option Z;
  replica_number : option Z;
  eviction_policy : option EvictionPolicyType;
  max_ttl : option Duration;
  compression_mode : option BucketCompressionMode;
  durability_min_level : option BucketDurabilityLevel;
  history_retention_collection_default : option bool;
  history_retention_bytes : option Z;
  history_retention_seconds : option Z;
  conflict_resolution_type : option ConflictResolutionType;
  replica_index : option bool;
  bucket_type : option StoredBucketType;
  storage_backend : option StorageBackend;
  num_vbuckets : option Z;
}.
End BucketSettings.
Abbreviation BucketSettings := BucketSettings.BucketSettings.
#[global] Instance bucket_settings_settable : Settable (BucketSettings) := λ r,
  BucketSettings.mk (BucketSettings.flush_enabled r) (BucketSettings.ram_quota_mb r)
    (BucketSettings.replica_number r) (BucketSettings.eviction_policy r) (BucketSettings.max_ttl r)
    (BucketSettings.compression_mode r) (BucketSettings.durability_min_level r)
    (BucketSettings.history_retention_collection_default r) (BucketSettings.history_retention_bytes r)
    (BucketSettings.history_retention_seconds r) (BucketSettings.conflict_resolution_type r)
    (BucketSettings.replica_index r) (BucketSettings.bucket_type r) (BucketSettings.storage_backend r)
    (BucketSettings.num_vbuckets r).

Definition bucket_settings_flush_enabled (flush_enabled : bool) (self : BucketSettings) : BucketSettings :=
  self <| BucketSettings.flush_enabled := Some flush_enabled |>.

Definition bucket_settings_ram_quota_mb (ram_quota_mb : Z) (self : BucketSettings) : BucketSettings :=
  self <| BucketSettings.ram_quota_mb := Some ram_quota_mb |>.

Definition bucket_settings_replica_number (replica_number : Z) (self : BucketSettings) : BucketSettings :=
  self <| BucketSettings.replica_number := Some replica_number |>.

Definition bucket_settings_eviction_policy (eviction_policy : EvictionPolicyType)
    (self : BucketSettings) : BucketSettings :=
  self <| BucketSettings.eviction_policy := Some eviction_policy |>.

Definition bucket_settings_max_ttl (max_ttl : Duration) (self : BucketSettings) : BucketSettings :=
  self <| BucketSettings.max_ttl := Some max_ttl |>.

Definition bucket_settings_compression_mode (compression_mode : BucketCompressionMode)
    (self : BucketSettings) : BucketSettings :=
  self <| BucketSettings.compression_mode := Some compression_mode |>.

Definition bucket_settings_durability_min_level (durability_min_level : BucketDurabilityLevel)
    (self : BucketSettings) : BucketSettings :=
  self <| BucketSettings.durability_min_level := Some durability_min_level |>.

Definition bucket_settings_history_retention_collection_default (history_retention_collection_default : bool)
    (self : BucketSettings) : BucketSettings :=
  self <| BucketSettings.history_retention_collection_default := Some history_retention_collection_default |>.

Definition bucket_settings_history_retention_bytes (history_retention_bytes : Z)
    (self : BucketSettings) : BucketSettings :=
  self <| BucketSettings.history_retention_bytes := Some history_retention_bytes |>.

Definition bucket_settings_history_retention_seconds (history_retention_seconds : Z)
    (self : BucketSettings) : BucketSettings :=
  self <| BucketSettings.history_retention_seconds := Some history_retention_seconds |>.

Definition bucket_settings_conflict_resolution_type (conflict_resolution_type : ConflictResolutionType)
    (self : BucketSettings) : BucketSettings :=
  self <| BucketSettings.conflict_resolution_type := Some conflict_resolution_type |>.

Definition bucket_settings_replica_index (replica_index : bool) (self : BucketSettings) : BucketSettings :=
  self <| BucketSettings.replica_index := Some replica_index |>.

Definition bucket_settings_bucket_type (bucket_type : StoredBucketType) (self : BucketSettings) : BucketSettings :=
  self <| BucketSettings.bucket_type := Some bucket_type |>.

Definition bucket_settings_storage_backend (storage_backend : StorageBackend)
    (self : BucketSettings) : BucketSettings :=
  self <| BucketSettings.storage_backend := Some storage_backend |>.

Definition bucket_settings_num_vbuckets (num_vbuckets : Z) (self : BucketSettings) : BucketSettings :=
  self <| BucketSettings.num_vbuckets := Some num_vbuckets |>.

Definition bucket_settings_default : BucketSettings :=
  BucketSettings.mk None None None None None None None None None None None None None None None.

Module BucketDef.
Record BucketDef : Type := mk {
  name : string;
  bucket_settings : BucketSettings;
}.
End BucketDef.
Abbreviation BucketDef := BucketDef.BucketDef.
#[global] Instance bucket_def_settable : Settable (BucketDef) := λ r,
  BucketDef.mk (BucketDef.name r) (BucketDef.bucket_settings r).

Definition bucket_def_new (name : string) (bucket_settings : BucketSettings) : BucketDef :=
  BucketDef.mk name bucket_settings.

(** ** The document of a bucket *)

Module Controllers.
Record Controllers : Type := mk {
  flush : option string;
}.
End Controllers.
Abbreviation Controllers := Controllers.Controllers.
#[global] Instance controllers_settable : Settable (Controllers) := λ r,
  Controllers.mk (Controllers.flush r).

Module Quota.
Record Quota : Type := mk {
  ram : Z;
  raw_ram : Z;
}.
End Quota.
Abbreviation Quota := Quota.Quota.
#[global] Instance quota_settable : Settable (Quota) := λ r,
  Quota.mk (Quota.ram r) (Quota.raw_ram r).

Module BucketSettingsJson.
Record BucketSettingsJson : Type := mk {
  name : string;
  controllers : option Controllers;
  replica_index : option bool;
  quota : Quota;
  replica_number : option Z;
  bucket_type : option StoredBucketType;
  conflict_resolution_type : option ConflictResolutionType;
  eviction_policy : option EvictionPolicyType;
  max_ttl : option Z;
  compression_mode : option BucketCompressionMode;
  durability_min_level : option BucketDurabilityLevel;
  storage_backend : option StorageBackend;
  history_retention_collection_default : option bool;
  history_retention_bytes : option Z;
  history_retention_seconds : option Z;
  num_vbuckets : option Z;
}.
End BucketSettingsJson.
Abbreviation BucketSettingsJson := BucketSettingsJson.BucketSettingsJson.
#[global] Instance bucket_settings_json_settable : Settable (BucketSettingsJson) := λ r,
  BucketSettingsJson.mk (BucketSettingsJson.name r) (BucketSettingsJson.controllers r)
    (BucketSettingsJson.replica_index r) (BucketSettingsJson.quota r) (BucketSettingsJson.replica_number r)
    (BucketSettingsJson.bucket_type r) (BucketSettingsJson.conflict_resolution_type r)
    (BucketSettingsJson.eviction_policy r) (BucketSettingsJson.max_ttl r) (BucketSettingsJson.compression_mode
    r) (BucketSettingsJson.durability_min_level r) (BucketSettingsJson.storage_backend r)
    (BucketSettingsJson.history_retention_collection_default r) (BucketSettingsJson.history_retention_bytes r)
    (BucketSettingsJson.history_retention_seconds r) (BucketSettingsJson.num_vbuckets r).

(** [From<BucketSettingsJson> for BucketDef]. *)
Definition bucket_def_from (settings : BucketSettingsJson) : BucketDef :=
  BucketDef.mk (BucketSettingsJson.name settings)
    (BucketSettings.mk
       ((λ c, match Controllers.flush c with Some f => negb (bool_decide (f = ""%string)) | None => false end)
          <$> BucketSettingsJson.controllers settings)
       (Some (Quota.raw_ram (BucketSettingsJson.quota settings) / 1024 / 1024))
       (BucketSettingsJson.replica_number settings)
       (BucketSettingsJson.eviction_policy settings)
       ((λ d, d * 1000000000) <$> BucketSettingsJson.max_ttl settings)
       (BucketSettingsJson.compression_mode settings)
       (BucketSettingsJson.durability_min_level settings)
       (BucketSettingsJson.history_retention_collection_default settings)
       (BucketSettingsJson.history_retention_bytes settings)
       (BucketSettingsJson.history_retention_seconds settings)
       (BucketSettingsJson.conflict_resolution_type settings)
       (BucketSettingsJson.replica_index settings)
       (BucketSettingsJson.bucket_type settings)
       (BucketSettingsJson.storage_backend settings)
       (BucketSettingsJson.num_vbuckets settings)).

(** ** The form *)

Definition pair_of {A} (name : string) (text : A → string) (field : option A) : list (string * string) :=
  match field with Some x => [(name, text x)] | None => [] end.

Definition zero_or_one (b : bool) : string := if b then "1" else "0".
Definition bool_display (b : bool) : string := if b then "true" else "false".

(** The pairs that are appended, in their order. *)
Definition encode_bucket_settings (opts : BucketSettings) : list (string * string) :=
  pair_of "flushEnabled" zero_or_one (BucketSettings.flush_enabled opts)
  ++ pair_of "ramQuotaMB" show (BucketSettings.ram_quota_mb opts)
  ++ pair_of "replicaNumber" show (BucketSettings.replica_number opts)
  ++ pair_of "evictionPolicy" eviction_policy_type_display (BucketSettings.eviction_policy opts)
  ++ pair_of "maxTTL" (λ max_ttl, show (max_ttl / 1000000000)) (BucketSettings.max_ttl opts)
  ++ pair_of "compressionMode" bucket_compression_mode_display (BucketSettings.compression_mode opts)
  ++ pair_of "durabilityMinLevel" bucket_durability_level_display (BucketSettings.durability_min_level opts)
  ++ pair_of "historyRetentionBytes" show (BucketSettings.history_retention_bytes opts)
  ++ pair_of "historyRetentionSeconds" show (BucketSettings.history_retention_seconds opts)
  ++ pair_of "historyRetentionCollectionDefault" bool_display (BucketSettings.history_retention_collection_default opts)
  ++ pair_of "conflictResolutionType" conflict_resolution_type_display (BucketSettings.conflict_resolution_type opts)
  ++ pair_of "replicaIndex" zero_or_one (BucketSettings.replica_index opts)
  ++ pair_of "bucketType" stored_bucket_type_display (BucketSettings.bucket_type opts)
  ++ pair_of "storageBackend" storage_backend_display (BucketSettings.storage_backend opts)
  ++ pair_of "numVBuckets" show (BucketSettings.num_vbuckets opts).

(** ** What is read back *)

(** The texts of the choices that are known are read back; one that is not is changed. *)
Lemma eviction_policy_read_back x :
  (∀ val, x ≠ EvictionPolicyType.Other val) → deserialize_eviction_policy (Some (eviction_policy_type_display x)) = Some x.
Proof. destruct x; try done. naive_solver. Qed.
Lemma compression_mode_read_back x :
  (∀ val, x ≠ BucketCompressionMode.Other val) →
  deserialize_compression_mode (Some (bucket_compression_mode_display x)) = Some x.
Proof. destruct x; try done. naive_solver. Qed.
Lemma durability_level_read_back x :
  (∀ val, x ≠ BucketDurabilityLevel.Other val) →
  deserialize_durability_level (Some (bucket_durability_level_display x)) = Some x.
Proof. destruct x; try done. naive_solver. Qed.
Lemma conflict_resolution_type_read_back x :
  (∀ val, x ≠ ConflictResolutionType.Other val) →
  deserialize_conflict_resolution_type (Some (conflict_resolution_type_display x)) = Some x.
Proof. destruct x; try done. naive_solver. Qed.
Lemma bucket_type_read_back x :
  (∀ val, x ≠ StoredBucketType.Other val) → deserialize_bucket_type (Some (stored_bucket_type_display x)) = Some x.
Proof. destruct x; try done. naive_solver. Qed.
Lemma storage_backend_read_back x :
  (∀ val, x ≠ StorageBackend.Other val) → deserialize_storage_backend (Some (storage_backend_display x)) = Some x.
Proof. destruct x; try done. naive_solver. Qed.

Example unknown_choice_is_changed :
  deserialize_storage_backend (Some (storage_backend_display (StorageBackend.Other "x")))
  = Some (StorageBackend.Other "unknown(x)").
Proof. reflexivity. Qed.

(** The value of a name in a form. *)
Fixpoint form_get (name : string) (form : list (string * string)) : option string :=
  match form with
  | [] => None
  | (k, v) :: form => if bool_decide (k = name) then Some v else form_get name form
  end.

Lemma form_get_same {A} name (text : A → string) field rest :
  form_get name (pair_of name text field ++ rest)
  = match field with Some x => Some (text x) | None => form_get name rest end.
Proof. destruct field; cbn; [|done]. by rewrite bool_decide_true. Qed.

Lemma form_get_other {A} name name' (text : A → string) field rest :
  name' ≠ name → form_get name (pair_of name' text field ++ rest) = form_get name rest.
Proof. intros Hne. destruct field; cbn; [|done]. by rewrite bool_decide_false. Qed.

Lemma form_get_last {A} name name' (text : A → string) field :
  form_get name (pair_of name' text field) = if bool_decide (name' = name) then text <$> field else None.
Proof. destruct field; cbn; by case_bool_decide. Qed.

(** The value of a setting is in the form under its name, whatever the others are. *)
Ltac form_field :=
  unfold encode_bucket_settings;
  repeat first [rewrite form_get_same | rewrite form_get_other by done];
  rewrite ?form_get_last; try rewrite bool_decide_true by done; try rewrite bool_decide_false by done;
  match goal with |- context [option_fmap _ _ _ ?f] => by destruct f | |- _ => done end.

Lemma encoded_flush s : form_get "flushEnabled" (encode_bucket_settings s) = zero_or_one <$> BucketSettings.flush_enabled s.
Proof. form_field. Qed.
Lemma encoded_quota s : form_get "ramQuotaMB" (encode_bucket_settings s) = show <$> BucketSettings.ram_quota_mb s.
Proof. form_field. Qed.
Lemma encoded_replicas s : form_get "replicaNumber" (encode_bucket_settings s) = show <$> BucketSettings.replica_number s.
Proof. form_field. Qed.
Lemma encoded_eviction s : form_get "evictionPolicy" (encode_bucket_settings s) = eviction_policy_type_display <$> BucketSettings.eviction_policy s.
Proof. form_field. Qed.
Lemma encoded_ttl s : form_get "maxTTL" (encode_bucket_settings s) = (λ max_ttl, show (max_ttl / 1000000000)) <$> BucketSettings.max_ttl s.
Proof. form_field. Qed.
Lemma encoded_compression s : form_get "compressionMode" (encode_bucket_settings s) = bucket_compression_mode_display <$> BucketSettings.compression_mode s.
Proof. form_field. Qed.
Lemma encoded_durability s : form_get "durabilityMinLevel" (encode_bucket_settings s) = bucket_durability_level_display <$> BucketSettings.durability_min_level s.
Proof. form_field. Qed.
Lemma encoded_bytes s : form_get "historyRetentionBytes" (encode_bucket_settings s) = show <$> BucketSettings.history_retention_bytes s.
Proof. form_field. Qed.
Lemma encoded_seconds s : form_get "historyRetentionSeconds" (encode_bucket_settings s) = show <$> BucketSettings.history_retention_seconds s.
Proof. form_field. Qed.
Lemma encoded_history s : form_get "historyRetentionCollectionDefault" (encode_bucket_settings s) = bool_display <$> BucketSettings.history_retention_collection_default s.
Proof. form_field. Qed.
Lemma encoded_conflict s : form_get "conflictResolutionType" (encode_bucket_settings s) = conflict_resolution_type_display <$> BucketSettings.conflict_resolution_type s.
Proof. form_field. Qed.
Lemma encoded_index s : form_get "replicaIndex" (encode_bucket_settings s) = zero_or_one <$> BucketSettings.replica_index s.
Proof. form_field. Qed.
Lemma encoded_type s : form_get "bucketType" (encode_bucket_settings s) = stored_bucket_type_display <$> BucketSettings.bucket_type s.
Proof. form_field. Qed.
Lemma encoded_backend s : form_get "storageBackend" (encode_bucket_settings s) = storage_backend_display <$> BucketSettings.storage_backend s.
Proof. form_field. Qed.
Lemma encoded_vbuckets s : form_get "numVBuckets" (encode_bucket_settings s) = show <$> BucketSettings.num_vbuckets s.
Proof. form_field. Qed.

(** A number, a truth value or a choice of the document is what the form has under its name. *)
Definition stored_number (form : list (string * string)) (name : string) (field : option Z) : Prop :=
  form_get name form = show <$> field.
Definition stored_bool (form : list (string * string)) (name : string) (text : bool → string) (field : option bool) : Prop :=
  form_get name form = text <$> field.

(** The document of a bucket at a server that keeps what it was sent. *)
Record stored_as (form : list (string * string)) (json : BucketSettingsJson) : Prop := {
  stored_flush : form_get "flushEnabled" form
    = (λ c, zero_or_one (match Controllers.flush c with Some f => negb (bool_decide (f = ""%string)) | None => false end))
        <$> BucketSettingsJson.controllers json;
  stored_quota : ∃ q, form_get "ramQuotaMB" form = Some (show q) ∧ Quota.raw_ram (BucketSettingsJson.quota json) = q * 1024 * 1024;
  stored_replicas : stored_number form "replicaNumber" (BucketSettingsJson.replica_number json);
  stored_eviction : BucketSettingsJson.eviction_policy json = deserialize_eviction_policy (form_get "evictionPolicy" form);
  stored_ttl : stored_number form "maxTTL" (BucketSettingsJson.max_ttl json);
  stored_compression : BucketSettingsJson.compression_mode json = deserialize_compression_mode (form_get "compressionMode" form);
  stored_durability : BucketSettingsJson.durability_min_level json = deserialize_durability_level (form_get "durabilityMinLevel" form);
  stored_history : stored_bool form "historyRetentionCollectionDefault" bool_display
    (BucketSettingsJson.history_retention_collection_default json);
  stored_bytes : stored_number form "historyRetentionBytes" (BucketSettingsJson.history_retention_bytes json);
  stored_seconds : stored_number form "historyRetentionSeconds" (BucketSettingsJson.history_retention_seconds json);
  stored_conflict : BucketSettingsJson.conflict_resolution_type json
    = deserialize_conflict_resolution_type (form_get "conflictResolutionType" form);
  stored_index : stored_bool form "replicaIndex" zero_or_one (BucketSettingsJson.replica_index json);
  stored_type : BucketSettingsJson.bucket_type json = deserialize_bucket_type (form_get "bucketType" form);
  stored_backend : BucketSettingsJson.storage_backend json = deserialize_storage_backend (form_get "storageBackend" form);
  stored_vbuckets : stored_number form "numVBuckets" (BucketSettingsJson.num_vbuckets json);
}.

(** Settings whose choices are known, with a quota, and with a time to live of whole seconds. *)
Record plain_settings (s : BucketSettings) : Prop := {
  plain_quota : ∃ q, BucketSettings.ram_quota_mb s = Some q;
  plain_ttl d : BucketSettings.max_ttl s = Some d → d = d / 1000000000 * 1000000000;
  plain_eviction val : BucketSettings.eviction_policy s ≠ Some (EvictionPolicyType.Other val);
  plain_compression val : BucketSettings.compression_mode s ≠ Some (BucketCompressionMode.Other val);
  plain_durability val : BucketSettings.durability_min_level s ≠ Some (BucketDurabilityLevel.Other val);
  plain_conflict val : BucketSettings.conflict_resolution_type s ≠ Some (ConflictResolutionType.Other val);
  plain_type val : BucketSettings.bucket_type s ≠ Some (StoredBucketType.Other val);
  plain_backend val : BucketSettings.storage_backend s ≠ Some (StorageBackend.Other val);
}.

Lemma show_inj a b : show a = show b → a = b.
Proof. unfold show. intros Hab. by simplify_eq. Qed.

Lemma stored_number_read form name field x :
  stored_number form name field → form_get name form = show <$> x → field = x.
Proof.
  intros Hs Hx. unfold stored_number in Hs. rewrite Hx in Hs.
  destruct x, field; cbn in Hs; try done. injection Hs as Hs. apply show_inj in Hs. by subst.
Qed.

Lemma stored_bool_read form name text field x :
  Inj (=) (=) text → stored_bool form name text field → form_get name form = text <$> x → field = x.
Proof.
  intros Hi Hs Hx. unfold stored_bool in Hs. rewrite Hx in Hs.
  destruct x, field; cbn in Hs; try done. injection Hs as Hs. apply Hi in Hs. by subst.
Qed.

#[local] Instance zero_or_one_inj : Inj (=) (=) zero_or_one.
Proof. by intros [] []. Qed.
#[local] Instance bool_display_inj : Inj (=) (=) bool_display.
Proof. by intros [] []. Qed.

Lemma opt_match {A} (text : A → string) (f : option A) :
  match f with Some x => Some (text x) | None => None end = text <$> f.
Proof. by destruct f. Qed.

(** A choice that is read back. *)
Lemma choice_read {A} (read : option string → option A) (text : A → string) (field : option A) :
  read None = None → (∀ x, field = Some x → read (Some (text x)) = Some x) → read (text <$> field) = field.
Proof. intros Hn Hs. destruct field as [x|]; [by apply Hs|done]. Qed.

(** The settings of a bucket survive the server: settings that are sent as a form to a server
    that keeps them, and come back in the document of the bucket, are the settings that were
    sent. *)
Lemma bucket_settings_roundtrip s json :
  plain_settings s → stored_as (encode_bucket_settings s) json →
  BucketDef.bucket_settings (bucket_def_from json) = s.
Proof.
  intros [[q Hq] Ht He Hc Hd Hco Hty Hb] [Sf [q' [Sq Sr]] Srep Se St Sc Sd Sh Sby Sse Sco Si Sty Sb Sv].
  rewrite encoded_flush in Sf. rewrite encoded_quota, Hq in Sq. injection Sq as Sq. apply show_inj in Sq as ->.
  apply (stored_number_read _ _ _ _) with (2 := encoded_replicas s) in Srep.
  apply (stored_number_read _ _ _ _) with (2 := encoded_bytes s) in Sby.
  apply (stored_number_read _ _ _ _) with (2 := encoded_seconds s) in Sse.
  apply (stored_number_read _ _ _ _) with (2 := encoded_vbuckets s) in Sv.
  apply (stored_bool_read _ _ _ _ _ _) with (2 := encoded_history s) in Sh.
  apply (stored_bool_read _ _ _ _ _ _) with (2 := encoded_index s) in Si.
  rewrite encoded_eviction, choice_read in Se by (done || intros x Hx; apply eviction_policy_read_back; congruence).
  rewrite encoded_compression, choice_read in Sc by (done || intros x Hx; apply compression_mode_read_back; congruence).
  rewrite encoded_durability, choice_read in Sd by (done || intros x Hx; apply durability_level_read_back; congruence).
  rewrite encoded_conflict, choice_read in Sco
    by (done || intros x Hx; apply conflict_resolution_type_read_back; congruence).
  rewrite encoded_type, choice_read in Sty by (done || intros x Hx; apply bucket_type_read_back; congruence).
  rewrite encoded_backend, choice_read in Sb by (done || intros x Hx; apply storage_backend_read_back; congruence).
  apply (stored_number_read _ _ _ ((λ d, d / 1000000000) <$> BucketSettings.max_ttl s)) in St;
    [|rewrite encoded_ttl; by destruct (BucketSettings.max_ttl s)].
  destruct s as [flush quota reps ev ttl comp dur hist hbytes hsecs conf ridx bty back nvb].
  cbn in *. unfold bucket_def_from. cbn. subst. f_equal.
  - destruct (BucketSettingsJson.controllers json), flush; cbn in *; try done. injection Sf as Sf.
    apply zero_or_one_inj in Sf. by f_equal.
  - rewrite Sr, !Z.div_mul by lia. done.
  - rewrite St. destruct ttl as [d|]; cbn; [|done]. by rewrite <-(Ht d).
Qed.

(** ** A witness *)

Definition sample_settings : BucketSettings :=
  bucket_settings_flush_enabled true (bucket_settings_ram_quota_mb 256 (bucket_settings_replica_number 2
    (bucket_settings_eviction_policy EvictionPolicyType.Full (bucket_settings_max_ttl 3000000000
    (bucket_settings_durability_min_level BucketDurabilityLevel.Majority
    (bucket_settings_bucket_type StoredBucketType.Couchbase bucket_settings_default)))))).

Definition sample_document : BucketSettingsJson :=
  BucketSettingsJson.mk "b" (Some (Controllers.mk (Some "/flush"))) None (Quota.mk 0 268435456) (Some 2)
    (Some StoredBucketType.Couchbase) None (Some EvictionPolicyType.Full) (Some 3) None
    (Some BucketDurabilityLevel.Majority) None None None None None.

Lemma bucket_settings_roundtrip_example : BucketDef.bucket_settings (bucket_def_from sample_document) = sample_settings.
Proof.
  apply (bucket_settings_roundtrip sample_settings sample_document).
  - split; try done; [by exists 256|]. intros d [= <-]. reflexivity.
  - split; try reflexivity. by exists 256.
Defined.
