(* ===== verification/Mgmt.v ===== *)
(** * The management client ([mgmtx/mgmt.rs], [mgmtx/mgmt_bucket.rs], [mgmtx/mgmt_collection.rs])

    Each operation as the request it makes and what it makes of the response.  Every operation is
    a request of [mgmt_execute], a status that is expected, and an error that
    [decode_common_error] reads out of the text of any other response.

    Parameters are [serde_json] (a reader for each type of document), [url::form_urlencoded], the
    text of the error of a body that is not UTF-8, and the address of a response. *)

From S2P Require Import Prelude Text Json HttpxError MgmtxError Wire CoreError Http QueryReader Config.
From S2P Require Import BucketSettings.

(** ** Options and results *)

#[local] Open Scope string_scope.
#[local] Open Scope Z_scope.

Module CollectionManifestCollection.
Record CollectionManifestCollection : Type := mk {
  uid : string;
  name : string;
  max_ttl : option Z;
  history : option bool;
}.
End CollectionManifestCollection.
Abbreviation CollectionManifestCollection := CollectionManifestCollection.CollectionManifestCollection.
#[global] Instance collection_manifest_collection_settable : Settable (CollectionManifestCollection) := λ r,
  CollectionManifestCollection.mk (CollectionManifestCollection.uid r) (CollectionManifestCollection.name r)
    (CollectionManifestCollection.max_ttl r) (CollectionManifestCollection.history r).

Module CollectionManifestScope.
Record CollectionManifestScope : Type := mk {
  uid : string;
  name : string;
  collections : list CollectionManifestCollection;
}.
End CollectionManifestScope.
Abbreviation CollectionManifestScope := CollectionManifestScope.CollectionManifestScope.
#[global] Instance collection_manifest_scope_settable : Settable (CollectionManifestScope) := λ r,
  CollectionManifestScope.mk (CollectionManifestScope.uid r) (CollectionManifestScope.name r)
    (CollectionManifestScope.collections r).

Module CollectionManifest.
Record CollectionManifest : Type := mk {
  uid : string;
  scopes : list CollectionManifestScope;
}.
End CollectionManifest.
Abbreviation CollectionManifest := CollectionManifest.CollectionManifest.
#[global] Instance collection_manifest_settable : Settable (CollectionManifest) := λ r,
  CollectionManifest.mk (CollectionManifest.uid r) (CollectionManifest.scopes r).

Module CreateScopeResponse.
Record CreateScopeResponse : Type := mk {
  manifest_uid : string;
}.
End CreateScopeResponse.
Abbreviation CreateScopeResponse := CreateScopeResponse.CreateScopeResponse.
#[global] Instance create_scope_response_settable : Settable (CreateScopeResponse) := λ r,
  CreateScopeResponse.mk (CreateScopeResponse.manifest_uid r).

Module DeleteScopeResponse.
Record DeleteScopeResponse : Type := mk {
  manifest_uid : string;
}.
End DeleteScopeResponse.
Abbreviation DeleteScopeResponse := DeleteScopeResponse.DeleteScopeResponse.
#[global] Instance delete_scope_response_settable : Settable (DeleteScopeResponse) := λ r,
  DeleteScopeResponse.mk (DeleteScopeResponse.manifest_uid r).

Module CreateCollectionResponse.
Record CreateCollectionResponse : Type := mk {
  manifest_uid : string;
}.
End CreateCollectionResponse.
Abbreviation CreateCollectionResponse := CreateCollectionResponse.CreateCollectionResponse.
#[global] Instance create_collection_response_settable : Settable (CreateCollectionResponse) := λ r,
  CreateCollectionResponse.mk (CreateCollectionResponse.manifest_uid r).

Module UpdateCollectionResponse.
Record UpdateCollectionResponse : Type := mk {
  manifest_uid : string;
}.
End UpdateCollectionResponse.
Abbreviation UpdateCollectionResponse := UpdateCollectionResponse.UpdateCollectionResponse.
#[global] Instance update_collection_response_settable : Settable (UpdateCollectionResponse) := λ r,
  UpdateCollectionResponse.mk (UpdateCollectionResponse.manifest_uid r).

Module DeleteCollectionResponse.
Record DeleteCollectionResponse : Type := mk {
  manifest_uid : string;
}.
End DeleteCollectionResponse.
Abbreviation DeleteCollectionResponse := DeleteCollectionResponse.DeleteCollectionResponse.
#[global] Instance delete_collection_response_settable : Settable (DeleteCollectionResponse) := λ r,
  DeleteCollectionResponse.mk (DeleteCollectionResponse.manifest_uid r).

Module IndexStatusDefinition.
Record IndexStatusDefinition : Type := mk {
  bucket : string;
  definition : string;
  collection : option string;
  scope : option string;
  index_name : string;
  status : string;
  storage_mode : string;
  replicas : Z;
}.
End IndexStatusDefinition.
Abbreviation IndexStatusDefinition := IndexStatusDefinition.IndexStatusDefinition.
#[global] Instance index_status_definition_settable : Settable (IndexStatusDefinition) := λ r,
  IndexStatusDefinition.mk (IndexStatusDefinition.bucket r) (IndexStatusDefinition.definition r)
    (IndexStatusDefinition.collection r) (IndexStatusDefinition.scope r) (IndexStatusDefinition.index_name r)
    (IndexStatusDefinition.status r) (IndexStatusDefinition.storage_mode r) (IndexStatusDefinition.replicas r).

Module IndexStatus.
Record IndexStatus : Type := mk {
  indexes : list IndexStatusDefinition;
}.
End IndexStatus.
Abbreviation IndexStatus := IndexStatus.IndexStatus.
#[global] Instance index_status_settable : Settable (IndexStatus) := λ r,
  IndexStatus.mk (IndexStatus.indexes r).

Module FailoverOnDataDiskIssues.
Record FailoverOnDataDiskIssues : Type := mk {
  enabled : bool;
  time_period : Duration;
}.
End FailoverOnDataDiskIssues.
Abbreviation FailoverOnDataDiskIssues := FailoverOnDataDiskIssues.FailoverOnDataDiskIssues.
#[global] Instance failover_on_data_disk_issues_settable : Settable (FailoverOnDataDiskIssues) := λ r,
  FailoverOnDataDiskIssues.mk (FailoverOnDataDiskIssues.enabled r) (FailoverOnDataDiskIssues.time_period r).

Module AutoFailoverSettings.
Record AutoFailoverSettings : Type := mk {
  enabled : bool;
  timeout : Duration;
  count : Z;
  failover_on_data_disk_issues : FailoverOnDataDiskIssues;
  max_count : Z;
  can_abort_rebalance : bool;
  failover_preserve_durability_majority : option bool;
  failover_on_data_disk_non_responsiveness : option bool;
  allow_failover_ephemeral_no_replicas : option bool;
}.
End AutoFailoverSettings.
Abbreviation AutoFailoverSettings := AutoFailoverSettings.AutoFailoverSettings.
#[global] Instance auto_failover_settings_settable : Settable (AutoFailoverSettings) := λ r,
  AutoFailoverSettings.mk (AutoFailoverSettings.enabled r) (AutoFailoverSettings.timeout r)
    (AutoFailoverSettings.count r) (AutoFailoverSettings.failover_on_data_disk_issues r)
    (AutoFailoverSettings.max_count r) (AutoFailoverSettings.can_abort_rebalance r)
    (AutoFailoverSettings.failover_preserve_durability_majority r)
    (AutoFailoverSettings.failover_on_data_disk_non_responsiveness r)
    (AutoFailoverSettings.allow_failover_ephemeral_no_replicas r).


Module MgmtGetCollectionManifestOptions.
Record MgmtGetCollectionManifestOptions : Type := mk {
  on_behalf_of_info : option OnBehalfOfInfo;
  bucket_name : string;
}.
End MgmtGetCollectionManifestOptions.
Abbreviation MgmtGetCollectionManifestOptions := MgmtGetCollectionManifestOptions.MgmtGetCollectionManifestOptions.
#[global] Instance mgmt_get_collection_manifest_options_settable : Settable (MgmtGetCollectionManifestOptions)
    := λ r,
  MgmtGetCollectionManifestOptions.mk (MgmtGetCollectionManifestOptions.on_behalf_of_info r)
    (MgmtGetCollectionManifestOptions.bucket_name r).

Module MgmtCreateScopeOptions.
Record MgmtCreateScopeOptions : Type := mk {
  on_behalf_of_info : option OnBehalfOfInfo;
  bucket_name : string;
  scope_name : string;
}.
End MgmtCreateScopeOptions.
Abbreviation MgmtCreateScopeOptions := MgmtCreateScopeOptions.MgmtCreateScopeOptions.
#[global] Instance mgmt_create_scope_options_settable : Settable (MgmtCreateScopeOptions) := λ r,
  MgmtCreateScopeOptions.mk (MgmtCreateScopeOptions.on_behalf_of_info r) (MgmtCreateScopeOptions.bucket_name r)
    (MgmtCreateScopeOptions.scope_name r).

Module MgmtDeleteScopeOptions.
Record MgmtDeleteScopeOptions : Type := mk {
  on_behalf_of_info : option OnBehalfOfInfo;
  bucket_name : string;
  scope_name : string;
}.
End MgmtDeleteScopeOptions.
Abbreviation MgmtDeleteScopeOptions := MgmtDeleteScopeOptions.MgmtDeleteScopeOptions.
#[global] Instance mgmt_delete_scope_options_settable : Settable (MgmtDeleteScopeOptions) := λ r,
  MgmtDeleteScopeOptions.mk (MgmtDeleteScopeOptions.on_behalf_of_info r) (MgmtDeleteScopeOptions.bucket_name r)
    (MgmtDeleteScopeOptions.scope_name r).

Module MgmtCreateCollectionOptions.
Record MgmtCreateCollectionOptions : Type := mk {
  on_behalf_of_info : option OnBehalfOfInfo;
  bucket_name : string;
  scope_name : string;
  collection_name : string;
  max_ttl : option Z;
  history_enabled : option bool;
}.
End MgmtCreateCollectionOptions.
Abbreviation MgmtCreateCollectionOptions := MgmtCreateCollectionOptions.MgmtCreateCollectionOptions.
#[global] Instance mgmt_create_collection_options_settable : Settable (MgmtCreateCollectionOptions) := λ r,
  MgmtCreateCollectionOptions.mk (MgmtCreateCollectionOptions.on_behalf_of_info r)
    (MgmtCreateCollectionOptions.bucket_name r) (MgmtCreateCollectionOptions.scope_name r)
    (MgmtCreateCollectionOptions.collection_name r) (MgmtCreateCollectionOptions.max_ttl r)
    (MgmtCreateCollectionOptions.history_enabled r).

Module MgmtUpdateCollectionOptions.
Record MgmtUpdateCollectionOptions : Type := mk {
  on_behalf_of_info : option OnBehalfOfInfo;
  bucket_name : string;
  scope_name : string;
  collection_name : string;
  max_ttl : option Z;
  history_enabled : option bool;
}.
End MgmtUpdateCollectionOptions.
Abbreviation MgmtUpdateCollectionOptions := MgmtUpdateCollectionOptions.MgmtUpdateCollectionOptions.
#[global] Instance mgmt_update_collection_options_settable : Settable (MgmtUpdateCollectionOptions) := λ r,
  MgmtUpdateCollectionOptions.mk (MgmtUpdateCollectionOptions.on_behalf_of_info r)
    (MgmtUpdateCollectionOptions.bucket_name r) (MgmtUpdateCollectionOptions.scope_name r)
    (MgmtUpdateCollectionOptions.collection_name r) (MgmtUpdateCollectionOptions.max_ttl r)
    (MgmtUpdateCollectionOptions.history_enabled r).

Module MgmtDeleteCollectionOptions.
Record MgmtDeleteCollectionOptions : Type := mk {
  on_behalf_of_info : option OnBehalfOfInfo;
  bucket_name : string;
  scope_name : string;
  collection_name : string;
}.
End MgmtDeleteCollectionOptions.
Abbreviation MgmtDeleteCollectionOptions := MgmtDeleteCollectionOptions.MgmtDeleteCollectionOptions.
#[global] Instance mgmt_delete_collection_options_settable : Settable (MgmtDeleteCollectionOptions) := λ r,
  MgmtDeleteCollectionOptions.mk (MgmtDeleteCollectionOptions.on_behalf_of_info r)
    (MgmtDeleteCollectionOptions.bucket_name r) (MgmtDeleteCollectionOptions.scope_name r)
    (MgmtDeleteCollectionOptions.collection_name r).

Module MgmtGetTerseClusterConfigOptions.
Record MgmtGetTerseClusterConfigOptions : Type := mk {
  on_behalf_of_info : option OnBehalfOfInfo;
}.
End MgmtGetTerseClusterConfigOptions.
Abbreviation MgmtGetTerseClusterConfigOptions := MgmtGetTerseClusterConfigOptions.MgmtGetTerseClusterConfigOptions.
#[global] Instance mgmt_get_terse_cluster_config_options_settable : Settable (MgmtGetTerseClusterConfigOptions)
    := λ r,
  MgmtGetTerseClusterConfigOptions.mk (MgmtGetTerseClusterConfigOptions.on_behalf_of_info r).

Module MgmtGetFullClusterConfigOptions.
Record MgmtGetFullClusterConfigOptions : Type := mk {
  on_behalf_of_info : option OnBehalfOfInfo;
}.
End MgmtGetFullClusterConfigOptions.
Abbreviation MgmtGetFullClusterConfigOptions := MgmtGetFullClusterConfigOptions.MgmtGetFullClusterConfigOptions.
#[global] Instance mgmt_get_full_cluster_config_options_settable : Settable (MgmtGetFullClusterConfigOptions) :=
    λ r,
  MgmtGetFullClusterConfigOptions.mk (MgmtGetFullClusterConfigOptions.on_behalf_of_info r).

Module MgmtGetTerseBucketConfigOptions.
Record MgmtGetTerseBucketConfigOptions : Type := mk {
  on_behalf_of_info : option OnBehalfOfInfo;
  bucket_name : string;
}.
End MgmtGetTerseBucketConfigOptions.
Abbreviation MgmtGetTerseBucketConfigOptions := MgmtGetTerseBucketConfigOptions.MgmtGetTerseBucketConfigOptions.
#[global] Instance mgmt_get_terse_bucket_config_options_settable : Settable (MgmtGetTerseBucketConfigOptions) :=
    λ r,
  MgmtGetTerseBucketConfigOptions.mk (MgmtGetTerseBucketConfigOptions.on_behalf_of_info r)
    (MgmtGetTerseBucketConfigOptions.bucket_name r).

Module MgmtGetFullBucketConfigOptions.
Record MgmtGetFullBucketConfigOptions : Type := mk {
  on_behalf_of_info : option OnBehalfOfInfo;
  bucket_name : string;
}.
End MgmtGetFullBucketConfigOptions.
Abbreviation MgmtGetFullBucketConfigOptions := MgmtGetFullBucketConfigOptions.MgmtGetFullBucketConfigOptions.
#[global] Instance mgmt_get_full_bucket_config_options_settable : Settable (MgmtGetFullBucketConfigOptions) := λ r,
  MgmtGetFullBucketConfigOptions.mk (MgmtGetFullBucketConfigOptions.on_behalf_of_info r)
    (MgmtGetFullBucketConfigOptions.bucket_name r).

Module MgmtLoadSampleBucketOptions.
Record MgmtLoadSampleBucketOptions : Type := mk {
  on_behalf_of_info : option OnBehalfOfInfo;
  bucket_name : string;
}.
End MgmtLoadSampleBucketOptions.
Abbreviation MgmtLoadSampleBucketOptions := MgmtLoadSampleBucketOptions.MgmtLoadSampleBucketOptions.
#[global] Instance mgmt_load_sample_bucket_options_settable : Settable (MgmtLoadSampleBucketOptions) := λ r,
  MgmtLoadSampleBucketOptions.mk (MgmtLoadSampleBucketOptions.on_behalf_of_info r)
    (MgmtLoadSampleBucketOptions.bucket_name r).

Module MgmtGetAllBucketsOptions.
Record MgmtGetAllBucketsOptions : Type := mk {
  on_behalf_of_info : option OnBehalfOfInfo;
}.
End MgmtGetAllBucketsOptions.
Abbreviation MgmtGetAllBucketsOptions := MgmtGetAllBucketsOptions.MgmtGetAllBucketsOptions.
#[global] Instance mgmt_get_all_buckets_options_settable : Settable (MgmtGetAllBucketsOptions) := λ r,
  MgmtGetAllBucketsOptions.mk (MgmtGetAllBucketsOptions.on_behalf_of_info r).

Module MgmtGetBucketOptions.
Record MgmtGetBucketOptions : Type := mk {
  on_behalf_of_info : option OnBehalfOfInfo;
  bucket_name : string;
}.
End MgmtGetBucketOptions.
Abbreviation MgmtGetBucketOptions := MgmtGetBucketOptions.MgmtGetBucketOptions.
#[global] Instance mgmt_get_bucket_options_settable : Settable (MgmtGetBucketOptions) := λ r,
  MgmtGetBucketOptions.mk (MgmtGetBucketOptions.on_behalf_of_info r) (MgmtGetBucketOptions.bucket_name r).

Module MgmtCreateBucketOptions.
Record MgmtCreateBucketOptions : Type := mk {
  on_behalf_of_info : option OnBehalfOfInfo;
  bucket_name : string;
  bucket_settings : BucketSettings;
}.
End MgmtCreateBucketOptions.
Abbreviation MgmtCreateBucketOptions := MgmtCreateBucketOptions.MgmtCreateBucketOptions.
#[global] Instance mgmt_create_bucket_options_settable : Settable (MgmtCreateBucketOptions) := λ r,
  MgmtCreateBucketOptions.mk (MgmtCreateBucketOptions.on_behalf_of_info r) (MgmtCreateBucketOptions.bucket_name
    r) (MgmtCreateBucketOptions.bucket_settings r).

Module MgmtUpdateBucketOptions.
Record MgmtUpdateBucketOptions : Type := mk {
  on_behalf_of_info : option OnBehalfOfInfo;
  bucket_name : string;
  bucket_settings : BucketSettings;
}.
End MgmtUpdateBucketOptions.
Abbreviation MgmtUpdateBucketOptions := MgmtUpdateBucketOptions.MgmtUpdateBucketOptions.
#[global] Instance mgmt_update_bucket_options_settable : Settable (MgmtUpdateBucketOptions) := λ r,
  MgmtUpdateBucketOptions.mk (MgmtUpdateBucketOptions.on_behalf_of_info r) (MgmtUpdateBucketOptions.bucket_name
    r) (MgmtUpdateBucketOptions.bucket_settings r).

Module MgmtDeleteBucketOptions.
Record MgmtDeleteBucketOptions : Type := mk {
  on_behalf_of_info : option OnBehalfOfInfo;
  bucket_name : string;
}.
End MgmtDeleteBucketOptions.
Abbreviation MgmtDeleteBucketOptions := MgmtDeleteBucketOptions.MgmtDeleteBucketOptions.
#[global] Instance mgmt_delete_bucket_options_settable : Settable (MgmtDeleteBucketOptions) := λ r,
  MgmtDeleteBucketOptions.mk (MgmtDeleteBucketOptions.on_behalf_of_info r) (MgmtDeleteBucketOptions.bucket_name r).

Module MgmtFlushBucketOptions.
Record MgmtFlushBucketOptions : Type := mk {
  on_behalf_of_info : option OnBehalfOfInfo;
  bucket_name : string;
}.
End MgmtFlushBucketOptions.
Abbreviation MgmtFlushBucketOptions := MgmtFlushBucketOptions.MgmtFlushBucketOptions.
#[global] Instance mgmt_flush_bucket_options_settable : Settable (MgmtFlushBucketOptions) := λ r,
  MgmtFlushBucketOptions.mk (MgmtFlushBucketOptions.on_behalf_of_info r) (MgmtFlushBucketOptions.bucket_name r).

Module MgmtIndexStatusOptions.
Record MgmtIndexStatusOptions : Type := mk {
  on_behalf_of_info : option OnBehalfOfInfo;
}.
End MgmtIndexStatusOptions.
Abbreviation MgmtIndexStatusOptions := MgmtIndexStatusOptions.MgmtIndexStatusOptions.
#[global] Instance mgmt_index_status_options_settable : Settable (MgmtIndexStatusOptions) := λ r,
  MgmtIndexStatusOptions.mk (MgmtIndexStatusOptions.on_behalf_of_info r).

Definition mgmt_index_status_options_new : MgmtIndexStatusOptions :=
  MgmtIndexStatusOptions.mk None.

Definition mgmt_index_status_options_on_behalf_of_info (on_behalf_of : option OnBehalfOfInfo)
    (self : MgmtIndexStatusOptions) : MgmtIndexStatusOptions :=
  self <| MgmtIndexStatusOptions.on_behalf_of_info := on_behalf_of |>.

Module MgmtGetAutoFailoverSettingsOptions.
Record MgmtGetAutoFailoverSettingsOptions : Type := mk {
  on_behalf_of_info : option OnBehalfOfInfo;
}.
End MgmtGetAutoFailoverSettingsOptions.
Abbreviation MgmtGetAutoFailoverSettingsOptions :=
    MgmtGetAutoFailoverSettingsOptions.MgmtGetAutoFailoverSettingsOptions.
#[global] Instance mgmt_get_auto_failover_settings_options_settable : Settable
    (MgmtGetAutoFailoverSettingsOptions) := λ r,
  MgmtGetAutoFailoverSettingsOptions.mk (MgmtGetAutoFailoverSettingsOptions.on_behalf_of_info r).

Definition mgmt_get_auto_failover_settings_options_new : MgmtGetAutoFailoverSettingsOptions :=
  MgmtGetAutoFailoverSettingsOptions.mk None.

Definition mgmt_get_auto_failover_settings_options_on_behalf_of_info (on_behalf_of : option OnBehalfOfInfo)
    (self : MgmtGetAutoFailoverSettingsOptions) : MgmtGetAutoFailoverSettingsOptions :=
  self <| MgmtGetAutoFailoverSettingsOptions.on_behalf_of_info := on_behalf_of |>.

Module MgmtGetBucketStatsOptions.
Record MgmtGetBucketStatsOptions : Type := mk {
  on_behalf_of_info : option OnBehalfOfInfo;
  bucket_name : string;
}.
End MgmtGetBucketStatsOptions.
Abbreviation MgmtGetBucketStatsOptions := MgmtGetBucketStatsOptions.MgmtGetBucketStatsOptions.
#[global] Instance mgmt_get_bucket_stats_options_settable : Settable (MgmtGetBucketStatsOptions) := λ r,
  MgmtGetBucketStatsOptions.mk (MgmtGetBucketStatsOptions.on_behalf_of_info r)
    (MgmtGetBucketStatsOptions.bucket_name r).

Definition mgmt_get_bucket_stats_options_new (bucket_name : string) : MgmtGetBucketStatsOptions :=
  MgmtGetBucketStatsOptions.mk None bucket_name.

Definition mgmt_get_bucket_stats_options_on_behalf_of_info (on_behalf_of : option OnBehalfOfInfo)
    (self : MgmtGetBucketStatsOptions) : MgmtGetBucketStatsOptions :=
  self <| MgmtGetBucketStatsOptions.on_behalf_of_info := on_behalf_of |>.

(** [ManifestUidJson], [ServerErrors]: the entries of the map in the order in which they are
    iterated. *)
Record ManifestUidJson : Type := mkManifestUidJson { manifest_uid : string }.
Record ServerErrors : Type := mkServerErrors { errors : list (string * string) }.

(** ** The client of one endpoint *)

Record Management : Type := mkManagement {
  mg_user_agent : string;
  mg_endpoint : string;
  mg_auth : Auth;
}.

Definition FIELD_NAME_MAP : list (string * string) :=
  [("durability_min_level", "DurabilityMinLevel"); ("ramquota", "RamQuotaMB"); ("replicanumber", "ReplicaNumber");
   ("maxttl", "MaxTTL"); ("history", "HistoryEnabled"); ("numvbuckets", "numVBuckets")]%string.

Definition mgmt_new_request (self : Management) (method : Method) (path content_type : string)
    (on_behalf_of : option OnBehalfOfInfo) (headers : option (list (string * string))) (body : option (list Z)) : Request :=
  let auth :=
    match on_behalf_of with
    | Some obo => Auth.OnBehalfOf (mkOnBehalfOfInfo (obo_username obo) (obo_password_or_domain obo))
    | None => mg_auth self
    end in
  let req :=
    request_body body (request_content_type (Some content_type) (request_user_agent (Some (mg_user_agent self))
      (request_auth (Some auth) (request_new method (mg_endpoint self +:+ "/" +:+ path))))) in
  foldl (λ req '(key, value), add_header key value req) req (default [] headers).

(** [Display] of an error of sending; the other kinds do not come from [mgmt_execute]. *)
Definition sent_error_display (e : HttpxError) : string := "http error: " +:+ httpx_error_display e.

(** The [errors] of a body, as its first entry. *)
Definition parse_for_invalid_arg (from_str_errors : list Z → option ServerErrors) (body : list Z) : option (string * string) :=
  inv_arg ← from_str_errors body; head (errors inv_arg).

(** The kind of the error that the text of a response tells of. *)
Definition common_error_kind (from_str_errors : list Z → option ServerErrors) (status : Z) (feature : string)
    (body_str : list Z) : Mgmtx.ServerErrorKind :=
  let lower_body_str := to_lowercase body_str in
  let has (pat : string) := contains (str_bytes pat) lower_body_str in
  if has "not found" && has "collection" then Mgmtx.CollectionNotFound
  else if has "not found" && has "scope" then Mgmtx.ScopeNotFound
  else if has "not found" && has "bucket" then Mgmtx.BucketNotFound
  else if (has "not found" && has "user") || has "unknown user" then Mgmtx.UserNotFound
  else if (has "not found" && has "group") || has "unknown group" then Mgmtx.GroupNotFound
  else if has "already exists" && has "collection" then Mgmtx.CollectionExists
  else if has "already exists" && has "scope" then Mgmtx.ScopeExists
  else if has "already exists" && has "bucket" then Mgmtx.BucketExists
  else if has "flush is disabled" then Mgmtx.FlushDisabled
  else if has "requested resource not found" || has "non existent bucket" then Mgmtx.BucketNotFound
  else if has "not yet complete, but will continue" then Mgmtx.OperationDelayed
  else if status =? 400 then
    match parse_for_invalid_arg from_str_errors lower_body_str with
    | Some (key, reason) =>
        if existsb (λ e, bool_decide (e.1 = key)) FIELD_NAME_MAP then Mgmtx.ServerInvalidArg key reason else Mgmtx.Unknown
    | None =>
        if has "not allowed on this type of bucket" then Mgmtx.ServerInvalidArg "historyEnabled" (bytes_string body_str)
        else if has "already loaded" then Mgmtx.SampleAlreadyLoaded
        else if has "not a valid sample" then Mgmtx.InvalidSampleBucket
        else Mgmtx.Unknown
    end
  else if status =? 404 then Mgmtx.UnsupportedFeature feature
  else if status =? 401 then Mgmtx.AccessDenied
  else Mgmtx.Unknown.

Section Client.
Context {S FullClusterConfig FullBucketConfig RawValue : Type} `{HttpClient S}.
Context (utf8_error : list Z → option string) (response_url : Response → string)
  (form_urlencode : list (string * string) → list Z) (from_str_errors : list Z → option ServerErrors).
Context (from_slice_terse_config : list Z → string + TerseConfig)
  (from_slice_full_cluster_config : list Z → string + FullClusterConfig)
  (from_slice_full_bucket_config : list Z → string + FullBucketConfig)
  (from_slice_index_status : list Z → string + IndexStatus)
  (from_slice_auto_failover_settings : list Z → string + AutoFailoverSettings)
  (from_slice_raw : list Z → string + RawValue)
  (from_slice_buckets : list Z → string + list BucketSettingsJson)
  (from_slice_bucket : list Z → string + BucketSettingsJson)
  (from_slice_manifest : list Z → string + CollectionManifest)
  (from_slice_uid : list Z → string + ManifestUidJson).

Abbreviation Call A := (io S Mgmtx.Error A).

Definition mgmt_execute (self : Management) (method : Method) (path content_type : string)
    (on_behalf_of : option OnBehalfOfInfo) (headers : option (list (string * string))) (body : option (list Z)) : Call Response :=
  io_map_err Mgmtx.error_from_httpx (http_execute (mgmt_new_request self method path content_type on_behalf_of headers body)).

Definition decode_common_error {A} (method : Method) (path feature : string) (response : Response)
    : outcome Mgmtx.Error A :=
  match response_bytes response with
  | Err e => Err (Mgmtx.new_message_error ("could not parse response body: " +:+ httpx_error_display e))
  | Panic => Panic
  | Ok body =>
      match utf8_error body with
      | Some e => Err (Mgmtx.new_message_error ("could not parse error response: " +:+ e))
      | None =>
          Err (Mgmtx.mgmt_error_from_server
                 (Mgmtx.server_error_new (resp_status response) (response_url response) method path body
                    (common_error_kind from_str_errors (resp_status response) feature body)))
      end
  end.

Definition parse_response_json {A} (from_slice : list Z → string + A) (resp : Response) : outcome Mgmtx.Error A :=
  match response_bytes resp with
  | Err e => Err (Mgmtx.new_message_error ("could not read response: " +:+ httpx_error_display e))
  | Panic => Panic
  | Ok body =>
      match from_slice body with
      | inr a => Ok a
      | inl e => Err (Mgmtx.new_message_error ("could not parse response: " +:+ e))
      end
  end.

(** A request, and the status that is a success: with any other one the response is an error. *)
Definition mgmt_call {A} (expected : Z → bool) (method : Method) (path feature : string) (sent : Call Response)
    (result : Response → outcome Mgmtx.Error A) : Call A :=
  resp ← sent;
  io_lift (if expected (resp_status resp) then result resp else decode_common_error method path feature resp).

Definition status_is (status : Z) : Z → bool := Z.eqb status.
Definition no_result (_ : Response) : outcome Mgmtx.Error unit := Ok tt.

Definition form_type : string := "application/x-www-form-urlencoded".

(** A request without a body, of which a document is read. *)
Definition get_json {A} (self : Management) (path feature : string) (on_behalf_of : option OnBehalfOfInfo)
    (from_slice : list Z → string + A) : Call A :=
  mgmt_call (status_is 200) GET path feature (mgmt_execute self GET path "" on_behalf_of None None)
    (parse_response_json from_slice).

(** *** Configs ([mgmt.rs]) *)

Definition get_terse_cluster_config (self : Management) (opts : MgmtGetTerseClusterConfigOptions) : Call TerseConfig :=
  get_json self "pools/default/nodeServices" "get_terse_cluster_config"
    (MgmtGetTerseClusterConfigOptions.on_behalf_of_info opts) from_slice_terse_config.

Definition get_full_cluster_config (self : Management) (opts : MgmtGetFullClusterConfigOptions) : Call FullClusterConfig :=
  get_json self "pools/default" "get_full_cluster_config"
    (MgmtGetFullClusterConfigOptions.on_behalf_of_info opts) from_slice_full_cluster_config.

Definition get_terse_bucket_config (self : Management) (opts : MgmtGetTerseBucketConfigOptions) : Call TerseConfig :=
  get_json self ("pools/default/b/" +:+ MgmtGetTerseBucketConfigOptions.bucket_name opts) "get_terse_bucket_config"
    (MgmtGetTerseBucketConfigOptions.on_behalf_of_info opts) from_slice_terse_config.

Definition get_full_bucket_config (self : Management) (opts : MgmtGetFullBucketConfigOptions) : Call FullBucketConfig :=
  get_json self ("pools/default/buckets/" +:+ MgmtGetFullBucketConfigOptions.bucket_name opts) "get_full_bucket_config"
    (MgmtGetFullBucketConfigOptions.on_behalf_of_info opts) from_slice_full_bucket_config.

Definition load_sample_bucket (self : Management) (opts : MgmtLoadSampleBucketOptions) : Call unit :=
  let path := "sampleBuckets/install" in
  mgmt_call (status_is 202) POST path "load_sample_bucket"
    (mgmt_execute self POST path "application/json" (MgmtLoadSampleBucketOptions.on_behalf_of_info opts) None
       (Some (str_bytes (MgmtLoadSampleBucketOptions.bucket_name opts))))
    no_result.

Definition index_status (self : Management) (opts : MgmtIndexStatusOptions) : Call IndexStatus :=
  let path := "indexStatus" in
  mgmt_call (status_is 200) GET path "index_status"
    (mgmt_execute self GET path "application/json" (MgmtIndexStatusOptions.on_behalf_of_info opts) None None)
    (parse_response_json from_slice_index_status).

Definition get_auto_failover_settings (self : Management) (opts : MgmtGetAutoFailoverSettingsOptions)
    : Call AutoFailoverSettings :=
  get_json self "settings/autoFailover" "get_autofailover_settings"
    (MgmtGetAutoFailoverSettingsOptions.on_behalf_of_info opts) from_slice_auto_failover_settings.

Definition get_bucket_stats (self : Management) (opts : MgmtGetBucketStatsOptions) : Call RawValue :=
  get_json self ("pools/default/buckets/" +:+ MgmtGetBucketStatsOptions.bucket_name opts +:+ "/stats") "get_bucket_stats"
    (MgmtGetBucketStatsOptions.on_behalf_of_info opts) from_slice_raw.

(** *** Buckets ([mgmt_bucket.rs]) *)

Definition bucket_path (bucket_name : string) : string := "pools/default/buckets/" +:+ bucket_name.

Definition get_all_buckets (self : Management) (opts : MgmtGetAllBucketsOptions) : Call (list BucketDef) :=
  json_buckets ← get_json self "pools/default/buckets" "get_all_buckets" (MgmtGetAllBucketsOptions.on_behalf_of_info opts)
                   from_slice_buckets;
  mret (bucket_def_from <$> json_buckets).

Definition get_bucket (self : Management) (opts : MgmtGetBucketOptions) : Call BucketDef :=
  bucket ← get_json self (bucket_path (MgmtGetBucketOptions.bucket_name opts)) "get_bucket"
             (MgmtGetBucketOptions.on_behalf_of_info opts) from_slice_bucket;
  mret (bucket_def_from bucket).

Definition create_bucket (self : Management) (opts : MgmtCreateBucketOptions) : Call unit :=
  let path := "pools/default/buckets" in
  let body :=
    form_urlencode (("name"%string, MgmtCreateBucketOptions.bucket_name opts)
                    :: encode_bucket_settings (MgmtCreateBucketOptions.bucket_settings opts)) in
  mgmt_call (status_is 202) POST path "create_bucket"
    (mgmt_execute self POST path form_type (MgmtCreateBucketOptions.on_behalf_of_info opts) None (Some body)) no_result.

Definition update_bucket (self : Management) (opts : MgmtUpdateBucketOptions) : Call unit :=
  let path := bucket_path (MgmtUpdateBucketOptions.bucket_name opts) in
  let body := form_urlencode (encode_bucket_settings (MgmtUpdateBucketOptions.bucket_settings opts)) in
  mgmt_call (status_is 200) POST path "update_bucket"
    (mgmt_execute self POST path form_type (MgmtUpdateBucketOptions.on_behalf_of_info opts) None (Some body)) no_result.

(** A deletion that goes on is a success. *)
Definition delayed_is_done (r : outcome Mgmtx.Error unit) : outcome Mgmtx.Error unit :=
  match r with
  | Err e =>
      match Mgmtx.kind e with
      | Mgmtx.Server se => if bool_decide (Mgmtx.se_kind se = Mgmtx.OperationDelayed) then Ok tt else Err e
      | _ => Err e
      end
  | r => r
  end.

Definition delete_bucket (self : Management) (opts : MgmtDeleteBucketOptions) : Call unit :=
  let path := bucket_path (MgmtDeleteBucketOptions.bucket_name opts) in
  resp ← mgmt_execute self DELETE path "" (MgmtDeleteBucketOptions.on_behalf_of_info opts) None None;
  io_lift (if resp_status resp =? 200 then Ok tt
           else delayed_is_done (decode_common_error DELETE path "delete_bucket" resp)).

Definition flush_bucket (self : Management) (opts : MgmtFlushBucketOptions) : Call unit :=
  let path := bucket_path (MgmtFlushBucketOptions.bucket_name opts) +:+ "/controller/doFlush" in
  mgmt_call (status_is 200) POST path "flush_bucket"
    (mgmt_execute self POST path "" (MgmtFlushBucketOptions.on_behalf_of_info opts) None None) no_result.

(** *** Scopes and collections ([mgmt_collection.rs]) *)

Definition scopes_path (bucket_name : string) : string := bucket_path bucket_name +:+ "/scopes".
Definition scope_path (bucket_name scope_name : string) : string := scopes_path bucket_name +:+ "/" +:+ scope_name.
Definition collections_path (bucket_name scope_name : string) : string := scope_path bucket_name scope_name +:+ "/collections".
Definition collection_path (bucket_name scope_name collection_name : string) : string :=
  collections_path bucket_name scope_name +:+ "/" +:+ collection_name.

(** An error of sending becomes a message. *)
Definition get_collection_manifest (self : Management) (opts : MgmtGetCollectionManifestOptions) : Call CollectionManifest :=
  let path := scopes_path (MgmtGetCollectionManifestOptions.bucket_name opts) in
  mgmt_call (status_is 200) GET path "get_collection_manifest"
    (io_map_err (λ e, Mgmtx.new_message_error ("could not get collections manifest: " +:+ sent_error_display e))
       (http_execute (mgmt_new_request self GET path "" (MgmtGetCollectionManifestOptions.on_behalf_of_info opts) None None)))
    (parse_response_json from_slice_manifest).

(** The uid of the manifest after a change. *)
Definition read_uid (resp : Response) : outcome Mgmtx.Error string :=
  uid ← parse_response_json from_slice_uid resp; Ok (manifest_uid uid).

Definition create_scope (self : Management) (opts : MgmtCreateScopeOptions) : Call CreateScopeResponse :=
  let path := scopes_path (MgmtCreateScopeOptions.bucket_name opts) in
  let body := form_urlencode [("name", MgmtCreateScopeOptions.scope_name opts)]%string in
  uid ← mgmt_call (status_is 200) POST path "create_scope"
          (mgmt_execute self POST path form_type (MgmtCreateScopeOptions.on_behalf_of_info opts) None (Some body)) read_uid;
  mret (CreateScopeResponse.mk uid).

Definition delete_scope (self : Management) (opts : MgmtDeleteScopeOptions) : Call DeleteScopeResponse :=
  let path := scope_path (MgmtDeleteScopeOptions.bucket_name opts) (MgmtDeleteScopeOptions.scope_name opts) in
  uid ← mgmt_call (status_is 200) DELETE path "delete_scope"
          (mgmt_execute self DELETE path "" (MgmtDeleteScopeOptions.on_behalf_of_info opts) None None) read_uid;
  mret (DeleteScopeResponse.mk uid).

(** The settings of a collection in its form. *)
Definition collection_settings (max_ttl : option Z) (history_enabled : option bool) : list (string * string) :=
  pair_of "maxTTL" show max_ttl ++ pair_of "history" bool_display history_enabled.

Definition create_collection (self : Management) (opts : MgmtCreateCollectionOptions) : Call CreateCollectionResponse :=
  let path := collections_path (MgmtCreateCollectionOptions.bucket_name opts) (MgmtCreateCollectionOptions.scope_name opts) in
  let body :=
    form_urlencode (("name"%string, MgmtCreateCollectionOptions.collection_name opts)
                    :: collection_settings (MgmtCreateCollectionOptions.max_ttl opts)
                         (MgmtCreateCollectionOptions.history_enabled opts)) in
  uid ← mgmt_call (status_is 200) POST path "create_collection"
          (mgmt_execute self POST path form_type (MgmtCreateCollectionOptions.on_behalf_of_info opts) None (Some body))
          read_uid;
  mret (CreateCollectionResponse.mk uid).

Definition update_collection (self : Management) (opts : MgmtUpdateCollectionOptions) : Call UpdateCollectionResponse :=
  let path :=
    collection_path (MgmtUpdateCollectionOptions.bucket_name opts) (MgmtUpdateCollectionOptions.scope_name opts)
      (MgmtUpdateCollectionOptions.collection_name opts) in
  let body :=
    form_urlencode (collection_settings (MgmtUpdateCollectionOptions.max_ttl opts)
                      (MgmtUpdateCollectionOptions.history_enabled opts)) in
  uid ← mgmt_call (status_is 200) PATCH path "update_collection"
          (mgmt_execute self PATCH path form_type (MgmtUpdateCollectionOptions.on_behalf_of_info opts) None (Some body))
          read_uid;
  mret (UpdateCollectionResponse.mk uid).

Definition delete_collection (self : Management) (opts : MgmtDeleteCollectionOptions) : Call DeleteCollectionResponse :=
  let path :=
    collection_path (MgmtDeleteCollectionOptions.bucket_name opts) (MgmtDeleteCollectionOptions.scope_name opts)
      (MgmtDeleteCollectionOptions.collection_name opts) in
  uid ← mgmt_call (status_is 200) DELETE path "delete_collection"
          (mgmt_execute self DELETE path "" (MgmtDeleteCollectionOptions.on_behalf_of_info opts) None None) read_uid;
  mret (DeleteCollectionResponse.mk uid).

End Client.

(** ** What the answers mean *)

Section Answers.
Context (utf8_error : list Z → option string) (response_url : Response → string)
  (from_str_errors : list Z → option ServerErrors).
Context {S A : Type} (expected : Z → bool) (method : Method) (path feature : string) (sent : io S Mgmtx.Error Response)
  (result : Response → outcome Mgmtx.Error A).

(** A call succeeds only with the status that its operation expects. *)
Lemma mgmt_call_succeeds s s' a :
  mgmt_call utf8_error response_url from_str_errors expected method path feature sent result s = (s', Some (Ok a)) →
  ∃ resp, sent s = (s', Some (Ok resp)) ∧ expected (resp_status resp) = true ∧ result resp = Ok a.
Proof.
  unfold mgmt_call, mbind, io_bind, io_lift, decode_common_error.
  destruct (sent s) as [s1 [[resp|e| ]|]]; try done. intros [= <- H]. exists resp. split; [done|].
  destruct (expected (resp_status resp)); [by split|].
  destruct (response_bytes resp); simplify_eq/=. by case_match.
Qed.

(** Any other response with readable text is an error of the server, with the response's status, the
    operation's path and the kind that the text tells of. *)
Lemma mgmt_call_refused s s' resp body :
  sent s = (s', Some (Ok resp)) → expected (resp_status resp) = false →
  response_bytes resp = Ok body → utf8_error body = None →
  mgmt_call utf8_error response_url from_str_errors expected method path feature sent result s
  = (s', Some (Err (Mgmtx.mgmt_error_from_server
      (Mgmtx.server_error_new (resp_status resp) (response_url resp) method path body
         (common_error_kind from_str_errors (resp_status resp) feature body))))).
Proof.
  intros Hs He Hb Hu. unfold mgmt_call, mbind, io_bind. rewrite Hs. unfold io_lift, decode_common_error.
  by rewrite He, Hb, Hu.
Qed.
End Answers.

(** Names go into the paths as they are, so a scope can name a collection. *)
Example scope_that_names_a_collection : scope_path "b" "s/collections/c" = collection_path "b" "s" "c".
Proof. reflexivity. Qed.
