(* ===== verification/MgmtUsers.v ===== *)
(** * Users, groups and roles ([mgmtx/mgmt_user.rs], [mgmtx/user.rs], [mgmtx/user_json.rs])

    Parameters as in [Mgmt.v], and [urlencoding::encode] and [DateTime::parse_from_rfc3339]. *)

From Stdlib Require Import Ascii.
From S2P Require Import Prelude Text Json HttpxError MgmtxError Wire CoreError Http QueryReader Config BucketSettings Mgmt.

(** ** Data ([user.rs]) *)

Module Role.
Record Role : Type := mk {
  name : string;
  bucket : option string;
  scope : option string;
  collection : option string;
}.
End Role.
Abbreviation Role := Role.Role.
#[global] Instance role_settable : Settable (Role) := λ r,
  Role.mk (Role.name r) (Role.bucket r) (Role.scope r) (Role.collection r).

Definition role_new (name : string) : Role :=
  Role.mk name None None None.

Definition role_bucket (bucket : string) (self : Role) : Role :=
  self <| Role.bucket := Some bucket |>.

Definition role_scope (scope : string) (self : Role) : Role :=
  self <| Role.scope := Some scope |>.

Definition role_collection (collection : string) (self : Role) : Role :=
  self <| Role.collection := Some collection |>.

Module RoleAndDescription.
Record RoleAndDescription : Type := mk {
  role : Role;
  display_name : string;
  description : string;
}.
End RoleAndDescription.
Abbreviation RoleAndDescription := RoleAndDescription.RoleAndDescription.
#[global] Instance role_and_description_settable : Settable (RoleAndDescription) := λ r,
  RoleAndDescription.mk (RoleAndDescription.role r) (RoleAndDescription.display_name r)
    (RoleAndDescription.description r).

Module Origin.
Record Origin : Type := mk {
  origin_type : string;
  name : option string;
}.
End Origin.
Abbreviation Origin := Origin.Origin.
#[global] Instance origin_settable : Settable (Origin) := λ r,
  Origin.mk (Origin.origin_type r) (Origin.name r).

Module RoleAndOrigins.
Record RoleAndOrigins : Type := mk {
  role : Role;
  origins : list Origin;
}.
End RoleAndOrigins.
Abbreviation RoleAndOrigins := RoleAndOrigins.RoleAndOrigins.
#[global] Instance role_and_origins_settable : Settable (RoleAndOrigins) := λ r,
  RoleAndOrigins.mk (RoleAndOrigins.role r) (RoleAndOrigins.origins r).

Module Group.
Record Group : Type := mk {
  name : string;
  description : option string;
  roles : list Role;
  ldap_group_reference : option string;
}.
End Group.
Abbreviation Group := Group.Group.
#[global] Instance group_settable : Settable (Group) := λ r,
  Group.mk (Group.name r) (Group.description r) (Group.roles r) (Group.ldap_group_reference r).

Definition group_new (name : string) (description : string) (roles : list Role) : Group :=
  Group.mk name (Some description) roles None.

Definition group_ldap_group_reference (reference : string) (self : Group) : Group :=
  self <| Group.ldap_group_reference := Some reference |>.

Module User.
Record User : Type := mk {
  username : string;
  display_name : string;
  groups : list string;
  roles : list Role;
  password : option string;
}.
End User.
Abbreviation User := User.User.
#[global] Instance user_settable : Settable (User) := λ r,
  User.mk (User.username r) (User.display_name r) (User.groups r) (User.roles r) (User.password r).

Definition user_new (username : string) (display_name : string) (roles : list Role) : User :=
  User.mk username display_name [] roles None.

Definition user_groups (groups : list string) (self : User) : User :=
  self <| User.groups := groups |>.

Definition user_password (password : string) (self : User) : User :=
  self <| User.password := Some password |>.

Module UserAndMetadata.
Section Fields.
Context {V : Type}.
Record UserAndMetadata : Type := mk {
  domain : string;
  user : User;
  effective_roles : list RoleAndOrigins;
  password_changed : option V;
  external_groups : list string;
}.
End Fields.
#[global] Arguments UserAndMetadata : clear implicits.
End UserAndMetadata.
Abbreviation UserAndMetadata := UserAndMetadata.UserAndMetadata.
#[global] Instance user_and_metadata_settable V : Settable (UserAndMetadata V) := λ r,
  UserAndMetadata.mk (UserAndMetadata.domain r) (UserAndMetadata.user r) (UserAndMetadata.effective_roles r)
    (UserAndMetadata.password_changed r) (UserAndMetadata.external_groups r).

(** ** Documents ([user_json.rs]) *)

Module RoleJson.
Record RoleJson : Type := mk {
  role : string;
  bucket : option string;
  scope : option string;
  collection : option string;
}.
End RoleJson.
Abbreviation RoleJson := RoleJson.RoleJson.
#[global] Instance role_json_settable : Settable (RoleJson) := λ r,
  RoleJson.mk (RoleJson.role r) (RoleJson.bucket r) (RoleJson.scope r) (RoleJson.collection r).

Module RoleAndDescriptionJson.
Record RoleAndDescriptionJson : Type := mk {
  role_json : RoleJson;
  display_name : string;
  description : string;
}.
End RoleAndDescriptionJson.
Abbreviation RoleAndDescriptionJson := RoleAndDescriptionJson.RoleAndDescriptionJson.
#[global] Instance role_and_description_json_settable : Settable (RoleAndDescriptionJson) := λ r,
  RoleAndDescriptionJson.mk (RoleAndDescriptionJson.role_json r) (RoleAndDescriptionJson.display_name r)
    (RoleAndDescriptionJson.description r).

Module OriginJson.
Record OriginJson : Type := mk {
  origin_type : string;
  name : option string;
}.
End OriginJson.
Abbreviation OriginJson := OriginJson.OriginJson.
#[global] Instance origin_json_settable : Settable (OriginJson) := λ r,
  OriginJson.mk (OriginJson.origin_type r) (OriginJson.name r).

Module RoleAndOriginsJson.
Record RoleAndOriginsJson : Type := mk {
  role_json : RoleJson;
  origins : list OriginJson;
}.
End RoleAndOriginsJson.
Abbreviation RoleAndOriginsJson := RoleAndOriginsJson.RoleAndOriginsJson.
#[global] Instance role_and_origins_json_settable : Settable (RoleAndOriginsJson) := λ r,
  RoleAndOriginsJson.mk (RoleAndOriginsJson.role_json r) (RoleAndOriginsJson.origins r).

Module GroupJson.
Record GroupJson : Type := mk {
  id : string;
  description : option string;
  roles : list RoleJson;
  ldap_group_reference : option string;
}.
End GroupJson.
Abbreviation GroupJson := GroupJson.GroupJson.
#[global] Instance group_json_settable : Settable (GroupJson) := λ r,
  GroupJson.mk (GroupJson.id r) (GroupJson.description r) (GroupJson.roles r) (GroupJson.ldap_group_reference r).

Module UserJson.
Record UserJson : Type := mk {
  id : string;
  name : string;
  groups : list string;
  roles : list RoleJson;
  password : option string;
}.
End UserJson.
Abbreviation UserJson := UserJson.UserJson.
#[global] Instance user_json_settable : Settable (UserJson) := λ r,
  UserJson.mk (UserJson.id r) (UserJson.name r) (UserJson.groups r) (UserJson.roles r) (UserJson.password r).

Module UserAndMetadataJson.
Record UserAndMetadataJson : Type := mk {
  id : string;
  name : string;
  roles : list RoleAndOriginsJson;
  groups : list string;
  domain : string;
  password_changed_date : option string;
  external_groups : list string;
}.
End UserAndMetadataJson.
Abbreviation UserAndMetadataJson := UserAndMetadataJson.UserAndMetadataJson.
#[global] Instance user_and_metadata_json_settable : Settable (UserAndMetadataJson) := λ r,
  UserAndMetadataJson.mk (UserAndMetadataJson.id r) (UserAndMetadataJson.name r) (UserAndMetadataJson.roles r)
    (UserAndMetadataJson.groups r) (UserAndMetadataJson.domain r) (UserAndMetadataJson.password_changed_date r)
    (UserAndMetadataJson.external_groups r).

(** ** Options *)

Module MgmtGetUserOptions.
Record MgmtGetUserOptions : Type := mk {
  on_behalf_of_info : option OnBehalfOfInfo;
  username : string;
  auth_domain : string;
}.
End MgmtGetUserOptions.
Abbreviation MgmtGetUserOptions := MgmtGetUserOptions.MgmtGetUserOptions.
#[global] Instance mgmt_get_user_options_settable : Settable (MgmtGetUserOptions) := λ r,
  MgmtGetUserOptions.mk (MgmtGetUserOptions.on_behalf_of_info r) (MgmtGetUserOptions.username r)
    (MgmtGetUserOptions.auth_domain r).

Module MgmtGetAllUsersOptions.
Record MgmtGetAllUsersOptions : Type := mk {
  on_behalf_of_info : option OnBehalfOfInfo;
  auth_domain : string;
}.
End MgmtGetAllUsersOptions.
Abbreviation MgmtGetAllUsersOptions := MgmtGetAllUsersOptions.MgmtGetAllUsersOptions.
#[global] Instance mgmt_get_all_users_options_settable : Settable (MgmtGetAllUsersOptions) := λ r,
  MgmtGetAllUsersOptions.mk (MgmtGetAllUsersOptions.on_behalf_of_info r) (MgmtGetAllUsersOptions.auth_domain r).

Module MgmtUpsertUserOptions.
Record MgmtUpsertUserOptions : Type := mk {
  on_behalf_of_info : option OnBehalfOfInfo;
  user : User;
  auth_domain : string;
}.
End MgmtUpsertUserOptions.
Abbreviation MgmtUpsertUserOptions := MgmtUpsertUserOptions.MgmtUpsertUserOptions.
#[global] Instance mgmt_upsert_user_options_settable : Settable (MgmtUpsertUserOptions) := λ r,
  MgmtUpsertUserOptions.mk (MgmtUpsertUserOptions.on_behalf_of_info r) (MgmtUpsertUserOptions.user r)
    (MgmtUpsertUserOptions.auth_domain r).

Module MgmtDeleteUserOptions.
Record MgmtDeleteUserOptions : Type := mk {
  on_behalf_of_info : option OnBehalfOfInfo;
  username : string;
  auth_domain : string;
}.
End MgmtDeleteUserOptions.
Abbreviation MgmtDeleteUserOptions := MgmtDeleteUserOptions.MgmtDeleteUserOptions.
#[global] Instance mgmt_delete_user_options_settable : Settable (MgmtDeleteUserOptions) := λ r,
  MgmtDeleteUserOptions.mk (MgmtDeleteUserOptions.on_behalf_of_info r) (MgmtDeleteUserOptions.username r)
    (MgmtDeleteUserOptions.auth_domain r).

Module MgmtGetRolesOptions.
Record MgmtGetRolesOptions : Type := mk {
  permission : option string;
  on_behalf_of_info : option OnBehalfOfInfo;
}.
End MgmtGetRolesOptions.
Abbreviation MgmtGetRolesOptions := MgmtGetRolesOptions.MgmtGetRolesOptions.
#[global] Instance mgmt_get_roles_options_settable : Settable (MgmtGetRolesOptions) := λ r,
  MgmtGetRolesOptions.mk (MgmtGetRolesOptions.permission r) (MgmtGetRolesOptions.on_behalf_of_info r).

Module MgmtGetGroupOptions.
Record MgmtGetGroupOptions : Type := mk {
  on_behalf_of_info : option OnBehalfOfInfo;
  group_name : string;
}.
End MgmtGetGroupOptions.
Abbreviation MgmtGetGroupOptions := MgmtGetGroupOptions.MgmtGetGroupOptions.
#[global] Instance mgmt_get_group_options_settable : Settable (MgmtGetGroupOptions) := λ r,
  MgmtGetGroupOptions.mk (MgmtGetGroupOptions.on_behalf_of_info r) (MgmtGetGroupOptions.group_name r).

Module MgmtGetAllGroupsOptions.
Record MgmtGetAllGroupsOptions : Type := mk {
  on_behalf_of_info : option OnBehalfOfInfo;
}.
End MgmtGetAllGroupsOptions.
Abbreviation MgmtGetAllGroupsOptions := MgmtGetAllGroupsOptions.MgmtGetAllGroupsOptions.
#[global] Instance mgmt_get_all_groups_options_settable : Settable (MgmtGetAllGroupsOptions) := λ r,
  MgmtGetAllGroupsOptions.mk (MgmtGetAllGroupsOptions.on_behalf_of_info r).

Module MgmtUpsertGroupOptions.
Record MgmtUpsertGroupOptions : Type := mk {
  on_behalf_of_info : option OnBehalfOfInfo;
  group : Group;
}.
End MgmtUpsertGroupOptions.
Abbreviation MgmtUpsertGroupOptions := MgmtUpsertGroupOptions.MgmtUpsertGroupOptions.
#[global] Instance mgmt_upsert_group_options_settable : Settable (MgmtUpsertGroupOptions) := λ r,
  MgmtUpsertGroupOptions.mk (MgmtUpsertGroupOptions.on_behalf_of_info r) (MgmtUpsertGroupOptions.group r).

Module MgmtDeleteGroupOptions.
Record MgmtDeleteGroupOptions : Type := mk {
  on_behalf_of_info : option OnBehalfOfInfo;
  group_name : string;
}.
End MgmtDeleteGroupOptions.
Abbreviation MgmtDeleteGroupOptions := MgmtDeleteGroupOptions.MgmtDeleteGroupOptions.
#[global] Instance mgmt_delete_group_options_settable : Settable (MgmtDeleteGroupOptions) := λ r,
  MgmtDeleteGroupOptions.mk (MgmtDeleteGroupOptions.on_behalf_of_info r) (MgmtDeleteGroupOptions.group_name r).

Module MgmtChangePasswordOptions.
Record MgmtChangePasswordOptions : Type := mk {
  on_behalf_of_info : option OnBehalfOfInfo;
  new_password : string;
}.
End MgmtChangePasswordOptions.
Abbreviation MgmtChangePasswordOptions := MgmtChangePasswordOptions.MgmtChangePasswordOptions.
#[global] Instance mgmt_change_password_options_settable : Settable (MgmtChangePasswordOptions) := λ r,
  MgmtChangePasswordOptions.mk (MgmtChangePasswordOptions.on_behalf_of_info r)
    (MgmtChangePasswordOptions.new_password r).

(** ** Documents as data *)

Definition role_from_json (role_json : RoleJson) : Role :=
  Role.mk (RoleJson.role role_json) (RoleJson.bucket role_json) (RoleJson.scope role_json) (RoleJson.collection role_json).
Definition origin_from_json (origin_json : OriginJson) : Origin :=
  Origin.mk (OriginJson.origin_type origin_json) (OriginJson.name origin_json).
Definition role_and_origins_from_json (j : RoleAndOriginsJson) : RoleAndOrigins :=
  RoleAndOrigins.mk (role_from_json (RoleAndOriginsJson.role_json j)) (origin_from_json <$> RoleAndOriginsJson.origins j).
Definition role_and_description_from_json (j : RoleAndDescriptionJson) : RoleAndDescription :=
  RoleAndDescription.mk (role_from_json (RoleAndDescriptionJson.role_json j)) (RoleAndDescriptionJson.display_name j)
    (RoleAndDescriptionJson.description j).
Definition group_from_json (group_json : GroupJson) : Group :=
  Group.mk (GroupJson.id group_json) (GroupJson.description group_json) (role_from_json <$> GroupJson.roles group_json)
    (GroupJson.ldap_group_reference group_json).

(** The roles that a user has of its own, once for each origin that says so. *)
Definition own_roles (effective_role : RoleAndOrigins) : list Role :=
  match RoleAndOrigins.origins effective_role with
  | [] => [RoleAndOrigins.role effective_role]
  | origins =>
      (λ _, RoleAndOrigins.role effective_role) <$> filter (λ origin, Origin.origin_type origin = "user"%string) origins
  end.

(** [TryFrom<UserAndMetadataJson> for UserAndMetadata]. *)
Definition user_and_metadata_try_from {DateTime} (parse_from_rfc3339 : string → string + DateTime)
    (val : UserAndMetadataJson) : outcome Mgmtx.Error (UserAndMetadata DateTime) :=
  password_changed ←
    match UserAndMetadataJson.password_changed_date val with
    | Some pc =>
        match parse_from_rfc3339 pc with
        | inr date => Ok (Some date)
        | inl e => Err (Mgmtx.new_message_error ("failed to parse date: " +:+ e))
        end
    | None => Ok None
    end;
  let effective_roles := role_and_origins_from_json <$> UserAndMetadataJson.roles val in
  Ok (UserAndMetadata.mk (UserAndMetadataJson.domain val)
        (User.mk (UserAndMetadataJson.id val) (UserAndMetadataJson.name val) (UserAndMetadataJson.groups val)
           (effective_roles ≫= own_roles) None)
        effective_roles password_changed (UserAndMetadataJson.external_groups val)).

(** The text of a role in a form. *)
Definition build_role (role : Role) : string :=
  let role_str := Role.name role in
  match Role.bucket role with
  | Some bucket =>
      let role_str := role_str +:+ "[" +:+ bucket in
      let role_str := match Role.scope role with Some scope => role_str +:+ ":" +:+ scope | None => role_str end in
      let role_str :=
        match Role.collection role with Some collection => role_str +:+ ":" +:+ collection | None => role_str end in
      role_str +:+ "]"
  | None => role_str
  end.

Definition user_form (user : User) : list (string * string) :=
  [("name", User.display_name user); ("roles", join_commas (build_role <$> User.roles user))]%string
  ++ pair_of "password" (λ p, p) (User.password user)
  ++ match User.groups user with [] => [] | groups => [("groups", join_commas groups)]%string end.

Definition group_form (group : Group) : list (string * string) :=
  [("roles", join_commas (build_role <$> Group.roles group))]%string
  ++ pair_of "description" (λ d, d) (Group.description group)
  ++ pair_of "ldap_group_ref" (λ r, r) (Group.ldap_group_reference group).

(** ** Operations *)

Section Client.
Context {S DateTime : Type} `{HttpClient S}.
Context (utf8_error : list Z → option string) (response_url : Response → string)
  (form_urlencode : list (string * string) → list Z) (from_str_errors : list Z → option ServerErrors)
  (url_encode : string → string) (parse_from_rfc3339 : string → string + DateTime).
Context (from_slice_user : list Z → string + UserAndMetadataJson)
  (from_slice_users : list Z → string + list UserAndMetadataJson)
  (from_slice_roles : list Z → string + list RoleAndDescriptionJson)
  (from_slice_group : list Z → string + GroupJson)
  (from_slice_groups : list Z → string + list GroupJson).

Abbreviation Call A := (io S Mgmtx.Error A).
Abbreviation mgmt_call := (mgmt_call utf8_error response_url from_str_errors).
Abbreviation get_json := (get_json utf8_error response_url from_str_errors).

Definition status_is_success (status : Z) : bool := (200 <=? status) && (status <? 300).

Definition users_path (auth_domain : string) : string := "settings/rbac/users/" +:+ url_encode auth_domain.
Definition user_path (auth_domain username : string) : string :=
  users_path auth_domain +:+ "/" +:+ url_encode username.
Definition group_path (group_name : string) : string := "settings/rbac/groups/" +:+ group_name.

Definition get_user (self : Management) (opts : MgmtGetUserOptions) : Call (UserAndMetadata DateTime) :=
  user_json ← get_json self (user_path (MgmtGetUserOptions.auth_domain opts) (MgmtGetUserOptions.username opts)) "get_user"
                (MgmtGetUserOptions.on_behalf_of_info opts) from_slice_user;
  io_lift (user_and_metadata_try_from parse_from_rfc3339 user_json).

Definition get_all_users (self : Management) (opts : MgmtGetAllUsersOptions) : Call (list (UserAndMetadata DateTime)) :=
  users_json ← get_json self (users_path (MgmtGetAllUsersOptions.auth_domain opts)) "get_all_users"
                 (MgmtGetAllUsersOptions.on_behalf_of_info opts) from_slice_users;
  io_lift (mapM (user_and_metadata_try_from parse_from_rfc3339) users_json).

Definition upsert_user (self : Management) (opts : MgmtUpsertUserOptions) : Call unit :=
  let user := MgmtUpsertUserOptions.user opts in
  let path := user_path (MgmtUpsertUserOptions.auth_domain opts) (User.username user) in
  mgmt_call status_is_success PUT path "upsert_user"
    (mgmt_execute self PUT path form_type (MgmtUpsertUserOptions.on_behalf_of_info opts) None
       (Some (form_urlencode (user_form user))))
    no_result.

Definition delete_user (self : Management) (opts : MgmtDeleteUserOptions) : Call unit :=
  let path := user_path (MgmtDeleteUserOptions.auth_domain opts) (MgmtDeleteUserOptions.username opts) in
  mgmt_call (status_is 200) DELETE path "delete_user"
    (mgmt_execute self DELETE path "" (MgmtDeleteUserOptions.on_behalf_of_info opts) None None) no_result.

Definition get_roles (self : Management) (opts : MgmtGetRolesOptions) : Call (list RoleAndDescription) :=
  let path :=
    match MgmtGetRolesOptions.permission opts with
    | Some p => "settings/rbac/roles?permission=" +:+ url_encode p
    | None => "settings/rbac/roles"
    end in
  roles_json ← get_json self path "get_roles" (MgmtGetRolesOptions.on_behalf_of_info opts) from_slice_roles;
  mret (role_and_description_from_json <$> roles_json).

(** The name is put in the path as it is. *)
Definition get_group (self : Management) (opts : MgmtGetGroupOptions) : Call Group :=
  group_json ← get_json self (group_path (MgmtGetGroupOptions.group_name opts)) "get_group"
                 (MgmtGetGroupOptions.on_behalf_of_info opts) from_slice_group;
  mret (group_from_json group_json).

Definition get_all_groups (self : Management) (opts : MgmtGetAllGroupsOptions) : Call (list Group) :=
  groups_json ← get_json self "settings/rbac/groups" "get_all_groups" (MgmtGetAllGroupsOptions.on_behalf_of_info opts)
                  from_slice_groups;
  mret (group_from_json <$> groups_json).

Definition upsert_group (self : Management) (opts : MgmtUpsertGroupOptions) : Call unit :=
  let group := MgmtUpsertGroupOptions.group opts in
  let path := group_path (url_encode (Group.name group)) in
  mgmt_call status_is_success PUT path "upsert_group"
    (mgmt_execute self PUT path form_type (MgmtUpsertGroupOptions.on_behalf_of_info opts) None
       (Some (form_urlencode (group_form group))))
    no_result.

Definition delete_group (self : Management) (opts : MgmtDeleteGroupOptions) : Call unit :=
  let path := group_path (url_encode (MgmtDeleteGroupOptions.group_name opts)) in
  mgmt_call (status_is 200) DELETE path "delete_group"
    (mgmt_execute self DELETE path "" (MgmtDeleteGroupOptions.on_behalf_of_info opts) None None) no_result.

Definition change_password (self : Management) (opts : MgmtChangePasswordOptions) : Call unit :=
  let path := "controller/changePassword" in
  mgmt_call (status_is 200) POST path "change_password"
    (mgmt_execute self POST path form_type (MgmtChangePasswordOptions.on_behalf_of_info opts) None
       (Some (form_urlencode [("password", MgmtChangePasswordOptions.new_password opts)]%string)))
    no_result.

End Client.

(** ** Roles *)

(** A role is a user's own when it has no origin or one of its origins is the user. *)
Lemma own_roles_iff e r :
  r ∈ own_roles e ↔
  r = RoleAndOrigins.role e
  ∧ (RoleAndOrigins.origins e = [] ∨ Exists (λ o, Origin.origin_type o = "user"%string) (RoleAndOrigins.origins e)).
Proof.
  unfold own_roles. destruct (RoleAndOrigins.origins e) as [|o os] eqn:Ho.
  { rewrite list_elem_of_singleton. naive_solver. }
  rewrite list_elem_of_fmap, list.Exists_exists. setoid_rewrite list_elem_of_filter. naive_solver.
Qed.

(** What the text of a role can be read back from: names without the marks, and no part without the part
    that contains it. *)
Definition plain_name (s : string) : Prop :=
  str_contains "["%char s = false ∧ str_contains "]"%char s = false ∧ str_contains ":"%char s = false.

Record role_ok (r : Role) : Prop := {
  role_name_ok : plain_name (Role.name r);
  role_bucket_ok : ∀ b, Role.bucket r = Some b → plain_name b;
  role_scope_ok : ∀ s, Role.scope r = Some s → plain_name s ∧ is_Some (Role.bucket r);
  role_collection_ok : ∀ c, Role.collection r = Some c → plain_name c ∧ is_Some (Role.scope r);
}.

Fixpoint join_colons (l : list string) : string :=
  match l with
  | [] => ""
  | [s] => s
  | s :: l => s +:+ String ":" (join_colons l)
  end.

Lemma join_colons_inj l k :
  Forall plain_name l → Forall plain_name k → l ≠ [] → k ≠ [] → join_colons l = join_colons k → l = k.
Proof.
  revert k. induction l as [|a l IH]; intros [|b k] Hl Hk; try done. intros _ _.
  apply list.Forall_cons in Hl as [(_ & _ & Ha) Hl], Hk as [(_ & _ & Hb) Hk].
  destruct l as [|a' l], k as [|b' k]; cbn [join_colons]; intros H.
  - by subst.
  - by destruct (no_separator _ _ _ _ Ha H).
  - by destruct (no_separator _ _ _ _ Hb (eq_sym H)).
  - apply first_separator_inj in H as [-> H]; [|done..]. by rewrite (IH (b' :: k)).
Qed.

(** What a role is for, from the bucket down. *)
Definition role_parts (r : Role) : list string :=
  match Role.bucket r with
  | Some b => b :: option_list (Role.scope r) ++ option_list (Role.collection r)
  | None => []
  end.


Lemma build_role_parts r :
  build_role r = match role_parts r with
                 | [] => Role.name r
                 | ps => Role.name r +:+ String "[" (join_colons ps +:+ String "]" "")
                 end.
Proof.
  destruct r as [n [b|] [s|] [c|]]; unfold build_role, role_parts; cbn -[String.append]; try done;
    repeat (rewrite ?string_app_assoc, ?app_cons; cbn -[String.append]); done.
Qed.

Lemma role_parts_plain r : role_ok r → Forall plain_name (role_parts r).
Proof.
  intros [_ Hb Hs Hc]. destruct r as [n [b|] [s|] [c|]]; unfold role_parts; cbn in *;
    repeat (apply list.Forall_cons; split); try apply list.Forall_nil; try done;
    first [by apply Hb|by destruct (Hs _ eq_refl)|by destruct (Hc _ eq_refl)].
Qed.

(** Roles with the same text are the same role. *)
Lemma build_role_injective r r' : role_ok r → role_ok r' → build_role r = build_role r' → r = r'.
Proof.
  intros Hr Hr'. rewrite !build_role_parts. pose proof (role_parts_plain r Hr) as Hp.
  pose proof (role_parts_plain r' Hr') as Hp'. destruct Hr as [(Hn & _) _ Hs Hc], Hr' as [(Hn' & _) _ Hs' Hc'].
  intros H. assert (Role.name r = Role.name r' ∧ role_parts r = role_parts r') as [H1 H2].
  { destruct (role_parts r) as [|p ps] eqn:Hps, (role_parts r') as [|p' ps'] eqn:Hps'.
    - done.
    - by destruct (no_separator _ _ _ _ Hn H).
    - by destruct (no_separator _ _ _ _ Hn' (eq_sym H)).
    - apply first_separator_inj in H as [Hname H]; [|done..]. split; [done|].
      apply last_separator_inj in H as [H _]; [|done..]. by apply join_colons_inj. }
  clear H Hp Hp'. destruct r as [n b s c], r' as [n' b' s' c']. cbn in *. subst n'.
  destruct b, s, c, b', s', c'; cbn in *; simplify_eq; try done;
    repeat match goal with
           | K : ∀ _, Some ?x = Some _ → _ |- _ => destruct (K _ eq_refl) as [_ []]; clear K
           end; done.
Qed.

(** A collection without its scope is read as a scope. *)
Example collection_without_scope :
  build_role (role_collection "c" (role_bucket "b" (role_new "r"))) = build_role (role_scope "c" (role_bucket "b" (role_new "r"))).
Proof. reflexivity. Qed.

(** The text of a user's form for its roles. *)
Example user_form_roles :
  user_form (user_groups ["g"; "h"] (user_new "u" "U" [role_new "admin"; role_scope "s" (role_bucket "b" (role_new "reader"))]))
  = [("name", "U"); ("roles", "admin,reader[b:s]"); ("groups", "g,h")]%string.
Proof. reflexivity. Qed.
