(* ===== verification/MgmtHelpers.v ===== *)
(** * Waiting for a change on every node ([mgmtx/bucket_helper.rs], [mgmtx/manifest_helper.rs],
    [mgmtx/user_helper.rs], [mgmtx/group_helper.rs])

    A poll asks every node whether it has the change.  The four helpers differ in what they ask;
    the poll is the same in each. *)

From S2P Require Import Prelude Text Json HttpxError MgmtxError Wire CoreError FacadeError Http QueryReader Config.
From S2P Require Import BucketSettings Mgmt MgmtUsers.

(** ** The poll *)

Section Poll.
Context {S E : Type} (poll_one : NodeTarget → io S E bool).

(** All targets are asked, in turn, also those that were confirmed before. *)
Fixpoint success_targets (targets : list NodeTarget) : io S E (list string) :=
  match targets with
  | [] => mret []
  | target :: targets =>
      success ← poll_one target;
      rest ← success_targets targets;
      mret (if (success : bool) then nt_endpoint target :: rest else rest)
  end.

(** Whether the wait is over, and the endpoints that are confirmed then. *)
Definition poll_targets (confirmed_endpoints : list string) (targets : list NodeTarget) : io S E (bool * list string) :=
  let filtered_targets := filter (λ t, nt_endpoint t ∉ confirmed_endpoints) targets in
  success_endpoints ← success_targets targets;
  mret (bool_decide (length success_endpoints = length filtered_targets), confirmed_endpoints ++ success_endpoints).

(** The targets answered these one after the other. *)
Inductive answered : list NodeTarget → S → list bool → S → Prop :=
| answered_none s : answered [] s [] s
| answered_one t ts s b s1 bs s2 :
    poll_one t s = (s1, Some (Ok b)) → answered ts s1 bs s2 → answered (t :: ts) s (b :: bs) s2.

Lemma success_targets_ok targets s s' l :
  success_targets targets s = (s', Some (Ok l)) →
  ∃ bs, answered targets s bs s' ∧ l = nt_endpoint <$> (filter (λ p, p.2 = true) (zip targets bs)).*1.
Proof.
  revert s l. induction targets as [|t ts IH]; intros s l; cbn [success_targets].
  { intros [= -> <-]. exists []. split; [constructor|done]. }
  unfold mbind, io_bind. destruct (poll_one t s) as [s1 [[b|e| ]|]] eqn:Ht; try done.
  destruct (success_targets ts s1) as [s2 [[l'|e| ]|]] eqn:Hl; try done. cbn. intros [= -> <-].
  destruct (IH s1 l' Hl) as (bs & Hb & ->). exists (b :: bs). split; [by econstructor|].
  cbn [zip zip_with]. destruct b; [rewrite filter_cons_True by done|rewrite filter_cons_False by done]; done.
Qed.

(** When nothing was confirmed before, the wait is over just when every target has the change. *)
Lemma first_poll_is_over targets s s' finished confirmed :
  poll_targets [] targets s = (s', Some (Ok (finished, confirmed))) →
  ∃ bs, answered targets s bs s' ∧ (finished = true ↔ Forall (λ b, b = true) bs).
Proof.
  unfold poll_targets, mbind, io_bind.
  destruct (success_targets targets s) as [s1 [[l|e| ]|]] eqn:Hl; try done. cbn -[filter]. intros [= -> <- _].
  apply success_targets_ok in Hl as (bs & Hb & ->). exists bs. split; [done|].
  rewrite bool_decide_eq_true, !length_fmap, (filter_all _ targets) by (intros ?; apply not_elem_of_nil).
  assert (length bs = length targets) as Hlen by (clear -Hb; induction Hb; cbn; lia). clear Hb.
  by apply all_answered.
Qed.
(** Nodes that all have the change end the wait at once. *)
Lemma success_targets_answered targets s bs s' :
  answered targets s bs s' → Forall (λ b, b = true) bs → success_targets targets s = (s', Some (Ok (nt_endpoint <$> targets))).
Proof.
  induction 1 as [s|t ts s b s1 bs s2 Ht _ IH]; [done|]. intros [-> Hbs]%list.Forall_cons. cbn [success_targets].
  unfold mbind, io_bind. by rewrite Ht, (IH Hbs).
Qed.

Lemma poll_ends_when_all_agree targets s bs s' :
  answered targets s bs s' → Forall (λ b, b = true) bs →
  poll_targets [] targets s = (s', Some (Ok (true, nt_endpoint <$> targets))).
Proof.
  intros Ha Hbs. unfold poll_targets, mbind, io_bind. rewrite (success_targets_answered _ _ _ _ Ha Hbs).
  cbn -[filter]. rewrite filter_all by (intros ?; apply not_elem_of_nil). by rewrite length_fmap, bool_decide_true.
Qed.
End Poll.

(** ** The helpers *)

Module EnsureBucketHelper.
Record EnsureBucketHelper : Type := mk {
  user_agent : string;
  bucket_name : string;
  bucket_uuid : option string;
  want_missing : bool;
  on_behalf_of_info : option OnBehalfOfInfo;
  confirmed_endpoints : list string;
}.
End EnsureBucketHelper.
Abbreviation EnsureBucketHelper := EnsureBucketHelper.EnsureBucketHelper.

Definition ensure_bucket_helper_new (user_agent bucket_name : string) (bucket_uuid : option string) (want_missing : bool)
    (on_behalf_of_info : option OnBehalfOfInfo) : EnsureBucketHelper :=
  EnsureBucketHelper.mk user_agent bucket_name bucket_uuid want_missing on_behalf_of_info [].

Module EnsureManifestHelper.
Record EnsureManifestHelper : Type := mk {
  user_agent : string;
  bucket_name : string;
  manifest_uid : Z;
  on_behalf_of_info : option OnBehalfOfInfo;
  confirmed_endpoints : list string;
}.
End EnsureManifestHelper.
Abbreviation EnsureManifestHelper := EnsureManifestHelper.EnsureManifestHelper.

Definition ensure_manifest_helper_new (user_agent bucket_name : string) (manifest_uid : Z)
    (on_behalf_of_info : option OnBehalfOfInfo) : EnsureManifestHelper :=
  EnsureManifestHelper.mk user_agent bucket_name manifest_uid on_behalf_of_info [].

Module EnsureUserHelper.
Record EnsureUserHelper : Type := mk {
  user_agent : string;
  username : string;
  auth_domain : string;
  want_missing : bool;
  on_behalf_of_info : option OnBehalfOfInfo;
  confirmed_endpoints : list string;
}.
End EnsureUserHelper.
Abbreviation EnsureUserHelper := EnsureUserHelper.EnsureUserHelper.

Definition ensure_user_helper_new (user_agent username auth_domain : string) (want_missing : bool)
    (on_behalf_of_info : option OnBehalfOfInfo) : EnsureUserHelper :=
  EnsureUserHelper.mk user_agent username auth_domain want_missing on_behalf_of_info [].

Module EnsureGroupHelper.
Record EnsureGroupHelper : Type := mk {
  user_agent : string;
  group_name : string;
  want_missing : bool;
  on_behalf_of_info : option OnBehalfOfInfo;
  confirmed_endpoints : list string;
}.
End EnsureGroupHelper.
Abbreviation EnsureGroupHelper := EnsureGroupHelper.EnsureGroupHelper.

Definition ensure_group_helper_new (user_agent group_name : string) (want_missing : bool)
    (on_behalf_of_info : option OnBehalfOfInfo) : EnsureGroupHelper :=
  EnsureGroupHelper.mk user_agent group_name want_missing on_behalf_of_info [].

Section Helpers.
Context {S DateTime : Type} `{HttpClient S}.
Context (utf8_error : list Z → option string) (response_url : Response → string) (from_str_errors : list Z → option ServerErrors)
  (url_encode : string → string) (parse_from_rfc3339 : string → string + DateTime).
Context (from_slice_terse_config : list Z → string + TerseConfig)
  (from_slice_manifest : list Z → string + CollectionManifest)
  (from_slice_user : list Z → string + UserAndMetadataJson) (from_slice_group : list Z → string + GroupJson).
(** The text of the error of [u64::from_str_radix]. *)
Context (radix_error : string → string).

Abbreviation Call A := (io S Mgmtx.Error A).

(** The client of a target. *)
Definition management_of (user_agent : string) (target : NodeTarget) : Management :=
  mkManagement user_agent (nt_endpoint target) (nt_auth target).

(** What is asked for is there, or is missing with the error [missing]. *)
Definition is_there {A} (missing : Mgmtx.ServerErrorKind) (want_missing : bool) (there : A → bool) (resp : Call A)
    : Call bool := λ s,
  match resp s with
  | (s, Some (Ok a)) => (s, Some (Ok (there a)))
  | (s, Some (Err e)) =>
      (s, Some (match Mgmtx.kind e with
                | Mgmtx.Server se => if bool_decide (Mgmtx.se_kind se = missing) then Ok want_missing else Err e
                | _ => Err e
                end))
  | (s, Some Panic) => (s, Some Panic)
  | (s, None) => (s, None)
  end.

Lemma is_there_ok {A} missing want_missing (there : A → bool) (resp : Call A) s s' b :
  is_there missing want_missing there resp s = (s', Some (Ok b)) →
  (∃ a, resp s = (s', Some (Ok a)) ∧ b = there a)
  ∨ (b = want_missing ∧ ∃ e se, resp s = (s', Some (Err e)) ∧ Mgmtx.kind e = Mgmtx.Server se ∧ Mgmtx.se_kind se = missing).
Proof.
  unfold is_there. destruct (resp s) as [s1 [[a|e|]|]]; try done.
  - intros [= <- <-]. left. eauto.
  - destruct (Mgmtx.kind e) as [se| | | |] eqn:Hk; try done. case_bool_decide; [|done]. intros [= <- <-]. right. eauto 10.
Qed.

(** The answer for a bucket that is there. *)
Definition bucket_there (bucket_uuid config_uuid : option string) (want_missing : bool) : bool :=
  match bucket_uuid, config_uuid with
  | Some bucket_uuid, Some config_uuid =>
      if bool_decide (config_uuid = bucket_uuid) then negb want_missing
      else if want_missing then false else true
  | _, _ => if want_missing then false else true
  end.

Definition poll_one_bucket (self : EnsureBucketHelper) (target : NodeTarget) : Call bool :=
  is_there Mgmtx.BucketNotFound (EnsureBucketHelper.want_missing self)
    (λ config, bucket_there (EnsureBucketHelper.bucket_uuid self) (TerseConfig.uuid config) (EnsureBucketHelper.want_missing self))
    (get_terse_bucket_config utf8_error response_url from_str_errors from_slice_terse_config
       (management_of (EnsureBucketHelper.user_agent self) target)
       (MgmtGetTerseBucketConfigOptions.mk (EnsureBucketHelper.on_behalf_of_info self) (EnsureBucketHelper.bucket_name self))).

Definition poll_one_manifest (self : EnsureManifestHelper) (target : NodeTarget) : Call bool :=
  resp ← get_collection_manifest utf8_error response_url from_str_errors from_slice_manifest
           (management_of (EnsureManifestHelper.user_agent self) target)
           (MgmtGetCollectionManifestOptions.mk (EnsureManifestHelper.on_behalf_of_info self)
              (EnsureManifestHelper.bucket_name self));
  io_lift
    match u64_from_hex (CollectionManifest.uid resp) with
    | Some manifest_uid => Ok (negb (manifest_uid <? EnsureManifestHelper.manifest_uid self))
    | None =>
        Err (Mgmtx.new_message_error ("failed to parse manifest uid: " +:+ radix_error (CollectionManifest.uid resp)))
    end.

Definition poll_one_user (self : EnsureUserHelper) (target : NodeTarget) : Call bool :=
  is_there Mgmtx.UserNotFound (EnsureUserHelper.want_missing self) (λ _, negb (EnsureUserHelper.want_missing self))
    (get_user utf8_error response_url from_str_errors url_encode parse_from_rfc3339 from_slice_user
       (management_of (EnsureUserHelper.user_agent self) target)
       (MgmtGetUserOptions.mk (EnsureUserHelper.on_behalf_of_info self) (EnsureUserHelper.username self)
          (EnsureUserHelper.auth_domain self))).

Definition poll_one_group (self : EnsureGroupHelper) (target : NodeTarget) : Call bool :=
  is_there Mgmtx.GroupNotFound (EnsureGroupHelper.want_missing self) (λ _, negb (EnsureGroupHelper.want_missing self))
    (get_group utf8_error response_url from_str_errors from_slice_group
       (management_of (EnsureGroupHelper.user_agent self) target)
       (MgmtGetGroupOptions.mk (EnsureGroupHelper.on_behalf_of_info self) (EnsureGroupHelper.group_name self))).

(** Each poll, and the helper after it. *)
Definition poll_bucket (self : EnsureBucketHelper) (targets : list NodeTarget) : Call (bool * EnsureBucketHelper) :=
  '(finished, confirmed) ← poll_targets (poll_one_bucket self) (EnsureBucketHelper.confirmed_endpoints self) targets;
  mret (finished,
        EnsureBucketHelper.mk (EnsureBucketHelper.user_agent self) (EnsureBucketHelper.bucket_name self)
          (EnsureBucketHelper.bucket_uuid self) (EnsureBucketHelper.want_missing self)
          (EnsureBucketHelper.on_behalf_of_info self) confirmed).

Definition poll_manifest (self : EnsureManifestHelper) (targets : list NodeTarget) : Call (bool * EnsureManifestHelper) :=
  '(finished, confirmed) ← poll_targets (poll_one_manifest self) (EnsureManifestHelper.confirmed_endpoints self) targets;
  mret (finished,
        EnsureManifestHelper.mk (EnsureManifestHelper.user_agent self) (EnsureManifestHelper.bucket_name self)
          (EnsureManifestHelper.manifest_uid self) (EnsureManifestHelper.on_behalf_of_info self) confirmed).

Definition poll_user (self : EnsureUserHelper) (targets : list NodeTarget) : Call (bool * EnsureUserHelper) :=
  '(finished, confirmed) ← poll_targets (poll_one_user self) (EnsureUserHelper.confirmed_endpoints self) targets;
  mret (finished,
        EnsureUserHelper.mk (EnsureUserHelper.user_agent self) (EnsureUserHelper.username self)
          (EnsureUserHelper.auth_domain self) (EnsureUserHelper.want_missing self) (EnsureUserHelper.on_behalf_of_info self)
          confirmed).

Definition poll_group (self : EnsureGroupHelper) (targets : list NodeTarget) : Call (bool * EnsureGroupHelper) :=
  '(finished, confirmed) ← poll_targets (poll_one_group self) (EnsureGroupHelper.confirmed_endpoints self) targets;
  mret (finished,
        EnsureGroupHelper.mk (EnsureGroupHelper.user_agent self) (EnsureGroupHelper.group_name self)
          (EnsureGroupHelper.want_missing self) (EnsureGroupHelper.on_behalf_of_info self) confirmed).

End Helpers.

(** The uuids change nothing: a node that has the bucket, of whatever uuid, has it. *)
Lemma bucket_uuid_is_ignored bucket_uuid config_uuid want_missing :
  bucket_there bucket_uuid config_uuid want_missing = negb want_missing.
Proof. unfold bucket_there. repeat case_match; done. Qed.

Section Answers.
Context {S DateTime : Type} `{HttpClient S}.
Context (utf8_error : list Z → option string) (response_url : Response → string) (from_str_errors : list Z → option ServerErrors)
  (url_encode : string → string) (parse_from_rfc3339 : string → string + DateTime).
Context (from_slice_terse_config : list Z → string + TerseConfig)
  (from_slice_user : list Z → string + UserAndMetadataJson) (from_slice_group : list Z → string + GroupJson).

(** The node has it, or misses it, as it is wanted. *)
Definition as_wanted {A} (missing : Mgmtx.ServerErrorKind) (want_missing : bool) (resp : io S Mgmtx.Error A) (s s' : S) : Prop :=
  if want_missing then
    ∃ e se, resp s = (s', Some (Err e)) ∧ Mgmtx.kind e = Mgmtx.Server se ∧ Mgmtx.se_kind se = missing
  else ∃ a, resp s = (s', Some (Ok a)).

Lemma is_there_wanted {A} missing want_missing (there : A → bool) (resp : io S Mgmtx.Error A) s s' :
  (∀ a, there a = negb want_missing) →
  is_there missing want_missing there resp s = (s', Some (Ok true)) → as_wanted missing want_missing resp s s'.
Proof.
  intros Hth [(a & Ha & Hb)|(Hb & He)]%is_there_ok; unfold as_wanted.
  - rewrite Hth in Hb. destruct want_missing; [done|]. by exists a.
  - by rewrite <-Hb.
Qed.

(** A node that answers a poll with yes is in the state that is waited for. *)
Lemma poll_one_bucket_wanted self target s s' :
  poll_one_bucket utf8_error response_url from_str_errors from_slice_terse_config self target s = (s', Some (Ok true)) →
  as_wanted Mgmtx.BucketNotFound (EnsureBucketHelper.want_missing self)
    (get_terse_bucket_config utf8_error response_url from_str_errors from_slice_terse_config
       (management_of (EnsureBucketHelper.user_agent self) target)
       (MgmtGetTerseBucketConfigOptions.mk (EnsureBucketHelper.on_behalf_of_info self) (EnsureBucketHelper.bucket_name self)))
    s s'.
Proof. apply is_there_wanted. intros c. apply bucket_uuid_is_ignored. Qed.

Lemma poll_one_user_wanted self target s s' :
  poll_one_user utf8_error response_url from_str_errors url_encode parse_from_rfc3339 from_slice_user self target s
  = (s', Some (Ok true)) →
  as_wanted Mgmtx.UserNotFound (EnsureUserHelper.want_missing self)
    (get_user utf8_error response_url from_str_errors url_encode parse_from_rfc3339 from_slice_user
       (management_of (EnsureUserHelper.user_agent self) target)
       (MgmtGetUserOptions.mk (EnsureUserHelper.on_behalf_of_info self) (EnsureUserHelper.username self)
          (EnsureUserHelper.auth_domain self))) s s'.
Proof. by apply is_there_wanted. Qed.

Lemma poll_one_group_wanted self target s s' :
  poll_one_group utf8_error response_url from_str_errors from_slice_group self target s = (s', Some (Ok true)) →
  as_wanted Mgmtx.GroupNotFound (EnsureGroupHelper.want_missing self)
    (get_group utf8_error response_url from_str_errors from_slice_group
       (management_of (EnsureGroupHelper.user_agent self) target)
       (MgmtGetGroupOptions.mk (EnsureGroupHelper.on_behalf_of_info self) (EnsureGroupHelper.group_name self))) s s'.
Proof. by apply is_there_wanted. Qed.
End Answers.
