(* ===== verification/CoreMgmtOptions.v ===== *)
(** * Options of the management operations ([options/management.rs])

    One record per options struct of the agent's management operations, with its constructors, its
    setters and its conversion to the options of the management client, which leaves the retry
    strategy behind.  The type of the retry strategy is the parameter [T]. *)

From S2P Require Import Prelude Text Wire CoreError Retry CrudOptions Http BucketSettings Mgmt MgmtUsers.

Module CoreGetCollectionManifestOptions.
Section Fields.
Context {T : Type}.
Record CoreGetCollectionManifestOptions : Type := mk {
  on_behalf_of_info : option OnBehalfOfInfo;
  bucket_name : string;
  retry_strategy : T;
}.
End Fields.
#[global] Arguments CoreGetCollectionManifestOptions : clear implicits.
End CoreGetCollectionManifestOptions.
Abbreviation CoreGetCollectionManifestOptions := CoreGetCollectionManifestOptions.CoreGetCollectionManifestOptions.
#[global] Instance core_get_collection_manifest_options_settable T : Settable (CoreGetCollectionManifestOptions
    T) := λ r,
  CoreGetCollectionManifestOptions.mk (CoreGetCollectionManifestOptions.on_behalf_of_info r)
    (CoreGetCollectionManifestOptions.bucket_name r) (CoreGetCollectionManifestOptions.retry_strategy r).

Definition core_get_collection_manifest_options_new (bucket_name : string) : CoreGetCollectionManifestOptions
    FailFastRetryStrategy :=
  CoreGetCollectionManifestOptions.mk None bucket_name DEFAULT_RETRY_STRATEGY.

Definition core_get_collection_manifest_options_retry_strategy {T T' : Type} (retry_strategy : T')
    (self : CoreGetCollectionManifestOptions T) : CoreGetCollectionManifestOptions T' :=
  CoreGetCollectionManifestOptions.mk (CoreGetCollectionManifestOptions.on_behalf_of_info self)
    (CoreGetCollectionManifestOptions.bucket_name self) retry_strategy.

Definition core_get_collection_manifest_options_on_behalf_of_info {T : Type} (on_behalf_of_info : OnBehalfOfInfo)
    (self : CoreGetCollectionManifestOptions T) : CoreGetCollectionManifestOptions T :=
  self <| CoreGetCollectionManifestOptions.on_behalf_of_info := Some on_behalf_of_info |>.

Definition core_get_collection_manifest_options_into {T : Type} (opts : CoreGetCollectionManifestOptions T) :
    MgmtGetCollectionManifestOptions :=
  MgmtGetCollectionManifestOptions.mk (CoreGetCollectionManifestOptions.on_behalf_of_info opts)
    (CoreGetCollectionManifestOptions.bucket_name opts).

Module CoreCreateScopeOptions.
Section Fields.
Context {T : Type}.
Record CoreCreateScopeOptions : Type := mk {
  on_behalf_of_info : option OnBehalfOfInfo;
  bucket_name : string;
  scope_name : string;
  retry_strategy : T;
}.
End Fields.
#[global] Arguments CoreCreateScopeOptions : clear implicits.
End CoreCreateScopeOptions.
Abbreviation CoreCreateScopeOptions := CoreCreateScopeOptions.CoreCreateScopeOptions.
#[global] Instance core_create_scope_options_settable T : Settable (CoreCreateScopeOptions T) := λ r,
  CoreCreateScopeOptions.mk (CoreCreateScopeOptions.on_behalf_of_info r) (CoreCreateScopeOptions.bucket_name r)
    (CoreCreateScopeOptions.scope_name r) (CoreCreateScopeOptions.retry_strategy r).

Definition core_create_scope_options_new (bucket_name : string) (scope_name : string) : CoreCreateScopeOptions
    FailFastRetryStrategy :=
  CoreCreateScopeOptions.mk None bucket_name scope_name DEFAULT_RETRY_STRATEGY.

Definition core_create_scope_options_retry_strategy {T T' : Type} (retry_strategy : T')
    (self : CoreCreateScopeOptions T) : CoreCreateScopeOptions T' :=
  CoreCreateScopeOptions.mk (CoreCreateScopeOptions.on_behalf_of_info self) (CoreCreateScopeOptions.bucket_name
    self) (CoreCreateScopeOptions.scope_name self) retry_strategy.

Definition core_create_scope_options_on_behalf_of_info {T : Type} (on_behalf_of_info : OnBehalfOfInfo)
    (self : CoreCreateScopeOptions T) : CoreCreateScopeOptions T :=
  self <| CoreCreateScopeOptions.on_behalf_of_info := Some on_behalf_of_info |>.

Definition core_create_scope_options_into {T : Type} (opts : CoreCreateScopeOptions T) : MgmtCreateScopeOptions :=
  MgmtCreateScopeOptions.mk (CoreCreateScopeOptions.on_behalf_of_info opts) (CoreCreateScopeOptions.bucket_name
    opts) (CoreCreateScopeOptions.scope_name opts).

Module CoreDeleteScopeOptions.
Section Fields.
Context {T : Type}.
Record CoreDeleteScopeOptions : Type := mk {
  on_behalf_of_info : option OnBehalfOfInfo;
  bucket_name : string;
  scope_name : string;
  retry_strategy : T;
}.
End Fields.
#[global] Arguments CoreDeleteScopeOptions : clear implicits.
End CoreDeleteScopeOptions.
Abbreviation CoreDeleteScopeOptions := CoreDeleteScopeOptions.CoreDeleteScopeOptions.
#[global] Instance core_delete_scope_options_settable T : Settable (CoreDeleteScopeOptions T) := λ r,
  CoreDeleteScopeOptions.mk (CoreDeleteScopeOptions.on_behalf_of_info r) (CoreDeleteScopeOptions.bucket_name r)
    (CoreDeleteScopeOptions.scope_name r) (CoreDeleteScopeOptions.retry_strategy r).

Definition core_delete_scope_options_new (bucket_name : string) (scope_name : string) : CoreDeleteScopeOptions
    FailFastRetryStrategy :=
  CoreDeleteScopeOptions.mk None bucket_name scope_name DEFAULT_RETRY_STRATEGY.

Definition core_delete_scope_options_retry_strategy {T T' : Type} (retry_strategy : T')
    (self : CoreDeleteScopeOptions T) : CoreDeleteScopeOptions T' :=
  CoreDeleteScopeOptions.mk (CoreDeleteScopeOptions.on_behalf_of_info self) (CoreDeleteScopeOptions.bucket_name
    self) (CoreDeleteScopeOptions.scope_name self) retry_strategy.

Definition core_delete_scope_options_on_behalf_of_info {T : Type} (on_behalf_of_info : OnBehalfOfInfo)
    (self : CoreDeleteScopeOptions T) : CoreDeleteScopeOptions T :=
  self <| CoreDeleteScopeOptions.on_behalf_of_info := Some on_behalf_of_info |>.

Definition core_delete_scope_options_into {T : Type} (opts : CoreDeleteScopeOptions T) : MgmtDeleteScopeOptions :=
  MgmtDeleteScopeOptions.mk (CoreDeleteScopeOptions.on_behalf_of_info opts) (CoreDeleteScopeOptions.bucket_name
    opts) (CoreDeleteScopeOptions.scope_name opts).

Module CoreCreateCollectionOptions.
Section Fields.
Context {T : Type}.
Record CoreCreateCollectionOptions : Type := mk {
  on_behalf_of_info : option OnBehalfOfInfo;
  bucket_name : string;
  scope_name : string;
  collection_name : string;
  max_ttl : option Z;
  history_enabled : option bool;
  retry_strategy : T;
}.
End Fields.
#[global] Arguments CoreCreateCollectionOptions : clear implicits.
End CoreCreateCollectionOptions.
Abbreviation CoreCreateCollectionOptions := CoreCreateCollectionOptions.CoreCreateCollectionOptions.
#[global] Instance core_create_collection_options_settable T : Settable (CoreCreateCollectionOptions T) := λ r,
  CoreCreateCollectionOptions.mk (CoreCreateCollectionOptions.on_behalf_of_info r)
    (CoreCreateCollectionOptions.bucket_name r) (CoreCreateCollectionOptions.scope_name r)
    (CoreCreateCollectionOptions.collection_name r) (CoreCreateCollectionOptions.max_ttl r)
    (CoreCreateCollectionOptions.history_enabled r) (CoreCreateCollectionOptions.retry_strategy r).

Definition core_create_collection_options_new (bucket_name : string) (scope_name : string)
    (collection_name : string) : CoreCreateCollectionOptions FailFastRetryStrategy :=
  CoreCreateCollectionOptions.mk None bucket_name scope_name collection_name None None DEFAULT_RETRY_STRATEGY.

Definition core_create_collection_options_max_ttl {T : Type} (max_ttl : Z)
    (self : CoreCreateCollectionOptions T) : CoreCreateCollectionOptions T :=
  self <| CoreCreateCollectionOptions.max_ttl := Some max_ttl |>.

Definition core_create_collection_options_history_enabled {T : Type} (history_enabled : bool)
    (self : CoreCreateCollectionOptions T) : CoreCreateCollectionOptions T :=
  self <| CoreCreateCollectionOptions.history_enabled := Some history_enabled |>.

Definition core_create_collection_options_retry_strategy {T T' : Type} (retry_strategy : T')
    (self : CoreCreateCollectionOptions T) : CoreCreateCollectionOptions T' :=
  CoreCreateCollectionOptions.mk (CoreCreateCollectionOptions.on_behalf_of_info self)
    (CoreCreateCollectionOptions.bucket_name self) (CoreCreateCollectionOptions.scope_name self)
    (CoreCreateCollectionOptions.collection_name self) (CoreCreateCollectionOptions.max_ttl self)
    (CoreCreateCollectionOptions.history_enabled self) retry_strategy.

Definition core_create_collection_options_on_behalf_of_info {T : Type} (on_behalf_of_info : OnBehalfOfInfo)
    (self : CoreCreateCollectionOptions T) : CoreCreateCollectionOptions T :=
  self <| CoreCreateCollectionOptions.on_behalf_of_info := Some on_behalf_of_info |>.

Definition core_create_collection_options_into {T : Type} (opts : CoreCreateCollectionOptions T) :
    MgmtCreateCollectionOptions :=
  MgmtCreateCollectionOptions.mk (CoreCreateCollectionOptions.on_behalf_of_info opts)
    (CoreCreateCollectionOptions.bucket_name opts) (CoreCreateCollectionOptions.scope_name opts)
    (CoreCreateCollectionOptions.collection_name opts) (CoreCreateCollectionOptions.max_ttl opts)
    (CoreCreateCollectionOptions.history_enabled opts).

Module CoreUpdateCollectionOptions.
Section Fields.
Context {T : Type}.
Record CoreUpdateCollectionOptions : Type := mk {
  on_behalf_of_info : option OnBehalfOfInfo;
  bucket_name : string;
  scope_name : string;
  collection_name : string;
  max_ttl : option Z;
  history_enabled : option bool;
  retry_strategy : T;
}.
End Fields.
#[global] Arguments CoreUpdateCollectionOptions : clear implicits.
End CoreUpdateCollectionOptions.
Abbreviation CoreUpdateCollectionOptions := CoreUpdateCollectionOptions.CoreUpdateCollectionOptions.
#[global] Instance core_update_collection_options_settable T : Settable (CoreUpdateCollectionOptions T) := λ r,
  CoreUpdateCollectionOptions.mk (CoreUpdateCollectionOptions.on_behalf_of_info r)
    (CoreUpdateCollectionOptions.bucket_name r) (CoreUpdateCollectionOptions.scope_name r)
    (CoreUpdateCollectionOptions.collection_name r) (CoreUpdateCollectionOptions.max_ttl r)
    (CoreUpdateCollectionOptions.history_enabled r) (CoreUpdateCollectionOptions.retry_strategy r).

Definition core_update_collection_options_new (bucket_name : string) (scope_name : string)
    (collection_name : string) : CoreUpdateCollectionOptions FailFastRetryStrategy :=
  CoreUpdateCollectionOptions.mk None bucket_name scope_name collection_name None None DEFAULT_RETRY_STRATEGY.

Definition core_update_collection_options_max_ttl {T : Type} (max_ttl : Z)
    (self : CoreUpdateCollectionOptions T) : CoreUpdateCollectionOptions T :=
  self <| CoreUpdateCollectionOptions.max_ttl := Some max_ttl |>.

Definition core_update_collection_options_history_enabled {T : Type} (history_enabled : bool)
    (self : CoreUpdateCollectionOptions T) : CoreUpdateCollectionOptions T :=
  self <| CoreUpdateCollectionOptions.history_enabled := Some history_enabled |>.

Definition core_update_collection_options_retry_strategy {T T' : Type} (retry_strategy : T')
    (self : CoreUpdateCollectionOptions T) : CoreUpdateCollectionOptions T' :=
  CoreUpdateCollectionOptions.mk (CoreUpdateCollectionOptions.on_behalf_of_info self)
    (CoreUpdateCollectionOptions.bucket_name self) (CoreUpdateCollectionOptions.scope_name self)
    (CoreUpdateCollectionOptions.collection_name self) (CoreUpdateCollectionOptions.max_ttl self)
    (CoreUpdateCollectionOptions.history_enabled self) retry_strategy.

Definition core_update_collection_options_on_behalf_of_info {T : Type} (on_behalf_of_info : OnBehalfOfInfo)
    (self : CoreUpdateCollectionOptions T) : CoreUpdateCollectionOptions T :=
  self <| CoreUpdateCollectionOptions.on_behalf_of_info := Some on_behalf_of_info |>.

Definition core_update_collection_options_into {T : Type} (opts : CoreUpdateCollectionOptions T) :
    MgmtUpdateCollectionOptions :=
  MgmtUpdateCollectionOptions.mk (CoreUpdateCollectionOptions.on_behalf_of_info opts)
    (CoreUpdateCollectionOptions.bucket_name opts) (CoreUpdateCollectionOptions.scope_name opts)
    (CoreUpdateCollectionOptions.collection_name opts) (CoreUpdateCollectionOptions.max_ttl opts)
    (CoreUpdateCollectionOptions.history_enabled opts).

Module CoreDeleteCollectionOptions.
Section Fields.
Context {T : Type}.
Record CoreDeleteCollectionOptions : Type := mk {
  on_behalf_of_info : option OnBehalfOfInfo;
  bucket_name : string;
  scope_name : string;
  collection_name : string;
  retry_strategy : T;
}.
End Fields.
#[global] Arguments CoreDeleteCollectionOptions : clear implicits.
End CoreDeleteCollectionOptions.
Abbreviation CoreDeleteCollectionOptions := CoreDeleteCollectionOptions.CoreDeleteCollectionOptions.
#[global] Instance core_delete_collection_options_settable T : Settable (CoreDeleteCollectionOptions T) := λ r,
  CoreDeleteCollectionOptions.mk (CoreDeleteCollectionOptions.on_behalf_of_info r)
    (CoreDeleteCollectionOptions.bucket_name r) (CoreDeleteCollectionOptions.scope_name r)
    (CoreDeleteCollectionOptions.collection_name r) (CoreDeleteCollectionOptions.retry_strategy r).

Definition core_delete_collection_options_new (bucket_name : string) (scope_name : string)
    (collection_name : string) : CoreDeleteCollectionOptions FailFastRetryStrategy :=
  CoreDeleteCollectionOptions.mk None bucket_name scope_name collection_name DEFAULT_RETRY_STRATEGY.

Definition core_delete_collection_options_retry_strategy {T T' : Type} (retry_strategy : T')
    (self : CoreDeleteCollectionOptions T) : CoreDeleteCollectionOptions T' :=
  CoreDeleteCollectionOptions.mk (CoreDeleteCollectionOptions.on_behalf_of_info self)
    (CoreDeleteCollectionOptions.bucket_name self) (CoreDeleteCollectionOptions.scope_name self)
    (CoreDeleteCollectionOptions.collection_name self) retry_strategy.

Definition core_delete_collection_options_on_behalf_of_info {T : Type} (on_behalf_of_info : OnBehalfOfInfo)
    (self : CoreDeleteCollectionOptions T) : CoreDeleteCollectionOptions T :=
  self <| CoreDeleteCollectionOptions.on_behalf_of_info := Some on_behalf_of_info |>.

Definition core_delete_collection_options_into {T : Type} (opts : CoreDeleteCollectionOptions T) :
    MgmtDeleteCollectionOptions :=
  MgmtDeleteCollectionOptions.mk (CoreDeleteCollectionOptions.on_behalf_of_info opts)
    (CoreDeleteCollectionOptions.bucket_name opts) (CoreDeleteCollectionOptions.scope_name opts)
    (CoreDeleteCollectionOptions.collection_name opts).

Module CoreEnsureManifestOptions.
Record CoreEnsureManifestOptions : Type := mk {
  on_behalf_of_info : option OnBehalfOfInfo;
  bucket_name : string;
  manifest_uid : Z;
}.
End CoreEnsureManifestOptions.
Abbreviation CoreEnsureManifestOptions := CoreEnsureManifestOptions.CoreEnsureManifestOptions.
#[global] Instance core_ensure_manifest_options_settable : Settable (CoreEnsureManifestOptions) := λ r,
  CoreEnsureManifestOptions.mk (CoreEnsureManifestOptions.on_behalf_of_info r)
    (CoreEnsureManifestOptions.bucket_name r) (CoreEnsureManifestOptions.manifest_uid r).

Definition core_ensure_manifest_options_new (bucket_name : string) (manifest_uid : Z) : CoreEnsureManifestOptions :=
  CoreEnsureManifestOptions.mk None bucket_name manifest_uid.

Definition core_ensure_manifest_options_on_behalf_of_info (on_behalf_of_info : OnBehalfOfInfo)
    (self : CoreEnsureManifestOptions) : CoreEnsureManifestOptions :=
  self <| CoreEnsureManifestOptions.on_behalf_of_info := Some on_behalf_of_info |>.

Module CoreGetAllBucketsOptions.
Section Fields.
Context {T : Type}.
Record CoreGetAllBucketsOptions : Type := mk {
  on_behalf_of_info : option OnBehalfOfInfo;
  retry_strategy : T;
}.
End Fields.
#[global] Arguments CoreGetAllBucketsOptions : clear implicits.
End CoreGetAllBucketsOptions.
Abbreviation CoreGetAllBucketsOptions := CoreGetAllBucketsOptions.CoreGetAllBucketsOptions.
#[global] Instance core_get_all_buckets_options_settable T : Settable (CoreGetAllBucketsOptions T) := λ r,
  CoreGetAllBucketsOptions.mk (CoreGetAllBucketsOptions.on_behalf_of_info r)
    (CoreGetAllBucketsOptions.retry_strategy r).

Definition core_get_all_buckets_options_new : CoreGetAllBucketsOptions FailFastRetryStrategy :=
  CoreGetAllBucketsOptions.mk None DEFAULT_RETRY_STRATEGY.

Definition core_get_all_buckets_options_retry_strategy {T T' : Type} (retry_strategy : T')
    (self : CoreGetAllBucketsOptions T) : CoreGetAllBucketsOptions T' :=
  CoreGetAllBucketsOptions.mk (CoreGetAllBucketsOptions.on_behalf_of_info self) retry_strategy.

Definition core_get_all_buckets_options_on_behalf_of_info {T : Type} (on_behalf_of_info : OnBehalfOfInfo)
    (self : CoreGetAllBucketsOptions T) : CoreGetAllBucketsOptions T :=
  self <| CoreGetAllBucketsOptions.on_behalf_of_info := Some on_behalf_of_info |>.

Definition core_get_all_buckets_options_into {T : Type} (opts : CoreGetAllBucketsOptions T) :
    MgmtGetAllBucketsOptions :=
  MgmtGetAllBucketsOptions.mk (CoreGetAllBucketsOptions.on_behalf_of_info opts).

Module CoreGetBucketOptions.
Section Fields.
Context {T : Type}.
Record CoreGetBucketOptions : Type := mk {
  on_behalf_of_info : option OnBehalfOfInfo;
  bucket_name : string;
  retry_strategy : T;
}.
End Fields.
#[global] Arguments CoreGetBucketOptions : clear implicits.
End CoreGetBucketOptions.
Abbreviation CoreGetBucketOptions := CoreGetBucketOptions.CoreGetBucketOptions.
#[global] Instance core_get_bucket_options_settable T : Settable (CoreGetBucketOptions T) := λ r,
  CoreGetBucketOptions.mk (CoreGetBucketOptions.on_behalf_of_info r) (CoreGetBucketOptions.bucket_name r)
    (CoreGetBucketOptions.retry_strategy r).

Definition core_get_bucket_options_new (bucket_name : string) : CoreGetBucketOptions FailFastRetryStrategy :=
  CoreGetBucketOptions.mk None bucket_name DEFAULT_RETRY_STRATEGY.

Definition core_get_bucket_options_retry_strategy {T T' : Type} (retry_strategy : T')
    (self : CoreGetBucketOptions T) : CoreGetBucketOptions T' :=
  CoreGetBucketOptions.mk (CoreGetBucketOptions.on_behalf_of_info self) (CoreGetBucketOptions.bucket_name self)
    retry_strategy.

Definition core_get_bucket_options_on_behalf_of_info {T : Type} (on_behalf_of_info : OnBehalfOfInfo)
    (self : CoreGetBucketOptions T) : CoreGetBucketOptions T :=
  self <| CoreGetBucketOptions.on_behalf_of_info := Some on_behalf_of_info |>.

Definition core_get_bucket_options_into {T : Type} (opts : CoreGetBucketOptions T) : MgmtGetBucketOptions :=
  MgmtGetBucketOptions.mk (CoreGetBucketOptions.on_behalf_of_info opts) (CoreGetBucketOptions.bucket_name opts).

Module CoreCreateBucketOptions.
Section Fields.
Context {T : Type}.
Record CoreCreateBucketOptions : Type := mk {
  on_behalf_of_info : option OnBehalfOfInfo;
  bucket_name : string;
  bucket_settings : BucketSettings;
  retry_strategy : T;
}.
End Fields.
#[global] Arguments CoreCreateBucketOptions : clear implicits.
End CoreCreateBucketOptions.
Abbreviation CoreCreateBucketOptions := CoreCreateBucketOptions.CoreCreateBucketOptions.
#[global] Instance core_create_bucket_options_settable T : Settable (CoreCreateBucketOptions T) := λ r,
  CoreCreateBucketOptions.mk (CoreCreateBucketOptions.on_behalf_of_info r) (CoreCreateBucketOptions.bucket_name
    r) (CoreCreateBucketOptions.bucket_settings r) (CoreCreateBucketOptions.retry_strategy r).

Definition core_create_bucket_options_new (bucket_name : string) (bucket_settings : BucketSettings) :
    CoreCreateBucketOptions FailFastRetryStrategy :=
  CoreCreateBucketOptions.mk None bucket_name bucket_settings DEFAULT_RETRY_STRATEGY.

Definition core_create_bucket_options_retry_strategy {T T' : Type} (retry_strategy : T')
    (self : CoreCreateBucketOptions T) : CoreCreateBucketOptions T' :=
  CoreCreateBucketOptions.mk (CoreCreateBucketOptions.on_behalf_of_info self)
    (CoreCreateBucketOptions.bucket_name self) (CoreCreateBucketOptions.bucket_settings self) retry_strategy.

Definition core_create_bucket_options_on_behalf_of_info {T : Type} (on_behalf_of_info : OnBehalfOfInfo)
    (self : CoreCreateBucketOptions T) : CoreCreateBucketOptions T :=
  self <| CoreCreateBucketOptions.on_behalf_of_info := Some on_behalf_of_info |>.

Definition core_create_bucket_options_into {T : Type} (opts : CoreCreateBucketOptions T) :
    MgmtCreateBucketOptions :=
  MgmtCreateBucketOptions.mk (CoreCreateBucketOptions.on_behalf_of_info opts)
    (CoreCreateBucketOptions.bucket_name opts) (CoreCreateBucketOptions.bucket_settings opts).

Module CoreUpdateBucketOptions.
Section Fields.
Context {T : Type}.
Record CoreUpdateBucketOptions : Type := mk {
  on_behalf_of_info : option OnBehalfOfInfo;
  bucket_name : string;
  bucket_settings : BucketSettings;
  retry_strategy : T;
}.
End Fields.
#[global] Arguments CoreUpdateBucketOptions : clear implicits.
End CoreUpdateBucketOptions.
Abbreviation CoreUpdateBucketOptions := CoreUpdateBucketOptions.CoreUpdateBucketOptions.
#[global] Instance core_update_bucket_options_settable T : Settable (CoreUpdateBucketOptions T) := λ r,
  CoreUpdateBucketOptions.mk (CoreUpdateBucketOptions.on_behalf_of_info r) (CoreUpdateBucketOptions.bucket_name
    r) (CoreUpdateBucketOptions.bucket_settings r) (CoreUpdateBucketOptions.retry_strategy r).

Definition core_update_bucket_options_new (bucket_name : string) (bucket_settings : BucketSettings) :
    CoreUpdateBucketOptions FailFastRetryStrategy :=
  CoreUpdateBucketOptions.mk None bucket_name bucket_settings DEFAULT_RETRY_STRATEGY.

Definition core_update_bucket_options_retry_strategy {T T' : Type} (retry_strategy : T')
    (self : CoreUpdateBucketOptions T) : CoreUpdateBucketOptions T' :=
  CoreUpdateBucketOptions.mk (CoreUpdateBucketOptions.on_behalf_of_info self)
    (CoreUpdateBucketOptions.bucket_name self) (CoreUpdateBucketOptions.bucket_settings self) retry_strategy.

Definition core_update_bucket_options_on_behalf_of_info {T : Type} (on_behalf_of_info : OnBehalfOfInfo)
    (self : CoreUpdateBucketOptions T) : CoreUpdateBucketOptions T :=
  self <| CoreUpdateBucketOptions.on_behalf_of_info := Some on_behalf_of_info |>.

Definition core_update_bucket_options_into {T : Type} (opts : CoreUpdateBucketOptions T) :
    MgmtUpdateBucketOptions :=
  MgmtUpdateBucketOptions.mk (CoreUpdateBucketOptions.on_behalf_of_info opts)
    (CoreUpdateBucketOptions.bucket_name opts) (CoreUpdateBucketOptions.bucket_settings opts).

Module CoreDeleteBucketOptions.
Section Fields.
Context {T : Type}.
Record CoreDeleteBucketOptions : Type := mk {
  on_behalf_of_info : option OnBehalfOfInfo;
  bucket_name : string;
  retry_strategy : T;
}.
End Fields.
#[global] Arguments CoreDeleteBucketOptions : clear implicits.
End CoreDeleteBucketOptions.
Abbreviation CoreDeleteBucketOptions := CoreDeleteBucketOptions.CoreDeleteBucketOptions.
#[global] Instance core_delete_bucket_options_settable T : Settable (CoreDeleteBucketOptions T) := λ r,
  CoreDeleteBucketOptions.mk (CoreDeleteBucketOptions.on_behalf_of_info r) (CoreDeleteBucketOptions.bucket_name
    r) (CoreDeleteBucketOptions.retry_strategy r).

Definition core_delete_bucket_options_new (bucket_name : string) : CoreDeleteBucketOptions FailFastRetryStrategy :=
  CoreDeleteBucketOptions.mk None bucket_name DEFAULT_RETRY_STRATEGY.

Definition core_delete_bucket_options_retry_strategy {T T' : Type} (retry_strategy : T')
    (self : CoreDeleteBucketOptions T) : CoreDeleteBucketOptions T' :=
  CoreDeleteBucketOptions.mk (CoreDeleteBucketOptions.on_behalf_of_info self)
    (CoreDeleteBucketOptions.bucket_name self) retry_strategy.

Definition core_delete_bucket_options_on_behalf_of_info {T : Type} (on_behalf_of_info : OnBehalfOfInfo)
    (self : CoreDeleteBucketOptions T) : CoreDeleteBucketOptions T :=
  self <| CoreDeleteBucketOptions.on_behalf_of_info := Some on_behalf_of_info |>.

Definition core_delete_bucket_options_into {T : Type} (opts : CoreDeleteBucketOptions T) :
    MgmtDeleteBucketOptions :=
  MgmtDeleteBucketOptions.mk (CoreDeleteBucketOptions.on_behalf_of_info opts)
    (CoreDeleteBucketOptions.bucket_name opts).

Module CoreFlushBucketOptions.
Section Fields.
Context {T : Type}.
Record CoreFlushBucketOptions : Type := mk {
  on_behalf_of_info : option OnBehalfOfInfo;
  bucket_name : string;
  retry_strategy : T;
}.
End Fields.
#[global] Arguments CoreFlushBucketOptions : clear implicits.
End CoreFlushBucketOptions.
Abbreviation CoreFlushBucketOptions := CoreFlushBucketOptions.CoreFlushBucketOptions.
#[global] Instance core_flush_bucket_options_settable T : Settable (CoreFlushBucketOptions T) := λ r,
  CoreFlushBucketOptions.mk (CoreFlushBucketOptions.on_behalf_of_info r) (CoreFlushBucketOptions.bucket_name r)
    (CoreFlushBucketOptions.retry_strategy r).

Definition core_flush_bucket_options_new (bucket_name : string) : CoreFlushBucketOptions FailFastRetryStrategy :=
  CoreFlushBucketOptions.mk None bucket_name DEFAULT_RETRY_STRATEGY.

Definition core_flush_bucket_options_retry_strategy {T T' : Type} (retry_strategy : T')
    (self : CoreFlushBucketOptions T) : CoreFlushBucketOptions T' :=
  CoreFlushBucketOptions.mk (CoreFlushBucketOptions.on_behalf_of_info self) (CoreFlushBucketOptions.bucket_name
    self) retry_strategy.

Definition core_flush_bucket_options_on_behalf_of_info {T : Type} (on_behalf_of_info : OnBehalfOfInfo)
    (self : CoreFlushBucketOptions T) : CoreFlushBucketOptions T :=
  self <| CoreFlushBucketOptions.on_behalf_of_info := Some on_behalf_of_info |>.

Definition core_flush_bucket_options_into {T : Type} (opts : CoreFlushBucketOptions T) : MgmtFlushBucketOptions :=
  MgmtFlushBucketOptions.mk (CoreFlushBucketOptions.on_behalf_of_info opts) (CoreFlushBucketOptions.bucket_name
    opts).

Module CoreEnsureBucketOptions.
Record CoreEnsureBucketOptions : Type := mk {
  on_behalf_of_info : option OnBehalfOfInfo;
  bucket_name : string;
  bucket_uuid : option string;
  want_missing : bool;
}.
End CoreEnsureBucketOptions.
Abbreviation CoreEnsureBucketOptions := CoreEnsureBucketOptions.CoreEnsureBucketOptions.
#[global] Instance core_ensure_bucket_options_settable : Settable (CoreEnsureBucketOptions) := λ r,
  CoreEnsureBucketOptions.mk (CoreEnsureBucketOptions.on_behalf_of_info r) (CoreEnsureBucketOptions.bucket_name
    r) (CoreEnsureBucketOptions.bucket_uuid r) (CoreEnsureBucketOptions.want_missing r).

Definition core_ensure_bucket_options_new (bucket_name : string) (want_missing : bool) : CoreEnsureBucketOptions :=
  CoreEnsureBucketOptions.mk None bucket_name None want_missing.

Definition core_ensure_bucket_options_bucket_uuid (bucket_uuid : string)
    (self : CoreEnsureBucketOptions) : CoreEnsureBucketOptions :=
  self <| CoreEnsureBucketOptions.bucket_uuid := Some bucket_uuid |>.

Definition core_ensure_bucket_options_on_behalf_of_info (on_behalf_of_info : OnBehalfOfInfo)
    (self : CoreEnsureBucketOptions) : CoreEnsureBucketOptions :=
  self <| CoreEnsureBucketOptions.on_behalf_of_info := Some on_behalf_of_info |>.

Module CoreGetUserOptions.
Section Fields.
Context {T : Type}.
Record CoreGetUserOptions : Type := mk {
  username : string;
  auth_domain : string;
  on_behalf_of : option OnBehalfOfInfo;
  retry_strategy : T;
}.
End Fields.
#[global] Arguments CoreGetUserOptions : clear implicits.
End CoreGetUserOptions.
Abbreviation CoreGetUserOptions := CoreGetUserOptions.CoreGetUserOptions.
#[global] Instance core_get_user_options_settable T : Settable (CoreGetUserOptions T) := λ r,
  CoreGetUserOptions.mk (CoreGetUserOptions.username r) (CoreGetUserOptions.auth_domain r)
    (CoreGetUserOptions.on_behalf_of r) (CoreGetUserOptions.retry_strategy r).

Definition core_get_user_options_new (username : string) (auth_domain : string) : CoreGetUserOptions
    FailFastRetryStrategy :=
  CoreGetUserOptions.mk username auth_domain None DEFAULT_RETRY_STRATEGY.

Definition core_get_user_options_on_behalf_of {T : Type} (on_behalf_of : OnBehalfOfInfo)
    (self : CoreGetUserOptions T) : CoreGetUserOptions T :=
  self <| CoreGetUserOptions.on_behalf_of := Some on_behalf_of |>.

Definition core_get_user_options_retry_strategy {T T' : Type} (retry_strategy : T') (self : CoreGetUserOptions
    T) : CoreGetUserOptions T' :=
  CoreGetUserOptions.mk (CoreGetUserOptions.username self) (CoreGetUserOptions.auth_domain self)
    (CoreGetUserOptions.on_behalf_of self) retry_strategy.

Definition core_get_user_options_into {T : Type} (opts : CoreGetUserOptions T) : MgmtGetUserOptions :=
  MgmtGetUserOptions.mk (CoreGetUserOptions.on_behalf_of opts) (CoreGetUserOptions.username opts)
    (CoreGetUserOptions.auth_domain opts).

Module CoreGetAllUsersOptions.
Section Fields.
Context {T : Type}.
Record CoreGetAllUsersOptions : Type := mk {
  auth_domain : string;
  on_behalf_of : option OnBehalfOfInfo;
  retry_strategy : T;
}.
End Fields.
#[global] Arguments CoreGetAllUsersOptions : clear implicits.
End CoreGetAllUsersOptions.
Abbreviation CoreGetAllUsersOptions := CoreGetAllUsersOptions.CoreGetAllUsersOptions.
#[global] Instance core_get_all_users_options_settable T : Settable (CoreGetAllUsersOptions T) := λ r,
  CoreGetAllUsersOptions.mk (CoreGetAllUsersOptions.auth_domain r) (CoreGetAllUsersOptions.on_behalf_of r)
    (CoreGetAllUsersOptions.retry_strategy r).

Definition core_get_all_users_options_new (auth_domain : string) : CoreGetAllUsersOptions FailFastRetryStrategy :=
  CoreGetAllUsersOptions.mk auth_domain None DEFAULT_RETRY_STRATEGY.

Definition core_get_all_users_options_on_behalf_of {T : Type} (on_behalf_of : OnBehalfOfInfo)
    (self : CoreGetAllUsersOptions T) : CoreGetAllUsersOptions T :=
  self <| CoreGetAllUsersOptions.on_behalf_of := Some on_behalf_of |>.

Definition core_get_all_users_options_retry_strategy {T T' : Type} (retry_strategy : T')
    (self : CoreGetAllUsersOptions T) : CoreGetAllUsersOptions T' :=
  CoreGetAllUsersOptions.mk (CoreGetAllUsersOptions.auth_domain self) (CoreGetAllUsersOptions.on_behalf_of self)
    retry_strategy.

Definition core_get_all_users_options_into {T : Type} (opts : CoreGetAllUsersOptions T) : MgmtGetAllUsersOptions :=
  MgmtGetAllUsersOptions.mk (CoreGetAllUsersOptions.on_behalf_of opts) (CoreGetAllUsersOptions.auth_domain opts).

Module CoreUpsertUserOptions.
Section Fields.
Context {T : Type}.
Record CoreUpsertUserOptions : Type := mk {
  user : User;
  auth_domain : string;
  on_behalf_of : option OnBehalfOfInfo;
  retry_strategy : T;
}.
End Fields.
#[global] Arguments CoreUpsertUserOptions : clear implicits.
End CoreUpsertUserOptions.
Abbreviation CoreUpsertUserOptions := CoreUpsertUserOptions.CoreUpsertUserOptions.
#[global] Instance core_upsert_user_options_settable T : Settable (CoreUpsertUserOptions T) := λ r,
  CoreUpsertUserOptions.mk (CoreUpsertUserOptions.user r) (CoreUpsertUserOptions.auth_domain r)
    (CoreUpsertUserOptions.on_behalf_of r) (CoreUpsertUserOptions.retry_strategy r).

Definition core_upsert_user_options_new (user : User) (auth_domain : string) : CoreUpsertUserOptions
    FailFastRetryStrategy :=
  CoreUpsertUserOptions.mk user auth_domain None DEFAULT_RETRY_STRATEGY.

Definition core_upsert_user_options_on_behalf_of {T : Type} (on_behalf_of : OnBehalfOfInfo)
    (self : CoreUpsertUserOptions T) : CoreUpsertUserOptions T :=
  self <| CoreUpsertUserOptions.on_behalf_of := Some on_behalf_of |>.

Definition core_upsert_user_options_retry_strategy {T T' : Type} (retry_strategy : T')
    (self : CoreUpsertUserOptions T) : CoreUpsertUserOptions T' :=
  CoreUpsertUserOptions.mk (CoreUpsertUserOptions.user self) (CoreUpsertUserOptions.auth_domain self)
    (CoreUpsertUserOptions.on_behalf_of self) retry_strategy.

Definition core_upsert_user_options_into {T : Type} (opts : CoreUpsertUserOptions T) : MgmtUpsertUserOptions :=
  MgmtUpsertUserOptions.mk (CoreUpsertUserOptions.on_behalf_of opts) (CoreUpsertUserOptions.user opts)
    (CoreUpsertUserOptions.auth_domain opts).

Module CoreDeleteUserOptions.
Section Fields.
Context {T : Type}.
Record CoreDeleteUserOptions : Type := mk {
  username : string;
  auth_domain : string;
  on_behalf_of : option OnBehalfOfInfo;
  retry_strategy : T;
}.
End Fields.
#[global] Arguments CoreDeleteUserOptions : clear implicits.
End CoreDeleteUserOptions.
Abbreviation CoreDeleteUserOptions := CoreDeleteUserOptions.CoreDeleteUserOptions.
#[global] Instance core_delete_user_options_settable T : Settable (CoreDeleteUserOptions T) := λ r,
  CoreDeleteUserOptions.mk (CoreDeleteUserOptions.username r) (CoreDeleteUserOptions.auth_domain r)
    (CoreDeleteUserOptions.on_behalf_of r) (CoreDeleteUserOptions.retry_strategy r).

Definition core_delete_user_options_new (username : string) (auth_domain : string) : CoreDeleteUserOptions
    FailFastRetryStrategy :=
  CoreDeleteUserOptions.mk username auth_domain None DEFAULT_RETRY_STRATEGY.

Definition core_delete_user_options_on_behalf_of {T : Type} (on_behalf_of : OnBehalfOfInfo)
    (self : CoreDeleteUserOptions T) : CoreDeleteUserOptions T :=
  self <| CoreDeleteUserOptions.on_behalf_of := Some on_behalf_of |>.

Definition core_delete_user_options_retry_strategy {T T' : Type} (retry_strategy : T')
    (self : CoreDeleteUserOptions T) : CoreDeleteUserOptions T' :=
  CoreDeleteUserOptions.mk (CoreDeleteUserOptions.username self) (CoreDeleteUserOptions.auth_domain self)
    (CoreDeleteUserOptions.on_behalf_of self) retry_strategy.

Definition core_delete_user_options_into {T : Type} (opts : CoreDeleteUserOptions T) : MgmtDeleteUserOptions :=
  MgmtDeleteUserOptions.mk (CoreDeleteUserOptions.on_behalf_of opts) (CoreDeleteUserOptions.username opts)
    (CoreDeleteUserOptions.auth_domain opts).

Module CoreGetRolesOptions.
Section Fields.
Context {T : Type}.
Record CoreGetRolesOptions : Type := mk {
  permission : option string;
  on_behalf_of : option OnBehalfOfInfo;
  retry_strategy : T;
}.
End Fields.
#[global] Arguments CoreGetRolesOptions : clear implicits.
End CoreGetRolesOptions.
Abbreviation CoreGetRolesOptions := CoreGetRolesOptions.CoreGetRolesOptions.
#[global] Instance core_get_roles_options_settable T : Settable (CoreGetRolesOptions T) := λ r,
  CoreGetRolesOptions.mk (CoreGetRolesOptions.permission r) (CoreGetRolesOptions.on_behalf_of r)
    (CoreGetRolesOptions.retry_strategy r).

Definition core_get_roles_options_new : CoreGetRolesOptions FailFastRetryStrategy :=
  CoreGetRolesOptions.mk None None DEFAULT_RETRY_STRATEGY.

Definition core_get_roles_options_permission {T : Type} (permission : string)
    (self : CoreGetRolesOptions T) : CoreGetRolesOptions T :=
  self <| CoreGetRolesOptions.permission := Some permission |>.

Definition core_get_roles_options_on_behalf_of {T : Type} (on_behalf_of : OnBehalfOfInfo)
    (self : CoreGetRolesOptions T) : CoreGetRolesOptions T :=
  self <| CoreGetRolesOptions.on_behalf_of := Some on_behalf_of |>.

Definition core_get_roles_options_retry_strategy {T T' : Type} (retry_strategy : T') (self : CoreGetRolesOptions
    T) : CoreGetRolesOptions T' :=
  CoreGetRolesOptions.mk (CoreGetRolesOptions.permission self) (CoreGetRolesOptions.on_behalf_of self)
    retry_strategy.

Definition core_get_roles_options_into {T : Type} (opts : CoreGetRolesOptions T) : MgmtGetRolesOptions :=
  MgmtGetRolesOptions.mk (CoreGetRolesOptions.permission opts) (CoreGetRolesOptions.on_behalf_of opts).

Module CoreGetGroupOptions.
Section Fields.
Context {T : Type}.
Record CoreGetGroupOptions : Type := mk {
  group_name : string;
  on_behalf_of : option OnBehalfOfInfo;
  retry_strategy : T;
}.
End Fields.
#[global] Arguments CoreGetGroupOptions : clear implicits.
End CoreGetGroupOptions.
Abbreviation CoreGetGroupOptions := CoreGetGroupOptions.CoreGetGroupOptions.
#[global] Instance core_get_group_options_settable T : Settable (CoreGetGroupOptions T) := λ r,
  CoreGetGroupOptions.mk (CoreGetGroupOptions.group_name r) (CoreGetGroupOptions.on_behalf_of r)
    (CoreGetGroupOptions.retry_strategy r).

Definition core_get_group_options_new (group_name : string) : CoreGetGroupOptions FailFastRetryStrategy :=
  CoreGetGroupOptions.mk group_name None DEFAULT_RETRY_STRATEGY.

Definition core_get_group_options_on_behalf_of {T : Type} (on_behalf_of : OnBehalfOfInfo)
    (self : CoreGetGroupOptions T) : CoreGetGroupOptions T :=
  self <| CoreGetGroupOptions.on_behalf_of := Some on_behalf_of |>.

Definition core_get_group_options_retry_strategy {T T' : Type} (retry_strategy : T') (self : CoreGetGroupOptions
    T) : CoreGetGroupOptions T' :=
  CoreGetGroupOptions.mk (CoreGetGroupOptions.group_name self) (CoreGetGroupOptions.on_behalf_of self)
    retry_strategy.

Definition core_get_group_options_into {T : Type} (opts : CoreGetGroupOptions T) : MgmtGetGroupOptions :=
  MgmtGetGroupOptions.mk (CoreGetGroupOptions.on_behalf_of opts) (CoreGetGroupOptions.group_name opts).

Module CoreGetAllGroupsOptions.
Section Fields.
Context {T : Type}.
Record CoreGetAllGroupsOptions : Type := mk {
  on_behalf_of : option OnBehalfOfInfo;
  retry_strategy : T;
}.
End Fields.
#[global] Arguments CoreGetAllGroupsOptions : clear implicits.
End CoreGetAllGroupsOptions.
Abbreviation CoreGetAllGroupsOptions := CoreGetAllGroupsOptions.CoreGetAllGroupsOptions.
#[global] Instance core_get_all_groups_options_settable T : Settable (CoreGetAllGroupsOptions T) := λ r,
  CoreGetAllGroupsOptions.mk (CoreGetAllGroupsOptions.on_behalf_of r) (CoreGetAllGroupsOptions.retry_strategy r).

Definition core_get_all_groups_options_new : CoreGetAllGroupsOptions FailFastRetryStrategy :=
  CoreGetAllGroupsOptions.mk None DEFAULT_RETRY_STRATEGY.

Definition core_get_all_groups_options_on_behalf_of {T : Type} (on_behalf_of : OnBehalfOfInfo)
    (self : CoreGetAllGroupsOptions T) : CoreGetAllGroupsOptions T :=
  self <| CoreGetAllGroupsOptions.on_behalf_of := Some on_behalf_of |>.

Definition core_get_all_groups_options_retry_strategy {T T' : Type} (retry_strategy : T')
    (self : CoreGetAllGroupsOptions T) : CoreGetAllGroupsOptions T' :=
  CoreGetAllGroupsOptions.mk (CoreGetAllGroupsOptions.on_behalf_of self) retry_strategy.

Definition core_get_all_groups_options_into {T : Type} (opts : CoreGetAllGroupsOptions T) :
    MgmtGetAllGroupsOptions :=
  MgmtGetAllGroupsOptions.mk (CoreGetAllGroupsOptions.on_behalf_of opts).

Module CoreUpsertGroupOptions.
Section Fields.
Context {T : Type}.
Record CoreUpsertGroupOptions : Type := mk {
  group : Group;
  on_behalf_of : option OnBehalfOfInfo;
  retry_strategy : T;
}.
End Fields.
#[global] Arguments CoreUpsertGroupOptions : clear implicits.
End CoreUpsertGroupOptions.
Abbreviation CoreUpsertGroupOptions := CoreUpsertGroupOptions.CoreUpsertGroupOptions.
#[global] Instance core_upsert_group_options_settable T : Settable (CoreUpsertGroupOptions T) := λ r,
  CoreUpsertGroupOptions.mk (CoreUpsertGroupOptions.group r) (CoreUpsertGroupOptions.on_behalf_of r)
    (CoreUpsertGroupOptions.retry_strategy r).

Definition core_upsert_group_options_new (group : Group) : CoreUpsertGroupOptions FailFastRetryStrategy :=
  CoreUpsertGroupOptions.mk group None DEFAULT_RETRY_STRATEGY.

Definition core_upsert_group_options_on_behalf_of {T : Type} (on_behalf_of : OnBehalfOfInfo)
    (self : CoreUpsertGroupOptions T) : CoreUpsertGroupOptions T :=
  self <| CoreUpsertGroupOptions.on_behalf_of := Some on_behalf_of |>.

Definition core_upsert_group_options_retry_strategy {T T' : Type} (retry_strategy : T')
    (self : CoreUpsertGroupOptions T) : CoreUpsertGroupOptions T' :=
  CoreUpsertGroupOptions.mk (CoreUpsertGroupOptions.group self) (CoreUpsertGroupOptions.on_behalf_of self)
    retry_strategy.

Definition core_upsert_group_options_into {T : Type} (opts : CoreUpsertGroupOptions T) : MgmtUpsertGroupOptions :=
  MgmtUpsertGroupOptions.mk (CoreUpsertGroupOptions.on_behalf_of opts) (CoreUpsertGroupOptions.group opts).

Module CoreDeleteGroupOptions.
Section Fields.
Context {T : Type}.
Record CoreDeleteGroupOptions : Type := mk {
  group_name : string;
  on_behalf_of : option OnBehalfOfInfo;
  retry_strategy : T;
}.
End Fields.
#[global] Arguments CoreDeleteGroupOptions : clear implicits.
End CoreDeleteGroupOptions.
Abbreviation CoreDeleteGroupOptions := CoreDeleteGroupOptions.CoreDeleteGroupOptions.
#[global] Instance core_delete_group_options_settable T : Settable (CoreDeleteGroupOptions T) := λ r,
  CoreDeleteGroupOptions.mk (CoreDeleteGroupOptions.group_name r) (CoreDeleteGroupOptions.on_behalf_of r)
    (CoreDeleteGroupOptions.retry_strategy r).

Definition core_delete_group_options_new (group_name : string) : CoreDeleteGroupOptions FailFastRetryStrategy :=
  CoreDeleteGroupOptions.mk group_name None DEFAULT_RETRY_STRATEGY.

Definition core_delete_group_options_on_behalf_of {T : Type} (on_behalf_of : OnBehalfOfInfo)
    (self : CoreDeleteGroupOptions T) : CoreDeleteGroupOptions T :=
  self <| CoreDeleteGroupOptions.on_behalf_of := Some on_behalf_of |>.

Definition core_delete_group_options_retry_strategy {T T' : Type} (retry_strategy : T')
    (self : CoreDeleteGroupOptions T) : CoreDeleteGroupOptions T' :=
  CoreDeleteGroupOptions.mk (CoreDeleteGroupOptions.group_name self) (CoreDeleteGroupOptions.on_behalf_of self)
    retry_strategy.

Definition core_delete_group_options_into {T : Type} (opts : CoreDeleteGroupOptions T) : MgmtDeleteGroupOptions :=
  MgmtDeleteGroupOptions.mk (CoreDeleteGroupOptions.on_behalf_of opts) (CoreDeleteGroupOptions.group_name opts).

Module CoreChangePasswordOptions.
Section Fields.
Context {T : Type}.
Record CoreChangePasswordOptions : Type := mk {
  new_password : string;
  on_behalf_of : option OnBehalfOfInfo;
  retry_strategy : T;
}.
End Fields.
#[global] Arguments CoreChangePasswordOptions : clear implicits.
End CoreChangePasswordOptions.
Abbreviation CoreChangePasswordOptions := CoreChangePasswordOptions.CoreChangePasswordOptions.
#[global] Instance core_change_password_options_settable T : Settable (CoreChangePasswordOptions T) := λ r,
  CoreChangePasswordOptions.mk (CoreChangePasswordOptions.new_password r)
    (CoreChangePasswordOptions.on_behalf_of r) (CoreChangePasswordOptions.retry_strategy r).

Definition core_change_password_options_new (new_password : string) : CoreChangePasswordOptions
    FailFastRetryStrategy :=
  CoreChangePasswordOptions.mk new_password None DEFAULT_RETRY_STRATEGY.

Definition core_change_password_options_on_behalf_of {T : Type} (on_behalf_of : OnBehalfOfInfo)
    (self : CoreChangePasswordOptions T) : CoreChangePasswordOptions T :=
  self <| CoreChangePasswordOptions.on_behalf_of := Some on_behalf_of |>.

Definition core_change_password_options_retry_strategy {T T' : Type} (retry_strategy : T')
    (self : CoreChangePasswordOptions T) : CoreChangePasswordOptions T' :=
  CoreChangePasswordOptions.mk (CoreChangePasswordOptions.new_password self)
    (CoreChangePasswordOptions.on_behalf_of self) retry_strategy.

Definition core_change_password_options_into {T : Type} (opts : CoreChangePasswordOptions T) :
    MgmtChangePasswordOptions :=
  MgmtChangePasswordOptions.mk (CoreChangePasswordOptions.on_behalf_of opts)
    (CoreChangePasswordOptions.new_password opts).

Module CoreEnsureUserOptions.
Record CoreEnsureUserOptions : Type := mk {
  on_behalf_of_info : option OnBehalfOfInfo;
  username : string;
  auth_domain : string;
  want_missing : bool;
}.
End CoreEnsureUserOptions.
Abbreviation CoreEnsureUserOptions := CoreEnsureUserOptions.CoreEnsureUserOptions.
#[global] Instance core_ensure_user_options_settable : Settable (CoreEnsureUserOptions) := λ r,
  CoreEnsureUserOptions.mk (CoreEnsureUserOptions.on_behalf_of_info r) (CoreEnsureUserOptions.username r)
    (CoreEnsureUserOptions.auth_domain r) (CoreEnsureUserOptions.want_missing r).

Definition core_ensure_user_options_new (username : string) (auth_domain : string) (want_missing : bool) :
    CoreEnsureUserOptions :=
  CoreEnsureUserOptions.mk None username auth_domain want_missing.

Definition core_ensure_user_options_on_behalf_of_info (on_behalf_of_info : OnBehalfOfInfo)
    (self : CoreEnsureUserOptions) : CoreEnsureUserOptions :=
  self <| CoreEnsureUserOptions.on_behalf_of_info := Some on_behalf_of_info |>.

Module CoreEnsureGroupOptions.
Record CoreEnsureGroupOptions : Type := mk {
  on_behalf_of_info : option OnBehalfOfInfo;
  group_name : string;
  want_missing : bool;
}.
End CoreEnsureGroupOptions.
Abbreviation CoreEnsureGroupOptions := CoreEnsureGroupOptions.CoreEnsureGroupOptions.
#[global] Instance core_ensure_group_options_settable : Settable (CoreEnsureGroupOptions) := λ r,
  CoreEnsureGroupOptions.mk (CoreEnsureGroupOptions.on_behalf_of_info r) (CoreEnsureGroupOptions.group_name r)
    (CoreEnsureGroupOptions.want_missing r).

Definition core_ensure_group_options_new (group_name : string) (want_missing : bool) : CoreEnsureGroupOptions :=
  CoreEnsureGroupOptions.mk None group_name want_missing.

Definition core_ensure_group_options_on_behalf_of_info (on_behalf_of_info : OnBehalfOfInfo)
    (self : CoreEnsureGroupOptions) : CoreEnsureGroupOptions :=
  self <| CoreEnsureGroupOptions.on_behalf_of_info := Some on_behalf_of_info |>.

Module CoreGetFullClusterConfigOptions.
Section Fields.
Context {T : Type}.
Record CoreGetFullClusterConfigOptions : Type := mk {
  on_behalf_of_info : option OnBehalfOfInfo;
  retry_strategy : T;
}.
End Fields.
#[global] Arguments CoreGetFullClusterConfigOptions : clear implicits.
End CoreGetFullClusterConfigOptions.
Abbreviation CoreGetFullClusterConfigOptions := CoreGetFullClusterConfigOptions.CoreGetFullClusterConfigOptions.
#[global] Instance core_get_full_cluster_config_options_settable T : Settable (CoreGetFullClusterConfigOptions
    T) := λ r,
  CoreGetFullClusterConfigOptions.mk (CoreGetFullClusterConfigOptions.on_behalf_of_info r)
    (CoreGetFullClusterConfigOptions.retry_strategy r).

Definition core_get_full_cluster_config_options_new : CoreGetFullClusterConfigOptions FailFastRetryStrategy :=
  CoreGetFullClusterConfigOptions.mk None DEFAULT_RETRY_STRATEGY.

Definition core_get_full_cluster_config_options_retry_strategy {T T' : Type} (retry_strategy : T')
    (self : CoreGetFullClusterConfigOptions T) : CoreGetFullClusterConfigOptions T' :=
  CoreGetFullClusterConfigOptions.mk (CoreGetFullClusterConfigOptions.on_behalf_of_info self) retry_strategy.

Definition core_get_full_cluster_config_options_on_behalf_of_info {T : Type} (on_behalf_of_info : OnBehalfOfInfo)
    (self : CoreGetFullClusterConfigOptions T) : CoreGetFullClusterConfigOptions T :=
  self <| CoreGetFullClusterConfigOptions.on_behalf_of_info := Some on_behalf_of_info |>.

Definition core_get_full_cluster_config_options_into {T : Type} (opts : CoreGetFullClusterConfigOptions T) :
    MgmtGetFullClusterConfigOptions :=
  MgmtGetFullClusterConfigOptions.mk (CoreGetFullClusterConfigOptions.on_behalf_of_info opts).

Module CoreGetFullBucketConfigOptions.
Section Fields.
Context {T : Type}.
Record CoreGetFullBucketConfigOptions : Type := mk {
  bucket_name : string;
  on_behalf_of_info : option OnBehalfOfInfo;
  retry_strategy : T;
}.
End Fields.
#[global] Arguments CoreGetFullBucketConfigOptions : clear implicits.
End CoreGetFullBucketConfigOptions.
Abbreviation CoreGetFullBucketConfigOptions := CoreGetFullBucketConfigOptions.CoreGetFullBucketConfigOptions.
#[global] Instance core_get_full_bucket_config_options_settable T : Settable (CoreGetFullBucketConfigOptions T)
    := λ r,
  CoreGetFullBucketConfigOptions.mk (CoreGetFullBucketConfigOptions.bucket_name r)
    (CoreGetFullBucketConfigOptions.on_behalf_of_info r) (CoreGetFullBucketConfigOptions.retry_strategy r).

Definition core_get_full_bucket_config_options_new (bucket_name : string) : CoreGetFullBucketConfigOptions
    FailFastRetryStrategy :=
  CoreGetFullBucketConfigOptions.mk bucket_name None DEFAULT_RETRY_STRATEGY.

Definition core_get_full_bucket_config_options_retry_strategy {T T' : Type} (retry_strategy : T')
    (self : CoreGetFullBucketConfigOptions T) : CoreGetFullBucketConfigOptions T' :=
  CoreGetFullBucketConfigOptions.mk (CoreGetFullBucketConfigOptions.bucket_name self)
    (CoreGetFullBucketConfigOptions.on_behalf_of_info self) retry_strategy.

Definition core_get_full_bucket_config_options_on_behalf_of_info {T : Type} (on_behalf_of_info : OnBehalfOfInfo)
    (self : CoreGetFullBucketConfigOptions T) : CoreGetFullBucketConfigOptions T :=
  self <| CoreGetFullBucketConfigOptions.on_behalf_of_info := Some on_behalf_of_info |>.

Definition core_get_full_bucket_config_options_into {T : Type} (opts : CoreGetFullBucketConfigOptions T) :
    MgmtGetFullBucketConfigOptions :=
  MgmtGetFullBucketConfigOptions.mk (CoreGetFullBucketConfigOptions.on_behalf_of_info opts)
    (CoreGetFullBucketConfigOptions.bucket_name opts).

Module CoreLoadSampleBucketOptions.
Section Fields.
Context {T : Type}.
Record CoreLoadSampleBucketOptions : Type := mk {
  bucket_name : string;
  on_behalf_of_info : option OnBehalfOfInfo;
  retry_strategy : T;
}.
End Fields.
#[global] Arguments CoreLoadSampleBucketOptions : clear implicits.
End CoreLoadSampleBucketOptions.
Abbreviation CoreLoadSampleBucketOptions := CoreLoadSampleBucketOptions.CoreLoadSampleBucketOptions.
#[global] Instance core_load_sample_bucket_options_settable T : Settable (CoreLoadSampleBucketOptions T) := λ r,
  CoreLoadSampleBucketOptions.mk (CoreLoadSampleBucketOptions.bucket_name r)
    (CoreLoadSampleBucketOptions.on_behalf_of_info r) (CoreLoadSampleBucketOptions.retry_strategy r).

Definition core_load_sample_bucket_options_new (bucket_name : string) : CoreLoadSampleBucketOptions
    FailFastRetryStrategy :=
  CoreLoadSampleBucketOptions.mk bucket_name None DEFAULT_RETRY_STRATEGY.

Definition core_load_sample_bucket_options_retry_strategy {T T' : Type} (retry_strategy : T')
    (self : CoreLoadSampleBucketOptions T) : CoreLoadSampleBucketOptions T' :=
  CoreLoadSampleBucketOptions.mk (CoreLoadSampleBucketOptions.bucket_name self)
    (CoreLoadSampleBucketOptions.on_behalf_of_info self) retry_strategy.

Definition core_load_sample_bucket_options_on_behalf_of_info {T : Type} (on_behalf_of_info : OnBehalfOfInfo)
    (self : CoreLoadSampleBucketOptions T) : CoreLoadSampleBucketOptions T :=
  self <| CoreLoadSampleBucketOptions.on_behalf_of_info := Some on_behalf_of_info |>.

Definition core_load_sample_bucket_options_into {T : Type} (opts : CoreLoadSampleBucketOptions T) :
    MgmtLoadSampleBucketOptions :=
  MgmtLoadSampleBucketOptions.mk (CoreLoadSampleBucketOptions.on_behalf_of_info opts)
    (CoreLoadSampleBucketOptions.bucket_name opts).

Module CoreIndexStatusOptions.
Section Fields.
Context {T : Type}.
Record CoreIndexStatusOptions : Type := mk {
  on_behalf_of_info : option OnBehalfOfInfo;
  retry_strategy : T;
}.
End Fields.
#[global] Arguments CoreIndexStatusOptions : clear implicits.
End CoreIndexStatusOptions.
Abbreviation CoreIndexStatusOptions := CoreIndexStatusOptions.CoreIndexStatusOptions.
#[global] Instance core_index_status_options_settable T : Settable (CoreIndexStatusOptions T) := λ r,
  CoreIndexStatusOptions.mk (CoreIndexStatusOptions.on_behalf_of_info r) (CoreIndexStatusOptions.retry_strategy r).

Definition core_index_status_options_new : CoreIndexStatusOptions FailFastRetryStrategy :=
  CoreIndexStatusOptions.mk None DEFAULT_RETRY_STRATEGY.

Definition core_index_status_options_retry_strategy {T T' : Type} (retry_strategy : T')
    (self : CoreIndexStatusOptions T) : CoreIndexStatusOptions T' :=
  CoreIndexStatusOptions.mk (CoreIndexStatusOptions.on_behalf_of_info self) retry_strategy.

Definition core_index_status_options_into {T : Type} (opts : CoreIndexStatusOptions T) : MgmtIndexStatusOptions :=
  MgmtIndexStatusOptions.mk (CoreIndexStatusOptions.on_behalf_of_info opts).

Module CoreGetAutoFailoverSettingsOptions.
Section Fields.
Context {T : Type}.
Record CoreGetAutoFailoverSettingsOptions : Type := mk {
  on_behalf_of_info : option OnBehalfOfInfo;
  retry_strategy : T;
}.
End Fields.
#[global] Arguments CoreGetAutoFailoverSettingsOptions : clear implicits.
End CoreGetAutoFailoverSettingsOptions.
Abbreviation CoreGetAutoFailoverSettingsOptions :=
    CoreGetAutoFailoverSettingsOptions.CoreGetAutoFailoverSettingsOptions.
#[global] Instance core_get_auto_failover_settings_options_settable T : Settable
    (CoreGetAutoFailoverSettingsOptions T) := λ r,
  CoreGetAutoFailoverSettingsOptions.mk (CoreGetAutoFailoverSettingsOptions.on_behalf_of_info r)
    (CoreGetAutoFailoverSettingsOptions.retry_strategy r).

Definition core_get_auto_failover_settings_options_new : CoreGetAutoFailoverSettingsOptions FailFastRetryStrategy :=
  CoreGetAutoFailoverSettingsOptions.mk None DEFAULT_RETRY_STRATEGY.

Definition core_get_auto_failover_settings_options_retry_strategy {T T' : Type} (retry_strategy : T')
    (self : CoreGetAutoFailoverSettingsOptions T) : CoreGetAutoFailoverSettingsOptions T' :=
  CoreGetAutoFailoverSettingsOptions.mk (CoreGetAutoFailoverSettingsOptions.on_behalf_of_info self) retry_strategy.

Definition core_get_auto_failover_settings_options_on_behalf_of_info {T : Type} (on_behalf_of_info : OnBehalfOfInfo)
    (self : CoreGetAutoFailoverSettingsOptions T) : CoreGetAutoFailoverSettingsOptions T :=
  self <| CoreGetAutoFailoverSettingsOptions.on_behalf_of_info := Some on_behalf_of_info |>.

Definition core_get_auto_failover_settings_options_into {T : Type} (opts : CoreGetAutoFailoverSettingsOptions T)
    : MgmtGetAutoFailoverSettingsOptions :=
  MgmtGetAutoFailoverSettingsOptions.mk (CoreGetAutoFailoverSettingsOptions.on_behalf_of_info opts).

Module CoreGetBucketStatsOptions.
Section Fields.
Context {T : Type}.
Record CoreGetBucketStatsOptions : Type := mk {
  bucket_name : string;
  on_behalf_of_info : option OnBehalfOfInfo;
  retry_strategy : T;
}.
End Fields.
#[global] Arguments CoreGetBucketStatsOptions : clear implicits.
End CoreGetBucketStatsOptions.
Abbreviation CoreGetBucketStatsOptions := CoreGetBucketStatsOptions.CoreGetBucketStatsOptions.
#[global] Instance core_get_bucket_stats_options_settable T : Settable (CoreGetBucketStatsOptions T) := λ r,
  CoreGetBucketStatsOptions.mk (CoreGetBucketStatsOptions.bucket_name r)
    (CoreGetBucketStatsOptions.on_behalf_of_info r) (CoreGetBucketStatsOptions.retry_strategy r).

Definition core_get_bucket_stats_options_new (bucket_name : string) : CoreGetBucketStatsOptions
    FailFastRetryStrategy :=
  CoreGetBucketStatsOptions.mk bucket_name None DEFAULT_RETRY_STRATEGY.

Definition core_get_bucket_stats_options_retry_strategy {T T' : Type} (retry_strategy : T')
    (self : CoreGetBucketStatsOptions T) : CoreGetBucketStatsOptions T' :=
  CoreGetBucketStatsOptions.mk (CoreGetBucketStatsOptions.bucket_name self)
    (CoreGetBucketStatsOptions.on_behalf_of_info self) retry_strategy.

Definition core_get_bucket_stats_options_on_behalf_of_info {T : Type} (on_behalf_of_info : OnBehalfOfInfo)
    (self : CoreGetBucketStatsOptions T) : CoreGetBucketStatsOptions T :=
  self <| CoreGetBucketStatsOptions.on_behalf_of_info := Some on_behalf_of_info |>.

Definition core_get_bucket_stats_options_into {T : Type} (opts : CoreGetBucketStatsOptions T) :
    MgmtGetBucketStatsOptions :=
  MgmtGetBucketStatsOptions.mk (CoreGetBucketStatsOptions.on_behalf_of_info opts)
    (CoreGetBucketStatsOptions.bucket_name opts).
