(* ===== verification/MgmtComponent.v ===== *)
(** * The management operations of the agent ([mgmtcomponent.rs])

    Every operation chooses an endpoint of the management service and runs the management client
    there, and is run again when its error has a reason to be retried; the four waits poll all the
    endpoints until each has the change.

    Parameters as in [Mgmt.v] and [MgmtUsers.v], and [url::Url::parse] and the random choice of an
    endpoint. *)

From Stdlib Require Import SpecFloat.
From S2P Require Import Prelude Text HttpxError MgmtxError Wire Bootstrap CoreError Retry Http Config.
From S2P Require Import BucketSettings Mgmt MgmtUsers MgmtHelpers CoreMgmtOptions.

(** ** Configuration *)

(** [From<MgmtError> for Error]. *)
Definition error_of_mgmt (e : Mgmtx.Error) : Core.Error := Core.new (Core.Mgmt e).

Record MgmtComponentConfig : Type := mkMgmtComponentConfig {
  mcc_endpoints : gmap string string;
  mcc_authenticator : Authenticator;
}.

Definition mgmt_http_state (config : MgmtComponentConfig) : HttpComponentState :=
  mkHttpComponentState (mcc_endpoints config) (mcc_authenticator config).

(** ** Operations *)

Section Component.
Context {P : Profile} {S FullClusterConfig FullBucketConfig RawValue DateTime : Type} `{HttpClient S}.
Context (utf8_error : list Z → option string) (response_url : Response → string)
  (form_urlencode : list (string * string) → list Z) (from_str_errors : list Z → option ServerErrors)
  (url_encode : string → string) (parse_from_rfc3339 : string → string + DateTime) (radix_error : string → string).
Context (from_slice_terse_config : list Z → string + TerseConfig)
  (from_slice_full_cluster_config : list Z → string + FullClusterConfig)
  (from_slice_full_bucket_config : list Z → string + FullBucketConfig)
  (from_slice_index_status : list Z → string + IndexStatus)
  (from_slice_auto_failover_settings : list Z → string + AutoFailoverSettings)
  (from_slice_raw : list Z → string + RawValue)
  (from_slice_buckets : list Z → string + list BucketSettingsJson)
  (from_slice_bucket : list Z → string + BucketSettingsJson)
  (from_slice_manifest : list Z → string + CollectionManifest)
  (from_slice_uid : list Z → string + ManifestUidJson)
  (from_slice_user : list Z → string + UserAndMetadataJson)
  (from_slice_users : list Z → string + list UserAndMetadataJson)
  (from_slice_roles : list Z → string + list RoleAndDescriptionJson)
  (from_slice_group : list Z → string + GroupJson)
  (from_slice_groups : list Z → string + list GroupJson).
Context (url_parse : string → string + option string * option Z) (random_range : nat → nat).
Context (http_state : S → HttpComponentState) (set_http_state : HttpComponentState → S → S).
Context (user_agent : string) (err_map_component : ErrMapComponent).

(** The new config replaces the endpoints and the credentials at once. *)
Definition mgmt_reconfigure (config : MgmtComponentConfig) (s : S) : S :=
  set_http_state (mgmt_http_state config) s.

Section Calls.
Context {T : Type} `{RetryStrategy T}.

(** A call of the management client at a chosen endpoint, with retries. *)
Definition orchestrate_mgmt {A} (fuel : nat) (retry_strategy : T) (retry_info : RetryRequest)
    (operation : Management → io S Mgmtx.Error A) (s : S)
    : S * list (RetryReason * Duration) * option (outcome Core.Error A) :=
  orchestrate_retries err_map_component retry_strategy fuel retry_info
    (orchestrate_endpoint url_parse http_state ServiceType.Mgmt random_range None
       (λ endpoint_id endpoint auth, io_map_err error_of_mgmt (operation (mkManagement user_agent endpoint auth)))) s.

Definition component_get_collection_manifest (fuel : nat) (opts : CoreGetCollectionManifestOptions T) :=
  orchestrate_mgmt fuel (CoreGetCollectionManifestOptions.retry_strategy opts)
    (retry_request_new "get_collection_manifest" false)
    (λ client, get_collection_manifest utf8_error response_url from_str_errors from_slice_manifest client
       (core_get_collection_manifest_options_into opts)).

Definition component_create_scope (fuel : nat) (opts : CoreCreateScopeOptions T) :=
  orchestrate_mgmt fuel (CoreCreateScopeOptions.retry_strategy opts) (retry_request_new "create_scope" false)
    (λ client, create_scope utf8_error response_url form_urlencode from_str_errors from_slice_uid client
       (core_create_scope_options_into opts)).

Definition component_delete_scope (fuel : nat) (opts : CoreDeleteScopeOptions T) :=
  orchestrate_mgmt fuel (CoreDeleteScopeOptions.retry_strategy opts) (retry_request_new "delete_scope" false)
    (λ client, delete_scope utf8_error response_url from_str_errors from_slice_uid client
       (core_delete_scope_options_into opts)).

Definition component_create_collection (fuel : nat) (opts : CoreCreateCollectionOptions T) :=
  orchestrate_mgmt fuel (CoreCreateCollectionOptions.retry_strategy opts)
    (retry_request_new "create_collection" false)
    (λ client, create_collection utf8_error response_url form_urlencode from_str_errors from_slice_uid client
       (core_create_collection_options_into opts)).

Definition component_delete_collection (fuel : nat) (opts : CoreDeleteCollectionOptions T) :=
  orchestrate_mgmt fuel (CoreDeleteCollectionOptions.retry_strategy opts)
    (retry_request_new "delete_collection" false)
    (λ client, delete_collection utf8_error response_url from_str_errors from_slice_uid client
       (core_delete_collection_options_into opts)).

Definition component_update_collection (fuel : nat) (opts : CoreUpdateCollectionOptions T) :=
  orchestrate_mgmt fuel (CoreUpdateCollectionOptions.retry_strategy opts)
    (retry_request_new "update_collection" false)
    (λ client, update_collection utf8_error response_url form_urlencode from_str_errors from_slice_uid client
       (core_update_collection_options_into opts)).

Definition component_get_all_buckets (fuel : nat) (opts : CoreGetAllBucketsOptions T) :=
  orchestrate_mgmt fuel (CoreGetAllBucketsOptions.retry_strategy opts) (retry_request_new "get_all_buckets" false)
    (λ client, get_all_buckets utf8_error response_url from_str_errors from_slice_buckets client
       (core_get_all_buckets_options_into opts)).

Definition component_get_bucket (fuel : nat) (opts : CoreGetBucketOptions T) :=
  orchestrate_mgmt fuel (CoreGetBucketOptions.retry_strategy opts) (retry_request_new "get_bucket" false)
    (λ client, get_bucket utf8_error response_url from_str_errors from_slice_bucket client
       (core_get_bucket_options_into opts)).

Definition component_create_bucket (fuel : nat) (opts : CoreCreateBucketOptions T) :=
  orchestrate_mgmt fuel (CoreCreateBucketOptions.retry_strategy opts) (retry_request_new "create_bucket" false)
    (λ client, create_bucket utf8_error response_url form_urlencode from_str_errors client
       (core_create_bucket_options_into opts)).

Definition component_update_bucket (fuel : nat) (opts : CoreUpdateBucketOptions T) :=
  orchestrate_mgmt fuel (CoreUpdateBucketOptions.retry_strategy opts) (retry_request_new "update_bucket" false)
    (λ client, update_bucket utf8_error response_url form_urlencode from_str_errors client
       (core_update_bucket_options_into opts)).

Definition component_delete_bucket (fuel : nat) (opts : CoreDeleteBucketOptions T) :=
  orchestrate_mgmt fuel (CoreDeleteBucketOptions.retry_strategy opts) (retry_request_new "delete_bucket" false)
    (λ client, delete_bucket utf8_error response_url from_str_errors client (core_delete_bucket_options_into opts)).

Definition component_flush_bucket (fuel : nat) (opts : CoreFlushBucketOptions T) :=
  orchestrate_mgmt fuel (CoreFlushBucketOptions.retry_strategy opts) (retry_request_new "flush_bucket" false)
    (λ client, flush_bucket utf8_error response_url from_str_errors client (core_flush_bucket_options_into opts)).

Definition component_get_user (fuel : nat) (opts : CoreGetUserOptions T) :=
  orchestrate_mgmt fuel (CoreGetUserOptions.retry_strategy opts) (retry_request_new "get_user" false)
    (λ client, get_user utf8_error response_url from_str_errors url_encode parse_from_rfc3339 from_slice_user client
       (core_get_user_options_into opts)).

Definition component_get_all_users (fuel : nat) (opts : CoreGetAllUsersOptions T) :=
  orchestrate_mgmt fuel (CoreGetAllUsersOptions.retry_strategy opts) (retry_request_new "get_all_users" false)
    (λ client, get_all_users utf8_error response_url from_str_errors url_encode parse_from_rfc3339
       from_slice_users client (core_get_all_users_options_into opts)).

Definition component_upsert_user (fuel : nat) (opts : CoreUpsertUserOptions T) :=
  orchestrate_mgmt fuel (CoreUpsertUserOptions.retry_strategy opts) (retry_request_new "upsert_user" false)
    (λ client, upsert_user utf8_error response_url form_urlencode from_str_errors url_encode client
       (core_upsert_user_options_into opts)).

Definition component_delete_user (fuel : nat) (opts : CoreDeleteUserOptions T) :=
  orchestrate_mgmt fuel (CoreDeleteUserOptions.retry_strategy opts) (retry_request_new "delete_user" false)
    (λ client, delete_user utf8_error response_url from_str_errors url_encode client
       (core_delete_user_options_into opts)).

Definition component_get_roles (fuel : nat) (opts : CoreGetRolesOptions T) :=
  orchestrate_mgmt fuel (CoreGetRolesOptions.retry_strategy opts) (retry_request_new "get_roles" false)
    (λ client, get_roles utf8_error response_url from_str_errors url_encode from_slice_roles client
       (core_get_roles_options_into opts)).

Definition component_get_group (fuel : nat) (opts : CoreGetGroupOptions T) :=
  orchestrate_mgmt fuel (CoreGetGroupOptions.retry_strategy opts) (retry_request_new "get_group" false)
    (λ client, get_group utf8_error response_url from_str_errors from_slice_group client
       (core_get_group_options_into opts)).

Definition component_get_all_groups (fuel : nat) (opts : CoreGetAllGroupsOptions T) :=
  orchestrate_mgmt fuel (CoreGetAllGroupsOptions.retry_strategy opts) (retry_request_new "get_all_groups" false)
    (λ client, get_all_groups utf8_error response_url from_str_errors from_slice_groups client
       (core_get_all_groups_options_into opts)).

Definition component_upsert_group (fuel : nat) (opts : CoreUpsertGroupOptions T) :=
  orchestrate_mgmt fuel (CoreUpsertGroupOptions.retry_strategy opts) (retry_request_new "upsert_group" false)
    (λ client, upsert_group utf8_error response_url form_urlencode from_str_errors url_encode client
       (core_upsert_group_options_into opts)).

Definition component_delete_group (fuel : nat) (opts : CoreDeleteGroupOptions T) :=
  orchestrate_mgmt fuel (CoreDeleteGroupOptions.retry_strategy opts) (retry_request_new "delete_group" false)
    (λ client, delete_group utf8_error response_url from_str_errors url_encode client
       (core_delete_group_options_into opts)).

Definition component_change_password (fuel : nat) (opts : CoreChangePasswordOptions T) :=
  orchestrate_mgmt fuel (CoreChangePasswordOptions.retry_strategy opts) (retry_request_new "change_password" false)
    (λ client, change_password utf8_error response_url form_urlencode from_str_errors client
       (core_change_password_options_into opts)).

Definition component_get_full_cluster_config (fuel : nat) (opts : CoreGetFullClusterConfigOptions T) :=
  orchestrate_mgmt fuel (CoreGetFullClusterConfigOptions.retry_strategy opts)
    (retry_request_new "get_full_cluster_config" false)
    (λ client, get_full_cluster_config utf8_error response_url from_str_errors from_slice_full_cluster_config client
       (core_get_full_cluster_config_options_into opts)).

Definition component_get_full_bucket_config (fuel : nat) (opts : CoreGetFullBucketConfigOptions T) :=
  orchestrate_mgmt fuel (CoreGetFullBucketConfigOptions.retry_strategy opts)
    (retry_request_new "get_full_bucket_config" false)
    (λ client, get_full_bucket_config utf8_error response_url from_str_errors from_slice_full_bucket_config client
       (core_get_full_bucket_config_options_into opts)).

Definition component_load_sample_bucket (fuel : nat) (opts : CoreLoadSampleBucketOptions T) :=
  orchestrate_mgmt fuel (CoreLoadSampleBucketOptions.retry_strategy opts)
    (retry_request_new "load_sample_bucket" false)
    (λ client, load_sample_bucket utf8_error response_url from_str_errors client
       (core_load_sample_bucket_options_into opts)).

Definition component_index_status (fuel : nat) (opts : CoreIndexStatusOptions T) :=
  orchestrate_mgmt fuel (CoreIndexStatusOptions.retry_strategy opts) (retry_request_new "index_status" false)
    (λ client, index_status utf8_error response_url from_str_errors from_slice_index_status client
       (core_index_status_options_into opts)).

Definition component_get_auto_failover_settings (fuel : nat) (opts : CoreGetAutoFailoverSettingsOptions T) :=
  orchestrate_mgmt fuel (CoreGetAutoFailoverSettingsOptions.retry_strategy opts)
    (retry_request_new "get_auto_failover_settings" false)
    (λ client, get_auto_failover_settings utf8_error response_url from_str_errors
       from_slice_auto_failover_settings client (core_get_auto_failover_settings_options_into opts)).

Definition component_get_bucket_stats (fuel : nat) (opts : CoreGetBucketStatsOptions T) :=
  orchestrate_mgmt fuel (CoreGetBucketStatsOptions.retry_strategy opts) (retry_request_new "get_bucket_stats" false)
    (λ client, get_bucket_stats utf8_error response_url from_str_errors from_slice_raw client
       (core_get_bucket_stats_options_into opts)).

End Calls.

(** *** Waits *)

(** Every poll starts from a copy of the helper, which is the same in each. *)
Definition ensure_mgmt {X} (powi : spec_float → Z → spec_float) (fuel : nat)
    (poll : list NodeTarget → io S Mgmtx.Error (bool * X)) (s : S) : S * list Duration * option (outcome Core.Error unit) :=
  ensure_resource (H := exponential_calculator powi) url_parse http_state ServiceType.Mgmt fuel ensure_backoff
    (λ targets _, io_map_err error_of_mgmt ('(finished, _) ← poll targets; mret (finished, tt))) tt s.

Definition component_ensure_manifest (powi : spec_float → Z → spec_float) (fuel : nat)
          (opts : CoreEnsureManifestOptions) :=
  ensure_mgmt powi fuel
    (poll_manifest utf8_error response_url from_str_errors from_slice_manifest radix_error
       (ensure_manifest_helper_new user_agent (CoreEnsureManifestOptions.bucket_name opts)
          (CoreEnsureManifestOptions.manifest_uid opts) (CoreEnsureManifestOptions.on_behalf_of_info opts))).

Definition component_ensure_bucket (powi : spec_float → Z → spec_float) (fuel : nat)
          (opts : CoreEnsureBucketOptions) :=
  ensure_mgmt powi fuel
    (poll_bucket utf8_error response_url from_str_errors from_slice_terse_config
       (ensure_bucket_helper_new user_agent (CoreEnsureBucketOptions.bucket_name opts)
          (CoreEnsureBucketOptions.bucket_uuid opts) (CoreEnsureBucketOptions.want_missing opts)
          (CoreEnsureBucketOptions.on_behalf_of_info opts))).

Definition component_ensure_user (powi : spec_float → Z → spec_float) (fuel : nat) (opts : CoreEnsureUserOptions) :=
  ensure_mgmt powi fuel
    (poll_user utf8_error response_url from_str_errors url_encode parse_from_rfc3339 from_slice_user
       (ensure_user_helper_new user_agent (CoreEnsureUserOptions.username opts)
          (CoreEnsureUserOptions.auth_domain opts) (CoreEnsureUserOptions.want_missing opts)
          (CoreEnsureUserOptions.on_behalf_of_info opts))).

Definition component_ensure_group (powi : spec_float → Z → spec_float) (fuel : nat)
          (opts : CoreEnsureGroupOptions) :=
  ensure_mgmt powi fuel
    (poll_group utf8_error response_url from_str_errors from_slice_group
       (ensure_group_helper_new user_agent (CoreEnsureGroupOptions.group_name opts)
          (CoreEnsureGroupOptions.want_missing opts) (CoreEnsureGroupOptions.on_behalf_of_info opts))).

End Component.

(** ** Theorems *)

Section ComponentTheorems.
Context {P : Profile} {S FullClusterConfig FullBucketConfig RawValue DateTime : Type} `{HttpClient S}.
Context (utf8_error : list Z → option string) (response_url : Response → string)
  (from_str_errors : list Z → option ServerErrors)
  (url_encode : string → string) (parse_from_rfc3339 : string → string + DateTime) (radix_error : string → string).
Context (from_slice_terse_config : list Z → string + TerseConfig)
  (from_slice_manifest : list Z → string + CollectionManifest)
  (from_slice_user : list Z → string + UserAndMetadataJson)
  (from_slice_group : list Z → string + GroupJson).
Context (url_parse : string → string + option string * option Z) (random_range : nat → nat).
Context (http_state : S → HttpComponentState).
Context (user_agent : string) (err_map_component : ErrMapComponent).

(** An operation of the management service is sent again for two reasons only: no node was known, or
    the request could not be sent.  Whatever a node answers, and whatever the strategy allows, nothing is
    sent after an answer. *)
Lemma management_repeated_for {T A} `{RetryStrategy T} fuel (strategy : T) req (operation : Management → io S Mgmtx.Error A) s :
  Forall (λ p, p.1 = RetryReason.ServiceNotAvailable ∨ p.1 = RetryReason.HttpSendRequestFailed)
    (snd (fst (orchestrate_mgmt url_parse random_range http_state user_agent err_map_component fuel strategy req operation s))).
Proof.
  apply (orchestrate_endpoint_reasons err_map_component strategy url_parse random_range http_state ServiceType.Mgmt
    (λ r, r = RetryReason.ServiceNotAvailable ∨ r = RetryReason.HttpSendRequestFailed)); [by left|].
  intros id ep auth s1 s2 e req' reason He Hr. unfold io_map_err in He.
  destruct (operation _ s1) as [s3 [[a|x|]|]]; try done. cbn in He. injection He as _ <-.
  unfold error_of_mgmt, error_to_retry_reason in Hr. cbn in Hr. destruct (Mgmtx.kind x); try done.
  unfold http_retry_reason in Hr. destruct (httpx_kind _); try done. injection Hr as <-. by right.
Qed.

(** The last poll of a wait: every endpoint that was known then was asked, and answered that it has the
    change. *)
Definition wait_ended (poll_one : NodeTarget → io S Mgmtx.Error bool) (s' : S) : Prop :=
  ∃ s1 targets answers,
    (nt_endpoint <$> targets) = (map_to_list (hcs_endpoints (http_state s1))).*2
    ∧ answered poll_one targets s1 answers s' ∧ Forall (λ b, b = true) answers.

Definition pauses_ok (pauses : list Duration) : Prop := Forall (λ d, from_millis 100 <= d <= from_millis 1000) pauses.

(** A helper that has confirmed nothing. *)
Definition fresh_poll {X} (poll : list NodeTarget → io S Mgmtx.Error (bool * X)) (poll_one : NodeTarget → io S Mgmtx.Error bool)
    : Prop := ∃ f : bool * list string → X, poll = λ targets,
  '(finished, confirmed) ← poll_targets poll_one [] targets; mret (finished, f (finished, confirmed)).

Lemma ensure_mgmt_ended {X} powi fuel (poll : list NodeTarget → io S Mgmtx.Error (bool * X)) poll_one s s' pauses :
  fresh_poll poll poll_one →
  ensure_mgmt url_parse http_state powi fuel poll s = (s', pauses, Some (Ok tt)) →
  wait_ended poll_one s' ∧ pauses_ok pauses.
Proof.
  intros [f ->]. unfold ensure_mgmt, ensure_resource. intros Hrun.
  apply ensure_resource_ok in Hrun as [(s1 & t1 & t2 & targets & Hg & Hp) Hps]. split.
  2:{ eapply list.Forall_impl; [exact Hps|]. intros d [n Hd]. by eapply ensure_pauses. }
  apply get_all_targets_all in Hg. unfold io_map_err, mbind, io_bind in Hp.
  destruct (poll_targets poll_one [] targets s1) as [s2 [[[finished l]|e|]|]] eqn:Hpoll; try done.
  cbn in Hp. injection Hp as -> -> _. apply first_poll_is_over in Hpoll as (bs & Hb & Hiff).
  exists s1, targets, bs. split; [done|]. split; [done|]. by apply Hiff.
Qed.


End ComponentTheorems.

(** ** A witness: a bucket that is gone *)

#[local] Instance gone_node : HttpClient HttpComponentState :=
  λ _ s, (s, Some (Ok (mkResponse 404 (Ok (str_bytes "Requested resource not found.")) []))).

Definition no_document {A} (l : list Z) : string + A := inl "unexpected"%string.

Definition gone_bucket : CoreEnsureBucketOptions := CoreEnsureBucketOptions.mk None "b" None true.

Abbreviation bucket_run :=
  (component_ensure_bucket (P:=true) (λ _, None) (λ _, "http://a"%string) (λ _, None) no_document
     (λ _, inr (Some "a"%string, Some 8091)) (λ s, s) "agent" (λ x _, x) 1 gone_bucket sample_component).

