(* ===== verification/SearchQueries.v ===== *)
(** * Search queries ([searchx/queries.rs], [Location] of [searchx/query_options.rs])

    The kinds of query, their setters, and what each is written as.  The enum of the queries is
    untagged: the server tells the kinds apart by the names of their fields. *)

From S2P Require Import Prelude Json.

Module Location.
Record Location : Type := mk {
  lat : Z;
  lon : Z;
}.
End Location.
Abbreviation Location := Location.Location.
#[global] Instance location_settable : Settable (Location) := λ r,
  Location.mk (Location.lat r) (Location.lon r).

Definition location_new (lat : Z) (lon : Z) : Location :=
  Location.mk lat lon.

Module MatchOperator.
Inductive MatchOperator : Type := Or | And.
End MatchOperator.

Module MatchQuery.
Record MatchQuery : Type := mk {
  analyzer : option string;
  boost : option Z;
  field : option string;
  fuzziness : option Z;
  match_input : string;
  operator : option MatchOperator.MatchOperator;
  prefix_length : option Z;
}.
End MatchQuery.
Abbreviation MatchQuery := MatchQuery.MatchQuery.
#[global] Instance match_query_settable : Settable (MatchQuery) := λ r,
  MatchQuery.mk (MatchQuery.analyzer r) (MatchQuery.boost r) (MatchQuery.field r) (MatchQuery.fuzziness r)
    (MatchQuery.match_input r) (MatchQuery.operator r) (MatchQuery.prefix_length r).

Definition match_query_new (match_input : string) : MatchQuery :=
  MatchQuery.mk None None None None match_input None None.

Definition match_query_analyzer (analyzer : option string) (self : MatchQuery) : MatchQuery :=
  self <| MatchQuery.analyzer := analyzer |>.

Definition match_query_boost (boost : option Z) (self : MatchQuery) : MatchQuery :=
  self <| MatchQuery.boost := boost |>.

Definition match_query_field (field : option string) (self : MatchQuery) : MatchQuery :=
  self <| MatchQuery.field := field |>.

Definition match_query_fuzziness (fuzziness : option Z) (self : MatchQuery) : MatchQuery :=
  self <| MatchQuery.fuzziness := fuzziness |>.

Definition match_query_operator (operator : option MatchOperator.MatchOperator) (self : MatchQuery) : MatchQuery :=
  self <| MatchQuery.operator := operator |>.

Definition match_query_prefix_length (prefix_length : option Z) (self : MatchQuery) : MatchQuery :=
  self <| MatchQuery.prefix_length := prefix_length |>.

Module MatchPhraseQuery.
Record MatchPhraseQuery : Type := mk {
  analyzer : option string;
  boost : option Z;
  field : option string;
  match_phrase : string;
}.
End MatchPhraseQuery.
Abbreviation MatchPhraseQuery := MatchPhraseQuery.MatchPhraseQuery.
#[global] Instance match_phrase_query_settable : Settable (MatchPhraseQuery) := λ r,
  MatchPhraseQuery.mk (MatchPhraseQuery.analyzer r) (MatchPhraseQuery.boost r) (MatchPhraseQuery.field r)
    (MatchPhraseQuery.match_phrase r).

Definition match_phrase_query_new (match_phrase : string) : MatchPhraseQuery :=
  MatchPhraseQuery.mk None None None match_phrase.

Definition match_phrase_query_analyzer (analyzer : option string) (self : MatchPhraseQuery) : MatchPhraseQuery :=
  self <| MatchPhraseQuery.analyzer := analyzer |>.

Definition match_phrase_query_boost (boost : option Z) (self : MatchPhraseQuery) : MatchPhraseQuery :=
  self <| MatchPhraseQuery.boost := boost |>.

Definition match_phrase_query_field (field : option string) (self : MatchPhraseQuery) : MatchPhraseQuery :=
  self <| MatchPhraseQuery.field := field |>.

Module RegexpQuery.
Record RegexpQuery : Type := mk {
  boost : option Z;
  field : option string;
  regexp : string;
}.
End RegexpQuery.
Abbreviation RegexpQuery := RegexpQuery.RegexpQuery.
#[global] Instance regexp_query_settable : Settable (RegexpQuery) := λ r,
  RegexpQuery.mk (RegexpQuery.boost r) (RegexpQuery.field r) (RegexpQuery.regexp r).

Definition regexp_query_new (regexp : string) : RegexpQuery :=
  RegexpQuery.mk None None regexp.

Definition regexp_query_boost (boost : option Z) (self : RegexpQuery) : RegexpQuery :=
  self <| RegexpQuery.boost := boost |>.

Definition regexp_query_field (field : option string) (self : RegexpQuery) : RegexpQuery :=
  self <| RegexpQuery.field := field |>.

Module QueryStringQuery.
Record QueryStringQuery : Type := mk {
  boost : option Z;
  query : string;
}.
End QueryStringQuery.
Abbreviation QueryStringQuery := QueryStringQuery.QueryStringQuery.
#[global] Instance query_string_query_settable : Settable (QueryStringQuery) := λ r,
  QueryStringQuery.mk (QueryStringQuery.boost r) (QueryStringQuery.query r).

Definition query_string_query_new (query : string) : QueryStringQuery :=
  QueryStringQuery.mk None query.

Definition query_string_query_boost (boost : option Z) (self : QueryStringQuery) : QueryStringQuery :=
  self <| QueryStringQuery.boost := boost |>.

Module NumericRangeQuery.
Record NumericRangeQuery : Type := mk {
  boost : option Z;
  field : option string;
  inclusive_min : option bool;
  inclusive_max : option bool;
  min : option Z;
  max : option Z;
}.
End NumericRangeQuery.
Abbreviation NumericRangeQuery := NumericRangeQuery.NumericRangeQuery.
#[global] Instance numeric_range_query_settable : Settable (NumericRangeQuery) := λ r,
  NumericRangeQuery.mk (NumericRangeQuery.boost r) (NumericRangeQuery.field r) (NumericRangeQuery.inclusive_min
    r) (NumericRangeQuery.inclusive_max r) (NumericRangeQuery.min r) (NumericRangeQuery.max r).

Definition numeric_range_query_new : NumericRangeQuery :=
  NumericRangeQuery.mk None None None None None None.

Definition numeric_range_query_boost (boost : option Z) (self : NumericRangeQuery) : NumericRangeQuery :=
  self <| NumericRangeQuery.boost := boost |>.

Definition numeric_range_query_field (field : option string) (self : NumericRangeQuery) : NumericRangeQuery :=
  self <| NumericRangeQuery.field := field |>.

Definition numeric_range_query_inclusive_min (inclusive_min : option bool)
    (self : NumericRangeQuery) : NumericRangeQuery :=
  self <| NumericRangeQuery.inclusive_min := inclusive_min |>.

Definition numeric_range_query_inclusive_max (inclusive_max : option bool)
    (self : NumericRangeQuery) : NumericRangeQuery :=
  self <| NumericRangeQuery.inclusive_max := inclusive_max |>.

Definition numeric_range_query_min (min : option Z) (self : NumericRangeQuery) : NumericRangeQuery :=
  self <| NumericRangeQuery.min := min |>.

Definition numeric_range_query_max (max : option Z) (self : NumericRangeQuery) : NumericRangeQuery :=
  self <| NumericRangeQuery.max := max |>.

Module DateRangeQuery.
Record DateRangeQuery : Type := mk {
  boost : option Z;
  field : option string;
  datetime_parser : option string;
  end_ : option string;
  inclusive_start : option bool;
  inclusive_end : option bool;
  start : option string;
}.
End DateRangeQuery.
Abbreviation DateRangeQuery := DateRangeQuery.DateRangeQuery.
#[global] Instance date_range_query_settable : Settable (DateRangeQuery) := λ r,
  DateRangeQuery.mk (DateRangeQuery.boost r) (DateRangeQuery.field r) (DateRangeQuery.datetime_parser r)
    (DateRangeQuery.end_ r) (DateRangeQuery.inclusive_start r) (DateRangeQuery.inclusive_end r)
    (DateRangeQuery.start r).

Definition date_range_query_new : DateRangeQuery :=
  DateRangeQuery.mk None None None None None None None.

Definition date_range_query_boost (boost : option Z) (self : DateRangeQuery) : DateRangeQuery :=
  self <| DateRangeQuery.boost := boost |>.

Definition date_range_query_field (field : option string) (self : DateRangeQuery) : DateRangeQuery :=
  self <| DateRangeQuery.field := field |>.

Definition date_range_query_datetime_parser (datetime_parser : option string)
    (self : DateRangeQuery) : DateRangeQuery :=
  self <| DateRangeQuery.datetime_parser := datetime_parser |>.

Definition date_range_query_end (end_ : option string) (self : DateRangeQuery) : DateRangeQuery :=
  self <| DateRangeQuery.end_ := end_ |>.

Definition date_range_query_inclusive_start (inclusive_start : option bool)
    (self : DateRangeQuery) : DateRangeQuery :=
  self <| DateRangeQuery.inclusive_start := inclusive_start |>.

Definition date_range_query_inclusive_end (inclusive_end : option bool) (self : DateRangeQuery) : DateRangeQuery :=
  self <| DateRangeQuery.inclusive_end := inclusive_end |>.

Definition date_range_query_start (start : option string) (self : DateRangeQuery) : DateRangeQuery :=
  self <| DateRangeQuery.start := start |>.

Module TermRangeQuery.
Record TermRangeQuery : Type := mk {
  boost : option Z;
  field : option string;
  inclusive_min : option bool;
  inclusive_max : option bool;
  max : option string;
  min : option string;
}.
End TermRangeQuery.
Abbreviation TermRangeQuery := TermRangeQuery.TermRangeQuery.
#[global] Instance term_range_query_settable : Settable (TermRangeQuery) := λ r,
  TermRangeQuery.mk (TermRangeQuery.boost r) (TermRangeQuery.field r) (TermRangeQuery.inclusive_min r)
    (TermRangeQuery.inclusive_max r) (TermRangeQuery.max r) (TermRangeQuery.min r).

Definition term_range_query_new : TermRangeQuery :=
  TermRangeQuery.mk None None None None None None.

Definition term_range_query_boost (boost : option Z) (self : TermRangeQuery) : TermRangeQuery :=
  self <| TermRangeQuery.boost := boost |>.

Definition term_range_query_field (field : option string) (self : TermRangeQuery) : TermRangeQuery :=
  self <| TermRangeQuery.field := field |>.

Definition term_range_query_inclusive_min (inclusive_min : option bool) (self : TermRangeQuery) : TermRangeQuery :=
  self <| TermRangeQuery.inclusive_min := inclusive_min |>.

Definition term_range_query_inclusive_max (inclusive_max : option bool) (self : TermRangeQuery) : TermRangeQuery :=
  self <| TermRangeQuery.inclusive_max := inclusive_max |>.

Definition term_range_query_max (max : option string) (self : TermRangeQuery) : TermRangeQuery :=
  self <| TermRangeQuery.max := max |>.

Definition term_range_query_min (min : option string) (self : TermRangeQuery) : TermRangeQuery :=
  self <| TermRangeQuery.min := min |>.

Module ConjunctionQuery.
Section Fields.
Context {Q : Type}.
Record ConjunctionQuery : Type := mk {
  boost : option Z;
  conjuncts : list Q;
}.
End Fields.
#[global] Arguments ConjunctionQuery : clear implicits.
End ConjunctionQuery.
Abbreviation ConjunctionQuery := ConjunctionQuery.ConjunctionQuery.
#[global] Instance conjunction_query_settable Q : Settable (ConjunctionQuery Q) := λ r,
  ConjunctionQuery.mk (ConjunctionQuery.boost r) (ConjunctionQuery.conjuncts r).

Definition conjunction_query_new {Q : Type} (conjuncts : list Q) : ConjunctionQuery Q :=
  ConjunctionQuery.mk None conjuncts.

Definition conjunction_query_boost {Q : Type} (boost : option Z) (self : ConjunctionQuery Q) : ConjunctionQuery Q :=
  self <| ConjunctionQuery.boost := boost |>.

Module DisjunctionQuery.
Section Fields.
Context {Q : Type}.
Record DisjunctionQuery : Type := mk {
  boost : option Z;
  min : option Z;
  disjuncts : list Q;
}.
End Fields.
#[global] Arguments DisjunctionQuery : clear implicits.
End DisjunctionQuery.
Abbreviation DisjunctionQuery := DisjunctionQuery.DisjunctionQuery.
#[global] Instance disjunction_query_settable Q : Settable (DisjunctionQuery Q) := λ r,
  DisjunctionQuery.mk (DisjunctionQuery.boost r) (DisjunctionQuery.min r) (DisjunctionQuery.disjuncts r).

Definition disjunction_query_new {Q : Type} (disjuncts : list Q) : DisjunctionQuery Q :=
  DisjunctionQuery.mk None None disjuncts.

Definition disjunction_query_boost {Q : Type} (boost : option Z) (self : DisjunctionQuery Q) : DisjunctionQuery Q :=
  self <| DisjunctionQuery.boost := boost |>.

Definition disjunction_query_min {Q : Type} (min : option Z) (self : DisjunctionQuery Q) : DisjunctionQuery Q :=
  self <| DisjunctionQuery.min := min |>.

Module BooleanQuery.
Section Fields.
Context {Q : Type}.
Record BooleanQuery : Type := mk {
  boost : option Z;
  must : option (ConjunctionQuery Q);
  must_not : option (DisjunctionQuery Q);
  should : option (DisjunctionQuery Q);
}.
End Fields.
#[global] Arguments BooleanQuery : clear implicits.
End BooleanQuery.
Abbreviation BooleanQuery := BooleanQuery.BooleanQuery.
#[global] Instance boolean_query_settable Q : Settable (BooleanQuery Q) := λ r,
  BooleanQuery.mk (BooleanQuery.boost r) (BooleanQuery.must r) (BooleanQuery.must_not r) (BooleanQuery.should r).

Definition boolean_query_new {Q : Type} : BooleanQuery Q :=
  BooleanQuery.mk None None None None.

Definition boolean_query_boost {Q : Type} (boost : option Z) (self : BooleanQuery Q) : BooleanQuery Q :=
  self <| BooleanQuery.boost := boost |>.

Definition boolean_query_must {Q : Type} (must : option (ConjunctionQuery Q))
    (self : BooleanQuery Q) : BooleanQuery Q :=
  self <| BooleanQuery.must := must |>.

Definition boolean_query_must_not {Q : Type} (must_not : option (DisjunctionQuery Q))
    (self : BooleanQuery Q) : BooleanQuery Q :=
  self <| BooleanQuery.must_not := must_not |>.

Definition boolean_query_should {Q : Type} (should : option (DisjunctionQuery Q))
    (self : BooleanQuery Q) : BooleanQuery Q :=
  self <| BooleanQuery.should := should |>.

Module WildcardQuery.
Record WildcardQuery : Type := mk {
  boost : option Z;
  field : option string;
  wildcard : string;
}.
End WildcardQuery.
Abbreviation WildcardQuery := WildcardQuery.WildcardQuery.
#[global] Instance wildcard_query_settable : Settable (WildcardQuery) := λ r,
  WildcardQuery.mk (WildcardQuery.boost r) (WildcardQuery.field r) (WildcardQuery.wildcard r).

Definition wildcard_query_new (wildcard : string) : WildcardQuery :=
  WildcardQuery.mk None None wildcard.

Definition wildcard_query_boost (boost : option Z) (self : WildcardQuery) : WildcardQuery :=
  self <| WildcardQuery.boost := boost |>.

Definition wildcard_query_field (field : option string) (self : WildcardQuery) : WildcardQuery :=
  self <| WildcardQuery.field := field |>.

Module DocIDQuery.
Record DocIDQuery : Type := mk {
  boost : option Z;
  ids : list string;
}.
End DocIDQuery.
Abbreviation DocIDQuery := DocIDQuery.DocIDQuery.
#[global] Instance doc_i_d_query_settable : Settable (DocIDQuery) := λ r,
  DocIDQuery.mk (DocIDQuery.boost r) (DocIDQuery.ids r).

Definition doc_i_d_query_new (ids : list string) : DocIDQuery :=
  DocIDQuery.mk None ids.

Definition doc_i_d_query_boost (boost : option Z) (self : DocIDQuery) : DocIDQuery :=
  self <| DocIDQuery.boost := boost |>.

Module BooleanFieldQuery.
Record BooleanFieldQuery : Type := mk {
  bool_value : bool;
  boost : option Z;
  field : option string;
}.
End BooleanFieldQuery.
Abbreviation BooleanFieldQuery := BooleanFieldQuery.BooleanFieldQuery.
#[global] Instance boolean_field_query_settable : Settable (BooleanFieldQuery) := λ r,
  BooleanFieldQuery.mk (BooleanFieldQuery.bool_value r) (BooleanFieldQuery.boost r) (BooleanFieldQuery.field r).

Definition boolean_field_query_new (bool_value : bool) : BooleanFieldQuery :=
  BooleanFieldQuery.mk bool_value None None.

Definition boolean_field_query_boost (boost : option Z) (self : BooleanFieldQuery) : BooleanFieldQuery :=
  self <| BooleanFieldQuery.boost := boost |>.

Definition boolean_field_query_field (field : option string) (self : BooleanFieldQuery) : BooleanFieldQuery :=
  self <| BooleanFieldQuery.field := field |>.

Module TermQuery.
Record TermQuery : Type := mk {
  boost : option Z;
  field : option string;
  fuzziness : option Z;
  prefix_length : option Z;
  term : string;
}.
End TermQuery.
Abbreviation TermQuery := TermQuery.TermQuery.
#[global] Instance term_query_settable : Settable (TermQuery) := λ r,
  TermQuery.mk (TermQuery.boost r) (TermQuery.field r) (TermQuery.fuzziness r) (TermQuery.prefix_length r)
    (TermQuery.term r).

Definition term_query_new (term : string) : TermQuery :=
  TermQuery.mk None None None None term.

Definition term_query_boost (boost : option Z) (self : TermQuery) : TermQuery :=
  self <| TermQuery.boost := boost |>.

Definition term_query_field (field : option string) (self : TermQuery) : TermQuery :=
  self <| TermQuery.field := field |>.

Definition term_query_fuzziness (fuzziness : option Z) (self : TermQuery) : TermQuery :=
  self <| TermQuery.fuzziness := fuzziness |>.

Definition term_query_prefix_length (prefix_length : option Z) (self : TermQuery) : TermQuery :=
  self <| TermQuery.prefix_length := prefix_length |>.

Module PhraseQuery.
Record PhraseQuery : Type := mk {
  boost : option Z;
  field : option string;
  terms : list string;
}.
End PhraseQuery.
Abbreviation PhraseQuery := PhraseQuery.PhraseQuery.
#[global] Instance phrase_query_settable : Settable (PhraseQuery) := λ r,
  PhraseQuery.mk (PhraseQuery.boost r) (PhraseQuery.field r) (PhraseQuery.terms r).

Definition phrase_query_new (terms : list string) : PhraseQuery :=
  PhraseQuery.mk None None terms.

Definition phrase_query_boost (boost : option Z) (self : PhraseQuery) : PhraseQuery :=
  self <| PhraseQuery.boost := boost |>.

Definition phrase_query_field (field : option string) (self : PhraseQuery) : PhraseQuery :=
  self <| PhraseQuery.field := field |>.

Module PrefixQuery.
Record PrefixQuery : Type := mk {
  boost : option Z;
  field : option string;
  prefix : string;
}.
End PrefixQuery.
Abbreviation PrefixQuery := PrefixQuery.PrefixQuery.
#[global] Instance prefix_query_settable : Settable (PrefixQuery) := λ r,
  PrefixQuery.mk (PrefixQuery.boost r) (PrefixQuery.field r) (PrefixQuery.prefix r).

Definition prefix_query_new (prefix : string) : PrefixQuery :=
  PrefixQuery.mk None None prefix.

Definition prefix_query_boost (boost : option Z) (self : PrefixQuery) : PrefixQuery :=
  self <| PrefixQuery.boost := boost |>.

Definition prefix_query_field (field : option string) (self : PrefixQuery) : PrefixQuery :=
  self <| PrefixQuery.field := field |>.

Module MatchAllQuery.
Record MatchAllQuery : Type := mk { }.
End MatchAllQuery.
Abbreviation MatchAllQuery := MatchAllQuery.MatchAllQuery.

Definition match_all_query_new : MatchAllQuery :=
  MatchAllQuery.mk .

Module MatchNoneQuery.
Record MatchNoneQuery : Type := mk { }.
End MatchNoneQuery.
Abbreviation MatchNoneQuery := MatchNoneQuery.MatchNoneQuery.

Definition match_none_query_new : MatchNoneQuery :=
  MatchNoneQuery.mk .

Module GeoDistanceQuery.
Record GeoDistanceQuery : Type := mk {
  boost : option Z;
  field : option string;
  location : Location;
  distance : string;
}.
End GeoDistanceQuery.
Abbreviation GeoDistanceQuery := GeoDistanceQuery.GeoDistanceQuery.
#[global] Instance geo_distance_query_settable : Settable (GeoDistanceQuery) := λ r,
  GeoDistanceQuery.mk (GeoDistanceQuery.boost r) (GeoDistanceQuery.field r) (GeoDistanceQuery.location r)
    (GeoDistanceQuery.distance r).

Definition geo_distance_query_new (distance : string) (location : Location) : GeoDistanceQuery :=
  GeoDistanceQuery.mk None None location distance.

Definition geo_distance_query_boost (boost : option Z) (self : GeoDistanceQuery) : GeoDistanceQuery :=
  self <| GeoDistanceQuery.boost := boost |>.

Definition geo_distance_query_field (field : option string) (self : GeoDistanceQuery) : GeoDistanceQuery :=
  self <| GeoDistanceQuery.field := field |>.

Module GeoBoundingBoxQuery.
Record GeoBoundingBoxQuery : Type := mk {
  boost : option Z;
  field : option string;
  top_left : Location;
  bottom_right : Location;
}.
End GeoBoundingBoxQuery.
Abbreviation GeoBoundingBoxQuery := GeoBoundingBoxQuery.GeoBoundingBoxQuery.
#[global] Instance geo_bounding_box_query_settable : Settable (GeoBoundingBoxQuery) := λ r,
  GeoBoundingBoxQuery.mk (GeoBoundingBoxQuery.boost r) (GeoBoundingBoxQuery.field r)
    (GeoBoundingBoxQuery.top_left r) (GeoBoundingBoxQuery.bottom_right r).

Definition geo_bounding_box_query_new (top_left : Location) (bottom_right : Location) : GeoBoundingBoxQuery :=
  GeoBoundingBoxQuery.mk None None top_left bottom_right.

Definition geo_bounding_box_query_boost (boost : option Z) (self : GeoBoundingBoxQuery) : GeoBoundingBoxQuery :=
  self <| GeoBoundingBoxQuery.boost := boost |>.

Definition geo_bounding_box_query_field (field : option string) (self : GeoBoundingBoxQuery) :
    GeoBoundingBoxQuery :=
  self <| GeoBoundingBoxQuery.field := field |>.

Module GeoPolygonQuery.
Record GeoPolygonQuery : Type := mk {
  boost : option Z;
  field : option string;
  polygon_points : list Location;
}.
End GeoPolygonQuery.
Abbreviation GeoPolygonQuery := GeoPolygonQuery.GeoPolygonQuery.
#[global] Instance geo_polygon_query_settable : Settable (GeoPolygonQuery) := λ r,
  GeoPolygonQuery.mk (GeoPolygonQuery.boost r) (GeoPolygonQuery.field r) (GeoPolygonQuery.polygon_points r).

Definition geo_polygon_query_new (polygon_points : list Location) : GeoPolygonQuery :=
  GeoPolygonQuery.mk None None polygon_points.

Definition geo_polygon_query_boost (boost : option Z) (self : GeoPolygonQuery) : GeoPolygonQuery :=
  self <| GeoPolygonQuery.boost := boost |>.

Definition geo_polygon_query_field (field : option string) (self : GeoPolygonQuery) : GeoPolygonQuery :=
  self <| GeoPolygonQuery.field := field |>.

Module Query.
Inductive Query : Type :=
| Match (q : MatchQuery)
| MatchPhrase (q : MatchPhraseQuery)
| Regexp (q : RegexpQuery)
| QueryString (q : QueryStringQuery)
| NumericRange (q : NumericRangeQuery)
| DateRange (q : DateRangeQuery)
| TermRange (q : TermRangeQuery)
| Conjunction (q : ConjunctionQuery Query)
| Disjunction (q : DisjunctionQuery Query)
| Boolean (q : BooleanQuery Query)
| Wildcard (q : WildcardQuery)
| DocID (q : DocIDQuery)
| BooleanField (q : BooleanFieldQuery)
| Term (q : TermQuery)
| Phrase (q : PhraseQuery)
| Prefix (q : PrefixQuery)
| MatchAll (q : MatchAllQuery)
| MatchNone (q : MatchNoneQuery)
| GeoDistance (q : GeoDistanceQuery)
| GeoBoundingBox (q : GeoBoundingBoxQuery)
| GeoPolygon (q : GeoPolygonQuery).
End Query.
Abbreviation Query := Query.Query.

(** ** What is written *)

Section Ser.
Context {V : Type}.

(** A location is the pair of its longitude and its latitude. *)
Definition location_ser (l : Location) : Serialized V := SerSeq [SerF64 (Location.lon l); SerF64 (Location.lat l)].
Definition locations_ser (l : list Location) : Serialized V := SerSeq (map location_ser l).

Definition match_operator_ser (o : MatchOperator.MatchOperator) : Serialized V :=
  SerString (match o with MatchOperator.Or => "or" | MatchOperator.And => "and" end).

Definition match_query_ser (q : MatchQuery) : SerEntries V :=
  opt_entry "analyzer" SerString (MatchQuery.analyzer q)
  ++ opt_entry "boost" SerF32 (MatchQuery.boost q)
  ++ opt_entry "field" SerString (MatchQuery.field q)
  ++ opt_entry "fuzziness" SerInt (MatchQuery.fuzziness q)
  ++ ser_entry "match" (SerString (MatchQuery.match_input q))
  ++ opt_entry "operator" match_operator_ser (MatchQuery.operator q)
  ++ opt_entry "prefix_length" SerInt (MatchQuery.prefix_length q).

Definition match_phrase_query_ser (q : MatchPhraseQuery) : SerEntries V :=
  opt_entry "analyzer" SerString (MatchPhraseQuery.analyzer q)
  ++ opt_entry "boost" SerF32 (MatchPhraseQuery.boost q)
  ++ opt_entry "field" SerString (MatchPhraseQuery.field q)
  ++ ser_entry "match_phrase" (SerString (MatchPhraseQuery.match_phrase q)).

Definition regexp_query_ser (q : RegexpQuery) : SerEntries V :=
  opt_entry "boost" SerF32 (RegexpQuery.boost q)
  ++ opt_entry "field" SerString (RegexpQuery.field q)
  ++ ser_entry "regexp" (SerString (RegexpQuery.regexp q)).

Definition query_string_query_ser (q : QueryStringQuery) : SerEntries V :=
  opt_entry "boost" SerF32 (QueryStringQuery.boost q)
  ++ ser_entry "query" (SerString (QueryStringQuery.query q)).

Definition numeric_range_query_ser (q : NumericRangeQuery) : SerEntries V :=
  opt_entry "boost" SerF32 (NumericRangeQuery.boost q)
  ++ opt_entry "field" SerString (NumericRangeQuery.field q)
  ++ opt_entry "inclusive_min" SerBool (NumericRangeQuery.inclusive_min q)
  ++ opt_entry "inclusive_max" SerBool (NumericRangeQuery.inclusive_max q)
  ++ opt_entry "min" SerF32 (NumericRangeQuery.min q)
  ++ opt_entry "max" SerF32 (NumericRangeQuery.max q).

Definition date_range_query_ser (q : DateRangeQuery) : SerEntries V :=
  opt_entry "boost" SerF32 (DateRangeQuery.boost q)
  ++ opt_entry "field" SerString (DateRangeQuery.field q)
  ++ opt_entry "datetime_parser" SerString (DateRangeQuery.datetime_parser q)
  ++ opt_entry "end" SerString (DateRangeQuery.end_ q)
  ++ opt_entry "inclusive_start" SerBool (DateRangeQuery.inclusive_start q)
  ++ opt_entry "inclusive_end" SerBool (DateRangeQuery.inclusive_end q)
  ++ opt_entry "start" SerString (DateRangeQuery.start q).

Definition term_range_query_ser (q : TermRangeQuery) : SerEntries V :=
  opt_entry "boost" SerF32 (TermRangeQuery.boost q)
  ++ opt_entry "field" SerString (TermRangeQuery.field q)
  ++ opt_entry "inclusive_min" SerBool (TermRangeQuery.inclusive_min q)
  ++ opt_entry "inclusive_max" SerBool (TermRangeQuery.inclusive_max q)
  ++ opt_entry "max" SerString (TermRangeQuery.max q)
  ++ opt_entry "min" SerString (TermRangeQuery.min q).

Definition wildcard_query_ser (q : WildcardQuery) : SerEntries V :=
  opt_entry "boost" SerF32 (WildcardQuery.boost q)
  ++ opt_entry "field" SerString (WildcardQuery.field q)
  ++ ser_entry "wildcard" (SerString (WildcardQuery.wildcard q)).

Definition doc_i_d_query_ser (q : DocIDQuery) : SerEntries V :=
  opt_entry "boost" SerF32 (DocIDQuery.boost q)
  ++ ser_entry "ids" (ser_strings (DocIDQuery.ids q)).

Definition boolean_field_query_ser (q : BooleanFieldQuery) : SerEntries V :=
  ser_entry "bool" (SerBool (BooleanFieldQuery.bool_value q))
  ++ opt_entry "boost" SerF32 (BooleanFieldQuery.boost q)
  ++ opt_entry "field" SerString (BooleanFieldQuery.field q).

Definition term_query_ser (q : TermQuery) : SerEntries V :=
  opt_entry "boost" SerF32 (TermQuery.boost q)
  ++ opt_entry "field" SerString (TermQuery.field q)
  ++ opt_entry "fuzziness" SerInt (TermQuery.fuzziness q)
  ++ opt_entry "prefix_length" SerInt (TermQuery.prefix_length q)
  ++ ser_entry "term" (SerString (TermQuery.term q)).

Definition phrase_query_ser (q : PhraseQuery) : SerEntries V :=
  opt_entry "boost" SerF32 (PhraseQuery.boost q)
  ++ opt_entry "field" SerString (PhraseQuery.field q)
  ++ ser_entry "terms" (ser_strings (PhraseQuery.terms q)).

Definition prefix_query_ser (q : PrefixQuery) : SerEntries V :=
  opt_entry "boost" SerF32 (PrefixQuery.boost q)
  ++ opt_entry "field" SerString (PrefixQuery.field q)
  ++ ser_entry "prefix" (SerString (PrefixQuery.prefix q)).

Definition geo_distance_query_ser (q : GeoDistanceQuery) : SerEntries V :=
  opt_entry "boost" SerF32 (GeoDistanceQuery.boost q)
  ++ opt_entry "field" SerString (GeoDistanceQuery.field q)
  ++ ser_entry "location" (location_ser (GeoDistanceQuery.location q))
  ++ ser_entry "distance" (SerString (GeoDistanceQuery.distance q)).

Definition geo_bounding_box_query_ser (q : GeoBoundingBoxQuery) : SerEntries V :=
  opt_entry "boost" SerF32 (GeoBoundingBoxQuery.boost q)
  ++ opt_entry "field" SerString (GeoBoundingBoxQuery.field q)
  ++ ser_entry "top_left" (location_ser (GeoBoundingBoxQuery.top_left q))
  ++ ser_entry "bottom_right" (location_ser (GeoBoundingBoxQuery.bottom_right q)).

Definition geo_polygon_query_ser (q : GeoPolygonQuery) : SerEntries V :=
  opt_entry "boost" SerF32 (GeoPolygonQuery.boost q)
  ++ opt_entry "field" SerString (GeoPolygonQuery.field q)
  ++ ser_entry "polygon_points" (locations_ser (GeoPolygonQuery.polygon_points q)).

Definition match_all_query_ser (q : MatchAllQuery) : SerEntries V := ser_entry "match_all" SerNull.
Definition match_none_query_ser (q : MatchNoneQuery) : SerEntries V := ser_entry "match_none" SerNull.

Section Compound.
Context {Q : Type} (ser : Q → Serialized V).
Definition conjunction_query_ser (q : ConjunctionQuery Q) : SerEntries V :=
  opt_entry "boost" SerF32 (ConjunctionQuery.boost q)
  ++ ser_entry "conjuncts" (SerSeq (map ser (ConjunctionQuery.conjuncts q))).

Definition disjunction_query_ser (q : DisjunctionQuery Q) : SerEntries V :=
  opt_entry "boost" SerF32 (DisjunctionQuery.boost q)
  ++ opt_entry "min" SerInt (DisjunctionQuery.min q)
  ++ ser_entry "disjuncts" (SerSeq (map ser (DisjunctionQuery.disjuncts q))).

Definition boolean_query_ser (q : BooleanQuery Q) : SerEntries V :=
  opt_entry "boost" SerF32 (BooleanQuery.boost q)
  ++ opt_entry "must" (λ q, SerMap (conjunction_query_ser q)) (BooleanQuery.must q)
  ++ opt_entry "must_not" (λ q, SerMap (disjunction_query_ser q)) (BooleanQuery.must_not q)
  ++ opt_entry "should" (λ q, SerMap (disjunction_query_ser q)) (BooleanQuery.should q).

End Compound.

Fixpoint query_ser (q : Query) : Serialized V :=
  SerMap
    match q with
    | Query.Match q => match_query_ser q
    | Query.MatchPhrase q => match_phrase_query_ser q
    | Query.Regexp q => regexp_query_ser q
    | Query.QueryString q => query_string_query_ser q
    | Query.NumericRange q => numeric_range_query_ser q
    | Query.DateRange q => date_range_query_ser q
    | Query.TermRange q => term_range_query_ser q
    | Query.Conjunction q => conjunction_query_ser query_ser q
    | Query.Disjunction q => disjunction_query_ser query_ser q
    | Query.Boolean q => boolean_query_ser query_ser q
    | Query.Wildcard q => wildcard_query_ser q
    | Query.DocID q => doc_i_d_query_ser q
    | Query.BooleanField q => boolean_field_query_ser q
    | Query.Term q => term_query_ser q
    | Query.Phrase q => phrase_query_ser q
    | Query.Prefix q => prefix_query_ser q
    | Query.MatchAll q => match_all_query_ser q
    | Query.MatchNone q => match_none_query_ser q
    | Query.GeoDistance q => geo_distance_query_ser q
    | Query.GeoBoundingBox q => geo_bounding_box_query_ser q
    | Query.GeoPolygon q => geo_polygon_query_ser q
    end.
End Ser.

(** ** Queries are told apart *)

(** The queries a query is made of. *)
Definition parts (q : Query) : list Query :=
  match q with
  | Query.Conjunction c => ConjunctionQuery.conjuncts c
  | Query.Disjunction d => DisjunctionQuery.disjuncts d
  | Query.Boolean b =>
      from_option ConjunctionQuery.conjuncts [] (BooleanQuery.must b)
      ++ from_option DisjunctionQuery.disjuncts [] (BooleanQuery.must_not b)
      ++ from_option DisjunctionQuery.disjuncts [] (BooleanQuery.should b)
  | _ => []
  end.

Lemma query_parts_ind (P : Query → Prop) : (∀ q, Forall P (parts q) → P q) → ∀ q, P q.
Proof.
  intros HP. fix IH 1. intros q. apply HP.
  destruct q as [| | | | | | |[b l]|[b m l]|[b mu mn sh]| | | | | | | | | | |]; cbn; try constructor.
  - induction l; constructor; [apply IH|done].
  - induction l; constructor; [apply IH|done].
  - apply list.Forall_app_2; [|apply list.Forall_app_2].
    + destruct mu as [[b' l]|]; cbn; [|constructor]. induction l; constructor; [apply IH|done].
    + destruct mn as [[b' m l]|]; cbn; [|constructor]. induction l; constructor; [apply IH|done].
    + destruct sh as [[b' m l]|]; cbn; [|constructor]. induction l; constructor; [apply IH|done].
Qed.

(** A range with a bound, a boolean query with a clause, any other query: the names of the fields that are
    written tell which kind it is. *)
Definition told_apart (q : Query) : bool :=
  match q with
  | Query.NumericRange q => bool_decide (is_Some (NumericRangeQuery.min q) ∨ is_Some (NumericRangeQuery.max q))
  | Query.TermRange q => bool_decide (is_Some (TermRangeQuery.min q) ∨ is_Some (TermRangeQuery.max q))
  | Query.DateRange q => bool_decide (is_Some (DateRangeQuery.start q) ∨ is_Some (DateRangeQuery.end_ q))
  | Query.Boolean q =>
      bool_decide (is_Some (BooleanQuery.must q) ∨ is_Some (BooleanQuery.must_not q) ∨ is_Some (BooleanQuery.should q))
  | _ => true
  end.

(** The query and all its parts are such queries. *)
Inductive recognised : Query → Prop :=
| recognised_intro q : told_apart q = true → Forall recognised (parts q) → recognised q.

(** The kinds, numbered. *)
Definition query_kind (q : Query) : nat :=
  match q with
  | Query.Match _ => 0 | Query.MatchPhrase _ => 1 | Query.Regexp _ => 2 | Query.QueryString _ => 3
  | Query.NumericRange _ => 4 | Query.DateRange _ => 5 | Query.TermRange _ => 6 | Query.Conjunction _ => 7
  | Query.Disjunction _ => 8 | Query.Boolean _ => 9 | Query.Wildcard _ => 10 | Query.DocID _ => 11
  | Query.BooleanField _ => 12 | Query.Term _ => 13 | Query.Phrase _ => 14 | Query.Prefix _ => 15
  | Query.MatchAll _ => 16 | Query.MatchNone _ => 17 | Query.GeoDistance _ => 18 | Query.GeoBoundingBox _ => 19
  | Query.GeoPolygon _ => 20
  end%nat.

(** The names that only one kind of query has. *)
Definition marks : list (string * nat) :=
  [("match", 0); ("match_phrase", 1); ("regexp", 2); ("query", 3); ("start", 5); ("end", 5); ("conjuncts", 7);
   ("disjuncts", 8); ("must", 9); ("must_not", 9); ("should", 9); ("wildcard", 10); ("ids", 11); ("bool", 12);
   ("term", 13); ("terms", 14); ("prefix", 15); ("match_all", 16); ("match_none", 17); ("distance", 18);
   ("top_left", 19); ("polygon_points", 20)]%nat%string.

Section Apart.
Context {V : Type}.

Definition bound_kind (o : option (Serialized V)) : option nat :=
  match o with Some (SerF32 _) => Some 4%nat | Some (SerString _) => Some 6%nat | _ => None end.

Definition kind_of (es : SerEntries V) : option nat :=
  match list_find (λ p : string * nat, is_Some (ser_get p.1 es)) marks with
  | Some (_, (_, n)) => Some n
  | None => match bound_kind (ser_get "min" es) with Some n => Some n | None => bound_kind (ser_get "max" es) end
  end.

Definition query_entries (q : Query) : SerEntries V :=
  match query_ser q with SerMap es => es | _ => [] end.

Lemma kind_of_query q : told_apart q = true → kind_of (query_entries q) = Some (query_kind q).
Proof.
  destruct q as [q|q|q|q|q|q|q|q|q|q|q|q|q|q|q|q|q|q|q|q|q]; destruct q;
  cbn [told_apart query_entries query_ser query_kind]; rewrite ?bool_decide_eq_true; intros Hq;
  repeat match goal with o : option _ |- _ => destruct o end; try reflexivity.
  all: destruct_or?; destruct Hq as [? [=]].
Qed.

Lemma location_ser_inj l1 l2 : location_ser (V:=V) l1 = location_ser l2 → l1 = l2.
Proof. destruct l1, l2. by intros [= -> ->]. Qed.
#[local] Instance location_ser_injective : Inj (=) (=) (@location_ser V).
Proof. intros ??. apply location_ser_inj. Qed.
#[local] Instance locations_ser_injective : Inj (=) (=) (@locations_ser V).
Proof. intros l1 l2 [= Hl]. by apply (inj (fmap location_ser)) in Hl. Qed.
#[local] Instance match_operator_ser_injective : Inj (=) (=) (@match_operator_ser V).
Proof. by intros [] []. Qed.

(** All the fields of both sides. *)
Ltac peel_all H := repeat peel H.
Ltac same_fields :=
  repeat match goal with
  | E : (?f <$> ?o1) = (?f <$> ?o2) |- _ => apply (inj (fmap f)) in E
  | E : SerString _ = SerString _ |- _ => injection E as E
  | E : SerBool _ = SerBool _ |- _ => injection E as E
  | E : SerInt _ = SerInt _ |- _ => injection E as E
  | E : location_ser _ = location_ser _ |- _ => apply location_ser_inj in E
  | E : locations_ser _ = locations_ser _ |- _ => apply (inj locations_ser) in E
  | E : ser_strings _ = ser_strings _ |- _ => apply (inj ser_strings) in E
  end.

(** What is told of the parts of a query. *)
Definition determined (q : Query) : Prop :=
  ∀ q', recognised q → recognised q' → query_ser (V:=V) q = query_ser q' → q = q'.

Lemma queries_determined l l' :
  Forall determined l → Forall recognised l → Forall recognised l' →
  SerSeq (V:=V) (map query_ser l) = SerSeq (map query_ser l') → l = l'.
Proof.
  intros Hd Hr Hr' [= Heq]. revert l' Hr' Heq. induction l as [|q l IH]; intros [|q' l'] Hr' Heq; try done.
  injection Heq as Hq Hl. inversion_clear Hd as [|?? Hdq Hdl]. inversion_clear Hr as [|?? Hrq Hrl].
  inversion_clear Hr' as [|?? Hrq' Hrl']. f_equal; [by apply Hdq|by apply IH].
Qed.

Lemma conjunctions_determined c c' :
  Forall determined (ConjunctionQuery.conjuncts c) → Forall recognised (ConjunctionQuery.conjuncts c) →
  Forall recognised (ConjunctionQuery.conjuncts c') →
  conjunction_query_ser (V:=V) query_ser c = conjunction_query_ser query_ser c' → c = c'.
Proof.
  destruct c as [b l], c' as [b' l']; cbn [ConjunctionQuery.conjuncts]. intros Hd Hr Hr' H.
  unfold conjunction_query_ser in H. cbn [ConjunctionQuery.conjuncts ConjunctionQuery.boost] in H. peel_all H. same_fields. apply queries_determined in H; naive_solver.
Qed.

Lemma disjunctions_determined c c' :
  Forall determined (DisjunctionQuery.disjuncts c) → Forall recognised (DisjunctionQuery.disjuncts c) →
  Forall recognised (DisjunctionQuery.disjuncts c') →
  disjunction_query_ser (V:=V) query_ser c = disjunction_query_ser query_ser c' → c = c'.
Proof.
  destruct c as [b m l], c' as [b' m' l']; cbn [DisjunctionQuery.disjuncts]. intros Hd Hr Hr' H.
  unfold disjunction_query_ser in H. cbn [DisjunctionQuery.disjuncts DisjunctionQuery.boost DisjunctionQuery.min] in H. peel_all H. same_fields. apply queries_determined in H; naive_solver.
Qed.

(** An optional part is determined when the part is. *)
Lemma option_determined {A B} (f : A → B) (o o' : option A) :
  (∀ x x', o = Some x → o' = Some x' → f x = f x' → x = x') → f <$> o = f <$> o' → o = o'.
Proof.
  intros Hf. destruct o as [x|], o' as [x'|]; try done. intros [= Hx]. f_equal. by apply Hf.
Qed.

Lemma booleans_determined b b' :
  Forall determined (parts (Query.Boolean b)) → Forall recognised (parts (Query.Boolean b)) →
  Forall recognised (parts (Query.Boolean b')) →
  boolean_query_ser (V:=V) query_ser b = boolean_query_ser query_ser b' → b = b'.
Proof.
  destruct b as [x mu mn sh], b' as [x' mu' mn' sh']; cbn. rewrite !list.Forall_app. intros (D1 & D2 & D3) (R1 & R2 & R3) (S1 & S2 & S3) H.
  unfold boolean_query_ser in H. cbn [BooleanQuery.boost BooleanQuery.must BooleanQuery.must_not BooleanQuery.should] in H.
  peel_all H. same_fields.
  match goal with E1 : _ <$> mu = _, E2 : _ <$> mn = _ |- _ =>
    apply option_determined in E1; [|intros c c' -> -> [= Hc]; by apply conjunctions_determined];
    apply option_determined in E2; [|intros c c' -> -> [= Hc]; by apply disjunctions_determined] end.
  apply option_determined in H; [|intros c c' -> -> [= Hc]; by apply disjunctions_determined]. by subst.
Qed.

(** Queries without parts. *)
Lemma simple_query_determined q q' :
  parts q = [] → (∀ b, q ≠ Query.Boolean b) → (∀ c, q ≠ Query.Conjunction c) → (∀ d, q ≠ Query.Disjunction d) →
  query_kind q = query_kind q' → query_entries q = query_entries q' → q = q'.
Proof.
  intros _ Hb Hc Hd Hk H. destruct q as [q|q|q|q|q|q|q|q|q|q|q|q|q|q|q|q|q|q|q|q|q], q' as [q'|q'|q'|q'|q'|q'|q'|q'|q'|q'|q'|q'|q'|q'|q'|q'|q'|q'|q'|q'|q'];
    try discriminate Hk; try congruence.
  all: destruct q, q'; cbn [query_entries query_ser] in H;
    unfold match_query_ser, match_phrase_query_ser, regexp_query_ser, query_string_query_ser, numeric_range_query_ser, date_range_query_ser, term_range_query_ser, wildcard_query_ser, doc_i_d_query_ser, boolean_field_query_ser, term_query_ser, phrase_query_ser, prefix_query_ser, match_all_query_ser, match_none_query_ser, geo_distance_query_ser, geo_bounding_box_query_ser, geo_polygon_query_ser in H;
    cbn -[ser_entry opt_entry app location_ser locations_ser ser_strings match_operator_ser] in H;
    peel_all H; same_fields; by subst.
Qed.

Lemma queries_are_determined q : determined q.
Proof.
  induction q as [q IH] using query_parts_ind. intros q' Hr Hr' Heq.
  inversion_clear Hr as [? Ht Hp]. inversion_clear Hr' as [? Ht' Hp'].
  assert (query_entries q = query_entries q') as He by (unfold query_entries; by rewrite Heq).
  assert (query_kind q = query_kind q') as Hk
    by (pose proof (kind_of_query q Ht); pose proof (kind_of_query q' Ht'); rewrite He in *; congruence).
  destruct q as [| | | | | | |c|d|b| | | | | | | | | | |]; try (by apply simple_query_determined).
  all: destruct q' as [| | | | | | |c'|d'|b'| | | | | | | | | | |]; try discriminate Hk; f_equal.
  - by apply conjunctions_determined.
  - by apply disjunctions_determined.
  - by apply booleans_determined.
Qed.
End Apart.

(** The server can tell which query was asked: two queries, whose ranges have a bound and whose boolean
    queries have a clause, in them and in all their parts, that are written as the same document are the
    same query, field by field. *)
Lemma queries_told_apart {V} q q' :
  recognised q → recognised q' → query_ser (V:=V) q = query_ser q' → q = q'.
Proof. intros Hr Hr'. by apply queries_are_determined. Qed.

(** Without a bound, a range of numbers, of terms and of dates, and a boolean query without a clause,
    are all the empty object. *)
Example empty_queries_not_told_apart {V} :
  query_ser (V:=V) (Query.NumericRange numeric_range_query_new) = SerMap []
  ∧ query_ser (V:=V) (Query.TermRange term_range_query_new) = SerMap []
  ∧ query_ser (V:=V) (Query.DateRange date_range_query_new) = SerMap []
  ∧ query_ser (V:=V) (Query.Boolean boolean_query_new) = SerMap [].
Proof. done. Qed.

(** ** Witness *)

Definition sample_query (field : string) : Query :=
  Query.Conjunction (conjunction_query_new
    [Query.Match (match_query_operator (Some MatchOperator.And) (match_query_new "red wine"));
     Query.NumericRange (numeric_range_query_min (Some 0) (numeric_range_query_field (Some field) numeric_range_query_new))]).

Lemma sample_query_recognised field : recognised (sample_query field).
Proof. repeat (constructor; [reflexivity|]). repeat constructor. Qed.

Lemma queries_told_apart_example :
  recognised (sample_query "price") ∧ query_ser (V:=unit) (sample_query "price") ≠ query_ser (sample_query "year").
Proof.
  split; [exact (sample_query_recognised "price")|]. intros Heq.
  discriminate (queries_told_apart (V:=unit) (sample_query "price") (sample_query "year")
    (sample_query_recognised _) (sample_query_recognised _) Heq).
Defined.
