(* ===== verification/SearchOptions.v ===== *)
(** * Options of searches ([searchx/facets.rs], [searchx/sort.rs], [searchx/query_options.rs],
    [options/search.rs])

    The options of the search client and those of the agent, with their setters, the conversion
    from the second to the first, and what the first are written as.  [D] is a date with its
    offset ([chrono::DateTime]), [V] a JSON value, [T] a retry strategy. *)

From S2P Require Import Prelude HttpxError Wire CoreError Retry CrudOptions Http Json SearchQueries.

(** ** Facets *)

Module TermFacet.
Record TermFacet : Type := mk {
  field : string;
  size : option Z;
}.
End TermFacet.
Abbreviation TermFacet := TermFacet.TermFacet.
#[global] Instance term_facet_settable : Settable (TermFacet) := λ r,
  TermFacet.mk (TermFacet.field r) (TermFacet.size r).

Definition term_facet_new (field : string) : TermFacet :=
  TermFacet.mk field None.

Definition term_facet_size (size : option Z) (self : TermFacet) : TermFacet :=
  self <| TermFacet.size := size |>.

Module NumericRange.
Record NumericRange : Type := mk {
  name : string;
  min : option Z;
  max : option Z;
}.
End NumericRange.
Abbreviation NumericRange := NumericRange.NumericRange.
#[global] Instance numeric_range_settable : Settable (NumericRange) := λ r,
  NumericRange.mk (NumericRange.name r) (NumericRange.min r) (NumericRange.max r).

Definition numeric_range_new (name : string) : NumericRange :=
  NumericRange.mk name None None.

Definition numeric_range_min (min : option Z) (self : NumericRange) : NumericRange :=
  self <| NumericRange.min := min |>.

Definition numeric_range_max (max : option Z) (self : NumericRange) : NumericRange :=
  self <| NumericRange.max := max |>.

Module NumericRangeFacet.
Record NumericRangeFacet : Type := mk {
  field : string;
  size : option Z;
  numeric_ranges : list NumericRange;
}.
End NumericRangeFacet.
Abbreviation NumericRangeFacet := NumericRangeFacet.NumericRangeFacet.
#[global] Instance numeric_range_facet_settable : Settable (NumericRangeFacet) := λ r,
  NumericRangeFacet.mk (NumericRangeFacet.field r) (NumericRangeFacet.size r) (NumericRangeFacet.numeric_ranges r).

Definition numeric_range_facet_new (field : string) : NumericRangeFacet :=
  NumericRangeFacet.mk field None [].

Definition numeric_range_facet_size (size : option Z) (self : NumericRangeFacet) : NumericRangeFacet :=
  self <| NumericRangeFacet.size := size |>.

Module DateRange.
Section Fields.
Context {D : Type}.
Record DateRange : Type := mk {
  name : string;
  start : option D;
  end_ : option D;
}.
End Fields.
#[global] Arguments DateRange : clear implicits.
End DateRange.
Abbreviation DateRange := DateRange.DateRange.
#[global] Instance date_range_settable D : Settable (DateRange D) := λ r,
  DateRange.mk (DateRange.name r) (DateRange.start r) (DateRange.end_ r).

Definition date_range_new {D : Type} (name : string) : DateRange D :=
  DateRange.mk name None None.

Definition date_range_start {D : Type} (start : option D) (self : DateRange D) : DateRange D :=
  self <| DateRange.start := start |>.

Definition date_range_end {D : Type} (end_ : option D) (self : DateRange D) : DateRange D :=
  self <| DateRange.end_ := end_ |>.

Module DateRangeFacet.
Section Fields.
Context {D : Type}.
Record DateRangeFacet : Type := mk {
  field : string;
  size : option Z;
  date_ranges : list (DateRange D);
}.
End Fields.
#[global] Arguments DateRangeFacet : clear implicits.
End DateRangeFacet.
Abbreviation DateRangeFacet := DateRangeFacet.DateRangeFacet.
#[global] Instance date_range_facet_settable D : Settable (DateRangeFacet D) := λ r,
  DateRangeFacet.mk (DateRangeFacet.field r) (DateRangeFacet.size r) (DateRangeFacet.date_ranges r).

Definition date_range_facet_new {D : Type} (field : string) : DateRangeFacet D :=
  DateRangeFacet.mk field None [].

Definition date_range_facet_size {D : Type} (size : option Z) (self : DateRangeFacet D) : DateRangeFacet D :=
  self <| DateRangeFacet.size := size |>.

Definition numeric_range_facet_with_numeric_ranges (field : string) (numeric_ranges : list NumericRange) :
    NumericRangeFacet :=
  NumericRangeFacet.mk field None numeric_ranges.

Definition numeric_range_facet_add_numeric_range (range : NumericRange) (self : NumericRangeFacet) : NumericRangeFacet :=
  self <| NumericRangeFacet.numeric_ranges := NumericRangeFacet.numeric_ranges self ++ [range] |>.

Definition date_range_facet_with_date_ranges {D : Type} (field : string) (date_ranges : list (DateRange D)) :
    DateRangeFacet D :=
  DateRangeFacet.mk field None date_ranges.

Definition date_range_facet_add_date_range {D : Type} (range : DateRange D) (self : DateRangeFacet D) :
    DateRangeFacet D :=
  self <| DateRangeFacet.date_ranges := DateRangeFacet.date_ranges self ++ [range] |>.

Module Facet.
Inductive Facet {D : Type} : Type :=
| Term (f : TermFacet)
| NumericRange (f : NumericRangeFacet)
| DateRange (f : DateRangeFacet D).
#[global] Arguments Facet : clear implicits.
End Facet.
Abbreviation Facet := Facet.Facet.

(** ** Sorting *)

Module SortFieldType.
Inductive SortFieldType : Type := Auto | String_ | Number | Date.
End SortFieldType.

Module SortFieldMode.
Inductive SortFieldMode : Type := Default | Min | Max.
End SortFieldMode.

Inductive SortFieldMissing : Type := First | Last.

Inductive SortGeoDistanceUnit : Type :=
  Meters | Miles | Centimeters | Millimeters | NauticalMiles | Kilometers | Feet | Yards | Inches.

Module SortScore.
Record SortScore : Type := mk {
  descending : option bool;
}.
End SortScore.
Abbreviation SortScore := SortScore.SortScore.
#[global] Instance sort_score_settable : Settable (SortScore) := λ r,
  SortScore.mk (SortScore.descending r).

Definition sort_score_new : SortScore :=
  SortScore.mk None.

Definition sort_score_descending (descending : option bool) (self : SortScore) : SortScore :=
  self <| SortScore.descending := descending |>.

Module SortId.
Record SortId : Type := mk {
  descending : option bool;
}.
End SortId.
Abbreviation SortId := SortId.SortId.
#[global] Instance sort_id_settable : Settable (SortId) := λ r,
  SortId.mk (SortId.descending r).

Definition sort_id_new : SortId :=
  SortId.mk None.

Definition sort_id_descending (descending : option bool) (self : SortId) : SortId :=
  self <| SortId.descending := descending |>.

Module SortField.
Record SortField : Type := mk {
  field : string;
  descending : option bool;
  sort_type : option SortFieldType.SortFieldType;
  mode : option SortFieldMode.SortFieldMode;
  missing : option SortFieldMissing;
}.
End SortField.
Abbreviation SortField := SortField.SortField.
#[global] Instance sort_field_settable : Settable (SortField) := λ r,
  SortField.mk (SortField.field r) (SortField.descending r) (SortField.sort_type r) (SortField.mode r)
    (SortField.missing r).

Definition sort_field_new (field : string) : SortField :=
  SortField.mk field None None None None.

Definition sort_field_descending (descending : option bool) (self : SortField) : SortField :=
  self <| SortField.descending := descending |>.

Definition sort_field_sort_type (sort_type : option SortFieldType.SortFieldType) (self : SortField) : SortField :=
  self <| SortField.sort_type := sort_type |>.

Definition sort_field_mode (mode : option SortFieldMode.SortFieldMode) (self : SortField) : SortField :=
  self <| SortField.mode := mode |>.

Definition sort_field_missing (missing : option SortFieldMissing) (self : SortField) : SortField :=
  self <| SortField.missing := missing |>.

Module SortGeoDistance.
Record SortGeoDistance : Type := mk {
  field : string;
  descending : option bool;
  location : Location;
  unit : option SortGeoDistanceUnit;
}.
End SortGeoDistance.
Abbreviation SortGeoDistance := SortGeoDistance.SortGeoDistance.
#[global] Instance sort_geo_distance_settable : Settable (SortGeoDistance) := λ r,
  SortGeoDistance.mk (SortGeoDistance.field r) (SortGeoDistance.descending r) (SortGeoDistance.location r)
    (SortGeoDistance.unit r).

Definition sort_geo_distance_new (field : string) (location : Location) : SortGeoDistance :=
  SortGeoDistance.mk field None location None.

Definition sort_geo_distance_descending (descending : option bool) (self : SortGeoDistance) : SortGeoDistance :=
  self <| SortGeoDistance.descending := descending |>.

Definition sort_geo_distance_unit (unit : option SortGeoDistanceUnit) (self : SortGeoDistance) : SortGeoDistance :=
  self <| SortGeoDistance.unit := unit |>.

Module Sort.
Inductive Sort : Type :=
| Score (s : SortScore)
| Id (s : SortId)
| Field (s : SortField)
| GeoDistance (s : SortGeoDistance).
End Sort.
Abbreviation Sort := Sort.Sort.

(** ** Options of the client *)

Inductive HighlightStyle : Type := Html | Ansi.

Module ConsistencyLevel.
Inductive ConsistencyLevel : Type := NotBounded | AtPlus.
End ConsistencyLevel.

Inductive ConsistencyResults : Type := Complete.

Module KnnOperator.
Inductive KnnOperator : Type := Or | And.
End KnnOperator.

Definition ConsistencyVectors : Type := gmap string (gmap string Z).

Module Highlight.
Record Highlight : Type := mk {
  style : option HighlightStyle;
  fields : option (list string);
}.
End Highlight.
Abbreviation Highlight := Highlight.Highlight.
#[global] Instance highlight_settable : Settable (Highlight) := λ r,
  Highlight.mk (Highlight.style r) (Highlight.fields r).

Definition highlight_new : Highlight :=
  Highlight.mk None None.

Definition highlight_style (style : option HighlightStyle) (self : Highlight) : Highlight :=
  self <| Highlight.style := style |>.

Definition highlight_fields (fields : option (list string)) (self : Highlight) : Highlight :=
  self <| Highlight.fields := fields |>.

Module Consistency.
Record Consistency : Type := mk {
  level : option ConsistencyLevel.ConsistencyLevel;
  results : option ConsistencyResults;
  vectors : option ConsistencyVectors;
}.
End Consistency.
Abbreviation Consistency := Consistency.Consistency.
#[global] Instance consistency_settable : Settable (Consistency) := λ r,
  Consistency.mk (Consistency.level r) (Consistency.results r) (Consistency.vectors r).

Definition consistency_new : Consistency :=
  Consistency.mk None None None.

Definition consistency_level (level : option ConsistencyLevel.ConsistencyLevel) (self : Consistency) :
    Consistency :=
  self <| Consistency.level := level |>.

Definition consistency_results (results : option ConsistencyResults) (self : Consistency) : Consistency :=
  self <| Consistency.results := results |>.

Definition consistency_vectors (vectors : option ConsistencyVectors) (self : Consistency) : Consistency :=
  self <| Consistency.vectors := vectors |>.

Module Control.
Record Control : Type := mk {
  consistency : option Consistency;
  timeout : option Z;
}.
End Control.
Abbreviation Control := Control.Control.
#[global] Instance control_settable : Settable (Control) := λ r,
  Control.mk (Control.consistency r) (Control.timeout r).

Definition control_new : Control :=
  Control.mk None None.

Definition control_consistency (consistency : option Consistency) (self : Control) : Control :=
  self <| Control.consistency := consistency |>.

Definition control_timeout (timeout : option Z) (self : Control) : Control :=
  self <| Control.timeout := timeout |>.

Module KnnQuery.
Record KnnQuery : Type := mk {
  boost : option Z;
  field : string;
  k : Z;
  vector : option (list Z);
  vector_base64 : option string;
  filter : option Query;
}.
End KnnQuery.
Abbreviation KnnQuery := KnnQuery.KnnQuery.
#[global] Instance knn_query_settable : Settable (KnnQuery) := λ r,
  KnnQuery.mk (KnnQuery.boost r) (KnnQuery.field r) (KnnQuery.k r) (KnnQuery.vector r) (KnnQuery.vector_base64
    r) (KnnQuery.filter r).

Definition knn_query_new (field : string) (k : Z) : KnnQuery :=
  KnnQuery.mk None field k None None None.

Definition knn_query_boost (boost : option Z) (self : KnnQuery) : KnnQuery :=
  self <| KnnQuery.boost := boost |>.

Definition knn_query_k (k : Z) (self : KnnQuery) : KnnQuery :=
  self <| KnnQuery.k := k |>.

Definition knn_query_vector (vector : option (list Z)) (self : KnnQuery) : KnnQuery :=
  self <| KnnQuery.vector := vector |>.

Definition knn_query_vector_base64 (vector_base64 : option string) (self : KnnQuery) : KnnQuery :=
  self <| KnnQuery.vector_base64 := vector_base64 |>.

Definition knn_query_filter (filter : option Query) (self : KnnQuery) : KnnQuery :=
  self <| KnnQuery.filter := filter |>.

Module SearchQueryOptions.
Section Fields.
Context {D V : Type}.
Record SearchQueryOptions : Type := mk {
  collections : option (list string);
  control : option Control;
  explain : option bool;
  facets : option (gmap string (Facet D));
  fields : option (list string);
  from : option Z;
  highlight : option Highlight;
  include_locations : option bool;
  query : option Query;
  score : option string;
  search_after : option (list string);
  search_before : option (list string);
  show_request : option bool;
  size : option Z;
  sort : option (list Sort);
  knn : option (list KnnQuery);
  knn_operator : option KnnOperator.KnnOperator;
  raw : option (gmap string V);
  index_name : string;
  scope_name : option string;
  bucket_name : option string;
  on_behalf_of : option OnBehalfOfInfo;
}.
End Fields.
#[global] Arguments SearchQueryOptions : clear implicits.
End SearchQueryOptions.
Abbreviation SearchQueryOptions := SearchQueryOptions.SearchQueryOptions.
#[global] Instance search_query_options_settable D V : Settable (SearchQueryOptions D V) := λ r,
  SearchQueryOptions.mk (SearchQueryOptions.collections r) (SearchQueryOptions.control r)
    (SearchQueryOptions.explain r) (SearchQueryOptions.facets r) (SearchQueryOptions.fields r)
    (SearchQueryOptions.from r) (SearchQueryOptions.highlight r) (SearchQueryOptions.include_locations r)
    (SearchQueryOptions.query r) (SearchQueryOptions.score r) (SearchQueryOptions.search_after r)
    (SearchQueryOptions.search_before r) (SearchQueryOptions.show_request r) (SearchQueryOptions.size r)
    (SearchQueryOptions.sort r) (SearchQueryOptions.knn r) (SearchQueryOptions.knn_operator r)
    (SearchQueryOptions.raw r) (SearchQueryOptions.index_name r) (SearchQueryOptions.scope_name r)
    (SearchQueryOptions.bucket_name r) (SearchQueryOptions.on_behalf_of r).

Definition search_query_options_new {D V : Type} (index_name : string) : SearchQueryOptions D V :=
  SearchQueryOptions.mk None None None None None None None None None None None None None None None None None
    None index_name None None None.

Definition search_query_options_collections {D V : Type} (collections : option (list string))
    (self : SearchQueryOptions D V) : SearchQueryOptions D V :=
  self <| SearchQueryOptions.collections := collections |>.

Definition search_query_options_control {D V : Type} (control : option Control)
    (self : SearchQueryOptions D V) : SearchQueryOptions D V :=
  self <| SearchQueryOptions.control := control |>.

Definition search_query_options_explain {D V : Type} (explain : option bool)
    (self : SearchQueryOptions D V) : SearchQueryOptions D V :=
  self <| SearchQueryOptions.explain := explain |>.

Definition search_query_options_facets {D V : Type} (facets : option (gmap string (Facet D)))
    (self : SearchQueryOptions D V) : SearchQueryOptions D V :=
  self <| SearchQueryOptions.facets := facets |>.

Definition search_query_options_fields {D V : Type} (fields : option (list string))
    (self : SearchQueryOptions D V) : SearchQueryOptions D V :=
  self <| SearchQueryOptions.fields := fields |>.

Definition search_query_options_from {D V : Type} (from : option Z)
    (self : SearchQueryOptions D V) : SearchQueryOptions D V :=
  self <| SearchQueryOptions.from := from |>.

Definition search_query_options_highlight {D V : Type} (highlight : option Highlight)
    (self : SearchQueryOptions D V) : SearchQueryOptions D V :=
  self <| SearchQueryOptions.highlight := highlight |>.

Definition search_query_options_include_locations {D V : Type} (include_locations : option bool)
    (self : SearchQueryOptions D V) : SearchQueryOptions D V :=
  self <| SearchQueryOptions.include_locations := include_locations |>.

Definition search_query_options_query {D V : Type} (query : option Query)
    (self : SearchQueryOptions D V) : SearchQueryOptions D V :=
  self <| SearchQueryOptions.query := query |>.

Definition search_query_options_score {D V : Type} (score : option string)
    (self : SearchQueryOptions D V) : SearchQueryOptions D V :=
  self <| SearchQueryOptions.score := score |>.

Definition search_query_options_search_after {D V : Type} (search_after : option (list string))
    (self : SearchQueryOptions D V) : SearchQueryOptions D V :=
  self <| SearchQueryOptions.search_after := search_after |>.

Definition search_query_options_search_before {D V : Type} (search_before : option (list string))
    (self : SearchQueryOptions D V) : SearchQueryOptions D V :=
  self <| SearchQueryOptions.search_before := search_before |>.

Definition search_query_options_show_request {D V : Type} (show_request : option bool)
    (self : SearchQueryOptions D V) : SearchQueryOptions D V :=
  self <| SearchQueryOptions.show_request := show_request |>.

Definition search_query_options_size {D V : Type} (size : option Z)
    (self : SearchQueryOptions D V) : SearchQueryOptions D V :=
  self <| SearchQueryOptions.size := size |>.

Definition search_query_options_sort {D V : Type} (sort : option (list Sort))
    (self : SearchQueryOptions D V) : SearchQueryOptions D V :=
  self <| SearchQueryOptions.sort := sort |>.

Definition search_query_options_knn {D V : Type} (knn : option (list KnnQuery))
    (self : SearchQueryOptions D V) : SearchQueryOptions D V :=
  self <| SearchQueryOptions.knn := knn |>.

Definition search_query_options_knn_operator {D V : Type} (knn_operator : option KnnOperator.KnnOperator)
    (self : SearchQueryOptions D V) : SearchQueryOptions D V :=
  self <| SearchQueryOptions.knn_operator := knn_operator |>.

Definition search_query_options_raw {D V : Type} (raw : option (gmap string V))
    (self : SearchQueryOptions D V) : SearchQueryOptions D V :=
  self <| SearchQueryOptions.raw := raw |>.

Definition search_query_options_scope_name {D V : Type} (scope_name : option string)
    (self : SearchQueryOptions D V) : SearchQueryOptions D V :=
  self <| SearchQueryOptions.scope_name := scope_name |>.

Definition search_query_options_bucket_name {D V : Type} (bucket_name : option string)
    (self : SearchQueryOptions D V) : SearchQueryOptions D V :=
  self <| SearchQueryOptions.bucket_name := bucket_name |>.

Definition search_query_options_on_behalf_of {D V : Type} (on_behalf_of : option OnBehalfOfInfo)
    (self : SearchQueryOptions D V) : SearchQueryOptions D V :=
  self <| SearchQueryOptions.on_behalf_of := on_behalf_of |>.

(** ** Options of the agent ([options/search.rs]) *)

Module CoreSearchOptions.
Section Fields.
Context {T D V : Type}.
Record CoreSearchOptions : Type := mk {
  collections : option (list string);
  control : option Control;
  explain : option bool;
  facets : option (gmap string (Facet D));
  fields : option (list string);
  from : option Z;
  highlight : option Highlight;
  include_locations : option bool;
  query : option Query;
  score : option string;
  search_after : option (list string);
  search_before : option (list string);
  show_request : option bool;
  size : option Z;
  sort : option (list Sort);
  knn : option (list KnnQuery);
  knn_operator : option KnnOperator.KnnOperator;
  raw : option (gmap string V);
  index_name : string;
  scope_name : option string;
  bucket_name : option string;
  on_behalf_of : option OnBehalfOfInfo;
  endpoint : option string;
  retry_strategy : T;
}.
End Fields.
#[global] Arguments CoreSearchOptions : clear implicits.
End CoreSearchOptions.
Abbreviation CoreSearchOptions := CoreSearchOptions.CoreSearchOptions.
#[global] Instance core_search_options_settable T D V : Settable (CoreSearchOptions T D V) := λ r,
  CoreSearchOptions.mk (CoreSearchOptions.collections r) (CoreSearchOptions.control r)
    (CoreSearchOptions.explain r) (CoreSearchOptions.facets r) (CoreSearchOptions.fields r)
    (CoreSearchOptions.from r) (CoreSearchOptions.highlight r) (CoreSearchOptions.include_locations r)
    (CoreSearchOptions.query r) (CoreSearchOptions.score r) (CoreSearchOptions.search_after r)
    (CoreSearchOptions.search_before r) (CoreSearchOptions.show_request r) (CoreSearchOptions.size r)
    (CoreSearchOptions.sort r) (CoreSearchOptions.knn r) (CoreSearchOptions.knn_operator r)
    (CoreSearchOptions.raw r) (CoreSearchOptions.index_name r) (CoreSearchOptions.scope_name r)
    (CoreSearchOptions.bucket_name r) (CoreSearchOptions.on_behalf_of r) (CoreSearchOptions.endpoint r)
    (CoreSearchOptions.retry_strategy r).

Definition core_search_options_new {D V : Type} (index_name : string) : CoreSearchOptions FailFastRetryStrategy
    D V :=
  CoreSearchOptions.mk None None None None None None None None None None None None None None None None None None
    index_name None None None None DEFAULT_RETRY_STRATEGY.

Definition core_search_options_collections {T D V : Type} (collections : option (list string))
    (self : CoreSearchOptions T D V) : CoreSearchOptions T D V :=
  self <| CoreSearchOptions.collections := collections |>.

Definition core_search_options_control {T D V : Type} (control : option Control)
    (self : CoreSearchOptions T D V) : CoreSearchOptions T D V :=
  self <| CoreSearchOptions.control := control |>.

Definition core_search_options_explain {T D V : Type} (explain : option bool)
    (self : CoreSearchOptions T D V) : CoreSearchOptions T D V :=
  self <| CoreSearchOptions.explain := explain |>.

Definition core_search_options_facets {T D V : Type} (facets : option (gmap string (Facet D)))
    (self : CoreSearchOptions T D V) : CoreSearchOptions T D V :=
  self <| CoreSearchOptions.facets := facets |>.

Definition core_search_options_fields {T D V : Type} (fields : option (list string))
    (self : CoreSearchOptions T D V) : CoreSearchOptions T D V :=
  self <| CoreSearchOptions.fields := fields |>.

Definition core_search_options_from {T D V : Type} (from : option Z)
    (self : CoreSearchOptions T D V) : CoreSearchOptions T D V :=
  self <| CoreSearchOptions.from := from |>.

Definition core_search_options_highlight {T D V : Type} (highlight : option Highlight)
    (self : CoreSearchOptions T D V) : CoreSearchOptions T D V :=
  self <| CoreSearchOptions.highlight := highlight |>.

Definition core_search_options_include_locations {T D V : Type} (include_locations : option bool)
    (self : CoreSearchOptions T D V) : CoreSearchOptions T D V :=
  self <| CoreSearchOptions.include_locations := include_locations |>.

Definition core_search_options_query {T D V : Type} (query : option Query)
    (self : CoreSearchOptions T D V) : CoreSearchOptions T D V :=
  self <| CoreSearchOptions.query := query |>.

Definition core_search_options_score {T D V : Type} (score : option string)
    (self : CoreSearchOptions T D V) : CoreSearchOptions T D V :=
  self <| CoreSearchOptions.score := score |>.

Definition core_search_options_search_after {T D V : Type} (search_after : option (list string))
    (self : CoreSearchOptions T D V) : CoreSearchOptions T D V :=
  self <| CoreSearchOptions.search_after := search_after |>.

Definition core_search_options_search_before {T D V : Type} (search_before : option (list string))
    (self : CoreSearchOptions T D V) : CoreSearchOptions T D V :=
  self <| CoreSearchOptions.search_before := search_before |>.

Definition core_search_options_show_request {T D V : Type} (show_request : option bool)
    (self : CoreSearchOptions T D V) : CoreSearchOptions T D V :=
  self <| CoreSearchOptions.show_request := show_request |>.

Definition core_search_options_size {T D V : Type} (size : option Z)
    (self : CoreSearchOptions T D V) : CoreSearchOptions T D V :=
  self <| CoreSearchOptions.size := size |>.

Definition core_search_options_sort {T D V : Type} (sort : option (list Sort))
    (self : CoreSearchOptions T D V) : CoreSearchOptions T D V :=
  self <| CoreSearchOptions.sort := sort |>.

Definition core_search_options_knn {T D V : Type} (knn : option (list KnnQuery))
    (self : CoreSearchOptions T D V) : CoreSearchOptions T D V :=
  self <| CoreSearchOptions.knn := knn |>.

Definition core_search_options_knn_operator {T D V : Type} (knn_operator : option KnnOperator.KnnOperator)
    (self : CoreSearchOptions T D V) : CoreSearchOptions T D V :=
  self <| CoreSearchOptions.knn_operator := knn_operator |>.

Definition core_search_options_raw {T D V : Type} (raw : option (gmap string V))
    (self : CoreSearchOptions T D V) : CoreSearchOptions T D V :=
  self <| CoreSearchOptions.raw := raw |>.

Definition core_search_options_scope_name {T D V : Type} (scope_name : option string)
    (self : CoreSearchOptions T D V) : CoreSearchOptions T D V :=
  self <| CoreSearchOptions.scope_name := scope_name |>.

Definition core_search_options_bucket_name {T D V : Type} (bucket_name : option string)
    (self : CoreSearchOptions T D V) : CoreSearchOptions T D V :=
  self <| CoreSearchOptions.bucket_name := bucket_name |>.

Definition core_search_options_on_behalf_of {T D V : Type} (on_behalf_of : option OnBehalfOfInfo)
    (self : CoreSearchOptions T D V) : CoreSearchOptions T D V :=
  self <| CoreSearchOptions.on_behalf_of := on_behalf_of |>.

Definition core_search_options_retry_strategy {T T' D V : Type} (retry_strategy : T') (self : CoreSearchOptions
    T D V) : CoreSearchOptions T' D V :=
  CoreSearchOptions.mk (CoreSearchOptions.collections self) (CoreSearchOptions.control self)
    (CoreSearchOptions.explain self) (CoreSearchOptions.facets self) (CoreSearchOptions.fields self)
    (CoreSearchOptions.from self) (CoreSearchOptions.highlight self) (CoreSearchOptions.include_locations self)
    (CoreSearchOptions.query self) (CoreSearchOptions.score self) (CoreSearchOptions.search_after self)
    (CoreSearchOptions.search_before self) (CoreSearchOptions.show_request self) (CoreSearchOptions.size self)
    (CoreSearchOptions.sort self) (CoreSearchOptions.knn self) (CoreSearchOptions.knn_operator self)
    (CoreSearchOptions.raw self) (CoreSearchOptions.index_name self) (CoreSearchOptions.scope_name self)
    (CoreSearchOptions.bucket_name self) (CoreSearchOptions.on_behalf_of self) (CoreSearchOptions.endpoint self)
    retry_strategy.

Definition core_search_options_endpoint {T D V : Type} (endpoint : option string)
    (self : CoreSearchOptions T D V) : CoreSearchOptions T D V :=
  self <| CoreSearchOptions.endpoint := endpoint |>.

Definition core_search_options_into {T D V : Type} (opts : CoreSearchOptions T D V) : SearchQueryOptions D V :=
  SearchQueryOptions.mk (CoreSearchOptions.collections opts) (CoreSearchOptions.control opts)
    (CoreSearchOptions.explain opts) (CoreSearchOptions.facets opts) (CoreSearchOptions.fields opts)
    (CoreSearchOptions.from opts) (CoreSearchOptions.highlight opts) (CoreSearchOptions.include_locations opts)
    (CoreSearchOptions.query opts) (CoreSearchOptions.score opts) (CoreSearchOptions.search_after opts)
    (CoreSearchOptions.search_before opts) (CoreSearchOptions.show_request opts) (CoreSearchOptions.size opts)
    (CoreSearchOptions.sort opts) (CoreSearchOptions.knn opts) (CoreSearchOptions.knn_operator opts)
    (CoreSearchOptions.raw opts) (CoreSearchOptions.index_name opts) (CoreSearchOptions.scope_name opts)
    (CoreSearchOptions.bucket_name opts) (CoreSearchOptions.on_behalf_of opts).

(** ** What is written *)

Section Ser.
Context {V D : Type} (to_rfc3339 : D → string).

Definition term_facet_ser (q : TermFacet) : SerEntries V :=
  ser_entry "field" (SerString (TermFacet.field q))
  ++ opt_entry "size" SerInt (TermFacet.size q).

Definition numeric_range_ser (q : NumericRange) : SerEntries V :=
  ser_entry "name" (SerString (NumericRange.name q))
  ++ opt_entry "min" SerF64 (NumericRange.min q)
  ++ opt_entry "max" SerF64 (NumericRange.max q).

Definition numeric_range_facet_ser (q : NumericRangeFacet) : SerEntries V :=
  ser_entry "field" (SerString (NumericRangeFacet.field q))
  ++ opt_entry "size" SerInt (NumericRangeFacet.size q)
  ++ ser_entry "numeric_ranges" (SerSeq (map (λ r, SerMap (numeric_range_ser r)) (NumericRangeFacet.numeric_ranges q))).

Definition date_range_ser (q : DateRange D) : SerEntries V :=
  ser_entry "name" (SerString (DateRange.name q))
  ++ opt_entry "start" (λ d, SerString (to_rfc3339 d)) (DateRange.start q)
  ++ opt_entry "end" (λ d, SerString (to_rfc3339 d)) (DateRange.end_ q).

Definition date_range_facet_ser (q : DateRangeFacet D) : SerEntries V :=
  ser_entry "field" (SerString (DateRangeFacet.field q))
  ++ opt_entry "size" SerInt (DateRangeFacet.size q)
  ++ ser_entry "date_ranges" (SerSeq (map (λ r, SerMap (date_range_ser r)) (DateRangeFacet.date_ranges q))).

Definition facet_ser (f : Facet D) : Serialized V :=
  SerMap
    match f with
    | Facet.Term f => term_facet_ser f
    | Facet.NumericRange f => numeric_range_facet_ser f
    | Facet.DateRange f => date_range_facet_ser f
    end.

Definition sort_field_type_ser (x : SortFieldType.SortFieldType) : Serialized V :=
  SerString
    match x with
    | SortFieldType.Auto => "auto" | SortFieldType.String_ => "string"
    | SortFieldType.Number => "number" | SortFieldType.Date => "date"
    end.

Definition sort_field_mode_ser (x : SortFieldMode.SortFieldMode) : Serialized V :=
  SerString
    match x with SortFieldMode.Default => "default" | SortFieldMode.Min => "min" | SortFieldMode.Max => "max" end.

Definition sort_field_missing_ser (x : SortFieldMissing) : Serialized V :=
  SerString match x with First => "first" | Last => "last" end.

Definition sort_geo_distance_unit_ser (x : SortGeoDistanceUnit) : Serialized V :=
  SerString
    match x with
    | Meters => "meters" | Miles => "miles" | Centimeters => "centimeters" | Millimeters => "millimeters"
    | NauticalMiles => "nauticalMiles" | Kilometers => "kilometers" | Feet => "feet" | Yards => "yards"
    | Inches => "inches"
    end.

Definition sort_ser (s : Sort) : Serialized V :=
  SerMap
    match s with
    | Sort.Score s => ser_entry "by" (SerString "score") ++ opt_entry "desc" SerBool (SortScore.descending s)
    | Sort.Id s => ser_entry "by" (SerString "id") ++ opt_entry "desc" SerBool (SortId.descending s)
    | Sort.Field s =>
        ser_entry "by" (SerString "field")
        ++ ser_entry "field" (SerString (SortField.field s))
        ++ opt_entry "desc" SerBool (SortField.descending s)
        ++ opt_entry "type" sort_field_type_ser (SortField.sort_type s)
        ++ opt_entry "mode" sort_field_mode_ser (SortField.mode s)
        ++ opt_entry "missing" sort_field_missing_ser (SortField.missing s)
    | Sort.GeoDistance s =>
        ser_entry "by" (SerString "geo_distance")
        ++ ser_entry "field" (SerString (SortGeoDistance.field s))
        ++ ser_entry "location" (location_ser (SortGeoDistance.location s))
        ++ opt_entry "desc" SerBool (SortGeoDistance.descending s)
        ++ opt_entry "unit" sort_geo_distance_unit_ser (SortGeoDistance.unit s)
    end.

Definition highlight_style_ser (x : HighlightStyle) : Serialized V :=
  SerString match x with Html => "html" | Ansi => "ansi" end.

Definition consistency_level_ser (x : ConsistencyLevel.ConsistencyLevel) : Serialized V :=
  SerString match x with ConsistencyLevel.NotBounded => "" | ConsistencyLevel.AtPlus => "at_plus" end.

Definition consistency_results_ser (x : ConsistencyResults) : Serialized V := SerString "complete".

Definition knn_operator_ser (x : KnnOperator.KnnOperator) : Serialized V :=
  SerString match x with KnnOperator.Or => "or" | KnnOperator.And => "and" end.

Definition highlight_ser (q : Highlight) : SerEntries V :=
  opt_entry "style" highlight_style_ser (Highlight.style q)
  ++ opt_entry "fields" ser_strings (Highlight.fields q).

Definition consistency_ser (q : Consistency) : SerEntries V :=
  opt_entry "level" consistency_level_ser (Consistency.level q)
  ++ opt_entry "results" consistency_results_ser (Consistency.results q)
  ++ opt_entry "vectors" (ser_map (ser_map SerInt)) (Consistency.vectors q).

Definition control_ser (q : Control) : SerEntries V :=
  opt_entry "consistency" (λ c, SerMap (consistency_ser c)) (Control.consistency q)
  ++ opt_entry "timeout" SerInt (Control.timeout q).

Definition knn_query_ser (q : KnnQuery) : SerEntries V :=
  opt_entry "boost" SerF32 (KnnQuery.boost q)
  ++ ser_entry "field" (SerString (KnnQuery.field q))
  ++ ser_entry "k" (SerInt (KnnQuery.k q))
  ++ opt_entry "vector" (λ l, SerSeq (map SerF32 l)) (KnnQuery.vector q)
  ++ opt_entry "vector_base64" SerString (KnnQuery.vector_base64 q)
  ++ opt_entry "filter" query_ser (KnnQuery.filter q).

(** The flattened entries of [raw], beside those of the other options. *)
Definition raw_entries_ser (raw : option (gmap string V)) : SerEntries V :=
  match raw with Some raw => (λ '(k, v), (k, SerValue v)) <$> map_to_list raw | None => [] end.

Definition search_query_options_ser (q : SearchQueryOptions D V) : SerEntries V :=
  opt_entry "collections" ser_strings (SearchQueryOptions.collections q)
  ++ opt_entry "ctl" (λ c, SerMap (control_ser c)) (SearchQueryOptions.control q)
  ++ opt_entry "explain" SerBool (SearchQueryOptions.explain q)
  ++ opt_entry "facets" (ser_map facet_ser) (SearchQueryOptions.facets q)
  ++ opt_entry "fields" ser_strings (SearchQueryOptions.fields q)
  ++ opt_entry "from" SerInt (SearchQueryOptions.from q)
  ++ opt_entry "highlight" (λ h, SerMap (highlight_ser h)) (SearchQueryOptions.highlight q)
  ++ opt_entry "includeLocations" SerBool (SearchQueryOptions.include_locations q)
  ++ opt_entry "query" query_ser (SearchQueryOptions.query q)
  ++ opt_entry "score" SerString (SearchQueryOptions.score q)
  ++ opt_entry "search_after" ser_strings (SearchQueryOptions.search_after q)
  ++ opt_entry "search_before" ser_strings (SearchQueryOptions.search_before q)
  ++ opt_entry "showrequest" SerBool (SearchQueryOptions.show_request q)
  ++ opt_entry "size" SerInt (SearchQueryOptions.size q)
  ++ opt_entry "sort" (λ l, SerSeq (map sort_ser l)) (SearchQueryOptions.sort q)
  ++ opt_entry "knn" (λ l, SerSeq (map (λ q, SerMap (knn_query_ser q)) l)) (SearchQueryOptions.knn q)
  ++ opt_entry "knn_operator" knn_operator_ser (SearchQueryOptions.knn_operator q)
  ++ raw_entries_ser (SearchQueryOptions.raw q).

End Ser.
