(* ===== verification/SearchMgmtOptions.v ===== *)
(** * Search indexes and the options of index management ([searchx/index.rs],
    [searchx/index_json.rs], [searchx/mgmt_options.rs], [options/search_management.rs])

    The definition of an index, as the caller gives it and as it is sent, and the options of the
    operations on indexes, those of the client and those of the agent, with their setters and
    conversions. *)

From S2P Require Import Prelude Wire CoreError Retry CrudOptions Http Json.

(** ** Indexes *)

Module SearchIndex.
Section Fields.
Context {V : Type}.
Record SearchIndex : Type := mk {
  name : string;
  index_type : string;
  params : option (gmap string V);
  plan_params : option (gmap string V);
  prev_index_uuid : option string;
  source_name : option string;
  source_params : option (gmap string V);
  source_type : option string;
  source_uuid : option string;
  uuid : option string;
}.
End Fields.
#[global] Arguments SearchIndex : clear implicits.
End SearchIndex.
Abbreviation SearchIndex := SearchIndex.SearchIndex.
#[global] Instance search_index_settable V : Settable (SearchIndex V) := λ r,
  SearchIndex.mk (SearchIndex.name r) (SearchIndex.index_type r) (SearchIndex.params r) (SearchIndex.plan_params
    r) (SearchIndex.prev_index_uuid r) (SearchIndex.source_name r) (SearchIndex.source_params r)
    (SearchIndex.source_type r) (SearchIndex.source_uuid r) (SearchIndex.uuid r).

Definition search_index_new {V : Type} (name : string) (index_type : string) : SearchIndex V :=
  SearchIndex.mk name index_type None None None None None None None None.

Definition search_index_params {V : Type} (params : option (gmap string V)) (self : SearchIndex V) : SearchIndex
    V :=
  self <| SearchIndex.params := params |>.

Definition search_index_plan_params {V : Type} (plan_params : option (gmap string V))
    (self : SearchIndex V) : SearchIndex V :=
  self <| SearchIndex.plan_params := plan_params |>.

Definition search_index_prev_index_uuid {V : Type} (prev_index_uuid : option string)
    (self : SearchIndex V) : SearchIndex V :=
  self <| SearchIndex.prev_index_uuid := prev_index_uuid |>.

Definition search_index_source_name {V : Type} (source_name : option string) (self : SearchIndex V) :
    SearchIndex V :=
  self <| SearchIndex.source_name := source_name |>.

Definition search_index_source_params {V : Type} (source_params : option (gmap string V))
    (self : SearchIndex V) : SearchIndex V :=
  self <| SearchIndex.source_params := source_params |>.

Definition search_index_source_type {V : Type} (source_type : option string) (self : SearchIndex V) :
    SearchIndex V :=
  self <| SearchIndex.source_type := source_type |>.

Definition search_index_source_uuid {V : Type} (source_uuid : option string) (self : SearchIndex V) :
    SearchIndex V :=
  self <| SearchIndex.source_uuid := source_uuid |>.

Definition search_index_uuid {V : Type} (uuid : option string) (self : SearchIndex V) : SearchIndex V :=
  self <| SearchIndex.uuid := uuid |>.

(** ** The document of an index ([index_json.rs]) *)

Module IndexJson.
Section Fields.
Context {V : Type}.
Record IndexJson : Type := mk {
  name : string;
  index_type : string;
  params : option (gmap string V);
  plan_params : option (gmap string V);
  prev_index_uuid : option string;
  source_name : option string;
  source_params : option (gmap string V);
  source_type : option string;
  source_uuid : option string;
  uuid : option string;
}.
End Fields.
#[global] Arguments IndexJson : clear implicits.
End IndexJson.
Abbreviation IndexJson := IndexJson.IndexJson.

Record SearchIndexResponseJson (V : Type) : Type := mkSearchIndexResponseJson {
  sir_status : string;
  sir_index_def : IndexJson V;
}.
#[global] Arguments mkSearchIndexResponseJson {V}.
#[global] Arguments sir_status {V}.
#[global] Arguments sir_index_def {V}.

Record SearchIndexDefsJson (V : Type) : Type := mkSearchIndexDefsJson {
  sid_impl_version : string;
  sid_index_defs : gmap string (IndexJson V);
}.
#[global] Arguments mkSearchIndexDefsJson {V}.
#[global] Arguments sid_impl_version {V}.
#[global] Arguments sid_index_defs {V}.

Record SearchIndexesResponseJson (V : Type) : Type := mkSearchIndexesResponseJson {
  sis_status : string;
  sis_indexes : SearchIndexDefsJson V;
}.
#[global] Arguments mkSearchIndexesResponseJson {V}.
#[global] Arguments sis_status {V}.
#[global] Arguments sis_indexes {V}.

Definition index_of_json {V : Type} (value : IndexJson V) : SearchIndex V :=
  SearchIndex.mk (IndexJson.name value) (IndexJson.index_type value) (IndexJson.params value)
    (IndexJson.plan_params value) (IndexJson.prev_index_uuid value) (IndexJson.source_name value)
    (IndexJson.source_params value) (IndexJson.source_type value) (IndexJson.source_uuid value)
    (IndexJson.uuid value).

Definition json_of_index {V : Type} (value : SearchIndex V) : IndexJson V :=
  IndexJson.mk (SearchIndex.name value) (SearchIndex.index_type value) (SearchIndex.params value)
    (SearchIndex.plan_params value) (SearchIndex.prev_index_uuid value) (SearchIndex.source_name value)
    (SearchIndex.source_params value) (SearchIndex.source_type value) (SearchIndex.source_uuid value)
    (SearchIndex.uuid value).

(** What an index, and its document, are written as: they differ in one name. *)
Definition index_fields {V : Type} (uuid_name : string) (name index_type : string)
    (params plan_params : option (gmap string V)) (prev_index_uuid source_name : option string)
    (source_params : option (gmap string V)) (source_type source_uuid uuid : option string) : SerEntries V :=
  ser_entry "name" (SerString name)
  ++ ser_entry "type" (SerString index_type)
  ++ opt_entry "params" (ser_map SerValue) params
  ++ opt_entry "planParams" (ser_map SerValue) plan_params
  ++ opt_entry "prevIndexUuid" SerString prev_index_uuid
  ++ opt_entry "sourceName" SerString source_name
  ++ opt_entry "sourceParams" (ser_map SerValue) source_params
  ++ opt_entry "sourceType" SerString source_type
  ++ opt_entry uuid_name SerString source_uuid
  ++ opt_entry "uuid" SerString uuid.

Definition search_index_ser {V : Type} (i : SearchIndex V) : SerEntries V :=
  index_fields "sourceUuid" (SearchIndex.name i) (SearchIndex.index_type i) (SearchIndex.params i)
    (SearchIndex.plan_params i) (SearchIndex.prev_index_uuid i) (SearchIndex.source_name i)
    (SearchIndex.source_params i) (SearchIndex.source_type i) (SearchIndex.source_uuid i) (SearchIndex.uuid i).

Definition index_json_ser {V : Type} (i : IndexJson V) : SerEntries V :=
  index_fields "sourceUUID" (IndexJson.name i) (IndexJson.index_type i) (IndexJson.params i)
    (IndexJson.plan_params i) (IndexJson.prev_index_uuid i) (IndexJson.source_name i) (IndexJson.source_params i)
    (IndexJson.source_type i) (IndexJson.source_uuid i) (IndexJson.uuid i).

Lemma index_json_roundtrip {V : Type} (i : SearchIndex V) : index_of_json (json_of_index i) = i.
Proof. by destruct i. Qed.

(** The source of an index that is sent is under a name the server does not use: the one of its
    documents is [sourceUUID]. *)
Lemma source_uuid_under_another_name {V : Type} (i : SearchIndex V) u :
  SearchIndex.source_uuid i = Some u →
  ser_get "sourceUUID" (search_index_ser i) = None
  ∧ ser_get "sourceUUID" (index_json_ser (json_of_index i)) = Some (SerString u).
Proof.
  destruct i as [n t p pp pu sn sp st su uu]. cbn. intros ->.
  by destruct p, pp, pu, sn, sp, st, uu.
Qed.

(** ** Options of the client ([mgmt_options.rs]) *)

Inductive SearchDesiredState : Type := SearchCreated | SearchDeleted.

Module SearchUpsertIndexOptions.
Section Fields.
Context {V : Type}.
Record SearchUpsertIndexOptions : Type := mk {
  index : SearchIndex V;
  bucket_name : option string;
  scope_name : option string;
  on_behalf_of : option OnBehalfOfInfo;
}.
End Fields.
#[global] Arguments SearchUpsertIndexOptions : clear implicits.
End SearchUpsertIndexOptions.
Abbreviation SearchUpsertIndexOptions := SearchUpsertIndexOptions.SearchUpsertIndexOptions.
#[global] Instance search_upsert_index_options_settable V : Settable (SearchUpsertIndexOptions V) := λ r,
  SearchUpsertIndexOptions.mk (SearchUpsertIndexOptions.index r) (SearchUpsertIndexOptions.bucket_name r)
    (SearchUpsertIndexOptions.scope_name r) (SearchUpsertIndexOptions.on_behalf_of r).

Definition search_upsert_index_options_new {V : Type} (index : SearchIndex V) : SearchUpsertIndexOptions V :=
  SearchUpsertIndexOptions.mk index None None None.

Definition search_upsert_index_options_bucket_name {V : Type} (bucket_name : option string)
    (self : SearchUpsertIndexOptions V) : SearchUpsertIndexOptions V :=
  self <| SearchUpsertIndexOptions.bucket_name := bucket_name |>.

Definition search_upsert_index_options_scope_name {V : Type} (scope_name : option string)
    (self : SearchUpsertIndexOptions V) : SearchUpsertIndexOptions V :=
  self <| SearchUpsertIndexOptions.scope_name := scope_name |>.

Definition search_upsert_index_options_on_behalf_of {V : Type} (on_behalf_of : option OnBehalfOfInfo)
    (self : SearchUpsertIndexOptions V) : SearchUpsertIndexOptions V :=
  self <| SearchUpsertIndexOptions.on_behalf_of := on_behalf_of |>.

Module SearchDeleteIndexOptions.
Record SearchDeleteIndexOptions : Type := mk {
  index_name : string;
  bucket_name : option string;
  scope_name : option string;
  on_behalf_of : option OnBehalfOfInfo;
}.
End SearchDeleteIndexOptions.
Abbreviation SearchDeleteIndexOptions := SearchDeleteIndexOptions.SearchDeleteIndexOptions.
#[global] Instance search_delete_index_options_settable : Settable (SearchDeleteIndexOptions) := λ r,
  SearchDeleteIndexOptions.mk (SearchDeleteIndexOptions.index_name r) (SearchDeleteIndexOptions.bucket_name r)
    (SearchDeleteIndexOptions.scope_name r) (SearchDeleteIndexOptions.on_behalf_of r).

Definition search_delete_index_options_new (index_name : string) : SearchDeleteIndexOptions :=
  SearchDeleteIndexOptions.mk index_name None None None.

Definition search_delete_index_options_bucket_name (bucket_name : option string)
    (self : SearchDeleteIndexOptions) : SearchDeleteIndexOptions :=
  self <| SearchDeleteIndexOptions.bucket_name := bucket_name |>.

Definition search_delete_index_options_scope_name (scope_name : option string)
    (self : SearchDeleteIndexOptions) : SearchDeleteIndexOptions :=
  self <| SearchDeleteIndexOptions.scope_name := scope_name |>.

Definition search_delete_index_options_on_behalf_of (on_behalf_of : option OnBehalfOfInfo)
    (self : SearchDeleteIndexOptions) : SearchDeleteIndexOptions :=
  self <| SearchDeleteIndexOptions.on_behalf_of := on_behalf_of |>.

Module SearchGetIndexOptions.
Record SearchGetIndexOptions : Type := mk {
  index_name : string;
  bucket_name : option string;
  scope_name : option string;
  on_behalf_of : option OnBehalfOfInfo;
}.
End SearchGetIndexOptions.
Abbreviation SearchGetIndexOptions := SearchGetIndexOptions.SearchGetIndexOptions.
#[global] Instance search_get_index_options_settable : Settable (SearchGetIndexOptions) := λ r,
  SearchGetIndexOptions.mk (SearchGetIndexOptions.index_name r) (SearchGetIndexOptions.bucket_name r)
    (SearchGetIndexOptions.scope_name r) (SearchGetIndexOptions.on_behalf_of r).

Definition search_get_index_options_new (index_name : string) : SearchGetIndexOptions :=
  SearchGetIndexOptions.mk index_name None None None.

Definition search_get_index_options_bucket_name (bucket_name : option string)
    (self : SearchGetIndexOptions) : SearchGetIndexOptions :=
  self <| SearchGetIndexOptions.bucket_name := bucket_name |>.

Definition search_get_index_options_scope_name (scope_name : option string)
    (self : SearchGetIndexOptions) : SearchGetIndexOptions :=
  self <| SearchGetIndexOptions.scope_name := scope_name |>.

Definition search_get_index_options_on_behalf_of (on_behalf_of : option OnBehalfOfInfo)
    (self : SearchGetIndexOptions) : SearchGetIndexOptions :=
  self <| SearchGetIndexOptions.on_behalf_of := on_behalf_of |>.

Module SearchGetAllIndexesOptions.
Record SearchGetAllIndexesOptions : Type := mk {
  bucket_name : option string;
  scope_name : option string;
  on_behalf_of : option OnBehalfOfInfo;
}.
End SearchGetAllIndexesOptions.
Abbreviation SearchGetAllIndexesOptions := SearchGetAllIndexesOptions.SearchGetAllIndexesOptions.
#[global] Instance search_get_all_indexes_options_settable : Settable (SearchGetAllIndexesOptions) := λ r,
  SearchGetAllIndexesOptions.mk (SearchGetAllIndexesOptions.bucket_name r)
    (SearchGetAllIndexesOptions.scope_name r) (SearchGetAllIndexesOptions.on_behalf_of r).

Definition search_get_all_indexes_options_new : SearchGetAllIndexesOptions :=
  SearchGetAllIndexesOptions.mk None None None.

Definition search_get_all_indexes_options_bucket_name (bucket_name : option string)
    (self : SearchGetAllIndexesOptions) : SearchGetAllIndexesOptions :=
  self <| SearchGetAllIndexesOptions.bucket_name := bucket_name |>.

Definition search_get_all_indexes_options_scope_name (scope_name : option string)
    (self : SearchGetAllIndexesOptions) : SearchGetAllIndexesOptions :=
  self <| SearchGetAllIndexesOptions.scope_name := scope_name |>.

Definition search_get_all_indexes_options_on_behalf_of (on_behalf_of : option OnBehalfOfInfo)
    (self : SearchGetAllIndexesOptions) : SearchGetAllIndexesOptions :=
  self <| SearchGetAllIndexesOptions.on_behalf_of := on_behalf_of |>.

Module SearchAnalyzeDocumentOptions.
Record SearchAnalyzeDocumentOptions : Type := mk {
  index_name : string;
  doc_content : list Z;
  bucket_name : option string;
  scope_name : option string;
  on_behalf_of : option OnBehalfOfInfo;
}.
End SearchAnalyzeDocumentOptions.
Abbreviation SearchAnalyzeDocumentOptions := SearchAnalyzeDocumentOptions.SearchAnalyzeDocumentOptions.
#[global] Instance search_analyze_document_options_settable : Settable (SearchAnalyzeDocumentOptions) := λ r,
  SearchAnalyzeDocumentOptions.mk (SearchAnalyzeDocumentOptions.index_name r)
    (SearchAnalyzeDocumentOptions.doc_content r) (SearchAnalyzeDocumentOptions.bucket_name r)
    (SearchAnalyzeDocumentOptions.scope_name r) (SearchAnalyzeDocumentOptions.on_behalf_of r).

Definition search_analyze_document_options_new (index_name : string) (doc_content : list Z) :
    SearchAnalyzeDocumentOptions :=
  SearchAnalyzeDocumentOptions.mk index_name doc_content None None None.

Definition search_analyze_document_options_bucket_name (bucket_name : option string)
    (self : SearchAnalyzeDocumentOptions) : SearchAnalyzeDocumentOptions :=
  self <| SearchAnalyzeDocumentOptions.bucket_name := bucket_name |>.

Definition search_analyze_document_options_scope_name (scope_name : option string)
    (self : SearchAnalyzeDocumentOptions) : SearchAnalyzeDocumentOptions :=
  self <| SearchAnalyzeDocumentOptions.scope_name := scope_name |>.

Definition search_analyze_document_options_on_behalf_of (on_behalf_of : option OnBehalfOfInfo)
    (self : SearchAnalyzeDocumentOptions) : SearchAnalyzeDocumentOptions :=
  self <| SearchAnalyzeDocumentOptions.on_behalf_of := on_behalf_of |>.

Module SearchGetIndexedDocumentsCountOptions.
Record SearchGetIndexedDocumentsCountOptions : Type := mk {
  bucket_name : option string;
  scope_name : option string;
  index_name : string;
  on_behalf_of : option OnBehalfOfInfo;
}.
End SearchGetIndexedDocumentsCountOptions.
Abbreviation SearchGetIndexedDocumentsCountOptions :=
    SearchGetIndexedDocumentsCountOptions.SearchGetIndexedDocumentsCountOptions.
#[global] Instance search_get_indexed_documents_count_options_settable : Settable
    (SearchGetIndexedDocumentsCountOptions) := λ r,
  SearchGetIndexedDocumentsCountOptions.mk (SearchGetIndexedDocumentsCountOptions.bucket_name r)
    (SearchGetIndexedDocumentsCountOptions.scope_name r) (SearchGetIndexedDocumentsCountOptions.index_name r)
    (SearchGetIndexedDocumentsCountOptions.on_behalf_of r).

Definition search_get_indexed_documents_count_options_new (index_name : string) :
    SearchGetIndexedDocumentsCountOptions :=
  SearchGetIndexedDocumentsCountOptions.mk None None index_name None.

Definition search_get_indexed_documents_count_options_bucket_name (bucket_name : option string)
    (self : SearchGetIndexedDocumentsCountOptions) : SearchGetIndexedDocumentsCountOptions :=
  self <| SearchGetIndexedDocumentsCountOptions.bucket_name := bucket_name |>.

Definition search_get_indexed_documents_count_options_scope_name (scope_name : option string)
    (self : SearchGetIndexedDocumentsCountOptions) : SearchGetIndexedDocumentsCountOptions :=
  self <| SearchGetIndexedDocumentsCountOptions.scope_name := scope_name |>.

Definition search_get_indexed_documents_count_options_on_behalf_of (on_behalf_of : option OnBehalfOfInfo)
    (self : SearchGetIndexedDocumentsCountOptions) : SearchGetIndexedDocumentsCountOptions :=
  self <| SearchGetIndexedDocumentsCountOptions.on_behalf_of := on_behalf_of |>.

Module SearchPauseIngestOptions.
Record SearchPauseIngestOptions : Type := mk {
  bucket_name : option string;
  scope_name : option string;
  index_name : string;
  on_behalf_of : option OnBehalfOfInfo;
}.
End SearchPauseIngestOptions.
Abbreviation SearchPauseIngestOptions := SearchPauseIngestOptions.SearchPauseIngestOptions.
#[global] Instance search_pause_ingest_options_settable : Settable (SearchPauseIngestOptions) := λ r,
  SearchPauseIngestOptions.mk (SearchPauseIngestOptions.bucket_name r) (SearchPauseIngestOptions.scope_name r)
    (SearchPauseIngestOptions.index_name r) (SearchPauseIngestOptions.on_behalf_of r).

Definition search_pause_ingest_options_new (index_name : string) : SearchPauseIngestOptions :=
  SearchPauseIngestOptions.mk None None index_name None.

Definition search_pause_ingest_options_bucket_name (bucket_name : option string)
    (self : SearchPauseIngestOptions) : SearchPauseIngestOptions :=
  self <| SearchPauseIngestOptions.bucket_name := bucket_name |>.

Definition search_pause_ingest_options_scope_name (scope_name : option string)
    (self : SearchPauseIngestOptions) : SearchPauseIngestOptions :=
  self <| SearchPauseIngestOptions.scope_name := scope_name |>.

Definition search_pause_ingest_options_on_behalf_of (on_behalf_of : option OnBehalfOfInfo)
    (self : SearchPauseIngestOptions) : SearchPauseIngestOptions :=
  self <| SearchPauseIngestOptions.on_behalf_of := on_behalf_of |>.

Module SearchResumeIngestOptions.
Record SearchResumeIngestOptions : Type := mk {
  bucket_name : option string;
  scope_name : option string;
  index_name : string;
  on_behalf_of : option OnBehalfOfInfo;
}.
End SearchResumeIngestOptions.
Abbreviation SearchResumeIngestOptions := SearchResumeIngestOptions.SearchResumeIngestOptions.
#[global] Instance search_resume_ingest_options_settable : Settable (SearchResumeIngestOptions) := λ r,
  SearchResumeIngestOptions.mk (SearchResumeIngestOptions.bucket_name r) (SearchResumeIngestOptions.scope_name
    r) (SearchResumeIngestOptions.index_name r) (SearchResumeIngestOptions.on_behalf_of r).

Definition search_resume_ingest_options_new (index_name : string) : SearchResumeIngestOptions :=
  SearchResumeIngestOptions.mk None None index_name None.

Definition search_resume_ingest_options_bucket_name (bucket_name : option string)
    (self : SearchResumeIngestOptions) : SearchResumeIngestOptions :=
  self <| SearchResumeIngestOptions.bucket_name := bucket_name |>.

Definition search_resume_ingest_options_scope_name (scope_name : option string)
    (self : SearchResumeIngestOptions) : SearchResumeIngestOptions :=
  self <| SearchResumeIngestOptions.scope_name := scope_name |>.

Definition search_resume_ingest_options_on_behalf_of (on_behalf_of : option OnBehalfOfInfo)
    (self : SearchResumeIngestOptions) : SearchResumeIngestOptions :=
  self <| SearchResumeIngestOptions.on_behalf_of := on_behalf_of |>.

Module SearchAllowQueryingOptions.
Record SearchAllowQueryingOptions : Type := mk {
  bucket_name : option string;
  scope_name : option string;
  index_name : string;
  on_behalf_of : option OnBehalfOfInfo;
}.
End SearchAllowQueryingOptions.
Abbreviation SearchAllowQueryingOptions := SearchAllowQueryingOptions.SearchAllowQueryingOptions.
#[global] Instance search_allow_querying_options_settable : Settable (SearchAllowQueryingOptions) := λ r,
  SearchAllowQueryingOptions.mk (SearchAllowQueryingOptions.bucket_name r)
    (SearchAllowQueryingOptions.scope_name r) (SearchAllowQueryingOptions.index_name r)
    (SearchAllowQueryingOptions.on_behalf_of r).

Definition search_allow_querying_options_new (index_name : string) : SearchAllowQueryingOptions :=
  SearchAllowQueryingOptions.mk None None index_name None.

Definition search_allow_querying_options_bucket_name (bucket_name : option string)
    (self : SearchAllowQueryingOptions) : SearchAllowQueryingOptions :=
  self <| SearchAllowQueryingOptions.bucket_name := bucket_name |>.

Definition search_allow_querying_options_scope_name (scope_name : option string)
    (self : SearchAllowQueryingOptions) : SearchAllowQueryingOptions :=
  self <| SearchAllowQueryingOptions.scope_name := scope_name |>.

Definition search_allow_querying_options_on_behalf_of (on_behalf_of : option OnBehalfOfInfo)
    (self : SearchAllowQueryingOptions) : SearchAllowQueryingOptions :=
  self <| SearchAllowQueryingOptions.on_behalf_of := on_behalf_of |>.

Module SearchDisallowQueryingOptions.
Record SearchDisallowQueryingOptions : Type := mk {
  bucket_name : option string;
  scope_name : option string;
  index_name : string;
  on_behalf_of : option OnBehalfOfInfo;
}.
End SearchDisallowQueryingOptions.
Abbreviation SearchDisallowQueryingOptions := SearchDisallowQueryingOptions.SearchDisallowQueryingOptions.
#[global] Instance search_disallow_querying_options_settable : Settable (SearchDisallowQueryingOptions) := λ r,
  SearchDisallowQueryingOptions.mk (SearchDisallowQueryingOptions.bucket_name r)
    (SearchDisallowQueryingOptions.scope_name r) (SearchDisallowQueryingOptions.index_name r)
    (SearchDisallowQueryingOptions.on_behalf_of r).

Definition search_disallow_querying_options_new (index_name : string) : SearchDisallowQueryingOptions :=
  SearchDisallowQueryingOptions.mk None None index_name None.

Definition search_disallow_querying_options_bucket_name (bucket_name : option string)
    (self : SearchDisallowQueryingOptions) : SearchDisallowQueryingOptions :=
  self <| SearchDisallowQueryingOptions.bucket_name := bucket_name |>.

Definition search_disallow_querying_options_scope_name (scope_name : option string)
    (self : SearchDisallowQueryingOptions) : SearchDisallowQueryingOptions :=
  self <| SearchDisallowQueryingOptions.scope_name := scope_name |>.

Definition search_disallow_querying_options_on_behalf_of (on_behalf_of : option OnBehalfOfInfo)
    (self : SearchDisallowQueryingOptions) : SearchDisallowQueryingOptions :=
  self <| SearchDisallowQueryingOptions.on_behalf_of := on_behalf_of |>.

Module SearchFreezePlanOptions.
Record SearchFreezePlanOptions : Type := mk {
  bucket_name : option string;
  scope_name : option string;
  index_name : string;
  on_behalf_of : option OnBehalfOfInfo;
}.
End SearchFreezePlanOptions.
Abbreviation SearchFreezePlanOptions := SearchFreezePlanOptions.SearchFreezePlanOptions.
#[global] Instance search_freeze_plan_options_settable : Settable (SearchFreezePlanOptions) := λ r,
  SearchFreezePlanOptions.mk (SearchFreezePlanOptions.bucket_name r) (SearchFreezePlanOptions.scope_name r)
    (SearchFreezePlanOptions.index_name r) (SearchFreezePlanOptions.on_behalf_of r).

Definition search_freeze_plan_options_new (index_name : string) : SearchFreezePlanOptions :=
  SearchFreezePlanOptions.mk None None index_name None.

Definition search_freeze_plan_options_bucket_name (bucket_name : option string)
    (self : SearchFreezePlanOptions) : SearchFreezePlanOptions :=
  self <| SearchFreezePlanOptions.bucket_name := bucket_name |>.

Definition search_freeze_plan_options_scope_name (scope_name : option string)
    (self : SearchFreezePlanOptions) : SearchFreezePlanOptions :=
  self <| SearchFreezePlanOptions.scope_name := scope_name |>.

Definition search_freeze_plan_options_on_behalf_of (on_behalf_of : option OnBehalfOfInfo)
    (self : SearchFreezePlanOptions) : SearchFreezePlanOptions :=
  self <| SearchFreezePlanOptions.on_behalf_of := on_behalf_of |>.

Module SearchUnfreezePlanOptions.
Record SearchUnfreezePlanOptions : Type := mk {
  bucket_name : option string;
  scope_name : option string;
  index_name : string;
  on_behalf_of : option OnBehalfOfInfo;
}.
End SearchUnfreezePlanOptions.
Abbreviation SearchUnfreezePlanOptions := SearchUnfreezePlanOptions.SearchUnfreezePlanOptions.
#[global] Instance search_unfreeze_plan_options_settable : Settable (SearchUnfreezePlanOptions) := λ r,
  SearchUnfreezePlanOptions.mk (SearchUnfreezePlanOptions.bucket_name r) (SearchUnfreezePlanOptions.scope_name
    r) (SearchUnfreezePlanOptions.index_name r) (SearchUnfreezePlanOptions.on_behalf_of r).

Definition search_unfreeze_plan_options_new (index_name : string) : SearchUnfreezePlanOptions :=
  SearchUnfreezePlanOptions.mk None None index_name None.

Definition search_unfreeze_plan_options_bucket_name (bucket_name : option string)
    (self : SearchUnfreezePlanOptions) : SearchUnfreezePlanOptions :=
  self <| SearchUnfreezePlanOptions.bucket_name := bucket_name |>.

Definition search_unfreeze_plan_options_scope_name (scope_name : option string)
    (self : SearchUnfreezePlanOptions) : SearchUnfreezePlanOptions :=
  self <| SearchUnfreezePlanOptions.scope_name := scope_name |>.

Definition search_unfreeze_plan_options_on_behalf_of (on_behalf_of : option OnBehalfOfInfo)
    (self : SearchUnfreezePlanOptions) : SearchUnfreezePlanOptions :=
  self <| SearchUnfreezePlanOptions.on_behalf_of := on_behalf_of |>.

Module SearchRefreshConfigOptions.
Record SearchRefreshConfigOptions : Type := mk {
  on_behalf_of : option OnBehalfOfInfo;
}.
End SearchRefreshConfigOptions.
Abbreviation SearchRefreshConfigOptions := SearchRefreshConfigOptions.SearchRefreshConfigOptions.
#[global] Instance search_refresh_config_options_settable : Settable (SearchRefreshConfigOptions) := λ r,
  SearchRefreshConfigOptions.mk (SearchRefreshConfigOptions.on_behalf_of r).

Definition search_refresh_config_options_new : SearchRefreshConfigOptions :=
  SearchRefreshConfigOptions.mk None.

Definition search_refresh_config_options_on_behalf_of (on_behalf_of : option OnBehalfOfInfo)
    (self : SearchRefreshConfigOptions) : SearchRefreshConfigOptions :=
  self <| SearchRefreshConfigOptions.on_behalf_of := on_behalf_of |>.

Module SearchPingOptions.
Record SearchPingOptions : Type := mk {
  on_behalf_of : option OnBehalfOfInfo;
}.
End SearchPingOptions.
Abbreviation SearchPingOptions := SearchPingOptions.SearchPingOptions.
#[global] Instance search_ping_options_settable : Settable (SearchPingOptions) := λ r,
  SearchPingOptions.mk (SearchPingOptions.on_behalf_of r).

Definition search_ping_options_new : SearchPingOptions :=
  SearchPingOptions.mk None.

Definition search_ping_options_on_behalf_of (on_behalf_of : option OnBehalfOfInfo)
    (self : SearchPingOptions) : SearchPingOptions :=
  self <| SearchPingOptions.on_behalf_of := on_behalf_of |>.

(** ** Options of the agent ([options/search_management.rs]) *)

Module CoreSearchGetIndexOptions.
Section Fields.
Context {T : Type}.
Record CoreSearchGetIndexOptions : Type := mk {
  index_name : string;
  bucket_name : option string;
  scope_name : option string;
  on_behalf_of : option OnBehalfOfInfo;
  retry_strategy : T;
  endpoint : option string;
}.
End Fields.
#[global] Arguments CoreSearchGetIndexOptions : clear implicits.
End CoreSearchGetIndexOptions.
Abbreviation CoreSearchGetIndexOptions := CoreSearchGetIndexOptions.CoreSearchGetIndexOptions.
#[global] Instance core_search_get_index_options_settable T : Settable (CoreSearchGetIndexOptions T) := λ r,
  CoreSearchGetIndexOptions.mk (CoreSearchGetIndexOptions.index_name r) (CoreSearchGetIndexOptions.bucket_name
    r) (CoreSearchGetIndexOptions.scope_name r) (CoreSearchGetIndexOptions.on_behalf_of r)
    (CoreSearchGetIndexOptions.retry_strategy r) (CoreSearchGetIndexOptions.endpoint r).

Definition core_search_get_index_options_new (index_name : string) : CoreSearchGetIndexOptions
    FailFastRetryStrategy :=
  CoreSearchGetIndexOptions.mk index_name None None None DEFAULT_RETRY_STRATEGY None.

Definition core_search_get_index_options_bucket_name {T : Type} (bucket_name : string)
    (self : CoreSearchGetIndexOptions T) : CoreSearchGetIndexOptions T :=
  self <| CoreSearchGetIndexOptions.bucket_name := Some bucket_name |>.

Definition core_search_get_index_options_scope_name {T : Type} (scope_name : string)
    (self : CoreSearchGetIndexOptions T) : CoreSearchGetIndexOptions T :=
  self <| CoreSearchGetIndexOptions.scope_name := Some scope_name |>.

Definition core_search_get_index_options_retry_strategy {T T' : Type} (retry_strategy : T')
    (self : CoreSearchGetIndexOptions T) : CoreSearchGetIndexOptions T' :=
  CoreSearchGetIndexOptions.mk (CoreSearchGetIndexOptions.index_name self)
    (CoreSearchGetIndexOptions.bucket_name self) (CoreSearchGetIndexOptions.scope_name self)
    (CoreSearchGetIndexOptions.on_behalf_of self) retry_strategy (CoreSearchGetIndexOptions.endpoint self).

Definition core_search_get_index_options_endpoint {T : Type} (endpoint : string)
    (self : CoreSearchGetIndexOptions T) : CoreSearchGetIndexOptions T :=
  self <| CoreSearchGetIndexOptions.endpoint := Some endpoint |>.

Definition core_search_get_index_options_into {T : Type} (opts : CoreSearchGetIndexOptions T) :
    SearchGetIndexOptions :=
  SearchGetIndexOptions.mk (CoreSearchGetIndexOptions.index_name opts) (CoreSearchGetIndexOptions.bucket_name
    opts) (CoreSearchGetIndexOptions.scope_name opts) (CoreSearchGetIndexOptions.on_behalf_of opts).

Module CoreSearchGetAllIndexesOptions.
Section Fields.
Context {T : Type}.
Record CoreSearchGetAllIndexesOptions : Type := mk {
  bucket_name : option string;
  scope_name : option string;
  on_behalf_of : option OnBehalfOfInfo;
  retry_strategy : T;
  endpoint : option string;
}.
End Fields.
#[global] Arguments CoreSearchGetAllIndexesOptions : clear implicits.
End CoreSearchGetAllIndexesOptions.
Abbreviation CoreSearchGetAllIndexesOptions := CoreSearchGetAllIndexesOptions.CoreSearchGetAllIndexesOptions.
#[global] Instance core_search_get_all_indexes_options_settable T : Settable (CoreSearchGetAllIndexesOptions T)
    := λ r,
  CoreSearchGetAllIndexesOptions.mk (CoreSearchGetAllIndexesOptions.bucket_name r)
    (CoreSearchGetAllIndexesOptions.scope_name r) (CoreSearchGetAllIndexesOptions.on_behalf_of r)
    (CoreSearchGetAllIndexesOptions.retry_strategy r) (CoreSearchGetAllIndexesOptions.endpoint r).

Definition core_search_get_all_indexes_options_new : CoreSearchGetAllIndexesOptions FailFastRetryStrategy :=
  CoreSearchGetAllIndexesOptions.mk None None None DEFAULT_RETRY_STRATEGY None.

Definition core_search_get_all_indexes_options_bucket_name {T : Type} (bucket_name : string)
    (self : CoreSearchGetAllIndexesOptions T) : CoreSearchGetAllIndexesOptions T :=
  self <| CoreSearchGetAllIndexesOptions.bucket_name := Some bucket_name |>.

Definition core_search_get_all_indexes_options_scope_name {T : Type} (scope_name : string)
    (self : CoreSearchGetAllIndexesOptions T) : CoreSearchGetAllIndexesOptions T :=
  self <| CoreSearchGetAllIndexesOptions.scope_name := Some scope_name |>.

Definition core_search_get_all_indexes_options_retry_strategy {T T' : Type} (retry_strategy : T')
    (self : CoreSearchGetAllIndexesOptions T) : CoreSearchGetAllIndexesOptions T' :=
  CoreSearchGetAllIndexesOptions.mk (CoreSearchGetAllIndexesOptions.bucket_name self)
    (CoreSearchGetAllIndexesOptions.scope_name self) (CoreSearchGetAllIndexesOptions.on_behalf_of self)
    retry_strategy (CoreSearchGetAllIndexesOptions.endpoint self).

Definition core_search_get_all_indexes_options_endpoint {T : Type} (endpoint : string)
    (self : CoreSearchGetAllIndexesOptions T) : CoreSearchGetAllIndexesOptions T :=
  self <| CoreSearchGetAllIndexesOptions.endpoint := Some endpoint |>.

Definition core_search_get_all_indexes_options_into {T : Type} (opts : CoreSearchGetAllIndexesOptions T) :
    SearchGetAllIndexesOptions :=
  SearchGetAllIndexesOptions.mk (CoreSearchGetAllIndexesOptions.bucket_name opts)
    (CoreSearchGetAllIndexesOptions.scope_name opts) (CoreSearchGetAllIndexesOptions.on_behalf_of opts).

Module CoreSearchUpsertIndexOptions.
Section Fields.
Context {T V : Type}.
Record CoreSearchUpsertIndexOptions : Type := mk {
  index : SearchIndex V;
  bucket_name : option string;
  scope_name : option string;
  retry_strategy : T;
  endpoint : option string;
  on_behalf_of : option OnBehalfOfInfo;
}.
End Fields.
#[global] Arguments CoreSearchUpsertIndexOptions : clear implicits.
End CoreSearchUpsertIndexOptions.
Abbreviation CoreSearchUpsertIndexOptions := CoreSearchUpsertIndexOptions.CoreSearchUpsertIndexOptions.
#[global] Instance core_search_upsert_index_options_settable T V : Settable (CoreSearchUpsertIndexOptions T V)
    := λ r,
  CoreSearchUpsertIndexOptions.mk (CoreSearchUpsertIndexOptions.index r)
    (CoreSearchUpsertIndexOptions.bucket_name r) (CoreSearchUpsertIndexOptions.scope_name r)
    (CoreSearchUpsertIndexOptions.retry_strategy r) (CoreSearchUpsertIndexOptions.endpoint r)
    (CoreSearchUpsertIndexOptions.on_behalf_of r).

Definition core_search_upsert_index_options_new {V : Type} (index : SearchIndex V) :
    CoreSearchUpsertIndexOptions FailFastRetryStrategy V :=
  CoreSearchUpsertIndexOptions.mk index None None DEFAULT_RETRY_STRATEGY None None.

Definition core_search_upsert_index_options_bucket_name {T V : Type} (bucket_name : string)
    (self : CoreSearchUpsertIndexOptions T V) : CoreSearchUpsertIndexOptions T V :=
  self <| CoreSearchUpsertIndexOptions.bucket_name := Some bucket_name |>.

Definition core_search_upsert_index_options_scope_name {T V : Type} (scope_name : string)
    (self : CoreSearchUpsertIndexOptions T V) : CoreSearchUpsertIndexOptions T V :=
  self <| CoreSearchUpsertIndexOptions.scope_name := Some scope_name |>.

Definition core_search_upsert_index_options_retry_strategy {T T' V : Type} (retry_strategy : T')
    (self : CoreSearchUpsertIndexOptions T V) : CoreSearchUpsertIndexOptions T' V :=
  CoreSearchUpsertIndexOptions.mk (CoreSearchUpsertIndexOptions.index self)
    (CoreSearchUpsertIndexOptions.bucket_name self) (CoreSearchUpsertIndexOptions.scope_name self)
    retry_strategy (CoreSearchUpsertIndexOptions.endpoint self) (CoreSearchUpsertIndexOptions.on_behalf_of
    self).

Definition core_search_upsert_index_options_endpoint {T V : Type} (endpoint : string)
    (self : CoreSearchUpsertIndexOptions T V) : CoreSearchUpsertIndexOptions T V :=
  self <| CoreSearchUpsertIndexOptions.endpoint := Some endpoint |>.

Definition core_search_upsert_index_options_on_behalf_of {T V : Type} (on_behalf_of : OnBehalfOfInfo)
    (self : CoreSearchUpsertIndexOptions T V) : CoreSearchUpsertIndexOptions T V :=
  self <| CoreSearchUpsertIndexOptions.on_behalf_of := Some on_behalf_of |>.

Definition core_search_upsert_index_options_into {T V : Type} (opts : CoreSearchUpsertIndexOptions T V) :
    SearchUpsertIndexOptions V :=
  SearchUpsertIndexOptions.mk (CoreSearchUpsertIndexOptions.index opts)
    (CoreSearchUpsertIndexOptions.bucket_name opts) (CoreSearchUpsertIndexOptions.scope_name opts)
    (CoreSearchUpsertIndexOptions.on_behalf_of opts).

Module CoreSearchDeleteIndexOptions.
Section Fields.
Context {T : Type}.
Record CoreSearchDeleteIndexOptions : Type := mk {
  index_name : string;
  bucket_name : option string;
  scope_name : option string;
  retry_strategy : T;
  endpoint : option string;
  on_behalf_of : option OnBehalfOfInfo;
}.
End Fields.
#[global] Arguments CoreSearchDeleteIndexOptions : clear implicits.
End CoreSearchDeleteIndexOptions.
Abbreviation CoreSearchDeleteIndexOptions := CoreSearchDeleteIndexOptions.CoreSearchDeleteIndexOptions.
#[global] Instance core_search_delete_index_options_settable T : Settable (CoreSearchDeleteIndexOptions T) := λ r,
  CoreSearchDeleteIndexOptions.mk (CoreSearchDeleteIndexOptions.index_name r)
    (CoreSearchDeleteIndexOptions.bucket_name r) (CoreSearchDeleteIndexOptions.scope_name r)
    (CoreSearchDeleteIndexOptions.retry_strategy r) (CoreSearchDeleteIndexOptions.endpoint r)
    (CoreSearchDeleteIndexOptions.on_behalf_of r).

Definition core_search_delete_index_options_new (index_name : string) : CoreSearchDeleteIndexOptions
    FailFastRetryStrategy :=
  CoreSearchDeleteIndexOptions.mk index_name None None DEFAULT_RETRY_STRATEGY None None.

Definition core_search_delete_index_options_bucket_name {T : Type} (bucket_name : string)
    (self : CoreSearchDeleteIndexOptions T) : CoreSearchDeleteIndexOptions T :=
  self <| CoreSearchDeleteIndexOptions.bucket_name := Some bucket_name |>.

Definition core_search_delete_index_options_scope_name {T : Type} (scope_name : string)
    (self : CoreSearchDeleteIndexOptions T) : CoreSearchDeleteIndexOptions T :=
  self <| CoreSearchDeleteIndexOptions.scope_name := Some scope_name |>.

Definition core_search_delete_index_options_retry_strategy {T T' : Type} (retry_strategy : T')
    (self : CoreSearchDeleteIndexOptions T) : CoreSearchDeleteIndexOptions T' :=
  CoreSearchDeleteIndexOptions.mk (CoreSearchDeleteIndexOptions.index_name self)
    (CoreSearchDeleteIndexOptions.bucket_name self) (CoreSearchDeleteIndexOptions.scope_name self)
    retry_strategy (CoreSearchDeleteIndexOptions.endpoint self) (CoreSearchDeleteIndexOptions.on_behalf_of
    self).

Definition core_search_delete_index_options_endpoint {T : Type} (endpoint : string)
    (self : CoreSearchDeleteIndexOptions T) : CoreSearchDeleteIndexOptions T :=
  self <| CoreSearchDeleteIndexOptions.endpoint := Some endpoint |>.

Definition core_search_delete_index_options_on_behalf_of {T : Type} (on_behalf_of : OnBehalfOfInfo)
    (self : CoreSearchDeleteIndexOptions T) : CoreSearchDeleteIndexOptions T :=
  self <| CoreSearchDeleteIndexOptions.on_behalf_of := Some on_behalf_of |>.

Definition core_search_delete_index_options_into {T : Type} (opts : CoreSearchDeleteIndexOptions T) :
    SearchDeleteIndexOptions :=
  SearchDeleteIndexOptions.mk (CoreSearchDeleteIndexOptions.index_name opts)
    (CoreSearchDeleteIndexOptions.bucket_name opts) (CoreSearchDeleteIndexOptions.scope_name opts)
    (CoreSearchDeleteIndexOptions.on_behalf_of opts).

Module CoreSearchAnalyzeDocumentOptions.
Section Fields.
Context {T : Type}.
Record CoreSearchAnalyzeDocumentOptions : Type := mk {
  index_name : string;
  doc_content : list Z;
  bucket_name : option string;
  scope_name : option string;
  retry_strategy : T;
  endpoint : option string;
  on_behalf_of : option OnBehalfOfInfo;
}.
End Fields.
#[global] Arguments CoreSearchAnalyzeDocumentOptions : clear implicits.
End CoreSearchAnalyzeDocumentOptions.
Abbreviation CoreSearchAnalyzeDocumentOptions := CoreSearchAnalyzeDocumentOptions.CoreSearchAnalyzeDocumentOptions.
#[global] Instance core_search_analyze_document_options_settable T : Settable (CoreSearchAnalyzeDocumentOptions
    T) := λ r,
  CoreSearchAnalyzeDocumentOptions.mk (CoreSearchAnalyzeDocumentOptions.index_name r)
    (CoreSearchAnalyzeDocumentOptions.doc_content r) (CoreSearchAnalyzeDocumentOptions.bucket_name r)
    (CoreSearchAnalyzeDocumentOptions.scope_name r) (CoreSearchAnalyzeDocumentOptions.retry_strategy r)
    (CoreSearchAnalyzeDocumentOptions.endpoint r) (CoreSearchAnalyzeDocumentOptions.on_behalf_of r).

Definition core_search_analyze_document_options_new (index_name : string) (doc_content : list Z) :
    CoreSearchAnalyzeDocumentOptions FailFastRetryStrategy :=
  CoreSearchAnalyzeDocumentOptions.mk index_name doc_content None None DEFAULT_RETRY_STRATEGY None None.

Definition core_search_analyze_document_options_bucket_name {T : Type} (bucket_name : string)
    (self : CoreSearchAnalyzeDocumentOptions T) : CoreSearchAnalyzeDocumentOptions T :=
  self <| CoreSearchAnalyzeDocumentOptions.bucket_name := Some bucket_name |>.

Definition core_search_analyze_document_options_scope_name {T : Type} (scope_name : string)
    (self : CoreSearchAnalyzeDocumentOptions T) : CoreSearchAnalyzeDocumentOptions T :=
  self <| CoreSearchAnalyzeDocumentOptions.scope_name := Some scope_name |>.

Definition core_search_analyze_document_options_retry_strategy {T T' : Type} (retry_strategy : T')
    (self : CoreSearchAnalyzeDocumentOptions T) : CoreSearchAnalyzeDocumentOptions T' :=
  CoreSearchAnalyzeDocumentOptions.mk (CoreSearchAnalyzeDocumentOptions.index_name self)
    (CoreSearchAnalyzeDocumentOptions.doc_content self) (CoreSearchAnalyzeDocumentOptions.bucket_name self)
    (CoreSearchAnalyzeDocumentOptions.scope_name self) retry_strategy (CoreSearchAnalyzeDocumentOptions.endpoint
    self) (CoreSearchAnalyzeDocumentOptions.on_behalf_of self).

Definition core_search_analyze_document_options_endpoint {T : Type} (endpoint : string)
    (self : CoreSearchAnalyzeDocumentOptions T) : CoreSearchAnalyzeDocumentOptions T :=
  self <| CoreSearchAnalyzeDocumentOptions.endpoint := Some endpoint |>.

Definition core_search_analyze_document_options_on_behalf_of {T : Type} (on_behalf_of : OnBehalfOfInfo)
    (self : CoreSearchAnalyzeDocumentOptions T) : CoreSearchAnalyzeDocumentOptions T :=
  self <| CoreSearchAnalyzeDocumentOptions.on_behalf_of := Some on_behalf_of |>.

Definition core_search_analyze_document_options_into {T : Type} (opts : CoreSearchAnalyzeDocumentOptions T) :
    SearchAnalyzeDocumentOptions :=
  SearchAnalyzeDocumentOptions.mk (CoreSearchAnalyzeDocumentOptions.index_name opts)
    (CoreSearchAnalyzeDocumentOptions.doc_content opts) (CoreSearchAnalyzeDocumentOptions.bucket_name opts)
    (CoreSearchAnalyzeDocumentOptions.scope_name opts) (CoreSearchAnalyzeDocumentOptions.on_behalf_of opts).

Module CoreSearchGetIndexedDocumentsCountOptions.
Section Fields.
Context {T : Type}.
Record CoreSearchGetIndexedDocumentsCountOptions : Type := mk {
  index_name : string;
  bucket_name : option string;
  scope_name : option string;
  retry_strategy : T;
  endpoint : option string;
  on_behalf_of : option OnBehalfOfInfo;
}.
End Fields.
#[global] Arguments CoreSearchGetIndexedDocumentsCountOptions : clear implicits.
End CoreSearchGetIndexedDocumentsCountOptions.
Abbreviation CoreSearchGetIndexedDocumentsCountOptions :=
    CoreSearchGetIndexedDocumentsCountOptions.CoreSearchGetIndexedDocumentsCountOptions.
#[global] Instance core_search_get_indexed_documents_count_options_settable T : Settable
    (CoreSearchGetIndexedDocumentsCountOptions T) := λ r,
  CoreSearchGetIndexedDocumentsCountOptions.mk (CoreSearchGetIndexedDocumentsCountOptions.index_name r)
    (CoreSearchGetIndexedDocumentsCountOptions.bucket_name r)
    (CoreSearchGetIndexedDocumentsCountOptions.scope_name r)
    (CoreSearchGetIndexedDocumentsCountOptions.retry_strategy r)
    (CoreSearchGetIndexedDocumentsCountOptions.endpoint r)
    (CoreSearchGetIndexedDocumentsCountOptions.on_behalf_of r).

Definition core_search_get_indexed_documents_count_options_new (index_name : string) :
    CoreSearchGetIndexedDocumentsCountOptions FailFastRetryStrategy :=
  CoreSearchGetIndexedDocumentsCountOptions.mk index_name None None DEFAULT_RETRY_STRATEGY None None.

Definition core_search_get_indexed_documents_count_options_bucket_name {T : Type} (bucket_name : string)
    (self : CoreSearchGetIndexedDocumentsCountOptions T) : CoreSearchGetIndexedDocumentsCountOptions T :=
  self <| CoreSearchGetIndexedDocumentsCountOptions.bucket_name := Some bucket_name |>.

Definition core_search_get_indexed_documents_count_options_scope_name {T : Type} (scope_name : string)
    (self : CoreSearchGetIndexedDocumentsCountOptions T) : CoreSearchGetIndexedDocumentsCountOptions T :=
  self <| CoreSearchGetIndexedDocumentsCountOptions.scope_name := Some scope_name |>.

Definition core_search_get_indexed_documents_count_options_retry_strategy {T T' : Type} (retry_strategy : T')
    (self : CoreSearchGetIndexedDocumentsCountOptions T) : CoreSearchGetIndexedDocumentsCountOptions T' :=
  CoreSearchGetIndexedDocumentsCountOptions.mk (CoreSearchGetIndexedDocumentsCountOptions.index_name self)
    (CoreSearchGetIndexedDocumentsCountOptions.bucket_name self)
    (CoreSearchGetIndexedDocumentsCountOptions.scope_name self) retry_strategy
    (CoreSearchGetIndexedDocumentsCountOptions.endpoint self)
    (CoreSearchGetIndexedDocumentsCountOptions.on_behalf_of self).

Definition core_search_get_indexed_documents_count_options_endpoint {T : Type} (endpoint : string)
    (self : CoreSearchGetIndexedDocumentsCountOptions T) : CoreSearchGetIndexedDocumentsCountOptions T :=
  self <| CoreSearchGetIndexedDocumentsCountOptions.endpoint := Some endpoint |>.

Definition core_search_get_indexed_documents_count_options_on_behalf_of {T : Type} (on_behalf_of : OnBehalfOfInfo)
    (self : CoreSearchGetIndexedDocumentsCountOptions T) : CoreSearchGetIndexedDocumentsCountOptions T :=
  self <| CoreSearchGetIndexedDocumentsCountOptions.on_behalf_of := Some on_behalf_of |>.

Definition core_search_get_indexed_documents_count_options_into {T : Type}
    (opts : CoreSearchGetIndexedDocumentsCountOptions T) : SearchGetIndexedDocumentsCountOptions :=
  SearchGetIndexedDocumentsCountOptions.mk (CoreSearchGetIndexedDocumentsCountOptions.bucket_name opts)
    (CoreSearchGetIndexedDocumentsCountOptions.scope_name opts)
    (CoreSearchGetIndexedDocumentsCountOptions.index_name opts)
    (CoreSearchGetIndexedDocumentsCountOptions.on_behalf_of opts).

Module CoreSearchPauseIngestOptions.
Section Fields.
Context {T : Type}.
Record CoreSearchPauseIngestOptions : Type := mk {
  index_name : string;
  bucket_name : option string;
  scope_name : option string;
  retry_strategy : T;
  endpoint : option string;
  on_behalf_of : option OnBehalfOfInfo;
}.
End Fields.
#[global] Arguments CoreSearchPauseIngestOptions : clear implicits.
End CoreSearchPauseIngestOptions.
Abbreviation CoreSearchPauseIngestOptions := CoreSearchPauseIngestOptions.CoreSearchPauseIngestOptions.
#[global] Instance core_search_pause_ingest_options_settable T : Settable (CoreSearchPauseIngestOptions T) := λ r,
  CoreSearchPauseIngestOptions.mk (CoreSearchPauseIngestOptions.index_name r)
    (CoreSearchPauseIngestOptions.bucket_name r) (CoreSearchPauseIngestOptions.scope_name r)
    (CoreSearchPauseIngestOptions.retry_strategy r) (CoreSearchPauseIngestOptions.endpoint r)
    (CoreSearchPauseIngestOptions.on_behalf_of r).

Definition core_search_pause_ingest_options_new (index_name : string) : CoreSearchPauseIngestOptions
    FailFastRetryStrategy :=
  CoreSearchPauseIngestOptions.mk index_name None None DEFAULT_RETRY_STRATEGY None None.

Definition core_search_pause_ingest_options_bucket_name {T : Type} (bucket_name : string)
    (self : CoreSearchPauseIngestOptions T) : CoreSearchPauseIngestOptions T :=
  self <| CoreSearchPauseIngestOptions.bucket_name := Some bucket_name |>.

Definition core_search_pause_ingest_options_scope_name {T : Type} (scope_name : string)
    (self : CoreSearchPauseIngestOptions T) : CoreSearchPauseIngestOptions T :=
  self <| CoreSearchPauseIngestOptions.scope_name := Some scope_name |>.

Definition core_search_pause_ingest_options_retry_strategy {T T' : Type} (retry_strategy : T')
    (self : CoreSearchPauseIngestOptions T) : CoreSearchPauseIngestOptions T' :=
  CoreSearchPauseIngestOptions.mk (CoreSearchPauseIngestOptions.index_name self)
    (CoreSearchPauseIngestOptions.bucket_name self) (CoreSearchPauseIngestOptions.scope_name self)
    retry_strategy (CoreSearchPauseIngestOptions.endpoint self) (CoreSearchPauseIngestOptions.on_behalf_of
    self).

Definition core_search_pause_ingest_options_endpoint {T : Type} (endpoint : string)
    (self : CoreSearchPauseIngestOptions T) : CoreSearchPauseIngestOptions T :=
  self <| CoreSearchPauseIngestOptions.endpoint := Some endpoint |>.

Definition core_search_pause_ingest_options_on_behalf_of {T : Type} (on_behalf_of : OnBehalfOfInfo)
    (self : CoreSearchPauseIngestOptions T) : CoreSearchPauseIngestOptions T :=
  self <| CoreSearchPauseIngestOptions.on_behalf_of := Some on_behalf_of |>.

Definition core_search_pause_ingest_options_into {T : Type} (opts : CoreSearchPauseIngestOptions T) :
    SearchPauseIngestOptions :=
  SearchPauseIngestOptions.mk (CoreSearchPauseIngestOptions.bucket_name opts)
    (CoreSearchPauseIngestOptions.scope_name opts) (CoreSearchPauseIngestOptions.index_name opts)
    (CoreSearchPauseIngestOptions.on_behalf_of opts).

Module CoreSearchResumeIngestOptions.
Section Fields.
Context {T : Type}.
Record CoreSearchResumeIngestOptions : Type := mk {
  index_name : string;
  bucket_name : option string;
  scope_name : option string;
  retry_strategy : T;
  endpoint : option string;
  on_behalf_of : option OnBehalfOfInfo;
}.
End Fields.
#[global] Arguments CoreSearchResumeIngestOptions : clear implicits.
End CoreSearchResumeIngestOptions.
Abbreviation CoreSearchResumeIngestOptions := CoreSearchResumeIngestOptions.CoreSearchResumeIngestOptions.
#[global] Instance core_search_resume_ingest_options_settable T : Settable (CoreSearchResumeIngestOptions T) := λ r,
  CoreSearchResumeIngestOptions.mk (CoreSearchResumeIngestOptions.index_name r)
    (CoreSearchResumeIngestOptions.bucket_name r) (CoreSearchResumeIngestOptions.scope_name r)
    (CoreSearchResumeIngestOptions.retry_strategy r) (CoreSearchResumeIngestOptions.endpoint r)
    (CoreSearchResumeIngestOptions.on_behalf_of r).

Definition core_search_resume_ingest_options_new (index_name : string) : CoreSearchResumeIngestOptions
    FailFastRetryStrategy :=
  CoreSearchResumeIngestOptions.mk index_name None None DEFAULT_RETRY_STRATEGY None None.

Definition core_search_resume_ingest_options_bucket_name {T : Type} (bucket_name : string)
    (self : CoreSearchResumeIngestOptions T) : CoreSearchResumeIngestOptions T :=
  self <| CoreSearchResumeIngestOptions.bucket_name := Some bucket_name |>.

Definition core_search_resume_ingest_options_scope_name {T : Type} (scope_name : string)
    (self : CoreSearchResumeIngestOptions T) : CoreSearchResumeIngestOptions T :=
  self <| CoreSearchResumeIngestOptions.scope_name := Some scope_name |>.

Definition core_search_resume_ingest_options_retry_strategy {T T' : Type} (retry_strategy : T')
    (self : CoreSearchResumeIngestOptions T) : CoreSearchResumeIngestOptions T' :=
  CoreSearchResumeIngestOptions.mk (CoreSearchResumeIngestOptions.index_name self)
    (CoreSearchResumeIngestOptions.bucket_name self) (CoreSearchResumeIngestOptions.scope_name self)
    retry_strategy (CoreSearchResumeIngestOptions.endpoint self) (CoreSearchResumeIngestOptions.on_behalf_of
    self).

Definition core_search_resume_ingest_options_endpoint {T : Type} (endpoint : string)
    (self : CoreSearchResumeIngestOptions T) : CoreSearchResumeIngestOptions T :=
  self <| CoreSearchResumeIngestOptions.endpoint := Some endpoint |>.

Definition core_search_resume_ingest_options_on_behalf_of {T : Type} (on_behalf_of : OnBehalfOfInfo)
    (self : CoreSearchResumeIngestOptions T) : CoreSearchResumeIngestOptions T :=
  self <| CoreSearchResumeIngestOptions.on_behalf_of := Some on_behalf_of |>.

Definition core_search_resume_ingest_options_into {T : Type} (opts : CoreSearchResumeIngestOptions T) :
    SearchResumeIngestOptions :=
  SearchResumeIngestOptions.mk (CoreSearchResumeIngestOptions.bucket_name opts)
    (CoreSearchResumeIngestOptions.scope_name opts) (CoreSearchResumeIngestOptions.index_name opts)
    (CoreSearchResumeIngestOptions.on_behalf_of opts).

Module CoreSearchAllowQueryingOptions.
Section Fields.
Context {T : Type}.
Record CoreSearchAllowQueryingOptions : Type := mk {
  index_name : string;
  bucket_name : option string;
  scope_name : option string;
  retry_strategy : T;
  endpoint : option string;
  on_behalf_of : option OnBehalfOfInfo;
}.
End Fields.
#[global] Arguments CoreSearchAllowQueryingOptions : clear implicits.
End CoreSearchAllowQueryingOptions.
Abbreviation CoreSearchAllowQueryingOptions := CoreSearchAllowQueryingOptions.CoreSearchAllowQueryingOptions.
#[global] Instance core_search_allow_querying_options_settable T : Settable (CoreSearchAllowQueryingOptions T)
    := λ r,
  CoreSearchAllowQueryingOptions.mk (CoreSearchAllowQueryingOptions.index_name r)
    (CoreSearchAllowQueryingOptions.bucket_name r) (CoreSearchAllowQueryingOptions.scope_name r)
    (CoreSearchAllowQueryingOptions.retry_strategy r) (CoreSearchAllowQueryingOptions.endpoint r)
    (CoreSearchAllowQueryingOptions.on_behalf_of r).

Definition core_search_allow_querying_options_new (index_name : string) : CoreSearchAllowQueryingOptions
    FailFastRetryStrategy :=
  CoreSearchAllowQueryingOptions.mk index_name None None DEFAULT_RETRY_STRATEGY None None.

Definition core_search_allow_querying_options_bucket_name {T : Type} (bucket_name : string)
    (self : CoreSearchAllowQueryingOptions T) : CoreSearchAllowQueryingOptions T :=
  self <| CoreSearchAllowQueryingOptions.bucket_name := Some bucket_name |>.

Definition core_search_allow_querying_options_scope_name {T : Type} (scope_name : string)
    (self : CoreSearchAllowQueryingOptions T) : CoreSearchAllowQueryingOptions T :=
  self <| CoreSearchAllowQueryingOptions.scope_name := Some scope_name |>.

Definition core_search_allow_querying_options_retry_strategy {T T' : Type} (retry_strategy : T')
    (self : CoreSearchAllowQueryingOptions T) : CoreSearchAllowQueryingOptions T' :=
  CoreSearchAllowQueryingOptions.mk (CoreSearchAllowQueryingOptions.index_name self)
    (CoreSearchAllowQueryingOptions.bucket_name self) (CoreSearchAllowQueryingOptions.scope_name self)
    retry_strategy (CoreSearchAllowQueryingOptions.endpoint self) (CoreSearchAllowQueryingOptions.on_behalf_of
    self).

Definition core_search_allow_querying_options_endpoint {T : Type} (endpoint : string)
    (self : CoreSearchAllowQueryingOptions T) : CoreSearchAllowQueryingOptions T :=
  self <| CoreSearchAllowQueryingOptions.endpoint := Some endpoint |>.

Definition core_search_allow_querying_options_on_behalf_of {T : Type} (on_behalf_of : OnBehalfOfInfo)
    (self : CoreSearchAllowQueryingOptions T) : CoreSearchAllowQueryingOptions T :=
  self <| CoreSearchAllowQueryingOptions.on_behalf_of := Some on_behalf_of |>.

Definition core_search_allow_querying_options_into {T : Type} (opts : CoreSearchAllowQueryingOptions T) :
    SearchAllowQueryingOptions :=
  SearchAllowQueryingOptions.mk (CoreSearchAllowQueryingOptions.bucket_name opts)
    (CoreSearchAllowQueryingOptions.scope_name opts) (CoreSearchAllowQueryingOptions.index_name opts)
    (CoreSearchAllowQueryingOptions.on_behalf_of opts).

Module CoreSearchDisallowQueryingOptions.
Section Fields.
Context {T : Type}.
Record CoreSearchDisallowQueryingOptions : Type := mk {
  index_name : string;
  bucket_name : option string;
  scope_name : option string;
  retry_strategy : T;
  endpoint : option string;
  on_behalf_of : option OnBehalfOfInfo;
}.
End Fields.
#[global] Arguments CoreSearchDisallowQueryingOptions : clear implicits.
End CoreSearchDisallowQueryingOptions.
Abbreviation CoreSearchDisallowQueryingOptions :=
    CoreSearchDisallowQueryingOptions.CoreSearchDisallowQueryingOptions.
#[global] Instance core_search_disallow_querying_options_settable T : Settable
    (CoreSearchDisallowQueryingOptions T) := λ r,
  CoreSearchDisallowQueryingOptions.mk (CoreSearchDisallowQueryingOptions.index_name r)
    (CoreSearchDisallowQueryingOptions.bucket_name r) (CoreSearchDisallowQueryingOptions.scope_name r)
    (CoreSearchDisallowQueryingOptions.retry_strategy r) (CoreSearchDisallowQueryingOptions.endpoint r)
    (CoreSearchDisallowQueryingOptions.on_behalf_of r).

Definition core_search_disallow_querying_options_new (index_name : string) : CoreSearchDisallowQueryingOptions
    FailFastRetryStrategy :=
  CoreSearchDisallowQueryingOptions.mk index_name None None DEFAULT_RETRY_STRATEGY None None.

Definition core_search_disallow_querying_options_bucket_name {T : Type} (bucket_name : string)
    (self : CoreSearchDisallowQueryingOptions T) : CoreSearchDisallowQueryingOptions T :=
  self <| CoreSearchDisallowQueryingOptions.bucket_name := Some bucket_name |>.

Definition core_search_disallow_querying_options_scope_name {T : Type} (scope_name : string)
    (self : CoreSearchDisallowQueryingOptions T) : CoreSearchDisallowQueryingOptions T :=
  self <| CoreSearchDisallowQueryingOptions.scope_name := Some scope_name |>.

Definition core_search_disallow_querying_options_retry_strategy {T T' : Type} (retry_strategy : T')
    (self : CoreSearchDisallowQueryingOptions T) : CoreSearchDisallowQueryingOptions T' :=
  CoreSearchDisallowQueryingOptions.mk (CoreSearchDisallowQueryingOptions.index_name self)
    (CoreSearchDisallowQueryingOptions.bucket_name self) (CoreSearchDisallowQueryingOptions.scope_name self)
    retry_strategy (CoreSearchDisallowQueryingOptions.endpoint self)
    (CoreSearchDisallowQueryingOptions.on_behalf_of self).

Definition core_search_disallow_querying_options_endpoint {T : Type} (endpoint : string)
    (self : CoreSearchDisallowQueryingOptions T) : CoreSearchDisallowQueryingOptions T :=
  self <| CoreSearchDisallowQueryingOptions.endpoint := Some endpoint |>.

Definition core_search_disallow_querying_options_on_behalf_of {T : Type} (on_behalf_of : OnBehalfOfInfo)
    (self : CoreSearchDisallowQueryingOptions T) : CoreSearchDisallowQueryingOptions T :=
  self <| CoreSearchDisallowQueryingOptions.on_behalf_of := Some on_behalf_of |>.

Definition core_search_disallow_querying_options_into {T : Type} (opts : CoreSearchDisallowQueryingOptions T) :
    SearchDisallowQueryingOptions :=
  SearchDisallowQueryingOptions.mk (CoreSearchDisallowQueryingOptions.bucket_name opts)
    (CoreSearchDisallowQueryingOptions.scope_name opts) (CoreSearchDisallowQueryingOptions.index_name opts)
    (CoreSearchDisallowQueryingOptions.on_behalf_of opts).

Module CoreSearchFreezePlanOptions.
Section Fields.
Context {T : Type}.
Record CoreSearchFreezePlanOptions : Type := mk {
  index_name : string;
  bucket_name : option string;
  scope_name : option string;
  retry_strategy : T;
  endpoint : option string;
  on_behalf_of : option OnBehalfOfInfo;
}.
End Fields.
#[global] Arguments CoreSearchFreezePlanOptions : clear implicits.
End CoreSearchFreezePlanOptions.
Abbreviation CoreSearchFreezePlanOptions := CoreSearchFreezePlanOptions.CoreSearchFreezePlanOptions.
#[global] Instance core_search_freeze_plan_options_settable T : Settable (CoreSearchFreezePlanOptions T) := λ r,
  CoreSearchFreezePlanOptions.mk (CoreSearchFreezePlanOptions.index_name r)
    (CoreSearchFreezePlanOptions.bucket_name r) (CoreSearchFreezePlanOptions.scope_name r)
    (CoreSearchFreezePlanOptions.retry_strategy r) (CoreSearchFreezePlanOptions.endpoint r)
    (CoreSearchFreezePlanOptions.on_behalf_of r).

Definition core_search_freeze_plan_options_new (index_name : string) : CoreSearchFreezePlanOptions
    FailFastRetryStrategy :=
  CoreSearchFreezePlanOptions.mk index_name None None DEFAULT_RETRY_STRATEGY None None.

Definition core_search_freeze_plan_options_bucket_name {T : Type} (bucket_name : string)
    (self : CoreSearchFreezePlanOptions T) : CoreSearchFreezePlanOptions T :=
  self <| CoreSearchFreezePlanOptions.bucket_name := Some bucket_name |>.

Definition core_search_freeze_plan_options_scope_name {T : Type} (scope_name : string)
    (self : CoreSearchFreezePlanOptions T) : CoreSearchFreezePlanOptions T :=
  self <| CoreSearchFreezePlanOptions.scope_name := Some scope_name |>.

Definition core_search_freeze_plan_options_retry_strategy {T T' : Type} (retry_strategy : T')
    (self : CoreSearchFreezePlanOptions T) : CoreSearchFreezePlanOptions T' :=
  CoreSearchFreezePlanOptions.mk (CoreSearchFreezePlanOptions.index_name self)
    (CoreSearchFreezePlanOptions.bucket_name self) (CoreSearchFreezePlanOptions.scope_name self) retry_strategy
    (CoreSearchFreezePlanOptions.endpoint self) (CoreSearchFreezePlanOptions.on_behalf_of self).

Definition core_search_freeze_plan_options_endpoint {T : Type} (endpoint : string)
    (self : CoreSearchFreezePlanOptions T) : CoreSearchFreezePlanOptions T :=
  self <| CoreSearchFreezePlanOptions.endpoint := Some endpoint |>.

Definition core_search_freeze_plan_options_on_behalf_of {T : Type} (on_behalf_of : OnBehalfOfInfo)
    (self : CoreSearchFreezePlanOptions T) : CoreSearchFreezePlanOptions T :=
  self <| CoreSearchFreezePlanOptions.on_behalf_of := Some on_behalf_of |>.

Definition core_search_freeze_plan_options_into {T : Type} (opts : CoreSearchFreezePlanOptions T) :
    SearchFreezePlanOptions :=
  SearchFreezePlanOptions.mk (CoreSearchFreezePlanOptions.bucket_name opts)
    (CoreSearchFreezePlanOptions.scope_name opts) (CoreSearchFreezePlanOptions.index_name opts)
    (CoreSearchFreezePlanOptions.on_behalf_of opts).

Module CoreSearchUnfreezePlanOptions.
Section Fields.
Context {T : Type}.
Record CoreSearchUnfreezePlanOptions : Type := mk {
  index_name : string;
  bucket_name : option string;
  scope_name : option string;
  retry_strategy : T;
  endpoint : option string;
  on_behalf_of : option OnBehalfOfInfo;
}.
End Fields.
#[global] Arguments CoreSearchUnfreezePlanOptions : clear implicits.
End CoreSearchUnfreezePlanOptions.
Abbreviation CoreSearchUnfreezePlanOptions := CoreSearchUnfreezePlanOptions.CoreSearchUnfreezePlanOptions.
#[global] Instance core_search_unfreeze_plan_options_settable T : Settable (CoreSearchUnfreezePlanOptions T) := λ r,
  CoreSearchUnfreezePlanOptions.mk (CoreSearchUnfreezePlanOptions.index_name r)
    (CoreSearchUnfreezePlanOptions.bucket_name r) (CoreSearchUnfreezePlanOptions.scope_name r)
    (CoreSearchUnfreezePlanOptions.retry_strategy r) (CoreSearchUnfreezePlanOptions.endpoint r)
    (CoreSearchUnfreezePlanOptions.on_behalf_of r).

Definition core_search_unfreeze_plan_options_new (index_name : string) : CoreSearchUnfreezePlanOptions
    FailFastRetryStrategy :=
  CoreSearchUnfreezePlanOptions.mk index_name None None DEFAULT_RETRY_STRATEGY None None.

Definition core_search_unfreeze_plan_options_bucket_name {T : Type} (bucket_name : string)
    (self : CoreSearchUnfreezePlanOptions T) : CoreSearchUnfreezePlanOptions T :=
  self <| CoreSearchUnfreezePlanOptions.bucket_name := Some bucket_name |>.

Definition core_search_unfreeze_plan_options_scope_name {T : Type} (scope_name : string)
    (self : CoreSearchUnfreezePlanOptions T) : CoreSearchUnfreezePlanOptions T :=
  self <| CoreSearchUnfreezePlanOptions.scope_name := Some scope_name |>.

Definition core_search_unfreeze_plan_options_retry_strategy {T T' : Type} (retry_strategy : T')
    (self : CoreSearchUnfreezePlanOptions T) : CoreSearchUnfreezePlanOptions T' :=
  CoreSearchUnfreezePlanOptions.mk (CoreSearchUnfreezePlanOptions.index_name self)
    (CoreSearchUnfreezePlanOptions.bucket_name self) (CoreSearchUnfreezePlanOptions.scope_name self)
    retry_strategy (CoreSearchUnfreezePlanOptions.endpoint self) (CoreSearchUnfreezePlanOptions.on_behalf_of
    self).

Definition core_search_unfreeze_plan_options_endpoint {T : Type} (endpoint : string)
    (self : CoreSearchUnfreezePlanOptions T) : CoreSearchUnfreezePlanOptions T :=
  self <| CoreSearchUnfreezePlanOptions.endpoint := Some endpoint |>.

Definition core_search_unfreeze_plan_options_on_behalf_of {T : Type} (on_behalf_of : OnBehalfOfInfo)
    (self : CoreSearchUnfreezePlanOptions T) : CoreSearchUnfreezePlanOptions T :=
  self <| CoreSearchUnfreezePlanOptions.on_behalf_of := Some on_behalf_of |>.

Definition core_search_unfreeze_plan_options_into {T : Type} (opts : CoreSearchUnfreezePlanOptions T) :
    SearchUnfreezePlanOptions :=
  SearchUnfreezePlanOptions.mk (CoreSearchUnfreezePlanOptions.bucket_name opts)
    (CoreSearchUnfreezePlanOptions.scope_name opts) (CoreSearchUnfreezePlanOptions.index_name opts)
    (CoreSearchUnfreezePlanOptions.on_behalf_of opts).

Module CoreSearchEnsureIndexOptions.
Record CoreSearchEnsureIndexOptions : Type := mk {
  index_name : string;
  bucket_name : option string;
  scope_name : option string;
  on_behalf_of_info : option OnBehalfOfInfo;
  desired_state : SearchDesiredState;
}.
End CoreSearchEnsureIndexOptions.
Abbreviation CoreSearchEnsureIndexOptions := CoreSearchEnsureIndexOptions.CoreSearchEnsureIndexOptions.
#[global] Instance core_search_ensure_index_options_settable : Settable (CoreSearchEnsureIndexOptions) := λ r,
  CoreSearchEnsureIndexOptions.mk (CoreSearchEnsureIndexOptions.index_name r)
    (CoreSearchEnsureIndexOptions.bucket_name r) (CoreSearchEnsureIndexOptions.scope_name r)
    (CoreSearchEnsureIndexOptions.on_behalf_of_info r) (CoreSearchEnsureIndexOptions.desired_state r).

Definition core_search_ensure_index_options_new (index_name : string) (bucket_name : option string) (scope_name
    : option string) (desired_state : SearchDesiredState) (on_behalf_of_info : option OnBehalfOfInfo) :
    CoreSearchEnsureIndexOptions :=
  CoreSearchEnsureIndexOptions.mk index_name bucket_name scope_name on_behalf_of_info desired_state.
