(* ===== verification/SearchReader.v ===== *)
(** * Answers of the search service ([searchx/search_json.rs], [searchx/search_result.rs],
    [searchx/search_respreader.rs], the errors of [searchx/search.rs])

    A search is answered with hits and, after them, the metadata and the facets.  An answer with
    another status than 200 is an error, whose kind is read out of its text.

    Parameters are [serde_json], the dates of [chrono], of type [D], and the text of a status code.
    Floating-point numbers are their bits. *)

From S2P Require Import Prelude Text HttpxError JsonScanner JsonDecoder RowStreamer RowReader.
From S2P Require Import Wire CoreError Retry Http QueryReader SearchxError.

(** ** The documents that are read ([search_json.rs]) *)

Module SearchJson.

Record SearchMetadataStatus : Type := mkSearchMetadataStatus {
  errors : gmap string string;
  failed : Z;
  successful : Z;
  total : Z;
}.

Record TermFacet : Type := mkTermFacet { tf_term : string; tf_count : Z }.

Record NumericFacet : Type := mkNumericFacet {
  nf_name : string;
  nf_min : option Z;
  nf_max : option Z;
  nf_count : Z;
}.

Record DateFacet : Type := mkDateFacet {
  df_name : string;
  df_start : string;
  df_end : string;
  df_count : Z;
}.

Record Facet : Type := mkFacet {
  f_field : string;
  f_total : Z;
  f_missing : Z;
  f_other : Z;
  f_terms : option (list TermFacet);
  f_numeric_ranges : option (list NumericFacet);
  f_date_ranges : option (list DateFacet);
}.

Record SearchMetaData : Type := mkSearchMetaData {
  status : SearchMetadataStatus;
  total_hits : Z;
  max_score : Z;
  took : Z;
  facets : option (gmap string Facet);
}.

Record RowLocation : Type := mkRowLocation {
  rl_position : Z;
  rl_start : Z;
  rl_end : Z;
  rl_array_positions : option (list Z);
}.

Definition RowLocations : Type := gmap string (gmap string (list RowLocation)).

Record Row : Type := mkRow {
  row_index : option string;
  row_id : string;
  row_score : Z;
  row_explanation : option (list Z);
  row_locations : option RowLocations;
  row_fragments : option (gmap string (list string));
  row_fields : option (list Z);
}.

Record ErrorResponse : Type := mkErrorResponse { error : string }.
Record DocumentAnalysisJson : Type := mkDocumentAnalysisJson { da_status : string; da_analyzed : list Z }.
Record IndexedDocumentsJson : Type := mkIndexedDocumentsJson { count : Z }.

End SearchJson.

(** ** Results ([search_result.rs]) *)

Record HitLocation : Type := mkHitLocation {
  hl_start : Z;
  hl_end : Z;
  hl_position : Z;
  hl_array_positions : option (list Z);
}.

Record ResultHit : Type := mkResultHit {
  hit_index : string;
  hit_id : string;
  hit_score : Z;
  hit_locations : option (gmap string (gmap string (list HitLocation)));
  hit_fragments : option (gmap string (list string));
  hit_fields : option (list Z);
  hit_explanation : option (list Z);
}.

Record SearchMetrics : Type := mkSearchMetrics {
  sm_failed_partition_count : Z;
  sm_max_score : Z;
  sm_successful_partition_count : Z;
  sm_took : Duration;
  sm_total_hits : Z;
  sm_total_partition_count : Z;
}.

Record SearchResultMetaData : Type := mkSearchResultMetaData { sd_errors : gmap string string; sd_metrics : SearchMetrics }.

Record TermFacetResult : Type := mkTermFacetResult { tfr_term : string; tfr_count : Z }.

Record NumericRangeFacetResult : Type := mkNumericRangeFacetResult {
  nfr_name : string;
  nfr_min : Z;
  nfr_max : Z;
  nfr_count : Z;
}.

Record DateRangeFacetResult (D : Type) : Type := mkDateRangeFacetResult {
  dfr_name : string;
  dfr_start : D;
  dfr_end : D;
  dfr_count : Z;
}.
#[global] Arguments mkDateRangeFacetResult {D}.
#[global] Arguments dfr_name {D}.
#[global] Arguments dfr_start {D}.
#[global] Arguments dfr_end {D}.
#[global] Arguments dfr_count {D}.

Record FacetResult (D : Type) : Type := mkFacetResult {
  fr_field : string;
  fr_total : Z;
  fr_missing : Z;
  fr_other : Z;
  fr_terms : option (list TermFacetResult);
  fr_numeric_ranges : option (list NumericRangeFacetResult);
  fr_date_ranges : option (list (DateRangeFacetResult D));
}.
#[global] Arguments mkFacetResult {D}.
#[global] Arguments fr_field {D}.
#[global] Arguments fr_total {D}.
#[global] Arguments fr_missing {D}.
#[global] Arguments fr_other {D}.
#[global] Arguments fr_terms {D}.
#[global] Arguments fr_numeric_ranges {D}.
#[global] Arguments fr_date_ranges {D}.

(** ** Hits *)

(** The position of a location is its place in the list, not the [pos] the server gave. *)
Definition hit_location (loc_idx : nat) (loc_data : SearchJson.RowLocation) : HitLocation :=
  mkHitLocation (SearchJson.rl_start loc_data) (SearchJson.rl_end loc_data) (cast_u 32 (Z.of_nat loc_idx))
    (SearchJson.rl_array_positions loc_data).

Definition result_hit_of (row : SearchJson.Row) : ResultHit :=
  mkResultHit (default ""%string (SearchJson.row_index row)) (SearchJson.row_id row) (SearchJson.row_score row)
    ((λ l : SearchJson.RowLocations, fmap (M:=gmap string) (fmap (M:=gmap string) (imap hit_location)) l) <$> SearchJson.row_locations row)
    (SearchJson.row_fragments row) (SearchJson.row_fields row) (SearchJson.row_explanation row).

(** ** Facets *)

Definition term_facet_result_of (value : SearchJson.TermFacet) : TermFacetResult :=
  mkTermFacetResult (SearchJson.tf_term value) (SearchJson.tf_count value).

(** A bound the server does not give is [0.0]. *)
Definition numeric_facet_result_of (value : SearchJson.NumericFacet) : NumericRangeFacetResult :=
  mkNumericRangeFacetResult (SearchJson.nf_name value) (default 0 (SearchJson.nf_min value))
    (default 0 (SearchJson.nf_max value)) (SearchJson.nf_count value).

(** ** Errors *)

(** The kind of an error is read out of its text, and its status. *)
Definition search_error_kind (status : Z) (body_str : list Z) : Searchx.ServerErrorKind :=
  let has (pat : string) := contains (str_bytes pat) body_str in
  if (status =? 401) || (status =? 403) then Searchx.AuthenticationFailure
  else if has "index not found" then Searchx.IndexNotFound
  else if has "index with the same name already exists"
       || (has "current index uuuid" && has "did not match input uuid") then Searchx.IndexExists
  else if has "unknown indextype" then Searchx.UnknownIndexType
  else if has "error obtaining vbucket count for bucket" || has "requested resource not found"
       || has "non existent bucket" then Searchx.SourceNotFound
  else if has "failed to connect to or retrieve information from source, sourcetype" then Searchx.SourceTypeIncorrect
  else if has "no planpindexes for indexname" then Searchx.NoIndexPartitionsPlanned
  else if has "no local pindexes found" then Searchx.NoIndexPartitionsFound
  else if status =? 500 then Searchx.Internal
  else if status =? 429 then
    if has "num_concurrent_requests" || has "num_queries_per_min" || has "ingress_mib_per_min"
       || has "egress_mib_per_min" then Searchx.RateLimitedFailure
    else Searchx.Unknown
  else Searchx.Unknown.

Definition decode_common_error (index_name : string) (status : Z) (body_str : list Z) (endpoint : string) : Searchx.Error :=
  Searchx.new_server_error
    (Searchx.server_error_new (search_error_kind status body_str) index_name (bytes_string body_str) endpoint status).

(** The error of a response with an unexpected status; [utf8_error] is the text of
    [String::from_utf8]'s error. *)
Definition decode_response_error (utf8_error : list Z → option string) (response : Response)
    (index_name endpoint : string) : outcome Searchx.Error Searchx.Error :=
  match response_bytes response with
  | Err e => Ok (Searchx.new_http_error e endpoint)
  | Panic => Panic
  | Ok body =>
      match utf8_error body with
      | Some e => Ok (Searchx.new_message_error ("could not parse error response: " +:+ e) (Some endpoint))
      | None => Ok (decode_common_error index_name (resp_status response) (to_lowercase body) endpoint)
      end
  end.

(** ** The reader *)

Section Reader.
Context {V D : Type}.
Context (status_display : Z → string).
Context (from_slice_string : list Z → string + string) (from_slice_value : list Z → string + V)
  (to_vec : gmap string V → string + list Z)
  (from_slice_error_response : list Z → string + SearchJson.ErrorResponse)
  (from_slice_metadata : list Z → string + SearchJson.SearchMetaData)
  (from_slice_row : list Z → string + SearchJson.Row)
  (parse_from_rfc3339 : string → string + D).

Abbreviation Error := Searchx.Error.
Abbreviation Facets := (gmap string (FacetResult D)).

Record SearchRespReader : Type := mkSearchRespReader {
  sr_endpoint : string;
  sr_status_code : Z;
  sr_index_name : string;
  (** [streamer], [meta_data] and [facets], which are set together, and [epilogue_error]. *)
  sr_rows : RowReader V (SearchResultMetaData * Facets) Error;
}.

Definition parse_date (date : string) : outcome Error D :=
  match parse_from_rfc3339 date with
  | inl e => Err (Searchx.new_message_error ("failed to parse date: " +:+ e) None)
  | inr d => Ok d
  end.

Definition date_facet_result_of (value : SearchJson.DateFacet) : outcome Error (DateRangeFacetResult D) :=
  start ← parse_date (SearchJson.df_start value);
  end_ ← parse_date (SearchJson.df_end value);
  Ok (mkDateRangeFacetResult (SearchJson.df_name value) start end_ (SearchJson.df_count value)).

(** [collect] into a [Result]: the first error ends it. *)
Fixpoint collect_results {A B} (f : A → outcome Error B) (l : list A) : outcome Error (list B) :=
  match l with
  | [] => Ok []
  | x :: l => y ← f x; rest ← collect_results f l; Ok (y :: rest)
  end.

Definition facet_result_of (value : SearchJson.Facet) : outcome Error (FacetResult D) :=
  date_ranges ←
    match SearchJson.f_date_ranges value with
    | Some date_ranges => l ← collect_results date_facet_result_of date_ranges; Ok (Some l)
    | None => Ok None
    end;
  Ok (mkFacetResult (SearchJson.f_field value) (SearchJson.f_total value) (SearchJson.f_missing value)
        (SearchJson.f_other value) (map term_facet_result_of <$> SearchJson.f_terms value)
        (map numeric_facet_result_of <$> SearchJson.f_numeric_ranges value) date_ranges).

(** The facets one after the other, in some order; the first that cannot be read is the error. *)
Fixpoint read_facets (l : list (string * SearchJson.Facet)) (facets : Facets) : outcome Error Facets :=
  match l with
  | [] => Ok facets
  | (facet_name, facet_data) :: l =>
      facet ← facet_result_of facet_data; read_facets l (<[facet_name := facet]> facets)
  end.

Definition search_metadata_of (metadata_json : SearchJson.SearchMetaData) : SearchResultMetaData :=
  let status := SearchJson.status metadata_json in
  mkSearchResultMetaData (SearchJson.errors status)
    (mkSearchMetrics (SearchJson.failed status) (SearchJson.max_score metadata_json) (SearchJson.successful status)
       (SearchJson.took metadata_json) (SearchJson.total_hits metadata_json) (SearchJson.total status)).

Definition read_final_metadata (endpoint : string) (epilog : list Z) : outcome Error (SearchResultMetaData * Facets) :=
  match from_slice_metadata epilog with
  | inl e => Err (Searchx.new_message_error ("failed to parse metadata: " +:+ e) (Some endpoint))
  | inr metadata_json =>
      facets ←
        match SearchJson.facets metadata_json with
        | Some resp_facets => read_facets (map_to_list resp_facets) ∅
        | None => Ok ∅
        end;
      Ok (search_metadata_of metadata_json, facets)
  end.

Definition read_row (endpoint : string) (row_data : list Z) : outcome Error ResultHit :=
  match from_slice_row row_data with
  | inl e => Err (Searchx.new_message_error ("failed to parse row: " +:+ e) (Some endpoint))
  | inr row => Ok (result_hit_of row)
  end.

Definition search_stream_error (endpoint : string) (e : HttpxError) : Error := Searchx.new_http_error e endpoint.

(** An answer with another status than 200: the text of the error is not made lower case here. *)
Definition read_failure (resp : Response) (index_name endpoint : string) : outcome Error Error :=
  match response_bytes resp with
  | Err e => Ok (Searchx.new_http_error e endpoint)
  | Panic => Panic
  | Ok body =>
      match from_slice_error_response body with
      | inl e =>
          Ok (Searchx.new_message_error
                ("non-200 status code received " +:+ status_display (resp_status resp)
                 +:+ " but parsing error response body failed " +:+ e) (Some endpoint))
      | inr err => Ok (decode_common_error index_name (resp_status resp) (str_bytes (SearchJson.error err)) endpoint)
      end
  end.

Definition search_resp_reader_new (resp : Response) (index_name endpoint : string) : outcome Error SearchRespReader :=
  let status_code := resp_status resp in
  if negb (status_code =? 200) then
    e ← read_failure resp index_name endpoint;
    Err e
  else
    rows ← reader_new from_slice_string from_slice_value to_vec (read_final_metadata endpoint)
             (search_stream_error endpoint) (response_bytes_stream resp) "hits";
    Ok (mkSearchRespReader endpoint status_code index_name rows).

Definition search_metadata_too_early : Error :=
  Searchx.new_message_error "cannot read meta-data until after all rows are read" None.
Definition facets_too_early : Error :=
  Searchx.new_message_error "cannot read facets until after all rows are read" None.

Definition search_metadata (self : SearchRespReader) : outcome Error SearchResultMetaData :=
  final ← reader_final search_metadata_too_early (sr_rows self); Ok (fst final).

Definition search_facets (self : SearchRespReader) : outcome Error Facets :=
  final ← reader_final facets_too_early (sr_rows self); Ok (snd final).

Definition search_poll_next (self : SearchRespReader) : SearchRespReader * option (outcome Error ResultHit) :=
  let '(rows, item) :=
    reader_next from_slice_string from_slice_value to_vec (read_row (sr_endpoint self))
      (read_final_metadata (sr_endpoint self)) (search_stream_error (sr_endpoint self)) (sr_rows self) in
  (mkSearchRespReader (sr_endpoint self) (sr_status_code self) (sr_index_name self) rows, item).
End Reader.

(** ** Theorems *)

Section Theorems.
Context {V D : Type}.
Context (status_display : Z → string).
Context (from_slice_string : list Z → string + string) (from_slice_value : list Z → string + V)
  (to_vec : gmap string V → string + list Z)
  (from_slice_error_response : list Z → string + SearchJson.ErrorResponse)
  (from_slice_metadata : list Z → string + SearchJson.SearchMetaData)
  (from_slice_row : list Z → string + SearchJson.Row)
  (parse_from_rfc3339 : string → string + D).

(** Every facet the server gives is read, under its name, and no other one. *)
Lemma read_facets_lookup l facets facets' :
  NoDup l.*1 → (∀ k, k ∈ l.*1 → facets !! k = None) →
  read_facets parse_from_rfc3339 l facets = Ok facets' →
  ∀ k, match list_to_map (M:=gmap string SearchJson.Facet) l !! k with
       | Some f => ∃ r, facet_result_of parse_from_rfc3339 f = Ok r ∧ facets' !! k = Some r
       | None => facets' !! k = facets !! k
       end.
Proof.
  revert facets. induction l as [|[name f] l IH]; intros facets Hnd Hnew; cbn [read_facets].
  { intros [= ->] k. done. }
  apply list.NoDup_cons in Hnd as [Hname Hnd]. unfold mbind, outcome_bind.
  destruct (facet_result_of _ f) as [r|e|] eqn:Hf; try done. intros Hl k.
  assert (∀ j, j ∈ l.*1 → <[name:=r]> facets !! j = None) as Hnew'.
  { intros j Hj. rewrite lookup_insert_ne by (intros ->; by apply Hname). apply Hnew. cbn; by apply list_elem_of_further. }
  specialize (IH _ Hnd Hnew' Hl k). cbn [list_to_map foldr fst snd]. destruct (decide (k = name)) as [->|Hk].
  - assert (list_to_map (M:=gmap string SearchJson.Facet) l !! name = None) as Hn by by apply not_elem_of_list_to_map_1.
    rewrite Hn, lookup_insert_eq in IH. rewrite lookup_insert_eq. by exists r.
  - rewrite lookup_insert_ne by done. by rewrite lookup_insert_ne in IH.
Qed.

Abbreviation new_reader := (search_resp_reader_new status_display from_slice_string from_slice_value to_vec
  from_slice_error_response from_slice_metadata parse_from_rfc3339).
Abbreviation poll := (search_poll_next from_slice_string from_slice_value to_vec from_slice_metadata from_slice_row
  parse_from_rfc3339).
Abbreviation final endpoint := (read_final_metadata from_slice_metadata parse_from_rfc3339 endpoint).

(** The reader polled until it ends, at most [n] times. *)
Fixpoint search_poll_all (n : nat) (r : SearchRespReader (V:=V) (D:=D))
    : SearchRespReader (V:=V) (D:=D) * list (outcome Searchx.Error ResultHit) :=
  match n with
  | O => (r, [])
  | S n =>
      match poll r with
      | (r, Some item) => let '(r, items) := search_poll_all n r in (r, item :: items)
      | (r, None) => (r, [])
      end
  end.

Lemma search_poll_all_rows n e st i rows :
  search_poll_all n (mkSearchRespReader e st i rows)
  = let '(rows, items) :=
      reader_all from_slice_string from_slice_value to_vec (read_row from_slice_row e) (final e)
        (search_stream_error e) n rows in
    (mkSearchRespReader e st i rows, items).
Proof.
  revert rows. induction n as [|n IH]; intros rows; [done|]. cbn [search_poll_all reader_all]. unfold search_poll_next.
  cbn [sr_endpoint sr_status_code sr_index_name sr_rows].
  destruct (reader_next _ _ _ _ _ _ rows) as [rows' [item|]]; [|done]. rewrite IH.
  by destruct (reader_all _ _ _ _ _ _ n rows').
Qed.

(** A search that is answered with status 200 and hits is read as it is, however it is cut into chunks:
    polling gives every hit, once and in order; only then are the metadata and the facets available, and
    facets that cannot be read come as the last item and stay in place of both. *)
Lemma search_answer_is_read resp cs w0 pre h r rs post tail m1 m2 index_name endpoint :
  resp_status resp = 200 → resp_chunks resp = Ok <$> cs →
  concat cs = document w0 pre h r rs post tail →
  ws w0 → Forall (attr_ok from_slice_string from_slice_value) pre → key_ok from_slice_string h →
  at_name h = "hits" → Forall (λ a, at_name a ≠ "hits") pre →
  Forall row_ok (r :: rs) → Forall (attr_ok from_slice_string from_slice_value) post →
  to_vec (attribs_of pre ∅) = inr m1 → to_vec (attribs_of (pre ++ post) ∅) = inr m2 →
  ∃ rd, new_reader resp index_name endpoint = Ok rd
    ∧ search_metadata rd = Err search_metadata_too_early ∧ search_facets rd = Err facets_too_early
    ∧ ∀ n, let '(rd', items) := search_poll_all (length (r :: rs) + 1 + n) rd in
        match final endpoint m2 with
        | Ok (meta, facets) =>
            items = read_row from_slice_row endpoint <$> (row_value <$> r :: rs)
            ∧ search_metadata rd' = Ok meta ∧ search_facets rd' = Ok facets
        | Err e =>
            items = (read_row from_slice_row endpoint <$> (row_value <$> r :: rs)) ++ [Err e]
            ∧ search_metadata rd' = Err e ∧ search_facets rd' = Err e
        | Panic => True
        end.
Proof.
  intros Hst Hch Hcs Hw0 Hpre Hh Hname Hnames Hrows Hpost Hm1 Hm2.
  pose proof (reader_answer from_slice_string from_slice_value to_vec (read_row from_slice_row endpoint)
    (final endpoint) (search_stream_error endpoint) cs w0 pre h r rs post tail m1 m2) as K. rewrite Hname in K.
  destruct (K search_metadata_too_early) as (rows & Hn & He & Hall); [done..|].
  destruct (K facets_too_early) as (rows' & Hn' & He' & Hall'); [done..|].
  rewrite Hn in Hn'. injection Hn' as <-. clear K.
  exists (mkSearchRespReader endpoint 200 index_name rows). split; [|split; [|split]].
  - unfold search_resp_reader_new, response_bytes_stream. rewrite Hst, Hch. cbn [negb Z.eqb Pos.eqb].
    rewrite <- list_fmap_compose. change (map_err _ ∘ Ok) with (@Ok HttpxError (list Z)). by rewrite Hn.
  - unfold search_metadata. cbn [sr_rows]. by rewrite He.
  - unfold search_facets. cbn [sr_rows]. by rewrite He'.
  - intros n. rewrite search_poll_all_rows. specialize (Hall n). specialize (Hall' n).
    destruct (reader_all _ _ _ _ _ _ _ rows) as [rows' items]. unfold search_metadata, search_facets. cbn [sr_rows].
    destruct (final endpoint m2) as [[meta facets]|e|]; [| |done];
      destruct Hall as [-> Hm], Hall' as [_ Hf]; by rewrite Hm, Hf.
Qed.

(** An answer with another status is an error of the server that names the index, whose kind is the one of
    its status and its text. *)
Lemma search_failure_is_reported resp body err index_name endpoint :
  resp_status resp ≠ 200 → response_bytes resp = Ok body → from_slice_error_response body = inr err →
  new_reader resp index_name endpoint
  = Err (decode_common_error index_name (resp_status resp) (str_bytes (SearchJson.error err)) endpoint).
Proof.
  intros Hst Hb He. unfold search_resp_reader_new, read_failure.
  replace (resp_status resp =? 200) with false by (symmetry; by apply Z.eqb_neq). cbn [negb]. by rewrite Hb, He.
Qed.

(** The metadata after the hits: what the server gave, and every facet under its name. *)
Lemma final_metadata_facets endpoint m meta facets json :
  from_slice_metadata m = inr json → final endpoint m = Ok (meta, facets) →
  meta = search_metadata_of json
  ∧ ∀ k, match default ∅ (SearchJson.facets json) !! k with
         | Some f => ∃ r, facet_result_of parse_from_rfc3339 f = Ok r ∧ facets !! k = Some r
         | None => facets !! k = None
         end.
Proof.
  intros Hj. unfold read_final_metadata. rewrite Hj. destruct (SearchJson.facets json) as [fs|]; cbn.
  2:{ intros [= <- <-]. split; [done|]. intros k. by rewrite lookup_empty. }
  destruct (read_facets _ _ _) as [facets'|e|] eqn:Hf; cbn; try done. intros [= <- <-]. split; [done|]. intros k.
  pose proof (read_facets_lookup (map_to_list fs) ∅ facets' (NoDup_fst_map_to_list fs)
    (λ k _, lookup_empty k) Hf k) as K. rewrite list_to_map_to_list in K.
  destruct (fs !! k); [exact K|]. by rewrite K, lookup_empty.
Qed.
End Theorems.

(** The text of an error of a search is compared as it is, that of the other operations in lower case. *)
Example capital_letters_hide_the_kind :
  search_error_kind 400 (str_bytes "Index not found") = Searchx.Unknown
  ∧ search_error_kind 400 (to_lowercase (str_bytes "Index not found")) = Searchx.IndexNotFound.
Proof. by vm_compute. Qed.

(** The position of a hit is lost: every location gets its place in the list. *)
Lemma server_positions_are_lost l : hl_position <$> imap hit_location l = (λ i, cast_u 32 (Z.of_nat i)) <$> seq 0 (length l).
Proof.
  apply list_eq. intros i. rewrite !list_lookup_fmap, list_lookup_imap.
  destruct (l !! i) as [x|] eqn:Hi; cbn.
  - rewrite lookup_seq_lt by (by apply lookup_lt_Some in Hi). done.
  - rewrite lookup_seq_ge by (by apply lookup_ge_None in Hi). done.
Qed.
