(* ===== verification/Search.v ===== *)
(** * The search client ([searchx/search.rs], [searchx/document_analysis.rs],
    [searchx/ensure_index_helper.rs])

    Each operation as the request it makes and what it makes of the response: every other status
    than 200 is an error read out of the response.

    Parameters are [serde_json], the text of the error of a body that is not UTF-8, the text of a
    status code, and the clock. *)

From S2P Require Import Prelude Text HttpxError MgmtxError JsonScanner JsonDecoder RowStreamer RowReader.
From S2P Require Import Wire CoreError Retry Http QueryReader Query Mgmt.
From S2P Require Import SearchxError Json SearchQueries SearchOptions SearchMgmtOptions SearchReader.

(** ** The client of one endpoint *)

Record Search : Type := mkSearch {
  sx_user_agent : string;
  sx_endpoint : string;
  sx_auth : Auth;
  sx_vector_search_enabled : bool;
}.

Definition search_new_request (self : Search) (method : Method) (path content_type : string)
    (on_behalf_of : option OnBehalfOfInfo) (headers : option (list (string * string))) (body : option (list Z)) : Request :=
  let auth :=
    match on_behalf_of with
    | Some obo => Auth.OnBehalfOf (mkOnBehalfOfInfo (obo_username obo) (obo_password_or_domain obo))
    | None => sx_auth self
    end in
  let req :=
    request_body body (request_content_type (Some content_type) (request_user_agent (Some (sx_user_agent self))
      (request_auth (Some auth) (request_new method (sx_endpoint self +:+ "/" +:+ path))))) in
  foldl (λ req '(key, value), add_header key value req) req (default [] headers).

(** ** Paths *)

(** A scope without a bucket is left out. *)
Definition get_uri (index_name : string) (bucket_name scope_name : option string) : outcome Searchx.Error string :=
  match bucket_name with
  | Some bucket =>
      match scope_name with
      | Some scope => Ok ("api/bucket/" +:+ bucket +:+ "/scope/" +:+ scope +:+ "/index/" +:+ index_name)
      | None => Err (Searchx.new_invalid_argument_error "must specify both or neither scope and bucket names" None)
      end
  | None => Ok ("api/index/" +:+ index_name)
  end.

(** The paths of [get_indexed_documents_count] and [control_request], which begin with a slash. *)
Definition index_action_path (index_name : string) (bucket_name scope_name : option string) (action : string)
    : outcome Searchx.Error string :=
  match scope_name, bucket_name with
  | None, None => Ok ("/api/index/" +:+ index_name +:+ "/" +:+ action)
  | Some scope, Some bucket =>
      Ok ("/api/bucket/" +:+ bucket +:+ "/scope/" +:+ scope +:+ "/index/" +:+ index_name +:+ "/" +:+ action)
  | _, _ => Err (Searchx.new_invalid_argument_error "must specify both or neither of scope and bucket names" None)
  end.

Definition query_path {D V} (opts : SearchQueryOptions D V) : outcome Searchx.Error string :=
  path ← get_uri (SearchQueryOptions.index_name opts) (SearchQueryOptions.bucket_name opts)
           (SearchQueryOptions.scope_name opts);
  Ok (path +:+ "/query").

Record DocumentAnalysis : Type := mkDocumentAnalysis { dan_status : string; dan_analyzed : list Z }.

Definition document_analysis_of (value : SearchJson.DocumentAnalysisJson) : DocumentAnalysis :=
  mkDocumentAnalysis (SearchJson.da_status value) (SearchJson.da_analyzed value).

(** The text of an error of [parse_response_json], which makes no other kind. *)
Definition parse_error_display (e : Mgmtx.Error) : string :=
  match Mgmtx.kind e with Mgmtx.Message msg => msg | _ => "" end.

Section Client.
Context {V D : Type}.
Context (status_display : Z → string) (utf8_error : list Z → option string) (to_rfc3339 : D → string)
  (parse_from_rfc3339 : string → string + D).
(** [serde_json]. *)
Context (from_slice_string : list Z → string + string) (from_slice_value : list Z → string + V)
  (to_vec : gmap string V → string + list Z) (to_vec_ser : Serialized V → string + list Z)
  (from_slice_error_response : list Z → string + SearchJson.ErrorResponse)
  (from_slice_metadata : list Z → string + SearchJson.SearchMetaData)
  (from_slice_row : list Z → string + SearchJson.Row)
  (from_slice_index : list Z → string + SearchIndexResponseJson V)
  (from_slice_indexes : list Z → string + SearchIndexesResponseJson V)
  (from_slice_analysis : list Z → string + SearchJson.DocumentAnalysisJson)
  (from_slice_count : list Z → string + SearchJson.IndexedDocumentsJson).
Context {S : Type} `{HttpClient S}.

Abbreviation Error := Searchx.Error.
Abbreviation call := (io S Error).

Definition search_execute (self : Search) (method : Method) (path content_type : string)
    (on_behalf_of : option OnBehalfOfInfo) (headers : option (list (string * string))) (body : option (list Z))
    : io S HttpxError Response :=
  http_execute (search_new_request self method path content_type on_behalf_of headers body).

(** A request: any other status than 200 is an error, that names [index_name]. *)
Definition search_call {A} (self : Search) (index_name : string) (sent : io S HttpxError Response)
    (result : Response → outcome Error A) : call A :=
  res ← io_map_err (λ e, Searchx.new_http_error e (sx_endpoint self)) sent;
  io_lift
    (if negb (resp_status res =? 200) then
       e ← decode_response_error utf8_error res index_name (sx_endpoint self);
       Err e
     else result res).

Definition read_response {A} (self : Search) (what : string) (from_slice : list Z → string + A) (res : Response)
    : outcome Error A :=
  map_err (λ e, Searchx.new_message_error ("failed to parse " +:+ what +:+ ": " +:+ parse_error_display e)
                  (Some (sx_endpoint self)))
    (parse_response_json from_slice res).

Definition done_ (_ : Response) : outcome Error unit := Ok tt.

Definition no_cache : list (string * string) := [("cache-control", "no-cache")]%string.

(** *** Searches *)

Definition encode_query (opts : SearchQueryOptions D V) : outcome Error (list Z) :=
  match to_vec_ser (SerMap (search_query_options_ser to_rfc3339 opts)) with
  | inl e => Err (Searchx.new_encoding_error ("could not serialize query options: " +:+ e))
  | inr body => Ok body
  end.

Definition search_query (self : Search) (opts : SearchQueryOptions D V) : call (SearchRespReader (V:=V) (D:=D)) :=
  if negb (sx_vector_search_enabled self)
     && bool_decide (is_Some (SearchQueryOptions.knn opts) ∨ is_Some (SearchQueryOptions.knn_operator opts))
  then io_lift (Err (Searchx.new_unsupported_feature_error "vector search"))
  else
    req_uri ← io_lift (query_path opts);
    body ← io_lift (encode_query opts);
    res ← io_map_err (λ e, Searchx.new_http_error e (sx_endpoint self))
            (search_execute self POST req_uri "application/json" (SearchQueryOptions.on_behalf_of opts) None (Some body));
    io_lift (search_resp_reader_new status_display from_slice_string from_slice_value to_vec from_slice_error_response
               from_slice_metadata parse_from_rfc3339 res (SearchQueryOptions.index_name opts) (sx_endpoint self)).

(** *** Indexes *)

(** The index itself is written, not the document made of it ([index_json.rs]). *)
Definition search_upsert_index (self : Search) (opts : SearchUpsertIndexOptions V) : call unit :=
  let index := SearchUpsertIndexOptions.index opts in
  req_uri ← io_lift (get_uri (SearchIndex.name index) (SearchUpsertIndexOptions.bucket_name opts)
                       (SearchUpsertIndexOptions.scope_name opts));
  body ← io_lift match to_vec_ser (SerMap (search_index_ser index)) with
                 | inl e => Err (Searchx.new_encoding_error ("could not serialize index: " +:+ e))
                 | inr body => Ok body
                 end;
  search_call self (SearchIndex.name index)
    (search_execute self PUT req_uri "application/json" (SearchUpsertIndexOptions.on_behalf_of opts) (Some no_cache)
       (Some body)) done_.

Definition search_delete_index (self : Search) (opts : SearchDeleteIndexOptions) : call unit :=
  let index_name := SearchDeleteIndexOptions.index_name opts in
  req_uri ← io_lift (get_uri index_name (SearchDeleteIndexOptions.bucket_name opts)
                       (SearchDeleteIndexOptions.scope_name opts));
  search_call self index_name
    (search_execute self DELETE req_uri "application/json" (SearchDeleteIndexOptions.on_behalf_of opts) (Some no_cache)
       None) done_.

Definition search_get_index (self : Search) (opts : SearchGetIndexOptions) : call (SearchIndex V) :=
  let index_name := SearchGetIndexOptions.index_name opts in
  req_uri ← io_lift (get_uri index_name (SearchGetIndexOptions.bucket_name opts) (SearchGetIndexOptions.scope_name opts));
  search_call self index_name
    (search_execute self GET req_uri "" (SearchGetIndexOptions.on_behalf_of opts) None None)
    (λ res, index ← read_response self "index json" from_slice_index res; Ok (index_of_json (sir_index_def index))).

(** The indexes are in the order of a [HashMap]. *)
Definition search_get_all_indexes (self : Search) (opts : SearchGetAllIndexesOptions) : call (list (SearchIndex V)) :=
  req_uri ← io_lift (get_uri "" (SearchGetAllIndexesOptions.bucket_name opts)
                       (SearchGetAllIndexesOptions.scope_name opts));
  search_call self ""
    (search_execute self GET req_uri "" (SearchGetAllIndexesOptions.on_behalf_of opts) None None)
    (λ res,
       index ← read_response self "index json" from_slice_indexes res;
       Ok (index_of_json <$> (map_to_list (sid_index_defs (sis_indexes index))).*2)).

Definition analyze_document (self : Search) (opts : SearchAnalyzeDocumentOptions) : call DocumentAnalysis :=
  let index_name := SearchAnalyzeDocumentOptions.index_name opts in
  req_uri ← io_lift (get_uri index_name (SearchAnalyzeDocumentOptions.bucket_name opts)
                       (SearchAnalyzeDocumentOptions.scope_name opts));
  search_call self index_name
    (search_execute self POST req_uri "application/json" (SearchAnalyzeDocumentOptions.on_behalf_of opts) None
       (Some (SearchAnalyzeDocumentOptions.doc_content opts)))
    (λ res,
       analysis ← read_response self "document analysis" from_slice_analysis res;
       Ok (document_analysis_of analysis)).

Definition get_indexed_documents_count (self : Search) (opts : SearchGetIndexedDocumentsCountOptions) : call Z :=
  let index_name := SearchGetIndexedDocumentsCountOptions.index_name opts in
  req_uri ← io_lift (index_action_path index_name (SearchGetIndexedDocumentsCountOptions.bucket_name opts)
                       (SearchGetIndexedDocumentsCountOptions.scope_name opts) "count");
  search_call self index_name
    (search_execute self GET req_uri "" (SearchGetIndexedDocumentsCountOptions.on_behalf_of opts) None None)
    (λ res, count ← read_response self "indexed count" from_slice_count res; Ok (SearchJson.count count)).

(** *** Controls *)

Definition control_request (self : Search) (index_name : string) (bucket_name scope_name : option string)
    (control : string) (on_behalf_of : option OnBehalfOfInfo) : call unit :=
  if bool_decide (index_name = ""%string) then
    io_lift (Err (Searchx.new_invalid_argument_error "must specify index name" None))
  else
    req_uri ← io_lift (index_action_path index_name bucket_name scope_name control);
    search_call self index_name (search_execute self POST req_uri "application/json" on_behalf_of None None) done_.

Definition pause_ingest (self : Search) (opts : SearchPauseIngestOptions) : call unit :=
  control_request self (SearchPauseIngestOptions.index_name opts) (SearchPauseIngestOptions.bucket_name opts)
    (SearchPauseIngestOptions.scope_name opts) "ingestControl/pause" (SearchPauseIngestOptions.on_behalf_of opts).

Definition resume_ingest (self : Search) (opts : SearchResumeIngestOptions) : call unit :=
  control_request self (SearchResumeIngestOptions.index_name opts) (SearchResumeIngestOptions.bucket_name opts)
    (SearchResumeIngestOptions.scope_name opts) "ingestControl/resume" (SearchResumeIngestOptions.on_behalf_of opts).

Definition allow_querying (self : Search) (opts : SearchAllowQueryingOptions) : call unit :=
  control_request self (SearchAllowQueryingOptions.index_name opts) (SearchAllowQueryingOptions.bucket_name opts)
    (SearchAllowQueryingOptions.scope_name opts) "queryControl/allow" (SearchAllowQueryingOptions.on_behalf_of opts).

Definition disallow_querying (self : Search) (opts : SearchDisallowQueryingOptions) : call unit :=
  control_request self (SearchDisallowQueryingOptions.index_name opts)
    (SearchDisallowQueryingOptions.bucket_name opts) (SearchDisallowQueryingOptions.scope_name opts)
    "queryControl/disallow" (SearchDisallowQueryingOptions.on_behalf_of opts).

Definition freeze_plan (self : Search) (opts : SearchFreezePlanOptions) : call unit :=
  control_request self (SearchFreezePlanOptions.index_name opts) (SearchFreezePlanOptions.bucket_name opts)
    (SearchFreezePlanOptions.scope_name opts) "planFreezeControl/freeze" (SearchFreezePlanOptions.on_behalf_of opts).

Definition unfreeze_plan (self : Search) (opts : SearchUnfreezePlanOptions) : call unit :=
  control_request self (SearchUnfreezePlanOptions.index_name opts) (SearchUnfreezePlanOptions.bucket_name opts)
    (SearchUnfreezePlanOptions.scope_name opts) "planFreezeControl/unfreeze" (SearchUnfreezePlanOptions.on_behalf_of opts).

Definition refresh_config (self : Search) (opts : SearchRefreshConfigOptions) : call unit :=
  search_call self ""
    (search_execute self POST "/api/cfgRefresh" "application/json" (SearchRefreshConfigOptions.on_behalf_of opts) None None)
    done_.

Definition search_ping (self : Search) (opts : SearchPingOptions) : call unit :=
  res ← io_map_err (λ e, Searchx.new_http_error e (sx_endpoint self))
          (search_execute self GET "/api/ping" "" (SearchPingOptions.on_behalf_of opts) None None);
  io_lift
    (if is_success (resp_status res) then Ok tt
     else Err (Searchx.new_message_error ("ping failed with status code: " +:+ status_display (resp_status res))
                 (Some (sx_endpoint self)))).

End Client.

(** ** Waiting for an index ([ensure_index_helper.rs]) *)

Record SearchEnsureIndexHelper : Type := mkSearchEnsureIndexHelper {
  se_user_agent : string;
  se_on_behalf_of_info : option OnBehalfOfInfo;
  se_bucket_name : option string;
  se_scope_name : option string;
  se_index_name : string;
  se_confirmed_endpoints : list string;
  se_first_refresh_poll : option Z;
  se_refreshed_endpoints : list string;
}.

Definition search_ensure_index_helper_new (user_agent index_name : string) (bucket_name scope_name : option string)
    (on_behalf_of_info : option OnBehalfOfInfo) : SearchEnsureIndexHelper :=
  mkSearchEnsureIndexHelper user_agent on_behalf_of_info bucket_name scope_name index_name [] None [].

Definition with_first_refresh_poll (t : Z) (h : SearchEnsureIndexHelper) : SearchEnsureIndexHelper :=
  mkSearchEnsureIndexHelper (se_user_agent h) (se_on_behalf_of_info h) (se_bucket_name h) (se_scope_name h)
    (se_index_name h) (se_confirmed_endpoints h) (Some t) (se_refreshed_endpoints h).

Definition with_refreshed_endpoints (l : list string) (h : SearchEnsureIndexHelper) : SearchEnsureIndexHelper :=
  mkSearchEnsureIndexHelper (se_user_agent h) (se_on_behalf_of_info h) (se_bucket_name h) (se_scope_name h)
    (se_index_name h) (se_confirmed_endpoints h) (se_first_refresh_poll h) l.

Definition with_confirmed_endpoints (l : list string) (h : SearchEnsureIndexHelper) : SearchEnsureIndexHelper :=
  mkSearchEnsureIndexHelper (se_user_agent h) (se_on_behalf_of_info h) (se_bucket_name h) (se_scope_name h)
    (se_index_name h) l (se_first_refresh_poll h) (se_refreshed_endpoints h).

Section Ensure.
Context {V : Type} {S : Type} `{HttpClient S}.
Context (utf8_error : list Z → option string) (from_slice_index : list Z → string + SearchIndexResponseJson V).
(** [Instant::now]. *)
Context (now : S → Z).

Abbreviation call := (io S Searchx.Error).

Definition search_target_client (self : SearchEnsureIndexHelper) (target : NodeTarget) : Search :=
  mkSearch (se_user_agent self) (nt_endpoint target) (nt_auth target) true.

(** Whether the node of a target has the index. *)
Definition search_poll_one (self : SearchEnsureIndexHelper) (target : NodeTarget) : call bool := λ s,
  match search_get_index utf8_error from_slice_index (search_target_client self target)
          (SearchGetIndexOptions.mk (se_index_name self) (se_bucket_name self) (se_scope_name self)
             (se_on_behalf_of_info self)) s with
  | (s, Some (Ok _)) => (s, Some (Ok true))
  | (s, Some (Err e)) =>
      match Searchx.kind e with
      | Searchx.Server se =>
          if decide (Searchx.se_kind se = Searchx.IndexNotFound) then (s, Some (Ok false)) else (s, Some (Err e))
      | _ => (s, Some (Err e))
      end
  | (s, Some Panic) => (s, Some Panic)
  | (s, None) => (s, None)
  end.

(** A node without the index is asked to refresh its config, once, but not within five seconds of the first
    one that had none.  The result of the request does not matter. *)
Definition maybe_refresh_one (self : SearchEnsureIndexHelper) (target : NodeTarget) : call SearchEnsureIndexHelper := λ s,
  match se_first_refresh_poll self with
  | None => (s, Some (Ok (with_first_refresh_poll (now s) self)))
  | Some first_refresh_poll =>
      if now s <? first_refresh_poll + from_millis 5000 then (s, Some (Ok self))
      else if decide (nt_endpoint target ∈ se_refreshed_endpoints self) then (s, Some (Ok self))
      else
        match refresh_config utf8_error (search_target_client self target) search_refresh_config_options_new s with
        | (s, Some Panic) => (s, Some Panic)
        | (s, None) => (s, None)
        | (s, Some _) =>
            (s, Some (Ok (with_refreshed_endpoints (se_refreshed_endpoints self ++ [nt_endpoint target]) self)))
        end
  end.

(** One target: whether it is in the state that is waited for.  A node without an index that was created is
    asked a second time. *)
Definition poll_target (desired_state : SearchDesiredState) (self : SearchEnsureIndexHelper) (target : NodeTarget)
    : call (bool * SearchEnsureIndexHelper) :=
  exists_ ← search_poll_one self target;
  match desired_state with
  | SearchCreated =>
      if (exists_ : bool) then mret (true, self)
      else
        self ← maybe_refresh_one self target;
        exists_ ← search_poll_one self target;
        mret (exists_, self)
  | SearchDeleted => mret (negb exists_, self)
  end.

Fixpoint poll_each (desired_state : SearchDesiredState) (self : SearchEnsureIndexHelper) (targets : list NodeTarget)
    : call (list string * SearchEnsureIndexHelper) :=
  match targets with
  | [] => mret ([], self)
  | target :: targets =>
      '(success, self) ← poll_target desired_state self target;
      '(rest, self) ← poll_each desired_state self targets;
      mret (if (success : bool) then nt_endpoint target :: rest else rest, self)
  end.

(** Only the targets that were not confirmed before are asked. *)
Definition search_ensure_poll (self : SearchEnsureIndexHelper) (desired_state : SearchDesiredState)
    (targets : list NodeTarget) : call (bool * SearchEnsureIndexHelper) :=
  let filtered_targets := filter (λ t, nt_endpoint t ∉ se_confirmed_endpoints self) targets in
  '(success_endpoints, self) ← poll_each desired_state self filtered_targets;
  mret (bool_decide (length success_endpoints = length filtered_targets),
        with_confirmed_endpoints (se_confirmed_endpoints self ++ success_endpoints) self).

(** ** Theorems: waiting *)

(** The targets took their turns, with these answers, and left the helper like this. *)
Inductive turns (d : SearchDesiredState) :
    list NodeTarget → S → SearchEnsureIndexHelper → list bool → S → SearchEnsureIndexHelper → Prop :=
| turns_none s h : turns d [] s h [] s h
| turns_one t ts s h b s1 h1 bs s2 h2 :
    poll_target d h t s = (s1, Some (Ok (b, h1))) → turns d ts s1 h1 bs s2 h2 → turns d (t :: ts) s h (b :: bs) s2 h2.

Lemma turns_length d ts s h bs s' h' : turns d ts s h bs s' h' → length bs = length ts.
Proof. induction 1; cbn; lia. Qed.

Lemma poll_each_turns d ts s h s' l h' :
  poll_each d h ts s = (s', Some (Ok (l, h'))) →
  ∃ bs, turns d ts s h bs s' h' ∧ l = nt_endpoint <$> (filter (λ p, p.2 = true) (zip ts bs)).*1.
Proof.
  revert s h l. induction ts as [|t ts IH]; intros s h l; cbn [poll_each].
  { intros [= -> <- ->]. exists []. split; [constructor|done]. }
  unfold mbind, io_bind. destruct (poll_target d h t s) as [s1 [[[b h1]|e| ]|]] eqn:Ht; try done. cbv beta iota.
  destruct (poll_each d h1 ts s1) as [s2 [[[l' h2]|e| ]|]] eqn:Hl; try done. cbn. intros [= -> <- ->].
  destruct (IH s1 h1 l' Hl) as (bs & Hb & ->). exists (b :: bs). split; [by econstructor|].
  cbn [zip zip_with]. destruct b; [rewrite filter_cons_True by done|rewrite filter_cons_False by done]; done.
Qed.

(** A target is counted only when the last look at it saw what is waited for. *)
Lemma turn_saw_wanted d h t s s' h' :
  poll_target d h t s = (s', Some (Ok (true, h'))) →
  ∃ h1 s1, search_poll_one h1 t s1 = (s', Some (Ok match d with SearchCreated => true | SearchDeleted => false end)).
Proof.
  unfold poll_target, mbind, io_bind. destruct (search_poll_one h t s) as [s1 [[e|x|]|]] eqn:Hp; try done.
  destruct d.
  - destruct e; [intros [= <- _]; by exists h, s|].
    destruct (maybe_refresh_one h t s1) as [s2 [[h2|x|]|]]; try done.
    destruct (search_poll_one h2 t s2) as [s3 [[e|x|]|]] eqn:Hp2; try done. intros [= <- -> _]. by exists h2, s2.
  - intros [= <- He _]. destruct e; [done|]. by exists h, s.
Qed.

(** A poll asks the targets that are not confirmed in turn; it ends the wait just when each of them is in
    the state that is waited for. *)
Lemma search_poll_is_over d h targets s s' finished h' :
  search_ensure_poll h d targets s = (s', Some (Ok (finished, h'))) →
  ∃ bs h1, turns d (filter (λ t, nt_endpoint t ∉ se_confirmed_endpoints h) targets) s h bs s' h1
    ∧ (finished = true ↔ Forall (λ b, b = true) bs).
Proof.
  unfold search_ensure_poll, mbind, io_bind. set (ts := filter _ targets).
  destruct (poll_each d h ts s) as [s1 [[[l h1]|e| ]|]] eqn:Hl; try done. cbn -[filter]. intros [= -> <- _].
  apply poll_each_turns in Hl as (bs & Hb & ->). exists bs, h1. split; [done|].
  rewrite bool_decide_eq_true, !length_fmap. apply all_answered. by eapply turns_length.
Qed.

(** A helper whose clock is within five seconds of its first refusal asks no node to refresh its config. *)
Lemma turn_does_not_refresh lo d h t s s' b h' :
  (∀ s, lo <= now s < lo + from_millis 5000) →
  (∀ t0, se_first_refresh_poll h = Some t0 → lo <= t0) → se_refreshed_endpoints h = [] →
  poll_target d h t s = (s', Some (Ok (b, h'))) →
  (∀ t0, se_first_refresh_poll h' = Some t0 → lo <= t0) ∧ se_refreshed_endpoints h' = [].
Proof.
  intros Hclock Hfirst Hnone. unfold poll_target, mbind, io_bind.
  destruct (search_poll_one h t s) as [s1 [[e|x|]|]]; try done.
  destruct d; [|by intros [= _ _ <-]]. destruct e; [by intros [= _ _ <-]|].
  unfold maybe_refresh_one. destruct (se_first_refresh_poll h) as [t0|] eqn:Hf.
  - pose proof (Hfirst t0 eq_refl). pose proof (Hclock s1). test_true (now s1 <? t0 + from_millis 5000).
    destruct (search_poll_one h t s1) as [s2 [[e|x|]|]]; try done. intros [= _ _ <-]. split; [|done].
    intros t1. rewrite Hf. by intros [= <-].
  - destruct (search_poll_one _ t s1) as [s2 [[e|x|]|]]; try done. intros [= _ _ <-]. cbn. split; [|done].
    intros t1 [= <-]. apply Hclock.
Qed.

Lemma turns_do_not_refresh lo d ts s h bs s' h' :
  (∀ s, lo <= now s < lo + from_millis 5000) →
  (∀ t0, se_first_refresh_poll h = Some t0 → lo <= t0) → se_refreshed_endpoints h = [] →
  turns d ts s h bs s' h' → se_refreshed_endpoints h' = [].
Proof.
  intros Hclock Hf Hn Ht. induction Ht as [|t ts s h b s1 h1 bs s2 h2 Hstep _ IH]; [done|].
  destruct (turn_does_not_refresh lo d h t s s1 b h1 Hclock Hf Hn Hstep) as [Hf1 Hn1]. by apply IH.
Qed.

End Ensure.

(** ** Theorems: requests *)

Section Requests.
Context {V S : Type} `{HttpClient S} (utf8_error : list Z → option string).

(** An operation succeeds only with a response of status 200 that could be read. *)
Lemma search_call_ok {A} self index_name (sent : io S HttpxError Response) (result : Response → outcome Searchx.Error A)
    s s' a :
  search_call utf8_error self index_name sent result s = (s', Some (Ok a)) →
  ∃ res, sent s = (s', Some (Ok res)) ∧ resp_status res = 200 ∧ result res = Ok a.
Proof.
  unfold search_call, mbind, io_bind, io_map_err. destruct (sent s) as [s1 [[res|e|]|]]; try done. cbn.
  destruct (resp_status res =? 200) eqn:Hst; cbn.
  - intros [= <- Hr]. exists res. split_and!; [done|by apply Z.eqb_eq|done].
  - unfold decode_response_error. destruct (response_bytes res) as [body|e|]; try done. by destruct (utf8_error body).
Qed.

(** Any other status is an error that names the index, the endpoint and the status, and whose kind is that
    of the text in lower case. *)
Lemma search_call_fails {A} self index_name (sent : io S HttpxError Response) (result : Response → outcome Searchx.Error A)
    s s' res body :
  sent s = (s', Some (Ok res)) → resp_status res ≠ 200 → response_bytes res = Ok body → utf8_error body = None →
  search_call utf8_error self index_name sent result s
  = (s', Some (Err (decode_common_error index_name (resp_status res) (to_lowercase body) (sx_endpoint self)))).
Proof.
  intros Hs Hst Hb Hu. unfold search_call, mbind, io_bind, io_map_err. rewrite Hs. cbn.
  test_false (resp_status res =? 200). cbn. unfold decode_response_error. by rewrite Hb, Hu.
Qed.

(** What names no index, or a bucket without a scope, is refused before anything is sent. *)
Lemma control_of_no_index self bucket_name scope_name control obo s :
  control_request (S:=S) utf8_error self "" bucket_name scope_name control obo s
  = (s, Some (Err (Searchx.new_invalid_argument_error "must specify index name" None))).
Proof. done. Qed.
End Requests.

(** A path is refused just when the bucket is given without its scope. *)
Lemma get_uri_refused index_name bucket_name scope_name :
  (∃ e, get_uri index_name bucket_name scope_name = Err e) ↔ is_Some bucket_name ∧ scope_name = None.
Proof.
  destruct bucket_name as [b|], scope_name as [sc|]; cbn; split;
    try (by intros [? [=]]); try (by intros [[? [=]] _]); try (by intros [_ [=]]).
  intros _. by eexists.
Qed.

(** A scope without its bucket is left out, where the count and the controls refuse it: the operation is one
    on an index of that name of the whole cluster. *)
Example scope_without_bucket_is_ignored index_name scope :
  get_uri index_name None (Some scope) = get_uri index_name None None
  ∧ ∃ e, index_action_path index_name None (Some scope) "count" = Err e.
Proof. split; [done|by eexists]. Qed.
