(* ===== verification/SearchComponent.v ===== *)
(** * The search operations of the agent ([searchcomponent.rs], [results/search.rs])

    Every operation chooses an endpoint of the search service and runs the search client there, and
    is run again when its error has a reason to be retried.  Whether the cluster knows vector
    searches comes with the config.

    Parameters as in [Search.v], and [url::Url::parse], the random choice of an endpoint and the
    clock. *)

From Stdlib Require Import SpecFloat.
From S2P Require Import Prelude Text HttpxError MgmtxError JsonScanner JsonDecoder RowStreamer RowReader.
From S2P Require Import Wire Bootstrap CoreError Retry Http SearchxError Json SearchQueries SearchOptions.
From S2P Require Import SearchMgmtOptions SearchReader Search QueryComponent.

(** [From<SearchError> for Error]. *)
Definition error_of_search (e : Searchx.Error) : Core.Error := Core.new (Core.Search e).

Record SearchComponentConfig : Type := mkSearchComponentConfig {
  scc_endpoints : gmap string string;
  scc_authenticator : Authenticator;
  scc_vector_search_enabled : bool;
}.

Definition search_http_state (config : SearchComponentConfig) : HttpComponentState :=
  mkHttpComponentState (scc_endpoints config) (scc_authenticator config).

Record SearchResultStream (V D : Type) : Type := mkSearchResultStream {
  ss_inner : SearchRespReader (V:=V) (D:=D);
  ss_endpoint : string;
}.
#[global] Arguments mkSearchResultStream {V D}.
#[global] Arguments ss_inner {V D}.
#[global] Arguments ss_endpoint {V D}.

Record PingSearchReportOptions : Type := mkPingSearchReportOptions {
  psr_on_behalf_of : option OnBehalfOfInfo;
  psr_timeout : Duration;
}.

Section Component.
Context {P : Profile} {V D S : Type} `{HttpClient S}.
Context (status_display : Z → string) (utf8_error : list Z → option string) (to_rfc3339 : D → string)
  (parse_from_rfc3339 : string → string + D).
Context (from_slice_string : list Z → string + string) (from_slice_value : list Z → string + V)
  (to_vec : gmap string V → string + list Z) (to_vec_ser : Serialized V → string + list Z)
  (from_slice_error_response : list Z → string + SearchJson.ErrorResponse)
  (from_slice_metadata : list Z → string + SearchJson.SearchMetaData)
  (from_slice_row : list Z → string + SearchJson.Row)
  (from_slice_index : list Z → string + SearchIndexResponseJson V)
  (from_slice_indexes : list Z → string + SearchIndexesResponseJson V)
  (from_slice_analysis : list Z → string + SearchJson.DocumentAnalysisJson)
  (from_slice_count : list Z → string + SearchJson.IndexedDocumentsJson).
Context (url_parse : string → string + option string * option Z) (random_range : nat → nat) (now : S → Z).
Context (http_state : S → HttpComponentState) (set_http_state : HttpComponentState → S → S).
(** [SearchComponentState]. *)
Context (vector_search_enabled : S → bool) (set_vector_search_enabled : bool → S → S).
Context (user_agent : string) (err_map_component : ErrMapComponent).

(** *** Results *)

Definition search_result_metadata (self : SearchResultStream V D) : outcome Core.Error SearchResultMetaData :=
  map_err error_of_search (search_metadata (ss_inner self)).

Definition search_result_facets (self : SearchResultStream V D) : outcome Core.Error (gmap string (FacetResult D)) :=
  map_err error_of_search (search_facets (ss_inner self)).

Definition search_result_poll_next (self : SearchResultStream V D)
    : SearchResultStream V D * option (outcome Core.Error ResultHit) :=
  let '(inner, item) :=
    search_poll_next from_slice_string from_slice_value to_vec from_slice_metadata from_slice_row parse_from_rfc3339
      (ss_inner self) in
  (mkSearchResultStream inner (ss_endpoint self), map_err error_of_search <$> item).

(** The endpoints and the credentials, and then what the cluster can do. *)
Definition search_reconfigure (config : SearchComponentConfig) (s : S) : S :=
  set_vector_search_enabled (scc_vector_search_enabled config) (set_http_state (search_http_state config) s).

(** *** Operations *)

Section Calls.
Context {T : Type} `{RetryStrategy T}.

(** A call of the search client at a chosen endpoint, with retries; what the cluster can do is looked up by
    each attempt. *)
Definition orchestrate_search {A} (fuel : nat) (retry_strategy : T) (retry_info : RetryRequest)
    (endpoint : option string) (operation : Search → io S Searchx.Error A) (s : S)
    : S * list (RetryReason * Duration) * option (outcome Core.Error A) :=
  orchestrate_retries err_map_component retry_strategy fuel retry_info
    (orchestrate_endpoint url_parse http_state ServiceType.Search random_range endpoint
       (λ endpoint_id endpoint auth s,
          io_map_err error_of_search (operation (mkSearch user_agent endpoint auth (vector_search_enabled s))) s)) s.

Definition vector_search_not_available : Core.Error :=
  Core.new (Core.FeatureNotAvailable "Vector Search"
              "vector queries are available from Couchbase Server 7.6.0 and above").

Definition component_search_query (fuel : nat) (opts : CoreSearchOptions T D V) (s : S)
    : S * list (RetryReason * Duration) * option (outcome Core.Error (SearchResultStream V D)) :=
  if bool_decide (is_Some (CoreSearchOptions.knn opts) ∨ is_Some (CoreSearchOptions.knn_operator opts))
     && negb (vector_search_enabled s)
  then (s, [], Some (Err vector_search_not_available))
  else
    orchestrate_search fuel (CoreSearchOptions.retry_strategy opts) (retry_request_new "search_query" true)
      (CoreSearchOptions.endpoint opts)
      (λ client,
         res ← search_query status_display to_rfc3339 parse_from_rfc3339 from_slice_string from_slice_value to_vec
                 to_vec_ser from_slice_error_response from_slice_metadata client (core_search_options_into opts);
         mret (mkSearchResultStream res (sx_endpoint client))) s.

Definition component_search_get_index (fuel : nat) (opts : CoreSearchGetIndexOptions T) :=
  orchestrate_search fuel (CoreSearchGetIndexOptions.retry_strategy opts)
    (retry_request_new "search_get_index" true) (CoreSearchGetIndexOptions.endpoint opts)
    (λ client, search_get_index utf8_error from_slice_index client
       (core_search_get_index_options_into opts)).

Definition component_search_get_all_indexes (fuel : nat) (opts : CoreSearchGetAllIndexesOptions T) :=
  orchestrate_search fuel (CoreSearchGetAllIndexesOptions.retry_strategy opts)
    (retry_request_new "search_get_all_indexes" true) (CoreSearchGetAllIndexesOptions.endpoint opts)
    (λ client, search_get_all_indexes utf8_error from_slice_indexes client
       (core_search_get_all_indexes_options_into opts)).

Definition component_search_upsert_index (fuel : nat) (opts : CoreSearchUpsertIndexOptions T V) :=
  orchestrate_search fuel (CoreSearchUpsertIndexOptions.retry_strategy opts)
    (retry_request_new "search_upsert_index" true) (CoreSearchUpsertIndexOptions.endpoint opts)
    (λ client, search_upsert_index utf8_error to_vec_ser client
       (core_search_upsert_index_options_into opts)).

Definition component_search_delete_index (fuel : nat) (opts : CoreSearchDeleteIndexOptions T) :=
  orchestrate_search fuel (CoreSearchDeleteIndexOptions.retry_strategy opts)
    (retry_request_new "search_delete_index" true) (CoreSearchDeleteIndexOptions.endpoint opts)
    (λ client, search_delete_index utf8_error client
       (core_search_delete_index_options_into opts)).

Definition component_search_analyze_document (fuel : nat) (opts : CoreSearchAnalyzeDocumentOptions T) :=
  orchestrate_search fuel (CoreSearchAnalyzeDocumentOptions.retry_strategy opts)
    (retry_request_new "search_analyze_document" true) (CoreSearchAnalyzeDocumentOptions.endpoint opts)
    (λ client, analyze_document utf8_error from_slice_analysis client
       (core_search_analyze_document_options_into opts)).

Definition component_search_get_indexed_documents_count (fuel : nat) (opts : CoreSearchGetIndexedDocumentsCountOptions T) :=
  orchestrate_search fuel (CoreSearchGetIndexedDocumentsCountOptions.retry_strategy opts)
    (retry_request_new "search_get_indexed_documents_count" true) (CoreSearchGetIndexedDocumentsCountOptions.endpoint opts)
    (λ client, get_indexed_documents_count utf8_error from_slice_count client
       (core_search_get_indexed_documents_count_options_into opts)).

Definition component_search_pause_ingest (fuel : nat) (opts : CoreSearchPauseIngestOptions T) :=
  orchestrate_search fuel (CoreSearchPauseIngestOptions.retry_strategy opts)
    (retry_request_new "search_pause_ingest" true) (CoreSearchPauseIngestOptions.endpoint opts)
    (λ client, pause_ingest utf8_error client
       (core_search_pause_ingest_options_into opts)).

Definition component_search_resume_ingest (fuel : nat) (opts : CoreSearchResumeIngestOptions T) :=
  orchestrate_search fuel (CoreSearchResumeIngestOptions.retry_strategy opts)
    (retry_request_new "search_resume_ingest" true) (CoreSearchResumeIngestOptions.endpoint opts)
    (λ client, resume_ingest utf8_error client
       (core_search_resume_ingest_options_into opts)).

Definition component_search_allow_querying (fuel : nat) (opts : CoreSearchAllowQueryingOptions T) :=
  orchestrate_search fuel (CoreSearchAllowQueryingOptions.retry_strategy opts)
    (retry_request_new "search_allow_querying" true) (CoreSearchAllowQueryingOptions.endpoint opts)
    (λ client, allow_querying utf8_error client
       (core_search_allow_querying_options_into opts)).

Definition component_search_disallow_querying (fuel : nat) (opts : CoreSearchDisallowQueryingOptions T) :=
  orchestrate_search fuel (CoreSearchDisallowQueryingOptions.retry_strategy opts)
    (retry_request_new "search_disallow_querying" true) (CoreSearchDisallowQueryingOptions.endpoint opts)
    (λ client, disallow_querying utf8_error client
       (core_search_disallow_querying_options_into opts)).

Definition component_search_freeze_plan (fuel : nat) (opts : CoreSearchFreezePlanOptions T) :=
  orchestrate_search fuel (CoreSearchFreezePlanOptions.retry_strategy opts)
    (retry_request_new "search_freeze_plan" true) (CoreSearchFreezePlanOptions.endpoint opts)
    (λ client, freeze_plan utf8_error client
       (core_search_freeze_plan_options_into opts)).

Definition component_search_unfreeze_plan (fuel : nat) (opts : CoreSearchUnfreezePlanOptions T) :=
  orchestrate_search fuel (CoreSearchUnfreezePlanOptions.retry_strategy opts)
    (retry_request_new "search_unfreeze_plan" true) (CoreSearchUnfreezePlanOptions.endpoint opts)
    (λ client, unfreeze_plan utf8_error client
       (core_search_unfreeze_plan_options_into opts)).

(** A search operation is sent again because no node was known, because the request could not be sent or
    because the node had too many requests, and for no other reason. *)
Lemma search_repeated_for {A} fuel (strategy : T) req endpoint (operation : Search → io S Searchx.Error A) s :
  Forall (λ p, p.1 = RetryReason.ServiceNotAvailable ∨ p.1 = RetryReason.HttpSendRequestFailed
               ∨ p.1 = RetryReason.SearchTooManyRequests)
    (snd (fst (orchestrate_search fuel strategy req endpoint operation s))).
Proof.
  apply (orchestrate_endpoint_reasons err_map_component strategy url_parse random_range http_state ServiceType.Search
    (λ r, r = RetryReason.ServiceNotAvailable ∨ r = RetryReason.HttpSendRequestFailed
          ∨ r = RetryReason.SearchTooManyRequests)); [by left|].
  intros id ep auth s1 s2 e req' reason He Hr. unfold io_map_err in He.
  destruct (operation _ s1) as [s3 [[a|x|]|]]; try done. cbn in He. injection He as _ <-.
  unfold error_of_search, error_to_retry_reason in Hr. cbn in Hr. destruct (Searchx.kind x); try done.
  - destruct (_ =? 429); [|done]. injection Hr as <-. by right; right.
  - unfold http_retry_reason in Hr. destruct (httpx_kind _); try done. injection Hr as <-. by right; left.
Qed.

(** Without vector searches in the cluster a vector query is refused before anything is sent. *)
Lemma vector_query_refused fuel (opts : CoreSearchOptions T D V) s :
  vector_search_enabled s = false →
  is_Some (CoreSearchOptions.knn opts) ∨ is_Some (CoreSearchOptions.knn_operator opts) →
  component_search_query fuel opts s = (s, [], Some (Err vector_search_not_available)).
Proof. intros Hs Ho. unfold component_search_query. rewrite bool_decide_true by done. by rewrite Hs. Qed.
End Calls.

(** *** Waiting for an index *)

(** Every poll is one of a copy of the helper. *)
Definition component_search_ensure_index (powi : spec_float → Z → spec_float) (fuel : nat)
    (opts : CoreSearchEnsureIndexOptions) (s : S) : S * list Duration * option (outcome Core.Error unit) :=
  let helper :=
    search_ensure_index_helper_new user_agent (CoreSearchEnsureIndexOptions.index_name opts)
      (CoreSearchEnsureIndexOptions.bucket_name opts) (CoreSearchEnsureIndexOptions.scope_name opts)
      (CoreSearchEnsureIndexOptions.on_behalf_of_info opts) in
  ensure_resource (H := exponential_calculator powi) url_parse http_state ServiceType.Search fuel ensure_backoff
    (λ targets _,
       io_map_err error_of_search
         ('(finished, _) ← search_ensure_poll utf8_error from_slice_index now helper
                             (CoreSearchEnsureIndexOptions.desired_state opts) targets;
          mret (finished, tt)))
    tt s.

(** A wait that ended did so after a poll that asked every endpoint known at that time, each of which was in
    the state that is waited for; the pauses are between a tenth of a second and a second. *)
Lemma search_index_wait_ends powi fuel opts s s' pauses :
  component_search_ensure_index powi fuel opts s = (s', pauses, Some (Ok tt)) →
  (∃ s1 targets bs h',
     (nt_endpoint <$> targets) = (map_to_list (hcs_endpoints (http_state s1))).*2
     ∧ turns utf8_error from_slice_index now (CoreSearchEnsureIndexOptions.desired_state opts) targets s1
         (search_ensure_index_helper_new user_agent (CoreSearchEnsureIndexOptions.index_name opts)
           (CoreSearchEnsureIndexOptions.bucket_name opts) (CoreSearchEnsureIndexOptions.scope_name opts)
           (CoreSearchEnsureIndexOptions.on_behalf_of_info opts)) bs s' h'
     ∧ Forall (λ b, b = true) bs)
  ∧ Forall (λ d, from_millis 100 <= d <= from_millis 1000) pauses.
Proof.
  unfold component_search_ensure_index, ensure_resource. intros Hrun.
  apply ensure_resource_ok in Hrun as [(s1 & t1 & t2 & targets & Hg & Hp) Hps]. split.
  2:{ eapply list.Forall_impl; [exact Hps|]. intros d [n Hd]. by eapply ensure_pauses. }
  apply get_all_targets_all in Hg. unfold io_map_err, mbind, io_bind in Hp.
  destruct (search_ensure_poll _ _ _ _ _ _ s1) as [s2 [[[finished h]|e|]|]] eqn:Hpoll; try done.
  cbn in Hp. injection Hp as -> -> _. apply search_poll_is_over in Hpoll as (bs & h1 & Ht & Hiff).
  rewrite filter_all in Ht by (intros ?; apply not_elem_of_nil).
  exists s1, targets, bs, h1. split; [done|]. split; [exact Ht|]. by apply Hiff.
Qed.

(** *** Pings *)

Definition search_target (vector : bool) (target : NodeTarget) : Search :=
  mkSearch user_agent (nt_endpoint target) (nt_auth target) vector.

Definition search_ping_one (client : Search) (opts : SearchPingOptions) : action S unit :=
  io_map_err error_of_search (search_ping status_display client opts).

Definition search_ping_all_endpoints (on_behalf_of : option OnBehalfOfInfo) (s : S)
    : S * option (outcome Core.Error (list (outcome Core.Error unit))) :=
  match get_all_targets url_parse ServiceType.Search (http_state s) [] with
  | Ok targets =>
      let '(s, results) :=
        join_all ((λ t, search_ping_one (search_target false t) (SearchPingOptions.mk on_behalf_of)) <$> targets) s in
      (s, Ok <$> results)
  | Err e => (s, Some (Err e))
  | Panic => (s, Some Panic)
  end.

(** [select!] of a sleep and a call, as in [QueryComponent.v]. *)
Context (select_timeout : Duration → io S Searchx.Error unit → S → S * option (option (outcome Searchx.Error unit))).

Definition search_create_one_report (client : Search) (timeout : Duration) (opts : SearchPingOptions) (s0 : S)
    : S * option EndpointPingReport :=
  let start := now s0 in
  match select_timeout timeout (search_ping status_display client opts) s0 with
  | (s, Some None) =>
      (s, Some (mkEndpointPingReport (sx_endpoint client) None (now s - start) None None PingTimeout))
  | (s, Some (Some (Ok _))) =>
      (s, Some (mkEndpointPingReport (sx_endpoint client) None (now s - start) None None PingOk))
  | (s, Some (Some (Err e))) =>
      (s, Some (mkEndpointPingReport (sx_endpoint client) (Some (error_of_search e)) (now s - start) None None PingError))
  | (s, Some (Some Panic)) | (s, None) => (s, None)
  end.

Definition search_create_ping_report (opts : PingSearchReportOptions) (s : S)
    : S * option (outcome Core.Error (list EndpointPingReport)) :=
  match get_all_targets url_parse ServiceType.Search (http_state s) [] with
  | Ok targets =>
      let '(s, reports) :=
        join_all ((λ t, search_create_one_report (search_target (vector_search_enabled s) t) (psr_timeout opts)
                          (SearchPingOptions.mk (psr_on_behalf_of opts))) <$> targets) s in
      (s, Ok <$> reports)
  | Err e => (s, Some (Err e))
  | Panic => (s, Some Panic)
  end.

End Component.
