(* ===== verification/Diagnostics.v ===== *)
(** * Pings, diagnostics and waiting until ready ([diagnosticscomponent.rs], and what it calls of
    [kvendpointclientmanager.rs], [kvclientpool.rs] and [kvclient_babysitter.rs];
    [results/pingreport.rs], [results/diagnostics.rs], [options/ping.rs], [options/diagnostics.rs],
    [options/waituntilready.rs])

    A ping asks every node of the services that are asked for, and reports each answer; a wait asks
    them all again, with pauses, until they are ready.  The query and search components and the
    key-value manager are interfaces here; those of [QueryComponent.v] and [SearchComponent.v] are
    instances.

    Calls that run at the same time run here one after the other; [in_order] is the order in which
    the checks of a wait end. *)

From S2P Require Import Prelude Wire MemdError Requests Response Bootstrap CoreError Retry Babysitter.
From S2P Require Import CrudOptions Json Http QueryxError SearchxError KvClient QueryComponent SearchComponent.

#[global] Instance service_type_eq_dec : EqDecision ServiceType.
Proof. solve_decision. Defined.

(** ** Options and results *)

Module CorePingOptions.
Record CorePingOptions : Type := mk {
  service_types : option (list ServiceType);
  kv_timeout : option Duration;
  query_timeout : option Duration;
  search_timeout : option Duration;
  on_behalf_of : option OnBehalfOfInfo;
}.
End CorePingOptions.
Abbreviation CorePingOptions := CorePingOptions.CorePingOptions.
#[global] Instance core_ping_options_settable : Settable CorePingOptions := λ r,
  CorePingOptions.mk (CorePingOptions.service_types r) (CorePingOptions.kv_timeout r)
    (CorePingOptions.query_timeout r) (CorePingOptions.search_timeout r) (CorePingOptions.on_behalf_of r).

Definition core_ping_options_new : CorePingOptions := CorePingOptions.mk None None None None None.
Definition core_ping_options_service_types (service_types : list ServiceType) (self : CorePingOptions) : CorePingOptions :=
  self <| CorePingOptions.service_types := Some service_types |>.
Definition core_ping_options_kv_timeout (timeout : Duration) (self : CorePingOptions) : CorePingOptions :=
  self <| CorePingOptions.kv_timeout := Some timeout |>.
Definition core_ping_options_query_timeout (timeout : Duration) (self : CorePingOptions) : CorePingOptions :=
  self <| CorePingOptions.query_timeout := Some timeout |>.
Definition core_ping_options_search_timeout (timeout : Duration) (self : CorePingOptions) : CorePingOptions :=
  self <| CorePingOptions.search_timeout := Some timeout |>.
Definition core_ping_options_on_behalf_of (info : option OnBehalfOfInfo) (self : CorePingOptions) : CorePingOptions :=
  self <| CorePingOptions.on_behalf_of := info |>.

Inductive ClusterState : Type := Online | Degraded | Offline.

#[global] Instance cluster_state_eq_dec : EqDecision ClusterState.
Proof. solve_decision. Defined.

Module CoreWaitUntilReadyOptions.
Section Fields.
Context {T : Type}.
Record CoreWaitUntilReadyOptions : Type := mk {
  desired_state : option ClusterState;
  service_types : option (list ServiceType);
  retry_strategy : T;
  on_behalf_of : option OnBehalfOfInfo;
}.
End Fields.
#[global] Arguments CoreWaitUntilReadyOptions : clear implicits.
End CoreWaitUntilReadyOptions.
Abbreviation CoreWaitUntilReadyOptions := CoreWaitUntilReadyOptions.CoreWaitUntilReadyOptions.
#[global] Instance core_wait_until_ready_options_settable T : Settable (CoreWaitUntilReadyOptions T) := λ r,
  CoreWaitUntilReadyOptions.mk (CoreWaitUntilReadyOptions.desired_state r) (CoreWaitUntilReadyOptions.service_types r)
    (CoreWaitUntilReadyOptions.retry_strategy r) (CoreWaitUntilReadyOptions.on_behalf_of r).

Definition core_wait_until_ready_options_new : CoreWaitUntilReadyOptions FailFastRetryStrategy :=
  CoreWaitUntilReadyOptions.mk None None DEFAULT_RETRY_STRATEGY None.
Definition core_wait_until_ready_options_desired_state {T} (state : ClusterState) (self : CoreWaitUntilReadyOptions T) :
    CoreWaitUntilReadyOptions T :=
  self <| CoreWaitUntilReadyOptions.desired_state := Some state |>.
Definition core_wait_until_ready_options_service_types {T} (service_types : list ServiceType)
    (self : CoreWaitUntilReadyOptions T) : CoreWaitUntilReadyOptions T :=
  self <| CoreWaitUntilReadyOptions.service_types := Some service_types |>.
Definition core_wait_until_ready_options_retry_strategy {T T'} (retry_strategy : T')
    (self : CoreWaitUntilReadyOptions T) : CoreWaitUntilReadyOptions T' :=
  CoreWaitUntilReadyOptions.mk (CoreWaitUntilReadyOptions.desired_state self)
    (CoreWaitUntilReadyOptions.service_types self) retry_strategy (CoreWaitUntilReadyOptions.on_behalf_of self).
Definition core_wait_until_ready_options_on_behalf_of {T} (info : OnBehalfOfInfo) (self : CoreWaitUntilReadyOptions T) :
    CoreWaitUntilReadyOptions T :=
  self <| CoreWaitUntilReadyOptions.on_behalf_of := Some info |>.

(** The entries of [services], one for each service. *)
Record PingReport : Type := mkPingReport {
  pr_version : Z;
  pr_id : string;
  pr_sdk : string;
  pr_config_rev : Z;
  pr_services : list (ServiceType * list EndpointPingReport);
}.

Record EndpointDiagnostics : Type := mkEndpointDiagnostics {
  ed_service_type : ServiceType;
  ed_id : string;
  ed_local_address : option string;
  ed_remote_address : string;
  ed_last_activity : option Z;
  ed_namespace : option string;
  ed_state : ConnectionState;
}.

Record DiagnosticsResult : Type := mkDiagnosticsResult {
  dr_version : Z;
  dr_config_rev : Z;
  dr_id : string;
  dr_sdk : string;
  dr_services : list (ServiceType * list EndpointDiagnostics);
}.

Record PingKvOptions : Type := mkPingKvOptions {
  pko_on_behalf_of : option string;
  pko_timeout : Duration;
  pko_bucket : option string;
}.

Record DiagnosticsComponentConfig : Type := mkDiagnosticsComponentConfig {
  dcc_bucket : option string;
  dcc_services : list ServiceType;
  dcc_rev_id : Z;
}.

(** [DiagnosticsComponentState] has the same fields as the config. *)
Record DiagnosticsComponentState : Type := mkDiagnosticsComponentState {
  dcs_bucket : option string;
  dcs_services : list ServiceType;
  dcs_rev_id : Z;
}.

(** ** Connections *)

(** A babysitter ([B]), its client ([K]), and the pools ([L]) of the endpoint manager, as far as pings go. *)
Class PingPools (S B K L : Type) := {
  pp_client_pools : S → gmap string L;
  pp_babysitters : L → S → list B;
  pp_pool_get_client : L → io S Core.Error K;
  pp_get_client : B → io S Core.Error K;
  pp_endpoint_diagnostics : B → S → EndpointDiagnostics;
  pp_remote_addr : K → S → string;
  pp_id : K → S → string;
}.

(** The microseconds of a [chrono::TimeDelta], which are an [i64]. *)
Definition num_microseconds (d : Z) : option Z :=
  if (- 2 ^ 63 <=? d) && (d <? 2 ^ 63) then Some d else None.

(** What [endpoint_diagnostics] of a babysitter is made of: the client it has, if any, with its address and
    the time since it was last active, in microseconds. *)
Definition babysitter_diagnostics (id remote_address : string) (selected_bucket : option string)
    (current_state : ConnectionState) (client : option (string * Z)) (now_micros : Z) : EndpointDiagnostics :=
  let '(local_address, last_activity) :=
    match client with
    | Some (local_addr, last_activity) => (Some local_addr, Some (default 0 (num_microseconds (now_micros - last_activity))))
    | None => (None, None)
    end in
  mkEndpointDiagnostics ServiceType.Memd id local_address remote_address last_activity selected_bucket current_state.

Section Component.
Context {P : Profile} {S B K L : Type} `{PingPools S B K L} `{KvClientOps S K}.

Abbreviation client_pools := (pp_client_pools (B:=B) (K:=K) (L:=L)).

(** The ping of a client, with the error the agent makes of it. *)
Definition ping_client (client : K) (req : PingRequest) : io S Core.Error unit :=
  io_map_err Core.new_contextual_memdx_error (kc_ping client req).

(** [KvClientPool::ping_all_clients]: every babysitter of the pool, whether or not it has a client now. *)
Definition pool_ping_all_clients (pool : L) (req : PingRequest) (s : S) : S * option (list (outcome Core.Error unit)) :=
  join_all ((λ b, client ← pp_get_client (L:=L) b; ping_client client req) <$> pp_babysitters (K:=K) pool s) s.

Definition pool_endpoint_diagnostics (pool : L) (s : S) : list EndpointDiagnostics :=
  (λ b, pp_endpoint_diagnostics (K:=K) (L:=L) b s) <$> pp_babysitters (K:=K) pool s.

(** [KvEndpointClientManager::ping_all_clients]: the answers of each pool under its endpoint. *)
Definition ping_pool (req : PingRequest) (p : string * L) (s : S)
    : S * option (string * list (outcome Core.Error unit)) :=
  let '(s, r) := pool_ping_all_clients p.2 req s in (s, r ← r; Some (p.1, r)).

Definition manager_ping_all_clients (req : PingRequest) (s : S)
    : S * option (gmap string (list (outcome Core.Error unit))) :=
  let '(s, results) := join_all (ping_pool req <$> map_to_list (client_pools s)) s in
  (s, results ← results; Some (list_to_map results)).

Definition manager_endpoint_diagnostics (s : S) : list EndpointDiagnostics :=
  concat ((λ p, pool_endpoint_diagnostics p.2 s) <$> map_to_list (client_pools s)).

(** [get_client_per_endpoint]: one after the other, to the first that fails. *)
Fixpoint clients_of_pools (pools : list (string * L)) : io S Core.Error (list K) :=
  match pools with
  | [] => mret []
  | (_, pool) :: pools => client ← pp_pool_get_client (B:=B) pool; clients ← clients_of_pools pools; mret (client :: clients)
  end.

Definition get_client_per_endpoint : io S Core.Error (list K) := λ s,
  clients_of_pools (map_to_list (client_pools s)) s.

(** ** The component *)

(** The query and the search component. *)
Class HttpPings := {
  hp_query_report : PingQueryReportOptions → S → S * option (outcome Core.Error (list EndpointPingReport));
  hp_search_report : PingSearchReportOptions → S → S * option (outcome Core.Error (list EndpointPingReport));
  hp_query_all : option OnBehalfOfInfo → S → S * option (outcome Core.Error (list (outcome Core.Error unit)));
  hp_search_all : option OnBehalfOfInfo → S → S * option (outcome Core.Error (list (outcome Core.Error unit)));
}.

Context `{!HttpPings} (now : S → Z) (new_uuid : S → S * string).
Context (state : S → DiagnosticsComponentState) (set_state : DiagnosticsComponentState → S → S).

Definition diagnostics_reconfigure (config : DiagnosticsComponentConfig) (s : S) : S :=
  set_state (mkDiagnosticsComponentState (dcc_bucket config) (dcc_services config) (dcc_rev_id config)) s.

Definition fresh_id : io S Core.Error string := λ s,
  let '(s, id) := new_uuid s in (s, Some (Ok id)).

Definition diagnostics : io S Core.Error DiagnosticsResult := λ s,
  let endpoint_reports := manager_endpoint_diagnostics s in
  let rev_id := dcs_rev_id (state s) in
  (id ← fresh_id; mret (mkDiagnosticsResult 2 rev_id id "rust" [(ServiceType.Memd, endpoint_reports)])) s.

(** The services that are asked for: none means all that are there. *)
Definition requested_services (service_types : option (list ServiceType)) (available : list ServiceType) : list ServiceType :=
  match service_types with Some [] | None => available | Some st => st end.

(** One connection for each endpoint; nothing cuts a ping short. *)
Definition ping_kv_client (bucket : option string) (req : PingRequest) (client : K) (s0 : S) : S * option EndpointPingReport :=
  match ping_client client req s0 with
  | (s, Some (Ok _)) =>
      (s, Some (mkEndpointPingReport (pp_remote_addr (B:=B) (L:=L) client s) None (now s - now s0) (Some (pp_id (B:=B) (L:=L) client s)) bucket PingOk))
  | (s, Some (Err e)) =>
      (s, Some (mkEndpointPingReport (pp_remote_addr (B:=B) (L:=L) client s) (Some e) (now s - now s0) (Some (pp_id (B:=B) (L:=L) client s)) bucket
                  PingError))
  | (s, Some Panic) | (s, None) => (s, None)
  end.

Definition ping_all_kv_nodes (opts : PingKvOptions) : io S Core.Error (list EndpointPingReport) := λ s,
  match get_client_per_endpoint s with
  | (s, Some (Ok clients)) =>
      let req := PingRequest.mk (pko_on_behalf_of opts) in
      let '(s, reports) := join_all (ping_kv_client (pko_bucket opts) req <$> clients) s in
      (s, Ok <$> reports)
  | (s, Some (Err e)) => (s, Some (Err e))
  | (s, Some Panic) => (s, Some Panic)
  | (s, None) => (s, None)
  end.

(** The report of a service that is asked for. *)
Definition report_if (service_types : list ServiceType) (st : ServiceType)
    (report : io S Core.Error (list EndpointPingReport)) : io S Core.Error (list (ServiceType * list EndpointPingReport)) :=
  if decide (st ∈ service_types) then r ← report; mret [(st, r)] else mret [].

Definition diagnostics_ping (opts : CorePingOptions) : io S Core.Error PingReport := λ s,
  let st := state s in
  let service_types := requested_services (CorePingOptions.service_types opts) (dcs_services st) in
  let on_behalf_of := CorePingOptions.on_behalf_of opts in
  (query ← report_if service_types ServiceType.Query
             (hp_query_report (mkPingQueryReportOptions on_behalf_of
                (default (from_millis 75000) (CorePingOptions.query_timeout opts))));
   search ← report_if service_types ServiceType.Search
              (hp_search_report (mkPingSearchReportOptions on_behalf_of
                 (default (from_millis 75000) (CorePingOptions.search_timeout opts))));
   kv ← report_if service_types ServiceType.Memd
          (ping_all_kv_nodes (mkPingKvOptions (obo_username <$> on_behalf_of)
             (default (from_millis 2500) (CorePingOptions.kv_timeout opts)) (dcs_bucket st)));
   id ← fresh_id;
   mret (mkPingReport 2 id "rust" (dcs_rev_id st) (query ++ search ++ kv))) s.

(** *** Waiting until ready *)

(** All of the answers, or at least one. *)
Definition enough (desired_state : ClusterState) (results : list (outcome Core.Error unit)) : bool :=
  if decide (desired_state = Online) then forallb is_ok results else existsb is_ok results.

(** A service whose nodes cannot be listed is not ready. *)
Definition is_http_ready (all : S → S * option (outcome Core.Error (list (outcome Core.Error unit))))
    (desired_state : ClusterState) (s : S) : S * option bool :=
  match all s with
  | (s, Some (Ok results)) => (s, Some (enough desired_state results))
  | (s, Some (Err _)) => (s, Some false)
  | (s, Some Panic) | (s, None) => (s, None)
  end.

(** Every pool is enough. *)
Definition is_kv_ready (on_behalf_of : option string) (desired_state : ClusterState) (s : S) : S * option bool :=
  let '(s, responses) := manager_ping_all_clients (PingRequest.mk on_behalf_of) s in
  (s, (λ m : gmap string (list (outcome Core.Error unit)),
         forallb (λ p, enough desired_state p.2) (map_to_list m)) <$> responses).

Definition ready_checks (service_types : list ServiceType) (on_behalf_of : option OnBehalfOfInfo)
    (desired_state : ClusterState) : list (S → S * option bool) :=
  (if decide (ServiceType.Query ∈ service_types) then [is_http_ready (hp_query_all on_behalf_of) desired_state] else [])
  ++ (if decide (ServiceType.Search ∈ service_types) then [is_http_ready (hp_search_all on_behalf_of) desired_state] else [])
  ++ (if decide (ServiceType.Memd ∈ service_types) then [is_kv_ready (obo_username <$> on_behalf_of) desired_state] else []).

(** The checks as they end, up to the first that is not ready. *)
Fixpoint all_ready (checks : list (S → S * option bool)) (s : S) : S * option bool :=
  match checks with
  | [] => (s, Some true)
  | check :: checks =>
      match check s with
      | (s, Some true) => all_ready checks s
      | (s, r) => (s, r)
      end
  end.

Context {T : Type} `{RetryStrategy T}.
(** The checks in the order in which they end, in each round. *)
Context (in_order : list (S → S * option bool) → list (S → S * option bool)).

Fixpoint wait_rounds (fuel : nat) (retry_strategy : T) (retry_info : RetryRequest) (checks : list (S → S * option bool))
    (s : S) : S * list Duration * option (outcome Core.Error unit) :=
  match fuel with
  | O => (s, [], None)
  | Datatypes.S fuel =>
      match all_ready (in_order checks) s with
      | (s, Some true) => (s, [], Some (Ok tt))
      | (s, Some false) =>
          match maybe_retry retry_strategy retry_info RetryReason.NotReady with
          | Ok (retry_info, Some duration) =>
              let '(s, pauses, r) := wait_rounds fuel retry_strategy retry_info checks s in (s, duration :: pauses, r)
          | Ok (_, None) =>
              (s, [], Some (Err (Core.new_message_error "retry manager indicated no retry, this is a bug")))
          | Err e => (s, [], Some (Err e))
          | Panic => (s, [], Some Panic)
          end
      | (s, None) => (s, [], None)
      end
  end.

(** The services are those that were there when the wait began. *)
Definition wait_until_ready (fuel : nat) (opts : CoreWaitUntilReadyOptions T) (s : S)
    : S * list Duration * option (outcome Core.Error unit) :=
  let desired_state := default Online (CoreWaitUntilReadyOptions.desired_state opts) in
  if decide (desired_state = Offline) then
    (s, [], Some (Err (Core.new (Core.InvalidArgument "cannot be Offline" (Some "desired_state"%string)))))
  else
    let service_types := requested_services (CoreWaitUntilReadyOptions.service_types opts) (dcs_services (state s)) in
    wait_rounds fuel (CoreWaitUntilReadyOptions.retry_strategy opts) (retry_request_new "wait_until_ready" true)
      (ready_checks service_types (CoreWaitUntilReadyOptions.on_behalf_of opts) desired_state) s.


(** ** Theorems *)

(** The checks that ended were all ready. *)
Lemma all_ready_each checks s s' :
  all_ready checks s = (s', Some true) → Forall (λ c : S → S * option bool, ∃ s1 s2, c s1 = (s2, Some true)) checks.
Proof.
  revert s. induction checks as [|c checks IH]; intros s; cbn [all_ready]; [constructor|].
  destruct (c s) as [s1 [[]|]] eqn:Hc; try done. intros Hr. constructor; [by exists s, s1|by eapply IH].
Qed.

(** One round of a wait. *)
Lemma wait_rounds_S fuel (strategy : T) req checks s :
  wait_rounds (Datatypes.S fuel) strategy req checks s
  = match all_ready (in_order checks) s with
    | (s, Some true) => (s, [], Some (Ok tt))
    | (s, None) => (s, [], None)
    | (s, Some false) =>
        match retry_after strategy req RetryReason.NotReady with
        | Ok (Some duration) =>
            match add_retry_attempt req RetryReason.NotReady with
            | Ok req => let '(s, pauses, r) := wait_rounds fuel strategy req checks s in (s, duration :: pauses, r)
            | Err e => (s, [], Some (Err e))
            | Panic => (s, [], Some Panic)
            end
        | Ok None => (s, [], Some (Err (Core.new_message_error "retry manager indicated no retry, this is a bug")))
        | Err e => (s, [], Some (Err e))
        | Panic => (s, [], Some Panic)
        end
    end.
Proof.
  cbn [wait_rounds]. destruct (all_ready _ _) as [s1 [[]|]]; try done. unfold maybe_retry. cbn [always_retry].
  destruct (retry_after _ _ _) as [[d|]|e|]; try done. cbn. by destruct (add_retry_attempt _ _).
Qed.

Lemma wait_rounds_ok fuel (strategy : T) req checks s s' pauses :
  wait_rounds fuel strategy req checks s = (s', pauses, Some (Ok tt)) →
  ∃ s1, all_ready (in_order checks) s1 = (s', Some true).
Proof.
  revert req s pauses. induction fuel as [|fuel IH]; intros req s pauses; [done|]. rewrite wait_rounds_S.
  destruct (all_ready (in_order checks) s) as [s1 [[]|]] eqn:Hr; [intros [= -> _]; by exists s| |done].
  destruct (retry_after _ _ _) as [[d|]|e|]; try done. destruct (add_retry_attempt req _) as [req'|e|]; try done.
  destruct (wait_rounds fuel strategy req' checks s1) as [[s2 ps] r] eqn:Hw. intros [= -> <- ->]. by eapply IH.
Qed.

(** A strategy that does not retry what is not ready turns the first round that is not ready into an error. *)
Lemma unwilling_wait_gives_up fuel (strategy : T) req checks s s' :
  retry_after strategy req RetryReason.NotReady = Ok None →
  all_ready (in_order checks) s = (s', Some false) →
  wait_rounds (Datatypes.S fuel) strategy req checks s
  = (s', [], Some (Err (Core.new_message_error "retry manager indicated no retry, this is a bug"))).
Proof. intros Hs Hr. by rewrite wait_rounds_S, Hr, Hs. Qed.

(** A strategy that always retries it waits until the services are ready, and has no error of its own. *)
Lemma willing_wait_goes_on fuel (strategy : T) req checks s e :
  (∀ r, is_idempotent r = true → ∃ d, retry_after strategy r RetryReason.NotReady = Ok (Some d)) →
  is_idempotent req = true → retry_attempts req + Z.of_nat fuel < 2 ^ 32 →
  (wait_rounds fuel strategy req checks s).2 ≠ Some (Err e).
Proof.
  intros Hs. revert req s. induction fuel as [|fuel IH]; intros req s Hi Hlt; [done|]. rewrite wait_rounds_S.
  destruct (all_ready (in_order checks) s) as [s1 [[]|]]; try done. destruct (Hs req Hi) as [d ->].
  unfold add_retry_attempt, add_w. test_true (retry_attempts req + 1 <? 2 ^ 32). cbn [mbind outcome_bind].
  lazymatch goal with |- context [wait_rounds fuel strategy ?r checks s1] => specialize (IH r s1) end.
  cbn in IH |- *. destruct (wait_rounds fuel strategy _ checks s1) as [[s2 pauses] r]. cbn in IH |- *. apply IH; [done|lia].
Qed.

(** A wait that ended saw every service that is asked for ready; a wait for the cluster to be offline is
    refused at once. *)
Lemma wait_until_ready_ends fuel opts s s' pauses :
  (∀ l, in_order l ≡ₚ l) →
  wait_until_ready fuel opts s = (s', pauses, Some (Ok tt)) →
  default Online (CoreWaitUntilReadyOptions.desired_state opts) ≠ Offline
  ∧ Forall (λ c : S → S * option bool, ∃ s1 s2, c s1 = (s2, Some true))
      (ready_checks (requested_services (CoreWaitUntilReadyOptions.service_types opts) (dcs_services (state s)))
         (CoreWaitUntilReadyOptions.on_behalf_of opts) (default Online (CoreWaitUntilReadyOptions.desired_state opts))).
Proof.
  intros Hperm. unfold wait_until_ready. destruct (decide _) as [|Hd]; [done|]. intros Hw. split; [done|].
  apply wait_rounds_ok in Hw as [s1 Hr]. apply all_ready_each in Hr. by rewrite Hperm in Hr.
Qed.

(** A cluster without nodes of a service is ready, when all of them are waited for; and when one of them is
    enough, it never is. *)
Lemma no_nodes_are_ready all (s : S) :
  all s = (s, Some (Ok [])) →
  is_http_ready all Online s = (s, Some true) ∧ is_http_ready all Degraded s = (s, Some false).
Proof. intros Hs. unfold is_http_ready. by rewrite Hs. Qed.

Lemma no_pools_are_ready obo d (s : S) : client_pools s = ∅ → is_kv_ready obo d s = (s, Some true).
Proof. intros Hs. unfold is_kv_ready, manager_ping_all_clients. by rewrite Hs, map_to_list_empty. Qed.

(** The timeout of key-value pings plays no part. *)
Lemma kv_timeout_is_ignored obo t t' bucket :
  ping_all_kv_nodes (mkPingKvOptions obo t bucket) = ping_all_kv_nodes (mkPingKvOptions obo t' bucket).
Proof. done. Qed.

Lemma io_bind_ok {St E A C} (m : io St E A) (f : A → io St E C) s s' c :
  (m ≫= f) s = (s', Some (Ok c)) → ∃ s1 a, m s = (s1, Some (Ok a)) ∧ f a s1 = (s', Some (Ok c)).
Proof. unfold mbind, io_bind. destruct (m s) as [s1 [[a|e|]|]] eqn:Hm; try done. by exists s1, a. Qed.

(** A ping that succeeds has a report of just the services that were asked for. *)
Lemma report_if_services sts st report s s' l :
  report_if sts st report s = (s', Some (Ok l)) → l.*1 = if decide (st ∈ sts) then [st] else [].
Proof.
  unfold report_if. destruct (decide _); [|by intros [= _ <-]]. unfold mbind, io_bind.
  destruct (report s) as [s1 [[r|x|]|]]; try done. by intros [= _ <-].
Qed.

Lemma ping_reports_services opts s s' report :
  diagnostics_ping opts s = (s', Some (Ok report)) →
  let asked := requested_services (CorePingOptions.service_types opts) (dcs_services (state s)) in
  (pr_services report).*1 = filter (λ st, st ∈ asked) [ServiceType.Query; ServiceType.Search; ServiceType.Memd]
  ∧ pr_config_rev report = dcs_rev_id (state s).
Proof.
  intros Hp asked. unfold diagnostics_ping in Hp. fold asked in Hp. cbv beta zeta in Hp.
  apply io_bind_ok in Hp as (s1 & query & Hq & Hp). apply report_if_services in Hq.
  apply io_bind_ok in Hp as (s2 & search & Hs & Hp). apply report_if_services in Hs.
  apply io_bind_ok in Hp as (s3 & kv & Hk & Hp). apply report_if_services in Hk.
  apply io_bind_ok in Hp as (s4 & id & _ & Hp). injection Hp as _ <-. cbn [pr_services pr_config_rev].
  split; [|done]. rewrite !fmap_app, Hq, Hs, Hk. rewrite !filter_cons, filter_nil. by repeat destruct (decide _).
Qed.

End Component.

(** With the default options a wait ends at the first round: with the services ready, or with an error that
    names a bug. *)
Lemma default_wait_gives_up {P : Profile} {S} in_order fuel req checks (s s' : S) :
  all_ready (in_order checks) s = (s', Some false) →
  wait_rounds in_order (Datatypes.S fuel) (CoreWaitUntilReadyOptions.retry_strategy core_wait_until_ready_options_new)
    req checks s
  = (s', [], Some (Err (Core.new_message_error "retry manager indicated no retry, this is a bug"))).
Proof. by apply unwilling_wait_gives_up. Qed.

(** With the best-effort strategy it goes on. *)
Lemma best_effort_wait_goes_on {P : Profile} {S} powi calc in_order fuel req checks (s : S) e :
  as_millis (min calc) ≠ 0 → is_idempotent req = true → retry_attempts req + Z.of_nat fuel < 2 ^ 32 →
  (wait_rounds (H2 := @best_effort_strategy _ (exponential_calculator powi)) in_order fuel (BestEffort calc) req
     checks s).2 ≠ Some (Err e).
Proof.
  intros Hmin. apply willing_wait_goes_on. intros r Hi. unfold retry_after, best_effort_strategy. rewrite Hi.
  cbn [orb backoff_calc]. unfold backoff, exponential_calculator, exponential_backoff. apply Z.eqb_neq in Hmin.
  rewrite Hmin. by repeat case_match; eexists.
Qed.

(** The query and the search component of the agent, with the states they have in it. *)
Definition component_pings {P : Profile} {S} `{HttpClient S} (status_display : Z → string)
    (url_parse : string → string + option string * option Z) (query_state search_state : S → HttpComponentState)
    (vector_search_enabled : S → bool) (user_agent : string) (now : S → Z)
    (select_query : Duration → io S (Queryx.Error Json.Value) unit → S → S * option (option (outcome (Queryx.Error Json.Value) unit)))
    (select_search : Duration → io S Searchx.Error unit → S → S * option (option (outcome Searchx.Error unit)))
    : HttpPings (S:=S) :=
  {| hp_query_report := create_ping_report status_display url_parse query_state user_agent select_query now;
     hp_search_report :=
       search_create_ping_report status_display url_parse now search_state vector_search_enabled user_agent select_search;
     hp_query_all := ping_all_endpoints status_display url_parse query_state user_agent;
     hp_search_all := search_ping_all_endpoints status_display url_parse search_state user_agent |}.
