(* ===== verification/SdkSearchQueries.v ===== *)
(** * What a search of the public crate is made of ([couchbase/src/search/],
    [options/search_options.rs])

    First the queries and locations, then facets, sorts, vector searches, requests and options;
    each with its setters and what it becomes at the agent. *)

From S2P Require Import Prelude FacadeError Json SearchQueries Wire CrudOptions MutationState.
From S2P Require Import SearchOptions.

(** * Search queries of the public crate ([couchbase/src/search/queries.rs], [search/location.rs])

    The queries an application builds, their setters, and what each becomes at the agent
    ([SearchQueries.v]).  Nothing of a query is lost on the way, so the server can tell the queries of
    applications apart whenever it can those of the agent. *)

Module SdkLocation.
Record SdkLocation : Type := mk {
  lat : Z;
  lon : Z;
}.
End SdkLocation.
Abbreviation SdkLocation := SdkLocation.SdkLocation.
#[global] Instance sdk_location_settable : Settable (SdkLocation) := λ r,
  SdkLocation.mk (SdkLocation.lat r) (SdkLocation.lon r).

Definition sdk_location_new (lat : Z) (lon : Z) : SdkLocation :=
  SdkLocation.mk lat lon.

Module SdkMatchOperator.
Inductive SdkMatchOperator : Type := Or | And.
End SdkMatchOperator.

(** [TryFrom<&str>], [TryFrom<String>]; and [Display]. *)
Definition sdk_match_operator_try_from (operator : string) : outcome Sdk.Error SdkMatchOperator.SdkMatchOperator :=
  if bool_decide (operator = "or" ∨ operator = "OR") then Ok SdkMatchOperator.Or
  else if bool_decide (operator = "and" ∨ operator = "AND") then Ok SdkMatchOperator.And
  else Err (Sdk.invalid_argument "operator" (Sdk.Text "invalid match operator")).

Definition sdk_match_operator_display (operator : SdkMatchOperator.SdkMatchOperator) : string :=
  match operator with SdkMatchOperator.Or => "or" | SdkMatchOperator.And => "and" end.

Module SdkMatchQuery.
Record SdkMatchQuery : Type := mk {
  analyzer : option string;
  boost : option Z;
  field : option string;
  fuzziness : option Z;
  match_input : string;
  operator : option SdkMatchOperator.SdkMatchOperator;
  prefix_length : option Z;
}.
End SdkMatchQuery.
Abbreviation SdkMatchQuery := SdkMatchQuery.SdkMatchQuery.
#[global] Instance sdk_match_query_settable : Settable (SdkMatchQuery) := λ r,
  SdkMatchQuery.mk (SdkMatchQuery.analyzer r) (SdkMatchQuery.boost r) (SdkMatchQuery.field r)
    (SdkMatchQuery.fuzziness r) (SdkMatchQuery.match_input r) (SdkMatchQuery.operator r)
    (SdkMatchQuery.prefix_length r).

Definition sdk_match_query_new (match_input : string) : SdkMatchQuery :=
  SdkMatchQuery.mk None None None None match_input None None.

Definition sdk_match_query_analyzer (analyzer : string) (self : SdkMatchQuery) : SdkMatchQuery :=
  self <| SdkMatchQuery.analyzer := Some analyzer |>.

Definition sdk_match_query_boost (boost : Z) (self : SdkMatchQuery) : SdkMatchQuery :=
  self <| SdkMatchQuery.boost := Some boost |>.

Definition sdk_match_query_field (field : string) (self : SdkMatchQuery) : SdkMatchQuery :=
  self <| SdkMatchQuery.field := Some field |>.

Definition sdk_match_query_fuzziness (fuzziness : Z) (self : SdkMatchQuery) : SdkMatchQuery :=
  self <| SdkMatchQuery.fuzziness := Some fuzziness |>.

Definition sdk_match_query_operator (operator : SdkMatchOperator.SdkMatchOperator)
    (self : SdkMatchQuery) : SdkMatchQuery :=
  self <| SdkMatchQuery.operator := Some operator |>.

Definition sdk_match_query_prefix_length (prefix_length : Z) (self : SdkMatchQuery) : SdkMatchQuery :=
  self <| SdkMatchQuery.prefix_length := Some prefix_length |>.

Module SdkMatchPhraseQuery.
Record SdkMatchPhraseQuery : Type := mk {
  analyzer : option string;
  boost : option Z;
  field : option string;
  match_phrase : string;
}.
End SdkMatchPhraseQuery.
Abbreviation SdkMatchPhraseQuery := SdkMatchPhraseQuery.SdkMatchPhraseQuery.
#[global] Instance sdk_match_phrase_query_settable : Settable (SdkMatchPhraseQuery) := λ r,
  SdkMatchPhraseQuery.mk (SdkMatchPhraseQuery.analyzer r) (SdkMatchPhraseQuery.boost r)
    (SdkMatchPhraseQuery.field r) (SdkMatchPhraseQuery.match_phrase r).

Definition sdk_match_phrase_query_new (match_phrase : string) : SdkMatchPhraseQuery :=
  SdkMatchPhraseQuery.mk None None None match_phrase.

Definition sdk_match_phrase_query_analyzer (analyzer : string) (self : SdkMatchPhraseQuery) : SdkMatchPhraseQuery :=
  self <| SdkMatchPhraseQuery.analyzer := Some analyzer |>.

Definition sdk_match_phrase_query_boost (boost : Z) (self : SdkMatchPhraseQuery) : SdkMatchPhraseQuery :=
  self <| SdkMatchPhraseQuery.boost := Some boost |>.

Definition sdk_match_phrase_query_field (field : string) (self : SdkMatchPhraseQuery) : SdkMatchPhraseQuery :=
  self <| SdkMatchPhraseQuery.field := Some field |>.

Module SdkRegexpQuery.
Record SdkRegexpQuery : Type := mk {
  boost : option Z;
  field : option string;
  regexp : string;
}.
End SdkRegexpQuery.
Abbreviation SdkRegexpQuery := SdkRegexpQuery.SdkRegexpQuery.
#[global] Instance sdk_regexp_query_settable : Settable (SdkRegexpQuery) := λ r,
  SdkRegexpQuery.mk (SdkRegexpQuery.boost r) (SdkRegexpQuery.field r) (SdkRegexpQuery.regexp r).

Definition sdk_regexp_query_new (regexp : string) : SdkRegexpQuery :=
  SdkRegexpQuery.mk None None regexp.

Definition sdk_regexp_query_boost (boost : Z) (self : SdkRegexpQuery) : SdkRegexpQuery :=
  self <| SdkRegexpQuery.boost := Some boost |>.

Definition sdk_regexp_query_field (field : string) (self : SdkRegexpQuery) : SdkRegexpQuery :=
  self <| SdkRegexpQuery.field := Some field |>.

Module SdkQueryStringQuery.
Record SdkQueryStringQuery : Type := mk {
  boost : option Z;
  query : string;
}.
End SdkQueryStringQuery.
Abbreviation SdkQueryStringQuery := SdkQueryStringQuery.SdkQueryStringQuery.
#[global] Instance sdk_query_string_query_settable : Settable (SdkQueryStringQuery) := λ r,
  SdkQueryStringQuery.mk (SdkQueryStringQuery.boost r) (SdkQueryStringQuery.query r).

Definition sdk_query_string_query_new (query : string) : SdkQueryStringQuery :=
  SdkQueryStringQuery.mk None query.

Definition sdk_query_string_query_boost (boost : Z) (self : SdkQueryStringQuery) : SdkQueryStringQuery :=
  self <| SdkQueryStringQuery.boost := Some boost |>.

Module SdkNumericRangeQuery.
Record SdkNumericRangeQuery : Type := mk {
  boost : option Z;
  field : option string;
  inclusive_min : option bool;
  inclusive_max : option bool;
  min : option Z;
  max : option Z;
}.
End SdkNumericRangeQuery.
Abbreviation SdkNumericRangeQuery := SdkNumericRangeQuery.SdkNumericRangeQuery.
#[global] Instance sdk_numeric_range_query_settable : Settable (SdkNumericRangeQuery) := λ r,
  SdkNumericRangeQuery.mk (SdkNumericRangeQuery.boost r) (SdkNumericRangeQuery.field r)
    (SdkNumericRangeQuery.inclusive_min r) (SdkNumericRangeQuery.inclusive_max r) (SdkNumericRangeQuery.min r)
    (SdkNumericRangeQuery.max r).

Definition sdk_numeric_range_query_new : SdkNumericRangeQuery :=
  SdkNumericRangeQuery.mk None None None None None None.

Definition sdk_numeric_range_query_boost (boost : Z) (self : SdkNumericRangeQuery) : SdkNumericRangeQuery :=
  self <| SdkNumericRangeQuery.boost := Some boost |>.

Definition sdk_numeric_range_query_field (field : string) (self : SdkNumericRangeQuery) : SdkNumericRangeQuery :=
  self <| SdkNumericRangeQuery.field := Some field |>.

Definition sdk_numeric_range_query_inclusive_min (min : Z) (inclusive_min : bool) (self : SdkNumericRangeQuery)
    : SdkNumericRangeQuery :=
  self <| SdkNumericRangeQuery.min := Some min |> <| SdkNumericRangeQuery.inclusive_min := Some inclusive_min |>.

Definition sdk_numeric_range_query_inclusive_max (max : Z) (inclusive_max : bool) (self : SdkNumericRangeQuery)
    : SdkNumericRangeQuery :=
  self <| SdkNumericRangeQuery.max := Some max |> <| SdkNumericRangeQuery.inclusive_max := Some inclusive_max |>.

Definition sdk_numeric_range_query_min (min : Z) (self : SdkNumericRangeQuery) : SdkNumericRangeQuery :=
  self <| SdkNumericRangeQuery.min := Some min |>.

Definition sdk_numeric_range_query_max (max : Z) (self : SdkNumericRangeQuery) : SdkNumericRangeQuery :=
  self <| SdkNumericRangeQuery.max := Some max |>.

Module SdkDateRangeQuery.
Record SdkDateRangeQuery : Type := mk {
  boost : option Z;
  field : option string;
  datetime_parser : option string;
  end_ : option string;
  inclusive_start : option bool;
  inclusive_end : option bool;
  start : option string;
}.
End SdkDateRangeQuery.
Abbreviation SdkDateRangeQuery := SdkDateRangeQuery.SdkDateRangeQuery.
#[global] Instance sdk_date_range_query_settable : Settable (SdkDateRangeQuery) := λ r,
  SdkDateRangeQuery.mk (SdkDateRangeQuery.boost r) (SdkDateRangeQuery.field r)
    (SdkDateRangeQuery.datetime_parser r) (SdkDateRangeQuery.end_ r) (SdkDateRangeQuery.inclusive_start r)
    (SdkDateRangeQuery.inclusive_end r) (SdkDateRangeQuery.start r).

Definition sdk_date_range_query_new : SdkDateRangeQuery :=
  SdkDateRangeQuery.mk None None None None None None None.

Definition sdk_date_range_query_boost (boost : Z) (self : SdkDateRangeQuery) : SdkDateRangeQuery :=
  self <| SdkDateRangeQuery.boost := Some boost |>.

Definition sdk_date_range_query_field (field : string) (self : SdkDateRangeQuery) : SdkDateRangeQuery :=
  self <| SdkDateRangeQuery.field := Some field |>.

Definition sdk_date_range_query_datetime_parser (datetime_parser : string)
    (self : SdkDateRangeQuery) : SdkDateRangeQuery :=
  self <| SdkDateRangeQuery.datetime_parser := Some datetime_parser |>.

Definition sdk_date_range_query_inclusive_start (start : string) (inclusive_start : bool)
    (self : SdkDateRangeQuery) : SdkDateRangeQuery :=
  self <| SdkDateRangeQuery.start := Some start |> <| SdkDateRangeQuery.inclusive_start := Some inclusive_start |>.

Definition sdk_date_range_query_inclusive_end (end_ : string) (inclusive_end : bool) (self : SdkDateRangeQuery)
    : SdkDateRangeQuery :=
  self <| SdkDateRangeQuery.end_ := Some end_ |> <| SdkDateRangeQuery.inclusive_end := Some inclusive_end |>.

Definition sdk_date_range_query_end (end_ : string) (self : SdkDateRangeQuery) : SdkDateRangeQuery :=
  self <| SdkDateRangeQuery.end_ := Some end_ |>.

Definition sdk_date_range_query_start (start : string) (self : SdkDateRangeQuery) : SdkDateRangeQuery :=
  self <| SdkDateRangeQuery.start := Some start |>.

Module SdkTermRangeQuery.
Record SdkTermRangeQuery : Type := mk {
  boost : option Z;
  field : option string;
  inclusive_min : option bool;
  inclusive_max : option bool;
  max : option string;
  min : option string;
}.
End SdkTermRangeQuery.
Abbreviation SdkTermRangeQuery := SdkTermRangeQuery.SdkTermRangeQuery.
#[global] Instance sdk_term_range_query_settable : Settable (SdkTermRangeQuery) := λ r,
  SdkTermRangeQuery.mk (SdkTermRangeQuery.boost r) (SdkTermRangeQuery.field r) (SdkTermRangeQuery.inclusive_min
    r) (SdkTermRangeQuery.inclusive_max r) (SdkTermRangeQuery.max r) (SdkTermRangeQuery.min r).

Definition sdk_term_range_query_new : SdkTermRangeQuery :=
  SdkTermRangeQuery.mk None None None None None None.

Definition sdk_term_range_query_boost (boost : Z) (self : SdkTermRangeQuery) : SdkTermRangeQuery :=
  self <| SdkTermRangeQuery.boost := Some boost |>.

Definition sdk_term_range_query_field (field : string) (self : SdkTermRangeQuery) : SdkTermRangeQuery :=
  self <| SdkTermRangeQuery.field := Some field |>.

Definition sdk_term_range_query_inclusive_min (min : string) (inclusive_min : bool) (self : SdkTermRangeQuery) :
    SdkTermRangeQuery :=
  self <| SdkTermRangeQuery.min := Some min |> <| SdkTermRangeQuery.inclusive_min := Some inclusive_min |>.

Definition sdk_term_range_query_inclusive_max (max : string) (inclusive_max : bool) (self : SdkTermRangeQuery) :
    SdkTermRangeQuery :=
  self <| SdkTermRangeQuery.max := Some max |> <| SdkTermRangeQuery.inclusive_max := Some inclusive_max |>.

Definition sdk_term_range_query_max (max : string) (self : SdkTermRangeQuery) : SdkTermRangeQuery :=
  self <| SdkTermRangeQuery.max := Some max |>.

Definition sdk_term_range_query_min (min : string) (self : SdkTermRangeQuery) : SdkTermRangeQuery :=
  self <| SdkTermRangeQuery.min := Some min |>.

Module SdkConjunctionQuery.
Section Fields.
Context {Q : Type}.
Record SdkConjunctionQuery : Type := mk {
  boost : option Z;
  conjuncts : list Q;
}.
End Fields.
#[global] Arguments SdkConjunctionQuery : clear implicits.
End SdkConjunctionQuery.
Abbreviation SdkConjunctionQuery := SdkConjunctionQuery.SdkConjunctionQuery.
#[global] Instance sdk_conjunction_query_settable Q : Settable (SdkConjunctionQuery Q) := λ r,
  SdkConjunctionQuery.mk (SdkConjunctionQuery.boost r) (SdkConjunctionQuery.conjuncts r).

Definition sdk_conjunction_query_new {Q : Type} (conjuncts : list Q) : SdkConjunctionQuery Q :=
  SdkConjunctionQuery.mk None conjuncts.

Definition sdk_conjunction_query_and {Q : Type} (query : Q) (self : SdkConjunctionQuery Q) : SdkConjunctionQuery
    Q :=
  self <| SdkConjunctionQuery.conjuncts := SdkConjunctionQuery.conjuncts self ++ [query] |>.

Definition sdk_conjunction_query_boost {Q : Type} (boost : Z)
    (self : SdkConjunctionQuery Q) : SdkConjunctionQuery Q :=
  self <| SdkConjunctionQuery.boost := Some boost |>.

Module SdkDisjunctionQuery.
Section Fields.
Context {Q : Type}.
Record SdkDisjunctionQuery : Type := mk {
  boost : option Z;
  disjuncts : list Q;
  min : option Z;
}.
End Fields.
#[global] Arguments SdkDisjunctionQuery : clear implicits.
End SdkDisjunctionQuery.
Abbreviation SdkDisjunctionQuery := SdkDisjunctionQuery.SdkDisjunctionQuery.
#[global] Instance sdk_disjunction_query_settable Q : Settable (SdkDisjunctionQuery Q) := λ r,
  SdkDisjunctionQuery.mk (SdkDisjunctionQuery.boost r) (SdkDisjunctionQuery.disjuncts r)
    (SdkDisjunctionQuery.min r).

Definition sdk_disjunction_query_new {Q : Type} (disjuncts : list Q) : SdkDisjunctionQuery Q :=
  SdkDisjunctionQuery.mk None disjuncts None.

Definition sdk_disjunction_query_or {Q : Type} (query : Q) (self : SdkDisjunctionQuery Q) : SdkDisjunctionQuery Q :=
  self <| SdkDisjunctionQuery.disjuncts := SdkDisjunctionQuery.disjuncts self ++ [query] |>.

Definition sdk_disjunction_query_min {Q : Type} (min : Z) (self : SdkDisjunctionQuery Q) : SdkDisjunctionQuery Q :=
  self <| SdkDisjunctionQuery.min := Some min |>.

Definition sdk_disjunction_query_boost {Q : Type} (boost : Z)
    (self : SdkDisjunctionQuery Q) : SdkDisjunctionQuery Q :=
  self <| SdkDisjunctionQuery.boost := Some boost |>.

Module SdkBooleanQuery.
Section Fields.
Context {Q : Type}.
Record SdkBooleanQuery : Type := mk {
  boost : option Z;
  must : option (SdkConjunctionQuery Q);
  must_not : option (SdkDisjunctionQuery Q);
  should : option (SdkDisjunctionQuery Q);
}.
End Fields.
#[global] Arguments SdkBooleanQuery : clear implicits.
End SdkBooleanQuery.
Abbreviation SdkBooleanQuery := SdkBooleanQuery.SdkBooleanQuery.
#[global] Instance sdk_boolean_query_settable Q : Settable (SdkBooleanQuery Q) := λ r,
  SdkBooleanQuery.mk (SdkBooleanQuery.boost r) (SdkBooleanQuery.must r) (SdkBooleanQuery.must_not r)
    (SdkBooleanQuery.should r).

Definition sdk_boolean_query_new {Q : Type} : SdkBooleanQuery Q :=
  SdkBooleanQuery.mk None None None None.

Definition sdk_boolean_query_boost {Q : Type} (boost : Z) (self : SdkBooleanQuery Q) : SdkBooleanQuery Q :=
  self <| SdkBooleanQuery.boost := Some boost |>.

Definition sdk_boolean_query_must {Q : Type} (must : SdkConjunctionQuery Q)
    (self : SdkBooleanQuery Q) : SdkBooleanQuery Q :=
  self <| SdkBooleanQuery.must := Some must |>.

Definition sdk_boolean_query_must_not {Q : Type} (must_not : SdkDisjunctionQuery Q)
    (self : SdkBooleanQuery Q) : SdkBooleanQuery Q :=
  self <| SdkBooleanQuery.must_not := Some must_not |>.

Definition sdk_boolean_query_should {Q : Type} (should : SdkDisjunctionQuery Q)
    (self : SdkBooleanQuery Q) : SdkBooleanQuery Q :=
  self <| SdkBooleanQuery.should := Some should |>.

Module SdkWildcardQuery.
Record SdkWildcardQuery : Type := mk {
  boost : option Z;
  field : option string;
  wildcard : string;
}.
End SdkWildcardQuery.
Abbreviation SdkWildcardQuery := SdkWildcardQuery.SdkWildcardQuery.
#[global] Instance sdk_wildcard_query_settable : Settable (SdkWildcardQuery) := λ r,
  SdkWildcardQuery.mk (SdkWildcardQuery.boost r) (SdkWildcardQuery.field r) (SdkWildcardQuery.wildcard r).

Definition sdk_wildcard_query_new (wildcard : string) : SdkWildcardQuery :=
  SdkWildcardQuery.mk None None wildcard.

Definition sdk_wildcard_query_boost (boost : Z) (self : SdkWildcardQuery) : SdkWildcardQuery :=
  self <| SdkWildcardQuery.boost := Some boost |>.

Definition sdk_wildcard_query_field (field : string) (self : SdkWildcardQuery) : SdkWildcardQuery :=
  self <| SdkWildcardQuery.field := Some field |>.

Module SdkDocIDQuery.
Record SdkDocIDQuery : Type := mk {
  boost : option Z;
  ids : list string;
}.
End SdkDocIDQuery.
Abbreviation SdkDocIDQuery := SdkDocIDQuery.SdkDocIDQuery.
#[global] Instance sdk_doc_i_d_query_settable : Settable (SdkDocIDQuery) := λ r,
  SdkDocIDQuery.mk (SdkDocIDQuery.boost r) (SdkDocIDQuery.ids r).

Definition sdk_doc_i_d_query_new (ids : list string) : SdkDocIDQuery :=
  SdkDocIDQuery.mk None ids.

Definition sdk_doc_i_d_query_boost (boost : Z) (self : SdkDocIDQuery) : SdkDocIDQuery :=
  self <| SdkDocIDQuery.boost := Some boost |>.

Module SdkBooleanFieldQuery.
Record SdkBooleanFieldQuery : Type := mk {
  bool_value : bool;
  boost : option Z;
  field : option string;
}.
End SdkBooleanFieldQuery.
Abbreviation SdkBooleanFieldQuery := SdkBooleanFieldQuery.SdkBooleanFieldQuery.
#[global] Instance sdk_boolean_field_query_settable : Settable (SdkBooleanFieldQuery) := λ r,
  SdkBooleanFieldQuery.mk (SdkBooleanFieldQuery.bool_value r) (SdkBooleanFieldQuery.boost r)
    (SdkBooleanFieldQuery.field r).

Definition sdk_boolean_field_query_new (bool_value : bool) : SdkBooleanFieldQuery :=
  SdkBooleanFieldQuery.mk bool_value None None.

Definition sdk_boolean_field_query_boost (boost : Z) (self : SdkBooleanFieldQuery) : SdkBooleanFieldQuery :=
  self <| SdkBooleanFieldQuery.boost := Some boost |>.

Definition sdk_boolean_field_query_field (field : string) (self : SdkBooleanFieldQuery) : SdkBooleanFieldQuery :=
  self <| SdkBooleanFieldQuery.field := Some field |>.

Module SdkTermQuery.
Record SdkTermQuery : Type := mk {
  boost : option Z;
  field : option string;
  fuzziness : option Z;
  prefix_length : option Z;
  term : string;
}.
End SdkTermQuery.
Abbreviation SdkTermQuery := SdkTermQuery.SdkTermQuery.
#[global] Instance sdk_term_query_settable : Settable (SdkTermQuery) := λ r,
  SdkTermQuery.mk (SdkTermQuery.boost r) (SdkTermQuery.field r) (SdkTermQuery.fuzziness r)
    (SdkTermQuery.prefix_length r) (SdkTermQuery.term r).

Definition sdk_term_query_new (term : string) : SdkTermQuery :=
  SdkTermQuery.mk None None None None term.

Definition sdk_term_query_boost (boost : Z) (self : SdkTermQuery) : SdkTermQuery :=
  self <| SdkTermQuery.boost := Some boost |>.

Definition sdk_term_query_field (field : string) (self : SdkTermQuery) : SdkTermQuery :=
  self <| SdkTermQuery.field := Some field |>.

Definition sdk_term_query_fuzziness (fuzziness : Z) (self : SdkTermQuery) : SdkTermQuery :=
  self <| SdkTermQuery.fuzziness := Some fuzziness |>.

Definition sdk_term_query_prefix_length (prefix_length : Z) (self : SdkTermQuery) : SdkTermQuery :=
  self <| SdkTermQuery.prefix_length := Some prefix_length |>.

Module SdkPhraseQuery.
Record SdkPhraseQuery : Type := mk {
  boost : option Z;
  field : option string;
  terms : list string;
}.
End SdkPhraseQuery.
Abbreviation SdkPhraseQuery := SdkPhraseQuery.SdkPhraseQuery.
#[global] Instance sdk_phrase_query_settable : Settable (SdkPhraseQuery) := λ r,
  SdkPhraseQuery.mk (SdkPhraseQuery.boost r) (SdkPhraseQuery.field r) (SdkPhraseQuery.terms r).

Definition sdk_phrase_query_new (terms : list string) : SdkPhraseQuery :=
  SdkPhraseQuery.mk None None terms.

Definition sdk_phrase_query_boost (boost : Z) (self : SdkPhraseQuery) : SdkPhraseQuery :=
  self <| SdkPhraseQuery.boost := Some boost |>.

Definition sdk_phrase_query_field (field : string) (self : SdkPhraseQuery) : SdkPhraseQuery :=
  self <| SdkPhraseQuery.field := Some field |>.

Module SdkPrefixQuery.
Record SdkPrefixQuery : Type := mk {
  boost : option Z;
  field : option string;
  prefix : string;
}.
End SdkPrefixQuery.
Abbreviation SdkPrefixQuery := SdkPrefixQuery.SdkPrefixQuery.
#[global] Instance sdk_prefix_query_settable : Settable (SdkPrefixQuery) := λ r,
  SdkPrefixQuery.mk (SdkPrefixQuery.boost r) (SdkPrefixQuery.field r) (SdkPrefixQuery.prefix r).

Definition sdk_prefix_query_new (prefix : string) : SdkPrefixQuery :=
  SdkPrefixQuery.mk None None prefix.

Definition sdk_prefix_query_boost (boost : Z) (self : SdkPrefixQuery) : SdkPrefixQuery :=
  self <| SdkPrefixQuery.boost := Some boost |>.

Definition sdk_prefix_query_field (field : string) (self : SdkPrefixQuery) : SdkPrefixQuery :=
  self <| SdkPrefixQuery.field := Some field |>.

Module SdkMatchAllQuery.
Record SdkMatchAllQuery : Type := mk { }.
End SdkMatchAllQuery.
Abbreviation SdkMatchAllQuery := SdkMatchAllQuery.SdkMatchAllQuery.

Definition sdk_match_all_query_new : SdkMatchAllQuery :=
  SdkMatchAllQuery.mk .

Module SdkMatchNoneQuery.
Record SdkMatchNoneQuery : Type := mk { }.
End SdkMatchNoneQuery.
Abbreviation SdkMatchNoneQuery := SdkMatchNoneQuery.SdkMatchNoneQuery.

Definition sdk_match_none_query_new : SdkMatchNoneQuery :=
  SdkMatchNoneQuery.mk .

Module SdkGeoDistanceQuery.
Record SdkGeoDistanceQuery : Type := mk {
  distance : string;
  boost : option Z;
  field : option string;
  location : SdkLocation;
}.
End SdkGeoDistanceQuery.
Abbreviation SdkGeoDistanceQuery := SdkGeoDistanceQuery.SdkGeoDistanceQuery.
#[global] Instance sdk_geo_distance_query_settable : Settable (SdkGeoDistanceQuery) := λ r,
  SdkGeoDistanceQuery.mk (SdkGeoDistanceQuery.distance r) (SdkGeoDistanceQuery.boost r)
    (SdkGeoDistanceQuery.field r) (SdkGeoDistanceQuery.location r).

Definition sdk_geo_distance_query_new (distance : string) (location : SdkLocation) : SdkGeoDistanceQuery :=
  SdkGeoDistanceQuery.mk distance None None location.

Definition sdk_geo_distance_query_boost (boost : Z) (self : SdkGeoDistanceQuery) : SdkGeoDistanceQuery :=
  self <| SdkGeoDistanceQuery.boost := Some boost |>.

Definition sdk_geo_distance_query_field (field : string) (self : SdkGeoDistanceQuery) : SdkGeoDistanceQuery :=
  self <| SdkGeoDistanceQuery.field := Some field |>.

Module SdkGeoBoundingBoxQuery.
Record SdkGeoBoundingBoxQuery : Type := mk {
  bottom_right : SdkLocation;
  boost : option Z;
  field : option string;
  top_left : SdkLocation;
}.
End SdkGeoBoundingBoxQuery.
Abbreviation SdkGeoBoundingBoxQuery := SdkGeoBoundingBoxQuery.SdkGeoBoundingBoxQuery.
#[global] Instance sdk_geo_bounding_box_query_settable : Settable (SdkGeoBoundingBoxQuery) := λ r,
  SdkGeoBoundingBoxQuery.mk (SdkGeoBoundingBoxQuery.bottom_right r) (SdkGeoBoundingBoxQuery.boost r)
    (SdkGeoBoundingBoxQuery.field r) (SdkGeoBoundingBoxQuery.top_left r).

Definition sdk_geo_bounding_box_query_new (bottom_right : SdkLocation) (top_left : SdkLocation) :
    SdkGeoBoundingBoxQuery :=
  SdkGeoBoundingBoxQuery.mk bottom_right None None top_left.

Definition sdk_geo_bounding_box_query_boost (boost : Z) (self : SdkGeoBoundingBoxQuery) : SdkGeoBoundingBoxQuery :=
  self <| SdkGeoBoundingBoxQuery.boost := Some boost |>.

Definition sdk_geo_bounding_box_query_field (field : string)
    (self : SdkGeoBoundingBoxQuery) : SdkGeoBoundingBoxQuery :=
  self <| SdkGeoBoundingBoxQuery.field := Some field |>.

Module SdkGeoPolygonQuery.
Record SdkGeoPolygonQuery : Type := mk {
  boost : option Z;
  field : option string;
  polygon_points : list SdkLocation;
}.
End SdkGeoPolygonQuery.
Abbreviation SdkGeoPolygonQuery := SdkGeoPolygonQuery.SdkGeoPolygonQuery.
#[global] Instance sdk_geo_polygon_query_settable : Settable (SdkGeoPolygonQuery) := λ r,
  SdkGeoPolygonQuery.mk (SdkGeoPolygonQuery.boost r) (SdkGeoPolygonQuery.field r)
    (SdkGeoPolygonQuery.polygon_points r).

Definition sdk_geo_polygon_query_new (polygon_points : list SdkLocation) : SdkGeoPolygonQuery :=
  SdkGeoPolygonQuery.mk None None polygon_points.

Definition sdk_geo_polygon_query_boost (boost : Z) (self : SdkGeoPolygonQuery) : SdkGeoPolygonQuery :=
  self <| SdkGeoPolygonQuery.boost := Some boost |>.

Definition sdk_geo_polygon_query_field (field : string) (self : SdkGeoPolygonQuery) : SdkGeoPolygonQuery :=
  self <| SdkGeoPolygonQuery.field := Some field |>.

Module SdkQuery.
Inductive SdkQuery : Type :=
| Match (q : SdkMatchQuery)
| MatchPhrase (q : SdkMatchPhraseQuery)
| Regexp (q : SdkRegexpQuery)
| QueryString (q : SdkQueryStringQuery)
| NumericRange (q : SdkNumericRangeQuery)
| DateRange (q : SdkDateRangeQuery)
| TermRange (q : SdkTermRangeQuery)
| Conjunction (q : SdkConjunctionQuery SdkQuery)
| Disjunction (q : SdkDisjunctionQuery SdkQuery)
| Boolean (q : SdkBooleanQuery SdkQuery)
| Wildcard (q : SdkWildcardQuery)
| DocID (q : SdkDocIDQuery)
| BooleanField (q : SdkBooleanFieldQuery)
| Term (q : SdkTermQuery)
| Phrase (q : SdkPhraseQuery)
| Prefix (q : SdkPrefixQuery)
| MatchAll (q : SdkMatchAllQuery)
| MatchNone (q : SdkMatchNoneQuery)
| GeoDistance (q : SdkGeoDistanceQuery)
| GeoBoundingBox (q : SdkGeoBoundingBoxQuery)
| GeoPolygon (q : SdkGeoPolygonQuery).
End SdkQuery.
Abbreviation SdkQuery := SdkQuery.SdkQuery.

(** ** At the agent *)

Definition location_from (location : SdkLocation) : Location :=
  location_new (SdkLocation.lat location) (SdkLocation.lon location).

Definition match_operator_from (operator : SdkMatchOperator.SdkMatchOperator) : MatchOperator.MatchOperator :=
  match operator with
  | SdkMatchOperator.Or => MatchOperator.Or
  | SdkMatchOperator.And => MatchOperator.And
  end.

Definition match_query_from (query : SdkMatchQuery) : MatchQuery :=
  match_query_prefix_length (SdkMatchQuery.prefix_length query)
    (match_query_operator (match_operator_from <$> SdkMatchQuery.operator query)
    (match_query_fuzziness (SdkMatchQuery.fuzziness query)
    (match_query_field (SdkMatchQuery.field query)
    (match_query_boost (SdkMatchQuery.boost query)
    (match_query_analyzer (SdkMatchQuery.analyzer query)
    (match_query_new (SdkMatchQuery.match_input query))))))).

Definition match_phrase_query_from (query : SdkMatchPhraseQuery) : MatchPhraseQuery :=
  match_phrase_query_field (SdkMatchPhraseQuery.field query)
    (match_phrase_query_boost (SdkMatchPhraseQuery.boost query)
    (match_phrase_query_analyzer (SdkMatchPhraseQuery.analyzer query)
    (match_phrase_query_new (SdkMatchPhraseQuery.match_phrase query)))).

Definition regexp_query_from (query : SdkRegexpQuery) : RegexpQuery :=
  regexp_query_field (SdkRegexpQuery.field query)
    (regexp_query_boost (SdkRegexpQuery.boost query)
    (regexp_query_new (SdkRegexpQuery.regexp query))).

Definition query_string_query_from (query : SdkQueryStringQuery) : QueryStringQuery :=
  query_string_query_boost (SdkQueryStringQuery.boost query)
    (query_string_query_new (SdkQueryStringQuery.query query)).

Definition numeric_range_query_from (query : SdkNumericRangeQuery) : NumericRangeQuery :=
  numeric_range_query_max (SdkNumericRangeQuery.max query)
    (numeric_range_query_min (SdkNumericRangeQuery.min query)
    (numeric_range_query_inclusive_max (SdkNumericRangeQuery.inclusive_max query)
    (numeric_range_query_inclusive_min (SdkNumericRangeQuery.inclusive_min query)
    (numeric_range_query_field (SdkNumericRangeQuery.field query)
    (numeric_range_query_boost (SdkNumericRangeQuery.boost query) numeric_range_query_new))))).

Definition date_range_query_from (query : SdkDateRangeQuery) : DateRangeQuery :=
  date_range_query_start (SdkDateRangeQuery.start query)
    (date_range_query_inclusive_end (SdkDateRangeQuery.inclusive_end query)
    (date_range_query_inclusive_start (SdkDateRangeQuery.inclusive_start query)
    (date_range_query_end (SdkDateRangeQuery.end_ query)
    (date_range_query_datetime_parser (SdkDateRangeQuery.datetime_parser query)
    (date_range_query_field (SdkDateRangeQuery.field query)
    (date_range_query_boost (SdkDateRangeQuery.boost query) date_range_query_new)))))).

Definition term_range_query_from (query : SdkTermRangeQuery) : TermRangeQuery :=
  term_range_query_min (SdkTermRangeQuery.min query)
    (term_range_query_max (SdkTermRangeQuery.max query)
    (term_range_query_inclusive_max (SdkTermRangeQuery.inclusive_max query)
    (term_range_query_inclusive_min (SdkTermRangeQuery.inclusive_min query)
    (term_range_query_field (SdkTermRangeQuery.field query)
    (term_range_query_boost (SdkTermRangeQuery.boost query) term_range_query_new))))).

Definition conjunction_query_from {Q Q' : Type} (query_from : Q → Q')
    (query : SdkConjunctionQuery Q) : ConjunctionQuery Q' :=
  conjunction_query_boost (SdkConjunctionQuery.boost query)
    (conjunction_query_new (query_from <$> SdkConjunctionQuery.conjuncts query)).

Definition disjunction_query_from {Q Q' : Type} (query_from : Q → Q')
    (query : SdkDisjunctionQuery Q) : DisjunctionQuery Q' :=
  disjunction_query_min (SdkDisjunctionQuery.min query)
    (disjunction_query_boost (SdkDisjunctionQuery.boost query)
    (disjunction_query_new (query_from <$> SdkDisjunctionQuery.disjuncts query))).

Definition boolean_query_from {Q Q' : Type} (query_from : Q → Q') (query : SdkBooleanQuery Q) : BooleanQuery Q' :=
  boolean_query_should (disjunction_query_from query_from <$> SdkBooleanQuery.should query)
    (boolean_query_must_not (disjunction_query_from query_from <$> SdkBooleanQuery.must_not query)
    (boolean_query_must (conjunction_query_from query_from <$> SdkBooleanQuery.must query)
    (boolean_query_boost (SdkBooleanQuery.boost query) boolean_query_new))).

Definition wildcard_query_from (query : SdkWildcardQuery) : WildcardQuery :=
  wildcard_query_field (SdkWildcardQuery.field query)
    (wildcard_query_boost (SdkWildcardQuery.boost query)
    (wildcard_query_new (SdkWildcardQuery.wildcard query))).

Definition doc_i_d_query_from (query : SdkDocIDQuery) : DocIDQuery :=
  doc_i_d_query_boost (SdkDocIDQuery.boost query)
    (doc_i_d_query_new (SdkDocIDQuery.ids query)).

Definition boolean_field_query_from (query : SdkBooleanFieldQuery) : BooleanFieldQuery :=
  boolean_field_query_field (SdkBooleanFieldQuery.field query)
    (boolean_field_query_boost (SdkBooleanFieldQuery.boost query)
    (boolean_field_query_new (SdkBooleanFieldQuery.bool_value query))).

Definition term_query_from (query : SdkTermQuery) : TermQuery :=
  term_query_prefix_length (SdkTermQuery.prefix_length query)
    (term_query_fuzziness (SdkTermQuery.fuzziness query)
    (term_query_field (SdkTermQuery.field query)
    (term_query_boost (SdkTermQuery.boost query)
    (term_query_new (SdkTermQuery.term query))))).

Definition phrase_query_from (query : SdkPhraseQuery) : PhraseQuery :=
  phrase_query_field (SdkPhraseQuery.field query)
    (phrase_query_boost (SdkPhraseQuery.boost query)
    (phrase_query_new (SdkPhraseQuery.terms query))).

Definition prefix_query_from (query : SdkPrefixQuery) : PrefixQuery :=
  prefix_query_field (SdkPrefixQuery.field query)
    (prefix_query_boost (SdkPrefixQuery.boost query)
    (prefix_query_new (SdkPrefixQuery.prefix query))).

Definition match_all_query_from (_ : SdkMatchAllQuery) : MatchAllQuery :=
  match_all_query_new.

Definition match_none_query_from (_ : SdkMatchNoneQuery) : MatchNoneQuery :=
  match_none_query_new.

Definition geo_distance_query_from (query : SdkGeoDistanceQuery) : GeoDistanceQuery :=
  geo_distance_query_field (SdkGeoDistanceQuery.field query)
    (geo_distance_query_boost (SdkGeoDistanceQuery.boost query)
    (geo_distance_query_new (SdkGeoDistanceQuery.distance query) (location_from (SdkGeoDistanceQuery.location query)))).

Definition geo_bounding_box_query_from (query : SdkGeoBoundingBoxQuery) : GeoBoundingBoxQuery :=
  geo_bounding_box_query_field (SdkGeoBoundingBoxQuery.field query)
    (geo_bounding_box_query_boost (SdkGeoBoundingBoxQuery.boost query)
    (geo_bounding_box_query_new (location_from (SdkGeoBoundingBoxQuery.top_left query))
      (location_from (SdkGeoBoundingBoxQuery.bottom_right query)))).

Definition geo_polygon_query_from (query : SdkGeoPolygonQuery) : GeoPolygonQuery :=
  geo_polygon_query_field (SdkGeoPolygonQuery.field query)
    (geo_polygon_query_boost (SdkGeoPolygonQuery.boost query)
    (geo_polygon_query_new (location_from <$> SdkGeoPolygonQuery.polygon_points query))).

Fixpoint query_from (query : SdkQuery) : Query :=
  match query with
  | SdkQuery.Match q => Query.Match (match_query_from q)
  | SdkQuery.MatchPhrase q => Query.MatchPhrase (match_phrase_query_from q)
  | SdkQuery.Regexp q => Query.Regexp (regexp_query_from q)
  | SdkQuery.QueryString q => Query.QueryString (query_string_query_from q)
  | SdkQuery.NumericRange q => Query.NumericRange (numeric_range_query_from q)
  | SdkQuery.DateRange q => Query.DateRange (date_range_query_from q)
  | SdkQuery.TermRange q => Query.TermRange (term_range_query_from q)
  | SdkQuery.Conjunction q => Query.Conjunction (conjunction_query_from query_from q)
  | SdkQuery.Disjunction q => Query.Disjunction (disjunction_query_from query_from q)
  | SdkQuery.Boolean q => Query.Boolean (boolean_query_from query_from q)
  | SdkQuery.Wildcard q => Query.Wildcard (wildcard_query_from q)
  | SdkQuery.DocID q => Query.DocID (doc_i_d_query_from q)
  | SdkQuery.BooleanField q => Query.BooleanField (boolean_field_query_from q)
  | SdkQuery.Term q => Query.Term (term_query_from q)
  | SdkQuery.Phrase q => Query.Phrase (phrase_query_from q)
  | SdkQuery.Prefix q => Query.Prefix (prefix_query_from q)
  | SdkQuery.MatchAll q => Query.MatchAll (match_all_query_from q)
  | SdkQuery.MatchNone q => Query.MatchNone (match_none_query_from q)
  | SdkQuery.GeoDistance q => Query.GeoDistance (geo_distance_query_from q)
  | SdkQuery.GeoBoundingBox q => Query.GeoBoundingBox (geo_bounding_box_query_from q)
  | SdkQuery.GeoPolygon q => Query.GeoPolygon (geo_polygon_query_from q)
  end.

(** ** Theorems *)

(** A name that is accepted is that of its operator. *)
Lemma match_operator_roundtrip o : sdk_match_operator_try_from (sdk_match_operator_display o) = Ok o.
Proof. by destruct o. Qed.

(** The queries a query is made of. *)
Definition sdk_parts (q : SdkQuery) : list SdkQuery :=
  match q with
  | SdkQuery.Conjunction c => SdkConjunctionQuery.conjuncts c
  | SdkQuery.Disjunction d => SdkDisjunctionQuery.disjuncts d
  | SdkQuery.Boolean b =>
      from_option SdkConjunctionQuery.conjuncts [] (SdkBooleanQuery.must b)
      ++ from_option SdkDisjunctionQuery.disjuncts [] (SdkBooleanQuery.must_not b)
      ++ from_option SdkDisjunctionQuery.disjuncts [] (SdkBooleanQuery.should b)
  | _ => []
  end.

Lemma sdk_query_parts_ind (P : SdkQuery → Prop) : (∀ q, Forall P (sdk_parts q) → P q) → ∀ q, P q.
Proof.
  intros HP. fix IH 1. intros q. apply HP.
  destruct q as [| | | | | | |[b l]|[b l m]|[b mu mn sh]| | | | | | | | | | |]; cbn; try constructor.
  - induction l; constructor; [apply IH|done].
  - induction l; constructor; [apply IH|done].
  - apply list.Forall_app_2; [|apply list.Forall_app_2].
    + destruct mu as [[b' l]|]; cbn; [|constructor]. induction l; constructor; [apply IH|done].
    + destruct mn as [[b' l m]|]; cbn; [|constructor]. induction l; constructor; [apply IH|done].
    + destruct sh as [[b' l m]|]; cbn; [|constructor]. induction l; constructor; [apply IH|done].
Qed.

(** The parts of what a query becomes. *)
Lemma parts_of_query_from q : parts (query_from q) = query_from <$> sdk_parts q.
Proof.
  destruct q as [| | | | | | |[]|[]|[b mu mn sh]| | | | | | | | | | |]; try done. cbn. rewrite !fmap_app.
  by destruct mu, mn, sh.
Qed.

#[export] Instance location_from_inj : Inj (=) (=) location_from.
Proof. by intros [] [] [= -> ->]. Qed.
#[export] Instance match_operator_from_inj : Inj (=) (=) match_operator_from.
Proof. by intros [] []. Qed.

(** A list whose members are determined by what they become is determined too. *)
Lemma determined_list (l l' : list SdkQuery) :
  Forall (λ q, ∀ q', query_from q = query_from q' → q = q') l → query_from <$> l = query_from <$> l' → l = l'.
Proof.
  intros Hl. revert l'. induction Hl as [|q l Hq Hl IH]; intros [|q' l'] Heq; try done.
  injection Heq as Hqq Hll. f_equal; [by apply Hq|by apply IH].
Qed.

Lemma conjunction_query_from_determined c c' :
  Forall (λ q, ∀ q', query_from q = query_from q' → q = q') (SdkConjunctionQuery.conjuncts c) →
  conjunction_query_from query_from c = conjunction_query_from query_from c' → c = c'.
Proof. destruct c, c'. cbn. intros Hl [= -> Hq]. f_equal. by apply determined_list. Qed.

Lemma disjunction_query_from_determined c c' :
  Forall (λ q, ∀ q', query_from q = query_from q' → q = q') (SdkDisjunctionQuery.disjuncts c) →
  disjunction_query_from query_from c = disjunction_query_from query_from c' → c = c'.
Proof. destruct c, c'. cbn. intros Hl [= -> -> Hq]. f_equal. by apply determined_list. Qed.

Lemma boolean_query_from_determined b b' :
  Forall (λ q, ∀ q', query_from q = query_from q' → q = q') (sdk_parts (SdkQuery.Boolean b)) →
  boolean_query_from query_from b = boolean_query_from query_from b' → b = b'.
Proof.
  destruct b as [x mu mn sh], b' as [x' mu' mn' sh']. cbn. rewrite !list.Forall_app. 
  intros (Hu & Hn & Hs) [= -> Eu En Es].
  f_equal.
  - apply option_determined in Eu; [done|]. intros c c' -> -> Hc. by apply conjunction_query_from_determined.
  - apply option_determined in En; [done|]. intros c c' -> -> Hc. by apply disjunction_query_from_determined.
  - apply option_determined in Es; [done|]. intros c c' -> -> Hc. by apply disjunction_query_from_determined.
Qed.

(** Nothing of a query is lost on the way to the agent. *)
#[export] Instance query_from_inj : Inj (=) (=) query_from.
Proof.
  intros q. induction q as [q IH] using sdk_query_parts_ind. intros q' Heq.
  destruct q as [q|q|q|q|q|q|q|q|q|q|q|q|q|q|q|q|q|q|q|q|q],
    q' as [q'|q'|q'|q'|q'|q'|q'|q'|q'|q'|q'|q'|q'|q'|q'|q'|q'|q'|q'|q'|q'];
    try discriminate Heq; f_equal.
  8: apply conjunction_query_from_determined; [done|cbn [query_from] in Heq; congruence].
  8: apply disjunction_query_from_determined; [done|cbn [query_from] in Heq; congruence].
  8: apply boolean_query_from_determined; [done|cbn [query_from] in Heq; congruence].
  all: destruct q, q'; repeat match goal with l : SdkLocation |- _ => destruct l end;
    first [reflexivity | injection Heq as Heq; intros; by simplify_eq/=].
Qed.

(** C25. The server can tell which query an application asked for: two queries of applications, whose ranges
    have a bound and whose boolean queries have a clause, in them and in all their parts, that are
    written as the same document - by way of the queries of the agent - are the same query, field by
    field. *)
Theorem sdk_queries_told_apart {V} q q' :
  recognised (query_from q) → recognised (query_from q') →
  query_ser (V:=V) (query_from q) = query_ser (query_from q') → q = q'.
Proof. intros Hr Hr' Heq. apply (inj query_from). by apply (queries_are_determined (V:=V)). Qed.

(** ** Witness *)

Definition sample_sdk_query (field : string) : SdkQuery :=
  SdkQuery.Conjunction (sdk_conjunction_query_new
    [SdkQuery.Match (sdk_match_query_operator SdkMatchOperator.And (sdk_match_query_new "red wine"));
     SdkQuery.NumericRange (sdk_numeric_range_query_min 0 (sdk_numeric_range_query_field field sdk_numeric_range_query_new))]).

Lemma sample_sdk_query_recognised field : recognised (query_from (sample_sdk_query field)).
Proof. repeat (constructor; [reflexivity|]). repeat constructor. Qed.

Lemma sdk_queries_told_apart_witness :
  recognised (query_from (sample_sdk_query "price"))
  ∧ query_ser (V:=unit) (query_from (sample_sdk_query "price")) ≠ query_ser (query_from (sample_sdk_query "year")).
Proof.
  split; [apply sample_sdk_query_recognised|]. intros Heq.
  discriminate (sdk_queries_told_apart (V:=unit) (sample_sdk_query "price") (sample_sdk_query "year")
    (sample_sdk_query_recognised _) (sample_sdk_query_recognised _) Heq).
Defined.

(** * Options of searches in the public crate ([couchbase/src/search/facets.rs], [sort.rs], [vector.rs],
    [request.rs], [couchbase/src/options/search_options.rs])

    Facets, sorting, vector queries, requests and options, with their setters, and what they become at
    the agent ([SearchOptions.v]).  [D] is a date with its offset, [V] a JSON value, [T] a retry strategy. *)

(** ** Facets *)

Module SdkTermFacet.
Record SdkTermFacet : Type := mk {
  field : string;
  size : option Z;
}.
End SdkTermFacet.
Abbreviation SdkTermFacet := SdkTermFacet.SdkTermFacet.
#[global] Instance sdk_term_facet_settable : Settable (SdkTermFacet) := λ r,
  SdkTermFacet.mk (SdkTermFacet.field r) (SdkTermFacet.size r).

Definition sdk_term_facet_new (field : string) : SdkTermFacet :=
  SdkTermFacet.mk field None.

Definition sdk_term_facet_size (size : option Z) (self : SdkTermFacet) : SdkTermFacet :=
  self <| SdkTermFacet.size := size |>.

Module SdkNumericRange.
Record SdkNumericRange : Type := mk {
  name : string;
  min : option Z;
  max : option Z;
}.
End SdkNumericRange.
Abbreviation SdkNumericRange := SdkNumericRange.SdkNumericRange.
#[global] Instance sdk_numeric_range_settable : Settable (SdkNumericRange) := λ r,
  SdkNumericRange.mk (SdkNumericRange.name r) (SdkNumericRange.min r) (SdkNumericRange.max r).

Definition sdk_numeric_range_new (name : string) : SdkNumericRange :=
  SdkNumericRange.mk name None None.

Definition sdk_numeric_range_min (min : option Z) (self : SdkNumericRange) : SdkNumericRange :=
  self <| SdkNumericRange.min := min |>.

Definition sdk_numeric_range_max (max : option Z) (self : SdkNumericRange) : SdkNumericRange :=
  self <| SdkNumericRange.max := max |>.

Module SdkNumericRangeFacet.
Record SdkNumericRangeFacet : Type := mk {
  field : string;
  size : option Z;
  numeric_ranges : list SdkNumericRange;
}.
End SdkNumericRangeFacet.
Abbreviation SdkNumericRangeFacet := SdkNumericRangeFacet.SdkNumericRangeFacet.
#[global] Instance sdk_numeric_range_facet_settable : Settable (SdkNumericRangeFacet) := λ r,
  SdkNumericRangeFacet.mk (SdkNumericRangeFacet.field r) (SdkNumericRangeFacet.size r)
    (SdkNumericRangeFacet.numeric_ranges r).

Definition sdk_numeric_range_facet_new (field : string) : SdkNumericRangeFacet :=
  SdkNumericRangeFacet.mk field None [].

Definition sdk_numeric_range_facet_with_numeric_ranges (field : string) (numeric_ranges : list SdkNumericRange)
    : SdkNumericRangeFacet :=
  SdkNumericRangeFacet.mk field None numeric_ranges.

Definition sdk_numeric_range_facet_size (size : option Z) (self : SdkNumericRangeFacet) : SdkNumericRangeFacet :=
  self <| SdkNumericRangeFacet.size := size |>.

Definition sdk_numeric_range_facet_add_numeric_range (range : SdkNumericRange) (self : SdkNumericRangeFacet) :
    SdkNumericRangeFacet :=
  self <| SdkNumericRangeFacet.numeric_ranges := SdkNumericRangeFacet.numeric_ranges self ++ [range] |>.

Module SdkDateRange.
Section Fields.
Context {D : Type}.
Record SdkDateRange : Type := mk {
  name : string;
  start : option D;
  end_ : option D;
}.
End Fields.
#[global] Arguments SdkDateRange : clear implicits.
End SdkDateRange.
Abbreviation SdkDateRange := SdkDateRange.SdkDateRange.
#[global] Instance sdk_date_range_settable D : Settable (SdkDateRange D) := λ r,
  SdkDateRange.mk (SdkDateRange.name r) (SdkDateRange.start r) (SdkDateRange.end_ r).

Definition sdk_date_range_new {D : Type} (name : string) : SdkDateRange D :=
  SdkDateRange.mk name None None.

Definition sdk_date_range_start {D : Type} (start : option D) (self : SdkDateRange D) : SdkDateRange D :=
  self <| SdkDateRange.start := start |>.

Definition sdk_date_range_end {D : Type} (end_ : option D) (self : SdkDateRange D) : SdkDateRange D :=
  self <| SdkDateRange.end_ := end_ |>.

Module SdkDateRangeFacet.
Section Fields.
Context {D : Type}.
Record SdkDateRangeFacet : Type := mk {
  field : string;
  size : option Z;
  date_ranges : list (SdkDateRange D);
}.
End Fields.
#[global] Arguments SdkDateRangeFacet : clear implicits.
End SdkDateRangeFacet.
Abbreviation SdkDateRangeFacet := SdkDateRangeFacet.SdkDateRangeFacet.
#[global] Instance sdk_date_range_facet_settable D : Settable (SdkDateRangeFacet D) := λ r,
  SdkDateRangeFacet.mk (SdkDateRangeFacet.field r) (SdkDateRangeFacet.size r) (SdkDateRangeFacet.date_ranges r).

Definition sdk_date_range_facet_new {D : Type} (field : string) : SdkDateRangeFacet D :=
  SdkDateRangeFacet.mk field None [].

Definition sdk_date_range_facet_with_date_ranges {D : Type} (field : string) (date_ranges : list (SdkDateRange
    D)) : SdkDateRangeFacet D :=
  SdkDateRangeFacet.mk field None date_ranges.

Definition sdk_date_range_facet_size {D : Type} (size : option Z)
    (self : SdkDateRangeFacet D) : SdkDateRangeFacet D :=
  self <| SdkDateRangeFacet.size := size |>.

Definition sdk_date_range_facet_add_date_range {D : Type} (range : SdkDateRange D) (self : SdkDateRangeFacet D)
    : SdkDateRangeFacet D :=
  self <| SdkDateRangeFacet.date_ranges := SdkDateRangeFacet.date_ranges self ++ [range] |>.

Module SdkFacet.
Inductive SdkFacet {D : Type} : Type :=
| Term (f : SdkTermFacet)
| NumericRange (f : SdkNumericRangeFacet)
| DateRange (f : SdkDateRangeFacet D).
#[global] Arguments SdkFacet : clear implicits.
End SdkFacet.
Abbreviation SdkFacet := SdkFacet.SdkFacet.

Definition term_facet_from (facet : SdkTermFacet) : TermFacet :=
  term_facet_size (SdkTermFacet.size facet)
    (term_facet_new (SdkTermFacet.field facet)).

Definition numeric_range_from (facet : SdkNumericRange) : NumericRange :=
  numeric_range_max (SdkNumericRange.max facet)
    (numeric_range_min (SdkNumericRange.min facet)
    (numeric_range_new (SdkNumericRange.name facet))).

Definition numeric_range_facet_from (facet : SdkNumericRangeFacet) : NumericRangeFacet :=
  numeric_range_facet_size (SdkNumericRangeFacet.size facet)
    (numeric_range_facet_with_numeric_ranges (SdkNumericRangeFacet.field facet) (numeric_range_from <$>
      SdkNumericRangeFacet.numeric_ranges facet)).

Definition date_range_from {D : Type} (facet : SdkDateRange D) : DateRange D :=
  date_range_end (SdkDateRange.end_ facet)
    (date_range_start (SdkDateRange.start facet)
    (date_range_new (SdkDateRange.name facet))).

Definition date_range_facet_from {D : Type} (facet : SdkDateRangeFacet D) : DateRangeFacet D :=
  date_range_facet_size (SdkDateRangeFacet.size facet)
    (date_range_facet_with_date_ranges (SdkDateRangeFacet.field facet) (date_range_from <$>
      SdkDateRangeFacet.date_ranges facet)).

Definition facet_from {D : Type} (facet : SdkFacet D) : Facet D :=
  match facet with
  | SdkFacet.Term f => Facet.Term (term_facet_from f)
  | SdkFacet.NumericRange f => Facet.NumericRange (numeric_range_facet_from f)
  | SdkFacet.DateRange f => Facet.DateRange (date_range_facet_from f)
  end.

(** ** Sorting *)

Module SdkSortFieldType.
Inductive SdkSortFieldType : Type := Auto | String_ | Number | Date.
End SdkSortFieldType.

Module SdkSortFieldMode.
Inductive SdkSortFieldMode : Type := Default | Min | Max.
End SdkSortFieldMode.

Module SdkSortFieldMissing.
Inductive SdkSortFieldMissing : Type := First | Last.
End SdkSortFieldMissing.

Module SdkSortGeoDistanceUnit.
Inductive SdkSortGeoDistanceUnit : Type :=
  Meters | Miles | Centimeters | Millimeters | NauticalMiles | Kilometers | Feet | Yards | Inches.
End SdkSortGeoDistanceUnit.

Module SdkSortScore.
Record SdkSortScore : Type := mk {
  descending : option bool;
}.
End SdkSortScore.
Abbreviation SdkSortScore := SdkSortScore.SdkSortScore.
#[global] Instance sdk_sort_score_settable : Settable (SdkSortScore) := λ r,
  SdkSortScore.mk (SdkSortScore.descending r).

Definition sdk_sort_score_new : SdkSortScore :=
  SdkSortScore.mk None.

Definition sdk_sort_score_descending (descending : option bool) (self : SdkSortScore) : SdkSortScore :=
  self <| SdkSortScore.descending := descending |>.

Module SdkSortId.
Record SdkSortId : Type := mk {
  descending : option bool;
}.
End SdkSortId.
Abbreviation SdkSortId := SdkSortId.SdkSortId.
#[global] Instance sdk_sort_id_settable : Settable (SdkSortId) := λ r,
  SdkSortId.mk (SdkSortId.descending r).

Definition sdk_sort_id_new : SdkSortId :=
  SdkSortId.mk None.

Definition sdk_sort_id_descending (descending : option bool) (self : SdkSortId) : SdkSortId :=
  self <| SdkSortId.descending := descending |>.

Module SdkSortField.
Record SdkSortField : Type := mk {
  field : string;
  descending : option bool;
  sort_type : option SdkSortFieldType.SdkSortFieldType;
  mode : option SdkSortFieldMode.SdkSortFieldMode;
  missing : option SdkSortFieldMissing.SdkSortFieldMissing;
}.
End SdkSortField.
Abbreviation SdkSortField := SdkSortField.SdkSortField.
#[global] Instance sdk_sort_field_settable : Settable (SdkSortField) := λ r,
  SdkSortField.mk (SdkSortField.field r) (SdkSortField.descending r) (SdkSortField.sort_type r)
    (SdkSortField.mode r) (SdkSortField.missing r).

Definition sdk_sort_field_new (field : string) : SdkSortField :=
  SdkSortField.mk field None None None None.

Definition sdk_sort_field_descending (descending : option bool) (self : SdkSortField) : SdkSortField :=
  self <| SdkSortField.descending := descending |>.

Definition sdk_sort_field_sort_type (sort_type : option SdkSortFieldType.SdkSortFieldType)
    (self : SdkSortField) : SdkSortField :=
  self <| SdkSortField.sort_type := sort_type |>.

Definition sdk_sort_field_mode (mode : option SdkSortFieldMode.SdkSortFieldMode)
    (self : SdkSortField) : SdkSortField :=
  self <| SdkSortField.mode := mode |>.

Definition sdk_sort_field_missing (missing : option SdkSortFieldMissing.SdkSortFieldMissing)
    (self : SdkSortField) : SdkSortField :=
  self <| SdkSortField.missing := missing |>.

Module SdkSortGeoDistance.
Record SdkSortGeoDistance : Type := mk {
  field : string;
  descending : option bool;
  location : SdkLocation;
  unit : option SdkSortGeoDistanceUnit.SdkSortGeoDistanceUnit;
}.
End SdkSortGeoDistance.
Abbreviation SdkSortGeoDistance := SdkSortGeoDistance.SdkSortGeoDistance.
#[global] Instance sdk_sort_geo_distance_settable : Settable (SdkSortGeoDistance) := λ r,
  SdkSortGeoDistance.mk (SdkSortGeoDistance.field r) (SdkSortGeoDistance.descending r)
    (SdkSortGeoDistance.location r) (SdkSortGeoDistance.unit r).

Definition sdk_sort_geo_distance_new (field : string) (location : SdkLocation) : SdkSortGeoDistance :=
  SdkSortGeoDistance.mk field None location None.

Definition sdk_sort_geo_distance_descending (descending : option bool)
    (self : SdkSortGeoDistance) : SdkSortGeoDistance :=
  self <| SdkSortGeoDistance.descending := descending |>.

Definition sdk_sort_geo_distance_unit (unit : option SdkSortGeoDistanceUnit.SdkSortGeoDistanceUnit)
    (self : SdkSortGeoDistance) : SdkSortGeoDistance :=
  self <| SdkSortGeoDistance.unit := unit |>.

Module SdkSort.
Inductive SdkSort : Type :=
| Score (s : SdkSortScore)
| Id (s : SdkSortId)
| Field (s : SdkSortField)
| GeoDistance (s : SdkSortGeoDistance).
End SdkSort.
Abbreviation SdkSort := SdkSort.SdkSort.

Definition sort_score_from (sort_score : SdkSortScore) : SortScore :=
  sort_score_descending (SdkSortScore.descending sort_score) sort_score_new.

Definition sort_id_from (sort_id : SdkSortId) : SortId :=
  sort_id_descending (SdkSortId.descending sort_id) sort_id_new.

Definition sort_field_type_from (sort_field_type : SdkSortFieldType.SdkSortFieldType) : SortFieldType.SortFieldType :=
  match sort_field_type with
  | SdkSortFieldType.Auto => SortFieldType.Auto
  | SdkSortFieldType.String_ => SortFieldType.String_
  | SdkSortFieldType.Number => SortFieldType.Number
  | SdkSortFieldType.Date => SortFieldType.Date
  end.

Definition sort_field_mode_from (sort_field_mode : SdkSortFieldMode.SdkSortFieldMode) : SortFieldMode.SortFieldMode :=
  match sort_field_mode with
  | SdkSortFieldMode.Default => SortFieldMode.Default
  | SdkSortFieldMode.Min => SortFieldMode.Min
  | SdkSortFieldMode.Max => SortFieldMode.Max
  end.

Definition sort_field_missing_from (sort_field_missing : SdkSortFieldMissing.SdkSortFieldMissing) :
  SortFieldMissing :=
  match sort_field_missing with
  | SdkSortFieldMissing.First => First
  | SdkSortFieldMissing.Last => Last
  end.

Definition sort_field_from (sort_field : SdkSortField) : SortField :=
  sort_field_missing (sort_field_missing_from <$> SdkSortField.missing sort_field)
    (sort_field_mode (sort_field_mode_from <$> SdkSortField.mode sort_field)
    (sort_field_sort_type (sort_field_type_from <$> SdkSortField.sort_type sort_field)
    (sort_field_descending (SdkSortField.descending sort_field)
    (sort_field_new (SdkSortField.field sort_field))))).

Definition sort_geo_distance_unit_from (sort_geo_distance_unit : SdkSortGeoDistanceUnit.SdkSortGeoDistanceUnit) :
  SortGeoDistanceUnit :=
  match sort_geo_distance_unit with
  | SdkSortGeoDistanceUnit.Meters => Meters
  | SdkSortGeoDistanceUnit.Miles => Miles
  | SdkSortGeoDistanceUnit.Centimeters => Centimeters
  | SdkSortGeoDistanceUnit.Millimeters => Millimeters
  | SdkSortGeoDistanceUnit.NauticalMiles => NauticalMiles
  | SdkSortGeoDistanceUnit.Kilometers => Kilometers
  | SdkSortGeoDistanceUnit.Feet => Feet
  | SdkSortGeoDistanceUnit.Yards => Yards
  | SdkSortGeoDistanceUnit.Inches => Inches
  end.

Definition sort_geo_distance_from (sort_geo_distance : SdkSortGeoDistance) : SortGeoDistance :=
  sort_geo_distance_unit (sort_geo_distance_unit_from <$> SdkSortGeoDistance.unit sort_geo_distance)
    (sort_geo_distance_descending (SdkSortGeoDistance.descending sort_geo_distance)
    (sort_geo_distance_new (SdkSortGeoDistance.field sort_geo_distance) (location_from
      (SdkSortGeoDistance.location sort_geo_distance)))).

Definition sort_from (sort : SdkSort) : Sort :=
  match sort with
  | SdkSort.Score s => Sort.Score (sort_score_from s)
  | SdkSort.Id s => Sort.Id (sort_id_from s)
  | SdkSort.Field s => Sort.Field (sort_field_from s)
  | SdkSort.GeoDistance s => Sort.GeoDistance (sort_geo_distance_from s)
  end.

(** ** Vector queries *)

Module VectorQueryCombination.
Inductive VectorQueryCombination : Type := And | Or.
End VectorQueryCombination.

Definition knn_operator_from (value : VectorQueryCombination.VectorQueryCombination) : KnnOperator.KnnOperator :=
  match value with
  | VectorQueryCombination.And => KnnOperator.And
  | VectorQueryCombination.Or => KnnOperator.Or
  end.

Module VectorQuery.
Record VectorQuery : Type := mk {
  field_name : string;
  num_candidates : Z;
  query : option (list Z);
  base64_query : option string;
  boost : option Z;
  prefilter : option SdkQuery;
}.
End VectorQuery.
Abbreviation VectorQuery := VectorQuery.VectorQuery.
#[global] Instance vector_query_settable : Settable (VectorQuery) := λ r,
  VectorQuery.mk (VectorQuery.field_name r) (VectorQuery.num_candidates r) (VectorQuery.query r)
    (VectorQuery.base64_query r) (VectorQuery.boost r) (VectorQuery.prefilter r).

Definition vector_query_boost (boost : Z) (self : VectorQuery) : VectorQuery :=
  self <| VectorQuery.boost := Some boost |>.

Definition vector_query_num_candidates (num_candidates : Z) (self : VectorQuery) : VectorQuery :=
  self <| VectorQuery.num_candidates := num_candidates |>.

Definition vector_query_prefilter (prefilter : SdkQuery) (self : VectorQuery) : VectorQuery :=
  self <| VectorQuery.prefilter := Some prefilter |>.

Definition vector_query_with_vector (vector_field_name : string) (vector_query : list Z) : VectorQuery :=
  VectorQuery.mk vector_field_name 3 (Some vector_query) None None None.

Definition vector_query_with_base64_vector (vector_field_name base_64_vector_query : string) : VectorQuery :=
  VectorQuery.mk vector_field_name 3 None (Some base_64_vector_query) None None.

Module VectorSearch.
Record VectorSearch : Type := mk {
  vector_queries : list VectorQuery;
  query_combination : option VectorQueryCombination.VectorQueryCombination;
}.
End VectorSearch.
Abbreviation VectorSearch := VectorSearch.VectorSearch.
#[global] Instance vector_search_settable : Settable (VectorSearch) := λ r,
  VectorSearch.mk (VectorSearch.vector_queries r) (VectorSearch.query_combination r).

Module VectorSearchOptions.
Record VectorSearchOptions : Type := mk {
  query_combination : option VectorQueryCombination.VectorQueryCombination;
}.
End VectorSearchOptions.
Abbreviation VectorSearchOptions := VectorSearchOptions.VectorSearchOptions.
#[global] Instance vector_search_options_settable : Settable (VectorSearchOptions) := λ r,
  VectorSearchOptions.mk (VectorSearchOptions.query_combination r).

Definition vector_search_options_new : VectorSearchOptions :=
  VectorSearchOptions.mk None.

Definition vector_search_options_query_combination
    (query_combination : VectorQueryCombination.VectorQueryCombination)
    (self : VectorSearchOptions) : VectorSearchOptions :=
  self <| VectorSearchOptions.query_combination := Some query_combination |>.

Definition vector_search_new (vector_queries : list VectorQuery) (opts : option VectorSearchOptions) : VectorSearch :=
  let query_combination := opts ← opts; VectorSearchOptions.query_combination opts in
  VectorSearch.mk vector_queries query_combination.

(** [TryFrom<VectorQuery> for KnnQuery]. *)
Definition knn_query_try_from (value : VectorQuery) : outcome Sdk.Error KnnQuery :=
  match VectorQuery.query value, VectorQuery.base64_query value with
  | None, None =>
      Err (Sdk.invalid_argument "query, base64_query"
             (Sdk.Text "one of vector search query or base64_query must be set"))
  | Some _, Some _ =>
      Err (Sdk.invalid_argument "query, base64_query"
             (Sdk.Text "only one of vector search query or base64_query may be set"))
  | Some [], None => Err (Sdk.invalid_argument "query" (Sdk.Text "vector search query must be non-empty"))
  | None, Some ""%string =>
      Err (Sdk.invalid_argument "base64_query" (Sdk.Text "base64_query must be a non-empty string"))
  | _, _ =>
      if VectorQuery.num_candidates value =? 0 then
        Err (Sdk.invalid_argument "num_candidates" (Sdk.Text "if set num_candidates must be greater than zero"))
      else
        Ok (knn_query_filter (query_from <$> VectorQuery.prefilter value)
             (knn_query_vector_base64 (VectorQuery.base64_query value)
             (knn_query_vector (VectorQuery.query value)
             (knn_query_boost (VectorQuery.boost value)
             (knn_query_new (VectorQuery.field_name value) (VectorQuery.num_candidates value))))))
  end.

(** ** Requests *)

Module SearchRequest.
Record SearchRequest : Type := mk {
  search_query : option SdkQuery;
  vector_search : option VectorSearch;
}.
End SearchRequest.
Abbreviation SearchRequest := SearchRequest.SearchRequest.
#[global] Instance search_request_settable : Settable (SearchRequest) := λ r,
  SearchRequest.mk (SearchRequest.search_query r) (SearchRequest.vector_search r).

Definition search_request_with_search_query (search_query : SdkQuery) : SearchRequest :=
  SearchRequest.mk (Some search_query) None.

Definition search_request_with_vector_search (vector_search : VectorSearch) : SearchRequest :=
  SearchRequest.mk None (Some vector_search).

Definition search_request_vector_search (vector_search : VectorSearch) (self : SearchRequest)
    : outcome Sdk.Error SearchRequest :=
  match SearchRequest.vector_search self with
  | Some _ => Err (Sdk.invalid_argument "vector_search" (Sdk.Text "vector search already set"))
  | None => Ok (self <| SearchRequest.vector_search := Some vector_search |>)
  end.

Definition search_request_search_query (search_query : SdkQuery) (self : SearchRequest)
    : outcome Sdk.Error SearchRequest :=
  match SearchRequest.search_query self with
  | Some _ => Err (Sdk.invalid_argument "search_query" (Sdk.Text "search query already set"))
  | None => Ok (self <| SearchRequest.search_query := Some search_query |>)
  end.

(** ** Options *)

Module SdkSearchScanConsistency.
Inductive SdkSearchScanConsistency : Type := NotBounded.
End SdkSearchScanConsistency.

Module SdkHighlightStyle.
Inductive SdkHighlightStyle : Type := Html | Ansi.
End SdkHighlightStyle.

Module SdkHighlight.
Record SdkHighlight : Type := mk {
  style : option SdkHighlightStyle.SdkHighlightStyle;
  fields : option (list string);
}.
End SdkHighlight.
Abbreviation SdkHighlight := SdkHighlight.SdkHighlight.
#[global] Instance sdk_highlight_settable : Settable (SdkHighlight) := λ r,
  SdkHighlight.mk (SdkHighlight.style r) (SdkHighlight.fields r).

Definition sdk_highlight_new : SdkHighlight :=
  SdkHighlight.mk None None.

Definition sdk_highlight_style (style : SdkHighlightStyle.SdkHighlightStyle) (self : SdkHighlight) : SdkHighlight :=
  self <| SdkHighlight.style := Some style |>.

Definition sdk_highlight_fields (fields : list string) (self : SdkHighlight) : SdkHighlight :=
  self <| SdkHighlight.fields := Some fields |>.

Definition consistency_level_from (sc : SdkSearchScanConsistency.SdkSearchScanConsistency) :
  ConsistencyLevel.ConsistencyLevel :=
  match sc with
  | SdkSearchScanConsistency.NotBounded => ConsistencyLevel.NotBounded
  end.

Definition highlight_style_from (hs : SdkHighlightStyle.SdkHighlightStyle) : HighlightStyle :=
  match hs with
  | SdkHighlightStyle.Html => Html
  | SdkHighlightStyle.Ansi => Ansi
  end.

Definition highlight_from (h : SdkHighlight) : Highlight :=
  highlight_fields (SdkHighlight.fields h)
    (highlight_style (highlight_style_from <$> SdkHighlight.style h) highlight_new).

Module SdkSearchOptions.
Section Fields.
Context {T D V : Type}.
Record SdkSearchOptions : Type := mk {
  collections : option (list string);
  limit : option Z;
  skip : option Z;
  explain : option bool;
  highlight : option SdkHighlight;
  fields : option (list string);
  scan_consistency : option SdkSearchScanConsistency.SdkSearchScanConsistency;
  consistent_with : option MutationState;
  sort : option (list SdkSort);
  facets : option (gmap string (SdkFacet D));
  raw : option (gmap string V);
  include_locations : option bool;
  disable_scoring : option bool;
  server_timeout : option Duration;
  retry_strategy : option T;
}.
End Fields.
#[global] Arguments SdkSearchOptions : clear implicits.
End SdkSearchOptions.
Abbreviation SdkSearchOptions := SdkSearchOptions.SdkSearchOptions.
#[global] Instance sdk_search_options_settable T D V : Settable (SdkSearchOptions T D V) := λ r,
  SdkSearchOptions.mk (SdkSearchOptions.collections r) (SdkSearchOptions.limit r) (SdkSearchOptions.skip r)
    (SdkSearchOptions.explain r) (SdkSearchOptions.highlight r) (SdkSearchOptions.fields r)
    (SdkSearchOptions.scan_consistency r) (SdkSearchOptions.consistent_with r) (SdkSearchOptions.sort r)
    (SdkSearchOptions.facets r) (SdkSearchOptions.raw r) (SdkSearchOptions.include_locations r)
    (SdkSearchOptions.disable_scoring r) (SdkSearchOptions.server_timeout r) (SdkSearchOptions.retry_strategy
    r).

Definition sdk_search_options_new {T D V : Type} : SdkSearchOptions T D V :=
  SdkSearchOptions.mk None None None None None None None None None None None None None None None.

Definition sdk_search_options_collections {T D V : Type} (collections : list string)
    (self : SdkSearchOptions T D V) : SdkSearchOptions T D V :=
  self <| SdkSearchOptions.collections := Some collections |>.

Definition sdk_search_options_limit {T D V : Type} (limit : Z)
    (self : SdkSearchOptions T D V) : SdkSearchOptions T D V :=
  self <| SdkSearchOptions.limit := Some limit |>.

Definition sdk_search_options_skip {T D V : Type} (skip : Z)
    (self : SdkSearchOptions T D V) : SdkSearchOptions T D V :=
  self <| SdkSearchOptions.skip := Some skip |>.

Definition sdk_search_options_explain {T D V : Type} (explain : bool)
    (self : SdkSearchOptions T D V) : SdkSearchOptions T D V :=
  self <| SdkSearchOptions.explain := Some explain |>.

Definition sdk_search_options_highlight {T D V : Type} (highlight : SdkHighlight)
    (self : SdkSearchOptions T D V) : SdkSearchOptions T D V :=
  self <| SdkSearchOptions.highlight := Some highlight |>.

Definition sdk_search_options_fields {T D V : Type} (fields : list string)
    (self : SdkSearchOptions T D V) : SdkSearchOptions T D V :=
  self <| SdkSearchOptions.fields := Some fields |>.

Definition sdk_search_options_scan_consistency {T D V : Type} (scan_consistency :
  SdkSearchScanConsistency.SdkSearchScanConsistency)
    (self : SdkSearchOptions T D V) : SdkSearchOptions T D V :=
  self <| SdkSearchOptions.scan_consistency := Some scan_consistency |>.

Definition sdk_search_options_consistent_with {T D V : Type} (consistent_with : MutationState)
    (self : SdkSearchOptions T D V) : SdkSearchOptions T D V :=
  self <| SdkSearchOptions.consistent_with := Some consistent_with |>.

Definition sdk_search_options_sort {T D V : Type} (sort : list SdkSort)
    (self : SdkSearchOptions T D V) : SdkSearchOptions T D V :=
  self <| SdkSearchOptions.sort := Some sort |>.

Definition sdk_search_options_facets {T D V : Type} (facets : gmap string (SdkFacet D))
    (self : SdkSearchOptions T D V) : SdkSearchOptions T D V :=
  self <| SdkSearchOptions.facets := Some facets |>.

Definition sdk_search_options_include_locations {T D V : Type} (include_locations : bool)
    (self : SdkSearchOptions T D V) : SdkSearchOptions T D V :=
  self <| SdkSearchOptions.include_locations := Some include_locations |>.

Definition sdk_search_options_disable_scoring {T D V : Type} (disable_scoring : bool)
    (self : SdkSearchOptions T D V) : SdkSearchOptions T D V :=
  self <| SdkSearchOptions.disable_scoring := Some disable_scoring |>.

Definition sdk_search_options_server_timeout {T D V : Type} (server_timeout : Duration)
    (self : SdkSearchOptions T D V) : SdkSearchOptions T D V :=
  self <| SdkSearchOptions.server_timeout := Some server_timeout |>.

Definition sdk_search_options_retry_strategy {T D V : Type} (retry_strategy : T)
    (self : SdkSearchOptions T D V) : SdkSearchOptions T D V :=
  self <| SdkSearchOptions.retry_strategy := Some retry_strategy |>.

(** [add_raw]: [value] is what [serde_json::to_value] makes of the value. *)
Definition sdk_search_options_add_raw {T D V : Type} (key : string) (value : string + V)
    (self : SdkSearchOptions T D V) : outcome Sdk.Error (SdkSearchOptions T D V) :=
  match value with
  | inl e => Err (Sdk.encoding_failure_from_serde e)
  | inr value =>
      let params := default ∅ (SdkSearchOptions.raw self) in
      Ok (self <| SdkSearchOptions.raw := Some (<[key := value]> params) |>)
  end.

(** ** Theorems *)

(** Nothing of a facet, of an order or of a highlight is lost on the way to the agent. *)
#[export] Instance numeric_range_from_inj : Inj (=) (=) numeric_range_from.
Proof. by intros [] [] [= -> -> ->]. Qed.
#[export] Instance date_range_from_inj D : Inj (=) (=) (@date_range_from D).
Proof. by intros [] [] [= -> -> ->]. Qed.

#[export] Instance facet_from_inj D : Inj (=) (=) (@facet_from D).
Proof.
  intros [[]|[]|[]] [[]|[]|[]] Heq; try discriminate Heq; injection Heq as Heq; intros; by simplify_eq/=.
Qed.

#[export] Instance sort_field_type_from_inj : Inj (=) (=) sort_field_type_from.
Proof. by intros [] []. Qed.
#[export] Instance sort_field_mode_from_inj : Inj (=) (=) sort_field_mode_from.
Proof. by intros [] []. Qed.
#[export] Instance sort_field_missing_from_inj : Inj (=) (=) sort_field_missing_from.
Proof. by intros [] []. Qed.
#[export] Instance sort_geo_distance_unit_from_inj : Inj (=) (=) sort_geo_distance_unit_from.
Proof. by intros [] []. Qed.
#[export] Instance highlight_style_from_inj : Inj (=) (=) highlight_style_from.
Proof. by intros [] []. Qed.

#[export] Instance sort_from_inj : Inj (=) (=) sort_from.
Proof.
  intros [[]|[]|[]|[]] [[]|[]|[]|[]] Heq; try discriminate Heq;
    repeat match goal with l : SdkLocation |- _ => destruct l end; injection Heq as Heq; intros; by simplify_eq/=.
Qed.

#[export] Instance highlight_from_inj : Inj (=) (=) highlight_from.
Proof. intros [] [] Heq. injection Heq as Heq. intros. by simplify_eq/=. Qed.

(** A vector query reaches the agent exactly when it has a vector, in one of its two forms, and asks for
    candidates; and then the agent's query has all of it. *)
Lemma knn_query_try_from_ok value q :
  knn_query_try_from value = Ok q ↔
  VectorQuery.num_candidates value ≠ 0
  ∧ match VectorQuery.query value, VectorQuery.base64_query value with
    | Some v, None => v ≠ [] | None, Some v => v ≠ ""%string | _, _ => False
    end
  ∧ q = KnnQuery.mk (VectorQuery.boost value) (VectorQuery.field_name value) (VectorQuery.num_candidates value)
          (VectorQuery.query value) (VectorQuery.base64_query value) (query_from <$> VectorQuery.prefilter value).
Proof.
  destruct value as [f n [[|x v]|] [[|c w]|] b p]; cbn; (destruct (n =? 0) eqn:Hn; [apply Z.eqb_eq in Hn|apply Z.eqb_neq in Hn]);
    naive_solver.
Qed.

