(* ===== verification/SdkSearch.v ===== *)
(** * Searches of the public crate ([couchbase/src/clients/search_client.rs],
    [couchbase/src/results/search_results.rs])

    What a request and its options become at the agent, the call, and the rows, facets and meta-data an
    application reads.

    Parameters are the agent ([SdkAgent.v]) and [serde_json] where an application decodes the fields of
    a row. *)

From S2P Require Import Prelude Text Wire CoreError Requests Retry CrudOptions Http FacadeError MutationState Json.
From S2P Require Import SearchQueries SearchOptions SearchReader SearchComponent.
From S2P Require Import SdkSearchQueries.

(** ** Results *)

Record SdkSearchMetrics : Type := mkSdkSearchMetrics {
  ssm_took : Duration;
  ssm_total_hits : Z;
  ssm_max_score : Z;
  ssm_successful_partition_count : Z;
  ssm_failed_partition_count : Z;
  ssm_total_partition_count : Z;
}.

Definition sdk_search_metrics_from (metrics : SearchMetrics) : SdkSearchMetrics :=
  mkSdkSearchMetrics (sm_took metrics) (sm_total_hits metrics) (sm_max_score metrics)
    (sm_successful_partition_count metrics) (sm_failed_partition_count metrics) (sm_total_partition_count metrics).

Record SdkSearchMetaData : Type := mkSdkSearchMetaData {
  ssd_errors : gmap string string;
  ssd_metrics : SdkSearchMetrics;
}.

Definition sdk_search_meta_data_from (meta : SearchResultMetaData) : SdkSearchMetaData :=
  mkSdkSearchMetaData (sd_errors meta) (sdk_search_metrics_from (sd_metrics meta)).

(** The facet results of the public crate have the fields of those of the agent. *)
Record SdkTermFacetResult : Type := mkSdkTermFacetResult { stf_term : string; stf_count : Z }.
Definition sdk_term_facet_result_from (facet : TermFacetResult) : SdkTermFacetResult :=
  mkSdkTermFacetResult (tfr_term facet) (tfr_count facet).

Record SdkNumericRangeFacetResult : Type := mkSdkNumericRangeFacetResult {
  snf_name : string;
  snf_min : Z;
  snf_max : Z;
  snf_count : Z;
}.
Definition sdk_numeric_range_facet_result_from (facet : NumericRangeFacetResult) : SdkNumericRangeFacetResult :=
  mkSdkNumericRangeFacetResult (nfr_name facet) (nfr_min facet) (nfr_max facet) (nfr_count facet).

Record SdkDateRangeFacetResult (D : Type) : Type := mkSdkDateRangeFacetResult {
  sdf_name : string;
  sdf_start : D;
  sdf_end : D;
  sdf_count : Z;
}.
#[global] Arguments mkSdkDateRangeFacetResult {D}.
#[global] Arguments sdf_name {D}.
#[global] Arguments sdf_start {D}.
#[global] Arguments sdf_end {D}.
#[global] Arguments sdf_count {D}.
Definition sdk_date_range_facet_result_from {D} (facet : DateRangeFacetResult D) : SdkDateRangeFacetResult D :=
  mkSdkDateRangeFacetResult (dfr_name facet) (dfr_start facet) (dfr_end facet) (dfr_count facet).

Module SearchFacetResultType.
Inductive SearchFacetResultType (D : Type) : Type :=
| TermFacets (l : list SdkTermFacetResult)
| NumericRangeFacets (l : list SdkNumericRangeFacetResult)
| DateRangeFacets (l : list (SdkDateRangeFacetResult D)).
#[global] Arguments TermFacets {D}.
#[global] Arguments NumericRangeFacets {D}.
#[global] Arguments DateRangeFacets {D}.
End SearchFacetResultType.
Abbreviation SearchFacetResultType := SearchFacetResultType.SearchFacetResultType.

Record SearchFacetResult (D : Type) : Type := mkSearchFacetResult {
  sfr_name : string;
  sfr_field : string;
  sfr_total : Z;
  sfr_missing : Z;
  sfr_other : Z;
  sfr_facets : SearchFacetResultType D;
}.
#[global] Arguments mkSearchFacetResult {D}.
#[global] Arguments sfr_name {D}.
#[global] Arguments sfr_field {D}.
#[global] Arguments sfr_total {D}.
#[global] Arguments sfr_missing {D}.
#[global] Arguments sfr_other {D}.
#[global] Arguments sfr_facets {D}.

(** One facet of [SearchResult::facets]: terms before dates before numbers; a facet with none of them is
    left out.  The counts are [i64]s that are cast. *)
Definition search_facet_result {D} (name : string) (facet : FacetResult D) : option (SearchFacetResult D) :=
  let result facets :=
    Some (mkSearchFacetResult name (fr_field facet) (cast_u 64 (fr_total facet)) (cast_u 64 (fr_missing facet))
            (cast_u 64 (fr_other facet)) facets) in
  match fr_terms facet, fr_date_ranges facet, fr_numeric_ranges facet with
  | Some facet_terms, _, _ => result (SearchFacetResultType.TermFacets (sdk_term_facet_result_from <$> facet_terms))
  | None, Some facet_dates, _ =>
      result (SearchFacetResultType.DateRangeFacets (sdk_date_range_facet_result_from <$> facet_dates))
  | None, None, Some numeric =>
      result (SearchFacetResultType.NumericRangeFacets (sdk_numeric_range_facet_result_from <$> numeric))
  | None, None, None => None
  end.

(** *** Locations *)

Record SearchRowLocation : Type := mkSearchRowLocation {
  srl_field : string;
  srl_term : string;
  srl_start : Z;
  srl_end : Z;
  srl_position : Z;
  srl_array_positions : option (list Z);
}.

Record SearchRowLocations : Type := mkSearchRowLocations { srl_locations : list SearchRowLocation }.

Definition get_all (self : SearchRowLocations) : list SearchRowLocation := srl_locations self.
Definition get_by_field (field : string) (self : SearchRowLocations) : list SearchRowLocation :=
  filter (λ loc, srl_field loc = field) (srl_locations self).
Definition get_by_field_and_term (field term : string) (self : SearchRowLocations) : list SearchRowLocation :=
  filter (λ loc, srl_field loc = field ∧ srl_term loc = term) (srl_locations self).
Definition location_fields (self : SearchRowLocations) : list string := srl_field <$> srl_locations self.
Definition location_terms (self : SearchRowLocations) : list string := srl_term <$> srl_locations self.
Definition terms_for (field : string) (self : SearchRowLocations) : list string :=
  srl_term <$> filter (λ loc, srl_field loc = field) (srl_locations self).

Record SearchRow : Type := mkSearchRow {
  row_index : string;
  row_id : string;
  row_score : Z;
  row_explanation : option (list Z);
  row_locations : option SearchRowLocations;
  row_fragments : option (gmap string (list string));
  row_fields : option (list Z);
}.

(** The locations of a field and a term; the position is again the place in the list. *)
Definition term_locations (field_name term_name : string) (term_data : list HitLocation) : list SearchRowLocation :=
  imap (λ loc_idx loc_data,
    mkSearchRowLocation field_name term_name (hl_start loc_data) (hl_end loc_data) (cast_u 32 (Z.of_nat loc_idx))
      (hl_array_positions loc_data)) term_data.

Definition field_locations (field_name : string) (field_data : gmap string (list HitLocation)) : list SearchRowLocation :=
  concat ((λ p, term_locations field_name p.1 p.2) <$> map_to_list field_data).

Definition hit_row_locations (hit_locations : gmap string (gmap string (list HitLocation))) : SearchRowLocations :=
  mkSearchRowLocations (concat ((λ p, field_locations p.1 p.2) <$> map_to_list hit_locations)).

(** [From<ResultHit> for SearchRow]. *)
Definition search_row_from (hit : ResultHit) : SearchRow :=
  mkSearchRow (hit_index hit) (hit_id hit) (hit_score hit) (hit_explanation hit)
    (hit_row_locations <$> hit_locations hit) (hit_fragments hit) (hit_fields hit).

(** [SearchRow::fields]. *)
Definition search_row_fields {A} (from_str : list Z → string + A) (self : SearchRow) : outcome Sdk.Error A :=
  match row_fields self with
  | Some fields =>
      match from_str fields with inl e => Err (Sdk.decoding_failure_from_serde e) | inr v => Ok v end
  | None => Err (Sdk.other_failure "no fields in response")
  end.

(** ** The client *)

Record SearchKeyspace : Type := mkSearchKeyspace { sk_bucket_name : string; sk_scope_name : string }.

Record CouchbaseSearchClient (T : Type) : Type := mkCouchbaseSearchClient {
  csc_keyspace : option SearchKeyspace;
  csc_default_retry_strategy : T;
}.
#[global] Arguments mkCouchbaseSearchClient {T}.
#[global] Arguments csc_keyspace {T}.
#[global] Arguments csc_default_retry_strategy {T}.

Definition search_client_new {T} (default_retry_strategy : T) : CouchbaseSearchClient T :=
  mkCouchbaseSearchClient None default_retry_strategy.
Definition search_client_with_keyspace {T} (keyspace : SearchKeyspace) (default_retry_strategy : T)
    : CouchbaseSearchClient T :=
  mkCouchbaseSearchClient (Some keyspace) default_retry_strategy.

(** [format!("{}/{}", vbid, vbuuid)]. *)
Definition vector_key (token : KvMutationToken) : string :=
  bytes_string (decimal (KvMutationToken.vbid token) ++ str_bytes "/" ++ decimal (KvMutationToken.vbuuid token)).

(** The vectors of the index, a token after the other. *)
Definition consistency_vectors_of (index_name : string) (tokens : list SdkMutationToken)
    : gmap string (gmap string Z) :=
  foldl (λ (vectors : gmap string (gmap string Z)) token,
    let token := SdkMutationToken.token token in
    let vector := default ∅ (vectors !! index_name) in
    <[index_name := <[vector_key token := KvMutationToken.seqno token]> vector]> vectors) ∅ tokens.

Section Client.
Context {T D V : Type}.

Definition search_consistency (index_name : string) (opts : SdkSearchOptions T D V) : option Consistency :=
  match SdkSearchOptions.scan_consistency opts, SdkSearchOptions.consistent_with opts with
  | Some scan_consistency, _ => Some (consistency_level (Some (consistency_level_from scan_consistency)) consistency_new)
  | None, Some consistent_with =>
      let vectors := consistency_vectors_of index_name (state_tokens consistent_with) in
      Some (consistency_vectors (Some vectors) (consistency_level (Some ConsistencyLevel.AtPlus) consistency_new))
  | None, None => None
  end.

Definition search_control (index_name : string) (opts : SdkSearchOptions T D V) : option Control :=
  let scan_consistency := search_consistency index_name opts in
  let server_timeout := SdkSearchOptions.server_timeout opts in
  if bool_decide (is_Some scan_consistency ∨ is_Some server_timeout) then
    Some (control_timeout ((λ t, cast_u 64 (as_millis t)) <$> server_timeout)
            (control_consistency scan_consistency control_new))
  else None.

(** [map(KnnQuery::try_from).collect::<Result<_>>()]. *)
Fixpoint knn_queries (l : list VectorQuery) : outcome Sdk.Error (list KnnQuery) :=
  match l with
  | [] => Ok []
  | q :: l => q ← knn_query_try_from q; l ← knn_queries l; Ok (q :: l)
  end.

Definition knn_of_request (request : SearchRequest)
    : outcome Sdk.Error (option (list KnnQuery) * option KnnOperator.KnnOperator) :=
  match SearchRequest.vector_search request with
  | Some vector_search =>
      queries ← knn_queries (VectorSearch.vector_queries vector_search);
      Ok (Some queries, knn_operator_from <$> VectorSearch.query_combination vector_search)
  | None => Ok (None, None)
  end.

(** A vector search without a query. *)
Definition no_vector_queries (request : SearchRequest) : bool :=
  match SearchRequest.vector_search request with
  | Some vector_search => match VectorSearch.vector_queries vector_search with [] => true | _ => false end
  | None => false
  end.

(** The part of [search] that makes the options of the agent. *)
Definition search_core_options (self : CouchbaseSearchClient T) (index_name : string) (request : SearchRequest)
    (opts : option (SdkSearchOptions T D V)) : outcome Sdk.Error (CoreSearchOptions T D V) :=
  let opts := default sdk_search_options_new opts in
  let score := match SdkSearchOptions.disable_scoring opts with Some true => Some "none"%string | _ => None end in
  if bool_decide (is_Some (SdkSearchOptions.consistent_with opts) ∧ is_Some (SdkSearchOptions.scan_consistency opts)) then
    Err (Sdk.invalid_argument "consistent_with" (Sdk.Text "cannot be used with scan_consistency"))
  else if no_vector_queries request then
    Err (Sdk.invalid_argument "vector_search.vector_queries" (Sdk.Text "must contain at least one vector query"))
  else
    let control := search_control index_name opts in
    '(knn, knn_operator) ← knn_of_request request;
    let query :=
      match SearchRequest.search_query request with
      | Some query => Some (query_from query)
      | None => Some (Query.MatchNone match_none_query_new)
      end in
    Ok (core_search_options_retry_strategy
          (default (csc_default_retry_strategy self) (SdkSearchOptions.retry_strategy opts))
       (core_search_options_endpoint None
       (core_search_options_on_behalf_of None
       (core_search_options_bucket_name (sk_bucket_name <$> csc_keyspace self)
       (core_search_options_scope_name (sk_scope_name <$> csc_keyspace self)
       (core_search_options_raw (SdkSearchOptions.raw opts)
       (core_search_options_knn_operator knn_operator
       (core_search_options_knn knn
       (core_search_options_sort ((λ l : list SdkSort, sort_from <$> l) <$> SdkSearchOptions.sort opts)
       (core_search_options_size (SdkSearchOptions.limit opts)
       (core_search_options_show_request (Some false)
       (core_search_options_search_before None
       (core_search_options_search_after None
       (core_search_options_score score
       (core_search_options_query query
       (core_search_options_include_locations (SdkSearchOptions.include_locations opts)
       (core_search_options_highlight (highlight_from <$> SdkSearchOptions.highlight opts)
       (core_search_options_from (SdkSearchOptions.skip opts)
       (core_search_options_fields (SdkSearchOptions.fields opts)
       (core_search_options_facets
          ((λ facets : gmap string (SdkFacet D), facet_from (D:=D) <$> facets) <$> SdkSearchOptions.facets opts)
       (core_search_options_explain (SdkSearchOptions.explain opts)
       (core_search_options_control control
       (core_search_options_collections (SdkSearchOptions.collections opts)
       (core_search_options_new index_name)))))))))))))))))))))))).

Context {S : Type} (get_agent : S → S * option bool) (from_slice_context : list Z → option ServerErrorContextJson).
Context (agent_search : CoreSearchOptions T D V → io S Core.Error (SearchResultStream V D)).

Definition client_search (self : CouchbaseSearchClient T) (index_name : string) (request : SearchRequest)
    (opts : option (SdkSearchOptions T D V)) : io S Sdk.Error (SearchResultStream V D) :=
  core_opts ← io_lift (search_core_options self index_name request opts);
  on_agent get_agent from_slice_context (agent_search core_opts).

(** *** Reading the result *)

Definition sdk_error {A} (r : outcome Core.Error A) : outcome Sdk.Error A :=
  map_err (Sdk.error_from_core from_slice_context) r.

Definition sdk_search_metadata (self : SearchResultStream V D) : outcome Sdk.Error SdkSearchMetaData :=
  sdk_search_meta_data_from <$> sdk_error (search_result_metadata self).

Definition sdk_search_facets (self : SearchResultStream V D) : outcome Sdk.Error (gmap string (SearchFacetResult D)) :=
  (λ facets : gmap string (FacetResult D), map_imap search_facet_result facets) <$> sdk_error (search_result_facets self).

(** A poll of [rows()], given the poll of the stream inside. *)
Definition search_rows_poll_next {X} (poll : X → X * option (outcome Core.Error ResultHit)) (wrapped : X)
    : X * option (outcome Sdk.Error SearchRow) :=
  let '(wrapped, item) := poll wrapped in
  (wrapped, (λ r, search_row_from <$> sdk_error r) <$> item).
End Client.

(** ** Theorems *)

(** *** Locations *)

Lemma term_locations_in loc field term l :
  loc ∈ term_locations field term l ↔
  ∃ i d, l !! i = Some d ∧ loc = mkSearchRowLocation field term (hl_start d) (hl_end d) (cast_u 32 (Z.of_nat i))
                                   (hl_array_positions d).
Proof.
  unfold term_locations. rewrite list_elem_of_lookup. setoid_rewrite list_lookup_imap. split.
  - intros (i & Hi). destruct (l !! i) as [d|] eqn:Hd; cbn in Hi; simplify_eq. by exists i, d.
  - intros (i & d & Hi & ->). exists i. by rewrite Hi.
Qed.

Lemma elem_of_concat_map {A B} (f : A → list B) (l : list A) x : x ∈ concat (f <$> l) ↔ ∃ a, a ∈ l ∧ x ∈ f a.
Proof.
  induction l as [|a l IH]; cbn; [set_solver|]. rewrite elem_of_app, IH. set_solver.
Qed.

(** The locations of a row for a field and a term are those the server gave for them, and no others. *)
Lemma get_by_field_and_term_in loc field term m :
  loc ∈ get_by_field_and_term field term (hit_row_locations m) ↔
  ∃ terms l i d, m !! field = Some terms ∧ terms !! term = Some l ∧ l !! i = Some d
    ∧ loc = mkSearchRowLocation field term (hl_start d) (hl_end d) (cast_u 32 (Z.of_nat i)) (hl_array_positions d).
Proof.
  unfold get_by_field_and_term, hit_row_locations, field_locations. cbn [srl_locations].
  rewrite list_elem_of_filter. setoid_rewrite elem_of_concat_map. setoid_rewrite elem_of_concat_map.
  setoid_rewrite term_locations_in. split.
  - intros ([Hf Ht] & [f ts] & Hm & [t l] & Hts & i & d & Hi & ->). cbn in *. subst.
    apply elem_of_map_to_list in Hm, Hts. by exists ts, l, i, d.
  - intros (ts & l & i & d & Hf & Ht & Hi & ->). split; [done|]. exists (field, ts). rewrite elem_of_map_to_list.
    split; [done|]. exists (term, l). rewrite elem_of_map_to_list. split; [done|]. by exists i, d.
Qed.

(** A location of a field is one of a term of it. *)
Lemma get_by_field_terms loc field self :
  loc ∈ get_by_field field self ↔ ∃ term, term ∈ terms_for field self ∧ loc ∈ get_by_field_and_term field term self.
Proof.
  unfold get_by_field, terms_for, get_by_field_and_term. setoid_rewrite list_elem_of_fmap.
  setoid_rewrite list_elem_of_filter. naive_solver.
Qed.

(** *** Facets *)

(** The counts of a facet that are not negative are the server's. *)
Lemma search_facet_result_counts {D} name (facet : FacetResult D) r :
  0 <= fr_total facet < 2 ^ 63 → 0 <= fr_missing facet < 2 ^ 63 → 0 <= fr_other facet < 2 ^ 63 →
  search_facet_result name facet = Some r →
  sfr_total r = fr_total facet ∧ sfr_missing r = fr_missing facet ∧ sfr_other r = fr_other facet.
Proof.
  intros H1 H2 H3. unfold search_facet_result, cast_u.
  destruct (fr_terms facet), (fr_date_ranges facet), (fr_numeric_ranges facet); intros [= <-]; cbn;
    rewrite !Z.mod_small by lia; done.
Qed.

(** *** The options of the agent *)

Section Options.
Context {T D V : Type}.

(** What is asked to be consistent with: every token that is the only one of its vbucket and incarnation is in
    the vectors of the index, with its sequence number, and nothing else is. *)
Lemma consistency_vectors_only index_name tokens : tokens ≠ [] →
  ∃ vector, consistency_vectors_of index_name tokens = {[ index_name := vector ]}
    ∧ ∀ key seqno, vector !! key = Some seqno →
        ∃ token, token ∈ tokens ∧ key = vector_key (SdkMutationToken.token token)
                 ∧ seqno = KvMutationToken.seqno (SdkMutationToken.token token).
Proof.
  unfold consistency_vectors_of. induction tokens as [|t tokens IH] using rev_ind; [done|]. intros _.
  rewrite foldl_app. cbn [foldl]. destruct (decide (tokens = [])) as [->|Hne].
  - cbn. eexists. split; [done|]. rewrite lookup_empty. cbn. intros key seqno [<- <-]%lookup_singleton_Some.
    exists t. split; [set_solver|done].
  - destruct (IH Hne) as (vector & -> & Hv). rewrite lookup_singleton_eq. cbn [default].
    eexists. split; [by rewrite insert_singleton_eq|]. intros key seqno.
    destruct (decide (key = vector_key (SdkMutationToken.token t))) as [->|Hk].
    + rewrite lookup_insert_eq. intros [= <-]. exists t. split; [set_solver|done].
    + rewrite lookup_insert_ne by done. intros (t' & Ht & ? & ?)%Hv. exists t'. split; [set_solver|done].
Qed.

Lemma consistency_vectors_all index_name tokens token :
  token ∈ tokens →
  (∀ t, t ∈ tokens → vector_key (SdkMutationToken.token t) = vector_key (SdkMutationToken.token token) → t = token) →
  consistency_vectors_of index_name tokens !! index_name
    ≫= (.!! vector_key (SdkMutationToken.token token)) = Some (KvMutationToken.seqno (SdkMutationToken.token token)).
Proof.
  intros Hin Hu. unfold consistency_vectors_of. induction tokens as [|t tokens IH] using rev_ind; [by apply elem_of_nil in Hin|].
  rewrite foldl_app. cbn [foldl]. rewrite lookup_insert_eq. cbn [mbind option_bind].
  destruct (decide (vector_key (SdkMutationToken.token t) = vector_key (SdkMutationToken.token token))) as [Hk|Hk].
  - rewrite (Hu t) by set_solver. by rewrite lookup_insert_eq.
  - rewrite lookup_insert_ne by done. apply elem_of_app in Hin as [Hin|Hin]; [|by apply list_elem_of_singleton in Hin as ->].
    specialize (IH Hin ltac:(set_solver)). by destruct (foldl _ ∅ tokens !! index_name).
Qed.

(** The vector queries are all taken, in their order, or the first that is not valid is the error. *)
Lemma knn_queries_ok l qs : knn_queries l = Ok qs ↔ Forall2 (λ v q, knn_query_try_from v = Ok q) l qs.
Proof.
  revert qs. induction l as [|v l IH]; intros qs; cbn [knn_queries].
  - split; [intros [= <-]; constructor|by intros ->%Forall2_nil_inv_l].
  - destruct (knn_query_try_from v) as [q|e|] eqn:Hq; cbn.
    + destruct (knn_queries l) as [qs'|e|] eqn:Hl; cbn; (split; [try done|]).
      * intros [= <-]. constructor; [done|]. by apply IH.
      * intros (q' & l' & Hq' & Hl' & ->)%Forall2_cons_inv_l. apply IH in Hl'. congruence.
      * intros (q' & l' & Hq' & Hl' & ->)%Forall2_cons_inv_l. apply IH in Hl'. congruence.
      * intros (q' & l' & Hq' & Hl' & ->)%Forall2_cons_inv_l. apply IH in Hl'. congruence.
    + split; [done|]. intros (q' & l' & Hq' & Hl' & ->)%Forall2_cons_inv_l. congruence.
    + split; [done|]. intros (q' & l' & Hq' & Hl' & ->)%Forall2_cons_inv_l. congruence.
Qed.
Lemma knn_of_request_ok request knn :
  knn_of_request request = Ok knn ↔
  match SearchRequest.vector_search request with
  | Some vs =>
      ∃ qs, knn = (Some qs, knn_operator_from <$> VectorSearch.query_combination vs)
        ∧ Forall2 (λ v q, knn_query_try_from v = Ok q) (VectorSearch.vector_queries vs) qs
  | None => knn = (None, None)
  end.
Proof.
  unfold knn_of_request. destruct (SearchRequest.vector_search request) as [vs|]; [|naive_solver].
  setoid_rewrite <-knn_queries_ok. destruct (knn_queries _) as [qs|e|]; cbn; naive_solver.
Qed.

Lemma vector_search_accepted request :
  (no_vector_queries request = false ∧ ∃ knn, knn_of_request request = Ok knn) ↔
  ∀ vs, SearchRequest.vector_search request = Some vs →
    VectorSearch.vector_queries vs ≠ []
    ∧ Forall (λ v, ∃ q, knn_query_try_from v = Ok q) (VectorSearch.vector_queries vs).
Proof.
  setoid_rewrite knn_of_request_ok. unfold no_vector_queries.
  destruct (SearchRequest.vector_search request) as [vs|]; [|naive_solver]. split.
  - intros (Hn & knn & qs & -> & Hq) ? [= <-]. split; [by intros Hl; rewrite Hl in Hn|].
    clear Hn. induction Hq; constructor; eauto.
  - intros Hv. destruct (Hv vs eq_refl) as [Hl Hf]. split; [by destruct (VectorSearch.vector_queries vs)|].
    apply Forall_exists_Forall2_l in Hf as [qs Hq]. eauto.
Qed.

(** A search is sent exactly when it does not ask for two consistencies, and its vector search, if it has one,
    has queries, which are all valid. *)
Lemma search_accepted (self : CouchbaseSearchClient T) index_name request (opts : option (SdkSearchOptions T D V)) :
  (∃ core, search_core_options self index_name request opts = Ok core) ↔
  (SdkSearchOptions.consistent_with (default sdk_search_options_new opts) = None
   ∨ SdkSearchOptions.scan_consistency (default sdk_search_options_new opts) = None)
  ∧ ∀ vs, SearchRequest.vector_search request = Some vs →
      VectorSearch.vector_queries vs ≠ []
      ∧ Forall (λ v, ∃ q, knn_query_try_from v = Ok q) (VectorSearch.vector_queries vs).
Proof.
  rewrite <-vector_search_accepted. unfold search_core_options. cbv zeta. set (o := default sdk_search_options_new opts).
  assert (bool_decide (is_Some (SdkSearchOptions.consistent_with o) ∧ is_Some (SdkSearchOptions.scan_consistency o)) = false
    ↔ SdkSearchOptions.consistent_with o = None ∨ SdkSearchOptions.scan_consistency o = None) as <-
    by (rewrite bool_decide_eq_false; destruct (SdkSearchOptions.consistent_with o), (SdkSearchOptions.scan_consistency o);
        unfold is_Some; naive_solver).
  destruct (bool_decide _); [naive_solver|]. destruct (no_vector_queries request); [naive_solver|].
  destruct (knn_of_request request) as [[knn op]|e|]; cbn; naive_solver.
Qed.

(** The agent is asked for what the application asked for: its query, or none, its vector queries, its facets
    and its order, each as the agent has them, in the keyspace of the client. *)
Lemma search_core_options_fields (self : CouchbaseSearchClient T) index_name request (opts : option (SdkSearchOptions T D V)) core :
  search_core_options self index_name request opts = Ok core →
  CoreSearchOptions.index_name core = index_name
  ∧ CoreSearchOptions.query core
    = Some (from_option query_from (Query.MatchNone match_none_query_new) (SearchRequest.search_query request))
  ∧ knn_of_request request = Ok (CoreSearchOptions.knn core, CoreSearchOptions.knn_operator core)
  ∧ CoreSearchOptions.bucket_name core = sk_bucket_name <$> csc_keyspace self
  ∧ CoreSearchOptions.scope_name core = sk_scope_name <$> csc_keyspace self
  ∧ CoreSearchOptions.control core = search_control index_name (default sdk_search_options_new opts)
  ∧ CoreSearchOptions.retry_strategy core
    = default (csc_default_retry_strategy self) (SdkSearchOptions.retry_strategy (default sdk_search_options_new opts)).
Proof.
  unfold search_core_options. cbv zeta. destruct (bool_decide _); [done|]. destruct (no_vector_queries request); [done|].
  destruct (knn_of_request request) as [[knn op]|e|]; try done. intros [= <-].
  by destruct (SearchRequest.search_query request).
Qed.
End Options.

(** *** The call *)

(** A request that is refused does not reach the agent. *)
Lemma refused_search {T D V S} (get_agent : S → S * option bool) ctx
    (agent_search : CoreSearchOptions T D V → io S Core.Error (SearchResultStream V D)) self index_name request opts e s :
  search_core_options self index_name request opts = Err e →
  client_search get_agent ctx agent_search self index_name request opts s = (s, Some (Err e)).
Proof. intros He. unfold client_search, mbind, io_bind, io_lift. by rewrite He. Qed.
