(* ===== verification/SdkQuery.v ===== *)
(** * Queries of the public crate ([couchbase/src/clients/query_client.rs],
    [couchbase/src/options/query_options.rs], [couchbase/src/results/query_results.rs])

    The options of a query, what they become at the agent, the call, and the rows and the meta-data an
    application reads.  [V] is a JSON value, [T] a retry strategy.

    Parameters are the agent ([SdkAgent.v]), [Uuid::new_v4] and [serde_json] where an application
    encodes parameters and decodes rows. *)

From S2P Require Import Prelude Text Json Wire CoreError Requests Retry CrudOptions Http FacadeError MutationState.
From S2P Require Import QueryxOptions QueryReader Query CoreQueryOptions QueryComponent.

(** ** Options *)

Module SdkScanConsistency.
Inductive SdkScanConsistency : Type := NotBounded | RequestPlus | AtPlus (state : MutationState).
End SdkScanConsistency.

Module SdkReplicaLevel.
Inductive SdkReplicaLevel : Type := On | Off.
End SdkReplicaLevel.

Definition replica_level_from (rl : SdkReplicaLevel.SdkReplicaLevel) : ReplicaLevel.ReplicaLevel :=
  match rl with SdkReplicaLevel.On => ReplicaLevel.On | SdkReplicaLevel.Off => ReplicaLevel.Off end.

Module SdkProfileMode.
Inductive SdkProfileMode : Type := Off | Phases | Timings.
End SdkProfileMode.

Definition profile_mode_from (pm : SdkProfileMode.SdkProfileMode) : ProfileMode.ProfileMode :=
  match pm with
  | SdkProfileMode.Off => ProfileMode.Off
  | SdkProfileMode.Phases => ProfileMode.Phases
  | SdkProfileMode.Timings => ProfileMode.Timings
  end.

Module SdkQueryOptions.
Section Fields.
Context {T V : Type}.
Record SdkQueryOptions : Type := mk {
  ad_hoc : option bool;
  client_context_id : option string;
  flex_index : option bool;
  max_parallelism : option Z;
  metrics : option bool;
  named_parameters : option (gmap string V);
  pipeline_batch : option Z;
  pipeline_cap : option Z;
  positional_parameters : option (list V);
  preserve_expiry : option bool;
  profile : option SdkProfileMode.SdkProfileMode;
  raw : option (gmap string V);
  read_only : option bool;
  scan_cap : option Z;
  scan_consistency : option SdkScanConsistency.SdkScanConsistency;
  scan_wait : option Duration;
  server_timeout : option Duration;
  use_replica : option SdkReplicaLevel.SdkReplicaLevel;
  retry_strategy : option T;
}.
End Fields.
#[global] Arguments SdkQueryOptions : clear implicits.
End SdkQueryOptions.
Abbreviation SdkQueryOptions := SdkQueryOptions.SdkQueryOptions.
#[global] Instance sdk_query_options_settable T V : Settable (SdkQueryOptions T V) := λ r,
  SdkQueryOptions.mk (SdkQueryOptions.ad_hoc r) (SdkQueryOptions.client_context_id r)
    (SdkQueryOptions.flex_index r) (SdkQueryOptions.max_parallelism r) (SdkQueryOptions.metrics r)
    (SdkQueryOptions.named_parameters r) (SdkQueryOptions.pipeline_batch r) (SdkQueryOptions.pipeline_cap r)
    (SdkQueryOptions.positional_parameters r) (SdkQueryOptions.preserve_expiry r) (SdkQueryOptions.profile r)
    (SdkQueryOptions.raw r) (SdkQueryOptions.read_only r) (SdkQueryOptions.scan_cap r)
    (SdkQueryOptions.scan_consistency r) (SdkQueryOptions.scan_wait r) (SdkQueryOptions.server_timeout r)
    (SdkQueryOptions.use_replica r) (SdkQueryOptions.retry_strategy r).

Definition sdk_query_options_new {T V : Type} : SdkQueryOptions T V :=
  SdkQueryOptions.mk None None None None None None None None None None None None None None None None None None None.

Definition sdk_query_options_ad_hoc {T V : Type} (ad_hoc : bool) (self : SdkQueryOptions T V) : SdkQueryOptions
    T V :=
  self <| SdkQueryOptions.ad_hoc := Some ad_hoc |>.

Definition sdk_query_options_client_context_id {T V : Type} (client_context_id : string)
    (self : SdkQueryOptions T V) : SdkQueryOptions T V :=
  self <| SdkQueryOptions.client_context_id := Some client_context_id |>.

Definition sdk_query_options_flex_index {T V : Type} (flex_index : bool)
    (self : SdkQueryOptions T V) : SdkQueryOptions T V :=
  self <| SdkQueryOptions.flex_index := Some flex_index |>.

Definition sdk_query_options_max_parallelism {T V : Type} (max_parallelism : Z)
    (self : SdkQueryOptions T V) : SdkQueryOptions T V :=
  self <| SdkQueryOptions.max_parallelism := Some max_parallelism |>.

Definition sdk_query_options_metrics {T V : Type} (metrics : bool)
    (self : SdkQueryOptions T V) : SdkQueryOptions T V :=
  self <| SdkQueryOptions.metrics := Some metrics |>.

Definition sdk_query_options_pipeline_batch {T V : Type} (pipeline_batch : Z)
    (self : SdkQueryOptions T V) : SdkQueryOptions T V :=
  self <| SdkQueryOptions.pipeline_batch := Some pipeline_batch |>.

Definition sdk_query_options_pipeline_cap {T V : Type} (pipeline_cap : Z)
    (self : SdkQueryOptions T V) : SdkQueryOptions T V :=
  self <| SdkQueryOptions.pipeline_cap := Some pipeline_cap |>.

Definition sdk_query_options_preserve_expiry {T V : Type} (preserve_expiry : bool)
    (self : SdkQueryOptions T V) : SdkQueryOptions T V :=
  self <| SdkQueryOptions.preserve_expiry := Some preserve_expiry |>.

Definition sdk_query_options_profile {T V : Type} (profile : SdkProfileMode.SdkProfileMode)
    (self : SdkQueryOptions T V) : SdkQueryOptions T V :=
  self <| SdkQueryOptions.profile := Some profile |>.

Definition sdk_query_options_read_only {T V : Type} (read_only : bool)
    (self : SdkQueryOptions T V) : SdkQueryOptions T V :=
  self <| SdkQueryOptions.read_only := Some read_only |>.

Definition sdk_query_options_scan_cap {T V : Type} (scan_cap : Z)
    (self : SdkQueryOptions T V) : SdkQueryOptions T V :=
  self <| SdkQueryOptions.scan_cap := Some scan_cap |>.

Definition sdk_query_options_scan_consistency {T V : Type}
    (scan_consistency : SdkScanConsistency.SdkScanConsistency)
    (self : SdkQueryOptions T V) : SdkQueryOptions T V :=
  self <| SdkQueryOptions.scan_consistency := Some scan_consistency |>.

Definition sdk_query_options_scan_wait {T V : Type} (scan_wait : Duration)
    (self : SdkQueryOptions T V) : SdkQueryOptions T V :=
  self <| SdkQueryOptions.scan_wait := Some scan_wait |>.

Definition sdk_query_options_server_timeout {T V : Type} (server_timeout : Duration)
    (self : SdkQueryOptions T V) : SdkQueryOptions T V :=
  self <| SdkQueryOptions.server_timeout := Some server_timeout |>.

Definition sdk_query_options_use_replica {T V : Type} (use_replica : SdkReplicaLevel.SdkReplicaLevel)
    (self : SdkQueryOptions T V) : SdkQueryOptions T V :=
  self <| SdkQueryOptions.use_replica := Some use_replica |>.

Definition sdk_query_options_retry_strategy {T V : Type} (retry_strategy : T)
    (self : SdkQueryOptions T V) : SdkQueryOptions T V :=
  self <| SdkQueryOptions.retry_strategy := Some retry_strategy |>.

(** [value] is what [serde_json::to_value] makes of the value. *)
Definition sdk_query_options_add_named_parameter {T V : Type} (key : string) (value : string + V)
    (self : SdkQueryOptions T V) : outcome Sdk.Error (SdkQueryOptions T V) :=
  match value with
  | inl e => Err (Sdk.encoding_failure_from_serde e)
  | inr value =>
      let params := default ∅ (SdkQueryOptions.named_parameters self) in
      Ok (self <| SdkQueryOptions.named_parameters := Some (<[key := value]> params) |>)
  end.

Definition sdk_query_options_add_positional_parameter {T V : Type} (parameters : string + V)
    (self : SdkQueryOptions T V) : outcome Sdk.Error (SdkQueryOptions T V) :=
  match parameters with
  | inl e => Err (Sdk.encoding_failure_from_serde e)
  | inr parameters =>
      Ok (self <| SdkQueryOptions.positional_parameters :=
                    Some (default [] (SdkQueryOptions.positional_parameters self) ++ [parameters]) |>)
  end.

Definition sdk_query_options_add_raw {T V : Type} (key : string) (value : string + V)
    (self : SdkQueryOptions T V) : outcome Sdk.Error (SdkQueryOptions T V) :=
  match value with
  | inl e => Err (Sdk.encoding_failure_from_serde e)
  | inr value =>
      let params := default ∅ (SdkQueryOptions.raw self) in
      Ok (self <| SdkQueryOptions.raw := Some (<[key := value]> params) |>)
  end.

(** ** Results *)

Record SdkQueryWarning : Type := mkSdkQueryWarning { sqw_code : Z; sqw_message : string }.
Definition sdk_query_warning_from (warning : Warning) : SdkQueryWarning :=
  mkSdkQueryWarning (warning_code warning) (warning_message warning).

Module SdkQueryStatus.
Inductive SdkQueryStatus : Type :=
| Running | Success | Errors | Completed | Stopped | Timeout | Closed | Fatal | Aborted | Unknown.
End SdkQueryStatus.

Definition sdk_query_status_from (status : QueryStatus.Status) : SdkQueryStatus.SdkQueryStatus :=
  match status with
  | QueryStatus.Running => SdkQueryStatus.Running
  | QueryStatus.Success => SdkQueryStatus.Success
  | QueryStatus.Errors => SdkQueryStatus.Errors
  | QueryStatus.Completed => SdkQueryStatus.Completed
  | QueryStatus.Stopped => SdkQueryStatus.Stopped
  | QueryStatus.Timeout => SdkQueryStatus.Timeout
  | QueryStatus.Closed => SdkQueryStatus.Closed
  | QueryStatus.Fatal => SdkQueryStatus.Fatal
  | QueryStatus.Aborted => SdkQueryStatus.Aborted
  | _ => SdkQueryStatus.Unknown
  end.

Record SdkQueryMetrics : Type := mkSdkQueryMetrics {
  sqm_elapsed_time : Duration;
  sqm_execution_time : Duration;
  sqm_result_count : Z;
  sqm_result_size : Z;
  sqm_mutation_count : Z;
  sqm_sort_count : Z;
  sqm_error_count : Z;
  sqm_warning_count : Z;
}.
Definition sdk_query_metrics_from (metrics : Metrics) : SdkQueryMetrics :=
  mkSdkQueryMetrics (elapsed_time metrics) (execution_time metrics) (result_count metrics) (result_size metrics)
    (mutation_count metrics) (sort_count metrics) (error_count metrics) (warning_count metrics).

Record SdkQueryMetaData : Type := mkSdkQueryMetaData {
  sqd_request_id : string;
  sqd_client_context_id : string;
  sqd_status : SdkQueryStatus.SdkQueryStatus;
  sqd_metrics : option SdkQueryMetrics;
  sqd_signature : option (list Z);
  sqd_warnings : list SdkQueryWarning;
  sqd_profile : option (list Z);
}.
Definition sdk_query_meta_data_from (meta : MetaData) : SdkQueryMetaData :=
  mkSdkQueryMetaData (md_request_id meta) (md_client_context_id meta) (sdk_query_status_from (md_status meta))
    (sdk_query_metrics_from <$> md_metrics meta) (md_signature meta)
    (sdk_query_warning_from <$> md_warnings meta) (md_profile meta).

(** ** The client *)

Record QueryKeyspace : Type := mkQueryKeyspace { qk_bucket_name : string; qk_scope_name : string }.

Record CouchbaseQueryClient (T : Type) : Type := mkCouchbaseQueryClient {
  cqc_keyspace : option QueryKeyspace;
  cqc_default_retry_strategy : T;
}.
#[global] Arguments mkCouchbaseQueryClient {T}.
#[global] Arguments cqc_keyspace {T}.
#[global] Arguments cqc_default_retry_strategy {T}.

Definition query_client_new {T} (default_retry_strategy : T) : CouchbaseQueryClient T :=
  mkCouchbaseQueryClient None default_retry_strategy.
Definition query_client_with_keyspace {T} (keyspace : QueryKeyspace) (default_retry_strategy : T)
    : CouchbaseQueryClient T :=
  mkCouchbaseQueryClient (Some keyspace) default_retry_strategy.

(** The scan vectors and the consistency that are sent. *)
Definition query_consistency (scan_consistency : option SdkScanConsistency.SdkScanConsistency)
    : option (gmap string (gmap string ScanVectorEntry)) * option ScanConsistency.ScanConsistency :=
  match scan_consistency with
  | Some (SdkScanConsistency.AtPlus state) => (Some (scan_vectors_from state), Some ScanConsistency.AtPlus)
  | Some SdkScanConsistency.NotBounded => (None, Some ScanConsistency.NotBounded)
  | Some SdkScanConsistency.RequestPlus => (None, Some ScanConsistency.RequestPlus)
  | None => (None, None)
  end.

Section Client.
Context {T V : Type}.

(** [format!("`{}`.`{}`", bucket_name, scope_name)]. *)
Definition query_context (keyspace : QueryKeyspace) : string :=
  "`" +:+ qk_bucket_name keyspace +:+ "`.`" +:+ qk_scope_name keyspace +:+ "`".

(** The options of the agent: all of the application's but whether the statement is prepared, and
    [flex_index], which is not sent. *)
Definition query_core_options (self : CouchbaseQueryClient T) (statement : string) (opts : SdkQueryOptions T V)
    : CoreQueryOptions T V :=
  let '(mutation_state, scan_consistency) := query_consistency (SdkQueryOptions.scan_consistency opts) in
  let query_opts :=
    core_query_options_retry_strategy
      (default (cqc_default_retry_strategy self) (SdkQueryOptions.retry_strategy opts))
    (core_query_options_statement (Some statement)
    (core_query_options_raw (SdkQueryOptions.raw opts)
    (core_query_options_named_args (SdkQueryOptions.named_parameters opts)
    (core_query_options_use_replica (replica_level_from <$> SdkQueryOptions.use_replica opts)
    (core_query_options_timeout (SdkQueryOptions.server_timeout opts)
    (core_query_options_sparse_scan_vectors mutation_state
    (core_query_options_scan_wait (SdkQueryOptions.scan_wait opts)
    (core_query_options_scan_consistency scan_consistency
    (core_query_options_scan_cap (SdkQueryOptions.scan_cap opts)
    (core_query_options_read_only (SdkQueryOptions.read_only opts)
    (core_query_options_profile (profile_mode_from <$> SdkQueryOptions.profile opts)
    (core_query_options_preserve_expiry (SdkQueryOptions.preserve_expiry opts)
    (core_query_options_pipeline_cap (SdkQueryOptions.pipeline_cap opts)
    (core_query_options_pipeline_batch (SdkQueryOptions.pipeline_batch opts)
    (core_query_options_metrics (Some (default false (SdkQueryOptions.metrics opts)))
    (core_query_options_max_parallelism (SdkQueryOptions.max_parallelism opts)
    (core_query_options_client_context_id (SdkQueryOptions.client_context_id opts)
    (core_query_options_args (SdkQueryOptions.positional_parameters opts)
    core_query_options_new)))))))))))))))))) in
  match cqc_keyspace self with
  | Some keyspace => core_query_options_query_context (Some (query_context keyspace)) query_opts
  | None => query_opts
  end.

Context {S : Type} (get_agent : S → S * option bool) (from_slice_context : list Z → option ServerErrorContextJson).
Context (agent_query agent_prepared_query : CoreQueryOptions T V → io S Core.Error (QueryResultStream V)).
Context (new_uuid : S → S * string).

(** [opts.client_context_id] is a new one unless there is one. *)
Definition with_context_id (opts : SdkQueryOptions T V) (s : S) : S * SdkQueryOptions T V :=
  match SdkQueryOptions.client_context_id opts with
  | Some _ => (s, opts)
  | None => let '(s, id) := new_uuid s in (s, opts <| SdkQueryOptions.client_context_id := Some id |>)
  end.

Definition client_query (self : CouchbaseQueryClient T) (statement : string) (opts : option (SdkQueryOptions T V))
    : io S Sdk.Error (QueryResultStream V) := λ s,
  let '(s, opts) := with_context_id (default sdk_query_options_new opts) s in
  let ad_hoc := default true (SdkQueryOptions.ad_hoc opts) in
  let query_opts := query_core_options self statement opts in
  if ad_hoc then on_agent get_agent from_slice_context (agent_query query_opts) s
  else on_agent get_agent from_slice_context (agent_prepared_query query_opts) s.

(** *** Reading the result *)

(** [QueryResult::metadata], of the meta-data of the stream. *)
Definition sdk_query_metadata (metadata : outcome Core.Error MetaData) : outcome Sdk.Error SdkQueryMetaData :=
  sdk_query_meta_data_from <$> map_err (Sdk.error_from_core from_slice_context) metadata.

(** A row, decoded as what the application asks for. *)
Definition decode_row {A} (from_slice : list Z → string + A) (row : list Z) : outcome Sdk.Error A :=
  match from_slice row with inl e => Err (Sdk.decoding_failure_from_serde e) | inr v => Ok v end.

(** A poll of [rows()], given the poll of the stream inside. *)
Definition query_rows_poll_next {A X} (from_slice : list Z → string + A)
    (poll : X → X * option (outcome Core.Error (list Z))) (wrapped : X) : X * option (outcome Sdk.Error A) :=
  let '(wrapped, item) := poll wrapped in
  (wrapped, (λ r, map_err (Sdk.error_from_core from_slice_context) r ≫= decode_row from_slice) <$> item).

(** ** Theorems *)

(** Whether an index of the search service may be used is not sent. *)
Lemma flex_index_is_not_sent self statement opts flex_index :
  query_core_options self statement (opts <| SdkQueryOptions.flex_index := flex_index |>)
  = query_core_options self statement opts
  ∧ CoreQueryOptions.use_fts (query_core_options self statement opts) = None.
Proof.
  split; [done|]. unfold query_core_options. destruct (query_consistency _). by destruct (cqc_keyspace self).
Qed.

(** Every query has the id the application chose, or a new one. *)
Lemma with_context_id_some opts s s' opts' :
  with_context_id opts s = (s', opts') →
  is_Some (SdkQueryOptions.client_context_id opts')
  ∧ (∀ id, SdkQueryOptions.client_context_id opts = Some id → s' = s ∧ opts' = opts).
Proof.
  unfold with_context_id. destruct (SdkQueryOptions.client_context_id opts) as [id|] eqn:Hid.
  - intros [= <- <-]. rewrite Hid. by split.
  - destruct (new_uuid s). intros [= <- <-]. by split.
Qed.

(** What is sent of the options. *)
Lemma query_core_options_fields self statement opts :
  let core := query_core_options self statement opts in
  CoreQueryOptions.statement core = Some statement
  ∧ CoreQueryOptions.client_context_id core = SdkQueryOptions.client_context_id opts
  ∧ CoreQueryOptions.args core = SdkQueryOptions.positional_parameters opts
  ∧ CoreQueryOptions.named_args core = SdkQueryOptions.named_parameters opts
  ∧ CoreQueryOptions.raw core = SdkQueryOptions.raw opts
  ∧ CoreQueryOptions.read_only core = SdkQueryOptions.read_only opts
  ∧ CoreQueryOptions.query_context core = query_context <$> cqc_keyspace self
  ∧ (CoreQueryOptions.sparse_scan_vectors core, CoreQueryOptions.scan_consistency core)
    = query_consistency (SdkQueryOptions.scan_consistency opts).
Proof.
  unfold query_core_options. destruct (query_consistency _). by destruct (cqc_keyspace self).
Qed.

(** A query goes to the agent that is there, once: as a statement, or prepared when the application says it is
    not ad hoc; always with an id. *)
Lemma client_query_sent self statement opts s s' res :
  client_query self statement opts s = (s', Some (Ok res)) →
  ∃ s1 s2 o,
    with_context_id (default sdk_query_options_new opts) s = (s1, o)
    ∧ is_Some (CoreQueryOptions.client_context_id (query_core_options self statement o))
    ∧ get_agent s1 = (s2, Some true)
    ∧ (if decide (SdkQueryOptions.ad_hoc (default sdk_query_options_new opts) = Some false)
       then agent_prepared_query (query_core_options self statement o) s2
       else agent_query (query_core_options self statement o) s2) = (s', Some (Ok res)).
Proof.
  unfold client_query. destruct (with_context_id _ s) as [s1 o] eqn:Ho. intros Hq.
  assert (SdkQueryOptions.ad_hoc o = SdkQueryOptions.ad_hoc (default sdk_query_options_new opts)) as Ha.
  { unfold with_context_id in Ho. destruct (SdkQueryOptions.client_context_id _); [by simplify_eq|].
    destruct (new_uuid s). by simplify_eq. }
  pose proof (with_context_id_some _ _ _ _ Ho) as [Hid _].
  rewrite Ha in Hq. destruct (SdkQueryOptions.ad_hoc (default _ opts)) as [[]|]; cbn in Hq;
    apply on_agent_ok in Hq as (s2 & Hg & Hq); exists s1, s2, o;
    pose proof (query_core_options_fields self statement o) as (_ & Hc & _); rewrite Hc; by split_and!.
Qed.

(** A row that cannot be decoded is an error of that row; the rows after it are still read. *)
Lemma query_rows_poll_next_row {A X} (from_slice : list Z → string + A) poll (wrapped : X) wrapped' row :
  poll wrapped = (wrapped', Some (Ok row)) →
  query_rows_poll_next from_slice poll wrapped = (wrapped', Some (decode_row from_slice row)).
Proof. intros Hp. unfold query_rows_poll_next. by rewrite Hp. Qed.
End Client.
