(* ===== verification/SdkMgmt.v ===== *)
(** * Managing buckets and users in the public crate ([couchbase/src/clients/bucket_mgmt_client.rs],
    [user_mgmt_client.rs], [management/buckets/], [management/users/], their options,
    [durability_level.rs])

    First buckets, then users, groups and roles.  The settings of an application become those of
    the agent, and the other way around; a value this version does not know is kept as text when it
    is read, and is [unreachable!()] when it is written. *)

From S2P Require Import Prelude Wire CoreError Retry CrudOptions Http FacadeError SdkOptions.
From S2P Require Import BucketSettings CoreMgmtOptions MgmtUsers.

(** * Managing buckets in the public crate ([couchbase/src/clients/bucket_mgmt_client.rs],
    [couchbase/src/management/buckets/], [couchbase/src/options/bucket_mgmt_options.rs])

    The settings of a bucket as an application has them, what they become at the agent and what is made of
    the agent's; the client and the manager.  A value of a setting that this version does not know can be
    read, and not be written: the conversion is [unreachable!()].

    [T] is a retry strategy.  The agent is the interface [BucketMgmtAgent]. *)

(** ** Options *)

Module SdkGetAllBucketsOptions.
Section Fields.
Context {T : Type}.
Record SdkGetAllBucketsOptions : Type := mk {
  retry_strategy : option T;
}.
End Fields.
#[global] Arguments SdkGetAllBucketsOptions : clear implicits.
End SdkGetAllBucketsOptions.
Abbreviation SdkGetAllBucketsOptions := SdkGetAllBucketsOptions.SdkGetAllBucketsOptions.
#[global] Instance sdk_get_all_buckets_options_settable T : Settable (SdkGetAllBucketsOptions T) := λ r,
  SdkGetAllBucketsOptions.mk (SdkGetAllBucketsOptions.retry_strategy r).

Definition sdk_get_all_buckets_options_new {T : Type} : SdkGetAllBucketsOptions T :=
  SdkGetAllBucketsOptions.mk None.

Definition sdk_get_all_buckets_options_retry_strategy {T : Type} (retry_strategy : T)
    (self : SdkGetAllBucketsOptions T) : SdkGetAllBucketsOptions T :=
  self <| SdkGetAllBucketsOptions.retry_strategy := Some retry_strategy |>.

Module SdkGetBucketOptions.
Section Fields.
Context {T : Type}.
Record SdkGetBucketOptions : Type := mk {
  retry_strategy : option T;
}.
End Fields.
#[global] Arguments SdkGetBucketOptions : clear implicits.
End SdkGetBucketOptions.
Abbreviation SdkGetBucketOptions := SdkGetBucketOptions.SdkGetBucketOptions.
#[global] Instance sdk_get_bucket_options_settable T : Settable (SdkGetBucketOptions T) := λ r,
  SdkGetBucketOptions.mk (SdkGetBucketOptions.retry_strategy r).

Definition sdk_get_bucket_options_new {T : Type} : SdkGetBucketOptions T :=
  SdkGetBucketOptions.mk None.

Definition sdk_get_bucket_options_retry_strategy {T : Type} (retry_strategy : T)
    (self : SdkGetBucketOptions T) : SdkGetBucketOptions T :=
  self <| SdkGetBucketOptions.retry_strategy := Some retry_strategy |>.

Module SdkCreateBucketOptions.
Section Fields.
Context {T : Type}.
Record SdkCreateBucketOptions : Type := mk {
  retry_strategy : option T;
}.
End Fields.
#[global] Arguments SdkCreateBucketOptions : clear implicits.
End SdkCreateBucketOptions.
Abbreviation SdkCreateBucketOptions := SdkCreateBucketOptions.SdkCreateBucketOptions.
#[global] Instance sdk_create_bucket_options_settable T : Settable (SdkCreateBucketOptions T) := λ r,
  SdkCreateBucketOptions.mk (SdkCreateBucketOptions.retry_strategy r).

Definition sdk_create_bucket_options_new {T : Type} : SdkCreateBucketOptions T :=
  SdkCreateBucketOptions.mk None.

Definition sdk_create_bucket_options_retry_strategy {T : Type} (retry_strategy : T)
    (self : SdkCreateBucketOptions T) : SdkCreateBucketOptions T :=
  self <| SdkCreateBucketOptions.retry_strategy := Some retry_strategy |>.

Module SdkUpdateBucketOptions.
Section Fields.
Context {T : Type}.
Record SdkUpdateBucketOptions : Type := mk {
  retry_strategy : option T;
}.
End Fields.
#[global] Arguments SdkUpdateBucketOptions : clear implicits.
End SdkUpdateBucketOptions.
Abbreviation SdkUpdateBucketOptions := SdkUpdateBucketOptions.SdkUpdateBucketOptions.
#[global] Instance sdk_update_bucket_options_settable T : Settable (SdkUpdateBucketOptions T) := λ r,
  SdkUpdateBucketOptions.mk (SdkUpdateBucketOptions.retry_strategy r).

Definition sdk_update_bucket_options_new {T : Type} : SdkUpdateBucketOptions T :=
  SdkUpdateBucketOptions.mk None.

Definition sdk_update_bucket_options_retry_strategy {T : Type} (retry_strategy : T)
    (self : SdkUpdateBucketOptions T) : SdkUpdateBucketOptions T :=
  self <| SdkUpdateBucketOptions.retry_strategy := Some retry_strategy |>.

Module SdkDropBucketOptions.
Section Fields.
Context {T : Type}.
Record SdkDropBucketOptions : Type := mk {
  retry_strategy : option T;
}.
End Fields.
#[global] Arguments SdkDropBucketOptions : clear implicits.
End SdkDropBucketOptions.
Abbreviation SdkDropBucketOptions := SdkDropBucketOptions.SdkDropBucketOptions.
#[global] Instance sdk_drop_bucket_options_settable T : Settable (SdkDropBucketOptions T) := λ r,
  SdkDropBucketOptions.mk (SdkDropBucketOptions.retry_strategy r).

Definition sdk_drop_bucket_options_new {T : Type} : SdkDropBucketOptions T :=
  SdkDropBucketOptions.mk None.

Definition sdk_drop_bucket_options_retry_strategy {T : Type} (retry_strategy : T)
    (self : SdkDropBucketOptions T) : SdkDropBucketOptions T :=
  self <| SdkDropBucketOptions.retry_strategy := Some retry_strategy |>.

Module SdkFlushBucketOptions.
Section Fields.
Context {T : Type}.
Record SdkFlushBucketOptions : Type := mk {
  retry_strategy : option T;
}.
End Fields.
#[global] Arguments SdkFlushBucketOptions : clear implicits.
End SdkFlushBucketOptions.
Abbreviation SdkFlushBucketOptions := SdkFlushBucketOptions.SdkFlushBucketOptions.
#[global] Instance sdk_flush_bucket_options_settable T : Settable (SdkFlushBucketOptions T) := λ r,
  SdkFlushBucketOptions.mk (SdkFlushBucketOptions.retry_strategy r).

Definition sdk_flush_bucket_options_new {T : Type} : SdkFlushBucketOptions T :=
  SdkFlushBucketOptions.mk None.

Definition sdk_flush_bucket_options_retry_strategy {T : Type} (retry_strategy : T)
    (self : SdkFlushBucketOptions T) : SdkFlushBucketOptions T :=
  self <| SdkFlushBucketOptions.retry_strategy := Some retry_strategy |>.

(** ** Settings *)

Module SdkBucketType.
Inductive SdkBucketType : Type := Couchbase | Ephemeral | Unknown (val : string).
End SdkBucketType.
Abbreviation SdkBucketType := SdkBucketType.SdkBucketType.

Module SdkEvictionPolicyType.
Inductive SdkEvictionPolicyType : Type := ValueOnly | Full | NotRecentlyUsed | NoEviction | Unknown (val : string).
End SdkEvictionPolicyType.
Abbreviation SdkEvictionPolicyType := SdkEvictionPolicyType.SdkEvictionPolicyType.

Module SdkCompressionMode.
Inductive SdkCompressionMode : Type := Off | Passive | Active | Unknown (val : string).
End SdkCompressionMode.
Abbreviation SdkCompressionMode := SdkCompressionMode.SdkCompressionMode.

Module SdkConflictResolutionType.
Inductive SdkConflictResolutionType : Type := SequenceNumber | Timestamp | Custom | Unknown (val : string).
End SdkConflictResolutionType.
Abbreviation SdkConflictResolutionType := SdkConflictResolutionType.SdkConflictResolutionType.

Module SdkStorageBackend.
Inductive SdkStorageBackend : Type := Couchstore | Magma | Unknown (val : string).
End SdkStorageBackend.
Abbreviation SdkStorageBackend := SdkStorageBackend.SdkStorageBackend.

Module SdkBucketSettings.
Record SdkBucketSettings : Type := mk {
  name : string;
  ram_quota_mb : option Z;
  flush_enabled : option bool;
  num_replicas : option Z;
  eviction_policy : option SdkEvictionPolicyType;
  max_expiry : option Duration;
  compression_mode : option SdkCompressionMode;
  minimum_durability_level : option SdkDurabilityLevel;
  history_retention_collection_default : option bool;
  history_retention_bytes : option Z;
  history_retention_duration : option Duration;
  conflict_resolution_type : option SdkConflictResolutionType;
  replica_indexes : option bool;
  bucket_type : option SdkBucketType;
  storage_backend : option SdkStorageBackend;
  num_vbuckets : option Z;
}.
End SdkBucketSettings.
Abbreviation SdkBucketSettings := SdkBucketSettings.SdkBucketSettings.
#[global] Instance sdk_bucket_settings_settable : Settable (SdkBucketSettings) := λ r,
  SdkBucketSettings.mk (SdkBucketSettings.name r) (SdkBucketSettings.ram_quota_mb r)
    (SdkBucketSettings.flush_enabled r) (SdkBucketSettings.num_replicas r) (SdkBucketSettings.eviction_policy r)
    (SdkBucketSettings.max_expiry r) (SdkBucketSettings.compression_mode r)
    (SdkBucketSettings.minimum_durability_level r) (SdkBucketSettings.history_retention_collection_default r)
    (SdkBucketSettings.history_retention_bytes r) (SdkBucketSettings.history_retention_duration r)
    (SdkBucketSettings.conflict_resolution_type r) (SdkBucketSettings.replica_indexes r)
    (SdkBucketSettings.bucket_type r) (SdkBucketSettings.storage_backend r) (SdkBucketSettings.num_vbuckets r).

Definition sdk_bucket_settings_new (name : string) : SdkBucketSettings :=
  SdkBucketSettings.mk name None None None None None None None None None None None None None None None.

Definition sdk_bucket_settings_flush_enabled (flush_enabled : bool) (self : SdkBucketSettings) :
    SdkBucketSettings :=
  self <| SdkBucketSettings.flush_enabled := Some flush_enabled |>.

Definition sdk_bucket_settings_ram_quota_mb (ram_quota_mb : Z) (self : SdkBucketSettings) : SdkBucketSettings :=
  self <| SdkBucketSettings.ram_quota_mb := Some ram_quota_mb |>.

Definition sdk_bucket_settings_num_replicas (replica_number : Z) (self : SdkBucketSettings) : SdkBucketSettings :=
  self <| SdkBucketSettings.num_replicas := Some replica_number |>.

Definition sdk_bucket_settings_eviction_policy (eviction_policy : SdkEvictionPolicyType)
    (self : SdkBucketSettings) : SdkBucketSettings :=
  self <| SdkBucketSettings.eviction_policy := Some eviction_policy |>.

Definition sdk_bucket_settings_max_expiry (max_expiry : Duration) (self : SdkBucketSettings) : SdkBucketSettings :=
  self <| SdkBucketSettings.max_expiry := Some max_expiry |>.

Definition sdk_bucket_settings_compression_mode (compression_mode : SdkCompressionMode)
    (self : SdkBucketSettings) : SdkBucketSettings :=
  self <| SdkBucketSettings.compression_mode := Some compression_mode |>.

Definition sdk_bucket_settings_minimum_durability_level (durability_min_level : SdkDurabilityLevel)
    (self : SdkBucketSettings) : SdkBucketSettings :=
  self <| SdkBucketSettings.minimum_durability_level := Some durability_min_level |>.

Definition sdk_bucket_settings_history_retention_collection_default (history_retention_collection_default : bool)
    (self : SdkBucketSettings) : SdkBucketSettings :=
  self <| SdkBucketSettings.history_retention_collection_default := Some history_retention_collection_default |>.

Definition sdk_bucket_settings_history_retention_bytes (history_retention_bytes : Z)
    (self : SdkBucketSettings) : SdkBucketSettings :=
  self <| SdkBucketSettings.history_retention_bytes := Some history_retention_bytes |>.

Definition sdk_bucket_settings_history_retention_duration (history_retention_duration : Duration)
    (self : SdkBucketSettings) : SdkBucketSettings :=
  self <| SdkBucketSettings.history_retention_duration := Some history_retention_duration |>.

Definition sdk_bucket_settings_conflict_resolution_type (conflict_resolution_type : SdkConflictResolutionType)
    (self : SdkBucketSettings) : SdkBucketSettings :=
  self <| SdkBucketSettings.conflict_resolution_type := Some conflict_resolution_type |>.

Definition sdk_bucket_settings_replica_indexes (replica_indexes : bool)
    (self : SdkBucketSettings) : SdkBucketSettings :=
  self <| SdkBucketSettings.replica_indexes := Some replica_indexes |>.

Definition sdk_bucket_settings_bucket_type (bucket_type : SdkBucketType)
    (self : SdkBucketSettings) : SdkBucketSettings :=
  self <| SdkBucketSettings.bucket_type := Some bucket_type |>.

Definition sdk_bucket_settings_storage_backend (storage_backend : SdkStorageBackend)
    (self : SdkBucketSettings) : SdkBucketSettings :=
  self <| SdkBucketSettings.storage_backend := Some storage_backend |>.

Definition sdk_bucket_settings_num_vbuckets (num_vbuckets : Z) (self : SdkBucketSettings) : SdkBucketSettings :=
  self <| SdkBucketSettings.num_vbuckets := Some num_vbuckets |>.

(** *** To and from the agent *)

Definition bucket_durability_level_into (value : SdkDurabilityLevel) : outcome Sdk.Error BucketDurabilityLevel :=
  match value with
  | SdkDurabilityLevel.None_ => Ok BucketDurabilityLevel.None_
  | SdkDurabilityLevel.Majority => Ok BucketDurabilityLevel.Majority
  | SdkDurabilityLevel.MajorityAndPersistActive => Ok BucketDurabilityLevel.MajorityAndPersistActive
  | SdkDurabilityLevel.PersistToMajority => Ok BucketDurabilityLevel.PersistToMajority
  | _ => Panic
  end.

Definition sdk_durability_level_from (value : BucketDurabilityLevel) : SdkDurabilityLevel :=
  match value with
  | BucketDurabilityLevel.None_ => SdkDurabilityLevel.None_
  | BucketDurabilityLevel.Majority => SdkDurabilityLevel.Majority
  | BucketDurabilityLevel.MajorityAndPersistActive => SdkDurabilityLevel.MajorityAndPersistActive
  | BucketDurabilityLevel.PersistToMajority => SdkDurabilityLevel.PersistToMajority
  | _ => SdkDurabilityLevel.Other (bucket_durability_level_display value)
  end.

Definition bucket_type_into (value : SdkBucketType) : outcome Sdk.Error StoredBucketType :=
  match value with
  | SdkBucketType.Couchbase => Ok StoredBucketType.Couchbase
  | SdkBucketType.Ephemeral => Ok StoredBucketType.Ephemeral
  | _ => Panic
  end.

Definition sdk_bucket_type_from (value : StoredBucketType) : SdkBucketType :=
  match value with
  | StoredBucketType.Couchbase => SdkBucketType.Couchbase
  | StoredBucketType.Ephemeral => SdkBucketType.Ephemeral
  | _ => SdkBucketType.Unknown (stored_bucket_type_display value)
  end.

Definition eviction_policy_type_into (value : SdkEvictionPolicyType) : outcome Sdk.Error EvictionPolicyType :=
  match value with
  | SdkEvictionPolicyType.ValueOnly => Ok EvictionPolicyType.ValueOnly
  | SdkEvictionPolicyType.Full => Ok EvictionPolicyType.Full
  | SdkEvictionPolicyType.NotRecentlyUsed => Ok EvictionPolicyType.NotRecentlyUsed
  | SdkEvictionPolicyType.NoEviction => Ok EvictionPolicyType.NoEviction
  | _ => Panic
  end.

Definition sdk_eviction_policy_type_from (value : EvictionPolicyType) : SdkEvictionPolicyType :=
  match value with
  | EvictionPolicyType.ValueOnly => SdkEvictionPolicyType.ValueOnly
  | EvictionPolicyType.Full => SdkEvictionPolicyType.Full
  | EvictionPolicyType.NotRecentlyUsed => SdkEvictionPolicyType.NotRecentlyUsed
  | EvictionPolicyType.NoEviction => SdkEvictionPolicyType.NoEviction
  | _ => SdkEvictionPolicyType.Unknown (eviction_policy_type_display value)
  end.

Definition compression_mode_into (value : SdkCompressionMode) : outcome Sdk.Error BucketCompressionMode :=
  match value with
  | SdkCompressionMode.Off => Ok BucketCompressionMode.Off
  | SdkCompressionMode.Passive => Ok BucketCompressionMode.Passive
  | SdkCompressionMode.Active => Ok BucketCompressionMode.Active
  | _ => Panic
  end.

Definition sdk_compression_mode_from (value : BucketCompressionMode) : SdkCompressionMode :=
  match value with
  | BucketCompressionMode.Off => SdkCompressionMode.Off
  | BucketCompressionMode.Passive => SdkCompressionMode.Passive
  | BucketCompressionMode.Active => SdkCompressionMode.Active
  | _ => SdkCompressionMode.Unknown (bucket_compression_mode_display value)
  end.

Definition conflict_resolution_type_into (value : SdkConflictResolutionType) : outcome Sdk.Error
    ConflictResolutionType :=
  match value with
  | SdkConflictResolutionType.SequenceNumber => Ok ConflictResolutionType.SequenceNumber
  | SdkConflictResolutionType.Timestamp => Ok ConflictResolutionType.Timestamp
  | SdkConflictResolutionType.Custom => Ok ConflictResolutionType.Custom
  | _ => Panic
  end.

Definition sdk_conflict_resolution_type_from (value : ConflictResolutionType) : SdkConflictResolutionType :=
  match value with
  | ConflictResolutionType.SequenceNumber => SdkConflictResolutionType.SequenceNumber
  | ConflictResolutionType.Timestamp => SdkConflictResolutionType.Timestamp
  | ConflictResolutionType.Custom => SdkConflictResolutionType.Custom
  | _ => SdkConflictResolutionType.Unknown (conflict_resolution_type_display value)
  end.

Definition storage_backend_into (value : SdkStorageBackend) : outcome Sdk.Error StorageBackend :=
  match value with
  | SdkStorageBackend.Couchstore => Ok StorageBackend.Couchstore
  | SdkStorageBackend.Magma => Ok StorageBackend.Magma
  | _ => Panic
  end.

Definition sdk_storage_backend_from (value : StorageBackend) : SdkStorageBackend :=
  match value with
  | StorageBackend.Couchstore => SdkStorageBackend.Couchstore
  | StorageBackend.Magma => SdkStorageBackend.Magma
  | _ => SdkStorageBackend.Unknown (storage_backend_display value)
  end.


Definition sdk_bucket_settings_from (value : BucketDef) : SdkBucketSettings :=
  SdkBucketSettings.mk
    (BucketDef.name value)
    (BucketSettings.ram_quota_mb (BucketDef.bucket_settings value))
    (BucketSettings.flush_enabled (BucketDef.bucket_settings value))
    (BucketSettings.replica_number (BucketDef.bucket_settings value))
    (sdk_eviction_policy_type_from <$> BucketSettings.eviction_policy (BucketDef.bucket_settings value))
    (BucketSettings.max_ttl (BucketDef.bucket_settings value))
    (sdk_compression_mode_from <$> BucketSettings.compression_mode (BucketDef.bucket_settings value))
    (sdk_durability_level_from <$> BucketSettings.durability_min_level (BucketDef.bucket_settings value))
    (BucketSettings.history_retention_collection_default (BucketDef.bucket_settings value))
    (BucketSettings.history_retention_bytes (BucketDef.bucket_settings value))
    (from_secs <$> BucketSettings.history_retention_seconds (BucketDef.bucket_settings value))
    (sdk_conflict_resolution_type_from <$> BucketSettings.conflict_resolution_type (BucketDef.bucket_settings value))
    (BucketSettings.replica_index (BucketDef.bucket_settings value))
    (sdk_bucket_type_from <$> BucketSettings.bucket_type (BucketDef.bucket_settings value))
    (sdk_storage_backend_from <$> BucketSettings.storage_backend (BucketDef.bucket_settings value))
    (BucketSettings.num_vbuckets (BucketDef.bucket_settings value)).

(** The settings a bucket is created with, one after the other; a value that is not known panics. *)
Definition common_core_settings (settings : SdkBucketSettings) : outcome Sdk.Error BucketSettings :=
  let core_settings :=
    set_some bucket_settings_replica_number (SdkBucketSettings.num_replicas settings)
      (set_some bucket_settings_flush_enabled (SdkBucketSettings.flush_enabled settings)
      (set_some bucket_settings_ram_quota_mb (SdkBucketSettings.ram_quota_mb settings) bucket_settings_default)) in
  core_settings ←
    set_into eviction_policy_type_into bucket_settings_eviction_policy (SdkBucketSettings.eviction_policy
        settings) core_settings;
  let core_settings := set_some bucket_settings_max_ttl (SdkBucketSettings.max_expiry settings) core_settings in
  core_settings ←
    set_into compression_mode_into bucket_settings_compression_mode (SdkBucketSettings.compression_mode settings)
        core_settings;
  core_settings ←
    set_into bucket_durability_level_into bucket_settings_durability_min_level
      (SdkBucketSettings.minimum_durability_level settings) core_settings;
  let core_settings :=
    set_some (λ d, bucket_settings_history_retention_seconds (cast_u 32 (as_secs d)))
      (SdkBucketSettings.history_retention_duration settings)
      (set_some bucket_settings_history_retention_bytes (SdkBucketSettings.history_retention_bytes settings)
      (set_some bucket_settings_history_retention_collection_default
         (SdkBucketSettings.history_retention_collection_default settings) core_settings)) in
  core_settings ←
    set_into conflict_resolution_type_into bucket_settings_conflict_resolution_type
      (SdkBucketSettings.conflict_resolution_type settings) core_settings;
  let core_settings := set_some bucket_settings_replica_index (SdkBucketSettings.replica_indexes settings)
      core_settings in
  set_into bucket_type_into bucket_settings_bucket_type (SdkBucketSettings.bucket_type settings) core_settings.

Definition create_core_settings (settings : SdkBucketSettings) : outcome Sdk.Error BucketSettings :=
  core_settings ← common_core_settings settings;
  core_settings ←
    set_into storage_backend_into bucket_settings_storage_backend (SdkBucketSettings.storage_backend settings)
        core_settings;
  Ok (set_some bucket_settings_num_vbuckets (SdkBucketSettings.num_vbuckets settings) core_settings).

(** An update leaves the storage backend out. *)
Definition update_core_settings (settings : SdkBucketSettings) : outcome Sdk.Error BucketSettings :=
  core_settings ← common_core_settings settings;
  Ok (set_some bucket_settings_num_vbuckets (SdkBucketSettings.num_vbuckets settings) core_settings).

(** ** The client *)

Class BucketMgmtAgent (S T : Type) := {
  bma_get_all_buckets : CoreGetAllBucketsOptions T → io S Core.Error (list BucketDef);
  bma_get_bucket : CoreGetBucketOptions T → io S Core.Error BucketDef;
  bma_create_bucket : CoreCreateBucketOptions T → io S Core.Error unit;
  bma_update_bucket : CoreUpdateBucketOptions T → io S Core.Error unit;
  bma_delete_bucket : CoreDeleteBucketOptions T → io S Core.Error unit;
  bma_flush_bucket : CoreFlushBucketOptions T → io S Core.Error unit;
}.

Record CouchbaseBucketMgmtClient (T : Type) : Type := mkCouchbaseBucketMgmtClient { cbm_default_retry_strategy : T }.
#[global] Arguments mkCouchbaseBucketMgmtClient {T}.
#[global] Arguments cbm_default_retry_strategy {T}.

Section Client.
Context {S T : Type} `{BucketMgmtAgent S T}.
Context (get_agent : S → S * option bool) (from_slice_context : list Z → option ServerErrorContextJson).

Abbreviation Client := (CouchbaseBucketMgmtClient T).
Abbreviation on_agent := (on_agent get_agent from_slice_context).
Abbreviation on_agent_after := (on_agent_after get_agent from_slice_context).

Definition retry_of_bucket_client (self : Client) (retry_strategy : option T) : T :=
  default (cbm_default_retry_strategy self) retry_strategy.

Definition client_get_all_buckets (self : Client) (opts : SdkGetAllBucketsOptions T) : io S Sdk.Error (list
    SdkBucketSettings) :=
  r ← on_agent (bma_get_all_buckets (core_get_all_buckets_options_retry_strategy (retry_of_bucket_client self
      (SdkGetAllBucketsOptions.retry_strategy opts))
    core_get_all_buckets_options_new));
  mret (fmap sdk_bucket_settings_from r).

Definition client_get_bucket (self : Client) (bucket_name : string) (opts : SdkGetBucketOptions T) : io S
    Sdk.Error (SdkBucketSettings) :=
  r ← on_agent (bma_get_bucket (core_get_bucket_options_retry_strategy (retry_of_bucket_client self
      (SdkGetBucketOptions.retry_strategy opts))
    (core_get_bucket_options_new bucket_name)));
  mret (sdk_bucket_settings_from r).

Definition client_drop_bucket (self : Client) (bucket_name : string) (opts : SdkDropBucketOptions T) : io S
    Sdk.Error unit :=
  on_agent (bma_delete_bucket (core_delete_bucket_options_retry_strategy (retry_of_bucket_client self
      (SdkDropBucketOptions.retry_strategy opts))
    (core_delete_bucket_options_new bucket_name))).

Definition client_flush_bucket (self : Client) (bucket_name : string) (opts : SdkFlushBucketOptions T) : io S
    Sdk.Error unit :=
  on_agent (bma_flush_bucket (core_flush_bucket_options_retry_strategy (retry_of_bucket_client self
      (SdkFlushBucketOptions.retry_strategy opts))
    (core_flush_bucket_options_new bucket_name))).

Definition client_create_bucket (self : Client) (settings : SdkBucketSettings) (opts : SdkCreateBucketOptions T) :
    io S Sdk.Error unit :=
  on_agent_after (create_core_settings settings) (λ core_settings,
    bma_create_bucket (core_create_bucket_options_retry_strategy (retry_of_bucket_client self
        (SdkCreateBucketOptions.retry_strategy opts))
      (core_create_bucket_options_new (SdkBucketSettings.name settings) core_settings))).

Definition client_update_bucket (self : Client) (settings : SdkBucketSettings) (opts : SdkUpdateBucketOptions T) :
    io S Sdk.Error unit :=
  on_agent_after (update_core_settings settings) (λ core_settings,
    bma_update_bucket (core_update_bucket_options_retry_strategy (retry_of_bucket_client self
        (SdkUpdateBucketOptions.retry_strategy opts))
      (core_update_bucket_options_new (SdkBucketSettings.name settings) core_settings))).

(** [BucketMgmtClient]. *)
Definition bucket_mgmt_get_all_buckets (self : ClientBackend Client) (opts : SdkGetAllBucketsOptions T) : io S
    Sdk.Error (list SdkBucketSettings) :=
  on_backend self (λ client, client_get_all_buckets client opts).
Definition bucket_mgmt_get_bucket (self : ClientBackend Client) (bucket_name : string) (opts : SdkGetBucketOptions
    T) : io S Sdk.Error (SdkBucketSettings) :=
  on_backend self (λ client, client_get_bucket client bucket_name opts).
Definition bucket_mgmt_create_bucket (self : ClientBackend Client) (settings : SdkBucketSettings) (opts :
    SdkCreateBucketOptions T) : io S Sdk.Error (unit) :=
  on_backend self (λ client, client_create_bucket client settings opts).
Definition bucket_mgmt_update_bucket (self : ClientBackend Client) (settings : SdkBucketSettings) (opts :
    SdkUpdateBucketOptions T) : io S Sdk.Error (unit) :=
  on_backend self (λ client, client_update_bucket client settings opts).
Definition bucket_mgmt_drop_bucket (self : ClientBackend Client) (bucket_name : string) (opts :
    SdkDropBucketOptions T) : io S Sdk.Error (unit) :=
  on_backend self (λ client, client_drop_bucket client bucket_name opts).
Definition bucket_mgmt_flush_bucket (self : ClientBackend Client) (bucket_name : string) (opts :
    SdkFlushBucketOptions T) : io S Sdk.Error (unit) :=
  on_backend self (λ client, client_flush_bucket client bucket_name opts).

(** [BucketManager]: without options those that are new. *)
Definition bucket_manager_get_all_buckets (self : ClientBackend Client) (opts : option (SdkGetAllBucketsOptions T))
    : io S Sdk.Error (list SdkBucketSettings) :=
  bucket_mgmt_get_all_buckets self (default sdk_get_all_buckets_options_new opts).
Definition bucket_manager_get_bucket (self : ClientBackend Client) (bucket_name : string) (opts : option
    (SdkGetBucketOptions T))
    : io S Sdk.Error (SdkBucketSettings) :=
  bucket_mgmt_get_bucket self bucket_name (default sdk_get_bucket_options_new opts).
Definition bucket_manager_create_bucket (self : ClientBackend Client) (settings : SdkBucketSettings) (opts :
    option (SdkCreateBucketOptions T))
    : io S Sdk.Error (unit) :=
  bucket_mgmt_create_bucket self settings (default sdk_create_bucket_options_new opts).
Definition bucket_manager_update_bucket (self : ClientBackend Client) (settings : SdkBucketSettings) (opts :
    option (SdkUpdateBucketOptions T))
    : io S Sdk.Error (unit) :=
  bucket_mgmt_update_bucket self settings (default sdk_update_bucket_options_new opts).
Definition bucket_manager_drop_bucket (self : ClientBackend Client) (bucket_name : string) (opts : option
    (SdkDropBucketOptions T))
    : io S Sdk.Error (unit) :=
  bucket_mgmt_drop_bucket self bucket_name (default sdk_drop_bucket_options_new opts).
Definition bucket_manager_flush_bucket (self : ClientBackend Client) (bucket_name : string) (opts : option
    (SdkFlushBucketOptions T))
    : io S Sdk.Error (unit) :=
  bucket_mgmt_flush_bucket self bucket_name (default sdk_flush_bucket_options_new opts).
End Client.

(** ** Theorems *)

(** *** Settings one after the other *)

Lemma set_some_stays {A B C} (f : B → C) (setter : A → B → B) o acc :
  (∀ x b, f (setter x b) = f b) → f (set_some setter o acc) = f acc.
Proof. intros Hf. by destruct o; cbn; rewrite ?Hf. Qed.

Lemma set_some_sets {A B} (f : B → option A) (setter : A → B → B) o acc :
  (∀ x b, f (setter x b) = Some x) → f acc = None → f (set_some setter o acc) = o.
Proof. intros Hf Hn. by destruct o; cbn; rewrite ?Hf. Qed.

(** A conversion that knows some values and panics on the others. *)
Lemma set_into_known {A A' B} (into : A → outcome Sdk.Error A') (known : A → bool) (core : A → A') setter o (acc : B) :
  (∀ x, into x = if known x then Ok (core x) else Panic) →
  set_into into setter o acc = if from_option known true o then Ok (set_some setter (core <$> o) acc) else Panic.
Proof. intros Hi. destruct o as [x|]; cbn; [|done]. rewrite Hi. by destruct (known x). Qed.

(** The values that are known, and what they are at the agent. *)
Definition known_eviction (x : SdkEvictionPolicyType) : bool :=
  match x with SdkEvictionPolicyType.Unknown _ => false | _ => true end.
Definition core_eviction (x : SdkEvictionPolicyType) : EvictionPolicyType :=
  match x with
  | SdkEvictionPolicyType.ValueOnly => EvictionPolicyType.ValueOnly
  | SdkEvictionPolicyType.Full => EvictionPolicyType.Full
  | SdkEvictionPolicyType.NotRecentlyUsed => EvictionPolicyType.NotRecentlyUsed
  | SdkEvictionPolicyType.NoEviction => EvictionPolicyType.NoEviction
  | SdkEvictionPolicyType.Unknown val => EvictionPolicyType.Other val
  end.
Definition known_compression (x : SdkCompressionMode) : bool :=
  match x with SdkCompressionMode.Unknown _ => false | _ => true end.
Definition core_compression (x : SdkCompressionMode) : BucketCompressionMode :=
  match x with
  | SdkCompressionMode.Off => BucketCompressionMode.Off
  | SdkCompressionMode.Passive => BucketCompressionMode.Passive
  | SdkCompressionMode.Active => BucketCompressionMode.Active
  | SdkCompressionMode.Unknown val => BucketCompressionMode.Other val
  end.
Definition known_durability (x : SdkDurabilityLevel) : bool :=
  match x with SdkDurabilityLevel.Other _ => false | _ => true end.
Definition core_durability (x : SdkDurabilityLevel) : BucketDurabilityLevel :=
  match x with
  | SdkDurabilityLevel.None_ => BucketDurabilityLevel.None_
  | SdkDurabilityLevel.Majority => BucketDurabilityLevel.Majority
  | SdkDurabilityLevel.MajorityAndPersistActive => BucketDurabilityLevel.MajorityAndPersistActive
  | SdkDurabilityLevel.PersistToMajority => BucketDurabilityLevel.PersistToMajority
  | SdkDurabilityLevel.Other val => BucketDurabilityLevel.Other val
  end.
Definition known_conflict (x : SdkConflictResolutionType) : bool :=
  match x with SdkConflictResolutionType.Unknown _ => false | _ => true end.
Definition core_conflict (x : SdkConflictResolutionType) : ConflictResolutionType :=
  match x with
  | SdkConflictResolutionType.SequenceNumber => ConflictResolutionType.SequenceNumber
  | SdkConflictResolutionType.Timestamp => ConflictResolutionType.Timestamp
  | SdkConflictResolutionType.Custom => ConflictResolutionType.Custom
  | SdkConflictResolutionType.Unknown val => ConflictResolutionType.Other val
  end.
Definition known_type (x : SdkBucketType) : bool := match x with SdkBucketType.Unknown _ => false | _ => true end.
Definition core_type (x : SdkBucketType) : StoredBucketType :=
  match x with
  | SdkBucketType.Couchbase => StoredBucketType.Couchbase
  | SdkBucketType.Ephemeral => StoredBucketType.Ephemeral
  | SdkBucketType.Unknown val => StoredBucketType.Other val
  end.
Definition known_backend (x : SdkStorageBackend) : bool := match x with SdkStorageBackend.Unknown _ => false | _ => true end.
Definition core_backend (x : SdkStorageBackend) : StorageBackend :=
  match x with
  | SdkStorageBackend.Couchstore => StorageBackend.Couchstore
  | SdkStorageBackend.Magma => StorageBackend.Magma
  | SdkStorageBackend.Unknown val => StorageBackend.Other val
  end.

Definition known_common (s : SdkBucketSettings) : bool :=
  from_option known_eviction true (SdkBucketSettings.eviction_policy s)
  && from_option known_compression true (SdkBucketSettings.compression_mode s)
  && from_option known_durability true (SdkBucketSettings.minimum_durability_level s)
  && from_option known_conflict true (SdkBucketSettings.conflict_resolution_type s)
  && from_option known_type true (SdkBucketSettings.bucket_type s).
Definition known_settings (s : SdkBucketSettings) : bool :=
  known_common s && from_option known_backend true (SdkBucketSettings.storage_backend s).

(** What the agent is given for settings that are known, field by field. *)
Definition core_settings_of (storage_backend : option StorageBackend) (s : SdkBucketSettings) : BucketSettings :=
  BucketSettings.mk (SdkBucketSettings.flush_enabled s) (SdkBucketSettings.ram_quota_mb s)
    (SdkBucketSettings.num_replicas s) (core_eviction <$> SdkBucketSettings.eviction_policy s)
    (SdkBucketSettings.max_expiry s) (core_compression <$> SdkBucketSettings.compression_mode s)
    (core_durability <$> SdkBucketSettings.minimum_durability_level s)
    (SdkBucketSettings.history_retention_collection_default s) (SdkBucketSettings.history_retention_bytes s)
    ((λ d, cast_u 32 (as_secs d)) <$> SdkBucketSettings.history_retention_duration s)
    (core_conflict <$> SdkBucketSettings.conflict_resolution_type s) (SdkBucketSettings.replica_indexes s)
    (core_type <$> SdkBucketSettings.bucket_type s) storage_backend (SdkBucketSettings.num_vbuckets s).

Lemma bucket_settings_fields (s t : BucketSettings) :
  BucketSettings.flush_enabled s = BucketSettings.flush_enabled t →
  BucketSettings.ram_quota_mb s = BucketSettings.ram_quota_mb t →
  BucketSettings.replica_number s = BucketSettings.replica_number t →
  BucketSettings.eviction_policy s = BucketSettings.eviction_policy t →
  BucketSettings.max_ttl s = BucketSettings.max_ttl t →
  BucketSettings.compression_mode s = BucketSettings.compression_mode t →
  BucketSettings.durability_min_level s = BucketSettings.durability_min_level t →
  BucketSettings.history_retention_collection_default s = BucketSettings.history_retention_collection_default t →
  BucketSettings.history_retention_bytes s = BucketSettings.history_retention_bytes t →
  BucketSettings.history_retention_seconds s = BucketSettings.history_retention_seconds t →
  BucketSettings.conflict_resolution_type s = BucketSettings.conflict_resolution_type t →
  BucketSettings.replica_index s = BucketSettings.replica_index t →
  BucketSettings.bucket_type s = BucketSettings.bucket_type t →
  BucketSettings.storage_backend s = BucketSettings.storage_backend t →
  BucketSettings.num_vbuckets s = BucketSettings.num_vbuckets t → s = t.
Proof. destruct s, t. cbn. by intros -> -> -> -> -> -> -> -> -> -> -> -> -> -> ->. Qed.

(** The settings of both operations, as one equation. *)
Ltac field_of_settings :=
  repeat first [ rewrite set_some_stays by done | apply set_some_sets; [done|] | reflexivity ].

Lemma set_some_fmap {A A' B} (f : A → A') (setter : A' → B → B) o acc :
  set_some (λ x, setter (f x)) o acc = set_some setter (f <$> o) acc.
Proof. by destruct o. Qed.

Lemma common_core_settings_eq s :
  common_core_settings s
  = if known_common s
    then Ok ((core_settings_of None s) <| BucketSettings.num_vbuckets := None |>)
    else Panic.
Proof.
  unfold common_core_settings, known_common. cbv zeta.
  rewrite (set_into_known _ known_eviction core_eviction) by by intros [].
  destruct (from_option known_eviction _ _); [|done]. cbn [mbind outcome_bind andb].
  rewrite (set_into_known _ known_compression core_compression) by by intros [].
  destruct (from_option known_compression _ _); [|done]. cbn [mbind outcome_bind andb].
  rewrite (set_into_known _ known_durability core_durability) by by intros [].
  destruct (from_option known_durability _ _); [|done]. cbn [mbind outcome_bind andb].
  rewrite (set_into_known _ known_conflict core_conflict) by by intros [].
  destruct (from_option known_conflict _ _); [|done]. cbn [mbind outcome_bind andb].
  rewrite (set_into_known _ known_type core_type) by by intros [].
  destruct (from_option known_type _ _); [|done]. f_equal.
  rewrite (set_some_fmap (λ d, cast_u 32 (as_secs d)) bucket_settings_history_retention_seconds).
  apply bucket_settings_fields; field_of_settings.
Qed.

Lemma create_core_settings_eq s :
  create_core_settings s
  = if known_settings s then Ok (core_settings_of (core_backend <$> SdkBucketSettings.storage_backend s) s) else Panic.
Proof.
  unfold create_core_settings, known_settings. rewrite common_core_settings_eq. destruct (known_common s); [|done].
  cbn [mbind outcome_bind andb]. rewrite (set_into_known _ known_backend core_backend) by by intros [].
  destruct (from_option known_backend _ _); [|done]. cbn [mbind outcome_bind]. f_equal.
  apply bucket_settings_fields; field_of_settings.
Qed.

Lemma update_core_settings_eq s :
  update_core_settings s = if known_common s then Ok (core_settings_of None s) else Panic.
Proof.
  unfold update_core_settings. rewrite common_core_settings_eq. destruct (known_common s); [|done].
  cbn [mbind outcome_bind]. f_equal. apply bucket_settings_fields; field_of_settings.
Qed.

(** *** Reading and writing back *)

(** The settings of a server, of which this version knows every value. *)
Definition known_to_sdk (value : BucketSettings) : Prop :=
  (∀ v, BucketSettings.eviction_policy value ≠ Some (EvictionPolicyType.Other v))
  ∧ (∀ v, BucketSettings.compression_mode value ≠ Some (BucketCompressionMode.Other v))
  ∧ (∀ v, BucketSettings.durability_min_level value ≠ Some (BucketDurabilityLevel.Other v))
  ∧ (∀ v, BucketSettings.conflict_resolution_type value ≠ Some (ConflictResolutionType.Other v))
  ∧ (∀ v, BucketSettings.bucket_type value ≠ Some (StoredBucketType.Other v))
  ∧ ∀ v, BucketSettings.storage_backend value ≠ Some (StorageBackend.Other v).

Lemma known_option {A B} (known : B → bool) (core : B → A) (from : A → B) (o : option A) :
  (∀ x, o = Some x → known (from x) = true ∧ core (from x) = x) →
  from_option known true (from <$> o) = true ∧ core <$> (from <$> o) = o.
Proof. intros Hx. destruct o as [x|]; cbn; [|done]. destruct (Hx x eq_refl) as [-> ->]. done. Qed.

(** The settings that are read of a bucket, written back unchanged, are the settings of the bucket: a bucket
    that is created with them has them all, and an update sends them all but the storage backend. *)
Lemma bucket_settings_written_back value :
  known_to_sdk (BucketDef.bucket_settings value) →
  (∀ secs, BucketSettings.history_retention_seconds (BucketDef.bucket_settings value) = Some secs → 0 <= secs < 2 ^ 32) →
  create_core_settings (sdk_bucket_settings_from value) = Ok (BucketDef.bucket_settings value)
  ∧ update_core_settings (sdk_bucket_settings_from value)
    = Ok ((BucketDef.bucket_settings value) <| BucketSettings.storage_backend := None |>).
Proof.
  intros (He & Hc & Hd & Hf & Ht & Hb) Hs. rewrite create_core_settings_eq, update_core_settings_eq.
  unfold known_settings, known_common, core_settings_of, sdk_bucket_settings_from.
  destruct value as [name [fl ram rep ev ttl cm dl hd hb hs cf ri bt sb nv]]. cbn in *.
  destruct (known_option known_eviction core_eviction sdk_eviction_policy_type_from ev) as [-> ->]; [by intros [] ->; naive_solver|].
  destruct (known_option known_compression core_compression sdk_compression_mode_from cm) as [-> ->]; [by intros [] ->; naive_solver|].
  destruct (known_option known_durability core_durability sdk_durability_level_from dl) as [-> ->]; [by intros [] ->; naive_solver|].
  destruct (known_option known_conflict core_conflict sdk_conflict_resolution_type_from cf) as [-> ->]; [by intros [] ->; naive_solver|].
  destruct (known_option known_type core_type sdk_bucket_type_from bt) as [-> ->]; [by intros [] ->; naive_solver|].
  destruct (known_option known_backend core_backend sdk_storage_backend_from sb) as [-> ->]; [by intros [] ->; naive_solver|].
  assert ((λ d, cast_u 32 (as_secs d)) <$> (from_secs <$> hs) = hs) as ->; [|done].
  destruct hs as [secs|]; cbn; [|done]. unfold cast_u, as_secs, from_secs. rewrite Z.div_mul by done.
  rewrite Z.mod_small by (by apply Hs). done.
Qed.

(** A value this version does not know makes the same two operations panic. *)
Lemma unknown_settings_panic s :
  (known_settings s = false → create_core_settings s = Panic) ∧ (known_common s = false → update_core_settings s = Panic).
Proof. rewrite create_core_settings_eq, update_core_settings_eq. split; by intros ->. Qed.

Lemma unknown_type_read_and_written name v :
  let value := BucketDef.mk name (bucket_settings_bucket_type (StoredBucketType.Other v) bucket_settings_default) in
  create_core_settings (sdk_bucket_settings_from value) = Panic
  ∧ update_core_settings (sdk_bucket_settings_from value) = Panic.
Proof. done. Qed.

(** A retention of 2^32 seconds is sent as none. *)
Example long_retention_wraps :
  BucketSettings.history_retention_seconds
    (core_settings_of None (sdk_bucket_settings_history_retention_duration (from_secs (2 ^ 32)) (sdk_bucket_settings_new "b")))
  = Some 0.
Proof. reflexivity. Qed.

(** *** Creating a bucket and reading it back *)

(** What the agent gets of known settings has known values. *)
Lemma core_settings_plain s :
  known_settings s = true → (∃ q, SdkBucketSettings.ram_quota_mb s = Some q) →
  (∀ d, SdkBucketSettings.max_expiry s = Some d → d = d / 1000000000 * 1000000000) →
  plain_settings (core_settings_of (core_backend <$> SdkBucketSettings.storage_backend s) s).
Proof.
  unfold known_settings, known_common. intros Hk Hq Ht.
  repeat match goal with H : _ && _ = true |- _ => apply andb_true_iff in H as [? ?] end.
  split; cbn; [done..| | | | | |]; intros val Hv; apply fmap_Some in Hv as (x & Hx & Hv);
    rewrite Hx in *; by destruct x.
Qed.

(** Known settings are what the public crate makes of what the agent has of them. *)
Lemma core_settings_read_back s :
  known_settings s = true →
  (∀ d, SdkBucketSettings.history_retention_duration s = Some d → ∃ secs, d = from_secs secs ∧ 0 <= secs < 2 ^ 32) →
  sdk_bucket_settings_from (BucketDef.mk (SdkBucketSettings.name s)
    (core_settings_of (core_backend <$> SdkBucketSettings.storage_backend s) s)) = s.
Proof.
  unfold known_settings, known_common. intros Hk Hh.
  repeat match goal with H : _ && _ = true |- _ => apply andb_true_iff in H as [? ?] end.
  destruct s as [n q f r ev ttl cm dl hd hb hs cf ri bt sb nv]. cbn in *. unfold sdk_bucket_settings_from. cbn.
  f_equal.
  1-3: by match goal with o : option _, _ : from_option _ true ?o = true |- _ <$> (_ <$> ?o) = ?o => destruct o as [[]|] end.
  1: { destruct hs as [d|]; [|done]. destruct (Hh d eq_refl) as (secs & -> & Hs). cbn.
       unfold cast_u, as_secs, from_secs. by rewrite Z.div_mul, Z.mod_small by done. }
  all: by match goal with o : option _, _ : from_option _ true ?o = true |- _ <$> (_ <$> ?o) = ?o => destruct o as [[]|] end.
Qed.


Definition sample_sdk_settings : SdkBucketSettings :=
  sdk_bucket_settings_flush_enabled true (sdk_bucket_settings_ram_quota_mb 256 (sdk_bucket_settings_num_replicas 2
    (sdk_bucket_settings_eviction_policy SdkEvictionPolicyType.Full (sdk_bucket_settings_max_expiry (from_secs 3)
    (sdk_bucket_settings_minimum_durability_level SdkDurabilityLevel.Majority
    (sdk_bucket_settings_bucket_type SdkBucketType.Couchbase (sdk_bucket_settings_new "b"))))))).


(** * Managing users in the public crate ([couchbase/src/clients/user_mgmt_client.rs],
    [couchbase/src/management/users/], [couchbase/src/options/user_mgmt_options.rs])

    Users, groups and roles as an application has them and as the agent has them; the client and the manager.
    [V] is a time with its offset, [T] a retry strategy.  The agent is the interface [UserMgmtAgent]. *)

(** ** Options *)

Module SdkGetUserOptions.
Section Fields.
Context {T : Type}.
Record SdkGetUserOptions : Type := mk {
  auth_domain : option string;
  retry_strategy : option T;
}.
End Fields.
#[global] Arguments SdkGetUserOptions : clear implicits.
End SdkGetUserOptions.
Abbreviation SdkGetUserOptions := SdkGetUserOptions.SdkGetUserOptions.
#[global] Instance sdk_get_user_options_settable T : Settable (SdkGetUserOptions T) := λ r,
  SdkGetUserOptions.mk (SdkGetUserOptions.auth_domain r) (SdkGetUserOptions.retry_strategy r).

Definition sdk_get_user_options_new {T : Type} : SdkGetUserOptions T :=
  SdkGetUserOptions.mk None None.

Definition sdk_get_user_options_auth_domain {T : Type} (auth_domain : string)
    (self : SdkGetUserOptions T) : SdkGetUserOptions T :=
  self <| SdkGetUserOptions.auth_domain := Some auth_domain |>.

Definition sdk_get_user_options_retry_strategy {T : Type} (retry_strategy : T)
    (self : SdkGetUserOptions T) : SdkGetUserOptions T :=
  self <| SdkGetUserOptions.retry_strategy := Some retry_strategy |>.

Module SdkGetAllUsersOptions.
Section Fields.
Context {T : Type}.
Record SdkGetAllUsersOptions : Type := mk {
  auth_domain : option string;
  retry_strategy : option T;
}.
End Fields.
#[global] Arguments SdkGetAllUsersOptions : clear implicits.
End SdkGetAllUsersOptions.
Abbreviation SdkGetAllUsersOptions := SdkGetAllUsersOptions.SdkGetAllUsersOptions.
#[global] Instance sdk_get_all_users_options_settable T : Settable (SdkGetAllUsersOptions T) := λ r,
  SdkGetAllUsersOptions.mk (SdkGetAllUsersOptions.auth_domain r) (SdkGetAllUsersOptions.retry_strategy r).

Definition sdk_get_all_users_options_new {T : Type} : SdkGetAllUsersOptions T :=
  SdkGetAllUsersOptions.mk None None.

Definition sdk_get_all_users_options_auth_domain {T : Type} (auth_domain : string)
    (self : SdkGetAllUsersOptions T) : SdkGetAllUsersOptions T :=
  self <| SdkGetAllUsersOptions.auth_domain := Some auth_domain |>.

Definition sdk_get_all_users_options_retry_strategy {T : Type} (retry_strategy : T)
    (self : SdkGetAllUsersOptions T) : SdkGetAllUsersOptions T :=
  self <| SdkGetAllUsersOptions.retry_strategy := Some retry_strategy |>.

Module SdkUpsertUserOptions.
Section Fields.
Context {T : Type}.
Record SdkUpsertUserOptions : Type := mk {
  auth_domain : option string;
  retry_strategy : option T;
}.
End Fields.
#[global] Arguments SdkUpsertUserOptions : clear implicits.
End SdkUpsertUserOptions.
Abbreviation SdkUpsertUserOptions := SdkUpsertUserOptions.SdkUpsertUserOptions.
#[global] Instance sdk_upsert_user_options_settable T : Settable (SdkUpsertUserOptions T) := λ r,
  SdkUpsertUserOptions.mk (SdkUpsertUserOptions.auth_domain r) (SdkUpsertUserOptions.retry_strategy r).

Definition sdk_upsert_user_options_new {T : Type} : SdkUpsertUserOptions T :=
  SdkUpsertUserOptions.mk None None.

Definition sdk_upsert_user_options_auth_domain {T : Type} (auth_domain : string)
    (self : SdkUpsertUserOptions T) : SdkUpsertUserOptions T :=
  self <| SdkUpsertUserOptions.auth_domain := Some auth_domain |>.

Definition sdk_upsert_user_options_retry_strategy {T : Type} (retry_strategy : T)
    (self : SdkUpsertUserOptions T) : SdkUpsertUserOptions T :=
  self <| SdkUpsertUserOptions.retry_strategy := Some retry_strategy |>.

Module SdkDropUserOptions.
Section Fields.
Context {T : Type}.
Record SdkDropUserOptions : Type := mk {
  auth_domain : option string;
  retry_strategy : option T;
}.
End Fields.
#[global] Arguments SdkDropUserOptions : clear implicits.
End SdkDropUserOptions.
Abbreviation SdkDropUserOptions := SdkDropUserOptions.SdkDropUserOptions.
#[global] Instance sdk_drop_user_options_settable T : Settable (SdkDropUserOptions T) := λ r,
  SdkDropUserOptions.mk (SdkDropUserOptions.auth_domain r) (SdkDropUserOptions.retry_strategy r).

Definition sdk_drop_user_options_new {T : Type} : SdkDropUserOptions T :=
  SdkDropUserOptions.mk None None.

Definition sdk_drop_user_options_auth_domain {T : Type} (auth_domain : string)
    (self : SdkDropUserOptions T) : SdkDropUserOptions T :=
  self <| SdkDropUserOptions.auth_domain := Some auth_domain |>.

Definition sdk_drop_user_options_retry_strategy {T : Type} (retry_strategy : T)
    (self : SdkDropUserOptions T) : SdkDropUserOptions T :=
  self <| SdkDropUserOptions.retry_strategy := Some retry_strategy |>.

Module SdkGetRolesOptions.
Section Fields.
Context {T : Type}.
Record SdkGetRolesOptions : Type := mk {
  retry_strategy : option T;
}.
End Fields.
#[global] Arguments SdkGetRolesOptions : clear implicits.
End SdkGetRolesOptions.
Abbreviation SdkGetRolesOptions := SdkGetRolesOptions.SdkGetRolesOptions.
#[global] Instance sdk_get_roles_options_settable T : Settable (SdkGetRolesOptions T) := λ r,
  SdkGetRolesOptions.mk (SdkGetRolesOptions.retry_strategy r).

Definition sdk_get_roles_options_new {T : Type} : SdkGetRolesOptions T :=
  SdkGetRolesOptions.mk None.

Definition sdk_get_roles_options_retry_strategy {T : Type} (retry_strategy : T)
    (self : SdkGetRolesOptions T) : SdkGetRolesOptions T :=
  self <| SdkGetRolesOptions.retry_strategy := Some retry_strategy |>.

Module SdkGetGroupOptions.
Section Fields.
Context {T : Type}.
Record SdkGetGroupOptions : Type := mk {
  retry_strategy : option T;
}.
End Fields.
#[global] Arguments SdkGetGroupOptions : clear implicits.
End SdkGetGroupOptions.
Abbreviation SdkGetGroupOptions := SdkGetGroupOptions.SdkGetGroupOptions.
#[global] Instance sdk_get_group_options_settable T : Settable (SdkGetGroupOptions T) := λ r,
  SdkGetGroupOptions.mk (SdkGetGroupOptions.retry_strategy r).

Definition sdk_get_group_options_new {T : Type} : SdkGetGroupOptions T :=
  SdkGetGroupOptions.mk None.

Definition sdk_get_group_options_retry_strategy {T : Type} (retry_strategy : T)
    (self : SdkGetGroupOptions T) : SdkGetGroupOptions T :=
  self <| SdkGetGroupOptions.retry_strategy := Some retry_strategy |>.

Module SdkGetAllGroupsOptions.
Section Fields.
Context {T : Type}.
Record SdkGetAllGroupsOptions : Type := mk {
  retry_strategy : option T;
}.
End Fields.
#[global] Arguments SdkGetAllGroupsOptions : clear implicits.
End SdkGetAllGroupsOptions.
Abbreviation SdkGetAllGroupsOptions := SdkGetAllGroupsOptions.SdkGetAllGroupsOptions.
#[global] Instance sdk_get_all_groups_options_settable T : Settable (SdkGetAllGroupsOptions T) := λ r,
  SdkGetAllGroupsOptions.mk (SdkGetAllGroupsOptions.retry_strategy r).

Definition sdk_get_all_groups_options_new {T : Type} : SdkGetAllGroupsOptions T :=
  SdkGetAllGroupsOptions.mk None.

Definition sdk_get_all_groups_options_retry_strategy {T : Type} (retry_strategy : T)
    (self : SdkGetAllGroupsOptions T) : SdkGetAllGroupsOptions T :=
  self <| SdkGetAllGroupsOptions.retry_strategy := Some retry_strategy |>.

Module SdkUpsertGroupOptions.
Section Fields.
Context {T : Type}.
Record SdkUpsertGroupOptions : Type := mk {
  retry_strategy : option T;
}.
End Fields.
#[global] Arguments SdkUpsertGroupOptions : clear implicits.
End SdkUpsertGroupOptions.
Abbreviation SdkUpsertGroupOptions := SdkUpsertGroupOptions.SdkUpsertGroupOptions.
#[global] Instance sdk_upsert_group_options_settable T : Settable (SdkUpsertGroupOptions T) := λ r,
  SdkUpsertGroupOptions.mk (SdkUpsertGroupOptions.retry_strategy r).

Definition sdk_upsert_group_options_new {T : Type} : SdkUpsertGroupOptions T :=
  SdkUpsertGroupOptions.mk None.

Definition sdk_upsert_group_options_retry_strategy {T : Type} (retry_strategy : T)
    (self : SdkUpsertGroupOptions T) : SdkUpsertGroupOptions T :=
  self <| SdkUpsertGroupOptions.retry_strategy := Some retry_strategy |>.

Module SdkDropGroupOptions.
Section Fields.
Context {T : Type}.
Record SdkDropGroupOptions : Type := mk {
  retry_strategy : option T;
}.
End Fields.
#[global] Arguments SdkDropGroupOptions : clear implicits.
End SdkDropGroupOptions.
Abbreviation SdkDropGroupOptions := SdkDropGroupOptions.SdkDropGroupOptions.
#[global] Instance sdk_drop_group_options_settable T : Settable (SdkDropGroupOptions T) := λ r,
  SdkDropGroupOptions.mk (SdkDropGroupOptions.retry_strategy r).

Definition sdk_drop_group_options_new {T : Type} : SdkDropGroupOptions T :=
  SdkDropGroupOptions.mk None.

Definition sdk_drop_group_options_retry_strategy {T : Type} (retry_strategy : T)
    (self : SdkDropGroupOptions T) : SdkDropGroupOptions T :=
  self <| SdkDropGroupOptions.retry_strategy := Some retry_strategy |>.

Module SdkChangePasswordOptions.
Section Fields.
Context {T : Type}.
Record SdkChangePasswordOptions : Type := mk {
  retry_strategy : option T;
}.
End Fields.
#[global] Arguments SdkChangePasswordOptions : clear implicits.
End SdkChangePasswordOptions.
Abbreviation SdkChangePasswordOptions := SdkChangePasswordOptions.SdkChangePasswordOptions.
#[global] Instance sdk_change_password_options_settable T : Settable (SdkChangePasswordOptions T) := λ r,
  SdkChangePasswordOptions.mk (SdkChangePasswordOptions.retry_strategy r).

Definition sdk_change_password_options_new {T : Type} : SdkChangePasswordOptions T :=
  SdkChangePasswordOptions.mk None.

Definition sdk_change_password_options_retry_strategy {T : Type} (retry_strategy : T)
    (self : SdkChangePasswordOptions T) : SdkChangePasswordOptions T :=
  self <| SdkChangePasswordOptions.retry_strategy := Some retry_strategy |>.

(** ** Users, groups and roles *)

Module SdkRole.
Record SdkRole : Type := mk {
  name : string;
  bucket : option string;
  scope : option string;
  collection : option string;
}.
End SdkRole.
Abbreviation SdkRole := SdkRole.SdkRole.
#[global] Instance sdk_role_settable : Settable (SdkRole) := λ r,
  SdkRole.mk (SdkRole.name r) (SdkRole.bucket r) (SdkRole.scope r) (SdkRole.collection r).

Definition sdk_role_new (name : string) : SdkRole :=
  SdkRole.mk name None None None.

Definition sdk_role_bucket (bucket : string) (self : SdkRole) : SdkRole :=
  self <| SdkRole.bucket := Some bucket |>.

Definition sdk_role_scope (scope : string) (self : SdkRole) : SdkRole :=
  self <| SdkRole.scope := Some scope |>.

Definition sdk_role_collection (collection : string) (self : SdkRole) : SdkRole :=
  self <| SdkRole.collection := Some collection |>.

Module SdkRoleAndDescription.
Record SdkRoleAndDescription : Type := mk {
  role : SdkRole;
  display_name : string;
  description : string;
}.
End SdkRoleAndDescription.
Abbreviation SdkRoleAndDescription := SdkRoleAndDescription.SdkRoleAndDescription.
#[global] Instance sdk_role_and_description_settable : Settable (SdkRoleAndDescription) := λ r,
  SdkRoleAndDescription.mk (SdkRoleAndDescription.role r) (SdkRoleAndDescription.display_name r)
    (SdkRoleAndDescription.description r).

Module SdkOrigin.
Record SdkOrigin : Type := mk {
  origin_type : string;
  name : option string;
}.
End SdkOrigin.
Abbreviation SdkOrigin := SdkOrigin.SdkOrigin.
#[global] Instance sdk_origin_settable : Settable (SdkOrigin) := λ r,
  SdkOrigin.mk (SdkOrigin.origin_type r) (SdkOrigin.name r).

Module SdkRoleAndOrigins.
Record SdkRoleAndOrigins : Type := mk {
  role : SdkRole;
  origins : list SdkOrigin;
}.
End SdkRoleAndOrigins.
Abbreviation SdkRoleAndOrigins := SdkRoleAndOrigins.SdkRoleAndOrigins.
#[global] Instance sdk_role_and_origins_settable : Settable (SdkRoleAndOrigins) := λ r,
  SdkRoleAndOrigins.mk (SdkRoleAndOrigins.role r) (SdkRoleAndOrigins.origins r).

Module SdkGroup.
Record SdkGroup : Type := mk {
  name : string;
  description : option string;
  roles : list SdkRole;
  ldap_group_reference : option string;
}.
End SdkGroup.
Abbreviation SdkGroup := SdkGroup.SdkGroup.
#[global] Instance sdk_group_settable : Settable (SdkGroup) := λ r,
  SdkGroup.mk (SdkGroup.name r) (SdkGroup.description r) (SdkGroup.roles r) (SdkGroup.ldap_group_reference r).

Definition sdk_group_new (name : string) (description : string) (roles : list SdkRole) : SdkGroup :=
  SdkGroup.mk name (Some description) roles None.

Definition sdk_group_add_role (role : SdkRole) (self : SdkGroup) : SdkGroup :=
  self <| SdkGroup.roles := SdkGroup.roles self ++ [role] |>.

Definition sdk_group_ldap_group_reference (reference : string) (self : SdkGroup) : SdkGroup :=
  self <| SdkGroup.ldap_group_reference := Some reference |>.

Module SdkUser.
Record SdkUser : Type := mk {
  username : string;
  display_name : string;
  groups : list string;
  roles : list SdkRole;
  password : option string;
}.
End SdkUser.
Abbreviation SdkUser := SdkUser.SdkUser.
#[global] Instance sdk_user_settable : Settable (SdkUser) := λ r,
  SdkUser.mk (SdkUser.username r) (SdkUser.display_name r) (SdkUser.groups r) (SdkUser.roles r)
    (SdkUser.password r).

Definition sdk_user_new (username : string) (display_name : string) (roles : list SdkRole) : SdkUser :=
  SdkUser.mk username display_name [] roles None.

Definition sdk_user_groups (groups : list string) (self : SdkUser) : SdkUser :=
  self <| SdkUser.groups := groups |>.

Definition sdk_user_add_group (group : string) (self : SdkUser) : SdkUser :=
  self <| SdkUser.groups := SdkUser.groups self ++ [group] |>.

Definition sdk_user_password (password : string) (self : SdkUser) : SdkUser :=
  self <| SdkUser.password := Some password |>.

Module SdkUserAndMetadata.
Section Fields.
Context {V : Type}.
Record SdkUserAndMetadata : Type := mk {
  domain : string;
  user : SdkUser;
  effective_roles : list SdkRoleAndOrigins;
  password_changed : option V;
  external_groups : list string;
}.
End Fields.
#[global] Arguments SdkUserAndMetadata : clear implicits.
End SdkUserAndMetadata.
Abbreviation SdkUserAndMetadata := SdkUserAndMetadata.SdkUserAndMetadata.
#[global] Instance sdk_user_and_metadata_settable V : Settable (SdkUserAndMetadata V) := λ r,
  SdkUserAndMetadata.mk (SdkUserAndMetadata.domain r) (SdkUserAndMetadata.user r)
    (SdkUserAndMetadata.effective_roles r) (SdkUserAndMetadata.password_changed r)
    (SdkUserAndMetadata.external_groups r).

(** *** To and from the agent *)

Definition role_into (role : SdkRole) : Role :=
  Role.mk (SdkRole.name role) (SdkRole.bucket role) (SdkRole.scope role) (SdkRole.collection role).
Definition sdk_role_from (role : Role) : SdkRole :=
  SdkRole.mk (Role.name role) (Role.bucket role) (Role.scope role) (Role.collection role).

Definition user_into (user : SdkUser) : User :=
  User.mk (SdkUser.username user) (SdkUser.display_name user) (SdkUser.groups user) (role_into <$> SdkUser.roles user)
    (SdkUser.password user).

Definition sdk_role_and_description_from (x : RoleAndDescription) : SdkRoleAndDescription :=
  SdkRoleAndDescription.mk (sdk_role_from (RoleAndDescription.role x)) (RoleAndDescription.display_name x)
    (RoleAndDescription.description x).

Definition sdk_origin_from (origin : Origin) : SdkOrigin := SdkOrigin.mk (Origin.origin_type origin) (Origin.name
    origin).

Definition sdk_role_and_origins_from (x : RoleAndOrigins) : SdkRoleAndOrigins :=
  SdkRoleAndOrigins.mk (sdk_role_from (RoleAndOrigins.role x)) (sdk_origin_from <$> RoleAndOrigins.origins x).

(** The user inside a [UserAndMetadata]. *)
Definition sdk_user_from (user : User) : SdkUser :=
  SdkUser.mk (User.username user) (User.display_name user) (User.groups user) (sdk_role_from <$> User.roles user)
    (User.password user).

Definition sdk_user_and_metadata_from {V : Type} (x : UserAndMetadata V) : SdkUserAndMetadata V :=
  SdkUserAndMetadata.mk (UserAndMetadata.domain x) (sdk_user_from (UserAndMetadata.user x))
    (sdk_role_and_origins_from <$> UserAndMetadata.effective_roles x) (UserAndMetadata.password_changed x)
    (UserAndMetadata.external_groups x).

Definition group_into (group : SdkGroup) : Group :=
  Group.mk (SdkGroup.name group) (SdkGroup.description group) (role_into <$> SdkGroup.roles group)
    (SdkGroup.ldap_group_reference group).
Definition sdk_group_from (group : Group) : SdkGroup :=
  SdkGroup.mk (Group.name group) (Group.description group) (sdk_role_from <$> Group.roles group)
    (Group.ldap_group_reference group).

(** ** The client *)

Definition DEFAULT_AUTH_DOMAIN : string := "local".

Class UserMgmtAgent (S T V : Type) := {
  uma_get_all_users : CoreGetAllUsersOptions T → io S Core.Error (list (UserAndMetadata V));
  uma_get_user : CoreGetUserOptions T → io S Core.Error (UserAndMetadata V);
  uma_upsert_user : CoreUpsertUserOptions T → io S Core.Error unit;
  uma_delete_user : CoreDeleteUserOptions T → io S Core.Error unit;
  uma_get_roles : CoreGetRolesOptions T → io S Core.Error (list RoleAndDescription);
  uma_get_group : CoreGetGroupOptions T → io S Core.Error Group;
  uma_get_all_groups : CoreGetAllGroupsOptions T → io S Core.Error (list Group);
  uma_upsert_group : CoreUpsertGroupOptions T → io S Core.Error unit;
  uma_delete_group : CoreDeleteGroupOptions T → io S Core.Error unit;
  uma_change_password : CoreChangePasswordOptions T → io S Core.Error unit;
}.

Record CouchbaseUserMgmtClient (T : Type) : Type := mkCouchbaseUserMgmtClient { cum_default_retry_strategy : T }.
#[global] Arguments mkCouchbaseUserMgmtClient {T}.
#[global] Arguments cum_default_retry_strategy {T}.

Section Client.
Context {S T V : Type} `{UserMgmtAgent S T V}.
Context (get_agent : S → S * option bool) (from_slice_context : list Z → option ServerErrorContextJson).

Abbreviation Client := (CouchbaseUserMgmtClient T).
Abbreviation on_agent := (on_agent get_agent from_slice_context).

Definition retry_of_user_client (self : Client) (retry_strategy : option T) : T :=
  default (cum_default_retry_strategy self) retry_strategy.

Definition client_get_all_users (self : Client) (opts : SdkGetAllUsersOptions T)
    : io S Sdk.Error (list (SdkUserAndMetadata V)) :=
  r ← on_agent (uma_get_all_users (core_get_all_users_options_retry_strategy (retry_of_user_client self
      (SdkGetAllUsersOptions.retry_strategy opts)) (core_get_all_users_options_new (default DEFAULT_AUTH_DOMAIN
      (SdkGetAllUsersOptions.auth_domain opts)))));
  mret (fmap sdk_user_and_metadata_from r).

Definition client_get_user (self : Client) (username : string) (opts : SdkGetUserOptions T)
    : io S Sdk.Error (SdkUserAndMetadata V) :=
  r ← on_agent (uma_get_user (core_get_user_options_retry_strategy (retry_of_user_client self
      (SdkGetUserOptions.retry_strategy opts)) (core_get_user_options_new username (default DEFAULT_AUTH_DOMAIN
      (SdkGetUserOptions.auth_domain opts)))));
  mret (sdk_user_and_metadata_from r).

Definition client_upsert_user (self : Client) (user : SdkUser) (opts : SdkUpsertUserOptions T)
    : io S Sdk.Error unit :=
  on_agent (uma_upsert_user (core_upsert_user_options_retry_strategy (retry_of_user_client self
      (SdkUpsertUserOptions.retry_strategy opts)) (core_upsert_user_options_new (user_into user) (default
      DEFAULT_AUTH_DOMAIN (SdkUpsertUserOptions.auth_domain opts))))).

Definition client_drop_user (self : Client) (username : string) (opts : SdkDropUserOptions T)
    : io S Sdk.Error unit :=
  on_agent (uma_delete_user (core_delete_user_options_retry_strategy (retry_of_user_client self
      (SdkDropUserOptions.retry_strategy opts)) (core_delete_user_options_new username (default
      DEFAULT_AUTH_DOMAIN (SdkDropUserOptions.auth_domain opts))))).

Definition client_get_roles (self : Client) (opts : SdkGetRolesOptions T)
    : io S Sdk.Error (list SdkRoleAndDescription) :=
  r ← on_agent (uma_get_roles (core_get_roles_options_retry_strategy (retry_of_user_client self
      (SdkGetRolesOptions.retry_strategy opts)) core_get_roles_options_new));
  mret (fmap sdk_role_and_description_from r).

Definition client_get_group (self : Client) (group_name : string) (opts : SdkGetGroupOptions T)
    : io S Sdk.Error SdkGroup :=
  r ← on_agent (uma_get_group (core_get_group_options_retry_strategy (retry_of_user_client self
      (SdkGetGroupOptions.retry_strategy opts)) (core_get_group_options_new group_name)));
  mret (sdk_group_from r).

Definition client_get_all_groups (self : Client) (opts : SdkGetAllGroupsOptions T)
    : io S Sdk.Error (list SdkGroup) :=
  r ← on_agent (uma_get_all_groups (core_get_all_groups_options_retry_strategy (retry_of_user_client self
      (SdkGetAllGroupsOptions.retry_strategy opts)) core_get_all_groups_options_new));
  mret (fmap sdk_group_from r).

Definition client_upsert_group (self : Client) (group : SdkGroup) (opts : SdkUpsertGroupOptions T)
    : io S Sdk.Error unit :=
  on_agent (uma_upsert_group (core_upsert_group_options_retry_strategy (retry_of_user_client self
      (SdkUpsertGroupOptions.retry_strategy opts)) (core_upsert_group_options_new (group_into group)))).

Definition client_drop_group (self : Client) (group_name : string) (opts : SdkDropGroupOptions T)
    : io S Sdk.Error unit :=
  on_agent (uma_delete_group (core_delete_group_options_retry_strategy (retry_of_user_client self
      (SdkDropGroupOptions.retry_strategy opts)) (core_delete_group_options_new group_name))).

Definition client_change_password (self : Client) (new_password : string) (opts : SdkChangePasswordOptions T)
    : io S Sdk.Error unit :=
  on_agent (uma_change_password (core_change_password_options_retry_strategy (retry_of_user_client self
      (SdkChangePasswordOptions.retry_strategy opts)) (core_change_password_options_new new_password))).

(** [UserMgmtClient]. *)
Definition user_mgmt_get_all_users (self : ClientBackend Client) (opts : SdkGetAllUsersOptions T)
    : io S Sdk.Error (list (SdkUserAndMetadata V)) :=
  on_backend self (λ client, client_get_all_users client opts).
Definition user_mgmt_get_user (self : ClientBackend Client) (username : string) (opts : SdkGetUserOptions T)
    : io S Sdk.Error (SdkUserAndMetadata V) :=
  on_backend self (λ client, client_get_user client username opts).
Definition user_mgmt_upsert_user (self : ClientBackend Client) (user : SdkUser) (opts : SdkUpsertUserOptions T)
    : io S Sdk.Error unit :=
  on_backend self (λ client, client_upsert_user client user opts).
Definition user_mgmt_drop_user (self : ClientBackend Client) (username : string) (opts : SdkDropUserOptions T)
    : io S Sdk.Error unit :=
  on_backend self (λ client, client_drop_user client username opts).
Definition user_mgmt_get_roles (self : ClientBackend Client) (opts : SdkGetRolesOptions T)
    : io S Sdk.Error (list SdkRoleAndDescription) :=
  on_backend self (λ client, client_get_roles client opts).
Definition user_mgmt_get_group (self : ClientBackend Client) (group_name : string) (opts : SdkGetGroupOptions T)
    : io S Sdk.Error SdkGroup :=
  on_backend self (λ client, client_get_group client group_name opts).
Definition user_mgmt_get_all_groups (self : ClientBackend Client) (opts : SdkGetAllGroupsOptions T)
    : io S Sdk.Error (list SdkGroup) :=
  on_backend self (λ client, client_get_all_groups client opts).
Definition user_mgmt_upsert_group (self : ClientBackend Client) (group : SdkGroup) (opts : SdkUpsertGroupOptions T)
    : io S Sdk.Error unit :=
  on_backend self (λ client, client_upsert_group client group opts).
Definition user_mgmt_drop_group (self : ClientBackend Client) (group_name : string) (opts : SdkDropGroupOptions T)
    : io S Sdk.Error unit :=
  on_backend self (λ client, client_drop_group client group_name opts).
Definition user_mgmt_change_password (self : ClientBackend Client) (new_password : string) (opts :
    SdkChangePasswordOptions T)
    : io S Sdk.Error unit :=
  on_backend self (λ client, client_change_password client new_password opts).

(** [UserManager]: without options those that are new. *)
Definition user_manager_get_all_users (self : ClientBackend Client) (opts : option (SdkGetAllUsersOptions T))
    : io S Sdk.Error (list (SdkUserAndMetadata V)) :=
  user_mgmt_get_all_users self (default sdk_get_all_users_options_new opts).
Definition user_manager_get_user (self : ClientBackend Client) (username : string) (opts : option
    (SdkGetUserOptions T))
    : io S Sdk.Error (SdkUserAndMetadata V) :=
  user_mgmt_get_user self username (default sdk_get_user_options_new opts).
Definition user_manager_upsert_user (self : ClientBackend Client) (user : SdkUser) (opts : option
    (SdkUpsertUserOptions T))
    : io S Sdk.Error unit :=
  user_mgmt_upsert_user self user (default sdk_upsert_user_options_new opts).
Definition user_manager_drop_user (self : ClientBackend Client) (username : string) (opts : option
    (SdkDropUserOptions T))
    : io S Sdk.Error unit :=
  user_mgmt_drop_user self username (default sdk_drop_user_options_new opts).
Definition user_manager_get_roles (self : ClientBackend Client) (opts : option (SdkGetRolesOptions T))
    : io S Sdk.Error (list SdkRoleAndDescription) :=
  user_mgmt_get_roles self (default sdk_get_roles_options_new opts).
Definition user_manager_get_group (self : ClientBackend Client) (group_name : string) (opts : option
    (SdkGetGroupOptions T))
    : io S Sdk.Error SdkGroup :=
  user_mgmt_get_group self group_name (default sdk_get_group_options_new opts).
Definition user_manager_get_all_groups (self : ClientBackend Client) (opts : option (SdkGetAllGroupsOptions T))
    : io S Sdk.Error (list SdkGroup) :=
  user_mgmt_get_all_groups self (default sdk_get_all_groups_options_new opts).
Definition user_manager_upsert_group (self : ClientBackend Client) (group : SdkGroup) (opts : option
    (SdkUpsertGroupOptions T))
    : io S Sdk.Error unit :=
  user_mgmt_upsert_group self group (default sdk_upsert_group_options_new opts).
Definition user_manager_drop_group (self : ClientBackend Client) (group_name : string) (opts : option
    (SdkDropGroupOptions T))
    : io S Sdk.Error unit :=
  user_mgmt_drop_group self group_name (default sdk_drop_group_options_new opts).
Definition user_manager_change_password (self : ClientBackend Client) (new_password : string) (opts : option
    (SdkChangePasswordOptions T))
    : io S Sdk.Error unit :=
  user_mgmt_change_password self new_password (default sdk_change_password_options_new opts).
End Client.

(** ** Theorems *)

(** What is written is read back as it was written. *)
Lemma sdk_role_roundtrip role : sdk_role_from (role_into role) = role.
Proof. by destruct role. Qed.

Lemma sdk_roles_roundtrip (roles : list SdkRole) : sdk_role_from <$> (role_into <$> roles) = roles.
Proof. rewrite <-list_fmap_compose. rewrite <-(list_fmap_id roles) at 2. apply list_fmap_ext. intros i x _. apply
    sdk_role_roundtrip. Qed.

Lemma sdk_user_roundtrip user : sdk_user_from (user_into user) = user.
Proof. destruct user. unfold sdk_user_from, user_into. cbn. by rewrite sdk_roles_roundtrip. Qed.

Lemma sdk_group_roundtrip group : sdk_group_from (group_into group) = group.
Proof. destruct group. unfold sdk_group_from, group_into. cbn. by rewrite sdk_roles_roundtrip. Qed.

(** The other way round too: a group that is read and upserted is the group the server has. *)
Lemma group_roundtrip group : group_into (sdk_group_from group) = group.
Proof.
  destruct group as [n d roles l]. unfold group_into, sdk_group_from. cbn. f_equal.
  induction roles as [|[] roles IH]; cbn; [done|]. by rewrite IH.
Qed.

Lemma user_roundtrip user : user_into (sdk_user_from user) = user.
Proof.
  destruct user as [u d g roles p]. unfold user_into, sdk_user_from. cbn. f_equal.
  induction roles as [|[] roles IH]; cbn; [done|]. by rewrite IH.
Qed.
