(* ===== verification/SdkCollections.v ===== *)
(** * Managing collections in the public crate ([couchbase/src/clients/collections_mgmt_client.rs],
    [couchbase/src/management/collections/], [couchbase/src/options/collection_mgmt_options.rs],
    [couchbase/src/results/collections_mgmt_results.rs])

    The settings of a collection, the number its expiry is sent as, the scopes that are made of a manifest;
    the client and the manager.  A history is asked for only of a bucket that can keep one.

    [T] is a retry strategy.  The agent is the interface [CollectionsMgmtAgent]. *)

From S2P Require Import Prelude Wire CoreError Retry CrudOptions Http Config Agent FacadeError.
From S2P Require Import Mgmt CoreMgmtOptions.

(** ** Options and settings *)

Module SdkGetAllScopesOptions.
Section Fields.
Context {T : Type}.
Record SdkGetAllScopesOptions : Type := mk {
  retry_strategy : option T;
}.
End Fields.
#[global] Arguments SdkGetAllScopesOptions : clear implicits.
End SdkGetAllScopesOptions.
Abbreviation SdkGetAllScopesOptions := SdkGetAllScopesOptions.SdkGetAllScopesOptions.
#[global] Instance sdk_get_all_scopes_options_settable T : Settable (SdkGetAllScopesOptions T) := λ r,
  SdkGetAllScopesOptions.mk (SdkGetAllScopesOptions.retry_strategy r).

Definition sdk_get_all_scopes_options_new {T : Type} : SdkGetAllScopesOptions T :=
  SdkGetAllScopesOptions.mk None.

Definition sdk_get_all_scopes_options_retry_strategy {T : Type} (retry_strategy : T)
    (self : SdkGetAllScopesOptions T) : SdkGetAllScopesOptions T :=
  self <| SdkGetAllScopesOptions.retry_strategy := Some retry_strategy |>.

Module SdkCreateScopeOptions.
Section Fields.
Context {T : Type}.
Record SdkCreateScopeOptions : Type := mk {
  retry_strategy : option T;
}.
End Fields.
#[global] Arguments SdkCreateScopeOptions : clear implicits.
End SdkCreateScopeOptions.
Abbreviation SdkCreateScopeOptions := SdkCreateScopeOptions.SdkCreateScopeOptions.
#[global] Instance sdk_create_scope_options_settable T : Settable (SdkCreateScopeOptions T) := λ r,
  SdkCreateScopeOptions.mk (SdkCreateScopeOptions.retry_strategy r).

Definition sdk_create_scope_options_new {T : Type} : SdkCreateScopeOptions T :=
  SdkCreateScopeOptions.mk None.

Definition sdk_create_scope_options_retry_strategy {T : Type} (retry_strategy : T)
    (self : SdkCreateScopeOptions T) : SdkCreateScopeOptions T :=
  self <| SdkCreateScopeOptions.retry_strategy := Some retry_strategy |>.

Module SdkDropScopeOptions.
Section Fields.
Context {T : Type}.
Record SdkDropScopeOptions : Type := mk {
  retry_strategy : option T;
}.
End Fields.
#[global] Arguments SdkDropScopeOptions : clear implicits.
End SdkDropScopeOptions.
Abbreviation SdkDropScopeOptions := SdkDropScopeOptions.SdkDropScopeOptions.
#[global] Instance sdk_drop_scope_options_settable T : Settable (SdkDropScopeOptions T) := λ r,
  SdkDropScopeOptions.mk (SdkDropScopeOptions.retry_strategy r).

Definition sdk_drop_scope_options_new {T : Type} : SdkDropScopeOptions T :=
  SdkDropScopeOptions.mk None.

Definition sdk_drop_scope_options_retry_strategy {T : Type} (retry_strategy : T)
    (self : SdkDropScopeOptions T) : SdkDropScopeOptions T :=
  self <| SdkDropScopeOptions.retry_strategy := Some retry_strategy |>.

Module SdkCreateCollectionOptions.
Section Fields.
Context {T : Type}.
Record SdkCreateCollectionOptions : Type := mk {
  retry_strategy : option T;
}.
End Fields.
#[global] Arguments SdkCreateCollectionOptions : clear implicits.
End SdkCreateCollectionOptions.
Abbreviation SdkCreateCollectionOptions := SdkCreateCollectionOptions.SdkCreateCollectionOptions.
#[global] Instance sdk_create_collection_options_settable T : Settable (SdkCreateCollectionOptions T) := λ r,
  SdkCreateCollectionOptions.mk (SdkCreateCollectionOptions.retry_strategy r).

Definition sdk_create_collection_options_new {T : Type} : SdkCreateCollectionOptions T :=
  SdkCreateCollectionOptions.mk None.

Definition sdk_create_collection_options_retry_strategy {T : Type} (retry_strategy : T)
    (self : SdkCreateCollectionOptions T) : SdkCreateCollectionOptions T :=
  self <| SdkCreateCollectionOptions.retry_strategy := Some retry_strategy |>.

Module SdkUpdateCollectionOptions.
Section Fields.
Context {T : Type}.
Record SdkUpdateCollectionOptions : Type := mk {
  retry_strategy : option T;
}.
End Fields.
#[global] Arguments SdkUpdateCollectionOptions : clear implicits.
End SdkUpdateCollectionOptions.
Abbreviation SdkUpdateCollectionOptions := SdkUpdateCollectionOptions.SdkUpdateCollectionOptions.
#[global] Instance sdk_update_collection_options_settable T : Settable (SdkUpdateCollectionOptions T) := λ r,
  SdkUpdateCollectionOptions.mk (SdkUpdateCollectionOptions.retry_strategy r).

Definition sdk_update_collection_options_new {T : Type} : SdkUpdateCollectionOptions T :=
  SdkUpdateCollectionOptions.mk None.

Definition sdk_update_collection_options_retry_strategy {T : Type} (retry_strategy : T)
    (self : SdkUpdateCollectionOptions T) : SdkUpdateCollectionOptions T :=
  self <| SdkUpdateCollectionOptions.retry_strategy := Some retry_strategy |>.

Module SdkDropCollectionOptions.
Section Fields.
Context {T : Type}.
Record SdkDropCollectionOptions : Type := mk {
  retry_strategy : option T;
}.
End Fields.
#[global] Arguments SdkDropCollectionOptions : clear implicits.
End SdkDropCollectionOptions.
Abbreviation SdkDropCollectionOptions := SdkDropCollectionOptions.SdkDropCollectionOptions.
#[global] Instance sdk_drop_collection_options_settable T : Settable (SdkDropCollectionOptions T) := λ r,
  SdkDropCollectionOptions.mk (SdkDropCollectionOptions.retry_strategy r).

Definition sdk_drop_collection_options_new {T : Type} : SdkDropCollectionOptions T :=
  SdkDropCollectionOptions.mk None.

Definition sdk_drop_collection_options_retry_strategy {T : Type} (retry_strategy : T)
    (self : SdkDropCollectionOptions T) : SdkDropCollectionOptions T :=
  self <| SdkDropCollectionOptions.retry_strategy := Some retry_strategy |>.

Module MaxExpiryValue.
Inductive MaxExpiryValue : Type := Never | InheritFromBucket | Seconds (duration : Duration).
End MaxExpiryValue.

(** [From<MaxExpiryValue> for i32] and back. *)
Definition max_expiry_into (value : MaxExpiryValue.MaxExpiryValue) : Z :=
  match value with
  | MaxExpiryValue.Never => 0
  | MaxExpiryValue.InheritFromBucket => -1
  | MaxExpiryValue.Seconds duration => as_i32 (cast_u 32 (as_secs duration))
  end.

Definition max_expiry_from (value : Z) : MaxExpiryValue.MaxExpiryValue :=
  if value =? 0 then MaxExpiryValue.Never
  else if value =? -1 then MaxExpiryValue.InheritFromBucket
  else MaxExpiryValue.Seconds (from_secs (cast_u 64 value)).

Module CreateCollectionSettings.
Record CreateCollectionSettings : Type := mk {
  max_expiry : option MaxExpiryValue.MaxExpiryValue;
  history : option bool;
}.
End CreateCollectionSettings.
Abbreviation CreateCollectionSettings := CreateCollectionSettings.CreateCollectionSettings.
#[global] Instance create_collection_settings_settable : Settable (CreateCollectionSettings) := λ r,
  CreateCollectionSettings.mk (CreateCollectionSettings.max_expiry r) (CreateCollectionSettings.history r).

Definition create_collection_settings_new : CreateCollectionSettings :=
  CreateCollectionSettings.mk None None.

Definition create_collection_settings_max_expiry (max_expiry : MaxExpiryValue.MaxExpiryValue)
    (self : CreateCollectionSettings) : CreateCollectionSettings :=
  self <| CreateCollectionSettings.max_expiry := Some max_expiry |>.

Definition create_collection_settings_history (history : bool)
    (self : CreateCollectionSettings) : CreateCollectionSettings :=
  self <| CreateCollectionSettings.history := Some history |>.

Module UpdateCollectionSettings.
Record UpdateCollectionSettings : Type := mk {
  max_expiry : option MaxExpiryValue.MaxExpiryValue;
  history : option bool;
}.
End UpdateCollectionSettings.
Abbreviation UpdateCollectionSettings := UpdateCollectionSettings.UpdateCollectionSettings.
#[global] Instance update_collection_settings_settable : Settable (UpdateCollectionSettings) := λ r,
  UpdateCollectionSettings.mk (UpdateCollectionSettings.max_expiry r) (UpdateCollectionSettings.history r).

Definition update_collection_settings_new : UpdateCollectionSettings :=
  UpdateCollectionSettings.mk None None.

Definition update_collection_settings_max_expiry (max_expiry : MaxExpiryValue.MaxExpiryValue)
    (self : UpdateCollectionSettings) : UpdateCollectionSettings :=
  self <| UpdateCollectionSettings.max_expiry := Some max_expiry |>.

Definition update_collection_settings_history (history : bool)
    (self : UpdateCollectionSettings) : UpdateCollectionSettings :=
  self <| UpdateCollectionSettings.history := Some history |>.

(** ** Results *)

Module CollectionSpec.
Record CollectionSpec : Type := mk {
  name : string;
  scope_name : string;
  max_expiry : MaxExpiryValue.MaxExpiryValue;
  history : bool;
}.
End CollectionSpec.
Abbreviation CollectionSpec := CollectionSpec.CollectionSpec.

Module ScopeSpec.
Record ScopeSpec : Type := mk {
  name : string;
  collections : list CollectionSpec;
}.
End ScopeSpec.
Abbreviation ScopeSpec := ScopeSpec.ScopeSpec.

(** The loops of [get_all_scopes]. *)
Definition collection_spec_of (scope_name : string) (collection : CollectionManifestCollection) : CollectionSpec :=
  CollectionSpec.mk (CollectionManifestCollection.name collection) scope_name
    (default MaxExpiryValue.InheritFromBucket (max_expiry_from <$> CollectionManifestCollection.max_ttl collection))
    (default false (CollectionManifestCollection.history collection)).

Definition scope_spec_of (scope : CollectionManifestScope) : ScopeSpec :=
  ScopeSpec.mk (CollectionManifestScope.name scope)
    (collection_spec_of (CollectionManifestScope.name scope) <$> CollectionManifestScope.collections scope).

Definition scopes_of_manifest (manifest : CollectionManifest) : list ScopeSpec :=
  scope_spec_of <$> CollectionManifest.scopes manifest.

(** ** The client *)

Class CollectionsMgmtAgent (S T : Type) := {
  cma_create_scope : CoreCreateScopeOptions T → io S Core.Error CreateScopeResponse;
  cma_delete_scope : CoreDeleteScopeOptions T → io S Core.Error DeleteScopeResponse;
  cma_create_collection : CoreCreateCollectionOptions T → io S Core.Error CreateCollectionResponse;
  cma_update_collection : CoreUpdateCollectionOptions T → io S Core.Error UpdateCollectionResponse;
  cma_delete_collection : CoreDeleteCollectionOptions T → io S Core.Error DeleteCollectionResponse;
  cma_get_collection_manifest : CoreGetCollectionManifestOptions T → io S Core.Error CollectionManifest;
  cma_bucket_features : io S Core.Error (list BucketFeature);
}.

Record CouchbaseCollectionsMgmtClient (T : Type) : Type := mkCouchbaseCollectionsMgmtClient {
  ccm_bucket_name : string;
  ccm_default_retry_strategy : T;
}.
#[global] Arguments mkCouchbaseCollectionsMgmtClient {T}.
#[global] Arguments ccm_bucket_name {T}.
#[global] Arguments ccm_default_retry_strategy {T}.

Section Client.
Context {S T : Type} `{CollectionsMgmtAgent S T}.
Context (get_agent : S → S * option bool) (from_slice_context : list Z → option ServerErrorContextJson).

Abbreviation Client := (CouchbaseCollectionsMgmtClient T).
Abbreviation on_agent := (on_agent get_agent from_slice_context).

Definition retry_of_collections_client (self : Client) (retry_strategy : option T) : T :=
  default (ccm_default_retry_strategy self) retry_strategy.

Definition client_create_scope (self : Client) (scope_name : string) (opts : SdkCreateScopeOptions T)
    : io S Sdk.Error unit :=
  _ ← on_agent (cma_create_scope (core_create_scope_options_retry_strategy (retry_of_collections_client self
      (SdkCreateScopeOptions.retry_strategy opts)) (core_create_scope_options_new (ccm_bucket_name self)
      scope_name)));
  mret tt.

Definition client_drop_scope (self : Client) (scope_name : string) (opts : SdkDropScopeOptions T)
    : io S Sdk.Error unit :=
  _ ← on_agent (cma_delete_scope (core_delete_scope_options_retry_strategy (retry_of_collections_client self
      (SdkDropScopeOptions.retry_strategy opts)) (core_delete_scope_options_new (ccm_bucket_name self)
      scope_name)));
  mret tt.

Definition client_drop_collection (self : Client) (scope_name : string) (collection_name : string) (opts :
    SdkDropCollectionOptions T)
    : io S Sdk.Error unit :=
  _ ← on_agent (cma_delete_collection (core_delete_collection_options_retry_strategy (retry_of_collections_client
      self (SdkDropCollectionOptions.retry_strategy opts)) (core_delete_collection_options_new (ccm_bucket_name
      self) scope_name collection_name)));
  mret tt.

Definition history_not_available : Sdk.Error :=
  Sdk.new (Sdk.FeatureNotAvailable "history retention"
    (Some "history retention is not supported - note that both server 7.2+ and Magma storage engine must be used"%string)).

(** Whether the bucket can keep a history. *)
Definition check_history : io S Sdk.Error unit :=
  features ← agent_call from_slice_context (cma_bucket_features (T:=T));
  if bool_decide (BucketFeature.NonDedupedHistory ∈ features) then mret tt else io_lift (Err history_not_available).

Definition client_create_collection (self : Client) (scope_name collection_name : string) (settings :
    CreateCollectionSettings)
    (opts : SdkCreateCollectionOptions T) : io S Sdk.Error unit :=
  upgraded get_agent (
    let core_opts :=
      core_create_collection_options_retry_strategy (retry_of_collections_client self
          (SdkCreateCollectionOptions.retry_strategy opts))
        (core_create_collection_options_new (ccm_bucket_name self) scope_name collection_name) in
    let core_opts :=
      set_some (λ max_ttl, core_create_collection_options_max_ttl (max_expiry_into max_ttl))
        (CreateCollectionSettings.max_expiry settings) core_opts in
    core_opts ←
      match CreateCollectionSettings.history settings with
      | Some history_enabled =>
          _ ← check_history;
          mret (core_create_collection_options_history_enabled history_enabled core_opts)
      | None => mret core_opts
      end;
    _ ← agent_call from_slice_context (cma_create_collection core_opts);
    mret tt).

Definition client_update_collection (self : Client) (scope_name collection_name : string) (settings :
    UpdateCollectionSettings)
    (opts : SdkUpdateCollectionOptions T) : io S Sdk.Error unit :=
  upgraded get_agent (
    let core_opts :=
      core_update_collection_options_retry_strategy (retry_of_collections_client self
          (SdkUpdateCollectionOptions.retry_strategy opts))
        (core_update_collection_options_new (ccm_bucket_name self) scope_name collection_name) in
    let core_opts :=
      set_some (λ max_ttl, core_update_collection_options_max_ttl (max_expiry_into max_ttl))
        (UpdateCollectionSettings.max_expiry settings) core_opts in
    core_opts ←
      match UpdateCollectionSettings.history settings with
      | Some history_enabled =>
          _ ← check_history;
          mret (core_update_collection_options_history_enabled history_enabled core_opts)
      | None => mret core_opts
      end;
    _ ← agent_call from_slice_context (cma_update_collection core_opts);
    mret tt).

Definition client_get_all_scopes (self : Client) (opts : SdkGetAllScopesOptions T)
    : io S Sdk.Error (list ScopeSpec) :=
  r ← on_agent (cma_get_collection_manifest (core_get_collection_manifest_options_retry_strategy
      (retry_of_collections_client self (SdkGetAllScopesOptions.retry_strategy opts))
      (core_get_collection_manifest_options_new (ccm_bucket_name self))));
  mret (scopes_of_manifest r).

(** [CollectionsMgmtClient]. *)
Definition collections_mgmt_create_scope (self : ClientBackend Client) (scope_name : string) (opts :
    SdkCreateScopeOptions T)
    : io S Sdk.Error unit :=
  on_backend self (λ client, client_create_scope client scope_name opts).
Definition collections_mgmt_drop_scope (self : ClientBackend Client) (scope_name : string) (opts :
    SdkDropScopeOptions T)
    : io S Sdk.Error unit :=
  on_backend self (λ client, client_drop_scope client scope_name opts).
Definition collections_mgmt_create_collection (self : ClientBackend Client) (scope_name : string) (collection_name
    : string) (settings : CreateCollectionSettings) (opts : SdkCreateCollectionOptions T)
    : io S Sdk.Error unit :=
  on_backend self (λ client, client_create_collection client scope_name collection_name settings opts).
Definition collections_mgmt_update_collection (self : ClientBackend Client) (scope_name : string) (collection_name
    : string) (settings : UpdateCollectionSettings) (opts : SdkUpdateCollectionOptions T)
    : io S Sdk.Error unit :=
  on_backend self (λ client, client_update_collection client scope_name collection_name settings opts).
Definition collections_mgmt_drop_collection (self : ClientBackend Client) (scope_name : string) (collection_name :
    string) (opts : SdkDropCollectionOptions T)
    : io S Sdk.Error unit :=
  on_backend self (λ client, client_drop_collection client scope_name collection_name opts).
Definition collections_mgmt_get_all_scopes (self : ClientBackend Client) (opts : SdkGetAllScopesOptions T)
    : io S Sdk.Error (list ScopeSpec) :=
  on_backend self (λ client, client_get_all_scopes client opts).

(** [CollectionManager]: without options or settings those that are new. *)
Definition collection_manager_create_scope (self : ClientBackend Client) (scope_name : string) (opts : option
    (SdkCreateScopeOptions T))
    : io S Sdk.Error unit :=
  collections_mgmt_create_scope self scope_name (default sdk_create_scope_options_new opts).
Definition collection_manager_drop_scope (self : ClientBackend Client) (scope_name : string) (opts : option
    (SdkDropScopeOptions T))
    : io S Sdk.Error unit :=
  collections_mgmt_drop_scope self scope_name (default sdk_drop_scope_options_new opts).
Definition collection_manager_create_collection (self : ClientBackend Client) (scope_name : string)
    (collection_name : string) (settings : option CreateCollectionSettings) (opts : option
    (SdkCreateCollectionOptions T))
    : io S Sdk.Error unit :=
  collections_mgmt_create_collection self scope_name collection_name (default create_collection_settings_new
      settings) (default sdk_create_collection_options_new opts).
Definition collection_manager_update_collection (self : ClientBackend Client) (scope_name : string)
    (collection_name : string) (settings : UpdateCollectionSettings) (opts : option (SdkUpdateCollectionOptions
    T))
    : io S Sdk.Error unit :=
  collections_mgmt_update_collection self scope_name collection_name settings (default
      sdk_update_collection_options_new opts).
Definition collection_manager_drop_collection (self : ClientBackend Client) (scope_name : string) (collection_name
    : string) (opts : option (SdkDropCollectionOptions T))
    : io S Sdk.Error unit :=
  collections_mgmt_drop_collection self scope_name collection_name (default sdk_drop_collection_options_new opts).
Definition collection_manager_get_all_scopes (self : ClientBackend Client) (opts : option (SdkGetAllScopesOptions T))
    : io S Sdk.Error (list ScopeSpec) :=
  collections_mgmt_get_all_scopes self (default sdk_get_all_scopes_options_new opts).
End Client.

(** ** Theorems *)

(** An expiry of whole seconds, at least one, that fits in 31 bits is read as it was written, and so are the
    other two values. *)
Lemma max_expiry_roundtrip value :
  match value with MaxExpiryValue.Seconds d => ∃ secs, d = from_secs secs ∧ 0 < secs < 2 ^ 31 | _ => True end →
  max_expiry_from (max_expiry_into value) = value.
Proof.
  destruct value as [| |d]; try done. intros (secs & -> & Hs). cbn [max_expiry_into].
  unfold as_secs, from_secs, cast_u, as_i32. rewrite Z.div_mul by done. rewrite Z.mod_small by lia.
  test_true (secs <? 2 ^ 31). unfold max_expiry_from. test_false (secs =? 0). test_false (secs =? -1).
  unfold from_secs, cast_u. by rewrite Z.mod_small by lia.
Qed.

(** Less than a second is sent as no expiry, and 2^32 - 1 seconds as that of the bucket. *)
Example short_expiry_is_never : max_expiry_into (MaxExpiryValue.Seconds (from_millis 999)) = max_expiry_into
    MaxExpiryValue.Never.
Proof. reflexivity. Qed.
Example long_expiry_is_inherited :
  max_expiry_into (MaxExpiryValue.Seconds (from_secs (2 ^ 32 - 1))) = max_expiry_into
      MaxExpiryValue.InheritFromBucket.
Proof. reflexivity. Qed.

(** The scopes and their collections are those of the manifest, in its order. *)
Lemma scopes_of_manifest_names manifest :
  ScopeSpec.name <$> scopes_of_manifest manifest = CollectionManifestScope.name <$> CollectionManifest.scopes
      manifest.
Proof. unfold scopes_of_manifest. rewrite <-list_fmap_compose. by apply list_fmap_ext. Qed.

Lemma collection_specs_of_manifest manifest spec collection :
  spec ∈ scopes_of_manifest manifest → collection ∈ ScopeSpec.collections spec →
  CollectionSpec.scope_name collection = ScopeSpec.name spec.
Proof.
  intros (scope & -> & _)%list_elem_of_fmap. cbn. intros (c & -> & _)%list_elem_of_fmap. done.
Qed.

(** Where the bucket cannot keep a history, a collection with one is neither created nor updated. *)
Lemma no_history_no_collection {S T} `{CollectionsMgmtAgent S T} get_agent ctx self scope_name collection_name
    (settings : CreateCollectionSettings) opts s s1 s2 features history :
  CreateCollectionSettings.history settings = Some history →
  get_agent s = (s1, Some true) → cma_bucket_features (T:=T) s1 = (s2, Some (Ok features)) →
  BucketFeature.NonDedupedHistory ∉ features →
  client_create_collection get_agent ctx self scope_name collection_name settings opts s
  = (s2, Some (Err history_not_available)).
Proof.
  intros Hh Hg Hf Hn. unfold client_create_collection, upgraded. rewrite Hg, Hh.
  unfold check_history, agent_call, io_map_err, mbind, io_bind. rewrite Hf. cbn. by rewrite bool_decide_false by done.
Qed.

Lemma no_history_no_update {S T} `{CollectionsMgmtAgent S T} get_agent ctx self scope_name collection_name
    (settings : UpdateCollectionSettings) opts s s1 s2 features history :
  UpdateCollectionSettings.history settings = Some history →
  get_agent s = (s1, Some true) → cma_bucket_features (T:=T) s1 = (s2, Some (Ok features)) →
  BucketFeature.NonDedupedHistory ∉ features →
  client_update_collection get_agent ctx self scope_name collection_name settings opts s
  = (s2, Some (Err history_not_available)).
Proof.
  intros Hh Hg Hf Hn. unfold client_update_collection, upgraded. rewrite Hg, Hh.
  unfold check_history, agent_call, io_map_err, mbind, io_bind. rewrite Hf. cbn. by rewrite bool_decide_false by done.
Qed.
