(* ===== verification/SdkIndexes.v ===== *)
(** * Managing indexes in the public crate ([couchbase/src/clients/query_index_mgmt_client.rs],
    [search_index_mgmt_client.rs], [management/query/], [management/search/] and their options and
    results)

    First the indexes of the query service, then those of the search service: the options, the
    index an application sees, the client of the agent, and the manager in front of it. *)

From S2P Require Import Prelude Wire CoreError Retry CrudOptions Http FacadeError QueryxOptions Query.
From S2P Require Import CoreQueryOptions Json SearchMgmtOptions SearchReader Search.

(** * Managing query indexes in the public crate ([couchbase/src/clients/query_index_mgmt_client.rs],
    [couchbase/src/management/query/], [couchbase/src/options/query_index_mgmt_options.rs],
    [couchbase/src/results/query_index_mgmt_results.rs])

    The indexes of a collection, the client and the manager.  [T] is a retry strategy.  The agent is the
    interface [QueryIndexMgmtAgent]. *)

(** ** Options *)

Module SdkGetAllQueryIndexesOptions.
Section Fields.
Context {T : Type}.
Record SdkGetAllQueryIndexesOptions : Type := mk {
  retry_strategy : option T;
}.
End Fields.
#[global] Arguments SdkGetAllQueryIndexesOptions : clear implicits.
End SdkGetAllQueryIndexesOptions.
Abbreviation SdkGetAllQueryIndexesOptions := SdkGetAllQueryIndexesOptions.SdkGetAllQueryIndexesOptions.
#[global] Instance sdk_get_all_query_indexes_options_settable T : Settable (SdkGetAllQueryIndexesOptions T) := λ r,
  SdkGetAllQueryIndexesOptions.mk (SdkGetAllQueryIndexesOptions.retry_strategy r).

Definition sdk_get_all_query_indexes_options_new {T : Type} : SdkGetAllQueryIndexesOptions T :=
  SdkGetAllQueryIndexesOptions.mk None.

Definition sdk_get_all_query_indexes_options_retry_strategy {T : Type} (retry_strategy : T)
    (self : SdkGetAllQueryIndexesOptions T) : SdkGetAllQueryIndexesOptions T :=
  self <| SdkGetAllQueryIndexesOptions.retry_strategy := Some retry_strategy |>.

Module SdkCreateQueryIndexOptions.
Section Fields.
Context {T : Type}.
Record SdkCreateQueryIndexOptions : Type := mk {
  ignore_if_exists : option bool;
  num_replicas : option Z;
  deferred : option bool;
  retry_strategy : option T;
}.
End Fields.
#[global] Arguments SdkCreateQueryIndexOptions : clear implicits.
End SdkCreateQueryIndexOptions.
Abbreviation SdkCreateQueryIndexOptions := SdkCreateQueryIndexOptions.SdkCreateQueryIndexOptions.
#[global] Instance sdk_create_query_index_options_settable T : Settable (SdkCreateQueryIndexOptions T) := λ r,
  SdkCreateQueryIndexOptions.mk (SdkCreateQueryIndexOptions.ignore_if_exists r)
    (SdkCreateQueryIndexOptions.num_replicas r) (SdkCreateQueryIndexOptions.deferred r)
    (SdkCreateQueryIndexOptions.retry_strategy r).

Definition sdk_create_query_index_options_new {T : Type} : SdkCreateQueryIndexOptions T :=
  SdkCreateQueryIndexOptions.mk None None None None.

Definition sdk_create_query_index_options_ignore_if_exists {T : Type} (ignore_if_exists : bool)
    (self : SdkCreateQueryIndexOptions T) : SdkCreateQueryIndexOptions T :=
  self <| SdkCreateQueryIndexOptions.ignore_if_exists := Some ignore_if_exists |>.

Definition sdk_create_query_index_options_num_replicas {T : Type} (num_replicas : Z)
    (self : SdkCreateQueryIndexOptions T) : SdkCreateQueryIndexOptions T :=
  self <| SdkCreateQueryIndexOptions.num_replicas := Some num_replicas |>.

Definition sdk_create_query_index_options_deferred {T : Type} (deferred : bool)
    (self : SdkCreateQueryIndexOptions T) : SdkCreateQueryIndexOptions T :=
  self <| SdkCreateQueryIndexOptions.deferred := Some deferred |>.

Definition sdk_create_query_index_options_retry_strategy {T : Type} (retry_strategy : T)
    (self : SdkCreateQueryIndexOptions T) : SdkCreateQueryIndexOptions T :=
  self <| SdkCreateQueryIndexOptions.retry_strategy := Some retry_strategy |>.

Module SdkCreatePrimaryQueryIndexOptions.
Section Fields.
Context {T : Type}.
Record SdkCreatePrimaryQueryIndexOptions : Type := mk {
  index_name : option string;
  ignore_if_exists : option bool;
  num_replicas : option Z;
  deferred : option bool;
  retry_strategy : option T;
}.
End Fields.
#[global] Arguments SdkCreatePrimaryQueryIndexOptions : clear implicits.
End SdkCreatePrimaryQueryIndexOptions.
Abbreviation SdkCreatePrimaryQueryIndexOptions :=
    SdkCreatePrimaryQueryIndexOptions.SdkCreatePrimaryQueryIndexOptions.
#[global] Instance sdk_create_primary_query_index_options_settable T : Settable
    (SdkCreatePrimaryQueryIndexOptions T) := λ r,
  SdkCreatePrimaryQueryIndexOptions.mk (SdkCreatePrimaryQueryIndexOptions.index_name r)
    (SdkCreatePrimaryQueryIndexOptions.ignore_if_exists r) (SdkCreatePrimaryQueryIndexOptions.num_replicas r)
    (SdkCreatePrimaryQueryIndexOptions.deferred r) (SdkCreatePrimaryQueryIndexOptions.retry_strategy r).

Definition sdk_create_primary_query_index_options_new {T : Type} : SdkCreatePrimaryQueryIndexOptions T :=
  SdkCreatePrimaryQueryIndexOptions.mk None None None None None.

Definition sdk_create_primary_query_index_options_index_name {T : Type} (index_name : string)
    (self : SdkCreatePrimaryQueryIndexOptions T) : SdkCreatePrimaryQueryIndexOptions T :=
  self <| SdkCreatePrimaryQueryIndexOptions.index_name := Some index_name |>.

Definition sdk_create_primary_query_index_options_ignore_if_exists {T : Type} (ignore_if_exists : bool)
    (self : SdkCreatePrimaryQueryIndexOptions T) : SdkCreatePrimaryQueryIndexOptions T :=
  self <| SdkCreatePrimaryQueryIndexOptions.ignore_if_exists := Some ignore_if_exists |>.

Definition sdk_create_primary_query_index_options_num_replicas {T : Type} (num_replicas : Z)
    (self : SdkCreatePrimaryQueryIndexOptions T) : SdkCreatePrimaryQueryIndexOptions T :=
  self <| SdkCreatePrimaryQueryIndexOptions.num_replicas := Some num_replicas |>.

Definition sdk_create_primary_query_index_options_deferred {T : Type} (deferred : bool)
    (self : SdkCreatePrimaryQueryIndexOptions T) : SdkCreatePrimaryQueryIndexOptions T :=
  self <| SdkCreatePrimaryQueryIndexOptions.deferred := Some deferred |>.

Definition sdk_create_primary_query_index_options_retry_strategy {T : Type} (retry_strategy : T)
    (self : SdkCreatePrimaryQueryIndexOptions T) : SdkCreatePrimaryQueryIndexOptions T :=
  self <| SdkCreatePrimaryQueryIndexOptions.retry_strategy := Some retry_strategy |>.

Module SdkDropQueryIndexOptions.
Section Fields.
Context {T : Type}.
Record SdkDropQueryIndexOptions : Type := mk {
  ignore_if_not_exists : option bool;
  retry_strategy : option T;
}.
End Fields.
#[global] Arguments SdkDropQueryIndexOptions : clear implicits.
End SdkDropQueryIndexOptions.
Abbreviation SdkDropQueryIndexOptions := SdkDropQueryIndexOptions.SdkDropQueryIndexOptions.
#[global] Instance sdk_drop_query_index_options_settable T : Settable (SdkDropQueryIndexOptions T) := λ r,
  SdkDropQueryIndexOptions.mk (SdkDropQueryIndexOptions.ignore_if_not_exists r)
    (SdkDropQueryIndexOptions.retry_strategy r).

Definition sdk_drop_query_index_options_new {T : Type} : SdkDropQueryIndexOptions T :=
  SdkDropQueryIndexOptions.mk None None.

Definition sdk_drop_query_index_options_ignore_if_not_exists {T : Type} (ignore_if_not_exists : bool)
    (self : SdkDropQueryIndexOptions T) : SdkDropQueryIndexOptions T :=
  self <| SdkDropQueryIndexOptions.ignore_if_not_exists := Some ignore_if_not_exists |>.

Definition sdk_drop_query_index_options_retry_strategy {T : Type} (retry_strategy : T)
    (self : SdkDropQueryIndexOptions T) : SdkDropQueryIndexOptions T :=
  self <| SdkDropQueryIndexOptions.retry_strategy := Some retry_strategy |>.

Module SdkDropPrimaryQueryIndexOptions.
Section Fields.
Context {T : Type}.
Record SdkDropPrimaryQueryIndexOptions : Type := mk {
  index_name : option string;
  ignore_if_not_exists : option bool;
  retry_strategy : option T;
}.
End Fields.
#[global] Arguments SdkDropPrimaryQueryIndexOptions : clear implicits.
End SdkDropPrimaryQueryIndexOptions.
Abbreviation SdkDropPrimaryQueryIndexOptions := SdkDropPrimaryQueryIndexOptions.SdkDropPrimaryQueryIndexOptions.
#[global] Instance sdk_drop_primary_query_index_options_settable T : Settable (SdkDropPrimaryQueryIndexOptions
    T) := λ r,
  SdkDropPrimaryQueryIndexOptions.mk (SdkDropPrimaryQueryIndexOptions.index_name r)
    (SdkDropPrimaryQueryIndexOptions.ignore_if_not_exists r) (SdkDropPrimaryQueryIndexOptions.retry_strategy r).

Definition sdk_drop_primary_query_index_options_new {T : Type} : SdkDropPrimaryQueryIndexOptions T :=
  SdkDropPrimaryQueryIndexOptions.mk None None None.

Definition sdk_drop_primary_query_index_options_index_name {T : Type} (index_name : string)
    (self : SdkDropPrimaryQueryIndexOptions T) : SdkDropPrimaryQueryIndexOptions T :=
  self <| SdkDropPrimaryQueryIndexOptions.index_name := Some index_name |>.

Definition sdk_drop_primary_query_index_options_ignore_if_not_exists {T : Type} (ignore_if_not_exists : bool)
    (self : SdkDropPrimaryQueryIndexOptions T) : SdkDropPrimaryQueryIndexOptions T :=
  self <| SdkDropPrimaryQueryIndexOptions.ignore_if_not_exists := Some ignore_if_not_exists |>.

Definition sdk_drop_primary_query_index_options_retry_strategy {T : Type} (retry_strategy : T)
    (self : SdkDropPrimaryQueryIndexOptions T) : SdkDropPrimaryQueryIndexOptions T :=
  self <| SdkDropPrimaryQueryIndexOptions.retry_strategy := Some retry_strategy |>.

Module SdkWatchQueryIndexOptions.
Section Fields.
Context {T : Type}.
Record SdkWatchQueryIndexOptions : Type := mk {
  watch_primary : option bool;
  retry_strategy : option T;
}.
End Fields.
#[global] Arguments SdkWatchQueryIndexOptions : clear implicits.
End SdkWatchQueryIndexOptions.
Abbreviation SdkWatchQueryIndexOptions := SdkWatchQueryIndexOptions.SdkWatchQueryIndexOptions.
#[global] Instance sdk_watch_query_index_options_settable T : Settable (SdkWatchQueryIndexOptions T) := λ r,
  SdkWatchQueryIndexOptions.mk (SdkWatchQueryIndexOptions.watch_primary r)
    (SdkWatchQueryIndexOptions.retry_strategy r).

Definition sdk_watch_query_index_options_new {T : Type} : SdkWatchQueryIndexOptions T :=
  SdkWatchQueryIndexOptions.mk None None.

Definition sdk_watch_query_index_options_watch_primary {T : Type} (watch_primary : bool)
    (self : SdkWatchQueryIndexOptions T) : SdkWatchQueryIndexOptions T :=
  self <| SdkWatchQueryIndexOptions.watch_primary := Some watch_primary |>.

Definition sdk_watch_query_index_options_retry_strategy {T : Type} (retry_strategy : T)
    (self : SdkWatchQueryIndexOptions T) : SdkWatchQueryIndexOptions T :=
  self <| SdkWatchQueryIndexOptions.retry_strategy := Some retry_strategy |>.

Module SdkBuildQueryIndexOptions.
Section Fields.
Context {T : Type}.
Record SdkBuildQueryIndexOptions : Type := mk {
  retry_strategy : option T;
}.
End Fields.
#[global] Arguments SdkBuildQueryIndexOptions : clear implicits.
End SdkBuildQueryIndexOptions.
Abbreviation SdkBuildQueryIndexOptions := SdkBuildQueryIndexOptions.SdkBuildQueryIndexOptions.
#[global] Instance sdk_build_query_index_options_settable T : Settable (SdkBuildQueryIndexOptions T) := λ r,
  SdkBuildQueryIndexOptions.mk (SdkBuildQueryIndexOptions.retry_strategy r).

Definition sdk_build_query_index_options_new {T : Type} : SdkBuildQueryIndexOptions T :=
  SdkBuildQueryIndexOptions.mk None.

Definition sdk_build_query_index_options_retry_strategy {T : Type} (retry_strategy : T)
    (self : SdkBuildQueryIndexOptions T) : SdkBuildQueryIndexOptions T :=
  self <| SdkBuildQueryIndexOptions.retry_strategy := Some retry_strategy |>.

(** ** Indexes *)

Inductive QueryIndexType : Type := UnknownIndex | View | Gsi.

Definition query_index_type_from (s : string) : QueryIndexType :=
  if String.eqb s "view" then View else if String.eqb s "gsi" then Gsi else UnknownIndex.

Module QueryIndex.
Record QueryIndex : Type := mk {
  name : string;
  is_primary : bool;
  index_type : QueryIndexType;
  state : string;
  keyspace : string;
  index_key : list string;
  condition : option string;
  partition : option string;
  bucket_name : string;
  scope_name : option string;
  collection_name : option string;
}.
End QueryIndex.
Abbreviation QueryIndex := QueryIndex.QueryIndex.

(** Bucket, scope, collection and keyspace of an index: without collections the keyspace is the bucket. *)
Definition index_keyspace (index : Index) : string * option string * option string * string :=
  match ix_bucket_id index with
  | Some bucket_id => (bucket_id, ix_scope_id index, ix_keyspace_id index, default ""%string (ix_keyspace_id index))
  | None => let keyspace := default ""%string (ix_keyspace_id index) in (keyspace, None, None, keyspace)
  end.

Definition query_index_from (index : Index) : QueryIndex :=
  let '(bucket_name, scope_name, collection_name, keyspace) := index_keyspace index in
  QueryIndex.mk (ix_name index) (default false (ix_is_primary index)) (query_index_type_from (ix_using index))
    (ix_state index) keyspace (default [] (ix_index_key index)) (ix_condition index) (ix_partition index)
    bucket_name scope_name collection_name.

(** ** The client *)

Class QueryIndexMgmtAgent (S T : Type) := {
  qia_get_all_indexes : CoreGetAllIndexesOptions T → io S Core.Error (list Index);
  qia_create_index : CoreCreateIndexOptions T → io S Core.Error unit;
  qia_create_primary_index : CoreCreatePrimaryIndexOptions T → io S Core.Error unit;
  qia_drop_index : CoreDropIndexOptions T → io S Core.Error unit;
  qia_drop_primary_index : CoreDropPrimaryIndexOptions T → io S Core.Error unit;
  qia_watch_indexes : CoreWatchIndexesOptions T → io S Core.Error unit;
  qia_build_deferred_indexes : CoreBuildDeferredIndexesOptions T → io S Core.Error unit;
}.

Record QueryIndexKeyspace : Type := mkQueryIndexKeyspace {
  qik_bucket_name : string;
  qik_scope_name : string;
  qik_collection_name : string;
}.

Record CouchbaseQueryIndexMgmtClient (T : Type) : Type := mkCouchbaseQueryIndexMgmtClient {
  cqi_keyspace : QueryIndexKeyspace;
  cqi_default_retry_strategy : T;
}.
#[global] Arguments mkCouchbaseQueryIndexMgmtClient {T}.
#[global] Arguments cqi_keyspace {T}.
#[global] Arguments cqi_default_retry_strategy {T}.

Section Client.
Context {S T : Type} `{QueryIndexMgmtAgent S T}.
Context (get_agent : S → S * option bool) (from_slice_context : list Z → option ServerErrorContextJson).

Abbreviation Client := (CouchbaseQueryIndexMgmtClient T).
Abbreviation on_agent := (on_agent get_agent from_slice_context).

Definition retry_of_query_index_client (self : Client) (retry_strategy : option T) : T :=
  default (cqi_default_retry_strategy self) retry_strategy.

Definition query_index_client_get_all_indexes (self : Client) (opts : option (SdkGetAllQueryIndexesOptions T))
    : io S Sdk.Error (list QueryIndex) :=
  let opts := default sdk_get_all_query_indexes_options_new opts in
  r ← on_agent (qia_get_all_indexes (core_get_all_indexes_options_retry_strategy (retry_of_query_index_client self
      (SdkGetAllQueryIndexesOptions.retry_strategy opts))
      (core_get_all_indexes_options_collection_name (qik_collection_name (cqi_keyspace self))
      (core_get_all_indexes_options_scope_name (qik_scope_name (cqi_keyspace self))
      (core_get_all_indexes_options_new (qik_bucket_name (cqi_keyspace self)))))));
  mret (fmap query_index_from r).

Definition query_index_client_create_index (self : Client) (index_name : string) (fields : list string) (opts :
    option (SdkCreateQueryIndexOptions T))
    : io S Sdk.Error unit :=
  let opts := default sdk_create_query_index_options_new opts in
  on_agent (qia_create_index (core_create_index_options_retry_strategy (retry_of_query_index_client self
      (SdkCreateQueryIndexOptions.retry_strategy opts))
      (set_some core_create_index_options_num_replicas (SdkCreateQueryIndexOptions.num_replicas opts)
      (set_some core_create_index_options_ignore_if_exists (SdkCreateQueryIndexOptions.ignore_if_exists opts)
      (set_some core_create_index_options_deferred (SdkCreateQueryIndexOptions.deferred opts)
      (core_create_index_options_collection_name (qik_collection_name (cqi_keyspace self))
      (core_create_index_options_scope_name (qik_scope_name (cqi_keyspace self))
      (core_create_index_options_new (qik_bucket_name (cqi_keyspace self)) index_name fields)))))))).

Definition query_index_client_create_primary_index (self : Client) (opts : option
    (SdkCreatePrimaryQueryIndexOptions T))
    : io S Sdk.Error unit :=
  let opts := default sdk_create_primary_query_index_options_new opts in
  on_agent (qia_create_primary_index (core_create_primary_index_options_retry_strategy
      (retry_of_query_index_client self (SdkCreatePrimaryQueryIndexOptions.retry_strategy opts))
      (set_some core_create_primary_index_options_index_name (SdkCreatePrimaryQueryIndexOptions.index_name opts)
      (set_some core_create_primary_index_options_num_replicas (SdkCreatePrimaryQueryIndexOptions.num_replicas opts)
      (set_some core_create_primary_index_options_ignore_if_exists
          (SdkCreatePrimaryQueryIndexOptions.ignore_if_exists opts)
      (set_some core_create_primary_index_options_deferred (SdkCreatePrimaryQueryIndexOptions.deferred opts)
      (core_create_primary_index_options_collection_name (qik_collection_name (cqi_keyspace self))
      (core_create_primary_index_options_scope_name (qik_scope_name (cqi_keyspace self))
      (core_create_primary_index_options_new (qik_bucket_name (cqi_keyspace self))))))))))).

Definition query_index_client_drop_index (self : Client) (index_name : string) (opts : option
    (SdkDropQueryIndexOptions T))
    : io S Sdk.Error unit :=
  let opts := default sdk_drop_query_index_options_new opts in
  on_agent (qia_drop_index (core_drop_index_options_retry_strategy (retry_of_query_index_client self
      (SdkDropQueryIndexOptions.retry_strategy opts))
      (set_some core_drop_index_options_ignore_if_not_exists (SdkDropQueryIndexOptions.ignore_if_not_exists opts)
      (core_drop_index_options_collection_name (qik_collection_name (cqi_keyspace self))
      (core_drop_index_options_scope_name (qik_scope_name (cqi_keyspace self))
      (core_drop_index_options_new (qik_bucket_name (cqi_keyspace self)) index_name)))))).

Definition query_index_client_drop_primary_index (self : Client) (opts : option (SdkDropPrimaryQueryIndexOptions T))
    : io S Sdk.Error unit :=
  let opts := default sdk_drop_primary_query_index_options_new opts in
  on_agent (qia_drop_primary_index (core_drop_primary_index_options_retry_strategy (retry_of_query_index_client
      self (SdkDropPrimaryQueryIndexOptions.retry_strategy opts))
      (set_some core_drop_primary_index_options_index_name (SdkDropPrimaryQueryIndexOptions.index_name opts)
      (set_some core_drop_primary_index_options_ignore_if_not_exists
          (SdkDropPrimaryQueryIndexOptions.ignore_if_not_exists opts)
      (core_drop_primary_index_options_collection_name (qik_collection_name (cqi_keyspace self))
      (core_drop_primary_index_options_scope_name (qik_scope_name (cqi_keyspace self))
      (core_drop_primary_index_options_new (qik_bucket_name (cqi_keyspace self))))))))).

Definition query_index_client_watch_indexes (self : Client) (index_names : list string) (opts : option
    (SdkWatchQueryIndexOptions T))
    : io S Sdk.Error unit :=
  let opts := default sdk_watch_query_index_options_new opts in
  on_agent (qia_watch_indexes (core_watch_indexes_options_retry_strategy (retry_of_query_index_client self
      (SdkWatchQueryIndexOptions.retry_strategy opts))
      (set_some core_watch_indexes_options_watch_primary (SdkWatchQueryIndexOptions.watch_primary opts)
      (core_watch_indexes_options_collection_name (qik_collection_name (cqi_keyspace self))
      (core_watch_indexes_options_scope_name (qik_scope_name (cqi_keyspace self))
      (core_watch_indexes_options_new (qik_bucket_name (cqi_keyspace self)) index_names)))))).

Definition query_index_client_build_deferred_indexes (self : Client) (opts : option (SdkBuildQueryIndexOptions T))
    : io S Sdk.Error unit :=
  let opts := default sdk_build_query_index_options_new opts in
  on_agent (qia_build_deferred_indexes (core_build_deferred_indexes_options_retry_strategy
      (retry_of_query_index_client self (SdkBuildQueryIndexOptions.retry_strategy opts))
      (core_build_deferred_indexes_options_collection_name (qik_collection_name (cqi_keyspace self))
      (core_build_deferred_indexes_options_scope_name (qik_scope_name (cqi_keyspace self))
      (core_build_deferred_indexes_options_new (qik_bucket_name (cqi_keyspace self))))))).

(** [QueryIndexMgmtClient]. *)
Definition query_index_mgmt_get_all_indexes (self : ClientBackend Client) (opts : option
    (SdkGetAllQueryIndexesOptions T))
    : io S Sdk.Error (list QueryIndex) :=
  on_backend self (λ client, query_index_client_get_all_indexes client opts).
Definition query_index_mgmt_create_index (self : ClientBackend Client) (index_name : string) (fields : list
    string) (opts : option (SdkCreateQueryIndexOptions T))
    : io S Sdk.Error unit :=
  on_backend self (λ client, query_index_client_create_index client index_name fields opts).
Definition query_index_mgmt_create_primary_index (self : ClientBackend Client) (opts : option
    (SdkCreatePrimaryQueryIndexOptions T))
    : io S Sdk.Error unit :=
  on_backend self (λ client, query_index_client_create_primary_index client opts).
Definition query_index_mgmt_drop_index (self : ClientBackend Client) (index_name : string) (opts : option
    (SdkDropQueryIndexOptions T))
    : io S Sdk.Error unit :=
  on_backend self (λ client, query_index_client_drop_index client index_name opts).
Definition query_index_mgmt_drop_primary_index (self : ClientBackend Client) (opts : option
    (SdkDropPrimaryQueryIndexOptions T))
    : io S Sdk.Error unit :=
  on_backend self (λ client, query_index_client_drop_primary_index client opts).
Definition query_index_mgmt_watch_indexes (self : ClientBackend Client) (index_names : list string) (opts : option
    (SdkWatchQueryIndexOptions T))
    : io S Sdk.Error unit :=
  on_backend self (λ client, query_index_client_watch_indexes client index_names opts).
Definition query_index_mgmt_build_deferred_indexes (self : ClientBackend Client) (opts : option
    (SdkBuildQueryIndexOptions T))
    : io S Sdk.Error unit :=
  on_backend self (λ client, query_index_client_build_deferred_indexes client opts).

(** [QueryIndexManager]. *)
Definition query_index_manager_get_all_indexes (self : ClientBackend Client) (opts : option
    (SdkGetAllQueryIndexesOptions T))
    : io S Sdk.Error (list QueryIndex) :=
  query_index_mgmt_get_all_indexes self opts.
Definition query_index_manager_create_index (self : ClientBackend Client) (index_name : string) (fields : list
    string) (opts : option (SdkCreateQueryIndexOptions T))
    : io S Sdk.Error unit :=
  query_index_mgmt_create_index self index_name fields opts.
Definition query_index_manager_create_primary_index (self : ClientBackend Client) (opts : option
    (SdkCreatePrimaryQueryIndexOptions T))
    : io S Sdk.Error unit :=
  query_index_mgmt_create_primary_index self opts.
Definition query_index_manager_drop_index (self : ClientBackend Client) (index_name : string) (opts : option
    (SdkDropQueryIndexOptions T))
    : io S Sdk.Error unit :=
  query_index_mgmt_drop_index self index_name opts.
Definition query_index_manager_drop_primary_index (self : ClientBackend Client) (opts : option
    (SdkDropPrimaryQueryIndexOptions T))
    : io S Sdk.Error unit :=
  query_index_mgmt_drop_primary_index self opts.
Definition query_index_manager_watch_indexes (self : ClientBackend Client) (index_names : list string) (opts :
    option (SdkWatchQueryIndexOptions T))
    : io S Sdk.Error unit :=
  query_index_mgmt_watch_indexes self index_names opts.
Definition query_index_manager_build_deferred_indexes (self : ClientBackend Client) (opts : option
    (SdkBuildQueryIndexOptions T))
    : io S Sdk.Error unit :=
  query_index_mgmt_build_deferred_indexes self opts.
End Client.

(** ** Theorems *)

(** The names of an index are those by which the agent looks for it, where the server says that collections
    are in use. *)
Lemma query_index_names index bucket_id scope_id keyspace_id :
  ix_bucket_id index = Some bucket_id → ix_scope_id index = Some scope_id → ix_keyspace_id index = Some keyspace_id →
  index_to_namespace_parts index = (bucket_id, scope_id, keyspace_id)
  ∧ QueryIndex.bucket_name (query_index_from index) = bucket_id
  ∧ QueryIndex.scope_name (query_index_from index) = Some scope_id
  ∧ QueryIndex.collection_name (query_index_from index) = Some keyspace_id
  ∧ QueryIndex.keyspace (query_index_from index) = keyspace_id.
Proof. intros Hb Hs Hk. unfold index_to_namespace_parts, query_index_from, index_keyspace. by rewrite Hb, Hs, Hk. Qed.

(** Where it does not, the index is that of a bucket, which the agent takes to be of its default collection. *)
Lemma query_index_of_bucket index keyspace_id :
  ix_bucket_id index = None → ix_keyspace_id index = Some keyspace_id →
  index_to_namespace_parts index = (keyspace_id, "_default", "_default")%string
  ∧ QueryIndex.bucket_name (query_index_from index) = keyspace_id
  ∧ QueryIndex.scope_name (query_index_from index) = None
  ∧ QueryIndex.collection_name (query_index_from index) = None.
Proof. intros Hb Hk. unfold index_to_namespace_parts, query_index_from, index_keyspace. by rewrite Hb, Hk. Qed.

(** * Managing search indexes in the public crate ([couchbase/src/clients/search_index_mgmt_client.rs],
    [couchbase/src/management/search/], [couchbase/src/options/search_index_mgmt_options.rs])

    The indexes of a scope, the client and the manager.  [V] is a JSON value, [T] a retry strategy.  The
    agent is the interface [SearchIndexMgmtAgent]; [serde_json], which writes the document that is analysed
    and reads the analysis, is a parameter. *)

(** ** Options *)

Module SdkGetSearchIndexOptions.
Section Fields.
Context {T : Type}.
Record SdkGetSearchIndexOptions : Type := mk {
  retry_strategy : option T;
}.
End Fields.
#[global] Arguments SdkGetSearchIndexOptions : clear implicits.
End SdkGetSearchIndexOptions.
Abbreviation SdkGetSearchIndexOptions := SdkGetSearchIndexOptions.SdkGetSearchIndexOptions.
#[global] Instance sdk_get_search_index_options_settable T : Settable (SdkGetSearchIndexOptions T) := λ r,
  SdkGetSearchIndexOptions.mk (SdkGetSearchIndexOptions.retry_strategy r).

Definition sdk_get_search_index_options_new {T : Type} : SdkGetSearchIndexOptions T :=
  SdkGetSearchIndexOptions.mk None.

Definition sdk_get_search_index_options_retry_strategy {T : Type} (retry_strategy : T)
    (self : SdkGetSearchIndexOptions T) : SdkGetSearchIndexOptions T :=
  self <| SdkGetSearchIndexOptions.retry_strategy := Some retry_strategy |>.

Module SdkGetAllSearchIndexesOptions.
Section Fields.
Context {T : Type}.
Record SdkGetAllSearchIndexesOptions : Type := mk {
  retry_strategy : option T;
}.
End Fields.
#[global] Arguments SdkGetAllSearchIndexesOptions : clear implicits.
End SdkGetAllSearchIndexesOptions.
Abbreviation SdkGetAllSearchIndexesOptions := SdkGetAllSearchIndexesOptions.SdkGetAllSearchIndexesOptions.
#[global] Instance sdk_get_all_search_indexes_options_settable T : Settable (SdkGetAllSearchIndexesOptions T) :=
    λ r,
  SdkGetAllSearchIndexesOptions.mk (SdkGetAllSearchIndexesOptions.retry_strategy r).

Definition sdk_get_all_search_indexes_options_new {T : Type} : SdkGetAllSearchIndexesOptions T :=
  SdkGetAllSearchIndexesOptions.mk None.

Definition sdk_get_all_search_indexes_options_retry_strategy {T : Type} (retry_strategy : T)
    (self : SdkGetAllSearchIndexesOptions T) : SdkGetAllSearchIndexesOptions T :=
  self <| SdkGetAllSearchIndexesOptions.retry_strategy := Some retry_strategy |>.

Module SdkUpsertSearchIndexOptions.
Section Fields.
Context {T : Type}.
Record SdkUpsertSearchIndexOptions : Type := mk {
  retry_strategy : option T;
}.
End Fields.
#[global] Arguments SdkUpsertSearchIndexOptions : clear implicits.
End SdkUpsertSearchIndexOptions.
Abbreviation SdkUpsertSearchIndexOptions := SdkUpsertSearchIndexOptions.SdkUpsertSearchIndexOptions.
#[global] Instance sdk_upsert_search_index_options_settable T : Settable (SdkUpsertSearchIndexOptions T) := λ r,
  SdkUpsertSearchIndexOptions.mk (SdkUpsertSearchIndexOptions.retry_strategy r).

Definition sdk_upsert_search_index_options_new {T : Type} : SdkUpsertSearchIndexOptions T :=
  SdkUpsertSearchIndexOptions.mk None.

Definition sdk_upsert_search_index_options_retry_strategy {T : Type} (retry_strategy : T)
    (self : SdkUpsertSearchIndexOptions T) : SdkUpsertSearchIndexOptions T :=
  self <| SdkUpsertSearchIndexOptions.retry_strategy := Some retry_strategy |>.

Module SdkDropSearchIndexOptions.
Section Fields.
Context {T : Type}.
Record SdkDropSearchIndexOptions : Type := mk {
  retry_strategy : option T;
}.
End Fields.
#[global] Arguments SdkDropSearchIndexOptions : clear implicits.
End SdkDropSearchIndexOptions.
Abbreviation SdkDropSearchIndexOptions := SdkDropSearchIndexOptions.SdkDropSearchIndexOptions.
#[global] Instance sdk_drop_search_index_options_settable T : Settable (SdkDropSearchIndexOptions T) := λ r,
  SdkDropSearchIndexOptions.mk (SdkDropSearchIndexOptions.retry_strategy r).

Definition sdk_drop_search_index_options_new {T : Type} : SdkDropSearchIndexOptions T :=
  SdkDropSearchIndexOptions.mk None.

Definition sdk_drop_search_index_options_retry_strategy {T : Type} (retry_strategy : T)
    (self : SdkDropSearchIndexOptions T) : SdkDropSearchIndexOptions T :=
  self <| SdkDropSearchIndexOptions.retry_strategy := Some retry_strategy |>.

Module SdkAnalyzeDocumentOptions.
Section Fields.
Context {T : Type}.
Record SdkAnalyzeDocumentOptions : Type := mk {
  retry_strategy : option T;
}.
End Fields.
#[global] Arguments SdkAnalyzeDocumentOptions : clear implicits.
End SdkAnalyzeDocumentOptions.
Abbreviation SdkAnalyzeDocumentOptions := SdkAnalyzeDocumentOptions.SdkAnalyzeDocumentOptions.
#[global] Instance sdk_analyze_document_options_settable T : Settable (SdkAnalyzeDocumentOptions T) := λ r,
  SdkAnalyzeDocumentOptions.mk (SdkAnalyzeDocumentOptions.retry_strategy r).

Definition sdk_analyze_document_options_new {T : Type} : SdkAnalyzeDocumentOptions T :=
  SdkAnalyzeDocumentOptions.mk None.

Definition sdk_analyze_document_options_retry_strategy {T : Type} (retry_strategy : T)
    (self : SdkAnalyzeDocumentOptions T) : SdkAnalyzeDocumentOptions T :=
  self <| SdkAnalyzeDocumentOptions.retry_strategy := Some retry_strategy |>.

Module SdkGetIndexedDocumentsCountOptions.
Section Fields.
Context {T : Type}.
Record SdkGetIndexedDocumentsCountOptions : Type := mk {
  retry_strategy : option T;
}.
End Fields.
#[global] Arguments SdkGetIndexedDocumentsCountOptions : clear implicits.
End SdkGetIndexedDocumentsCountOptions.
Abbreviation SdkGetIndexedDocumentsCountOptions :=
    SdkGetIndexedDocumentsCountOptions.SdkGetIndexedDocumentsCountOptions.
#[global] Instance sdk_get_indexed_documents_count_options_settable T : Settable
    (SdkGetIndexedDocumentsCountOptions T) := λ r,
  SdkGetIndexedDocumentsCountOptions.mk (SdkGetIndexedDocumentsCountOptions.retry_strategy r).

Definition sdk_get_indexed_documents_count_options_new {T : Type} : SdkGetIndexedDocumentsCountOptions T :=
  SdkGetIndexedDocumentsCountOptions.mk None.

Definition sdk_get_indexed_documents_count_options_retry_strategy {T : Type} (retry_strategy : T)
    (self : SdkGetIndexedDocumentsCountOptions T) : SdkGetIndexedDocumentsCountOptions T :=
  self <| SdkGetIndexedDocumentsCountOptions.retry_strategy := Some retry_strategy |>.

Module SdkPauseIngestSearchIndexOptions.
Section Fields.
Context {T : Type}.
Record SdkPauseIngestSearchIndexOptions : Type := mk {
  retry_strategy : option T;
}.
End Fields.
#[global] Arguments SdkPauseIngestSearchIndexOptions : clear implicits.
End SdkPauseIngestSearchIndexOptions.
Abbreviation SdkPauseIngestSearchIndexOptions := SdkPauseIngestSearchIndexOptions.SdkPauseIngestSearchIndexOptions.
#[global] Instance sdk_pause_ingest_search_index_options_settable T : Settable (SdkPauseIngestSearchIndexOptions
    T) := λ r,
  SdkPauseIngestSearchIndexOptions.mk (SdkPauseIngestSearchIndexOptions.retry_strategy r).

Definition sdk_pause_ingest_search_index_options_new {T : Type} : SdkPauseIngestSearchIndexOptions T :=
  SdkPauseIngestSearchIndexOptions.mk None.

Definition sdk_pause_ingest_search_index_options_retry_strategy {T : Type} (retry_strategy : T)
    (self : SdkPauseIngestSearchIndexOptions T) : SdkPauseIngestSearchIndexOptions T :=
  self <| SdkPauseIngestSearchIndexOptions.retry_strategy := Some retry_strategy |>.

Module SdkResumeIngestSearchIndexOptions.
Section Fields.
Context {T : Type}.
Record SdkResumeIngestSearchIndexOptions : Type := mk {
  retry_strategy : option T;
}.
End Fields.
#[global] Arguments SdkResumeIngestSearchIndexOptions : clear implicits.
End SdkResumeIngestSearchIndexOptions.
Abbreviation SdkResumeIngestSearchIndexOptions :=
    SdkResumeIngestSearchIndexOptions.SdkResumeIngestSearchIndexOptions.
#[global] Instance sdk_resume_ingest_search_index_options_settable T : Settable
    (SdkResumeIngestSearchIndexOptions T) := λ r,
  SdkResumeIngestSearchIndexOptions.mk (SdkResumeIngestSearchIndexOptions.retry_strategy r).

Definition sdk_resume_ingest_search_index_options_new {T : Type} : SdkResumeIngestSearchIndexOptions T :=
  SdkResumeIngestSearchIndexOptions.mk None.

Definition sdk_resume_ingest_search_index_options_retry_strategy {T : Type} (retry_strategy : T)
    (self : SdkResumeIngestSearchIndexOptions T) : SdkResumeIngestSearchIndexOptions T :=
  self <| SdkResumeIngestSearchIndexOptions.retry_strategy := Some retry_strategy |>.

Module SdkAllowQueryingSearchIndexOptions.
Section Fields.
Context {T : Type}.
Record SdkAllowQueryingSearchIndexOptions : Type := mk {
  retry_strategy : option T;
}.
End Fields.
#[global] Arguments SdkAllowQueryingSearchIndexOptions : clear implicits.
End SdkAllowQueryingSearchIndexOptions.
Abbreviation SdkAllowQueryingSearchIndexOptions :=
    SdkAllowQueryingSearchIndexOptions.SdkAllowQueryingSearchIndexOptions.
#[global] Instance sdk_allow_querying_search_index_options_settable T : Settable
    (SdkAllowQueryingSearchIndexOptions T) := λ r,
  SdkAllowQueryingSearchIndexOptions.mk (SdkAllowQueryingSearchIndexOptions.retry_strategy r).

Definition sdk_allow_querying_search_index_options_new {T : Type} : SdkAllowQueryingSearchIndexOptions T :=
  SdkAllowQueryingSearchIndexOptions.mk None.

Definition sdk_allow_querying_search_index_options_retry_strategy {T : Type} (retry_strategy : T)
    (self : SdkAllowQueryingSearchIndexOptions T) : SdkAllowQueryingSearchIndexOptions T :=
  self <| SdkAllowQueryingSearchIndexOptions.retry_strategy := Some retry_strategy |>.

Module SdkDisallowQueryingSearchIndexOptions.
Section Fields.
Context {T : Type}.
Record SdkDisallowQueryingSearchIndexOptions : Type := mk {
  retry_strategy : option T;
}.
End Fields.
#[global] Arguments SdkDisallowQueryingSearchIndexOptions : clear implicits.
End SdkDisallowQueryingSearchIndexOptions.
Abbreviation SdkDisallowQueryingSearchIndexOptions :=
    SdkDisallowQueryingSearchIndexOptions.SdkDisallowQueryingSearchIndexOptions.
#[global] Instance sdk_disallow_querying_search_index_options_settable T : Settable
    (SdkDisallowQueryingSearchIndexOptions T) := λ r,
  SdkDisallowQueryingSearchIndexOptions.mk (SdkDisallowQueryingSearchIndexOptions.retry_strategy r).

Definition sdk_disallow_querying_search_index_options_new {T : Type} : SdkDisallowQueryingSearchIndexOptions T :=
  SdkDisallowQueryingSearchIndexOptions.mk None.

Definition sdk_disallow_querying_search_index_options_retry_strategy {T : Type} (retry_strategy : T)
    (self : SdkDisallowQueryingSearchIndexOptions T) : SdkDisallowQueryingSearchIndexOptions T :=
  self <| SdkDisallowQueryingSearchIndexOptions.retry_strategy := Some retry_strategy |>.

Module SdkFreezePlanSearchIndexOptions.
Section Fields.
Context {T : Type}.
Record SdkFreezePlanSearchIndexOptions : Type := mk {
  retry_strategy : option T;
}.
End Fields.
#[global] Arguments SdkFreezePlanSearchIndexOptions : clear implicits.
End SdkFreezePlanSearchIndexOptions.
Abbreviation SdkFreezePlanSearchIndexOptions := SdkFreezePlanSearchIndexOptions.SdkFreezePlanSearchIndexOptions.
#[global] Instance sdk_freeze_plan_search_index_options_settable T : Settable (SdkFreezePlanSearchIndexOptions
    T) := λ r,
  SdkFreezePlanSearchIndexOptions.mk (SdkFreezePlanSearchIndexOptions.retry_strategy r).

Definition sdk_freeze_plan_search_index_options_new {T : Type} : SdkFreezePlanSearchIndexOptions T :=
  SdkFreezePlanSearchIndexOptions.mk None.

Definition sdk_freeze_plan_search_index_options_retry_strategy {T : Type} (retry_strategy : T)
    (self : SdkFreezePlanSearchIndexOptions T) : SdkFreezePlanSearchIndexOptions T :=
  self <| SdkFreezePlanSearchIndexOptions.retry_strategy := Some retry_strategy |>.

Module SdkUnfreezePlanSearchIndexOptions.
Section Fields.
Context {T : Type}.
Record SdkUnfreezePlanSearchIndexOptions : Type := mk {
  retry_strategy : option T;
}.
End Fields.
#[global] Arguments SdkUnfreezePlanSearchIndexOptions : clear implicits.
End SdkUnfreezePlanSearchIndexOptions.
Abbreviation SdkUnfreezePlanSearchIndexOptions :=
    SdkUnfreezePlanSearchIndexOptions.SdkUnfreezePlanSearchIndexOptions.
#[global] Instance sdk_unfreeze_plan_search_index_options_settable T : Settable
    (SdkUnfreezePlanSearchIndexOptions T) := λ r,
  SdkUnfreezePlanSearchIndexOptions.mk (SdkUnfreezePlanSearchIndexOptions.retry_strategy r).

Definition sdk_unfreeze_plan_search_index_options_new {T : Type} : SdkUnfreezePlanSearchIndexOptions T :=
  SdkUnfreezePlanSearchIndexOptions.mk None.

Definition sdk_unfreeze_plan_search_index_options_retry_strategy {T : Type} (retry_strategy : T)
    (self : SdkUnfreezePlanSearchIndexOptions T) : SdkUnfreezePlanSearchIndexOptions T :=
  self <| SdkUnfreezePlanSearchIndexOptions.retry_strategy := Some retry_strategy |>.

(** ** Indexes *)

Module SdkSearchIndex.
Section Fields.
Context {V : Type}.
Record SdkSearchIndex : Type := mk {
  name : string;
  index_type : string;
  params : option (gmap string V);
  plan_params : option (gmap string V);
  prev_index_uuid : option string;
  source_name : option string;
  source_params : option (gmap string V);
  source_type : option string;
  source_uuid : option string;
  uuid : option string;
}.
End Fields.
#[global] Arguments SdkSearchIndex : clear implicits.
End SdkSearchIndex.
Abbreviation SdkSearchIndex := SdkSearchIndex.SdkSearchIndex.
#[global] Instance sdk_search_index_settable V : Settable (SdkSearchIndex V) := λ r,
  SdkSearchIndex.mk (SdkSearchIndex.name r) (SdkSearchIndex.index_type r) (SdkSearchIndex.params r)
    (SdkSearchIndex.plan_params r) (SdkSearchIndex.prev_index_uuid r) (SdkSearchIndex.source_name r)
    (SdkSearchIndex.source_params r) (SdkSearchIndex.source_type r) (SdkSearchIndex.source_uuid r)
    (SdkSearchIndex.uuid r).

Definition sdk_search_index_new {V : Type} (name : string) (index_type : string) : SdkSearchIndex V :=
  SdkSearchIndex.mk name index_type None None None None None None None None.

Definition sdk_search_index_params {V : Type} (params : option (gmap string V))
    (self : SdkSearchIndex V) : SdkSearchIndex V :=
  self <| SdkSearchIndex.params := params |>.

Definition sdk_search_index_plan_params {V : Type} (plan_params : option (gmap string V))
    (self : SdkSearchIndex V) : SdkSearchIndex V :=
  self <| SdkSearchIndex.plan_params := plan_params |>.

Definition sdk_search_index_prev_index_uuid {V : Type} (prev_index_uuid : option string)
    (self : SdkSearchIndex V) : SdkSearchIndex V :=
  self <| SdkSearchIndex.prev_index_uuid := prev_index_uuid |>.

Definition sdk_search_index_source_name {V : Type} (source_name : option string)
    (self : SdkSearchIndex V) : SdkSearchIndex V :=
  self <| SdkSearchIndex.source_name := source_name |>.

Definition sdk_search_index_source_params {V : Type} (source_params : option (gmap string V))
    (self : SdkSearchIndex V) : SdkSearchIndex V :=
  self <| SdkSearchIndex.source_params := source_params |>.

Definition sdk_search_index_source_type {V : Type} (source_type : option string)
    (self : SdkSearchIndex V) : SdkSearchIndex V :=
  self <| SdkSearchIndex.source_type := source_type |>.

Definition sdk_search_index_source_uuid {V : Type} (source_uuid : option string)
    (self : SdkSearchIndex V) : SdkSearchIndex V :=
  self <| SdkSearchIndex.source_uuid := source_uuid |>.

Definition sdk_search_index_uuid {V : Type} (uuid : option string) (self : SdkSearchIndex V) : SdkSearchIndex V :=
  self <| SdkSearchIndex.uuid := uuid |>.

(** *** To and from the agent *)

Definition sdk_search_index_from {V : Type} (index : SearchIndex V) : SdkSearchIndex V :=
  SdkSearchIndex.mk (SearchIndex.name index) (SearchIndex.index_type index) (SearchIndex.params index)
    (SearchIndex.plan_params index) (SearchIndex.prev_index_uuid index) (SearchIndex.source_name index)
    (SearchIndex.source_params index) (SearchIndex.source_type index) (SearchIndex.source_uuid index)
    (SearchIndex.uuid index).

Definition search_index_into {V : Type} (search_index : SdkSearchIndex V) : SearchIndex V :=
  search_index_uuid (SdkSearchIndex.uuid search_index)
    (search_index_source_uuid (SdkSearchIndex.source_uuid search_index)
    (search_index_source_type (SdkSearchIndex.source_type search_index)
    (search_index_source_params (SdkSearchIndex.source_params search_index)
    (search_index_source_name (SdkSearchIndex.source_name search_index)
    (search_index_prev_index_uuid (SdkSearchIndex.prev_index_uuid search_index)
    (search_index_plan_params (SdkSearchIndex.plan_params search_index)
    (search_index_params (SdkSearchIndex.params search_index)
    (search_index_new (SdkSearchIndex.name search_index) (SdkSearchIndex.index_type search_index))))))))).

(** ** The client *)

Class SearchIndexMgmtAgent (S T V : Type) := {
  sia_get_index : CoreSearchGetIndexOptions T → io S Core.Error (SearchIndex V);
  sia_get_all_indexes : CoreSearchGetAllIndexesOptions T → io S Core.Error (list (SearchIndex V));
  sia_upsert_index : CoreSearchUpsertIndexOptions T V → io S Core.Error unit;
  sia_delete_index : CoreSearchDeleteIndexOptions T → io S Core.Error unit;
  sia_analyze_document : CoreSearchAnalyzeDocumentOptions T → io S Core.Error DocumentAnalysis;
  sia_get_indexed_documents_count : CoreSearchGetIndexedDocumentsCountOptions T → io S Core.Error Z;
  sia_pause_ingest : CoreSearchPauseIngestOptions T → io S Core.Error unit;
  sia_resume_ingest : CoreSearchResumeIngestOptions T → io S Core.Error unit;
  sia_allow_querying : CoreSearchAllowQueryingOptions T → io S Core.Error unit;
  sia_disallow_querying : CoreSearchDisallowQueryingOptions T → io S Core.Error unit;
  sia_freeze_plan : CoreSearchFreezePlanOptions T → io S Core.Error unit;
  sia_unfreeze_plan : CoreSearchUnfreezePlanOptions T → io S Core.Error unit;
}.

Record SearchIndexKeyspace : Type := mkSearchIndexKeyspace { sik_bucket_name : string; sik_scope_name : string }.

Record CouchbaseSearchIndexMgmtClient (T : Type) : Type := mkCouchbaseSearchIndexMgmtClient {
  csi_keyspace : SearchIndexKeyspace;
  csi_default_retry_strategy : T;
}.
#[global] Arguments mkCouchbaseSearchIndexMgmtClient {T}.
#[global] Arguments csi_keyspace {T}.
#[global] Arguments csi_default_retry_strategy {T}.

Section Client.
Context {S T V : Type} `{SearchIndexMgmtAgent S T V}.
Context (to_vec : V → string + list Z) (from_slice : list Z → string + V).
Context (get_agent : S → S * option bool) (from_slice_context : list Z → option ServerErrorContextJson).

Abbreviation Client := (CouchbaseSearchIndexMgmtClient T).
Abbreviation on_agent := (on_agent get_agent from_slice_context).

Definition retry_of_search_index_client (self : Client) (retry_strategy : option T) : T :=
  default (csi_default_retry_strategy self) retry_strategy.

Definition search_index_client_get_index (self : Client) (index_name : string) (opts : option
    (SdkGetSearchIndexOptions T))
    : io S Sdk.Error (SdkSearchIndex V) :=
  let opts := default sdk_get_search_index_options_new opts in
  r ← on_agent (sia_get_index (core_search_get_index_options_retry_strategy (retry_of_search_index_client self
      (SdkGetSearchIndexOptions.retry_strategy opts))
    (core_search_get_index_options_scope_name (sik_scope_name (csi_keyspace self))
    (core_search_get_index_options_bucket_name (sik_bucket_name (csi_keyspace self))
    (core_search_get_index_options_new index_name)))));
  mret (sdk_search_index_from r).

Definition search_index_client_get_all_indexes (self : Client) (opts : option (SdkGetAllSearchIndexesOptions T))
    : io S Sdk.Error (list (SdkSearchIndex V)) :=
  let opts := default sdk_get_all_search_indexes_options_new opts in
  r ← on_agent (sia_get_all_indexes (core_search_get_all_indexes_options_retry_strategy
      (retry_of_search_index_client self (SdkGetAllSearchIndexesOptions.retry_strategy opts))
    (core_search_get_all_indexes_options_scope_name (sik_scope_name (csi_keyspace self))
    (core_search_get_all_indexes_options_bucket_name (sik_bucket_name (csi_keyspace self))
    core_search_get_all_indexes_options_new))));
  mret (fmap sdk_search_index_from r).

Definition search_index_client_upsert_index (self : Client) (index : SdkSearchIndex V) (opts : option
    (SdkUpsertSearchIndexOptions T))
    : io S Sdk.Error unit :=
  let opts := default sdk_upsert_search_index_options_new opts in
  on_agent (sia_upsert_index (core_search_upsert_index_options_retry_strategy (retry_of_search_index_client self
      (SdkUpsertSearchIndexOptions.retry_strategy opts))
    (core_search_upsert_index_options_scope_name (sik_scope_name (csi_keyspace self))
    (core_search_upsert_index_options_bucket_name (sik_bucket_name (csi_keyspace self))
    (core_search_upsert_index_options_new (search_index_into index)))))).

Definition search_index_client_drop_index (self : Client) (index_name : string) (opts : option
    (SdkDropSearchIndexOptions T))
    : io S Sdk.Error unit :=
  let opts := default sdk_drop_search_index_options_new opts in
  on_agent (sia_delete_index (core_search_delete_index_options_retry_strategy (retry_of_search_index_client self
      (SdkDropSearchIndexOptions.retry_strategy opts))
    (core_search_delete_index_options_scope_name (sik_scope_name (csi_keyspace self))
    (core_search_delete_index_options_bucket_name (sik_bucket_name (csi_keyspace self))
    (core_search_delete_index_options_new index_name))))).

(** The document that is sent, and the analysis that is read. *)
Definition encode_document (document : V) : outcome Sdk.Error (list Z) :=
  match to_vec document with inl e => Err (Sdk.encoding_failure_from_serde e) | inr value => Ok value end.
Definition decode_analysis (analysis : DocumentAnalysis) : outcome Sdk.Error V :=
  match from_slice (dan_analyzed analysis) with inl e => Err (Sdk.decoding_failure_from_serde e) | inr v => Ok v end.

Definition search_index_client_analyze_document (self : Client) (index_name : string) (document : V)
    (opts : option (SdkAnalyzeDocumentOptions T)) : io S Sdk.Error V :=
  let opts := default sdk_analyze_document_options_new opts in
  analysis ← on_agent_after get_agent from_slice_context (encode_document document) (λ value,
    sia_analyze_document (core_search_analyze_document_options_retry_strategy
      (retry_of_search_index_client self (SdkAnalyzeDocumentOptions.retry_strategy opts))
      (core_search_analyze_document_options_scope_name (sik_scope_name (csi_keyspace self))
      (core_search_analyze_document_options_bucket_name (sik_bucket_name (csi_keyspace self))
      (core_search_analyze_document_options_new index_name value)))));
  io_lift (decode_analysis analysis).

Definition search_index_client_get_indexed_documents_count (self : Client) (index_name : string) (opts : option
    (SdkGetIndexedDocumentsCountOptions T))
    : io S Sdk.Error Z :=
  let opts := default sdk_get_indexed_documents_count_options_new opts in
  on_agent (sia_get_indexed_documents_count (core_search_get_indexed_documents_count_options_retry_strategy
      (retry_of_search_index_client self (SdkGetIndexedDocumentsCountOptions.retry_strategy opts))
    (core_search_get_indexed_documents_count_options_scope_name (sik_scope_name (csi_keyspace self))
    (core_search_get_indexed_documents_count_options_bucket_name (sik_bucket_name (csi_keyspace self))
    (core_search_get_indexed_documents_count_options_new index_name))))).

Definition search_index_client_pause_ingest (self : Client) (index_name : string) (opts : option
    (SdkPauseIngestSearchIndexOptions T))
    : io S Sdk.Error unit :=
  let opts := default sdk_pause_ingest_search_index_options_new opts in
  on_agent (sia_pause_ingest (core_search_pause_ingest_options_retry_strategy (retry_of_search_index_client self
      (SdkPauseIngestSearchIndexOptions.retry_strategy opts))
    (core_search_pause_ingest_options_scope_name (sik_scope_name (csi_keyspace self))
    (core_search_pause_ingest_options_bucket_name (sik_bucket_name (csi_keyspace self))
    (core_search_pause_ingest_options_new index_name))))).

Definition search_index_client_resume_ingest (self : Client) (index_name : string) (opts : option
    (SdkResumeIngestSearchIndexOptions T))
    : io S Sdk.Error unit :=
  let opts := default sdk_resume_ingest_search_index_options_new opts in
  on_agent (sia_resume_ingest (core_search_resume_ingest_options_retry_strategy (retry_of_search_index_client self
      (SdkResumeIngestSearchIndexOptions.retry_strategy opts))
    (core_search_resume_ingest_options_scope_name (sik_scope_name (csi_keyspace self))
    (core_search_resume_ingest_options_bucket_name (sik_bucket_name (csi_keyspace self))
    (core_search_resume_ingest_options_new index_name))))).

Definition search_index_client_allow_querying (self : Client) (index_name : string) (opts : option
    (SdkAllowQueryingSearchIndexOptions T))
    : io S Sdk.Error unit :=
  let opts := default sdk_allow_querying_search_index_options_new opts in
  on_agent (sia_allow_querying (core_search_allow_querying_options_retry_strategy (retry_of_search_index_client
      self (SdkAllowQueryingSearchIndexOptions.retry_strategy opts))
    (core_search_allow_querying_options_scope_name (sik_scope_name (csi_keyspace self))
    (core_search_allow_querying_options_bucket_name (sik_bucket_name (csi_keyspace self))
    (core_search_allow_querying_options_new index_name))))).

Definition search_index_client_disallow_querying (self : Client) (index_name : string) (opts : option
    (SdkDisallowQueryingSearchIndexOptions T))
    : io S Sdk.Error unit :=
  let opts := default sdk_disallow_querying_search_index_options_new opts in
  on_agent (sia_disallow_querying (core_search_disallow_querying_options_retry_strategy
      (retry_of_search_index_client self (SdkDisallowQueryingSearchIndexOptions.retry_strategy opts))
    (core_search_disallow_querying_options_scope_name (sik_scope_name (csi_keyspace self))
    (core_search_disallow_querying_options_bucket_name (sik_bucket_name (csi_keyspace self))
    (core_search_disallow_querying_options_new index_name))))).

Definition search_index_client_freeze_plan (self : Client) (index_name : string) (opts : option
    (SdkFreezePlanSearchIndexOptions T))
    : io S Sdk.Error unit :=
  let opts := default sdk_freeze_plan_search_index_options_new opts in
  on_agent (sia_freeze_plan (core_search_freeze_plan_options_retry_strategy (retry_of_search_index_client self
      (SdkFreezePlanSearchIndexOptions.retry_strategy opts))
    (core_search_freeze_plan_options_scope_name (sik_scope_name (csi_keyspace self))
    (core_search_freeze_plan_options_bucket_name (sik_bucket_name (csi_keyspace self))
    (core_search_freeze_plan_options_new index_name))))).

Definition search_index_client_unfreeze_plan (self : Client) (index_name : string) (opts : option
    (SdkUnfreezePlanSearchIndexOptions T))
    : io S Sdk.Error unit :=
  let opts := default sdk_unfreeze_plan_search_index_options_new opts in
  on_agent (sia_unfreeze_plan (core_search_unfreeze_plan_options_retry_strategy (retry_of_search_index_client self
      (SdkUnfreezePlanSearchIndexOptions.retry_strategy opts))
    (core_search_unfreeze_plan_options_scope_name (sik_scope_name (csi_keyspace self))
    (core_search_unfreeze_plan_options_bucket_name (sik_bucket_name (csi_keyspace self))
    (core_search_unfreeze_plan_options_new index_name))))).

(** [SearchIndexMgmtClient]. *)
Definition search_index_mgmt_get_index (self : ClientBackend Client) (index_name : string) (opts : option
    (SdkGetSearchIndexOptions T))
    : io S Sdk.Error (SdkSearchIndex V) :=
  on_backend self (λ client, search_index_client_get_index client index_name opts).
Definition search_index_mgmt_get_all_indexes (self : ClientBackend Client) (opts : option
    (SdkGetAllSearchIndexesOptions T))
    : io S Sdk.Error (list (SdkSearchIndex V)) :=
  on_backend self (λ client, search_index_client_get_all_indexes client opts).
Definition search_index_mgmt_upsert_index (self : ClientBackend Client) (index : SdkSearchIndex V) (opts : option
    (SdkUpsertSearchIndexOptions T))
    : io S Sdk.Error unit :=
  on_backend self (λ client, search_index_client_upsert_index client index opts).
Definition search_index_mgmt_drop_index (self : ClientBackend Client) (index_name : string) (opts : option
    (SdkDropSearchIndexOptions T))
    : io S Sdk.Error unit :=
  on_backend self (λ client, search_index_client_drop_index client index_name opts).
Definition search_index_mgmt_analyze_document (self : ClientBackend Client) (index_name : string) (document : V)
    (opts : option (SdkAnalyzeDocumentOptions T))
    : io S Sdk.Error V :=
  on_backend self (λ client, search_index_client_analyze_document client index_name document opts).
Definition search_index_mgmt_get_indexed_documents_count (self : ClientBackend Client) (index_name : string) (opts
    : option (SdkGetIndexedDocumentsCountOptions T))
    : io S Sdk.Error Z :=
  on_backend self (λ client, search_index_client_get_indexed_documents_count client index_name opts).
Definition search_index_mgmt_pause_ingest (self : ClientBackend Client) (index_name : string) (opts : option
    (SdkPauseIngestSearchIndexOptions T))
    : io S Sdk.Error unit :=
  on_backend self (λ client, search_index_client_pause_ingest client index_name opts).
Definition search_index_mgmt_resume_ingest (self : ClientBackend Client) (index_name : string) (opts : option
    (SdkResumeIngestSearchIndexOptions T))
    : io S Sdk.Error unit :=
  on_backend self (λ client, search_index_client_resume_ingest client index_name opts).
Definition search_index_mgmt_allow_querying (self : ClientBackend Client) (index_name : string) (opts : option
    (SdkAllowQueryingSearchIndexOptions T))
    : io S Sdk.Error unit :=
  on_backend self (λ client, search_index_client_allow_querying client index_name opts).
Definition search_index_mgmt_disallow_querying (self : ClientBackend Client) (index_name : string) (opts : option
    (SdkDisallowQueryingSearchIndexOptions T))
    : io S Sdk.Error unit :=
  on_backend self (λ client, search_index_client_disallow_querying client index_name opts).
Definition search_index_mgmt_freeze_plan (self : ClientBackend Client) (index_name : string) (opts : option
    (SdkFreezePlanSearchIndexOptions T))
    : io S Sdk.Error unit :=
  on_backend self (λ client, search_index_client_freeze_plan client index_name opts).
Definition search_index_mgmt_unfreeze_plan (self : ClientBackend Client) (index_name : string) (opts : option
    (SdkUnfreezePlanSearchIndexOptions T))
    : io S Sdk.Error unit :=
  on_backend self (λ client, search_index_client_unfreeze_plan client index_name opts).

(** [SearchIndexManager]. *)
Definition search_index_manager_get_index (self : ClientBackend Client) (index_name : string) (opts : option
    (SdkGetSearchIndexOptions T))
    : io S Sdk.Error (SdkSearchIndex V) :=
  search_index_mgmt_get_index self index_name opts.
Definition search_index_manager_get_all_indexes (self : ClientBackend Client) (opts : option
    (SdkGetAllSearchIndexesOptions T))
    : io S Sdk.Error (list (SdkSearchIndex V)) :=
  search_index_mgmt_get_all_indexes self opts.
Definition search_index_manager_upsert_index (self : ClientBackend Client) (index : SdkSearchIndex V) (opts :
    option (SdkUpsertSearchIndexOptions T))
    : io S Sdk.Error unit :=
  search_index_mgmt_upsert_index self index opts.
Definition search_index_manager_drop_index (self : ClientBackend Client) (index_name : string) (opts : option
    (SdkDropSearchIndexOptions T))
    : io S Sdk.Error unit :=
  search_index_mgmt_drop_index self index_name opts.
Definition search_index_manager_analyze_document (self : ClientBackend Client) (index_name : string) (document :
    V) (opts : option (SdkAnalyzeDocumentOptions T))
    : io S Sdk.Error V :=
  search_index_mgmt_analyze_document self index_name document opts.
Definition search_index_manager_get_indexed_documents_count (self : ClientBackend Client) (index_name : string)
    (opts : option (SdkGetIndexedDocumentsCountOptions T))
    : io S Sdk.Error Z :=
  search_index_mgmt_get_indexed_documents_count self index_name opts.
Definition search_index_manager_pause_ingest (self : ClientBackend Client) (index_name : string) (opts : option
    (SdkPauseIngestSearchIndexOptions T))
    : io S Sdk.Error unit :=
  search_index_mgmt_pause_ingest self index_name opts.
Definition search_index_manager_resume_ingest (self : ClientBackend Client) (index_name : string) (opts : option
    (SdkResumeIngestSearchIndexOptions T))
    : io S Sdk.Error unit :=
  search_index_mgmt_resume_ingest self index_name opts.
Definition search_index_manager_allow_querying (self : ClientBackend Client) (index_name : string) (opts : option
    (SdkAllowQueryingSearchIndexOptions T))
    : io S Sdk.Error unit :=
  search_index_mgmt_allow_querying self index_name opts.
Definition search_index_manager_disallow_querying (self : ClientBackend Client) (index_name : string) (opts :
    option (SdkDisallowQueryingSearchIndexOptions T))
    : io S Sdk.Error unit :=
  search_index_mgmt_disallow_querying self index_name opts.
Definition search_index_manager_freeze_plan (self : ClientBackend Client) (index_name : string) (opts : option
    (SdkFreezePlanSearchIndexOptions T))
    : io S Sdk.Error unit :=
  search_index_mgmt_freeze_plan self index_name opts.
Definition search_index_manager_unfreeze_plan (self : ClientBackend Client) (index_name : string) (opts : option
    (SdkUnfreezePlanSearchIndexOptions T))
    : io S Sdk.Error unit :=
  search_index_mgmt_unfreeze_plan self index_name opts.
End Client.

(** ** Theorems *)

(** An index that is written is read as it was written, and one that is read is written as it was. *)
Lemma search_index_roundtrip {V} (index : SdkSearchIndex V) : sdk_search_index_from (search_index_into index) = index.
Proof. by destruct index. Qed.

Lemma sdk_search_index_roundtrip {V} (index : SearchIndex V) : search_index_into (sdk_search_index_from index) =
    index.
Proof. by destruct index. Qed.

(** A document that cannot be encoded is not sent, even where there is no agent any more. *)
Lemma unencoded_document_not_sent {S T V} `{SearchIndexMgmtAgent S T V} to_vec from_slice get_agent ctx self
    index_name
    (document : V) opts s s1 has_agent e :
  get_agent s = (s1, Some has_agent) → to_vec document = inl e →
  search_index_client_analyze_document to_vec from_slice get_agent ctx self index_name document opts s
  = (s1, Some (Err (Sdk.encoding_failure_from_serde e))).
Proof.
  intros Hg He. unfold search_index_client_analyze_document, mbind, io_bind, on_agent_after, encode_document.
  by rewrite Hg, He.
Qed.
