(* ===== verification/ConnStr.v ===== *)
(** * Connection strings and the regular expressions they are read with
    ([couchbase-connstr/src/lib.rs], [couchbase-connstr/src/error.rs])

    The file begins with regular expressions: a backtracking matcher, against which the documented
    behaviour of the [regex] crate is stated. *)

From S2P Require Import Prelude Text.

(** * Regular expressions, as far as the connection string parser relies on them

    The parser of connection strings uses the [regex] crate, which is a parameter of its model.
    This file states the documented behaviour the parser relies on: a search finds the leftmost
    match; among the matches that start there, alternatives are tried in order and repetitions
    are greedy; a group that took part in the match has its text.  [search] and [search_all]
    are the reference the hypotheses on the crate are stated with. *)

(** Characters are bytes: the classes of the patterns name ASCII characters only, so on UTF-8
    text a class and its complement take whole characters. *)
Inductive Regex : Type :=
| Chars (p : Z → bool)
| Lit (l : list Z)
| Cat (r1 r2 : Regex)
| Alt (r1 r2 : Regex)
| Opt (r : Regex)
| Star (p : Z → bool)
| Group (i : nat) (r : Regex).

(** The texts of the groups. *)
Abbreviation Captures := (gmap nat (list Z)).

Section Matching.
Context {R : Type}.

(** [p*]: as many characters as possible, and fewer when what follows does not match. *)
Fixpoint star (p : Z → bool) (k : list Z → option R) (s : list Z) : option R :=
  match s with
  | a :: s' => if p a then match star p k s' with Some r => Some r | None => k s end else k s
  | [] => k []
  end.

(** A match at the start of [s]; [k] matches what follows. *)
Fixpoint run (r : Regex) (k : list Z → Captures → option R) (s : list Z) (c : Captures) : option R :=
  match r with
  | Chars p => match s with a :: s' => if p a then k s' c else None | [] => None end
  | Lit l => if starts_with l s then k (drop (length l) s) c else None
  | Cat r1 r2 => run r1 (run r2 k) s c
  | Alt r1 r2 => match run r1 k s c with Some x => Some x | None => run r2 k s c end
  | Opt r => match run r k s c with Some x => Some x | None => k s c end
  | Star p => star p (λ s', k s' c) s
  | Group i r => run r (λ s' c', k s' (<[i := take (length s - length s') s]> c')) s c
  end.
End Matching.

(** The leftmost match, with the text after it. *)
Fixpoint search (r : Regex) (s : list Z) : option (Captures * list Z) :=
  match run r (λ s' c, Some (c, s')) s ∅ with
  | Some x => Some x
  | None => match s with [] => None | _ :: s' => search r s' end
  end.

(** The successive matches of a pattern that does not match the empty text. *)
Fixpoint matches (fuel : nat) (r : Regex) (s : list Z) : list Captures :=
  match fuel with
  | O => []
  | S fuel => match search r s with Some (c, s') => c :: matches fuel r s' | None => [] end
  end.

Definition search_all (r : Regex) (s : list Z) : list Captures := matches (S (length s)) r s.

(** [.] and [[^..]]. *)
Definition dot_char (a : Z) : bool := negb (a =? 10).
Definition none_of (l : list Z) (a : Z) : bool := bool_decide (a ∉ l).

(** [p+]. *)
Definition Plus (p : Z → bool) : Regex := Cat (Chars p) (Star p).

(** ** Lemmas *)

Section Lemmas.
Context {R : Type}.
Implicit Types (k : list Z → option R) (s xs ys : list Z).

(** A class that cannot take the next character. *)
Definition stops (p : Z → bool) (ys : list Z) : Prop := match ys with [] => True | a :: _ => p a = false end.

Lemma star_greedy p k xs ys r :
  Forall (λ a, p a = true) xs → stops p ys → k ys = Some r → star p k (xs ++ ys) = Some r.
Proof.
  intros Hxs Hys Hk. induction Hxs as [|a xs Ha Hxs IH].
  - destruct ys as [|b ys]; [done|]. cbn in Hys |- *. by rewrite Hys.
  - cbn. by rewrite Ha, IH.
Qed.


Lemma star_none p k xs ys :
  stops p ys → (∀ zs, suffix zs xs → k (zs ++ ys) = None) → star p k (xs ++ ys) = None.
Proof.
  intros Hys Hk. induction xs as [|a xs IH].
  - specialize (Hk [] (reflexivity _)). destruct ys as [|b ys]; [done|]. cbn in Hys, Hk |- *. by rewrite Hys.
  - cbn. rewrite IH; [|intros zs Hz; apply Hk; by apply suffix_cons_r]. pose proof (Hk (a :: xs) (reflexivity _)).
    by destruct (p a).
Qed.

Lemma star_all_none p k s : (∀ zs, suffix zs s → k zs = None) → star p k s = None.
Proof.
  intros Hk. induction s as [|a s IH]; [by apply Hk|]. cbn.
  rewrite IH; [|intros zs Hz; apply Hk; by apply suffix_cons_r]. rewrite (Hk (a :: s)) by done. by destruct (p a).
Qed.

Lemma star_at p k xs b ys r :
  Forall (λ a, p a = true) xs → k (b :: ys) = Some r → (∀ zs, suffix zs ys → k zs = None) →
  star p k (xs ++ b :: ys) = Some r.
Proof.
  intros Hxs Hk Hn. induction Hxs as [|a xs Ha Hxs IH]; [|cbn; by rewrite Ha, IH].
  cbn. rewrite star_all_none by done. by destruct (p b).
Qed.

Lemma taken_text xs ys : take (length (xs ++ ys) - length ys) (xs ++ ys) = xs.
Proof. rewrite length_app, Nat.add_sub. by rewrite take_app_length. Qed.

Lemma starts_with_one a s : starts_with [a] (a :: s) = true.
Proof. apply (starts_with_app [a]). Qed.

Lemma drop_one a s : drop (length [a]) (a :: s) = s.
Proof. by rewrite <- (drop_0 s) at 2. Qed.

Lemma starts_with_off l s : (∀ t, s ≠ l ++ t) → starts_with l s = false.
Proof.
  intros Hs. destruct (starts_with l s) eqn:E; [|done]. apply starts_with_inv in E. by destruct (Hs _ E).
Qed.

Lemma plus_greedy p (k : list Z → Captures → option R) x xs ys c r :
  Forall (λ a, p a = true) (x :: xs) → stops p ys → k ys c = Some r → run (Plus p) k (x :: xs ++ ys) c = Some r.
Proof.
  intros Hxs Hys Hk. apply list.Forall_cons in Hxs as [Hx Hxs]. cbn [run Plus]. rewrite Hx. by apply star_greedy.
Qed.

End Lemmas.

(** * Connection strings ([couchbase-connstr/src/lib.rs], [couchbase-connstr/src/error.rs])

    [parse] reads a connection string, [resolve] turns what was read into the addresses to
    connect to, by a DNS lookup where the string allows it.

    Parameters are the [regex] crate, the parser of form data and of IP addresses, and the DNS
    resolver. *)

Abbreviation COMMA := 44 (only parsing).
Abbreviation SEMICOLON := 59 (only parsing).
Abbreviation SLASH := 47 (only parsing).
Abbreviation QUESTION := 63 (only parsing).
Abbreviation AT := 64 (only parsing).
Abbreviation AMPERSAND := 38 (only parsing).
Abbreviation EQUALS := 61 (only parsing).
Abbreviation LBRACK := 91 (only parsing).
Abbreviation RBRACK := 93 (only parsing).

(** ** Data *)

Definition DEFAULT_LEGACY_HTTP_PORT : Z := 8091.
Definition DEFAULT_LEGACY_HTTPS_PORT : Z := 18091.
Definition DEFAULT_MEMD_PORT : Z := 11210.
Definition DEFAULT_SSL_MEMD_PORT : Z := 11207.
Definition DEFAULT_COUCHBASE2_PORT : Z := 18098.

Record ConnSpecAddress : Type := mkConnSpecAddress { csa_host : list Z; csa_port : option Z }.

Record ConnSpec : Type := mkConnSpec {
  scheme : option (list Z);
  hosts : list ConnSpecAddress;
  options : gmap (list Z) (list (list Z));
}.

Definition conn_spec_default : ConnSpec := mkConnSpec None [] ∅.

Record ConnAddress : Type := mkConnAddress { ca_host : list Z; ca_port : Z }.

Record SrvRecord : Type := mkSrvRecord { srv_proto : list Z; srv_scheme : list Z; srv_host : list Z }.

Record DnsConfig : Type := mkDnsConfig { dns_namespace : list Z; dns_timeout : option Z }.

Record ResolvedConnSpec : Type := mkResolvedConnSpec {
  use_ssl : bool;
  memd_hosts : list ConnAddress;
  http_hosts : list ConnAddress;
  couchbase2_host : option ConnAddress;
  srv_record_used : option SrvRecord;
  resolved_options : gmap (list Z) (list (list Z));
}.

Module ConnStrError.
Inductive ErrorKind : Type :=
| Parse (msg : string)
| InvalidArgument (msg arg : string)
| Io (error : string)
| Resolve (error : string).
Record Error : Type := mkError { kind : ErrorKind }.
End ConnStrError.

Definition invalid_argument {A} (msg arg : string) : outcome ConnStrError.Error A :=
  Err (ConnStrError.mkError (ConnStrError.InvalidArgument msg arg)).

(** ** The patterns

    The texts of the two patterns, and what they say. *)

Definition parts_pattern : string := "((.*)://)?(([^/?:]*)(:([^/?:@]*))?@)?([^/?]*)(/([^?]*))?(\?(.*))?".
Definition host_pattern : string := "((\[[^]]+]+)|([^;,:]+))(:([0-9]*))?(;,)?".

Definition parts_regex : Regex :=
  Cat (Opt (Group 1 (Cat (Group 2 (Star dot_char)) (Lit [COLON; SLASH; SLASH]))))
  (Cat (Opt (Group 3 (Cat (Group 4 (Star (none_of [SLASH; QUESTION; COLON])))
                     (Cat (Opt (Group 5 (Cat (Lit [COLON]) (Group 6 (Star (none_of [SLASH; QUESTION; COLON; AT]))))))
                          (Lit [AT])))))
  (Cat (Group 7 (Star (none_of [SLASH; QUESTION])))
  (Cat (Opt (Group 8 (Cat (Lit [SLASH]) (Group 9 (Star (none_of [QUESTION]))))))
       (Opt (Group 10 (Cat (Lit [QUESTION]) (Group 11 (Star dot_char)))))))).

Definition host_regex : Regex :=
  Cat (Group 1 (Alt (Group 2 (Cat (Lit [LBRACK]) (Cat (Plus (none_of [RBRACK])) (Plus (λ a, a =? RBRACK)))))
                    (Group 3 (Plus (none_of [SEMICOLON; COMMA; COLON])))))
  (Cat (Opt (Group 4 (Cat (Lit [COLON]) (Group 5 (Star is_digit)))))
       (Opt (Group 6 (Lit [SEMICOLON; COMMA])))).

(** ** Parsing *)

Section ConnStr.
Context (regex_captures : string → list Z → option Captures) (regex_captures_iter : string → list Z → list Captures).
Context (form_parse : list Z → list (list Z * list Z)) (parses_as_ip : list Z → bool).

Definition parse_host (host_info : Captures) : outcome ConnStrError.Error ConnSpecAddress :=
  host ← expect (host_info !! 1%nat);
  match host_info !! 5%nat with
  | Some port =>
      match parse_uint 16 port with
      | Some port => Ok (mkConnSpecAddress host (Some port))
      | None => Err (ConnStrError.mkError (ConnStrError.Parse "failed to parse port"))
      end
  | None => Ok (mkConnSpecAddress host None)
  end.

(** [acc.entry(k).or_default().push(v)] for every pair. *)
Definition collect_options (pairs : list (list Z * list Z)) : gmap (list Z) (list (list Z)) :=
  foldl (λ acc '(k, v), <[k := default [] (acc !! k) ++ [v]]> acc) ∅ pairs.

Definition parse (conn_str : list Z) : outcome ConnStrError.Error ConnSpec :=
  match regex_captures parts_pattern conn_str with
  | Some parts =>
      hosts ← match parts !! 7%nat with
              | Some hosts => mapM parse_host (regex_captures_iter host_pattern hosts)
              | None => Ok []
              end;
      let options :=
        match parts !! 11%nat with Some options => collect_options (form_parse options) | None => ∅ end in
      Ok (mkConnSpec (parts !! 2%nat) hosts options)
  | None => Ok conn_spec_default
  end.

(** [host.parse::<std::net::IpAddr>()] is the parameter. *)
Definition host_is_ip_address (host : list Z) : bool := starts_with [LBRACK] host || parses_as_ip host.

Definition srv_record (self : ConnSpec) : option SrvRecord :=
  match scheme self with
  | Some scheme =>
      match hosts self with
      | [mkConnSpecAddress host None] =>
          if bool_decide (scheme = str_bytes "couchbase") || bool_decide (scheme = str_bytes "couchbases") then
            if host_is_ip_address host then None else Some (mkSrvRecord (str_bytes "tcp") scheme host)
          else None
      | _ => None
      end
  | None => None
  end.

(** ** Printing

    [order] is the order in which the map of options is iterated over. *)

Definition host_text (h : ConnSpecAddress) : list Z :=
  csa_host h ++ match csa_port h with Some port => COLON :: decimal port | None => [] end.

Definition option_text (kv : list Z * list (list Z)) : list Z :=
  join_with AMPERSAND ((λ value, kv.1 ++ EQUALS :: value) <$> kv.2).

Definition url_options (order : list (list Z * list (list Z))) : list Z :=
  foldl (λ acc kv, match acc with [] => option_text kv | _ => acc ++ AMPERSAND :: option_text kv end) [] order.

Definition display (order : list (list Z * list (list Z))) (self : ConnSpec) : list Z :=
  match scheme self with Some s => s ++ [COLON; SLASH; SLASH] | None => [] end
  ++ join_with COMMA (host_text <$> hosts self)
  ++ match url_options order with [] => [] | text => QUESTION :: text end.

(** ** Resolving *)

(** [resolver.srv_lookup(name)]: the targets and ports of the answer, or the error's text. *)
Context (resolver_srv_lookup : option DnsConfig → list Z → string + list (list Z * Z)).

Definition lookup_srv (scheme proto host : list Z) (dns_config : option DnsConfig)
    : outcome ConnStrError.Error (list ConnAddress) :=
  let name := str_bytes "_" ++ scheme ++ str_bytes "._" ++ proto ++ [DOT] ++ host in
  match resolver_srv_lookup dns_config name with
  | inl e => Err (ConnStrError.mkError (ConnStrError.Resolve e))
  | inr response => Ok ((λ '(target, port), mkConnAddress target port) <$> response)
  end.

Definition handle_couchbase2_scheme (conn_spec : ConnSpec) : outcome ConnStrError.Error ResolvedConnSpec :=
  match hosts conn_spec with
  | _ :: _ :: _ => invalid_argument "couchbase2 scheme can only be used with a single host" "scheme"
  | [address] =>
      Ok (mkResolvedConnSpec true [] []
            (Some (mkConnAddress (csa_host address) (default DEFAULT_COUCHBASE2_PORT (csa_port address)))) None
            (options conn_spec))
  | [] =>
      Ok (mkResolvedConnSpec true [] [] (Some (mkConnAddress (str_bytes "127.0.0.1") DEFAULT_COUCHBASE2_PORT)) None
            (options conn_spec))
  end.

(** The default ports of the data service and of the management service. *)
Definition default_ports (use_ssl : bool) : Z * Z :=
  if use_ssl then (DEFAULT_SSL_MEMD_PORT, DEFAULT_LEGACY_HTTPS_PORT) else (DEFAULT_MEMD_PORT, DEFAULT_LEGACY_HTTP_PORT).

(** The loop over the hosts. *)
Fixpoint resolve_hosts (use_ssl has_explicit_scheme : bool) (default_port : Z) (l : list ConnSpecAddress)
    (memd_hosts http_hosts : list ConnAddress) : outcome ConnStrError.Error (list ConnAddress * list ConnAddress) :=
  match l with
  | [] => Ok (memd_hosts, http_hosts)
  | address :: l =>
      match csa_port address with
      | Some port =>
          if port =? DEFAULT_LEGACY_HTTP_PORT then
            invalid_argument "couchbase://host:8091 not supported for couchbase:// scheme. Use couchbase://host" "port"
          else if negb has_explicit_scheme && negb (port =? default_port) then
            invalid_argument "ambiguous port without scheme" "port"
          else
            resolve_hosts use_ssl has_explicit_scheme default_port l
              (memd_hosts ++ [mkConnAddress (csa_host address) port]) http_hosts
      | None =>
          let '(memd_port, http_port) := default_ports use_ssl in
          resolve_hosts use_ssl has_explicit_scheme default_port l
            (memd_hosts ++ [mkConnAddress (csa_host address) memd_port])
            (http_hosts ++ [mkConnAddress (csa_host address) http_port])
      end
  end.

Definition resolve_with (conn_spec : ConnSpec) (dns_config : option DnsConfig) (default_port : Z)
    (has_explicit_scheme use_ssl : bool) : outcome ConnStrError.Error ResolvedConnSpec :=
  let by_hosts :=
    match hosts conn_spec with
    | [] =>
        let '(memd_port, http_port) := default_ports use_ssl in
        Ok (mkResolvedConnSpec use_ssl [mkConnAddress (str_bytes "127.0.0.1") memd_port]
              [mkConnAddress (str_bytes "127.0.0.1") http_port] None None (options conn_spec))
    | l =>
        '(memd_hosts, http_hosts) ← resolve_hosts use_ssl has_explicit_scheme default_port l [] [];
        Ok (mkResolvedConnSpec use_ssl memd_hosts http_hosts None None (options conn_spec))
    end in
  match srv_record conn_spec with
  | Some record =>
      match lookup_srv (srv_scheme record) (srv_proto record) (srv_host record) dns_config with
      | Ok srv_records =>
          Ok (mkResolvedConnSpec use_ssl srv_records [] None (Some record) (options conn_spec))
      | Err _ => by_hosts
      | Panic => Panic
      end
  | None => by_hosts
  end.

Definition resolve (conn_spec : ConnSpec) (dns_config : option DnsConfig)
    : outcome ConnStrError.Error ResolvedConnSpec :=
  match scheme conn_spec with
  | Some scheme =>
      if bool_decide (scheme = str_bytes "couchbase") then resolve_with conn_spec dns_config DEFAULT_MEMD_PORT true false
      else if bool_decide (scheme = str_bytes "couchbases") then
        resolve_with conn_spec dns_config DEFAULT_SSL_MEMD_PORT true true
      else if bool_decide (scheme = str_bytes "couchbase2") then handle_couchbase2_scheme conn_spec
      else if bool_decide (scheme = []) then resolve_with conn_spec dns_config DEFAULT_MEMD_PORT false false
      else invalid_argument "unrecognized scheme" "scheme"
  | None => resolve_with conn_spec dns_config DEFAULT_MEMD_PORT false false
  end.

End ConnStr.

(** ** Theorems: what is printed is read back *)

(** The documented behaviour of the crates: the two patterns, on any text; and form data whose
    names and values need no decoding. *)
Definition regex_finds (captures : string → list Z → option Captures) (iter : string → list Z → list Captures)
    : Prop :=
  (∀ s, captures parts_pattern s = fst <$> search parts_regex s)
  ∧ ∀ s, iter host_pattern s = search_all host_regex s.

(** A name or value without the characters form data gives a meaning to. *)
Definition plain_text (l : list Z) : Prop := Forall (λ c, c ∉ [AMPERSAND; EQUALS; 43; 37]) l.

Definition pair_text (kv : list Z * list Z) : list Z := kv.1 ++ EQUALS :: kv.2.

Definition form_reads (form_parse : list Z → list (list Z * list Z)) : Prop :=
  ∀ pairs, Forall (λ kv, plain_text kv.1 ∧ plain_text kv.2) pairs →
    form_parse (join_with AMPERSAND (pair_text <$> pairs)) = pairs.

(** A host name, or an IPv6 address in brackets. *)
Definition plain_host (h : list Z) : Prop :=
  h ≠ [] ∧ Forall (λ c, c ∉ [SEMICOLON; COMMA; COLON; SLASH; QUESTION; AT]) h ∧ head h ≠ Some LBRACK.
Definition bracket_host (h : list Z) : Prop :=
  ∃ body, h = LBRACK :: body ++ [RBRACK] ∧ body ≠ [] ∧ Forall (λ c, c ∉ [RBRACK; SLASH; QUESTION; AT]) body.

Definition host_ok (h : ConnSpecAddress) : Prop :=
  (plain_host (csa_host h) ∨ bracket_host (csa_host h)) ∧ ∀ p, csa_port h = Some p → fits 16 p.

Definition option_ok (kv : list Z * list (list Z)) : Prop :=
  kv.2 ≠ [] ∧ Forall (λ l, plain_text l ∧ SLASH ∉ l ∧ 10 ∉ l) (kv.1 :: kv.2).

Definition spec_ok (order : list (list Z * list (list Z))) (self : ConnSpec) : Prop :=
  (∀ s, scheme self = Some s → 10 ∉ s) ∧ Forall host_ok (hosts self)
  ∧ order ≡ₚ map_to_list (options self) ∧ Forall option_ok order.

(** *** Hosts *)

Lemma none_of_spec l a : none_of l a = true ↔ a ∉ l.
Proof. apply bool_decide_eq_true. Qed.

Lemma none_of_all l xs : Forall (λ c, c ∉ l) xs → Forall (λ a, none_of l a = true) xs.
Proof. intros H. eapply list.Forall_impl; [exact H|]. intros a. apply none_of_spec. Qed.

(** The captures of a host. *)
Definition host_captures (h : ConnSpecAddress) (c : Captures) : Prop :=
  c !! 1%nat = Some (csa_host h) ∧ c !! 5%nat = decimal <$> csa_port h.

Lemma parse_host_ok h c : host_captures h c → (∀ p, csa_port h = Some p → fits 16 p) → parse_host c = Ok h.
Proof.
  intros [H1 H5] Hp. unfold parse_host. rewrite H1, H5.
  destruct h as [host [p|]]; [|done]. unfold mbind, outcome_bind. cbn [expect csa_host csa_port fmap option_fmap option_map].
  by rewrite parse_decimal by (try lia; by apply Hp).
Qed.

Definition host_end (rest : list Z) : Prop := match rest with [] => True | a :: _ => a = COMMA end.

(** What follows the name: a port, and nothing else. *)
Lemma port_matches {R} (k : list Z → Captures → option R) port rest c :
  host_end rest → (∀ s c, is_Some (k s c)) → (∀ p, port = Some p → fits 16 p) → c !! 5%nat = None →
  ∃ c', run (Cat (Opt (Group 4 (Cat (Lit [COLON]) (Group 5 (Star is_digit))))) (Opt (Group 6 (Lit [SEMICOLON; COMMA]))))
          k (match port with Some p => COLON :: decimal p | None => [] end ++ rest) c = k rest c'
    ∧ c' !! 1%nat = c !! 1%nat ∧ c' !! 5%nat = decimal <$> port.
Proof.
  intros Hend Hk Hp H5. assert (∀ c, run (Opt (Group 6 (Lit [SEMICOLON; COMMA]))) k rest c = k rest c) as Hopt.
  { intros c0. cbn [run]. rewrite starts_with_off; [done|]. intros t ->. cbn in Hend. lia. }
  destruct port as [p|].
  - exists (<[4%nat := COLON :: decimal p]> (<[5%nat := decimal p]> c)). split; [|split].
    2:{ by rewrite !lookup_insert_ne by done. }
    2:{ rewrite lookup_insert_ne by done. by rewrite lookup_insert_eq. }
    cbn [run]. rewrite <- app_comm_cons. rewrite starts_with_one, drop_one.
    destruct (Hk rest (<[4%nat := COLON :: decimal p]> (<[5%nat := decimal p]> c))) as [r Hr].
    erewrite star_greedy.
    + rewrite Hr. reflexivity.
    + apply decimal_digits. destruct (Hp p eq_refl). lia.
    + destruct rest as [|a rest]; [done|]. cbn in Hend |- *. by subst a.
    + rewrite taken_text. rewrite app_comm_cons, taken_text. rewrite <- Hr. apply Hopt.
  - exists c. split; [|done]. cbn [run app]. rewrite starts_with_off; [apply Hopt|]. intros t ->. cbn in Hend. lia.
Qed.

Lemma host_matches {R} (k : list Z → Captures → option R) h rest :
  host_ok h → host_end rest → (∀ s c, is_Some (k s c)) →
  ∃ c, run host_regex k (host_text h ++ rest) ∅ = k rest c ∧ host_captures h c.
Proof.
  intros [Hh Hp] Hend Hk. unfold host_text. rewrite <- app_assoc. set (tail := _ ++ rest).
  assert (∀ c, c !! 5%nat = None → ∃ c' r, c' !! 1%nat = c !! 1%nat ∧ c' !! 5%nat = decimal <$> csa_port h
    ∧ k rest c' = Some r ∧ run (Cat (Opt (Group 4 (Cat (Lit [COLON]) (Group 5 (Star is_digit)))))
        (Opt (Group 6 (Lit [SEMICOLON; COMMA])))) k tail c = Some r) as Htail.
  { intros c H5. destruct (port_matches k (csa_port h) rest c Hend Hk Hp H5) as (c' & Hr & H1 & H5').
    destruct (Hk rest c') as [r Hkr]. exists c', r. rewrite <- Hkr. by split_and!. }
  assert (stops (none_of [SEMICOLON; COMMA; COLON]) tail ∧ stops (λ a, a =? RBRACK) tail) as [Hs1 Hs2].
  { subst tail. destruct (csa_port h); [done|]. destruct rest as [|a rest]; [done|]. cbn in Hend. by subst a. }
  unfold host_regex. cbn [run]. destruct Hh as [(Hne & Hall & Hhead)|(body & Hbody & Hne & Hall)].
  - destruct (csa_host h) as [|x xs] eqn:Hhost; [done|].
    rewrite <- app_comm_cons, starts_with_off by (intros t [= ->]; by apply Hhead). rewrite app_comm_cons.
    destruct (Htail (<[1%nat := x :: xs]> (<[3%nat := x :: xs]> ∅))) as (c' & r & H1 & H5 & Hkr & Hrun); [done|].
    exists c'. split; [|split; [by rewrite H1, lookup_insert_eq, Hhost|done]]. rewrite Hkr.
    eapply (plus_greedy _ _ x xs tail).
    + apply none_of_all. eapply list.Forall_impl; [exact Hall|]. intros a. set_solver.
    + done.
    + cbn [run]. by rewrite taken_text, <- Hrun.
  - rewrite Hbody. rewrite <- app_comm_cons, starts_with_one, drop_one.
    destruct (Htail (<[1%nat := csa_host h]> (<[2%nat := csa_host h]> ∅))) as (c' & r & H1 & H5 & Hkr & Hrun); [done|].
    exists c'. split; [|split; [by rewrite H1, lookup_insert_eq|done]]. rewrite Hkr.
    destruct body as [|x xs]; [done|]. rewrite <- (app_assoc (x :: xs)). rewrite <- app_comm_cons.
    erewrite (plus_greedy (none_of [RBRACK]) _ x xs ([RBRACK] ++ tail)); [reflexivity|..].
    + apply none_of_all. eapply list.Forall_impl; [exact Hall|]. intros a. set_solver.
    + done.
    + apply (plus_greedy _ _ RBRACK [] tail); [by repeat constructor|done|].
      cbn [run]. rewrite app_comm_cons, (app_assoc _ [RBRACK]), app_comm_cons, taken_text, <- Hrun. by rewrite Hbody.
Qed.

Lemma search_here r s x : run r (λ s' c, Some (c, s')) s ∅ = Some x → search r s = Some x.
Proof. intros H. destruct s; cbn [search]; by rewrite H. Qed.

Lemma search_skip r a s : run r (λ s' c, Some (c, s')) (a :: s) ∅ = None → search r (a :: s) = search r s.
Proof. intros H. cbn [search]. by rewrite H. Qed.

Lemma hosts_found hs fuel :
  Forall host_ok hs → (length hs <= fuel)%nat →
  Forall2 host_captures hs (matches fuel host_regex (join_with COMMA (host_text <$> hs))).
Proof.
  intros Hhs. revert fuel. induction Hhs as [|h hs Hh Hhs IH]; intros fuel Hf; [by destruct fuel; constructor|].
  destruct fuel as [|fuel]; [cbn in Hf; lia|].
  assert (∃ rest, join_with COMMA (host_text <$> h :: hs) = host_text h ++ rest ∧ host_end rest
    ∧ matches fuel host_regex rest = matches fuel host_regex (join_with COMMA (host_text <$> hs))) as (rest & -> & Hend & Hm).
  { destruct hs as [|h2 hs]; [by exists []; rewrite app_nil_r|].
    exists (COMMA :: join_with COMMA (host_text <$> h2 :: hs)). split_and!; [done|done|].
    destruct fuel as [|fuel]; [done|]. cbn [matches]. by rewrite search_skip. }
  destruct (host_matches (λ s' c, Some (c, s')) h rest Hh Hend) as (c & Hr & Hc); [by eexists|].
  cbn [matches]. rewrite (search_here _ _ _ Hr). constructor; [done|]. rewrite Hm. apply IH. cbn in Hf. lia.
Qed.

Lemma host_text_nonempty h : host_ok h → (1 <= length (host_text h))%nat.
Proof.
  intros [[(Hne & _)|(body & Hb & _)] _]; unfold host_text; rewrite length_app.
  - destruct (csa_host h); [done|cbn; lia].
  - rewrite Hb. cbn. lia.
Qed.

Lemma hosts_text_length hs : Forall host_ok hs → (length hs <= length (join_with COMMA (host_text <$> hs)))%nat.
Proof.
  induction 1 as [|h hs Hh Hhs IH]; [done|]. pose proof (host_text_nonempty h Hh) as Hl.
  destruct hs as [|h2 hs]; [by cbn|].
  change (join_with COMMA (host_text <$> h :: h2 :: hs))
    with (host_text h ++ COMMA :: join_with COMMA (host_text <$> h2 :: hs)).
  rewrite length_app. cbn [length] in IH |- *. lia.
Qed.

Lemma parse_hosts hs l :
  Forall host_ok hs → Forall2 host_captures hs l → mapM (M := outcome ConnStrError.Error) parse_host l = Ok hs.
Proof.
  intros Hhs Hl. induction Hl as [|h c hs l Hc Hl IH]; [done|]. apply list.Forall_cons in Hhs as [[_ Hp] Hhs].
  cbn [mapM]. rewrite (parse_host_ok h c Hc Hp). cbn. by rewrite IH.
Qed.

(** *** The parts *)

(** The text of the hosts has none of the characters that end it. *)
Lemma host_text_chars h : host_ok h → Forall (λ c, c ∉ [SLASH; QUESTION; AT]) (host_text h).
Proof.
  intros [Hh Hp]. unfold host_text. apply list.Forall_app. split.
  - destruct Hh as [(_ & Hall & _)|(body & -> & _ & Hall)].
    + eapply list.Forall_impl; [exact Hall|]. intros a. set_solver.
    + constructor; [set_solver by lia|]. apply list.Forall_app. split; [|by repeat constructor; set_solver by lia].
      eapply list.Forall_impl; [exact Hall|]. intros a. set_solver.
  - destruct (csa_port h) as [p|]; [|done]. constructor; [set_solver by lia|].
    eapply list.Forall_impl; [apply decimal_digits; destruct (Hp p eq_refl); lia|]. intros a. unfold is_digit. 
    intros Ha%andb_prop. rewrite !Z.leb_le in Ha. set_solver by lia.
Qed.

Lemma hosts_text_chars hs :
  Forall host_ok hs → Forall (λ c, c ∉ [SLASH; QUESTION; AT]) (join_with COMMA (host_text <$> hs)).
Proof.
  induction 1 as [|h hs Hh Hhs IH]; [done|]. destruct hs as [|h2 hs]; [by apply host_text_chars|].
  change (join_with COMMA (host_text <$> h :: h2 :: hs))
    with (host_text h ++ COMMA :: join_with COMMA (host_text <$> h2 :: hs)).
  apply list.Forall_app. split; [by apply host_text_chars|]. constructor; [set_solver by lia|done].
Qed.

(** The options of a string: nothing, or a question mark and a text without slashes and line
    ends. *)
Definition options_part (o : list Z) (text : option (list Z)) : Prop :=
  match text with
  | None => o = []
  | Some t => o = QUESTION :: t ∧ SLASH ∉ t ∧ 10 ∉ t
  end.

Definition host_chars (l : list Z) : Prop := Forall (λ c, c ∉ [SLASH; QUESTION; AT]) l.

Lemma suffix_chars zs l : host_chars l → suffix zs l → host_chars zs.
Proof. intros Hl [k ->]. by apply list.Forall_app in Hl as [_ ?]. Qed.

Lemma not_next a zs o text :
  host_chars zs → options_part o text → a ∈ [SLASH; AT] → starts_with [a] (zs ++ o) = false.
Proof.
  intros Hz Ho Ha. apply starts_with_off. intros t Ht. destruct zs as [|z zs].
  - cbn in Ht. destruct text as [t0|]; cbn in Ho; [|by subst o]. destruct Ho as [-> _]. injection Ht as <- _. set_solver by lia.
  - injection Ht as -> _. apply list.Forall_cons in Hz as [Hz _]. set_solver.
Qed.

Lemma user_info_absent {R} (k : list Z → Captures → option R) h o text c :
  host_chars h → options_part o text →
  run (Group 3 (Cat (Group 4 (Star (none_of [SLASH; QUESTION; COLON])))
        (Cat (Opt (Group 5 (Cat (Lit [COLON]) (Group 6 (Star (none_of [SLASH; QUESTION; COLON; AT]))))))
             (Lit [AT])))) k (h ++ o) c = None.
Proof.
  intros Hh Ho. cbn [run]. assert (∀ l, QUESTION ∈ l → stops (none_of l) o) as Hstop.
  { intros l Hl. destruct text as [t|]; cbn in Ho; [|by subst o]. destruct Ho as [-> _]. cbn. unfold none_of.
    apply bool_decide_eq_false. intros Hn. by apply Hn. }
  apply star_none; [apply Hstop; set_solver|]. intros zs Hz. pose proof (suffix_chars _ _ Hh Hz) as Hzc.
  rewrite (not_next AT zs o text Hzc Ho) by set_solver.
  destruct (starts_with [COLON] (zs ++ o)) eqn:Hcol; [|done].
  apply starts_with_inv in Hcol. destruct zs as [|z zs].
  { cbn in Hcol. destruct text as [t|]; cbn in Ho; [destruct Ho as [-> _]|subst o]; done. }
  injection Hcol as ->. change ((COLON :: zs) ++ o) with (COLON :: (zs ++ o)). rewrite drop_one.
  apply list.Forall_cons in Hzc as [_ Hzc]. rewrite star_none; [done|apply Hstop; set_solver|].
  intros ws Hw. by rewrite (not_next AT ws o text) by (try set_solver; by eapply suffix_chars).
Qed.

(** The regular expression after the scheme. *)
Definition after_scheme : Regex :=
  match parts_regex with Cat _ r => r | r => r end.

Lemma after_scheme_matches h o text c :
  host_chars h → options_part o text → c !! 11%nat = None →
  ∃ c', run after_scheme (λ s' c, Some (c, s')) (h ++ o) c = Some (c', [])
    ∧ c' !! 2%nat = c !! 2%nat ∧ c' !! 7%nat = Some h ∧ c' !! 11%nat = text.
Proof.
  intros Hh Ho H11. unfold after_scheme, parts_regex. set (user_info := Group 3 _).
  assert (∀ k : list Z → Captures → option (Captures * list Z), run (Opt user_info) k (h ++ o) c = k (h ++ o) c) as Hui.
  { intros k. change (match run user_info k (h ++ o) c with Some x => Some x | None => k (h ++ o) c end = k (h ++ o) c).
    unfold user_info. by rewrite (user_info_absent k h o text c Hh Ho). }
  set (tail := Cat (Group 7 _) _). change (run (Cat (Opt user_info) tail)) with
    (λ k : list Z → Captures → option (Captures * list Z), run (Opt user_info) (run tail k)). cbv beta. rewrite Hui.
  subst tail. clear Hui user_info. cbn [run].
  assert (stops (none_of [SLASH; QUESTION]) o ∧ starts_with [SLASH] o = false) as [Hstop Hsl].
  { split; [|by apply (not_next SLASH [] o text); [constructor|done|set_solver]].
    destruct text as [t|]; cbn in Ho; [|by subst o]. by destruct Ho as [-> _]. }
  assert (Forall (λ a, none_of [SLASH; QUESTION] a = true) h) as Hall.
  { apply none_of_all. eapply list.Forall_impl; [exact Hh|]. intros a. set_solver. }
  destruct text as [t|]; cbn in Ho.
  - destruct Ho as (-> & _ & Hnl).
    exists (<[10%nat := QUESTION :: t]> (<[11%nat := t]> (<[7%nat := h]> c))). split_and!.
    + apply star_greedy; [done..|]. rewrite Hsl, starts_with_one, drop_one, taken_text.
      rewrite <- (app_nil_r t) at 1. erewrite star_greedy; [reflexivity|..].
      * apply list.Forall_forall. intros a Ha. unfold dot_char. destruct (Z.eqb_spec a 10); [by subst|done].
      * done.
      * cbn [length]. rewrite !Nat.sub_0_r. rewrite !(firstn_all2 (n := _)) by (cbn; lia). done.
    + by rewrite !lookup_insert_ne by done.
    + rewrite !lookup_insert_ne by done. by rewrite lookup_insert_eq.
    + rewrite lookup_insert_ne by done. by rewrite lookup_insert_eq.
  - subst o. exists (<[7%nat := h]> c). split_and!.
    + apply star_greedy; [done..|]. rewrite Hsl, taken_text. by vm_compute (starts_with [QUESTION] []).
    + by rewrite lookup_insert_ne by done.
    + by rewrite lookup_insert_eq.
    + by rewrite lookup_insert_ne by done.
Qed.

Lemma parts_match sch h o text :
  (∀ s, sch = Some s → 10 ∉ s) → host_chars h → options_part o text →
  ∃ c, search parts_regex (match sch with Some s => s ++ [COLON; SLASH; SLASH] | None => [] end ++ h ++ o) = Some (c, [])
    ∧ c !! 2%nat = sch ∧ c !! 7%nat = Some h ∧ c !! 11%nat = text.
Proof.
  intros Hs Hh Ho.
  assert (SLASH ∉ h ++ o) as Hno.
  { intros [Hin|Hin]%elem_of_app.
    - eapply (proj1 (list.Forall_forall _ _)) in Hh; [|exact Hin]. set_solver.
    - destruct text as [t|]; cbn in Ho; [|subst o; by apply elem_of_nil in Hin]. destruct Ho as (-> & Ht & _).
      apply elem_of_cons in Hin as [|]; [lia|done]. }
  assert (∀ zs, suffix zs (h ++ o) → starts_with [COLON; SLASH; SLASH] zs = false) as Hoff.
  { intros zs [k Hk]. apply starts_with_off. intros t ->. apply Hno. rewrite Hk. set_solver. }
  unfold search. destruct sch as [s|].
  - destruct (after_scheme_matches h o text (<[1%nat := s ++ [COLON; SLASH; SLASH]]> (<[2%nat := s]> ∅)) Hh Ho)
      as (c & Hr & H2 & H7 & H11); [done|].
    exists c. split; [|split; [by rewrite H2, lookup_insert_ne, lookup_insert_eq by done|done]].
    apply search_here. change parts_regex with (Cat (Opt (Group 1 (Cat (Group 2 (Star dot_char)) (Lit [COLON; SLASH; SLASH])))) after_scheme).
    cbn -[after_scheme starts_with drop take length]. rewrite <- !app_assoc.
    change (s ++ [COLON; SLASH; SLASH] ++ h ++ o) with (s ++ COLON :: ([SLASH; SLASH] ++ h ++ o)).
    erewrite star_at; [reflexivity|..].
    + apply list.Forall_forall. intros a Ha. unfold dot_char. destruct (Z.eqb_spec a 10); [subst; by destruct (Hs s)|done].
    + cbv beta. rewrite taken_text.
      change (COLON :: ([SLASH; SLASH] ++ h ++ o)) with ([COLON; SLASH; SLASH] ++ h ++ o).
      rewrite starts_with_app, drop_app_length, (app_assoc s), taken_text. exact Hr.
    + intros [|z zs] Hz; [by vm_compute|]. cbn [app] in Hz. apply suffix_cons_inv in Hz as [[= -> ->]|Hz].
      { rewrite starts_with_off; [done|]. by intros t [=]. }
      apply suffix_cons_inv in Hz as [[= -> ->]|Hz].
      { rewrite starts_with_off; [done|]. by intros t [=]. }
      by rewrite Hoff.
  - destruct (after_scheme_matches h o text ∅ Hh Ho) as (c & Hr & H2 & H7 & H11); [done|].
    exists c. split; [|split; [by rewrite H2|done]].
    apply search_here. change parts_regex with (Cat (Opt (Group 1 (Cat (Group 2 (Star dot_char)) (Lit [COLON; SLASH; SLASH])))) after_scheme).
    cbn -[after_scheme starts_with drop take length app]. rewrite star_all_none; [exact Hr|].
    intros zs Hz. by rewrite Hoff.
Qed.

(** *** Options *)

Definition pairs_of (order : list (list Z * list (list Z))) : list (list Z * list Z) :=
  order ≫= λ kv, pair kv.1 <$> kv.2.

Lemma join_with_app c l1 l2 : l1 ≠ [] → l2 ≠ [] → join_with c (l1 ++ l2) = join_with c l1 ++ c :: join_with c l2.
Proof.
  intros H1 H2. induction l1 as [|x l1 IH]; [done|]. destruct l1 as [|y l1]; [by destruct l2|].
  change (join_with c ((x :: y :: l1) ++ l2)) with (x ++ c :: join_with c ((y :: l1) ++ l2)).
  rewrite IH by done. change (join_with c (x :: y :: l1)) with (x ++ c :: join_with c (y :: l1)).
  by rewrite <- app_assoc.
Qed.

Lemma option_text_pairs kv : option_text kv = join_with AMPERSAND (pair_text <$> (pair kv.1 <$> kv.2)).
Proof. unfold option_text. by rewrite <- list_fmap_compose. Qed.

Lemma pairs_text_nonempty pairs : pairs ≠ [] → join_with AMPERSAND (pair_text <$> pairs) ≠ [].
Proof.
  destruct pairs as [|kv [|kv2 pairs]]; [done|..]; intros _; unfold pair_text; cbn; by destruct kv.1.
Qed.

Lemma url_options_pairs order :
  Forall option_ok order → url_options order = join_with AMPERSAND (pair_text <$> pairs_of order).
Proof.
  intros Hall. unfold url_options.
  assert (∀ l, l = [] ∨ (∃ acc, l = join_with AMPERSAND (pair_text <$> acc) ∧ acc ≠ []) →
    ∀ acc, l = join_with AMPERSAND (pair_text <$> acc) → (acc = [] ↔ l = []) →
    foldl (λ acc kv, match acc with [] => option_text kv | _ => acc ++ AMPERSAND :: option_text kv end) l order
    = join_with AMPERSAND (pair_text <$> acc ++ pairs_of order)) as K.
  { induction Hall as [|kv order [Hne _] Hall IH]; intros l _ acc Hl Hiff; [by rewrite app_nil_r|].
    cbn [foldl]. assert ((pair kv.1 <$> kv.2) ≠ []) as Hp by (by destruct kv.2).
    change (pairs_of (kv :: order)) with ((pair kv.1 <$> kv.2) ++ pairs_of order). rewrite (app_assoc acc). apply IH.
    - destruct l as [|x l].
      + right. exists (pair kv.1 <$> kv.2). split; [apply option_text_pairs|done].
      + right. exists (acc ++ (pair kv.1 <$> kv.2)). split; [|by destruct acc].
        rewrite fmap_app, join_with_app, <- Hl, <- option_text_pairs; [done| |by destruct (pair kv.1 <$> kv.2)].
        intros Hn%fmap_nil_inv. by apply Hiff in Hn.
    - destruct l as [|x l].
      + assert (acc = []) as -> by (by apply Hiff). cbn. apply option_text_pairs.
      + rewrite fmap_app, join_with_app, <- Hl, <- option_text_pairs; [done| |by destruct (pair kv.1 <$> kv.2)].
        intros Hn%fmap_nil_inv. by apply Hiff in Hn.
    - split; [intros Hn; by apply app_eq_nil in Hn as [_ ?]|]. intros Hn. exfalso. destruct l as [|x l]; [|done].
      rewrite option_text_pairs in Hn. by eapply pairs_text_nonempty. }
  by apply (K [] (or_introl eq_refl) []).
Qed.

Lemma collect_one (k : list Z) (vs : list (list Z)) (acc : gmap (list Z) (list (list Z))) :
  foldl (λ acc '(k, v), <[k := default [] (acc !! k) ++ [v]]> acc) acc (pair k <$> vs)
  = match vs with [] => acc | _ => <[k := default [] (acc !! k) ++ vs]> acc end.
Proof.
  revert acc. induction vs as [|v vs IH]; intros acc; [done|]. cbn [fmap list_fmap foldl]. rewrite IH.
  destruct vs as [|v2 vs]; [done|]. rewrite lookup_insert_eq, insert_insert_eq.
  cbn [from_option id]. by rewrite <- app_assoc.
Qed.

Lemma collect_pairs (order : list (list Z * list (list Z))) (acc : gmap (list Z) (list (list Z))) :
  NoDup order.*1 → Forall option_ok order → (∀ k, k ∈ order.*1 → acc !! k = None) →
  foldl (λ acc '(k, v), <[k := default [] (acc !! k) ++ [v]]> acc) acc (pairs_of order) = list_to_map order ∪ acc.
Proof.
  revert acc. induction order as [|[k vs] order IH]; intros acc Hnd Hall Hacc.
  { change (list_to_map []) with (∅ : gmap (list Z) (list (list Z))). by rewrite (left_id_L ∅ (∪)). }
  rewrite fmap_cons in Hnd, Hacc. apply list.NoDup_cons in Hnd as [Hk Hnd]. apply list.Forall_cons in Hall as [[Hne _] Hall].
  cbn [fst snd] in *.
  change (pairs_of ((k, vs) :: order)) with ((pair k <$> vs) ++ pairs_of order). rewrite foldl_app, collect_one.
  destruct vs as [|v vs]; [done|]. rewrite (Hacc k) by left. cbn [from_option app]. rewrite IH.
  - cbn [list_to_map foldr uncurry fst snd]. rewrite <- insert_union_l, <- insert_union_r; [done|].
    by apply not_elem_of_list_to_map.
  - done.
  - done.
  - intros k' Hk'. rewrite lookup_insert_ne by (by intros ->). apply Hacc. by right.
Qed.

Lemma collect_options_pairs (m : gmap (list Z) (list (list Z))) order :
  order ≡ₚ map_to_list m → Forall option_ok order → collect_options (pairs_of order) = m.
Proof.
  intros Hp Hall. assert (NoDup order.*1) as Hnd by (rewrite Hp; apply NoDup_fst_map_to_list).
  unfold collect_options. rewrite collect_pairs; [|done..].
  rewrite (right_id_L ∅ (∪)). rewrite <- (list_to_map_to_list m). by apply list_to_map_proper.
Qed.

Lemma options_text_part order :
  Forall option_ok order → order ≠ [] → SLASH ∉ url_options order ∧ 10 ∉ url_options order.
Proof.
  intros Hall _. rewrite (url_options_pairs order Hall).
  assert (Forall (λ kv : list Z * list Z, ∀ a, a ∈ [SLASH; 10] → a ∉ pair_text kv) (pairs_of order)) as Hp.
  { unfold pairs_of. apply list.Forall_bind. eapply list.Forall_impl; [exact Hall|]. intros [k vs] [_ Hkv]. cbn in *.
    apply list.Forall_cons in Hkv as [(_ & Hk1 & Hk2) Hvs]. apply list.Forall_fmap.
    eapply list.Forall_impl; [exact Hvs|]. intros v (_ & Hv1 & Hv2) a Ha. cbn. unfold pair_text. cbn [fst snd].
    intros [Hin|Hin]%elem_of_app; [set_solver|]. apply elem_of_cons in Hin as [->|Hin]; [set_solver by lia|set_solver]. }
  assert (∀ a, a ∈ [SLASH; 10] → a ∉ join_with AMPERSAND (pair_text <$> pairs_of order)) as K; [|split; apply K; set_solver].
  intros a Ha. induction Hp as [|kv l Hkv Hl IH]; [apply not_elem_of_nil|]. destruct l as [|kv2 l]; [by apply Hkv|].
  change (join_with AMPERSAND (pair_text <$> kv :: kv2 :: l))
    with (pair_text kv ++ AMPERSAND :: join_with AMPERSAND (pair_text <$> kv2 :: l)).
  intros [Hin|Hin]%elem_of_app; [by eapply Hkv|]. apply elem_of_cons in Hin as [->|Hin]; [set_solver by lia|by apply IH].
Qed.

(** C40. A connection string that was printed is read back as it was: the scheme - any text -,
    every host with its port, host names and bracketed IPv6 addresses alike, and the values of
    every option in their order, for the hosts and options the format can express.  The order in
    which the options are printed does not matter. *)
Theorem conn_str_roundtrip captures iter form_parse order self :
  regex_finds captures iter → form_reads form_parse → spec_ok order self →
  parse captures iter form_parse (display order self) = Ok self.
Proof.
  intros [Hcap Hiter] Hform (Hs & Hh & Hp & Ho). unfold parse, display. rewrite Hcap.
  set (opts := match url_options order with [] => _ | _ => _ end).
  assert (∃ text, options_part opts text
    ∧ match text with Some options => collect_options (form_parse options) | None => ∅ end = options self)
    as (text & Hpart & Hopts).
  { destruct (decide (order = [])) as [->|Hne].
    { exists None. split; [done|]. symmetry in Hp. apply Permutation_nil_r in Hp. by apply map_to_list_empty_iff in Hp. }
    exists (Some (url_options order)). split.
    - subst opts. destruct (options_text_part order Ho Hne) as [H1 H2].
      destruct (url_options order) as [|x l] eqn:Hu; [|done]. exfalso. revert Hu. rewrite url_options_pairs by done.
      apply pairs_text_nonempty. destruct order as [|kv order]; [done|]. apply list.Forall_cons in Ho as [[Hkv _] _].
      unfold pairs_of. cbn. by destruct kv.2.
    - rewrite url_options_pairs by done. rewrite Hform; [by apply collect_options_pairs|].
      unfold pairs_of. apply list.Forall_bind. eapply list.Forall_impl; [exact Ho|]. intros [k vs] [_ Hkv]. cbn in *.
      apply list.Forall_cons in Hkv as [(Hk & _) Hvs]. apply list.Forall_fmap.
      eapply list.Forall_impl; [exact Hvs|]. intros v (Hv & _). done. }
  destruct (parts_match (scheme self) (join_with COMMA (host_text <$> hosts self)) opts text Hs
    (hosts_text_chars _ Hh) Hpart) as (c & Hc & H2 & H7 & H11).
  rewrite Hc. cbn [fmap option_fmap option_map fst]. rewrite H7, H11, H2, Hiter.
  rewrite (parse_hosts (hosts self)); [|done|apply hosts_found; [done|]].
  - cbn. rewrite Hopts. by destruct self.
  - pose proof (hosts_text_length (hosts self) Hh). lia.
Qed.

(** ** Theorems: what a connection string resolves to *)

(** A port that is refused. *)
Definition refused_port (explicit : bool) (default_port : Z) (h : ConnSpecAddress) : Prop :=
  ∃ p, csa_port h = Some p ∧ (p = DEFAULT_LEGACY_HTTP_PORT ∨ explicit = false ∧ p ≠ default_port).

Definition memd_of (use_ssl : bool) (h : ConnSpecAddress) : ConnAddress :=
  mkConnAddress (csa_host h) (default (default_ports use_ssl).1 (csa_port h)).
Definition http_of (use_ssl : bool) (l : list ConnSpecAddress) : list ConnAddress :=
  (λ h, mkConnAddress (csa_host h) (default_ports use_ssl).2) <$> filter (λ h, csa_port h = None) l.

Lemma resolve_hosts_cases ssl explicit dport l memd http :
  match resolve_hosts ssl explicit dport l memd http with
  | Ok (m, h) => m = memd ++ (memd_of ssl <$> l) ∧ h = http ++ http_of ssl l ∧ Forall (λ h, ¬ refused_port explicit dport h) l
  | Err e => Exists (refused_port explicit dport) l ∧ ∃ msg, e = ConnStrError.mkError (ConnStrError.InvalidArgument msg "port")
  | Panic => False
  end.
Proof.
  revert memd http. induction l as [|[host [p|]] l IH]; intros memd http; cbn [resolve_hosts csa_port csa_host].
  - split_and!; [by rewrite app_nil_r..|constructor].
  - destruct (Z.eqb_spec p DEFAULT_LEGACY_HTTP_PORT) as [Hp|Hp].
    { split; [|by eexists]. apply Exists_cons_hd. exists p. auto. }
    destruct (negb explicit && negb (p =? dport)) eqn:Hd.
    { split; [|by eexists]. apply Exists_cons_hd. exists p. destruct explicit; [done|].
      destruct (Z.eqb_spec p dport); [done|]. auto. }
    specialize (IH (memd ++ [mkConnAddress host p]) http).
    destruct (resolve_hosts _ _ _ l _ _) as [[m h]|e|].
    + destruct IH as (-> & -> & Hall). rewrite <- app_assoc. split_and!; [done|done|]. constructor; [|done].
      intros (q & [= <-] & [Hq|[-> Hq]]); [done|]. by destruct (Z.eqb_spec p dport).
    + destruct IH as [He Hm]. split; [by apply Exists_cons_tl|done].
    + done.
  - destruct (default_ports ssl) as [mp hp] eqn:Hports.
    specialize (IH (memd ++ [mkConnAddress host mp]) (http ++ [mkConnAddress host hp])).
    destruct (resolve_hosts _ _ _ l _ _) as [[m h]|e|].
    + destruct IH as (-> & -> & Hall). rewrite <- !app_assoc. split_and!.
      * cbn. unfold memd_of at 2. by rewrite Hports.
      * unfold http_of. rewrite filter_cons_True by done. cbn. by rewrite Hports.
      * constructor; [|done]. by intros (q & [=] & _).
    + destruct IH as [He Hm]. split; [by apply Exists_cons_tl|done].
    + done.
Qed.

(** The hosts, or this machine when there are none. *)
Definition hosts_or_local (self : ConnSpec) : list ConnSpecAddress :=
  match hosts self with [] => [mkConnSpecAddress (str_bytes "127.0.0.1") None] | l => l end.

(** Where the addresses of a resolved string come from: the answer of the lookup, or the hosts. *)
Definition addresses_from (ip : list Z → bool) (lookup : option DnsConfig → list Z → string + list (list Z * Z))
    (dns : option DnsConfig) (self : ConnSpec) (explicit : bool) (dport : Z) (ssl : bool) (r : ResolvedConnSpec) : Prop :=
  use_ssl r = ssl ∧ couchbase2_host r = None ∧ resolved_options r = options self
  ∧ match srv_record_used r with
    | Some record => srv_record ip self = Some record ∧ http_hosts r = []
        ∧ lookup_srv lookup (srv_scheme record) (srv_proto record) (srv_host record) dns = Ok (memd_hosts r)
    | None => memd_hosts r = (memd_of ssl <$> hosts_or_local self) ∧ http_hosts r = http_of ssl (hosts_or_local self)
        ∧ Forall (λ h, ¬ refused_port explicit dport h) (hosts self)
        ∧ ∀ record, srv_record ip self = Some record →
            ∃ e, lookup_srv lookup (srv_scheme record) (srv_proto record) (srv_host record) dns = Err e
    end.

Lemma resolve_with_cases ip lookup self dns dport explicit ssl :
  match resolve_with ip lookup self dns dport explicit ssl with
  | Ok r => addresses_from ip lookup dns self explicit dport ssl r
  | Err e => Exists (refused_port explicit dport) (hosts self)
      ∧ ∃ msg, e = ConnStrError.mkError (ConnStrError.InvalidArgument msg "port")
  | Panic => False
  end.
Proof.
  unfold resolve_with. set (by_hosts := match hosts self with [] => _ | _ => _ end).
  assert (match by_hosts with
    | Ok r => use_ssl r = ssl ∧ couchbase2_host r = None ∧ resolved_options r = options self ∧ srv_record_used r = None
        ∧ memd_hosts r = (memd_of ssl <$> hosts_or_local self) ∧ http_hosts r = http_of ssl (hosts_or_local self)
        ∧ Forall (λ h, ¬ refused_port explicit dport h) (hosts self)
    | Err e => Exists (refused_port explicit dport) (hosts self)
        ∧ ∃ msg, e = ConnStrError.mkError (ConnStrError.InvalidArgument msg "port")
    | Panic => False
    end) as K.
  { subst by_hosts. pose proof (resolve_hosts_cases ssl explicit dport (hosts self) [] []) as K. unfold hosts_or_local.
    destruct (hosts self) as [|h l] eqn:Hh; [by destruct ssl|].
    destruct (resolve_hosts _ _ _ _ _ _) as [[m ht]|e|]; [|done..]. by destruct K as (-> & -> & K). }
  clearbody by_hosts. destruct (srv_record ip self) as [record|] eqn:Hrec.
  - destruct (lookup_srv _ _ _ _ _) as [addrs|e|] eqn:Hl; [done| |].
    + destruct by_hosts as [r|e'|]; [|done..]. destruct K as (? & ? & ? & Hn & ? & ? & ?). unfold addresses_from.
      rewrite Hn. split_and!; [done..|]. intros record' Hr. rewrite Hrec in Hr. injection Hr as <-. by exists e.
    + exfalso. revert Hl. unfold lookup_srv. by destruct (lookup _ _).
  - destruct by_hosts as [r|e'|]; [|done..]. destruct K as (? & ? & ? & Hn & ? & ? & ?). unfold addresses_from.
    rewrite Hn. split_and!; [done..|]. intros record' Hr. congruence.
Qed.

(** What a connection string resolves to.  With couchbase://, couchbases:// or no scheme the
    addresses are those of the DNS record when there is one to look up and the lookup succeeds;
    otherwise they are the hosts in their order, with their own port or the default one of the
    scheme, and the management addresses are those of the hosts without a port; with no host it is
    this machine.  A port is refused when it is the management port, or when there is no scheme
    to tell what it is for.  couchbase2:// has at most one host, and any other scheme is refused. *)
Lemma resolve_spec ip lookup self dns :
  let known s := match scheme self with Some x => x = str_bytes s | None => False end in
  match resolve ip lookup self dns with
  | Ok r =>
      known "couchbase" ∧ addresses_from ip lookup dns self true DEFAULT_MEMD_PORT false r
      ∨ known "couchbases" ∧ addresses_from ip lookup dns self true DEFAULT_SSL_MEMD_PORT true r
      ∨ (scheme self = None ∨ scheme self = Some []) ∧ addresses_from ip lookup dns self false DEFAULT_MEMD_PORT false r
      ∨ known "couchbase2" ∧ (length (hosts self) <= 1)%nat
          ∧ r = mkResolvedConnSpec true [] []
                  ((λ h, mkConnAddress (csa_host h) (default DEFAULT_COUCHBASE2_PORT (csa_port h)))
                   <$> head (hosts_or_local self)) None (options self)
  | Err e => (∃ msg arg, e = ConnStrError.mkError (ConnStrError.InvalidArgument msg arg))
      ∧ ((known "couchbase" ∨ known "couchbases") ∧ Exists (refused_port true 0) (hosts self)
         ∨ (scheme self = None ∨ scheme self = Some []) ∧ Exists (refused_port false DEFAULT_MEMD_PORT) (hosts self)
         ∨ known "couchbase2" ∧ (2 <= length (hosts self))%nat
         ∨ ∃ s, scheme self = Some s ∧ s ∉ [[]; str_bytes "couchbase"; str_bytes "couchbases"; str_bytes "couchbase2"])
  | Panic => False
  end.
Proof.
  intros known.
  assert (∀ d, Exists (refused_port true d) (hosts self) → Exists (refused_port true 0) (hosts self)) as Hd.
  { intros d He. eapply list.Exists_impl; [exact He|]. intros h (p & Hp & [Hq|[Hq _]]); [|done]. exists p. auto. }
  unfold resolve. destruct (scheme self) as [s|] eqn:Hs; unfold known.
  2:{ pose proof (resolve_with_cases ip lookup self dns DEFAULT_MEMD_PORT false false) as K.
    destruct (resolve_with _ _ _ _ _ _ _) as [r|e|]; [right; right; left; split; [by left|done]| |done].
      destruct K as [He [msg ->]]. split; [by do 2 eexists|]. right. left. auto. }
  case_bool_decide as H1.
  { pose proof (resolve_with_cases ip lookup self dns DEFAULT_MEMD_PORT true false) as K.
    destruct (resolve_with _ _ _ _ _ _ _) as [r|e|]; [left; by split| |done].
    destruct K as [He [msg ->]]. split; [by do 2 eexists|]. left. split; [auto|by eapply Hd]. }
  case_bool_decide as H2.
  { pose proof (resolve_with_cases ip lookup self dns DEFAULT_SSL_MEMD_PORT true true) as K.
    destruct (resolve_with _ _ _ _ _ _ _) as [r|e|]; [right; left; by split| |done].
    destruct K as [He [msg ->]]. split; [by do 2 eexists|]. left. split; [auto|by eapply Hd]. }
  case_bool_decide as H3.
  { unfold handle_couchbase2_scheme, hosts_or_local. destruct (hosts self) as [|h [|h2 l]].
    - right. right. right. split_and!; [done|cbn; lia|done].
    - right. right. right. split_and!; [done|cbn; lia|done].
    - split; [by do 2 eexists|]. right. right. left. split; [done|]. cbn. lia. }
  case_bool_decide as H4.
  { pose proof (resolve_with_cases ip lookup self dns DEFAULT_MEMD_PORT false false) as K. subst s.
    destruct (resolve_with _ _ _ _ _ _ _) as [r|e|]; [right; right; left; split; [by right|done]| |done].
    destruct K as [He [msg ->]]. split; [by do 2 eexists|]. right. left. auto. }
  split; [by do 2 eexists|]. right. right. right. exists s. split; [done|]. set_solver.
Qed.

(** ** Witnesses and examples *)

(** A reader of form data without encoded characters. *)
Fixpoint split_pair (l : list Z) : list Z * list Z :=
  match l with
  | [] => ([], [])
  | c :: l => if c =? EQUALS then ([], l) else prod_map (cons c) id (split_pair l)
  end.

Definition plain_form (l : list Z) : list (list Z * list Z) :=
  match l with [] => [] | _ => split_pair <$> split_on AMPERSAND l end.

Lemma split_pair_text k v : plain_text k → split_pair (pair_text (k, v)) = (k, v).
Proof.
  intros Hk. unfold pair_text. cbn [fst snd]. induction Hk as [|c k Hc Hk IH]; [done|].
  cbn [app split_pair]. destruct (Z.eqb_spec c EQUALS) as [->|_]; [set_solver|]. by rewrite IH.
Qed.

Lemma plain_form_reads : form_reads plain_form.
Proof.
  intros pairs Hp. destruct (decide (pairs = [])) as [->|Hne]; [done|]. unfold plain_form.
  destruct (join_with AMPERSAND (pair_text <$> pairs)) as [|x l] eqn:Hj; [by apply pairs_text_nonempty in Hj|].
  rewrite <- Hj. clear x l Hj. rewrite split_join.
  - rewrite <- list_fmap_compose. rewrite <- (list_fmap_id pairs) at 2. apply list_fmap_ext. intros i [k v] Hi.
    eapply list.Forall_lookup_1 in Hp; [|exact Hi]. destruct Hp as [Hk _]. cbn. by apply split_pair_text.
  - intros Hn%fmap_nil_inv. done.
  - apply list.Forall_fmap. eapply list.Forall_impl; [exact Hp|]. intros [k v] [Hk Hv]. cbn. unfold pair_text. cbn.
    intros [Hin|Hin]%elem_of_app.
    + eapply (proj1 (list.Forall_forall _ _)) in Hk; [|exact Hin]. set_solver.
    + apply elem_of_cons in Hin as [|Hin]; [lia|]. eapply (proj1 (list.Forall_forall _ _)) in Hv; [|exact Hin]. set_solver.
Qed.

Abbreviation sample_captures := (λ (_ : string) s, fst <$> search parts_regex s).
Abbreviation sample_iter := (λ (_ : string) s, search_all host_regex s).

Definition sample_spec : ConnSpec :=
  mkConnSpec (Some (str_bytes "couchbases"))
    [mkConnSpecAddress (str_bytes "a.example.com") (Some 11207); mkConnSpecAddress (str_bytes "[::1]") None]
    {[ str_bytes "network" := [str_bytes "external"; str_bytes "auto"] ]}.

Lemma conn_str_roundtrip_witness :
  display (map_to_list (options sample_spec)) sample_spec
    = str_bytes "couchbases://a.example.com:11207,[::1]?network=external&network=auto"
  ∧ parse sample_captures sample_iter plain_form (display (map_to_list (options sample_spec)) sample_spec) = Ok sample_spec.
Proof.
  split; [vm_compute; reflexivity|]. apply conn_str_roundtrip.
  - split; reflexivity.
  - apply plain_form_reads.
  - split_and!.
    + intros s [= <-]. vm_compute. set_solver by lia.
    + apply list.Forall_cons_2; [|apply list.Forall_cons_2; [|constructor]]; split.
      * left. split_and!; [done| |done]. refine (bool_decide_unpack _ _). vm_compute. exact I.
      * intros p [= <-]. unfold fits. lia.
      * right. exists (str_bytes "::1"). split_and!; [done|done|]. refine (bool_decide_unpack _ _). vm_compute. exact I.
      * intros p [=].
    + done.
    + refine (bool_decide_unpack _ _). vm_compute. exact I.
Defined.

(** The scheme is what stands before the last separator, also one in an option. *)
Example scheme_takes_options :
  scheme <$> (match parse sample_captures sample_iter plain_form (str_bytes "couchbase://h?proxy=http://p") with
              | Ok s => Some s | _ => None end)
  = Some (Some (str_bytes "couchbase://h?proxy=http")).
Proof. vm_compute. reflexivity. Qed.

(** Options are printed as they are: a value with an ampersand is read back as two options. *)
Example options_are_not_encoded :
  let spec := mkConnSpec None [] {[ str_bytes "a" := [str_bytes "1&b=2"] ]} in
  parse sample_captures sample_iter plain_form (display (map_to_list (options spec)) spec)
  = Ok (mkConnSpec None [] (<[str_bytes "a" := [str_bytes "1"]]> {[ str_bytes "b" := [str_bytes "2"] ]})).
Proof. vm_compute. reflexivity. Qed.
